(* ===== verification/_CoqProject ===== *)
-Q . S2P
Prelude.v
Machine.v
CMem.v
CString.v
Palloc.v
PgTbl.v
Elf.v
VMem.v
Uvm.v
CStdlib.v
Fmt.v
Ide.v
Loader.v
Disk.v
BCache.v
Block.v
Inode.v
Dir.v
Mkfs.v
Locks.v
Segments.v
Process.v
ProcSpec.v
Switch.v
Pipe.v
Files.v
Fork.v
Exec.v
Syscall.v
OpenFiles.v
Ps2.v
Pic.v
Uart.v
Vga.v
Print.v
Console.v
Sh.v
Melon.v
Sched.v
ExecSpec.v
Trap.v
Boot.v
Kmain.v
