(* ===== verification/Prelude.v ===== *)
(** * melonOS: a verification library

    melonOS is a small Unix for i386 in C: a kernel (src/kernel), a freestanding
    C library (src/lib), user programs (src/melon, src/melib) and a host tool
    that makes the disk image (src/mkfs). This library models the code as
    functions on explicit states and proves what the parts promise to each
    other. Each file is a component; the comment at its top names the code.

    ** How the code is modelled

    A C operation is a function of the monad [M St A] below: from a state it
    gives a result and a new state ([Ok]), or it calls [panic] ([Panic]), or it
    touches memory that is not its own ([Fault]), or it uses its fuel up
    ([Hang]). [wp m s Q] says that [m] {e returns} from [s] with [Q]; a theorem
    in this form excludes panics, faults and endless loops. [wlp] says the same
    of the runs that return, and is used for invariants only. Integers are [Z]
    with the wrap-around of their width written out ([u8] ... [s32]). Memory
    (CMem) is a finite map from addresses to bytes. A pointer to an element of a
    table is its index, [NULL] is -1 there and 0 for addresses. A structure is
    a record, and where only its layout matters (disk inodes, page entries,
    descriptors, directory entries) it has an encoding and a decoding.

    Hardware is a class: [Ports] has the I/O instructions; [AtaDrive], [Serial],
    [Lines], [DebugLine], [Controller] and [Pics] state what the data sheets promise,
    and each has a concrete device as an instance, on which the witnesses run; the
    devices have ports of their own. Addresses that the linker chooses
    are classes of constants ([KernelLayout], [KernelText], [ConsoleText],
    [BootLayout], [FsLocks]). Layers meet in classes too: [BlockStore] is what
    block.c, inode.c and dir.c know of the buffer cache (BCache has the instance),
    [PipeMem] the memory that pipes lie in, [HasFs] and [HasPic] where the file system
    and the interrupt controllers lie in the kernel, [InodeDrop] what file.c needs of inode.c, [Sys] and [Calls] the
    system calls that the shell and the first program make; the record [Dev] has the
    functions of a device. The strings and buffers that a process passes lie in a
    memory of their own ([txt] of a [DState]): it stands for what the process sees
    through its page table, and is not derived from the physical memory.

    ** The parts

    - Memory: Machine (i386/mem.h, mmu.h: addresses and page entries), CMem, CString
      (lib/string.c), Palloc (memory/palloc.c), PgTbl (memory/pgtbl.c), VMem
      (memory/vmem.c), Uvm (what vmem.c does with an address space). The free list of
      palloc is an abstract set of pages ([palloc_refines]); page tables are read as
      the MMU does ([translate]), mapping and unmapping change exactly the given
      range, and a copied address space shares nothing with the original.
    - C library: CStdlib (ctype.c, stdlib.c), Fmt (fmt.c), Print (kernel/print.c,
      debug.c, err.c): number scanning is the inverse of the notation, [format]
      prints what a parsed format says, on every device ([format_sim]).
    - Disk: Ide (driver/ide.c), Disk (fs/disk.c), BCache (fs/bcache.c), Block
      (fs/block.c), Inode (fs/inode.c, mutex.c), Dir (fs/dir.c), Mkfs (mkfs/mkfs.c). A change
      of a block goes through cache, queue and driver to the medium; the map
      of free blocks is a set; a write to a file changes exactly its range, and a
      read gives it back; a lookup finds the first entry with a name. Mkfs makes
      an image that the kernel's own [dir_abspath] and [inode_read] read back
      ([mkfs_kernel_opens]): the two programs agree on the format.
    - Processes: Locks (trap/ncli.c, spinlock.c), Segments (memory/gdt.c,
      trap/idt.c), Process (process.c), ProcSpec (their triples), Switch (code that gives the CPU
      up in the middle), Pipe (pipe.c, the table of file.c), Fork (a new process and
      its memory), Sched (the kernel as a step relation). A function that calls
      [sched] is cut at the call of [swtch]; [step] interleaves what the scheduler,
      the running process and interrupts may do, and [inv] is an invariant of all
      reachable states: one process runs, every process has a living parent, no
      wake-up of a parent is lost. In Switch an operation is a tree of sections; a
      pipe is a queue whatever the other processes do between two sections, and no
      wake-up is lost but that of a write which gives up.
    - Files and programs: Files (fs.c: [fs_create]; file.c), Elf (lib/elf.h), Exec and
      ExecSpec (exec.c), Syscall (sys/syscall.c), OpenFiles (system calls on an image
      of Mkfs). What a program reads through open and read are the bytes that mkfs was
      given; exec gives the process the memory that file and arguments describe.
    - Devices: Ps2 (ps2.c, kbd.c), Pic (pic.c), Uart (uart.c), Vga (vga.c, lib/ansi.c),
      Console (dev/console.c): typed bytes to lines, interrupt lines, bounds of the screen.
    - The whole kernel: Trap (trap.c, dev.c: every entry to the kernel, over the state
      of all parts), Loader (boot/boot.c: the kernel file to its addresses), Boot
      ([fs_init] of fs.c, [disk_init] of disk.c), Kmain (kmain.c: from static storage to the scheduler; the
      state it reaches has the invariants of Sched, Palloc, Uvm and OpenFiles).
    - User programs: Sh (melon/sh.c and [putc] of melib): a typed line is
      parsed to the tree of its grammar. Melon (melib/melon.c, melon/init.c): the
      first program gives the shell its descriptors and waits for it.

    ** Bounds and fuel

    A [while] or [for] loop is [loop] with fuel. Where the code has a bound, the fuel is
    that bound and one round to leave (table sizes, [NPROC], string lengths,
    pages of a range); strings end within the memory that is mapped, which
    bounds the scans. A busy loop on a device has [patience] polls, which the
    class of the device says are enough. A process that waits for others has a
    number of rounds as an argument: each round ends with a switch, and the
    theorems hold for every number. In Melon the number of processes that are left
    to init before the shell ends is bounded by an argument of the class.

    ** Not modelled

    - bootld.s, entry.s, swtch.s, trapasm.s, init1.s, syscalls.s: assembly; the models
      start from the states that it leaves, and [swtch] is where a function is cut.
    - The messages that other parts print on their way (perror, dprintf, debug): the
      routines are in Print, the calls are left out. [panic] is the outcome [Panic].
    - Register loads (lgdt, lidt, ltr) have no effect; cr3 and the flags are fields
      of the CPU; the caches of the MMU are not modelled.
    - dump_cmd of the shell and report of mkfs, which only print; melon/ls.c, whose
      main is empty. *)
From stdpp Require Export base gmap list numbers strings.
From Stdlib Require Export ZArith Lia.
Open Scope Z_scope.
Coercion Z.of_nat : nat >-> Z.

(** ** Machine integers

    A w-bit C integer is a [Z]; the conversion functions write the
    wrap-around out. [i386] has 8-bit signed [char], 32-bit [int], [long],
    [unsigned], [size_t] and pointers. *)

Definition u8 (z : Z) : Z := z mod 256.
Definition u16 (z : Z) : Z := z mod 65536.
Definition u32 (z : Z) : Z := z mod 4294967296.
Definition s8 (z : Z) : Z := (z + 128) mod 256 - 128.
Definition s32 (z : Z) : Z := (z + 2147483648) mod 4294967296 - 2147483648.

(** ** The outcome of a kernel operation

    [Ok a s]: the operation returns [a] and leaves the state [s].
    [Panic msg]: [panic(msg)] was called; the kernel stops for good.
    [Fault]: an access outside every object the operation may touch.
    [Hang]: the fuel given to a loop is used up. *)
Inductive result (St A : Type) : Type :=
| Ok (a : A) (s : St)
| Panic (msg : string)
| Fault
| Hang.
Arguments Ok {St A} a s.
Arguments Panic {St A} msg.
Arguments Fault {St A}.
Arguments Hang {St A}.

Definition M (St A : Type) : Type := St → result St A.

Definition ret {St A} (a : A) : M St A := λ s, Ok a s.

Definition bind {St A B} (m : M St A) (f : A → M St B) : M St B := λ s,
  match m s with
  | Ok a s' => f a s'
  | Panic msg => Panic msg
  | Fault => Fault
  | Hang => Hang
  end.

Definition panic {St A} (msg : string) : M St A := λ _, Panic msg.

Definition fault {St A} : M St A := λ _, Fault.

Definition hang {St A} : M St A := λ _, Hang.

Definition gets {St A} (f : St → A) : M St A := λ s, Ok (f s) s.

Definition modify {St} (f : St → St) : M St unit := λ s, Ok tt (f s).

(** A value that the code dereferences: its absence is a fault. *)
Definition need {St A} (o : option A) : M St A :=
  match o with Some a => ret a | None => fault end.

(** Run an operation on a part of the state. *)
Definition zoom {St T A} (get : St → T) (put : T → St → St) (m : M T A) : M St A := λ s,
  match m (get s) with
  | Ok a t => Ok a (put t s)
  | Panic msg => Panic msg
  | Fault => Fault
  | Hang => Hang
  end.

Declare Scope melon_scope.
Delimit Scope melon_scope with melon.
Notation "'let!' x ':=' m 'in' k" := (bind m (λ x, k))
  (at level 10, x name, m at level 100, k at level 200) : melon_scope.
Notation "'let!' ' p ':=' m 'in' k" := (bind m (λ p, k))
  (at level 10, p pattern, m at level 100, k at level 200) : melon_scope.
Notation "'do!' m 'in' k" := (bind m (λ _, k))
  (at level 10, m at level 100, k at level 200) : melon_scope.
Notation "'done!'" := (ret tt) (at level 0) : melon_scope.
Open Scope melon_scope.

(** A C loop: [inl a] goes round again with the loop variables [a], [inr b]
    leaves it with [b]. *)
Fixpoint loop {St A B} (fuel : nat) (body : A → M St (A + B)) (a : A) : M St B :=
  match fuel with
  | O => hang
  | S fuel =>
      let! r := body a in
      match r with
      | inl a' => loop fuel body a'
      | inr b => ret b
      end
  end.

(** Total correctness: the operation returns, and the postcondition holds. *)
Definition wp {St A} (m : M St A) (s : St) (Q : A → St → Prop) : Prop :=
  match m s with Ok a s' => Q a s' | _ => False end.

(** Partial correctness: if the operation returns, the postcondition holds. *)
Definition wlp {St A} (m : M St A) (s : St) (Q : A → St → Prop) : Prop :=
  match m s with Ok a s' => Q a s' | _ => True end.

(** ** Little-endian bytes *)

Fixpoint le_bytes (n : nat) (z : Z) : list Z :=
  match n with
  | O => []
  | S n => z mod 256 :: le_bytes n (z / 256)
  end.

Fixpoint le_num (l : list Z) : Z :=
  match l with
  | [] => 0
  | b :: l => b + 256 * le_num l
  end.

Definition is_byte (z : Z) : Prop := 0 ≤ z < 256.

Definition zlen {A} (l : list A) : Z := Z.of_nat (length l).

(** The [n] elements of an array from index [i] on. *)
Definition slice {A} (i n : nat) (l : list A) : list A := take n (drop i l).

(** Overwrite a part of an array; the length never changes. *)
Definition splice {A} (i : nat) (d l : list A) : list A :=
  take i l ++ d ++ drop (i + length d) l.

(** The longest prefix whose elements satisfy [f]. *)
Fixpoint take_while (f : Z → bool) (l : list Z) : list Z :=
  match l with
  | [] => []
  | x :: l => if f x then x :: take_while f l else []
  end.

(** ** Rules of the monad *)

Section rules.
Context {St : Type}.
Implicit Types (s : St).

Lemma wp_ret {A} (a : A) s Q : wp (ret a) s Q = Q a s.
Proof. reflexivity. Qed.

Lemma wp_bind {A B} (m : M St A) (f : A → M St B) s Q :
  wp (bind m f) s Q = wp m s (λ a s', wp (f a) s' Q).
Proof. unfold wp, bind. by destruct (m s). Qed.

Lemma wp_gets {A} (f : St → A) s Q : wp (gets f) s Q = Q (f s) s.
Proof. reflexivity. Qed.

Lemma wp_modify (f : St → St) s Q : wp (modify f) s Q = Q tt (f s).
Proof. reflexivity. Qed.

Lemma wp_need {A} (o : option A) (a : A) s (Q : A → St → Prop) :
  o = Some a → Q a s → wp (need o) s Q.
Proof. by intros -> ?. Qed.

Lemma wp_mono {A} (m : M St A) s (Q R : A → St → Prop) :
  wp m s Q → (∀ a s', Q a s' → R a s') → wp m s R.
Proof. unfold wp. destruct (m s); eauto. Qed.

Lemma wp_run {A} (m : M St A) s Q : wp m s Q ↔ ∃ a s', m s = Ok a s' ∧ Q a s'.
Proof. unfold wp. destruct (m s); naive_solver. Qed.

Lemma wp_ok {A} (m : M St A) s a s' (Q : A → St → Prop) :
  m s = Ok a s' → Q a s' → wp m s Q.
Proof. unfold wp. by intros ->. Qed.

Lemma wp_eq {A} (m : M St A) s a s' : wp m s (λ a1 s1, a1 = a ∧ s1 = s') → m s = Ok a s'.
Proof. unfold wp. destruct (m s); naive_solver. Qed.

Lemma wp_zoom {T A} (get : St → T) (put : T → St → St) (m : M T A) s Q :
  wp (zoom get put m) s Q = wp m (get s) (λ a t, Q a (put t s)).
Proof. unfold wp, zoom. by destruct (m (get s)). Qed.

Lemma wlp_wp {A} (m : M St A) s Q : wp m s Q → wlp m s Q.
Proof. unfold wp, wlp. by destruct (m s). Qed.

Lemma wlp_bind {A B} (m : M St A) (f : A → M St B) s Q :
  wlp (bind m f) s Q = wlp m s (λ a s', wlp (f a) s' Q).
Proof. unfold wlp, bind. by destruct (m s). Qed.

Lemma wlp_mono {A} (m : M St A) s (Q R : A → St → Prop) :
  wlp m s Q → (∀ a s', Q a s' → R a s') → wlp m s R.
Proof. unfold wlp. destruct (m s); eauto. Qed.

Lemma wlp_run {A} (m : M St A) s Q :
  wlp m s Q ↔ ∀ a s', m s = Ok a s' → Q a s'.
Proof. unfold wlp. destruct (m s); naive_solver. Qed.

Lemma bind_ok {A B} (m : M St A) (f : A → M St B) s a s' :
  m s = Ok a s' → bind m f s = f a s'.
Proof. unfold bind. by intros ->. Qed.

Lemma bind_panic {A B} (m : M St A) (f : A → M St B) s msg :
  m s = Panic msg → bind m f s = Panic msg.
Proof. unfold bind. by intros ->. Qed.

Lemma wp_loop_S {A B} (body : A → M St (A + B)) fuel a s Q :
  wp (loop (S fuel) body a) s Q =
  wp (body a) s (λ r s', match r with inl a' => wp (loop fuel body a') s' Q | inr b => Q b s' end).
Proof. cbn [loop]. unfold wp, bind. destruct (body a s) as [[]| | |]; done. Qed.

(** Loops with an invariant and a measure that decreases on every round. *)
Lemma wp_loop {A B} (I : A → St → Prop) (meas : A → St → nat)
    (body : A → M St (A + B)) fuel a s Q :
  (∀ a s, I a s →
    wp (body a) s (λ r s', match r with
                            | inl a' => I a' s' ∧ (meas a' s' < meas a s)%nat
                            | inr b => Q b s'
                            end)) →
  I a s → (meas a s < fuel)%nat → wp (loop fuel body a) s Q.
Proof.
  intros Hbody. revert a s. induction fuel as [|fuel IH]; intros a s HI Hm; [lia|].
  cbn [loop]. rewrite wp_bind. eapply wp_mono; [by apply Hbody|].
  intros [a'|b] s'; [|done]. intros [? ?]. apply IH; [done|lia].
Qed.

(** Loops with an invariant only: what holds if the loop is left. *)
Lemma wlp_loop {A B} (I : A → St → Prop) (body : A → M St (A + B)) fuel a s Q :
  (∀ a s, I a s →
    wlp (body a) s (λ r s', match r with inl a' => I a' s' | inr b => Q b s' end)) →
  I a s → wlp (loop fuel body a) s Q.
Proof.
  intros Hbody. revert a s. induction fuel as [|fuel IH]; intros a s HI; [done|].
  cbn [loop]. rewrite wlp_bind. eapply wlp_mono; [by apply Hbody|].
  intros [a'|b] s'; [apply IH|done].
Qed.

End rules.

Create HintDb wp.
#[export] Hint Rewrite @wp_ret @wp_bind @wp_gets @wp_modify @wp_zoom : wp.

(** Symbolic execution of straight-line code in a [wp] goal. *)
Ltac wp_step := autorewrite with wp; cbn beta iota.
Ltac wp_steps := repeat (progress wp_step).

(** Replace the call at the head of a [wp] goal by its specification. *)
Ltac wp_apply H := eapply wp_mono; [eapply H|cbn beta].

(** ** Lemmas on machine integers *)

Lemma u32_small z : 0 ≤ z < 4294967296 → u32 z = z.
Proof. apply Z.mod_small. Qed.

Lemma u32_range z : 0 ≤ u32 z < 4294967296.
Proof. apply Z.mod_pos_bound. lia. Qed.

Lemma u8_range z : is_byte (u8 z).
Proof. apply Z.mod_pos_bound. lia. Qed.

Lemma u8_small z : is_byte z → u8 z = z.
Proof. apply Z.mod_small. Qed.

Lemma s8_range z : -128 ≤ s8 z < 128.
Proof. unfold s8. pose proof (Z.mod_pos_bound (z + 128) 256). lia. Qed.

Lemma s8_u8 z : u8 (s8 z) = u8 z.
Proof. unfold s8, u8. Z.div_mod_to_equations. lia. Qed.

Lemma s8_inj a b : is_byte a → is_byte b → s8 a = s8 b → a = b.
Proof. unfold s8, is_byte. intros. Z.div_mod_to_equations. lia. Qed.

Lemma s8_byte b : is_byte b → s8 b = if decide (b < 128) then b else b - 256.
Proof. unfold s8, is_byte. intros. case_decide; Z.div_mod_to_equations; lia. Qed.

Lemma s8_zero b : is_byte b → s8 b = 0 ↔ b = 0.
Proof. intros. rewrite s8_byte by done. unfold is_byte in *. case_decide; lia. Qed.

Lemma s32_small z : -2147483648 ≤ z < 2147483648 → s32 z = z.
Proof. unfold s32. intros. rewrite Z.mod_small; lia. Qed.

Create HintDb machine.
#[export] Hint Resolve u32_range u8_range : machine.
#[export] Hint Rewrite u32_small s32_small u8_small using (unfold is_byte in *; lia) : machine.

(** ** Lemmas on bytes *)

Lemma length_le_bytes n z : length (le_bytes n z) = n.
Proof. revert z. induction n; cbn; auto. Qed.

Lemma le_bytes_bytes n z : Forall is_byte (le_bytes n z).
Proof.
  revert z. induction n; intros z; cbn; constructor; [|done].
  apply Z.mod_pos_bound. lia.
Qed.

Lemma le_num_bytes n z : le_num (le_bytes n z) = z mod 256 ^ Z.of_nat n.
Proof.
  revert z. induction n as [|n IH]; intros z; cbn [le_bytes le_num].
  - by rewrite Z.mod_1_r.
  - rewrite IH, Nat2Z.inj_succ, Z.pow_succ_r by lia.
    symmetry. apply Z.rem_mul_r; lia.
Qed.

Lemma le_num_word v : 0 ≤ v < 4294967296 → le_num (le_bytes 4 v) = v.
Proof. intros Hv. rewrite le_num_bytes. by apply Z.mod_small. Qed.

Lemma le_bytes_num l : Forall is_byte l → le_bytes (length l) (le_num l) = l.
Proof.
  induction 1 as [|b l Hb _ IH]; cbn [length le_num le_bytes]; [done|].
  unfold is_byte in Hb.
  replace ((b + 256 * le_num l) mod 256) with b by (Z.div_mod_to_equations; lia).
  replace ((b + 256 * le_num l) / 256) with (le_num l) by (Z.div_mod_to_equations; lia).
  by rewrite IH.
Qed.

Lemma le_num_range l : Forall is_byte l → 0 ≤ le_num l < 256 ^ zlen l.
Proof.
  unfold zlen. induction 1 as [|b l Hb _ IH]; [cbn; lia|].
  cbn [le_num length]. rewrite Nat2Z.inj_succ, Z.pow_succ_r by lia.
  unfold is_byte in Hb. lia.
Qed.

(** ** Lemmas on arrays *)

Section arrays.
Context {A : Type}.
Implicit Types (l d : list A).

Lemma length_slice i n l : (i + n ≤ length l)%nat → length (slice i n l) = n.
Proof. unfold slice. rewrite length_take, length_drop. lia. Qed.

Lemma length_splice i d l :
  (i + length d ≤ length l)%nat → length (splice i d l) = length l.
Proof. unfold splice. rewrite !length_app, length_take, length_drop. lia. Qed.

Lemma lookup_slice i n j l : (j < n)%nat → slice i n l !! j = l !! (i + j)%nat.
Proof. intros. unfold slice. rewrite lookup_take_lt by lia. apply lookup_drop. Qed.

Lemma lookup_splice i d l j :
  (i + length d ≤ length l)%nat →
  splice i d l !! j =
    if decide (i ≤ j < i + length d)%nat then d !! (j - i)%nat else l !! j.
Proof.
  intros Hi. unfold splice.
  assert (length (take i l) = i) as Ht by (rewrite length_take; lia).
  case_decide as Hj.
  - rewrite lookup_app_r by lia. rewrite lookup_app_l by lia. by rewrite Ht.
  - destruct (decide (j < i)%nat).
    + rewrite lookup_app_l by lia. by apply lookup_take_lt.
    + rewrite lookup_app_r, lookup_app_r by lia. rewrite lookup_drop. f_equal. lia.
Qed.

Lemma slice_splice_same i d l :
  (i + length d ≤ length l)%nat → slice i (length d) (splice i d l) = d.
Proof.
  intros Hi. apply list_eq. intros j. destruct (decide (j < length d)%nat).
  - rewrite lookup_slice by done. rewrite lookup_splice by done.
    rewrite decide_True by lia. f_equal. lia.
  - rewrite !lookup_ge_None_2; [done|lia|].
    rewrite length_slice; [lia|]. rewrite length_splice; lia.
Qed.

Lemma slice_splice_disjoint i d j n l :
  (i + length d ≤ length l)%nat → (j + n ≤ i ∨ i + length d ≤ j)%nat →
  slice j n (splice i d l) = slice j n l.
Proof.
  intros Hi Hd. apply list_eq. intros k. destruct (decide (k < n)%nat).
  - rewrite !lookup_slice, lookup_splice by done. rewrite decide_False; [done|lia].
  - rewrite !lookup_ge_None_2; [done|unfold slice; rewrite length_take; lia..].
Qed.

Lemma splice_slice i n l : (i + n ≤ length l)%nat → splice i (slice i n l) l = l.
Proof.
  intros Hi. apply list_eq. intros j.
  rewrite lookup_splice by (rewrite length_slice; lia).
  rewrite length_slice by lia. case_decide; [|done].
  rewrite lookup_slice by lia. f_equal. lia.
Qed.

Lemma splice_cons i x d l :
  (S i + length d ≤ length l)%nat → splice (i + 1) d (<[i := x]> l) = splice i (x :: d) l.
Proof.
  intros Hi. apply list_eq. intros j.
  rewrite !lookup_splice by (rewrite ?length_insert; cbn [length]; lia). cbn [length].
  destruct (decide (j = i)) as [->|Hne].
  - rewrite decide_False, decide_True by lia. rewrite list_lookup_insert_eq by lia. by rewrite Nat.sub_diag.
  - rewrite list_lookup_insert_ne by done. repeat case_decide; try lia; [|done].
    by replace (j - i)%nat with (S (j - (i + 1))) by lia.
Qed.

Lemma insert_splice_one i x l : (i < length l)%nat → <[i := x]> l = splice i [x] l.
Proof.
  intros Hi. rewrite <- splice_cons by (cbn; lia). unfold splice. cbn [app length].
  by rewrite Nat.add_0_r, take_drop.
Qed.

Lemma elem_head (x : A) l : x ∈ x :: l.
Proof. constructor. Qed.

Lemma elem_tail (x y : A) l : x ∈ l → x ∈ y :: l.
Proof. by constructor. Qed.

Lemma Forall_splice (P : A → Prop) i d l :
  Forall P d → Forall P l → Forall P (splice i d l).
Proof. intros. unfold splice. auto using Forall_app_2, Forall_take, Forall_drop. Qed.

Lemma Forall_slice (P : A → Prop) i n l : Forall P l → Forall P (slice i n l).
Proof. intros. unfold slice. auto using Forall_take, Forall_drop. Qed.

End arrays.

(** ** Prefixes *)

Lemma take_while_length f (l : list Z) : (length (take_while f l) ≤ length l)%nat.
Proof. induction l as [|x l IH]; cbn; [lia|]. destruct (f x); cbn; lia. Qed.

Lemma take_while_app f (k r : list Z) :
  Forall (λ x, f x = true) k → take_while f (k ++ r) = k ++ take_while f r.
Proof. induction 1 as [|x k Hx _ IH]; cbn; [done|]. by rewrite Hx, IH. Qed.

(** ** Ring buffers

    What an array [d] of [sz] slots holds between two free-running counters *)
Definition ring {A} `{Inhabited A} (sz : Z) (d : list A) (h t : Z) : list A :=
  (λ i : nat, default inhabitant (d !! Z.to_nat ((h + i) mod sz))) <$> seq 0 (Z.to_nat (t - h)).

Section ring.
Context {A : Type} `{Inhabited A} (sz : Z) (Hsz : 0 < sz).
Implicit Types (d : list A).

Lemma length_ring d h t : h ≤ t → zlen (ring sz d h t) = t - h.
Proof. intros. unfold zlen, ring. rewrite length_fmap, length_seq. lia. Qed.

Lemma ring_empty d h t : t ≤ h → ring sz d h t = [].
Proof. intros. unfold ring. by replace (Z.to_nat (t - h)) with 0%nat by lia. Qed.

Lemma ring_slot d i : zlen d = sz → is_Some (d !! Z.to_nat (i mod sz)).
Proof.
  intros Hl. apply lookup_lt_is_Some. pose proof (Z.mod_pos_bound i sz Hsz). unfold zlen in Hl. lia.
Qed.

Lemma ring_pop d h t :
  zlen d = sz → h < t → ∃ b,
  d !! Z.to_nat (h mod sz) = Some b ∧ ring sz d h t = b :: ring sz d (h + 1) t.
Proof.
  intros Hl Hlt. destruct (ring_slot d h Hl) as [b Hb]. exists b. split; [done|]. unfold ring.
  replace (Z.to_nat (t - h)) with (S (Z.to_nat (t - (h + 1)))) by lia.
  cbn [seq]. rewrite fmap_cons. f_equal.
  - by rewrite Z.add_0_r, Hb.
  - rewrite <- fmap_S_seq, <- list_fmap_compose. apply list_fmap_ext. intros i j _. cbn.
    do 4 f_equal. lia.
Qed.

(** Storing at the slot of [t] appends, as long as there is a free slot. *)
Lemma ring_push d b h t :
  zlen d = sz → h ≤ t < h + sz →
  ring sz (<[Z.to_nat (t mod sz) := b]> d) h (t + 1) = ring sz d h t ++ [b].
Proof.
  intros Hl Ht. unfold ring.
  replace (Z.to_nat (t + 1 - h)) with (Z.to_nat (t - h) + 1)%nat by lia.
  rewrite seq_app, fmap_app. cbn [seq fmap list_fmap]. f_equal.
  - apply list_fmap_ext. intros i j Hj. apply lookup_seq in Hj as [-> Hj].
    rewrite list_lookup_insert_ne; [done|]. intros Heq.
    assert (t mod sz = (h + (0 + i)%nat) mod sz) as Hm
      by (pose proof (Z.mod_pos_bound t sz Hsz); pose proof (Z.mod_pos_bound (h + (0 + i)%nat) sz Hsz); lia).
    clear Heq. assert (0 < t - (h + (0 + i)%nat) < sz) as Hd by lia.
    pose proof (Z.div_mod t sz ltac:(lia)) as H1. pose proof (Z.div_mod (h + (0 + i)%nat) sz ltac:(lia)) as H2.
    rewrite Hm in H1. assert (t - (h + (0 + i)%nat) = sz * (t / sz - (h + (0 + i)%nat) / sz)) as He by lia.
    destruct (Z.le_gt_cases (t / sz - (h + (0 + i)%nat) / sz) 0); nia.
  - f_equal. replace (h + (0 + Z.to_nat (t - h))%nat) with t by lia.
    rewrite list_lookup_insert_eq; [done|].
    pose proof (Z.mod_pos_bound t sz Hsz). unfold zlen in Hl. lia.
Qed.
End ring.

#[export] Hint Rewrite @length_slice @length_splice using lia : arrays.
#[export] Hint Resolve Forall_splice Forall_slice le_bytes_bytes : arrays.

#[global] Arguments le_bytes : simpl never.
#[global] Arguments le_num : simpl never.
