(* ===== verification/Machine.v ===== *)
(** * i386/mem.h, i386/mmu.h, i386/defs.h: addresses, page entries, limits *)
From S2P Require Import Prelude.

(** ** i386/mem.h *)

Definition EXTMEM : Z := 0x100000.
Definition PHYSTOP : Z := 0x20000000.
Definition DEV_SPACE : Z := 0xFE000000.
Definition KERN_BASE : Z := 0x80000000.
Definition KERN_LINK : Z := KERN_BASE + EXTMEM.
Definition PAGE_SZ : Z := 0x1000.

(** [KA2P] and [KA2P_C], [P2KA] and [P2KA_C]: 32-bit subtraction and addition *)
Definition KA2P (addr : Z) : Z := u32 (addr - KERN_BASE).

Definition P2KA (addr : Z) : Z := u32 (addr + KERN_BASE).

(** ** i386/mmu.h *)

Definition NPDES : Z := 1024.
Definition NPTES : Z := 1024.

Definition PTE_P : Z := 0x01.
Definition PTE_W : Z := 0x02.
Definition PTE_U : Z := 0x04.
Definition PTE_D : Z := 0x20.
Definition PDE_P : Z := PTE_P.
Definition PDE_W : Z := PTE_W.
Definition PDE_U : Z := PTE_U.

Definition PT_IDX_SHIFT : Z := 12.
Definition PD_IDX_SHIFT : Z := 22.

Definition vaddr_offset (vaddr : Z) : Z := Z.land vaddr 0xfff.

Definition page_directory_idx (vaddr : Z) : Z := Z.land (Z.shiftr vaddr PD_IDX_SHIFT) 0x3FF.

Definition page_table_idx (vaddr : Z) : Z := Z.land (Z.shiftr vaddr PT_IDX_SHIFT) 0x3FF.

(** The parameter is an [int], the result a [uintptr_t]. *)
Definition page_alignup (sz : Z) : Z :=
  u32 (Z.land (s32 (s32 sz + PAGE_SZ - 1)) (Z.lnot (PAGE_SZ - 1))).

Definition page_aligndown (addr : Z) : Z := Z.land addr (Z.lnot (PAGE_SZ - 1)).

Definition pte_addr (pte : Z) : Z := Z.land pte (Z.lnot 0xFFF).

Definition pte_flags (pte : Z) : Z := Z.land pte 0xFFF.

Definition page_addr (pde pte offset : Z) : Z :=
  u32 (Z.lor (Z.lor (Z.shiftl pde PD_IDX_SHIFT) (Z.shiftl pte PT_IDX_SHIFT)) offset).

(** ** i386/defs.h *)

Definition KSTACK_SZ : Z := 4096.
Definition MAXARGS : Z := 32.
Definition SECSZ : Z := 512.
Definition SUPERBLKNO : Z := 0.
Definition BSIZE : Z := SECSZ.
Definition NBLKS : Z := 1000.
Definition NDEV : Z := 32.
Definition NFILE : Z := 128.
Definition NINODES : Z := 128.
Definition NOPBLKS : Z := 512.
Definition NBUF : Z := NOPBLKS * 5.
Definition DIRNAMESZ : Z := 24.
Definition PATH_MAX : Z := 1024.
Definition ROOTDEV : Z := 1.
Definition ROOTINO : Z := 1.
Definition NDIRECT : Z := 12.
Definition NINDIRECT1 : Z := BSIZE / 4.
Definition NINOBLKS : Z := NDIRECT + 1.
Definition MAXFILEBLKS : Z := NDIRECT + NINDIRECT1.
Definition MAXFILE : Z := MAXFILEBLKS * BSIZE.
Definition NPROC : Z := 64.
Definition NOFILE : Z := 32.

(** ** Lemmas *)

Definition page_aligned (a : Z) : Prop := a mod 4096 = 0.

Lemma land_lnot_4095 a : Z.land a (Z.lnot 4095) = 4096 * (a / 4096).
Proof.
  change 4095 with (Z.ones 12). rewrite <- Z.ldiff_land, Z.ldiff_ones_r by lia.
  rewrite Z.shiftl_mul_pow2, Z.shiftr_div_pow2 by lia. change (2 ^ 12) with 4096. lia.
Qed.

Lemma page_aligndown_eq a : page_aligndown a = 4096 * (a / 4096).
Proof. apply land_lnot_4095. Qed.

Lemma pte_addr_eq a : pte_addr a = 4096 * (a / 4096).
Proof. apply land_lnot_4095. Qed.

Lemma pte_flags_eq a : pte_flags a = a mod 4096.
Proof. unfold pte_flags. change 0xFFF with (Z.ones 12). by rewrite Z.land_ones. Qed.

Lemma page_alignup_eq sz :
  0 ≤ sz ≤ 4294963200 → page_alignup sz = 4096 * ((sz + 4095) / 4096).
Proof.
  intros. unfold page_alignup, PAGE_SZ. rewrite land_lnot_4095.
  unfold s32, u32. Z.div_mod_to_equations. lia.
Qed.

Lemma page_directory_idx_eq va : page_directory_idx va = va / 4194304 mod 1024.
Proof.
  unfold page_directory_idx. change 0x3FF with (Z.ones 10).
  by rewrite Z.land_ones, Z.shiftr_div_pow2.
Qed.

Lemma page_table_idx_eq va : page_table_idx va = va / 4096 mod 1024.
Proof.
  unfold page_table_idx. change 0x3FF with (Z.ones 10).
  by rewrite Z.land_ones, Z.shiftr_div_pow2.
Qed.

(** The address and the flags of an entry do not overlap. *)
Lemma lor_flags a f : page_aligned a → 0 ≤ f < 4096 → Z.lor a f = a + f.
Proof.
  unfold page_aligned. intros Ha Hf. rewrite <- Z.lxor_lor, <- Z.add_nocarry_lxor; [done|..].
  all: apply Z.bits_inj'; intros i Hi; rewrite Z.land_spec, Z.bits_0.
  all: destruct (Z.lt_ge_cases i 12).
  1,3: assert (Z.testbit a i = false) as ->; [|done].
  1,2: replace a with (Z.shiftl (a / 4096) 12)
         by (rewrite Z.shiftl_mul_pow2 by lia; change (2 ^ 12) with 4096; Z.div_mod_to_equations; lia);
       apply Z.shiftl_spec_low; lia.
  all: assert (Z.testbit f i = false) as ->; [|by rewrite andb_false_r].
  all: rewrite <- (Z.mod_small f (2 ^ 12)) by (cbn; lia); apply Z.mod_pow2_bits_high; lia.
Qed.

Lemma flags_lor f g : 0 ≤ f < 4096 → 0 ≤ g < 4096 → 0 ≤ Z.lor f g < 4096.
Proof.
  intros Hf Hg. enough (Z.lor f g mod 2 ^ 12 = Z.lor f g) as <- by (apply Z.mod_pos_bound; done).
  rewrite <- Z.land_ones, Z.land_lor_distr_l, !Z.land_ones by lia.
  by rewrite !Z.mod_small.
Qed.

(** The entry that [map_pages] stores *)
Lemma entry_range pa pm :
  page_aligned pa → 0 ≤ pa < 4294967296 → 0 ≤ pm < 4096 →
  let e := Z.lor (Z.lor pa PTE_P) pm in
  0 ≤ e < 4294967296 ∧ pte_addr e = pa ∧ pte_flags e = Z.lor PTE_P pm.
Proof.
  intros Ha Hp Hm. cbn zeta. rewrite <- Z.lor_assoc.
  pose proof (flags_lor PTE_P pm ltac:(done) Hm) as Hf.
  rewrite lor_flags by done. rewrite pte_addr_eq, pte_flags_eq.
  unfold page_aligned in Ha. split_and!; Z.div_mod_to_equations; lia.
Qed.

Lemma pte_addr_lor a f : page_aligned a → 0 ≤ f < 4096 → pte_addr (Z.lor a f) = a.
Proof.
  intros Ha Hf. rewrite lor_flags by done. rewrite pte_addr_eq.
  unfold page_aligned in Ha. Z.div_mod_to_equations. lia.
Qed.

Lemma pte_flags_lor a f : page_aligned a → 0 ≤ f < 4096 → pte_flags (Z.lor a f) = f.
Proof.
  intros Ha Hf. rewrite lor_flags by done. rewrite pte_flags_eq.
  unfold page_aligned in Ha. Z.div_mod_to_equations. lia.
Qed.

(** The present bit of a word is the parity. *)
Lemma land_present a : Z.land a PTE_P = a mod 2.
Proof. unfold PTE_P. change 1 with (Z.ones 1). by rewrite Z.land_ones. Qed.

Lemma KA2P_small a : KERN_BASE ≤ a < 4294967296 → KA2P a = a - KERN_BASE.
Proof. unfold KA2P, KERN_BASE. intros. apply u32_small. lia. Qed.

Lemma P2KA_small a : 0 ≤ a < KERN_BASE → P2KA a = a + KERN_BASE.
Proof. unfold P2KA, KERN_BASE. intros. apply u32_small. lia. Qed.

(** A virtual page is determined by its two indices. *)
Lemma page_indices_inj a b :
  0 ≤ a < 4294967296 → 0 ≤ b < 4294967296 →
  page_directory_idx a = page_directory_idx b →
  page_table_idx a = page_table_idx b →
  a / 4096 = b / 4096.
Proof.
  rewrite !page_directory_idx_eq, !page_table_idx_eq. intros. Z.div_mod_to_equations. lia.
Qed.

Create HintDb addr.
#[export] Hint Rewrite page_aligndown_eq pte_addr_eq pte_flags_eq
  page_directory_idx_eq page_table_idx_eq land_present : addr.
