(* ===== verification/CMem.v ===== *)
(** * Byte-addressed C memory

    The objects a routine may touch are the mapped addresses of a finite map
    from addresses to bytes; a pointer is an address. A read or write outside
    the map is a [Fault]. Pointer arithmetic stays inside an object, so it is
    the arithmetic of [Z]; the pages of physical memory, which the kernel
    reaches through its direct map, are mapped in the same way. *)
From S2P Require Import Prelude.

Abbreviation mem := (gmap Z Z).

(** [*(unsigned char * )p] *)
Definition load (p : Z) : M mem Z := λ m,
  match m !! p with Some b => Ok b m | None => Fault end.

(** [*p] for [char *p]: [char] is signed on i386. *)
Definition loadc (p : Z) : M mem Z := let! b := load p in ret (s8 b).

(** [*p = v] for [char *p] *)
Definition store (p v : Z) : M mem unit := λ m,
  match m !! p with Some _ => Ok tt (<[p := u8 v]> m) | None => Fault end.

(** [*(uint32_t * )p], little endian *)
Definition load32 (p : Z) : M mem Z :=
  let! b0 := load p in
  let! b1 := load (p + 1) in
  let! b2 := load (p + 2) in
  let! b3 := load (p + 3) in
  ret (le_num [b0; b1; b2; b3]).

(** [*(uint32_t * )p = v] *)
Definition store32 (p v : Z) : M mem unit :=
  do! store p v in
  do! store (p + 1) (v / 256) in
  do! store (p + 2) (v / 65536) in
  store (p + 3) (v / 16777216).

(** The bytes [l] are stored from [p] on. *)
Fixpoint store_bytes (p : Z) (l : list Z) : M mem unit :=
  match l with [] => done! | b :: l => do! store p b in store_bytes (p + 1) l end.

Fixpoint load_bytes (p : Z) (n : nat) : M mem (list Z) :=
  match n with
  | O => ret []
  | S n => let! b := load p in let! l := load_bytes (p + 1) n in ret (b :: l)
  end.

(** Fuel for a loop that visits a new mapped address on every round: it leaves
    or faults before it has visited them all. *)
Definition bounded {A} (k : nat → M mem A) : M mem A := λ m, k (S (size m)) m.

(** A local array of the caller's stack frame, at an address above every
    object; it is gone when the routine returns. *)
Definition stack_top (m : mem) : Z := 1 + map_fold (λ p _ top, Z.max p top) 0 m.

Fixpoint alloc_bytes (p : Z) (l : list Z) (m : mem) : mem :=
  match l with
  | [] => m
  | b :: l => <[p := b]> (alloc_bytes (p + 1) l m)
  end.

Fixpoint free_bytes (p : Z) (n : nat) (m : mem) : mem :=
  match n with
  | O => m
  | S n => delete p (free_bytes (p + 1) n m)
  end.

Definition with_local {A} (l : list Z) (k : Z → M mem A) : M mem A := λ m,
  let p := stack_top m in
  match k p (alloc_bytes p l m) with
  | Ok a m' => Ok a (free_bytes p (length l) m')
  | r => r
  end.

(** The same for a routine whose state has the memory as a part *)
Definition local_in {S A} (get : S → mem) (put : mem → S → S) (l : list Z) (k : Z → M S A) : M S A := λ s,
  let p := stack_top (get s) in
  match k p (put (alloc_bytes p l (get s)) s) with
  | Ok a s' => Ok a (put (free_bytes p (length l) (get s')) s')
  | r => r
  end.

(** ** Descriptions of memory *)

(** The bytes [l] are stored from [p] on. *)
Definition array (m : mem) (p : Z) (l : list Z) : Prop :=
  ∀ (i : nat) b, l !! i = Some b → m !! (p + Z.of_nat i) = Some b.

(** [n] bytes are mapped from [p] on. *)
Definition mapped (m : mem) (p : Z) (n : nat) : Prop :=
  ∀ i : nat, (i < n)%nat → is_Some (m !! (p + Z.of_nat i)).

(** A 4096-byte page is mapped at [p]. *)
Definition page_mapped (m : mem) (p : Z) : Prop :=
  ∀ a, p ≤ a < p + 4096 → is_Some (m !! a).

(** A NUL-terminated string with the characters [l]. *)
Definition cstr (m : mem) (p : Z) (l : list Z) : Prop :=
  array m p (l ++ [0]) ∧ Forall (λ b, 0 < b < 256) l.

(** The 32-bit word at [p]; unmapped bytes read as 0. *)
Definition peek (m : mem) (p : Z) : Z := default 0 (m !! p).

Definition word (m : mem) (p : Z) : Z :=
  le_num [peek m p; peek m (p + 1); peek m (p + 2); peek m (p + 3)].

#[global] Arguments word : simpl never.

(** The memory after the bytes [l] were written from [p] on. *)
Definition write (p : Z) (l : list Z) (m : mem) : mem := alloc_bytes p l m.

(** ** Lemmas *)

Lemma lookup_write p l m a :
  write p l m !! a =
    if decide (p ≤ a < p + zlen l) then l !! Z.to_nat (a - p) else m !! a.
Proof.
  unfold write, zlen. revert p. induction l as [|b l IH]; intros p; cbn [alloc_bytes length].
  - by rewrite decide_False by lia.
  - destruct (decide (a = p)) as [->|Ha].
    + rewrite lookup_insert_eq, decide_True by lia. by rewrite Z.sub_diag.
    + rewrite lookup_insert_ne by done. rewrite IH.
      destruct (decide (p + 1 ≤ a < p + 1 + length l)).
      * rewrite decide_True by lia.
        replace (Z.to_nat (a - p)) with (S (Z.to_nat (a - (p + 1)))) by lia. done.
      * by rewrite decide_False by lia.
Qed.

Lemma array_nil m p : array m p [].
Proof. intros i b. by rewrite lookup_nil. Qed.

Lemma array_cons m p b l : array m p (b :: l) ↔ m !! p = Some b ∧ array m (p + 1) l.
Proof.
  split.
  - intros H. split.
    + specialize (H 0%nat b eq_refl). by rewrite Z.add_0_r in H.
    + intros i c Hi. rewrite <- (H (S i) c Hi). f_equal. lia.
  - intros [Hb H] [|i] c Hi; cbn in Hi.
    + simplify_eq. by rewrite Z.add_0_r.
    + rewrite <- (H i c Hi). f_equal. lia.
Qed.

Lemma array_app m p l k : array m p (l ++ k) ↔ array m p l ∧ array m (p + zlen l) k.
Proof.
  unfold zlen. revert p. induction l as [|b l IH]; intros p; cbn [app length].
  - rewrite Z.add_0_r. naive_solver (apply array_nil).
  - rewrite !array_cons, IH. replace (p + 1 + length l) with (p + S (length l)) by lia.
    naive_solver.
Qed.

Lemma array_mapped m p l : array m p l → mapped m p (length l).
Proof. intros H i Hi. destruct (lookup_lt_is_Some_2 l i Hi) as [b Hb]. eauto. Qed.

Lemma array_write p l m : array (write p l m) p l.
Proof.
  intros i b Hi. pose proof (lookup_lt_Some _ _ _ Hi). rewrite lookup_write.
  rewrite decide_True by (unfold zlen; lia). rewrite <- Hi. f_equal. lia.
Qed.

(** A write inside the block that was written before *)
Lemma write_within p o d l m : 0 ≤ o → (Z.to_nat o + length d ≤ length l)%nat →
  write (p + o) d (write p l m) = write p (splice (Z.to_nat o) d l) m.
Proof.
  intros Ho Hd. apply map_eq. intros a. rewrite !lookup_write. unfold zlen. rewrite length_splice by done.
  destruct (decide (p ≤ a < p + length l)) as [Ha|Ha]; [|by rewrite decide_False by lia].
  rewrite lookup_splice by done. repeat case_decide; try lia; f_equal; lia.
Qed.

Lemma array_write_disjoint p l m q k :
  q + zlen k ≤ p ∨ p + zlen l ≤ q → array (write p l m) q k ↔ array m q k.
Proof.
  unfold zlen. intros Hd. unfold array. apply forall_proper. intros i. apply forall_proper. intros b.
  split; intros H Hi; specialize (H Hi); pose proof (lookup_lt_Some _ _ _ Hi);
    rewrite lookup_write in *; unfold zlen in *; [rewrite decide_False in H by lia|rewrite decide_False by lia]; done.
Qed.

Lemma mapped_write p l m q n : mapped m q n → mapped (write p l m) q n.
Proof.
  intros H i Hi. rewrite lookup_write. case_decide; [|by apply H].
  apply lookup_lt_is_Some_2. unfold zlen in *. lia.
Qed.

Lemma mapped_weaken m p n q k :
  mapped m p n → p ≤ q → q + Z.of_nat k ≤ p + Z.of_nat n → mapped m q k.
Proof.
  intros H ? ? i Hi. specialize (H (Z.to_nat (q - p) + i)%nat ltac:(lia)).
  by replace (p + (Z.to_nat (q - p) + i)%nat) with (q + i) in H by lia.
Qed.

Lemma page_mapped_range m p q n :
  page_mapped m p → p ≤ q → q + Z.of_nat n ≤ p + 4096 → mapped m q n.
Proof. intros H ? ? i Hi. apply H. lia. Qed.

Lemma page_mapped_write p l m q : page_mapped m q → page_mapped (write p l m) q.
Proof.
  intros H a Ha. rewrite lookup_write. case_decide; [|by apply H].
  apply lookup_lt_is_Some_2. unfold zlen in *. lia.
Qed.

Lemma mapped_one m p n q : mapped m p n → p ≤ q < p + Z.of_nat n → is_Some (m !! q).
Proof.
  intros H Hq. specialize (H (Z.to_nat (q - p)) ltac:(lia)).
  by replace (p + Z.to_nat (q - p)) with q in H by lia.
Qed.

Lemma write_nil p m : write p [] m = m.
Proof. done. Qed.

Lemma write_cons p b l m : write p (b :: l) m = write (p + 1) l (<[p := b]> m).
Proof.
  apply map_eq. intros a. rewrite lookup_write.
  change (<[p := b]> m) with (write p [b] m). rewrite !lookup_write.
  unfold zlen. cbn [length].
  destruct (decide (a = p)) as [->|].
  - rewrite decide_True, decide_False, decide_True by lia.
    by rewrite Z.sub_diag.
  - destruct (decide (p + 1 ≤ a < p + 1 + length l)).
    + rewrite decide_True by lia.
      by replace (Z.to_nat (a - p)) with (S (Z.to_nat (a - (p + 1)))) by lia.
    + by rewrite !decide_False by lia.
Qed.

Lemma write_step p b l m : write (p + 1) l (write p [b] m) = write p (b :: l) m.
Proof. by rewrite (write_cons p b l). Qed.

Lemma write_app p l k m : write p (l ++ k) m = write (p + zlen l) k (write p l m).
Proof.
  apply map_eq. intros a. rewrite !lookup_write. unfold zlen. rewrite length_app.
  destruct (decide (p + length l ≤ a < p + length l + length k)).
  - rewrite decide_True by lia. rewrite lookup_app_r by lia. f_equal. lia.
  - destruct (decide (p ≤ a < p + length l)).
    + rewrite decide_True by lia. apply lookup_app_l. lia.
    + by rewrite decide_False by lia.
Qed.

Lemma write_snoc p l b m q :
  q = p + zlen l → write q [b] (write p l m) = write p (l ++ [b]) m.
Proof. intros ->. by rewrite write_app. Qed.

(** Writing what is already there changes nothing. *)
Lemma write_id p l m : array m p l → write p l m = m.
Proof.
  intros H. apply map_eq. intros a. rewrite lookup_write. case_decide as Ha; [|done].
  unfold zlen in Ha. destruct (lookup_lt_is_Some_2 l (Z.to_nat (a - p))) as [b Hb]; [lia|].
  rewrite Hb. symmetry. rewrite <- (H _ _ Hb). f_equal. lia.
Qed.

(** The number of mapped addresses bounds the length of a mapped range. *)
Lemma mapped_size m p n : mapped m p n → (n ≤ size m)%nat.
Proof.
  revert m p. induction n as [|n IH]; intros m p H; [lia|].
  assert (is_Some (m !! p)) as [b Hb].
  { specialize (H 0%nat ltac:(lia)). by rewrite Z.add_0_r in H. }
  rewrite <- (insert_delete_id m p b Hb).
  rewrite map_size_insert_None by apply lookup_delete_eq.
  apply le_n_S, (IH _ (p + 1)). intros i Hi.
  rewrite lookup_delete_ne by lia. specialize (H (S i) ltac:(lia)).
  by replace (p + S i) with (p + 1 + i) in H by lia.
Qed.

Lemma bounded_eq {A} (k : nat → M mem A) m : bounded k m = k (S (size m)) m.
Proof. done. Qed.

Lemma wp_bounded {A} (k : nat → M mem A) m Q :
  wp (bounded k) m Q = wp (k (S (size m))) m Q.
Proof. done. Qed.
#[export] Hint Rewrite @wp_bounded : wp.

(** *** Single accesses *)

Lemma load_ok m p b : m !! p = Some b → load p m = Ok b m.
Proof. unfold load. by intros ->. Qed.

Lemma loadc_ok m p b : m !! p = Some b → loadc p m = Ok (s8 b) m.
Proof. intros H. unfold loadc. by rewrite (bind_ok _ _ _ _ _ (load_ok _ _ _ H)). Qed.

Lemma store_ok m p v : is_Some (m !! p) → store p v m = Ok tt (write p [u8 v] m).
Proof. unfold store. by intros [b ->]. Qed.

Lemma load32_ok m p l : array m p l → length l = 4%nat → load32 p m = Ok (le_num l) m.
Proof.
  intros H Hl. destruct l as [|b0 [|b1 [|b2 [|b3 [|]]]]]; try done.
  rewrite !array_cons in H. destruct H as (H0 & H1 & H2 & H3 & _).
  replace (p + 1 + 1) with (p + 2) in * by lia.
  replace (p + 2 + 1) with (p + 3) in * by lia.
  unfold load32.
  rewrite (bind_ok _ _ _ _ _ (load_ok _ _ _ H0)).
  rewrite (bind_ok _ _ _ _ _ (load_ok _ _ _ H1)).
  rewrite (bind_ok _ _ _ _ _ (load_ok _ _ _ H2)).
  by rewrite (bind_ok _ _ _ _ _ (load_ok _ _ _ H3)).
Qed.

Lemma store32_ok m p v : mapped m p 4 → store32 p v m = Ok tt (write p (le_bytes 4 v) m).
Proof.
  intros H. unfold store32.
  assert (∀ i, 0 ≤ i < 4 → is_Some (m !! (p + i))) as Hm.
  { intros i Hi. specialize (H (Z.to_nat i) ltac:(lia)). by rewrite Z2Nat.id in H by lia. }
  assert (∀ q l, is_Some (m !! q) → is_Some (write p l m !! q)) as Hw.
  { intros q l Hq. pose proof (mapped_write p l m q 1) as Hqm.
    specialize (Hqm ltac:(intros [|] ?; [by rewrite Z.add_0_r|lia]) 0%nat ltac:(lia)).
    by rewrite Z.add_0_r in Hqm. }
  erewrite bind_ok; [|apply store_ok; specialize (Hm 0); rewrite Z.add_0_r in Hm; apply Hm; lia].
  erewrite bind_ok; [|apply store_ok, Hw, Hm; lia].
  rewrite write_snoc by done.
  erewrite bind_ok; [|apply store_ok, Hw, Hm; lia].
  rewrite write_snoc by done.
  rewrite store_ok by (apply Hw, Hm; lia).
  rewrite write_snoc by done. unfold le_bytes, u8.
  rewrite !Z.div_div by lia. done.
Qed.

(** *** Words *)

Lemma peek_array m p n : mapped m p n → array m p ((λ i : nat, peek m (p + i)) <$> seq 0 n).
Proof.
  intros H i b Hi. apply list_lookup_fmap_Some in Hi as (j & -> & Hj).
  apply lookup_seq in Hj as [-> Hj]. destruct (H i Hj) as [c Hc].
  unfold peek. cbn. by rewrite Hc.
Qed.

Lemma load32_word m p : mapped m p 4 → load32 p m = Ok (word m p) m.
Proof.
  intros H%peek_array. rewrite (load32_ok m p _ H) by done. cbn. by rewrite Z.add_0_r.
Qed.

Lemma word_array m p l : array m p l → length l = 4%nat → word m p = le_num l.
Proof.
  intros H Hl. destruct l as [|b0 [|b1 [|b2 [|b3 [|]]]]]; try done.
  rewrite !array_cons in H. destruct H as (H0 & H1 & H2 & H3 & _).
  rewrite <- !Z.add_assoc in *. unfold word, peek.
  change (p + (1 + 1)) with (p + 2) in H2. change (p + (1 + (1 + 1))) with (p + 3) in H3.
  by rewrite H0, H1, H2, H3.
Qed.

Lemma word_write_same m p v : word (write p (le_bytes 4 v) m) p = u32 v.
Proof.
  rewrite (word_array _ _ (le_bytes 4 v)); [|apply array_write|done].
  by rewrite le_num_bytes.
Qed.

Lemma word_write_disjoint m p l q :
  q + 4 ≤ p ∨ p + zlen l ≤ q → word (write p l m) q = word m q.
Proof.
  intros H. unfold word, peek. by rewrite !lookup_write, !decide_False by lia.
Qed.

(** A word inside a block of zeros *)
Lemma word_write_zeros m p n q :
  p ≤ q → q + 4 ≤ p + Z.of_nat n → word (write p (replicate n 0) m) q = 0.
Proof.
  intros. rewrite (word_array _ _ (replicate 4 0)); [done| |done].
  intros i b Hi. apply lookup_replicate in Hi as [-> Hi].
  rewrite lookup_write. unfold zlen. rewrite length_replicate, decide_True by lia.
  apply lookup_replicate. split; [done|lia].
Qed.

(** *** Local arrays *)

Lemma stack_top_fresh m p b : m !! p = Some b → p < stack_top m.
Proof.
  intros Hp. unfold stack_top.
  enough (p ≤ map_fold (λ p _ top, Z.max p top) 0 m) by lia.
  revert Hp. apply (map_fold_weak_ind (λ r m, m !! p = Some b → p ≤ r)).
  - by rewrite lookup_empty.
  - intros i x m' r _ IH. destruct (decide (i = p)) as [->|].
    + intros _. lia.
    + rewrite lookup_insert_ne by done. intros H%IH. lia.
Qed.

Lemma stack_top_pos m : 0 < stack_top m.
Proof.
  unfold stack_top. enough (0 ≤ map_fold (λ p (_ : Z) top, Z.max p top) 0 m) by lia.
  apply (map_fold_weak_ind (λ r (_ : mem), 0 ≤ r)); lia.
Qed.

Lemma lookup_free_bytes p n m a :
  free_bytes p n m !! a = if decide (p ≤ a < p + Z.of_nat n) then None else m !! a.
Proof.
  revert p. induction n as [|n IH]; intros p; cbn [free_bytes].
  - by rewrite decide_False by lia.
  - destruct (decide (a = p)) as [->|].
    + rewrite lookup_delete_eq. by rewrite decide_True by lia.
    + rewrite lookup_delete_ne, IH by done.
      destruct (decide (p + 1 ≤ a < p + 1 + n)); [by rewrite decide_True by lia|].
      by rewrite decide_False by lia.
Qed.

(** A local array that is only read leaves no trace. *)
Lemma free_alloc_bytes m l :
  free_bytes (stack_top m) (length l) (write (stack_top m) l m) = m.
Proof.
  apply map_eq. intros a. rewrite lookup_free_bytes. case_decide as Ha.
  - destruct (m !! a) eqn:E; [|done]. apply stack_top_fresh in E. lia.
  - rewrite lookup_write, decide_False; [done|]. unfold zlen. lia.
Qed.

Create HintDb cmem.
#[export] Hint Resolve array_nil array_mapped array_write mapped_write page_mapped_write : cmem.

(** A local array is gone at the end, whatever was stored to it. *)
Lemma free_local p (l : list Z) m m' :
  p = stack_top m → (∀ a, ¬ p ≤ a < p + zlen l → m' !! a = m !! a) → free_bytes p (length l) m' = m.
Proof.
  intros -> H. apply map_eq. intros a. rewrite lookup_free_bytes. case_decide as Ha.
  - destruct (m !! a) eqn:E; [|done]. apply stack_top_fresh in E. lia.
  - apply H. unfold zlen. lia.
Qed.

Lemma wp_local_in {S A} (get : S → mem) (put : mem → S → S) l (k : Z → M S A) s Q :
  wp (k (stack_top (get s))) (put (write (stack_top (get s)) l (get s)) s)
    (λ a s', Q a (put (free_bytes (stack_top (get s)) (length l) (get s')) s')) →
  wp (local_in get put l k) s Q.
Proof. unfold wp, local_in, write. by destruct (k _ _). Qed.

(** *** Arrays of bytes, stored and loaded one by one *)

Lemma store_bytes_ok p l m : Forall is_byte l → mapped m p (length l) → store_bytes p l m = Ok tt (write p l m).
Proof.
  intros Hb. revert p m. induction Hb as [|b l Hb _ IH]; intros p m Hm; [done|]. cbn [store_bytes].
  rewrite (bind_ok _ _ _ _ _ (store_ok m p b (mapped_one _ _ _ p Hm ltac:(cbn; lia)))).
  rewrite IH.
  - by rewrite u8_small, write_step by done.
  - apply mapped_write. intros i Hi. replace (p + 1 + i) with (p + S i) by lia. apply Hm. cbn. lia.
Qed.

Lemma load_bytes_ok l : ∀ m p, array m p l → load_bytes p (length l) m = Ok l m.
Proof.
  induction l as [|b l IH]; intros m p Ha; [done|]. cbn [load_bytes length]. apply array_cons in Ha as [Hb Ha].
  rewrite (bind_ok _ _ _ _ _ (load_ok m p b Hb)). by rewrite (bind_ok _ _ _ _ _ (IH m (p + 1) Ha)).
Qed.
