(* ===== verification/CString.v ===== *)
(** * lib/string.c: memory blocks and NUL-terminated strings *)
From S2P Require Import Prelude CMem.

(** [while (n--) { if ( *s1 != *s2) return *s1 - *s2; s1++; s2++; } return 0;] *)
Fixpoint memcmp_loop (n : nat) (s1 s2 : Z) : M mem Z :=
  match n with
  | O => ret 0
  | S n =>
      let! a := loadc s1 in
      let! b := loadc s2 in
      if a =? b then memcmp_loop n (s1 + 1) (s2 + 1) else ret (a - b)
  end.

Definition memcmp (v1 v2 n : Z) : M mem Z := memcmp_loop (Z.to_nat n) v1 v2.

(** [while (n--) *d++ = *s++;] *)
Fixpoint copy_up (n : nat) (d s : Z) : M mem unit :=
  match n with
  | O => done!
  | S n => let! c := load s in do! store d c in copy_up n (d + 1) (s + 1)
  end.

(** [while (n--) *d-- = *s--;] *)
Fixpoint copy_down (n : nat) (d s : Z) : M mem unit :=
  match n with
  | O => done!
  | S n => let! c := load s in do! store d c in copy_down n (d - 1) (s - 1)
  end.

Definition memmove (dest src n : Z) : M mem Z :=
  do! (if (src <? dest) && (dest <? src + n)
       then copy_down (Z.to_nat n) (dest + n - 1) (src + n - 1)
       else copy_up (Z.to_nat n) dest src) in
  ret dest.

Definition memcpy (dest src n : Z) : M mem unit := copy_up (Z.to_nat n) dest src.

Fixpoint memset_loop (n : nat) (p v : Z) : M mem unit :=
  match n with
  | O => done!
  | S n => do! store p (Z.land (u8 v) 255) in memset_loop n (p + 1) v
  end.

Definition memset (tgt v n : Z) : M mem Z :=
  do! memset_loop (Z.to_nat n) tgt v in ret tgt.

Definition strlen (s : Z) : M mem Z := bounded (λ fuel,
  loop fuel (λ n,
    let! c := loadc (s + n) in
    if c =? 0 then ret (inr n) else ret (inl (n + 1))) 0).

(** [while (n > 0 && *s1 && *s2 && *s1 == *s2)]; then [0] or the difference *)
Fixpoint strncmp_loop (n : nat) (s1 s2 : Z) : M mem Z :=
  match n with
  | O => ret 0
  | S n =>
      let! a := loadc s1 in
      let! b := loadc s2 in
      if negb (a =? 0) && negb (b =? 0) && (a =? b)
      then strncmp_loop n (s1 + 1) (s2 + 1)
      else ret (a - b)
  end.

Definition strncmp (s1 s2 n : Z) : M mem Z := strncmp_loop (Z.to_nat n) s1 s2.

(** [while (--n) *d = 0;] for a [size_t n]: [n - 1] rounds, modulo 2^32, that
    all store to the same address *)
Definition pad_loop (n d : Z) : M mem unit := λ m,
  Z.iter (u32 (n - 1)) (λ r, match r with Ok _ m => store d 0 m | r => r end) (Ok tt m).

Fixpoint strncpy_loop (n : nat) (d s : Z) : M mem unit :=
  match n with
  | O => done!
  | S n =>
      let! c := load s in
      do! store d c in
      if c =? 0 then pad_loop n (d + 1) else strncpy_loop n (d + 1) (s + 1)
  end.

Definition strncpy (dest src n : Z) : M mem Z :=
  do! strncpy_loop (Z.to_nat n) dest src in ret dest.

Definition strrev (s : Z) : M mem Z :=
  let! len := strlen s in             (* while ( *e != 0) e++; *)
  do! bounded (λ fuel,
    loop fuel (λ '(b, e),
      if 1 <=? e - b then
        let! tmp := load b in
        let! c := load e in
        do! store b c in
        do! store e tmp in
        ret (inl (b + 1, e - 1))
      else ret (inr tt)) (s, s + len - 1)) in
  ret s.

(** The inner [for] over [accept]: does it leave by [break]? *)
Definition spn_match (s accept : Z) (c : bool) : M mem bool := bounded (λ fuel,
  loop fuel (λ a,
    let! x := loadc a in
    if x =? 0 then ret (inr false) else
    let! y := loadc s in
    if c && negb (y =? x) then ret (inr true)
    else if negb c && (y =? x) then ret (inr true)
    else ret (inl (a + 1))) accept).

Definition spn_helper (s accept : Z) (c : bool) : M mem Z :=
  let! a0 := loadc accept in
  if a0 =? 0 then ret 0 else
  bounded (λ fuel,
    loop fuel (λ n,
      let! y := loadc (s + n) in
      if y =? 0 then ret (inr n) else
      let! hit := spn_match (s + n) accept c in
      if hit then ret (inl (n + 1)) else ret (inr n)) 0).

Definition strspn (s accept : Z) : M mem Z := spn_helper s accept false.

Definition strcspn (s accept : Z) : M mem Z := spn_helper s accept true.

(** The result and the new value of [*saveptr]. *)
Definition strtok_r (str delim saveptr : Z) : M mem (Z * Z) :=
  let! d0 := loadc delim in
  if d0 =? 0 then ret (0, saveptr) else
  let! s := (if str =? 0 then ret saveptr
             else let! k := strspn str delim in ret (str + k)) in
  let! c := loadc s in
  if c =? 0 then ret (0, s) else
  let! k := strcspn s delim in
  let e := s + k in
  let! c := loadc e in
  if c =? 0 then ret (s, e) else
  do! store e 0 in
  ret (s, e + 1).

(** The [static char *old] of [strtok] is an argument and a result. *)
Definition strtok (str delim old : Z) : M mem (Z * Z) := strtok_r str delim old.

Definition strpbrk (s keys : Z) : M mem Z :=
  if s =? 0 then ret 0 else
  if keys =? 0 then ret 0 else
  bounded (λ fuel,
    loop fuel (λ s,
      let! c := loadc s in
      if c =? 0 then ret (inr 0) else
      let! hit := bounded (λ fuel,
        loop fuel (λ k,
          let! x := loadc k in
          if x =? 0 then ret (inr false)
          else if c =? x then ret (inr true) else ret (inl (k + 1))) keys) in
      if hit : bool then ret (inr s) else ret (inl (s + 1))) s).

(** [for (i = 0; i < n && src[i]; i++) p[i] = src[i];]; the final [i] *)
Fixpoint strncat_loop (n : nat) (p src i : Z) : M mem Z :=
  match n with
  | O => ret i
  | S n =>
      let! c := load (src + i) in
      if s8 c =? 0 then ret i else
      do! store (p + i) c in strncat_loop n p src (i + 1)
  end.

Definition strncat (dst src n : Z) : M mem Z :=
  let! len := strlen dst in           (* while ( *p != 0) p++; *)
  let p := dst + len in
  let! i := strncat_loop (Z.to_nat n) p src 0 in
  do! store (p + i) 0 in
  ret dst.

Definition strchr (s chr : Z) : M mem Z :=
  with_local [u8 chr; 0] (λ b, strpbrk s b).

(** ** Helpers for concrete strings *)

Definition bytes_of (s : string) : list Z :=
  (λ a, Z.of_N (Ascii.N_of_ascii a)) <$> String.list_ascii_of_string s.

Definition cstring (s : string) : list Z := bytes_of s ++ [0].

Definition test_mem : mem :=
  write 16 (cstring "apple,orange,banana") (write 48 (cstring ",") (write 64 (cstring "melon") ∅)).

(** The string at an address, for the tests. *)
Definition string_at (p : Z) : M mem (list Z) := λ m,
  match strlen p m with
  | Ok n m => Ok (omap (λ i, m !! (p + Z.of_nat i)) (seq 0 (Z.to_nat n))) m
  | Panic msg => Panic msg | Fault => Fault | Hang => Hang
  end.

Definition run {S A} (m : M S A) (s : S) : option A :=
  match m s with Ok a _ => Some a | _ => None end.

(** ** Specifications *)

(** The string held by a [char] array of [n] elements, terminated only if it
    is shorter than the array. *)
Definition strn (m : mem) (p : Z) (n : nat) (l : list Z) : Prop :=
  Forall (λ b, 0 < b < 256) l ∧ (length l ≤ n)%nat ∧ array m p l ∧
  ((length l < n)%nat → m !! (p + length l) = Some 0).

(** The bytes that [strncpy(dest, src, n)] stores for the string [l]. *)
Definition strncpy_image (n : nat) (l : list Z) : list Z :=
  if decide (n ≤ length l)%nat then take n l
  else if decide (n = length l + 2)%nat then l ++ [0] else l ++ [0; 0].

(** ** The cases of test/test_lib.py *)

Example test_strlen : run (strlen 64) test_mem = Some 5.
Proof. reflexivity. Qed.

Example test_strtok :
  run (let! '(a, old) := strtok 16 48 0 in
       let! '(b, old) := strtok 0 48 old in
       let! '(c, old) := strtok 0 48 old in
       let! '(d, old) := strtok 0 48 old in
       let! sa := string_at a in
       let! sb := string_at b in
       let! sc := string_at c in
       ret (sa, sb, sc, d)) test_mem
  = Some (bytes_of "apple", bytes_of "orange", bytes_of "banana", 0).
Proof. vm_compute. reflexivity. Qed.

Example test_strrev :
  run (let! s := strrev 64 in string_at s) test_mem = Some (bytes_of "nolem").
Proof. vm_compute. reflexivity. Qed.

Example test_strchr : run (strchr 64 108) test_mem = Some 66 ∧ run (strchr 64 122) test_mem = Some 0.
Proof. vm_compute. auto. Qed.

(** ** Lemmas *)

Lemma cstr_char m p l i : cstr m p l → (i < length l)%nat →
  ∃ b, l !! i = Some b ∧ 0 < b < 256 ∧ m !! (p + i) = Some b.
Proof.
  intros [Ha Hf] Hi. destruct (lookup_lt_is_Some_2 l i Hi) as [b Hb]. exists b.
  split; [done|]. split; [by eapply (Forall_lookup_1 _ _ _ _ Hf)|].
  apply Ha. by apply lookup_app_l_Some.
Qed.

Lemma cstr_end m p l : cstr m p l → m !! (p + length l) = Some 0.
Proof. intros [Ha _]. apply Ha. by rewrite list_lookup_middle. Qed.

Lemma cstr_size m p l : cstr m p l → (length l < size m)%nat.
Proof.
  intros [Ha _]. apply array_mapped, mapped_size in Ha.
  rewrite length_app in Ha. cbn in Ha. lia.
Qed.

Lemma cstr_array m p l : cstr m p l → array m p l.
Proof. intros [Ha _]. by apply array_app in Ha as [Ha _]. Qed.

Lemma cstr_cons m p b l : cstr m p (b :: l) ↔ m !! p = Some b ∧ 0 < b < 256 ∧ cstr m (p + 1) l.
Proof.
  unfold cstr. cbn [app]. rewrite array_cons, Forall_cons. naive_solver.
Qed.

Lemma cstr_app_r m p l k : cstr m p (l ++ k) → cstr m (p + zlen l) k.
Proof.
  unfold cstr. rewrite <- app_assoc, array_app, Forall_app. naive_solver.
Qed.

Lemma cstr_write m p l q k :
  q + zlen k ≤ p ∨ p + zlen l < q → cstr m p l → cstr (write q k m) p l.
Proof.
  intros Hd [Ha Hf]. split; [|done]. apply array_write_disjoint; [|done].
  unfold zlen in *. rewrite length_app. cbn. lia.
Qed.

Lemma char_s8 b : 0 < b < 256 → (s8 b =? 0) = false.
Proof. intros. apply Z.eqb_neq. rewrite s8_zero by (unfold is_byte; lia). lia. Qed.

Lemma Forall_char_byte l : Forall (λ b, 0 < b < 256) l → Forall is_byte l.
Proof. intros H. eapply Forall_impl; [done|]. unfold is_byte. cbn. lia. Qed.

Lemma strlen_ok m s l : cstr m s l → strlen s m = Ok (zlen l) m.
Proof.
  intros Hs. unfold strlen. rewrite bounded_eq. apply wp_eq.
  apply (wp_loop (λ n m', m' = m ∧ 0 ≤ n ≤ zlen l) (λ n _, Z.to_nat (zlen l - n))).
  - intros n m' [-> Hn]. rewrite wp_bind. unfold zlen in *.
    destruct (decide (n = length l)) as [->|Hne].
    + eapply wp_ok; [apply loadc_ok, (cstr_end _ _ _ Hs)|]. by cbn.
    + destruct (cstr_char m s l (Z.to_nat n) Hs ltac:(lia)) as (b & Hb & Hbr & Hm).
      rewrite Z2Nat.id in Hm by lia.
      eapply wp_ok; [by apply loadc_ok|]. rewrite char_s8 by done.
      cbn. split_and!; [done|lia..].
  - unfold zlen. auto with lia.
  - pose proof (cstr_size _ _ _ Hs). unfold zlen. lia.
Qed.

Lemma copy_up_ok m d s l :
  array m s l → mapped m d (length l) → Forall is_byte l → d ≤ s ∨ s + zlen l ≤ d →
  copy_up (length l) d s m = Ok tt (write d l m).
Proof.
  revert m d s. induction l as [|c l IH]; intros m d s Ha Hd Hb Ho; [done|].
  apply array_cons in Ha as [Hc Ha]. apply Forall_cons in Hb as [Hcb Hb].
  cbn [length copy_up]. rewrite (bind_ok _ _ _ _ _ (load_ok _ _ _ Hc)).
  rewrite (bind_ok _ _ _ tt (write d [c] m)).
  2:{ rewrite store_ok, u8_small; [done..|]. rewrite <- (Z.add_0_r d). apply (Hd 0%nat). cbn. lia. }
  rewrite IH; try done.
  - by rewrite write_step.
  - apply array_write_disjoint; [|done]. unfold zlen in *. cbn in *. lia.
  - apply mapped_write. eapply mapped_weaken; [done|cbn; lia..].
  - unfold zlen in *. cbn in *. lia.
Qed.

Lemma write_app_l p l k m : write p (l ++ k) m = write p l (write (p + zlen l) k m).
Proof.
  apply map_eq. intros a. rewrite !lookup_write. unfold zlen. rewrite length_app.
  destruct (decide (p ≤ a < p + length l)).
  - rewrite decide_True by lia. apply lookup_app_l. lia.
  - destruct (decide (p + length l ≤ a < p + length l + length k)).
    + rewrite decide_True by lia. rewrite lookup_app_r by lia. f_equal. lia.
    + by rewrite decide_False by lia.
Qed.

Lemma copy_down_ok m d s l :
  array m s l → mapped m d (length l) → Forall is_byte l → s ≤ d →
  copy_down (length l) (d + zlen l - 1) (s + zlen l - 1) m = Ok tt (write d l m).
Proof.
  revert m. induction l as [|c l IH] using rev_ind; intros m Ha Hd Hb Ho; [done|].
  apply array_app in Ha as [Ha Hc]. apply array_cons in Hc as [Hc _].
  apply Forall_app in Hb as [Hb [Hcb _]%Forall_cons].
  unfold zlen in *. rewrite length_app in *. cbn [length] in *.
  replace (length l + 1)%nat with (S (length l)) in * by lia.
  replace (d + S (length l) - 1) with (d + length l) by lia.
  replace (s + S (length l) - 1) with (s + length l) by lia.
  cbn [copy_down]. rewrite (bind_ok _ _ _ _ _ (load_ok _ _ _ Hc)).
  rewrite (bind_ok _ _ _ tt (write (d + length l) [c] m)).
  2:{ rewrite store_ok, u8_small; [done..|]. apply Hd. lia. }
  rewrite IH; try done.
  - rewrite write_app_l. done.
  - apply array_write_disjoint; [|done]. unfold zlen. cbn. lia.
  - apply mapped_write. eapply mapped_weaken; [done|lia..].
Qed.

(** Whatever the overlap of the two blocks is. *)
Lemma memmove_ok m d s l :
  array m s l → mapped m d (length l) → Forall is_byte l →
  memmove d s (zlen l) m = Ok d (write d l m).
Proof.
  intros Ha Hd Hb. unfold memmove. apply wp_eq. rewrite wp_bind.
  unfold zlen in *. rewrite Nat2Z.id.
  destruct ((s <? d) && (d <? s + length l)) eqn:E.
  - eapply wp_ok; [apply copy_down_ok; [done..|lia]|]. by rewrite wp_ret.
  - eapply wp_ok; [apply copy_up_ok; [done..|unfold zlen; lia]|]. by rewrite wp_ret.
Qed.

Lemma memset_loop_ok m p v n :
  mapped m p n → memset_loop n p v m = Ok tt (write p (replicate n (u8 v)) m).
Proof.
  revert m p. induction n as [|n IH]; intros m p Hm; [done|]. cbn [memset_loop replicate].
  assert (Z.land (u8 v) 255 = u8 v) as ->.
  { change 255 with (Z.ones 8). rewrite Z.land_ones by lia.
    apply Z.mod_small, u8_range. }
  rewrite (bind_ok _ _ _ tt (write p [u8 v] m)).
  2:{ rewrite store_ok, (u8_small (u8 v)); [done|apply u8_range|].
      rewrite <- (Z.add_0_r p). apply (Hm 0%nat). lia. }
  rewrite IH; [by rewrite write_step|]. apply mapped_write.
  eapply mapped_weaken; [done|lia..].
Qed.

Lemma memset_ok m p v n :
  0 ≤ n → mapped m p (Z.to_nat n) →
  memset p v n m = Ok p (write p (replicate (Z.to_nat n) (u8 v)) m).
Proof.
  intros _ Hm. unfold memset. by rewrite (bind_ok _ _ _ _ _ (memset_loop_ok _ _ v _ Hm)).
Qed.

Lemma strncmp_loop_ok n m s1 s2 a b :
  strn m s1 n a → strn m s2 n b →
  ∃ r, strncmp_loop n s1 s2 m = Ok r m ∧ (r = 0 ↔ a = b).
Proof.
  revert s1 s2 a b. induction n as [|n IH]; intros s1 s2 a b (Ha & Hla & Hma & H0a) (Hb & Hlb & Hmb & H0b).
  { destruct a, b; cbn in *; try lia. by exists 0. }
  assert (∃ x, m !! s1 = Some x ∧ is_byte x ∧
    match a with [] => x = 0 | c :: _ => x = c ∧ 0 < c < 256 end) as (x & Hx & Hxb & Hxa).
  { destruct a as [|c a].
    - exists 0. cbn in H0a. rewrite Z.add_0_r in H0a. unfold is_byte. auto with lia.
    - apply array_cons in Hma as [? _]. apply Forall_cons in Ha as [? _].
      exists c. unfold is_byte. auto with lia. }
  assert (∃ y, m !! s2 = Some y ∧ is_byte y ∧
    match b with [] => y = 0 | c :: _ => y = c ∧ 0 < c < 256 end) as (y & Hy & Hyb & Hyb').
  { destruct b as [|c b].
    - exists 0. cbn in H0b. rewrite Z.add_0_r in H0b. unfold is_byte. auto with lia.
    - apply array_cons in Hmb as [? _]. apply Forall_cons in Hb as [? _].
      exists c. unfold is_byte. auto with lia. }
  cbn [strncmp_loop]. rewrite (bind_ok _ _ _ _ _ (loadc_ok _ _ _ Hx)).
  rewrite (bind_ok _ _ _ _ _ (loadc_ok _ _ _ Hy)).
  destruct (negb (s8 x =? 0) && negb (s8 y =? 0) && (s8 x =? s8 y)) eqn:E.
  - apply andb_prop in E as [[E1 E2]%andb_prop E3].
    apply negb_true_iff, Z.eqb_neq in E1, E2. apply Z.eqb_eq, s8_inj in E3; [|done..].
    rewrite s8_zero in E1, E2 by done. subst y.
    destruct a as [|c a]; [lia|]. destruct b as [|c' b]; [lia|].
    destruct Hxa as [<- _]. destruct Hyb' as [<- _].
    apply Forall_cons in Ha as [_ Ha]. apply Forall_cons in Hb as [_ Hb].
    apply array_cons in Hma as [_ Hma]. apply array_cons in Hmb as [_ Hmb].
    destruct (IH (s1 + 1) (s2 + 1) a b) as (r & Hr & Hiff).
    + split_and!; [done|cbn in *; lia|done|]. intros. rewrite <- H0a by (cbn; lia). f_equal. cbn. lia.
    + split_and!; [done|cbn in *; lia|done|]. intros. rewrite <- H0b by (cbn; lia). f_equal. cbn. lia.
    + exists r. split; [done|]. rewrite Hiff. naive_solver.
  - exists (s8 x - s8 y). split; [done|]. split.
    + intros Heq. assert (x = y) as -> by (apply s8_inj; [done..|lia]).
      rewrite Z.eqb_refl, andb_true_r in E.
      assert (y = 0) as ->.
      { rewrite <- s8_zero by done. destruct (s8 y =? 0) eqn:?; [lia|done]. }
      destruct a, b; try done; lia.
    + intros ->. destruct b; destruct_and?; subst; lia.
Qed.

Lemma strncmp_ok n m s1 s2 a b :
  0 ≤ n → strn m s1 (Z.to_nat n) a → strn m s2 (Z.to_nat n) b →
  ∃ r, strncmp s1 s2 n m = Ok r m ∧ (r = 0 ↔ a = b).
Proof. intros. by apply strncmp_loop_ok. Qed.

(** A long enough prefix of a string fills a field. *)
Lemma cstr_strn m p l n : cstr m p l → strn m p n (take n l).
Proof.
  intros H. pose proof (cstr_end _ _ _ H) as H0. pose proof (cstr_array _ _ _ H) as Ha.
  destruct H as [_ Hf]. split_and!.
  - by apply Forall_take.
  - rewrite length_take. lia.
  - intros i b Hi. apply Ha. apply lookup_take_Some in Hi. naive_solver.
  - rewrite length_take. intros. by replace (n `min` length l)%nat with (length l) by lia.
Qed.

Lemma pad_loop_ok n d m :
  0 ≤ n < 4294967296 → (n ≠ 1 → is_Some (m !! d)) →
  pad_loop n d m = Ok tt (if decide (n = 1) then m else write d [0] m).
Proof.
  intros Hn Hd. unfold pad_loop.
  assert (∀ k, 0 < k → is_Some (m !! d) →
    Z.iter k (λ r, match r with Ok _ m => store d 0 m | r => r end) (Ok tt m)
    = Ok tt (write d [0] m)) as Hiter.
  { intros k Hk Hs. destruct k as [|k|]; [lia| |lia]. cbn [Z.iter].
    induction k as [|k IH] using Pos.peano_ind.
    - cbn. by rewrite store_ok.
    - rewrite Pos.iter_succ, IH by lia.
      rewrite store_ok; [|change (write d [0] m) with (<[d := 0]> m); rewrite lookup_insert_eq; eauto].
      f_equal. change (u8 0) with 0. apply map_eq. intros a. rewrite !lookup_write.
      repeat case_decide; done. }
  case_decide as Hn1.
  - subst n. done.
  - apply Hiter; [|auto]. unfold u32. destruct (decide (n = 0)) as [->|]; [done|].
    rewrite Z.mod_small; lia.
Qed.

Lemma strncpy_loop_ok n m d s l :
  Z.of_nat n < 4294967296 → cstr m s l → mapped m d (length (strncpy_image n l)) →
  s + zlen l < d ∨ d + zlen (strncpy_image n l) ≤ s →
  strncpy_loop n d s m = Ok tt (write d (strncpy_image n l) m).
Proof.
  revert m d s l. induction n as [|n IH]; intros m d s l Hn Hs Hd Ho; [done|].
  cbn [strncpy_loop]. destruct l as [|c l].
  - assert (m !! s = Some 0) as H0 by (rewrite <- (Z.add_0_r s); apply (cstr_end _ _ _ Hs)).
    rewrite (bind_ok _ _ _ _ _ (load_ok _ _ _ H0)).
    assert (mapped m d 1) as Hd1.
    { eapply mapped_weaken; [done|lia|]. unfold strncpy_image.
      repeat case_decide; cbn in *; lia. }
    rewrite (bind_ok _ _ _ tt (write d [0] m)).
    2:{ rewrite store_ok; [done|]. apply (mapped_one _ d 1); [done|lia]. }
    cbn [Z.eqb]. rewrite pad_loop_ok; [|lia|].
    + unfold strncpy_image. repeat case_decide; cbn [length] in *; try lia; try done.
      by rewrite write_step.
    + intros Hn1. eapply mapped_one; [apply mapped_write, Hd|].
      unfold strncpy_image. repeat case_decide; cbn in *; lia.
  - apply cstr_cons in Hs as (Hc & Hcr & Hs).
    assert (strncpy_image (S n) (c :: l) = c :: strncpy_image n l) as Himg.
    { unfold strncpy_image. cbn [length]. repeat case_decide; try lia; try done. }
    rewrite Himg in *. unfold zlen in *. cbn [length] in *.
    rewrite (bind_ok _ _ _ _ _ (load_ok _ _ _ Hc)).
    rewrite (bind_ok _ _ _ tt (write d [c] m)).
    2:{ rewrite store_ok, u8_small; [done|unfold is_byte; lia|].
        eapply mapped_one; [exact Hd|cbn; lia]. }
    rewrite (proj2 (Z.eqb_neq c 0)) by lia. rewrite (IH _ _ _ l); [by rewrite write_step|lia|..].
    + destruct Hs as [Ha Hf]. split; [|done]. apply array_write_disjoint; [|done].
      unfold zlen. rewrite length_app. cbn. lia.
    + apply mapped_write. eapply mapped_weaken; [done|lia..].
    + unfold zlen. lia.
Qed.

Lemma strncpy_ok m d s n l :
  0 ≤ n < 4294967296 → cstr m s l → mapped m d (length (strncpy_image (Z.to_nat n) l)) → s + zlen l < d →
  strncpy d s n m = Ok d (write d (strncpy_image (Z.to_nat n) l) m).
Proof.
  intros Hn Hs Hm Hd. unfold strncpy. erewrite bind_ok; [reflexivity|].
  apply strncpy_loop_ok; [lia|done..|by left].
Qed.

Lemma strncpy_image_string n l : (S (length l) < n)%nat →
  (strncpy_image n l = l ++ [0] ∨ strncpy_image n l = l ++ [0; 0]) ∧ (length l < length (strncpy_image n l) ≤ n)%nat.
Proof.
  intros Hl. unfold strncpy_image. rewrite decide_False by lia.
  case_decide; rewrite length_app; cbn [length]; split; auto; lia.
Qed.

(** *** Reversal in place *)

Lemma list_lookup_rev {A} (l : list A) i :
  (i < length l)%nat → reverse l !! i = l !! (length l - 1 - i)%nat.
Proof. intros. rewrite reverse_lookup by done. f_equal. lia. Qed.

(** The memory after [k] rounds: the outer [k] pairs are exchanged. *)
Definition rev_at (m : mem) (s : Z) (l : list Z) (k : Z) (m' : mem) : Prop :=
  (∀ a, a < s ∨ s + zlen l ≤ a → m' !! a = m !! a) ∧
  ∀ i : nat, (i < length l)%nat →
    m' !! (s + i) =
      if decide (i < k ∨ length l - k ≤ i) then l !! (length l - 1 - i)%nat else l !! i.

Lemma rev_at_step m s l k m' x y :
  rev_at m s l k m' → 0 ≤ k → 2 * k + 1 < zlen l →
  l !! Z.to_nat k = Some x → l !! (length l - 1 - Z.to_nat k)%nat = Some y →
  rev_at m s l (k + 1) (write (s + zlen l - 1 - k) [x] (write (s + k) [y] m')).
Proof.
  intros [Hout Hin] Hk Hlt Hx Hy. unfold zlen in *. split.
  - intros a Ha. rewrite !lookup_write. unfold zlen in *. cbn [length].
    rewrite !decide_False by lia. by apply Hout.
  - intros i Hi. rewrite !lookup_write. unfold zlen. cbn [length].
    destruct (decide (s + length l - 1 - k ≤ s + i < s + length l - 1 - k + 1%nat)).
    { replace (Z.to_nat (s + i - (s + length l - 1 - k))) with 0%nat by lia.
      rewrite decide_True by lia. cbn. rewrite <- Hx. f_equal. lia. }
    destruct (decide (s + k ≤ s + i < s + k + 1%nat)).
    { replace (Z.to_nat (s + i - (s + k))) with 0%nat by lia.
      rewrite decide_True by lia. cbn. rewrite <- Hy. f_equal. lia. }
    rewrite Hin by done. repeat case_decide; try done; lia.
Qed.

Lemma strrev_ok m s l :
  cstr m s l → strrev s m = Ok s (write s (reverse l) m).
Proof.
  intros Hs. unfold strrev. rewrite (bind_ok _ _ _ _ _ (strlen_ok _ _ _ Hs)).
  apply wp_eq. rewrite wp_bind, wp_bounded.
  apply (wp_loop (λ '(b, e) m', ∃ k, 0 ≤ k ∧ b = s + k ∧ e = s + zlen l - 1 - k ∧
                     2 * k ≤ zlen l + 1 ∧ rev_at m s l k m')
                 (λ '(b, e) _, Z.to_nat (e - b + 1))).
  - intros [b e] m' (k & Hk & -> & -> & Hk2 & Hrev).
    unfold zlen in *. destruct (1 <=? _) eqn:E.
    + assert (∀ i : nat, (i < length l)%nat → k ≤ i < length l - k → 
        ∃ x, l !! i = Some x ∧ 0 < x < 256 ∧ m' !! (s + i) = Some x) as Hget.
      { intros i Hi Hki. destruct (cstr_char m s l i Hs Hi) as (x & Hx & Hxr & _).
        exists x. split_and!; [done|lia|lia|]. destruct Hrev as [_ ->]; [|done].
        rewrite decide_False by lia. done. }
      destruct (Hget (Z.to_nat k)) as (x & Hx & Hxr & Hmx); [lia..|].
      destruct (Hget (length l - 1 - Z.to_nat k)%nat) as (y & Hy & Hyr & Hmy); [lia..|].
      replace (s + (length l - 1 - Z.to_nat k)%nat) with (s + length l - 1 - k) in Hmy by lia.
      replace (s + Z.to_nat k) with (s + k) in Hmx by lia.
      rewrite wp_bind. eapply wp_ok; [by apply load_ok|].
      rewrite wp_bind. eapply wp_ok; [by apply load_ok|].
      rewrite wp_bind. eapply wp_ok; [apply store_ok; eauto|].
      rewrite wp_bind. eapply wp_ok; [apply store_ok|].
      { apply (mapped_one _ (s + length l - 1 - k) 1); [|lia].
        apply mapped_write. intros [|] ?; [|lia]. rewrite Z.add_0_r. eauto. }
      rewrite wp_ret, !u8_small by (unfold is_byte; lia). split; [|lia].
      exists (k + 1). split_and!; [lia..|]. by apply (rev_at_step m s l k m' x y); [| |unfold zlen; lia|..].
    + rewrite !wp_ret. split; [done|]. destruct Hrev as [Hout Hin].
      apply map_eq. intros a. rewrite lookup_write. unfold zlen. rewrite length_reverse.
      case_decide as Ha; [|apply Hout; unfold zlen; lia].
      replace a with (s + Z.to_nat (a - s)) at 1 by lia. rewrite Hin by lia.
      rewrite list_lookup_rev by lia. case_decide; [done|].
      f_equal. lia.
  - exists 0. unfold zlen. split_and!; [lia..|]. split; [done|].
    intros i Hi. rewrite decide_False by lia.
    destruct (cstr_char m s l i Hs Hi) as (b & -> & _ & ->). done.
  - pose proof (cstr_size _ _ _ Hs). unfold zlen. lia.
Qed.

(** *** Tokens *)

Definition in_list (c : Z) (l : list Z) : bool := existsb (Z.eqb c) l.

(** Does a character of [l] differ from [c]? *)
Definition not_all (c : Z) (l : list Z) : bool := existsb (λ x, negb (c =? x)) l.

Lemma spn_match_ok m s a y acc c :
  cstr m a acc → m !! s = Some y → 0 < y < 256 →
  spn_match s a c m = Ok (if c then not_all y acc else in_list y acc) m.
Proof.
  intros Ha Hy Hyr. unfold spn_match. apply wp_eq. rewrite wp_bounded.
  pose proof (cstr_size _ _ _ Ha) as Hsz.
  apply (wp_loop (λ p m', m' = m ∧ ∃ k, p = a + zlen k ∧ ∃ r, acc = k ++ r ∧
           (if c then not_all y acc = not_all y r else in_list y acc = in_list y r))
         (λ p _, Z.to_nat (a + zlen acc - p))).
  - intros p m' [-> (k & -> & r & -> & Hr)]. rewrite wp_bind.
    apply cstr_app_r in Ha as Ha'. destruct r as [|x r].
    + pose proof (cstr_end _ _ _ Ha') as H0. cbn in H0. rewrite Z.add_0_r in H0.
      eapply wp_ok; [by apply loadc_ok|]. cbn.
      destruct c; by rewrite Hr.
    + apply cstr_cons in Ha' as (Hx & Hxr & Ha').
      eapply wp_ok; [by apply loadc_ok|]. rewrite char_s8, wp_bind by done.
      eapply wp_ok; [by apply loadc_ok|].
      assert ((s8 y =? s8 x) = (y =? x)) as ->.
      { destruct (Z.eqb_spec y x) as [->|Hne]; [apply Z.eqb_refl|].
        apply Z.eqb_neq. intros Heq. apply Hne, s8_inj; unfold is_byte; [lia..|done]. }
      assert (∀ b : bool, (if b then b = true else b = false)) as Hb by (by intros []).
      destruct c, (y =? x) eqn:E; cbn; unfold not_all, in_list in *; cbn in *; rewrite E in *; cbn in *;
        try (by rewrite Hr).
      all: split; [split; [done|]|unfold zlen; rewrite length_app; cbn; lia].
      all: exists (k ++ [x]); unfold zlen; rewrite length_app; cbn; split; [lia|].
      all: exists r; split; [by rewrite <- app_assoc|done].
  - split; [done|]. exists []. unfold zlen. cbn. split; [lia|]. exists acc. by destruct c.
  - unfold zlen. lia.
Qed.

(** Both spans: the longest prefix whose characters match. *)
Lemma spn_helper_ok m s a l acc (c : bool) :
  cstr m s l → cstr m a acc →
  spn_helper s a c m =
    Ok (zlen (take_while (λ y, if c then not_all y acc else in_list y acc) l)) m.
Proof.
  intros Hs Ha. unfold spn_helper.
  set (f := λ y, if c then not_all y acc else in_list y acc).
  destruct acc as [|x acc].
  { pose proof (cstr_end _ _ _ Ha) as H0. cbn in H0. rewrite Z.add_0_r in H0.
    rewrite (bind_ok _ _ _ _ _ (loadc_ok _ _ _ H0)). cbn.
    assert (take_while f l = []) as ->; [|done].
    destruct l as [|y l]; [done|]. cbn. unfold f. by destruct c. }
  apply cstr_cons in Ha as Ha'. destruct Ha' as (Hx & Hxr & _).
  rewrite (bind_ok _ _ _ _ _ (loadc_ok _ _ _ Hx)), char_s8 by done.
  apply wp_eq. rewrite wp_bounded. pose proof (cstr_size _ _ _ Hs) as Hsz.
  apply (wp_loop (λ n m', m' = m ∧ ∃ k r, n = zlen k ∧ l = k ++ r ∧ Forall (λ y, f y = true) k)
         (λ n _, Z.to_nat (zlen l - n))).
  - intros n m' [-> (k & r & -> & -> & Hk)]. rewrite take_while_app by done.
    rewrite wp_bind. apply cstr_app_r in Hs as Hs'. destruct r as [|y r].
    + pose proof (cstr_end _ _ _ Hs') as H0. cbn in H0. rewrite Z.add_0_r in H0.
      eapply wp_ok; [by apply loadc_ok|]. cbn. rewrite app_nil_r. done.
    + apply cstr_cons in Hs' as (Hy & Hyr & Hs').
      eapply wp_ok; [by apply loadc_ok|]. rewrite char_s8, wp_bind by done.
      eapply wp_ok; [by apply spn_match_ok|]. cbn [take_while].
      fold (f y). destruct (f y) eqn:E; rewrite wp_ret.
      * split; [split; [done|]|unfold zlen; rewrite length_app; cbn; lia].
        exists (k ++ [y]), r. unfold zlen. rewrite length_app, <- app_assoc. cbn.
        split_and!; [lia|done|]. apply Forall_app. auto.
      * by rewrite app_nil_r.
  - split; [done|]. exists [], l. auto.
  - unfold zlen. lia.
Qed.

(** One call of [strtok_r] with the single delimiter [d], as a first call
    ([str] not null) or as a next one ([str] null, resuming at [sv]): the text
    from there on is [k] delimiters, then the token [tok], then [tail]. *)
Lemma strtok_r_ok m str sv q d (k : nat) (tok tail : list Z) :
  let base := if str =? 0 then sv else str in
  let p := base + k in
  cstr m q [d] →
  cstr m base (replicate k d ++ tok ++ tail) →
  (if str =? 0 then k = 0%nat else True) →
  Forall (λ c, c ≠ d) tok →
  match tail with [] => True | c :: _ => c = d ∧ (str = 0 ∨ tok ≠ []) end →
  strtok_r str q sv m =
    match tok ++ tail, tail with
    | [], _ => Ok (0, p) m
    | _, [] => Ok (p, p + zlen tok) m
    | _, _ => Ok (p, p + zlen tok + 1) (write (p + zlen tok) [0] m)
    end.
Proof.
  intros base p Hq Hs Hk Htok Htail. unfold strtok_r.
  apply cstr_cons in Hq as Hq'. destruct Hq' as (Hd & Hdr & _).
  rewrite (bind_ok _ _ _ _ _ (loadc_ok _ _ _ Hd)), char_s8 by done.
  assert ((if str =? 0 then ret sv else let! k := strspn str q in ret (str + k)) m = Ok p m) as Hp.
  { unfold p, base in *. destruct (str =? 0) eqn:E.
    - subst k. by rewrite Z.add_0_r.
    - unfold strspn. rewrite (bind_ok _ _ _ _ _ (spn_helper_ok _ _ _ _ _ false Hs Hq)).
      unfold ret. do 2 f_equal. rewrite take_while_app.
      + unfold zlen. rewrite length_app, length_replicate.
        assert (take_while (λ y, in_list y [d]) (tok ++ tail) = []) as ->; [|cbn; lia].
        destruct tok as [|c tok]; cbn.
        * destruct tail as [|c tail]; [done|]. destruct Htail as [_ [?|?]]; [lia|done].
        * apply Forall_cons in Htok as [Hc _]. apply Z.eqb_neq in Hc. by rewrite Hc.
      + apply Forall_replicate. cbn. by rewrite Z.eqb_refl. }
  rewrite (bind_ok _ _ _ _ _ Hp). apply cstr_app_r in Hs.
  replace (base + zlen (replicate k d)) with p in Hs
    by (unfold p, zlen; by rewrite length_replicate).
  clearbody p base. clear Hp Hk.
  destruct (tok ++ tail) as [|c body] eqn:Hbody.
  { pose proof (cstr_end _ _ _ Hs) as H0. cbn in H0. rewrite Z.add_0_r in H0.
    by rewrite (bind_ok _ _ _ _ _ (loadc_ok _ _ _ H0)). }
  apply cstr_cons in Hs as Hs'. destruct Hs' as (Hc & Hcr & _).
  rewrite (bind_ok _ _ _ _ _ (loadc_ok _ _ _ Hc)), char_s8 by done.
  rewrite <- Hbody in Hs. unfold strcspn.
  rewrite (bind_ok _ _ _ _ _ (spn_helper_ok _ _ _ _ _ true Hs Hq)).
  rewrite take_while_app.
  2:{ eapply Forall_impl; [exact Htok|]. intros x Hx. cbn.
      apply Z.eqb_neq in Hx. by rewrite Hx. }
  apply cstr_app_r in Hs. destruct tail as [|t tail].
  - rewrite app_nil_r. cbn [take_while].
    pose proof (cstr_end _ _ _ Hs) as H0. cbn in H0. rewrite Z.add_0_r in H0.
    by rewrite (bind_ok _ _ _ _ _ (loadc_ok _ _ _ H0)).
  - destruct Htail as [-> _]. cbn [take_while not_all existsb].
    rewrite Z.eqb_refl. cbn [negb orb]. rewrite app_nil_r.
    apply cstr_cons in Hs as (Ht & Htr & Hs).
    rewrite (bind_ok _ _ _ _ _ (loadc_ok _ _ _ Ht)), char_s8 by done.
    by rewrite (bind_ok _ _ _ _ _ (store_ok _ _ 0 (mk_is_Some _ _ Ht))).
Qed.

(** *** Searching for a character *)

(** The loop over the keys, when there is one *)
Lemma one_key m b x y : cstr m b [x] → 0 < y < 256 →
  bounded (λ fuel, loop fuel (λ k,
    let! z := loadc k in
    if z =? 0 then ret (inr false)
    else if s8 y =? z then ret (inr true) else ret (inl (k + 1))) b) m = Ok (y =? x) m.
Proof.
  intros Hb Hy. pose proof (cstr_size _ _ _ Hb) as Hsz. pose proof (cstr_end _ _ _ Hb) as H0.
  apply cstr_cons in Hb as (Hx & Hxr & _). cbn [length] in *. rewrite bounded_eq.
  destruct (size m) as [|n]; [lia|]. apply wp_eq. rewrite wp_loop_S, wp_bind.
  eapply wp_ok; [by apply loadc_ok|]. rewrite char_s8 by done. destruct (Z.eqb_spec y x) as [->|Hne].
  - by rewrite Z.eqb_refl.
  - rewrite (proj2 (Z.eqb_neq (s8 y) (s8 x))) by (intros Hs%s8_inj; unfold is_byte; (done || lia)).
    rewrite wp_ret, wp_loop_S, wp_bind. by eapply wp_ok; [apply loadc_ok, H0|].
Qed.

Lemma strpbrk_ok m s l b x :
  s ≠ 0 → b ≠ 0 → 0 ≤ s → cstr m s l → cstr m b [x] →
  wp (strpbrk s b) m (λ r m', m' = m ∧ (r = 0 ↔ x ∉ l)).
Proof.
  intros Hs0 Hb0 Hs1 Hs Hb. unfold strpbrk. rewrite (proj2 (Z.eqb_neq s 0)), (proj2 (Z.eqb_neq b 0)) by done.
  rewrite wp_bounded.
  apply (wp_loop (λ p m', m' = m ∧ ∃ k r, l = k ++ r ∧ p = s + zlen k ∧ x ∉ k) (λ p _, Z.to_nat (s + zlen l - p))).
  - intros p m' (-> & k & r & -> & -> & Hk). rewrite wp_bind. destruct r as [|y r].
    + rewrite app_nil_r in *. eapply wp_ok; [apply loadc_ok, (cstr_end _ _ _ Hs)|]. cbn. by split.
    + apply cstr_app_r, cstr_cons in Hs as (Hy & Hyr & _). eapply wp_ok; [by apply loadc_ok|].
      rewrite char_s8 by done. rewrite wp_bind. eapply wp_ok; [by apply one_key|].
      destruct (Z.eqb_spec y x) as [->|Hne]; rewrite wp_ret.
      * split; [done|]. split; [unfold zlen; lia|]. intros Hno. destruct Hno. apply elem_of_app. right. apply elem_head.
      * split; [|unfold zlen; rewrite length_app; cbn [length]; lia]. split; [done|]. exists (k ++ [y]), r.
        rewrite <- app_assoc. split; [done|]. split; [unfold zlen; rewrite length_app; cbn; lia|].
        intros [?|?%list_elem_of_singleton]%elem_of_app; congruence.
  - split; [done|]. exists [], l. split; [done|]. split; [unfold zlen; cbn; lia|by apply not_elem_of_nil].
  - pose proof (cstr_size _ _ _ Hs). unfold zlen. lia.
Qed.

Lemma strchr_ok m s l x :
  0 < s → cstr m s l → 0 < x < 256 → ∃ r, strchr s x m = Ok r m ∧ (r = 0 ↔ x ∉ l).
Proof.
  intros Hs0 Hs Hx. set (b := stack_top m). pose proof (stack_top_pos m) as Hb0. fold b in Hb0.
  assert (cstr (write b [x; 0] m) s l) as Hs1.
  { apply cstr_write; [|done]. right. apply (stack_top_fresh _ _ _ (cstr_end _ _ _ Hs)). }
  assert (cstr (write b [x; 0] m) b [x]) as Hb by (split; [apply array_write|by apply Forall_cons_2]).
  pose proof (strpbrk_ok _ s l b x ltac:(lia) ltac:(lia) ltac:(lia) Hs1 Hb) as H.
  apply wp_run in H as (r & m' & Hr & -> & Hiff). exists r. split; [|done].
  unfold strchr, with_local. fold b. rewrite u8_small by (unfold is_byte; lia).
  change (alloc_bytes b [x; 0] m) with (write b [x; 0] m). rewrite Hr. f_equal.
  exact (free_alloc_bytes m [x; 0]).
Qed.

(** *** Splitting a whole text *)

(** The tokens joined by the delimiter *)
Fixpoint join (d : Z) (toks : list (list Z)) : list Z :=
  match toks with
  | [] => []
  | [t] => t
  | t :: toks => t ++ d :: join d toks
  end.

(** The next calls [strtok_r(0, q, &sv)], until one returns null *)
Fixpoint next_tokens (n : nat) (q sv : Z) : M mem (list Z) :=
  match n with
  | O => ret []
  | S n =>
      let! '(p, sv) := strtok_r 0 q sv in
      if p =? 0 then ret [] else
      let! ps := next_tokens n q sv in ret (p :: ps)
  end.

(** The tokens [toks] are separate strings from [p] on. *)
Fixpoint token_strings (m : mem) (p : Z) (toks : list (list Z)) : Prop :=
  match toks with
  | [] => True
  | t :: toks => cstr m p t ∧ token_strings m (p + zlen t + 1) toks
  end.

(** Where the tokens start *)
Fixpoint token_starts (p : Z) (toks : list (list Z)) : list Z :=
  match toks with
  | [] => []
  | t :: toks => p :: token_starts (p + zlen t + 1) toks
  end.

Lemma token_strings_write m p toks q k :
  q + zlen k ≤ p → token_strings m p toks → token_strings (write q k m) p toks.
Proof.
  revert p. induction toks as [|t toks IH]; intros p Hd; cbn; [done|].
  intros [Hc Ht]. split; [apply cstr_write; [lia|done]|]. apply IH; [unfold zlen in *; lia|done].
Qed.

Lemma next_tokens_ok toks m q d sv :
  0 < sv → cstr m q [d] → q + 1 < sv → cstr m sv (join d toks) →
  Forall (λ t, t ≠ [] ∧ Forall (λ c, c ≠ d) t) toks →
  ∃ m', next_tokens (S (length toks)) q sv m = Ok (token_starts sv toks) m' ∧
    token_strings m' sv toks ∧ (∀ a, a < sv → m' !! a = m !! a).
Proof.
  revert m sv. induction toks as [|t toks IH]; intros m sv Hsv Hq Hqs Hs Hf.
  { exists m. split; [|done]. cbn [next_tokens length].
    rewrite (bind_ok _ _ _ (0, sv) m); [done|].
    pose proof (strtok_r_ok m 0 sv q d 0 [] [] Hq Hs eq_refl) as Hrun.
    cbn in Hrun. rewrite Z.add_0_r in Hrun. apply Hrun; [constructor|done]. }
  apply Forall_cons in Hf as [[Hne Htok] Hf].
  set (tail := match toks with [] => [] | _ => d :: join d toks end).
  assert (join d (t :: toks) = t ++ tail) as Hj.
  { unfold tail. cbn [join]. destruct toks; [by rewrite app_nil_r|done]. }
  rewrite Hj in Hs. cbn [length next_tokens token_starts token_strings].
  pose proof (strtok_r_ok m 0 sv q d 0 t tail Hq Hs eq_refl Htok) as Hrun.
  cbn [Z.eqb Nat.add] in Hrun. rewrite Z.add_0_r in Hrun.
  destruct toks as [|t2 toks].
  - specialize (Hrun I). unfold tail in *. rewrite app_nil_r in *.
    destruct t as [|c t]; [done|]. rewrite (bind_ok _ _ _ _ _ Hrun).
    rewrite (proj2 (Z.eqb_neq sv 0)) by lia. exists m. split_and!; [|done|done|done].
    pose proof (strtok_r_ok m 0 (sv + zlen (c :: t)) q d 0 [] [] Hq) as Hend.
    cbn [Z.eqb Nat.add app replicate] in Hend. rewrite Z.add_0_r in Hend.
    rewrite (bind_ok _ _ _ [] m); [done|]. cbn [next_tokens length].
    rewrite (bind_ok _ _ _ (0, sv + zlen (c :: t)) m); [done|]. apply Hend; try done.
    apply cstr_app_r. by rewrite app_nil_r.
  - assert (match tail with [] => True | c :: _ => c = d ∧ (0 = 0 ∨ t ≠ []) end) as Htl.
    { unfold tail. auto. }
    specialize (Hrun Htl). change tail with (d :: join d (t2 :: toks)) in *.
    destruct t as [|c t]; [done|]. cbn [app] in Hrun.
    rewrite (bind_ok _ _ _ _ _ Hrun). cbn beta iota.
    rewrite (proj2 (Z.eqb_neq sv 0)) by lia.
    set (m1 := write (sv + zlen (c :: t)) [0] m) in *.
    assert (zlen [0] = 1) as Hl1 by done. assert (0 < zlen (c :: t)) as Hlt by (unfold zlen; cbn; lia).
    apply cstr_app_r in Hs as Hs2. apply cstr_cons in Hs2 as (_ & Hdr & Hs2).
    destruct (IH m1 (sv + zlen (c :: t) + 1)) as (m2 & Hrun2 & Hstr & Hm2); [lia| |lia| |done|].
    { unfold m1. apply cstr_write; [|done]. unfold zlen in *; cbn in *; lia. }
    { unfold m1. apply cstr_write; [|done]. lia. }
    exists m2. change (S (length (t2 :: toks))) with (S (S (length toks))) in Hrun2.
    rewrite (bind_ok _ _ _ _ _ Hrun2). split_and!; [done| |done|].
    + destruct Hs as [Ha Hfs]. apply Forall_app in Hfs as [Hfs _]. split; [|done].
      apply array_app in Ha as [Ha _]. apply array_app in Ha as [Ha _]. apply array_app. split.
      * intros i b Hi. rewrite Hm2 by (pose proof (lookup_lt_Some _ _ _ Hi); unfold zlen; lia).
        unfold m1. rewrite lookup_write, Hl1, decide_False; [by apply Ha|].
        pose proof (lookup_lt_Some _ _ _ Hi). unfold zlen. lia.
      * apply array_cons. split; [|apply array_nil]. rewrite Hm2 by lia. unfold m1.
        rewrite lookup_write, Hl1, decide_True by lia. by rewrite Z.sub_diag.
    + intros a Ha. rewrite Hm2 by lia. unfold m1. rewrite lookup_write, Hl1, decide_False by lia. done.
Qed.

(** ** Properties *)

(** [memmove] is correct for every overlap of the two blocks: the
    destination ends up with the bytes the source had before the call, no
    other byte changes, and the destination pointer is returned. *)
Theorem memmove_overlap m d s n l :
  zlen l = n → array m s l → mapped m d (length l) → Forall is_byte l →
  ∃ m', memmove d s n m = Ok d m' ∧ array m' d l ∧
    (∀ a, ¬ d ≤ a < d + n → m' !! a = m !! a).
Proof.
  intros <- Ha Hd Hb. exists (write d l m). split_and!.
  - by apply memmove_ok.
  - apply array_write.
  - intros a Hna. by rewrite lookup_write, decide_False.
Qed.

(** Names are stored and compared faithfully: after [strncpy(d, s, n)] of
    the string [l] into a field of [n] bytes (unless [l] has exactly [n - 1]
    characters), [strncmp(d, t, n)] returns 0 exactly on the strings [k] with
    the same first [n] characters; nothing outside the field is written. *)
Theorem strncpy_strncmp m d s t n l k :
  0 < n < 4294967296 → cstr m s l → cstr m t k → mapped m d (Z.to_nat n) →
  zlen l ≠ n - 1 → s + zlen l < d ∨ d + n ≤ s → t + zlen k < d ∨ d + n ≤ t →
  ∃ m' r, strncpy d s n m = Ok d m' ∧ strncmp d t n m' = Ok r m' ∧
    (r = 0 ↔ take (Z.to_nat n) l = take (Z.to_nat n) k) ∧
    (∀ a, ¬ d ≤ a < d + n → m' !! a = m !! a).
Proof.
  intros Hn Hs Ht Hd Hlen Hds Hdt. set (N := Z.to_nat n) in *.
  assert (length (strncpy_image N l) ≤ N)%nat as Himg.
  { unfold strncpy_image, zlen in *. repeat case_decide; rewrite ?length_take, ?length_app; cbn [length]; lia. }
  assert (mapped m d (length (strncpy_image N l))) as Hdi by (eapply mapped_weaken; [done|lia|lia]).
  assert (strncpy d s n m = Ok d (write d (strncpy_image N l) m)) as Hcpy.
  { unfold strncpy. fold N. rewrite (bind_ok _ _ _ _ _ (strncpy_loop_ok N m d s l ltac:(lia) Hs Hdi ltac:(unfold zlen in *; lia))). done. }
  set (m' := write d (strncpy_image N l) m) in *.
  assert (strn m' d N (take N l)) as Hfield.
  { pose proof (array_write d (strncpy_image N l) m) as Ha. fold m' in Ha. destruct Hs as [_ Hf].
    split_and!; [by apply Forall_take|rewrite length_take; lia| |].
    - intros i b Hi. apply Ha. unfold strncpy_image. pose proof (lookup_lt_Some _ _ _ Hi) as Hil.
      rewrite length_take in Hil. rewrite lookup_take_lt in Hi by lia.
      repeat case_decide; [by rewrite lookup_take_lt by lia|..];
        apply lookup_app_l_Some; done.
    - rewrite length_take. intros Hlt. replace (N `min` length l)%nat with (length l) by lia.
      apply Ha. unfold strncpy_image, zlen in *. repeat case_decide; [lia|..]; by rewrite list_lookup_middle. }
  assert (cstr m' t k) as Ht'.
  { apply cstr_write; [unfold zlen in *; lia|done]. }
  destruct (strncmp_ok n m' d t (take N l) (take N k)) as (r & Hr & Hiff); [lia|done|by apply cstr_strn|].
  exists m', r. split_and!; [done|done|done|].
  intros a Ha. unfold m'. rewrite lookup_write, decide_False; [done|]. unfold zlen. lia.
Qed.

(** A string of exactly [n - 1] characters makes [strncpy(d, s, n)] write
    past its field: the byte at [d + n] becomes 0. *)
Theorem strncpy_overflow m d s n l :
  0 < n < 4294967296 → cstr m s l → zlen l = n - 1 → mapped m d (Z.to_nat n + 1) →
  s + zlen l < d ∨ d + n < s →
  ∃ m', strncpy d s n m = Ok d m' ∧ array m' d l ∧ m' !! (d + n) = Some 0.
Proof.
  intros Hn Hs Hl Hd Ho. set (N := Z.to_nat n) in *.
  assert (strncpy_image N l = l ++ [0; 0]) as Himg.
  { unfold strncpy_image, zlen in *. repeat case_decide; [lia|lia|done]. }
  exists (write d (l ++ [0; 0]) m). unfold strncpy. fold N. split_and!.
  - rewrite (bind_ok _ _ _ _ _ (strncpy_loop_ok N m d s l ltac:(lia) Hs
      ltac:(rewrite Himg, length_app; eapply mapped_weaken; [done|lia|cbn; unfold zlen in *; lia])
      ltac:(rewrite Himg; unfold zlen in *; rewrite length_app; cbn; lia))).
    by rewrite Himg.
  - pose proof (array_write d (l ++ [0; 0]) m) as Ha. by apply array_app in Ha as [Ha _].
  - rewrite lookup_write, decide_True by (unfold zlen in *; rewrite length_app; cbn; lia).
    unfold zlen in *. rewrite lookup_app_r by lia.
    replace (Z.to_nat (d + n - d) - length l)%nat with 1%nat by lia. done.
Qed.

(** [strrev] reverses a string in place, and reversing it twice restores
    the memory. *)
Theorem strrev_twice m s l :
  cstr m s l →
  ∃ m', strrev s m = Ok s m' ∧ cstr m' s (reverse l) ∧ strrev s m' = Ok s m.
Proof.
  intros Hs. exists (write s (reverse l) m). pose proof Hs as [Ha Hf].
  assert (cstr (write s (reverse l) m) s (reverse l)) as Hs'.
  { split; [|by apply Forall_reverse]. apply array_app. split; [apply array_write|].
    apply array_cons. split; [|apply array_nil]. rewrite lookup_write, decide_False by lia.
    pose proof (cstr_end _ _ _ Hs). unfold zlen. by rewrite length_reverse. }
  split_and!; [by apply strrev_ok|done|]. rewrite (strrev_ok _ _ _ Hs'). f_equal.
  rewrite reverse_involutive. apply map_eq. intros a.
  destruct (decide (s ≤ a < s + zlen l)) as [Hin|Hout].
  - rewrite lookup_write, decide_True by done. apply cstr_array in Hs.
    unfold zlen in Hin. destruct (lookup_lt_is_Some_2 l (Z.to_nat (a - s))) as [b Hb]; [lia|].
    rewrite Hb. rewrite <- (Hs _ _ Hb). f_equal. lia.
  - rewrite lookup_write, decide_False by done. rewrite lookup_write, decide_False; [done|].
    unfold zlen in *. by rewrite length_reverse.
Qed.

(** [strtok_r] called again and again splits a text of nonempty tokens
    joined by a one-character delimiter into exactly these tokens: the calls
    return the start of each token and then null, every token becomes a
    string of its own, and nothing before the text changes. *)
Theorem strtok_r_splits m q d s toks :
  0 < s → cstr m q [d] → q + 1 < s → cstr m s (join d toks) →
  Forall (λ t, t ≠ [] ∧ Forall (λ c, c ≠ d) t) toks →
  ∃ m', next_tokens (S (length toks)) q s m = Ok (token_starts s toks) m' ∧
    token_strings m' s toks ∧ (∀ a, a < s → m' !! a = m !! a) ∧
    (∀ sv, fst <$> run (strtok_r s q sv) m = fst <$> run (strtok_r 0 q s) m).
Proof.
  intros Hs Hq Hqs Hj Hf. destruct (next_tokens_ok toks m q d s Hs Hq Hqs Hj Hf) as (m' & H1 & H2 & H3).
  exists m'. split_and!; [done..|]. intros sv.
  destruct toks as [|t toks].
  { pose proof (strtok_r_ok m s sv q d 0 [] [] Hq) as Ha.
    pose proof (strtok_r_ok m 0 s q d 0 [] [] Hq) as Hb.
    rewrite (proj2 (Z.eqb_neq s 0)) in Ha by lia. cbn in Ha, Hb. unfold run.
    rewrite Ha, Hb; done. }
  apply Forall_cons in Hf as [[Hne Htok] Hf].
  set (tail := match toks with [] => [] | _ => d :: join d toks end).
  assert (join d (t :: toks) = t ++ tail) as Hj2.
  { unfold tail. cbn [join]. destruct toks; [by rewrite app_nil_r|done]. }
  rewrite Hj2 in Hj.
  assert (match tail with [] => True | c :: _ => c = d ∧ (s = 0 ∨ t ≠ []) end) as Ht1.
  { unfold tail. destruct toks; auto. }
  assert (match tail with [] => True | c :: _ => c = d ∧ (0 = 0 ∨ t ≠ []) end) as Ht2.
  { unfold tail. destruct toks; auto. }
  pose proof (strtok_r_ok m s sv q d 0 t tail Hq) as Ha.
  pose proof (strtok_r_ok m 0 s q d 0 t tail Hq) as Hb.
  rewrite (proj2 (Z.eqb_neq s 0)) in Ha by lia. cbn [Z.eqb] in Hb.
  unfold run. rewrite Ha, Hb by done. destruct t; [done|]. cbn [app]. by destruct tail.
Qed.

(** ** Witnesses *)

Definition text_mem : mem := write 16 (cstring "melon") (write 48 (cstring "melon") (write 80 (replicate 24 0) ∅)).

Lemma text_cstr p s : (p, s) ∈ [(16, "melon"); (48, "melon")]%string → cstr text_mem p (bytes_of s).
Proof.
  intros Hin. assert (Forall (λ b, 0 < b < 256) (bytes_of "melon")) as Hf.
  { repeat constructor. }
  rewrite !elem_of_cons in Hin. destruct Hin as [[= -> ->]|[[= -> ->]|Hin%not_elem_of_nil]]; [..|done].
  all: split; [|done]; intros i b Hi.
  all: do 6 (destruct i as [|i]; [injection Hi as <-; reflexivity|]); done.
Qed.

Lemma memmove_overlap_witness :
  ∃ m', memmove 18 16 3 text_mem = Ok 18 m' ∧ array m' 18 [109; 101; 108].
Proof.
  destruct (memmove_overlap text_mem 18 16 3 [109; 101; 108]) as (m' & ? & ? & _).
  - reflexivity.
  - intros i b Hi. do 3 (destruct i as [|i]; [injection Hi as <-; reflexivity|]). done.
  - intros i Hi. do 3 (destruct i as [|i]; [vm_compute; eauto|]). cbn in Hi. lia.
  - repeat constructor; done.
  - exists m'. split; assumption.
Defined.

Lemma strncpy_strncmp_witness :
  ∃ m', strncpy 80 16 8 text_mem = Ok 80 m' ∧ strncmp 80 48 8 m' = Ok 0 m'.
Proof.
  destruct (strncpy_strncmp text_mem 80 16 48 8 (bytes_of "melon") (bytes_of "melon"))
    as (m' & r & H1 & H2 & H3 & _).
  - lia.
  - apply text_cstr, elem_head.
  - apply text_cstr, elem_tail, elem_head.
  - intros i Hi. do 8 (destruct i as [|i]; [vm_compute; eauto|]). cbn in Hi. lia.
  - vm_compute. done.
  - first [by left; vm_compute|by right; vm_compute].
  - first [by left; vm_compute|by right; vm_compute].
  - exists m'. split; [exact H1|]. rewrite H2. f_equal. apply H3. reflexivity.
Defined.

Lemma strncpy_overflow_witness :
  ∃ m', strncpy 80 16 6 (write 86 [33] text_mem) = Ok 80 m' ∧ m' !! 86 = Some 0.
Proof.
  destruct (strncpy_overflow (write 86 [33] text_mem) 80 16 6 (bytes_of "melon")) as (m' & H1 & _ & H2).
  - lia.
  - apply cstr_write; [first [by left; vm_compute|by right; vm_compute]|]. apply text_cstr, elem_head.
  - reflexivity.
  - intros i Hi. do 7 (destruct i as [|i]; [vm_compute; eauto|]). cbn in Hi. lia.
  - first [by left; vm_compute|by right; vm_compute].
  - exists m'. split; assumption.
Defined.

Lemma strrev_twice_witness :
  ∃ m', strrev 16 text_mem = Ok 16 m' ∧ cstr m' 16 (bytes_of "nolem") ∧
        strrev 16 m' = Ok 16 text_mem.
Proof. apply (strrev_twice text_mem 16 (bytes_of "melon")), text_cstr, elem_head. Defined.

Lemma strtok_r_splits_witness :
  ∃ m', next_tokens 3 8 16 (write 8 [101; 0] text_mem) = Ok [16; 18] m' ∧
        token_strings m' 16 [bytes_of "m"; bytes_of "lon"].
Proof.
  destruct (strtok_r_splits (write 8 [101; 0] text_mem) 8 101 16 [bytes_of "m"; bytes_of "lon"])
    as (m' & H1 & H2 & _).
  - lia.
  - split; [|repeat constructor]. apply array_write.
  - lia.
  - change (join 101 _) with (bytes_of "melon").
    apply cstr_write; [first [by left; vm_compute|by right; vm_compute]|]. apply text_cstr, elem_head.
  - repeat constructor; done.
  - exists m'. split; assumption.
Defined.
