(* ===== verification/Palloc.v ===== *)
(** * kernel/memory/palloc.c: the physical page allocator *)
From S2P Require Import Prelude Machine CMem.

(** Addresses that kernel/kernel.ld computes at link time: the start of the
    data section and the end of the kernel image, both page aligned. *)
Class KernelLayout := {
  kdata : Z;
  kend : Z;
  kdata_aligned : kdata mod 4096 = 0;
  kend_aligned : kend mod 4096 = 0;
  kdata_low : KERN_LINK ≤ kdata;
  kdata_kend : kdata ≤ kend;
  kend_high : kend ≤ KERN_BASE + PHYSTOP;
}.

(** Physical memory, as the kernel sees it through its direct map, and
    [kernel_mem]. A free page holds the address of the next one ([Run]). *)
Record Pmem := mkPmem {
  ram : mem;
  freelist : Z;
}.

Definition with_ram {A} (m : M mem A) : M Pmem A :=
  zoom ram (λ r s, mkPmem r (freelist s)) m.

Definition set_freelist (r : Z) : M Pmem unit := modify (λ s, mkPmem (ram s) r).

Section palloc.
Context `{KernelLayout}.

(** [perror] prints and changes nothing the model sees. *)
Definition palloc : M Pmem Z :=
  let! r := gets freelist in
  if r =? 0 then ret 0 else
  let! next := with_ram (load32 r) in
  do! set_freelist next in
  ret r.

Definition pfree (v : Z) : M Pmem unit :=
  if PHYSTOP <=? KA2P v then panic "pfree, physical address exceeds PHYSTOP" else
  if v <? kend then panic "pfree, invalid virtual address" else
  if negb (u32 v mod PAGE_SZ =? 0) then panic "pfree, address not on page boundry" else
  let! r := gets freelist in
  do! with_ram (store32 v r) in
  set_freelist v.

(** Fuel: the number of pages of the range, and one round to leave. *)
Definition pfree_range (vstart vend : Z) : M Pmem unit :=
  loop (S (Z.to_nat ((vend - vstart) / PAGE_SZ))) (λ p,
    if u32 (p + PAGE_SZ) <=? vend then
      do! pfree p in ret (inl (u32 (p + PAGE_SZ)))
    else ret (inr tt)) vstart.

Definition palloc_init (vstart vend : Z) : M Pmem unit := pfree_range vstart vend.

(** ** Specifications *)

(** A page the allocator may own: aligned, above the kernel image and below
    the top of physical memory. *)
Definition page_ok (p : Z) : Prop :=
  page_aligned p ∧ kend ≤ p ∧ p + 4096 ≤ KERN_BASE + PHYSTOP.

#[global] Instance page_ok_dec p : Decision (page_ok p).
Proof. unfold page_ok, page_aligned. apply _. Defined.

(** The free pages [l], linked from [r] on. *)
Fixpoint chain (m : mem) (r : Z) (l : list Z) : Prop :=
  match l with
  | [] => r = 0
  | p :: l => r = p ∧ chain m (word m p) l
  end.

(** The abstract allocator is the list of its free pages. *)
Record free_pages (s : Pmem) (l : list Z) : Prop := mk_free_pages {
  fp_chain : chain (ram s) (freelist s) l;
  fp_nodup : NoDup l;
  fp_ok : Forall page_ok l;
  fp_mapped : Forall (λ p, page_mapped (ram s) p) l;
}.

(** The pages of a range, in the order in which they are freed. *)
Definition pages_from (p : Z) (n : nat) : list Z := (λ i : nat, p + 4096 * i) <$> seq 0 n.

(** The state after the pages [ps] were freed one after the other *)
Fixpoint free_all (ps : list Z) (s : Pmem) : Pmem :=
  match ps with
  | [] => s
  | p :: ps => free_all ps (mkPmem (write p (le_bytes 4 (freelist s)) (ram s)) p)
  end.

(** What a client of the allocator relies on: the free list [l] only. *)
Definition palloc_spec (l : list Z) : Z * list Z :=
  match l with [] => (0, []) | p :: l => (p, l) end.

(** ** Lemmas *)

Lemma page_ok_range p : page_ok p → KERN_LINK ≤ p ≤ 0xA0000000 - 4096 ∧ page_aligned p.
Proof.
  intros (Ha & Hk & Hp). pose proof kdata_low. pose proof kdata_kend.
  unfold KERN_BASE, PHYSTOP in *. split; [lia|done].
Qed.

Lemma page_ok_nonzero p : page_ok p → p ≠ 0.
Proof. intros Hp%page_ok_range. unfold KERN_LINK, KERN_BASE, EXTMEM in *. lia. Qed.

(** Two different pages do not overlap. *)
Lemma pages_disjoint p q : page_aligned p → page_aligned q → p ≠ q → p + 4096 ≤ q ∨ q + 4096 ≤ p.
Proof. unfold page_aligned. intros. Z.div_mod_to_equations. lia. Qed.

(** The list survives a write that misses the first words of its pages. *)
Lemma chain_write m r l q d :
  Forall (λ p, p + 4 ≤ q ∨ q + zlen d ≤ p) l → chain m r l → chain (write q d m) r l.
Proof.
  revert r. induction l as [|p l IH]; intros r Hd; cbn; [done|].
  apply Forall_cons in Hd as [Hp Hd]. intros [-> Hc]. split; [done|].
  rewrite word_write_disjoint by lia. by apply IH.
Qed.

Lemma chain_ext m m' r l :
  (∀ p, p ∈ l → word m' p = word m p) → chain m r l → chain m' r l.
Proof.
  revert r. induction l as [|p l IH]; intros r Hw; cbn; [done|].
  intros [-> Hc]. split; [done|]. rewrite Hw by apply elem_head. apply IH; [|done].
  intros. by apply Hw, elem_tail.
Qed.

Lemma free_pages_write s l q d :
  free_pages s l → Forall (λ p, p + 4096 ≤ q ∨ q + zlen d ≤ p) l →
  free_pages (mkPmem (write q d (ram s)) (freelist s)) l.
Proof.
  intros [Hc Hn Ho Hm] Hd. split; cbn; [|done|done|].
  - apply chain_write; [|done]. eapply Forall_impl; [exact Hd|]. cbn. lia.
  - eapply Forall_impl; [exact Hm|]. cbn. auto with cmem.
Qed.

Lemma palloc_none s : free_pages s [] → palloc s = Ok 0 s.
Proof. intros [Hc _ _ _]. cbn in Hc. unfold palloc, bind, gets. by rewrite Hc. Qed.

Lemma palloc_some s p l :
  free_pages s (p :: l) →
  palloc s = Ok p (mkPmem (ram s) (word (ram s) p)) ∧
  free_pages (mkPmem (ram s) (word (ram s) p)) l.
Proof.
  intros [[Hr Hc] Hn Ho Hm]. apply Forall_cons in Ho as [Hp Ho].
  apply Forall_cons in Hm as [Hpm Hm]. apply NoDup_cons in Hn as [_ Hn]. split; [|by split].
  unfold palloc. apply wp_eq. wp_steps. rewrite Hr.
  rewrite (proj2 (Z.eqb_neq p 0)) by by apply page_ok_nonzero.
  rewrite wp_bind. unfold with_ram. rewrite wp_zoom. eapply wp_ok.
  { apply load32_word. eapply page_mapped_range; [exact Hpm|lia..]. }
  cbn. unfold set_freelist. wp_steps. done.
Qed.

Lemma pfree_ok s p l :
  free_pages s l → page_ok p → p ∉ l → page_mapped (ram s) p →
  let s' := mkPmem (write p (le_bytes 4 (freelist s)) (ram s)) p in
  pfree p s = Ok tt s' ∧ free_pages s' (p :: l).
Proof.
  intros Hf Hp Hnin Hm. cbn zeta. pose proof (page_ok_range p Hp) as [Hr Ha].
  pose proof Hp as (_ & Hk & Hpt). split.
  - apply wp_eq. unfold pfree, PAGE_SZ. unfold KERN_LINK, EXTMEM in *.
    rewrite KA2P_small, u32_small by (unfold KERN_BASE in *; lia).
    destruct (Z.leb_spec PHYSTOP (p - KERN_BASE)); [lia|].
    destruct (Z.ltb_spec p kend); [lia|].
    unfold page_aligned in Ha. change 0x1000 with 4096. rewrite Ha. cbn [Z.eqb negb].
    unfold with_ram, set_freelist. wp_steps. eapply wp_ok.
    { apply store32_ok. eapply page_mapped_range; [exact Hm|lia..]. }
    cbn. done.
  - destruct Hf as [Hc Hn Ho Hmm].
    assert (Forall (λ q, q + 4 ≤ p ∨ p + 4 ≤ q) l) as Hdisj.
    { rewrite Forall_forall in *. intros q Hq. destruct (Ho q Hq) as (Haq & _).
      destruct (pages_disjoint p q Ha Haq); [by intros ->|lia..]. }
    split; cbn.
    + split; [done|]. rewrite word_write_same. rewrite u32_small.
      * by apply chain_write.
      * destruct l as [|q l]; cbn in Hc; [lia|]. destruct Hc as [-> _].
        apply Forall_cons in Ho as [[? _]%page_ok_range _].
        unfold KERN_LINK, KERN_BASE, EXTMEM in *. lia.
    + by apply NoDup_cons.
    + by apply Forall_cons.
    + apply Forall_cons. split; [by apply page_mapped_write|].
      eapply Forall_impl; [exact Hmm|]. cbn. auto with cmem.
Qed.

Lemma pages_from_S p n : pages_from p (S n) = p :: pages_from (p + 4096) n.
Proof.
  unfold pages_from. cbn [seq fmap list_fmap]. f_equal; [lia|].
  rewrite <- fmap_S_seq, <- list_fmap_compose. apply list_fmap_ext. intros. cbn. lia.
Qed.

Lemma elem_of_pages_from p n q : q ∈ pages_from p n ↔ ∃ i : nat, (i < n)%nat ∧ q = p + 4096 * i.
Proof.
  unfold pages_from. rewrite list_elem_of_fmap. setoid_rewrite elem_of_seq. naive_solver lia.
Qed.

(** Freeing a list of pages: the free list grows by all of them, and the rest
    of the memory keeps its contents. *)
Lemma free_all_ok ps s l :
  free_pages s l → NoDup ps →
  (∀ q, q ∈ ps → page_ok q ∧ q ∉ l ∧ page_mapped (ram s) q) →
  free_pages (free_all ps s) (reverse ps ++ l) ∧
  (∀ a, (∀ q, q ∈ ps → ¬ q ≤ a < q + 4096) → ram (free_all ps s) !! a = ram s !! a).
Proof.
  revert s l. induction ps as [|p ps IH]; intros s l Hf Hnd Hq; cbn [free_all]; [done|].
  apply NoDup_cons in Hnd as [Hp Hnd].
  destruct (Hq p (elem_head _ _)) as (Hpo & Hpl & Hpm).
  destruct (pfree_ok s p l Hf Hpo Hpl Hpm) as [_ Hf'].
  destruct (IH _ (p :: l) Hf' Hnd) as [Hfs Hm].
  { intros q Hin. destruct (Hq q (elem_tail _ _ _ Hin)) as (? & ? & ?). split_and!; [done| |].
    - apply not_elem_of_cons. split; [|done]. by intros ->.
    - by apply page_mapped_write. }
  split; [by rewrite reverse_cons, <- app_assoc|].
  intros a Ha. rewrite Hm by (intros q Hin; apply Ha; by apply elem_tail).
  cbn [ram]. rewrite lookup_write, decide_False; [done|].
  assert (zlen (le_bytes 4 (freelist s)) = 4) as -> by done.
  pose proof (Ha p (elem_head _ _)). lia.
Qed.

Lemma NoDup_pages_from p n : NoDup (pages_from p n).
Proof.
  unfold pages_from. apply NoDup_fmap_2; [|apply NoDup_seq]. intros i j ?. lia.
Qed.

(** Freeing the [n] pages of a range frees them one by one. *)
Lemma pfree_range_loop s l p n vend fuel :
  free_pages s l → (∀ q, q ∈ pages_from p n → page_ok q ∧ q ∉ l ∧ page_mapped (ram s) q) →
  KERN_BASE ≤ p → p + 4096 * n ≤ vend → vend < p + 4096 * (n + 1) → vend ≤ KERN_BASE + PHYSTOP →
  (n < fuel)%nat →
  loop fuel (λ p,
    if u32 (p + PAGE_SZ) <=? vend then
      do! pfree p in ret (inl (u32 (p + PAGE_SZ)))
    else ret (inr tt)) p s = Ok tt (free_all (pages_from p n) s).
Proof.
  revert s l p fuel. induction n as [|n IH]; intros s l p fuel Hf Hq Hp Hlo Hhi Htop Hfuel;
    (destruct fuel as [|fuel]; [lia|]); cbn [loop].
  - unfold PAGE_SZ, KERN_BASE, PHYSTOP in *. rewrite u32_small by lia.
    by destruct (Z.leb_spec (p + 4096) vend); [lia|].
  - rewrite pages_from_S in Hq. rewrite pages_from_S. cbn [free_all].
    destruct (Hq p (elem_head _ _)) as (Hpo & Hpl & Hpm).
    destruct (pfree_ok s p l Hf Hpo Hpl Hpm) as [Hfree Hf'].
    rewrite <- (IH _ (p :: l) (p + 4096) fuel Hf'); [|clear IH; try lia..].
    + unfold PAGE_SZ, KERN_BASE, PHYSTOP in *. rewrite u32_small by lia.
      destruct (Z.leb_spec (p + 4096) vend); [|lia].
      unfold bind at 1. rewrite (bind_ok _ _ _ _ _ Hfree). cbn. done.
    + intros q Hin. destruct (Hq q (elem_tail _ _ _ Hin)) as (? & ? & ?). split_and!; [done| |].
      * apply not_elem_of_cons. split; [|done]. apply elem_of_pages_from in Hin as (i & ? & ->). lia.
      * by apply page_mapped_write.
Qed.

(** [palloc_init] when the pages [l] are free already *)
Lemma palloc_init_ok s l vstart vend :
  free_pages s l → page_aligned vstart → kend ≤ vstart ≤ vend → vend ≤ KERN_BASE + PHYSTOP →
  (∀ a, vstart ≤ a < vend → is_Some (ram s !! a)) → (∀ q, q ∈ l → ¬ vstart ≤ q < vend) →
  let ps := pages_from vstart (Z.to_nat ((vend - vstart) / PAGE_SZ)) in
  ∃ s', palloc_init vstart vend s = Ok tt s' ∧ free_pages s' (reverse ps ++ l) ∧
    (∀ a, ¬ vstart ≤ a < vend → ram s' !! a = ram s !! a) ∧ ∀ q, page_mapped (ram s) q → page_mapped (ram s') q.
Proof.
  intros Hf Hal Hr Ht Hm Hl ps. unfold PAGE_SZ in ps. change 0x1000 with 4096 in ps.
  set (n := Z.to_nat ((vend - vstart) / 4096)) in *.
  assert (vstart + 4096 * n ≤ vend < vstart + 4096 * (n + 1)) as Hn.
  { unfold n. rewrite Z2Nat.id by (apply Z.div_pos; lia). clear - Hr.
    Z.div_mod_to_equations. lia. }
  assert (∀ q, q ∈ ps → page_ok q ∧ q ∉ l ∧ page_mapped (ram s) q) as Hq.
  { intros q (i & Hi & ->)%elem_of_pages_from. split_and!.
    - split; [|lia]. unfold page_aligned in *. clear - Hal. Z.div_mod_to_equations. lia.
    - intros Hin. apply (Hl _ Hin). lia.
    - intros a Ha. apply Hm. lia. }
  destruct (free_all_ok ps s l Hf (NoDup_pages_from _ _) Hq) as [Hf' Hmem].
  exists (free_all ps s). split_and!; [|done| |].
  - unfold palloc_init, pfree_range, PAGE_SZ. change 0x1000 with 4096. fold n.
    pose proof kdata_low. pose proof kdata_kend. unfold KERN_LINK, EXTMEM, KERN_BASE in *.
    apply pfree_range_loop with l; [done|exact Hq|unfold KERN_BASE; lia|lia|lia|exact Ht|lia].
  - intros a Ha. apply Hmem. intros q (i & Hi & ->)%elem_of_pages_from. lia.
  - clear. revert s. induction ps as [|p ps IH]; intros s q Hq; [done|]. apply IH. cbn [ram]. by apply page_mapped_write.
Qed.

End palloc.

(** ** A small machine, for concrete instances of the theorems

    The kernel image is one page; [n] pages of zeros follow it. *)
#[local] Instance demo_layout : KernelLayout.
Proof. by refine {| kdata := 0x80100000; kend := 0x80101000 |}. Defined.

Definition demo_base : Z := 0x80101000.

Definition demo_ram (n : nat) : mem := write demo_base (replicate (Z.to_nat (4096 * n)) 0) ∅.

(** All pages but the first [k] of them are free. *)
Definition demo_pmem (n k : nat) : Pmem :=
  free_all (pages_from (demo_base + 4096 * k) (n - k)) (mkPmem (demo_ram n) 0).

Lemma demo_lookup n a :
  demo_ram n !! a = if decide (demo_base ≤ a < demo_base + 4096 * n) then Some 0 else None.
Proof.
  unfold demo_ram. rewrite lookup_write. unfold zlen. rewrite length_replicate.
  rewrite Z2Nat.id by lia. case_decide; [|done]. apply lookup_replicate_2. lia.
Qed.

Lemma demo_page n (i : nat) :
  (i < n)%nat → Z.of_nat n ≤ 100000 →
  page_ok (demo_base + 4096 * i) ∧ page_mapped (demo_ram n) (demo_base + 4096 * i).
Proof.
  intros Hi Hn. split.
  - unfold page_ok, page_aligned, demo_base. change kend with 0x80101000.
    unfold KERN_BASE, PHYSTOP. split_and!; [|lia|lia]. clear. Z.div_mod_to_equations. lia.
  - intros a Ha. rewrite demo_lookup, decide_True by lia. eauto.
Qed.

Lemma demo_pmem_ok n k :
  (k ≤ n)%nat → Z.of_nat n ≤ 100000 →
  free_pages (demo_pmem n k) (reverse (pages_from (demo_base + 4096 * k) (n - k))) ∧
  (∀ a, a < demo_base + 4096 * k → ram (demo_pmem n k) !! a = demo_ram n !! a).
Proof.
  intros Hk Hn. destruct (free_all_ok (pages_from (demo_base + 4096 * k) (n - k))
    (mkPmem (demo_ram n) 0) []) as [Hf Hm].
  - split; cbn; [done|apply NoDup_nil_2|constructor..].
  - apply NoDup_pages_from.
  - intros q (i & Hi & ->)%elem_of_pages_from.
    destruct (demo_page n (k + i)) as [Ho Hmp]; [lia..|].
    replace (demo_base + 4096 * k + 4096 * i) with (demo_base + 4096 * (k + i)%nat) by lia.
    split_and!; [done|apply not_elem_of_nil|done].
  - rewrite app_nil_r in Hf. split; [done|]. intros a Ha. unfold demo_pmem. rewrite Hm; [done|].
    intros q (i & Hi & ->)%elem_of_pages_from. lia.
Qed.

#[global] Opaque demo_pmem demo_ram.

(** ** Properties *)

Section properties.
Context `{KernelLayout}.

(** C12: [palloc] implements the abstract allocator: from a state whose free
    pages are [l] it always returns, hands out the head of [l] (0 when there
    is none), leaves every byte of memory alone, and the page it hands out is
    aligned, lies between the kernel image and the top of memory, and is
    disjoint from every page that is still free. *)
Theorem palloc_refines s l :
  free_pages s l →
  ∃ s', palloc s = Ok (palloc_spec l).1 s' ∧
    free_pages s' (palloc_spec l).2 ∧ ram s' = ram s ∧
    (l ≠ [] → page_ok (palloc_spec l).1 ∧
     Forall (λ q, q + 4096 ≤ (palloc_spec l).1 ∨ (palloc_spec l).1 + 4096 ≤ q) (palloc_spec l).2).
Proof.
  intros Hf. destruct l as [|p l].
  - exists s. split_and!; [by apply palloc_none|done|done|done].
  - destruct (palloc_some s p l Hf) as [Hrun Hf']. eexists. split_and!; [exact Hrun|done|done|].
    intros _. destruct Hf as [_ [Hp _]%NoDup_cons [Hpo Ho]%Forall_cons _]. split; [done|].
    apply Forall_forall. intros q Hq. cbn. rewrite Forall_forall in Ho.
    apply pages_disjoint; [apply (Ho q Hq)|apply Hpo|]. by intros ->.
Qed.

(** [pfree] on every branch, for a 32-bit address: it panics, with the
    message of the guard that fails, on any address that is not an aligned
    page of the managed range; on a mapped page of the range that is not
    free yet it puts the page in front of the free list, writes to no other
    page, and the next [palloc] returns this very page. *)
Theorem pfree_spec s l p :
  free_pages s l → 0 ≤ p < 4294967296 →
  (¬ page_ok p → ∃ msg, pfree p s = Panic msg) ∧
  (page_ok p → p ∉ l → page_mapped (ram s) p →
   ∃ s' s'', pfree p s = Ok tt s' ∧ free_pages s' (p :: l) ∧
     (∀ a, ¬ p ≤ a < p + 4096 → ram s' !! a = ram s !! a) ∧
     palloc s' = Ok p s'' ∧ free_pages s'' l).
Proof.
  intros Hf Hp. split.
  - intros Hno. unfold pfree.
    destruct (Z.leb_spec PHYSTOP (KA2P p)) as [|Htop]; [by eexists|].
    destruct (Z.ltb_spec p kend) as [|Hk]; [by eexists|].
    rewrite u32_small by done. unfold PAGE_SZ. change 0x1000 with 4096.
    destruct (Z.eqb_spec (p mod 4096) 0) as [Ha|]; [|by eexists]. destruct Hno.
    pose proof kdata_low as Hkl. pose proof kdata_kend. unfold KERN_LINK, EXTMEM in Hkl.
    rewrite KA2P_small in Htop by (unfold KERN_BASE in *; lia).
    split; [done|split; [done|]]. unfold KERN_BASE, PHYSTOP in *.
    clear - Ha Htop. Z.div_mod_to_equations. lia.
  - intros Hpo Hpl Hpm. destruct (pfree_ok s p l Hf Hpo Hpl Hpm) as [Hrun Hf'].
    destruct (palloc_some _ _ _ Hf') as [Hrun' Hf'']. eexists _, _.
    split_and!; [exact Hrun|exact Hf'| |exact Hrun'|exact Hf''].
    intros a Ha. cbn [ram]. rewrite lookup_write, decide_False; [done|].
    assert (zlen (le_bytes 4 (freelist s)) = 4) as -> by done. lia.
Qed.

(** [palloc_init] on a page-aligned start frees exactly the whole pages of
    the range, the last one first in the list, and touches nothing outside
    them; a partial page at the end of the range is left out. *)
Theorem palloc_init_frees s vstart vend :
  freelist s = 0 → page_aligned vstart → kend ≤ vstart ≤ vend → vend ≤ KERN_BASE + PHYSTOP →
  (∀ a, vstart ≤ a < vend → is_Some (ram s !! a)) →
  let ps := pages_from vstart (Z.to_nat ((vend - vstart) / PAGE_SZ)) in
  ∃ s', palloc_init vstart vend s = Ok tt s' ∧ free_pages s' (reverse ps) ∧
    (∀ a, ¬ vstart ≤ a < vend → ram s' !! a = ram s !! a).
Proof.
  intros Hfl Hal Hr Ht Hm ps. destruct (palloc_init_ok s [] vstart vend) as (s' & Hrun & Hf & Hs & _); try done.
  - split; [by rewrite Hfl|apply NoDup_nil_2|constructor..].
  - by intros q Hq%not_elem_of_nil.
  - exists s'. rewrite app_nil_r in Hf. done.
Qed.

End properties.

(** ** Witnesses *)

Lemma palloc_refines_witness :
  ∃ s', palloc (demo_pmem 3 1) = Ok 0x80103000 s' ∧ free_pages s' [0x80102000].
Proof.
  destruct (palloc_refines (demo_pmem 3 1) [0x80103000; 0x80102000]) as (s' & ? & ? & _).
  { exact (proj1 (demo_pmem_ok 3 1 ltac:(lia) ltac:(lia))). }
  exists s'. split; assumption.
Defined.

Lemma pfree_spec_witness :
  (∃ msg, pfree 0x80101001 (demo_pmem 3 1) = Panic msg) ∧
  (∃ s', pfree 0x80101000 (demo_pmem 3 1) = Ok tt s' ∧
         free_pages s' [0x80101000; 0x80103000; 0x80102000]).
Proof.
  assert (free_pages (demo_pmem 3 1) [0x80103000; 0x80102000]) as Hf.
  { exact (proj1 (demo_pmem_ok 3 1 ltac:(lia) ltac:(lia))). }
  split.
  - apply (pfree_spec _ _ 0x80101001 Hf); [done|]. intros (? & _). done.
  - destruct (pfree_spec _ _ 0x80101000 Hf) as [_ Hok]; [done|].
    destruct Hok as (s' & s'' & ? & ? & _).
    + apply (demo_page 3 0); lia.
    + rewrite !not_elem_of_cons. split_and!; [done..|apply not_elem_of_nil].
    + intros a Ha. rewrite (proj2 (demo_pmem_ok 3 1 ltac:(lia) ltac:(lia))).
      * rewrite demo_lookup, decide_True; [eauto|]. unfold demo_base. lia.
      * unfold demo_base. lia.
    + exists s'. split; assumption.
Defined.

Lemma palloc_init_frees_witness :
  ∃ s', palloc_init 0x80102000 0x80103fff (mkPmem (demo_ram 3) 0) = Ok tt s' ∧
        free_pages s' [0x80102000].
Proof.
  destruct (palloc_init_frees (mkPmem (demo_ram 3) 0) 0x80102000 0x80103fff) as (s' & ? & ? & _).
  - done.
  - done.
  - change kend with 0x80101000. lia.
  - done.
  - intros a Ha. cbn [ram]. rewrite demo_lookup, decide_True; [eauto|]. unfold demo_base. lia.
  - exists s'. split; assumption.
Defined.
