(* ===== verification/PgTbl.v ===== *)
(** * kernel/memory/pgtbl.c: page directories and page tables

    A page directory and a page table are arrays of 1024 words in physical
    memory, reached through the direct map; [PageDir] and [PageTable] wrap a
    pointer, so both are addresses here. *)
From S2P Require Import Prelude Machine CMem CString Palloc.

(** A virtual address mapping *)
Record VMap := mkVMap {
  virt : Z;
  pstart : Z;
  pend : Z;
  perm : Z;
}.

Section pgtbl.
Context `{KernelLayout}.

(** The address of the directory entry *)
Definition get_pde (pgdir vaddr : Z) : Z := pgdir + 4 * page_directory_idx vaddr.

Definition get_pt1 (pde : Z) : M Pmem Z :=
  let! e := with_ram (load32 pde) in ret (P2KA (pte_addr e)).

Definition get_pt (pgdir vaddr : Z) : M Pmem Z := get_pt1 (get_pde pgdir vaddr).

Definition get_pte1 (pde vaddr : Z) : M Pmem Z :=
  let! t := get_pt1 pde in ret (t + 4 * page_table_idx vaddr).

Definition get_pte (pgdir vaddr : Z) : M Pmem Z :=
  let! t := get_pt pgdir vaddr in ret (t + 4 * page_table_idx vaddr).

(** [0] is the failure of [palloc]. *)
Definition walk (pgdir vaddr : Z) : M Pmem Z :=
  let pde := get_pde pgdir vaddr in
  let! e := with_ram (load32 pde) in
  if negb (Z.land e PDE_P =? 0) then get_pte1 pde vaddr else
  let! t := palloc in
  if t =? 0 then ret 0 else
  do! with_ram (memset t 0 PAGE_SZ) in
  do! with_ram (store32 pde (KA2P (Z.lor (Z.lor (Z.lor t PDE_P) PDE_W) PDE_U))) in
  get_pte1 pde vaddr.

(** One round of the loop of [map_pages]; the loop variables are [vstart] and
    [pstart]. *)
Definition map_page (pgdir vend perm : Z) (vp : Z * Z) : M Pmem (Z * Z + bool) :=
  let '(vstart, pstart) := vp in
  if vstart =? vend then ret (inr true) else
  let! pte := walk pgdir vstart in
  if pte =? 0 then ret (inr false) else
  let! e := with_ram (load32 pte) in
  if negb (Z.land e PTE_P =? 0) then panic "map_pages: remap" else
  do! with_ram (store32 pte (Z.lor (Z.lor pstart PTE_P) perm)) in
  ret (inl (u32 (vstart + PAGE_SZ), u32 (pstart + PAGE_SZ))).

(** Fuel: the number of pages from [vstart] round to [vend], and one round to
    leave. *)
Definition map_pages (pgdir : Z) (k : VMap) : M Pmem bool :=
  let size := s32 (pend k - pstart k) in
  let vstart := page_aligndown (virt k) in
  let vend := page_aligndown (u32 (virt k + size)) in
  if (0 <? vstart mod PAGE_SZ) || (0 <? vend mod PAGE_SZ)
  then panic "map_pages: not on page boundry" else
  loop (S (Z.to_nat (u32 (vend - vstart) / PAGE_SZ)))
    (map_page pgdir vend (perm k)) (vstart, pstart k).

(** One round of the loop of [unmap_pages] *)
Definition unmap_page (pgdir vend : Z) (free : bool) (a : Z) : M Pmem (Z + unit) :=
  if negb (a <? vend) then ret (inr tt) else
  let! pte := get_pte pgdir a in
  if pte =? 0 then panic "unmap_pages: get_pte" else
  let! e := with_ram (load32 pte) in
  do! (if Z.land e PTE_P =? 0 then done! else
       let addr := pte_addr e in
       if (PHYSTOP <=? addr) || (P2KA addr <? kend) then done! else
       if free then pfree (P2KA addr) else done!) in
  do! with_ram (store32 pte 0) in
  ret (inl (u32 (a + PAGE_SZ))).

Definition unmap_pages (pgdir vstart n : Z) (free : bool) : M Pmem unit :=
  let vend := u32 (vstart + n * PAGE_SZ) in
  if negb (vstart mod PAGE_SZ =? 0)
  then panic "unmap_pages: virtual address is not aligned" else
  loop (S (Z.to_nat ((vend - vstart) / PAGE_SZ))) (unmap_page pgdir vend free) vstart.

Definition known_flag (flag : Z) : bool :=
  (flag =? PTE_P) || (flag =? PTE_W) || (flag =? PTE_U) || (flag =? PTE_D).

Definition set_pte_flag (pgdir vaddr flag : Z) : M Pmem unit :=
  if negb (known_flag flag) then panic "set_pte_flag: unknown flag" else
  let! pte := get_pte pgdir vaddr in
  if pte =? 0 then panic "set_pte_flag" else
  let! e := with_ram (load32 pte) in
  with_ram (store32 pte (Z.lor e flag)).

Definition clear_pte_flag (pgdir vaddr flag : Z) : M Pmem unit :=
  if negb (known_flag flag) then panic "clear_pte_flag: unknown flag" else
  let! pte := get_pte pgdir vaddr in
  if pte =? 0 then panic "clear_pte_flag" else
  let! e := with_ram (load32 pte) in
  with_ram (store32 pte (Z.land e (Z.lnot flag))).

(** ** Specifications *)

(** The directory [pgdir] has the page tables [pts], by directory index. *)
Record pgdir_wf (m : mem) (pgdir : Z) (pts : gmap Z Z) : Prop := mk_pgdir_wf {
  pw_dir : page_ok pgdir ∧ page_mapped m pgdir;
  pw_some : ∀ i t, pts !! i = Some t →
    0 ≤ i < 1024 ∧ page_ok t ∧ t ≠ pgdir ∧ page_mapped m t ∧
    word m (pgdir + 4 * i) = t - KERN_BASE + 7;
  pw_none : ∀ i, 0 ≤ i < 1024 → pts !! i = None → word m (pgdir + 4 * i) = 0;
  pw_inj : ∀ i j t, pts !! i = Some t → pts !! j = Some t → i = j;
}.

(** Is [p] the directory or one of its tables? *)
Definition table_page (pgdir : Z) (pts : gmap Z Z) (p : Z) : Prop :=
  p = pgdir ∨ ∃ i, pts !! i = Some p.

(** An address space next to the allocator with the free pages [l] *)
Record vm_inv (s : Pmem) (pgdir : Z) (pts : gmap Z Z) (l : list Z) : Prop := mk_vm_inv {
  vi_free : free_pages s l;
  vi_dir : pgdir_wf (ram s) pgdir pts;
  vi_sep : ∀ p, p ∈ l → ¬ table_page pgdir pts p;
}.

(** What the address space maps: the entry of a virtual address, 0 where there
    is no table. *)
Definition pte_of (m : mem) (pts : gmap Z Z) (va : Z) : Z :=
  match pts !! page_directory_idx va with
  | Some t => word m (t + 4 * page_table_idx va)
  | None => 0
  end.

(** The translation the MMU makes with the directory at [pgdir]. *)
Definition translate (m : mem) (pgdir va : Z) : option Z :=
  let pde := word m (pgdir + 4 * page_directory_idx va) in
  if Z.land pde PDE_P =? 0 then None else
  let pte := word m (P2KA (pte_addr pde) + 4 * page_table_idx va) in
  if Z.land pte PTE_P =? 0 then None else Some (pte_addr pte + vaddr_offset va).

(** Pages that are neither free nor tables keep their contents. *)
Definition same_data (pgdir : Z) (pts : gmap Z Z) (l : list Z) (m m' : mem) : Prop :=
  ∀ q, page_aligned q → q ∉ l → ¬ table_page pgdir pts q →
  ∀ a, q ≤ a < q + 4096 → m' !! a = m !! a.

(** From one state of the address space to a later one: pages moved from the
    allocator to the tables, and nothing else was touched. *)
Record vm_grows (pgdir : Z) (s : Pmem) (pts : gmap Z Z) (l : list Z)
    (s' : Pmem) (pts' : gmap Z Z) (l' : list Z) : Prop := mk_vm_grows {
  vg_inv : vm_inv s' pgdir pts' l';
  vg_data : same_data pgdir pts l (ram s) (ram s');
  vg_pages : ∀ q, q ∈ l' ∨ table_page pgdir pts' q → q ∈ l ∨ table_page pgdir pts q;
  vg_mapped : ∀ q, page_mapped (ram s) q → page_mapped (ram s') q;
  vg_count : (length l' + size pts' = length l + size pts)%nat;
  vg_tables : pts ⊆ pts';
}.

(** ** Lemmas *)

Lemma pdx_range va : 0 ≤ page_directory_idx va < 1024.
Proof. rewrite page_directory_idx_eq. apply Z.mod_pos_bound. lia. Qed.

Lemma ptx_range va : 0 ≤ page_table_idx va < 1024.
Proof. rewrite page_table_idx_eq. apply Z.mod_pos_bound. lia. Qed.

Lemma table_page_ok m pgdir pts p : pgdir_wf m pgdir pts → table_page pgdir pts p → page_ok p ∧ page_mapped m p.
Proof.
  intros [Hd Hs _ _] [->|[i Hi]]; [done|]. destruct (Hs i p Hi) as (_ & ? & _ & ? & _). done.
Qed.

(** A write that misses the directory *)
Lemma pgdir_wf_write m pgdir pts q d :
  pgdir_wf m pgdir pts → pgdir + 4096 ≤ q ∨ q + zlen d ≤ pgdir →
  pgdir_wf (write q d m) pgdir pts.
Proof.
  intros [[Hd Hm] Hs Hn Hi] Hq. split; [|..|done].
  - split; [done|]. by apply page_mapped_write.
  - intros i t Ht. destruct (Hs i t Ht) as (Hr & Ho & Hne & Hmt & Hw).
    split_and!; [lia..|done|done|by apply page_mapped_write|].
    rewrite word_write_disjoint by lia. done.
  - intros i Hr Hnone. rewrite word_write_disjoint by lia. by apply Hn.
Qed.

Lemma lor_pde t : page_aligned t → Z.lor (Z.lor (Z.lor t PDE_P) PDE_W) PDE_U = t + 7.
Proof.
  intros. rewrite <- !Z.lor_assoc. change (Z.lor PDE_P (Z.lor PDE_W PDE_U)) with 7.
  by apply lor_flags.
Qed.

Lemma pde_split t : page_aligned t → 4096 * ((t - 0x80000000 + 7) / 4096) = t - 0x80000000.
Proof. unfold page_aligned. intros. Z.div_mod_to_equations. lia. Qed.

(** Reading the directory *)
Lemma load_pde s pgdir pts l va :
  vm_inv s pgdir pts l →
  with_ram (load32 (get_pde pgdir va)) s = Ok (word (ram s) (get_pde pgdir va)) s.
Proof.
  intros [_ [[_ Hm] _ _ _] _]. unfold with_ram. apply wp_eq. rewrite wp_zoom.
  eapply wp_ok; [apply load32_word|by destruct s].
  pose proof (pdx_range va). unfold get_pde. eapply page_mapped_range; [done|lia..].
Qed.

Lemma pde_present s pgdir pts l va t :
  vm_inv s pgdir pts l → pts !! page_directory_idx va = Some t →
  let e := word (ram s) (get_pde pgdir va) in
  (Z.land e PDE_P =? 0) = false ∧ P2KA (pte_addr e) = t.
Proof.
  intros [_ [_ Hs _ _] _] Ht. destruct (Hs _ _ Ht) as (_ & [Hr Ha]%page_ok_range & _ & _ & Hw).
  unfold get_pde. cbn zeta. rewrite Hw, land_present, pte_addr_eq.
  unfold KERN_LINK, KERN_BASE, EXTMEM in *. clear - Hr Ha.
  rewrite (pde_split t) by done. split.
  - apply Z.eqb_neq. unfold page_aligned in Ha. clear Hr. Z.div_mod_to_equations. lia.
  - rewrite P2KA_small; unfold KERN_BASE; lia.
Qed.

Lemma pde_absent s pgdir pts l va :
  vm_inv s pgdir pts l → pts !! page_directory_idx va = None →
  (Z.land (word (ram s) (get_pde pgdir va)) PDE_P =? 0) = true.
Proof.
  intros [_ [_ _ Hn _] _] Ht. unfold get_pde. by rewrite (Hn _ (pdx_range va) Ht).
Qed.

Lemma get_pte1_ok s pgdir pts l va t :
  vm_inv s pgdir pts l → pts !! page_directory_idx va = Some t →
  get_pte1 (get_pde pgdir va) va s = Ok (t + 4 * page_table_idx va) s.
Proof.
  intros Hi Ht. destruct (pde_present _ _ _ _ _ _ Hi Ht) as [_ Ha].
  unfold get_pte1, get_pt1. unfold bind at 1. rewrite (bind_ok _ _ _ _ _ (load_pde _ _ _ _ _ Hi)).
  unfold ret. by rewrite Ha.
Qed.

Lemma get_pte_ok s pgdir pts l va t :
  vm_inv s pgdir pts l → pts !! page_directory_idx va = Some t →
  get_pte pgdir va s = Ok (t + 4 * page_table_idx va) s.
Proof. apply get_pte1_ok. Qed.

(** The entry of an address can be read and written. *)
Lemma pte_slot s pgdir pts l va t :
  vm_inv s pgdir pts l → pts !! page_directory_idx va = Some t →
  mapped (ram s) (t + 4 * page_table_idx va) 4 ∧ t + 4 * page_table_idx va ≠ 0.
Proof.
  intros [_ [_ Hs _ _] _] Ht. destruct (Hs _ _ Ht) as (_ & [Hr _]%page_ok_range & _ & Hm & _).
  pose proof (ptx_range va). split.
  - eapply page_mapped_range; [done|lia..].
  - unfold KERN_LINK, KERN_BASE, EXTMEM in *. lia.
Qed.

Lemma load_pte s pgdir pts l va t :
  vm_inv s pgdir pts l → pts !! page_directory_idx va = Some t →
  with_ram (load32 (t + 4 * page_table_idx va)) s = Ok (pte_of (ram s) pts va) s.
Proof.
  intros Hi Ht. destruct (pte_slot _ _ _ _ _ _ Hi Ht) as [Hm _].
  unfold with_ram. apply wp_eq. rewrite wp_zoom. eapply wp_ok; [by apply load32_word|].
  unfold pte_of. rewrite Ht. by destruct s.
Qed.

(** The words of two tables are different places. *)
Lemma table_words_disjoint m pgdir pts i j t u a b :
  pgdir_wf m pgdir pts → pts !! i = Some t → pts !! j = Some u →
  0 ≤ a < 1024 → 0 ≤ b < 1024 → (i, a) ≠ (j, b) →
  t + 4 * a + 4 ≤ u + 4 * b ∨ u + 4 * b + 4 ≤ t + 4 * a.
Proof.
  intros [_ Hs _ Hinj] Ht Hu Ha Hb Hne.
  destruct (decide (t = u)) as [->|Htu].
  - assert (i = j) as -> by eauto. assert (a ≠ b) by congruence. lia.
  - destruct (Hs _ _ Ht) as (_ & (Hta & _) & _). destruct (Hs _ _ Hu) as (_ & (Hua & _) & _).
    destruct (pages_disjoint t u Hta Hua Htu); lia.
Qed.

(** Writing the entry of [va] changes the mapping of its page and nothing else. *)
Lemma store_pte s pgdir pts l va t e :
  vm_inv s pgdir pts l → pts !! page_directory_idx va = Some t →
  let s' := mkPmem (write (t + 4 * page_table_idx va) (le_bytes 4 e) (ram s)) (freelist s) in
  with_ram (store32 (t + 4 * page_table_idx va) e) s = Ok tt s' ∧
  vm_inv s' pgdir pts l ∧
  (∀ va', pte_of (ram s') pts va' =
     if decide (page_directory_idx va' = page_directory_idx va ∧
                page_table_idx va' = page_table_idx va) then u32 e
     else pte_of (ram s) pts va') ∧
  same_data pgdir pts l (ram s) (ram s').
Proof.
  intros Hi Ht. cbn zeta. destruct (pte_slot _ _ _ _ _ _ Hi Ht) as [Hm _].
  pose proof (ptx_range va) as Hx. destruct Hi as [Hf Hw Hsep].
  pose proof (pw_some _ _ _ Hw _ _ Ht) as (_ & (Hta & _) & Htd & _ & _).
  pose proof (pw_dir _ _ _ Hw) as [(Hda & _) _].
  assert (zlen (le_bytes 4 e) = 4) as Hlen by done.
  split_and!.
  - unfold with_ram. apply wp_eq. rewrite wp_zoom. eapply wp_ok; [by apply store32_ok|done].
  - split; cbn.
    + apply free_pages_write; [done|]. pose proof (fp_ok _ _ Hf) as Hok.
      rewrite Forall_forall in Hok |- *. intros p Hp. destruct (Hok p Hp) as (Hpa & _).
      assert (p ≠ t) as Hpt.
      { intros ->. apply (Hsep t Hp). right. eauto. }
      destruct (pages_disjoint p t Hpa Hta Hpt); lia.
    + apply pgdir_wf_write; [done|]. destruct (pages_disjoint t pgdir Hta Hda Htd); lia.
    + done.
  - intros va'. unfold pte_of. cbn [ram]. destruct (pts !! page_directory_idx va') as [u|] eqn:Hu.
    + case_decide as Heq.
      * destruct Heq as [Hd Hp]. rewrite Hd in Hu. rewrite Ht in Hu. simplify_eq. rewrite Hp.
        apply word_write_same.
      * apply word_write_disjoint. rewrite Hlen.
        destruct (table_words_disjoint _ _ _ _ _ _ _ _ _ Hw Hu Ht (ptx_range va') Hx); [|lia..].
        intros [= ? ?]. by apply Heq.
    + rewrite decide_False; [done|]. intros [Hd _]. congruence.
  - intros q Hqa _ Hqt a Ha. cbn [ram]. rewrite lookup_write, decide_False; [done|]. rewrite Hlen.
    assert (q ≠ t) as Hqt' by (intros ->; apply Hqt; right; eauto).
    destruct (pages_disjoint q t Hqa Hta Hqt'); lia.
Qed.

(** A new entry of the directory *)
Lemma pgdir_wf_insert m pgdir pts i p :
  pgdir_wf m pgdir pts → pts !! i = None → 0 ≤ i < 1024 →
  page_ok p → page_mapped m p → ¬ table_page pgdir pts p →
  pgdir_wf (write (pgdir + 4 * i) (le_bytes 4 (p - KERN_BASE + 7)) m) pgdir (<[i := p]> pts).
Proof.
  intros Hw Hnone Hi Hpo Hpm Hpt. pose proof (page_ok_range p Hpo) as [Hpr _].
  destruct (pw_dir _ _ _ Hw) as [Hdo Hdm]. split.
  - split; [done|]. by apply page_mapped_write.
  - intros j t. destruct (decide (j = i)) as [->|Hj].
    + rewrite lookup_insert_eq. intros [= <-].
      assert (p ≠ pgdir) by (intros ->; apply Hpt; by left).
      split_and!; [lia..|done|done|by apply page_mapped_write|].
      rewrite word_write_same. unfold KERN_LINK, KERN_BASE, EXTMEM in *. rewrite u32_small; lia.
    + rewrite lookup_insert_ne by done. intros Ht.
      destruct (pw_some _ _ _ Hw _ _ Ht) as (Hr & Ho & Hne & Hmt & Hwt).
      split_and!; [lia..|done|done|by apply page_mapped_write|].
      rewrite word_write_disjoint; [done|]. unfold zlen. rewrite length_le_bytes. lia.
  - intros j Hj. destruct (decide (j = i)) as [->|Hji]; [by rewrite lookup_insert_eq|].
    rewrite lookup_insert_ne by done. intros Ht.
    rewrite word_write_disjoint by (unfold zlen; rewrite length_le_bytes; lia).
    by apply (pw_none _ _ _ Hw).
  - intros j k t. destruct (decide (j = i)) as [->|Hji], (decide (k = i)) as [->|Hki];
      rewrite ?lookup_insert_eq, ?lookup_insert_ne by done; [done| | |by apply (pw_inj _ _ _ Hw)].
    all: intros Ht Hu; simplify_eq; exfalso; apply Hpt; right; eauto.
Qed.

Lemma table_page_insert pgdir pts i p q :
  table_page pgdir (<[i := p]> pts) q → q = p ∨ table_page pgdir pts q.
Proof.
  intros [->|[j Hj]]; [by right; left|]. destruct (decide (j = i)) as [->|].
  - rewrite lookup_insert_eq in Hj. left. congruence.
  - rewrite lookup_insert_ne in Hj by done. right. right. eauto.
Qed.

(** What [memset(p, 0, PAGE_SZ)] writes *)
Definition zero_page : list Z := replicate (Z.to_nat PAGE_SZ) (u8 0).

Lemma zlen_zero_page : zlen zero_page = 4096.
Proof. unfold zlen, zero_page. by rewrite length_replicate. Qed.

Lemma word_zero_page m p q : p ≤ q → q + 4 ≤ p + 4096 → word (write p zero_page m) q = 0.
Proof.
  intros. unfold zero_page. change (u8 0) with 0. apply word_write_zeros; [done|].
  by rewrite Z2Nat.id.
Qed.

Lemma memset_page m p : page_mapped m p → memset p 0 PAGE_SZ m = Ok p (write p zero_page m).
Proof.
  intros Hp. apply memset_ok; [done|]. eapply page_mapped_range; [exact Hp|done|].
  by rewrite Z2Nat.id.
Qed.

#[global] Opaque zero_page.

(** The memory after [walk] entered the zeroed page [p] as table [i]. *)
Definition with_table (m : mem) (pgdir i p : Z) : mem :=
  write (pgdir + 4 * i) (le_bytes 4 (p - KERN_BASE + 7)) (write p zero_page m).

Lemma with_table_pte m pgdir pts i p va :
  pgdir_wf m pgdir pts → pts !! i = None → 0 ≤ i < 1024 →
  page_ok p → ¬ table_page pgdir pts p →
  pte_of (with_table m pgdir i p) (<[i := p]> pts) va = pte_of m pts va.
Proof.
  intros Hw Hnone Hi (Hpa & _) Hpt. unfold pte_of, with_table.
  destruct (pw_dir _ _ _ Hw) as [(Hda & _) _]. pose proof (ptx_range va) as Hx.
  assert (p ≠ pgdir) as Hpd by (intros ->; apply Hpt; by left).
  assert (zlen (le_bytes 4 (p - KERN_BASE + 7)) = 4) as Hl by done.
  pose proof zlen_zero_page as Hz.
  destruct (decide (page_directory_idx va = i)) as [->|Hne].
  - rewrite lookup_insert_eq, Hnone. destruct (pages_disjoint p pgdir Hpa Hda Hpd).
    all: rewrite word_write_disjoint, word_zero_page; [done|lia..].
  - rewrite lookup_insert_ne by done. destruct (pts !! page_directory_idx va) as [t|] eqn:Ht; [|done].
    destruct (pw_some _ _ _ Hw _ _ Ht) as (_ & (Hta & _) & Htd & _ & _).
    assert (t ≠ p) as Htp by (intros ->; apply Hpt; right; eauto).
    rewrite word_write_disjoint, word_write_disjoint; [done|..].
    + rewrite Hz. destruct (pages_disjoint t p Hta Hpa Htp); lia.
    + rewrite Hl. destruct (pages_disjoint t pgdir Hta Hda Htd); lia.
Qed.

Lemma with_table_inv s pgdir pts p l i r :
  vm_inv s pgdir pts (p :: l) → pts !! i = None → 0 ≤ i < 1024 →
  free_pages (mkPmem (ram s) r) l →
  vm_inv (mkPmem (with_table (ram s) pgdir i p) r) pgdir (<[i := p]> pts) l ∧
  same_data pgdir pts (p :: l) (ram s) (with_table (ram s) pgdir i p).
Proof.
  intros [Hf Hw Hsep] Hnone Hi Hf1.
  pose proof (fp_ok _ _ Hf) as Hok. apply Forall_cons in Hok as [Hpo Hlo].
  pose proof (fp_mapped _ _ Hf) as Hmm. apply Forall_cons in Hmm as [Hpm _].
  pose proof (fp_nodup _ _ Hf) as Hnd. apply NoDup_cons in Hnd as [Hpl _].
  pose proof (Hsep p (elem_head _ _)) as Hpt.
  assert (p ≠ pgdir) as Hpd by (intros ->; apply Hpt; by left).
  pose proof Hpo as (Hpa & _). destruct (pw_dir _ _ _ Hw) as [Hdo _]. pose proof Hdo as (Hda & _).
  pose proof (pages_disjoint p pgdir Hpa Hda Hpd) as Hdj.
  assert (zlen (le_bytes 4 (p - KERN_BASE + 7)) = 4) as Hl by done.
  pose proof zlen_zero_page as Hz.
  split; [split; cbn [ram]|].
  - apply (free_pages_write (mkPmem (write p zero_page (ram s)) r)).
    + apply (free_pages_write (mkPmem (ram s) r)); [done|]. rewrite Hz.
      rewrite Forall_forall in Hlo |- *. intros q Hq. destruct (Hlo q Hq) as (Hqa & _).
      assert (q ≠ p) as Hqp by congruence. by apply pages_disjoint.
    + rewrite Hl. rewrite Forall_forall in Hlo |- *. intros q Hq. destruct (Hlo q Hq) as (Hqa & _).
      assert (q ≠ pgdir) as Hqd.
      { intros ->. apply (Hsep pgdir (elem_tail _ _ _ Hq)). by left. }
      destruct (pages_disjoint q pgdir Hqa Hda Hqd); lia.
  - apply pgdir_wf_insert; [|exact Hnone|exact Hi|exact Hpo|by apply page_mapped_write|exact Hpt].
    apply pgdir_wf_write; [exact Hw|rewrite Hz; lia].
  - intros q Hq [->|Hqt]%table_page_insert; [exact (Hpl Hq)|].
    exact (Hsep q (elem_tail _ _ _ Hq) Hqt).
  - intros q Hqa Hql Hqt a Ha. unfold with_table.
    assert (q ≠ p) as Hqp by (intros ->; apply Hql, elem_head).
    assert (q ≠ pgdir) as Hqd by (intros ->; apply Hqt; by left).
    rewrite !lookup_write, Hl, Hz.
    rewrite decide_False by (destruct (pages_disjoint q pgdir Hqa Hda Hqd); lia).
    by rewrite decide_False by (destruct (pages_disjoint q p Hqa Hpa Hqp); lia).
Qed.

Lemma vm_grows_refl pgdir s pts l : vm_inv s pgdir pts l → vm_grows pgdir s pts l s pts l.
Proof. intros Hi. split; [done| |tauto|done|done|done]. by intros q ? ? ? a ?. Qed.

Lemma vm_grows_trans pgdir s1 pts1 l1 s2 pts2 l2 s3 pts3 l3 :
  vm_grows pgdir s1 pts1 l1 s2 pts2 l2 → vm_grows pgdir s2 pts2 l2 s3 pts3 l3 →
  vm_grows pgdir s1 pts1 l1 s3 pts3 l3.
Proof.
  intros [I1 D1 P1 M1 C1 T1] [I2 D2 P2 M2 C2 T2]. split; [done| |auto|auto|lia|by etrans].
  intros q Hqa Hql Hqt a Ha. rewrite (D2 q Hqa), (D1 q Hqa Hql Hqt a Ha); [done| | |done].
  - intros Hq. destruct (P1 q (or_introl Hq)); [by apply Hql|by apply Hqt].
  - intros Hq. destruct (P1 q (or_intror Hq)); [by apply Hql|by apply Hqt].
Qed.

(** A directory has at most 1024 tables, so pages run out late. *)
Lemma tables_bound m pgdir pts : pgdir_wf m pgdir pts → (size pts ≤ Z.to_nat NPDES)%nat.
Proof.
  intros Hw. rewrite <- size_dom.
  trans (size (list_to_set (seqZ 0 NPDES) : gset Z)).
  - apply subseteq_size. intros i [t Ht]%elem_of_dom.
    destruct (pw_some _ _ _ Hw _ _ Ht) as (Hr & _).
    apply elem_of_list_to_set, elem_of_seqZ. unfold NPDES. lia.
  - rewrite size_list_to_set by apply NoDup_seqZ. rewrite length_seqZ. done.
Qed.

(** [walk]: an existing table is used; a missing one is made of a free page,
    unless there is none. *)
Lemma walk_found s pgdir pts l va t :
  vm_inv s pgdir pts l → pts !! page_directory_idx va = Some t →
  walk pgdir va s = Ok (t + 4 * page_table_idx va) s.
Proof.
  intros Hi Ht. unfold walk. rewrite (bind_ok _ _ _ _ _ (load_pde _ _ _ _ _ Hi)).
  destruct (pde_present _ _ _ _ _ _ Hi Ht) as [-> _]. by eapply get_pte1_ok.
Qed.

Lemma walk_full s pgdir pts va :
  vm_inv s pgdir pts [] → pts !! page_directory_idx va = None → walk pgdir va s = Ok 0 s.
Proof.
  intros Hi Ht. unfold walk. rewrite (bind_ok _ _ _ _ _ (load_pde _ _ _ _ _ Hi)).
  rewrite (pde_absent _ _ _ _ _ Hi Ht). cbn [negb].
  by rewrite (bind_ok _ _ _ _ _ (palloc_none _ (vi_free _ _ _ _ Hi))).
Qed.

Lemma walk_new s pgdir pts p l va :
  vm_inv s pgdir pts (p :: l) → pts !! page_directory_idx va = None →
  walk pgdir va s =
    Ok (p + 4 * page_table_idx va)
       (mkPmem (with_table (ram s) pgdir (page_directory_idx va) p) (word (ram s) p)).
Proof.
  intros Hi Ht. unfold walk. rewrite (bind_ok _ _ _ _ _ (load_pde _ _ _ _ _ Hi)).
  rewrite (pde_absent _ _ _ _ _ Hi Ht). cbn [negb].
  destruct (palloc_some _ _ _ (vi_free _ _ _ _ Hi)) as [Hp Hf1].
  rewrite (bind_ok _ _ _ _ _ Hp). pose proof (fp_ok _ _ (vi_free _ _ _ _ Hi)) as Hok.
  apply Forall_cons in Hok as [Hpo _]. rewrite (proj2 (Z.eqb_neq p 0)) by by apply page_ok_nonzero.
  pose proof (fp_mapped _ _ (vi_free _ _ _ _ Hi)) as Hmm. apply Forall_cons in Hmm as [Hpm _].
  apply wp_eq. rewrite wp_bind. unfold with_ram. rewrite wp_zoom.
  eapply wp_ok.
  { by apply memset_page. }
  cbn [ram freelist].
  rewrite wp_bind, wp_zoom. eapply wp_ok.
  { apply store32_ok. cbn [ram].
    destruct (pw_dir _ _ _ (vi_dir _ _ _ _ Hi)) as [_ Hdm]. pose proof (pdx_range va).
    unfold get_pde. eapply page_mapped_range; [apply page_mapped_write, Hdm|lia..]. }
  pose proof (page_ok_range p Hpo) as [Hr Ha].
  rewrite lor_pde by done. unfold KERN_LINK, EXTMEM in *. rewrite KA2P_small by (unfold KERN_BASE in *; lia).
  replace (p + 7 - KERN_BASE) with (p - KERN_BASE + 7) by lia.
  destruct (with_table_inv _ _ _ _ _ _ _ Hi Ht (pdx_range va) Hf1) as [Hi' _].
  eapply wp_ok; [|done]. eapply get_pte1_ok; [exact Hi'|]. apply lookup_insert_eq.
Qed.

(** The three cases together: the address space before and after. *)
Lemma walk_ok s pgdir pts l va :
  vm_inv s pgdir pts l →
  wp (walk pgdir va) s (λ r s', ∃ pts' l',
    vm_grows pgdir s pts l s' pts' l' ∧
    (∀ va', pte_of (ram s') pts' va' = pte_of (ram s) pts va') ∧
    (∀ i t, pts' !! i = Some t → pts !! i = Some t ∨ i = page_directory_idx va) ∧
    if r =? 0 then l' = [] else ∃ t, pts' !! page_directory_idx va = Some t ∧
                                      r = t + 4 * page_table_idx va).
Proof.
  intros Hi. destruct (pts !! page_directory_idx va) as [t|] eqn:Ht.
  - eapply wp_ok; [by eapply walk_found|]. exists pts, l.
    destruct (pte_slot _ _ _ _ _ _ Hi Ht) as [_ Hnz]. apply Z.eqb_neq in Hnz. rewrite Hnz.
    split_and!; [by apply vm_grows_refl|done|by left|by exists t].
  - destruct l as [|p l].
    { eapply wp_ok; [by eapply walk_full|]. exists pts, [].
      split_and!; [by apply vm_grows_refl|done|by left|done]. }
    eapply wp_ok; [by eapply walk_new|]. cbn [ram].
    destruct (palloc_some _ _ _ (vi_free _ _ _ _ Hi)) as [_ Hf1].
    destruct (with_table_inv _ _ _ _ _ _ _ Hi Ht (pdx_range va) Hf1) as [Hi' Hsd].
    exists (<[page_directory_idx va := p]> pts), l.
    pose proof (pte_slot _ _ _ _ va p Hi' (lookup_insert_eq _ _ _)) as [_ Hnz].
    apply Z.eqb_neq in Hnz. rewrite Hnz. split; [split|split; [|split]].
    + exact Hi'.
    + exact Hsd.
    + intros q [Hq|[->|Hq]%table_page_insert]; [left; by apply elem_tail|left; apply elem_head|by right].
    + intros q Hq. by apply page_mapped_write, page_mapped_write.
    + cbn [length]. rewrite map_size_insert_None by done. lia.
    + by apply insert_subseteq.
    + intros va'. pose proof (fp_ok _ _ (vi_free _ _ _ _ Hi)) as Hok.
      apply Forall_cons in Hok as [Hpo _].
      apply with_table_pte; [apply Hi|done|apply pdx_range|done|].
      apply (vi_sep _ _ _ _ Hi), elem_head.
    + intros i t. destruct (decide (i = page_directory_idx va)) as [->|Hne]; [by right|].
      rewrite lookup_insert_ne by done. by left.
    + exists p. by rewrite lookup_insert_eq.
Qed.

(** One round of [map_pages] on an address that is not mapped *)
Lemma map_page_ok s pgdir pts l vend pm va pa :
  vm_inv s pgdir pts l → va ≠ vend → Z.land (pte_of (ram s) pts va) PTE_P = 0 →
  wp (map_page pgdir vend pm (va, pa)) s (λ r s', ∃ pts' l',
    vm_grows pgdir s pts l s' pts' l' ∧
    (∀ i t, pts' !! i = Some t → pts !! i = Some t ∨ i = page_directory_idx va) ∧
    match r with
    | inl vp => vp = (u32 (va + PAGE_SZ), u32 (pa + PAGE_SZ)) ∧
        ∀ va', pte_of (ram s') pts' va' =
          if decide (page_directory_idx va' = page_directory_idx va ∧
                     page_table_idx va' = page_table_idx va)
          then u32 (Z.lor (Z.lor pa PTE_P) pm) else pte_of (ram s) pts va'
    | inr b => b = false ∧ l' = [] ∧ ∀ va', pte_of (ram s') pts' va' = pte_of (ram s) pts va'
    end).
Proof.
  intros Hi Hne Hfree. unfold map_page. apply Z.eqb_neq in Hne. rewrite Hne, wp_bind.
  wp_apply walk_ok; [exact Hi|].
  intros r s1 (pts1 & l1 & Hg & Hpte & Hdom & Hr). destruct (r =? 0) eqn:Hr0.
  { rewrite wp_ret. by exists pts1, l1. }
  pose proof (vg_inv _ _ _ _ _ _ _ Hg) as Hi1.
  destruct Hr as (t & Ht & ->). rewrite wp_bind.
  eapply wp_ok; [by eapply load_pte|]. cbn beta. rewrite Hpte, Hfree. cbn [Z.eqb negb].
  rewrite wp_bind.
  destruct (store_pte _ _ _ _ _ _ (Z.lor (Z.lor pa PTE_P) pm) Hi1 Ht) as (Hst & Hi2 & Hp2 & Hsd2).
  eapply wp_ok; [exact Hst|]. cbn beta. rewrite wp_ret. exists pts1, l1.
  split; [|split; [exact Hdom|split; [done|]]].
  - eapply vm_grows_trans; [exact Hg|]. split; [exact Hi2|exact Hsd2|tauto| |done|done].
    intros q. apply page_mapped_write.
  - intros va'. rewrite Hp2. case_decide; [done|]. apply Hpte.
Qed.

(** Two page-aligned addresses with the same indices are the same. *)
Lemma same_page va va' :
  page_aligned va → 0 ≤ va < 4294967296 → 0 ≤ va' < 4294967296 →
  (page_directory_idx va' = page_directory_idx va ∧ page_table_idx va' = page_table_idx va)
  ↔ va ≤ va' < va + 4096.
Proof.
  unfold page_aligned. intros Ha Hr Hr'. split.
  - intros [Hd Ht]. pose proof (page_indices_inj va' va Hr' Hr Hd Ht).
    Z.div_mod_to_equations. lia.
  - intros Hv. rewrite !page_directory_idx_eq, !page_table_idx_eq.
    assert (va' / 4096 = va / 4096) as -> by (Z.div_mod_to_equations; lia).
    assert (va' / 4194304 = va / 4194304) as ->; [|done].
    change 4194304 with (4096 * 1024). rewrite <- !Z.div_div by lia.
    by assert (va' / 4096 = va / 4096) as -> by (Z.div_mod_to_equations; lia).
Qed.

(** The entries that mapping [j] pages from [va] on produces *)
Definition mapped_entries (m m' : mem) (pts pts' : gmap Z Z) (va pa pm j : Z) : Prop :=
  ∀ va', 0 ≤ va' < 4294967296 → pte_of m' pts' va' =
    if decide (va ≤ va' < va + 4096 * j)
    then Z.lor (Z.lor (pa + 4096 * ((va' - va) / 4096)) PTE_P) pm
    else pte_of m pts va'.

(** The tables [pts'] that are not in [pts] are for addresses from [va] to [vend]. *)
Definition tables_within (pts pts' : gmap Z Z) (va vend : Z) : Prop :=
  ∀ i t, pts' !! i = Some t → pts !! i = Some t ∨ va / 4194304 ≤ i ≤ (vend - 1) / 4194304.

Lemma map_loop_ok (n : nat) s pgdir pts l vend pm va pa :
  vm_inv s pgdir pts l → page_aligned va → page_aligned pa →
  0 ≤ va < 4294967296 → va + 4096 * n ≤ 4294967296 →
  0 ≤ pa → pa + 4096 * n ≤ 4294967296 → 0 ≤ pm < 4096 →
  vend = u32 (va + 4096 * n) → va + 4096 * n < 4294967296 ∨ 0 < va →
  (∀ va', va ≤ va' < va + 4096 * n → Z.land (pte_of (ram s) pts va') PTE_P = 0) →
  wp (loop (S n) (map_page pgdir vend pm) (va, pa)) s (λ ok s', ∃ pts' l' (j : nat),
    vm_grows pgdir s pts l s' pts' l' ∧ (j ≤ n)%nat ∧
    (if ok : bool then j = n else l' = []) ∧
    mapped_entries (ram s) (ram s') pts pts' va pa pm j ∧ tables_within pts pts' va (va + 4096 * n)).
Proof.
  revert s pts l va pa. induction n as [|n IH];
    intros s pts l va pa Hi Hva Hpa Hvr Hvn Hpr Hpn Hpm Hend Hw Hfree;
    rewrite wp_loop_S.
  { unfold map_page. rewrite u32_small in Hend by lia.
    rewrite (proj2 (Z.eqb_eq va vend)) by lia. rewrite wp_ret.
    exists pts, l, 0%nat. split_and!; [by apply vm_grows_refl|lia|done| |intros i t; by left].
    intros va' ?. by rewrite decide_False by lia. }
  assert (va ≠ vend) as Hne.
  { rewrite Hend. destruct (decide (va + 4096 * S n = 4294967296)) as [He|].
    - rewrite He. change (u32 4294967296) with 0. lia.
    - rewrite u32_small; lia. }
  wp_apply map_page_ok; [exact Hi|exact Hne|apply Hfree; lia|].
  destruct (entry_range pa pm Hpa ltac:(lia) Hpm) as (Her & _ & _).
  intros r s1 (pts1 & l1 & Hg1 & Hd1 & Hr). pose proof (vg_inv _ _ _ _ _ _ _ Hg1) as Hi1.
  assert (tables_within pts pts1 va (va + 4096 * S n)) as Hd1'.
  { intros i t Hi'. destruct (Hd1 i t Hi') as [|Hp]; [by left|right]. rewrite Hp, page_directory_idx_eq.
    clear - Hvr Hvn. Z.div_mod_to_equations. lia. }
  destruct r as [[va1 pa1]|b].
  2:{ destruct Hr as (-> & -> & Hpte). exists pts1, [], 0%nat.
      split_and!; [done|lia|done| |done]. intros va' _. rewrite decide_False by lia. apply Hpte. }
  destruct Hr as [[= -> ->] Hpte]. rewrite u32_small in Hpte by done.
  assert (∀ va', 0 ≤ va' < 4294967296 → pte_of (ram s1) pts1 va' =
    if decide (va ≤ va' < va + 4096) then Z.lor (Z.lor pa PTE_P) pm
    else pte_of (ram s) pts va') as Hpte1.
  { intros va' Hr'. rewrite Hpte. pose proof (same_page va va' Hva Hvr Hr').
    repeat case_decide; tauto. }
  unfold PAGE_SZ. destruct (decide (n = 0%nat)) as [->|Hn].
  - rewrite wp_loop_S. unfold map_page.
    replace (va + 4096 * 1%nat) with (va + 4096) in * by lia.
    rewrite Hend, Z.eqb_refl, wp_ret. exists pts1, l1, 1%nat.
    split_and!; [done|lia|done| |exact Hd1']. intros va' Hr'. rewrite Hpte1 by done.
    repeat case_decide; try lia.
    replace ((va' - va) / 4096) with 0 by (Z.div_mod_to_equations; lia).
    by rewrite Z.mul_0_r, Z.add_0_r.
  - rewrite !(u32_small (_ + 0x1000)) by lia. change 0x1000 with 4096.
    assert (vend = u32 (va + 4096 + 4096 * n)) as Hend1 by (rewrite Hend; f_equal; lia).
    wp_apply IH; [exact Hi1| | |lia|lia|lia|lia|exact Hpm|exact Hend1|lia| |].
    { unfold page_aligned in *. Z.div_mod_to_equations. lia. }
    { unfold page_aligned in *. Z.div_mod_to_equations. lia. }
    { intros va' Hr'. rewrite Hpte1, decide_False by lia. apply Hfree. lia. }
    intros ok s2 (pts2 & l2 & j & Hg2 & Hj & Hok & Hent & Hd2).
    exists pts2, l2, (S j). split_and!; [..|intros i t Hi'; destruct (Hd2 i t Hi') as [Hi2|Hi2]; [by apply Hd1'|right];
      clear - Hi2; Z.div_mod_to_equations; lia].
    + by eapply vm_grows_trans.
    + lia.
    + destruct ok; [lia|done].
    + intros va' Hr'. rewrite Hent, Hpte1 by done.
      repeat case_decide; try lia; try done.
      * do 2 f_equal. Z.div_mod_to_equations. lia.
      * replace ((va' - va) / 4096) with 0 by (Z.div_mod_to_equations; lia).
        by rewrite Z.mul_0_r, Z.add_0_r.
Qed.

(** Mapping [n] pages from an aligned address *)
Lemma map_pages_in (n : nat) s pgdir pts l k :
  vm_inv s pgdir pts l → page_aligned (virt k) → page_aligned (pstart k) →
  0 ≤ virt k < 4294967296 → virt k + 4096 * n ≤ 4294967296 →
  0 ≤ pstart k → pstart k + 4096 * n ≤ 4294967296 → 0 ≤ perm k < 4096 →
  4096 * n < 2147483648 → pend k = u32 (pstart k + 4096 * n) →
  (∀ va, virt k ≤ va < virt k + 4096 * n → Z.land (pte_of (ram s) pts va) PTE_P = 0) →
  wp (map_pages pgdir k) s (λ ok s', ∃ pts' l' (j : nat),
    vm_grows pgdir s pts l s' pts' l' ∧ (j ≤ n)%nat ∧
    (if ok : bool then j = n else l' = []) ∧
    mapped_entries (ram s) (ram s') pts pts' (virt k) (pstart k) (perm k) j ∧
    tables_within pts pts' (virt k) (virt k + 4096 * n)).
Proof.
  intros Hi Hva Hpa Hvr Hvn Hpr Hpn Hpm Hn Hpend Hfree. unfold map_pages.
  assert (s32 (pend k - pstart k) = 4096 * n) as ->.
  { rewrite Hpend. unfold s32, u32. clear - Hpr Hpn Hn. Z.div_mod_to_equations. lia. }
  rewrite !page_aligndown_eq.
  assert (4096 * (virt k / 4096) = virt k) as ->.
  { unfold page_aligned in Hva. clear - Hva. Z.div_mod_to_equations. lia. }
  assert (4096 * (u32 (virt k + 4096 * n) / 4096) = u32 (virt k + 4096 * n)) as ->.
  { unfold page_aligned, u32 in *. clear - Hva. Z.div_mod_to_equations. lia. }
  assert (virt k mod PAGE_SZ = 0) as -> by exact Hva.
  assert (u32 (virt k + 4096 * n) mod PAGE_SZ = 0) as ->.
  { unfold page_aligned, u32, PAGE_SZ in *. clear - Hva. Z.div_mod_to_equations. lia. }
  cbn [Z.ltb Z.compare orb].
  assert (Z.to_nat (u32 (u32 (virt k + 4096 * n) - virt k) / PAGE_SZ) = n) as ->.
  { unfold u32, PAGE_SZ. clear - Hvr Hvn Hn. Z.div_mod_to_equations. lia. }
  apply map_loop_ok; try done. lia.
Qed.

Lemma map_pages_ok (n : nat) s pgdir pts l k :
  vm_inv s pgdir pts l → page_aligned (virt k) → page_aligned (pstart k) →
  0 ≤ virt k < 4294967296 → virt k + 4096 * n ≤ 4294967296 →
  0 ≤ pstart k → pstart k + 4096 * n ≤ 4294967296 → 0 ≤ perm k < 4096 →
  4096 * n < 2147483648 → pend k = u32 (pstart k + 4096 * n) →
  (∀ va, virt k ≤ va < virt k + 4096 * n → Z.land (pte_of (ram s) pts va) PTE_P = 0) →
  wp (map_pages pgdir k) s (λ ok s', ∃ pts' l' (j : nat),
    vm_grows pgdir s pts l s' pts' l' ∧ (j ≤ n)%nat ∧
    (if ok : bool then j = n else l' = []) ∧
    mapped_entries (ram s) (ram s') pts pts' (virt k) (pstart k) (perm k) j).
Proof.
  intros. eapply wp_mono; [by apply (map_pages_in n s pgdir pts l k)|]. intros ok s' (pts' & l' & j & Hg & Hj & Hok & He & _).
  by exists pts', l', j.
Qed.

(** *** Unmapping *)

(** [p] is a data page: allocated, and not a page of the tables. *)
Definition data_page (s : Pmem) (pgdir : Z) (pts : gmap Z Z) (l : list Z) (p : Z) : Prop :=
  page_ok p ∧ p ∉ l ∧ ¬ table_page pgdir pts p ∧ page_mapped (ram s) p.

(** Writing to a page that holds no table changes no entry. *)
Lemma pte_of_write m pgdir pts p q d va :
  pgdir_wf m pgdir pts → page_aligned p → ¬ table_page pgdir pts p →
  p ≤ q → q + zlen d ≤ p + 4096 → pte_of (write q d m) pts va = pte_of m pts va.
Proof.
  intros Hw Hpa Hpt Hq Hd. unfold pte_of.
  destruct (pts !! page_directory_idx va) as [t|] eqn:Ht; [|done].
  destruct (pw_some _ _ _ Hw _ _ Ht) as (_ & (Hta & _) & _). pose proof (ptx_range va).
  assert (t ≠ p) as Htp by (intros ->; apply Hpt; right; eauto).
  apply word_write_disjoint. destruct (pages_disjoint t p Hta Hpa Htp); lia.
Qed.

Lemma pfree_data s pgdir pts l p :
  vm_inv s pgdir pts l → data_page s pgdir pts l p →
  ∃ s', pfree p s = Ok tt s' ∧ vm_inv s' pgdir pts (p :: l) ∧
    (∀ va, pte_of (ram s') pts va = pte_of (ram s) pts va) ∧
    (∀ q, page_aligned q → q ≠ p → ∀ a, q ≤ a < q + 4096 → ram s' !! a = ram s !! a).
Proof.
  intros [Hf Hw Hsep] (Hpo & Hpl & Hpt & Hpm).
  destruct (pfree_ok s p l Hf Hpo Hpl Hpm) as [Hrun Hf'].
  eexists. split; [exact Hrun|]. pose proof Hpo as (Hpa & _).
  assert (zlen (le_bytes 4 (freelist s)) = 4) as Hl by done. split_and!.
  - split; cbn [ram].
    + exact Hf'.
    + apply pgdir_wf_write; [done|]. rewrite Hl.
      destruct (pw_dir _ _ _ Hw) as [(Hda & _) _].
      assert (p ≠ pgdir) as Hpd by (intros ->; apply Hpt; by left).
      destruct (pages_disjoint p pgdir Hpa Hda Hpd); lia.
    + intros q [->|Hq]%elem_of_cons; [done|]. by apply Hsep.
  - intros va. cbn [ram]. eapply pte_of_write; [done|exact Hpa|done|lia..].
  - intros q Hqa Hqp a Ha. cbn [ram]. rewrite lookup_write, Hl, decide_False; [done|].
    destruct (pages_disjoint q p Hqa Hpa Hqp); lia.
Qed.

(** The entry [e] maps the page [p]. *)
Definition maps_page (e p : Z) : Prop := e mod 2 = 1 ∧ pte_addr e = p - KERN_BASE.

(** One round of [unmap_pages]: the page is freed and its entry cleared. *)
Lemma unmap_page_ok s pgdir pts l vend va t p :
  vm_inv s pgdir pts l → pts !! page_directory_idx va = Some t → va < vend →
  maps_page (pte_of (ram s) pts va) p → data_page s pgdir pts l p →
  wp (unmap_page pgdir vend true va) s (λ r s',
    r = inl (u32 (va + PAGE_SZ)) ∧ vm_inv s' pgdir pts (p :: l) ∧
    (∀ va', pte_of (ram s') pts va' =
       if decide (page_directory_idx va' = page_directory_idx va ∧
                  page_table_idx va' = page_table_idx va) then 0
       else pte_of (ram s) pts va') ∧
    (∀ q, page_aligned q → q ≠ p → ¬ table_page pgdir pts q →
       ∀ a, q ≤ a < q + 4096 → ram s' !! a = ram s !! a)).
Proof.
  intros Hi Ht Hlt [Hodd Haddr] Hdp. unfold unmap_page.
  rewrite (proj2 (Z.ltb_lt va vend) Hlt). cbn [negb].
  rewrite wp_bind. eapply wp_ok; [by eapply get_pte_ok|]. cbn beta.
  destruct (pte_slot _ _ _ _ _ _ Hi Ht) as [_ Hnz]. rewrite (proj2 (Z.eqb_neq _ _) Hnz).
  rewrite wp_bind. eapply wp_ok; [by eapply load_pte|]. cbn beta.
  rewrite land_present, Hodd, Haddr. cbn [Z.eqb].
  pose proof (proj1 Hdp) as Hpo. destruct (page_ok_range p Hpo) as [Hr _].
  unfold KERN_LINK, EXTMEM in Hr.
  rewrite P2KA_small by (unfold KERN_BASE in *; lia). rewrite Z.sub_add.
  assert ((PHYSTOP <=? p - KERN_BASE) || (p <? kend) = false) as ->.
  { destruct Hpo as (_ & ? & ?). unfold KERN_BASE, PHYSTOP in *. lia. }
  destruct (pfree_data _ _ _ _ _ Hi Hdp) as (s1 & Hfree & Hi1 & Hpte1 & Hd1).
  rewrite wp_bind. eapply wp_ok; [exact Hfree|]. cbn beta.
  destruct (store_pte _ _ _ _ _ _ 0 Hi1 Ht) as (Hst & Hi2 & Hpte2 & Hd2).
  rewrite wp_bind. eapply wp_ok; [exact Hst|]. cbn beta. rewrite wp_ret.
  split; [done|]. split; [exact Hi2|]. split.
  - intros va'. rewrite Hpte2. case_decide; [done|]. apply Hpte1.
  - intros q Hqa Hqp Hqt a Ha. cbn [ram]. rewrite lookup_write, decide_False.
    + by apply Hd1 with q.
    + assert (q ≠ t) as Hqt' by (intros ->; apply Hqt; right; eauto).
      destruct (pw_some _ _ _ (vi_dir _ _ _ _ Hi) _ _ Ht) as (_ & (Hta & _) & _).
      assert (zlen (le_bytes 4 0) = 4) as -> by done. pose proof (ptx_range va).
      destruct (pages_disjoint q t Hqa Hta Hqt'); lia.
Qed.

Lemma unmap_loop_ok (ps : list Z) s pgdir pts l vend va :
  vm_inv s pgdir pts l → page_aligned va → 0 ≤ va →
  vend = va + 4096 * length ps → vend < 4294967296 → NoDup ps →
  (∀ (i : nat) p, ps !! i = Some p →
     is_Some (pts !! page_directory_idx (va + 4096 * i)) ∧
     maps_page (pte_of (ram s) pts (va + 4096 * i)) p ∧ data_page s pgdir pts l p) →
  wp (loop (S (length ps)) (unmap_page pgdir vend true) va) s (λ _ s',
    vm_inv s' pgdir pts (reverse ps ++ l) ∧
    (∀ va', 0 ≤ va' < 4294967296 → pte_of (ram s') pts va' =
       if decide (va ≤ va' < vend) then 0 else pte_of (ram s) pts va') ∧
    (∀ q, page_aligned q → q ∉ ps → ¬ table_page pgdir pts q →
       ∀ a, q ≤ a < q + 4096 → ram s' !! a = ram s !! a)).
Proof.
  revert s l va. induction ps as [|p ps IH]; intros s l va Hi Hva Hv Hend Hve Hnd Hps; rewrite wp_loop_S.
  { unfold unmap_page. cbn in Hend. rewrite (proj2 (Z.ltb_ge va vend)) by lia. cbn [negb]. rewrite wp_ret.
    split_and!; [done| |done]. intros va' ?. by rewrite decide_False by lia. }
  cbn [length] in *. destruct (Hps 0%nat p eq_refl) as ([t Ht] & Hmp & Hdp).
  rewrite Z.mul_0_r, Z.add_0_r in Ht, Hmp. apply NoDup_cons in Hnd as [Hpps Hnd].
  wp_apply unmap_page_ok; [exact Hi|exact Ht|lia|exact Hmp|exact Hdp|].
  intros r s1 (-> & Hi1 & Hpte1 & Hd1). unfold PAGE_SZ. change 0x1000 with 4096.
  rewrite u32_small by lia.
  assert (∀ va', 0 ≤ va' < 4294967296 → pte_of (ram s1) pts va' =
    if decide (va ≤ va' < va + 4096) then 0 else pte_of (ram s) pts va') as Hpte1'.
  { intros va' Hr'. rewrite Hpte1. pose proof (same_page va va' Hva ltac:(lia) Hr').
    repeat case_decide; tauto. }
  wp_apply IH; [exact Hi1| |lia|lia|exact Hve|exact Hnd| |].
  { unfold page_aligned in *. clear - Hva. Z.div_mod_to_equations. lia. }
  { intros i p' Hp'. pose proof (lookup_lt_Some _ _ _ Hp') as Hlen.
    destruct (Hps (S i) p' Hp') as (Htab & Hmp' & (Hpo' & Hpl' & Hpt' & Hpm')).
    replace (va + 4096 * S i) with (va + 4096 + 4096 * i) in * by lia.
    assert (p' ≠ p) as Hpp by (intros ->; apply Hpps; by eapply list_elem_of_lookup_2).
    split_and!; [done| |].
    - rewrite Hpte1', decide_False by lia. exact Hmp'.
    - split_and!; [done| |done|].
      + by intros [->|?]%elem_of_cons.
      + intros a Ha. rewrite (Hd1 p' (proj1 Hpo') Hpp Hpt' a Ha). by apply Hpm'. }
  intros _ s2 (Hi2 & Hpte2 & Hd2). split_and!.
  - by rewrite reverse_cons, <- app_assoc.
  - intros va' Hr'. rewrite Hpte2, Hpte1' by done. repeat case_decide; try lia; done.
  - intros q Hqa Hqp Hqt a Ha. apply not_elem_of_cons in Hqp as [Hqp Hqps].
    rewrite (Hd2 q Hqa Hqps Hqt a Ha). by apply Hd1 with q.
Qed.

(** Unmapping the pages [ps] that a range maps gives them back to the
    allocator and clears exactly the entries of the range. *)
Lemma unmap_pages_ok (ps : list Z) s pgdir pts l va :
  vm_inv s pgdir pts l → page_aligned va → 0 ≤ va →
  va + 4096 * length ps < 4294967296 → NoDup ps →
  (∀ (i : nat) p, ps !! i = Some p →
     is_Some (pts !! page_directory_idx (va + 4096 * i)) ∧
     maps_page (pte_of (ram s) pts (va + 4096 * i)) p ∧ data_page s pgdir pts l p) →
  wp (unmap_pages pgdir va (length ps) true) s (λ _ s',
    vm_inv s' pgdir pts (reverse ps ++ l) ∧
    (∀ va', 0 ≤ va' < 4294967296 → pte_of (ram s') pts va' =
       if decide (va ≤ va' < va + 4096 * length ps) then 0 else pte_of (ram s) pts va') ∧
    (∀ q, page_aligned q → q ∉ ps → ¬ table_page pgdir pts q →
       ∀ a, q ≤ a < q + 4096 → ram s' !! a = ram s !! a)).
Proof.
  intros Hi Hva Hv Hn Hnd Hps. unfold unmap_pages, PAGE_SZ. change 0x1000 with 4096.
  rewrite (Z.mul_comm (length ps)). rewrite u32_small by lia. unfold page_aligned in Hva. rewrite Hva. cbn [Z.eqb negb].
  assert (Z.to_nat ((va + 4096 * length ps - va) / 4096) = length ps) as ->.
  { clear. Z.div_mod_to_equations. lia. }
  eapply unmap_loop_ok; done.
Qed.

(** *** The MMU sees the entries. *)

Lemma translate_ok s pgdir pts l va :
  vm_inv s pgdir pts l →
  translate (ram s) pgdir va =
    let e := pte_of (ram s) pts va in
    if Z.land e PTE_P =? 0 then None else Some (pte_addr e + vaddr_offset va).
Proof.
  intros Hi. unfold translate, pte_of. destruct (pts !! page_directory_idx va) as [t|] eqn:Ht.
  - destruct (pde_present _ _ _ _ _ _ Hi Ht) as [Hp Ha]. unfold get_pde in *. by rewrite Hp, Ha.
  - pose proof (pde_absent _ _ _ _ _ Hi Ht) as Hp. unfold get_pde in Hp. by rewrite Hp.
Qed.

End pgtbl.

(** *** An empty directory on the small machine *)

#[local] Existing Instance demo_layout.

(** Page 0 is an empty directory, page 1 is allocated, the others are free. *)
Lemma demo_vm (n : nat) :
  (2 ≤ n)%nat → Z.of_nat n ≤ 100000 →
  let s := demo_pmem n 2 in
  let l := reverse (pages_from (demo_base + 4096 * 2) (n - 2)) in
  vm_inv s demo_base ∅ l ∧ data_page s demo_base ∅ l (demo_base + 4096) ∧
  (∀ va, translate (ram s) demo_base va = None) ∧
  (∀ a, demo_base ≤ a < demo_base + 8192 → ram s !! a = Some 0).
Proof.
  intros Hn Hn' s l. destruct (demo_pmem_ok n 2 Hn Hn') as [Hf Hm].
  assert (∀ a, demo_base ≤ a < demo_base + 8192 → ram s !! a = Some 0) as Hz.
  { intros a Ha. unfold s. rewrite Hm by lia. rewrite demo_lookup, decide_True; [done|lia]. }
  destruct (demo_page n 0) as [Ho0 _]; [lia..|]. rewrite Z.mul_0_r, Z.add_0_r in Ho0.
  destruct (demo_page n 1) as [Ho1 _]; [lia..|].
  change (demo_base + 4096 * 1%nat) with (demo_base + 4096) in Ho1.
  assert (∀ p, p ∈ l → demo_base + 8192 ≤ p) as Hl.
  { intros p Hp. apply elem_of_reverse, elem_of_pages_from in Hp as (i & _ & ->). lia. }
  assert (∀ i, 0 ≤ i < 1024 → word (ram s) (demo_base + 4 * i) = 0) as Hw.
  { intros i Hi. unfold word, peek. rewrite !Hz by lia. done. }
  assert (∀ p, demo_base ≤ p → p + 4096 ≤ demo_base + 8192 → page_mapped (ram s) p) as Hmap.
  { intros p Hp Hp' a Ha. rewrite Hz by lia. eauto. }
  assert (vm_inv s demo_base ∅ l) as Hi.
  { split; [exact Hf| |].
    - split.
      + split; [exact Ho0|]. apply Hmap; lia.
      + intros i t. by rewrite lookup_empty.
      + intros i Hi _. rewrite Hw by done. done.
      + intros i j t. by rewrite lookup_empty.
    - intros p Hp%Hl [->|[i Hi]]; [lia|]. by rewrite lookup_empty in Hi. }
  split_and!; [exact Hi| | |exact Hz].
  - split_and!; [exact Ho1| | |apply Hmap; lia].
    + intros Hp%Hl. lia.
    + intros [|[i Hi']]; [lia|]. by rewrite lookup_empty in Hi'.
  - intros va. by rewrite (translate_ok _ _ _ _ _ Hi).
Qed.

(** ** Properties *)

Section properties.
Context `{KernelLayout}.

(** What an entry of [map_pages] translates to *)
Lemma translate_entry e pa va pm :
  e = Z.lor (Z.lor pa PTE_P) pm → page_aligned pa → 0 ≤ pa < 4294967296 → 0 ≤ pm < 4096 →
  (if Z.land e PTE_P =? 0 then None else Some (pte_addr e + vaddr_offset va)) =
  Some (pa + va mod 4096).
Proof.
  intros -> Ha Hr Hp. destruct (entry_range pa pm Ha Hr Hp) as (_ & Haddr & _).
  rewrite Haddr. rewrite <- Z.lor_assoc, lor_flags by (done || by apply flags_lor).
  rewrite land_present. destruct (Z.eqb_spec ((pa + Z.lor PTE_P pm) mod 2) 0) as [He|_].
  - exfalso. assert (Z.lor PTE_P pm mod 2 = 1) as Hodd.
    { rewrite <- land_present, Z.land_lor_distr_l. rewrite (land_present pm).
      change (Z.land PTE_P PTE_P) with 1. pose proof (Z.mod_pos_bound pm 2).
      destruct (Z.eq_dec (pm mod 2) 0) as [->|]; [done|]. replace (pm mod 2) with 1 by lia. done. }
    clear - He Hodd Ha. unfold page_aligned in Ha. set (Z.lor PTE_P pm) as f in *. clearbody f.
    Z.div_mod_to_equations. lia.
  - unfold vaddr_offset. change 0xfff with (Z.ones 12). by rewrite Z.land_ones.
Qed.

(** C11: [map_pages] on aligned pages that are not mapped yet. It returns; when
    it returns true the MMU translates every address of the virtual range to
    the corresponding physical one, and every other address as before; it
    returns false only when the free list is exhausted, which cannot happen
    while more than 1024 pages are free or in use as tables; pages that are
    neither free nor tables keep their contents, and the address space and
    the allocator stay well formed. *)
Theorem map_pages_translate (n : nat) s pgdir pts l k :
  vm_inv s pgdir pts l → page_aligned (virt k) → page_aligned (pstart k) →
  0 ≤ virt k → virt k + 4096 * n ≤ 4294967296 →
  0 ≤ pstart k → pstart k + 4096 * n ≤ 4294967296 → 0 ≤ perm k < 4096 →
  0 < n → 4096 * n < 2147483648 → pend k = u32 (pstart k + 4096 * n) →
  (∀ va, virt k ≤ va < virt k + 4096 * n → translate (ram s) pgdir va = None) →
  wp (map_pages pgdir k) s (λ ok s', ∃ pts' l',
    vm_grows pgdir s pts l s' pts' l' ∧
    (ok = true → ∀ va, 0 ≤ va < 4294967296 → translate (ram s') pgdir va =
       if decide (virt k ≤ va < virt k + 4096 * n) then Some (pstart k + (va - virt k))
       else translate (ram s) pgdir va) ∧
    (ok = false → l' = []) ∧ (1024 < length l + size pts → ok = true)).
Proof.
  intros Hi Hva Hpa Hv Hvn Hp Hpn Hpm Hn0 Hn Hpend Hfree.
  wp_apply (map_pages_ok n); [exact Hi|done|done|lia|done|done|done|done|done|done| |].
  { intros va Hr. specialize (Hfree va Hr). rewrite (translate_ok _ _ _ _ _ Hi) in Hfree.
    cbn zeta in Hfree. by destruct (Z.eqb_spec (Z.land (pte_of (ram s) pts va) PTE_P) 0). }
  intros ok s' (pts' & l' & j & Hg & Hj & Hok & Hent). exists pts', l'.
  pose proof (vg_inv _ _ _ _ _ _ _ Hg) as Hi'. split; [done|]. split; [|split].
  - intros -> va Hr. cbn in Hok. subst j.
    rewrite (translate_ok _ _ _ _ _ Hi'), (translate_ok _ _ _ _ _ Hi). cbn zeta.
    rewrite Hent by done. case_decide as Hin; [|done].
    unfold page_aligned in Hpa, Hva.
    erewrite translate_entry; [|done|..|done].
    + f_equal. clear - Hva Hin. Z.div_mod_to_equations. lia.
    + unfold page_aligned. clear - Hpa. Z.div_mod_to_equations. lia.
    + clear - Hp Hpn Hin. Z.div_mod_to_equations. lia.
  - by intros ->.
  - intros Hbig. destruct ok; [done|]. rewrite Hok in *.
    pose proof (vg_count _ _ _ _ _ _ _ Hg) as Hc. cbn [length] in Hc.
    pose proof (tables_bound _ _ _ (vi_dir _ _ _ _ Hi')) as Hb. unfold NPDES in Hb. lia.
Qed.

(** [map_pages] never replaces a mapping: if the first page of a nonempty
    range is present, it panics. *)
Theorem map_pages_remap s pgdir pts l k a :
  vm_inv s pgdir pts l → page_aligned (virt k) → 0 ≤ virt k < 4294967296 →
  u32 (virt k + s32 (pend k - pstart k)) mod 4096 = 0 →
  u32 (virt k + s32 (pend k - pstart k)) ≠ virt k →
  translate (ram s) pgdir (virt k) = Some a →
  map_pages pgdir k s = Panic "map_pages: remap".
Proof.
  intros Hi Hva Hr Hend Hne Htr. unfold map_pages. rewrite !page_aligndown_eq.
  assert (4096 * (virt k / 4096) = virt k) as Hv.
  { unfold page_aligned in Hva. clear - Hva. Z.div_mod_to_equations. lia. }
  set (e := u32 (virt k + s32 (pend k - pstart k))) in *. clearbody e.
  assert (4096 * (e / 4096) = e) as He by (clear - Hend; Z.div_mod_to_equations; lia).
  rewrite Hv, He. unfold PAGE_SZ. change 0x1000 with 4096. unfold page_aligned in Hva.
  rewrite Hva, Hend. cbn [Z.ltb Z.compare orb loop].
  rewrite (translate_ok _ _ _ _ _ Hi) in Htr. cbn zeta in Htr. apply bind_panic.
  unfold map_page. rewrite (proj2 (Z.eqb_neq (virt k) e)) by done.
  unfold pte_of in Htr. destruct (pts !! page_directory_idx (virt k)) as [t|] eqn:Ht; [|done].
  rewrite (bind_ok _ _ _ _ _ (walk_found _ _ _ _ _ _ Hi Ht)).
  destruct (pte_slot _ _ _ _ _ _ Hi Ht) as [_ Hnz]. rewrite (proj2 (Z.eqb_neq _ _) Hnz).
  rewrite (bind_ok _ _ _ _ _ (load_pte _ _ _ _ _ _ Hi Ht)). unfold pte_of. rewrite Ht.
  by destruct (Z.land _ PTE_P =? 0).
Qed.

(** C32: [unmap_pages] with [free] set, on a range whose pages [ps] are mapped
    one by one: it returns, every address of the range becomes untranslated,
    every other one translates as before, exactly the pages [ps] go back to
    the allocator (the last one first), and all other pages that hold no
    table keep their contents. *)
Theorem unmap_pages_free (ps : list Z) s pgdir pts l va :
  vm_inv s pgdir pts l → page_aligned va → 0 ≤ va →
  va + 4096 * length ps < 4294967296 → NoDup ps →
  (∀ (i : nat) p, ps !! i = Some p →
     translate (ram s) pgdir (va + 4096 * i) = Some (p - KERN_BASE) ∧
     data_page s pgdir pts l p) →
  wp (unmap_pages pgdir va (length ps) true) s (λ _ s',
    vm_inv s' pgdir pts (reverse ps ++ l) ∧
    (∀ va', 0 ≤ va' < 4294967296 → translate (ram s') pgdir va' =
       if decide (va ≤ va' < va + 4096 * length ps) then None
       else translate (ram s) pgdir va') ∧
    (∀ q, page_aligned q → q ∉ ps → ¬ table_page pgdir pts q →
       ∀ a, q ≤ a < q + 4096 → ram s' !! a = ram s !! a)).
Proof.
  intros Hi Hva Hv Hn Hnd Hps. wp_apply unmap_pages_ok; [exact Hi|done..| |].
  { intros i p Hip. destruct (Hps i p Hip) as [Htr Hd]. split; [|split; [|done]].
    all: rewrite (translate_ok _ _ _ _ _ Hi) in Htr; cbn zeta in Htr.
    - unfold pte_of in Htr. destruct (pts !! _); [eauto|done].
    - unfold maps_page. rewrite land_present in Htr. set (pte_of _ _ _) as e in *.
      destruct (Z.eqb_spec (e mod 2) 0) as [|Hodd]; [done|]. injection Htr as Htr.
      assert (vaddr_offset (va + 4096 * i) = 0) as Hoff.
      { unfold vaddr_offset. change 0xfff with (Z.ones 12). rewrite Z.land_ones by lia.
        unfold page_aligned in Hva. change (2 ^ 12) with 4096. clear - Hva. Z.div_mod_to_equations. lia. }
      split; [clear - Hodd; Z.div_mod_to_equations; lia|lia]. }
  intros _ s' (Hi' & Hpte & Hd). split; [done|split; [|done]].
  intros va' Hr. rewrite (translate_ok _ _ _ _ _ Hi'), (translate_ok _ _ _ _ _ Hi). cbn zeta.
  rewrite Hpte by done. by case_decide.
Qed.

End properties.

(** ** Witnesses *)

(** Mapping page 1 of the small machine at address 0x400000 *)
Definition demo_map : VMap := mkVMap 0x400000 (KA2P (demo_base + 4096)) (KA2P (demo_base + 8192)) (Z.lor PTE_W PTE_U).

Lemma map_pages_translate_witness :
  let s := demo_pmem 4 2 in
  wp (map_pages demo_base demo_map) s (λ ok s', ok = true →
    translate (ram s) demo_base 0x400123 = None ∧
    translate (ram s') demo_base 0x400123 = Some 0x102123).
Proof.
  intros s. destruct (demo_vm 4 ltac:(lia) ltac:(lia)) as (Hi & _ & Hnone & _).
  eapply wp_mono.
  - apply (map_pages_translate 1 s demo_base ∅ _ demo_map Hi); done.
  - intros ok s' (pts' & l' & _ & Htr & _) Hok. split; [apply Hnone|].
    rewrite (Htr Hok 0x400123) by lia. rewrite decide_True; [done|]. cbn. lia.
Defined.

(** The state after that call on a machine with many pages *)
Lemma demo_mapped_n (n : nat) :
  1100 ≤ Z.of_nat n ≤ 100000 →
  ∃ s pts l, vm_inv s demo_base pts l ∧
    (∀ va, 0x400000 ≤ va < 0x401000 → translate (ram s) demo_base va = Some (va - 0x400000 + 0x102000)) ∧
    data_page s demo_base pts l 0x80102000.
Proof.
  intros Hn. destruct (demo_vm n ltac:(lia) ltac:(lia)) as (Hi & (Ho & Hl & Ht & Hm) & Hnone & _).
  assert (wp (map_pages demo_base demo_map) (demo_pmem n 2) (λ ok s', ∃ pts' l' (j : nat),
    vm_grows demo_base (demo_pmem n 2) ∅ (reverse (pages_from (demo_base + 4096 * 2) (n - 2))) s' pts' l' ∧
    (j ≤ 1)%nat ∧ (if ok : bool then j = 1%nat else l' = []) ∧
    mapped_entries (ram (demo_pmem n 2)) (ram s') ∅ pts' 0x400000 (KA2P (demo_base + 4096)) (Z.lor PTE_W PTE_U) j)) as Hwp.
  { apply (map_pages_ok 1 _ _ _ _ demo_map Hi); done. }
  apply wp_run in Hwp as (ok & s' & _ & pts' & l' & j & Hg & _ & Hok & Hent).
  pose proof (vg_inv _ _ _ _ _ _ _ Hg) as Hi'. exists s', pts', l'. split; [done|]. split; [|split_and!].
  - assert (ok = true) as ->.
    { destruct ok; [done|]. subst l'. pose proof (vg_count _ _ _ _ _ _ _ Hg) as Hc.
      rewrite length_reverse in Hc. unfold pages_from in Hc. rewrite length_fmap, length_seq, map_size_empty in Hc.
      pose proof (tables_bound _ _ _ (vi_dir _ _ _ _ Hi')) as Hb. unfold NPDES in Hb. cbn [length] in Hc. lia. }
    subst j. intros va Hva. rewrite (translate_ok _ _ _ _ _ Hi'). cbn zeta. rewrite Hent by lia.
    rewrite decide_True by lia.
    replace ((va - 0x400000) / 4096) with 0 by (clear - Hva; Z.div_mod_to_equations; lia).
    rewrite (translate_entry _ (KA2P (demo_base + 4096)) va (Z.lor PTE_W PTE_U)); [|done..].
    f_equal. change (KA2P (demo_base + 4096)) with 0x102000. clear - Hva. Z.div_mod_to_equations. lia.
  - exact Ho.
  - intros Hin. destruct (vg_pages _ _ _ _ _ _ _ Hg _ (or_introl Hin)); [by apply Hl|by apply Ht].
  - intros Hin. destruct (vg_pages _ _ _ _ _ _ _ Hg _ (or_intror Hin)); [by apply Hl|by apply Ht].
  - by apply (vg_mapped _ _ _ _ _ _ _ Hg).
Qed.

Lemma demo_mapped :
  ∃ s pts l, vm_inv s demo_base pts l ∧
    (∀ va, 0x400000 ≤ va < 0x401000 → translate (ram s) demo_base va = Some (va - 0x400000 + 0x102000)) ∧
    data_page s demo_base pts l 0x80102000.
Proof. apply (demo_mapped_n (Z.to_nat 1100)). rewrite Z2Nat.id; lia. Qed.

Lemma map_pages_remap_witness : ∃ s, map_pages demo_base demo_map s = Panic "map_pages: remap".
Proof.
  destruct demo_mapped as (s & pts & l & Hi & Htr & _). exists s.
  apply (map_pages_remap s demo_base pts l demo_map 0x102000 Hi); [done..|].
  apply (Htr 0x400000). lia.
Defined.

Lemma unmap_pages_free_witness :
  ∃ s pts l, translate (ram s) demo_base 0x400123 = Some 0x102123 ∧
    wp (unmap_pages demo_base 0x400000 1 true) s (λ _ s',
      vm_inv s' demo_base pts (0x80102000 :: l) ∧
      translate (ram s') demo_base 0x400123 = None).
Proof.
  destruct demo_mapped as (s & pts & l & Hi & Htr & Hd). exists s, pts, l.
  split; [apply (Htr 0x400123); lia|]. eapply wp_mono.
  - apply (unmap_pages_free [0x80102000] s demo_base pts l 0x400000 Hi); try done.
    { apply NoDup_singleton. }
    intros [|i] p Hp; [|done]. injection Hp as <-. split; [|exact Hd].
      apply (Htr 0x400000). lia.
  - intros _ s' (Hi' & Htr' & _). split; [exact Hi'|]. rewrite (Htr' 0x400123) by lia.
    rewrite decide_True; [done|]. cbn. lia.
Defined.
