(* ===== verification/Elf.v ===== *)
(** * lib/elf.h: the headers of a 32-bit ELF file

    exec.c and the boot loader read them from the bytes of the file. *)
From S2P Require Import Prelude.

Record ELF32Header := mkELF32Header {
  e_ident : list Z;
  e_type : Z;
  e_machine : Z;
  e_version : Z;
  e_entry : Z;
  e_phoff : Z;
  e_ehoff : Z;
  e_flags : Z;
  e_ehsize : Z;
  e_ephsize : Z;
  e_phnum : Z;
  e_shentsize : Z;
  e_shnum : Z;
}.

Record ELF32ProgramHeader := mkELF32ProgramHeader {
  p_type : Z;
  p_offset : Z;
  p_vaddr : Z;
  p_paddr : Z;
  p_filesz : Z;
  p_memsz : Z;
  p_flags : Z;
  p_align : Z;
}.

(** The last two of the 52 bytes are padding. *)
Definition sizeof_ELF32Header : Z := 52.
Definition sizeof_ELF32ProgramHeader : Z := 32.

Definition field (l : list Z) (off n : nat) : Z := le_num (slice off n l).

Definition elf_header (l : list Z) : ELF32Header :=
  mkELF32Header (take 16 l) (field l 16 2) (field l 18 2) (field l 20 4) (field l 24 4) (field l 28 4) (field l 32 4)
    (field l 36 4) (field l 40 2) (field l 42 2) (field l 44 2) (field l 46 2) (field l 48 2).

Definition program_header (l : list Z) : ELF32ProgramHeader :=
  mkELF32ProgramHeader (field l 0 4) (field l 4 4) (field l 8 4) (field l 12 4) (field l 16 4) (field l 20 4)
    (field l 24 4) (field l 28 4).

Definition elf_magic : list Z := [0x7F; 0x45; 0x4C; 0x46].

(** [memcmp(&hdr->e_ident[0], elf_magic, 4) == 0] *)
Definition is_elf (h : ELF32Header) : bool := bool_decide (take 4 (e_ident h) = elf_magic).

Definition PT_LOAD : Z := 1.

(** ** Specifications *)

(** The program headers of a file *)
Definition headers (content : list Z) (phoff : Z) (n : nat) : list ELF32ProgramHeader :=
  (λ i : nat, program_header (slice (Z.to_nat (phoff + 32 * i)) 32 content)) <$> seq 0 n.

(** The header and the segments of a file *)
Definition file_header (content : list Z) : ELF32Header := elf_header (slice 0 52 content).

Definition file_segments (content : list Z) : list ELF32ProgramHeader :=
  headers content (e_phoff (file_header content)) (Z.to_nat (e_phnum (file_header content))).

(** ** Lemmas *)

Lemma headers_S content phoff n : headers content phoff (S n) =
  headers content phoff n ++ [program_header (slice (Z.to_nat (phoff + 32 * n)) 32 content)].
Proof. unfold headers. by rewrite seq_S, fmap_app. Qed.

Lemma field_range l off n : Forall is_byte l → 0 ≤ field l off n < 256 ^ n.
Proof.
  intros Hl. unfold field. pose proof (le_num_range (slice off n l) ltac:(by apply Forall_slice)) as Hr.
  assert (256 ^ zlen (slice off n l) ≤ 256 ^ n); [|lia]. apply Z.pow_le_mono_r; [lia|]. unfold zlen, slice. rewrite length_take. lia.
Qed.

(** The fields of a header are unsigned words. *)
Lemma header_range l : Forall is_byte l → let ph := program_header l in
  0 ≤ p_offset ph < 4294967296 ∧ 0 ≤ p_vaddr ph < 4294967296 ∧ 0 ≤ p_filesz ph < 4294967296 ∧ 0 ≤ p_memsz ph < 4294967296.
Proof. intros Hl ph. split; [|split; [|split]]; by apply field_range. Qed.

Lemma paddr_range l : Forall is_byte l → 0 ≤ p_paddr (program_header l) < 4294967296.
Proof. intros Hl. by apply field_range. Qed.

(** The fields of the file's header that the loaders use *)
Lemma file_header_range l : Forall is_byte l → let h := file_header l in
  0 ≤ e_entry h < 4294967296 ∧ 0 ≤ e_phoff h < 4294967296 ∧ 0 ≤ e_phnum h < 65536.
Proof. intros Hl h. assert (Forall is_byte (slice 0 52 l)) by (by apply Forall_slice). split; [|split]; by apply (field_range (slice 0 52 l)). Qed.

(** The header that a loop finds in round [k] *)
Lemma headers_lookup content phoff n k : (k < n)%nat →
  headers content phoff n !! k = Some (program_header (slice (Z.to_nat (phoff + 32 * k)) 32 content)).
Proof. intros Hk. unfold headers. by rewrite list_lookup_fmap, lookup_seq_lt. Qed.

Lemma headers_in content phoff n k : (k < n)%nat →
  program_header (slice (Z.to_nat (phoff + 32 * k)) 32 content) ∈ headers content phoff n.
Proof. intros Hk. apply list_elem_of_fmap. exists k. split; [done|]. apply elem_of_seq. lia. Qed.
