(* ===== verification/VMem.v ===== *)
(** * kernel/memory/vmem.c: kernel and user address spaces *)
From S2P Require Import Prelude Machine CMem CString Palloc PgTbl.

Section vmem.
Context `{KernelLayout}.

(** The table [kmap] as [init_kmap] fills it in *)
Definition init_kmap : list VMap := [
  (* IO space *)
  mkVMap KERN_BASE 0 EXTMEM PTE_W;
  (* Kernel text & rodata *)
  mkVMap KERN_LINK (KA2P KERN_LINK) (KA2P kdata) 0;
  (* Kernel data & free memory *)
  mkVMap kdata (KA2P kdata) PHYSTOP PTE_W;
  (* Devices *)
  mkVMap DEV_SPACE DEV_SPACE 0 PTE_W
].

(** [0]: the page is not present or not the user's. *)
Definition uva2ka (pgdir vaddr : Z) : M Pmem Z :=
  let! pte := get_pte pgdir vaddr in
  let! e := with_ram (load32 pte) in
  if Z.land e PTE_P =? 0 then ret 0 else
  if Z.land e PTE_U =? 0 then ret 0 else
  ret (P2KA (pte_addr e)).

(** The result is an [int]. *)
Definition uvm_deallocate (pgdir oldsz newsz : Z) : M Pmem Z :=
  if oldsz <? newsz then ret (s32 oldsz) else
  let newsz_a := page_alignup newsz in
  let oldsz_a := page_alignup oldsz in
  do! (if newsz_a <? oldsz_a
       then unmap_pages pgdir newsz_a ((oldsz_a - newsz_a) / PAGE_SZ) true
       else done!) in
  ret (s32 newsz).

(** [for (i = 0; i < NPDES; ++i)], the last [n] rounds *)
Fixpoint free_tables (n : nat) (pgdir i : Z) : M Pmem unit :=
  match n with
  | O => done!
  | S n =>
      let! e := with_ram (load32 (pgdir + 4 * i)) in
      do! (if negb (Z.land e PDE_P =? 0) then pfree (P2KA (pte_addr e)) else done!) in
      free_tables n pgdir (i + 1)
  end.

Definition vmfree (pgdir : Z) : M Pmem unit :=
  if pgdir =? 0 then panic "vmfree" else
  do! uvm_deallocate pgdir KERN_BASE 0 in
  do! free_tables (Z.to_nat NPDES) pgdir 0 in
  pfree pgdir.

(** [for (k = kmap; k < &kmap[kmap_sz]; k++)] *)
Fixpoint map_all (pgdir : Z) (ks : list VMap) : M Pmem bool :=
  match ks with
  | [] => ret true
  | k :: ks =>
      let! ok := map_pages pgdir k in
      if ok : bool then map_all pgdir ks else do! vmfree pgdir in ret false
  end.

(** The result, and the directory in [pgdir->t]. *)
Definition kvm_allocate (kmap : list VMap) : M Pmem (bool * Z) :=
  if DEV_SPACE <? P2KA PHYSTOP then panic "PHYSTOP is too high" else
  let! t := palloc in
  if t =? 0 then ret (false, 0) else
  do! with_ram (memset t 0 PAGE_SZ) in
  let! ok := map_all t kmap in
  ret (ok, t).

(** A mapping of one user page *)
Definition user_page (p mem flags : Z) : VMap :=
  mkVMap p (KA2P mem) (KA2P (u32 (mem + PAGE_SZ))) flags.

Definition uvm_init1 (pgdir init sz : Z) : M Pmem unit :=
  if PAGE_SZ <? sz then panic "uvm_init: more than a page" else
  let! m := palloc in
  if m =? 0 then panic "uvm_init: not enough memory" else
  do! with_ram (memset m 0 PAGE_SZ) in
  do! map_pages pgdir (user_page 0 m (Z.lor PTE_W PTE_U)) in
  do! with_ram (memmove m init sz) in
  done!.

(** One round of the loop of [uvm_allocate] *)
Definition uvm_grow (pgdir oldsz newsz p : Z) : M Pmem (Z + Z) :=
  if negb (p <? newsz) then ret (inr (s32 newsz)) else
  let! m := palloc in
  if m =? 0 then
    do! uvm_deallocate pgdir newsz oldsz in ret (inr 0)
  else
  do! with_ram (memset m 0 PAGE_SZ) in
  let! ok := map_pages pgdir (user_page p m (Z.lor PTE_W PTE_U)) in
  if negb ok then
    do! uvm_deallocate pgdir newsz oldsz in
    do! pfree m in
    ret (inr 0)
  else ret (inl (u32 (p + PAGE_SZ))).

(** Fuel: the pages up to [newsz], and one round to leave. *)
Definition uvm_allocate (pgdir oldsz newsz : Z) : M Pmem Z :=
  if KERN_BASE <? newsz then ret 0 else
  if newsz <? oldsz then ret (s32 oldsz) else
  loop (S (Z.to_nat ((newsz + PAGE_SZ - 1 - page_alignup oldsz) / PAGE_SZ)))
    (uvm_grow pgdir oldsz newsz) (page_alignup oldsz).

(** One round of the loop of [uvm_copy]; [inr]: the result. *)
Definition uvm_copy_page (new_pgdir in_ npg i : Z) : M Pmem (Z + bool) :=
  if negb (i <? npg) then ret (inr true) else
  let! pte := get_pte in_ i in
  if pte =? 0 then panic "uvm_copy: trying to copy non existed pte" else
  let! e := with_ram (load32 pte) in
  if Z.land e PTE_P =? 0 then panic "uvm_copy: page not present" else
  let pa := pte_addr e in
  let flags := pte_flags e in
  let! m := palloc in
  if m =? 0 then do! vmfree new_pgdir in ret (inr false) else
  do! with_ram (memmove m (P2KA pa) PAGE_SZ) in
  let! ok := map_pages new_pgdir (user_page i m flags) in
  if negb ok then do! vmfree new_pgdir in ret (inr false)
  else ret (inl (u32 (i + PAGE_SZ))).

(** The result, and the directory in [*out]. *)
Definition uvm_copy (kmap : list VMap) (in_ npg : Z) : M Pmem (bool * Z) :=
  let! '(ok, new_pgdir) := kvm_allocate kmap in
  if negb ok then ret (false, 0) else
  let! r := loop (S (Z.to_nat ((npg + PAGE_SZ - 1) / PAGE_SZ)))
              (uvm_copy_page new_pgdir in_ npg) 0 in
  ret (r, new_pgdir).

(** One round of the loop of [uvm_memcpy]; the loop variables are [vaddr] and
    the bytes from [p] on, [size] of them. The buffer of a caller lies neither
    in the pages it writes nor in the tables. *)
Definition uvm_memcpy_page (pgdir : Z) (st : Z * list Z) : M Pmem (Z * list Z + Z) :=
  let '(vaddr, buf) := st in
  if negb (0 <? zlen buf) then ret (inr 0) else
  let va0 := page_aligndown vaddr in
  let! ka0 := uva2ka pgdir va0 in
  if ka0 =? 0 then ret (inr (-1)) else
  let n := PAGE_SZ - (vaddr - va0) in
  let n := if zlen buf <? n then zlen buf else n in
  do! with_ram (store_bytes (ka0 + (vaddr - va0)) (take (Z.to_nat n) buf)) in
  ret (inl (u32 (va0 + PAGE_SZ), drop (Z.to_nat n) buf)).

(** Fuel: one round per page that the destination touches, and one to leave. *)
Definition uvm_memcpy (pgdir vaddr : Z) (buf : list Z) : M Pmem Z :=
  loop (S (S (Z.to_nat (zlen buf / PAGE_SZ + 1)))) (uvm_memcpy_page pgdir) (vaddr, buf).

(** [kvm_init] without the switch to the new directory *)
Definition kvm_create : M Pmem Z :=
  let! '(ok, t) := kvm_allocate init_kmap in
  if negb ok then panic "kvm_init" else ret t.

End vmem.
