(* ===== verification/Uvm.v ===== *)
(** * User address spaces: what vmem.c does with them

    The user part of an address space is the list of its pages from address 0
    on. *)
From S2P Require Import Prelude Machine CMem CString Palloc PgTbl VMem.

(** ** Specifications *)

(** The address space [pgdir] maps the pages [us], each with its flags, from
    address 0 on, and nothing else below the kernel. *)
Record user_space `{KernelLayout} (s : Pmem) (pgdir : Z) (pts : gmap Z Z) (l : list Z) (us : list (Z * Z)) : Prop :=
  mk_user_space {
  us_inv : vm_inv s pgdir pts l;
  us_page : ∀ (i : nat) p f, us !! i = Some (p, f) →
    data_page s pgdir pts l p ∧ 0 ≤ f < 4096 ∧ f mod 2 = 1 ∧ pte_of (ram s) pts (4096 * i) = p - KERN_BASE + f;
  us_nodup : NoDup us.*1;
  us_none : ∀ va, 4096 * length us ≤ va < KERN_BASE → pte_of (ram s) pts va = 0;
  us_len : 4096 * length us ≤ KERN_BASE;
}.

(** From one state to a later one: the pages [us'] were mapped behind [us], and
    they and new tables were taken from the free list. *)
Record us_grows `{KernelLayout} (pgdir : Z) (s : Pmem) (pts : gmap Z Z) (l : list Z) (us : list (Z * Z))
    (s' : Pmem) (pts' : gmap Z Z) (l' : list Z) (us' : list (Z * Z)) : Prop := mk_us_grows {
  ug_space : user_space s' pgdir pts' l' (us ++ us');
  ug_data : same_data pgdir pts l (ram s) (ram s');
  ug_pages : ∀ q, q ∈ l' ∨ table_page pgdir pts' q → q ∈ l ∨ table_page pgdir pts q;
  ug_new : ∀ q, q ∈ us'.*1 → q ∈ l;
  ug_mapped : ∀ q, page_mapped (ram s) q → page_mapped (ram s') q;
  ug_count : (length l' + size pts' + length us' = length l + size pts)%nat;
  ug_tables : pts ⊆ pts';
  ug_kernel : ∀ va, KERN_BASE ≤ va < 4294967296 → pte_of (ram s') pts' va = pte_of (ram s) pts va;
}.

(** The pages [us'] in [m'] are copies of the pages [us] in [m]. *)
Definition copied (m m' : mem) (us us' : list (Z * Z)) : Prop :=
  ∀ (i : nat) p f, us' !! i = Some (p, f) → ∃ q, us !! i = Some (q, f) ∧ ∀ o, 0 ≤ o < 4096 → m' !! (p + o) = m !! (q + o).

(** The pages hold bytes. *)
Definition user_bytes (m : mem) (us : list (Z * Z)) : Prop :=
  ∀ p f a b, (p, f) ∈ us → p ≤ a < p + 4096 → m !! a = Some b → is_byte b.

(** The byte that the MMU finds at [va] *)
Definition vbyte (m : mem) (pgdir va : Z) : option Z := translate m pgdir va ≫= λ pa, m !! P2KA pa.

(** The byte at [va] of the pages [us] *)
Definition ubyte (m : mem) (us : list (Z * Z)) (va : Z) : option Z :=
  us !! Z.to_nat (va / 4096) ≫= λ '(p, _), m !! (p + va mod 4096).

(** ** Lemmas *)

Section uvm.
Context `{KernelLayout}.

Lemma pte_of_page m pts va : 0 ≤ va < 4294967296 → pte_of m pts va = pte_of m pts (4096 * (va / 4096)).
Proof.
  intros Hr. assert (page_directory_idx va = page_directory_idx (4096 * (va / 4096)) ∧
    page_table_idx va = page_table_idx (4096 * (va / 4096))) as [Hd Ht].
  { apply same_page; [unfold page_aligned|..]; Z.div_mod_to_equations; lia. }
  unfold pte_of. by rewrite Hd, Ht.
Qed.

Lemma us_entry s pgdir pts l us va p f : user_space s pgdir pts l us → 0 ≤ va → us !! Z.to_nat (va / 4096) = Some (p, f) →
  va < KERN_BASE ∧ data_page s pgdir pts l p ∧ 0 ≤ f < 4096 ∧ f mod 2 = 1 ∧ pte_of (ram s) pts va = p - KERN_BASE + f.
Proof.
  intros Hus Hv Hl. pose proof (lookup_lt_Some _ _ _ Hl) as Hlt. pose proof (us_len _ _ _ _ _ Hus) as Hlen.
  assert (va < KERN_BASE) as Hk by (unfold KERN_BASE in *; Z.div_mod_to_equations; lia).
  destruct (us_page _ _ _ _ _ Hus _ _ _ Hl) as (Hd & Hf & Ho & Hp). split; [done|]. split; [done|]. split; [done|]. split; [done|].
  rewrite pte_of_page by (unfold KERN_BASE in *; lia). rewrite <- Hp. f_equal. Z.div_mod_to_equations. lia.
Qed.

(** The parts of the entry of a page *)
Lemma entry_parts p f : page_ok p → 0 ≤ f < 4096 →
  pte_addr (p - KERN_BASE + f) = p - KERN_BASE ∧ pte_flags (p - KERN_BASE + f) = f ∧ P2KA (p - KERN_BASE) = p ∧
  0 ≤ p - KERN_BASE + f < 4294967296 ∧ (p - KERN_BASE + f) mod 2 = f mod 2.
Proof.
  intros Hp Hf. destruct (page_ok_range p Hp) as [Hr Ha]. unfold page_aligned, KERN_LINK, KERN_BASE, EXTMEM in *.
  rewrite pte_addr_eq, pte_flags_eq, P2KA_small by (unfold KERN_BASE; lia). unfold KERN_BASE. Z.div_mod_to_equations. lia.
Qed.

Lemma vbyte_user s pgdir pts l us va : user_space s pgdir pts l us → 0 ≤ va < 4096 * length us →
  vbyte (ram s) pgdir va = ubyte (ram s) us va.
Proof.
  intros Hus Hv. assert (Z.to_nat (va / 4096) < length us)%nat as Hlt by (Z.div_mod_to_equations; lia).
  destruct (lookup_lt_is_Some_2 us _ Hlt) as [[p f] Hl].
  destruct (us_entry _ _ _ _ _ va p f Hus ltac:(lia) Hl) as (_ & (Hpo & _) & Hf & Ho & Hp).
  unfold vbyte, ubyte. rewrite Hl, (translate_ok _ _ _ _ _ (us_inv _ _ _ _ _ Hus)), Hp. cbn zeta.
  destruct (entry_parts p f Hpo Hf) as (Ha & _ & _ & _ & Hm). rewrite land_present, Hm, Ho, Ha. cbn.
  destruct (page_ok_range p Hpo) as [Hr Hpa]. unfold vaddr_offset. change 0xfff with (Z.ones 12). rewrite Z.land_ones by lia.
  change (2 ^ 12) with 4096. pose proof (Z.mod_pos_bound va 4096 ltac:(lia)).
  unfold KERN_LINK, EXTMEM in *. rewrite P2KA_small by (unfold KERN_BASE in *; lia). f_equal. lia.
Qed.

Lemma vbyte_none s pgdir pts l us va : user_space s pgdir pts l us → 4096 * length us ≤ va < KERN_BASE →
  vbyte (ram s) pgdir va = None.
Proof.
  intros Hus Hv. unfold vbyte. rewrite (translate_ok _ _ _ _ _ (us_inv _ _ _ _ _ Hus)), (us_none _ _ _ _ _ Hus) by done. done.
Qed.

(** Writing into a data page *)
Lemma vm_write s pgdir pts l p q d : vm_inv s pgdir pts l → data_page s pgdir pts l p → p ≤ q → q + zlen d ≤ p + 4096 →
  let s1 := mkPmem (write q d (ram s)) (freelist s) in
  vm_inv s1 pgdir pts l ∧ (∀ va, pte_of (ram s1) pts va = pte_of (ram s) pts va) ∧
  (∀ r, data_page s pgdir pts l r → data_page s1 pgdir pts l r).
Proof.
  intros [Hf Hw Hsep] ((Hpa & Hpk) & Hpl & Hpt & Hpm) Hq Hd s1. split; [split|split]; cbn [s1 ram].
  - apply free_pages_write; [done|]. pose proof (fp_ok _ _ Hf) as Hok. rewrite Forall_forall in Hok |- *.
    intros r Hr. destruct (Hok r Hr) as (Hra & _). assert (r ≠ p) as Hne by (by intros ->).
    destruct (pages_disjoint r p Hra Hpa Hne); lia.
  - apply pgdir_wf_write; [done|]. destruct (pw_dir _ _ _ Hw) as [(Hda & _) _].
    assert (p ≠ pgdir) as Hne by (intros ->; apply Hpt; by left). destruct (pages_disjoint p pgdir Hpa Hda Hne); lia.
  - done.
  - intros va. eapply pte_of_write; done.
  - intros r (R1 & R2 & R3 & R4). split_and!; [done..|]. cbn. by apply page_mapped_write.
Qed.

Lemma us_write s pgdir pts l us p q d : user_space s pgdir pts l us → data_page s pgdir pts l p → p ≤ q → q + zlen d ≤ p + 4096 →
  user_space (mkPmem (write q d (ram s)) (freelist s)) pgdir pts l us.
Proof.
  intros [Hi Hp Hn H0' Hl] Hd Hq Hz. destruct (vm_write _ _ _ _ _ _ _ Hi Hd Hq Hz) as (Hi1 & Hpte & Hdp).
  split; [done| |done| |done].
  - intros i r f Hr. destruct (Hp i r f Hr) as (R1 & R2 & R3 & R4). rewrite Hpte. split_and!; try done; try lia. by apply Hdp.
  - intros va Hva. rewrite Hpte. by apply H0'.
Qed.

(** Taking a free page *)
Lemma take_page s pgdir pts p l us : user_space s pgdir pts (p :: l) us →
  let s1 := mkPmem (ram s) (word (ram s) p) in
  palloc s = Ok p s1 ∧ user_space s1 pgdir pts l us ∧ data_page s1 pgdir pts l p ∧ p ∉ us.*1.
Proof.
  intros [[Hf Hw Hsep] Hp Hn H0' Hl] s1. destruct (palloc_some _ _ _ Hf) as [Hrun Hf1].
  pose proof (fp_ok _ _ Hf) as Hok. apply Forall_cons in Hok as [Hpo _].
  pose proof (fp_mapped _ _ Hf) as Hmm. apply Forall_cons in Hmm as [Hpm _].
  pose proof (fp_nodup _ _ Hf) as Hnd. apply NoDup_cons in Hnd as [Hpl _].
  split; [exact Hrun|]. split; [|split].
  - split; [split; [exact Hf1|exact Hw|] |..]; try done.
    + intros q Hq. apply Hsep. by apply elem_tail.
    + intros i q f Hq. destruct (Hp i q f Hq) as ((R1 & R2 & R3 & R4) & R5). apply not_elem_of_cons in R2 as [_ R2]. done.
  - split_and!; [done|done|apply Hsep, elem_head|done].
  - intros ([q f] & -> & Hq)%list_elem_of_fmap. apply list_elem_of_lookup in Hq as [i Hq].
    destruct (Hp i q f Hq) as ((_ & R2 & _) & _). apply R2, elem_head.
Qed.

(** Pages that are in use stay in use. *)
Lemma data_page_grows pgdir s pts l s' pts' l' p : vm_grows pgdir s pts l s' pts' l' →
  data_page s pgdir pts l p → data_page s' pgdir pts' l' p.
Proof.
  intros Hg (R1 & R2 & R3 & R4). split_and!; [done|intros Hin|intros Hin|by apply (vg_mapped _ _ _ _ _ _ _ Hg)].
  - by destruct (vg_pages _ _ _ _ _ _ _ Hg p (or_introl Hin)).
  - by destruct (vg_pages _ _ _ _ _ _ _ Hg p (or_intror Hin)).
Qed.

Lemma data_page_same pgdir s pts l s' pts' l' p : vm_grows pgdir s pts l s' pts' l' →
  data_page s pgdir pts l p → ∀ a, p ≤ a < p + 4096 → ram s' !! a = ram s !! a.
Proof. intros Hg ((Ha & _) & R2 & R3 & R4). by apply (vg_data _ _ _ _ _ _ _ Hg). Qed.

(** Mapping a page behind the last one *)
Lemma map_user_page s pgdir pts l us p f : user_space s pgdir pts l us → data_page s pgdir pts l p → p ∉ us.*1 →
  0 ≤ f < 4096 → 4096 * length us < KERN_BASE → (1024 < length l + size pts)%nat →
  wp (map_pages pgdir (user_page (4096 * length us) p f)) s (λ ok s', ok = true ∧ ∃ pts' l',
    vm_grows pgdir s pts l s' pts' l' ∧ user_space s' pgdir pts' l' (us ++ [(p, Z.lor PTE_P f)]) ∧
    ∀ va, KERN_BASE ≤ va < 4294967296 → pte_of (ram s') pts' va = pte_of (ram s) pts va).
Proof.
  intros Hus Hd Hnew Hf Hlen Hmem. pose proof Hus as [Hi Hp Hn Hnone Hl]. pose proof Hd as (Hpo & _).
  destruct (page_ok_range p Hpo) as [Hr Ha]. unfold KERN_LINK, EXTMEM in Hr.
  assert (KA2P p = p - KERN_BASE) as Hka by (apply KA2P_small; unfold KERN_BASE in *; lia).
  assert (u32 (p + PAGE_SZ) = p + 4096) as Hu by (apply u32_small; unfold PAGE_SZ, KERN_BASE in *; lia).
  assert (KA2P (p + 4096) = p - KERN_BASE + 4096) as Hka2 by (rewrite KA2P_small; unfold KERN_BASE in *; lia).
  assert (page_aligned (p - KERN_BASE)) as Hpa by (unfold page_aligned, KERN_BASE in *; Z.div_mod_to_equations; lia).
  assert (0 ≤ p - KERN_BASE < 0x20000000) as Hpr by (unfold KERN_BASE in *; lia).
  assert (4096 * length us < 0x80000000) as Hl2 by exact Hlen.
  wp_apply (map_pages_ok 1 s pgdir pts l); cbn [virt pstart pend perm user_page]; rewrite ?Hka, ?Hu, ?Hka2.
  - exact Hi.
  - unfold page_aligned. by rewrite Z.mul_comm, Z.mod_mul.
  - exact Hpa.
  - lia.
  - lia.
  - lia.
  - lia.
  - exact Hf.
  - lia.
  - rewrite u32_small; lia.
  - intros va Hva. rewrite Hnone; [done|]. unfold KERN_BASE. lia.
  - intros ok s' (pts' & l' & j & Hg & Hj & Hok & Hent). pose proof (vg_inv _ _ _ _ _ _ _ Hg) as Hi'.
    assert (ok = true) as ->.
    { destruct ok; [done|]. subst l'. pose proof (vg_count _ _ _ _ _ _ _ Hg) as Hc.
      pose proof (tables_bound _ _ _ (vi_dir _ _ _ _ Hi')) as Hb. unfold NPDES in Hb. cbn [length] in Hc. lia. }
    subst j. split; [done|]. exists pts', l'. split; [done|].
    assert (∀ va, 0 ≤ va < 4294967296 → ¬ (4096 * length us ≤ va < 4096 * length us + 4096) →
      pte_of (ram s') pts' va = pte_of (ram s) pts va) as Hold.
    { intros va Hva Hno. rewrite Hent by done. by rewrite decide_False by lia. }
    pose proof (flags_lor PTE_P f ltac:(done) Hf) as Hf1. split; [|intros va Hva; apply Hold; unfold KERN_BASE in *; lia]. split.
    + exact Hi'.
    + intros i q g Hq. apply lookup_app_Some in Hq as [Hq|[Hge Hq]].
      * pose proof (lookup_lt_Some _ _ _ Hq). destruct (Hp i q g Hq) as (R1 & R2 & R3 & R4).
        split_and!; [by eapply data_page_grows|lia..|]. rewrite Hold by lia. exact R4.
      * apply list_lookup_singleton_Some in Hq as [Hz [= <- <-]]. assert (i = length us) as -> by lia.
        split_and!; [by eapply data_page_grows|lia|lia| |].
        -- rewrite <- land_present, Z.land_lor_distr_l. change (Z.land PTE_P PTE_P) with 1.
           rewrite land_present. pose proof (Z.mod_pos_bound f 2 ltac:(lia)). destruct (Z.eq_dec (f mod 2) 0) as [->|]; [done|].
           by replace (f mod 2) with 1 by lia.
        -- rewrite Hent, decide_True by lia. rewrite <- Z.lor_assoc, lor_flags; [|unfold page_aligned in *|done].
           ++ rewrite Z.sub_diag, Z.div_0_l, Z.mul_0_r, Z.add_0_r by done. done.
           ++ rewrite Z.sub_diag, Z.div_0_l, Z.mul_0_r, Z.add_0_r by done. done.
    + rewrite fmap_app, NoDup_app. split; [done|]. split; [|apply NoDup_singleton].
      intros q Hq ->%list_elem_of_singleton. done.
    + rewrite length_app. cbn [length]. intros va Hva. rewrite Hold by (unfold KERN_BASE in *; lia). apply Hnone. lia.
    + rewrite length_app. cbn [length]. unfold KERN_BASE in *. lia.
Qed.

Lemma ug_data_page pgdir s pts l us s' pts' l' us' p : us_grows pgdir s pts l us s' pts' l' us' →
  data_page s pgdir pts l p → data_page s' pgdir pts' l' p ∧ p ∉ us'.*1 ∧ ∀ a, p ≤ a < p + 4096 → ram s' !! a = ram s !! a.
Proof.
  intros [_ Hd Hp Hn Hm _ _ _] (R1 & R2 & R3 & R4). split; [split; [exact R1|split; [|split; [|by apply Hm]]]|split].
  - intros Hin. by destruct (Hp p (or_introl Hin)).
  - intros Hin. by destruct (Hp p (or_intror Hin)).
  - intros Hin. by apply R2, Hn.
  - apply Hd; [apply R1|done|done].
Qed.

Lemma us_grows_refl pgdir s pts l us : user_space s pgdir pts l us → us_grows pgdir s pts l us s pts l [].
Proof.
  intros Hus. split; [by rewrite app_nil_r|by intros q ? ? ? a|done|by intros q ?%not_elem_of_nil|done|cbn; lia|done|done].
Qed.

Lemma us_grows_trans pgdir s1 pts1 l1 us s2 pts2 l2 us2 s3 pts3 l3 us3 :
  us_grows pgdir s1 pts1 l1 us s2 pts2 l2 us2 → us_grows pgdir s2 pts2 l2 (us ++ us2) s3 pts3 l3 us3 →
  us_grows pgdir s1 pts1 l1 us s3 pts3 l3 (us2 ++ us3).
Proof.
  intros G1 G2. pose proof G1 as [I1 D1 P1 N1 M1 C1 T1 K1]. pose proof G2 as [I2 D2 P2 N2 M2 C2 T2 K2]. split.
  - by rewrite app_assoc.
  - intros q Hqa Hql Hqt a Ha. rewrite (D2 q Hqa); [by apply (D1 q)| | |done].
    + intros Hq. by destruct (P1 q (or_introl Hq)).
    + intros Hq. by destruct (P1 q (or_intror Hq)).
  - intros q Hq. by apply P1, P2.
  - intros q. rewrite fmap_app, elem_of_app. intros [Hq|Hq]; [by apply N1|].
    destruct (P1 q (or_introl (N2 q Hq))) as [|Ht]; [done|]. exfalso.
    (* a table of the first state is not free later *)
    pose proof (vi_sep _ _ _ _ (us_inv _ _ _ _ _ I1) q (N2 q Hq)) as Hsep.
    apply Hsep. destruct Ht as [->|[i Hi]]; [by left|]. right. exists i. by eapply lookup_weaken.
  - intros q Hq. by apply M2, M1.
  - rewrite length_app. lia.
  - by etrans.
  - intros va Hva. by rewrite K2, K1.
Qed.

(** A page of the allocator, filled with [d] and mapped behind the last one *)
Lemma add_user_page s pgdir pts l us d f : user_space s pgdir pts l us → zlen d = 4096 → 0 ≤ f < 4096 →
  4096 * length us < KERN_BASE → (1025 < length l + size pts)%nat →
  ∃ p, let s1 := mkPmem (ram s) (word (ram s) p) in let s2 := mkPmem (write p d (ram s)) (word (ram s) p) in
    palloc s = Ok p s1 ∧ data_page s pgdir pts [] p ∧ page_mapped (ram s) p ∧ p ∈ l ∧
    wp (map_pages pgdir (user_page (4096 * length us) p f)) s2 (λ ok s3, ok = true ∧ ∃ pts' l',
      us_grows pgdir s pts l us s3 pts' l' [(p, Z.lor PTE_P f)] ∧ array (ram s3) p d).
Proof.
  intros Hus Hd Hf Hlen Hmem. pose proof (tables_bound _ _ _ (vi_dir _ _ _ _ (us_inv _ _ _ _ _ Hus))) as Hb. unfold NPDES in Hb.
  destruct l as [|p l]; [cbn [length] in Hmem; lia|]. exists p. intros s1 s2.
  destruct (take_page _ _ _ _ _ _ Hus) as (Hpal & Hus1 & Hdp & Hnew). fold s1 in Hpal, Hus1, Hdp.
  pose proof Hdp as (Hpo & Hpl & Hpt & Hpm).
  assert (user_space s2 pgdir pts l us) as Hus2 by (apply (us_write s1 _ _ _ _ p p d); [done|done|lia|lia]).
  assert (data_page s2 pgdir pts l p) as Hdp2.
  { destruct (vm_write s1 pgdir pts l p p d (us_inv _ _ _ _ _ Hus1) Hdp) as (_ & _ & Hk); [lia|lia|]. by apply Hk. }
  split; [exact Hpal|]. split; [split; [exact Hpo|split; [apply not_elem_of_nil|by split]]|]. split; [exact Hpm|]. split; [apply elem_head|].
  eapply wp_mono; [apply (map_user_page s2 pgdir pts l us p f); [done|done|done|done|done|cbn [length] in Hmem; lia]|].
  intros ok s3 (-> & pts' & l' & Hg & Hus3 & Hker). split; [done|]. exists pts', l'. split.
  - pose proof (vm_write s1 pgdir pts l p p d (us_inv _ _ _ _ _ Hus1) Hdp ltac:(lia) ltac:(lia)) as (_ & Hpte & _).
    split; [exact Hus3| | | | | |by apply (vg_tables _ _ _ _ _ _ _ Hg)|intros va Hva; rewrite Hker by done; apply Hpte].
    + intros q Hqa Hql Hqt a Ha. apply not_elem_of_cons in Hql as [Hqp Hql].
      rewrite (vg_data _ _ _ _ _ _ _ Hg q Hqa Hql Hqt a Ha). cbn [s2 ram]. rewrite lookup_write, decide_False; [done|].
      destruct (pages_disjoint q p Hqa (proj1 Hpo) Hqp); lia.
    + intros q Hq. destruct (vg_pages _ _ _ _ _ _ _ Hg q Hq); [left; by apply elem_tail|by right].
    + intros q ->%list_elem_of_singleton. apply elem_head.
    + intros q Hq. apply (vg_mapped _ _ _ _ _ _ _ Hg). cbn [s2 ram]. by apply page_mapped_write.
    + pose proof (vg_count _ _ _ _ _ _ _ Hg). cbn [length]. lia.
  - intros i b Hi. pose proof (lookup_lt_Some _ _ _ Hi) as Hlt.
    rewrite (data_page_same _ _ _ _ _ _ _ _ Hg Hdp2) by (unfold zlen in Hd; lia). by apply (array_write p d).
Qed.

(** ** [uvm_allocate] *)

Definition zeroed (m : mem) (us : list (Z * Z)) : Prop :=
  ∀ p f, (p, f) ∈ us → f = 7 ∧ ∀ a, p ≤ a < p + 4096 → m !! a = Some 0.

Lemma uvm_grow_loop (n : nat) s pgdir pts l us oldsz newsz :
  user_space s pgdir pts l us → newsz ≤ KERN_BASE → (1024 + n < length l + size pts)%nat →
  4096 * (length us + n) < newsz + 4096 ∧ newsz ≤ 4096 * (length us + n) →
  wp (loop (S n) (uvm_grow pgdir oldsz newsz) (4096 * length us)) s (λ r s', r = s32 newsz ∧ ∃ pts' l' us',
    us_grows pgdir s pts l us s' pts' l' us' ∧ length us' = n ∧ zeroed (ram s') us').
Proof.
  revert s pts l us. induction n as [|n IH]; intros s pts l us Hus Hk Hmem Hn; rewrite wp_loop_S; unfold uvm_grow at 1.
  - rewrite (proj2 (Z.ltb_ge _ _)) by lia. cbn [negb]. rewrite wp_ret. split; [done|]. exists pts, l, [].
    split; [by apply us_grows_refl|]. split; [done|]. by intros p f ?%not_elem_of_nil.
  - rewrite (proj2 (Z.ltb_lt _ _)) by lia. cbn [negb].
    destruct (add_user_page s pgdir pts l us zero_page (Z.lor PTE_W PTE_U) Hus zlen_zero_page ltac:(done) ltac:(lia) ltac:(lia))
      as (p & Hpal & (Hpo & _) & Hpm & _ & Hmap).
    rewrite wp_bind. eapply wp_ok; [exact Hpal|]. rewrite (proj2 (Z.eqb_neq p 0)) by by apply page_ok_nonzero.
    unfold with_ram. rewrite wp_bind, wp_zoom. eapply wp_ok; [by apply memset_page|]. cbn [ram freelist].
    rewrite wp_bind. eapply wp_mono; [exact Hmap|]. intros ok s1 (-> & pts1 & l1 & Hg & Harr). cbn [negb]. rewrite wp_ret.
    pose proof (ug_space _ _ _ _ _ _ _ _ _ Hg) as Hus1. pose proof (ug_count _ _ _ _ _ _ _ _ _ Hg) as Hc. cbn [length] in Hc.
    replace (u32 (4096 * length us + PAGE_SZ)) with (4096 * length (us ++ [(p, Z.lor PTE_P (Z.lor PTE_W PTE_U))])).
    2:{ rewrite length_app. cbn [length]. unfold PAGE_SZ. rewrite u32_small; unfold KERN_BASE in *; lia. }
    eapply wp_mono; [apply IH; [exact Hus1|done|lia|rewrite length_app; cbn [length]; lia]|].
    intros r s2 (-> & pts2 & l2 & us2 & Hg2 & Hl2 & Hz2). split; [done|]. exists pts2, l2, ((p, Z.lor PTE_P (Z.lor PTE_W PTE_U)) :: us2).
    split; [by apply (us_grows_trans _ _ _ _ _ _ _ _ [_] _ _ _ _ Hg Hg2)|]. split; [cbn [length]; lia|].
    intros q f [[= -> ->]|Hin]%elem_of_cons; [|by apply Hz2]. split; [done|]. intros a Ha.
    destruct (us_page _ _ _ _ _ Hus1 (length us) p 7) as (Hdp & _).
    { rewrite lookup_app_r, Nat.sub_diag by lia. done. }
    destruct (ug_data_page _ _ _ _ _ _ _ _ _ _ Hg2 Hdp) as (_ & _ & ->); [|done].
    assert (zero_page !! Z.to_nat (a - p) = Some 0) as H0'.
    { Transparent zero_page. unfold zero_page. Opaque zero_page. apply lookup_replicate. unfold PAGE_SZ. split; [done|lia]. }
    specialize (Harr _ _ H0'). replace (p + Z.to_nat (a - p)) with a in Harr by lia. done.
Qed.
Lemma uvm_allocate_ok s pgdir pts l us oldsz newsz : user_space s pgdir pts l us →
  0 ≤ oldsz → page_alignup oldsz = 4096 * length us → oldsz ≤ newsz ≤ KERN_BASE →
  1025 + (newsz - oldsz) / 4096 < length l + size pts →
  wp (uvm_allocate pgdir oldsz newsz) s (λ r s', r = s32 newsz ∧ ∃ pts' l' us',
    us_grows pgdir s pts l us s' pts' l' us' ∧ page_alignup newsz = 4096 * length (us ++ us') ∧ zeroed (ram s') us').
Proof.
  intros Hus H0' Hal Hn Hmem. unfold uvm_allocate. unfold KERN_BASE in Hn.
  rewrite (proj2 (Z.ltb_ge KERN_BASE newsz)), (proj2 (Z.ltb_ge newsz oldsz)) by (unfold KERN_BASE; lia).
  rewrite Hal. rewrite page_alignup_eq in Hal by lia. rewrite (page_alignup_eq newsz) by lia. unfold PAGE_SZ. change 0x1000 with 4096.
  set (n := (newsz + 4096 - 1 - 4096 * length us) / 4096).
  assert (0 ≤ n ∧ n ≤ (newsz - oldsz) / 4096 + 1 ∧ 4096 * (length us + n) < newsz + 4096 ∧ newsz ≤ 4096 * (length us + n)) as (N1 & N2 & N3 & N4).
  { unfold n. clear - Hal Hn. Z.div_mod_to_equations. lia. }
  eapply wp_mono; [apply (uvm_grow_loop (Z.to_nat n) s pgdir pts l us); [done|unfold KERN_BASE; lia|lia|lia]|].
  intros r s' (-> & pts' & l' & us' & Hg & Hl & Hz). split; [done|]. exists pts', l', us'. split; [done|]. split; [|done].
  rewrite length_app, Hl. clear - N3 N4 N1. Z.div_mod_to_equations. lia.
Qed.

(** What is found in the old and in the new pages *)
Lemma ubyte_grows pgdir s pts l us s' pts' l' us' a : user_space s pgdir pts l us → us_grows pgdir s pts l us s' pts' l' us' →
  zeroed (ram s') us' → 0 ≤ a → ubyte (ram s') (us ++ us') a =
    if decide (a < 4096 * length us) then ubyte (ram s) us a else if decide (a < 4096 * length (us ++ us')) then Some 0 else None.
Proof.
  intros Hus Hg Hz Ha. unfold ubyte. pose proof (Z.mod_pos_bound a 4096 ltac:(lia)) as Hm. rewrite length_app.
  destruct (decide (a < 4096 * length us)) as [Hin|Hout].
  - destruct (lookup_lt_is_Some_2 us (Z.to_nat (a / 4096))) as [[p f] Hp]; [Z.div_mod_to_equations; lia|].
    rewrite lookup_app_l, Hp by (by eapply lookup_lt_Some). cbn. destruct (us_page _ _ _ _ _ Hus _ _ _ Hp) as (Hdp & _).
    destruct (ug_data_page _ _ _ _ _ _ _ _ _ _ Hg Hdp) as (_ & _ & Hs). apply Hs. lia.
  - case_decide as Hin.
    + destruct (lookup_lt_is_Some_2 (us ++ us') (Z.to_nat (a / 4096))) as [[p f] Hp]; [rewrite length_app; Z.div_mod_to_equations; lia|].
      rewrite Hp. cbn. rewrite lookup_app_r in Hp by (Z.div_mod_to_equations; lia).
      destruct (Hz p f) as [_ Hz']; [by eapply list_elem_of_lookup_2|]. apply Hz'. lia.
    + rewrite lookup_ge_None_2; [done|]. rewrite length_app. Z.div_mod_to_equations. lia.
Qed.

(** ** [uvm_memcpy] *)

Lemma us_table s pgdir pts l us (i : nat) p f : user_space s pgdir pts l us → us !! i = Some (p, f) →
  ∃ t, pts !! page_directory_idx (4096 * i) = Some t.
Proof.
  intros Hus Hi. destruct (us_page _ _ _ _ _ Hus i p f Hi) as ((Hpo & _) & Hf & Ho & Hp).
  destruct (page_ok_range p Hpo) as [Hr _]. unfold pte_of in Hp. destruct (pts !! _) as [t|]; [by exists t|].
  unfold KERN_LINK, EXTMEM in Hr. lia.
Qed.

Lemma uva2ka_ok s pgdir pts l us (i : nat) p f : user_space s pgdir pts l us → us !! i = Some (p, f) → Z.land f PTE_U ≠ 0 →
  uva2ka pgdir (4096 * i) s = Ok p s.
Proof.
  intros Hus Hi Hu. destruct (us_table _ _ _ _ _ _ _ _ Hus Hi) as [t Ht].
  destruct (us_page _ _ _ _ _ Hus i p f Hi) as ((Hpo & _) & Hf & Ho & Hp). pose proof (us_inv _ _ _ _ _ Hus) as Hv.
  destruct (entry_parts p f Hpo Hf) as (Ha & Hfl & Hka & Hr & Hm). destruct (page_ok_range p Hpo) as [Hr' Hpa].
  unfold uva2ka. rewrite (bind_ok _ _ _ _ _ (get_pte_ok _ _ _ _ _ _ Hv Ht)).
  rewrite (bind_ok _ _ _ _ _ (load_pte _ _ _ _ _ _ Hv Ht)), Hp, land_present, Hm, Ho. cbn [Z.eqb].
  assert (Z.land (p - KERN_BASE + f) PTE_U = Z.land f PTE_U) as ->.
  { rewrite <- lor_flags; [|unfold page_aligned, KERN_BASE in *; clear - Hpa; Z.div_mod_to_equations; lia|done].
    rewrite Z.land_lor_distr_l. replace (Z.land (p - KERN_BASE) PTE_U) with 0; [by rewrite Z.lor_0_l|].
    symmetry. apply Z.bits_inj'. intros k Hk. rewrite Z.land_spec, Z.bits_0. destruct (Z.lt_ge_cases k 12).
    - replace (p - KERN_BASE) with (Z.shiftl ((p - KERN_BASE) / 4096) 12).
      + by rewrite Z.shiftl_spec_low.
      + rewrite Z.shiftl_mul_pow2 by lia. change (2 ^ 12) with 4096. unfold page_aligned, KERN_BASE in *. clear - Hpa. Z.div_mod_to_equations. lia.
    - replace (Z.testbit PTE_U k) with false; [by rewrite andb_false_r|]. symmetry. apply Z.bits_above_log2; [done|]. cbn. lia. }
  rewrite (proj2 (Z.eqb_neq _ 0)) by done. unfold ret. by rewrite Ha, Hka.
Qed.

Lemma ubyte_write s pgdir pts l us (i : nat) p f off d : user_space s pgdir pts l us → us !! i = Some (p, f) →
  0 ≤ off → off + zlen d ≤ 4096 → ∀ a, 0 ≤ a → ubyte (write (p + off) d (ram s)) us a =
    if decide (4096 * i + off ≤ a < 4096 * i + off + zlen d) then d !! Z.to_nat (a - (4096 * i + off)) else ubyte (ram s) us a.
Proof.
  intros Hus Hi Ho Hd a Ha. unfold ubyte. destruct (us !! Z.to_nat (a / 4096)) as [[q g]|] eqn:Hq; cbn.
  2:{ rewrite decide_False; [done|]. intros Hin. apply lookup_ge_None in Hq. apply lookup_lt_Some in Hi. Z.div_mod_to_equations. lia. }
  rewrite lookup_write. destruct (decide (Z.to_nat (a / 4096) = i)) as [<-|Hne].
  - rewrite Hq in Hi. injection Hi as -> ->. rewrite Z2Nat.id by (apply Z.div_pos; lia). pose proof (Z.div_mod a 4096 ltac:(lia)) as Hdm.
    repeat case_decide; try lia; [|done]. f_equal. lia.
  - destruct (us_page _ _ _ _ _ Hus _ _ _ Hi) as (((Hpa & _) & _) & _). destruct (us_page _ _ _ _ _ Hus _ _ _ Hq) as (((Hqa & _) & _) & _).
    assert (q ≠ p) as Hqp.
    { intros ->. apply Hne. eapply NoDup_lookup; [apply (us_nodup _ _ _ _ _ Hus)|by rewrite list_lookup_fmap, Hq|by rewrite list_lookup_fmap, Hi]. }
    pose proof (Z.mod_pos_bound a 4096 ltac:(lia)). rewrite !decide_False; [done|..].
    + intros Hin. apply Hne. Z.div_mod_to_equations. lia.
    + destruct (pages_disjoint q p Hqa Hpa Hqp); lia.
Qed.

(** Clearing a flag of a page, other than the present bit *)
Lemma clear_flag_ok s pgdir pts l us (i : nat) p f flag : user_space s pgdir pts l us → us !! i = Some (p, f) →
  flag = PTE_W ∨ flag = PTE_U →
  ∃ s', clear_pte_flag pgdir (4096 * i) flag s = Ok tt s' ∧
    user_space s' pgdir pts l (<[i := (p, Z.land f (Z.lnot flag))]> us) ∧ same_data pgdir pts l (ram s) (ram s') ∧
    (∀ q, page_mapped (ram s) q → page_mapped (ram s') q) ∧
    ∀ va, KERN_BASE ≤ va < 4294967296 → pte_of (ram s') pts va = pte_of (ram s) pts va.
Proof.
  intros Hus Hi Hflag. destruct (us_table _ _ _ _ _ _ _ _ Hus Hi) as [t Ht]. pose proof Hus as [Hv Hp Hnd Hz Hlen].
  destruct (Hp i p f Hi) as (Hdp & Hf & Ho & Hpte). pose proof Hdp as (Hpo & _). destruct (page_ok_range p Hpo) as [Hr Ha].
  pose proof (lookup_lt_Some _ _ _ Hi) as Hil. unfold KERN_LINK, EXTMEM in Hr.
  assert (0 ≤ Z.land f (Z.lnot flag) < 4096) as Hlf.
  { enough (Z.land f (Z.lnot flag) = Z.land f (Z.lnot flag) mod 2 ^ 12) as -> by by apply Z.mod_pos_bound.
    rewrite <- Z.land_ones by done. rewrite <- Z.land_assoc, (Z.land_comm _ (Z.ones 12)), Z.land_assoc, Z.land_ones by done.
    by rewrite (Z.mod_small f). }
  assert (Z.land f (Z.lnot flag) mod 2 = 1) as Hlo.
  { rewrite <- land_present. destruct Hflag as [->| ->]; rewrite <- Z.land_assoc; [change (Z.land (Z.lnot PTE_W) PTE_P) with 1|change (Z.land (Z.lnot PTE_U) PTE_P) with 1];
      change 1 with (Z.ones 1) at 1; by rewrite Z.land_ones. }
  assert (Z.land (p - KERN_BASE + f) (Z.lnot flag) = p - KERN_BASE + Z.land f (Z.lnot flag)) as He.
  { assert (page_aligned (p - KERN_BASE)) as Hpa by (unfold page_aligned, KERN_BASE in *; clear - Ha; Z.div_mod_to_equations; lia).
    rewrite <- !lor_flags by done. rewrite Z.land_lor_distr_l. f_equal. apply Z.bits_inj'. intros k Hk. rewrite Z.land_spec, Z.lnot_spec by done.
    destruct (Z.lt_ge_cases k 12).
    - replace (p - KERN_BASE) with (Z.shiftl ((p - KERN_BASE) / 4096) 12).
      + by rewrite Z.shiftl_spec_low.
      + rewrite Z.shiftl_mul_pow2 by lia. change (2 ^ 12) with 4096. unfold page_aligned in Hpa. clear - Hpa. Z.div_mod_to_equations. lia.
    - replace (Z.testbit flag k) with false; [by rewrite andb_true_r|]. symmetry.
      destruct Hflag as [->| ->]; (apply Z.bits_above_log2; [done|]; cbn; lia). }
  destruct (store_pte s pgdir pts l (4096 * i) t (Z.land (p - KERN_BASE + f) (Z.lnot flag)) Hv Ht) as (Hst & Hv' & Hpte' & Hsd).
  set (s' := mkPmem _ _) in *. exists s'. split; [|split; [|split; [exact Hsd|split]]].
  - apply wp_eq. unfold clear_pte_flag. assert (known_flag flag = true) as -> by (by destruct Hflag as [->| ->]). cbn [negb].
    rewrite wp_bind. eapply wp_ok; [by eapply get_pte_ok|]. destruct (pte_slot _ _ _ _ _ _ Hv Ht) as [_ Hnz].
    rewrite (proj2 (Z.eqb_neq _ _) Hnz), wp_bind. eapply wp_ok; [by eapply load_pte|]. rewrite Hpte. by eapply wp_ok; [exact Hst|].
  - assert (page_aligned (4096 * i)) as Hva by (unfold page_aligned; by rewrite Z.mul_comm, Z.mod_mul).
    assert (∀ va, 0 ≤ va < KERN_BASE → ¬ (4096 * i ≤ va < 4096 * i + 4096) → pte_of (ram s') pts va = pte_of (ram s) pts va) as Hold.
    { intros va Hva' Hout. rewrite Hpte', decide_False; [done|]. intros Heq. apply Hout.
      apply (same_page (4096 * i) va); [done|unfold KERN_BASE in *; lia|unfold KERN_BASE in *; lia|done]. }
    split; [done| | | |by rewrite length_insert].
    + intros j q g Hj. assert (data_page s pgdir pts l q → data_page s' pgdir pts l q) as Hdq.
      { intros (R1 & R2 & R3 & R4). split; [done|]. split; [done|]. split; [done|]. cbn [s' ram]. by apply page_mapped_write. }
      destruct (decide (j = i)) as [->|Hne].
      * rewrite list_lookup_insert_eq in Hj by done. injection Hj as <- <-. split; [by apply Hdq|]. split; [done|]. split; [done|].
        rewrite Hpte', decide_True, He by done. apply u32_small. unfold KERN_BASE in *. lia.
      * rewrite list_lookup_insert_ne in Hj by done. destruct (Hp j q g Hj) as (R1 & R2 & R3 & R4). split; [by apply Hdq|]. split; [done|]. split; [done|].
        pose proof (lookup_lt_Some _ _ _ Hj). rewrite Hold by lia. done.
    + rewrite list_fmap_insert. cbn [fst]. rewrite list_insert_id; [done|]. by rewrite list_lookup_fmap, Hi.
    + rewrite length_insert. intros va Hva'. rewrite Hold by lia. by apply Hz.
  - intros q Hq. cbn [s' ram]. by apply page_mapped_write.
  - intros va Hva. rewrite Hpte', decide_False; [done|]. intros [Hd _]. rewrite !page_directory_idx_eq in Hd. unfold KERN_BASE in *.
    clear - Hd Hva Hil Hlen. Z.div_mod_to_equations. lia.
Qed.

(** The pages from [va] to [va + n] can be written by the user. *)
Definition user_range (us : list (Z * Z)) (va n : Z) : Prop :=
  0 ≤ va ∧ va + n ≤ 4096 * length us ∧
  ∀ (i : nat) p f, us !! i = Some (p, f) → va - 4096 < 4096 * i < va + n → Z.land f PTE_U ≠ 0.

(** Only pages of [us] were written to. *)
Definition only_user (us : list (Z * Z)) (m m' : mem) : Prop :=
  (∀ q, page_aligned q → q ∉ us.*1 → ∀ a, q ≤ a < q + 4096 → m' !! a = m !! a) ∧ ∀ q, page_mapped m q → page_mapped m' q.

Lemma memcpy_loop (n : nat) pgdir pts l us : ∀ s va buf,
  user_space s pgdir pts l us → Forall is_byte buf → zlen buf = 0 ∨ user_range us va (zlen buf) →
  zlen buf = 0 ∨ va mod 4096 + zlen buf ≤ 4096 * n →
  wp (loop (S n) (uvm_memcpy_page pgdir) (va, buf)) s (λ r s', r = 0 ∧ user_space s' pgdir pts l us ∧ freelist s' = freelist s ∧
    only_user us (ram s) (ram s') ∧
    ∀ a, 0 ≤ a → ubyte (ram s') us a =
      if decide (va ≤ a < va + zlen buf) then buf !! Z.to_nat (a - va) else ubyte (ram s) us a).
Proof.
  induction n as [|n IH]; intros s va buf Hus Hb Hr Hn; rewrite wp_loop_S; unfold uvm_memcpy_page at 1;
    (destruct (Z.ltb_spec 0 (zlen buf)) as [Hl|Hl]; cbn [negb]; [|rewrite wp_ret; split; [done|split; [done|split; [done|split; [done|]]]];
      intros a Ha; rewrite decide_False by lia; done]).
  { pose proof (Z.mod_pos_bound va 4096 ltac:(lia)). lia. }
  destruct Hr as [|(Hva & Hend & Hfl)]; [lia|]. pose proof (us_len _ _ _ _ _ Hus) as Hlen. pose proof (Z.div_mod va 4096 ltac:(lia)) as Hdm.
  pose proof (Z.mod_pos_bound va 4096 ltac:(lia)) as Hmod. set (o := va mod 4096) in *.
  assert (0 ≤ va / 4096) as Hq0 by (apply Z.div_pos; lia). set (i := Z.to_nat (va / 4096)).
  assert (va = 4096 * i + o) as Hvi by lia. assert (page_aligndown va = 4096 * i) as -> by (rewrite page_aligndown_eq; lia).
  destruct (lookup_lt_is_Some_2 us i) as [[p f] Hi]; [lia|].
  rewrite wp_bind. eapply wp_ok; [apply (uva2ka_ok _ _ _ _ _ _ _ _ Hus Hi), (Hfl i p f Hi); lia|].
  pose proof (us_page _ _ _ _ _ Hus i p f Hi) as (Hdp & _). pose proof Hdp as (Hpo & _ & _ & Hpm).
  rewrite (proj2 (Z.eqb_neq p 0)) by by apply page_ok_nonzero. unfold PAGE_SZ. change 0x1000 with 4096.
  replace (va - 4096 * i) with o by lia.
  set (k := if zlen buf <? 4096 - o then zlen buf else 4096 - o).
  assert (0 < k ∧ k ≤ zlen buf ∧ o + k ≤ 4096 ∧ (k < 4096 - o → k = zlen buf)) as (K1 & K2 & K3 & K4).
  { unfold k. destruct (Z.ltb_spec (zlen buf) (4096 - o)); lia. }
  assert (zlen (take (Z.to_nat k) buf) = k) as Hk by (unfold zlen in *; rewrite length_take; lia).
  assert (zlen (drop (Z.to_nat k) buf) = zlen buf - k) as Hdk by (unfold zlen in *; rewrite length_drop; lia).
  rewrite wp_bind. unfold with_ram. rewrite wp_zoom. eapply wp_ok.
  { apply store_bytes_ok; [by apply Forall_take|]. eapply page_mapped_range; [exact Hpm|lia|unfold zlen in *; lia]. }
  rewrite wp_ret. set (s1 := mkPmem _ _).
  assert (user_space s1 pgdir pts l us) as Hus1 by (apply (us_write s pgdir pts l us p); [done|done|lia|lia]).
  assert (u32 (4096 * i + 4096) = 4096 * i + 4096) as -> by (apply u32_small; unfold KERN_BASE in *; lia).
  assert (only_user us (ram s) (ram s1)) as Ho1.
  { split; [|intros q; apply page_mapped_write]. intros q Hqa Hq a Ha. cbn [s1 ram]. rewrite lookup_write, decide_False; [done|].
    assert (q ≠ p) as Hne. { intros ->. apply Hq, list_elem_of_fmap. exists (p, f). split; [done|]. by eapply list_elem_of_lookup_2. }
    destruct (pages_disjoint q p Hqa (proj1 Hpo) Hne); lia. }
  assert (zlen (drop (Z.to_nat k) buf) = 0 ∨ (4096 * i + 4096) mod 4096 + zlen (drop (Z.to_nat k) buf) ≤ 4096 * n) as Hn1.
  { replace (4096 * i + 4096) with ((i + 1) * 4096) by lia. rewrite Z.mod_mul by done. lia. }
  assert (zlen (drop (Z.to_nat k) buf) = 0 ∨ user_range us (4096 * i + 4096) (zlen (drop (Z.to_nat k) buf))) as Hr1.
  { destruct (decide (k < 4096 - o)); [left; lia|right]. split; [lia|]. split; [lia|]. intros j q g Hq Hj. apply (Hfl j q g Hq). lia. }
  eapply wp_mono; [apply IH; [done|by apply Forall_drop|done|done]|]. intros r s2 (-> & Hus2 & Hfl2 & [O1 O2] & Hub).
  split; [done|]. split; [done|]. split; [done|]. split.
  { split; [|intros q Hq; by apply O2, Ho1]. intros q Hqa Hq a Ha. rewrite (O1 q Hqa Hq a Ha). by apply (proj1 Ho1 q). }
  intros a Ha. rewrite Hub by done. cbn [s1 ram].
  rewrite (ubyte_write _ _ _ _ _ i p f o (take (Z.to_nat k) buf) Hus Hi) by lia. rewrite Hk, Hdk.
  repeat case_decide; try lia; try done.
  - rewrite lookup_drop. f_equal. lia.
  - rewrite lookup_take_lt by lia. f_equal. lia.
Qed.

(** ** [kvm_allocate] *)

(** From the free pages [l] an address space [pgdir] with the user pages [us]
    was made. *)
Record new_space (s : Pmem) (l : list Z) (s' : Pmem) (pgdir : Z) (pts : gmap Z Z) (l' : list Z) (us : list (Z * Z)) : Prop :=
  mk_new_space {
  ns_space : user_space s' pgdir pts l' us;
  ns_data : ∀ q, page_aligned q → q ∉ l → ∀ a, q ≤ a < q + 4096 → ram s' !! a = ram s !! a;
  ns_pages : ∀ q, q ∈ l' ∨ table_page pgdir pts q ∨ q ∈ us.*1 → q ∈ l;
  ns_mapped : ∀ q, page_mapped (ram s) q → page_mapped (ram s') q;
  ns_count : (length l' + size pts + length us + 1 = length l)%nat;
}.

(** The kernel's part of an address space: all physical memory from
    [KERN_BASE] on, and the devices in their place. *)
Definition kernel_maps (m : mem) (pgdir : Z) : Prop :=
  ∀ va, KERN_BASE ≤ va < 4294967296 → translate m pgdir va =
    if decide (va < KERN_BASE + PHYSTOP) then Some (va - KERN_BASE) else
    if decide (DEV_SPACE ≤ va) then Some va else None.

(** The entries that mapping [k], of [sz] bytes, makes *)
Definition maps_entries (k : VMap) (sz : Z) (m m' : mem) (pts pts' : gmap Z Z) : Prop :=
  ∀ va, 0 ≤ va < 4294967296 → pte_of m' pts' va =
    if decide (virt k ≤ va < virt k + sz) then Z.lor (Z.lor (pstart k + 4096 * ((va - virt k) / 4096)) PTE_P) (perm k)
    else pte_of m pts va.

(** The kernel's part takes up 136 entries of a directory. *)
Definition kernel_table (i : Z) : Prop := 512 ≤ i < 640 ∨ 1016 ≤ i < 1024.

Definition kernel_tables (pts : gmap Z Z) : Prop := ∀ i t, pts !! i = Some t → kernel_table i.

Lemma kernel_tables_size pts : kernel_tables pts → (size pts ≤ 136)%nat.
Proof.
  intros Hk. rewrite <- size_dom. trans (size (list_to_set (seqZ 512 128 ++ seqZ 1016 8) : gset Z)).
  - apply subseteq_size. intros i [t Ht]%elem_of_dom. apply elem_of_list_to_set, elem_of_app.
    destruct (Hk i t Ht); [left|right]; apply elem_of_seqZ; lia.
  - by vm_compute.
Qed.

Lemma map_kernel s t pts l k sz : vm_inv s t pts l →
  page_aligned (virt k) → page_aligned (pstart k) → page_aligned sz → 0 ≤ virt k < 4294967296 → virt k + sz ≤ 4294967296 →
  0 ≤ pstart k → pstart k + sz ≤ 4294967296 → 0 ≤ sz < 2147483648 → pend k = u32 (pstart k + sz) → 0 ≤ perm k < 4096 →
  (∀ va, virt k ≤ va < virt k + sz → pte_of (ram s) pts va = 0) → (136 < length l + size pts)%nat →
  kernel_tables pts → (∀ i, virt k / 4194304 ≤ i ≤ (virt k + sz - 1) / 4194304 → kernel_table i) →
  wp (map_pages t k) s (λ ok s', ok = true ∧ ∃ pts' l', vm_grows t s pts l s' pts' l' ∧
    maps_entries k sz (ram s) (ram s') pts pts' ∧ kernel_tables pts').
Proof.
  intros Hi Hv Hp Hs Hvr Hve Hp0 Hpe Hsz Hpend Hpm Hfree Hmem Hkt Hkr.
  assert (4096 * Z.of_nat (Z.to_nat (sz / 4096)) = sz) as Hn.
  { rewrite Z2Nat.id by (apply Z.div_pos; lia). unfold page_aligned in Hs. Z.div_mod_to_equations. lia. }
  wp_apply (map_pages_in (Z.to_nat (sz / 4096)) s t pts l); rewrite ?Hn; try done; try lia.
  { intros va Hva. by rewrite Hfree. }
  intros ok s' (pts' & l' & j & Hg & Hj & Hok & Hent & Hin). pose proof (vg_inv _ _ _ _ _ _ _ Hg) as Hi'.
  assert (kernel_tables pts') as Hkt'.
  { intros i u Hu. destruct (Hin i u Hu) as [Hu'|Hr]; [by apply (Hkt i u)|by apply Hkr]. }
  assert (ok = true) as ->.
  { destruct ok; [done|]. subst l'. pose proof (vg_count _ _ _ _ _ _ _ Hg) as Hc.
    pose proof (kernel_tables_size _ Hkt') as Hb. cbn [length] in Hc. lia. }
  subst j. split; [done|]. exists pts', l'. split; [done|]. split; [|done]. intros va Hva. by rewrite Hent, Hn.
Qed.

(** A zeroed page is an empty directory. *)
Lemma empty_dir s t l : free_pages s (t :: l) →
  let s1 := mkPmem (ram s) (word (ram s) t) in let s2 := mkPmem (write t zero_page (ram s)) (word (ram s) t) in
  palloc s = Ok t s1 ∧ t ≠ 0 ∧ page_mapped (ram s) t ∧ vm_inv s2 t ∅ l.
Proof.
  intros Hf s1 s2. destruct (palloc_some _ _ _ Hf) as [Hrun Hf1].
  pose proof (fp_ok _ _ Hf) as Hok. apply Forall_cons in Hok as [Hpo Hlo].
  pose proof (fp_mapped _ _ Hf) as Hmm. apply Forall_cons in Hmm as [Hpm _].
  pose proof (fp_nodup _ _ Hf) as Hnd. apply NoDup_cons in Hnd as [Hpl _]. pose proof zlen_zero_page as Hz.
  split; [done|]. split; [by apply page_ok_nonzero|]. split; [done|]. split.
  - apply (free_pages_write s1); [done|]. rewrite Hz. rewrite Forall_forall in Hlo |- *. intros q Hq.
    destruct (Hlo q Hq) as (Hqa & _). assert (q ≠ t) as Hne by (by intros ->). apply (pages_disjoint q t Hqa (proj1 Hpo) Hne).
  - split.
    + split; [done|]. by apply page_mapped_write.
    + intros i u. by rewrite lookup_empty.
    + intros i Hi _. cbn [s2 ram]. apply word_zero_page; lia.
    + intros i j u. by rewrite lookup_empty.
  - intros q Hq [->|[i Hi]]; [done|]. by rewrite lookup_empty in Hi.
Qed.

Lemma translate_maps s pgdir pts l va pa pm : vm_inv s pgdir pts l → 0 ≤ va < 4294967296 → page_aligned pa →
  0 ≤ pa < 4294967296 → 0 ≤ pm < 4096 → pte_of (ram s) pts va = Z.lor (Z.lor pa PTE_P) pm →
  translate (ram s) pgdir va = Some (pa + va mod 4096).
Proof. intros Hi Hv Hp Hpr Hpm He. rewrite (translate_ok _ _ _ _ _ Hi). cbn zeta. by apply translate_entry with pm. Qed.

Lemma kvm_allocate_ok s l : free_pages s l → (137 < length l)%nat →
  wp (kvm_allocate init_kmap) s (λ '(ok, t) s', ok = true ∧ ∃ pts l', new_space s l s' t pts l' [] ∧ kernel_maps (ram s') t ∧
    kernel_tables pts).
Proof.
  intros Hf Hlen. destruct l as [|t l]; [cbn [length] in Hlen; lia|]. cbn [length] in Hlen.
  destruct (empty_dir s t l Hf) as (Hpal & Ht & Hpm & Hi). set (s2 := mkPmem (write t zero_page (ram s)) _) in *.
  unfold kvm_allocate. change (DEV_SPACE <? P2KA PHYSTOP) with false. cbn iota.
  rewrite wp_bind. eapply wp_ok; [exact Hpal|]. rewrite (proj2 (Z.eqb_neq t 0)) by done.
  rewrite wp_bind. unfold with_ram at 1. rewrite wp_zoom. eapply wp_ok; [by apply memset_page|]. cbn [ram freelist]. fold s2.
  pose proof kdata_aligned as Hka. pose proof kdata_low as Hkl. pose proof kdata_kend as Hkk. pose proof kend_high as Hkh.
  unfold KERN_LINK, EXTMEM, KERN_BASE, PHYSTOP in Hkl, Hkh.
  assert (KA2P kdata = kdata - 0x80000000) as Hkd by (rewrite KA2P_small; unfold KERN_BASE; lia).
  assert (page_aligned (kdata - 0x80000000)) as Ha1 by (unfold page_aligned; clear - Hka; Z.div_mod_to_equations; lia).
  assert (page_aligned (kdata - 0x80100000)) as Ha2 by (unfold page_aligned; clear - Hka; Z.div_mod_to_equations; lia).
  assert (page_aligned (0xA0000000 - kdata)) as Ha3 by (unfold page_aligned; clear - Hka; Z.div_mod_to_equations; lia).
  rewrite wp_bind. unfold init_kmap. rewrite Hkd. cbn [map_all].
  change KERN_LINK with 0x80100000. change (KA2P 0x80100000) with 0x100000. change KERN_BASE with 0x80000000.
  change EXTMEM with 0x100000. change PHYSTOP with 0x20000000. change DEV_SPACE with 0xFE000000.
  (* the four ranges *)
  rewrite wp_bind. eapply wp_mono; [apply (map_kernel s2 t ∅ l (mkVMap 0x80000000 0 0x100000 PTE_W) 0x100000); cbn [virt pstart pend perm]; try done; try lia|].
  { unfold kernel_table. intros i Hi'. Z.div_mod_to_equations. lia. }
  intros ok s3 (-> & pts1 & l1 & G1 & E1 & K1). pose proof (vg_inv _ _ _ _ _ _ _ G1) as I1. pose proof (vg_count _ _ _ _ _ _ _ G1) as C1.
  rewrite map_size_empty in C1. unfold maps_entries in E1; cbn [virt pstart perm] in E1.
  rewrite wp_bind. eapply wp_mono.
  { apply (map_kernel s3 t pts1 l1 (mkVMap 0x80100000 0x100000 (kdata - 0x80000000) 0) (kdata - 0x80100000)); cbn [virt pstart pend perm]; try done; try lia.
    - rewrite u32_small; lia.
    - intros va Hva. rewrite E1, decide_False by lia. done.
    - unfold kernel_table. intros i Hi'. clear - Hi' Hkl Hkk Hkh. Z.div_mod_to_equations. lia. }
  intros ok s4 (-> & pts2 & l2 & G2 & E2 & K2). pose proof (vg_inv _ _ _ _ _ _ _ G2) as I2. pose proof (vg_count _ _ _ _ _ _ _ G2) as C2.
  unfold maps_entries in E2; cbn [virt pstart perm] in E2.
  rewrite wp_bind. eapply wp_mono.
  { apply (map_kernel s4 t pts2 l2 (mkVMap kdata (kdata - 0x80000000) 0x20000000 PTE_W) (0xA0000000 - kdata)); cbn [virt pstart pend perm]; try done; try lia.
    - replace (kdata - 2147483648 + (2684354560 - kdata)) with 0x20000000 by lia. done.
    - intros va Hva. rewrite E2, decide_False, E1, decide_False by lia. done.
    - unfold kernel_table. intros i Hi'. clear - Hi' Hkl Hkk Hkh. Z.div_mod_to_equations. lia. }
  intros ok s5 (-> & pts3 & l3 & G3 & E3 & K3). pose proof (vg_inv _ _ _ _ _ _ _ G3) as I3. pose proof (vg_count _ _ _ _ _ _ _ G3) as C3.
  unfold maps_entries in E3; cbn [virt pstart perm] in E3.
  rewrite wp_bind. eapply wp_mono.
  { apply (map_kernel s5 t pts3 l3 (mkVMap 0xFE000000 0xFE000000 0 PTE_W) 0x2000000); cbn [virt pstart pend perm]; try done; try lia.
    - intros va Hva. rewrite E3, decide_False, E2, decide_False, E1, decide_False by lia. done.
    - unfold kernel_table. intros i Hi'. clear - Hi'. Z.div_mod_to_equations. lia. }
  intros ok s6 (-> & pts4 & l4 & G4 & E4 & K4). pose proof (vg_inv _ _ _ _ _ _ _ G4) as I4. pose proof (vg_count _ _ _ _ _ _ _ G4) as C4.
  unfold maps_entries in E4; cbn [virt pstart perm] in E4. rewrite wp_ret, wp_ret. split; [done|]. exists pts4, l4.
  pose proof (vm_grows_trans _ _ _ _ _ _ _ _ _ _ (vm_grows_trans _ _ _ _ _ _ _ _ _ _ G1 G2) (vm_grows_trans _ _ _ _ _ _ _ _ _ _ G3 G4)) as G.
  assert (∀ va, 0 ≤ va < 4294967296 → pte_of (ram s6) pts4 va =
    if decide (va < 0x80000000) then 0 else if decide (va < 0x80100000) then Z.lor (Z.lor (4096 * ((va - 0x80000000) / 4096)) PTE_P) PTE_W
    else if decide (va < kdata) then Z.lor (Z.lor (0x100000 + 4096 * ((va - 0x80100000) / 4096)) PTE_P) 0
    else if decide (va < 0xA0000000) then Z.lor (Z.lor (kdata - 0x80000000 + 4096 * ((va - kdata) / 4096)) PTE_P) PTE_W
    else if decide (0xFE000000 ≤ va) then Z.lor (Z.lor (0xFE000000 + 4096 * ((va - 0xFE000000) / 4096)) PTE_P) PTE_W else 0) as E.
  { intros va Hva. rewrite E4, E3, E2, E1 by done. clear - Hkl Hkk Hkh Hva. repeat case_decide; try lia; done. }
  split; [split|split; [|exact K4]].
  - split; [exact I4|done|apply NoDup_nil_2| |unfold KERN_BASE; cbn; lia].
    intros va Hva. unfold KERN_BASE in Hva. cbn [length] in Hva. rewrite E, decide_True by lia. done.
  - intros q Hqa Hq a Ha. apply not_elem_of_cons in Hq as [Hqt Hq].
    rewrite (vg_data _ _ _ _ _ _ _ G q Hqa Hq); [|intros [->|[i Hi']]; [done|by rewrite lookup_empty in Hi']|done].
    cbn [s2 ram]. rewrite lookup_write, zlen_zero_page, decide_False; [done|].
    pose proof (fp_ok _ _ Hf) as Hok. apply Forall_cons in Hok as [Hpo _]. destruct (pages_disjoint q t Hqa (proj1 Hpo) Hqt); lia.
  - intros q [Hq|[Hq|Hq%not_elem_of_nil]]; [| |done].
    + destruct (vg_pages _ _ _ _ _ _ _ G q (or_introl Hq)) as [|[->|[i Hi']]]; [by apply elem_tail|apply elem_head|by rewrite lookup_empty in Hi'].
    + destruct (vg_pages _ _ _ _ _ _ _ G q (or_intror Hq)) as [|[->|[i Hi']]]; [by apply elem_tail|apply elem_head|by rewrite lookup_empty in Hi'].
  - intros q Hq. apply (vg_mapped _ _ _ _ _ _ _ G). cbn [s2 ram]. by apply page_mapped_write.
  - cbn [length]. lia.
  - intros va Hva. unfold KERN_BASE, PHYSTOP, DEV_SPACE in *. assert (0 ≤ va < 4294967296) as Hvr by lia. specialize (E va Hvr).
    assert (∀ pa pm b, page_aligned pa → 0 ≤ pa < 4294967296 → 0 ≤ pm < 4096 → pte_of (ram s6) pts4 va = Z.lor (Z.lor pa PTE_P) pm →
      pa + va mod 4096 = b → translate (ram s6) t va = Some b) as Htr.
    { intros pa pm b Hpa Hpr Hpm' He <-. by apply (translate_maps _ _ _ _ _ _ _ I4 Hvr Hpa Hpr Hpm' He). }
    clear - E Htr I4 Hva Hka Hkl Hkk Hkh. rewrite decide_False in E by lia.
    destruct (decide (va < 0x80100000)); [rewrite decide_True by lia; eapply Htr; [..|exact E|]|].
    1-4: unfold page_aligned; try done; Z.div_mod_to_equations; lia.
    destruct (decide (va < kdata)); [rewrite decide_True by lia; eapply Htr; [..|exact E|]|].
    1-4: unfold page_aligned; try done; Z.div_mod_to_equations; lia.
    destruct (decide (va < 0xA0000000)); [rewrite decide_True by lia; eapply Htr; [..|exact E|]|rewrite decide_False by lia].
    1-4: unfold page_aligned; try done; Z.div_mod_to_equations; lia.
    destruct (decide (0xFE000000 ≤ va)); [eapply Htr; [..|exact E|]|].
    1-4: unfold page_aligned; try done; Z.div_mod_to_equations; lia.
    rewrite (translate_ok _ _ _ _ _ I4). cbn zeta. by rewrite E.
Qed.

(** ** [uvm_copy] *)

Lemma word_same m m' q a : (∀ b, q ≤ b < q + 4096 → m' !! b = m !! b) → q ≤ a → a + 4 ≤ q + 4096 → word m' a = word m a.
Proof. intros Hs H1' H2'. unfold word, peek. by rewrite !Hs by lia. Qed.

(** Writing to the pages of the user leaves the kernel's part alone. *)
Lemma kernel_user s s' pgdir pts l us : user_space s pgdir pts l us → user_space s' pgdir pts l us → only_user us (ram s) (ram s') →
  kernel_maps (ram s) pgdir → kernel_maps (ram s') pgdir.
Proof.
  intros Hus Hus' [Ho _] Hk va Hva. rewrite <- (Hk va Hva).
  rewrite (translate_ok _ _ _ _ _ (us_inv _ _ _ _ _ Hus)), (translate_ok _ _ _ _ _ (us_inv _ _ _ _ _ Hus')). cbn zeta.
  enough (pte_of (ram s') pts va = pte_of (ram s) pts va) as -> by done. unfold pte_of.
  destruct (pts !! page_directory_idx va) as [t|] eqn:Ht; [|done].
  pose proof (pw_some _ _ _ (vi_dir _ _ _ _ (us_inv _ _ _ _ _ Hus)) _ _ Ht) as (_ & Hto & _). pose proof (ptx_range va).
  unfold word, peek. assert (∀ b, t ≤ b < t + 4096 → ram s' !! b = ram s !! b) as Hs; [|by rewrite !Hs by lia].
  apply Ho; [apply Hto|]. intros ([p f] & -> & [i Hi]%list_elem_of_lookup)%list_elem_of_fmap.
  destruct (us_page _ _ _ _ _ Hus i p f Hi) as ((_ & _ & Hp & _) & _). apply Hp. right. eauto.
Qed.

Lemma kernel_grows pgdir s pts l us s' pts' l' us' : vm_inv s pgdir pts l → us_grows pgdir s pts l us s' pts' l' us' →
  kernel_maps (ram s) pgdir → kernel_maps (ram s') pgdir.
Proof.
  intros Hi Hg Hk va Hva. rewrite <- (Hk va Hva).
  rewrite (translate_ok _ _ _ _ _ Hi), (translate_ok _ _ _ _ _ (us_inv _ _ _ _ _ (ug_space _ _ _ _ _ _ _ _ _ Hg))). cbn zeta.
  by rewrite (ug_kernel _ _ _ _ _ _ _ _ _ Hg).
Qed.

(** An address space does not notice what happens to other pages. *)
Lemma us_other s pgdir pts l us s' l' : user_space s pgdir pts l us → free_pages s' l' →
  (∀ q, table_page pgdir pts q ∨ q ∈ us.*1 → q ∉ l' ∧ ∀ a, q ≤ a < q + 4096 → ram s' !! a = ram s !! a) →
  user_space s' pgdir pts l' us.
Proof.
  intros [[Hf Hw Hsep] Hp Hn Hz Hl] Hf' Hkeep.
  assert (∀ q, table_page pgdir pts q ∨ q ∈ us.*1 → page_mapped (ram s) q → page_mapped (ram s') q) as Hm.
  { intros q Hq Hqm a Ha. destruct (Hkeep q Hq) as [_ Hs]. rewrite (Hs a Ha). by apply Hqm. }
  assert (∀ q, table_page pgdir pts q → ∀ a, q ≤ a → a + 4 ≤ q + 4096 → word (ram s') a = word (ram s) a) as Hword.
  { intros q Hq a Ha Ha'. apply (word_same _ _ q); [|done|done]. by apply Hkeep; left. }
  assert (∀ va, pte_of (ram s') pts va = pte_of (ram s) pts va) as Hpte.
  { intros va. unfold pte_of. destruct (pts !! page_directory_idx va) as [t|] eqn:Ht; [|done]. pose proof (ptx_range va).
    apply (Hword t); [right; eauto|lia|lia]. }
  split; [split; [done| |]| |done| |done].
  - destruct Hw as [[Hdo Hdm] Hws Hwn Hwi]. split; [split; [done|apply Hm; [by left; left|done]]| | |done].
    + intros i t Ht. destruct (Hws i t Ht) as (T1 & T2 & T3 & T4 & T5). split; [done|]. split; [done|]. split; [done|].
      split; [apply Hm; [left; right; eauto|done]|]. rewrite (Hword pgdir); [done|by left|lia|lia].
    + intros i Hi Hnone. rewrite (Hword pgdir); [by apply Hwn|by left|lia|lia].
  - intros q Hq Ht. by destruct (Hkeep q (or_introl Ht)).
  - intros i p f Hi. destruct (Hp i p f Hi) as ((R1 & R2 & R3 & R4) & R5). rewrite Hpte.
    assert (p ∈ us.*1) as Hin by (apply list_elem_of_fmap; exists (p, f); split; [done|]; by eapply list_elem_of_lookup_2).
    split; [|done]. split; [done|]. split; [by apply Hkeep; right|]. split; [done|]. apply Hm; [by right|done].
  - intros va Hva. rewrite Hpte. by apply Hz.
Qed.

(** ... and in particular not what happens to free pages. *)
Lemma us_frame s pgdir pts l us s' l' : user_space s pgdir pts l us → free_pages s' l' → (∀ q, q ∈ l' → q ∈ l) →
  (∀ q, page_ok q → q ∉ l → ∀ a, q ≤ a < q + 4096 → ram s' !! a = ram s !! a) → user_space s' pgdir pts l' us.
Proof.
  intros Hus Hf' Hsub Hsame. apply (us_other s pgdir pts l us); [done|done|].
  assert (∀ q, table_page pgdir pts q ∨ q ∈ us.*1 → page_ok q ∧ q ∉ l) as Hout.
  { intros q [Hq|([p f] & -> & [i Hi]%list_elem_of_lookup)%list_elem_of_fmap].
    - split; [apply (table_page_ok _ _ _ _ (vi_dir _ _ _ _ (us_inv _ _ _ _ _ Hus)) Hq)|].
      intros Hin. by apply (vi_sep _ _ _ _ (us_inv _ _ _ _ _ Hus) q).
    - by destruct (us_page _ _ _ _ _ Hus i p f Hi) as ((? & ? & _) & _). }
  intros q Hq. destruct (Hout q Hq) as [Hqo Hql]. split; [intros Hin; by apply Hql, Hsub|by apply Hsame].
Qed.

(** A space whose pages were not touched *)
Lemma space_kept m d pts l us m' l' : user_space m d pts l us → free_pages m' l' →
  (∀ q, table_page d pts q ∨ q ∈ us.*1 → q ∉ l' ∧ ∀ a, q ≤ a < q + 4096 → ram m' !! a = ram m !! a) →
  user_space m' d pts l' us ∧ (kernel_maps (ram m) d → kernel_maps (ram m') d) ∧ ∀ a, 0 ≤ a → ubyte (ram m') us a = ubyte (ram m) us a.
Proof.
  intros Hus Hf Hkeep. pose proof (us_other _ _ _ _ _ _ _ Hus Hf Hkeep) as Hus'. split; [done|]. split.
  - intros Hk va Hva. rewrite <- (Hk va Hva), (translate_ok _ _ _ _ va (us_inv _ _ _ _ _ Hus)), (translate_ok _ _ _ _ va (us_inv _ _ _ _ _ Hus')).
    cbn zeta. assert (pte_of (ram m') pts va = pte_of (ram m) pts va) as ->; [|done]. unfold pte_of.
    destruct (pts !! page_directory_idx va) as [t|] eqn:Ht; [|done]. pose proof (ptx_range va).
    apply (word_same _ _ t); [|lia|lia]. apply Hkeep. left. right. by eexists.
  - intros a Ha. unfold ubyte. destruct (us !! Z.to_nat (a / 4096)) as [[q f]|] eqn:Hq; [|done]. cbn.
    apply (Hkeep q); [right; apply list_elem_of_fmap; exists (q, f); split; [done|]; by eapply list_elem_of_lookup_2|].
    pose proof (Z.mod_pos_bound a 4096 ltac:(lia)). lia.
Qed.

Lemma lor_present f : f mod 2 = 1 → Z.lor PTE_P f = f.
Proof.
  intros Hf. apply Z.bits_inj'. intros k Hk. rewrite Z.lor_spec. destruct (decide (k = 0)) as [->|Hne].
  - rewrite <- (Z.bit0_mod f) in Hf. destruct (Z.testbit f 0); [done|discriminate].
  - replace (Z.testbit PTE_P k) with false; [done|]. symmetry. apply Z.bits_above_log2; [done|]. cbn. lia.
Qed.

Lemma new_space_grows s l s1 t pts l1 us s2 pts2 l2 us2 : new_space s l s1 t pts l1 us →
  us_grows t s1 pts l1 us s2 pts2 l2 us2 → new_space s l s2 t pts2 l2 (us ++ us2).
Proof.
  intros [I1 D1 P1 M1 C1] [I2 D2 P2 N2 M2 C2 T2 K2]. split; [done| | |auto|].
  - intros q Hqa Hq a Ha. rewrite (D2 q Hqa), (D1 q Hqa Hq a Ha); [done| | |done]; intros Hin; apply Hq, P1; auto.
  - intros q. rewrite fmap_app, elem_of_app. intros [Hq|[Hq|[Hq|Hq]]]; apply P1; [| |by auto|left; by apply N2].
    + destruct (P2 q (or_introl Hq)); auto.
    + destruct (P2 q (or_intror Hq)); auto.
  - rewrite length_app. lia.
Qed.

Lemma new_space_user s l s1 t pts l1 us s2 : new_space s l s1 t pts l1 us → user_space s2 t pts l1 us →
  only_user us (ram s1) (ram s2) → new_space s l s2 t pts l1 us.
Proof.
  intros [I1 D1 P1 M1 C1] Hus [O1 O2]. split; [done| |done|auto|done].
  intros q Hqa Hq a Ha. rewrite (O1 q Hqa); [by apply (D1 q)| |done]. intros Hin. apply Hq, P1. auto.
Qed.

Lemma copy_loop (n : nat) s in_ pts l us new : ∀ s1 pts1 l1 us1 npg,
  user_space s in_ pts l us → user_bytes (ram s) us → new_space s l s1 new pts1 l1 us1 → copied (ram s) (ram s1) us us1 →
  kernel_maps (ram s1) new →
  (length us1 + n ≤ length us)%nat → 4096 * (length us1 + n) < npg + 4096 ∧ npg ≤ 4096 * (length us1 + n) →
  (1024 + n < length l1 + size pts1)%nat →
  wp (loop (S n) (uvm_copy_page new in_ npg) (4096 * length us1)) s1 (λ ok s2, ok = true ∧ ∃ pts2 l2 us2,
    new_space s l s2 new pts2 l2 us2 ∧ copied (ram s) (ram s2) us us2 ∧ kernel_maps (ram s2) new ∧ length us2 = (length us1 + n)%nat).
Proof.
  induction n as [|n IH]; intros s1 pts1 l1 us1 npg Hus Hby Hns Hcp Hkm Hlen Hn Hmem; rewrite wp_loop_S; unfold uvm_copy_page at 1.
  { rewrite (proj2 (Z.ltb_ge _ _)) by lia. cbn [negb]. rewrite wp_ret. split; [done|]. exists pts1, l1, us1.
    rewrite Nat.add_0_r. done. }
  rewrite (proj2 (Z.ltb_lt _ _)) by lia. cbn [negb]. pose proof Hns as [Hus1 Hdat Hpgs Hmap Hcnt].
  assert (user_space s1 in_ pts l1 us) as Hold.
  { apply (us_frame s in_ pts l us); [done|apply Hus1|intros q Hq; by apply Hpgs; left|]. intros q [Hqa _]. by apply Hdat. }
  destruct (lookup_lt_is_Some_2 us (length us1)) as [[q f] Hq]; [lia|]. set (i := length us1) in *.
  destruct (us_page _ _ _ _ _ Hus i q f Hq) as (Hdq & _). destruct (us_page _ _ _ _ _ Hold i q f Hq) as (Hdq1 & Hf & Ho & Hpte).
  destruct (us_table _ _ _ _ _ _ _ _ Hold Hq) as [t Ht]. pose proof (us_inv _ _ _ _ _ Hold) as Hv.
  pose proof Hdq1 as (Hqo & Hql1 & Hqt & Hqm). destruct (entry_parts q f Hqo Hf) as (Ha & Hfl & Hka & _ & Hodd).
  pose proof (us_len _ _ _ _ _ Hus) as Hul.
  rewrite wp_bind. eapply wp_ok; [by eapply get_pte_ok|]. destruct (pte_slot _ _ _ _ _ _ Hv Ht) as [_ Hnz].
  rewrite (proj2 (Z.eqb_neq _ _) Hnz), wp_bind. eapply wp_ok; [by eapply load_pte|].
  rewrite Hpte, land_present, Hodd, Ho. cbn [Z.eqb]. rewrite Ha, Hfl, Hka.
  set (d := (λ j : nat, peek (ram s1) (q + j)) <$> seq 0 4096).
  assert (length d = Z.to_nat PAGE_SZ) as Hdl by (unfold d; by rewrite length_fmap, length_seq).
  assert (zlen d = 4096) as Hdz by (unfold zlen; rewrite Hdl; done).
  assert (array (ram s1) q d) as Hsrc.
  { apply peek_array. eapply page_mapped_range; [exact Hqm|lia|]. change (Z.of_nat 4096) with 4096. lia. }
  assert (Forall is_byte d) as Hdb.
  { apply Forall_forall. intros b [j Hj]%list_elem_of_lookup. pose proof (lookup_lt_Some _ _ _ Hj) as Hlt.
    apply (Hby q f (q + j)); [by eapply list_elem_of_lookup_2|unfold zlen in Hdz; lia|].
    rewrite <- (Hdat q (proj1 Hqo) (proj1 (proj2 Hdq))) by (unfold zlen in Hdz; lia). by apply Hsrc. }
  destruct (add_user_page s1 new pts1 l1 us1 d f Hus1 Hdz Hf) as (p & Hpal & (Hpo & _) & Hpm & Hpl & Hmp); [fold i; lia|lia|].
  rewrite wp_bind. eapply wp_ok; [exact Hpal|]. rewrite (proj2 (Z.eqb_neq p 0)) by by apply page_ok_nonzero.
  rewrite wp_bind. unfold with_ram. rewrite wp_zoom. eapply wp_ok.
  { cbn [ram]. change PAGE_SZ with 4096. rewrite <- Hdz. apply memmove_ok; [exact Hsrc| |exact Hdb]. rewrite Hdl. eapply page_mapped_range; [exact Hpm|lia|by rewrite Z2Nat.id]. }
  cbn [ram freelist]. rewrite wp_bind. eapply wp_mono; [exact Hmp|]. intros ok s2 (-> & pts2 & l2 & Hg & Harr). cbn [negb]. rewrite wp_ret.
  rewrite (lor_present f Ho) in Hg. pose proof (ug_count _ _ _ _ _ _ _ _ _ Hg) as Hc. cbn [length] in Hc.
  pose proof (new_space_grows _ _ _ _ _ _ _ _ _ _ _ Hns Hg) as Hns2.
  replace (u32 (4096 * i + PAGE_SZ)) with (4096 * length (us1 ++ [(p, f)])).
  2:{ rewrite length_app. cbn [length]. unfold PAGE_SZ. rewrite u32_small; unfold KERN_BASE in *; lia. }
  eapply wp_mono.
  - apply (IH s2 pts2 l2 (us1 ++ [(p, f)]) npg Hus Hby Hns2); try (rewrite length_app; cbn [length]; lia); [| |lia].
    + intros j r g Hj. apply lookup_app_Some in Hj as [Hj|[Hge Hj]].
      * destruct (Hcp j r g Hj) as (q' & Hq' & Hsame). exists q'. split; [done|]. intros o Ho'.
        destruct (us_page _ _ _ _ _ Hus1 j r g Hj) as (Hdr & _).
        destruct (ug_data_page _ _ _ _ _ _ _ _ _ _ Hg Hdr) as (_ & _ & ->); [by apply Hsame|lia].
      * apply list_lookup_singleton_Some in Hj as [Hz [= <- <-]]. assert (j = i) as -> by (unfold i; lia). exists q. split; [done|].
        intros o Ho'. destruct (lookup_lt_is_Some_2 d (Z.to_nat o)) as [b Hb]; [unfold zlen in Hdz; lia|].
        pose proof (Harr _ _ Hb) as E1'. pose proof (Hsrc _ _ Hb) as E2'. rewrite Z2Nat.id in E1', E2' by lia. rewrite E1'.
        rewrite <- (Hdat q (proj1 Hqo) (proj1 (proj2 Hdq))) by lia. done.
    + eapply kernel_grows; [apply Hus1|done|done].
  - intros ok s3 (-> & pts3 & l3 & us3 & R1 & R2 & R3 & R4). split; [done|]. exists pts3, l3, us3. split; [done|]. split; [done|]. split; [done|].
    rewrite R4, length_app. cbn [length]. unfold i. lia.
Qed.

Lemma uvm_copy_ok s in_ pts l us npg : user_space s in_ pts l us → user_bytes (ram s) us →
  4096 * length us < npg + 4096 → 0 ≤ npg ≤ 4096 * length us → 1025 + length us < length l →
  wp (uvm_copy init_kmap in_ npg) s (λ '(ok, new) s', ok = true ∧ ∃ pts' l' us',
    new_space s l s' new pts' l' us' ∧ copied (ram s) (ram s') us us' ∧ kernel_maps (ram s') new ∧ length us' = length us).
Proof.
  intros Hus Hby Hn1 Hn2 Hmem. unfold uvm_copy. rewrite wp_bind.
  eapply wp_mono; [apply (kvm_allocate_ok s l); [apply Hus|lia]|]. intros [ok new] s1 (-> & pts1 & l1 & Hns & Hkm & _). cbn [negb].
  pose proof (ns_count _ _ _ _ _ _ _ Hns) as Hc. cbn [length] in Hc. rewrite wp_bind.
  assert (Z.to_nat ((npg + PAGE_SZ - 1) / PAGE_SZ) = length us) as ->.
  { unfold PAGE_SZ. change 0x1000 with 4096. clear - Hn1 Hn2. Z.div_mod_to_equations. lia. }
  change 0 with (4096 * length (@nil (Z * Z))) at 1.
  eapply wp_mono; [apply (copy_loop (length us) s in_ pts l us new s1 pts1 l1 [] npg); try done; cbn [length]; lia|].
  intros ok s2 (-> & pts2 & l2 & us2 & R1 & R2 & R3 & R4). rewrite wp_ret. split; [done|]. exists pts2, l2, us2. done.
Qed.

(** ** [uvm_init1] *)

(** What lies below the end of the kernel image stays, when only pages of the
    allocator change. *)
Lemma below_image l (m m' : mem) a : Forall page_ok l → a < kend →
  (∀ q, page_aligned q → q ∉ l → ∀ a, q ≤ a < q + 4096 → m' !! a = m !! a) → m' !! a = m !! a.
Proof.
  intros Hok Ha Hs. apply (Hs (4096 * (a / 4096))).
  - unfold page_aligned. by rewrite Z.mul_comm, Z.mod_mul.
  - intros Hin. rewrite Forall_forall in Hok. destruct (Hok _ Hin) as (_ & Hk & _). clear - Ha Hk. Z.div_mod_to_equations. lia.
  - clear. Z.div_mod_to_equations. lia.
Qed.

Lemma image_grows pgdir s pts l us s' pts' l' us' a : user_space s pgdir pts l us → us_grows pgdir s pts l us s' pts' l' us' →
  a < kend → ram s' !! a = ram s !! a.
Proof.
  intros Hus Hg Ha. pose proof (us_inv _ _ _ _ _ Hus) as [Hf Hw _].
  apply (below_image (l ++ pgdir :: (map_to_list pts).*2)); [|done|].
  - apply Forall_app. split; [apply Hf|]. rewrite Forall_forall. intros q Hq. apply (table_page_ok _ _ _ _ Hw).
    apply elem_of_cons in Hq as [->|([i u] & -> & Hi%elem_of_map_to_list)%list_elem_of_fmap]; [by left|right; by exists i].
  - intros q Hqa [Hl Ht]%not_elem_of_app. apply (ug_data _ _ _ _ _ _ _ _ _ Hg q Hqa Hl). intros [->|[i Hi]]; apply Ht; [apply elem_head|].
    apply elem_tail, list_elem_of_fmap. exists (i, q). split; [done|]. by apply elem_of_map_to_list.
Qed.

(** The first page of the process 1 holds the code at [b], then zeros. *)
Lemma uvm_init1_ok s l s1 t pts l1 b code : new_space s l s1 t pts l1 [] → kernel_maps (ram s1) t →
  (1025 < length l1 + size pts)%nat → array (ram s1) b code → zlen code ≤ 4096 → Forall is_byte code → b + zlen code ≤ kend →
  wp (uvm_init1 t b (zlen code)) s1 (λ _ s2, ∃ pts2 l2 p, new_space s l s2 t pts2 l2 [(p, 7)] ∧ kernel_maps (ram s2) t ∧
    ∀ a, 0 ≤ a → ubyte (ram s2) [(p, 7)] a =
      if decide (a < zlen code) then code !! Z.to_nat a else if decide (a < 4096) then Some 0 else None).
Proof.
  intros Hns Hkm Hmem Harr Hlen Hby Hb. pose proof (ns_space _ _ _ _ _ _ _ Hns) as Hus.
  unfold uvm_init1. change PAGE_SZ with 4096 at 1. rewrite (proj2 (Z.ltb_ge _ _)) by lia.
  destruct (add_user_page s1 t pts l1 [] zero_page (Z.lor PTE_W PTE_U) Hus zlen_zero_page ltac:(done) ltac:(done) Hmem)
    as (p & Hpal & (Hpo & _) & Hpm & _ & Hmap).
  rewrite wp_bind. eapply wp_ok; [exact Hpal|]. rewrite (proj2 (Z.eqb_neq p 0)) by by apply page_ok_nonzero.
  unfold with_ram at 1. rewrite wp_bind, wp_zoom. eapply wp_ok; [by apply memset_page|]. cbn [ram freelist].
  rewrite wp_bind. eapply wp_mono; [exact Hmap|]. intros ok s2 (-> & pts2 & l2 & Hg & Hz).
  pose proof (ug_space _ _ _ _ _ _ _ _ _ Hg) as Hus2. change (Z.lor PTE_P (Z.lor PTE_W PTE_U)) with 7 in *. cbn [app] in Hus2.
  destruct (us_page _ _ _ _ _ Hus2 0 p 7 eq_refl) as (Hdp & _). pose proof Hdp as (_ & _ & _ & Hpm2).
  rewrite wp_bind. unfold with_ram. rewrite wp_zoom. eapply wp_ok.
  { apply memmove_ok; [|eapply page_mapped_range; [exact Hpm2|lia|unfold zlen in Hlen; lia]|done].
    intros i c Hi. pose proof (lookup_lt_Some _ _ _ Hi) as Hlt. rewrite (image_grows _ _ _ _ _ _ _ _ _ _ Hus Hg) by (unfold zlen in Hb; lia).
    by apply Harr. }
  rewrite wp_ret. set (s3 := mkPmem (write p code (ram s2)) (freelist s2)).
  assert (user_space s3 t pts2 l2 [(p, 7)]) as Hus3 by (apply (us_write s2 _ _ _ _ p); [done|done|lia|lia]).
  assert (only_user [(p, 7)] (ram s2) (ram s3)) as Hou.
  { split; [|intros q Hq; by apply page_mapped_write]. intros q Hqa Hq a Ha. cbn [s3 ram]. rewrite lookup_write, decide_False; [done|].
    assert (q ≠ p) as Hqp by (intros ->; apply Hq; cbn; apply elem_head). destruct (pages_disjoint q p Hqa (proj1 Hpo) Hqp); lia. }
  pose proof (new_space_grows _ _ _ _ _ _ _ _ _ _ _ Hns Hg) as Hns2. cbn [app] in Hns2.
  exists pts2, l2, p. split; [by apply (new_space_user s l s2)|]. split.
  - eapply kernel_user; [apply Hus2|exact Hus3|exact Hou|]. by eapply kernel_grows; [apply Hus|exact Hg|].
  - intros a Ha. pose proof (ubyte_write s2 t pts2 l2 [(p, 7)] 0 p 7 0 code Hus2 eq_refl ltac:(lia) ltac:(lia) a Ha) as Hu.
    change (4096 * 0%nat + 0) with 0 in Hu. rewrite Z.add_0_r, Z.sub_0_r in Hu. cbn [s3 ram]. rewrite Hu. clear Hu.
    destruct (decide (a < zlen code)) as [|Hge]; [by rewrite decide_True by lia|rewrite decide_False by lia].
    unfold ubyte. destruct (decide (a < 4096)) as [Hlt|Hge'].
    + replace (Z.to_nat (a / 4096)) with 0%nat by (Z.div_mod_to_equations; lia). cbn. rewrite Z.mod_small by lia.
      assert (zero_page !! Z.to_nat a = Some 0) as H0'.
      { Transparent zero_page. unfold zero_page. Opaque zero_page. apply lookup_replicate. unfold PAGE_SZ. split; [done|lia]. }
      specialize (Hz _ _ H0'). by rewrite Z2Nat.id in Hz.
    + rewrite lookup_ge_None_2; [done|]. cbn [length]. Z.div_mod_to_equations. lia.
Qed.

(** ** [uvm_deallocate] and [vmfree] *)

(** The first page of memory, where [get_pte] looks for the entry of an address
    that has no table: nothing there passes for an entry of a page. *)
Definition low_idle (m : mem) : Prop := page_mapped m KERN_BASE ∧ ∀ k, 0 ≤ k < 1024 → word m (KERN_BASE + 4 * k) mod 2 = 0.

(** The page is out of reach of the allocator. *)
Lemma low_page q : page_ok q → q ≠ KERN_BASE ∧ KERN_BASE + 4096 ≤ q.
Proof. intros [Hr _]%page_ok_range. unfold KERN_LINK, EXTMEM in *. unfold KERN_BASE in *. lia. Qed.

Lemma low_aligned : page_aligned KERN_BASE.
Proof. done. Qed.

Lemma low_word m m' k : (∀ a, KERN_BASE ≤ a < KERN_BASE + 4096 → m' !! a = m !! a) → 0 ≤ k < 1024 →
  word m' (KERN_BASE + 4 * k) = word m (KERN_BASE + 4 * k).
Proof. intros Hs Hk. apply (word_same _ _ KERN_BASE); [done|lia|lia]. Qed.

Lemma low_idle_same m m' : (∀ a, KERN_BASE ≤ a < KERN_BASE + 4096 → m' !! a = m !! a) → low_idle m → low_idle m'.
Proof.
  intros Hs [Hm Hw]. split; [intros a Ha; rewrite Hs by done; by apply Hm|]. intros k Hk. rewrite (low_word _ _ _ Hs Hk). by apply Hw.
Qed.

(** One round of [unmap_pages] where nothing is mapped: with a table its entry
    is cleared, without one a word of the first page of memory is. *)
Lemma unmap_absent s pgdir pts l vend va : vm_inv s pgdir pts l → low_idle (ram s) → va < vend → pte_of (ram s) pts va = 0 →
  wp (unmap_page pgdir vend true va) s (λ r s', r = inl (u32 (va + PAGE_SZ)) ∧ vm_inv s' pgdir pts l ∧ low_idle (ram s') ∧
    (∀ va', pte_of (ram s) pts va' = pte_of (ram s') pts va') ∧
    (∀ k, 0 ≤ k < 1024 → word (ram s') (KERN_BASE + 4 * k) =
       if decide (pts !! page_directory_idx va = None ∧ k = page_table_idx va) then 0 else word (ram s) (KERN_BASE + 4 * k)) ∧
    (∀ q, page_aligned q → q ≠ KERN_BASE → ¬ table_page pgdir pts q → ∀ a, q ≤ a < q + 4096 → ram s' !! a = ram s !! a)).
Proof.
  intros Hi Hlow Hlt Hz. unfold unmap_page. rewrite (proj2 (Z.ltb_lt va vend) Hlt). cbn [negb]. pose proof (ptx_range va) as Hx.
  destruct (pts !! page_directory_idx va) as [t|] eqn:Ht.
  - rewrite wp_bind. eapply wp_ok; [by eapply get_pte_ok|]. destruct (pte_slot _ _ _ _ _ _ Hi Ht) as [_ Hnz].
    rewrite (proj2 (Z.eqb_neq _ _) Hnz), wp_bind. eapply wp_ok; [by eapply load_pte|]. rewrite Hz. change (Z.land 0 PTE_P =? 0) with true. cbn iota.
    rewrite wp_bind, wp_ret. destruct (store_pte _ _ _ _ _ _ 0 Hi Ht) as (Hst & Hi2 & Hp2 & Hd2).
    rewrite wp_bind. eapply wp_ok; [exact Hst|]. rewrite wp_ret. set (s1 := mkPmem _ _) in *.
    pose proof (pw_some _ _ _ (vi_dir _ _ _ _ Hi) _ _ Ht) as (_ & Hto & _). destruct (low_page t Hto) as [Hne Hle].
    assert (∀ q, page_aligned q → q ≠ t → ∀ a, q ≤ a < q + 4096 → ram s1 !! a = ram s !! a) as Hsame.
    { intros q Hqa Hqt a Ha. cbn [s1 ram]. rewrite lookup_write, decide_False; [done|].
      assert (zlen (le_bytes 4 0) = 4) as -> by done. destruct (pages_disjoint q t Hqa (proj1 Hto) Hqt); lia. }
    split; [done|]. split; [done|]. split; [|split; [|split]].
    + eapply low_idle_same; [|exact Hlow]. apply Hsame; [apply low_aligned|done].
    + intros va'. rewrite Hp2. case_decide as Heq; [|done]. destruct Heq as [Hd Hp]. unfold pte_of in *. by rewrite Hd, Ht, Hp in *.
    + intros k Hk. rewrite decide_False by (by intros [? _]). apply (low_word (ram s)); [|done]. apply Hsame; [apply low_aligned|done].
    + intros q Hqa _ Hqt. apply Hsame; [done|]. intros ->. apply Hqt. right. eauto.
  - unfold get_pte, get_pt, get_pt1. rewrite !wp_bind. eapply wp_ok; [by eapply load_pde|].
    pose proof (pw_none _ _ _ (vi_dir _ _ _ _ Hi) _ (pdx_range va) Ht) as Hpde. unfold get_pde. cbn beta. rewrite Hpde, !wp_ret.
    change (P2KA (pte_addr 0)) with KERN_BASE. rewrite (proj2 (Z.eqb_neq _ 0)) by (unfold KERN_BASE; lia).
    destruct Hlow as [Hlm Hlw]. rewrite wp_bind. unfold with_ram at 1. rewrite wp_zoom.
    assert (mapped (ram s) (KERN_BASE + 4 * page_table_idx va) 4) as Hm4 by (eapply page_mapped_range; [exact Hlm|lia|lia]).
    eapply wp_ok; [by apply load32_word|]. rewrite land_present, Hlw by done. cbn [Z.eqb]. rewrite wp_bind, wp_ret, wp_bind.
    unfold with_ram. rewrite wp_zoom. eapply wp_ok; [by apply store32_ok|]. rewrite wp_ret. cbn [ram freelist].
    assert (zlen (le_bytes 4 0) = 4) as Hlen by done. set (s1 := mkPmem _ _).
    assert (∀ q, page_aligned q → q ≠ KERN_BASE → ∀ a, q ≤ a < q + 4096 → ram s1 !! a = ram s !! a) as Hsame.
    { intros q Hqa Hqt a Ha. cbn [s1 ram]. rewrite lookup_write, Hlen, decide_False; [done|].
      destruct (pages_disjoint q KERN_BASE Hqa low_aligned Hqt); lia. }
    assert (∀ va', pte_of (ram s1) pts va' = pte_of (ram s) pts va') as Hpte.
    { intros va'. unfold pte_of. destruct (pts !! page_directory_idx va') as [t|] eqn:Ht'; [|done].
      pose proof (pw_some _ _ _ (vi_dir _ _ _ _ Hi) _ _ Ht') as (_ & Hto & _). destruct (low_page t Hto) as [Hne _]. pose proof (ptx_range va').
      apply (word_same _ _ t); [apply Hsame; [apply Hto|done]|lia|lia]. }
    split; [done|]. split; [|split; [|split; [|split]]].
    + destruct Hi as [Hf Hw Hsep]. split; [| |done].
      * apply free_pages_write; [done|]. pose proof (fp_ok _ _ Hf) as Hok. rewrite Forall_forall in Hok |- *. intros q Hq.
        destruct (low_page q (Hok q Hq)). lia.
      * apply pgdir_wf_write; [done|]. destruct (pw_dir _ _ _ Hw) as [Hdo _]. destruct (low_page pgdir Hdo). lia.
    + split; [by apply page_mapped_write|]. intros k Hk. cbn [s1 ram]. destruct (decide (k = page_table_idx va)) as [->|Hne].
      * by rewrite word_write_same.
      * rewrite word_write_disjoint by lia. by apply Hlw.
    + intros va'. by rewrite Hpte.
    + intros k Hk. cbn [s1 ram]. destruct (decide (k = page_table_idx va)) as [->|Hne].
      * rewrite decide_True by done. by rewrite word_write_same.
      * rewrite decide_False by (by intros [_ ?]). rewrite word_write_disjoint by lia. done.
    + intros q Hqa Hq _. by apply Hsame.
Qed.

(** The pages [us] are mapped from [va] on, and nothing else up to [vend]. *)
Definition maps_from (s : Pmem) (pgdir : Z) (pts : gmap Z Z) (l : list Z) (us : list (Z * Z)) (va vend : Z) : Prop :=
  (∀ (i : nat) p f, us !! i = Some (p, f) →
    data_page s pgdir pts l p ∧ 0 ≤ f < 4096 ∧ f mod 2 = 1 ∧ pte_of (ram s) pts (va + 4096 * i) = p - KERN_BASE + f) ∧
  NoDup us.*1 ∧ ∀ va', va + 4096 * length us ≤ va' < vend → pte_of (ram s) pts va' = 0.

(** After freeing: [keep] are the addresses of words that are zero in the first page. *)
Definition low_cleared (pts : gmap Z Z) (m m' : mem) (va vend : Z) : Prop :=
  (∀ k, 0 ≤ k < 1024 → word m (KERN_BASE + 4 * k) = 0 → word m' (KERN_BASE + 4 * k) = 0) ∧
  ∀ a, va ≤ a < vend → a mod 4096 = 0 → pts !! page_directory_idx a = None → word m' (KERN_BASE + 4 * page_table_idx a) = 0.

Lemma unmap_all_loop (n : nat) pgdir pts vend : ∀ s l us va,
  vm_inv s pgdir pts l → low_idle (ram s) → maps_from s pgdir pts l us va vend →
  page_aligned va → 0 ≤ va → vend = va + 4096 * n → vend < 4294967296 → (length us ≤ n)%nat →
  wp (loop (S n) (unmap_page pgdir vend true) va) s (λ _ s', vm_inv s' pgdir pts (reverse us.*1 ++ l) ∧ low_idle (ram s') ∧
    low_cleared pts (ram s) (ram s') va vend ∧
    (∀ q, page_aligned q → q ∉ us.*1 → q ≠ KERN_BASE → ¬ table_page pgdir pts q → ∀ a, q ≤ a < q + 4096 → ram s' !! a = ram s !! a)).
Proof.
  induction n as [|n IH]; intros s l us va Hi Hlow (Hp & Hnd & Hz) Hva Hv0 Hend Hmax Hlen; rewrite wp_loop_S.
  { destruct us; [|cbn [length] in Hlen; lia]. unfold unmap_page. rewrite (proj2 (Z.ltb_ge va vend)) by lia. cbn [negb]. rewrite wp_ret.
    split; [done|]. split; [done|]. split; [|done]. split; [done|]. intros a Ha. lia. }
  assert (page_aligned (va + 4096)) as Hva1 by (unfold page_aligned in *; clear - Hva; Z.div_mod_to_equations; lia).
  assert (∀ s1 l1 us1, vm_inv s1 pgdir pts l1 → low_idle (ram s1) → maps_from s1 pgdir pts l1 us1 (va + 4096) vend →
    (length us1 ≤ n)%nat → low_cleared pts (ram s) (ram s1) va (va + 4096) →
    wp (loop (S n) (unmap_page pgdir vend true) (u32 (va + PAGE_SZ))) s1 (λ _ s', vm_inv s' pgdir pts (reverse us1.*1 ++ l1) ∧
      low_idle (ram s') ∧ low_cleared pts (ram s) (ram s') va vend ∧
      (∀ q, page_aligned q → q ∉ us1.*1 → q ≠ KERN_BASE → ¬ table_page pgdir pts q → ∀ a, q ≤ a < q + 4096 → ram s' !! a = ram s1 !! a))) as Hrest.
  { intros s1 l1 us1 Hi1 Hlow1 Hm1 Hl1 [C1 C2]. unfold PAGE_SZ. change 0x1000 with 4096. rewrite u32_small by lia.
    eapply wp_mono; [apply (IH s1 l1 us1 (va + 4096)); try done; lia|]. intros _ s2 (J1 & J2 & [J3 J4] & J5).
    split; [done|]. split; [done|]. split; [|done]. split; [intros k Hk Hw; by apply J3, C1|].
    intros a Ha Haa Hn. destruct (decide (a < va + 4096)); [|apply J4; (done || lia)].
    apply J3; [apply ptx_range|]. apply C2; (done || lia). }
  destruct us as [|[p f] us].
  - cbn [length] in *. eapply wp_mono; [apply unmap_absent; [done|done|lia|apply Hz; lia]|].
    intros r s1 (-> & Hi1 & Hlow1 & Hpte & Hlw & Hd). eapply wp_mono; [apply (Hrest s1 l []); [done|done| |cbn; lia|]|].
    + split; [intros i p f Hi'; by rewrite lookup_nil in Hi'|]. split; [apply NoDup_nil_2|]. intros va' Hva'. cbn [length] in Hva'.
      rewrite <- Hpte. apply Hz. lia.
    + split; [intros k Hk Hw; rewrite Hlw by done; by case_decide|]. intros a Ha Haa Hn.
      assert (a = va) as -> by (unfold page_aligned in Hva; clear - Ha Haa Hva; Z.div_mod_to_equations; lia).
      rewrite Hlw by apply ptx_range. by rewrite decide_True.
    + cbn beta. intros _ s2 (J1 & J2 & J3 & J4). split; [done|]. split; [done|]. split; [done|]. intros q Hqa Hq Hqk Hqt a Ha.
      rewrite (J4 q Hqa Hq Hqk Hqt a Ha). by apply (Hd q).
  - destruct (Hp 0%nat p f eq_refl) as (Hdp & Hf & Ho & Hpte0). rewrite Z.mul_0_r, Z.add_0_r in Hpte0.
    pose proof Hdp as (Hpo & _). destruct (entry_parts p f Hpo Hf) as (Ha & _ & _ & _ & Hodd). destruct (page_ok_range p Hpo) as [Hr _].
    assert (∃ t, pts !! page_directory_idx va = Some t) as [t Ht].
    { unfold pte_of in Hpte0. destruct (pts !! _) as [t|]; [by exists t|]. unfold KERN_LINK, EXTMEM in Hr. lia. }
    eapply wp_mono.
    { apply (unmap_page_ok s pgdir pts l vend va t p); [done|done|lia| |done]. split; rewrite Hpte0; [by rewrite Hodd|exact Ha]. }
    intros r s1 (-> & Hi1 & Hpte & Hd). rewrite fmap_cons in Hnd. apply NoDup_cons in Hnd as [Hpu Hnd]. cbn [fst] in Hpu.
    cbn [length] in *. destruct (low_page p Hpo) as [Hpk _].
    assert (¬ table_page pgdir pts KERN_BASE) as Hkt.
    { intros Hk. destruct (table_page_ok _ _ _ _ (vi_dir _ _ _ _ Hi) Hk) as [Hko _]. by destruct (low_page _ Hko). }
    assert (∀ a, KERN_BASE ≤ a < KERN_BASE + 4096 → ram s1 !! a = ram s !! a) as Hls by (apply Hd; [done|by intros <-|done]).
    assert (∀ va', 0 ≤ va' < 4294967296 → ¬ (va ≤ va' < va + 4096) → pte_of (ram s1) pts va' = pte_of (ram s) pts va') as Hold.
    { intros va' Hva' Hout. rewrite Hpte, decide_False; [done|]. intros Heq. apply Hout. apply (same_page va va'); (done || lia). }
    eapply wp_mono; [apply (Hrest s1 (p :: l) us); [done|by apply (low_idle_same (ram s))| |lia|]|].
    + split; [|split; [done|]].
      * intros i q g Hq. destruct (Hp (S i) q g Hq) as ((R1 & R2 & R3 & R4) & Hg & Hgo & Hpg). pose proof (lookup_lt_Some _ _ _ Hq).
        assert (q ≠ p) as Hne.
        { intros ->. apply Hpu, list_elem_of_fmap. exists (p, g). split; [done|]. by eapply list_elem_of_lookup_2. }
        split; [|split; [done|split; [done|]]].
        -- split; [done|]. split; [by intros [?|?]%elem_of_cons|]. split; [done|]. intros a Ha'. rewrite (Hd q (proj1 R1) Hne R3 a Ha'). by apply R4.
        -- replace (va + 4096 + 4096 * i) with (va + 4096 * S i) by lia. rewrite Hold by lia. exact Hpg.
      * intros va' Hva'. rewrite Hold by lia. apply Hz. lia.
    + split; [intros k Hk Hw; by rewrite (low_word _ _ k Hls Hk)|]. intros a Ha' Haa Hn. exfalso.
      assert (a = va) as -> by (unfold page_aligned in Hva; clear - Ha' Haa Hva; Z.div_mod_to_equations; lia). by rewrite Ht in Hn.
    + cbn beta. intros _ s2 (J1 & J2 & J3 & J4). rewrite fmap_cons, reverse_cons, <- app_assoc. cbn [fst app].
      split; [done|]. split; [done|]. split; [done|]. intros q Hqa Hq Hqk Hqt a Ha'. apply not_elem_of_cons in Hq as [Hqp Hq].
      rewrite (J4 q Hqa Hq Hqk Hqt a Ha'). by apply (Hd q).
Qed.

(** Freeing the tables from index [i] on *)
Lemma free_tables_ok (n : nat) pgdir (pts : gmap Z Z) : ∀ s l (i : Z), i + n = 1024 → 0 ≤ i → free_pages s l →
  page_ok pgdir → page_mapped (ram s) pgdir → pgdir ∉ l → (∀ j k t, pts !! j = Some t → pts !! k = Some t → j = k) →
  (∀ j t, i ≤ j → pts !! j = Some t → j < 1024 ∧ page_ok t ∧ t ≠ pgdir ∧ page_mapped (ram s) t ∧ t ∉ l ∧ word (ram s) (pgdir + 4 * j) = t - KERN_BASE + 7) →
  (∀ j, i ≤ j < 1024 → pts !! j = None → word (ram s) (pgdir + 4 * j) = 0) →
  wp (free_tables n pgdir i) s (λ _ s', ∃ l', free_pages s' l' ∧ page_mapped (ram s') pgdir ∧ pgdir ∉ l' ∧
    (∀ q, q ∈ l' ↔ q ∈ l ∨ ∃ j, i ≤ j < 1024 ∧ pts !! j = Some q) ∧
    (∀ q, page_aligned q → (∀ j, pts !! j ≠ Some q) → ∀ a, q ≤ a < q + 4096 → ram s' !! a = ram s !! a)).
Proof.
  induction n as [|n IH]; intros s l i Hn Hi0 Hf Hdo Hdm Hdl Hinj Hs Hz; cbn [free_tables].
  { rewrite wp_ret. exists l. split; [done|]. split; [done|]. split; [done|]. split; [|done].
    intros q. split; [by left|]. intros [|(j & Hj & _)]; [done|lia]. }
  rewrite wp_bind. unfold with_ram. rewrite wp_zoom.
  assert (mapped (ram s) (pgdir + 4 * i) 4) as Hm4 by (eapply page_mapped_range; [exact Hdm|lia|lia]).
  eapply wp_ok; [by apply load32_word|]. replace (mkPmem (ram s) (freelist s)) with s by (by destruct s).
  destruct (pts !! i) as [t|] eqn:Ht.
  - destruct (Hs i t ltac:(lia) Ht) as (_ & Hto & Htd & Htm & Htl & Hw). destruct (page_ok_range t Hto) as [Hr Ha].
    destruct (entry_parts t 7 Hto ltac:(done)) as (Hpa & _ & Hka & _ & Hodd).
    rewrite Hw, Hpa, Hka. unfold PDE_P. rewrite land_present, Hodd. change (7 mod 2 =? 0) with false. cbn [negb].
    destruct (pfree_ok s t l Hf Hto Htl Htm) as [Hrun Hf1]. set (s1 := mkPmem _ _) in *.
    assert (∀ q, page_aligned q → q ≠ t → ∀ a, q ≤ a < q + 4096 → ram s1 !! a = ram s !! a) as Hsame.
    { intros q Hqa Hqt a Ha'. cbn [s1 ram]. rewrite lookup_write, decide_False; [done|].
      assert (zlen (le_bytes 4 (freelist s)) = 4) as -> by done. destruct (pages_disjoint q t Hqa Ha Hqt); lia. }
    assert (∀ j, 0 ≤ j < 1024 → word (ram s1) (pgdir + 4 * j) = word (ram s) (pgdir + 4 * j)) as Hdw.
    { intros j Hj. apply (word_same _ _ pgdir); [apply Hsame; [apply Hdo|done]|lia|lia]. }
    rewrite wp_bind. eapply wp_ok; [exact Hrun|]. eapply wp_mono.
    { apply (IH s1 (t :: l) (i + 1)); try done; try lia.
      - cbn [s1 ram]. by apply page_mapped_write.
      - by intros [->|?]%elem_of_cons.
      - intros j u Hj Hu. destruct (Hs j u ltac:(lia) Hu) as (U0 & U1 & U2 & U3 & U4 & U5). split; [done|]. split; [done|]. split; [done|].
        split; [cbn [s1 ram]; by apply page_mapped_write|]. split.
        + intros [->|?]%elem_of_cons; [|done]. pose proof (Hinj _ _ _ Ht Hu). lia.
        + by rewrite Hdw by lia.
      - intros j Hj Hnone. rewrite Hdw by lia. apply Hz; (done || lia). }
    cbn beta. intros _ s2 (l2 & J1 & J2 & J3 & J4 & J5). exists l2. split; [done|]. split; [done|]. split; [done|]. split.
    + intros q. rewrite J4, elem_of_cons. split.
      * intros [[->|?]|(j & Hj & Hq)]; [right; exists i; split; [lia|done]|by left|right; exists j; split; [lia|done]].
      * intros [?|(j & Hj & Hq)]; [by left; right|]. destruct (decide (j = i)) as [->|]; [left; left; congruence|].
        right. exists j. split; [lia|done].
    + intros q Hqa Hq a Ha'. rewrite (J5 q Hqa Hq a Ha'). apply (Hsame q); [done|intros ->; by apply (Hq i)|done].
  - rewrite (Hz i ltac:(lia) Ht). change (Z.land 0 PDE_P =? 0) with true. cbn [negb]. rewrite wp_bind, wp_ret.
    eapply wp_mono; [apply (IH s l (i + 1)); try done; try lia|].
    + intros j u Hj Hu. apply (Hs j u ltac:(lia) Hu).
    + intros j Hj. apply Hz. lia.
    + cbn beta. intros _ s2 (l2 & J1 & J2 & J3 & J4 & J5). exists l2. split; [done|]. split; [done|]. split; [done|]. split; [|done].
      intros q. rewrite J4. split; (intros [?|(j & Hj & Hq)]; [by left|right; exists j; split; [|done]]); [lia|].
      destruct (decide (j = i)) as [->|]; [congruence|lia].
Qed.

(** [vmfree] gives back the pages of the user, the tables and the directory. *)
Lemma vmfree_ok s pgdir pts l us : user_space s pgdir pts l us → low_idle (ram s) →
  wp (vmfree pgdir) s (λ _ s', ∃ l', free_pages s' l' ∧ low_idle (ram s') ∧ low_cleared pts (ram s) (ram s') 0 KERN_BASE ∧
    (∀ q, q ∈ l' ↔ q ∈ l ∨ table_page pgdir pts q ∨ q ∈ us.*1) ∧
    (∀ q, page_aligned q → q ≠ KERN_BASE → q ∉ l' → ∀ a, q ≤ a < q + 4096 → ram s' !! a = ram s !! a)).
Proof.
  intros Hus Hlow. pose proof Hus as [Hi Hp Hnd Hz Hlen]. pose proof (pw_dir _ _ _ (vi_dir _ _ _ _ Hi)) as [Hdo Hdm].
  unfold vmfree. rewrite (proj2 (Z.eqb_neq pgdir 0)) by by apply page_ok_nonzero. rewrite wp_bind. unfold uvm_deallocate.
  rewrite (proj2 (Z.ltb_ge KERN_BASE 0)) by (unfold KERN_BASE; lia).
  change (page_alignup 0) with 0. change (page_alignup KERN_BASE) with KERN_BASE. rewrite (proj2 (Z.ltb_lt 0 KERN_BASE)) by (unfold KERN_BASE; lia).
  change ((KERN_BASE - 0) / PAGE_SZ) with 0x80000. rewrite wp_bind. unfold unmap_pages. change (u32 (0 + 0x80000 * PAGE_SZ)) with KERN_BASE.
  change (negb (0 mod PAGE_SZ =? 0)) with false. cbn iota. change ((KERN_BASE - 0) / PAGE_SZ) with 0x80000.
  assert (Z.of_nat (Z.to_nat 0x80000) = 0x80000) as Hn by (by rewrite Z2Nat.id). set (n := Z.to_nat 0x80000) in *. clearbody n.
  eapply wp_mono.
  { apply (unmap_all_loop n pgdir pts KERN_BASE s l us 0); [done|done| |done|done|unfold KERN_BASE; lia|done|unfold KERN_BASE in *; lia].
    split; [|done]. intros i p f Hq. rewrite Z.add_0_l. by apply Hp. }
  intros _ s1 (Hi1 & Hlow1 & Hlc & Hd1). rewrite wp_ret, wp_bind.
  pose proof (vi_dir _ _ _ _ Hi1) as Hw1. pose proof (pw_dir _ _ _ Hw1) as [_ Hdm1].
  eapply wp_mono.
  { apply (free_tables_ok (Z.to_nat NPDES) pgdir pts s1 (reverse us.*1 ++ l) 0); [done|done|apply Hi1|done|done| |by apply (pw_inj _ _ _ Hw1)| |].
    - intros Hin. apply (vi_sep _ _ _ _ Hi1 _ Hin). by left.
    - intros j t _ Ht. destruct (pw_some _ _ _ Hw1 j t Ht) as ([_ T0] & T1 & T2 & T3 & T4). split; [done|]. split; [done|]. split; [done|]. split; [done|].
      split; [|done]. intros Hin. apply (vi_sep _ _ _ _ Hi1 _ Hin). right. eauto.
    - intros j Hj Ht. by apply (pw_none _ _ _ Hw1). }
  cbn beta. intros _ s2 (l2 & Hf2 & Hdm2 & Hdl2 & Hl2 & Hd2).
  destruct (pfree_ok s2 pgdir l2 Hf2 Hdo Hdl2 Hdm2) as [Hrun Hf3]. eapply wp_ok; [exact Hrun|]. set (s3 := mkPmem _ _) in *.
  assert (∀ q, page_aligned q → q ≠ pgdir → ∀ a, q ≤ a < q + 4096 → ram s3 !! a = ram s2 !! a) as Hd3.
  { intros q Hqa Hqt a Ha'. cbn [s3 ram]. rewrite lookup_write, decide_False; [done|].
    assert (zlen (le_bytes 4 (freelist s2)) = 4) as -> by done. destruct (pages_disjoint q pgdir Hqa (proj1 Hdo) Hqt); lia. }
  assert (∀ a, KERN_BASE ≤ a < KERN_BASE + 4096 → ram s3 !! a = ram s1 !! a) as Hls.
  { intros a Ha. destruct (low_page pgdir Hdo) as [Hne _]. rewrite (Hd3 KERN_BASE low_aligned (not_eq_sym Hne) a Ha). apply (Hd2 KERN_BASE); [done| |done].
    intros j Hj. destruct (pw_some _ _ _ Hw1 _ _ Hj) as (_ & Hto & _). by destruct (low_page _ Hto). }
  exists (pgdir :: l2). split; [done|]. split; [by apply (low_idle_same (ram s1))|]. split; [|split].
  - destruct Hlc as [C1 C2]. split.
    + intros k Hk Hw. rewrite (low_word _ _ k Hls Hk). by apply C1.
    + intros a Ha Haa Ht. rewrite (low_word _ _ _ Hls (ptx_range a)). by apply C2.
  - intros q. rewrite elem_of_cons, Hl2, elem_of_app, elem_of_reverse. unfold table_page. split.
    + intros [->|[[?|?]|(j & _ & Hj)]]; [by right; left; left|by right; right|by left|right; left; right; eauto].
    + intros [?|[[->|[j Hj]]|?]]; [by right; left; right|by left| |by right; left; left].
      right. right. exists j. split; [|done]. destruct (pw_some _ _ _ Hw1 j q Hj) as (? & _). lia.
  - intros q Hqa Hqk Hq a Ha. apply not_elem_of_cons in Hq as [Hqd Hq]. rewrite Hl2, elem_of_app, elem_of_reverse in Hq.
    assert (∀ j, pts !! j ≠ Some q) as Hqt.
    { intros j Hj. apply Hq. right. exists j. split; [|done]. destruct (pw_some _ _ _ Hw1 j q Hj) as (? & _). lia. }
    rewrite (Hd3 q Hqa Hqd a Ha), (Hd2 q Hqa Hqt a Ha). apply (Hd1 q); try done; [|].
    + intros Hin. apply Hq. by left; left.
    + intros [->|[j Hj]]; [done|]. by apply (Hqt j).
Qed.
End uvm.

(** ** Properties *)

Section properties.
Context `{KernelLayout}.

Lemma vbyte_space s pgdir pts l us va : user_space s pgdir pts l us → 0 ≤ va < KERN_BASE →
  vbyte (ram s) pgdir va = if decide (va < 4096 * length us) then ubyte (ram s) us va else None.
Proof.
  intros Hus Hva. case_decide; [eapply vbyte_user; [done|lia]|eapply vbyte_none; [done|lia]].
Qed.

(** Two spaces with the same pages, flags and contents *)
Lemma vbyte_copied s d pts l us s' d' pts' l' us' va : user_space s d pts l us → user_space s' d' pts' l' us' →
  length us' = length us → copied (ram s) (ram s') us us' → 0 ≤ va < KERN_BASE → vbyte (ram s') d' va = vbyte (ram s) d va.
Proof.
  intros Hus Hus' Hlen Hcp Hva. rewrite (vbyte_space _ _ _ _ _ _ Hus Hva), (vbyte_space _ _ _ _ _ _ Hus' Hva), Hlen.
  case_decide as Hin; [|done]. unfold ubyte. destruct (lookup_lt_is_Some_2 us' (Z.to_nat (va / 4096))) as [[p f] Hp].
  { rewrite Hlen. Z.div_mod_to_equations. lia. }
  destruct (Hcp _ _ _ Hp) as (q & Hq & Hsame). rewrite Hp, Hq. cbn. apply Hsame. apply Z.mod_pos_bound. lia.
Qed.

(** The page that an address of the user is translated to *)
Lemma translate_page s d pts l us va a : user_space s d pts l us → 0 ≤ va < KERN_BASE → translate (ram s) d va = Some a →
  ∃ p, p ∈ us.*1 ∧ page_ok p ∧ a = p - KERN_BASE + va mod 4096.
Proof.
  intros Hus Hva Htr. rewrite (translate_ok _ _ _ _ _ (us_inv _ _ _ _ _ Hus)) in Htr. cbn zeta in Htr.
  destruct (decide (va < 4096 * length us)) as [Hin|].
  2:{ rewrite (us_none _ _ _ _ _ Hus) in Htr by lia. discriminate Htr. }
  destruct (lookup_lt_is_Some_2 us (Z.to_nat (va / 4096))) as [[p f] Hp]; [Z.div_mod_to_equations; lia|].
  destruct (us_entry _ _ _ _ _ va p f Hus ltac:(lia) Hp) as (_ & (Hpo & _) & Hf & Ho & Hpte).
  destruct (entry_parts p f Hpo Hf) as (Ha & _ & _ & _ & Hm). rewrite Hpte, land_present, Hm, Ho, Ha in Htr. cbn [Z.eqb] in Htr.
  injection Htr as <-. exists p. split; [|split; [done|]].
  - apply list_elem_of_fmap. exists (p, f). split; [done|]. by eapply list_elem_of_lookup_2.
  - unfold vaddr_offset. change 0xfff with (Z.ones 12). by rewrite Z.land_ones.
Qed.

(** All pages of an address space and of the allocator, each once *)
Definition all_pages (pgdir : Z) (pts : gmap Z Z) (us : list (Z * Z)) (l : list Z) : list Z :=
  pgdir :: (map_to_list pts).*2 ++ us.*1 ++ l.

Lemma all_pages_nodup s pgdir pts l us : user_space s pgdir pts l us → NoDup (all_pages pgdir pts us l).
Proof.
  intros [[Hf Hw Hsep] Hp Hnd _ _]. unfold all_pages.
  assert (∀ q, q ∈ (map_to_list pts).*2 → table_page pgdir pts q ∧ q ≠ pgdir) as Htab.
  { intros q ([i t] & -> & Hi%elem_of_map_to_list)%list_elem_of_fmap. split; [right; by exists i|].
    by destruct (pw_some _ _ _ Hw i t Hi) as (_ & _ & ? & _). }
  assert (∀ q, q ∈ us.*1 → q ∉ l ∧ ¬ table_page pgdir pts q) as Huser.
  { intros q ([p f] & -> & [i Hi]%list_elem_of_lookup)%list_elem_of_fmap. destruct (Hp i p f Hi) as ((_ & ? & ? & _) & _). done. }
  apply NoDup_cons. split.
  { rewrite !elem_of_app. intros [Hq|[Hq|Hq]]; [by destruct (Htab _ Hq)|destruct (Huser _ Hq) as [_ Ht]; apply Ht; by left|].
    apply (Hsep _ Hq). by left. }
  apply NoDup_app. split; [|split].
  - apply NoDup_fmap_2_strong; [|apply NoDup_map_to_list]. intros [i t] [j u] Hi%elem_of_map_to_list Hj%elem_of_map_to_list E. cbn in E. subst u.
    by rewrite (pw_inj _ _ _ Hw _ _ _ Hi Hj).
  - intros q Hq. destruct (Htab _ Hq) as [Ht _]. rewrite elem_of_app. intros [Hu|Hl]; [by destruct (Huser _ Hu)|by apply (Hsep q)].
  - apply NoDup_app. split; [done|]. split; [intros q Hq; by destruct (Huser _ Hq)|apply (fp_nodup _ _ Hf)].
Qed.

Lemma length_all_pages pgdir pts us l : length (all_pages pgdir pts us l) = (length l + size pts + length us + 1)%nat.
Proof. unfold all_pages. cbn [length]. rewrite !length_app, !length_fmap, length_map_to_list. lia. Qed.

Lemma elem_of_all_pages pgdir pts us l q : q ∈ all_pages pgdir pts us l ↔ q ∈ l ∨ table_page pgdir pts q ∨ q ∈ us.*1.
Proof.
  unfold all_pages, table_page. rewrite elem_of_cons, !elem_of_app. split.
  - intros [->|[([i t] & -> & Hi%elem_of_map_to_list)%list_elem_of_fmap|[?|?]]]; [auto|right; left; right; by exists i|auto|auto].
  - intros [?|[[->|[i Hi]]|?]]; [auto|auto| |auto]. right. left. apply list_elem_of_fmap. exists (i, q).
    split; [done|]. by apply elem_of_map_to_list.
Qed.

(** C30: [uvm_allocate] grows the user part of an address space to a given size,
    while enough pages are free: it returns the new size, the memory that was
    there keeps its contents, the new pages hold zeros, nothing is mapped
    behind them, and the kernel's part stays what it is. *)
Theorem uvm_allocate_grows s pgdir pts l us oldsz newsz : user_space s pgdir pts l us →
  0 ≤ oldsz → page_alignup oldsz = 4096 * length us → oldsz ≤ newsz ≤ KERN_BASE →
  1025 + (newsz - oldsz) / 4096 < length l + size pts →
  wp (uvm_allocate pgdir oldsz newsz) s (λ r s', r = s32 newsz ∧
    (∀ va, 0 ≤ va < KERN_BASE → vbyte (ram s') pgdir va =
       if decide (va < page_alignup oldsz) then vbyte (ram s) pgdir va else if decide (va < page_alignup newsz) then Some 0 else None) ∧
    ∀ va, KERN_BASE ≤ va < 4294967296 → translate (ram s') pgdir va = translate (ram s) pgdir va).
Proof.
  intros Hus H0' Hal Hn Hmem. eapply wp_mono; [by apply (uvm_allocate_ok s pgdir pts l us oldsz newsz)|].
  intros r s' (-> & pts' & l' & us' & Hg & Hl & Hz). pose proof (ug_space _ _ _ _ _ _ _ _ _ Hg) as Hus'.
  split; [done|]. split.
  - intros va Hva. rewrite (vbyte_space _ _ _ _ _ _ Hus' Hva), (vbyte_space _ _ _ _ _ _ Hus Hva), Hal, Hl.
    rewrite (ubyte_grows _ _ _ _ _ _ _ _ _ _ Hus Hg Hz) by lia. rewrite length_app. repeat case_decide; try lia; done.
  - intros va Hva. rewrite (translate_ok _ _ _ _ _ (us_inv _ _ _ _ _ Hus)), (translate_ok _ _ _ _ _ (us_inv _ _ _ _ _ Hus')).
    cbn zeta. by rewrite (ug_kernel _ _ _ _ _ _ _ _ _ Hg).
Qed.

(** C31: [uvm_memcpy] copies a buffer to any range of user pages, across page
    boundaries: the MMU then finds the bytes of the buffer in the range, and
    everywhere else what it found before. *)
Theorem uvm_memcpy_writes s pgdir pts l us va buf : user_space s pgdir pts l us → Forall is_byte buf → user_range us va (zlen buf) →
  wp (uvm_memcpy pgdir va buf) s (λ r s', r = 0 ∧
    ∀ a, 0 ≤ a < KERN_BASE → vbyte (ram s') pgdir a =
      if decide (va ≤ a < va + zlen buf) then buf !! Z.to_nat (a - va) else vbyte (ram s) pgdir a).
Proof.
  intros Hus Hb Hr. unfold uvm_memcpy.
  eapply wp_mono; [apply (memcpy_loop (S (Z.to_nat (zlen buf / PAGE_SZ + 1))) pgdir pts l us); [done|done|by right|right]|].
  { unfold PAGE_SZ. change 0x1000 with 4096. assert (0 ≤ zlen buf) as Hz by (unfold zlen; lia). Z.div_mod_to_equations. lia. }
  intros r s' (-> & Hus' & _ & _ & Hub). split; [done|]. intros a Ha. destruct Hr as (Hva & Hend & _).
  rewrite (vbyte_space _ _ _ _ _ _ Hus' Ha), (vbyte_space _ _ _ _ _ _ Hus Ha). rewrite Hub by lia.
  repeat case_decide; try lia; done.
Qed.

(** C28: [uvm_copy], which gives a child the memory of its parent: every address
    of the user holds the same byte in both, they share no byte of physical
    memory, the parent is left alone, and the child has the kernel's part. *)
Theorem uvm_copy_isolates s in_ pts l us npg : user_space s in_ pts l us → user_bytes (ram s) us →
  4096 * length us < npg + 4096 → 0 ≤ npg ≤ 4096 * length us → 1025 + length us < length l →
  wp (uvm_copy init_kmap in_ npg) s (λ '(ok, new) s', ok = true ∧ kernel_maps (ram s') new ∧
    (∀ va, 0 ≤ va < KERN_BASE → vbyte (ram s') new va = vbyte (ram s) in_ va ∧ vbyte (ram s') in_ va = vbyte (ram s) in_ va) ∧
    ∀ va va' a, 0 ≤ va < KERN_BASE → 0 ≤ va' < KERN_BASE →
      translate (ram s') new va = Some a → translate (ram s') in_ va' ≠ Some a).
Proof.
  intros Hus Hby Hn1 Hn2 Hmem. eapply wp_mono; [by apply (uvm_copy_ok s in_ pts l us npg)|].
  intros [ok new] s' (-> & pts' & l' & us' & Hns & Hcp & Hkm & Hlen). pose proof Hns as [Hus' Hdat Hpgs Hmap _].
  split; [done|]. split; [done|].
  assert (user_space s' in_ pts l' us) as Hold.
  { apply (us_frame s in_ pts l us); [done|apply Hus'|intros q Hq; apply Hpgs; by left|]. intros q [Hqa _]. by apply Hdat. }
  split; [intros va Hva; split|].
  - by apply (vbyte_copied s in_ pts l us s' new pts' l' us').
  - apply (vbyte_copied s in_ pts l us s' in_ pts l' us); try done. intros i p f Hi. exists p. split; [done|]. intros o Ho.
    destruct (us_page _ _ _ _ _ Hus i p f Hi) as (((Hpa & _) & Hpl & _) & _). apply (Hdat p Hpa Hpl). lia.
  - intros va va' a Hva Hva' Htr Htr'. destruct (translate_page _ _ _ _ _ _ _ Hus' Hva Htr) as (p & Hp & Hpo & ->).
    destruct (translate_page _ _ _ _ _ _ _ Hold Hva' Htr') as (q & Hq & Hqo & Heq).
    assert (p = q) as ->.
    { destruct (page_ok_range p Hpo) as [_ Hpa]. destruct (page_ok_range q Hqo) as [_ Hqa]. unfold page_aligned in *. clear - Hpa Hqa Heq.
      Z.div_mod_to_equations. lia. }
    apply list_elem_of_fmap in Hq as ([q' f] & -> & Hq). apply list_elem_of_lookup in Hq as [i Hi].
    destruct (us_page _ _ _ _ _ Hus i q' f Hi) as ((_ & Hql & _) & _). apply Hql, Hpgs. by right; right.
Qed.

(** C29: [vmfree] undoes [uvm_copy]: after the copy is freed the free list is a
    permutation of what it was, no page is lost or freed twice, and the
    original is what it was. This holds because the first page of physical
    memory holds no word that looks like the entry of a page. *)
Theorem vmfree_returns s in_ pts l us npg : user_space s in_ pts l us → user_bytes (ram s) us → low_idle (ram s) →
  4096 * length us < npg + 4096 → 0 ≤ npg ≤ 4096 * length us → 1025 + length us < length l →
  wp (let! '(_, new) := uvm_copy init_kmap in_ npg in vmfree new) s (λ _ s', ∃ l', free_pages s' l' ∧ l' ≡ₚ l ∧
    ∀ va, 0 ≤ va < KERN_BASE → vbyte (ram s') in_ va = vbyte (ram s) in_ va).
Proof.
  intros Hus Hby Hlow Hn1 Hn2 Hmem. rewrite wp_bind. eapply wp_mono; [by apply (uvm_copy_ok s in_ pts l us npg)|].
  intros [ok new] s1 (-> & pts1 & l1 & us1 & Hns & Hcp & Hkm & Hlen). pose proof Hns as [Hus1 Hdat Hpgs Hmap Hcnt].
  pose proof (fp_ok _ _ (vi_free _ _ _ _ (us_inv _ _ _ _ _ Hus))) as Hlo. rewrite Forall_forall in Hlo.
  assert (low_idle (ram s1)) as Hlow1.
  { apply (low_idle_same (ram s)); [|done]. apply Hdat; [done|]. intros Hin. by destruct (low_page _ (Hlo _ Hin)). }
  eapply wp_mono; [by apply (vmfree_ok s1 new pts1 l1 us1)|]. intros _ s2 (l2 & Hf2 & _ & _ & Hl2 & Hd2).
  assert (∀ q, q ∈ l2 → q ∈ l) as Hsub.
  { intros q Hq. apply Hpgs. apply Hl2 in Hq as [?|[?|?]]; auto. }
  assert (l2 ≡ₚ l) as Hperm.
  { pose proof (fp_nodup _ _ Hf2) as Hnd2. pose proof (fp_nodup _ _ (vi_free _ _ _ _ (us_inv _ _ _ _ _ Hus))) as Hnd.
    apply submseteq_length_Permutation; [by apply NoDup_submseteq|]. rewrite <- Hcnt, <- (length_all_pages new pts1 us1 l1).
    apply submseteq_length, NoDup_submseteq; [by eapply all_pages_nodup|]. intros q Hq%elem_of_all_pages. by apply Hl2. }
  exists l2. split; [done|]. split; [done|]. intros va Hva.
  assert (∀ q, page_ok q → q ∉ l → ∀ a, q ≤ a < q + 4096 → ram s2 !! a = ram s !! a) as Hsame.
  { intros q Hqo Hq a Ha. rewrite (Hd2 q (proj1 Hqo) (proj1 (low_page q Hqo))); [by apply (Hdat q (proj1 Hqo) Hq)| |done].
    intros Hin. by apply Hq, Hsub. }
  apply (vbyte_copied s in_ pts l us s2 in_ pts l2 us); try done.
  - apply (us_frame s in_ pts l us); [done|done|done|done].
  - intros i p f Hi. exists p. split; [done|]. intros o Ho.
    destruct (us_page _ _ _ _ _ Hus i p f Hi) as ((Hpo & Hpl & _) & _). apply (Hsame p Hpo Hpl). lia.
Qed.

(** Freeing an address space clears the first page of physical memory, when
    4 MB of the user part have no table: [get_pte] does not look whether the
    entry of the directory is present, so [unmap_pages] takes physical address
    0 for the missing table and stores zeros there. *)
Theorem vmfree_low_memory s pgdir pts l us d : user_space s pgdir pts l us → low_idle (ram s) →
  0 ≤ d < 512 → pts !! d = None →
  wp (vmfree pgdir) s (λ _ s', ∀ k, 0 ≤ k < 1024 → word (ram s') (P2KA (4 * k)) = 0).
Proof.
  intros Hus Hlow Hd Hn. eapply wp_mono; [by apply (vmfree_ok s pgdir pts l us)|]. intros _ s' (l' & _ & _ & [_ Hc] & _) k Hk.
  rewrite P2KA_small by (unfold KERN_BASE; lia). rewrite Z.add_comm. set (a := d * 4194304 + k * 4096).
  assert (page_directory_idx a = d ∧ page_table_idx a = k) as [Ed Et].
  { rewrite page_directory_idx_eq, page_table_idx_eq. unfold a. clear - Hd Hk. Z.div_mod_to_equations. lia. }
  rewrite <- Et. apply Hc; [unfold a, KERN_BASE; lia|unfold a; clear; Z.div_mod_to_equations; lia|by rewrite Ed].
Qed.
End properties.

(** ** Witnesses *)

#[local] Existing Instance demo_layout.

(** The small machine with an empty directory, whose first page of memory
    holds words that look like nothing *)
Definition low_bytes : list Z := replicate (Z.to_nat 4096) 2.

Lemma low_bytes_word m k : 0 ≤ k < 1024 → word (write KERN_BASE low_bytes m) (KERN_BASE + 4 * k) = 0x02020202.
Proof.
  intros Hk. assert (zlen low_bytes = 4096) as Hz by (unfold zlen, low_bytes; by rewrite length_replicate, Z2Nat.id).
  assert (∀ a, KERN_BASE ≤ a < KERN_BASE + 4096 → peek (write KERN_BASE low_bytes m) a = 2) as Hp.
  { intros a Ha. unfold peek. rewrite lookup_write, Hz, decide_True by done. unfold low_bytes. rewrite lookup_replicate_2; [done|lia]. }
  unfold word. rewrite !Hp by lia. done.
Qed.

Lemma demo_empty : ∃ s l, user_space s demo_base ∅ l [] ∧ Z.of_nat (length l) = 2998 ∧ low_idle (ram s) ∧
  word (ram s) (P2KA 64) = 0x02020202.
Proof.
  set (n := Z.to_nat 3000). assert (Z.of_nat n = 3000) as Hn by (unfold n; by rewrite Z2Nat.id). clearbody n.
  destruct (demo_vm n ltac:(lia) ltac:(lia)) as ([Hf Hw Hsep] & _).
  assert (zlen low_bytes = 4096) as Hz by (unfold zlen, low_bytes; by rewrite length_replicate, Z2Nat.id).
  set (s := mkPmem (write KERN_BASE low_bytes (ram (demo_pmem n 2))) (freelist (demo_pmem n 2))). exists s. eexists. split; [|split; [|split]].
  - split; [split| |apply NoDup_nil_2|done|done].
    + apply free_pages_write; [exact Hf|]. pose proof (fp_ok _ _ Hf) as Hok. rewrite Forall_forall in Hok |- *. intros q Hq.
      destruct (low_page q (Hok q Hq)). lia.
    + apply pgdir_wf_write; [done|]. right. rewrite Hz. done.
    + done.
    + intros i p f Hi. by rewrite lookup_nil in Hi.
  - rewrite length_reverse. unfold pages_from. rewrite length_fmap, length_seq. lia.
  - split.
    + intros a Ha. unfold s; cbn [ram]. rewrite lookup_write, Hz, decide_True by done. unfold low_bytes. rewrite lookup_replicate_2 by lia. by eexists.
    + intros k Hk. unfold s; cbn [ram]. by rewrite low_bytes_word.
  - change (P2KA 64) with (KERN_BASE + 4 * 16). unfold s; cbn [ram]. by rewrite low_bytes_word.
Qed.

(** With two pages of zeros *)
Lemma demo_two : ∃ s pts l us, user_space s demo_base pts l us ∧ length us = 2%nat ∧ 1900 < length l ∧ low_idle (ram s) ∧
  zeroed (ram s) us ∧ ∀ va, 0 ≤ va < 8192 → vbyte (ram s) demo_base va = Some 0.
Proof.
  destruct demo_empty as (s & l & Hus & Hl & Hlow & _).
  assert (wp (uvm_allocate demo_base 0 8192) s (λ _ s', ∃ pts' l' us', us_grows demo_base s ∅ l [] s' pts' l' us' ∧
    page_alignup 8192 = 4096 * length ([] ++ us') ∧ zeroed (ram s') us')) as Hwp.
  { eapply wp_mono; [apply (uvm_allocate_ok s demo_base ∅ l [] 0 8192 Hus); [done|done|done|rewrite map_size_empty; change ((8192 - 0) / 4096) with 2; lia]|].
    by intros r s' (_ & ?). }
  apply wp_run in Hwp as (_ & s' & _ & pts & l' & us & Hg & Hlen & Hz). pose proof (ug_space _ _ _ _ _ _ _ _ _ Hg) as Hus'.
  pose proof (ug_count _ _ _ _ _ _ _ _ _ Hg) as Hc. pose proof (tables_bound _ _ _ (vi_dir _ _ _ _ (us_inv _ _ _ _ _ Hus'))) as Hb.
  rewrite map_size_empty in Hc. unfold NPDES in Hb. change (page_alignup 8192) with 8192 in Hlen. cbn [app] in *.
  exists s', pts, l', us. split; [done|]. split; [lia|]. split; [lia|]. split; [|split; [done|]].
  - apply (low_idle_same (ram s)); [|done]. apply (ug_data _ _ _ _ _ _ _ _ _ Hg); [done| |].
    + intros Hin. pose proof (fp_ok _ _ (vi_free _ _ _ _ (us_inv _ _ _ _ _ Hus))) as Hok. rewrite Forall_forall in Hok.
      by destruct (low_page _ (Hok _ Hin)).
    + intros [Hd|[i Hi]]; [discriminate Hd|by rewrite lookup_empty in Hi].
  - intros va Hva. rewrite (vbyte_user _ _ _ _ _ _ Hus') by lia. unfold ubyte.
    destruct (lookup_lt_is_Some_2 us (Z.to_nat (va / 4096))) as [[p f] Hp]; [Z.div_mod_to_equations; lia|]. rewrite Hp. cbn.
    destruct (Hz p f) as [_ ->]; [by eapply list_elem_of_lookup_2|done|]. pose proof (Z.mod_pos_bound va 4096). lia.
Qed.

Lemma zeroed_bytes m us : zeroed m us → user_bytes m us.
Proof. intros Hz p f a b Hp Ha Hb. destruct (Hz p f Hp) as [_ Hz']. rewrite (Hz' a Ha) in Hb. injection Hb as <-. done. Qed.

Lemma uvm_allocate_grows_witness : ∃ s, wp (uvm_allocate demo_base 0 8192) s (λ r s', r = 8192 ∧
  vbyte (ram s') demo_base 5000 = Some 0 ∧ vbyte (ram s') demo_base 9000 = None).
Proof.
  destruct demo_empty as (s & l & Hus & Hl & _). exists s. eapply wp_mono.
  - apply (uvm_allocate_grows s demo_base ∅ l [] 0 8192 Hus); [done|done|done|rewrite map_size_empty; change ((8192 - 0) / 4096) with 2; lia].
  - intros r s' (-> & Hv & _). split; [reflexivity|]. rewrite (Hv 5000), (Hv 9000) by done. done.
Defined.

(** The two bytes lie on different pages. *)
Lemma uvm_memcpy_writes_witness : ∃ s, wp (uvm_memcpy demo_base 4095 [1; 2]) s (λ r s', r = 0 ∧
  vbyte (ram s') demo_base 4094 = Some 0 ∧ vbyte (ram s') demo_base 4095 = Some 1 ∧ vbyte (ram s') demo_base 4096 = Some 2).
Proof.
  destruct demo_two as (s & pts & l & us & Hus & Hlen & _ & _ & Hz & Hv). exists s. eapply wp_mono.
  - apply (uvm_memcpy_writes s demo_base pts l us 4095 [1; 2] Hus); [by repeat constructor|]. split; [done|]. rewrite Hlen. split; [done|].
    intros i p f Hi _. destruct (Hz p f) as [-> _]; [by eapply list_elem_of_lookup_2|done].
  - intros r s' (-> & Hw). split; [reflexivity|]. rewrite (Hw 4094), (Hw 4095), (Hw 4096) by done. split; [by apply Hv|]. done.
Defined.

Lemma uvm_copy_isolates_witness : ∃ s, vbyte (ram s) demo_base 5000 = Some 0 ∧
  wp (uvm_copy init_kmap demo_base 8192) s (λ '(ok, new) s', ok = true ∧ vbyte (ram s') new 5000 = Some 0).
Proof.
  destruct demo_two as (s & pts & l & us & Hus & Hlen & Hl & _ & Hz & Hv). exists s. split; [by apply Hv|]. eapply wp_mono.
  - apply (uvm_copy_isolates s demo_base pts l us 8192 Hus); [by apply zeroed_bytes|rewrite Hlen; done|rewrite Hlen; done|lia].
  - intros [ok new] s' (-> & _ & Hc & _). split; [reflexivity|]. destruct (Hc 5000) as [-> _]; [done|]. by apply Hv.
Defined.

Lemma vmfree_returns_witness : ∃ s l, free_pages s l ∧
  wp (let! '(_, new) := uvm_copy init_kmap demo_base 8192 in vmfree new) s (λ _ s', ∃ l', free_pages s' l' ∧ l' ≡ₚ l).
Proof.
  destruct demo_two as (s & pts & l & us & Hus & Hlen & Hl & Hlow & Hz & Hv). exists s, l. split; [apply Hus|]. eapply wp_mono.
  - apply (vmfree_returns s demo_base pts l us 8192 Hus); [by apply zeroed_bytes|done|rewrite Hlen; done|rewrite Hlen; done|lia].
  - intros _ s' (l' & Hf & Hp & _). exists l'. split; [exact Hf|exact Hp].
Defined.

Lemma vmfree_low_memory_witness : ∃ s, word (ram s) (P2KA 64) = 0x02020202 ∧
  wp (vmfree demo_base) s (λ _ s', word (ram s') (P2KA 64) = 0).
Proof.
  destruct demo_empty as (s & l & Hus & _ & Hlow & Hw). exists s. split; [exact Hw|]. eapply wp_mono.
  - apply (vmfree_low_memory s demo_base ∅ l [] 0 Hus Hlow); done.
  - intros r s' Hk. apply (Hk 16). done.
Defined.
