(* ===== verification/CStdlib.v ===== *)
(** * lib/ctype.c and lib/stdlib.c: character classes, strings to numbers *)
From S2P Require Import Prelude CMem CString.

(** ** lib/ctype.c *)

Definition isdigit (c : Z) : bool := (48 <=? c) && (c <=? 57).

Definition islower (c : Z) : bool := (97 <=? c) && (c <=? 122).

Definition isupper (c : Z) : bool := (65 <=? c) && (c <=? 90).

Definition isalpha (c : Z) : bool := isupper c || islower c.

Definition isalnum (c : Z) : bool := isalpha c || isdigit c.

Definition iscntrl (c : Z) : bool := ((0 <? c) && (c <? 0x1f)) || (c =? 0x7f).

Definition isblank (c : Z) : bool := (c =? 32) || (c =? 9).

Definition isspace (c : Z) : bool :=
  (c =? 32) || (c =? 9) || (c =? 10) || (c =? 11) || (c =? 12) || (c =? 13).

Definition toupper (c : Z) : Z :=
  if (97 <=? c) || (c <=? 122) then s32 (c - 97 + 65) else c.

Definition tolower (c : Z) : Z :=
  if (65 <=? c) || (c <=? 90) then s32 (c - 65 + 97) else c.

(** ** lib/stdlib.c *)

(** [while (isspace( *p)) p++;] *)
Definition skip_space (p : Z) : M mem Z := bounded (λ fuel,
  loop fuel (λ p,
    let! c := loadc p in
    if isspace c then ret (inl (p + 1)) else ret (inr p)) p).

(** A loop over digits: [digit] is the value of the characters that the loop
    condition accepts. The result is the number and the end of the digits. *)
Definition number (digit : Z → option Z) (base p : Z) : M mem (Z * Z) := bounded (λ fuel,
  loop fuel (λ '(k, p),
    let! c := loadc p in
    match digit c with
    | Some v => ret (inl (s32 (k * base + v), p + 1))
    | None => ret (inr (k, p))
    end) (0, p)).

Definition dec_digit (c : Z) : option Z := if isdigit c then Some (c - 48) else None.

Definition oct_digit (c : Z) : option Z :=
  if (48 <=? c) && (c <=? 55) then Some (c - 48) else None.

Definition hex_digit (c : Z) : option Z :=
  if isdigit c then Some (c - 48)
  else if (97 <=? c) && (c <=? 102) then Some (c - 97 + 10)
  else if (65 <=? c) && (c <=? 70) then Some (c - 65 + 10)
  else None.

(** An optional sign: is it [-], and what follows it? *)
Definition sign (p : Z) : M mem (bool * Z) :=
  let! c := loadc p in
  if c =? 43 then ret (false, p + 1)
  else if c =? 45 then ret (true, p + 1)
  else ret (false, p).

Definition atoi (p : Z) : M mem Z :=
  let! p := skip_space p in
  let! '(neg, p) := sign p in
  let! '(k, _) := number dec_digit 10 p in
  ret (if neg : bool then s32 (- k) else k).

(** The result, and what is stored to [*endptr]. The [abort] branch of the
    code, the only one that sets [errno], is behind the loop condition. *)
Definition strtol (str : Z) : M mem (Z * Z) :=
  let! p := skip_space str in
  let! '(neg, p) := sign p in
  let! p := skip_space p in
  let! c0 := loadc p in
  let! '(k, p) :=
    (let! hex := (if c0 =? 48 then let! c1 := loadc (p + 1) in ret (c1 =? 120) else ret false) in
     if hex : bool then number hex_digit 16 (p + 2)
     else if c0 =? 48 then number oct_digit 8 (p + 1)
     else if isdigit c0 then number dec_digit 10 p
     else ret (0, p)) in
  ret (if neg : bool then s32 (- k) else k, p).

(** ** Specifications *)

(** The value of a list of digits, most significant first *)
Definition value (base : Z) (ds : list Z) : Z := fold_left (λ k d, k * base + d) ds 0.

(** The literals of [strtol] *)
Inductive literal :=
| Hex (cs : list Z)
| Oct (cs : list Z)
| Dec (cs : list Z).

Definition literal_text (x : literal) : list Z :=
  match x with Hex cs => [48; 120] ++ cs | Oct cs => 48 :: cs | Dec cs => cs end.

Definition literal_digit (x : literal) : Z → option Z :=
  match x with Hex _ => hex_digit | Oct _ => oct_digit | Dec _ => dec_digit end.

Definition literal_base (x : literal) : Z :=
  match x with Hex _ => 16 | Oct _ => 8 | Dec _ => 10 end.

Definition literal_digits (x : literal) : list Z :=
  match x with Hex cs | Oct cs | Dec cs => cs end.

Definition literal_value (x : literal) : Z :=
  value (literal_base x) (omap (literal_digit x) (literal_digits x)).

(** A decimal literal starts with a digit from 1 to 9, and what follows an
    octal 0 is not an x. *)
Definition literal_ok (x : literal) (rest : list Z) : Prop :=
  Forall (λ c, is_Some (literal_digit x c)) (literal_digits x) ∧
  match x with
  | Hex _ => True
  | Oct cs => head (cs ++ rest) ≠ Some 120
  | Dec cs => ∃ c cs', cs = c :: cs' ∧ c ≠ 48
  end.

(** The text does not go on with a character that [f] accepts. *)
Definition stops (f : Z → bool) (rest : list Z) : Prop :=
  match rest with [] => f 0 = false | c :: _ => f (s8 c) = false end.

Definition is_some {A} (o : option A) : bool := match o with Some _ => true | None => false end.

(** ** Lemmas *)

Lemma s32_shift a b : a mod 4294967296 = b mod 4294967296 → s32 a = s32 b.
Proof. unfold s32. intros H. f_equal. rewrite (Z.add_mod a), (Z.add_mod b), H by done. done. Qed.

Lemma s32_mod a : s32 a mod 4294967296 = a mod 4294967296.
Proof. unfold s32. Z.div_mod_to_equations. lia. Qed.

Lemma s32_step k base v : s32 (s32 k * base + v) = s32 (k * base + v).
Proof.
  apply s32_shift. rewrite Z.add_mod, Z.mul_mod, s32_mod by done.
  rewrite <- Z.mul_mod, <- Z.add_mod by done. done.
Qed.

Lemma s32_opp a : s32 (- s32 a) = s32 (- a).
Proof.
  apply s32_shift. unfold s32. Z.div_mod_to_equations. lia.
Qed.

Lemma s8_ascii c : 0 ≤ c < 128 → s8 c = c.
Proof. intros. rewrite s8_byte by (unfold is_byte; lia). by rewrite decide_True by lia. Qed.

(** Reading the first character of what is left of a string *)
Lemma loadc_head m p l rest f :
  cstr m p (l ++ rest) → l = [] → stops f rest →
  ∃ c, loadc p m = Ok c m ∧ f c = false.
Proof.
  intros Hs -> Hf. destruct rest as [|c rest].
  - exists 0. split; [|done]. pose proof (cstr_end _ _ _ Hs) as H0. cbn in H0. rewrite Z.add_0_r in H0.
    by rewrite (loadc_ok _ _ _ H0).
  - apply cstr_cons in Hs as (Hc & _ & _). exists (s8 c). split; [by apply loadc_ok|done].
Qed.

Lemma skip_space_ok m p sp rest :
  cstr m p (sp ++ rest) → Forall (λ c, isspace c = true) sp → stops isspace rest →
  skip_space p m = Ok (p + zlen sp) m.
Proof.
  intros Hs Hsp Hstop. unfold skip_space. apply wp_eq. rewrite wp_bounded.
  pose proof (cstr_size _ _ _ Hs) as Hsz. rewrite length_app in Hsz.
  apply (wp_loop (λ q m', m' = m ∧ ∃ k r, sp = k ++ r ∧ q = p + zlen k)
                 (λ q _, Z.to_nat (p + zlen sp - q))).
  - intros q m' [-> (k & r & -> & ->)]. rewrite <- app_assoc in Hs. apply cstr_app_r in Hs.
    apply Forall_app in Hsp as [_ Hr]. rewrite wp_bind. destruct r as [|c r].
    + destruct (loadc_head _ _ [] _ _ Hs eq_refl Hstop) as (c & Hc & Hf).
      eapply wp_ok; [exact Hc|]. rewrite Hf, wp_ret, app_nil_r. done.
    + apply cstr_cons in Hs as (Hc & _ & _). apply Forall_cons in Hr as [Hcs _].
      eapply wp_ok; [by apply loadc_ok|].
      assert (0 ≤ c < 128) as Hr by (unfold isspace in Hcs; lia).
      rewrite s8_ascii by done. rewrite Hcs, wp_ret.
      split; [|unfold zlen; rewrite length_app; cbn; lia]. split; [done|].
      exists (k ++ [c]), r. rewrite <- app_assoc. unfold zlen. rewrite length_app. cbn. split; [done|lia].
  - split; [done|]. exists [], sp. cbn. split; [done|]. unfold zlen. cbn. lia.
  - unfold zlen. lia.
Qed.

Lemma number_ok m p cs rest digit base :
  cstr m p (cs ++ rest) → Forall (λ c, is_Some (digit c) ∧ 0 ≤ c < 128) cs →
  stops (λ c, is_some (digit c)) rest →
  number digit base p m = Ok (s32 (value base (omap digit cs)), p + zlen cs) m.
Proof.
  intros Hs Hcs Hstop. unfold number. apply wp_eq. rewrite wp_bounded.
  pose proof (cstr_size _ _ _ Hs) as Hsz. rewrite length_app in Hsz.
  apply (wp_loop (λ '(k, q) m', m' = m ∧ ∃ a r, cs = a ++ r ∧ q = p + zlen a ∧
                     k = s32 (value base (omap digit a)))
                 (λ '(_, q) _, Z.to_nat (p + zlen cs - q))).
  - intros [k q] m' [-> (a & r & -> & -> & ->)]. rewrite <- app_assoc in Hs. apply cstr_app_r in Hs.
    apply Forall_app in Hcs as [_ Hr]. rewrite wp_bind. destruct r as [|c r].
    + destruct (loadc_head _ _ [] _ _ Hs eq_refl Hstop) as (c & Hc & Hf).
      eapply wp_ok; [exact Hc|]. cbv beta in Hf. destruct (digit c); [done|].
      rewrite wp_ret, app_nil_r. done.
    + apply cstr_cons in Hs as (Hc & _ & _). apply Forall_cons in Hr as [[[v Hv] Hrg] _].
      eapply wp_ok; [by apply loadc_ok|]. rewrite s8_ascii by done. rewrite Hv, wp_ret.
      split; [|unfold zlen; rewrite length_app; cbn; lia]. split; [done|].
      exists (a ++ [c]), r. rewrite <- app_assoc. unfold zlen. rewrite length_app. cbn [length].
      split; [done|]. split; [lia|].
      rewrite omap_app. cbn [omap list_omap]. rewrite Hv. unfold value.
      rewrite fold_left_app. cbn [fold_left]. apply s32_step.
  - split; [done|]. exists [], cs. unfold zlen. cbn. split; [done|]. split; [lia|]. done.
  - unfold zlen. lia.
Qed.

Lemma sign_ok m p (sg : list Z) rest :
  cstr m p (sg ++ rest) → sg ∈ [[]; [43]; [45]] → (sg = [] → stops (λ c, (c =? 43) || (c =? 45)) rest) →
  sign p m = Ok (bool_decide (sg = [45]), p + zlen sg) m.
Proof.
  intros Hs Hsg Hst. unfold sign. rewrite !elem_of_cons in Hsg.
  destruct Hsg as [->|[->|[->|Hn%not_elem_of_nil]]]; [| | |done].
  - destruct (loadc_head _ _ [] _ _ Hs eq_refl (Hst eq_refl)) as (c & Hc & Hf).
    rewrite (bind_ok _ _ _ _ _ Hc). apply orb_false_iff in Hf as [-> ->].
    unfold zlen. cbn. by rewrite Z.add_0_r.
  - cbn [app] in Hs. apply cstr_cons in Hs as (Hc & _ & _).
    by rewrite (bind_ok _ _ _ _ _ (loadc_ok _ _ _ Hc)).
  - cbn [app] in Hs. apply cstr_cons in Hs as (Hc & _ & _).
    by rewrite (bind_ok _ _ _ _ _ (loadc_ok _ _ _ Hc)).
Qed.

Lemma literal_ascii x c v : literal_digit x c = Some v → 48 ≤ c < 128 ∧ 0 ≤ v < literal_base x.
Proof.
  destruct x; cbn; unfold hex_digit, oct_digit, dec_digit, isdigit;
    repeat match goal with |- context [if ?b then _ else _] => destruct b eqn:? end;
    intros; simplify_eq; lia.
Qed.

Lemma literal_ascii_all x cs :
  Forall (λ c, is_Some (literal_digit x c)) cs →
  Forall (λ c, is_Some (literal_digit x c) ∧ 0 ≤ c < 128) cs.
Proof.
  intros H. eapply Forall_impl; [exact H|]. intros c [v Hv]. split; [eauto|].
  pose proof (literal_ascii _ _ _ Hv). lia.
Qed.

(** The first character of a literal *)
Lemma literal_head x rest :
  literal_ok x rest → ∃ c t, literal_text x ++ rest = c :: t ∧ 48 ≤ c < 128.
Proof.
  intros [Hd Ho]. destruct x as [cs|cs|cs]; cbn.
  - eexists _, _. split; [done|lia].
  - eexists _, _. split; [done|lia].
  - destruct Ho as (c & cs' & -> & _). cbn in Hd. apply Forall_cons in Hd as [[v Hv] _].
    apply (literal_ascii (Dec [])) in Hv. eexists _, _. split; [done|lia].
Qed.

(** What comes after the sign *)
Lemma literal_number_ok m p x rest :
  cstr m p (literal_text x ++ rest) → literal_ok x rest →
  stops (λ c, is_some (literal_digit x c)) rest →
  (let! c0 := loadc p in
   let! hex := (if c0 =? 48 then let! c1 := loadc (p + 1) in ret (c1 =? 120) else ret false) in
   if hex : bool then number hex_digit 16 (p + 2)
   else if c0 =? 48 then number oct_digit 8 (p + 1)
   else if isdigit c0 then number dec_digit 10 p
   else ret (0, p)) m = Ok (s32 (literal_value x), p + zlen (literal_text x)) m.
Proof.
  intros Hs [Hd Ho] Hst. pose proof (literal_ascii_all _ _ Hd) as Hda.
  destruct x as [cs|cs|cs]; cbn [literal_text literal_digits literal_digit literal_base] in *.
  - cbn [app] in Hs. apply cstr_cons in Hs as (H0 & _ & Hs). apply cstr_cons in Hs as (H1 & _ & Hs).
    rewrite (bind_ok _ _ _ _ _ (loadc_ok _ _ _ H0)). cbn [Z.eqb].
    change (s8 48 =? 48) with true. cbn iota. unfold bind at 1.
    rewrite (bind_ok _ _ _ _ _ (loadc_ok _ _ _ H1)). unfold ret at 1. change (s8 120 =? 120) with true. cbn iota.
    replace (p + 1 + 1) with (p + 2) in Hs by lia.
    rewrite (number_ok _ _ _ _ _ 16 Hs Hda Hst). unfold zlen. cbn [length app]. do 2 f_equal. lia.
  - cbn [app] in Hs. apply cstr_cons in Hs as (H0 & _ & Hs).
    rewrite (bind_ok _ _ _ _ _ (loadc_ok _ _ _ H0)). change (s8 48 =? 48) with true. cbn iota.
    assert (∃ c1, loadc (p + 1) m = Ok c1 m ∧ (c1 =? 120) = false) as (c1 & Hc1 & Hx).
    { destruct (cs ++ rest) as [|c l] eqn:E.
      - exists 0. split; [|done]. pose proof (cstr_end _ _ _ Hs) as He. cbn in He.
        rewrite Z.add_0_r in He. by rewrite (loadc_ok _ _ _ He).
      - apply cstr_cons in Hs as (Hc & Hr & _). exists (s8 c). split; [by apply loadc_ok|].
        apply Z.eqb_neq. intros He. apply Ho. cbn. f_equal. rewrite (s8_byte c) in He by (unfold is_byte; lia).
        case_decide; lia. }
    unfold bind at 1. rewrite (bind_ok _ _ _ _ _ Hc1). unfold ret at 1. rewrite Hx. cbn iota.
    rewrite (number_ok _ _ _ _ _ 8 Hs Hda Hst). unfold zlen. cbn [length app]. do 2 f_equal. lia.
  - destruct Ho as (c & cs' & -> & Hc). pose proof Hs as Hs'. cbn [app] in Hs'.
    apply cstr_cons in Hs' as (H0 & _ & _).
    apply Forall_cons in Hda as Hda'. destruct Hda' as [[[v Hv] Hrg] _].
    rewrite (bind_ok _ _ _ _ _ (loadc_ok _ _ _ H0)), s8_ascii by done.
    rewrite (proj2 (Z.eqb_neq c 48)) by done. unfold bind at 1. unfold ret at 1. cbn iota.
    unfold dec_digit in Hv. destruct (isdigit c); [|done].
    rewrite (number_ok _ _ _ _ _ 10 Hs Hda Hst). done.
Qed.

(** [strtol] on a character that starts no number *)
Lemma strtol_none m p c :
  loadc p m = Ok c m → isspace c = false → isdigit c = false → c ≠ 43 → c ≠ 45 →
  strtol p m = Ok (0, p) m.
Proof.
  intros Hc Hsp Hd Hplus Hminus.
  assert (skip_space p m = Ok p m) as Hskip.
  { unfold skip_space. rewrite bounded_eq. cbn [loop]. unfold bind. by rewrite Hc, Hsp. }
  unfold strtol. rewrite (bind_ok _ _ _ _ _ Hskip).
  rewrite (bind_ok _ _ _ (false, p) m).
  2:{ unfold sign. rewrite (bind_ok _ _ _ _ _ Hc).
      by rewrite (proj2 (Z.eqb_neq c 43)), (proj2 (Z.eqb_neq c 45)). }
  cbn beta iota. rewrite (bind_ok _ _ _ _ _ Hskip), (bind_ok _ _ _ _ _ Hc).
  assert (c =? 48 = false) as -> by (unfold isdigit in Hd; lia).
  unfold bind, ret. by rewrite Hd.
Qed.

Lemma stops_char f rest c t : rest = c :: t → 0 ≤ c < 128 → f c = false → stops f rest.
Proof. intros -> Hc Hf. cbn. by rewrite s8_ascii. Qed.

(** [toupper] and [tolower] shift every character: the conditions of the code
    are disjunctions and always hold. *)
Lemma toupper_shifts c : toupper c = s32 (c - 32).
Proof. unfold toupper. replace (c - 97 + 65) with (c - 32) by lia. by assert ((97 <=? c) || (c <=? 122) = true) as -> by lia. Qed.

Lemma tolower_shifts c : tolower c = s32 (c + 32).
Proof. unfold tolower. replace (c - 65 + 97) with (c + 32) by lia. by assert ((65 <=? c) || (c <=? 90) = true) as -> by lia. Qed.

(** ** Properties *)

(** [strtol] reads blanks, an optional sign, more blanks and a hexadecimal,
    octal or decimal literal: the result is the signed value of the literal
    modulo 2^32, and [*endptr] points to the first character that the literal
    does not contain. *)
Theorem strtol_literal m p sp sg sp' x rest :
  cstr m p (sp ++ sg ++ sp' ++ literal_text x ++ rest) →
  Forall (λ c, isspace c = true) sp → sg ∈ [[]; [43]; [45]] →
  Forall (λ c, isspace c = true) sp' → (sg = [] → sp' = []) →
  literal_ok x rest → stops (λ c, is_some (literal_digit x c)) rest →
  strtol p m =
    Ok (s32 (if decide (sg = [45]) then - literal_value x else literal_value x),
        p + zlen (sp ++ sg ++ sp' ++ literal_text x)) m.
Proof.
  intros Hs Hsp Hsg Hsp' Hsg' Hx Hst.
  destruct (literal_head x rest Hx) as (c & t & Ht & Hc).
  assert (stops isspace (literal_text x ++ rest)) as Hst1.
  { apply (stops_char _ _ c t Ht); [lia|]. unfold isspace. lia. }
  assert (stops isspace (sg ++ sp' ++ literal_text x ++ rest)) as Hst2.
  { rewrite !elem_of_cons in Hsg. destruct Hsg as [->|[->|[->|Hn%not_elem_of_nil]]]; [|done|done|done].
    rewrite Hsg' by done. done. }
  unfold strtol. rewrite (bind_ok _ _ _ _ _ (skip_space_ok _ _ _ _ Hs Hsp Hst2)).
  apply cstr_app_r in Hs.
  rewrite (bind_ok _ _ _ _ _ (sign_ok _ _ _ _ Hs Hsg ltac:(intros ->; rewrite Hsg' by done;
    apply (stops_char _ _ c t Ht); lia))).
  cbn beta iota. apply cstr_app_r in Hs.
  rewrite (bind_ok _ _ _ _ _ (skip_space_ok _ _ _ _ Hs Hsp' Hst1)).
  apply cstr_app_r in Hs. set (q := p + zlen sp + zlen sg + zlen sp') in *.
  pose proof (literal_number_ok m q x rest Hs Hx Hst) as Hnum. unfold bind at 1 in Hnum. unfold bind at 1.
  destruct (loadc q m) as [c0 m0| | |]; [|done..].
  rewrite (bind_ok _ _ _ _ _ Hnum). unfold ret. cbn beta iota. f_equal. f_equal.
  - destruct (decide (sg = [45])).
    + rewrite bool_decide_eq_true_2 by done. apply s32_opp.
    + by rewrite bool_decide_eq_false_2.
  - unfold q, zlen. rewrite !length_app. lia.
Qed.

(** [atoi] reads blanks, an optional sign and decimal digits, leading
    zeros included, up to the first other character; without digits the
    result is 0. *)
Theorem atoi_decimal m p sp sg ds rest :
  cstr m p (sp ++ sg ++ ds ++ rest) →
  Forall (λ c, isspace c = true) sp → sg ∈ [[]; [43]; [45]] →
  Forall (λ c, isdigit c = true) ds → stops isdigit rest →
  (sg ++ ds = [] → stops (λ c, isspace c || (c =? 43) || (c =? 45)) rest) →
  let v := value 10 (omap dec_digit ds) in
  atoi p m = Ok (s32 (if decide (sg = [45]) then - v else v)) m.
Proof.
  intros Hs Hsp Hsg Hds Hst Hstart v.
  assert (Forall (λ c, is_Some (dec_digit c) ∧ 0 ≤ c < 128) ds) as Hda.
  { eapply Forall_impl; [exact Hds|]. intros c Hc. unfold dec_digit. cbn in Hc. rewrite Hc.
    split; [eauto|]. unfold isdigit in Hc. lia. }
  assert (∀ f, (∀ c, f c = true → (isspace c || (c =? 43) || (c =? 45)) = true) → sg = [] →
            stops f (ds ++ rest)) as Hfirst.
  { intros f Hf ->. destruct ds as [|c ds].
    - specialize (Hstart eq_refl). destruct rest as [|c rest]; cbn [app stops] in *.
      + destruct (f 0) eqn:E; [|done]. by apply Hf in E.
      + destruct (f (s8 c)) eqn:E; [|done]. apply Hf in E. congruence.
    - apply Forall_cons in Hda as [[_ Hr] _]. apply Forall_cons in Hds as [Hd _].
      eapply stops_char; [done|done|]. destruct (f c) eqn:E; [|done]. apply Hf in E.
      unfold isdigit, isspace in *. lia. }
  assert (stops isspace (sg ++ ds ++ rest)) as Hst2.
  { pose proof Hsg as Hsg2. rewrite !elem_of_cons in Hsg2.
    destruct Hsg2 as [->|[->|[->|Hn%not_elem_of_nil]]]; [|done|done|done].
    apply Hfirst; [|done]. intros c ->. done. }
  unfold atoi. rewrite (bind_ok _ _ _ _ _ (skip_space_ok _ _ _ _ Hs Hsp Hst2)).
  apply cstr_app_r in Hs.
  rewrite (bind_ok _ _ _ _ _ (sign_ok _ _ _ _ Hs Hsg ltac:(apply Hfirst; intros c Hc; rewrite <- orb_assoc, Hc; apply orb_true_r))).
  cbn beta iota. apply cstr_app_r in Hs.
  rewrite (bind_ok _ _ _ _ _ (number_ok _ _ _ _ dec_digit 10 Hs Hda ltac:(
    destruct rest; [done|]; cbn [stops] in *; unfold dec_digit; by rewrite Hst))).
  unfold ret. f_equal. fold v. destruct (decide (sg = [45])).
  - rewrite bool_decide_eq_true_2 by done. apply s32_opp.
  - by rewrite bool_decide_eq_false_2.
Qed.

(** ** Witnesses *)

Definition number_mem : mem := write 16 (cstring " -0x1aF;") (write 32 (cstring "  -042") ∅).

Lemma strtol_literal_witness : strtol 16 number_mem = Ok (-431, 23) number_mem.
Proof.
  apply (strtol_literal number_mem 16 [32] [45] [] (Hex (bytes_of "1aF")) [59]).
  - split; [|repeat constructor]. unfold number_mem. apply array_write.
  - repeat constructor.
  - set_solver.
  - constructor.
  - done.
  - split; [|done]. repeat constructor; cbn; eauto.
  - done.
Defined.

Lemma atoi_decimal_witness : atoi 32 number_mem = Ok (-42) number_mem.
Proof.
  apply (atoi_decimal number_mem 32 [32; 32] [45] (bytes_of "042") []).
  - split; [|repeat constructor]. unfold number_mem. apply array_write_disjoint; [by right|].
    apply array_write.
  - repeat constructor.
  - set_solver.
  - repeat constructor.
  - done.
  - done.
Defined.
