(* ===== verification/Fmt.v ===== *)
(** * lib/fmt.c: formatted output, whatever the output device *)
From S2P Require Import Prelude CMem CString CStdlib.

(** The memory, and the state of the output device *)
Record FState (D : Type) := mkFState {
  fmem : mem;
  fout : D;
}.
Arguments mkFState {D} fmem fout.
Arguments fmem {D}.
Arguments fout {D}.

(** [putchar_f]: takes the address of a character and returns the address of
    the next one to print. *)
Record FmtIO (D : Type) := mkFmtIO { putchar : Z → M (FState D) Z }.
Arguments mkFmtIO {D} putchar.
Arguments putchar {D}.

(** [PrintCtl] *)
Record PrintCtl (D : Type) := mkPrintCtl {
  upper : bool;
  flush : bool;
  sgn : bool;
  base : Z;
  io : FmtIO D;
}.
Arguments mkPrintCtl {D} upper flush sgn base io.
Arguments upper {D}.
Arguments flush {D}.
Arguments sgn {D}.
Arguments base {D}.
Arguments io {D}.

(** The local variables of [format] that live from one conversion to the next *)
Record FmtVars := mkFmtVars {
  pad0 : bool;
  leftpad : bool;
  hex : bool;
  args : list Z;        (* the words that [va_arg] has not taken yet *)
}.

Section fmt.
Context {D : Type}.
Notation St := (FState D).

Definition with_mem {A} (m : M mem A) : M St A :=
  zoom fmem (λ r s, mkFState r (fout s)) m.

(** A local array with the bytes [l]; see [CMem.with_local]. *)
Definition local {A} (l : list Z) (k : Z → M St A) : M St A := λ s,
  let p := stack_top (fmem s) in
  match k p (mkFState (alloc_bytes p l (fmem s)) (fout s)) with
  | Ok a s' => Ok a (mkFState (free_bytes p (length l) (fmem s')) (fout s'))
  | r => r
  end.

(** Fuel as in [CMem.bounded] *)
Definition bounded_io {A} (k : nat → M St A) : M St A := λ s, k (S (size (fmem s))) s.

Definition write_string (data : Z) (io : FmtIO D) : M St Z :=
  let! n := with_mem (strlen data) in
  bounded_io (λ fuel,
    loop fuel (λ p,
      if p <? data + n then let! p' := putchar io p in ret (inl p')
      else ret (inr p)) data).

(** [static const char digits[]] *)
Definition digits : list Z := bytes_of "0123456789abcdef".

(** The [do ... while (n)] of [print_uint]; at most 32 rounds for a base of at
    least 2. *)
Definition put_digits (ctl : PrintCtl D) (buf : Z) (n : Z) : M St Z :=
  loop 33 (λ '(n, i),
    let! c := need (digits !! Z.to_nat (n mod base ctl)) in
    do! with_mem (store (buf + i) (if upper ctl then toupper c else c)) in
    if n / base ctl =? 0 then ret (inr (i + 1)) else ret (inl (n / base ctl, i + 1))) (n, 0).

Definition print_uint (n : Z) (ctl : PrintCtl D) : M St Z :=
  local (replicate 32 0) (λ buf,
    let! i := put_digits ctl buf n in
    do! with_mem (store (buf + i) 0) in
    do! with_mem (strrev buf) in
    do! (if flush ctl then let! _ := write_string buf (io ctl) in done! else done!) in
    with_mem (strlen buf)).

Definition print_int (n : Z) (ctl : PrintCtl D) : M St Z :=
  if sgn ctl then
    let n := if n <? 0 then s32 (- n) else n in
    print_uint (u32 n) ctl
  else print_uint (u32 n) ctl.

Fixpoint pad_chars (n : nat) (c : Z) (io : FmtIO D) : M St unit :=
  match n with
  | O => done!
  | S n => let! _ := putchar io c in pad_chars n c io
  end.

(** [c] is a parameter, so its address is one of the stack. *)
Definition pad (n c : Z) (io : FmtIO D) : M St unit :=
  local [u8 c] (λ p, pad_chars (Z.to_nat n) p io).

Definition PCTL_d (io : FmtIO D) (f : bool) : PrintCtl D := mkPrintCtl false f true 10 io.
Definition PCTL_x (io : FmtIO D) (f : bool) : PrintCtl D := mkPrintCtl false f false 16 io.
Definition PCTL_X (io : FmtIO D) (f : bool) : PrintCtl D := mkPrintCtl true f false 16 io.

(** [TRY_PAD(_padn, WRITE)]; [_padn] is unsigned, and [pad] takes an [int]. *)
Definition TRY_PAD (v : FmtVars) (padn : Z) (io : FmtIO D) (write : M St unit) : M St unit :=
  if padn <=? 0 then write
  else if pad0 v then do! pad (s32 padn) 48 io in write
  else if leftpad v then do! pad (s32 padn) 32 io in write
  else do! write in pad (s32 padn) 32 io.

(** The flags after a [%] *)
Definition parse_flags (fmt : Z) (v : FmtVars) : M St (Z * FmtVars) := bounded_io (λ fuel,
  loop fuel (λ '(fmt, v),
    let! c := with_mem (loadc fmt) in
    if c =? 35 then ret (inl (fmt + 1, mkFmtVars (pad0 v) (leftpad v) true (args v)))
    else if c =? 48 then ret (inl (fmt + 1, mkFmtVars true (leftpad v) (hex v) (args v)))
    else if c =? 45 then ret (inl (fmt + 1, mkFmtVars (pad0 v) true (hex v) (args v)))
    else ret (inr (fmt, v))) (fmt, v)).

(** [va_arg]; there is no check that the caller passed one. *)
Definition va_arg (v : FmtVars) : M St (Z * FmtVars) :=
  match args v with
  | [] => fault
  | a :: l => ret (a, mkFmtVars (pad0 v) (leftpad v) (hex v) l)
  end.

Definition void {A} (m : M St A) : M St unit := let! _ := m in done!.

(** [write_string("0x", io)]; the literal is an object of its own. *)
Definition write_0x (io : FmtIO D) : M St unit :=
  local [48; 120; 0] (λ p, void (write_string p io)).

Definition print_number (v : FmtVars) (width : Z) (io : FmtIO D)
    (ctl : FmtIO D → bool → PrintCtl D) : M St FmtVars :=
  let! '(n, v) := va_arg v in
  let! w := print_int n (ctl io false) in
  do! TRY_PAD v (u32 (width - w)) io (void (print_int n (ctl io true))) in
  ret v.

(** The conversion at [fmt]; an unknown letter is not consumed. *)
Definition conversion (v : FmtVars) (width : Z) (fmt : Z) (io : FmtIO D) : M St (Z * FmtVars) :=
  let! c := with_mem (loadc fmt) in
  if c =? 100 then                                      (* d *)
    let! v := print_number v width io PCTL_d in ret (fmt + 1, v)
  else if c =? 120 then                                 (* x *)
    do! (if hex v then write_0x io else done!) in
    let! v := print_number v width io PCTL_x in ret (fmt + 1, v)
  else if c =? 88 then                                  (* X *)
    do! (if hex v then write_0x io else done!) in
    let! v := print_number v width io PCTL_X in ret (fmt + 1, v)
  else if c =? 112 then                                 (* p *)
    do! write_0x io in
    let! v := print_number v width io PCTL_X in ret (fmt + 1, v)
  else if c =? 99 then                                  (* c *)
    let! '(c, v) := va_arg v in
    do! TRY_PAD v (u32 (width - 1)) io
          (local (le_bytes 4 c) (λ p, void (putchar io p))) in
    ret (fmt + 1, v)
  else if c =? 115 then                                 (* s *)
    let! '(s, v) := va_arg v in
    let! w := with_mem (strlen s) in
    do! TRY_PAD v (u32 (width - w)) io (void (write_string s io)) in
    ret (fmt + 1, v)
  else ret (fmt, v).

(** Fuel: every round takes at least one character of the format, as long as
    [putchar] moves forward. *)
Definition format (io : FmtIO D) (fmt : Z) (args : list Z) : M St unit := bounded_io (λ fuel,
  loop fuel (λ '(fmt, v),
    let! c := with_mem (loadc fmt) in
    if c =? 0 then ret (inr tt) else
    if c =? 37 then
      let! '(fmt, v) := parse_flags (fmt + 1) v in
      let! '(width, fmt) := with_mem (strtol fmt) in
      let! '(fmt, v) := conversion v (u32 width) fmt io in
      ret (inl (fmt, v))
    else
      let! fmt := putchar io fmt in ret (inl (fmt, v)))
    (fmt, mkFmtVars false false false args)).

End fmt.

(** ** Specifications *)

(** The simplest device: it appends the character and steps by one, as the
    comment of lib/fmt.h suggests. *)
Definition plain : FmtIO (list Z) := mkFmtIO (λ p,
  let! c := with_mem (load p) in
  do! modify (λ s, mkFState (fmem s) (fout s ++ [c])) in
  ret (p + 1)).

Definition digit_char (d : Z) : Z := if d <? 10 then 48 + d else 97 + d - 10.

(** The digits of [n], the lowest one first *)
Fixpoint low_digits (fuel : nat) (b n : Z) : list Z :=
  match fuel with
  | O => []
  | S fuel => n mod b :: if n / b =? 0 then [] else low_digits fuel b (n / b)
  end.

Definition numeral (b n : Z) : list Z := digit_char <$> reverse (low_digits 31 b n).

(** The reference: what the comment at [format] says is printed, for [%d], [%x],
    [%s] and [%c] without flags and width. Only numbers that are not negative
    are here: of the others the code loses the sign ([format_loses_sign]).
    [%X] and [%p] are not here either, since their digits are not what the
    comment says ([toupper_shifts]). *)
Inductive prints (m : mem) : list Z → list Z → list Z → Prop :=
| prints_end : prints m [] [] []
| prints_char c fmt a out : c ≠ 37 → prints m fmt a out → prints m (c :: fmt) a (c :: out)
| prints_d n fmt a out :
    0 ≤ n < 2147483648 → prints m fmt a out →
    prints m (37 :: 100 :: fmt) (n :: a) (numeral 10 n ++ out)
| prints_x n fmt a out :
    prints m fmt a out → prints m (37 :: 120 :: fmt) (n :: a) (numeral 16 (u32 n) ++ out)
| prints_s p l fmt a out :
    cstr m p l → zlen l < 2147483648 → prints m fmt a out → prints m (37 :: 115 :: fmt) (p :: a) (l ++ out)
| prints_c c fmt a out :
    prints m fmt a out → prints m (37 :: 99 :: fmt) (c :: a) (u8 c :: out).

(** ** Lemmas *)

Lemma wp_with_mem {D A} (m : M mem A) (s : FState D) Q a m' :
  m (fmem s) = Ok a m' → Q a (mkFState m' (fout s)) → wp (with_mem m) s Q.
Proof. intros H HQ. unfold with_mem. rewrite wp_zoom. by eapply wp_ok. Qed.

Lemma wp_local {D A} l (k : Z → M (FState D) A) s Q :
  wp (k (stack_top (fmem s))) (mkFState (write (stack_top (fmem s)) l (fmem s)) (fout s))
    (λ a s', Q a (mkFState (free_bytes (stack_top (fmem s)) (length l) (fmem s')) (fout s'))) →
  wp (local l k) s Q.
Proof.
  unfold wp, local, write. by destruct (k _ _).
Qed.

Lemma wp_bounded_io {D A} (k : nat → M (FState D) A) s Q :
  wp (bounded_io k) s Q = wp (k (S (size (fmem s)))) s Q.
Proof. done. Qed.

Lemma write_string_ok m p l (o : list Z) :
  cstr m p l → write_string p plain (mkFState m o) = Ok (p + zlen l) (mkFState m (o ++ l)).
Proof.
  intros Hs. apply wp_eq. unfold write_string. rewrite wp_bind.
  eapply wp_with_mem; [by apply strlen_ok|]. rewrite wp_bounded_io. cbn [fmem fout].
  apply (wp_loop (λ q s, ∃ a r, l = a ++ r ∧ q = p + zlen a ∧ s = mkFState m (o ++ a))
                 (λ q _, Z.to_nat (p + zlen l - q))).
  - intros q s (a & r & -> & -> & ->). apply cstr_app_r in Hs. unfold zlen. rewrite length_app.
    destruct r as [|c r].
    + rewrite app_nil_r. cbn [length]. destruct (Z.ltb_spec (p + length a) (p + (length a + 0)%nat)); [lia|].
      rewrite wp_ret. split; [lia|done].
    + apply cstr_cons in Hs as (Hc & _ & _). cbn [length].
      destruct (Z.ltb_spec (p + length a) (p + (length a + S (length r))%nat)); [|lia].
      cbn [putchar plain]. rewrite !wp_bind. eapply wp_with_mem; [by apply load_ok|].
      rewrite !wp_bind, wp_modify, !wp_ret. cbn [fmem fout]. split; [|lia].
      exists (a ++ [c]), r. rewrite <- !app_assoc, length_app. cbn. split_and!; [done|lia|done].
  - exists [], l. unfold zlen. cbn. rewrite app_nil_r. split_and!; [done|lia|done].
  - pose proof (cstr_size _ _ _ Hs). unfold zlen. lia.
Qed.

Lemma digits_char d : 0 ≤ d < 16 → digits !! Z.to_nat d = Some (digit_char d).
Proof.
  intros Hd. assert (d ∈ seqZ 0 16) as Hin by (apply elem_of_seqZ; lia). clear Hd.
  change (seqZ 0 16) with [0;1;2;3;4;5;6;7;8;9;10;11;12;13;14;15] in Hin.
  repeat (apply elem_of_cons in Hin as [->|Hin]; [reflexivity|]). by apply not_elem_of_nil in Hin.
Qed.

Lemma low_digits_range f b n : 0 < b → 0 ≤ n → Forall (λ d, 0 ≤ d < b) (low_digits f b n).
Proof.
  intros Hb. revert n. induction f as [|f IH]; intros n Hn; cbn; constructor.
  - by apply Z.mod_pos_bound.
  - destruct (n / b =? 0); [constructor|]. apply IH. apply Z.div_pos; lia.
Qed.

Lemma length_low_digits f b n : (length (low_digits f b n) ≤ f)%nat.
Proof. revert n. induction f as [|f IH]; intros n; cbn; [lia|]. destruct (_ =? 0); cbn; [lia|]. specialize (IH (n / b)). lia. Qed.

(** The digits denote the number. *)
Lemma value_numeral f b n :
  1 < b → 0 ≤ n < b ^ Z.of_nat f → value b (reverse (low_digits f b n)) = n.
Proof.
  intros Hb. revert n. induction f as [|f IH]; intros n Hn.
  { cbn in *. lia. }
  cbn [low_digits]. rewrite reverse_cons. unfold value. rewrite fold_left_app. cbn [fold_left].
  rewrite Nat2Z.inj_succ, Z.pow_succ_r in Hn by lia.
  pose proof (Z.div_mod n b ltac:(lia)) as Hdm.
  destruct (Z.eqb_spec (n / b) 0) as [He|Hne].
  - cbn. lia.
  - fold (value b (reverse (low_digits f b (n / b)))). rewrite IH; [lia|]. split.
    + apply Z.div_pos; lia.
    + apply Z.div_lt_upper_bound; lia.
Qed.

Lemma wp_with_mem' {D A} (m : M mem A) (s : FState D) Q r d a m' :
  s = mkFState r d → m r = Ok a m' → Q a (mkFState m' d) → wp (with_mem m) s Q.
Proof. intros -> H HQ. by eapply wp_with_mem. Qed.

Lemma digit_char_range d : 0 ≤ d < 16 → 0 < digit_char d < 128.
Proof. unfold digit_char. intros. destruct (Z.ltb_spec d 10); lia. Qed.

Lemma put_digits_loop {D} f k (ctl : PrintCtl D) n i m d buf :
  upper ctl = false → 1 < base ctl ≤ 16 → 0 ≤ n < base ctl ^ Z.of_nat f → (0 < f ≤ k)%nat →
  mapped m (buf + i) (length (low_digits f (base ctl) n)) →
  wp (loop k (λ '(n, i),
    let! c := need (digits !! Z.to_nat (n mod base ctl)) in
    do! with_mem (D:=D) (store (buf + i) (if upper ctl then toupper c else c)) in
    if n / base ctl =? 0 then ret (inr (i + 1)) else ret (inl (n / base ctl, i + 1))) (n, i))
    (mkFState m d) (λ r s, r = i + zlen (low_digits f (base ctl) n) ∧
      s = mkFState (write (buf + i) (digit_char <$> low_digits f (base ctl) n) m) d).
Proof.
  intros Hup Hb. rewrite Hup. set (b := base ctl) in *. clearbody b.
  revert k n i m. induction f as [|f IH]; intros k n i m Hn Hk Hm; [lia|].
  destruct k as [|k]; [lia|]. rewrite wp_loop_S.
  pose proof (Z.mod_pos_bound n b ltac:(lia)) as Hmod.
  rewrite wp_bind. eapply wp_need; [apply digits_char; lia|]. cbn [low_digits] in *.
  rewrite wp_bind. eapply wp_with_mem'; [done|apply store_ok, (mapped_one _ _ _ _ Hm); cbn; lia|].
  pose proof (digit_char_range (n mod b) ltac:(lia)) as Hc.
  rewrite u8_small by (unfold is_byte; lia).
  destruct (Z.eqb_spec (n / b) 0) as [He|Hne]; rewrite wp_ret.
  - done.
  - cbn [length] in Hm.
    assert (0 ≤ n / b < b ^ Z.of_nat f) as Hn'.
    { rewrite Nat2Z.inj_succ, Z.pow_succ_r in Hn by lia. split; [apply Z.div_pos; lia|].
      apply Z.div_lt_upper_bound; lia. }
    destruct f as [|f]; [cbn in Hn'; lia|].
    wp_apply IH; [exact Hn'|lia|..].
    { apply mapped_write. eapply mapped_weaken; [exact Hm|lia..]. }
    intros r s [-> ->]. split; [unfold zlen; cbn [length]; lia|].
    f_equal. replace (buf + (i + 1)) with (buf + i + 1) by lia.
    rewrite fmap_cons. apply write_step.
Qed.

Lemma numeral_chars b n : 1 < b ≤ 16 → 0 ≤ n → Forall (λ c, 0 < c < 256) (numeral b n).
Proof.
  intros Hb Hn. unfold numeral. rewrite Forall_fmap. apply Forall_reverse.
  eapply Forall_impl; [apply (low_digits_range 31 b n); lia|]. intros d Hd. cbn in Hd |- *.
  pose proof (digit_char_range d ltac:(lia)). lia.
Qed.

(** [print_uint]: the numeral is printed when [flush] is set, its length is
    returned, and the memory is as before. *)
Lemma print_uint_ok ctl n m (o : list Z) :
  upper ctl = false → 1 < base ctl ≤ 16 → 0 ≤ n < base ctl ^ 31 → io ctl = plain →
  print_uint n ctl (mkFState m o) =
    Ok (zlen (numeral (base ctl) n))
       (mkFState m (if flush ctl then o ++ numeral (base ctl) n else o)).
Proof.
  intros Hup Hb Hn Hio. apply wp_eq. unfold print_uint. apply wp_local. cbn [fmem fout].
  set (p := stack_top m). set (m1 := write p (replicate 32 0) m).
  pose proof (length_low_digits 31 (base ctl) n) as Hlen.
  set (ds := low_digits 31 (base ctl) n) in *.
  assert (mapped m1 p 32) as Hm1.
  { change 32%nat with (length (replicate 32 0)). apply array_mapped, array_write. }
  unfold put_digits. rewrite wp_bind. wp_apply (put_digits_loop (D:=list Z) 31); [done|done|exact Hn|lia| |].
  { rewrite Z.add_0_r. eapply mapped_weaken; [exact Hm1|lia|]. fold ds. lia. }
  intros i s [-> ->]. fold ds. rewrite Z.add_0_l, Z.add_0_r.
  set (cs := digit_char <$> ds). assert (length cs = length ds) as Hcs by apply length_fmap.
  rewrite wp_bind. eapply wp_with_mem'; [done|apply store_ok|].
  { apply mapped_write with (p := p) (l := cs) in Hm1. apply (mapped_one _ _ _ _ Hm1).
    unfold zlen. lia. }
  change (u8 0) with 0. rewrite (write_snoc p cs) by (unfold zlen; by rewrite Hcs).
  assert (Forall (λ c, 0 < c < 256) cs) as Hfc.
  { unfold cs. rewrite Forall_fmap. eapply Forall_impl; [apply (low_digits_range 31); lia|].
    intros d Hd. cbn in Hd |- *. pose proof (digit_char_range d ltac:(lia)). lia. }
  assert (cstr (write p (cs ++ [0]) m1) p cs) as Hs by (split; [apply array_write|done]).
  rewrite wp_bind. eapply wp_with_mem'; [done|by apply strrev_ok|].
  assert (reverse cs = numeral (base ctl) n) as Hrev.
  { unfold cs, numeral. by rewrite fmap_reverse. }
  rewrite Hrev. set (num := numeral (base ctl) n) in *.
  assert (length num = length cs) as Hln by (rewrite <- Hrev; apply length_reverse).
  set (m2 := write p num (write p (cs ++ [0]) m1)).
  assert (cstr m2 p num) as Hs2.
  { split; [|rewrite <- Hrev; by apply Forall_reverse]. apply array_app. split; [apply array_write|].
    apply array_cons. split; [|apply array_nil]. unfold m2. rewrite lookup_write, decide_False by lia.
    pose proof (cstr_end _ _ _ Hs) as He. unfold zlen. by rewrite Hln. }
  assert (free_bytes p (length (replicate 32 0)) m2 = m) as Hfree.
  { apply free_local; [done|]. intros a Ha. unfold zlen in Ha. rewrite length_replicate in Ha.
    unfold m2, m1. rewrite !lookup_write. unfold zlen. rewrite length_app, length_replicate. cbn [length].
    rewrite !decide_False by lia. done. }
  rewrite wp_bind. destruct (flush ctl).
  - rewrite wp_bind, Hio. eapply wp_ok; [by apply write_string_ok|]. rewrite wp_ret.
    eapply wp_with_mem'; [done|by apply strlen_ok|]. cbn [fmem fout]. by rewrite Hfree.
  - rewrite wp_ret. eapply wp_with_mem'; [done|by apply strlen_ok|]. cbn [fmem fout]. by rewrite Hfree.
Qed.

(** Without flags and width nothing is padded. *)
Lemma TRY_PAD_none a w (wr : M (FState (list Z)) unit) s m o :
  0 ≤ w < 2147483648 → wr s = Ok tt (mkFState m o) →
  TRY_PAD (mkFmtVars false false false a) (u32 (0 - w)) plain wr s = Ok tt (mkFState m o).
Proof.
  intros Hw Hwr. unfold TRY_PAD. cbn [pad0 leftpad]. destruct (u32 (0 - w) <=? 0) eqn:E; [done|].
  rewrite (bind_ok _ _ _ _ _ Hwr).
  assert (Z.to_nat (s32 (u32 (0 - w))) = 0%nat) as Hn.
  { unfold s32, u32 in *. clear Hwr. Z.div_mod_to_equations. lia. }
  unfold pad. rewrite Hn. unfold local. cbn [pad_chars fmem fout]. unfold ret.
  cbn [fmem fout]. do 2 f_equal. apply (free_local _ [u8 32]); [done|].
  intros x Hx. change (alloc_bytes ?p ?l ?m) with (write p l m).
  rewrite lookup_write, decide_False; done.
Qed.

Lemma print_number_ok ctl n v a m (o : list Z) :
  args v = n :: a → pad0 v = false → leftpad v = false → hex v = false →
  (∀ f, upper (ctl plain f) = false ∧ 1 < base (ctl plain f) ≤ 16 ∧ 4294967296 ≤ base (ctl plain f) ^ 31 ∧
        io (ctl plain f) = plain ∧ flush (ctl plain f) = f ∧
        sgn (ctl plain f) = sgn (ctl plain true) ∧ base (ctl plain f) = base (ctl plain true)) →
  print_number v 0 plain ctl (mkFState m o) =
    Ok (mkFmtVars false false false a)
       (mkFState m (o ++ numeral (base (ctl plain true))
          (u32 (if sgn (ctl plain true) then if n <? 0 then s32 (- n) else n else n)))).
Proof.
  intros Ha Hp Hl Hx Hctl. unfold print_number, va_arg. rewrite Ha, Hp, Hl, Hx. unfold bind at 1. unfold ret at 1.
  set (k := u32 (if sgn (ctl plain true) then _ else n)).
  assert (0 ≤ k < 4294967296) as Hk by apply u32_range.
  assert (∀ f o, print_int n (ctl plain f) (mkFState m o) =
    Ok (zlen (numeral (base (ctl plain true)) k))
       (mkFState m (if f then o ++ numeral (base (ctl plain true)) k else o))) as Hpr.
  { intros f o'. destruct (Hctl f) as (Hup & Hb & Hbig & Hio & Hfl & Hsg & Hbe).
    pose proof (print_uint_ok (ctl plain f) k m o' Hup Hb ltac:(lia) Hio) as Hpu.
    rewrite Hfl, Hbe in Hpu. rewrite <- Hpu. unfold print_int. rewrite Hsg. unfold k.
    by destruct (sgn (ctl plain true)). }
  rewrite (bind_ok _ _ _ _ _ (Hpr false o)).
  rewrite (bind_ok _ _ _ tt (mkFState m (o ++ numeral (base (ctl plain true)) k))); [done|].
  apply TRY_PAD_none.
  - unfold numeral, zlen. rewrite length_fmap, length_reverse.
    pose proof (length_low_digits 31 (base (ctl plain true)) k). lia.
  - unfold void. by rewrite (bind_ok _ _ _ _ _ (Hpr true o)).
Qed.

Lemma abs_u32 n : -2147483648 ≤ n < 2147483648 → u32 (if n <? 0 then s32 (- n) else n) = Z.abs n.
Proof.
  intros Hn. destruct (Z.ltb_spec n 0); unfold u32, s32; Z.div_mod_to_equations; lia.
Qed.

Lemma putchar_plain p c m (o : list Z) :
  m !! p = Some c → putchar plain p (mkFState m o) = Ok (p + 1) (mkFState m (o ++ [c])).
Proof.
  intros Hc. apply wp_eq. cbn [putchar plain]. rewrite wp_bind.
  eapply wp_with_mem; [by apply load_ok|]. by rewrite wp_bind, wp_modify, wp_ret.
Qed.

(** The conversion after a [%] without flags and width *)
Lemma plain_flags m p c a (o : list Z) :
  loadc p m = Ok c m → c ≠ 35 → c ≠ 48 → c ≠ 45 →
  parse_flags p (mkFmtVars false false false a) (mkFState m o) =
    Ok (p, mkFmtVars false false false a) (mkFState m o).
Proof.
  intros Hc H1 H2 H3. apply wp_eq. unfold parse_flags. rewrite wp_bounded_io, wp_loop_S, wp_bind.
  eapply wp_with_mem; [exact Hc|]. cbn [fmem fout].
  by rewrite (proj2 (Z.eqb_neq c 35)), (proj2 (Z.eqb_neq c 48)), (proj2 (Z.eqb_neq c 45)), wp_ret.
Qed.

Lemma PCTL_plain (ctl : FmtIO (list Z) → bool → PrintCtl (list Z)) (f : bool) :
  ctl = PCTL_d ∨ ctl = PCTL_x →
  upper (ctl plain f) = false ∧ 1 < base (ctl plain f) ≤ 16 ∧ 4294967296 ≤ base (ctl plain f) ^ 31 ∧
  io (ctl plain f) = plain ∧ flush (ctl plain f) = f ∧
  sgn (ctl plain f) = sgn (ctl plain true) ∧ base (ctl plain f) = base (ctl plain true).
Proof.
  intros [->| ->]; cbn [PCTL_d PCTL_x upper base io flush sgn];
    (split_and!; [reflexivity|lia|lia|apply Z.leb_le; reflexivity|reflexivity..]).
Qed.

(** One conversion of the loop of [format] *)
Lemma format_conversion m p c a a' (o o' : list Z) :
  m !! p = Some 37 → m !! (p + 1) = Some c → c ∈ [100; 120; 115; 99] →
  conversion (mkFmtVars false false false a) 0 (p + 1) plain (mkFState m o) =
    Ok (p + 2, mkFmtVars false false false a') (mkFState m o') →
  (let! c := with_mem (loadc p) in
   if c =? 0 then ret (inr tt) else
   if c =? 37 then
     let! '(fmt, v) := parse_flags (p + 1) (mkFmtVars false false false a) in
     let! '(width, fmt) := with_mem (strtol fmt) in
     let! '(fmt, v) := conversion v (u32 width) fmt plain in
     ret (inl (fmt, v))
   else
     let! fmt := putchar plain p in ret (inl (fmt, mkFmtVars false false false a))) (mkFState m o) =
  Ok (inl (p + 2, mkFmtVars false false false a')) (mkFState m o').
Proof.
  intros H37 Hc Hin Hconv. apply wp_eq. rewrite wp_bind.
  eapply wp_with_mem; [by apply loadc_ok|]. change (s8 37) with 37. cbn [Z.eqb Pos.eqb fmem fout].
  assert (loadc (p + 1) m = Ok c m ∧ c ≠ 35 ∧ c ≠ 48 ∧ c ≠ 45 ∧ c ≠ 43 ∧
          isspace c = false ∧ isdigit c = false) as (Hl & ? & ? & ? & ? & ? & ?).
  { rewrite (loadc_ok _ _ _ Hc). rewrite !elem_of_cons in Hin.
    destruct Hin as [->|[->|[->|[->|Hn%not_elem_of_nil]]]]; [| | | |done]; split_and!; done. }
  rewrite wp_bind. eapply wp_ok; [by eapply plain_flags|]. cbn beta iota.
  rewrite wp_bind. eapply wp_with_mem; [by eapply strtol_none|]. cbn beta iota. cbn [fmem fout].
  rewrite wp_bind. change (u32 0) with 0. eapply wp_ok; [exact Hconv|]. cbn beta iota. by rewrite wp_ret.
Qed.

Lemma conversion_d m p n a (o : list Z) :
  m !! p = Some 100 → -2147483648 ≤ n < 2147483648 →
  conversion (mkFmtVars false false false (n :: a)) 0 p plain (mkFState m o) =
    Ok (p + 1, mkFmtVars false false false a) (mkFState m (o ++ numeral 10 (Z.abs n))).
Proof.
  intros Hc Hn. apply wp_eq. unfold conversion. rewrite wp_bind.
  eapply wp_with_mem; [by apply loadc_ok|]. change (s8 100 =? 100) with true. cbn iota.
  rewrite wp_bind. eapply wp_ok; [eapply (print_number_ok PCTL_d); [reflexivity..|intros f; apply PCTL_plain; auto]|]. cbn beta iota. rewrite wp_ret.
  cbn [PCTL_d base sgn]. by rewrite abs_u32.
Qed.

Lemma conversion_x m p n a (o : list Z) :
  m !! p = Some 120 →
  conversion (mkFmtVars false false false (n :: a)) 0 p plain (mkFState m o) =
    Ok (p + 1, mkFmtVars false false false a) (mkFState m (o ++ numeral 16 (u32 n))).
Proof.
  intros Hc. apply wp_eq. unfold conversion. rewrite wp_bind.
  eapply wp_with_mem; [by apply loadc_ok|]. change (s8 120) with 120. cbn [Z.eqb Pos.eqb hex].
  rewrite wp_bind, wp_ret, wp_bind. by eapply wp_ok; [eapply (print_number_ok PCTL_x); [reflexivity..|intros f; apply PCTL_plain; auto]|].
Qed.

Lemma conversion_s m p q l a (o : list Z) :
  m !! p = Some 115 → cstr m q l → zlen l < 2147483648 →
  conversion (mkFmtVars false false false (q :: a)) 0 p plain (mkFState m o) =
    Ok (p + 1, mkFmtVars false false false a) (mkFState m (o ++ l)).
Proof.
  intros Hc Hs Hl. apply wp_eq. unfold conversion. rewrite wp_bind.
  eapply wp_with_mem; [by apply loadc_ok|]. change (s8 115) with 115. cbn [Z.eqb Pos.eqb].
  unfold va_arg. cbn [args pad0 leftpad hex]. rewrite wp_bind, wp_ret, wp_bind.
  eapply wp_with_mem; [by apply strlen_ok|]. cbn [fmem fout].
  rewrite wp_bind. eapply wp_ok; [apply TRY_PAD_none with (m := m) (o := o ++ l); [unfold zlen in *; lia|]|].
  2: { by rewrite wp_ret. }
  unfold void. by rewrite (bind_ok _ _ _ _ _ (write_string_ok _ _ _ o Hs)).
Qed.

Lemma conversion_c m p c a (o : list Z) :
  m !! p = Some 99 →
  conversion (mkFmtVars false false false (c :: a)) 0 p plain (mkFState m o) =
    Ok (p + 1, mkFmtVars false false false a) (mkFState m (o ++ [u8 c])).
Proof.
  intros Hc. apply wp_eq. unfold conversion. rewrite wp_bind.
  eapply wp_with_mem; [by apply loadc_ok|]. change (s8 99) with 99. cbn [Z.eqb Pos.eqb].
  unfold va_arg. cbn [args pad0 leftpad hex fmem fout]. rewrite wp_bind, wp_ret, wp_bind.
  eapply wp_ok; [apply TRY_PAD_none with (w := 1) (m := m) (o := o ++ [u8 c]); [lia|]|].
  2: { by rewrite wp_ret. }
  apply wp_eq, wp_local. cbn [fmem fout]. set (t := stack_top m).
  unfold void. rewrite wp_bind. eapply wp_ok; [apply (putchar_plain t (u8 c))|].
  - rewrite lookup_write. unfold zlen. rewrite length_le_bytes, decide_True by lia.
    by rewrite Z.sub_diag.
  - rewrite wp_ret. cbn [fmem fout]. split; [done|]. f_equal.
    apply (free_local _ (le_bytes 4 c)); [done|].
    intros x Hx. by rewrite lookup_write, decide_False.
Qed.

(** A format string without conversions is handed to the device character by
    character: [J k o] holds when the characters [k] are left and the device is
    in the state [o]. *)
Lemma format_text {D} (io : FmtIO D) m (J : list Z → D → Prop) :
  (∀ q c k o, m !! q = Some c → 0 < c < 256 → J (c :: k) o →
     wp (putchar io q) (mkFState m o) (λ r s', r = q + 1 ∧ ∃ o', s' = mkFState m o' ∧ J k o')) →
  ∀ l p a o, cstr m p l → Forall (λ c, c ≠ 37) l → J l o →
  wp (format io p a) (mkFState m o) (λ _ s', ∃ o', s' = mkFState m o' ∧ J [] o').
Proof.
  intros Hput l p a o Hs Hl HJ. unfold format. rewrite wp_bounded_io. cbn [fmem].
  pose proof (cstr_size _ _ _ Hs) as Hsz. assert (length l < S (size m))%nat as Hfuel by lia.
  clear Hsz. set (fuel := S (size m)) in *. clearbody fuel. revert p o fuel Hs HJ Hfuel.
  induction Hl as [|c l Hc _ IH]; intros p o [|fuel] Hs HJ Hfuel; cbn [length] in Hfuel; try lia; rewrite wp_loop_S, wp_bind.
  - pose proof (cstr_end _ _ _ Hs) as H0. cbn in H0. rewrite Z.add_0_r in H0.
    eapply wp_with_mem; [by apply loadc_ok|]. change (s8 0 =? 0) with true. cbn iota. rewrite wp_ret. by exists o.
  - apply cstr_cons in Hs as (Hm & Hr & Hs). eapply wp_with_mem; [by apply loadc_ok|]. rewrite char_s8 by done. cbn [fmem fout].
    assert (s8 c =? 37 = false) as ->.
    { apply Z.eqb_neq. intros He. apply Hc. apply s8_inj; unfold is_byte; [lia|lia|done]. }
    rewrite wp_bind. eapply wp_mono; [by apply (Hput p c l o)|]. intros r s' (-> & o' & -> & HJ'). rewrite wp_ret.
    apply IH; [done|done|lia].
Qed.

(** ** Properties *)

(** [print_uint] writes a numeral that denotes its argument: for a base
    from 2 to 16 the output is extended by digits whose value in that base is
    [n], the result is their number, they are printed only when [flush] is
    set, and the memory is restored. *)
Theorem print_uint_numeral ctl n m (o : list Z) :
  upper ctl = false → 1 < base ctl ≤ 16 → 0 ≤ n < base ctl ^ 31 → io ctl = plain →
  ∃ cs, print_uint n ctl (mkFState m o) = Ok (zlen cs) (mkFState m (if flush ctl then o ++ cs else o)) ∧
    value (base ctl) (omap hex_digit cs) = n ∧ length (omap hex_digit cs) = length cs.
Proof.
  intros Hup Hb Hn Hio. exists (numeral (base ctl) n). split; [by apply print_uint_ok|].
  assert (omap hex_digit (numeral (base ctl) n) = reverse (low_digits 31 (base ctl) n)) as ->.
  { unfold numeral. pose proof (low_digits_range 31 (base ctl) n ltac:(lia) ltac:(lia)) as Hr.
    apply Forall_reverse in Hr. induction Hr as [|d l Hd _ IH]; [done|].
    cbn [fmap list_fmap omap list_omap]. change (omap hex_digit (digit_char <$> l)) with (omap hex_digit (digit_char <$> l)) in IH.
    assert (hex_digit (digit_char d) = Some d) as ->.
    { cbn in Hd. unfold hex_digit, digit_char, isdigit. destruct (Z.ltb_spec d 10).
      - destruct (Z.leb_spec 48 (48 + d)), (Z.leb_spec (48 + d) 57); cbn; try lia. f_equal. lia.
      - destruct (Z.leb_spec (97 + d - 10) 57); [lia|]. rewrite andb_false_r.
        destruct (Z.leb_spec 97 (97 + d - 10)), (Z.leb_spec (97 + d - 10) 102); cbn; try lia. f_equal. lia. }
    f_equal. exact IH. }
  split; [apply value_numeral; cbn; lia|]. unfold numeral. by rewrite length_fmap.
Qed.

(** [format] on a format string without flags and widths prints exactly
    what [prints] says: ordinary characters as they are, [%d] the decimal
    digits of a number that is not negative, [%x] the hexadecimal
    digits of the word, [%s] the string and [%c] the character; it takes one
    argument per conversion, terminates, and leaves the memory as it was. *)
Theorem format_prints m p fmt a out (o : list Z) :
  cstr m p fmt → prints m fmt a out →
  format plain p a (mkFState m o) = Ok tt (mkFState m (o ++ out)).
Proof.
  intros Hs Hpr. unfold format. apply wp_eq. rewrite wp_bounded_io. cbn [fmem].
  pose proof (cstr_size _ _ _ Hs) as Hsz. assert (length fmt < S (size m))%nat as Hfuel by lia.
  clear Hsz. set (fuel := S (size m)) in *. clearbody fuel.
  revert p o fuel Hs Hfuel.
  induction Hpr as [|c fmt a out Hc _ IH|n fmt a out Hn _ IH|n fmt a out _ IH|q l fmt a out Hl Hlen _ IH|c fmt a out _ IH];
    intros p o [|fuel] Hs Hfuel; cbn [length] in Hfuel; try lia; rewrite wp_loop_S.
  1: { pose proof (cstr_end _ _ _ Hs) as H0. cbn in H0. rewrite Z.add_0_r in H0.
       rewrite wp_bind. eapply wp_with_mem; [by apply loadc_ok|]. cbn. by rewrite app_nil_r. }
  1: { apply cstr_cons in Hs as (Hm & Hr & Hs). rewrite wp_bind.
       eapply wp_with_mem; [by apply loadc_ok|]. rewrite char_s8 by done. cbn [fmem fout].
       assert (s8 c =? 37 = false) as ->.
       { apply Z.eqb_neq. intros He. apply Hc. apply s8_inj; unfold is_byte; [lia|lia|done]. }
       rewrite wp_bind. eapply wp_ok; [by apply putchar_plain|]. rewrite wp_ret.
       replace (o ++ c :: out) with ((o ++ [c]) ++ out) by (by rewrite <- app_assoc).
       apply IH; [done|lia]. }
  all: apply cstr_cons in Hs as (H37 & _ & Hs); apply cstr_cons in Hs as (Hm & _ & Hs).
  all: replace (p + 1 + 1) with (p + 2) in Hs by lia.
  all: eapply wp_ok; [eapply format_conversion; [done|done|set_solver|]|].
  all: replace (p + 2) with (p + 1 + 1) by lia.
  1: { apply conversion_d; [done|lia]. }
  2: { by apply conversion_x. }
  3: { by apply conversion_s. }
  4: { by apply conversion_c. }
  all: cbv beta iota; replace (p + 1 + 1) with (p + 2) by lia.
  1: rewrite Z.abs_eq by lia.
  4: replace (o ++ u8 c :: out) with ((o ++ [u8 c]) ++ out) by (by rewrite <- app_assoc).
  all: rewrite ?app_assoc; apply IH; [done|lia].
Qed.

(** The comment says signed decimal; of a negative number [%d] prints the digits
    only. *)
Theorem format_loses_sign m p n (o : list Z) : cstr m p [37; 100] → -2147483648 ≤ n < 0 →
  format plain p [n] (mkFState m o) = Ok tt (mkFState m (o ++ numeral 10 (- n))).
Proof.
  intros Hs Hn. pose proof (cstr_end _ _ _ Hs) as H0. cbn in H0. apply cstr_cons in Hs as (H37 & _ & Hs). apply cstr_cons in Hs as (Hm & _ & Hs).
  rewrite <- Z.abs_neq by lia. apply wp_eq. unfold format. rewrite wp_bounded_io. cbn [fmem].
  destruct (size m) as [|k] eqn:Hk; [by apply map_size_empty_inv in Hk as ->|]. rewrite wp_loop_S.
  eapply wp_ok; [eapply format_conversion; [done|done|set_solver|]|].
  { replace (p + 2) with (p + 1 + 1) by lia. apply conversion_d; [done|lia]. }
  cbn beta iota. rewrite wp_loop_S, wp_bind. eapply wp_with_mem; [by apply loadc_ok|]. by cbn.
Qed.

(** ** Witnesses *)

Lemma format_loses_sign_witness : format plain 16 [-42] (mkFState (write 16 (cstring "%d") ∅) []) =
  Ok tt (mkFState (write 16 (cstring "%d") ∅) (bytes_of "42")).
Proof.
  apply (format_loses_sign (write 16 (cstring "%d") ∅) 16 (-42) []); [|lia].
  split; [exact (array_write 16 (cstring "%d") ∅)|repeat constructor].
Defined.

Lemma print_uint_numeral_witness :
  ∃ cs, print_uint 48879 (PCTL_x plain true) (mkFState number_mem []) =
          Ok (zlen cs) (mkFState number_mem cs) ∧ value 16 (omap hex_digit cs) = 48879.
Proof.
  destruct (print_uint_numeral (PCTL_x plain true) 48879 number_mem []) as (cs & H1 & H2 & _).
  - reflexivity.
  - cbn. lia.
  - cbn. lia.
  - reflexivity.
  - exists cs. split; assumption.
Defined.

Definition fmt_mem : mem := write 16 (cstring "a%d%s") (write 48 (cstring "melon") ∅).

Lemma format_prints_witness :
  format plain 16 [42; 48] (mkFState fmt_mem []) = Ok tt (mkFState fmt_mem (bytes_of "a42melon")).
Proof.
  apply (format_prints fmt_mem 16 (bytes_of "a%d%s") [42; 48] (bytes_of "a42melon") []).
  - split; [apply array_write|repeat constructor].
  - apply prints_char; [done|].
    apply (prints_d fmt_mem 42 _ [48] (bytes_of "melon")); [lia|].
    apply (prints_s fmt_mem 48 (bytes_of "melon") [] [] []); [|done|constructor].
    split; [|repeat constructor]. unfold fmt_mem. apply array_write_disjoint; [by right|apply array_write].
Defined.
