(* ===== verification/Ide.v ===== *)
(** * kernel/driver/ide.c: the ATA disk in PIO mode

    The controller is hardware: the I/O instructions of i386/i386.h are the
    operations of the class [Ports], and [AtaDrive] states what the ATA
    documentation promises about them. *)
From Stdlib Require Import FunctionalExtensionality.
From S2P Require Import Prelude Machine.

(** [inb], [outb], [insl] (the bytes read) and [outsl] (the bytes written), and
    the interrupt line of the controller: is an interrupt delivered now? *)
Class Ports (D : Type) := {
  inb : Z → M D Z;
  outb : Z → Z → M D unit;
  insl : Z → nat → M D (list Z);
  outsl : Z → list Z → M D unit;
  irq : M D bool;
}.

(** [Channel], [Drive], [ATACmd] *)
Definition ATA_PRIMARY : Z := 0.
Definition ATA_SECONDARY : Z := 1.
Definition ATA_MASTER : Z := 0.
Definition ATA_SLAVE : Z := 1.
Definition ATA_CMD_RD1 : Z := 0x20.
Definition ATA_CMD_WT1 : Z := 0x30.
Definition ATA_CMD_RDN : Z := 0xc4.
Definition ATA_CMD_WTN : Z := 0xc5.

Definition ATA_S_ERR : Z := 0.
Definition ATA_S_DFE : Z := 32.
Definition ATA_S_RDY : Z := 64.
Definition ATA_S_BSY : Z := 128.

(** [BaseReg] and [CtrlReg] *)
Definition BR_DATA : Z := 0.
Definition BR_SECN0 : Z := 2.
Definition BR_LBA0 : Z := 3.
Definition BR_LBA1 : Z := 4.
Definition BR_LBA2 : Z := 5.
Definition BR_HDDEVSEL : Z := 6.
Definition BR_COMMAND : Z := 7.
Definition BR_STATUS : Z := 7.
Definition CR_ALTSTATUS : Z := 0.
Definition CR_DEVCTL : Z := 0.

Definition HDDEVSEL_LBA : Z := 0xe0.
Definition HDDEVSEL_DRIVE (slave_bit : Z) : Z := Z.shiftl slave_bit 4.

(** [channels[]]: the base and control ports *)
Definition channels (ch : Z) : Z * Z := if ch =? ATA_PRIMARY then (0x1f0, 0x3f6) else (0x170, 0x376).

Definition regb (ch r : Z) : Z := u16 ((channels ch).1 + r).

Definition regc (ch r : Z) : Z := u16 ((channels ch).2 + r).

Section ide.
Context `{Ports D}.

(** The polls a busy loop on the status register may take *)
Context (patience : nat).

Definition ide_wait (ch : Z) : M D unit :=
  let mask := Z.lor ATA_S_RDY ATA_S_BSY in
  let ready := ATA_S_RDY in
  loop patience (λ _,
    let! v := inb (regc ch CR_ALTSTATUS) in
    if Z.land v mask =? ready then ret (inr tt) else ret (inl tt)) tt.

Fixpoint probe (n : nat) (ch : Z) (flag : bool) : M D bool :=
  match n with
  | O => ret flag
  | S n =>
      let! v := inb (regb ch BR_STATUS) in
      probe n ch (if v =? 0 then flag else true)
  end.

Definition ide_has_secondary (ch : Z) : M D bool :=
  do! outb (regb ch BR_HDDEVSEL) (Z.lor HDDEVSEL_LBA (HDDEVSEL_DRIVE ATA_SECONDARY)) in
  let! flag := probe 1024 ch false in
  do! outb (regb ch BR_HDDEVSEL) (Z.lor HDDEVSEL_LBA (HDDEVSEL_DRIVE ATA_PRIMARY)) in
  ret flag.

Definition ide_check_error (ch : Z) : M D bool :=
  let! v := inb (regc ch CR_ALTSTATUS) in
  ret (negb (Z.land v (Z.lor ATA_S_ERR ATA_S_DFE) =? 0)).

(** The port arguments of [outb] are bytes. *)
Definition ide_request (ch d cmd lba secn : Z) : M D unit :=
  if secn =? 0 then panic "[IDE] ide_request" else
  do! ide_wait ch in
  do! outb (regc ch CR_DEVCTL) 0 in
  do! outb (regb ch BR_SECN0) (u8 secn) in
  do! outb (regb ch BR_LBA0) (u8 lba) in
  do! outb (regb ch BR_LBA1) (u8 (Z.shiftr lba 8)) in
  do! outb (regb ch BR_LBA2) (u8 (Z.shiftr lba 16)) in
  do! outb (regb ch BR_HDDEVSEL)
        (u8 (Z.lor (Z.lor (Z.shiftr lba 24) HDDEVSEL_LBA) (HDDEVSEL_DRIVE d))) in
  outb (regb ch BR_COMMAND) cmd.

Definition ide_read_request (ch d lba secn : Z) : M D unit :=
  do! ide_wait ch in
  let cmd := if secn =? 1 then ATA_CMD_RD1 else ATA_CMD_RDN in
  ide_request ch d cmd lba secn.

Definition ide_read (ch secn : Z) : M D (list Z) :=
  insl (regb ch BR_DATA) (Z.to_nat (SECSZ * secn / 4)).

Definition ide_write_request (ch d : Z) (src : list Z) (lba secn : Z) : M D unit :=
  do! ide_wait ch in
  let cmd := if secn =? 1 then ATA_CMD_WT1 else ATA_CMD_WTN in
  do! ide_request ch d cmd lba secn in
  outsl (regb ch BR_DATA) (take (Z.to_nat (SECSZ * secn / 4) * 4) src).

End ide.

(** ** The contract of the hardware *)

(** What the controller is doing *)
Inductive AtaPhase :=
| Idle
| DataIn (drive lba : Z)     (* a sector waits to be read *)
| DataOut (drive lba : Z).   (* the controller waits for a sector *)

(** The registers the driver writes, the media, and the interrupt *)
Record AtaView := mkAtaView {
  av_secn : Z;
  av_lba0 : Z;
  av_lba1 : Z;
  av_lba2 : Z;
  av_sel : Z;
  av_media : Z → Z → list Z;    (* drive, sector: 512 bytes *)
  av_phase : AtaPhase;
  av_irq : bool;
}.

Definition view_lba (v : AtaView) : Z :=
  av_lba0 v + 256 * av_lba1 v + 65536 * av_lba2 v + 16777216 * (av_sel v mod 16).

Definition view_drive (v : AtaView) : Z := av_sel v / 16 mod 2.

(** A write to a register of the primary channel *)
Definition set_reg (p b : Z) (v : AtaView) : AtaView :=
  mkAtaView (if p =? 0x1f2 then b else av_secn v) (if p =? 0x1f3 then b else av_lba0 v)
    (if p =? 0x1f4 then b else av_lba1 v) (if p =? 0x1f5 then b else av_lba2 v)
    (if p =? 0x1f6 then b else av_sel v) (av_media v)
    (if p =? 0x1f7 then
       if b =? ATA_CMD_RD1 then DataIn (view_drive v) (view_lba v)
       else if b =? ATA_CMD_WT1 then DataOut (view_drive v) (view_lba v) else Idle
     else av_phase v)
    (if p =? 0x1f7 then if b =? ATA_CMD_RD1 then true else av_irq v else av_irq v).

Definition set_media (drive lba : Z) (sec : list Z) (v : AtaView) : AtaView :=
  mkAtaView (av_secn v) (av_lba0 v) (av_lba1 v) (av_lba2 v) (av_sel v)
    (λ dr n, if decide (dr = drive ∧ n = lba) then sec else av_media v dr n) Idle true.

Definition set_phase (ph : AtaPhase) (i : bool) (v : AtaView) : AtaView :=
  mkAtaView (av_secn v) (av_lba0 v) (av_lba1 v) (av_lba2 v) (av_sel v) (av_media v) ph i.

(** A working drive: single-sector transfers on the primary channel. [busy]
    bounds the polls until it is ready again; every command makes it busy for
    less than [patience] polls. *)
Class AtaDrive (D : Type) `{Ports D} (patience : nat) := {
  view : D → AtaView;
  busy : D → nat;
  ata_sector : ∀ d dr n, length (av_media (view d) dr n) = 512%nat ∧ Forall is_byte (av_media (view d) dr n);
  ata_status : ∀ d, wp (inb 0x3f6) d (λ v d',
    view d' = view d ∧
    if decide (busy d = 0%nat) then Z.land v 0xc0 = 0x40 ∧ busy d' = 0%nat
    else Z.land v 0xc0 ≠ 0x40 ∧ (busy d' < busy d)%nat);
  (* the status register of the base ports: a read may also clear the interrupt *)
  ata_status_ack : ∀ d, wp (inb 0x1f7) d (λ v d',
    (view d' = view d ∨ view d' = set_phase (av_phase (view d)) false (view d)) ∧
    if decide (busy d = 0%nat) then Z.land v 0xc0 = 0x40 ∧ busy d' = 0%nat
    else Z.land v 0xc0 ≠ 0x40 ∧ (busy d' < busy d)%nat);
  ata_control : ∀ d, wp (outb 0x3f6 0) d (λ _ d', view d' = view d ∧ busy d' = busy d);
  ata_register : ∀ d p b, 0x1f2 ≤ p ≤ 0x1f6 → busy d = 0%nat →
    wp (outb p b) d (λ _ d', view d' = set_reg p b (view d) ∧ busy d' = 0%nat);
  ata_command : ∀ d b, b = ATA_CMD_RD1 ∨ b = ATA_CMD_WT1 → busy d = 0%nat → av_secn (view d) = 1 →
    av_phase (view d) = Idle →
    wp (outb 0x1f7 b) d (λ _ d', view d' = set_reg 0x1f7 b (view d) ∧ (busy d' < patience)%nat);
  ata_data_in : ∀ d dr n, av_phase (view d) = DataIn dr n → busy d = 0%nat →
    wp (insl 0x1f0 128) d (λ l d', l = av_media (view d) dr n ∧
      view d' = set_phase Idle (av_irq (view d)) (view d) ∧ busy d' = 0%nat);
  ata_data_out : ∀ d dr n l, av_phase (view d) = DataOut dr n → length l = 512%nat → Forall is_byte l →
    wp (outsl 0x1f0 l) d (λ _ d', view d' = set_media dr n l (view d) ∧ (busy d' < patience)%nat);
  (* the interrupt of a transfer is delivered once the drive is ready *)
  ata_irq : ∀ d, wp irq d (λ b d',
    if decide (busy d = 0%nat) then b = av_irq (view d) ∧ busy d' = 0%nat ∧
      view d' = set_phase (av_phase (view d)) false (view d)
    else b = false ∧ view d' = view d ∧ (busy d' < busy d)%nat);
}.

Section lemmas.
Context {D : Type} {P : Ports D} {patience : nat} {A : AtaDrive D patience}.

(** The status register of a drive that is ready *)
Lemma ata_probe d : busy d = 0%nat → av_irq (view d) = false →
  wp (inb 0x1f7) d (λ v d', v ≠ 0 ∧ view d' = view d ∧ busy d' = 0%nat).
Proof.
  intros Hb Hi. wp_apply ata_status_ack. intros v d' [Hv Hd]. rewrite decide_True in Hd by done. destruct Hd as [Hv1 Hb'].
  split; [by intros ->|]. split; [|done]. destruct Hv as [Hv|Hv]; [done|]. rewrite Hv. destruct (view d). cbn in Hi. by subst.
Qed.

(** The probe for the second drive finds it. *)
Lemma ide_has_secondary_ok d (Q : bool → D → Prop) : busy d = 0%nat → av_irq (view d) = false →
  (∀ d', busy d' = 0%nat → av_irq (view d') = false → av_phase (view d') = av_phase (view d) → av_media (view d') = av_media (view d) → Q true d') →
  wp (ide_has_secondary ATA_PRIMARY) d Q.
Proof.
  intros Hb Hi HQ. unfold ide_has_secondary. rewrite wp_bind. change (regb ATA_PRIMARY BR_HDDEVSEL) with 0x1f6.
  wp_apply ata_register; [lia|done|]. intros _ d1 [Hv1 Hb1]. rewrite wp_bind.
  assert (∀ (n : nat) flag d2, view d2 = view d1 → busy d2 = 0%nat →
    wp (probe n ATA_PRIMARY flag) d2 (λ r d3, (r = flag ∨ r = true) ∧ (n ≠ 0%nat → r = true) ∧ view d3 = view d1 ∧ busy d3 = 0%nat)) as Hp.
  { induction n as [|n IH]; intros flag d2 Hv2 Hb2; cbn [probe]; [rewrite wp_ret; split; [by left|done]|].
    rewrite wp_bind. wp_apply ata_probe; [done|by rewrite Hv2, Hv1|]. intros v d3 (Hv & Hv3 & Hb3). rewrite (proj2 (Z.eqb_neq v 0)) by done.
    eapply wp_mono; [apply IH; [by rewrite Hv3|done]|]. intros r d4 ([-> | ->] & _ & Hr); (split; [by right|done]). }
  eapply wp_mono; [by apply (Hp 1024%nat false d1)|]. cbn beta. intros r d2 (_ & Hr & Hv2 & Hb2). rewrite (Hr ltac:(discriminate)).
  rewrite wp_bind. wp_apply ata_register; [lia|done|]. intros _ d3 [Hv3 Hb3]. rewrite wp_ret. apply HQ; [done|by rewrite Hv3, Hv2, Hv1..].
Qed.

(** The drive may be ready late, but [patience] polls are enough. *)
Lemma ide_wait_ok d (Q : unit → D → Prop) :
  (busy d < patience)%nat →
  (∀ d', view d' = view d → busy d' = 0%nat → Q tt d') →
  wp (ide_wait patience ATA_PRIMARY) d Q.
Proof.
  intros Hb HQ. unfold ide_wait.
  apply (wp_loop (λ _ d', view d' = view d) (λ _ d', busy d')); [|done|done].
  intros _ d' Hv. rewrite wp_bind. change (regc ATA_PRIMARY CR_ALTSTATUS) with 0x3f6.
  wp_apply ata_status. intros v d2 [Hv2 Hd]. change (Z.lor ATA_S_RDY ATA_S_BSY) with 0xc0.
  change ATA_S_RDY with 0x40. case_decide.
  - destruct Hd as [-> ?]. cbn. apply HQ; congruence.
  - destruct Hd as [Hne ?]. apply Z.eqb_neq in Hne. rewrite Hne, wp_ret. split; [congruence|done].
Qed.

(** The registers after the address and the count are written *)
Definition request_view (drive lba : Z) (v : AtaView) : AtaView :=
  mkAtaView 1 (u8 lba) (u8 (Z.shiftr lba 8)) (u8 (Z.shiftr lba 16))
    (u8 (Z.lor (Z.lor (Z.shiftr lba 24) HDDEVSEL_LBA) (HDDEVSEL_DRIVE drive)))
    (av_media v) (av_phase v) (av_irq v).

(** The four registers hold the whole 28-bit address and the drive. *)
Lemma request_view_lba drive lba v :
  0 ≤ lba < 268435456 → 0 ≤ drive ≤ 1 →
  view_lba (request_view drive lba v) = lba ∧ view_drive (request_view drive lba v) = drive.
Proof.
  intros Hl Hd. unfold view_lba, view_drive, request_view. cbn [av_lba0 av_lba1 av_lba2 av_sel].
  rewrite !Z.shiftr_div_pow2 by lia. change (2 ^ 8) with 256. change (2 ^ 16) with 65536.
  change (2 ^ 24) with 16777216.
  set (h := lba / 16777216). assert (0 ≤ h < 16) as Hh by (unfold h; Z.div_mod_to_equations; lia).
  assert (u8 (Z.lor (Z.lor h HDDEVSEL_LBA) (HDDEVSEL_DRIVE drive)) = 0xe0 + 16 * drive + h) as Hsel.
  { assert (h ∈ seqZ 0 16) as Hin by (apply elem_of_seqZ; lia). clearbody h.
    change (seqZ 0 16) with [0;1;2;3;4;5;6;7;8;9;10;11;12;13;14;15] in Hin.
    assert (drive = 0 ∨ drive = 1) as [->| ->] by lia;
    repeat (apply elem_of_cons in Hin as [->|Hin]; [reflexivity|]); by apply not_elem_of_nil in Hin. }
  rewrite Hsel. split.
  - assert ((0xe0 + 16 * drive + h) mod 16 = h) as ->.
    { clearbody h. Z.div_mod_to_equations. lia. }
    unfold u8, h. clear Hsel Hh Hd. Z.div_mod_to_equations. lia.
  - clearbody h. Z.div_mod_to_equations. lia.
Qed.

Lemma ide_request_ok d drive lba cmd :
  cmd = ATA_CMD_RD1 ∨ cmd = ATA_CMD_WT1 → (busy d < patience)%nat → av_phase (view d) = Idle →
  wp (ide_request patience ATA_PRIMARY drive cmd lba 1) d (λ _ d',
    view d' = set_reg 0x1f7 cmd (request_view drive lba (view d)) ∧ (busy d' < patience)%nat).
Proof.
  intros Hcmd Hb Hph. unfold ide_request. cbn [Z.eqb]. rewrite wp_bind.
  apply ide_wait_ok; [done|]. intros d1 Hv1 Hb1.
  change (regc ATA_PRIMARY CR_DEVCTL) with 0x3f6.
  rewrite wp_bind. wp_apply ata_control. intros _ d2 [Hv2 Hb2].
  change (regb ATA_PRIMARY BR_SECN0) with 0x1f2. change (regb ATA_PRIMARY BR_LBA0) with 0x1f3.
  change (regb ATA_PRIMARY BR_LBA1) with 0x1f4. change (regb ATA_PRIMARY BR_LBA2) with 0x1f5.
  change (regb ATA_PRIMARY BR_HDDEVSEL) with 0x1f6. change (regb ATA_PRIMARY BR_COMMAND) with 0x1f7.
  rewrite wp_bind. wp_apply ata_register; [lia|congruence|]. intros _ d3 [Hv3 Hb3].
  rewrite wp_bind. wp_apply ata_register; [lia|congruence|]. intros _ d4 [Hv4 Hb4].
  rewrite wp_bind. wp_apply ata_register; [lia|congruence|]. intros _ d5 [Hv5 Hb5].
  rewrite wp_bind. wp_apply ata_register; [lia|congruence|]. intros _ d6 [Hv6 Hb6].
  rewrite wp_bind. wp_apply ata_register; [lia|congruence|]. intros _ d7 [Hv7 Hb7].
  assert (view d7 = request_view drive lba (view d)) as Hv.
  { rewrite Hv7, Hv6, Hv5, Hv4, Hv3, Hv2, Hv1. reflexivity. }
  wp_apply ata_command; [done|done|by rewrite Hv|by rewrite Hv|].
  intros _ d8 [Hv8 Hb8]. by rewrite Hv8, Hv.
Qed.

(** A read request of one sector *)
Lemma ide_read_request_ok d drive lba :
  0 ≤ lba < 268435456 → 0 ≤ drive ≤ 1 → (busy d < patience)%nat → av_phase (view d) = Idle →
  wp (ide_read_request patience ATA_PRIMARY drive lba 1) d (λ _ d',
    av_media (view d') = av_media (view d) ∧ av_phase (view d') = DataIn drive lba ∧
    av_irq (view d') = true ∧ (busy d' < patience)%nat).
Proof.
  intros Hl Hd Hb Hph. unfold ide_read_request. rewrite wp_bind.
  apply ide_wait_ok; [done|]. intros d1 Hv1 Hb1. change (if 1 =? 1 then ATA_CMD_RD1 else ATA_CMD_RDN) with ATA_CMD_RD1.
  wp_apply ide_request_ok; [by left|lia|congruence|]. intros _ d2 [Hv2 Hb2].
  destruct (request_view_lba drive lba (view d1) Hl Hd) as [Hla Hdr].
  rewrite Hv2. unfold set_reg. cbn [av_media av_phase av_irq Z.eqb Pos.eqb].
  rewrite Hla, Hdr. split_and!; [cbn; by rewrite Hv1|done..].
Qed.

Lemma ide_read_ok d drive lba :
  av_phase (view d) = DataIn drive lba → busy d = 0%nat →
  wp (ide_read ATA_PRIMARY 1) d (λ l d', l = av_media (view d) drive lba ∧
    view d' = set_phase Idle (av_irq (view d)) (view d) ∧ busy d' = 0%nat).
Proof. intros. by apply ata_data_in. Qed.

(** A write request of one sector *)
Lemma ide_write_request_ok d drive lba src :
  0 ≤ lba < 268435456 → 0 ≤ drive ≤ 1 → (busy d < patience)%nat → av_phase (view d) = Idle →
  length src = 512%nat → Forall is_byte src →
  wp (ide_write_request patience ATA_PRIMARY drive src lba 1) d (λ _ d',
    (∀ dr n, av_media (view d') dr n =
       if decide (dr = drive ∧ n = lba) then src else av_media (view d) dr n) ∧
    av_phase (view d') = Idle ∧ av_irq (view d') = true ∧ (busy d' < patience)%nat).
Proof.
  intros Hl Hd Hb Hph Hlen Hsrc. unfold ide_write_request. rewrite wp_bind.
  apply ide_wait_ok; [done|]. intros d1 Hv1 Hb1.
  change (if 1 =? 1 then ATA_CMD_WT1 else ATA_CMD_WTN) with ATA_CMD_WT1.
  rewrite wp_bind. wp_apply ide_request_ok; [by right|lia|congruence|]. intros _ d2 [Hv2 Hb2].
  destruct (request_view_lba drive lba (view d1) Hl Hd) as [Hla Hdr].
  change (Z.to_nat (SECSZ * 1 / 4) * 4)%nat with 512%nat. rewrite <- Hlen, firstn_all.
  wp_apply (ata_data_out d2 drive lba src); [|done|done|].
  { rewrite Hv2. unfold set_reg. cbn [av_phase Z.eqb Pos.eqb]. by rewrite Hla, Hdr. }
  intros _ d3 [Hv3 Hb3]. rewrite Hv3. unfold set_media. cbn [av_media av_phase av_irq].
  split_and!; [|done..]. intros dr n. rewrite Hv2. cbn. by rewrite Hv1.
Qed.

End lemmas.

(** ** A simulated drive

    It needs two polls after every command. It shows that the contract can be
    met, and runs the examples. *)
Record SimDrive := mkSimDrive {
  sim_regs : Z * Z * Z * Z * Z;
  sim_media : gmap (Z * Z) (list Z);
  sim_phase : AtaPhase;
  sim_irq : bool;
  sim_busy : nat;
}.

Definition sim_sector (m : gmap (Z * Z) (list Z)) (dr n : Z) : list Z :=
  let l := default [] (m !! (dr, n)) in
  if (length l =? 512)%nat && forallb (λ b, (0 <=? b) && (b <? 256)) l then l else replicate 512 0.

Definition sim_view (d : SimDrive) : AtaView :=
  let '(c, l0, l1, l2, sel) := sim_regs d in
  mkAtaView c l0 l1 l2 sel (sim_sector (sim_media d)) (sim_phase d) (sim_irq d).

Definition sim_tick (d : SimDrive) : SimDrive :=
  mkSimDrive (sim_regs d) (sim_media d) (sim_phase d) (sim_irq d) (sim_busy d - 1).

Definition sim_outb (p b : Z) (d : SimDrive) : SimDrive :=
  let v := set_reg p b (sim_view d) in
  mkSimDrive (av_secn v, av_lba0 v, av_lba1 v, av_lba2 v, av_sel v) (sim_media d)
    (av_phase v) (av_irq v) (if p =? 0x1f7 then 2 else sim_busy d).

#[export] Instance sim_ports : Ports SimDrive := {
  inb p d := Ok (if sim_busy d then 0x40 else 0x80) (sim_tick d);
  outb p b d := Ok tt (sim_outb p b d);
  insl p n d :=
    match sim_phase d with
    | DataIn dr k =>
        Ok (sim_sector (sim_media d) dr k)
           (mkSimDrive (sim_regs d) (sim_media d) Idle (sim_irq d) (sim_busy d))
    | _ => Fault
    end;
  outsl p l d :=
    match sim_phase d with
    | DataOut dr k =>
        Ok tt (mkSimDrive (sim_regs d) (<[(dr, k) := l]> (sim_media d)) Idle true 2)
    | _ => Fault
    end;
  irq d :=
    if sim_busy d then
      Ok (sim_irq d) (mkSimDrive (sim_regs d) (sim_media d) (sim_phase d) false 0)
    else Ok false (sim_tick d);
}.

Lemma sim_sector_ok m dr n : length (sim_sector m dr n) = 512%nat ∧ Forall is_byte (sim_sector m dr n).
Proof.
  unfold sim_sector. set (l := default [] (m !! (dr, n))).
  destruct ((length l =? 512)%nat && forallb (λ b, (0 <=? b) && (b <? 256)) l) eqn:E.
  - apply andb_prop in E as [Hl%Nat.eqb_eq Hb]. split; [done|]. apply Forall_forall. intros b Hin.
    rewrite forallb_forall in Hb. apply list_elem_of_In, Hb in Hin. unfold is_byte. lia.
  - rewrite length_replicate. split; [done|]. apply Forall_replicate. unfold is_byte. lia.
Qed.

Lemma sim_tick_view d : sim_view (sim_tick d) = sim_view d.
Proof. by destruct d as [[[[[] ?] ?] ?] ? ? ? ?]. Qed.

Lemma sim_outb_view d p b : sim_view (sim_outb p b d) = set_reg p b (sim_view d).
Proof. by destruct d as [[[[[] ?] ?] ?] ? ? ? ?]. Qed.

#[export] Instance sim_drive : AtaDrive SimDrive 3.
Proof.
  refine {| view := sim_view; busy := sim_busy |}.
  - intros [[[[[c l0] l1] l2] sel] m ph i b] dr n. apply sim_sector_ok.
  - intros d. unfold wp. cbn [inb sim_ports]. rewrite sim_tick_view. split; [done|].
    unfold sim_tick. cbn [sim_busy]. destruct (sim_busy d); cbn; [done|]. split; [done|lia].
  - intros d. unfold wp. cbn [inb sim_ports]. rewrite sim_tick_view. split; [by left|].
    unfold sim_tick. cbn [sim_busy]. destruct (sim_busy d); cbn; [done|]. split; [done|lia].
  - intros d. unfold wp. cbn [outb sim_ports]. rewrite sim_outb_view. split; [|done].
    by destruct d as [[[[[] ?] ?] ?] ? ? ? ?].
  - intros d p b Hp Hb. unfold wp. cbn [outb sim_ports]. rewrite sim_outb_view. split; [done|].
    unfold sim_outb. cbn [sim_busy]. destruct (Z.eqb_spec p 0x1f7); [lia|done].
  - intros d b _ _ _ _. unfold wp. cbn [outb sim_ports]. rewrite sim_outb_view. split; [done|]. cbn. lia.
  - intros d dr n Hph Hb. destruct d as [[[[[c l0] l1] l2] sel] m ph i b]. cbn in Hph, Hb. by subst.
  - intros d dr n l Hph Hlen Hl. destruct d as [[[[[c l0] l1] l2] sel] m ph i b]. cbn in Hph. subst.
    unfold wp. cbn [outsl sim_ports sim_phase]. split; [|cbn; lia].
    unfold sim_view, set_media. cbn [sim_regs sim_media sim_phase sim_irq av_media av_secn av_lba0 av_lba1 av_lba2 av_sel].
    f_equal. apply functional_extensionality. intros dr'. apply functional_extensionality. intros n'.
    unfold sim_sector. destruct (decide (dr' = dr ∧ n' = n)) as [Hd|Hd].
    + destruct Hd as [-> ->]. rewrite lookup_insert_eq. cbn [default from_option id].
      rewrite (proj2 (Nat.eqb_eq (length l) 512)) by done. cbn [andb].
      assert (forallb (λ b, (0 <=? b) && (b <? 256)) l = true) as ->; [|done].
      apply forallb_forall. intros x Hin%list_elem_of_In. rewrite Forall_forall in Hl.
      specialize (Hl x Hin). unfold is_byte in Hl. lia.
    + rewrite lookup_insert_ne; [done|]. intros [= -> ->]. by apply Hd.
  - intros d. unfold wp. cbn [irq sim_ports]. destruct d as [[[[[c l0] l1] l2] sel] m ph i [|b]]; cbn; [done|].
    split_and!; [done..|lia].
Defined.
