(* ===== verification/Loader.v ===== *)
(** * boot/boot.c: the boot loader

    It runs in protected mode without paging, so its pointers are physical
    addresses. [boot3] reads the ELF file of the kernel from the disk, which is
    found behind the loader, builds the first page tables and jumps to the entry of
    the kernel. *)
From S2P Require Import Prelude Machine CMem Elf Ide.

(** i386/i386.h and i386/defs.h *)
Definition CR0_WP : Z := 0x00010000.
Definition CR0_PG : Z := 0x80000000.
Definition BOOTLDSECN : Z := 20.

Definition IDE_S_RDY : Z := 64.
Definition IDE_S_BSY : Z := 128.

(** The tables in the loader's static storage *)
Class BootLayout := {
  pagedir : Z;
  pagetbl : Z;
  pagedir_aligned : page_aligned pagedir ∧ 0 ≤ pagedir < 4294967296;
  pagetbl_aligned : page_aligned pagetbl ∧ 0 ≤ pagetbl < 4294967296;
  tables_apart : pagedir ≠ pagetbl;
}.

(** The machine: the disk, the physical memory and the control registers *)
Record Pc (D : Type) := mkPc {
  hd : D;
  phys : mem;
  cr0 : Z;
  cr3 : Z;
}.
Arguments mkPc {D} hd phys cr0 cr3.
Arguments hd {D} p.
Arguments phys {D} p.
Arguments cr0 {D} p.
Arguments cr3 {D} p.

(** How the loader ends: at [hlt] with interrupts off, or in the kernel *)
Inductive BootEnd :=
| Halted
| Entered (entry : Z).

Definition with_hd {D A} (m : M D A) : M (Pc D) A := zoom hd (λ d s, mkPc d (phys s) (cr0 s) (cr3 s)) m.

Definition with_phys {D A} (m : M mem A) : M (Pc D) A := zoom phys (λ r s, mkPc (hd s) r (cr0 s) (cr3 s)) m.

Definition set_cr0 {D} (v : Z) : M (Pc D) unit := modify (λ s, mkPc (hd s) (phys s) v (cr3 s)).

Definition set_cr3 {D} (v : Z) : M (Pc D) unit := modify (λ s, mkPc (hd s) (phys s) (cr0 s) v).

Section boot.
Context `{Ports D} (patience : nat) `{BootLayout}.

Definition elf_offset : Z := u32 (SECSZ * BOOTLDSECN).

Definition wait_disk : M D unit :=
  let mask := Z.lor IDE_S_RDY IDE_S_BSY in
  let ready := IDE_S_RDY in
  loop patience (λ _,
    let! v := inb 0x1F7 in
    if negb (Z.land v mask =? ready) then ret (inl tt) else ret (inr tt)) tt.

(** [read_sector] up to the store to [dst]: the bytes that [insl] gets *)
Definition sector (lba : Z) : M D (list Z) :=
  do! wait_disk in
  do! outb 0x1F2 1 in
  do! outb 0x1F3 (u8 lba) in
  do! outb 0x1F4 (u8 (Z.shiftr lba 8)) in
  do! outb 0x1F5 (u8 (Z.shiftr lba 16)) in
  do! outb 0x1F6 (u8 (Z.lor (Z.shiftr lba 24) 0xE0)) in
  do! outb 0x1F7 0x20 in
  do! wait_disk in
  insl 0x1F0 (Z.to_nat (SECSZ / 4)).

Definition read_sector (dst lba : Z) : M (Pc D) unit :=
  let! l := with_hd (sector lba) in
  with_phys (store_bytes dst l).

(** The array [buf] is only read by the [memcpy]: it is its contents here. *)
Definition read_offset (dst n offset : Z) : M (Pc D) unit :=
  let p := dst in
  let lba := offset / SECSZ in
  let remained := s32 (u32 (n / SECSZ + 1)) in
  let trash := offset mod SECSZ in
  let rest := SECSZ - trash in
  let! buf := with_hd (sector lba) in
  let lba := u32 (lba + 1) in
  do! with_phys (store_bytes p (take (Z.to_nat rest) (skipn (Z.to_nat trash) buf))) in
  let remained := remained - 1 in
  let p := p + rest in
  loop (Z.to_nat (remained + 1)) (λ '(p, lba, remained),
    if remained =? 0 then ret (inr tt) else
    do! read_sector p lba in
    ret (inl (p + SECSZ, u32 (lba + 1), remained - 1))) (p, lba, remained).

Definition read_offset_from_kernel (dst n offset : Z) : M (Pc D) unit :=
  read_offset dst n (u32 (offset + elf_offset)).

(** [for (i = 0; i < n; ++i) p[i] = f(i);] *)
Fixpoint fill_table (n : nat) (p i : Z) (f : Z → Z) : M mem unit :=
  match n with
  | O => done!
  | S n => do! store32 (p + 4 * i) (f i) in fill_table n p (i + 1) f
  end.

Definition paging_init : M (Pc D) unit :=
  do! with_phys (fill_table (Z.to_nat NPDES) pagedir 0 (λ i, Z.lor 0 PDE_W)) in
  do! with_phys (fill_table (Z.to_nat NPTES) pagetbl 0 (λ i, Z.lor (Z.lor (i * 0x1000) PTE_P) PTE_W)) in
  do! with_phys (store32 pagedir (Z.lor (Z.lor pagetbl PDE_P) PDE_W)) in
  do! with_phys (store32 (pagedir + 4 * Z.shiftr KERN_BASE PD_IDX_SHIFT) (Z.lor (Z.lor pagetbl PDE_P) PDE_W)) in
  do! set_cr3 pagedir in
  let! c := gets cr0 in
  set_cr0 (Z.lor c (Z.lor CR0_WP CR0_PG)).

(** The address of the file's headers *)
Definition elf : Z := 0x10000.

(** The header, which the loop reads again on every round *)
Definition elf_at : M (Pc D) ELF32Header :=
  let! l := with_phys (load_bytes elf (Z.to_nat sizeof_ELF32Header)) in
  ret (elf_header l).

(** [stosb(addr, data, cnt)] of i386.h *)
Definition stosb (addr data cnt : Z) : M mem unit := store_bytes addr (replicate (Z.to_nat cnt) (u8 data)).

(** One round of the loop over the program headers *)
Definition boot_segment (ph p : Z) : M (Pc D) (Z + unit) :=
  let! h := elf_at in
  if negb (p <? ph + sizeof_ELF32ProgramHeader * e_phnum h) then ret (inr tt) else
  let! l := with_phys (load_bytes p (Z.to_nat sizeof_ELF32ProgramHeader)) in
  let x := program_header l in
  let paddr := p_paddr x in
  do! read_offset_from_kernel paddr (p_filesz x) (p_offset x) in
  do! (if p_filesz x <? p_memsz x then with_phys (stosb (paddr + p_filesz x) 0 (p_memsz x - p_filesz x)) else done!) in
  ret (inl (p + sizeof_ELF32ProgramHeader)).

Definition boot3 : M (Pc D) BootEnd :=
  do! read_offset_from_kernel elf PAGE_SZ 0 in
  let! h := elf_at in
  if negb (is_elf h) then ret Halted else
  let ph := elf + e_phoff h in
  do! loop (Z.to_nat 65536) (boot_segment ph) ph in
  do! paging_init in
  let! h := elf_at in
  ret (Entered (KA2P (e_entry h))).

End boot.

(** ** Specifications *)

Definition media_byte (v : AtaView) (a : Z) : Z := av_media v 0 (a / 512) !!! Z.to_nat (a mod 512).

(** The bytes of the disk from [off] on *)
Definition disk_bytes (v : AtaView) (off n : Z) : list Z := media_byte v <$> seqZ off n.

(** The bytes that [read_offset] reads for [n] bytes at [off] *)
Definition read_size (off n : Z) : Z := 512 - off mod 512 + 512 * (n / 512).

(** What the loader may write for a segment *)
Definition load_area (x : ELF32ProgramHeader) : Z := Z.max (p_memsz x) (read_size (p_offset x) (p_filesz x)).

(** The segment is in memory. *)
Definition segment_in (content : list Z) (m : mem) (x : ELF32ProgramHeader) : Prop :=
  ∀ i, 0 ≤ i < p_memsz x →
    m !! (p_paddr x + i) = Some (if decide (i < p_filesz x) then content !!! Z.to_nat (p_offset x + i) else 0).

(** Two ranges of addresses are apart. *)
Definition away (a n b k : Z) : Prop := a + n ≤ b ∨ b + k ≤ a.

(** The loader's own memory: the headers and the tables *)
Definition own_memory `{BootLayout} (a n : Z) : Prop :=
  away a n elf 4608 ∧ away a n pagedir 4096 ∧ away a n pagetbl 4096.

(** A segment that is loaded whole: the last sector that [read_offset] reads has
    its last byte. *)
Record loadable `{BootLayout} (content : list Z) (m : mem) (x : ELF32ProgramHeader) : Prop := mk_loadable {
  la_file : p_filesz x ≤ p_memsz x ∧ p_offset x + p_filesz x ≤ zlen content;
  la_read : p_filesz x mod 512 ≤ 512 - p_offset x mod 512;
  la_ram : mapped m (p_paddr x) (Z.to_nat (load_area x));
  la_own : own_memory (p_paddr x) (load_area x);
}.

(** The file [content] of a kernel can be loaded on the machine [s]. *)
Record bootable {D} {P : Ports D} {patience : nat} {A : AtaDrive D patience} `{BootLayout} (content : list Z) (s : Pc D) : Prop := mk_bootable {
  bo_disk : disk_bytes (view (hd s)) 10240 (zlen content) = content;
  bo_ready : (busy (hd s) < patience)%nat ∧ av_phase (view (hd s)) = Idle;
  bo_size : 52 ≤ zlen content < 2147483648;
  bo_magic : is_elf (file_header content) = true;
  bo_table : e_phoff (file_header content) + 32 * e_phnum (file_header content) ≤ Z.min 4608 (zlen content);
  bo_ram : mapped (phys s) elf (Z.to_nat 4608) ∧ page_mapped (phys s) pagedir ∧ page_mapped (phys s) pagetbl;
  bo_own : away pagedir 4096 elf 4608 ∧ away pagetbl 4096 elf 4608;
  bo_segments : Forall (loadable content (phys s)) (file_segments content);
  bo_apart : ∀ (i j : nat) x y, (i < j)%nat → file_segments content !! i = Some x → file_segments content !! j = Some y →
    away (p_paddr y) (load_area y) (p_paddr x) (p_memsz x);
}.

(** The translation of the MMU with the directory at the physical address [dir] *)
Definition boot_translate (m : mem) (dir va : Z) : option Z :=
  let pde := word m (dir + 4 * page_directory_idx va) in
  if Z.land pde PDE_P =? 0 then None else
  let pte := word m (pte_addr pde + 4 * page_table_idx va) in
  if Z.land pte PTE_P =? 0 then None else Some (pte_addr pte + vaddr_offset va).

(** The first 4 MB of the memory, from 0 and from [KERN_BASE] on *)
Definition boot_map (va : Z) : option Z :=
  if decide (0 ≤ va < 4194304) then Some va
  else if decide (KERN_BASE ≤ va < KERN_BASE + 4194304) then Some (va - KERN_BASE) else None.

(** ** Lemmas *)

Section lemmas.
Context {D : Type} {P : Ports D} {patience : nat} {A : AtaDrive D patience} `{BootLayout}.

Lemma wait_disk_ok d (Q : unit → D → Prop) : (busy d < patience)%nat →
  (∀ d', av_media (view d') = av_media (view d) → av_phase (view d') = av_phase (view d) → busy d' = 0%nat → Q tt d') →
  wp (wait_disk patience) d Q.
Proof.
  intros Hb HQ. unfold wait_disk.
  apply (wp_loop (λ _ d', av_media (view d') = av_media (view d) ∧ av_phase (view d') = av_phase (view d)) (λ _ d', busy d')); [|done|done].
  intros _ d1 [Hm Hp]. rewrite wp_bind. wp_apply ata_status_ack. intros v d2 [Hv Hd].
  assert (av_media (view d2) = av_media (view d) ∧ av_phase (view d2) = av_phase (view d)) as [Hm2 Hp2].
  { destruct Hv as [-> | ->]; by rewrite <- Hm, <- Hp. }
  change (Z.lor IDE_S_RDY IDE_S_BSY) with 0xc0. change IDE_S_RDY with 0x40. case_decide.
  - destruct Hd as [-> ?]. cbn. by apply HQ.
  - destruct Hd as [Hne ?]. apply Z.eqb_neq in Hne. rewrite Hne. cbn [negb]. rewrite wp_ret. done.
Qed.

(** One sector *)
Lemma sector_ok d lba : 0 ≤ lba < 268435456 → (busy d < patience)%nat → av_phase (view d) = Idle →
  wp (sector patience lba) d (λ l d', l = av_media (view d) 0 lba ∧ av_media (view d') = av_media (view d) ∧
    av_phase (view d') = Idle ∧ busy d' = 0%nat).
Proof.
  intros Hl Hb Hph. unfold sector. rewrite wp_bind. apply wait_disk_ok; [done|]. intros d1 Hm1 Hp1 Hb1.
  rewrite wp_bind. wp_apply ata_register; [lia|done|]. intros _ d2 [Hv2 Hb2].
  rewrite wp_bind. wp_apply ata_register; [lia|done|]. intros _ d3 [Hv3 Hb3].
  rewrite wp_bind. wp_apply ata_register; [lia|done|]. intros _ d4 [Hv4 Hb4].
  rewrite wp_bind. wp_apply ata_register; [lia|done|]. intros _ d5 [Hv5 Hb5].
  rewrite wp_bind. wp_apply ata_register; [lia|done|]. intros _ d6 [Hv6 Hb6].
  assert (view d6 = request_view 0 lba (view d1)) as Hv.
  { rewrite Hv6, Hv5, Hv4, Hv3, Hv2. unfold request_view. rewrite Z.lor_0_r. reflexivity. }
  destruct (request_view_lba 0 lba (view d1) Hl ltac:(lia)) as [Hla Hdr].
  rewrite wp_bind. wp_apply (ata_command d6 0x20); [by left|done|by rewrite Hv|by rewrite Hv; cbn; rewrite Hp1|].
  intros _ d7 [Hv7 Hb7]. rewrite Hv in Hv7. rewrite wp_bind. apply wait_disk_ok; [done|]. intros d8 Hm8 Hp8 Hb8.
  assert (av_phase (view d8) = DataIn 0 lba) as Hin by (rewrite Hp8, Hv7; cbn; by rewrite Hla, Hdr).
  wp_apply ata_data_in; [exact Hin|done|]. intros l d9 (-> & Hv9 & Hb9). rewrite Hv9. cbn [set_phase av_media av_phase].
  rewrite Hm8, Hv7. cbn. by rewrite Hm1.
Qed.

Lemma media_byte_ok d a : is_byte (media_byte (view d) a).
Proof.
  unfold media_byte. destruct (ata_sector d 0 (a / 512)) as [Hl Hb]. rewrite Forall_lookup in Hb.
  destruct (lookup_lt_is_Some_2 (av_media (view d) 0 (a / 512)) (Z.to_nat (a mod 512))) as [b E]; [rewrite Hl; Z.div_mod_to_equations; lia|].
  rewrite (list_lookup_total_correct _ _ _ E). by eapply Hb.
Qed.

Lemma disk_bytes_ok d off n : Forall is_byte (disk_bytes (view d) off n).
Proof. apply Forall_fmap, Forall_true. intros a. apply media_byte_ok. Qed.

Lemma length_disk_bytes v off n : length (disk_bytes v off n) = Z.to_nat n.
Proof. unfold disk_bytes. by rewrite length_fmap, length_seqZ. Qed.

Lemma zlen_disk_bytes v off n : 0 ≤ n → zlen (disk_bytes v off n) = n.
Proof. intros. unfold zlen. rewrite length_disk_bytes. lia. Qed.

Lemma disk_bytes_app v off n k : 0 ≤ n → 0 ≤ k → disk_bytes v off (n + k) = disk_bytes v off n ++ disk_bytes v (off + n) k.
Proof. intros. unfold disk_bytes. rewrite <- fmap_app, <- seqZ_app by done. done. Qed.

Lemma lookup_disk_bytes v off n (i : nat) : (i < Z.to_nat n)%nat → disk_bytes v off n !! i = Some (media_byte v (off + i)).
Proof. intros. unfold disk_bytes. rewrite list_lookup_fmap, lookup_seqZ_lt by lia. done. Qed.

Lemma disk_bytes_media v v' off n : av_media v = av_media v' → disk_bytes v off n = disk_bytes v' off n.
Proof. intros E. unfold disk_bytes. apply list_fmap_ext. intros i a _. unfold media_byte. by rewrite E. Qed.

(** The rest of a sector, from [off] to its end *)
Lemma sector_bytes d off : 0 ≤ off →
  take (Z.to_nat (512 - off mod 512)) (skipn (Z.to_nat (off mod 512)) (av_media (view d) 0 (off / 512))) = disk_bytes (view d) off (512 - off mod 512).
Proof.
  intros Ho. destruct (ata_sector d 0 (off / 512)) as [Hl _]. pose proof (Z.mod_pos_bound off 512 ltac:(lia)) as Hm.
  apply list_eq_same_length with (n := Z.to_nat (512 - off mod 512)).
  - by rewrite length_disk_bytes.
  - rewrite length_take, length_skipn, Hl. lia.
  - intros i x y Hi Hx Hy. rewrite lookup_disk_bytes in Hy by lia. injection Hy as <-. rewrite lookup_take_lt, lookup_drop in Hx by lia.
    apply list_lookup_total_correct in Hx. rewrite <- Hx. unfold media_byte.
    assert ((off + i) / 512 = off / 512 ∧ (off + i) mod 512 = off mod 512 + i) as [-> ->] by (Z.div_mod_to_equations; lia).
    f_equal. lia.
Qed.

Lemma full_sector d off : 0 ≤ off → off mod 512 = 0 → av_media (view d) 0 (off / 512) = disk_bytes (view d) off 512.
Proof.
  intros Ho Hm. pose proof (sector_bytes d off Ho) as Hs. rewrite Hm, Z.sub_0_r in Hs. rewrite <- Hs.
  destruct (ata_sector d 0 (off / 512)) as [Hl _]. change (Z.to_nat 0) with 0%nat. rewrite drop_0, take_ge; [done|]. by rewrite Hl.
Qed.

Notation St := (Pc D).

Definition put_hd (d : D) (s : St) : St := mkPc d (phys s) (cr0 s) (cr3 s).
Definition put_phys (m : mem) (s : St) : St := mkPc (hd s) m (cr0 s) (cr3 s).

Lemma wp_hd {C} (m : M D C) (s : St) Q : wp m (hd s) (λ c d, Q c (put_hd d s)) → wp (with_hd m) s Q.
Proof. intros Hm. unfold with_hd. by rewrite wp_zoom. Qed.

Lemma wp_phys {C} (m : M mem C) (s : St) c r Q : m (phys s) = Ok c r → Q c (put_phys r s) → wp (with_phys m) s Q.
Proof. intros Hm HQ. unfold with_phys. rewrite wp_zoom. by eapply wp_ok. Qed.

(** The disk at rest, with the media of [s] *)
Definition disk_as (s s' : St) : Prop :=
  av_media (view (hd s')) = av_media (view (hd s)) ∧ av_phase (view (hd s')) = Idle ∧ (busy (hd s') < patience)%nat ∧ cr0 s' = cr0 s ∧ cr3 s' = cr3 s.

(** Sectors are read one after the other. *)
Lemma read_offset_ok (s : St) dst n off : 0 ≤ n < 4294967296 → 0 ≤ off < 4294967296 →
  (busy (hd s) < patience)%nat → av_phase (view (hd s)) = Idle → mapped (phys s) dst (Z.to_nat (read_size off n)) →
  wp (read_offset patience dst n off) s (λ _ s', disk_as s s' ∧ phys s' = write dst (disk_bytes (view (hd s)) off (read_size off n)) (phys s)).
Proof.
  intros Hn Ho Hb Hph Hmap. unfold read_size in *. pose proof (Z.mod_pos_bound off 512 ltac:(lia)) as Ht. set (t := off mod 512) in *. set (k := n / 512) in *.
  assert (0 ≤ k < 8388608) as Hk by (unfold k; Z.div_mod_to_equations; lia). unfold read_offset. change SECSZ with 512. fold k t.
  rewrite wp_bind. apply wp_hd. wp_apply sector_ok; [Z.div_mod_to_equations; lia|done|done|]. intros l d1 (-> & Hm1 & Hp1 & Hb1). cbn zeta.
  rewrite wp_bind. eapply wp_phys.
  { unfold t. rewrite sector_bytes by lia. fold t. apply store_bytes_ok; [apply disk_bytes_ok|].
    rewrite length_disk_bytes. eapply mapped_weaken; [exact Hmap|lia|]. cbn. lia. }
  set (s1 := put_phys _ _). replace (u32 (k + 1)) with (k + 1) by (unfold u32; rewrite Z.mod_small; lia).
  replace (s32 (k + 1)) with (k + 1) by (unfold s32; rewrite Z.mod_small; lia).
  apply (wp_loop (λ '(p, lba, r) s2, 0 ≤ r ≤ k ∧ p = dst + (512 - t + 512 * (k - r)) ∧ lba = off / 512 + 1 + (k - r) ∧ disk_as s s2 ∧
      phys s2 = write dst (disk_bytes (view (hd s)) off (512 - t + 512 * (k - r))) (phys s)) (λ '(p, lba, r) _, Z.to_nat r)).
  - intros [[p lba] r] s2 (Hr & -> & -> & (Hm2 & Hp2 & Hb2 & Hc2) & Hphys). destruct (Z.eqb_spec r 0) as [->|Hr0].
    { rewrite wp_ret, Hphys, Z.sub_0_r. done. }
    rewrite wp_bind. unfold read_sector. rewrite wp_bind. apply wp_hd.
    wp_apply sector_ok; [Z.div_mod_to_equations; lia|done|done|]. intros l d3 (-> & Hm3 & Hp3 & Hb3).
    set (o := off + (512 - t + 512 * (k - r))). assert (off / 512 + 1 + (k - r) = o / 512 ∧ o mod 512 = 0 ∧ 0 ≤ o) as (-> & Ho0 & Ho1).
    { unfold o, t. Z.div_mod_to_equations. lia. }
    rewrite (full_sector (hd s2) o Ho1 Ho0). eapply wp_phys.
    { apply store_bytes_ok; [apply disk_bytes_ok|]. rewrite length_disk_bytes. cbn [put_hd phys]. rewrite Hphys. apply mapped_write.
      eapply mapped_weaken; [exact Hmap|lia|]. lia. }
    rewrite wp_ret. split; [|lia]. split; [lia|]. split; [lia|]. split; [|split].
    + assert (0 ≤ o < 8589934592) by (unfold o, t; Z.div_mod_to_equations; lia). unfold u32. rewrite Z.mod_small; [|Z.div_mod_to_equations; lia].
      unfold o, t. Z.div_mod_to_equations; lia.
    + unfold disk_as. cbn [put_phys put_hd hd cr0 cr3]. rewrite Hm3, Hm2. split; [done|]. split; [done|]. split; [lia|done].
    + cbn [put_phys put_hd phys]. rewrite Hphys. replace (512 - t + 512 * (k - (r - 1))) with (512 - t + 512 * (k - r) + 512) by lia.
      rewrite (disk_bytes_app _ _ (512 - t + 512 * (k - r)) 512), write_app, zlen_disk_bytes by lia. f_equal. by apply disk_bytes_media.
  - split; [lia|]. split; [lia|]. assert (k + 1 < 4294967296) as Hk1 by lia. split; [|split].
    + unfold u32. rewrite Z.mod_small; [lia|]. Z.div_mod_to_equations. lia.
    + unfold disk_as. cbn [s1 put_phys put_hd hd cr0 cr3]. split; [done|]. split; [done|]. split; [lia|done].
    + cbn. f_equal. f_equal. lia.
  - lia.
Qed.

(** The memory outside of a range, and what is mapped *)
Definition only_in (a n : Z) (m m' : mem) : Prop :=
  (∀ b, ¬ (a ≤ b < a + n) → m' !! b = m !! b) ∧ ∀ b, is_Some (m !! b) → is_Some (m' !! b).

Lemma word_ext m m' q : (∀ b, q ≤ b < q + 4 → m' !! b = m !! b) → word m' q = word m q.
Proof. intros E. unfold word, peek. by rewrite !E by lia. Qed.

Lemma only_in_write p l m a n : a ≤ p → p + zlen l ≤ a + n → only_in a n m (write p l m).
Proof.
  intros H1 H2. split.
  - intros b Hb. rewrite lookup_write, decide_False; [done|]. lia.
  - intros b Hb. rewrite lookup_write. case_decide; [|done]. apply lookup_lt_is_Some_2. unfold zlen in *. lia.
Qed.

Lemma only_in_trans a n m1 m2 m3 : only_in a n m1 m2 → only_in a n m2 m3 → only_in a n m1 m3.
Proof. intros [H1 H2] [H3 H4]. split; [|auto]. intros b Hb. by rewrite H3, H1. Qed.

Lemma only_in_mapped a n m m' p k : only_in a n m m' → mapped m p k → mapped m' p k.
Proof. intros [_ H1] H2 i Hi. by apply H1, H2. Qed.

Lemma fill_table_ok (n : nat) p f : ∀ i m, mapped m (p + 4 * i) (4 * n) →
  wp (fill_table n p i f) m (λ _ m', (∀ j, i ≤ j < i + n → word m' (p + 4 * j) = u32 (f j)) ∧ only_in (p + 4 * i) (4 * n) m m').
Proof.
  induction n as [|n IH]; intros i m Hm; cbn [fill_table].
  { rewrite wp_ret. split; [lia|]. by split. }
  rewrite wp_bind. eapply wp_ok; [apply store32_ok; eapply mapped_weaken; [exact Hm|lia|lia]|].
  set (m1 := write _ _ m). eapply wp_mono; [apply (IH (i + 1) m1)|].
  { unfold m1. apply mapped_write. eapply mapped_weaken; [exact Hm|lia|lia]. }
  cbn beta. intros _ m2 [Hw [Ho Hd]]. split.
  - intros j Hj. destruct (decide (j = i)) as [->|]; [|apply Hw; lia]. rewrite (word_ext m1) by (intros b Hb; apply Ho; lia).
    apply word_write_same.
  - eapply only_in_trans; [apply only_in_write|split; [intros b Hb; apply Ho; lia|done]]; [lia|]. change (zlen (le_bytes 4 (f i))) with 4. lia.
Qed.

(** The entries of the two tables *)
Lemma table_entry a : page_aligned a → 0 ≤ a < 4294967296 →
  let e := u32 (Z.lor (Z.lor a PTE_P) PTE_W) in (Z.land e PTE_P =? 0) = false ∧ pte_addr e = a.
Proof.
  intros Ha Hr. destruct (entry_range a PTE_W Ha Hr ltac:(done)) as (He & Hp & Hf). cbn zeta. rewrite u32_small by done. split; [|done].
  rewrite <- Z.lor_assoc, Z.land_lor_distr_l. apply Z.eqb_neq. intros E. apply Z.lor_eq_0_iff in E as [_ E]. discriminate E.
Qed.

Lemma vaddr_offset_eq va : vaddr_offset va = va mod 4096.
Proof. unfold vaddr_offset. change 0xfff with (Z.ones 12). by rewrite Z.land_ones. Qed.

(** The tables of the loader map 4 MB twice. *)
Lemma boot_tables m va : 0 ≤ va < 4294967296 →
  (∀ i, 0 ≤ i < 1024 → word m (pagedir + 4 * i) =
    if decide (i = 0 ∨ i = 512) then u32 (Z.lor (Z.lor pagetbl PDE_P) PDE_W) else 2) →
  (∀ i, 0 ≤ i < 1024 → word m (pagetbl + 4 * i) = u32 (Z.lor (Z.lor (i * 0x1000) PTE_P) PTE_W)) →
  boot_translate m pagedir va = boot_map va.
Proof.
  intros Hva Hdir Htbl. unfold boot_translate, boot_map. rewrite page_directory_idx_eq, page_table_idx_eq, vaddr_offset_eq.
  change KERN_BASE with 2147483648.
  assert (0 ≤ va / 4194304 < 1024 ∧ 0 ≤ va / 4096 mod 1024 < 1024) as [Hd Ht] by (Z.div_mod_to_equations; lia).
  rewrite (Z.mod_small (va / 4194304)) by lia. rewrite (Hdir _ Hd). destruct pagetbl_aligned as [Hpa Hpr].
  destruct (table_entry pagetbl Hpa Hpr) as [E1 E2]. change PDE_P with PTE_P in *. change PDE_W with PTE_W in *.
  destruct (decide (va / 4194304 = 0 ∨ va / 4194304 = 512)) as [Hi|Hi].
  - rewrite E1, E2, (Htbl _ Ht). assert (page_aligned (va / 4096 mod 1024 * 0x1000)) as Ha by (unfold page_aligned; Z.div_mod_to_equations; lia).
    destruct (table_entry _ Ha ltac:(lia)) as [-> ->].
    destruct (decide (0 ≤ va < 4194304)); [f_equal; Z.div_mod_to_equations; lia|].
    rewrite decide_True by (Z.div_mod_to_equations; lia). f_equal. Z.div_mod_to_equations. lia.
  - change (Z.land 2 PTE_P =? 0) with true. cbn match. rewrite !decide_False; [done|Z.div_mod_to_equations; lia..].
Qed.

(** [paging_init] *)
Lemma paging_init_ok (s : St) : page_mapped (phys s) pagedir → page_mapped (phys s) pagetbl →
  wp paging_init s (λ _ s', hd s' = hd s ∧ cr3 s' = pagedir ∧ cr0 s' = Z.lor (cr0 s) (Z.lor CR0_WP CR0_PG) ∧
    (∀ a, ¬ (pagedir ≤ a < pagedir + 4096) → ¬ (pagetbl ≤ a < pagetbl + 4096) → phys s' !! a = phys s !! a) ∧
    ∀ va, 0 ≤ va < 4294967296 → boot_translate (phys s') pagedir va = boot_map va).
Proof.
  intros Hd Ht. unfold paging_init. destruct pagedir_aligned as [Hda Hdr], pagetbl_aligned as [Hta Htr].
  assert (away pagedir 4096 pagetbl 4096) as Hap by (pose proof tables_apart; unfold away, page_aligned in *; Z.div_mod_to_equations; lia).
  rewrite wp_bind. unfold with_phys at 1. rewrite wp_zoom. eapply wp_mono; [apply fill_table_ok, (page_mapped_range _ pagedir); [done|lia|unfold NPDES; lia]|].
  cbn beta. intros _ m1 [Hw1 Ho1]. rewrite Z.mul_0_r, Z.add_0_r in Ho1. change (4 * Z.to_nat NPDES) with 4096 in Ho1.
  rewrite wp_bind. unfold with_phys at 1. rewrite wp_zoom. cbn [phys]. eapply wp_mono.
  { apply fill_table_ok. eapply only_in_mapped; [exact Ho1|]. apply (page_mapped_range _ pagetbl); [done|lia|unfold NPTES; lia]. }
  cbn beta. intros _ m2 [Hw2 Ho2]. rewrite Z.mul_0_r, Z.add_0_r in Ho2. change (4 * Z.to_nat NPTES) with 4096 in Ho2.
  set (e := Z.lor (Z.lor pagetbl PDE_P) PDE_W).
  assert (∀ q, pagedir ≤ q → q + 4 ≤ pagedir + 4096 → mapped m2 q 4) as Hmq.
  { intros q H1 H2. eapply only_in_mapped; [exact Ho2|]. eapply only_in_mapped; [exact Ho1|]. apply (page_mapped_range _ pagedir); [done|lia|lia]. }
  change (pagedir + 4 * Z.shiftr KERN_BASE PD_IDX_SHIFT) with (pagedir + 2048).
  rewrite wp_bind. eapply wp_phys; [cbn [phys]; apply store32_ok, Hmq; lia|].
  rewrite wp_bind. eapply wp_phys; [cbn [phys put_phys]; apply store32_ok, mapped_write, Hmq; lia|].
  rewrite wp_bind. unfold set_cr3. rewrite wp_modify. rewrite wp_bind, wp_gets. unfold set_cr0. rewrite wp_modify. cbn [hd phys cr0 cr3 put_phys].
  assert (∀ l, zlen (le_bytes 4 l) = 4) as Hl4 by done. fold e. set (m3 := write _ _ _). split; [done|]. split; [done|]. split; [done|]. split.
  - intros a H1 H2. unfold m3. rewrite !lookup_write, !Hl4, !decide_False by lia. rewrite (proj1 Ho2), (proj1 Ho1) by lia. done.
  - intros va Hva. apply boot_tables; [done| |].
    + intros i Hi. unfold m3. destruct (decide (i = 512)) as [->|H5].
      { rewrite decide_True by (by right). apply word_write_same. }
      rewrite word_write_disjoint by (rewrite Hl4; lia). destruct (decide (i = 0)) as [->|H0].
      { rewrite decide_True by (by left). rewrite Z.mul_0_r, Z.add_0_r. apply word_write_same. }
      rewrite word_write_disjoint by (rewrite Hl4; lia). rewrite decide_False by lia.
      rewrite (word_ext m1) by (intros b Hb; apply Ho2; unfold away in Hap; lia). rewrite Hw1 by (unfold NPDES; lia). done.
    + intros i Hi. unfold m3. rewrite !word_write_disjoint by (rewrite ?Hl4; unfold away in Hap; lia). rewrite Hw2 by (unfold NPTES; lia). done.
Qed.

(** *** The kernel's file *)

Section file.
Context (content : list Z) (s0 : St).
Hypothesis Hboot : bootable (A := A) content s0.

Notation fh := (file_header content).
Notation phs := (file_segments content).

Lemma file_byte i : 0 ≤ i < zlen content → content !! Z.to_nat i = Some (media_byte (view (hd s0)) (10240 + i)).
Proof.
  intros Hi. pose proof (lookup_disk_bytes (view (hd s0)) 10240 (zlen content) (Z.to_nat i) ltac:(lia)) as Hl.
  rewrite (bo_disk _ _ Hboot), Z2Nat.id in Hl by lia. done.
Qed.

Lemma file_bytes_ok : Forall is_byte content.
Proof. rewrite <- (bo_disk _ _ Hboot). apply disk_bytes_ok. Qed.

(** A part of the file, read to [dst] *)
Lemma read_kernel_ok (s : St) dst n off : av_media (view (hd s)) = av_media (view (hd s0)) →
  0 ≤ n < 2147483648 → 0 ≤ off < 2147483648 → (busy (hd s) < patience)%nat → av_phase (view (hd s)) = Idle → mapped (phys s) dst (Z.to_nat (read_size off n)) →
  wp (read_offset_from_kernel patience dst n off) s (λ _ s', disk_as s s' ∧ only_in dst (read_size off n) (phys s) (phys s') ∧
    ∀ i, 0 ≤ i < read_size off n → 0 ≤ off + i < zlen content → phys s' !! (dst + i) = content !! Z.to_nat (off + i)).
Proof.
  intros Hm Hn Ho Hb Hp Hmap. unfold read_offset_from_kernel. change elf_offset with 10240. rewrite u32_small by lia.
  assert (read_size (off + 10240) n = read_size off n) as Hrs by (unfold read_size; Z.div_mod_to_equations; lia).
  assert (0 ≤ read_size off n) as Hr0 by (unfold read_size; Z.div_mod_to_equations; lia).
  wp_apply read_offset_ok; [lia|lia|done|done|by rewrite Hrs|]. intros _ s' [Hd ->]. rewrite Hrs. split; [done|]. split.
  - apply only_in_write; [lia|]. by rewrite zlen_disk_bytes.
  - intros i Hi Hoi. rewrite lookup_write, zlen_disk_bytes, decide_True by lia. rewrite lookup_disk_bytes by lia.
    rewrite file_byte by lia. unfold media_byte. rewrite Hm.
    replace (off + 10240 + Z.to_nat (dst + i - dst)) with (10240 + (off + i)) by lia. done.
Qed.

(** The headers are in memory. *)
Definition headers_at (m : mem) : Prop := ∀ a, 0 ≤ a < Z.min 4608 (zlen content) → m !! (elf + a) = content !! Z.to_nat a.

(** The memory of the loader is intact: the machine after [k] headers. *)
Record booted_upto (k : nat) (s : St) : Prop := mk_booted_upto {
  bu_disk : disk_as s0 s;
  bu_header : headers_at (phys s);
  bu_ram : ∀ b, is_Some (phys s0 !! b) → is_Some (phys s !! b);
  bu_segments : ∀ (i : nat) x, (i < k)%nat → phs !! i = Some x → segment_in content (phys s) x;
}.

Lemma header_array (s : St) off n : headers_at (phys s) → Z.of_nat off + Z.of_nat n ≤ Z.min 4608 (zlen content) →
  array (phys s) (elf + off) (slice off n content) ∧ length (slice off n content) = n.
Proof.
  intros Hs Hn. unfold zlen in Hn. split; [|apply length_slice; lia]. intros i b Hi. pose proof (lookup_lt_Some _ _ _ Hi) as Hl.
  rewrite length_slice in Hl by lia. rewrite lookup_slice in Hi by done. replace (elf + off + i) with (elf + (off + i)) by lia.
  rewrite Hs by (unfold zlen; lia). rewrite <- Hi. f_equal. lia.
Qed.

Lemma elf_at_ok (s : St) Q : headers_at (phys s) → Q fh s → wp elf_at s Q.
Proof.
  intros Hs HQ. unfold elf_at. pose proof (bo_size _ _ Hboot). destruct (header_array s 0 52 Hs ltac:(lia)) as [Ha Hl]. rewrite Z.add_0_r in Ha.
  rewrite wp_bind. eapply wp_phys; [change (Z.to_nat sizeof_ELF32Header) with 52%nat; rewrite <- Hl at 1; by apply load_bytes_ok|].
  rewrite wp_ret. by destruct s.
Qed.

(** Another segment does not touch the ones before. *)
Lemma segment_kept m m' x a n : segment_in content m x → only_in a n m m' → away a n (p_paddr x) (p_memsz x) → segment_in content m' x.
Proof. intros Hx [Ho _] Haw i Hi. rewrite Ho by (unfold away in Haw; lia). by apply Hx. Qed.

Lemma boot_zeros_ok (s : St) a n (Q : unit → St → Prop) : 0 ≤ n → mapped (phys s) a (Z.to_nat n) →
  Q tt (put_phys (write a (replicate (Z.to_nat n) 0) (phys s)) s) → wp (with_phys (stosb a 0 n)) s Q.
Proof.
  intros Hn Hm HQ. eapply wp_phys; [|exact HQ]. unfold stosb. change (u8 0) with 0. apply store_bytes_ok; [|by rewrite length_replicate].
  apply Forall_replicate. done.
Qed.

(** [boot_segment] after the check of the loop *)
Lemma load_one_ok k (s : St) x : booted_upto k s → phs !! k = Some x →
  wp (do! read_offset_from_kernel patience (p_paddr x) (p_filesz x) (p_offset x) in
      if p_filesz x <? p_memsz x then with_phys (stosb (p_paddr x + p_filesz x) 0 (p_memsz x - p_filesz x)) else done!) s
    (λ _ s', booted_upto (S k) s').
Proof.
  intros Hs Hx. pose proof (bo_segments _ _ Hboot) as Hall. rewrite Forall_lookup in Hall. destruct (Hall _ _ Hx) as [[Hf1 Hf2] Hrd Hram Hown].
  pose proof (bo_size _ _ Hboot) as Hsz. destruct (bu_disk _ _ Hs) as (Hm & Hp & Hb & Hc).
  assert (0 ≤ p_filesz x ∧ 0 ≤ p_offset x) as [Hf0 Ho0].
  { unfold file_segments, headers in Hx. apply list_lookup_fmap_Some in Hx as (i & -> & _).
    destruct (header_range (slice (Z.to_nat (e_phoff fh + 32 * i)) 32 content)) as (? & ? & ? & ?); [apply Forall_slice, file_bytes_ok|]. lia. }
  assert (p_filesz x ≤ read_size (p_offset x) (p_filesz x) ≤ load_area x) as Hrs by (unfold load_area, read_size; Z.div_mod_to_equations; lia).
  assert (p_memsz x ≤ load_area x) as Hms by (unfold load_area; lia).
  assert (mapped (phys s) (p_paddr x) (Z.to_nat (load_area x))) as Hmap by (intros i Hi; by apply (bu_ram _ _ Hs), Hram).
  rewrite wp_bind. wp_apply read_kernel_ok; [done|lia|lia|done|done|eapply mapped_weaken; [exact Hmap|lia|lia]|].
  intros _ s1 (Hd1 & Hi1 & Hby). assert (only_in (p_paddr x) (load_area x) (phys s) (phys s1)) as Hi1'.
  { destruct Hi1 as [H1 H2]. split; [|done]. intros b Hb'. apply H1. lia. }
  enough (∀ s2, disk_as s s2 → only_in (p_paddr x) (load_area x) (phys s) (phys s2) → segment_in content (phys s2) x → booted_upto (S k) s2) as Hend.
  { destruct (Z.ltb_spec (p_filesz x) (p_memsz x)) as [Hlt|Hge].
    - apply boot_zeros_ok; [lia|eapply only_in_mapped; [exact Hi1'|]; eapply mapped_weaken; [exact Hmap|lia|lia]|].
      assert (zlen (replicate (Z.to_nat (p_memsz x - p_filesz x)) 0) = p_memsz x - p_filesz x) as Hz by (unfold zlen; rewrite length_replicate; lia).
      apply Hend; [by destruct Hd1 as (? & ? & ? & ?)| |].
      + eapply only_in_trans; [exact Hi1'|]. apply only_in_write; lia.
      + intros i Hi. cbn [put_phys phys]. rewrite lookup_write, Hz. destruct (decide (i < p_filesz x)) as [Hd|Hd].
        * rewrite decide_False, Hby by lia. apply list_lookup_lookup_total_lt. unfold zlen in *. lia.
        * rewrite decide_True by lia. apply lookup_replicate. split; [done|lia].
    - rewrite wp_ret. apply Hend; [done|done|]. intros i Hi. rewrite decide_True, Hby by lia. apply list_lookup_lookup_total_lt. unfold zlen in *. lia. }
  clear s1 Hd1 Hi1 Hby Hi1'. intros s2 (Hm2 & Hp2 & Hb2 & Hc2) Ho2 Hseg. destruct Hown as (Hh & _ & _). split.
  - unfold disk_as. split; [congruence|]. split; [done|]. split; [done|]. destruct Hc, Hc2; split; congruence.
  - intros a Ha. rewrite (proj1 Ho2); [by apply (bu_header _ _ Hs)|]. unfold away, elf in *. lia.
  - intros b Hb'. by apply Ho2, (bu_ram _ _ Hs).
  - intros i y Hi Hy. destruct (decide (i = k)) as [->|]; [by simplify_eq|]. eapply segment_kept; [apply (bu_segments _ _ Hs i y); [lia|done]|exact Ho2|].
    eapply (bo_apart _ _ Hboot); [|done|done]. lia.
Qed.

Lemma boot_segment_ok (k : nat) (s : St) : booted_upto k s → (k ≤ length phs)%nat →
  wp (boot_segment patience (elf + e_phoff fh) (elf + e_phoff fh + 32 * k)) s (λ r s',
    match r with
    | inl p => p = elf + e_phoff fh + 32 * S k ∧ booted_upto (S k) s' ∧ (k < length phs)%nat
    | inr _ => booted_upto (length phs) s'
    end).
Proof.
  intros Hs Hk. unfold boot_segment. rewrite wp_bind. apply elf_at_ok; [apply Hs|]. change sizeof_ELF32ProgramHeader with 32.
  destruct (file_header_range content file_bytes_ok) as (_ & Hpo & Hpn).
  assert (length phs = Z.to_nat (e_phnum fh)) as Hlen by (unfold file_segments, headers; by rewrite length_fmap, length_seq).
  pose proof (bo_table _ _ Hboot) as Htab. destruct (Z.ltb_spec (elf + e_phoff fh + 32 * k) (elf + e_phoff fh + 32 * e_phnum fh)) as [Hlt|Hge]; cbn [negb].
  - destruct (header_array s (Z.to_nat (e_phoff fh + 32 * k)) 32 (bu_header _ _ Hs) ltac:(lia)) as [Ha Hl].
    rewrite Z2Nat.id, Z.add_assoc in Ha by lia. rewrite wp_bind. eapply wp_phys; [change (Z.to_nat 32) with 32%nat; rewrite <- Hl at 1; by apply load_bytes_ok|].
    replace (put_phys (phys s) s) with s by (by destruct s). cbn zeta.
    set (x := program_header _). assert (phs !! k = Some x) as Hx by (apply headers_lookup; lia).
    pose proof (load_one_ok k s x Hs Hx) as Hone. rewrite wp_bind. rewrite wp_bind in Hone. eapply wp_mono; [exact Hone|]. cbn beta. intros _ s1 Hw.
    rewrite wp_bind. eapply wp_mono; [exact Hw|]. cbn beta. intros _ s2 Hs2. rewrite wp_ret. split; [lia|]. split; [done|lia].
  - rewrite wp_ret. replace (length phs) with k by lia. done.
Qed.

Lemma boot_loop_ok (s : St) : booted_upto 0 s →
  wp (loop (Z.to_nat 65536) (boot_segment patience (elf + e_phoff fh)) (elf + e_phoff fh)) s (λ _ s', booted_upto (length phs) s').
Proof.
  intros Hs. apply (wp_loop (λ p s', ∃ k : nat, p = elf + e_phoff fh + 32 * k ∧ booted_upto k s' ∧ (k ≤ length phs)%nat)
    (λ p _, length phs - Z.to_nat ((p - (elf + e_phoff fh)) / 32))%nat).
  - intros p s1 (k & -> & Hk & Hle). eapply wp_mono; [by apply boot_segment_ok|]. cbn beta. intros [p'|] s2; [|done].
    intros (-> & H2 & Hlt). split; [exists (S k); split; [done|]; split; [done|lia]|].
    replace (elf + e_phoff fh + 32 * S k - (elf + e_phoff fh)) with (S k * 32) by lia.
    replace (elf + e_phoff fh + 32 * k - (elf + e_phoff fh)) with (k * 32) by lia. rewrite !Z.div_mul by lia. lia.
  - exists 0%nat. split; [lia|]. split; [done|lia].
  - destruct (file_header_range content file_bytes_ok) as (_ & _ & Hpn). unfold file_segments, headers. rewrite length_fmap, length_seq. lia.
Qed.

(** The headers are read first. *)
Lemma boot_headers_ok : wp (read_offset_from_kernel patience elf PAGE_SZ 0) s0 (λ _ s, booted_upto 0 s).
Proof.
  destruct (bo_ready _ _ Hboot) as [Hb Hp]. pose proof (bo_size _ _ Hboot). assert (read_size 0 PAGE_SZ = 4608) as Hr by done.
  wp_apply read_kernel_ok; [done|unfold PAGE_SZ; lia|lia|done|done|rewrite Hr; apply (bo_ram _ _ Hboot)|].
  intros _ s (Hd & [Ho Hram] & Hby). split; [done| |done|].
  - intros a Ha. rewrite Hby by lia. done.
  - intros i x Hi. lia.
Qed.

Lemma boot3_ok : wp (boot3 patience) s0 (λ r s', r = Entered (KA2P (e_entry fh)) ∧ cr3 s' = pagedir ∧ Z.testbit (cr0 s') 31 = true ∧
  Forall (segment_in content (phys s')) phs ∧ ∀ va, 0 ≤ va < 4294967296 → boot_translate (phys s') pagedir va = boot_map va).
Proof.
  unfold boot3. rewrite wp_bind. eapply wp_mono; [apply boot_headers_ok|]. cbn beta. intros _ s1 Hs1. rewrite wp_bind. apply elf_at_ok; [apply Hs1|].
  rewrite (bo_magic _ _ Hboot). cbn [negb]. cbn zeta. rewrite wp_bind. eapply wp_mono; [by apply boot_loop_ok|]. cbn beta. intros _ s2 Hs2.
  rewrite wp_bind. destruct (bo_ram _ _ Hboot) as (_ & Hpd & Hpt), (bo_own _ _ Hboot) as [Hod Hot].
  wp_apply paging_init_ok; [intros a Ha; by apply (bu_ram _ _ Hs2), Hpd|intros a Ha; by apply (bu_ram _ _ Hs2), Hpt|].
  intros _ s3 (_ & H3 & H0 & Hph & Htr). rewrite wp_bind. apply elf_at_ok.
  { intros a Ha. rewrite Hph by (unfold away, elf in *; lia). by apply (bu_header _ _ Hs2). }
  rewrite wp_ret. split; [done|]. split; [done|]. split; [by rewrite H0, Z.lor_spec, orb_true_r|]. split; [|done].
  apply Forall_lookup. intros i x Hx. pose proof (bo_segments _ _ Hboot) as Hall. rewrite Forall_lookup in Hall.
  destruct (Hall _ _ Hx) as [_ _ _ (_ & Hd & Ht)]. intros j Hj. assert (p_memsz x ≤ load_area x) by (unfold load_area; lia).
  rewrite Hph by (unfold away in *; lia). apply (bu_segments _ _ Hs2 i x); [by eapply lookup_lt_Some|done|done].
Qed.
End file.
End lemmas.

(** ** Properties *)

(** C8: The boot loader loads the kernel: from a disk that holds the ELF file
    [content] behind the loader, whatever the pace of the drive, [boot3] reads the
    file, puts every segment to its physical address with zeros up to its memory
    size, turns paging on with tables that map the first 4 MB at 0 and at
    [KERN_BASE] and nothing else, and jumps to the physical address of the entry. *)
Theorem boot3_loads_kernel {D} {P : Ports D} {patience : nat} {A : AtaDrive D patience} `{BootLayout} (content : list Z) (s : Pc D) :
  bootable (A := A) content s →
  wp (boot3 patience) s (λ r s', r = Entered (KA2P (e_entry (file_header content))) ∧
    Forall (segment_in content (phys s')) (file_segments content) ∧
    Z.testbit (cr0 s') 31 = true ∧ ∀ va, 0 ≤ va < 4294967296 → boot_translate (phys s') (cr3 s') va = boot_map va).
Proof.
  intros Hboot. eapply wp_mono; [by apply (boot3_ok content)|]. cbn beta. intros r s' (-> & -> & H0 & Hseg & Htr). done.
Qed.

(** [read_offset] may read too little: when the offset is not at the start of a
    sector, a request whose end lies in one sector more than [n / SECSZ + 1] leaves
    its last bytes as they were in memory. *)
Theorem read_offset_short {D} {P : Ports D} {patience : nat} {A : AtaDrive D patience} (s : Pc D) dst n off :
  0 ≤ n < 4294967296 → 0 ≤ off < 4294967296 → (busy (hd s) < patience)%nat → av_phase (view (hd s)) = Idle →
  mapped (phys s) dst (Z.to_nat n) → 512 - off mod 512 < n mod 512 →
  wp (read_offset patience dst n off) s (λ _ s', phys s' !! (dst + n - 1) = phys s !! (dst + n - 1)).
Proof.
  intros Hn Ho Hb Hp Hm Hs. assert (0 ≤ read_size off n < n) as Hr by (unfold read_size; Z.div_mod_to_equations; lia).
  wp_apply read_offset_ok; [done|done|done|done|eapply mapped_weaken; [exact Hm|lia|lia]|]. intros _ s' [_ ->].
  rewrite lookup_write, zlen_disk_bytes, decide_False by lia. done.
Qed.

(** ** Witnesses *)

#[local] Instance demo_boot_layout : BootLayout := {
  pagedir := 0x8000;
  pagetbl := 0x9000;
  pagedir_aligned := ltac:(split; [reflexivity|lia]);
  pagetbl_aligned := ltac:(split; [reflexivity|lia]);
  tables_apart := ltac:(discriminate);
}.

(** A kernel with two segments: the first has room for zeros, the second crosses a
    sector *)
Definition demo_header (off paddr filesz memsz : Z) : list Z :=
  mjoin (le_bytes 4 <$> [PT_LOAD; off; KERN_BASE + paddr; paddr; filesz; memsz; 7; 4096]).

Definition demo_kernel_file : list Z :=
  elf_magic ++ replicate 12 0 ++ le_bytes 2 2 ++ le_bytes 2 3 ++ le_bytes 4 1 ++ le_bytes 4 0x80100400 ++ le_bytes 4 52 ++ le_bytes 4 0 ++
  le_bytes 4 0 ++ le_bytes 2 52 ++ le_bytes 2 32 ++ le_bytes 2 2 ++ le_bytes 2 0 ++ le_bytes 2 0 ++ [0; 0] ++
  demo_header 200 0x100000 5 8 ++ demo_header 512 0x100400 600 600 ++ replicate 84 0 ++
  [1; 2; 3; 4; 5] ++ replicate 307 0 ++ ((λ i : nat, i mod 251) <$> seq 0 600).

Definition demo_sector (k : nat) : list Z :=
  let l := slice (512 * k) 512 demo_kernel_file in l ++ replicate (512 - length l) 0.

Definition demo_boot_pc : Pc SimDrive :=
  mkPc (mkSimDrive (0, 0, 0, 0, 0) (list_to_map ((λ k : nat, ((0, 20 + k), demo_sector k)) <$> seq 0 3)) Idle false 0)
    (write 0x8000 (replicate (Z.to_nat 8192) 0) (write 0x10000 (replicate (Z.to_nat 4608) 0) (write 0x100000 (replicate (Z.to_nat 2048) 0) ∅))) 1 0.

Lemma mapped_zeros p n m q k : p ≤ q → q + k ≤ p + n → 0 ≤ k → mapped (write p (replicate (Z.to_nat n) 0) m) q (Z.to_nat k).
Proof.
  intros H1 H2 H3 i Hi. rewrite lookup_write. unfold zlen. rewrite length_replicate, decide_True by lia.
  apply lookup_lt_is_Some_2. rewrite length_replicate. lia.
Qed.

Lemma demo_disk : disk_bytes (view (hd demo_boot_pc)) 10240 (zlen demo_kernel_file) = demo_kernel_file.
Proof. vm_compute. reflexivity. Qed.

Lemma demo_headers : file_segments demo_kernel_file =
  [mkELF32ProgramHeader 1 200 0x80100000 0x100000 5 8 7 4096; mkELF32ProgramHeader 1 512 0x80100400 0x100400 600 600 7 4096].
Proof. vm_compute. reflexivity. Qed.

Lemma demo_length : zlen demo_kernel_file = 1112.
Proof. vm_compute. reflexivity. Qed.

Lemma demo_bootable : bootable demo_kernel_file demo_boot_pc.
Proof.
  assert (∀ q k, 0x100000 ≤ q → q + k ≤ 0x100000 + 2048 → 0 ≤ k → mapped (phys demo_boot_pc) q (Z.to_nat k)) as Hk.
  { intros q k H1 H2 H3. cbn [demo_boot_pc phys]. do 2 apply mapped_write. by apply mapped_zeros. }
  assert (∀ p, 0x8000 ≤ p → p + 4096 ≤ 0x8000 + 8192 → page_mapped (phys demo_boot_pc) p) as Hp.
  { intros p H1 H2 a Ha. cbn [demo_boot_pc phys]. eapply (mapped_one _ p (Z.to_nat 4096)); [apply mapped_zeros; lia|lia]. }
  split.
  - exact demo_disk.
  - split; [cbn; lia|reflexivity].
  - rewrite demo_length. lia.
  - vm_compute. reflexivity.
  - vm_compute. discriminate.
  - split; [|split; apply Hp; vm_compute; discriminate].
    cbn [demo_boot_pc phys]. apply mapped_write, mapped_zeros; unfold elf; lia.
  - split; vm_compute; left; discriminate.
  - rewrite demo_headers. repeat apply Forall_cons_2; [| |apply Forall_nil_2].
    + split; cbn [p_filesz p_memsz p_offset p_paddr]; [rewrite demo_length; lia|vm_compute; discriminate|apply Hk; vm_compute; discriminate|].
      split; [|split]; right; vm_compute; discriminate.
    + split; cbn [p_filesz p_memsz p_offset p_paddr]; [rewrite demo_length; lia|vm_compute; discriminate|apply Hk; vm_compute; discriminate|].
      split; [|split]; right; vm_compute; discriminate.
  - rewrite demo_headers. intros i j x y Hij Hi Hj. destruct i as [|[|i]], j as [|[|j]]; cbn in Hi, Hj; simplify_eq; try lia.
    right. vm_compute. discriminate.
Qed.

Lemma boot3_loads_kernel_witness :
  wp (boot3 3) demo_boot_pc (λ r s', r = Entered 0x100400 ∧ phys s' !! 0x100004 = Some 5 ∧ phys s' !! 0x100005 = Some 0 ∧
    boot_translate (phys s') (cr3 s') 0x80100400 = Some 0x100400).
Proof.
  eapply wp_mono; [apply (boot3_loads_kernel demo_kernel_file demo_boot_pc); exact demo_bootable|].
  cbn beta. intros r s' (-> & Hseg & _ & Htr). rewrite demo_headers in Hseg. apply Forall_cons in Hseg as [Hseg _].
  split; [reflexivity|]. split; [exact (Hseg 4 ltac:(cbn; lia))|]. split; [exact (Hseg 5 ltac:(cbn; lia))|]. exact (Htr 0x80100400 ltac:(lia)).
Defined.
