(* ===== verification/Disk.v ===== *)
(** * kernel/fs/disk.c: the disk driver, and the nodes of the buffer cache

    [disk_init] is in Boot, because it also switches the interrupt line on.
    A [BNode *] is the index of the node in [bcache.buffer], -1 is the null
    pointer. The [mutex] of a node is never locked by the code and has no
    counterpart. *)
From S2P Require Import Prelude Machine Ide.

Definition NULL : Z := -1.

Record BNode := mkBNode {
  next : Z;
  prev : Z;
  qnext : Z;
  dirty : bool;
  valid : bool;
  nref : Z;
  dev : Z;
  blockno : Z;
  cache : list Z;
}.

(** The nodes, the head of the cache, the head of the disk queue, and the
    controller *)
Record BState (D : Type) := mkBState {
  nodes : gmap Z BNode;
  bc_head : Z;
  dq_head : Z;
  hw : D;
}.
Arguments mkBState {D} nodes bc_head dq_head hw.
Arguments nodes {D}.
Arguments bc_head {D}.
Arguments dq_head {D}.
Arguments hw {D}.

Definition set_next (p : Z) (n : BNode) : BNode :=
  mkBNode p (prev n) (qnext n) (dirty n) (valid n) (nref n) (dev n) (blockno n) (cache n).

Definition set_prev (p : Z) (n : BNode) : BNode :=
  mkBNode (next n) p (qnext n) (dirty n) (valid n) (nref n) (dev n) (blockno n) (cache n).

Definition set_qnext (p : Z) (n : BNode) : BNode :=
  mkBNode (next n) (prev n) p (dirty n) (valid n) (nref n) (dev n) (blockno n) (cache n).

Definition set_flags (d v : bool) (n : BNode) : BNode :=
  mkBNode (next n) (prev n) (qnext n) d v (nref n) (dev n) (blockno n) (cache n).

Definition set_nref (k : Z) (n : BNode) : BNode :=
  mkBNode (next n) (prev n) (qnext n) (dirty n) (valid n) k (dev n) (blockno n) (cache n).

Definition set_block (d b : Z) (n : BNode) : BNode :=
  mkBNode (next n) (prev n) (qnext n) (dirty n) (valid n) (nref n) d b (cache n).

Definition set_cache (l : list Z) (n : BNode) : BNode :=
  mkBNode (next n) (prev n) (qnext n) (dirty n) (valid n) (nref n) (dev n) (blockno n) l.

Section disk.
Context `{Ports D} (patience : nat).
Notation St := (BState D).

Definition with_hw {A} (m : M D A) : M St A :=
  zoom hw (λ h s, mkBState (nodes s) (bc_head s) (dq_head s) h) m.

(** [b->field], and an assignment to fields of [*b] *)
Definition node (b : Z) : M St BNode :=
  let! ns := gets nodes in need (ns !! b).

Definition update (b : Z) (f : BNode → BNode) : M St unit :=
  let! n := node b in
  modify (λ s, mkBState (<[b := f n]> (nodes s)) (bc_head s) (dq_head s) (hw s)).

Definition set_dq_head (b : Z) : M St unit :=
  modify (λ s, mkBState (nodes s) (bc_head s) b (hw s)).

Definition SECN : Z := BSIZE / SECSZ.

Definition BLK2SEC (blk : Z) : Z := u32 (SECN * blk).

(** Fuel: the queue links nodes of the cache without repetition. *)
Definition dq_last : M St Z :=
  let! h := gets dq_head in
  if h =? NULL then ret NULL else
  let! ns := gets nodes in
  loop (S (size ns)) (λ last,
    let! n := node last in
    if qnext n =? NULL then ret (inr last) else ret (inl (qnext n))) h.

Definition dq_enqueue (b : Z) : M St unit :=
  do! update b (set_qnext NULL) in
  let! h := gets dq_head in
  if h =? NULL then set_dq_head b else
  let! last := dq_last in
  update last (set_qnext b).

Definition dq_dequeue : M St Z :=
  let! b := gets dq_head in
  if b =? NULL then ret NULL else
  let! n := node b in
  do! set_dq_head (qnext n) in
  ret b.

Definition disk_cmd_request (b : Z) : M St unit :=
  let! n := node b in
  if dirty n
  then with_hw (ide_write_request patience ATA_PRIMARY ATA_SLAVE (cache n) (BLK2SEC (blockno n)) SECN)
  else with_hw (ide_read_request patience ATA_PRIMARY ATA_SLAVE (BLK2SEC (blockno n)) SECN).

Definition read_block (b : Z) : M St unit :=
  let! l := with_hw (ide_read ATA_PRIMARY SECN) in
  update b (set_cache l).

Definition synced (b : Z) : M St bool :=
  let! n := node b in ret (valid n && negb (dirty n)).

Definition disk_handler : M St unit :=
  let! b := dq_dequeue in
  if b =? NULL then done! else
  let! n := node b in
  do! (if negb (dirty n) then read_block b else done!) in
  do! update b (set_flags false true) in
  let! h := gets dq_head in
  if negb (h =? NULL) then disk_cmd_request h else done!.

(** The interrupt of the disk, if the controller raises one now *)
Definition disk_interrupt : M St unit :=
  let! i := with_hw irq in
  if i : bool then disk_handler else done!.

(** Without [poll] interrupts are on: one that is still pending is taken
    before the request, and the busy loop [while (!synced(b))] ends when the
    handler has run. Fuel: the polls until the drive is ready, one round for
    the handler and one to leave. *)
Definition disk_sync (b : Z) (poll : bool) : M St unit :=
  let! ok := synced b in
  if ok : bool then panic "disc_sync: nothing to do" else
  if poll then
    do! disk_cmd_request b in
    do! with_hw (ide_wait patience ATA_PRIMARY) in
    let! n := node b in
    do! (if negb (valid n) then read_block b else done!) in
    update b (set_flags false true)
  else
    do! disk_interrupt in
    do! dq_enqueue b in
    do! disk_cmd_request b in
    loop (S (S patience)) (λ _,
      let! ok := synced b in
      if ok : bool then ret (inr tt) else
      do! disk_interrupt in ret (inl tt)) tt.

End disk.

(** ** Specifications *)

Section specs.
Context {D : Type} {P : Ports D} {patience : nat} {A : AtaDrive D patience}.

(** The blocks of the disk the kernel uses: the slave drive, a sector each *)
Definition disk_block (s : BState D) (bno : Z) : list Z := av_media (view (hw s)) ATA_SLAVE bno.

(** Between two requests: the drive expects a command, and if it raised an
    interrupt it is ready. *)
Record disk_idle (s : BState D) : Prop := mk_disk_idle {
  di_phase : av_phase (view (hw s)) = Idle;
  di_busy : (busy (hw s) < patience)%nat;
  di_irq : av_irq (view (hw s)) = true → busy (hw s) = 0%nat;
  di_queue : dq_head s = NULL;
}.

(** What [disk_sync] does to the node and to the disk *)
Definition sync_node (n : BNode) (l : list Z) : BNode :=
  set_flags false true (if dirty n then n else set_cache l n).

Definition same_node (n n' : BNode) : Prop :=
  next n' = next n ∧ prev n' = prev n ∧ nref n' = nref n ∧ dev n' = dev n ∧ blockno n' = blockno n.

(** ** Lemmas *)

Lemma wp_node b (s : BState D) n Q : nodes s !! b = Some n → Q n s → wp (node b) s Q.
Proof. intros Hn HQ. unfold node. rewrite wp_bind, wp_gets. by eapply wp_need. Qed.

Lemma wp_update b f (s : BState D) n Q :
  nodes s !! b = Some n → Q tt (mkBState (<[b := f n]> (nodes s)) (bc_head s) (dq_head s) (hw s)) →
  wp (update b f) s Q.
Proof. intros Hn HQ. unfold update. rewrite wp_bind. eapply wp_node; [done|]. by rewrite wp_modify. Qed.

Lemma wp_with_hw {B} (m : M D B) (s : BState D) Q :
  wp m (hw s) (λ a h, Q a (mkBState (nodes s) (bc_head s) (dq_head s) h)) → wp (with_hw m) s Q.
Proof. unfold with_hw. by rewrite wp_zoom. Qed.

(** A request for a node: the transfer is started; a write also changes the
    disk at once. *)
Lemma disk_cmd_request_ok b n (s : BState D) :
  nodes s !! b = Some n → 0 ≤ blockno n < 268435456 →
  (dirty n = true → length (cache n) = 512%nat ∧ Forall is_byte (cache n)) →
  (busy (hw s) < patience)%nat → av_phase (view (hw s)) = Idle →
  wp (disk_cmd_request patience b) s (λ _ s',
    nodes s' = nodes s ∧ bc_head s' = bc_head s ∧ dq_head s' = dq_head s ∧
    (∀ k, disk_block s' k = if decide (dirty n = true ∧ k = blockno n) then cache n else disk_block s k) ∧
    av_phase (view (hw s')) = (if dirty n then Idle else DataIn ATA_SLAVE (blockno n)) ∧
    av_irq (view (hw s')) = true ∧ (busy (hw s') < patience)%nat).
Proof.
  intros Hn Hb Hc Hbusy Hph. unfold disk_cmd_request. rewrite wp_bind. eapply wp_node; [done|].
  assert (BLK2SEC (blockno n) = blockno n) as ->.
  { unfold BLK2SEC, SECN. change (BSIZE / SECSZ) with 1. rewrite u32_small; lia. }
  change SECN with 1. unfold disk_block. destruct (dirty n) eqn:Hd; apply wp_with_hw.
  - destruct (Hc eq_refl). wp_apply ide_write_request_ok; [lia|unfold ATA_SLAVE; lia|done..|].
    intros _ h (Hm & Hp & Hi & Hbu). cbn. split_and!; [done..| |done|done|done].
    intros k. rewrite Hm. by repeat case_decide; try naive_solver.
  - wp_apply ide_read_request_ok; [lia|unfold ATA_SLAVE; lia|done..|].
    intros _ h (Hm & Hp & Hi & Hbu). cbn. split_and!; [done..| |done|done|done].
    intros k. rewrite Hm. case_decide; [naive_solver|done].
Qed.

Lemma read_block_ok b n (s : BState D) bno :
  nodes s !! b = Some n → av_phase (view (hw s)) = DataIn ATA_SLAVE bno → busy (hw s) = 0%nat →
  wp (read_block b) s (λ _ s',
    nodes s' = <[b := set_cache (disk_block s bno) n]> (nodes s) ∧ bc_head s' = bc_head s ∧
    dq_head s' = dq_head s ∧ (∀ k, disk_block s' k = disk_block s k) ∧
    av_phase (view (hw s')) = Idle ∧ av_irq (view (hw s')) = av_irq (view (hw s)) ∧
    busy (hw s') = 0%nat).
Proof.
  intros Hn Hph Hb. unfold read_block. rewrite wp_bind. change SECN with 1.
  apply wp_with_hw. wp_apply ide_read_ok; [done|done|]. intros l h (-> & Hv & Hb').
  eapply wp_update; [done|]. cbn. unfold disk_block. cbn. rewrite Hv. done.
Qed.

(** Polling: a request, the wait, and the transfer *)
Lemma disk_sync_poll b n (s : BState D) :
  nodes s !! b = Some n → valid n && negb (dirty n) = false → (dirty n = true → valid n = true) →
  0 ≤ blockno n < 268435456 →
  (dirty n = true → length (cache n) = 512%nat ∧ Forall is_byte (cache n)) →
  disk_idle s →
  wp (disk_sync patience b true) s (λ _ s', ∃ n',
    nodes s' = <[b := n']> (nodes s) ∧ same_node n n' ∧ dirty n' = false ∧ valid n' = true ∧
    cache n' = (if dirty n then cache n else disk_block s (blockno n)) ∧
    bc_head s' = bc_head s ∧ disk_idle s' ∧
    (∀ k, disk_block s' k = if decide (dirty n = true ∧ k = blockno n) then cache n else disk_block s k)).
Proof.
  intros Hn Hsync Hdv Hb Hc [Hph Hbu Hirq Hq]. unfold disk_sync, synced.
  rewrite !wp_bind. eapply wp_node; [done|]. rewrite wp_ret, Hsync. cbn iota.
  rewrite wp_bind. wp_apply disk_cmd_request_ok; [done..|].
  intros _ s1 (Hn1 & Hh1 & Hq1 & Hd1 & Hp1 & Hi1 & Hb1).
  rewrite wp_bind. apply wp_with_hw, ide_wait_ok; [done|]. intros h Hv Hbz.
  rewrite wp_bind. eapply wp_node; [cbn; by rewrite Hn1|]. rewrite wp_bind.
  destruct (dirty n) eqn:Hdn.
  - rewrite Hdv by done. cbn [negb]. rewrite wp_ret.
    eapply wp_update; [cbn; by rewrite Hn1|]. cbn. exists (set_flags false true n).
    rewrite Hn1, Hh1, Hq1. split_and!; try done.
    + split; cbn; [by rewrite Hv|lia|auto|by rewrite <- Hq].
    + intros k. specialize (Hd1 k). unfold disk_block in *. cbn. by rewrite Hv.
  - rewrite andb_true_r in Hsync. rewrite Hsync. cbn [negb].
    wp_apply read_block_ok; [cbn; by rewrite Hn1|cbn; by rewrite Hv|done|].
    cbn. intros _ s2 (Hn2 & Hh2 & Hq2 & Hd2 & Hp2 & Hi2 & Hb2).
    eapply wp_update; [rewrite Hn2; apply lookup_insert_eq|]. cbn. eexists.
    rewrite Hn2, Hh2, Hq2, Hn1, Hh1, Hq1, insert_insert_eq.
    assert (∀ k, disk_block (mkBState (nodes s1) (bc_head s1) (dq_head s1) h) k = disk_block s k) as Hdisk.
    { intros k. specialize (Hd1 k). rewrite decide_False in Hd1 by naive_solver.
      rewrite <- Hd1. unfold disk_block. cbn. by rewrite Hv. }
    split_and!; [reflexivity|done|done|done| |done| |].
    + cbn. apply Hdisk.
    + split; cbn; [done|lia|done|by rewrite <- Hq].
    + intros k. rewrite decide_False by naive_solver. unfold disk_block at 1. cbn.
      specialize (Hd2 k). unfold disk_block at 1 in Hd2. rewrite Hd2. apply Hdisk.
Qed.

(** An interrupt between two requests does nothing. *)
Lemma disk_interrupt_idle (s : BState D) :
  disk_idle s →
  wp (disk_interrupt patience) s (λ _ s',
    nodes s' = nodes s ∧ bc_head s' = bc_head s ∧ dq_head s' = NULL ∧
    (∀ k, disk_block s' k = disk_block s k) ∧
    av_phase (view (hw s')) = Idle ∧ av_irq (view (hw s')) = false ∧ (busy (hw s') < patience)%nat).
Proof.
  intros [Hph Hbu Hirq Hq]. unfold disk_interrupt. rewrite wp_bind. apply wp_with_hw.
  wp_apply ata_irq. intros i h Hi. case_decide as Hz.
  - destruct Hi as (-> & Hb & Hv). destruct (av_irq (view (hw s))).
    + unfold disk_handler, dq_dequeue. rewrite !wp_bind, wp_gets. cbn [dq_head]. rewrite Hq. cbn.
      unfold disk_block. cbn. rewrite Hv. cbn. split_and!; try done. lia.
    + rewrite wp_ret. cbn. unfold disk_block. cbn. rewrite Hv. cbn. split_and!; try done. lia.
  - destruct Hi as (-> & Hv & Hb). rewrite wp_ret. cbn. unfold disk_block. cbn. rewrite Hv.
    split_and!; try done; [|lia]. destruct (av_irq (view (hw s))); [|done]. by destruct Hz; auto.
Qed.

(** The handler completes the request of the only node of the queue. *)
Lemma disk_handler_ok b n (s : BState D) :
  nodes s !! b = Some n → qnext n = NULL → dq_head s = b → b ≠ NULL →
  av_phase (view (hw s)) = (if dirty n then Idle else DataIn ATA_SLAVE (blockno n)) →
  busy (hw s) = 0%nat →
  wp (disk_handler patience) s (λ _ s',
    nodes s' = <[b := sync_node n (disk_block s (blockno n))]> (nodes s) ∧
    bc_head s' = bc_head s ∧ dq_head s' = NULL ∧ (∀ k, disk_block s' k = disk_block s k) ∧
    av_phase (view (hw s')) = Idle ∧ av_irq (view (hw s')) = av_irq (view (hw s)) ∧
    busy (hw s') = 0%nat).
Proof.
  intros Hn Hqn Hq Hnull Hph Hb. unfold disk_handler, dq_dequeue.
  rewrite !wp_bind, wp_gets, Hq, (proj2 (Z.eqb_neq b NULL)) by done.
  rewrite wp_bind. eapply wp_node; [done|]. rewrite Hqn, wp_bind. unfold set_dq_head. rewrite wp_modify, wp_ret.
  rewrite (proj2 (Z.eqb_neq b NULL)) by done.
  rewrite wp_bind. eapply wp_node; [cbn; done|]. rewrite wp_bind. unfold sync_node.
  destruct (dirty n); cbn [negb].
  - rewrite wp_ret, wp_bind. eapply wp_update; [cbn; done|]. rewrite wp_bind, wp_gets. cbn.
    unfold disk_block. cbn. done.
  - wp_apply read_block_ok; [cbn; done|cbn; done|done|]. cbn.
    intros _ s2 (Hn2 & Hh2 & Hq2 & Hd2 & Hp2 & Hi2 & Hb2).
    rewrite wp_bind. eapply wp_update; [rewrite Hn2; apply lookup_insert_eq|].
    rewrite wp_bind, wp_gets. cbn. rewrite Hq2. cbn.
    rewrite Hn2, Hh2, insert_insert_eq. unfold disk_block in *. cbn in *. done.
Qed.

(** With interrupts: the request is queued and sent, and the loop is left after
    the interrupt that completes it. *)
Lemma disk_sync_irq b n (s : BState D) :
  nodes s !! b = Some n → b ≠ NULL → valid n && negb (dirty n) = false →
  0 ≤ blockno n < 268435456 →
  (dirty n = true → length (cache n) = 512%nat ∧ Forall is_byte (cache n)) →
  disk_idle s →
  wp (disk_sync patience b false) s (λ _ s', ∃ n',
    nodes s' = <[b := n']> (nodes s) ∧ same_node n n' ∧ dirty n' = false ∧ valid n' = true ∧
    cache n' = (if dirty n then cache n else disk_block s (blockno n)) ∧
    bc_head s' = bc_head s ∧ disk_idle s' ∧
    (∀ k, disk_block s' k = if decide (dirty n = true ∧ k = blockno n) then cache n else disk_block s k)).
Proof.
  intros Hn Hnull Hsync Hb Hc Hidle. unfold disk_sync. unfold synced at 1.
  rewrite !wp_bind. eapply wp_node; [done|]. rewrite wp_ret, Hsync. cbn iota.
  rewrite wp_bind. wp_apply disk_interrupt_idle; [done|].
  intros _ s1 (Hn1 & Hh1 & Hq1 & Hd1 & Hp1 & Hi1 & Hb1).
  set (n1 := set_qnext NULL n).
  rewrite wp_bind. unfold dq_enqueue. rewrite wp_bind. eapply wp_update; [by rewrite Hn1|].
  rewrite wp_bind, wp_gets. cbn [dq_head]. rewrite Hq1, Z.eqb_refl. unfold set_dq_head. rewrite wp_modify.
  cbn [nodes bc_head dq_head hw]. fold n1.
  rewrite wp_bind. wp_apply (disk_cmd_request_ok b n1);
    [apply lookup_insert_eq|exact Hb|exact Hc|exact Hb1|exact Hp1|].
  cbn [nodes bc_head dq_head hw]. intros _ s2 (Hn2 & Hh2 & Hq2 & Hd2 & Hp2 & Hi2 & Hb2).
  set (n2 := sync_node n1 (disk_block s2 (blockno n))).
  assert (∀ k, disk_block s2 k = if decide (dirty n = true ∧ k = blockno n) then cache n else disk_block s k) as Hdisk.
  { intros k. rewrite Hd2. change (dirty n1) with (dirty n). change (blockno n1) with (blockno n).
    change (cache n1) with (cache n). rewrite <- (Hd1 k). repeat case_decide; done. }
  apply (wp_loop (λ _ s', bc_head s' = bc_head s ∧ (∀ k, disk_block s' k = disk_block s2 k) ∧
      ((nodes s' = <[b := n1]> (nodes s) ∧ dq_head s' = b ∧ av_irq (view (hw s')) = true ∧
        av_phase (view (hw s')) = (if dirty n then Idle else DataIn ATA_SLAVE (blockno n)) ∧
        (busy (hw s') < patience)%nat) ∨
       (nodes s' = <[b := n2]> (nodes s) ∧ disk_idle s')))
    (λ _ s', if decide (dq_head s' = NULL) then 0%nat else S (busy (hw s')))).
  - intros _ s' (Hh & Hdk & [(Hns & Hq & Hi & Hp & Hbu)|[Hns Hid]]); unfold synced; rewrite !wp_bind.
    + eapply wp_node; [rewrite Hns; apply lookup_insert_eq|].
      rewrite wp_ret. change (valid n1 && negb (dirty n1)) with (valid n && negb (dirty n)). rewrite Hsync.
      rewrite wp_bind. unfold disk_interrupt. rewrite wp_bind. apply wp_with_hw.
      wp_apply ata_irq. intros i h Hirq. case_decide as Hz.
      * destruct Hirq as (-> & Hbz & Hv). rewrite Hi.
        wp_apply (disk_handler_ok b n1); [cbn; rewrite Hns; apply lookup_insert_eq|done|exact Hq|done|cbn; by rewrite Hv|done|].
        cbn. intros _ s3 (Hn3 & Hh3 & Hq3 & Hd3 & Hp3 & Hi3 & Hb3). rewrite Hv in Hi3. cbn in Hi3.
        assert (∀ k, disk_block (mkBState (nodes s') (bc_head s') (dq_head s') h) k = disk_block s2 k) as Hsame.
        { intros k. rewrite <- Hdk. unfold disk_block. cbn. by rewrite Hv. }
        split; [|rewrite decide_True, decide_False by (done || by rewrite Hq); lia].
        split; [by rewrite Hh3|]. split; [by intros k; rewrite Hd3|]. right. split.
        -- rewrite Hn3, Hsame, Hns, insert_insert_eq. reflexivity.
        -- split; [done|lia|by rewrite Hi3|done].
      * destruct Hirq as (-> & Hv & Hlt). rewrite wp_ret. cbn. rewrite Hq.
        split; [|rewrite !decide_False by done; lia].
        split; [done|]. split; [intros k; rewrite <- Hdk; unfold disk_block; cbn; by rewrite Hv|].
        left. rewrite Hv. split_and!; try done. lia.
    + eapply wp_node; [rewrite Hns; apply lookup_insert_eq|]. rewrite wp_ret.
      assert (valid n2 && negb (dirty n2) = true) as ->.
      { unfold n2, sync_node. by destruct (dirty n1). }
      rewrite wp_ret. exists n2. split_and!; [done| | | | |done|done|].
      * unfold n2, sync_node, same_node. by destruct (dirty n1).
      * unfold n2, sync_node. by destruct (dirty n1).
      * unfold n2, sync_node. by destruct (dirty n1).
      * unfold n2, sync_node. change (dirty n1) with (dirty n). destruct (dirty n) eqn:E; cbn; [done|].
        rewrite Hdisk. rewrite decide_False; [done|]. naive_solver.
      * intros k. by rewrite Hdk, Hdisk.
  - split; [congruence|]. split; [done|]. left. rewrite Hn2, Hn1, Hq2. change (dirty n) with (dirty n1).
    done.
  - rewrite decide_False by congruence. lia.
Qed.

(** Both modes together *)
Lemma disk_sync_ok b n poll (s : BState D) :
  nodes s !! b = Some n → b ≠ NULL → valid n && negb (dirty n) = false →
  (dirty n = true → valid n = true) → 0 ≤ blockno n < 268435456 →
  (dirty n = true → length (cache n) = 512%nat ∧ Forall is_byte (cache n)) →
  disk_idle s →
  wp (disk_sync patience b poll) s (λ _ s', ∃ n',
    nodes s' = <[b := n']> (nodes s) ∧ same_node n n' ∧ dirty n' = false ∧ valid n' = true ∧
    cache n' = (if dirty n then cache n else disk_block s (blockno n)) ∧
    bc_head s' = bc_head s ∧ disk_idle s' ∧
    (∀ k, disk_block s' k = if decide (dirty n = true ∧ k = blockno n) then cache n else disk_block s k)).
Proof. intros. destruct poll; [by apply disk_sync_poll|by apply disk_sync_irq]. Qed.

End specs.
