(* ===== verification/BCache.v ===== *)
(** * kernel/fs/bcache.c: the cache of disk blocks

    [BlockStore] is what the layers above rely on; the instance at the end
    shows that the cache implements it. *)
From S2P Require Import Prelude Machine Ide Disk.

(** ** The interface to the layers above *)

(** Blocks of 512 bytes. [bs_idle]: no block is in use; [bs_held s b bno l]:
    only the node [b] is in use, for the block [bno], and its [cache] holds the
    bytes [l]. *)
Class BlockStore (S : Type) := {
  bs_read : Z → Z → bool → M S Z;           (* bcache_read(dev, blockno, poll) *)
  bs_cache : Z → M S (list Z);              (* b->cache *)
  bs_store : Z → list Z → M S unit;         (* stores to b->cache *)
  bs_blockno : Z → M S Z;                   (* b->blockno *)
  bs_write : Z → bool → M S unit;           (* bcache_write(b, poll) *)
  bs_release : Z → M S unit;                (* bcache_release(b) *)
  bs_blocks : S → Z → list Z;
  bs_idle : S → Prop;
  bs_held : S → Z → Z → list Z → Prop;
  bs_block_ok : ∀ s bno, length (bs_blocks s bno) = 512%nat ∧ Forall is_byte (bs_blocks s bno);
  bs_read_ok : ∀ s dv bno poll, bs_idle s → 0 ≤ bno < 268435456 →
    wp (bs_read dv bno poll) s (λ b s',
      bs_held s' b bno (bs_blocks s bno) ∧ ∀ k, bs_blocks s' k = bs_blocks s k);
  bs_cache_ok : ∀ s b bno l, bs_held s b bno l → bs_cache b s = Ok l s;
  bs_blockno_ok : ∀ s b bno l, bs_held s b bno l → bs_blockno b s = Ok bno s;
  bs_store_ok : ∀ s b bno l l', bs_held s b bno l → length l' = 512%nat → Forall is_byte l' →
    wp (bs_store b l') s (λ _ s', bs_held s' b bno l' ∧ ∀ k, bs_blocks s' k = bs_blocks s k);
  bs_write_ok : ∀ s b bno l poll, bs_held s b bno l →
    wp (bs_write b poll) s (λ _ s', bs_held s' b bno l ∧
      ∀ k, bs_blocks s' k = if decide (k = bno) then l else bs_blocks s k);
  bs_release_ok : ∀ s b bno l, bs_held s b bno l →
    wp (bs_release b) s (λ _ s', bs_idle s' ∧ ∀ k, bs_blocks s' k = bs_blocks s k);
  (* a second block cannot be read while one is in use *)
  bs_nested : ∀ s b bno l dv bno' poll, bs_held s b bno l → bno' ≠ bno →
    bs_read dv bno' poll s = Panic "bcache read";
}.

Section bcache.
Context `{Ports D} (patience : nat).
Notation St := (BState D).

Definition set_bc_head (b : Z) : M St unit :=
  modify (λ s, mkBState (nodes s) b (dq_head s) (hw s)).

(** [for (b = head + 1; b <= tail; ++b)], the last [n] rounds *)
Fixpoint link_nodes (n : nat) (b : Z) : M St unit :=
  match n with
  | O => done!
  | S n =>
      let! h := gets bc_head in
      do! update b (set_prev h) in
      let! nb := node b in
      do! update (prev nb) (set_next b) in
      do! set_bc_head b in
      link_nodes n (b + 1)
  end.

Definition bcache_init : M St unit :=
  let head := 0 in
  let tail := NBUF - 1 in
  do! update head (set_next head) in
  do! update head (set_prev tail) in
  do! update tail (set_next head) in
  do! update tail (set_prev tail) in
  do! set_bc_head head in
  link_nodes (Z.to_nat (NBUF - 1)) (head + 1).

(** A [do { ... } while (b != bcache.head)] over the list: [f] may return from
    the function. Fuel: the list is a ring of nodes of the cache. *)
Definition walk_ring (f : Z → M St (option Z)) : M St Z :=
  let! ns := gets nodes in
  let! h := gets bc_head in
  loop (S (size ns)) (λ b,
    let! r := f b in
    match r with
    | Some x => ret (inr x)
    | None =>
        let! n := node b in
        let! h := gets bc_head in
        if next n =? h then ret (inr NULL) else ret (inl (next n))
    end) h.

Definition bcachce_lookup (dv bno : Z) : M St Z := walk_ring (λ b,
  let! n := node b in
  if (dev n =? dv) && (blockno n =? bno) then
    do! update b (set_nref (u32 (nref n + 1))) in ret (Some b)
  else ret None).

Definition bcache_allocate (dv bno : Z) : M St Z := walk_ring (λ b,
  let! n := node b in
  if (nref n =? 0) && negb (dirty n) then
    do! update b (λ n, set_flags false false (set_block dv bno (set_nref 1 n))) in ret (Some b)
  else ret None).

Definition bcache_acquire (dv bno : Z) : M St Z :=
  let! b := bcachce_lookup dv bno in
  if negb (b =? NULL) then ret b else
  let! b := bcache_allocate dv bno in
  if negb (b =? NULL) then ret b else ret NULL.

Definition bcache_read (dv bno : Z) (poll : bool) : M St Z :=
  let! b := bcache_acquire dv bno in
  if b =? NULL then panic "bcache read" else
  let! n := node b in
  do! (if negb (valid n) then disk_sync patience b poll else done!) in
  ret b.

Definition bcache_write (b : Z) (poll : bool) : M St unit :=
  do! update b (λ n, set_flags true (valid n) n) in
  disk_sync patience b poll.

Definition bcache_free (b : Z) : M St unit :=
  do! update b (λ n, set_nref (u32 (nref n - 1)) n) in
  let! n := node b in
  if nref n =? 0 then
    let! n := node b in do! update (next n) (set_prev (prev n)) in
    let! n := node b in do! update (prev n) (set_next (next n)) in
    let! h := gets bc_head in do! update b (set_next h) in
    let! hn := node h in do! update b (set_prev (prev hn)) in
    do! update b (set_flags false false) in
    let! h := gets bc_head in do! update h (set_prev b) in
    do! set_bc_head b in
    update b (set_cache (replicate (Z.to_nat BSIZE) 0))
  else done!.

Definition bcache_release (b : Z) : M St unit := bcache_free b.

(** Access to [b->cache] and [b->blockno] by the callers *)
Definition node_cache (b : Z) : M St (list Z) := let! n := node b in ret (cache n).

Definition node_blockno (b : Z) : M St Z := let! n := node b in ret (blockno n).

Definition node_store (b : Z) (l : list Z) : M St unit := update b (set_cache l).

End bcache.

(** The static storage of [bcache] before [bcache_init] *)
Definition zero_node : BNode := mkBNode NULL NULL NULL false false 0 0 0 (replicate 512 0).

Definition zero_nodes : gmap Z BNode := gset_to_gmap zero_node (list_to_set (seqZ 0 NBUF)).

(** ** Specifications *)

Section specs.
Context {D : Type} {P : Ports D} {patience : nat} {A : AtaDrive D patience}.

(** The state of the cache between two uses: the head is not in use and linked
    to itself. *)
Record cache_idle (s : BState D) : Prop := mk_cache_idle {
  ci_disk : disk_idle (patience:=patience) s;
  ci_node : ∃ n, nodes s !! bc_head s = Some n ∧ next n = bc_head s ∧ prev n = bc_head s ∧
    nref n = 0 ∧ dirty n = false ∧ valid n = false;
  ci_head : bc_head s ≠ NULL;
}.

(** The node [b] is in use for the block [bno]. *)
Record cache_held (s : BState D) (b bno : Z) (l : list Z) : Prop := mk_cache_held {
  ch_disk : disk_idle (patience:=patience) s;
  ch_node : ∃ n, nodes s !! b = Some n ∧ next n = b ∧ prev n = b ∧ nref n = 1 ∧
    dirty n = false ∧ valid n = true ∧ blockno n = bno ∧ cache n = l;
  ch_head : bc_head s = b ∧ b ≠ NULL;
  ch_block : 0 ≤ bno < 268435456;
  ch_bytes : length l = 512%nat ∧ Forall is_byte l;
}.

(** ** Lemmas *)

Lemma disk_idle_nodes (s : BState D) ns h :
  disk_idle (patience:=patience) s → disk_idle (patience:=patience) (mkBState ns h (dq_head s) (hw s)).
Proof. intros [? ? ? ?]. by split. Qed.

Lemma walk_ring_first f x (s : BState D) Q :
  wp (f (bc_head s)) s (λ r s', r = Some x ∧ Q x s') → wp (walk_ring f) s Q.
Proof.
  intros Hf. unfold walk_ring. do 2 (rewrite wp_bind, wp_gets; cbn beta).
  rewrite wp_loop_S, wp_bind. eapply wp_mono; [exact Hf|]. intros r s' [-> HQ]. by rewrite wp_ret.
Qed.

(** A ring of one node *)
Lemma walk_ring_single f n (s : BState D) :
  f (bc_head s) s = Ok None s → nodes s !! bc_head s = Some n → next n = bc_head s →
  walk_ring f s = Ok NULL s.
Proof.
  intros Hf Hn Hnext. apply wp_eq. unfold walk_ring. do 2 (rewrite wp_bind, wp_gets; cbn beta).
  rewrite wp_loop_S, wp_bind. eapply wp_ok; [exact Hf|]. cbn beta iota. rewrite wp_bind. eapply wp_node; [done|].
  by rewrite wp_bind, wp_gets, Hnext, Z.eqb_refl, wp_ret.
Qed.

Lemma mk_state_eta (s : BState D) : mkBState (nodes s) (bc_head s) (dq_head s) (hw s) = s.
Proof. by destruct s. Qed.

(** Acquiring the head, which is not in use: by lookup or by allocation *)
Lemma bcache_acquire_head dv bno (s : BState D) n :
  nodes s !! bc_head s = Some n → next n = bc_head s ∨ (dev n = dv ∧ blockno n = bno) →
  nref n = 0 → dirty n = false → valid n = false → bc_head s ≠ NULL →
  wp (bcache_acquire dv bno) s (λ b s', b = bc_head s ∧ ∃ n',
    s' = mkBState (<[b := n']> (nodes s)) (bc_head s) (dq_head s) (hw s) ∧
    next n' = next n ∧ prev n' = prev n ∧ nref n' = 1 ∧ dirty n' = false ∧ valid n' = false ∧
    dev n' = dv ∧ blockno n' = bno).
Proof.
  intros Hn Hnext Href Hd Hv Hnull. unfold bcache_acquire.
  destruct ((dev n =? dv) && (blockno n =? bno)) eqn:E.
  - rewrite wp_bind. apply (walk_ring_first _ (bc_head s)). rewrite wp_bind. eapply wp_node; [done|].
    rewrite E, wp_bind. eapply wp_update; [done|]. rewrite wp_ret. split; [done|].
    rewrite (proj2 (Z.eqb_neq (bc_head s) NULL)) by done. cbn [negb]. rewrite wp_ret. split; [done|].
    eexists. split; [reflexivity|].
    apply andb_prop in E as [Hdv%Z.eqb_eq Hbn%Z.eqb_eq]. cbn. by rewrite Href.
  - destruct Hnext as [Hnext|[<- <-]]; [|by rewrite !Z.eqb_refl in E].
    rewrite wp_bind. eapply wp_ok.
    { eapply walk_ring_single; [|done|done]. apply wp_eq. rewrite wp_bind. eapply wp_node; [done|].
      by rewrite E, wp_ret. }
    cbn beta. rewrite Z.eqb_refl. cbn [negb].
    rewrite wp_bind. apply (walk_ring_first _ (bc_head s)). rewrite wp_bind. eapply wp_node; [done|].
    rewrite Href, Hd. cbn [Z.eqb negb andb]. rewrite wp_bind. eapply wp_update; [done|]. rewrite wp_ret.
    split; [done|]. rewrite (proj2 (Z.eqb_neq (bc_head s) NULL)) by done. cbn [negb]. rewrite wp_ret.
    split; [done|]. eexists. split; [reflexivity|]. done.
Qed.

(** The first read in a fresh ring, and every later one *)
Lemma bcache_read_ok dv bno poll (s : BState D) n :
  disk_idle (patience:=patience) s →
  nodes s !! bc_head s = Some n → next n = bc_head s ∨ (dev n = dv ∧ blockno n = bno) →
  nref n = 0 → dirty n = false → valid n = false → bc_head s ≠ NULL → 0 ≤ bno < 268435456 →
  wp (bcache_read patience dv bno poll) s (λ b s', b = bc_head s ∧ bc_head s' = b ∧
    disk_idle (patience:=patience) s' ∧ (∀ k, disk_block s' k = disk_block s k) ∧
    ∃ n', nodes s' = <[b := n']> (nodes s) ∧ next n' = next n ∧ prev n' = prev n ∧ nref n' = 1 ∧
      dirty n' = false ∧ valid n' = true ∧ blockno n' = bno ∧ cache n' = disk_block s bno).
Proof.
  intros Hid Hn Hnext Href Hd Hv Hnull Hb. unfold bcache_read. rewrite wp_bind.
  wp_apply bcache_acquire_head; [done..|].
  intros b s1 (-> & n1 & -> & Hnx1 & Hpv1 & Hr1 & Hd1 & Hv1 & Hdv1 & Hbn1).
  rewrite (proj2 (Z.eqb_neq (bc_head s) NULL)) by done.
  rewrite wp_bind. eapply wp_node; [apply lookup_insert_eq|]. rewrite Hv1. cbn [negb].
  rewrite wp_bind. wp_apply disk_sync_ok; [apply lookup_insert_eq|done|by rewrite Hv1|congruence|lia|congruence|by apply disk_idle_nodes|].
  cbn [nodes bc_head]. intros _ s2 (n2 & Hns2 & (Hnx2 & Hpv2 & Hr2 & Hdv2 & Hbn2) & Hd2 & Hv2 & Hc2 & Hh2 & Hid2 & Hdk2).
  rewrite wp_ret. rewrite insert_insert_eq in Hns2. rewrite Hd1 in *.
  split; [done|]. split; [done|]. split; [done|]. split.
  { intros k. rewrite Hdk2, decide_False by naive_solver. done. }
  exists n2. split; [done|]. rewrite Hnx2, Hpv2, Hr2, Hbn2, Hc2, Hbn1. by rewrite Hnx1, Hpv1.
Qed.

Lemma bcache_read_idle dv bno poll (s : BState D) :
  cache_idle s → 0 ≤ bno < 268435456 →
  wp (bcache_read patience dv bno poll) s (λ b s',
    cache_held s' b bno (disk_block s bno) ∧ ∀ k, disk_block s' k = disk_block s k).
Proof.
  intros [Hid (n & Hn & Hnx & Hpv & Hr & Hd & Hv) Hnull] Hb.
  wp_apply bcache_read_ok; [done|done|by left|done..|].
  intros b s' (-> & Hh & Hid' & Hdk & n' & Hns & Hnx' & Hpv' & Hr' & Hd' & Hv' & Hbn' & Hc').
  split; [|done]. split; [done| |done|done|apply ata_sector].
  exists n'. rewrite Hns, lookup_insert_eq, Hnx', Hpv'. done.
Qed.

Lemma node_store_ok (s : BState D) b bno l l' :
  cache_held s b bno l → length l' = 512%nat → Forall is_byte l' →
  wp (node_store b l') s (λ _ s', cache_held s' b bno l' ∧ ∀ k, disk_block s' k = disk_block s k).
Proof.
  intros [Hid (n & Hn & Hnx & Hpv & Hr & Hd & Hv & Hbn & Hc) [Hh Hnull] Hb Hl] Hl1 Hl2.
  unfold node_store. eapply wp_update; [done|]. split; [|done].
  split; [by apply disk_idle_nodes| |done|done|done].
  eexists. cbn [nodes]. rewrite lookup_insert_eq. done.
Qed.

Lemma bcache_write_ok (s : BState D) b bno l poll :
  cache_held s b bno l →
  wp (bcache_write patience b poll) s (λ _ s', cache_held s' b bno l ∧
    ∀ k, disk_block s' k = if decide (k = bno) then l else disk_block s k).
Proof.
  intros [Hid (n & Hn & Hnx & Hpv & Hr & Hd & Hv & Hbn & Hc) [Hh Hnull] Hb Hl].
  unfold bcache_write. rewrite wp_bind. eapply wp_update; [done|].
  wp_apply disk_sync_ok; [apply lookup_insert_eq|done|by rewrite Hv|done|cbn; lia|cbn; by rewrite Hc|by apply disk_idle_nodes|].
  cbn [nodes bc_head]. intros _ s2 (n2 & Hns2 & (Hnx2 & Hpv2 & Hr2 & Hdv2 & Hbn2) & Hd2 & Hv2 & Hc2 & Hh2 & Hid2 & Hdk2).
  rewrite insert_insert_eq in Hns2. cbn in *. split.
  - split; [done| |by rewrite Hh2|done|done]. exists n2.
    rewrite Hns2, lookup_insert_eq, Hnx2, Hpv2, Hr2, Hbn2, Hc2. done.
  - intros k. rewrite Hdk2, Hbn, Hc. repeat case_decide; try done; naive_solver.
Qed.

(** Releasing the node that is in use: whatever it was linked to, it becomes
    the only node of the ring. *)
Lemma bcache_free_ok (s : BState D) n :
  disk_idle (patience:=patience) s → nodes s !! bc_head s = Some n →
  is_Some (nodes s !! next n) → is_Some (nodes s !! prev n) → nref n = 1 → bc_head s ≠ NULL →
  wp (bcache_release (bc_head s)) s (λ _ s', cache_idle s' ∧ ∀ k, disk_block s' k = disk_block s k).
Proof.
  intros Hid Hn [nn Hnn] [np Hnp] Hr Hnull. unfold bcache_release, bcache_free.
  set (h := bc_head s) in *. rewrite wp_bind. eapply wp_update; [done|].
  rewrite wp_bind. eapply wp_node; [apply lookup_insert_eq|]. cbn [nref set_nref]. rewrite Hr.
  change (u32 (1 - 1) =? 0) with true. cbn iota. cbn [nodes bc_head dq_head hw].
  set (ns1 := <[h := set_nref (u32 (1 - 1)) n]> (nodes s)).
  assert (∀ p, is_Some (nodes s !! p) → ∃ m, ns1 !! p = Some m) as Hdom1.
  { intros p [m Hm]. unfold ns1. destruct (decide (p = h)) as [->|].
    - rewrite lookup_insert_eq. eauto.
    - rewrite lookup_insert_ne by done. eauto. }
  rewrite wp_bind. eapply wp_node; [apply lookup_insert_eq|]. cbn [next prev set_nref].
  destruct (Hdom1 (next n)) as [m1 Hm1]; [eauto|].
  rewrite wp_bind. eapply wp_update; [exact Hm1|]. cbn [nodes bc_head dq_head hw].
  set (ns2 := <[next n := set_prev (prev n) m1]> ns1).
  assert (∃ n2, ns2 !! h = Some n2 ∧ next n2 = next n ∧ prev n2 = prev n ∧ nref n2 = 0) as (n2 & Hn2 & Hnx2 & Hpv2 & Hr2).
  { unfold ns2. destruct (decide (next n = h)) as [He|].
    - rewrite He, lookup_insert_eq. eexists. split; [reflexivity|]. rewrite He in Hm1.
      unfold ns1 in Hm1. rewrite lookup_insert_eq in Hm1. injection Hm1 as <-. cbn. by rewrite He.
    - rewrite lookup_insert_ne by done. unfold ns1. rewrite lookup_insert_eq. by eexists. }
  assert (∃ m2, ns2 !! prev n = Some m2) as [m2 Hm2].
  { unfold ns2. destruct (decide (prev n = next n)) as [->|].
    - rewrite lookup_insert_eq. eauto.
    - rewrite lookup_insert_ne by done. apply Hdom1. eauto. }
  rewrite wp_bind. eapply wp_node; [exact Hn2|]. rewrite wp_bind, Hpv2, Hnx2.
  eapply wp_update; [exact Hm2|]. cbn [nodes bc_head dq_head hw].
  set (ns3 := <[prev n := set_next (next n) m2]> ns2).
  assert (∃ n3, ns3 !! h = Some n3 ∧ nref n3 = 0) as (n3 & Hn3 & Hr3).
  { unfold ns3. destruct (decide (prev n = h)) as [He|].
    - rewrite He, lookup_insert_eq. eexists. split; [reflexivity|]. rewrite He in Hm2.
      rewrite Hn2 in Hm2. injection Hm2 as <-. done.
    - rewrite lookup_insert_ne by done. eauto. }
  clearbody ns3. rewrite wp_bind, wp_gets. cbn [bc_head]. fold h.
  rewrite wp_bind. eapply wp_update; [exact Hn3|]. cbn [nodes bc_head dq_head hw].
  rewrite wp_bind. eapply wp_node; [apply lookup_insert_eq|]. cbn [prev set_next].
  rewrite wp_bind. eapply wp_update; [apply lookup_insert_eq|]. cbn [nodes bc_head dq_head hw].
  rewrite wp_bind. eapply wp_update; [apply lookup_insert_eq|]. cbn [nodes bc_head dq_head hw].
  rewrite wp_bind, wp_gets. cbn [bc_head]. fold h.
  rewrite wp_bind. eapply wp_update; [apply lookup_insert_eq|]. cbn [nodes bc_head dq_head hw].
  rewrite wp_bind. unfold set_bc_head. rewrite wp_modify. cbn [nodes bc_head dq_head hw].
  eapply wp_update; [apply lookup_insert_eq|]. cbn [nodes bc_head dq_head hw].
  split; [|done]. split; [by apply disk_idle_nodes| |done].
  eexists. cbn [nodes bc_head]. rewrite lookup_insert_eq. split; [reflexivity|]. cbn. done.
Qed.

Lemma bcache_release_ok (s : BState D) b bno l :
  cache_held s b bno l →
  wp (bcache_release b) s (λ _ s', cache_idle s' ∧ ∀ k, disk_block s' k = disk_block s k).
Proof.
  intros [Hid (n & Hn & Hnx & Hpv & Hr & _) [<- Hnull] _ _].
  eapply bcache_free_ok; [done|done|rewrite Hnx; eauto|rewrite Hpv; eauto|done|done].
Qed.

(** While the only node is in use, no other block can be read. *)
Lemma bcache_nested (s : BState D) b bno l dv bno' poll :
  cache_held s b bno l → bno' ≠ bno → bcache_read patience dv bno' poll s = Panic "bcache read".
Proof.
  intros [Hid (n & Hn & Hnx & Hpv & Hr & Hd & Hv & Hbn & Hc) [<- Hnull] _ _] Hne.
  unfold bcache_read.
  assert (bcache_acquire dv bno' s = Ok NULL s) as Hacq.
  { unfold bcache_acquire. rewrite (bind_ok _ _ _ NULL s).
    2:{ eapply walk_ring_single; [|done|done]. apply wp_eq. rewrite wp_bind. eapply wp_node; [done|].
        rewrite Hbn, (proj2 (Z.eqb_neq bno bno')), andb_false_r by done. by rewrite wp_ret. }
    rewrite Z.eqb_refl. cbn [negb]. rewrite (bind_ok _ _ _ NULL s).
    2:{ eapply walk_ring_single; [|done|done]. apply wp_eq. rewrite wp_bind. eapply wp_node; [done|].
        rewrite Hr. cbn. done. }
    by rewrite Z.eqb_refl. }
  rewrite (bind_ok _ _ _ _ _ Hacq). by rewrite Z.eqb_refl.
Qed.

Lemma node_cache_ok (s : BState D) b bno l : cache_held s b bno l → node_cache b s = Ok l s.
Proof.
  intros Hh. apply wp_eq. destruct Hh as [_ (n & Hn & _ & _ & _ & _ & _ & _ & <-) _ _ _].
  unfold node_cache. rewrite wp_bind. eapply wp_node; [done|]. by rewrite wp_ret.
Qed.

(** The cache implements the interface. *)
#[export] Instance bcache_store : BlockStore (BState D).
Proof.
  refine {| bs_read := bcache_read patience; bs_cache := node_cache; bs_store := node_store;
    bs_blockno := node_blockno; bs_write := bcache_write patience; bs_release := bcache_release;
    bs_blocks := disk_block; bs_idle := cache_idle; bs_held := cache_held |}.
  - intros. apply ata_sector.
  - exact (λ s dv bno poll, bcache_read_idle dv bno poll s).
  - exact node_cache_ok.
  - intros s b bno l Hh. apply wp_eq. destruct Hh as [_ (n & Hn & _ & _ & _ & _ & _ & <- & _) _ _ _].
    unfold node_blockno. rewrite wp_bind. eapply wp_node; [done|]. by rewrite wp_ret.
  - exact node_store_ok.
  - exact bcache_write_ok.
  - exact bcache_release_ok.
  - exact bcache_nested.
Defined.

End specs.

(** *** The ring that [bcache_init] builds *)

Section init.
Context {D : Type}.

(** The node [i] once the nodes up to [k] are linked *)
Definition linked (k i : Z) : BNode :=
  mkBNode (if i <? k then i + 1 else if (i =? 0) || (i =? NBUF - 1) then 0 else NULL)
          (if i =? 0 then NBUF - 1 else if (i <=? k) then i - 1 else if i =? NBUF - 1 then NBUF - 1 else NULL)
          NULL false false 0 0 0 (replicate 512 0).

Definition linked_upto (k : Z) (s : BState D) : Prop :=
  bc_head s = k ∧ ∀ i, 0 ≤ i < NBUF → nodes s !! i = Some (linked k i).

Lemma link_nodes_ok n b (s : BState D) :
  1 ≤ b → b + Z.of_nat n = NBUF → linked_upto (b - 1) s →
  wp (link_nodes n b) s (λ _ s', linked_upto (NBUF - 1) s' ∧ dq_head s' = dq_head s ∧ hw s' = hw s).
Proof.
  revert b s. induction n as [|n IH]; intros b s Hb Hn [Hh Hs]; cbn [link_nodes].
  { rewrite wp_ret. split; [|done]. replace (NBUF - 1) with (b - 1) by lia. done. }
  rewrite wp_bind, wp_gets, Hh. rewrite wp_bind. eapply wp_update; [apply Hs; lia|].
  cbn [nodes bc_head dq_head hw]. rewrite wp_bind. eapply wp_node; [apply lookup_insert_eq|].
  cbn [prev set_prev]. rewrite wp_bind. eapply wp_update; [cbn [nodes]; rewrite lookup_insert_ne by lia; apply Hs; lia|].
  cbn [nodes bc_head dq_head hw]. rewrite wp_bind. unfold set_bc_head. rewrite wp_modify.
  cbn [nodes bc_head dq_head hw]. wp_apply IH; [lia|lia| |done]. split; [cbn; lia|].
  intros i Hi. cbn [nodes]. replace (b + 1 - 1) with b by lia.
  destruct (decide (i = b - 1)) as [->|Hi1].
  { rewrite lookup_insert_eq. unfold linked, set_next. cbn [prev qnext dirty valid nref dev blockno cache].
    do 2 f_equal; repeat case_match; lia. }
  rewrite lookup_insert_ne by done. destruct (decide (i = b)) as [->|Hi2].
  { rewrite lookup_insert_eq. unfold linked, set_prev. cbn [next qnext dirty valid nref dev blockno cache].
    do 2 f_equal; repeat case_match; lia. }
  rewrite lookup_insert_ne by done. rewrite Hs by done. unfold linked. do 2 f_equal; repeat case_match; lia.
Qed.

Lemma zero_nodes_lookup i : 0 ≤ i < NBUF → zero_nodes !! i = Some zero_node.
Proof.
  intros Hi. unfold zero_nodes. apply lookup_gset_to_gmap_Some. split; [|done].
  apply elem_of_list_to_set, elem_of_seqZ. lia.
Qed.

Lemma bcache_init_ok (s : BState D) :
  nodes s = zero_nodes →
  wp bcache_init s (λ _ s', linked_upto (NBUF - 1) s' ∧ dq_head s' = dq_head s ∧ hw s' = hw s).
Proof.
  intros Hz. assert (∀ i, 0 ≤ i < NBUF → nodes s !! i = Some zero_node) as Hs.
  { intros i Hi. rewrite Hz. by apply zero_nodes_lookup. }
  assert (0 < NBUF - 1) as Hbig by done.
  unfold bcache_init. rewrite wp_bind. eapply wp_update; [apply Hs; lia|]. cbn [nodes bc_head dq_head hw].
  rewrite wp_bind. eapply wp_update; [apply lookup_insert_eq|]. cbn [nodes bc_head dq_head hw].
  rewrite insert_insert_eq. rewrite wp_bind. eapply wp_update; [cbn [nodes]; rewrite lookup_insert_ne by lia; apply Hs; lia|].
  cbn [nodes bc_head dq_head hw]. rewrite wp_bind. eapply wp_update; [apply lookup_insert_eq|].
  cbn [nodes bc_head dq_head hw]. rewrite insert_insert_eq. rewrite wp_bind. unfold set_bc_head. rewrite wp_modify.
  cbn [nodes bc_head dq_head hw]. wp_apply link_nodes_ok; [lia|rewrite Z2Nat.id; lia| |done].
  split; [done|]. intros i Hi. cbn [nodes].
  destruct (decide (i = NBUF - 1)) as [->|Hi1]; [rewrite lookup_insert_eq|rewrite lookup_insert_ne by done].
  { unfold linked. do 2 f_equal; cbn; repeat case_match; lia. }
  destruct (decide (i = 0)) as [->|Hi0]; [rewrite lookup_insert_eq|rewrite lookup_insert_ne by done].
  { unfold linked. do 2 f_equal; cbn; repeat case_match; lia. }
  rewrite Hs by done. unfold linked, zero_node. do 2 f_equal; cbn; repeat case_match; lia.
Qed.

End init.

(** ** Properties *)

Section properties.
Context {D : Type} {P : Ports D} {patience : nat} {A : AtaDrive D patience}.

(** [bcache_init] links the [NBUF] nodes into one ring: following [next]
    from the head visits node after node and comes back, [prev] is the inverse,
    and no node is in use, dirty or valid. *)
Theorem bcache_init_ring (s : BState D) :
  nodes s = zero_nodes →
  wp bcache_init s (λ _ s', bc_head s' = NBUF - 1 ∧ ∀ i, 0 ≤ i < NBUF → ∃ n,
    nodes s' !! i = Some n ∧ next n = (i + 1) mod NBUF ∧ prev n = (i - 1) mod NBUF ∧
    nref n = 0 ∧ dirty n = false ∧ valid n = false).
Proof.
  intros Hz. wp_apply (bcache_init_ok (D:=D)); [done|]. intros _ s' ([Hh Hs] & _). split; [done|].
  intros i Hi. exists (linked (NBUF - 1) i). split; [by apply Hs|]. unfold linked. cbn [next prev nref dirty valid].
  change NBUF with 2560 in *. split; [|split; [|split; [|split]; reflexivity]].
  - destruct (Z.ltb_spec i (2560 - 1)); [by rewrite Z.mod_small by lia|].
    replace i with 2559 by lia. done.
  - destruct (Z.eqb_spec i 0) as [->|]; [done|]. rewrite (Z.mod_small (i - 1)) by lia.
    by rewrite (proj2 (Z.leb_le i (2560 - 1))) by lia.
Qed.

(** The first use of the cache after [bcache_init] *)
Lemma bcache_first (s1 : BState D) bno poll (Q : list Z → BState D → Prop) :
  linked_upto (NBUF - 1) s1 → disk_idle (patience:=patience) s1 → bno = 0 →
  (∀ l s', l = disk_block s1 bno → cache_idle (patience:=patience) s' → (∀ k, disk_block s' k = disk_block s1 k) → Q l s') →
  wp (bcache_read patience 0 bno poll) s1 (λ b s2, wp (node_cache b) s2 (λ l s3, wp (bcache_release b) s3 (λ _, Q l))).
Proof.
  intros [Hh Hs] Hid1 -> HQ. assert (0 ≤ bc_head s1 < NBUF) as Hr by (rewrite Hh; change NBUF with 2560; lia).
  wp_apply bcache_read_ok; [done|by apply Hs|by right|done|done|done|rewrite Hh; discriminate|lia|].
  intros b s2 (-> & Hh2 & Hid2 & Hdk2 & n & Hn & Hnx & Hpv & Hnr & Hd & Hv & Hbn & Hc).
  unfold node_cache. rewrite wp_bind. eapply wp_node; [rewrite Hn; apply lookup_insert_eq|].
  rewrite wp_ret. rewrite <- Hh2.
  assert (∀ p, 0 ≤ p < NBUF → is_Some (nodes s2 !! p)) as Hdom.
  { intros p Hp. rewrite Hn. destruct (decide (p = bc_head s1)) as [->|].
    - rewrite lookup_insert_eq. eauto.
    - rewrite lookup_insert_ne by done. rewrite Hs by done. eauto. }
  wp_apply (bcache_free_ok (patience:=patience) s2 n).
  - done.
  - rewrite Hn, Hh2. apply lookup_insert_eq.
  - apply Hdom. rewrite Hnx, Hh. vm_compute. by split.
  - apply Hdom. rewrite Hpv, Hh. vm_compute. by split.
  - done.
  - rewrite Hh2, Hh. discriminate.
  - intros _ s3 [Hid3 Hdk3]. apply HQ; [done|done|]. intros k. by rewrite Hdk3, Hdk2.
Qed.

(** The first use of the cache at boot, [block_super(0, 0, true)]: after
    [bcache_init] the block is read from the disk, and after its release the
    cache is idle: one node linked to itself. *)
Theorem bcache_boot (s : BState D) bno poll :
  nodes s = zero_nodes → disk_idle (patience:=patience) s → bno = 0 →
  wp (do! bcache_init in
      let! b := bcache_read patience 0 bno poll in
      let! l := node_cache b in
      do! bcache_release b in ret l) s
    (λ l s', l = disk_block s bno ∧ cache_idle (patience:=patience) s' ∧
      ∀ k, disk_block s' k = disk_block s k).
Proof.
  intros Hz Hid Hb. rewrite wp_bind. wp_apply (bcache_init_ok (D:=D)); [done|].
  intros _ s1 (Hl & Hq & Hhw). assert (disk_idle (patience:=patience) s1) as Hid1.
  { destruct Hid. split; rewrite ?Hhw, ?Hq; done. }
  assert (∀ k, disk_block s1 k = disk_block s k) as Hdk1 by (intros k; unfold disk_block; by rewrite Hhw).
  rewrite wp_bind. eapply wp_mono; [apply (bcache_first s1 bno poll (λ l s', l = disk_block s bno ∧ cache_idle (patience:=patience) s' ∧
    ∀ k, disk_block s' k = disk_block s k)); try done|].
  - intros l s' -> Hi Hk. split; [by rewrite Hdk1|]. split; [done|]. intros k. by rewrite Hk, Hdk1.
  - cbn beta. intros b s2 Hw. rewrite wp_bind. eapply wp_mono; [exact Hw|]. cbn beta. intros l s3 Hw'. rewrite wp_bind.
    eapply wp_mono; [exact Hw'|]. intros [] s4 HQ. by rewrite wp_ret.
Qed.

(** C15: the cache and the driver together, by polling or by interrupt: reading
    a block yields its bytes on the disk, storing other bytes, writing and
    releasing it makes the disk hold these bytes in that block and leaves every
    other block alone; the cache is idle again. *)
Theorem bcache_update (s : BState D) dv bno l poll :
  cache_idle (patience:=patience) s → 0 ≤ bno < 268435456 → length l = 512%nat → Forall is_byte l →
  wp (let! b := bcache_read patience dv bno poll in
      let! old := node_cache b in
      do! node_store b l in
      do! bcache_write patience b poll in
      do! bcache_release b in ret old) s
    (λ old s', old = disk_block s bno ∧ cache_idle (patience:=patience) s' ∧
      ∀ k, disk_block s' k = if decide (k = bno) then l else disk_block s k).
Proof.
  intros Hid Hb Hl Hl'. rewrite wp_bind. wp_apply bcache_read_idle; [exact Hid|exact Hb|].
  intros b s1 [Hh1 Hk1]. rewrite wp_bind. eapply wp_ok; [by eapply node_cache_ok|]. cbn beta.
  rewrite wp_bind. wp_apply node_store_ok; [exact Hh1|done|done|]. intros _ s2 [Hh2 Hk2].
  rewrite wp_bind. wp_apply bcache_write_ok; [exact Hh2|]. intros _ s3 [Hh3 Hk3].
  rewrite wp_bind. wp_apply bcache_release_ok; [exact Hh3|]. intros _ s4 [Hid4 Hk4].
  rewrite wp_ret. split; [done|]. split; [exact Hid4|].
  intros k. rewrite Hk4, Hk3. case_decide; [done|]. by rewrite Hk2, Hk1.
Qed.

(** Once the cache was used, it holds one block only: reading a second
    block while the first one is in use panics. *)
Theorem bcache_second_block (s : BState D) dv bno dv' bno' poll :
  cache_idle (patience:=patience) s → 0 ≤ bno < 268435456 → bno' ≠ bno →
  (let! b := bcache_read patience dv bno poll in
   bcache_read patience dv' bno' poll) s = Panic "bcache read".
Proof.
  intros Hid Hb Hne. pose proof (bcache_read_idle dv bno poll s Hid Hb) as Hr.
  apply wp_run in Hr as (b & s1 & Hrun & Hh & _). rewrite (bind_ok _ _ _ _ _ Hrun).
  by eapply bcache_nested.
Qed.

End properties.

(** ** Witnesses *)

(** The simulated drive, ready, with some bytes in its first block *)
Definition sim_fresh : SimDrive :=
  mkSimDrive (0, 0, 0, 0, 0) {[ (1, 0) := replicate 512 7 ]} Idle false 0.

Definition boot_state : BState SimDrive := mkBState zero_nodes 0 NULL sim_fresh.

Lemma boot_disk_idle : disk_idle (patience:=3) boot_state.
Proof. split; cbn; [done|lia|done|done]. Qed.

Lemma bcache_init_ring_witness :
  wp bcache_init boot_state (λ _ s', bc_head s' = 2559 ∧ next <$> nodes s' !! 0 = Some 1).
Proof.
  eapply wp_mono; [apply bcache_init_ring; reflexivity|].
  intros _ s' [Hh Hs]. split; [exact Hh|]. destruct (Hs 0) as (n & -> & Hn & _); [done|].
  cbn. by rewrite Hn.
Defined.

Lemma bcache_boot_witness :
  wp (do! bcache_init in
      let! b := bcache_read 3 0 0 true in
      let! l := node_cache b in
      do! bcache_release b in ret l) boot_state
    (λ l s', l = replicate 512 7 ∧ cache_idle (patience:=3) s').
Proof.
  eapply wp_mono; [apply (bcache_boot (patience:=3) boot_state 0 true); [done|exact boot_disk_idle|done]|].
  intros l s' (-> & Hid & _). split; [|exact Hid]. unfold disk_block. cbn [hw boot_state]. vm_compute. reflexivity.
Defined.

(** An idle cache, with one node *)
Definition idle_state : BState SimDrive :=
  mkBState {[ 5 := mkBNode 5 5 NULL false false 0 0 0 (replicate 512 0) ]} 5 NULL sim_fresh.

Lemma idle_state_ok : cache_idle (patience:=3) idle_state.
Proof. split; [split; cbn; [done|lia|done|done]|by eexists|done]. Qed.

Lemma bcache_update_witness :
  wp (let! b := bcache_read 3 1 0 false in
      let! old := node_cache b in
      do! node_store b (replicate 512 9) in
      do! bcache_write 3 b false in
      do! bcache_release b in ret old) idle_state
    (λ old s', old = replicate 512 7 ∧ disk_block (patience:=3) s' 0 = replicate 512 9).
Proof.
  eapply wp_mono.
  - apply (bcache_update (patience:=3) idle_state 1 0 (replicate 512 9) false).
    + exact idle_state_ok.
    + done.
    + reflexivity.
    + apply Forall_replicate. unfold is_byte. lia.
  - intros old s' (-> & _ & Hk). split; [vm_compute; reflexivity|]. by rewrite Hk, decide_True.
Defined.

Lemma bcache_second_block_witness :
  (let! b := bcache_read 3 1 0 false in bcache_read 3 1 9 false) idle_state = Panic "bcache read".
Proof. apply (bcache_second_block (patience:=3)); [exact idle_state_ok|done|done]. Defined.
