(* ===== verification/Block.v ===== *)
(** * kernel/fs/block.c: the superblock and the map of free blocks

    The code is verified against the interface [BlockStore] of the cache. *)
From S2P Require Import Prelude Machine Ide Disk BCache.

(** [SuperBlock] of kernel/fs/fdefs.h *)
Record SuperBlock := mkSuperBlock {
  nblocks : Z;
  ninodes : Z;
  ndata : Z;
  inodestart : Z;
  bmapstart : Z;
  datastart : Z;
}.

(** Six words *)
Definition sb_decode (l : list Z) : SuperBlock :=
  let w i := le_num (slice (4 * i) 4 l) in
  mkSuperBlock (w 0%nat) (w 1%nat) (w 2%nat) (w 3%nat) (w 4%nat) (w 5%nat).

Definition sb_encode (sb : SuperBlock) : list Z :=
  le_bytes 4 (nblocks sb) ++ le_bytes 4 (ninodes sb) ++ le_bytes 4 (ndata sb) ++
  le_bytes 4 (inodestart sb) ++ le_bytes 4 (bmapstart sb) ++ le_bytes 4 (datastart sb).

Record BlkState (S : Type) := mkBlkState {
  store : S;
  super_block : SuperBlock;
}.
Arguments mkBlkState {S} store super_block.
Arguments store {S}.
Arguments super_block {S}.

Section block.
Context {T : Type} {BS : BlockStore T}.
Notation St := (BlkState T).

Definition with_store {A} (m : M T A) : M St A :=
  zoom store (λ t s, mkBlkState t (super_block s)) m.

Definition BITS_PER_BLK : Z := BSIZE * 8.

Definition block_zero (dv bno : Z) : M St unit :=
  let! b := with_store (bs_read dv bno false) in
  do! with_store (bs_store b (replicate (Z.to_nat BSIZE) 0)) in
  do! with_store (bs_write b false) in
  with_store (bs_release b).

(** The value stored to [*sb]; with [update], also to [super_block]. *)
Definition block_super (dv : Z) (update : bool) : M St SuperBlock :=
  if update then
    let! b := with_store (bs_read dv SUPERBLKNO true) in
    let! l := with_store (bs_cache b) in
    do! modify (λ s, mkBlkState (store s) (sb_decode l)) in
    do! with_store (bs_release b) in
    ret (sb_decode l)
  else gets super_block.

Definition block_init (dv : Z) : M St unit := let! _ := block_super dv true in done!.

(** [FreemapAddr]: the block and the bit in it *)
Definition freemap_addr (bno : Z) : M St (Z * Z) :=
  let! sb := gets super_block in
  if bno <? datastart sb then panic "freemap_addr: blockno smaller than data start" else
  if nblocks sb <? bno then panic "freemap_addr: blockno larger then file system size" else
  let off := u32 (bno - datastart sb) in
  ret (u32 (off / BITS_PER_BLK + bmapstart sb), off mod BITS_PER_BLK).

Definition freemap_check (dv bno : Z) : M St bool :=
  let! '(fbno, nbit) := freemap_addr bno in
  let! b := with_store (bs_read dv fbno false) in
  let! l := with_store (bs_cache b) in
  let! c := need (l !! Z.to_nat (nbit / 8)) in
  let r := negb (Z.land (s8 c) (Z.shiftr 0x80 (nbit mod 8)) =? 0) in
  do! with_store (bs_release b) in
  ret r.

Definition set_bit (c nbit : Z) (used : bool) : Z :=
  if used then u8 (Z.lor c (Z.shiftr 0x80 (nbit mod 8)))
  else u8 (Z.land c (Z.lnot (Z.shiftr 0x80 (nbit mod 8)))).

Definition freemap_set (dv bno : Z) (used : bool) : M St unit :=
  let! sb := gets super_block in
  if bno <? datastart sb then panic "freemap_set" else
  let! '(fbno, nbit) := freemap_addr bno in
  let! b := with_store (bs_read dv fbno false) in
  let! l := with_store (bs_cache b) in
  let! c := need (l !! Z.to_nat (nbit / 8)) in
  do! with_store (bs_store b (<[Z.to_nat (nbit / 8) := set_bit c nbit used]> l)) in
  do! with_store (bs_write b false) in
  with_store (bs_release b).

(** [for (; byte & (1 << 7); byte <<= 1, ++n)]; a byte has at most 8 ones. *)
Fixpoint leading_ones (fuel : nat) (byte : Z) : Z :=
  match fuel with
  | O => 0
  | S fuel => if Z.land byte 0x80 =? 0 then 0 else 1 + leading_ones fuel (u8 (Z.shiftl byte 1))
  end.

(** The loop over the bytes of one block of the map: the number of the bit it
    returns *)
Fixpoint search_bytes (l : list Z) : option Z :=
  match l with
  | [] => None
  | byte :: l =>
      if byte =? 0 then Some 0
      else if negb (Z.land byte 0xff =? 0) then Some (leading_ones 8 byte)
      else search_bytes l
  end.

(** [for (off = 0; off < nblks; ++off)], the last [n] rounds *)
Fixpoint search_blocks (n : nat) (dv off : Z) : M St (option Z) :=
  match n with
  | O => ret None
  | S n =>
      let! sb := gets super_block in
      let! b := with_store (bs_read dv (u32 (off + bmapstart sb)) false) in
      let! l := with_store (bs_cache b) in
      match search_bytes l with
      | Some k =>
          do! with_store (bs_release b) in
          ret (Some (u32 (datastart sb + off * BITS_PER_BLK + k)))
      | None =>
          do! with_store (bs_release b) in
          search_blocks n dv (off + 1)
      end
  end.

Definition freemap_search (dv : Z) : M St (option Z) :=
  let! sb := gets super_block in
  search_blocks (Z.to_nat (u32 (datastart sb - bmapstart sb))) dv 0.

Definition block_alloc (dv : Z) : M St Z :=
  let! r := freemap_search dv in
  match r with
  | Some fbno =>
      if fbno =? 0 then panic "bad_alloc" else
      do! freemap_set dv fbno true in ret fbno
  | None => ret 0
  end.

Definition block_free (dv bno : Z) : M St unit :=
  let! used := freemap_check dv bno in
  if negb used then panic "block_free: block is already free" else
  freemap_set dv bno false.

(** ** Specifications *)

(** The layout of the disk: the map follows the inodes, the data follow the
    map, and the map has a bit for every data block. *)
Record layout_ok (sb : SuperBlock) : Prop := mk_layout_ok {
  lo_bmap : 0 < bmapstart sb < datastart sb;
  lo_data : datastart sb ≤ nblocks sb < 268435456;
  lo_bits : nblocks sb - datastart sb < BITS_PER_BLK * (datastart sb - bmapstart sb);
}.

(** The bit of a data block *)
Definition map_block (sb : SuperBlock) (bno : Z) : Z := (bno - datastart sb) / BITS_PER_BLK + bmapstart sb.

Definition map_bit (sb : SuperBlock) (bno : Z) : Z := (bno - datastart sb) mod BITS_PER_BLK.

Definition bit_set (l : list Z) (nbit : Z) : bool :=
  match l !! Z.to_nat (nbit / 8) with
  | Some c => Z.testbit c (7 - nbit mod 8)
  | None => false
  end.

(** The abstract state: is the data block [bno] in use? *)
Definition used (s : St) (bno : Z) : bool :=
  bit_set (bs_blocks (store s) (map_block (super_block s) bno)) (map_bit (super_block s) bno).

Definition data_block (sb : SuperBlock) (bno : Z) : Prop := datastart sb ≤ bno ≤ nblocks sb.

Definition blk_idle (s : St) : Prop := bs_idle (store s) ∧ layout_ok (super_block s).

(** ** Lemmas *)

Lemma wp_with_store {A} (m : M T A) (s : St) Q :
  wp m (store s) (λ a t, Q a (mkBlkState t (super_block s))) → wp (with_store m) s Q.
Proof. unfold with_store. by rewrite wp_zoom. Qed.

Lemma wp_with_store_ok {A} (m : M T A) (s : St) a (Q : A → St → Prop) :
  m (store s) = Ok a (store s) → Q a s → wp (with_store m) s Q.
Proof. intros Hm HQ. apply wp_with_store. eapply wp_ok; [exact Hm|]. by destruct s. Qed.

(** The mask selects one bit. *)
Lemma mask_bit c k : 0 ≤ k < 8 → Z.land c (Z.shiftr 0x80 k) =? 0 = negb (Z.testbit c (7 - k)).
Proof.
  intros Hk. assert (Z.shiftr 0x80 k = 2 ^ (7 - k)) as ->.
  { rewrite Z.shiftr_div_pow2 by lia. change 0x80 with (2 ^ 7). rewrite <- Z.pow_sub_r by lia. done. }
  destruct (Z.testbit c (7 - k)) eqn:E; cbn [negb].
  - apply Z.eqb_neq. intros H0. assert (Z.testbit (Z.land c (2 ^ (7 - k))) (7 - k) = true) as Ht.
    { rewrite Z.land_spec, E, Z.pow2_bits_true by lia. done. }
    rewrite H0, Z.bits_0 in Ht. done.
  - apply Z.eqb_eq. apply Z.bits_inj'. intros i Hi. rewrite Z.land_spec, Z.bits_0.
    destruct (decide (i = 7 - k)) as [->|]; [by rewrite E|].
    rewrite Z.pow2_bits_false by lia. apply andb_false_r.
Qed.

Lemma set_bit_spec c nbit used i :
  0 ≤ i < 8 → Z.testbit (set_bit c nbit used) i = if decide (i = 7 - nbit mod 8) then used else Z.testbit c i.
Proof.
  intros Hi. pose proof (Z.mod_pos_bound nbit 8 ltac:(lia)) as Hm.
  assert (Z.shiftr 0x80 (nbit mod 8) = 2 ^ (7 - nbit mod 8)) as Hp.
  { rewrite Z.shiftr_div_pow2 by lia. change 0x80 with (2 ^ 7). rewrite <- Z.pow_sub_r by lia. done. }
  unfold set_bit, u8. change 256 with (2 ^ 8). destruct used; rewrite Hp, Z.mod_pow2_bits_low by lia.
  - rewrite Z.lor_spec. case_decide as Hd.
    + subst i. rewrite Z.pow2_bits_true by lia. apply orb_true_r.
    + rewrite Z.pow2_bits_false by lia. apply orb_false_r.
  - rewrite Z.land_spec, Z.lnot_spec by lia. case_decide as Hd.
    + subst i. rewrite Z.pow2_bits_true by lia. apply andb_false_r.
    + rewrite Z.pow2_bits_false by lia. apply andb_true_r.
Qed.

Lemma testbit_s8 c i : is_byte c → 0 ≤ i < 8 → Z.testbit (s8 c) i = Z.testbit c i.
Proof.
  intros Hc Hi. rewrite <- (Z.mod_pow2_bits_low (s8 c) 8 i), <- (Z.mod_pow2_bits_low c 8 i) by lia.
  f_equal. change (2 ^ 8) with 256. apply s8_u8.
Qed.

(** *** The bits of the map *)

Lemma bit_set_insert l nbit nbit' v :
  0 ≤ nbit → 0 ≤ nbit' → nbit / 8 < zlen l → Forall is_byte l →
  bit_set (<[Z.to_nat (nbit / 8) := set_bit (default 0 (l !! Z.to_nat (nbit / 8))) nbit v]> l) nbit' =
    if decide (nbit' = nbit) then v else bit_set l nbit'.
Proof.
  intros Hn Hn' Hlen Hb. unfold bit_set, zlen in *.
  assert (0 ≤ nbit / 8) as H1 by (apply Z.div_pos; lia).
  assert (0 ≤ nbit' / 8) as H1' by (apply Z.div_pos; lia).
  pose proof (Z.div_mod nbit 8 ltac:(lia)) as E. pose proof (Z.div_mod nbit' 8 ltac:(lia)) as E'.
  pose proof (Z.mod_pos_bound nbit' 8 ltac:(lia)) as Hm'.
  destruct (decide (nbit' / 8 = nbit / 8)) as [He|He].
  - rewrite He, list_lookup_insert_eq by lia. rewrite set_bit_spec by lia.
    destruct (lookup_lt_is_Some_2 l (Z.to_nat (nbit / 8)) ltac:(lia)) as [c Hc]. rewrite Hc. cbn [default].
    repeat case_decide; try done; lia.
  - rewrite list_lookup_insert_ne by lia. rewrite decide_False; [done|]. intros ->. done.
Qed.

Lemma map_block_range sb bno :
  layout_ok sb → data_block sb bno → bmapstart sb ≤ map_block sb bno < datastart sb.
Proof.
  intros [Hb Hd Hbits] [Hlo Hhi]. unfold map_block. change BITS_PER_BLK with 4096 in *.
  split; Z.div_mod_to_equations; lia.
Qed.

Lemma map_bit_range sb bno : 0 ≤ map_bit sb bno < 4096.
Proof. unfold map_bit. change BITS_PER_BLK with 4096. apply Z.mod_pos_bound. lia. Qed.

(** Different blocks have different bits. *)
Lemma map_inj sb a b : map_block sb a = map_block sb b → map_bit sb a = map_bit sb b → a = b.
Proof.
  unfold map_block, map_bit. change BITS_PER_BLK with 4096. intros. Z.div_mod_to_equations. lia.
Qed.

Lemma freemap_addr_ok (s : St) bno :
  layout_ok (super_block s) → data_block (super_block s) bno →
  freemap_addr bno s = Ok (map_block (super_block s) bno, map_bit (super_block s) bno) s.
Proof.
  intros Hlo Hd. pose proof (map_block_range _ _ Hlo Hd) as Hr. destruct Hd as [Hd1 Hd2].
  destruct Hlo as [? ? ?]. unfold freemap_addr, bind, gets.
  destruct (Z.ltb_spec bno (datastart (super_block s))); [lia|].
  destruct (Z.ltb_spec (nblocks (super_block s)) bno); [lia|].
  unfold ret. rewrite (u32_small (bno - _)) by lia. rewrite u32_small; [done|].
  unfold map_block in Hr. lia.
Qed.

(** The states before and after an operation that ends with a release *)
Definition same_but (s s' : St) (f : Z → list Z) : Prop :=
  blk_idle s' ∧ super_block s' = super_block s ∧ ∀ k, bs_blocks (store s') k = f k.

Lemma map_byte (s : St) bno :
  ∃ c, bs_blocks (store s) (map_block (super_block s) bno) !! Z.to_nat (map_bit (super_block s) bno / 8) = Some c
       ∧ is_byte c.
Proof.
  destruct (bs_block_ok (store s) (map_block (super_block s) bno)) as [Hl Hb].
  pose proof (map_bit_range (super_block s) bno) as Hr.
  destruct (lookup_lt_is_Some_2 (bs_blocks (store s) (map_block (super_block s) bno))
    (Z.to_nat (map_bit (super_block s) bno / 8))) as [c Hc].
  { rewrite Hl. Z.div_mod_to_equations. lia. }
  exists c. split; [done|]. by eapply Forall_lookup_1.
Qed.

Lemma freemap_check_ok (s : St) dv bno :
  blk_idle s → data_block (super_block s) bno →
  wp (freemap_check dv bno) s (λ r s', r = used s bno ∧ same_but s s' (bs_blocks (store s))).
Proof.
  intros [Hid Hlo] Hd. pose proof (map_block_range _ _ Hlo Hd) as Hr. pose proof (lo_data _ Hlo).
  pose proof (lo_bmap _ Hlo). unfold freemap_check. rewrite wp_bind.
  eapply wp_ok; [by apply freemap_addr_ok|]. cbn beta iota.
  rewrite wp_bind. apply wp_with_store. wp_apply bs_read_ok; [done|lia|]. intros b t [Hh Hk].
  rewrite wp_bind. eapply wp_with_store_ok; [by eapply bs_cache_ok|].
  destruct (map_byte s bno) as (c & Hc & Hcb). rewrite wp_bind. eapply wp_need; [exact Hc|].
  rewrite wp_bind. apply wp_with_store. cbn [store]. wp_apply bs_release_ok; [exact Hh|]. intros _ t' [Hi' Hk'].
  rewrite wp_ret. pose proof (Z.mod_pos_bound (map_bit (super_block s) bno) 8 ltac:(lia)). split.
  - rewrite mask_bit by lia. rewrite negb_involutive, testbit_s8 by (done || lia).
    unfold used, bit_set. by rewrite Hc.
  - split; [done|]. split; [done|]. intros k. cbn [store]. by rewrite Hk', Hk.
Qed.

Lemma freemap_set_ok (s : St) dv bno v :
  blk_idle s → data_block (super_block s) bno →
  wp (freemap_set dv bno v) s (λ _ s', blk_idle s' ∧ super_block s' = super_block s ∧
    (∀ k, k ≠ map_block (super_block s) bno → bs_blocks (store s') k = bs_blocks (store s) k) ∧
    (∀ b, data_block (super_block s) b → used s' b = if decide (b = bno) then v else used s b)).
Proof.
  intros [Hid Hlo] Hd. pose proof (map_block_range _ _ Hlo Hd) as Hr. pose proof (lo_data _ Hlo).
  pose proof (lo_bmap _ Hlo). pose proof Hd as [Hd1 Hd2]. unfold freemap_set. rewrite wp_bind, wp_gets.
  destruct (Z.ltb_spec bno (datastart (super_block s))); [lia|].
  rewrite wp_bind. eapply wp_ok; [by apply freemap_addr_ok|]. cbn beta iota.
  rewrite wp_bind. apply wp_with_store. wp_apply bs_read_ok; [done|lia|]. intros b t [Hh Hk].
  rewrite wp_bind. eapply wp_with_store_ok; [by eapply bs_cache_ok|].
  destruct (map_byte s bno) as (c & Hc & Hcb). rewrite wp_bind. eapply wp_need; [exact Hc|].
  destruct (bs_block_ok (store s) (map_block (super_block s) bno)) as [Hlen Hbytes].
  set (l := bs_blocks (store s) (map_block (super_block s) bno)) in *.
  set (nb := map_bit (super_block s) bno) in *.
  rewrite wp_bind. apply wp_with_store. cbn [store].
  wp_apply bs_store_ok; [exact Hh|by rewrite length_insert| |].
  { apply Forall_insert; [done|]. unfold set_bit. destruct v; apply u8_range. }
  intros _ t1 [Hh1 Hk1].
  rewrite wp_bind. apply wp_with_store. cbn [store]. wp_apply bs_write_ok; [exact Hh1|]. intros _ t2 [Hh2 Hk2].
  apply wp_with_store. cbn [store]. wp_apply bs_release_ok; [exact Hh2|]. intros _ t3 [Hi3 Hk3].
  cbn [store super_block]. split; [done|]. split; [done|]. split.
  { intros k Hne. by rewrite Hk3, Hk2, decide_False, Hk1, Hk by done. }
  intros b' Hd'. unfold used. cbn [store super_block]. rewrite Hk3, Hk2.
  case_decide as Hmb.
  - pose proof (bit_set_insert l nb (map_bit (super_block s) b') v) as Hbi. rewrite Hc in Hbi. change (default 0 (Some c)) with c in Hbi.
    rewrite Hbi; [|apply map_bit_range|apply map_bit_range|unfold zlen; rewrite Hlen|done].
    + destruct (decide (b' = bno)) as [->|Hne].
      * by rewrite decide_True.
      * rewrite decide_False by (intros Hb; by apply Hne, (map_inj (super_block s))). by rewrite Hmb.
    + pose proof (map_bit_range (super_block s) bno) as Hnb. fold nb in Hnb. clearbody nb. clear - Hnb.
      Z.div_mod_to_equations. lia.
  - rewrite Hk1, Hk. rewrite decide_False; [done|]. by intros ->.
Qed.

(** The number of leading ones is the place of the first zero. *)
Definition leading_ones_check (c : Z) : bool :=
  let k := leading_ones 8 c in
  (0 <=? k) && (k <=? 8) && forallb (λ j, Z.testbit c (7 - j)) (seqZ 0 k) &&
  (if k <? 8 then negb (Z.testbit c (7 - k)) else true).

Lemma leading_ones_spec c :
  is_byte c →
  0 ≤ leading_ones 8 c ≤ 8 ∧ (∀ j, 0 ≤ j < leading_ones 8 c → Z.testbit c (7 - j) = true) ∧
  (leading_ones 8 c < 8 → Z.testbit c (7 - leading_ones 8 c) = false).
Proof.
  intros Hc. assert (leading_ones_check c = true) as Hcheck.
  { assert (forallb leading_ones_check (seqZ 0 256) = true) as Hall by (vm_compute; reflexivity).
    rewrite forallb_forall in Hall. apply Hall. apply list_elem_of_In, elem_of_seqZ.
    unfold is_byte in Hc. lia. }
  unfold leading_ones_check in Hcheck. set (k := leading_ones 8 c) in *.
  apply andb_prop in Hcheck as [[[H0 H8]%andb_prop Hall]%andb_prop Hz]. split; [lia|]. split.
  - intros j Hj. rewrite forallb_forall in Hall. apply Hall, list_elem_of_In, elem_of_seqZ. lia.
  - intros Hlt. apply Z.ltb_lt in Hlt. rewrite Hlt in Hz. by apply negb_true_iff in Hz.
Qed.

(** The search looks at the first byte of the map only. *)
Lemma search_bytes_first c l : is_byte c → search_bytes (c :: l) = Some (leading_ones 8 c).
Proof.
  intros Hc. cbn [search_bytes]. destruct (Z.eqb_spec c 0) as [->|Hne]; [done|].
  assert (Z.land c 0xff = c) as ->.
  { change 0xff with (Z.ones 8). rewrite Z.land_ones by lia. by apply Z.mod_small. }
  by rewrite (proj2 (Z.eqb_neq c 0)).
Qed.

(** The block that [freemap_search] finds *)
Definition first_candidate (s : St) : Z :=
  datastart (super_block s) +
  leading_ones 8 (default 0 (head (bs_blocks (store s) (bmapstart (super_block s))))).

Lemma freemap_search_ok (s : St) dv :
  blk_idle s → datastart (super_block s) + 8 ≤ nblocks (super_block s) →
  wp (freemap_search dv) s (λ r s', r = Some (first_candidate s) ∧ same_but s s' (bs_blocks (store s))).
Proof.
  intros [Hid Hlo] Hbig. pose proof (lo_data _ Hlo). pose proof (lo_bmap _ Hlo).
  unfold freemap_search. rewrite wp_bind, wp_gets. rewrite u32_small by lia.
  destruct (Z.to_nat (datastart (super_block s) - bmapstart (super_block s))) as [|n] eqn:En; [lia|].
  cbn [search_blocks]. rewrite wp_bind, wp_gets, u32_small by lia.
  rewrite wp_bind. apply wp_with_store. wp_apply bs_read_ok; [done|lia|]. intros b t [Hh Hk].
  rewrite wp_bind. eapply wp_with_store_ok; [by eapply bs_cache_ok|].
  rewrite Z.add_0_l. destruct (bs_block_ok (store s) (bmapstart (super_block s))) as [Hlen Hbytes].
  unfold first_candidate. destruct (bs_blocks (store s) (bmapstart (super_block s))) as [|c l] eqn:El; [done|].
  apply Forall_cons in Hbytes as [Hc _]. rewrite search_bytes_first by done. cbn [head].
  change (default 0 (Some c)) with c.
  destruct (leading_ones_spec c Hc) as [Hk8 _].
  rewrite wp_bind. apply wp_with_store. cbn [store]. wp_apply bs_release_ok; [exact Hh|].
  intros _ t' [Hi' Hk']. rewrite wp_ret. split.
  - f_equal. rewrite Z.mul_0_l, Z.add_0_r. apply u32_small. lia.
  - split; [done|]. split; [done|]. intros k. cbn [store]. by rewrite Hk', Hk.
Qed.

(** The first eight data blocks have their bits in that byte. *)
Lemma used_first (s : St) j :
  layout_ok (super_block s) → 0 ≤ j < 8 →
  used s (datastart (super_block s) + j) =
    Z.testbit (default 0 (head (bs_blocks (store s) (bmapstart (super_block s))))) (7 - j).
Proof.
  intros Hlo Hj. unfold used, map_block, map_bit. change BITS_PER_BLK with 4096.
  replace (datastart (super_block s) + j - datastart (super_block s)) with j by lia.
  rewrite Z.div_small, Z.mod_small by lia. rewrite Z.add_0_l. unfold bit_set.
  rewrite (Z.div_small j 8), (Z.mod_small j 8) by lia.
  destruct (bs_blocks (store s) (bmapstart (super_block s))) eqn:E; [|done].
  pose proof (bs_block_ok (store s) (bmapstart (super_block s))) as [Hl _]. by rewrite E in Hl.
Qed.

Lemma block_alloc_ok (s : St) dv :
  blk_idle s → datastart (super_block s) + 8 ≤ nblocks (super_block s) →
  wp (block_alloc dv) s (λ r s', r = first_candidate s ∧ blk_idle s' ∧ super_block s' = super_block s ∧
    (∀ k, k ≠ bmapstart (super_block s) → bs_blocks (store s') k = bs_blocks (store s) k) ∧
    (∀ b, data_block (super_block s) b → used s' b = if decide (b = r) then true else used s b)).
Proof.
  intros Hid Hbig. pose proof Hid as [_ Hlo]. pose proof (lo_data _ Hlo). pose proof (lo_bmap _ Hlo).
  unfold block_alloc. rewrite wp_bind. wp_apply freemap_search_ok; [done|done|].
  intros r s1 (-> & Hid1 & Hsb1 & Hk1).
  destruct (bs_block_ok (store s) (bmapstart (super_block s))) as [Hlen Hbytes].
  assert (datastart (super_block s) ≤ first_candidate s ≤ datastart (super_block s) + 8) as Hc.
  { unfold first_candidate. destruct (bs_blocks (store s) (bmapstart (super_block s))) as [|c l]; [done|].
    apply Forall_cons in Hbytes as [Hc _]. destruct (leading_ones_spec c Hc) as [? _]. cbn [head]. change (default 0 (Some c)) with c. lia. }
  rewrite (proj2 (Z.eqb_neq (first_candidate s) 0)) by lia. rewrite wp_bind.
  wp_apply freemap_set_ok; [done|rewrite Hsb1; split; lia|].
  intros _ s2 (Hid2 & Hsb2 & Hk2 & Hu2). rewrite wp_ret. rewrite Hsb1 in *.
  split; [done|]. split; [done|]. split; [done|]. split.
  - intros k Hne. rewrite Hk2, Hk1; [done|]. unfold map_block. change BITS_PER_BLK with 4096.
    rewrite Z.div_small; lia.
  - intros b Hb. rewrite Hu2 by done. case_decide; [done|]. unfold used. by rewrite Hsb1, Hk1.
Qed.

End block.

(** ** Properties *)

Section properties.
Context {T : Type} {BS : BlockStore T}.

(** C33: the map of free blocks implements a set of blocks: [freemap_set]
    followed by [freemap_check] of any data block answers with the new value
    for the block that was set and with the old value for all others; no block
    of the disk but the map block changes. *)
Theorem freemap_set_check (s : BlkState T) dv bno v b :
  blk_idle s → data_block (super_block s) bno → data_block (super_block s) b →
  wp (do! freemap_set dv bno v in freemap_check dv b) s (λ r s',
    r = (if decide (b = bno) then v else used s b) ∧ blk_idle s' ∧
    ∀ k, k ≠ map_block (super_block s) bno → bs_blocks (store s') k = bs_blocks (store s) k).
Proof.
  intros Hid Hbno Hb. rewrite wp_bind. wp_apply freemap_set_ok; [done|done|].
  intros _ s1 (Hid1 & Hsb1 & Hk1 & Hu1). wp_apply freemap_check_ok; [done|by rewrite Hsb1|].
  intros r s2 (-> & Hid2 & Hsb2 & Hk2). rewrite Hu1 by done. split; [done|]. split; [done|].
  intros k Hk. rewrite Hk2. by apply Hk1.
Qed.

(** [block_alloc] allocates first fit among the first eight data blocks:
    if one of them is free it returns the lowest free one, and exactly this
    block becomes used. *)
Theorem block_alloc_first (s : BlkState T) dv b0 :
  blk_idle s → datastart (super_block s) + 8 ≤ nblocks (super_block s) →
  datastart (super_block s) ≤ b0 < datastart (super_block s) + 8 → used s b0 = false →
  wp (block_alloc dv) s (λ r s',
    datastart (super_block s) ≤ r ≤ b0 ∧ used s r = false ∧
    (∀ b, datastart (super_block s) ≤ b < r → used s b = true) ∧ blk_idle s' ∧
    (∀ b, data_block (super_block s) b → used s' b = if decide (b = r) then true else used s b)).
Proof.
  intros Hid Hbig Hb0 Hfree. pose proof Hid as [_ Hlo]. wp_apply block_alloc_ok; [done|done|].
  intros r s' (-> & Hid' & _ & _ & Hu).
  destruct (bs_block_ok (store s) (bmapstart (super_block s))) as [Hlen Hbytes].
  unfold first_candidate in *. pose proof (used_first s) as Hused.
  set (c := default 0 (head (bs_blocks (store s) (bmapstart (super_block s))))) in *.
  assert (is_byte c) as Hc.
  { unfold c. destruct (bs_blocks (store s) (bmapstart (super_block s))); [done|].
    by apply Forall_cons in Hbytes as [? _]. }
  destruct (leading_ones_spec c Hc) as (Hk & Hones & Hzero). set (k := leading_ones 8 c) in *.
  set (ds := datastart (super_block s)) in *.
  assert (k ≤ b0 - ds) as Hle.
  { apply Z.nlt_ge. intros Hlt. specialize (Hones (b0 - ds) ltac:(lia)).
    rewrite <- Hused in Hones by (done || lia). replace (ds + (b0 - ds)) with b0 in Hones by lia. congruence. }
  split; [lia|]. split; [rewrite Hused by (done || lia); apply Hzero; lia|]. split; [|done].
  intros b Hb. replace b with (ds + (b - ds)) by lia. rewrite Hused by (done || lia). apply Hones. lia.
Qed.

(** Once the first eight data blocks are in use, [block_alloc] hands out
    the ninth one again and again, used or not: two calls in a row return the
    same block. *)
Theorem block_alloc_twice (s : BlkState T) dv :
  blk_idle s → datastart (super_block s) + 8 ≤ nblocks (super_block s) →
  (∀ j, 0 ≤ j < 8 → used s (datastart (super_block s) + j) = true) →
  wp (let! a := block_alloc dv in let! b := block_alloc dv in ret (a, b)) s (λ '(a, b) s',
    a = datastart (super_block s) + 8 ∧ b = a ∧ blk_idle s').
Proof.
  intros Hid Hbig Hall.
  assert (∀ s1 : BlkState T, blk_idle s1 → super_block s1 = super_block s →
    (∀ j, 0 ≤ j < 8 → used s1 (datastart (super_block s1) + j) = true) →
    first_candidate s1 = datastart (super_block s) + 8) as Hcand.
  { intros s1 [_ Hlo1] Hsb Hall1. unfold first_candidate. rewrite <- Hsb.
    destruct (bs_block_ok (store s1) (bmapstart (super_block s1))) as [Hlen Hbytes].
    pose proof (used_first s1) as Hused.
    set (c := default 0 (head (bs_blocks (store s1) (bmapstart (super_block s1))))) in *.
    assert (is_byte c) as Hc.
    { unfold c. destruct (bs_blocks (store s1) (bmapstart (super_block s1))); [done|].
      by apply Forall_cons in Hbytes as [? _]. }
    destruct (leading_ones_spec c Hc) as (Hk & _ & Hzero). destruct (decide (leading_ones 8 c = 8)) as [->|Hne]; [done|].
    specialize (Hzero ltac:(lia)). rewrite <- Hused in Hzero by (done || lia).
    rewrite Hall1 in Hzero by lia. done. }
  rewrite wp_bind. wp_apply block_alloc_ok; [done|done|]. intros a s1 (-> & Hid1 & Hsb1 & _ & Hu1).
  rewrite wp_bind. wp_apply block_alloc_ok; [done|by rewrite Hsb1|]. intros b s2 (-> & Hid2 & _ & _ & _).
  rewrite wp_ret. split; [by apply Hcand|]. split; [|done]. rewrite Hcand, Hcand; [done|done|done|done|done|done|].
  intros j Hj. rewrite Hsb1, Hu1; [|split; lia]. case_decide; [done|]. by apply Hall.
Qed.

(** [block_free] panics on a block that is not in use, and otherwise frees
    exactly this block. *)
Theorem block_free_spec (s : BlkState T) dv bno :
  blk_idle s → data_block (super_block s) bno →
  (used s bno = false → block_free dv bno s = Panic "block_free: block is already free") ∧
  (used s bno = true → wp (block_free dv bno) s (λ _ s', blk_idle s' ∧
     ∀ b, data_block (super_block s) b → used s' b = if decide (b = bno) then false else used s b)).
Proof.
  intros Hid Hd. pose proof (freemap_check_ok s dv bno Hid Hd) as Hchk. split; intros Hu.
  - apply wp_run in Hchk as (r & s1 & Hrun & -> & _). unfold block_free.
    rewrite (bind_ok _ _ _ _ _ Hrun). by rewrite Hu.
  - unfold block_free. rewrite wp_bind. eapply wp_mono; [exact Hchk|].
    intros r s1 (-> & Hid1 & Hsb1 & Hk1). rewrite Hu. cbn [negb].
    wp_apply freemap_set_ok; [done|by rewrite Hsb1|]. intros _ s2 (Hid2 & _ & _ & Hu2).
    split; [done|]. intros b Hb. rewrite Hu2 by by rewrite Hsb1.
    case_decide; [done|]. unfold used. by rewrite Hsb1, Hk1.
Qed.

(** The superblock survives the disk: a block that starts with the
    encoding of a superblock of 32-bit fields is read back as this superblock
    by [block_super] with [update], which also keeps it in memory for the
    later calls without [update]. *)
Theorem block_super_roundtrip (s : BlkState T) dv sb rest :
  bs_idle (store s) → bs_blocks (store s) SUPERBLKNO = sb_encode sb ++ rest →
  Forall (λ x, 0 ≤ x < 4294967296)
    [nblocks sb; ninodes sb; ndata sb; inodestart sb; bmapstart sb; datastart sb] →
  wp (let! a := block_super dv true in let! b := block_super dv false in ret (a, b)) s (λ '(a, b) s',
    a = sb ∧ b = sb ∧ bs_idle (store s') ∧
    ∀ k, bs_blocks (store s') k = bs_blocks (store s) k).
Proof.
  intros Hid Hl Hf. assert (sb_decode (sb_encode sb ++ rest) = sb) as Hdec.
  { destruct sb as [a b c d e f]. rewrite !Forall_cons in Hf. destruct Hf as (? & ? & ? & ? & ? & ? & _).
    unfold sb_decode, sb_encode, slice. cbn [nblocks ninodes ndata inodestart bmapstart datastart].
    assert (∀ x, 0 ≤ x < 4294967296 → le_num (le_bytes 4 x) = x) as Hle.
    { intros x Hx. rewrite le_num_bytes. by apply Z.mod_small. }
    f_equal; [etrans; [|by apply (Hle a)]|etrans; [|by apply (Hle b)]|etrans; [|by apply (Hle c)]|
              etrans; [|by apply (Hle d)]|etrans; [|by apply (Hle e)]|etrans; [|by apply (Hle f)]]; reflexivity. }
  rewrite wp_bind. unfold block_super. rewrite wp_bind. apply wp_with_store.
  wp_apply bs_read_ok; [done|done|]. intros b t [Hh Hk].
  rewrite wp_bind. eapply wp_with_store_ok; [by eapply bs_cache_ok|].
  rewrite wp_bind, wp_modify, wp_bind. apply wp_with_store. cbn [store].
  wp_apply bs_release_ok; [exact Hh|]. intros _ t' [Hi' Hk']. rewrite wp_ret, wp_bind, wp_gets, wp_ret.
  cbn [super_block store]. rewrite Hl, Hdec. split_and!; [done..|]. intros k. by rewrite Hk', Hk.
Qed.

End properties.

(** ** Witnesses: a disk of 100 blocks, with the data from block 3 on *)

Definition demo_super : SuperBlock := mkSuperBlock 100 7 97 1 2 3.

#[local] Existing Instance bcache_store.
#[local] Existing Instance sim_drive.

Definition demo_blk (d : SimDrive) : BlkState (BState SimDrive) :=
  mkBlkState (mkBState (nodes idle_state) 5 NULL d) demo_super.

(** An empty map, and one with the first eight data blocks in use *)
Definition sim_full : SimDrive :=
  mkSimDrive (0, 0, 0, 0, 0) {[ (1, 2) := 255 :: replicate 511 0 ]} Idle false 0.

Lemma demo_blk_idle d :
  sim_phase d = Idle → sim_irq d = false → sim_busy d = 0%nat →
  blk_idle (BS:=bcache_store (patience:=3)) (demo_blk d).
Proof.
  intros Hp Hi Hb. destruct d as [[[[[r0 r1] r2] r3] r4] m ph i bz]. cbn in Hp, Hi, Hb. subst. split.
  - split; [split; cbn; [done|lia|done|done]|by eexists|done].
  - split; cbn; unfold BITS_PER_BLK, BSIZE, SECSZ; lia.
Qed.

Lemma freemap_set_check_witness :
  wp (do! freemap_set (BS:=bcache_store (patience:=3)) 1 6 true in freemap_check 1 6) (demo_blk sim_fresh)
    (λ r _, r = true).
Proof.
  eapply wp_mono.
  - apply (freemap_set_check (BS:=bcache_store (patience:=3)) (demo_blk sim_fresh) 1 6 true 6).
    + by apply demo_blk_idle.
    + split; cbn; lia.
    + split; cbn; lia.
  - intros r s' (-> & _). by rewrite decide_True.
Defined.

Lemma block_alloc_first_witness :
  wp (block_alloc (BS:=bcache_store (patience:=3)) 1) (demo_blk sim_fresh) (λ r _, r = 3).
Proof.
  eapply wp_mono.
  - apply (block_alloc_first (BS:=bcache_store (patience:=3)) (demo_blk sim_fresh) 1 3).
    + by apply demo_blk_idle.
    + cbn. lia.
    + cbn. lia.
    + vm_compute. reflexivity.
  - cbn. intros r s' (Hr & _). lia.
Defined.

Lemma block_alloc_twice_witness :
  wp (let! a := block_alloc (BS:=bcache_store (patience:=3)) 1 in
      let! b := block_alloc (BS:=bcache_store (patience:=3)) 1 in ret (a, b)) (demo_blk sim_full)
    (λ '(a, b) _, a = 11 ∧ b = 11).
Proof.
  eapply wp_mono.
  - apply (block_alloc_twice (BS:=bcache_store (patience:=3)) (demo_blk sim_full) 1).
    + by apply demo_blk_idle.
    + cbn. lia.
    + intros j Hj. assert (j ∈ seqZ 0 8) as Hin by (apply elem_of_seqZ; lia). clear Hj.
      change (seqZ 0 8) with [0;1;2;3;4;5;6;7] in Hin.
      repeat (apply elem_of_cons in Hin as [->|Hin]; [vm_compute; reflexivity|]).
      by apply not_elem_of_nil in Hin.
  - intros [a b] s' (-> & -> & _). done.
Defined.

Lemma block_free_spec_witness :
  block_free (BS:=bcache_store (patience:=3)) 1 3 (demo_blk sim_fresh) = Panic "block_free: block is already free" ∧
  wp (block_free (BS:=bcache_store (patience:=3)) 1 3) (demo_blk sim_full)
    (λ _ s', used (BS:=bcache_store (patience:=3)) s' 3 = false).
Proof.
  split.
  - destruct (block_free_spec (BS:=bcache_store (patience:=3)) (demo_blk sim_fresh) 1 3) as [Hfree _].
    + by apply demo_blk_idle.
    + split; cbn; lia.
    + apply Hfree. vm_compute. reflexivity.
  - destruct (block_free_spec (BS:=bcache_store (patience:=3)) (demo_blk sim_full) 1 3) as [_ Hused].
    + by apply demo_blk_idle.
    + split; cbn; lia.
    + eapply wp_mono; [apply Hused; vm_compute; reflexivity|].
      intros _ s' [_ Hu]. rewrite Hu by (split; cbn; lia). by rewrite decide_True.
Defined.

(** A disk with [demo_super] in its first block *)
Definition sim_super : SimDrive :=
  mkSimDrive (0, 0, 0, 0, 0) {[ (1, 0) := sb_encode demo_super ++ replicate 488 0 ]} Idle false 0.

Lemma block_super_roundtrip_witness :
  wp (let! a := block_super (BS:=bcache_store (patience:=3)) 1 true in
      let! b := block_super (BS:=bcache_store (patience:=3)) 1 false in ret (a, b)) (demo_blk sim_super)
    (λ '(a, b) _, a = demo_super ∧ b = demo_super).
Proof.
  eapply wp_mono.
  - apply (block_super_roundtrip (BS:=bcache_store (patience:=3)) (demo_blk sim_super) 1 demo_super (replicate 488 0)).
    + by apply demo_blk_idle.
    + vm_compute. reflexivity.
    + repeat constructor; done.
  - intros [a b] s' (-> & -> & _). done.
Defined.
