(* ===== verification/Inode.v ===== *)
(** * kernel/fs/inode.c: files as inodes, over the block layer

    An [Inode *] is the index of its slot in [icache.inodes], -1 is the null
    pointer. The bytes that [inode_read] stores to the caller's buffer are a
    result, the bytes that [inode_write] takes from it an argument. *)
From S2P Require Import Prelude Machine Ide Disk BCache Block.

(** [FileType] *)
Definition F_DIR : Z := 1.
Definition F_FILE : Z := 2.
Definition F_DEV : Z := 3.

(** [DInode]: packed, 66 bytes *)
Record DInode := mkDInode {
  type : Z;
  major : Z;
  minor : Z;
  nlink : Z;
  isize : Z;
  addrs : list Z;      (* NINOBLKS words *)
}.

Definition sizeof_DInode : Z := 66.

Definition dinode_encode (d : DInode) : list Z :=
  le_bytes 4 (type d) ++ le_bytes 2 (major d) ++ le_bytes 2 (minor d) ++ le_bytes 2 (nlink d) ++
  le_bytes 4 (isize d) ++ mjoin (le_bytes 4 <$> addrs d).

Definition dinode_decode (l : list Z) : DInode :=
  mkDInode (le_num (slice 0 4 l)) (le_num (slice 4 2 l)) (le_num (slice 6 2 l)) (le_num (slice 8 2 l))
    (le_num (slice 10 4 l)) ((λ i : nat, le_num (slice (14 + 4 * i) 4 l)) <$> seq 0 (Z.to_nat NINOBLKS)).

(** [DirEntry]: 28 bytes; the name has DIRNAMESZ bytes. *)
Definition sizeof_DirEntry : Z := 28.

Definition direntry_encode (inum : Z) (name : list Z) : list Z := le_bytes 4 inum ++ name.

Definition direntry_decode (l : list Z) : Z * list Z := (le_num (slice 0 4 l), slice 4 24 l).

(** [Mutex]; the spin lock inside protects its two fields. *)
Record Mutex := mkMutex {
  locked : bool;
  mpid : Z;
}.

Record Inode := mkInode {
  idev : Z;
  inum : Z;
  inref : Z;
  lk : Mutex;
  iread : bool;
  din : DInode;
}.

(** [Stat]; [inode_stat] does not set [type]. *)
Record Stat := mkStat {
  st_dev : Z;
  st_inum : Z;
  st_nlink : Z;
  st_size : Z;
}.

Definition set_inref (k : Z) (i : Inode) : Inode := mkInode (idev i) (inum i) k (lk i) (iread i) (din i).
Definition set_lk (m : Mutex) (i : Inode) : Inode := mkInode (idev i) (inum i) (inref i) m (iread i) (din i).
Definition set_d (x : DInode) (i : Inode) : Inode := mkInode (idev i) (inum i) (inref i) (lk i) (iread i) x.
Definition set_read (b : bool) (i : Inode) : Inode := mkInode (idev i) (inum i) (inref i) (lk i) b (din i).

Definition set_type (t : Z) (x : DInode) : DInode :=
  mkDInode t (major x) (minor x) (nlink x) (isize x) (addrs x).
Definition set_size (z : Z) (x : DInode) : DInode :=
  mkDInode (type x) (major x) (minor x) (nlink x) z (addrs x).
Definition set_addr (n b : Z) (x : DInode) : DInode :=
  mkDInode (type x) (major x) (minor x) (nlink x) (isize x) (<[Z.to_nat n := b]> (addrs x)).

(** The layers below, [icache.inodes], and the pid of the running process *)
Record IState (T : Type) := mkIState {
  blk : BlkState T;
  icache : gmap Z Inode;
  cur_pid : Z;
}.
Arguments mkIState {T} blk icache cur_pid.
Arguments blk {T}.
Arguments icache {T}.
Arguments cur_pid {T}.

Section inode.
Context {T : Type} {BS : BlockStore T}.
Notation St := (IState T).

(** [devices[]]: the device functions, where they are set *)
Context (dev_read : Z → option (Z → Z → M St (Z * list Z))).
Context (dev_write : Z → option (Z → list Z → M St Z)).

Definition with_blk {A} (m : M (BlkState T) A) : M St A :=
  zoom blk (λ b s, mkIState b (icache s) (cur_pid s)) m.

Definition with_cache {A} (m : M T A) : M St A := with_blk (with_store m).

Definition inode (i : Z) : M St Inode :=
  let! ic := gets icache in need (ic !! i).

Definition update_inode (i : Z) (f : Inode → Inode) : M St unit :=
  let! x := inode i in
  modify (λ s, mkIState (blk s) (<[i := f x]> (icache s)) (cur_pid s)).

Definition inode_per_block : Z := BSIZE / sizeof_DInode.

Definition get_inode_block (n : Z) (sb : SuperBlock) : Z := u32 (n / inode_per_block + inodestart sb).

Definition inode_block (n : Z) : M St Z :=
  let! sb := with_blk (gets super_block) in ret (get_inode_block n sb).

Definition dinode_read (i b : Z) : M St bool :=
  let! x := inode i in
  let! bno := with_cache (bs_blockno b) in
  let! ib := inode_block (inum x) in
  if negb (bno =? ib) then ret false else
  let nth := inum x mod inode_per_block in
  let! l := with_cache (bs_cache b) in
  do! update_inode i (set_d (dinode_decode (slice (Z.to_nat (nth * sizeof_DInode)) 66 l))) in
  ret true.

Definition dinode_write (i b : Z) : M St bool :=
  let! x := inode i in
  let! bno := with_cache (bs_blockno b) in
  let! ib := inode_block (inum x) in
  if negb (bno =? ib) then ret false else
  let nth := inum x mod inode_per_block in
  let! l := with_cache (bs_cache b) in
  do! with_cache (bs_store b (splice (Z.to_nat (nth * sizeof_DInode)) (dinode_encode (din x)) l)) in
  ret true.

(** The loop bound is the size of the array in bytes; beyond the slots the
    code leaves the array. *)
Fixpoint getc_loop (n : nat) (i dv num : Z) : M St Z :=
  match n with
  | O => ret NULL
  | S n =>
      let! x := inode i in
      if (0 <=? inref x) && (idev x =? dv) && (inum x =? num) then
        do! update_inode i (set_inref (s32 (inref x + 1))) in ret i
      else if inref x =? 0 then
        do! update_inode i (λ x, mkInode dv num 1 (lk x) false (din x)) in ret i
      else getc_loop n (i + 1) dv num
  end.

Definition inode_getc (dv num : Z) : M St Z := getc_loop (S (Z.to_nat NINODES)) 0 dv num.

(** [for (inum = ROOTINO + 1; inum < super_block.ninodes; ++inum)], the last
    [n] rounds *)
Fixpoint allocate_loop (n : nat) (num dv ty : Z) : M St Z :=
  match n with
  | O => panic "inode_allocate: no more space for inodes"
  | S n =>
      let! ib := inode_block num in
      let! b := with_cache (bs_read dv ib false) in
      let! i := inode_getc dv num in
      let! ok := dinode_read i b in
      if negb ok then ret NULL else
      let! x := inode i in
      if type (din x) =? 0 then
        do! update_inode i (λ x, mkInode dv (inum x) (inref x) (lk x) (iread x) (set_type ty (din x))) in
        let! ok := dinode_write i b in
        if negb ok then ret NULL else
        do! with_cache (bs_write b false) in
        do! with_cache (bs_release b) in
        ret i
      else
        do! with_cache (bs_release b) in
        allocate_loop n (num + 1) dv ty
  end.

Definition inode_allocate (dv ty : Z) : M St Z :=
  let! sb := with_blk (gets super_block) in
  allocate_loop (Z.to_nat (ninodes sb - (ROOTINO + 1))) (ROOTINO + 1) dv ty.

Definition inode_load (i : Z) : M St bool :=
  if i =? NULL then ret false else
  let! x := inode i in
  if inref x =? 0 then ret false else
  if iread x then ret true else
  let! ib := inode_block (inum x) in
  let! b := with_cache (bs_read (idev x) ib false) in
  let! _ := dinode_read i b in
  do! with_cache (bs_release b) in
  do! update_inode i (set_read true) in
  let! x := inode i in
  if type (din x) =? 0 then panic "inode_load: inode has no file type" else
  ret true.

Definition inode_flush (i : Z) : M St unit :=
  let! x := inode i in
  let! ib := inode_block (inum x) in
  let! b := with_cache (bs_read (idev x) ib false) in
  let! _ := dinode_write i b in
  do! with_cache (bs_write b false) in
  with_cache (bs_release b).

(** A mutex that is locked puts the process to sleep until another process
    unlocks it: nothing more happens in this process ([hang]). *)
Definition lock_mutex (i : Z) : M St unit :=
  let! x := inode i in
  let! pid := gets cur_pid in
  if locked (lk x) then hang else update_inode i (set_lk (mkMutex true pid)).

Definition unlock_mutex (i : Z) : M St unit := update_inode i (set_lk (mkMutex false 0)).

Definition holding_mutex (i : Z) : M St bool :=
  let! x := inode i in
  let! pid := gets cur_pid in
  ret (locked (lk x) && (mpid (lk x) =? pid)).

Definition inode_lock (i : Z) : M St unit :=
  if i =? NULL then panic "inode_lock, invalid inode" else
  let! x := inode i in
  if inref x =? 0 then panic "inode_lock, inode is not used" else
  do! lock_mutex i in
  let! ok := inode_load i in
  if negb ok then unlock_mutex i else done!.

Definition inode_unlock (i : Z) : M St unit :=
  if i =? NULL then panic "inode_unlock: invalid inode" else
  let! h := holding_mutex i in
  if negb h then panic "inode_unlock: mutex not locked" else
  let! x := inode i in
  if inref x <? 1 then panic "inode_unlock: inode is not being used" else
  unlock_mutex i.

Definition bmap0 (i n : Z) : M St Z :=
  let! x := inode i in
  let! b := need (addrs (din x) !! Z.to_nat n) in
  if negb (b =? 0) then ret b else
  let! b := with_blk (block_alloc (idev x)) in
  do! update_inode i (λ x, set_d (set_addr n b (din x)) x) in
  do! inode_flush i in
  ret b.

(** A word of the pointer block is read at index [offset]; the store uses
    [offset] as a byte offset. *)
Definition bmap1 (i n : Z) : M St Z :=
  let offset := u32 (n - NDIRECT) in
  let! x := inode i in
  let! p := need (addrs (din x) !! Z.to_nat NDIRECT) in
  let! ptrs := (if negb (p =? 0) then ret p else
                let! p := with_blk (block_alloc (idev x)) in
                do! update_inode i (λ x, set_d (set_addr NDIRECT p (din x)) x) in
                do! inode_flush i in
                ret p) in
  let! pb := with_cache (bs_read (idev x) ptrs false) in
  let! l := with_cache (bs_cache pb) in
  if BSIZE / 4 <=? offset then fault else
  let b := le_num (slice (Z.to_nat (4 * offset)) 4 l) in
  let! b := (if negb (b =? 0) then ret b else
             let! b := with_blk (block_alloc (idev x)) in
             let! l := with_cache (bs_cache pb) in
             do! with_cache (bs_store pb (splice (Z.to_nat offset) (le_bytes 4 b) l)) in
             do! with_cache (bs_write pb false) in
             ret b) in
  do! with_cache (bs_release pb) in
  ret b.

Definition inode_bmap (i n : Z) : M St Z :=
  if n <? NDIRECT then bmap0 i n else
  if NDIRECT <=? n then bmap1 i n else ret 0.

(** [for (n = 0; n <= offset / BSIZE; ++n)], the last rounds *)
Fixpoint offmap_loop (rounds : nat) (i n : Z) : M St unit :=
  match rounds with
  | O => done!
  | S r =>
      let! b := inode_bmap i n in
      if b =? 0 then panic "inode_offmap" else offmap_loop r i (n + 1)
  end.

Definition inode_offmap (i offset : Z) : M St unit :=
  let! x := inode i in
  if offset <? isize (din x) then done! else
  let n := offset / BSIZE + 1 in
  do! offmap_loop (Z.to_nat n) i 0 in
  do! (if (BSIZE <? offset) && negb (offset mod BSIZE =? 0) then
         let! b := inode_bmap i n in
         if b =? 0 then panic "inode_offmap" else done!
       else done!) in
  update_inode i (λ x, set_d (set_size offset (din x)) x).

Definition inode_dup (i : Z) : M St Z :=
  let! x := inode i in
  do! update_inode i (set_inref (s32 (inref x + 1))) in
  ret i.

Definition inode_drop (i : Z) : M St unit :=
  let! x := inode i in
  update_inode i (set_inref (s32 (inref x - 1))).

(** One round of the loop of [inode_read]; the variables are [rd], [offset] and
    the bytes stored so far. *)
Definition read_round (i sz : Z) (st : Z * Z * list Z) : M St (Z * Z * list Z + list Z) :=
  let '(rd, offset, out) := st in
  if negb (rd <? sz) then ret (inr out) else
  let! x := inode i in
  let! bno := inode_bmap i (offset / BSIZE) in
  let! b := with_cache (bs_read (idev x) bno false) in
  let m := Z.min (sz - rd) (BSIZE - offset mod BSIZE) in
  let! l := with_cache (bs_cache b) in
  do! with_cache (bs_release b) in
  ret (inl (rd + m, offset + m, out ++ slice (Z.to_nat (offset mod BSIZE)) (Z.to_nat m) l)).

(** The result and the bytes stored to [buf]. Fuel: every round takes at least
    one byte. Other types fall out of the [switch] without a result. *)
Definition inode_read (i offset sz : Z) : M St (Z * list Z) :=
  let! x := inode i in
  do! (if negb (iread x) then let! _ := inode_load i in done! else done!) in
  let! x := inode i in
  if type (din x) =? F_DEV then
    if NDEV <? major (din x) then ret (-1, []) else
    if major (din x) =? NDEV then fault else
    match dev_read (major (din x)) with
    | None => ret (-1, [])
    | Some f => f i (s32 sz)
    end
  else if (type (din x) =? F_DIR) || (type (din x) =? F_FILE) then
    if isize (din x) <? offset then ret (-1, []) else
    if 0xffffffff - offset <? sz then ret (-1, []) else
    let sz := if isize (din x) <? offset + sz then isize (din x) - offset else sz in
    let! out := loop (S (Z.to_nat sz)) (read_round i sz) (0, offset, []) in
    ret (s32 sz, out)
  else fault.

(** One round of the loop of [inode_write]; the variables are [wt], [offset]
    and the bytes still to write. *)
Definition write_round (i sz : Z) (st : Z * Z * list Z) : M St (Z * Z * list Z + Z) :=
  let '(wt, offset, buf) := st in
  if negb (wt <? sz) then ret (inr offset) else
  let! x := inode i in
  let! bno := inode_bmap i (offset / BSIZE) in
  let! b := with_cache (bs_read (idev x) bno false) in
  let m := Z.min (sz - wt) (BSIZE - offset mod BSIZE) in
  let! l := with_cache (bs_cache b) in
  do! with_cache (bs_store b (splice (Z.to_nat (offset mod BSIZE)) (take (Z.to_nat m) buf) l)) in
  do! with_cache (bs_write b false) in
  do! with_cache (bs_release b) in
  ret (inl (wt + m, offset + m, drop (Z.to_nat m) buf)).

(** [sz] is the number of bytes of [buf] to write. *)
Definition inode_write (i : Z) (buf : list Z) (offset sz : Z) : M St Z :=
  let! x := inode i in
  do! (if negb (iread x) then let! _ := inode_load i in done! else done!) in
  let! x := inode i in
  if type (din x) =? F_DEV then
    if NDEV <? major (din x) then ret (-1) else
    if major (din x) =? NDEV then fault else
    match dev_write (major (din x)) with
    | None => ret (-1)
    | Some f => f i (take (Z.to_nat sz) buf)
    end
  else if (type (din x) =? F_DIR) || (type (din x) =? F_FILE) then
    if isize (din x) <? offset then ret (-1) else
    if 0xffffffff - offset <? sz then ret (-1) else
    if MAXFILE <? offset + sz then ret (-1) else
    let! offset := loop (S (Z.to_nat sz)) (write_round i sz) (0, offset, buf) in
    let! x := inode i in
    do! (if isize (din x) <? offset then
           do! update_inode i (λ x, set_d (set_size offset (din x)) x) in inode_flush i
         else done!) in
    ret (s32 sz)
  else fault.

Definition inode_stat (i : Z) : M St Stat :=
  let! x := inode i in
  ret (mkStat (idev x) (inum x) (nlink (din x)) (isize (din x))).

End inode.

(** ** Specifications *)

Record dinode_wf (x : DInode) : Prop := mk_dinode_wf {
  dw_type : 0 ≤ type x < 4294967296;
  dw_major : 0 ≤ major x < 65536;
  dw_minor : 0 ≤ minor x < 65536;
  dw_nlink : 0 ≤ nlink x < 65536;
  dw_size : 0 ≤ isize x < 4294967296;
  dw_addrs : length (addrs x) = 13%nat ∧ Forall (λ b, 0 ≤ b < 4294967296) (addrs x);
}.

(** The inode [n] lies between the superblock and the map of free blocks. *)
Definition inum_ok (sb : SuperBlock) (n : Z) : Prop :=
  0 ≤ n ∧ 0 < inodestart sb ∧ n / inode_per_block + inodestart sb < bmapstart sb.

Section specs.
Context {T : Type} {BS : BlockStore T}.
Notation St := (IState T).

Definition blocks (s : St) (k : Z) : list Z := bs_blocks (store (blk s)) k.

Definition sblock (s : St) : SuperBlock := super_block (blk s).

(** The inode [n] on the disk *)
Definition disk_dinode (s : St) (n : Z) : DInode :=
  dinode_decode (slice (Z.to_nat (n mod inode_per_block * sizeof_DInode)) 66
                   (blocks s (get_inode_block n (sblock s)))).

(** The bytes of the direct blocks of an inode, one after the other *)
Definition file_bytes (s : St) (x : DInode) : list Z := mjoin (blocks s <$> take 12 (addrs x)).

(** A regular file or a directory whose direct blocks up to [len] bytes are
    mapped, each to a data block of its own *)
Record file_ok (s : St) (x : DInode) (len : Z) : Prop := mk_file_ok {
  fo_wf : dinode_wf x;
  fo_type : type x = F_FILE ∨ type x = F_DIR;
  fo_len : 0 ≤ len ≤ 6144;
  fo_mapped : ∀ n : nat, 512 * n < len → ∃ b, addrs x !! n = Some b ∧ data_block (sblock s) b ∧
    ∀ m : nat, (m < 12)%nat → addrs x !! m = Some b → m = n;
  fo_data : ∀ (m : nat) b, addrs x !! m = Some b → b = 0 ∨ data_block (sblock s) b;
}.

(** ** Lemmas *)

Lemma wp_with_blk {A} (m : M (BlkState T) A) (s : St) Q :
  wp m (blk s) (λ a b, Q a (mkIState b (icache s) (cur_pid s))) → wp (with_blk m) s Q.
Proof. unfold with_blk. by rewrite wp_zoom. Qed.

Lemma wp_with_cache {A} (m : M T A) (s : St) Q :
  wp m (store (blk s)) (λ a t, Q a (mkIState (mkBlkState t (super_block (blk s))) (icache s) (cur_pid s))) →
  wp (with_cache m) s Q.
Proof. intros H. unfold with_cache. by apply wp_with_blk, wp_with_store. Qed.

Lemma wp_with_cache_ok {A} (m : M T A) (s : St) a (Q : A → St → Prop) :
  m (store (blk s)) = Ok a (store (blk s)) → Q a s → wp (with_cache m) s Q.
Proof.
  intros Hm HQ. apply wp_with_cache. eapply wp_ok; [exact Hm|]. by destruct s as [[? ?] ? ?].
Qed.

Lemma wp_inode i x (s : St) Q : icache s !! i = Some x → Q x s → wp (inode i) s Q.
Proof. intros Hx HQ. unfold inode. rewrite wp_bind, wp_gets. by eapply wp_need. Qed.

Lemma wp_update_inode i f x (s : St) Q :
  icache s !! i = Some x → Q tt (mkIState (blk s) (<[i := f x]> (icache s)) (cur_pid s)) →
  wp (update_inode i f) s Q.
Proof. intros Hx HQ. unfold update_inode. rewrite wp_bind. eapply wp_inode; [done|]. by rewrite wp_modify. Qed.

Lemma wp_inode_block n (s : St) Q : Q (get_inode_block n (sblock s)) s → wp (inode_block n) s Q.
Proof.
  intros HQ. unfold inode_block. rewrite wp_bind. apply wp_with_blk. rewrite wp_gets, wp_ret. by destruct s.
Qed.

Lemma slice_app_l {A} i n (l k : list A) : (i + n ≤ length l)%nat → slice i n (l ++ k) = slice i n l.
Proof.
  intros Hl. unfold slice. rewrite drop_app_le by lia. rewrite take_app_le; [done|]. rewrite length_drop. lia.
Qed.

Lemma slice_app_r {A} i n (l k : list A) : (length l ≤ i)%nat → slice i n (l ++ k) = slice (i - length l) n k.
Proof. intros Hl. unfold slice. by rewrite drop_app_ge by lia. Qed.

Lemma slice_all {A} n (l : list A) : n = length l → slice 0 n l = l.
Proof. intros ->. unfold slice. by rewrite drop_0, firstn_all. Qed.

Lemma length_addr_bytes l : length (mjoin (le_bytes 4 <$> l)) = (4 * length l)%nat.
Proof. 
  induction l as [|b l IH]; [done|].
  change (mjoin (le_bytes 4 <$> b :: l)) with (le_bytes 4 b ++ mjoin (le_bytes 4 <$> l)).
  rewrite length_app, IH, length_le_bytes. cbn [length]. lia.
Qed.

Lemma slice_addr_bytes l i b :
  l !! i = Some b → slice (4 * i) 4 (mjoin (le_bytes 4 <$> l)) = le_bytes 4 b.
Proof.
  revert i. induction l as [|c l IH]; intros i Hi; [done|].
  change (mjoin (le_bytes 4 <$> c :: l)) with (le_bytes 4 c ++ mjoin (le_bytes 4 <$> l)).
  destruct i as [|i].
  - injection Hi as ->. rewrite slice_app_l by (rewrite length_le_bytes; lia). by apply slice_all.
  - rewrite slice_app_r by (rewrite length_le_bytes; lia). rewrite length_le_bytes.
    replace (4 * S i - 4)%nat with (4 * i)%nat by lia. by apply IH.
Qed.

Lemma length_dinode_encode x : length (addrs x) = 13%nat → length (dinode_encode x) = 66%nat.
Proof.
  intros Ha. unfold dinode_encode. rewrite !length_app, !length_le_bytes, length_addr_bytes, Ha. done.
Qed.

Lemma dinode_encode_bytes x : Forall is_byte (dinode_encode x).
Proof.
  unfold dinode_encode. rewrite !Forall_app. split_and!; try apply le_bytes_bytes.
  induction (addrs x) as [|b l IH]; [constructor|].
  change (mjoin (le_bytes 4 <$> b :: l)) with (le_bytes 4 b ++ mjoin (le_bytes 4 <$> l)).
  apply Forall_app. split; [apply le_bytes_bytes|exact IH].
Qed.

Lemma dinode_decode_encode x : dinode_wf x → dinode_decode (dinode_encode x) = x.
Proof.
  intros [Ht Hma Hmi Hnl Hs [Hla Ha]]. destruct x as [ty ma mi nl sz ad].
  cbn [type major minor nlink isize addrs] in *. unfold dinode_encode, dinode_decode.
  cbn [type major minor nlink isize addrs].
  assert (∀ n z, 0 ≤ z < 256 ^ Z.of_nat n → le_num (le_bytes n z) = z) as Hnum.
  { intros n z Hz. rewrite le_num_bytes. by apply Z.mod_small. }
  set (ab := mjoin (le_bytes 4 <$> ad)). f_equal.
  - etrans; [|by apply (Hnum 4%nat ty)]. reflexivity.
  - etrans; [|by apply (Hnum 2%nat ma)]. reflexivity.
  - etrans; [|by apply (Hnum 2%nat mi)]. reflexivity.
  - etrans; [|by apply (Hnum 2%nat nl)]. reflexivity.
  - etrans; [|by apply (Hnum 4%nat sz)]. reflexivity.
  - apply list_eq. intros i. rewrite list_lookup_fmap.
    change (Z.to_nat NINOBLKS) with 13%nat. destruct (decide (i < 13)%nat) as [Hi|Hi].
    + rewrite lookup_seq_lt by done. cbn [fmap option_fmap option_map].
      destruct (lookup_lt_is_Some_2 ad i ltac:(lia)) as [b Hb]. rewrite Hb. f_equal.
      assert (∀ k, slice (14 + k) 4 (le_bytes 4 ty ++ le_bytes 2 ma ++ le_bytes 2 mi ++ le_bytes 2 nl ++
        le_bytes 4 sz ++ ab) = slice k 4 ab) as Hsl by reflexivity.
      rewrite Nat.add_0_l, Hsl. unfold ab. rewrite (slice_addr_bytes _ _ _ Hb).
      apply Hnum. change (256 ^ 4%nat) with 4294967296. by apply (Forall_lookup_1 _ _ _ _ Ha Hb).
    + rewrite lookup_seq_ge by lia. symmetry. apply lookup_ge_None_2. lia.
Qed.

(** *** The blocks of the inodes *)

Lemma get_inode_block_ok s n :
  layout_ok (sblock s) → inum_ok (sblock s) n →
  get_inode_block n (sblock s) = n / inode_per_block + inodestart (sblock s) ∧
  0 < get_inode_block n (sblock s) < bmapstart (sblock s).
Proof.
  intros [Hb Hd _] (Hn & Hi & Hlt). unfold get_inode_block.
  change inode_per_block with 7 in *. pose proof (Z.div_pos n 7 Hn ltac:(lia)).
  rewrite u32_small by lia. lia.
Qed.

Lemma inode_slot_range n : 0 ≤ n → 0 ≤ n mod inode_per_block * sizeof_DInode ≤ 396.
Proof.
  intros Hn. change inode_per_block with 7. change sizeof_DInode with 66.
  pose proof (Z.mod_pos_bound n 7 ltac:(lia)). lia.
Qed.

(** Storing one inode of a block leaves the others. *)
Lemma inode_slot_write n i x (l : list Z) :
  0 ≤ n → 0 ≤ i → dinode_wf x → length l = 512%nat →
  dinode_decode (slice (Z.to_nat (n mod inode_per_block * sizeof_DInode)) 66
    (splice (Z.to_nat (i mod inode_per_block * sizeof_DInode)) (dinode_encode x) l)) =
  if decide (n mod inode_per_block = i mod inode_per_block) then x
  else dinode_decode (slice (Z.to_nat (n mod inode_per_block * sizeof_DInode)) 66 l).
Proof.
  intros Hn Hi Hwf Hl. pose proof (length_dinode_encode x (proj1 (dw_addrs _ Hwf))) as Hle.
  pose proof (inode_slot_range n Hn). pose proof (inode_slot_range i Hi).
  change inode_per_block with 7 in *. change sizeof_DInode with 66 in *. case_decide as Heq.
  - rewrite Heq, <- Hle. rewrite slice_splice_same by (rewrite Hle, Hl; lia). by apply dinode_decode_encode.
  - f_equal. apply slice_splice_disjoint; rewrite Hle; [rewrite Hl; lia|].
    pose proof (Z.mod_pos_bound n 7 ltac:(lia)). pose proof (Z.mod_pos_bound i 7 ltac:(lia)). lia.
Qed.

Lemma inode_flush_ok i x (s : St) :
  icache s !! i = Some x → blk_idle (blk s) → inum_ok (sblock s) (inum x) → dinode_wf (din x) →
  wp (inode_flush i) s (λ _ s',
    blk_idle (blk s') ∧ sblock s' = sblock s ∧ icache s' = icache s ∧ cur_pid s' = cur_pid s ∧
    (∀ k, k ≠ get_inode_block (inum x) (sblock s) → blocks s' k = blocks s k) ∧
    (∀ n, inum_ok (sblock s) n → disk_dinode s' n = if decide (n = inum x) then din x else disk_dinode s n)).
Proof.
  intros Hx [Hid Hlo] Hin Hwf. destruct (get_inode_block_ok s _ Hlo Hin) as [Hge Hgb].
  pose proof (lo_bmap _ Hlo) as Hbm. pose proof (lo_data _ Hlo) as Hdt. unfold sblock in *.
  unfold inode_flush. rewrite wp_bind. eapply wp_inode; [done|].
  rewrite wp_bind. apply wp_inode_block. rewrite wp_bind. apply wp_with_cache.
  set (ib := get_inode_block (inum x) (super_block (blk s))) in *. change (sblock s) with (super_block (blk s)). fold ib.
  wp_apply bs_read_ok; [done|lia|]. intros b t [Hh Hk].
  unfold dinode_write. rewrite !wp_bind. eapply wp_inode; [cbn; done|].
  rewrite wp_bind. eapply wp_with_cache_ok; [by eapply bs_blockno_ok|].
  rewrite wp_bind. apply wp_inode_block. unfold sblock. cbn [blk super_block]. fold ib. rewrite Z.eqb_refl. cbn [negb].
  rewrite wp_bind. eapply wp_with_cache_ok; [by eapply bs_cache_ok|].
  destruct (bs_block_ok (store (blk s)) ib) as [Hlen Hby].
  pose proof (length_dinode_encode (din x) (proj1 (dw_addrs _ Hwf))) as Hle.
  set (slot := inum x mod inode_per_block * sizeof_DInode) in *.
  pose proof (inode_slot_range (inum x) (proj1 Hin)) as Hslot. fold slot in Hslot.
  rewrite wp_bind. apply wp_with_cache. cbn [blk store].
  wp_apply bs_store_ok; [exact Hh| | |].
  { rewrite length_splice; [done|]. rewrite Hle, Hlen. lia. }
  { apply Forall_splice; [apply dinode_encode_bytes|done]. }
  intros _ t1 [Hh1 Hk1]. rewrite wp_ret, wp_bind. apply wp_with_cache. cbn [blk store].
  wp_apply bs_write_ok; [exact Hh1|]. intros _ t2 [Hh2 Hk2].
  apply wp_with_cache. cbn [blk store]. wp_apply bs_release_ok; [exact Hh2|]. intros _ t3 [Hi3 Hk3].
  unfold blocks, disk_dinode, sblock, blocks, sblock. cbn [blk store super_block icache cur_pid].
  split; [done|]. split; [done|]. split; [done|]. split; [done|]. split.
  { intros k Hne. by rewrite Hk3, Hk2, decide_False, Hk1, Hk by done. }
  intros n Hn. destruct (get_inode_block_ok s _ Hlo Hn) as [Hgn _]. unfold sblock in Hgn.
  rewrite Hk3, Hk2. case_decide as Hblk.
  - rewrite Hblk. unfold slot. rewrite inode_slot_write by (apply Hn || apply Hin || done).
    change inode_per_block with 7 in *. case_decide as Hm; case_decide as Hnum; [done| |subst n; done|done].
    destruct Hnum. rewrite Hge, Hgn in Hblk.
    pose proof (Z.div_mod n 7). pose proof (Z.div_mod (inum x) 7). lia.
  - rewrite Hk1, Hk. rewrite decide_False; [done|]. by intros ->.
Qed.

Lemma inode_load_ok i x (s : St) :
  icache s !! i = Some x → i ≠ NULL → inref x ≠ 0 → iread x = false →
  blk_idle (blk s) → inum_ok (sblock s) (inum x) → type (disk_dinode s (inum x)) ≠ 0 →
  wp (inode_load i) s (λ r s', r = true ∧ blk_idle (blk s') ∧ sblock s' = sblock s ∧
    icache s' = <[i := set_read true (set_d (disk_dinode s (inum x)) x)]> (icache s) ∧
    (∀ k, blocks s' k = blocks s k)).
Proof.
  intros Hx Hnull Href Hrd [Hid Hlo] Hin Hty. destruct (get_inode_block_ok s _ Hlo Hin) as [Hge Hgb].
  pose proof (lo_bmap _ Hlo) as Hbm. pose proof (lo_data _ Hlo) as Hdt. unfold sblock in *.
  unfold inode_load. rewrite (proj2 (Z.eqb_neq i NULL)) by done.
  rewrite wp_bind. eapply wp_inode; [done|]. rewrite (proj2 (Z.eqb_neq (inref x) 0)), Hrd by done.
  rewrite wp_bind. apply wp_inode_block. rewrite wp_bind. apply wp_with_cache.
  set (ib := get_inode_block (inum x) (super_block (blk s))) in *. change (sblock s) with (super_block (blk s)). fold ib.
  wp_apply bs_read_ok; [done|lia|]. intros b t [Hh Hk].
  unfold dinode_read. rewrite !wp_bind. eapply wp_inode; [cbn; done|].
  rewrite wp_bind. eapply wp_with_cache_ok; [by eapply bs_blockno_ok|].
  rewrite wp_bind. apply wp_inode_block. unfold sblock. cbn [blk super_block]. fold ib. rewrite Z.eqb_refl. cbn [negb].
  rewrite wp_bind. eapply wp_with_cache_ok; [by eapply bs_cache_ok|].
  rewrite wp_bind. eapply wp_update_inode; [cbn; done|]. rewrite wp_ret. cbn [blk icache cur_pid].
  rewrite wp_bind. apply wp_with_cache. cbn [blk store]. wp_apply bs_release_ok; [exact Hh|]. intros _ t1 [Hi1 Hk1].
  rewrite wp_bind. eapply wp_update_inode; [apply lookup_insert_eq|]. cbn [blk icache cur_pid].
  rewrite wp_bind. eapply wp_inode; [apply lookup_insert_eq|].
  change (dinode_decode _) with (disk_dinode s (inum x)). cbn [din set_read set_d].
  rewrite (proj2 (Z.eqb_neq (type (disk_dinode s (inum x))) 0)) by done. rewrite wp_ret.
  split; [done|]. cbn [blk icache]. rewrite insert_insert_eq. split_and!; [done..|].
  intros k. unfold blocks. cbn. by rewrite Hk1, Hk.
Qed.

(** *** Arrays of blocks *)

Lemma slice_add {A} i a b (l : list A) : slice i (a + b) l = slice i a l ++ slice (i + a) b l.
Proof.
  unfold slice. rewrite <- (take_drop a (drop i l)) at 1.
  destruct (decide (a ≤ length (drop i l))%nat) as [Ha|Ha].
  - rewrite take_app_ge by (rewrite length_take; lia). rewrite length_take.
    replace (a `min` length (drop i l))%nat with a by lia. rewrite drop_drop.
    do 2 f_equal. lia.
  - rewrite (drop_ge (drop i l)) by lia. rewrite app_nil_r, (drop_ge l (i + a)).
    + rewrite take_nil, app_nil_r. rewrite take_take. f_equal. lia.
    + rewrite length_drop in Ha. lia.
Qed.

Definition all_512 (L : list (list Z)) : Prop := Forall (λ l, length l = 512%nat) L.

Lemma length_mjoin_512 L : all_512 L → length (mjoin L) = (512 * length L)%nat.
Proof.
  induction 1 as [|l L Hl _ IH]; [done|]. change (mjoin (l :: L)) with (l ++ mjoin L).
  rewrite length_app, IH, Hl. cbn [length]. lia.
Qed.

Lemma lookup_mjoin_512 L n l j :
  all_512 L → L !! n = Some l → (j < 512)%nat → mjoin L !! (512 * n + j)%nat = l !! j.
Proof.
  intros HL. revert n. induction HL as [|k L Hk HL IH]; intros n Hn Hj; [done|].
  change (mjoin (k :: L)) with (k ++ mjoin L). destruct n as [|n].
  - injection Hn as ->. by rewrite lookup_app_l by lia.
  - rewrite lookup_app_r by lia. rewrite Hk. rewrite <- (IH n Hn Hj). f_equal. lia.
Qed.

Lemma slice_mjoin_512 L n l o m :
  all_512 L → L !! n = Some l → (o + m ≤ 512)%nat → slice (512 * n + o) m (mjoin L) = slice o m l.
Proof.
  intros HL Hn Hm. assert (length l = 512%nat) as Hl by exact (Forall_lookup_1 _ _ _ _ HL Hn).
  pose proof (lookup_lt_Some _ _ _ Hn) as Hlt. apply list_eq. intros j.
  destruct (decide (j < m)%nat).
  - rewrite !lookup_slice by done. rewrite <- Nat.add_assoc. apply lookup_mjoin_512; [done|done|lia].
  - rewrite !lookup_ge_None_2; [done|..].
    + rewrite length_slice; lia.
    + rewrite length_slice; [lia|]. rewrite length_mjoin_512 by done. lia.
Qed.

Lemma splice_mjoin_512 L n l o e :
  all_512 L → L !! n = Some l → (o + length e ≤ 512)%nat →
  mjoin (<[n := splice o e l]> L) = splice (512 * n + o) e (mjoin L).
Proof.
  intros HL Hn He. assert (length l = 512%nat) as Hl by exact (Forall_lookup_1 _ _ _ _ HL Hn).
  pose proof (lookup_lt_Some _ _ _ Hn) as Hlt.
  assert (all_512 (<[n := splice o e l]> L)) as HL'.
  { apply Forall_insert; [done|]. by rewrite length_splice by lia. }
  apply list_eq. intros j. rewrite lookup_splice by (rewrite length_mjoin_512 by done; lia).
  destruct (decide (j < 512 * length L)%nat) as [Hj|Hj].
  - rewrite (Nat.div_mod_eq j 512). set (a := (j / 512)%nat). set (r := (j mod 512)%nat).
    assert (r < 512)%nat as Hr by (apply Nat.mod_upper_bound; lia).
    assert (a < length L)%nat as Ha by (apply Nat.Div0.div_lt_upper_bound; lia).
    clearbody a r. clear Hj j. destruct (decide (a = n)) as [->|Hne].
    + rewrite (lookup_mjoin_512 _ n (splice o e l)); [|done|by apply list_lookup_insert_eq|done].
      rewrite lookup_splice by lia. rewrite (lookup_mjoin_512 L n l) by done.
      repeat case_decide; try lia; [|done]. f_equal. lia.
    + destruct (lookup_lt_is_Some_2 L a Ha) as [k Hk].
      rewrite (lookup_mjoin_512 _ a k); [|done|by rewrite list_lookup_insert_ne|done].
      rewrite (lookup_mjoin_512 L a k) by done. rewrite decide_False; [done|]. nia.
  - rewrite decide_False by lia.
    rewrite (lookup_ge_None_2 (mjoin L)) by (rewrite length_mjoin_512 by done; lia).
    apply lookup_ge_None_2. rewrite length_mjoin_512, length_insert by done. lia.
Qed.

Lemma splice_extend (o a m : nat) (buf l : list Z) :
  (a + m ≤ length buf)%nat → (o + a + m ≤ length l)%nat →
  splice (o + a) (take m (drop a buf)) (splice o (take a buf) l) = splice o (take (a + m) buf) l.
Proof.
  intros Hb Hl. apply list_eq. intros j.
  assert (length (take a buf) = a) as H1 by (rewrite length_take; lia).
  assert (length (take m (drop a buf)) = m) as H2 by (rewrite length_take, length_drop; lia).
  assert (length (take (a + m) buf) = (a + m)%nat) as H3 by (rewrite length_take; lia).
  rewrite !lookup_splice; rewrite ?length_splice, ?H1, ?H2, ?H3; try lia.
  repeat case_decide; try lia; try done.
  - rewrite lookup_take_lt, lookup_drop, lookup_take_lt by lia. f_equal. lia.
  - rewrite !lookup_take_lt by lia. done.
Qed.

Lemma file_blocks_512 s l : all_512 (blocks s <$> l).
Proof. apply Forall_fmap. apply Forall_true. intros b. apply bs_block_ok. Qed.

Lemma file_block_lookup s x (n : nat) b :
  (n < 12)%nat → addrs x !! n = Some b → (blocks s <$> take 12 (addrs x)) !! n = Some (blocks s b).
Proof. intros Hn Hb. rewrite list_lookup_fmap, lookup_take_lt, Hb by done. done. Qed.

Lemma length_file_bytes s x : length (addrs x) = 13%nat → length (file_bytes s x) = (512 * 12)%nat.
Proof.
  intros Ha. unfold file_bytes. rewrite length_mjoin_512 by apply file_blocks_512.
  by rewrite length_fmap, length_take, Ha.
Qed.

(** A mapped direct block *)
Lemma inode_bmap_mapped i x (s : St) n b :
  icache s !! i = Some x → 0 ≤ n < 12 → addrs (din x) !! Z.to_nat n = Some b → b ≠ 0 →
  inode_bmap i n s = Ok b s.
Proof.
  intros Hx Hn Hb Hnz. apply wp_eq. unfold inode_bmap. change NDIRECT with 12.
  rewrite (proj2 (Z.ltb_lt n 12)) by lia. unfold bmap0. rewrite wp_bind. eapply wp_inode; [done|].
  rewrite wp_bind. eapply wp_need; [done|]. by rewrite (proj2 (Z.eqb_neq b 0)).
Qed.

(** The block of an offset, and the bytes one round takes from it *)
Lemma offset_block s x len off m :
  file_ok s x len → layout_ok (sblock s) → 0 ≤ off → 0 < m → m ≤ 512 - off mod 512 → off + m ≤ len →
  ∃ b, 0 ≤ off / 512 < 12 ∧ addrs x !! Z.to_nat (off / 512) = Some b ∧ data_block (sblock s) b ∧ 0 < b ∧
    (∀ j : nat, (j < 12)%nat → addrs x !! j = Some b → j = Z.to_nat (off / 512)).
Proof.
  intros [Hwf Hty Hlen Hmap _] Hlo Ho Hm0 Hm Hle. pose proof (lo_bmap _ Hlo). pose proof (lo_data _ Hlo).
  assert (0 ≤ off / 512 < 12) as Hr by (Z.div_mod_to_equations; lia).
  destruct (Hmap (Z.to_nat (off / 512))) as (b & Hb & Hd & Hu).
  { rewrite Z2Nat.id by lia. Z.div_mod_to_equations. lia. }
  exists b. destruct Hd as [Hd1 Hd2]. split; [lia|]. split; [done|]. split; [by split|]. split; [lia|done].
Qed.

Lemma read_loop_ok i x (s : St) off sz len :
  icache s !! i = Some x → blk_idle (blk s) → file_ok s (din x) len →
  0 ≤ off → 0 ≤ sz → off + sz ≤ len →
  wp (loop (S (Z.to_nat sz)) (read_round i sz) (0, off, [])) s (λ out s',
    out = slice (Z.to_nat off) (Z.to_nat sz) (file_bytes s (din x)) ∧ blk_idle (blk s') ∧
    sblock s' = sblock s ∧ icache s' = icache s ∧ ∀ k, blocks s' k = blocks s k).
Proof.
  intros Hx Hid Hf Ho Hsz Hle. assert (layout_ok (sblock s)) as Hlo by apply Hid.
  apply (wp_loop (λ '(rd, o, out) s', 0 ≤ rd ≤ sz ∧ o = off + rd ∧
      out = slice (Z.to_nat off) (Z.to_nat rd) (file_bytes s (din x)) ∧ blk_idle (blk s') ∧
      sblock s' = sblock s ∧ icache s' = icache s ∧ ∀ k, blocks s' k = blocks s k)
    (λ '(rd, _, _) _, Z.to_nat (sz - rd))).
  2: { split_and!; try done; lia. }
  2: { lia. }
  intros [[rd o] out] s1 (Hrd & -> & Hout & Hid1 & Hsb1 & Hic1 & Hk1). unfold read_round.
  destruct (Z.ltb_spec rd sz) as [Hlt|Hge]; cbn [negb].
  2: { rewrite wp_ret. replace sz with rd by lia. done. }
  set (m := Z.min (sz - rd) (BSIZE - (off + rd) mod BSIZE)). change BSIZE with 512 in *.
  pose proof (Z.mod_pos_bound (off + rd) 512 ltac:(lia)) as Hmod.
  assert (0 < m ∧ m ≤ 512 - (off + rd) mod 512 ∧ rd + m ≤ sz) as (Hm0 & Hm1 & Hm2) by (unfold m; lia).
  destruct (offset_block s (din x) len (off + rd) m) as (b & Hn & Hb & Hdb & Hb0 & Huniq); [done|done|lia|lia|lia|lia|].
  rewrite wp_bind. eapply wp_inode; [by rewrite Hic1|]. rewrite wp_bind.
  eapply wp_ok; [eapply inode_bmap_mapped; [by rewrite Hic1|done|done|lia]|]. cbn beta.
  pose proof (lo_data _ Hlo). destruct Hdb as [Hd1 Hd2].
  rewrite wp_bind. apply wp_with_cache. wp_apply bs_read_ok; [apply Hid1|pose proof (lo_bmap _ Hlo); lia|].
  intros bn t [Hh Hk]. rewrite wp_bind. eapply wp_with_cache_ok; [by eapply bs_cache_ok|].
  rewrite wp_bind. apply wp_with_cache. cbn [blk store]. wp_apply bs_release_ok; [exact Hh|]. intros _ t1 [Hi1 Hk1'].
  rewrite wp_ret. split; [|lia]. split; [lia|]. split; [lia|]. split.
  - rewrite Hout. replace (Z.to_nat (rd + m)) with (Z.to_nat rd + Z.to_nat m)%nat by lia.
    rewrite slice_add. f_equal. change (bs_blocks (store (blk s1)) b) with (blocks s1 b). rewrite Hk1.
    symmetry. etrans; [|eapply (slice_mjoin_512 _ (Z.to_nat ((off + rd) / 512)));
      [apply file_blocks_512|apply file_block_lookup; [lia|exact Hb]|]].
    + unfold file_bytes. f_equal. pose proof (Z.div_mod (off + rd) 512 ltac:(lia)). lia.
    + clear - Hm1 Hmod Hm0. lia.
  - split; [split; [done|apply Hid1]|]. split; [done|]. split; [done|].
    intros k. unfold blocks. cbn [blk store]. rewrite Hk1', Hk. apply Hk1.
Qed.

Lemma inode_read_ok dr i x (s : St) off sz :
  icache s !! i = Some x → iread x = true → blk_idle (blk s) →
  0 ≤ off ≤ isize (din x) → 0 ≤ sz → off + sz < 4294967296 →
  let n := Z.min sz (isize (din x) - off) in
  file_ok s (din x) (off + n) →
  wp (inode_read dr i off sz) s (λ '(r, out) s',
    r = n ∧ out = slice (Z.to_nat off) (Z.to_nat n) (file_bytes s (din x)) ∧ blk_idle (blk s') ∧
    sblock s' = sblock s ∧ icache s' = icache s ∧ ∀ k, blocks s' k = blocks s k).
Proof.
  intros Hx Hrd Hid Ho Hsz Hov n Hf. unfold inode_read.
  rewrite wp_bind. eapply wp_inode; [done|]. rewrite Hrd. cbn [negb]. rewrite wp_bind, wp_ret.
  rewrite wp_bind. eapply wp_inode; [done|].
  assert ((type (din x) =? F_DEV) = false ∧ (type (din x) =? F_DIR) || (type (din x) =? F_FILE) = true) as [-> ->].
  { destruct (fo_type _ _ _ Hf) as [->| ->]; done. }
  rewrite (proj2 (Z.ltb_ge (isize (din x)) off)) by lia.
  rewrite (proj2 (Z.ltb_ge (0xffffffff - off) sz)) by lia.
  assert ((if isize (din x) <? off + sz then isize (din x) - off else sz) = n) as ->.
  { unfold n. destruct (Z.ltb_spec (isize (din x)) (off + sz)); lia. }
  pose proof (fo_len _ _ _ Hf) as Hlen.
  rewrite wp_bind. wp_apply read_loop_ok; [done|done|exact Hf|lia|lia|lia|].
  intros out s' (Hout & Hrest). rewrite wp_ret. split; [|done]. apply s32_small. lia.
Qed.

(** Changing one block of a file changes one stretch of its bytes. *)
Lemma file_bytes_update s s' x (n : nat) b l' :
  (n < 12)%nat → addrs x !! n = Some b → (∀ j : nat, (j < 12)%nat → addrs x !! j = Some b → j = n) →
  (∀ k, blocks s' k = if decide (k = b) then l' else blocks s k) →
  file_bytes s' x = mjoin (<[n := l']> (blocks s <$> take 12 (addrs x))).
Proof.
  intros Hn Hb Hu Hk. unfold file_bytes. f_equal. apply list_eq. intros j.
  rewrite list_lookup_fmap. destruct (decide (j = n)) as [->|Hne].
  - rewrite list_lookup_insert_eq; [|rewrite length_fmap, length_take; pose proof (lookup_lt_Some _ _ _ Hb); lia].
    rewrite lookup_take_lt, Hb by done. cbn. by rewrite Hk, decide_True.
  - rewrite list_lookup_insert_ne, list_lookup_fmap by done.
    destruct (decide (j < 12)%nat) as [Hj|Hj]; [|by rewrite lookup_take_ge by lia].
    rewrite lookup_take_lt by done. destruct (addrs x !! j) as [c|] eqn:Hc; [|done]. cbn.
    rewrite Hk, decide_False; [done|]. intros ->. by apply Hne, Hu.
Qed.

Lemma file_bytes_same s s' x :
  (∀ k, k ∈ addrs x → blocks s' k = blocks s k) → file_bytes s' x = file_bytes s x.
Proof.
  intros Hk. unfold file_bytes. f_equal. apply list_fmap_ext. intros j b Hb.
  apply Hk. apply lookup_take_Some in Hb as [Hb _]. by eapply list_elem_of_lookup_2.
Qed.

Lemma write_loop_ok i x (s : St) off sz len buf :
  icache s !! i = Some x → blk_idle (blk s) → file_ok s (din x) len →
  0 ≤ off → 0 ≤ sz → off + sz ≤ len → sz ≤ zlen buf → Forall is_byte buf →
  wp (loop (S (Z.to_nat sz)) (write_round i sz) (0, off, buf)) s (λ o s',
    o = off + sz ∧
    file_bytes s' (din x) = splice (Z.to_nat off) (take (Z.to_nat sz) buf) (file_bytes s (din x)) ∧
    blk_idle (blk s') ∧ sblock s' = sblock s ∧ icache s' = icache s ∧
    ∀ k, k ∉ addrs (din x) → blocks s' k = blocks s k).
Proof.
  intros Hx Hid Hf Ho Hsz Hle Hbuf Hbytes. assert (layout_ok (sblock s)) as Hlo by apply Hid.
  pose proof (proj1 (dw_addrs _ (fo_wf _ _ _ Hf))) as Hla. pose proof (fo_len _ _ _ Hf) as Hlen.
  unfold zlen in Hbuf.
  apply (wp_loop (λ '(wt, o, rest) s', 0 ≤ wt ≤ sz ∧ o = off + wt ∧ rest = drop (Z.to_nat wt) buf ∧
      file_bytes s' (din x) = splice (Z.to_nat off) (take (Z.to_nat wt) buf) (file_bytes s (din x)) ∧
      blk_idle (blk s') ∧ sblock s' = sblock s ∧ icache s' = icache s ∧
      ∀ k, k ∉ addrs (din x) → blocks s' k = blocks s k)
    (λ '(wt, _, _) _, Z.to_nat (sz - wt))).
  2: { split_and!; try done; try lia. change (take (Z.to_nat 0) buf) with (@nil Z). unfold splice.
       cbn [length app]. by rewrite Nat.add_0_r, take_drop. }
  2: { lia. }
  intros [[wt o] rest] s1 (Hwt & -> & -> & Hfb & Hid1 & Hsb1 & Hic1 & Hk1). unfold write_round.
  destruct (Z.ltb_spec wt sz) as [Hlt|Hge]; cbn [negb].
  2: { rewrite wp_ret. replace sz with wt by lia. done. }
  set (m := Z.min (sz - wt) (BSIZE - (off + wt) mod BSIZE)). change BSIZE with 512 in *.
  pose proof (Z.mod_pos_bound (off + wt) 512 ltac:(lia)) as Hmod.
  assert (0 < m ∧ m ≤ 512 - (off + wt) mod 512 ∧ wt + m ≤ sz) as (Hm0 & Hm1 & Hm2) by (unfold m; lia).
  destruct (offset_block s (din x) len (off + wt) m) as (b & Hn & Hb & Hdb & Hb0 & Huniq); [done|done|lia|lia|lia|lia|].
  rewrite wp_bind. eapply wp_inode; [by rewrite Hic1|]. rewrite wp_bind.
  eapply wp_ok; [eapply inode_bmap_mapped; [by rewrite Hic1|done|done|lia]|]. cbn beta.
  pose proof (lo_data _ Hlo). destruct Hdb as [Hd1 Hd2].
  rewrite wp_bind. apply wp_with_cache. wp_apply bs_read_ok; [apply Hid1|pose proof (lo_bmap _ Hlo); lia|].
  intros bn t [Hh Hk]. rewrite wp_bind. eapply wp_with_cache_ok; [by eapply bs_cache_ok|].
  destruct (bs_block_ok (store (blk s1)) b) as [Hbl Hbb].
  set (e := take (Z.to_nat m) (drop (Z.to_nat wt) buf)).
  assert (length e = Z.to_nat m) as He by (unfold e; rewrite length_take, length_drop; lia).
  rewrite wp_bind. apply wp_with_cache. cbn [blk store]. wp_apply bs_store_ok; [exact Hh| | |].
  { rewrite length_splice; [done|]. rewrite He, Hbl. clear - Hm1 Hmod Hm0. lia. }
  { apply Forall_splice; [unfold e; auto using Forall_take, Forall_drop|done]. }
  intros _ t1 [Hh1 Hkt1]. rewrite wp_bind. apply wp_with_cache. cbn [blk store].
  wp_apply bs_write_ok; [exact Hh1|]. intros _ t2 [Hh2 Hkt2].
  rewrite wp_bind. apply wp_with_cache. cbn [blk store]. wp_apply bs_release_ok; [exact Hh2|]. intros _ t3 [Hi3 Hkt3].
  rewrite wp_ret. split; [|lia]. split; [lia|]. split; [lia|]. split.
  { rewrite drop_drop. f_equal. lia. }
  set (s2 := mkIState _ _ _).
  assert (∀ k, blocks s2 k = if decide (k = b) then splice (Z.to_nat ((off + wt) mod 512)) e (blocks s1 b) else blocks s1 k) as Hk2.
  { intros k. unfold blocks at 1. cbn. rewrite Hkt3, Hkt2. case_decide; [done|]. by rewrite Hkt1, Hk. }
  split; [|split; [split; [done|apply Hid1]|split; [done|split; [done|]]]].
  - rewrite (file_bytes_update s1 s2 (din x) (Z.to_nat ((off + wt) / 512)) b _ ltac:(lia) Hb Huniq Hk2).
    rewrite (splice_mjoin_512 _ _ (blocks s1 b)).
    + fold (file_bytes s1 (din x)). rewrite Hfb. unfold e.
      replace (512 * Z.to_nat ((off + wt) / 512) + Z.to_nat ((off + wt) mod 512))%nat with (Z.to_nat off + Z.to_nat wt)%nat
        by (clear - Ho Hwt; Z.div_mod_to_equations; lia).
      replace (Z.to_nat (wt + m)) with (Z.to_nat wt + Z.to_nat m)%nat by lia.
      apply splice_extend; [lia|]. rewrite length_file_bytes by done. lia.
    + apply file_blocks_512.
    + apply file_block_lookup; [lia|done].
    + rewrite He. clear - Hm1 Hmod Hm0. lia.
  - intros k Hnk. rewrite Hk2, decide_False; [by apply Hk1|]. intros ->. apply Hnk. by eapply list_elem_of_lookup_2.
Qed.

Lemma inode_write_ok dw i x (s : St) off sz buf :
  icache s !! i = Some x → iread x = true → blk_idle (blk s) → inum_ok (sblock s) (inum x) →
  0 ≤ off ≤ isize (din x) → 0 ≤ sz ≤ zlen buf → Forall is_byte buf →
  file_ok s (din x) (off + sz) →
  let x' := set_d (set_size (Z.max (isize (din x)) (off + sz)) (din x)) x in
  wp (inode_write dw i buf off sz) s (λ r s', r = sz ∧ blk_idle (blk s') ∧ sblock s' = sblock s ∧
    icache s' = <[i := x']> (icache s) ∧
    file_bytes s' (din x') = splice (Z.to_nat off) (take (Z.to_nat sz) buf) (file_bytes s (din x)) ∧
    (∀ k, data_block (sblock s) k → k ∉ addrs (din x) → blocks s' k = blocks s k) ∧
    (isize (din x) < off + sz → disk_dinode s' (inum x) = din x')).
Proof.
  intros Hx Hrd Hid Hin Ho Hsz Hbytes Hf x'. pose proof (fo_len _ _ _ Hf) as Hlen. unfold inode_write.
  assert (layout_ok (sblock s)) as Hlo by apply Hid.
  rewrite wp_bind. eapply wp_inode; [done|]. rewrite Hrd. cbn [negb]. rewrite wp_bind, wp_ret.
  rewrite wp_bind. eapply wp_inode; [done|].
  assert ((type (din x) =? F_DEV) = false ∧ (type (din x) =? F_DIR) || (type (din x) =? F_FILE) = true) as [-> ->].
  { destruct (fo_type _ _ _ Hf) as [->| ->]; done. }
  rewrite (proj2 (Z.ltb_ge (isize (din x)) off)) by lia.
  rewrite (proj2 (Z.ltb_ge (0xffffffff - off) sz)) by lia.
  rewrite (proj2 (Z.ltb_ge MAXFILE (off + sz))) by (change MAXFILE with 71680; lia).
  rewrite wp_bind. wp_apply write_loop_ok; [done|done|exact Hf|lia|lia|lia|lia|done|].
  intros o s1 (-> & Hfb & Hid1 & Hsb1 & Hic1 & Hk1).
  rewrite wp_bind. eapply wp_inode; [by rewrite Hic1|]. rewrite wp_bind.
  destruct (Z.ltb_spec (isize (din x)) (off + sz)) as [Hgrow|Hsame].
  - assert (x' = set_d (set_size (off + sz) (din x)) x) as Hx'.
    { unfold x'. do 2 f_equal. lia. }
    rewrite wp_bind. eapply wp_update_inode; [by rewrite Hic1|].
    assert (dinode_wf (din x')) as Hwf.
    { destruct (fo_wf _ _ _ Hf). rewrite Hx'. split; cbn; try done. lia. }
    wp_apply inode_flush_ok; [apply lookup_insert_eq|exact Hid1|by unfold sblock in *; cbn in *; rewrite Hsb1|by rewrite Hx' in Hwf|].
    cbn [inum set_d]. rewrite <- Hx'. intros _ s2 (Hid2 & Hsb2 & Hic2 & _ & Hk2 & Hdk2). rewrite wp_ret.
    assert (sblock (mkIState (blk s1) (<[i:=x']> (icache s1)) (cur_pid s1)) = sblock s) as Hsb by exact Hsb1.
    rewrite Hsb in *. split; [apply s32_small; lia|].
    split; [done|]. split; [done|]. split; [by rewrite Hic2; cbn; rewrite Hic1|].
    destruct (get_inode_block_ok s _ Hlo Hin) as [_ Hgb].
    assert (∀ k, data_block (sblock s) k → blocks s2 k = blocks s1 k) as Hk21.
    { intros k [Hk _]. rewrite Hk2; [done|]. pose proof (lo_bmap _ Hlo). lia. }
    split; [|split].
    + assert (file_bytes s2 (din x') = file_bytes s2 (din x)) as ->.
      { unfold file_bytes. by rewrite Hx'. }
      rewrite <- Hfb. unfold file_bytes. f_equal. apply list_fmap_ext. intros j b Hb.
      apply lookup_take_Some in Hb as [Hb _].
      destruct (fo_data _ _ _ Hf _ _ Hb) as [->|Hd]; [|by apply Hk21].
      rewrite Hk2; [done|]. lia.
    + intros k Hdk Hnk. rewrite Hk21 by done. by apply Hk1.
    + intros _. by rewrite Hdk2, decide_True.
  - assert (x' = x) as Hx'.
    { unfold x'. rewrite Z.max_l by lia. destruct x as [? ? ? ? ? []]. done. }
    rewrite wp_ret, wp_ret, Hx'. split; [apply s32_small; lia|]. split; [done|]. split; [done|].
    split; [by rewrite insert_id|]. split; [done|]. split; [auto|]. lia.
Qed.

End specs.

(** ** Properties *)

Section properties.
Context {T : Type} {BS : BlockStore T}.

(** Inodes survive the disk: after [inode_flush] of a slot, [inode_load]
    of another slot for the same inode number finds the same 66 bytes of
    fields, while every other inode of the disk keeps its fields. *)
Theorem inode_flush_load (s : IState T) i j x y :
  icache s !! i = Some x → icache s !! j = Some y → j ≠ NULL →
  blk_idle (blk s) → inum_ok (sblock s) (inum x) → dinode_wf (din x) → type (din x) ≠ 0 →
  inum y = inum x → inref y ≠ 0 → iread y = false →
  wp (do! inode_flush i in inode_load j) s (λ r s', r = true ∧ blk_idle (blk s') ∧
    icache s' !! j = Some (set_read true (set_d (din x) y)) ∧
    (∀ n, inum_ok (sblock s) n → n ≠ inum x → disk_dinode s' n = disk_dinode s n)).
Proof.
  intros Hx Hy Hj Hid Hin Hwf Hty Hnum Href Hrd. rewrite wp_bind.
  wp_apply inode_flush_ok; [done..|]. intros _ s1 (Hid1 & Hsb1 & Hic1 & _ & _ & Hdk1).
  assert (disk_dinode s1 (inum y) = din x) as Hdy by (by rewrite Hdk1, decide_True; rewrite ?Hnum).
  wp_apply inode_load_ok; [by rewrite Hic1|done|done|done|done|by rewrite Hsb1, Hnum|by rewrite Hdy|].
  intros r s2 (-> & Hid2 & Hsb2 & Hic2 & Hk2). split; [done|]. split; [done|]. split.
  - by rewrite Hic2, lookup_insert_eq, Hdy.
  - intros n Hn Hne. etrans; [|etrans; [exact (Hdk1 n Hn)|by rewrite decide_False]].
    unfold disk_dinode. by rewrite Hsb2, Hk2.
Qed.

(** [inode_read] of a file or a directory, over direct blocks: the result
    is the number of bytes between the cursor and the end of the file, at most
    [sz], and the bytes are those of the file's blocks at the cursor, across
    block boundaries; nothing on the disk changes. *)
Theorem inode_read_file dr (s : IState T) i x off sz :
  icache s !! i = Some x → iread x = true → blk_idle (blk s) →
  0 ≤ off ≤ isize (din x) → 0 ≤ sz → off + sz < 4294967296 →
  let n := Z.min sz (isize (din x) - off) in
  file_ok s (din x) (off + n) →
  wp (inode_read dr i off sz) s (λ '(r, out) s',
    r = n ∧ out = slice (Z.to_nat off) (Z.to_nat n) (file_bytes s (din x)) ∧ blk_idle (blk s') ∧
    ∀ k, blocks s' k = blocks s k).
Proof.
  intros. wp_apply inode_read_ok; [done..|]. intros [r out] s' (? & ? & ? & _ & _ & ?). done.
Qed.

(** C16: [inode_write] replaces exactly the bytes of the file from the cursor
    on, whatever blocks they cross, extends the size if needed and then stores
    the inode; no data block of another file changes; and [inode_read] at the
    same place returns the bytes that were written. *)
Theorem inode_write_read dr dw (s : IState T) i x off buf :
  icache s !! i = Some x → iread x = true → blk_idle (blk s) → inum_ok (sblock s) (inum x) →
  0 ≤ off ≤ isize (din x) → Forall is_byte buf → file_ok s (din x) (off + zlen buf) →
  wp (let! w := inode_write dw i buf off (zlen buf) in
      let! '(r, out) := inode_read dr i off (zlen buf) in ret (w, r, out)) s (λ '(w, r, out) s',
    w = zlen buf ∧ r = zlen buf ∧ out = buf ∧ blk_idle (blk s') ∧
    file_bytes s' (din x) = splice (Z.to_nat off) buf (file_bytes s (din x)) ∧
    (∀ k, data_block (sblock s) k → k ∉ addrs (din x) → blocks s' k = blocks s k) ∧
    (isize (din x) < off + zlen buf → isize (disk_dinode s' (inum x)) = off + zlen buf)).
Proof.
  intros Hx Hrd Hid Hin Ho Hb Hf. pose proof (fo_len _ _ _ Hf) as Hlen.
  rewrite wp_bind. wp_apply inode_write_ok; [done|done|done|done|lia|unfold zlen; lia|done|exact Hf|].
  intros w s1 (-> & Hid1 & Hsb1 & Hic1 & Hfb1 & Hk1 & Hgrow).
  unfold zlen in *. rewrite Nat2Z.id, firstn_all in *.
  set (x' := set_d _ x) in *.
  assert (addrs (din x') = addrs (din x)) as Ha by done.
  assert (isize (din x') = Z.max (isize (din x)) (off + length buf)) as Hs by done.
  assert (file_bytes s1 (din x') = file_bytes s1 (din x)) as Hsame by done.
  rewrite wp_bind. wp_apply (inode_read_ok dr i x' s1 off (length buf)).
  - rewrite Hic1. apply lookup_insert_eq.
  - exact Hrd.
  - exact Hid1.
  - rewrite Hs. lia.
  - lia.
  - lia.
  - rewrite Hs. replace (off + Z.min _ _) with (off + length buf) by lia.
    destruct Hf as [Hwf Hty Hl Hmap Hdata]. split; rewrite ?Hsb1; try done.
    destruct Hwf. split; try done. rewrite Hs. lia.
  - intros [r out] s2 (-> & -> & Hid2 & Hsb2 & Hic2 & Hk2). rewrite wp_ret.
    replace (Z.min (length buf) (isize (din x') - off)) with (length buf : Z) by (rewrite Hs; lia).
    rewrite Nat2Z.id. split; [done|]. split; [done|].
    assert (length (file_bytes s (din x)) = (512 * 12)%nat) as Hl12.
    { apply length_file_bytes, (proj1 (dw_addrs _ (fo_wf _ _ _ Hf))). }
    split; [|split; [done|split; [|split]]].
    + rewrite Hfb1. apply slice_splice_same. lia.
    + rewrite <- Hfb1, Hsame. apply file_bytes_same. intros. apply Hk2.
    + intros k Hd Hnk. rewrite Hk2. by apply Hk1.
    + intros Hlt. assert (disk_dinode s2 (inum x) = disk_dinode s1 (inum x)) as ->.
      { unfold disk_dinode. by rewrite Hsb2, Hk2. }
      rewrite Hgrow by done. rewrite Hs. lia.
Qed.

(** Files never grow past their direct blocks: if the pointer block is
    mapped and its word for the block is 0, [bmap1] has to allocate while the
    pointer block is in use, and the cache has no second buffer: the kernel
    panics. *)
Theorem bmap1_panics (s : IState T) i x n p :
  icache s !! i = Some x → blk_idle (blk s) → 12 ≤ n < 140 →
  addrs (din x) !! 12%nat = Some p → data_block (sblock s) p →
  le_num (slice (Z.to_nat (4 * (n - 12))) 4 (blocks s p)) = 0 →
  inode_bmap i n s = Panic "bcache read".
Proof.
  intros Hx Hid Hn Hp Hd Hw. assert (layout_ok (sblock s)) as Hlo by apply Hid.
  pose proof (lo_bmap _ Hlo) as Hbm. pose proof (lo_data _ Hlo) as Hdt. destruct Hd as [Hd1 Hd2].
  unfold inode_bmap. change NDIRECT with 12.
  rewrite (proj2 (Z.ltb_ge n 12)), (proj2 (Z.leb_le 12 n)) by lia.
  unfold bmap1. change NDIRECT with 12. rewrite u32_small by lia.
  assert (inode i s = Ok x s) as Hi by (apply wp_eq; by eapply wp_inode).
  rewrite (bind_ok _ _ _ _ _ Hi).
  rewrite (bind_ok _ _ _ p s) by (change (Z.to_nat 12) with 12%nat; by rewrite Hp).
  rewrite (proj2 (Z.eqb_neq p 0)) by lia. cbn [negb].
  rewrite (bind_ok _ _ _ p s) by done.
  pose proof (bs_read_ok (store (blk s)) (idev x) p false (proj1 Hid) ltac:(lia)) as Hr.
  apply wp_run in Hr as (b & t & Hrun & Hh & Hk).
  set (s1 := mkIState (mkBlkState t (super_block (blk s))) (icache s) (cur_pid s)).
  assert (with_cache (bs_read (idev x) p false) s = Ok b s1) as Hread.
  { unfold with_cache, with_blk, with_store, zoom. by rewrite Hrun. }
  rewrite (bind_ok _ _ _ _ _ Hread).
  assert (with_cache (bs_cache b) s1 = Ok (blocks s p) s1) as Hcache.
  { unfold with_cache, with_blk, with_store, zoom. cbn [blk store s1]. by rewrite (bs_cache_ok _ _ _ _ Hh). }
  rewrite (bind_ok _ _ _ _ _ Hcache). change (BSIZE / 4) with 128.
  rewrite (proj2 (Z.leb_gt 128 (n - 12))) by lia. rewrite Hw. cbn [negb Z.eqb].
  apply bind_panic, bind_panic. unfold with_blk, zoom. cbn [blk s1].
  assert (block_alloc (idev x) (mkBlkState t (super_block (blk s))) = Panic "bcache read") as ->; [|done].
  unfold block_alloc. apply bind_panic. unfold freemap_search, bind at 1, gets at 1. cbn [super_block].
  unfold sblock in *. rewrite u32_small by lia.
  destruct (Z.to_nat (datastart (super_block (blk s)) - bmapstart (super_block (blk s)))) as [|k] eqn:Ek; [lia|].
  cbn [search_blocks]. unfold bind at 1, gets at 1. cbn [super_block]. apply bind_panic.
  unfold with_store, zoom. cbn [store]. rewrite (bs_nested _ _ _ _ (idev x) _ false Hh); [done|].
  rewrite u32_small by lia. lia.
Qed.

End properties.

(** ** Witnesses *)

#[local] Existing Instance bcache_store.
#[local] Existing Instance sim_drive.

(** A file of five bytes in block 3, in slot 0; slot 1 is for the same inode *)
Definition demo_dinode : DInode := mkDInode F_FILE 0 0 1 5 [3; 4; 0; 0; 0; 0; 0; 0; 0; 0; 0; 0; 9].

Definition demo_inode (rd : bool) : Inode := mkInode 1 2 1 (mkMutex false 0) rd demo_dinode.

Definition demo_istate : IState (BState SimDrive) :=
  mkIState (demo_blk sim_fresh) {[ 0 := demo_inode true; 1 := demo_inode false ]} 1.

Lemma demo_dinode_wf : dinode_wf demo_dinode.
Proof.
  split; cbn; unfold F_FILE; [lia..|]. split; [done|]. repeat (apply Forall_cons; split; [lia|]). constructor.
Qed.

Lemma file_ok_le {T} (s : IState T) x len len' : file_ok s x len → 0 ≤ len' ≤ len → file_ok s x len'.
Proof.
  intros [Hwf Hty Hlen Hmap Hdata] Hle. split; try assumption; [lia|]. intros n Hn. apply Hmap. lia.
Qed.

Lemma demo_file_ok : file_ok demo_istate demo_dinode 600.
Proof.
  split; [exact demo_dinode_wf|by left|lia| |].
  - intros [|[|n]] Hn; [exists 3|exists 4|lia]; (split; [done|]); (split; [split; cbn; lia|]); intros m Hm Hlook.
    all: do 12 (destruct m as [|m]; [done || discriminate|]); lia.
  - intros m b Hm. do 13 (destruct m as [|m]; [injection Hm as <-; (by left) || (right; split; cbn; lia)|]). done.
Qed.

Lemma inode_flush_load_witness :
  wp (do! inode_flush (BS:=bcache_store (patience:=3)) 0 in inode_load 1) demo_istate
    (λ r s', r = true ∧ icache s' !! 1 = Some (demo_inode true)).
Proof.
  eapply wp_mono.
  - apply (inode_flush_load (BS:=bcache_store (patience:=3)) demo_istate 0 1 (demo_inode true) (demo_inode false)); try done.
    + by apply demo_blk_idle.
    + exact demo_dinode_wf.
  - intros r s' (-> & _ & Hic & _). split; [done|]. rewrite Hic. done.
Defined.

Lemma inode_read_file_witness :
  wp (inode_read (BS:=bcache_store (patience:=3)) (λ _, None) 0 2 100) demo_istate
    (λ '(r, out) _, r = 3 ∧ out = [0; 0; 0]).
Proof.
  eapply wp_mono.
  - apply (inode_read_file (BS:=bcache_store (patience:=3)) (λ _, None) demo_istate 0 (demo_inode true) 2 100).
    + done.
    + done.
    + by apply demo_blk_idle.
    + cbn. lia.
    + lia.
    + lia.
    + apply (file_ok_le _ _ _ _ demo_file_ok). by split; vm_compute.
  - intros [r out] s' (-> & -> & _). split; [done|]. vm_compute. reflexivity.
Defined.

Lemma inode_write_read_witness :
  wp (let! w := inode_write (BS:=bcache_store (patience:=3)) (λ _, None) 0 [1; 2; 3] 5 3 in
      let! '(r, out) := inode_read (λ _, None) 0 5 3 in ret (w, r, out)) demo_istate
    (λ '(w, r, out) _, w = 3 ∧ r = 3 ∧ out = [1; 2; 3]).
Proof.
  eapply wp_mono.
  - apply (inode_write_read (BS:=bcache_store (patience:=3)) (λ _, None) (λ _, None) demo_istate 0 (demo_inode true) 5 [1; 2; 3]).
    + done.
    + done.
    + by apply demo_blk_idle.
    + split_and!; by vm_compute.
    + cbn. lia.
    + repeat constructor; unfold is_byte; lia.
    + apply (file_ok_le _ _ _ _ demo_file_ok). by split; vm_compute.
  - intros [[w r] out] s' (-> & -> & -> & _). done.
Defined.

Lemma bmap1_panics_witness :
  inode_bmap (BS:=bcache_store (patience:=3)) 0 20 demo_istate = Panic "bcache read".
Proof.
  apply (bmap1_panics (BS:=bcache_store (patience:=3)) demo_istate 0 (demo_inode true) 20 9).
  - done.
  - by apply demo_blk_idle.
  - lia.
  - done.
  - split; cbn; lia.
  - vm_compute. reflexivity.
Defined.
