(* ===== verification/Dir.v ===== *)
(** * kernel/fs/dir.c: directories and paths

    Strings are in the memory [txt]; local arrays are above it and are gone at
    the end of the routine. [frame] is what uninitialised local arrays hold,
    [slash] the address of the literal ["/"]. *)
From S2P Require Import Prelude Machine CMem CString Ide Disk BCache Block Inode.

Record DState (T : Type) := mkDState {
  ino : IState T;
  txt : mem;
}.
Arguments mkDState {T} ino txt.
Arguments ino {T}.
Arguments txt {T}.

Section dir.
Context {T : Type} {BS : BlockStore T}.
Notation St := (DState T).
Context (dev_read : Z → option (Z → Z → M (IState T) (Z * list Z))).
Context (dev_write : Z → option (Z → list Z → M (IState T) Z)).
Context (frame : list Z) (slash : Z).

Definition with_ino {A} (m : M (IState T) A) : M St A := zoom ino (λ i s, mkDState i (txt s)) m.

Definition with_txt {A} (m : M mem A) : M St A := zoom txt (λ t s, mkDState (ino s) t) m.

Definition local {A} (l : list Z) (k : Z → M St A) : M St A := local_in txt (λ t s, mkDState (ino s) t) l k.

Definition uninit (n : nat) : list Z := take n (frame ++ replicate n 0).

Definition dir_init : M St unit := let! _ := with_ino (inode_getc ROOTDEV ROOTINO) in done!.

Definition dir_namecmp (a b : Z) : M St Z := with_txt (strncmp a b DIRNAMESZ).

(** [inode_read(dir, (char * )&entry, off, sizeof(DirEntry))]: the result, with
    the entry stored at [entry] *)
Definition read_entry (dir entry off : Z) : M St Z :=
  let! ' (r, l) := with_ino (inode_read dev_read dir off sizeof_DirEntry) in
  do! with_txt (store_bytes entry l) in
  ret r.

(** Fuel: [off] grows by the size of an entry up to the size of the directory. *)
Definition entries (size : Z) : nat := S (Z.to_nat (size / sizeof_DirEntry + 1)).

(** One round of the loop of [dir_lookup]: goes on, or the result and the
    offset of the entry *)
Definition lookup_round (dir name entry off : Z) : M St (Z + Z * option Z) :=
  let! x := with_ino (inode dir) in
  if negb (off <? isize (din x)) then ret (inr (NULL, None)) else
  let! r := read_entry dir entry off in
  if negb (r =? sizeof_DirEntry) then panic "dir_lookup: invalid dir" else
  let! num := with_txt (load32 entry) in
  if num =? 0 then ret (inl (u32 (off + sizeof_DirEntry))) else
  let! c := dir_namecmp (entry + 4) name in
  if c =? 0 then
    let! i := with_ino (inode_getc (idev x) num) in
    ret (inr (i, Some off))
  else ret (inl (u32 (off + sizeof_DirEntry))).

(** The inode, and the value of [*offset] where the code sets it *)
Definition dir_lookup (dir name : Z) : M St (Z * option Z) :=
  let! x := with_ino (inode dir) in
  if negb (type (din x) =? F_DIR) then panic "dir_lookup, not a dir" else
  local (uninit 28) (λ entry,
    loop (entries (isize (din x))) (lookup_round dir name entry) 0).

(** One round of the loop of [dir_link]: goes on, or was there a free entry? *)
Definition link_round (dir entry : Z) (new_entry : list Z) (off : Z) : M St (Z + Z * bool) :=
  let! x := with_ino (inode dir) in
  if negb (off <? isize (din x)) then ret (inr (off, false)) else
  let! r := read_entry dir entry off in
  if negb (r =? sizeof_DirEntry) then panic "dir_link: invalid dir" else
  let! num := with_txt (load32 entry) in
  if num =? 0 then
    let! w := with_ino (inode_write dev_write dir new_entry off sizeof_DirEntry) in
    if negb (w =? sizeof_DirEntry) then panic "dir_link: write error" else
    ret (inr (off, true))
  else ret (inl (u32 (off + sizeof_DirEntry))).

(** [new_entry] is passed by value: 28 bytes on the stack. *)
Definition dir_link (dir : Z) (new_entry : list Z) : M St bool :=
  let! x := with_ino (inode dir) in
  if negb (type (din x) =? F_DIR) then panic "dir_link: not a dir" else
  local new_entry (λ ne,
    let! ' (i, _) := dir_lookup dir (ne + 4) in
    if negb (i =? NULL) then ret false else
    local (uninit 28) (λ entry,
      let! ' (off, linked) := loop (entries (isize (din x))) (link_round dir entry new_entry) 0 in
      if linked : bool then ret true else
      do! with_ino (inode_offmap dir (u32 (off + sizeof_DirEntry))) in
      let! w := with_ino (inode_write dev_write dir new_entry off sizeof_DirEntry) in
      if negb (w =? sizeof_DirEntry) then panic "dir_link: write error" else
      ret true)).

(** The loop over the components; [strtok_r] gives [tok] and [savedpath]. A
    path has less than [PATH_MAX] components. *)
Definition idx_round (n : Z) (neg : bool) (part : Z) (v : Z * Z * Z) : M St (Z * Z * Z + bool) :=
  let '(tok, savedpath, i) := v in
  if tok =? 0 then ret (inr false) else
  if i =? n then
    let! _ := with_txt (strncpy part tok DIRNAMESZ) in
    do! (if neg then let! _ := with_txt (strrev part) in done! else done!) in
    ret (inr true)
  else
    let! ' (tok, savedpath) := with_txt (strtok_r 0 slash savedpath) in
    ret (inl (tok, savedpath, i + 1)).

Definition dir_pathidx (path n part : Z) : M St bool :=
  local (uninit 24) (λ p,
    let! _ := with_txt (memmove p path DIRNAMESZ) in
    let neg := n <? 0 in
    let n := if neg then s32 (- n) else n in
    do! (if neg then let! _ := with_txt (strrev p) in done! else done!) in
    let! ' (tok, savedpath) := with_txt (strtok_r p slash 0) in
    loop (Z.to_nat PATH_MAX) (idx_round n neg part) (tok, savedpath, 1)).

(** [strchr(savedpath, '/')] *)
Definition has_slash (savedpath : Z) : M St bool :=
  let! a := with_txt (strchr savedpath 47) in ret (negb (a =? 0)).

(** The body of the loop of [dir_abspath], with a component in [tok]. A
    directory falls through to the case of a file; so no case goes round. *)
Definition abspath_body (parent : bool) (dir tok savedpath : Z) : M St Z :=
  let! more := has_slash savedpath in
  if parent && negb more then
    do! with_ino (inode_drop dir) in ret dir
  else
  let! ' (i, _) := dir_lookup dir tok in
  if i =? NULL then do! with_ino (inode_drop dir) in ret NULL else
  let! _ := with_ino (inode_load i) in
  let! x := with_ino (inode i) in
  let file :=
    let! more := has_slash savedpath in
    if more : bool then panic "dir_abspath: file is not the last path" else
    do! with_ino (inode_drop i) in ret i in
  if type (din x) =? F_DIR then
    let! more := has_slash savedpath in
    if negb more then do! with_ino (inode_drop i) in ret i
    else do! with_ino (inode_drop dir) in file
  else if (type (din x) =? F_DEV) || (type (din x) =? F_FILE) then file
  else panic "dir_abspath".

Definition dir_abspath (path : Z) (parent : bool) : M St Z :=
  if path =? 0 then ret NULL else
  let! c := with_txt (load path) in
  if negb (c =? 47) then ret NULL else
  local (uninit 1024) (λ pathbuf,
    let! _ := with_txt (strncpy pathbuf path (PATH_MAX - 1)) in
    do! with_txt (CMem.store (pathbuf + (PATH_MAX - 1)) 0) in
    let! dir := with_ino (inode_getc ROOTDEV ROOTINO) in
    let! _ := with_ino (inode_load dir) in
    let! ' (tok, savedpath) := with_txt (strtok_r pathbuf slash 0) in
    if tok =? 0 then ret NULL else abspath_body parent dir tok savedpath).

End dir.

(** ** Specifications *)

(** The characters of a field, up to the terminator if it has one *)
Definition cname (f : list Z) : list Z := take_while (λ c, negb (c =? 0)) f.

(** The entry of [name]: its number and the inode number. Entries without an
    inode are free. *)
Fixpoint find_entry (name : list Z) (k : nat) (l : list (Z * list Z)) : option (nat * Z) :=
  match l with
  | [] => None
  | (num, f) :: l =>
      if decide (num ≠ 0 ∧ cname f = name) then Some (k, num) else find_entry name (S k) l
  end.

Section specs.
Context {T : Type} {BS : BlockStore T}.
Implicit Types (s : IState T) (x : DInode).

(** The entries of a directory *)
Definition dir_entries s x : list (Z * list Z) :=
  (λ k : nat, direntry_decode (slice (28 * k) 28 (file_bytes s x))) <$> seq 0 (Z.to_nat (isize x / 28)).

(** A directory of whole entries, in direct blocks *)
Record dir_ok s x : Prop := mk_dir_ok {
  do_type : type x = F_DIR;
  do_size : isize x mod 28 = 0;
  do_file : file_ok s x (isize x);
}.

(** Reading has changed what the cache holds, no more. *)
Definition same_ino s s' : Prop :=
  blk_idle (blk s') ∧ sblock s' = sblock s ∧ icache s' = icache s ∧ ∀ k, blocks s' k = blocks s k.

(** [inode_getc] takes the slot [j]: the first that holds the inode or is free. *)
Record getc_slot (ic : gmap Z Inode) (dv num j : Z) (x : Inode) : Prop := mk_getc_slot {
  gs_range : 0 ≤ j ≤ NINODES;
  gs_slot : ic !! j = Some x;
  gs_take : inref x = 0 ∨ (0 < inref x ∧ idev x = dv ∧ inum x = num);
  gs_first : ∀ i, 0 ≤ i < j → ∃ y, ic !! i = Some y ∧ inref y ≠ 0 ∧ ¬ (0 ≤ inref y ∧ idev y = dv ∧ inum y = num);
}.

(** The inode in the slot afterwards *)
Definition got (dv num : Z) (x : Inode) : Inode :=
  if decide (0 ≤ inref x ∧ idev x = dv ∧ inum x = num) then set_inref (s32 (inref x + 1)) x
  else mkInode dv num 1 (lk x) false (din x).

(** ** Lemmas *)

Lemma same_ino_refl s : blk_idle (blk s) → same_ino s s.
Proof. by split. Qed.

Lemma same_ino_trans s s1 s2 : same_ino s s1 → same_ino s1 s2 → same_ino s s2.
Proof.
  intros (H1 & H2 & H3 & H4) (K1 & K2 & K3 & K4). split; [done|]. split; [congruence|]. split; [congruence|].
  intros k. by rewrite K4.
Qed.

Lemma same_ino_file s s' x len : same_ino s s' → file_ok s x len → file_ok s' x len ∧ file_bytes s' x = file_bytes s x.
Proof.
  intros (_ & Hsb & _ & Hb) [H1 H2 H3 H4 H5]. rewrite <- Hsb in H4, H5. split; [by split|].
  apply file_bytes_same. intros k _. apply Hb.
Qed.

Lemma inode_getc_ok s dv num j (x : Inode) : getc_slot (icache s) dv num j x →
  inode_getc dv num s = Ok j (mkIState (blk s) (<[j := got dv num x]> (icache s)) (cur_pid s)).
Proof.
  intros [Hj Hx Ht Hf]. unfold inode_getc, NINODES in *. change (S (Z.to_nat 128)) with 129%nat.
  assert (∀ n i, (n + i = 129)%nat → i ≤ j → getc_loop n i dv num s =
    Ok j (mkIState (blk s) (<[j := got dv num x]> (icache s)) (cur_pid s))) as Hloop; [|apply (Hloop 129%nat 0%nat); [done|cbn; lia]].
  induction n as [|n IH]; intros i Hn Hi; [lia|]. cbn [getc_loop]. unfold inode, gets, need.
  destruct (decide (i = j :> Z)) as [Heq|Hne].
  - rewrite Heq in *. erewrite bind_ok by (erewrite bind_ok by reflexivity; by rewrite Hx).
    unfold got. case_decide as Hd.
    + destruct Hd as (H1 & H2 & H3). rewrite (proj2 (Z.leb_le _ _)), (proj2 (Z.eqb_eq (idev x) dv)), (proj2 (Z.eqb_eq (inum x) num)) by done.
      cbn [andb]. unfold update_inode, inode, gets, need. erewrite bind_ok; [reflexivity|].
      erewrite bind_ok by (erewrite bind_ok by reflexivity; by rewrite Hx). reflexivity.
    + assert ((0 <=? inref x) && (idev x =? dv) && (inum x =? num) = false) as ->.
      { apply not_true_is_false. intros [[H1 H2]%andb_prop H3]%andb_prop. apply Hd. lia. }
      destruct Ht as [Ht|Ht]; [|exfalso; apply Hd; lia]. rewrite Ht. cbn [Z.eqb].
      unfold update_inode, inode, gets, need. erewrite bind_ok; [reflexivity|].
      erewrite bind_ok by (erewrite bind_ok by reflexivity; by rewrite Hx). reflexivity.
  - destruct (Hf i ltac:(lia)) as (y & Hy & Hr & Hno).
    erewrite bind_ok by (erewrite bind_ok by reflexivity; by rewrite Hy).
    assert ((0 <=? inref y) && (idev y =? dv) && (inum y =? num) = false) as ->.
    { apply not_true_is_false. intros [[H1 H2]%andb_prop H3]%andb_prop. apply Hno. lia. }
    rewrite (proj2 (Z.eqb_neq _ _)) by done. replace (i + 1) with (Z.of_nat (S i)) by lia. apply IH; lia.
Qed.
End specs.

Lemma cname_strn m p f : array m p f → length f = 24%nat → Forall is_byte f → strn m p 24 (cname f).
Proof.
  intros Ha Hl Hb. unfold cname. split; [|split; [|split]].
  - clear -Hb. induction Hb as [|c f Hc _ IH]; cbn; [constructor|]. destruct (Z.eqb_spec c 0); cbn; [constructor|].
    constructor; [unfold is_byte in Hc; lia|done].
  - rewrite <- Hl. apply take_while_length.
  - clear -Ha. revert p Ha. induction f as [|c f IH]; intros p Ha; cbn; [done|]. apply array_cons in Ha as [H1 H2].
    destruct (c =? 0); cbn; [apply array_nil|]. apply array_cons. auto.
  - rewrite <- Hl. clear -Ha. revert p Ha. induction f as [|c f IH]; intros p Ha; cbn; [lia|]. apply array_cons in Ha as [H1 H2].
    destruct (Z.eqb_spec c 0) as [->|]; cbn; [intros; by rewrite Z.add_0_r|]. intros Hlt.
    replace (p + S (length (take_while (λ c, negb (c =? 0)) f))) with (p + 1 + length (take_while (λ c, negb (c =? 0)) f)) by lia.
    apply IH; [done|lia].
Qed.

Section dirs.
Context {T : Type} {BS : BlockStore T}.
Context (dr : Z → option (Z → Z → M (IState T) (Z * list Z))).
Context (frame : list Z) (slash : Z).
Notation St := (DState T).
Implicit Types (st : St).

Lemma wp_with_ino {A} (m : M (IState T) A) st Q :
  wp m (ino st) (λ a i, Q a (mkDState i (txt st))) → wp (with_ino m) st Q.
Proof. unfold with_ino. by rewrite wp_zoom. Qed.

Lemma wp_with_txt {A} (m : M mem A) st a t (Q : A → St → Prop) :
  m (txt st) = Ok a t → Q a (mkDState (ino st) t) → wp (with_txt m) st Q.
Proof. intros Hm HQ. unfold with_txt. rewrite wp_zoom. by eapply wp_ok. Qed.

Lemma wp_get_inode i x st (Q : Inode → St → Prop) :
  icache (ino st) !! i = Some x → Q x st → wp (with_ino (inode i)) st Q.
Proof. intros Hx HQ. apply wp_with_ino. eapply wp_inode; [exact Hx|]. by destruct st. Qed.

(** The local array [e] of an entry, above the memory [t] *)
Definition entry_at (t m : mem) (e : Z) : Prop :=
  e = stack_top t ∧ mapped m e 28 ∧ ∀ a, ¬ e ≤ a < e + 28 → m !! a = t !! a.

Lemma length_uninit n : length (uninit frame n) = n.
Proof. unfold uninit. rewrite length_take, length_app, length_replicate. lia. Qed.

Lemma entry_at_start t : entry_at t (write (stack_top t) (uninit frame 28) t) (stack_top t).
Proof.
  split; [done|]. split.
  - rewrite <- (length_uninit 28) at 2. apply array_mapped, array_write.
  - intros a Ha. rewrite lookup_write, decide_False; [done|]. unfold zlen. rewrite length_uninit. lia.
Qed.

Lemma entry_at_write t m e l : entry_at t m e → length l = 28%nat → entry_at t (write e l m) e.
Proof.
  intros (He & Hm & Ha) Hl. split; [done|]. split; [by apply mapped_write|].
  intros a Hna. rewrite lookup_write, decide_False; [by apply Ha|]. unfold zlen. lia.
Qed.

(** Strings below the local array are as before. *)
Lemma entry_at_strn t m e p n l : entry_at t m e → strn t p n l → strn m p n l.
Proof.
  intros (-> & Hm & Ha) (H1 & H2 & H3 & H4).
  assert (∀ a b, t !! a = Some b → m !! a = Some b) as Hk.
  { intros a b Hab. rewrite Ha; [done|]. pose proof (stack_top_fresh _ _ _ Hab). lia. }
  split; [done|]. split; [done|]. split; [|by intros ?%H4%Hk]. intros i b Hi. by apply Hk, H3.
Qed.

(** An entry of the directory [x] lies within its bytes. *)
Lemma dir_slice (s : IState T) x (k : nat) :
  dir_ok s x → 28 * k < isize x →
  length (slice (28 * k) 28 (file_bytes s x)) = 28%nat ∧ Forall is_byte (slice (28 * k) 28 (file_bytes s x)) ∧
  28 * k + 28 ≤ isize x.
Proof.
  intros [Ht Hs Hf] Hk. assert (28 * k + 28 ≤ isize x) as Hle by (Z.div_mod_to_equations; lia).
  pose proof (fo_len _ _ _ Hf) as Hlen. pose proof (length_file_bytes s x (proj1 (dw_addrs _ (fo_wf _ _ _ Hf)))) as Hl.
  split; [apply length_slice; lia|]. split; [|done]. apply Forall_slice. unfold file_bytes.
  apply Forall_join, Forall_fmap, Forall_true. intros b. apply bs_block_ok.
Qed.

Lemma read_entry_ok st dir x t e (k : nat) :
  icache (ino st) !! dir = Some x → iread x = true → blk_idle (blk (ino st)) → dir_ok (ino st) (din x) →
  28 * k < isize (din x) → entry_at t (txt st) e →
  wp (read_entry dr dir e (28 * k)) st (λ r st', r = 28 ∧ same_ino (ino st) (ino st') ∧
    txt st' = write e (slice (28 * k) 28 (file_bytes (ino st) (din x))) (txt st)).
Proof.
  intros Hx Hrd Hid Hdir Hk He. destruct (dir_slice _ _ _ Hdir Hk) as (Hl & Hb & Hle).
  pose proof (fo_len _ _ _ (do_file _ _ Hdir)) as Hlen. unfold read_entry, sizeof_DirEntry. rewrite wp_bind.
  apply wp_with_ino. eapply wp_mono.
  { apply (inode_read_ok dr dir x (ino st) (28 * k) 28); [done|done|done|lia|lia|lia|].
    rewrite Z.min_l by lia. apply (file_ok_le _ _ _ _ (do_file _ _ Hdir)). lia. }
  cbn beta. intros [r l] i (-> & -> & Hid' & Hsb & Hic & Hbl). rewrite Z.min_l by lia.
  replace (Z.to_nat (28 * k)) with (28 * k)%nat by lia. change (Z.to_nat 28) with 28%nat.
  rewrite wp_bind. eapply wp_with_txt.
  { cbn [txt]. apply store_bytes_ok; [done|]. rewrite Hl. apply He. }
  rewrite wp_ret. done.
Qed.

(** The number of the entry and its name, once it has been read *)
Lemma entry_fields t m e l : entry_at t m e → length l = 28%nat → Forall is_byte l →
  load32 e (write e l m) = Ok (direntry_decode l).1 (write e l m) ∧
  strn (write e l m) (e + 4) 24 (cname (direntry_decode l).2).
Proof.
  intros He Hl Hb. pose proof (array_write e l m) as Ha. rewrite <- (take_drop 4 l) in Ha.
  apply array_app in Ha as [Ha1 Ha2]. rewrite (take_drop 4 l) in Ha1, Ha2. split.
  - change (direntry_decode l).1 with (le_num (slice 0 4 l)). unfold slice. rewrite drop_0.
    apply load32_ok; [done|]. rewrite length_take. lia.
  - assert (zlen (take 4 l) = 4) as Hz by (unfold zlen; rewrite length_take; lia). rewrite Hz in Ha2.
    change (direntry_decode l).2 with (take 24 (drop 4 l)). rewrite take_ge by (rewrite length_drop; lia).
    apply cname_strn; [done|rewrite length_drop; lia|by apply Forall_drop].
Qed.

(** The entries from [k] on *)
Definition entries_from (s : IState T) x (k n : nat) : list (Z * list Z) :=
  (λ k : nat, direntry_decode (slice (28 * k) 28 (file_bytes s x))) <$> seq k n.

Lemma same_ino_entries s s' x k n : same_ino s s' → entries_from s' x k n = entries_from s x k n.
Proof.
  intros (_ & _ & _ & Hb). unfold entries_from. apply list_fmap_ext. intros i j _. by rewrite (file_bytes_same s s' x).
Qed.

Lemma same_ino_dir s s' x : same_ino s s' → dir_ok s x → dir_ok s' x.
Proof. intros Hs [H1 H2 H3]. split; [done|done|by apply (same_ino_file s)]. Qed.

(** The loop of [dir_lookup] from the entry [k] on, with the local array [e] *)
Lemma lookup_loop_ok dir name e t x nm n : ∀ fuel st (k : nat) (Q : Z * option Z → St → Prop),
  icache (ino st) !! dir = Some x → iread x = true → blk_idle (blk (ino st)) → dir_ok (ino st) (din x) →
  28 * (k + n)%nat = isize (din x) → entry_at t (txt st) e → strn t name 24 nm → (n < fuel)%nat →
  match find_entry nm k (entries_from (ino st) (din x) k n) with
  | None => ∀ i m, same_ino (ino st) i → entry_at t m e → Q (NULL, None) (mkDState i m)
  | Some (j, num) => ∀ i m, same_ino (ino st) i → entry_at t m e →
      wp (inode_getc (idev x) num) i (λ r i', Q (r, Some (28 * j)) (mkDState i' m))
  end →
  wp (loop fuel (lookup_round dr dir name e) (28 * k)) st Q.
Proof.
  induction n as [|n IH]; intros fuel st k Q Hx Hrd Hid Hdir Hn He Hnm Hf HQ;
    (destruct fuel as [|fuel]; [lia|]); rewrite wp_loop_S; unfold lookup_round at 1; rewrite wp_bind;
    (eapply wp_get_inode; [exact Hx|]).
  - rewrite (proj2 (Z.ltb_ge _ _)) by lia. cbn [negb]. rewrite wp_ret.
    specialize (HQ (ino st) (txt st) ltac:(by apply same_ino_refl) He). by destruct st.
  - rewrite (proj2 (Z.ltb_lt _ _)) by lia. cbn [negb]. rewrite wp_bind.
    destruct (dir_slice (ino st) (din x) k Hdir ltac:(lia)) as (Hl & Hb & Hle).
    eapply wp_mono; [apply (read_entry_ok st dir x t e k); try done; lia|]. cbn beta.
    intros r st1 (-> & Hs & Ht). set (l := slice (28 * k) 28 (file_bytes (ino st) (din x))) in *.
    cbn [Z.eqb sizeof_DirEntry Pos.eqb negb]. destruct (entry_fields t (txt st) e l He Hl Hb) as [Hnum Hname].
    pose proof (entry_at_write t (txt st) e l He Hl) as He1. rewrite <- Ht in Hnum, Hname, He1.
    rewrite wp_bind. eapply wp_with_txt; [exact Hnum|].
    change (entries_from (ino st) (din x) k (S n)) with (direntry_decode l :: entries_from (ino st) (din x) (S k) n) in HQ.
    destruct (direntry_decode l) as [num f] eqn:El. cbn [fst snd] in *. cbn [find_entry] in HQ.
    pose proof (fo_len _ _ _ (do_file _ _ Hdir)) as Hlen.
    assert (wp (loop fuel (lookup_round dr dir name e) (28 * S k)) st1 Q ↔
            wp (loop fuel (lookup_round dr dir name e) (u32 (28 * k + sizeof_DirEntry))) (mkDState (ino st1) (txt st1)) Q) as Hnext.
    { unfold sizeof_DirEntry. rewrite u32_small by lia. replace (28 * k + 28) with (28 * S k) by lia. by destruct st1. }
    assert (¬ (num ≠ 0 ∧ cname f = nm) → wp (loop fuel (lookup_round dr dir name e) (28 * S k)) st1 Q) as Hgo.
    { intros Hno. rewrite decide_False in HQ by done. pose proof Hs as (Hid1 & _ & Hic1 & _).
      apply IH; [by rewrite Hic1|done|done|by eapply same_ino_dir|lia|done|done|lia|].
      rewrite (same_ino_entries (ino st)) by done.
      destruct (find_entry nm (S k) _) as [[j num']|]; intros i m Hi Hm; apply HQ; try done; by eapply same_ino_trans. }
    destruct (Z.eqb_spec num 0) as [->|Hnz].
    + rewrite wp_ret. apply Hnext, Hgo. tauto.
    + rewrite wp_bind. unfold dir_namecmp.
      destruct (strncmp_ok 24 (txt st1) (e + 4) name (cname f) nm ltac:(lia) Hname ltac:(by eapply entry_at_strn)) as (c & Hc & Heq).
      eapply wp_with_txt; [exact Hc|]. destruct (Z.eqb_spec c 0) as [Hc0|Hc0].
      * rewrite decide_True in HQ by (split; [done|by apply Heq]). rewrite wp_bind. apply wp_with_ino. cbn [ino txt].
        eapply wp_mono; [by apply HQ|]. cbn beta. intros i i' HQ'. rewrite wp_ret. exact HQ'.
      * rewrite wp_ret. apply Hnext, Hgo. intros [_ Hf']. by apply Hc0, Heq.
Qed.

Lemma wp_dir_local {A} l (k : Z → M St A) st Q :
  wp (k (stack_top (txt st))) (mkDState (ino st) (write (stack_top (txt st)) l (txt st)))
    (λ a st', Q a (mkDState (ino st') (free_bytes (stack_top (txt st)) (length l) (txt st')))) →
  wp (local l k) st Q.
Proof. intros H. apply wp_local_in. exact H. Qed.

Lemma entry_at_end t m e (l : list Z) : entry_at t m e → length l = 28%nat → free_bytes e (length l) m = t.
Proof. intros (-> & _ & Ha) Hl. apply free_local; [done|]. unfold zlen. by rewrite Hl. Qed.

Lemma dir_lookup_ok st dir x name nm (Q : Z * option Z → St → Prop) :
  icache (ino st) !! dir = Some x → iread x = true → blk_idle (blk (ino st)) → dir_ok (ino st) (din x) →
  strn (txt st) name 24 nm →
  match find_entry nm 0 (dir_entries (ino st) (din x)) with
  | None => ∀ i, same_ino (ino st) i → Q (NULL, None) (mkDState i (txt st))
  | Some (j, num) => ∀ i, same_ino (ino st) i →
      wp (inode_getc (idev x) num) i (λ r i', Q (r, Some (28 * j)) (mkDState i' (txt st)))
  end →
  wp (dir_lookup dr frame dir name) st Q.
Proof.
  intros Hx Hrd Hid Hdir Hnm HQ. unfold dir_lookup. rewrite wp_bind. eapply wp_get_inode; [exact Hx|].
  rewrite (do_type _ _ Hdir). change (F_DIR =? F_DIR) with true. cbn [negb]. apply wp_dir_local.
  pose proof (fo_len _ _ _ (do_file _ _ Hdir)) as Hlen. pose proof (do_size _ _ Hdir) as Hsz.
  pose proof (length_uninit 28) as Hu. pose proof (entry_at_start (txt st)) as Hst.
  change 0 with (28 * 0%nat) at 1. set (n := Z.to_nat (isize (din x) / 28)).
  apply (lookup_loop_ok dir name (stack_top (txt st)) (txt st) x nm n); try done.
  - cbn. unfold n. Z.div_mod_to_equations. lia.
  - unfold entries, sizeof_DirEntry, n. Z.div_mod_to_equations. lia.
  - cbn [ino]. change (entries_from (ino st) (din x) 0 n) with (dir_entries (ino st) (din x)).
    destruct (find_entry nm 0 (dir_entries (ino st) (din x))) as [[j num]|]; intros i m Hi Hm; cbn [ino txt].
    + eapply wp_mono; [by apply HQ|]. cbn beta. intros r i'. by rewrite (entry_at_end _ _ _ _ Hm Hu).
    + rewrite (entry_at_end _ _ _ _ Hm Hu). by apply HQ.
Qed.

(** *** Paths *)

Lemma inode_load_read (s : IState T) i x :
  icache s !! i = Some x → i ≠ NULL → inref x ≠ 0 → iread x = true → inode_load i s = Ok true s.
Proof.
  intros Hx Hi Hr Hrd. unfold inode_load. rewrite (proj2 (Z.eqb_neq i NULL)) by done.
  unfold inode, gets, need. erewrite bind_ok by (erewrite bind_ok by reflexivity; by rewrite Hx).
  by rewrite (proj2 (Z.eqb_neq _ _)), Hrd by done.
Qed.

(** The copy of the path *)
Lemma path_copy t P path l :
  P = stack_top t → cstr t path l → (length l < 1022)%nat →
  ∃ m, strncpy P path (PATH_MAX - 1) (write P (uninit frame 1024) t) = Ok P m ∧
    CMem.store (P + (PATH_MAX - 1)) 0 m = Ok tt (write (P + 1023) [0] m) ∧
    cstr (write (P + 1023) [0] m) P l ∧
    (∀ a, ¬ P ≤ a < P + 1024 → write (P + 1023) [0] m !! a = t !! a).
Proof.
  intros HP Hs Hl. pose proof (length_uninit 1024) as Hu.
  assert (path + length l < P) as Hbelow by (rewrite HP; apply (stack_top_fresh _ _ _ (cstr_end _ _ _ Hs))).
  set (t1 := write P (uninit frame 1024) t).
  assert (mapped t1 P 1024) as Hm by (rewrite <- Hu; apply array_mapped, array_write).
  assert (cstr t1 path l) as Hs1 by (apply cstr_write; [right; unfold zlen; lia|done]).
  assert (Z.of_nat (Z.to_nat (PATH_MAX - 1)) = 1023) as HN by (unfold PATH_MAX; lia).
  destruct (strncpy_image_string (Z.to_nat (PATH_MAX - 1)) l ltac:(lia)) as [Himg Hz].
  set (img := strncpy_image (Z.to_nat (PATH_MAX - 1)) l) in *.
  exists (write P img t1). split; [|split; [|split]].
  - apply strncpy_ok; [unfold PATH_MAX; lia|done| |unfold zlen; lia].
    eapply mapped_weaken; [exact Hm|lia|]. fold img. lia.
  - change (PATH_MAX - 1) with 1023. apply store_ok. apply (mapped_one _ P 1024); [by apply mapped_write|lia].
  - assert (array (write P img t1) P (l ++ [0])) as Ha.
    { pose proof (array_write P img t1) as Ha. destruct Himg as [E|E]; rewrite E in Ha at 2; [done|].
      change [0; 0] with ([0] ++ [0]) in Ha. rewrite app_assoc in Ha. by apply array_app in Ha as [? _]. }
    apply cstr_write; [right; unfold zlen in *; lia|]. split; [done|apply Hs].
  - intros a Hna. unfold t1. rewrite !lookup_write. unfold zlen in *. cbn [length].
    rewrite Hu, !decide_False by lia. done.
Qed.

(** A path [/comp], or [/comp/rest] *)
Record path_at (t : mem) (path : Z) (comp tail rest : list Z) : Prop := mk_path_at {
  pa_null : path ≠ 0;
  pa_slash : cstr t slash [47];
  pa_path : cstr t path (47 :: comp ++ tail);
  pa_comp : comp ≠ [] ∧ 47 ∉ comp;
  pa_tail : tail = [] ∧ rest = [] ∨ tail = 47 :: rest;
  pa_len : (length (comp ++ tail) < 1021)%nat;
}.

(** The first component of the copy of the path at [P] *)
Lemma first_token t m P path comp tail rest :
  path_at t path comp tail rest → P = stack_top t → cstr m P (47 :: comp ++ tail) →
  (∀ a, ¬ P ≤ a < P + 1024 → m !! a = t !! a) →
  ∃ sv m', strtok_r P slash 0 m = Ok (P + 1, sv) m' ∧ 0 < sv ∧ cstr m' sv rest ∧ strn m' (P + 1) 24 (take 24 comp) ∧
    (∀ a, ¬ P ≤ a < P + 1024 → m' !! a = t !! a).
Proof.
  intros [_ Hsl Hpa [Hne Hno] Htail Hlen] HP Hm Hout. pose proof (stack_top_pos t) as HP0. rewrite <- HP in HP0.
  assert (cstr m slash [47]) as Hq.
  { destruct Hsl as [Ha Hf]. split; [|done]. intros i b Hi. rewrite Hout; [by apply Ha|].
    pose proof (stack_top_fresh _ _ _ (Ha i b Hi)). lia. }
  assert (Forall (λ c, c ≠ 47) comp) as Hcomp by (apply Forall_forall; intros c Hc ->; done).
  pose proof (strtok_r_ok m P 0 slash 47 1 comp tail) as Ht. cbn zeta in Ht.
  rewrite (proj2 (Z.eqb_neq P 0)) in Ht by lia. change (P + 1%nat) with (P + 1) in Ht.
  specialize (Ht Hq Hm I Hcomp).
  assert (cstr m (P + 1) (comp ++ tail)) as Hm1 by (by apply cstr_cons in Hm as (_ & _ & ?)).
  destruct comp as [|c0 comp'] eqn:Ec; [done|]. rewrite <- Ec in *.
  destruct Htail as [[-> ->]| ->].
  - specialize (Ht I). rewrite app_nil_r in *.
    exists (P + 1 + zlen comp), m. split; [rewrite Ht, Ec; done|]. split; [unfold zlen; lia|]. split; [|split; [|done]].
    + rewrite <- (app_nil_r comp) in Hm1. by apply cstr_app_r in Hm1.
    + by apply cstr_strn.
  - specialize (Ht ltac:(by split; [|right])).
    exists (P + 1 + zlen comp + 1), (write (P + 1 + zlen comp) [0] m). split; [rewrite Ht, Ec; done|]. split; [unfold zlen; lia|].
    assert (cstr m (P + 1 + zlen comp + 1) rest) as Hr by (apply cstr_app_r, cstr_cons in Hm1; apply Hm1).
    split; [|split].
    + apply cstr_write; [left; unfold zlen; cbn; lia|done].
    + apply cstr_strn. destruct Hm1 as [Ha Hf]. apply Forall_app in Hf as [Hf _]. split; [|done].
      rewrite <- app_assoc in Ha. apply array_app in Ha as [Ha _]. apply array_app. split.
      * apply array_write_disjoint; [unfold zlen; cbn; lia|done].
      * apply array_write.
    + intros a Hna. rewrite lookup_write, decide_False; [by apply Hout|].
      rewrite length_app in Hlen. unfold zlen in *. cbn [length] in *. lia.
Qed.

Lemma has_slash_ok st sv rest : 0 < sv → cstr (txt st) sv rest →
  wp (has_slash sv) st (λ b st', st' = st ∧ (b = true ↔ 47 ∈ rest)).
Proof.
  intros Hsv Hr. destruct (strchr_ok (txt st) sv rest 47 Hsv Hr ltac:(lia)) as (a & Ha & Hiff).
  unfold has_slash. rewrite wp_bind. eapply wp_with_txt; [exact Ha|]. rewrite wp_ret. split; [by destruct st|].
  rewrite negb_true_iff, Z.eqb_neq. destruct (decide (47 ∈ rest)); tauto.
Qed.

(** The root directory is in the slot [r]. *)
Record root_at (s : IState T) (r : Z) (rx : Inode) : Prop := mk_root_at {
  ra_slot : getc_slot (icache s) ROOTDEV ROOTINO r rx;
  ra_ref : 0 < inref rx < 2147483647;
  ra_read : iread rx = true;
  ra_dir : dir_ok s (din rx);
  ra_idle : blk_idle (blk s);
}.

(** The file [num] is not in memory; [j] is the slot it will get. *)
Record not_open (s : IState T) (num j : Z) (y : Inode) : Prop := mk_not_open {
  no_slot : getc_slot (icache s) ROOTDEV num j y;
  no_free : inref y = 0 ∧ ¬ (idev y = ROOTDEV ∧ inum y = num);
  no_inum : inum_ok (sblock s) num;
  no_type : type (disk_dinode s num) = F_DIR ∨ type (disk_dinode s num) = F_DEV ∨ type (disk_dinode s num) = F_FILE;
}.

Lemma getc_slot_other ic dv num j (y : Inode) r (x x' : Inode) :
  getc_slot ic dv num j y → ic !! r = Some x → r ≠ j → 0 < inref x → 0 < inref x' → idev x' = idev x → inum x' = inum x →
  getc_slot (<[r := x']> ic) dv num j y.
Proof.
  intros [Hr Hs Ht Hf] Hx Hne H1 H2 H3 H4. split; [done|by rewrite lookup_insert_ne|done|].
  intros i Hi. destruct (Hf i Hi) as (z & Hz & Hz0 & Hno). destruct (decide (i = r)) as [->|].
  - exists x'. rewrite lookup_insert_eq. split; [done|]. split; [lia|]. rewrite Hx in Hz. injection Hz as <-.
    intros (? & ? & ?). apply Hno. lia.
  - exists z. by rewrite lookup_insert_ne.
Qed.

Lemma same_ino_dinode (s s' : IState T) n : same_ino s s' → disk_dinode s' n = disk_dinode s n.
Proof. intros (_ & Hsb & _ & Hb). unfold disk_dinode. by rewrite Hsb, Hb. Qed.

(** The file [num] is loaded in the slot [j]; nobody holds it. *)
Definition opened (s s' : IState T) (num j : Z) : Prop :=
  blk_idle (blk s') ∧ sblock s' = sblock s ∧ (∀ k, blocks s' k = blocks s k) ∧
  (∃ z, icache s' !! j = Some z ∧ idev z = ROOTDEV ∧ inum z = num ∧ iread z = true ∧ inref z = 0 ∧
        din z = disk_dinode s num) ∧
  (∀ i, i ≠ j → icache s' !! i = icache s !! i).

Lemma dir_ok_blk (s s' : IState T) x : blk s' = blk s → dir_ok s x → dir_ok s' x.
Proof.
  intros Hb [H1 H2 [F1 F2 F3 F4 F5]]. split; [done|done|]. unfold sblock in *. split; unfold sblock; rewrite ?Hb; done.
Qed.

(** The end of the body: the last reference is dropped. *)
Lemma drop_opened st j x num (s0 : IState T) :
  icache (ino st) !! j = Some x → inref x = 1 → idev x = ROOTDEV → inum x = num → iread x = true →
  din x = disk_dinode s0 num → blk_idle (blk (ino st)) → sblock (ino st) = sblock s0 →
  (∀ k, blocks (ino st) k = blocks s0 k) → (∀ i, i ≠ j → icache (ino st) !! i = icache s0 !! i) →
  wp (do! with_ino (inode_drop j) in ret j) st (λ i st', i = j ∧ opened s0 (ino st') num j ∧ txt st' = txt st).
Proof.
  intros Hx Hr Hd Hn Hrd Hdin Hid Hsb Hbl Hic. rewrite wp_bind. apply wp_with_ino. unfold inode_drop. rewrite wp_bind.
  eapply wp_inode; [exact Hx|]. eapply wp_update_inode; [exact Hx|]. rewrite wp_ret. split; [done|]. split; [|done].
  split; [done|]. split; [done|]. split; [done|]. cbn [icache ino]. split.
  - exists (set_inref (s32 (inref x - 1)) x). rewrite lookup_insert_eq, Hr. by split_and!.
  - intros i Hi. rewrite lookup_insert_ne by done. by apply Hic.
Qed.

Lemma abspath_body_ok st r rx tok nm sv rest k num j y :
  icache (ino st) !! r = Some rx → iread rx = true → idev rx = ROOTDEV → dir_ok (ino st) (din rx) → blk_idle (blk (ino st)) →
  strn (txt st) tok 24 nm → 0 < sv → cstr (txt st) sv rest → 47 ∉ rest →
  find_entry nm 0 (dir_entries (ino st) (din rx)) = Some (k, num) → not_open (ino st) num j y →
  wp (abspath_body dr frame false r tok sv) st (λ i st', i = j ∧ opened (ino st) (ino st') num j ∧ txt st' = txt st).
Proof.
  intros Hrx Hrd Hdev Hdir Hid Hnm Hsv Hrest Hno Hfind [Hslot [Hy0 Hyn] Hinum Hty].
  pose proof (gs_range _ _ _ _ _ Hslot) as Hj. pose proof (gs_slot _ _ _ _ _ Hslot) as Hy.
  unfold abspath_body. rewrite wp_bind. eapply wp_mono; [by apply (has_slash_ok st sv rest)|]. cbn beta.
  intros b st0 [-> _]. cbn [andb]. rewrite wp_bind. apply (dir_lookup_ok st r rx tok nm); try done. rewrite Hfind, Hdev.
  intros s1 Hs1. pose proof Hs1 as (Hid1 & Hsb1 & Hic1 & Hbl1).
  eapply wp_ok; [apply (inode_getc_ok s1 ROOTDEV num j y); by rewrite Hic1|].
  assert (got ROOTDEV num y = mkInode ROOTDEV num 1 (lk y) false (din y)) as -> by (unfold got; rewrite decide_False; [done|tauto]).
  rewrite (proj2 (Z.eqb_neq j NULL)) by (unfold NULL; lia).
  rewrite wp_bind. apply wp_with_ino. cbn [ino txt].
  eapply wp_mono.
  { apply (inode_load_ok j (mkInode ROOTDEV num 1 (lk y) false (din y))); cbn [icache inref iread inum blk]; try done.
    - by rewrite lookup_insert_eq.
    - unfold NULL. lia.
    - unfold sblock in *. cbn [blk]. by rewrite Hsb1.
    - change (disk_dinode (mkIState (blk s1) _ (cur_pid s1)) num) with (disk_dinode s1 num).
      rewrite (same_ino_dinode (ino st) s1) by done. unfold F_DIR, F_DEV, F_FILE in Hty. lia. }
  cbn beta. intros ok s2 (-> & Hid2 & Hsb2 & Hic2 & Hbl2). cbn [icache inum] in Hic2.
  change (disk_dinode (mkIState (blk s1) _ (cur_pid s1)) num) with (disk_dinode s1 num) in Hic2.
  rewrite (same_ino_dinode (ino st) s1) in Hic2 by done. rewrite insert_insert_eq in Hic2.
  set (x := set_read true (set_d (disk_dinode (ino st) num) (mkInode ROOTDEV num 1 (lk y) false (din y)))) in *.
  assert (icache s2 !! j = Some x) as Hx by (by rewrite Hic2, lookup_insert_eq).
  rewrite wp_bind. eapply wp_get_inode; [exact Hx|]. change (type (din x)) with (type (disk_dinode (ino st) num)).
  set (st2 := mkDState s2 (txt st)).
  assert (∀ (k1 : bool → M St Z) Q, wp (k1 false) st2 Q → wp (let! more := has_slash sv in k1 more) st2 Q) as Hmore.
  { intros k1 Q HQ. rewrite wp_bind. eapply wp_mono; [by apply (has_slash_ok st2 sv rest)|]. cbn beta.
    intros [] st' [-> Hiff]; [|exact HQ]. destruct Hno. by apply Hiff. }
  assert (wp (do! with_ino (inode_drop j) in ret j) st2
    (λ i st', i = j ∧ opened (ino st) (ino st') num j ∧ txt st' = txt st)) as Hdrop.
  { apply (drop_opened st2 j x num (ino st)); try done; [unfold sblock in *; cbn [ino st2 blk] in *; congruence| |].
    - intros k'. cbn [ino st2]. rewrite Hbl2. apply Hbl1.
    - intros i Hi. cbn [ino st2]. rewrite Hic2, lookup_insert_ne, Hic1 by done. done. }
  destruct Hty as [->|[->| ->]].
  - change (F_DIR =? F_DIR) with true. cbn iota. apply Hmore. exact Hdrop.
  - change (F_DEV =? F_DIR) with false. change (F_DEV =? F_DEV) with true. cbn [orb]. apply Hmore. exact Hdrop.
  - change (F_FILE =? F_DIR) with false. change ((F_FILE =? F_DEV) || (F_FILE =? F_FILE)) with true. cbn iota.
    apply Hmore. exact Hdrop.
Qed.

Lemma dir_abspath_ok st path comp tail rest r rx k num j y :
  path_at (txt st) path comp tail rest → 47 ∉ rest → root_at (ino st) r rx →
  find_entry (take 24 comp) 0 (dir_entries (ino st) (din rx)) = Some (k, num) → not_open (ino st) num j y →
  wp (dir_abspath dr frame slash path false) st (λ i st', i = j ∧ txt st' = txt st ∧
    opened (mkIState (blk (ino st)) (<[r := set_inref (inref rx + 1) rx]> (icache (ino st))) (cur_pid (ino st)))
      (ino st') num j).
Proof.
  intros Hpath Hno [Hrslot Href Hrd Hdir Hid] Hfind Hopen. pose proof Hpath as [_ Hsl Hpa Hcomp Htail Hlen].
  pose proof (gs_range _ _ _ _ _ Hrslot) as Hr. pose proof (gs_slot _ _ _ _ _ Hrslot) as Hrx.
  destruct (gs_take _ _ _ _ _ Hrslot) as [|(_ & Hdev & Hrnum)]; [lia|].
  apply cstr_cons in Hpa as Hpa'. destruct Hpa' as (Hp0 & _).
  unfold dir_abspath. rewrite (proj2 (Z.eqb_neq path 0)) by apply Hpath. rewrite wp_bind. eapply wp_with_txt; [by apply load_ok|].
  cbn [Z.eqb negb]. change (47 =? 47) with true. cbn [negb].
  destruct st as [s0 t]. cbn [ino txt] in *. apply wp_dir_local. cbn [txt ino].
  set (P := stack_top t). destruct (path_copy t P path (47 :: comp ++ tail) eq_refl Hpa ltac:(cbn; lia))
    as (m & Hcpy & Hst & Hm & Hout).
  rewrite wp_bind. eapply wp_with_txt; [exact Hcpy|]. rewrite wp_bind. eapply wp_with_txt; [exact Hst|]. cbn [ino].
  rewrite wp_bind. apply wp_with_ino. cbn [ino]. eapply wp_ok; [by apply (inode_getc_ok s0 _ _ r rx)|].
  assert (got ROOTDEV ROOTINO rx = set_inref (inref rx + 1) rx) as ->.
  { unfold got. rewrite decide_True by (split; [lia|done]). by rewrite s32_small by lia. }
  set (rx' := set_inref (inref rx + 1) rx). set (s1 := mkIState (blk s0) (<[r:=rx']> (icache s0)) (cur_pid s0)).
  assert (icache s1 !! r = Some rx') as Hr1 by (cbn; by rewrite lookup_insert_eq).
  rewrite wp_bind. apply wp_with_ino. cbn [ino txt].
  eapply wp_ok; [apply (inode_load_read s1 r rx' Hr1); [unfold NULL; lia|cbn; lia|done]|].
  destruct (first_token t _ P path comp tail rest Hpath eq_refl Hm Hout) as (sv & m' & Htok & Hsv & Hrest & Hnm & Hout').
  rewrite wp_bind. eapply wp_with_txt; [exact Htok|]. cbn [ino].
  pose proof (stack_top_pos t) as HP0. rewrite (proj2 (Z.eqb_neq (P + 1) 0)) by (unfold P; lia).
  assert (not_open s1 num j y) as Hopen1.
  { destruct Hopen as [H1 H2 H3 H4]. split; [|done..].
    apply (getc_slot_other _ _ _ _ _ r rx rx'); [done|done| |lia|cbn; lia|done|done].
    intros ->. pose proof (gs_slot _ _ _ _ _ H1) as Hy. rewrite Hrx in Hy. injection Hy as <-. lia. }
  eapply wp_mono.
  { apply (abspath_body_ok (mkDState s1 m') r rx' (P + 1) (take 24 comp) sv rest k num j y); cbn [ino txt]; try done.
    by apply (dir_ok_blk s0). }
  cbn beta. intros i st' (-> & Ho & Ht'). cbn [ino txt] in *. split; [done|]. split; [|exact Ho].
  rewrite Ht'. pose proof (length_uninit 1024) as Hu. apply free_local; [done|]. intros a Ha. apply Hout'.
  unfold zlen in Ha. rewrite Hu in Ha. exact Ha.
Qed.

(** ** Properties *)

(** C26: [dir_lookup] finds the first entry with the name (compared over the 24
    bytes of the field) that is in use: its result is the slot [inode_getc]
    takes for the inode of the entry, with the offset of the entry; without
    such an entry it is null. The loop ends, the disk and the memory of the
    strings are as before. *)
Theorem dir_lookup_finds st dir x name nm j y :
  icache (ino st) !! dir = Some x → iread x = true → blk_idle (blk (ino st)) → dir_ok (ino st) (din x) →
  strn (txt st) name 24 nm →
  (∀ k num, find_entry nm 0 (dir_entries (ino st) (din x)) = Some (k, num) → getc_slot (icache (ino st)) (idev x) num j y) →
  wp (dir_lookup dr frame dir name) st (λ r st', txt st' = txt st ∧ (∀ b, blocks (ino st') b = blocks (ino st) b) ∧
    match find_entry nm 0 (dir_entries (ino st) (din x)) with
    | None => r = (NULL, None) ∧ icache (ino st') = icache (ino st)
    | Some (k, num) => r = (j, Some (28 * k)) ∧ icache (ino st') = <[j := got (idev x) num y]> (icache (ino st))
    end).
Proof.
  intros Hx Hrd Hid Hdir Hnm Hgetc. apply (dir_lookup_ok st dir x name nm); try done.
  destruct (find_entry nm 0 (dir_entries (ino st) (din x))) as [[k num]|].
  - intros i (_ & _ & Hic & Hb). specialize (Hgetc k num eq_refl). rewrite <- Hic in Hgetc.
    eapply wp_ok; [by apply inode_getc_ok|]. cbn. rewrite Hic. by split_and!.
  - intros i (_ & _ & Hic & Hb). by split_and!.
Qed.

(** C27: [dir_abspath] of [/name] gives the inode of that name in the root
    directory, loaded from the disk; no reference to it is held, but the one to
    the root directory that was taken is kept. *)
Theorem dir_abspath_name st path name r rx k num j y :
  path_at (txt st) path name [] [] → root_at (ino st) r rx →
  find_entry (take 24 name) 0 (dir_entries (ino st) (din rx)) = Some (k, num) → not_open (ino st) num j y →
  wp (dir_abspath dr frame slash path false) st (λ i st', i = j ∧ txt st' = txt st ∧
    opened (mkIState (blk (ino st)) (<[r := set_inref (inref rx + 1) rx]> (icache (ino st))) (cur_pid (ino st)))
      (ino st') num j).
Proof. intros. by eapply dir_abspath_ok; [|apply not_elem_of_nil|..]. Qed.

(** A path of two components is resolved to its first: [dir_abspath] of
    [/name/rest] gives the inode of [name], a directory or not, and never looks
    at [rest]. *)
Theorem dir_abspath_two st path name rest r rx k num j y :
  path_at (txt st) path name (47 :: rest) rest → 47 ∉ rest → root_at (ino st) r rx →
  find_entry (take 24 name) 0 (dir_entries (ino st) (din rx)) = Some (k, num) → not_open (ino st) num j y →
  wp (dir_abspath dr frame slash path false) st (λ i st', i = j ∧ ∃ z, icache (ino st') !! j = Some z ∧ inum z = num).
Proof.
  intros. eapply wp_mono; [by eapply dir_abspath_ok|]. cbn beta.
  intros i st' (-> & _ & _ & _ & _ & (z & Hz & _ & Hn & _) & _). split; [done|]. by exists z.
Qed.
End dirs.

(** ** Witnesses *)

(** A disk with a root directory in the block 3: [.], a free entry and [a], the
    inode 2 *)
Definition demo_field (c : Z) : list Z := c :: replicate 23 0.

Definition demo_dir : DInode := mkDInode F_DIR 0 0 1 84 (3 :: replicate 12 0).

Definition demo_file : DInode := mkDInode F_FILE 0 0 1 5 (4 :: replicate 12 0).

Definition demo_media : SimDrive :=
  mkSimDrive (0, 0, 0, 0, 0)
    {[ (1, 3) := splice 0 (direntry_encode 1 (demo_field 46) ++ direntry_encode 0 (demo_field 97) ++
                   direntry_encode 2 (demo_field 97)) (replicate 512 0);
       (1, 1) := splice 132 (dinode_encode demo_file) (replicate 512 0) ]} Idle false 0.

Definition demo_root : Inode := mkInode ROOTDEV ROOTINO 1 (mkMutex false 0) true demo_dir.

Definition demo_slot : Inode := mkInode 0 0 0 (mkMutex false 0) false demo_dir.

(** [/] at 8, [/a] at 16, [/a/b] at 32 *)
Definition demo_state : DState (BState SimDrive) :=
  mkDState (mkIState (demo_blk demo_media) {[ 0 := demo_root; 1 := demo_slot ]} 1)
    (write 8 [47; 0] (write 16 [47; 97; 0] (write 32 [47; 97; 47; 98; 0] ∅))).

#[local] Instance demo_store : BlockStore (BState SimDrive) := bcache_store (patience := 3).

Lemma demo_dir_ok : dir_ok (ino demo_state) demo_dir.
Proof.
  split; [done|done|]. split; [|by right|cbn; lia| |].
  - split; cbn; try lia; unfold F_DIR; try lia. split; [done|]. repeat (apply Forall_cons; split; [lia|]). constructor.
  - intros [|n] Hn; [|cbn in Hn; lia]. exists 3. split; [done|]. split; [split; cbn; lia|].
    intros m Hm Hlook. do 12 (destruct m as [|m]; [done || discriminate|]). lia.
  - intros m b Hm. do 13 (destruct m as [|m]; [injection Hm as <-; (by left) || (right; split; cbn; lia)|]). done.
Qed.

Lemma demo_getc : getc_slot (icache (ino demo_state)) ROOTDEV 2 1 demo_slot.
Proof.
  split; [unfold NINODES; lia|done|by left|]. intros i Hi. assert (i = 0) as -> by lia. exists demo_root.
  split; [done|]. split; [done|]. by intros (_ & _ & ?).
Qed.

Lemma demo_root_at : root_at (ino demo_state) 0 demo_root.
Proof.
  split; [|cbn; lia|done|exact demo_dir_ok|by apply demo_blk_idle].
  split; [unfold NINODES; lia|done|right; split_and!; done || (cbn; lia)|intros; lia].
Qed.

Lemma demo_not_open : not_open (ino demo_state) 2 1 demo_slot.
Proof.
  split; [exact demo_getc|split; [done|]| |].
  - by intros [? _].
  - split; [lia|]. by split.
  - right. right. vm_compute. reflexivity.
Qed.

Lemma dir_lookup_finds_witness :
  wp (dir_lookup (λ _, None) [] 0 17) demo_state (λ r st', r = (1, Some 56)).
Proof.
  eapply wp_mono.
  - apply (dir_lookup_finds (λ _, None) [] demo_state 0 demo_root 17 [97] 1 demo_slot);
      [done|done|by apply demo_blk_idle|exact demo_dir_ok| |].
    + split; [by repeat constructor|]. split; [cbn; lia|]. split; [|by intros].
      intros [|i] b Hi; [|done]. injection Hi as <-. vm_compute. reflexivity.
    + intros k num Hf. assert (num = 2) as -> by (vm_compute in Hf; congruence). exact demo_getc.
  - cbn beta. intros r st' (_ & _ & Hm).
    assert (find_entry [97] 0 (dir_entries (ino demo_state) (din demo_root)) = Some (2%nat, 2)) as Hf by (vm_compute; reflexivity).
    rewrite Hf in Hm. by destruct Hm as [-> _].
Defined.

Lemma demo_find : find_entry (take 24 [97]) 0 (dir_entries (ino demo_state) (din demo_root)) = Some (2%nat, 2).
Proof. vm_compute. reflexivity. Qed.

(** The strings of the demo *)
Lemma demo_cstr p l : (p, l) ∈ [(8, [47]); (16, [47; 97]); (32, [47; 97; 47; 98])] → cstr (txt demo_state) p l.
Proof.
  rewrite !elem_of_cons. intros Hin.
  destruct Hin as [[= -> ->]|[[= -> ->]|[[= -> ->]|Hin%not_elem_of_nil]]]; [..|done];
    (split; [|by repeat apply Forall_cons_2]); intros i b Hi;
    do 5 (destruct i as [|i]; [first [discriminate Hi|injection Hi as <-; vm_compute; reflexivity]|]); done.
Qed.

Lemma dir_abspath_name_witness :
  wp (dir_abspath (λ _, None) [] 8 16 false) demo_state (λ i st', i = 1 ∧
    ∃ z, icache (ino st') !! 1 = Some z ∧ inum z = 2 ∧ din z = demo_file).
Proof.
  eapply wp_mono.
  - apply (dir_abspath_name (λ _, None) [] 8 demo_state 16 [97] 0 demo_root 2 2 1 demo_slot);
      [|exact demo_root_at|exact demo_find|exact demo_not_open].
    split; [done|by apply demo_cstr, elem_head|by apply demo_cstr, elem_tail, elem_head| |by left|cbn; lia].
    split; [done|]. intros [?|?%not_elem_of_nil]%elem_of_cons; done.
  - cbn beta. intros i st' (-> & _ & _ & _ & _ & (z & Hz & _ & Hn & _ & _ & Hd) & _). split; [done|].
    exists z. split; [done|]. split; [done|]. rewrite Hd. vm_compute. reflexivity.
Defined.

Lemma dir_abspath_two_witness :
  wp (dir_abspath (λ _, None) [] 8 32 false) demo_state (λ i st', i = 1 ∧
    ∃ z, icache (ino st') !! 1 = Some z ∧ inum z = 2).
Proof.
  apply (dir_abspath_two (λ _, None) [] 8 demo_state 32 [97] [98] 0 demo_root 2 2 1 demo_slot);
    [| |exact demo_root_at|exact demo_find|exact demo_not_open].
  - split; [done|by apply demo_cstr, elem_head|by apply demo_cstr, elem_tail, elem_tail, elem_head| |by right|cbn; lia].
    split; [done|]. intros [?|?%not_elem_of_nil]%elem_of_cons; done.
  - intros [?|?%not_elem_of_nil]%elem_of_cons; done.
Defined.
