(* ===== verification/Mkfs.v ===== *)
(** * mkfs/mkfs.c: the tool that makes the image of the file system

    It runs on the host. The image file is the list of its blocks: the file is
    truncated when it is opened, and every write is a whole block. A message on
    [stderr] followed by [exit(1)] is a [Panic]. [report] prints only and is
    left out. The headers of the kernel give [SuperBlock], [DInode] and
    [get_inode_block]. *)
From S2P Require Import Prelude Machine CMem CString Ide Disk BCache Block Inode Dir.

Record Mk := mkMk {
  img : list (list Z);
  freeino : Z;
  freeblock : Z;
  sb : SuperBlock;
}.

Definition zeros : list Z := replicate (Z.to_nat BSIZE) 0.

(** A block written past the end of the file leaves a hole of zeros. *)
Definition put_block (k : nat) (buf : list Z) (l : list (list Z)) : list (list Z) :=
  if (k <? length l)%nat then <[k := buf]> l else l ++ replicate (k - length l) zeros ++ [buf].

Definition bwrite (sec : Z) (buf : list Z) : M Mk unit :=
  modify (λ s, mkMk (put_block (Z.to_nat sec) buf (img s)) (freeino s) (freeblock s) (sb s)).

Definition bread (sec : Z) : M Mk (list Z) :=
  let! l := gets img in
  match l !! Z.to_nat sec with Some b => ret b | None => panic "read" end.

Definition sbconfig : M Mk unit :=
  let nbitmap := NBLKS / (BSIZE * 8) + 1 in
  let ninodeblks := NINODES / inode_per_block + 1 in
  let nmeta := 1 + ninodeblks + nbitmap in
  let ndata := u32 (NBLKS - nmeta) in
  if ndata =? 0 then panic "assert: ndata > 0" else
  modify (λ s, mkMk (img s) (freeino s) nmeta
                 (mkSuperBlock NBLKS NINODES ndata 1 (1 + ninodeblks) nmeta)).

(** *** The name of a program

    The memory of the arguments of [main], from [path] on. *)
Fixpoint arg_strlen (l : list Z) : M Mk nat :=
  match l with
  | [] => fault
  | c :: l => if c =? 0 then ret 0%nat else let! n := arg_strlen l in ret (S n)
  end.

(** [while ( *p != '/' && p != path) p--], with [p] counted from [path] *)
Fixpoint find_slash (l : list Z) (p : nat) : M Mk nat :=
  let! c := need (l !! p) in
  if c =? 47 then ret p else
  match p with O => ret O | S q => find_slash l q end.

(** [strncpy] of the host *)
Definition host_strncpy (src : list Z) (n : nat) (dest : list Z) : M Mk (list Z) :=
  if (length dest <? n)%nat then fault else
  let c := take n (take_while (λ c, negb (c =? 0)) src) in
  ret (splice 0 (c ++ replicate (n - length c) 0) dest).

(** The loop starts behind the terminator of [path]. A name that is too long or
    does not end with an underscore is reported only. *)
Definition parsename (path : list Z) : M Mk (list Z) :=
  let! n := arg_strlen path in
  let! p := find_slash path (n + 1) in
  let p := drop (p + 1) path in
  let! n := arg_strlen p in
  if (n =? 0)%nat then fault else
  host_strncpy p (n - 1) (replicate (Z.to_nat DIRNAMESZ) 0).

Definition wsb : M Mk unit :=
  let! s := gets sb in
  bwrite 0 (splice 0 (sb_encode s) zeros).

(** *** Inodes *)

Definition iread (ino : Z) : M Mk DInode :=
  let! s := gets sb in
  let! buf := bread (get_inode_block ino s) in
  ret (dinode_decode (slice (Z.to_nat (ino mod inode_per_block * sizeof_DInode)) 66 buf)).

Definition iwrite (ino : Z) (node : DInode) : M Mk unit :=
  let! s := gets sb in
  let bn := get_inode_block ino s in
  let! buf := bread bn in
  bwrite bn (splice (Z.to_nat (ino mod inode_per_block * sizeof_DInode)) (dinode_encode node) buf).

(** [freeino++], [freeblock++] *)
Definition next_ino : M Mk Z := λ s,
  Ok (freeino s) (mkMk (img s) (u32 (freeino s + 1)) (freeblock s) (sb s)).

Definition next_block : M Mk Z := λ s,
  Ok (freeblock s) (mkMk (img s) (freeino s) (u32 (freeblock s + 1)) (sb s)).

Definition ialloc (ty : Z) : M Mk Z :=
  let! inum := next_ino in
  do! iwrite inum (mkDInode ty 0 0 1 0 (replicate 13 0)) in
  ret inum.

(** The words of a block, and back *)
Definition words (l : list Z) : list Z :=
  (λ i : nat, le_num (slice (4 * i) 4 l)) <$> seq 0 (length l / 4).

Definition unwords (l : list Z) : list Z := mjoin (le_bytes 4 <$> l).

(** The block [fb] to write, when the file ends in its block [nth]. The array
    [indirect1] has [BSIZE] words, of which a block holds the first 128. *)
Definition append_block (nth : Z) (node : DInode) (indirect1 : list Z) : M Mk (DInode * list Z * Z) :=
  if nth <? NDIRECT then
    let! a := need (addrs node !! Z.to_nat nth) in
    let! node := (if a =? 0 then let! b := next_block in ret (set_addr nth b node) else ret node) in
    let! fb := need (addrs node !! Z.to_nat nth) in
    ret (node, indirect1, fb)
  else if nth <? NDIRECT + BSIZE then
    let! a := need (addrs node !! Z.to_nat NDIRECT) in
    let! node := (if a =? 0 then let! b := next_block in ret (set_addr NDIRECT b node) else ret node) in
    let! a := need (addrs node !! Z.to_nat NDIRECT) in
    let! l := bread a in
    let indirect1 := splice 0 (words l) indirect1 in
    let k := Z.to_nat (nth - NDIRECT) in
    let! e := need (indirect1 !! k) in
    let! indirect1 :=
      (if e =? 0 then
         let! b := next_block in
         let indirect1 := <[k := b]> indirect1 in
         do! bwrite a (take (Z.to_nat BSIZE) (unwords indirect1)) in
         ret indirect1
       else ret indirect1) in
    let! fb := need (indirect1 !! k) in
    ret (node, indirect1, fb)
  else panic "file is too big".

(** The loop variables [node], [indirect1], [off] and the bytes that are left *)
Definition append_round (v : DInode * list Z * Z * list Z) :
    M Mk (DInode * list Z * Z * list Z + DInode * Z) :=
  let '(node, indirect1, off, p) := v in
  if zlen p =? 0 then ret (inr (node, off)) else
  let nth := off / BSIZE in
  let! ' (node, indirect1, fb) := append_block nth node indirect1 in
  let realn := Z.min (zlen p) (u32 (u32 ((nth + 1) * BSIZE) - off)) in
  let! buf := bread fb in
  do! bwrite fb (splice (Z.to_nat (off - nth * BSIZE)) (take (Z.to_nat realn) p) buf) in
  ret (inl (node, indirect1, u32 (off + realn), drop (Z.to_nat realn) p)).

(** Every round writes a byte at least. *)
Definition iappend (ino : Z) (p : list Z) : M Mk unit :=
  let! node := iread ino in
  let! ' (node, off) := loop (S (length p)) append_round
    (node, replicate (Z.to_nat BSIZE) 0, isize node, p) in
  iwrite ino (set_size off node).

(** [for (i = 0; i < usedblks; ++i)], the last [n] rounds *)
Fixpoint balloc_bits (n : nat) (i : nat) (buf : list Z) : M Mk (list Z) :=
  match n with
  | O => ret buf
  | S n =>
      let! c := need (buf !! (i / 8)%nat) in
      balloc_bits n (S i) (<[(i / 8)%nat := Z.lor c (Z.shiftl 1 (i mod 8)%nat)]> buf)
  end.

Definition balloc (usedblks : Z) : M Mk unit :=
  let! buf := balloc_bits (Z.to_nat usedblks) 0 zeros in
  let! s := gets sb in
  bwrite (bmapstart s) buf.

(** *** [main] *)

Definition no_name : list Z := replicate (Z.to_nat DIRNAMESZ) 0.

(** [memset(&de, 0, sizeof(de)); de.inum = inum; strncpy(de.name, name, n);
    iappend(rootino, &de, sizeof(DirEntry))] *)
Definition add_entry (rootino inum : Z) (name : list Z) (n : nat) : M Mk unit :=
  let! name := host_strncpy name n no_name in
  iappend rootino (direntry_encode inum name).

(** [while ((r = read(ffd, buf, sizeof(buf))) > 0) iappend(ino, buf, r)]: a
    read of a regular file gives a full buffer until its end. *)
Definition write_content (ino : Z) (content : list Z) : M Mk unit :=
  loop (S (length content)) (λ c : list Z,
    if zlen c =? 0 then ret (inr tt) else
    do! iappend ino (take (Z.to_nat BSIZE) c) in
    ret (inl (drop (Z.to_nat BSIZE) c))) content.

(** An argument: the memory from [argv[i]] on, and the content of the file of
    that name, if it can be opened *)
Definition write_program (rootino : Z) (a : list Z * option (list Z)) : M Mk unit :=
  let! namebuf := parsename a.1 in
  match a.2 with
  | None => panic "open"
  | Some content =>
      let! ino := ialloc F_FILE in
      do! add_entry rootino ino namebuf (Z.to_nat DIRNAMESZ) in
      write_content ino content
  end.

Fixpoint clear_image (n : nat) (i : Z) : M Mk unit :=
  match n with O => done! | S n => do! bwrite i zeros in clear_image n (i + 1) end.

Definition main (args : list (list Z * option (list Z))) : M Mk unit :=
  do! sbconfig in
  let! s := gets sb in
  do! clear_image (S (Z.to_nat (nblocks s))) 0 in
  do! wsb in
  let! rootino := ialloc F_DIR in
  if negb (rootino =? ROOTINO) then panic "assert: rootino == ROOTINO" else
  do! add_entry rootino rootino [46; 0] 2 in
  do! add_entry rootino 0 [46; 46; 0] 3 in
  do! foldr (λ a k, do! write_program rootino a in k) done! args in
  let! n := gets freeblock in
  balloc n.

(** The globals before [main] *)
Definition start : Mk := mkMk [] 1 0 (mkSuperBlock 0 0 0 0 0 0).

(** ** Specifications *)

Definition block (s : Mk) (k : Z) : list Z := default [] (img s !! Z.to_nat k).

(** What [sbconfig] computes: 19 blocks of inodes, one block of the map *)
Definition mkfs_super : SuperBlock := mkSuperBlock 1000 128 979 1 20 21.

(** The image has been cleared, and the blocks that are not allocated are still
    clear. *)
Record img_ok (s : Mk) : Prop := mk_img_ok {
  io_sb : sb s = mkfs_super;
  io_len : length (img s) = 1001%nat;
  io_blocks : Forall (λ b, length b = 512%nat ∧ Forall is_byte b) (img s);
  io_free : 21 ≤ freeblock s ≤ 1001;
  io_zero : ∀ k, freeblock s ≤ k ≤ 1000 → block s k = zeros;
}.

(** The blocks of an inode, in the order in which a growing file takes them:
    12 direct blocks, the block of the indirect addresses, and those *)
Definition ind (x : DInode) : Z := default 0 (addrs x !! 12%nat).

Definition table (s : Mk) (x : DInode) : list Z :=
  addrs x ++ (if ind x =? 0 then replicate 128 0 else words (block s (ind x))).

(** The place in the table of the data block [n] *)
Definition pos (n : nat) : nat := if (n <? 12)%nat then n else S n.

(** The number of blocks of a file of [len] bytes *)
Definition nblk (len : Z) : nat :=
  Z.to_nat ((len + 511) / 512 + if 6144 <? len then 1 else 0).

(** The first [m] blocks are allocated, all different. *)
Record tab_ok (s : Mk) (x : DInode) (m : nat) : Prop := mk_tab_ok {
  tk_wf : dinode_wf x;
  tk_entry : ∀ k b, table s x !! k = Some b → if decide (k < m)%nat then 21 ≤ b < freeblock s else b = 0;
  tk_inj : ∀ k k' b, (k < m)%nat → (k' < m)%nat → table s x !! k = Some b → table s x !! k' = Some b → k = k';
}.

(** The bytes [c] are in the data blocks. *)
Definition holds (s : Mk) (x : DInode) (c : list Z) : Prop :=
  ∀ j b, c !! j = Some b → ∃ k, table s x !! pos (j / 512) = Some k ∧ block s k !! (j mod 512)%nat = Some b.

(** The inode [x] is a file with content [c]; its size is apart. *)
Record file_rep (s : Mk) (x : DInode) (c : list Z) : Prop := mk_file_rep {
  fr_tab : tab_ok s x (nblk (zlen c));
  fr_holds : holds s x c;
  fr_len : zlen c ≤ 71680;
}.

(** From [s] and [x] to [s'] and [x'] the table grows from [m] to [m'] blocks;
    the other blocks are as before. *)
Record grows (s : Mk) (x : DInode) (m : nat) (s' : Mk) (x' : DInode) (m' : nat) : Prop := mk_grows {
  g_img : img_ok s';
  g_tab : tab_ok s' x' m';
  g_pre : ∀ k, (k < m)%nat → table s' x' !! k = table s x !! k;
  g_new : ∀ k b, (m ≤ k < m')%nat → table s' x' !! k = Some b → freeblock s ≤ b;
  g_free : freeblock s' = freeblock s + (m' - m);
  g_le : (m ≤ m')%nat;
  g_frame : ∀ b, 0 ≤ b < freeblock s → b < 21 ∨ b ≠ ind x → block s' b = block s b;
  g_ind : ind x' = ind x ∨ freeblock s ≤ ind x';
  g_ino : freeino s' = freeino s;
  g_meta : ∀ z, mkDInode (type x') (major x') (minor x') (nlink x') z [] =
                mkDInode (type x) (major x) (minor x) (nlink x) z [];
}.

(** A file has grown from [s] and [x] to [s'] and [x']: blocks that are not its
    own are as before, blocks that are new were free. *)
Record appended (s : Mk) (x : DInode) (s' : Mk) (x' : DInode) : Prop := mk_appended {
  ap_img : img_ok s';
  ap_frame : ∀ b, 0 ≤ b < freeblock s → b < 21 ∨ b ∉ table s x → block s' b = block s b;
  ap_new : ∀ b, b ∈ table s' x' → b = 0 ∨ b ∈ table s x ∨ freeblock s ≤ b;
  ap_le : freeblock s ≤ freeblock s';
  ap_ino : freeino s' = freeino s;
  ap_meta : ∀ z, mkDInode (type x') (major x') (minor x') (nlink x') z [] =
                 mkDInode (type x) (major x) (minor x) (nlink x) z [];
}.

(** ** Lemmas *)

Lemma zeros_ok : length zeros = 512%nat ∧ Forall is_byte zeros.
Proof. split; [done|]. apply Forall_forall. intros b Hb. apply elem_of_replicate in Hb as [-> _]. by unfold is_byte. Qed.

Lemma put_block_in k buf l : (k < length l)%nat → put_block k buf l = <[k := buf]> l.
Proof. intros Hk. unfold put_block. by rewrite (proj2 (Nat.ltb_lt _ _) Hk). Qed.

Lemma lookup_put_block k buf l : put_block k buf l !! k = Some buf.
Proof.
  unfold put_block. destruct (Nat.ltb_spec k (length l)).
  - by apply list_lookup_insert_eq.
  - rewrite lookup_app_r by lia. rewrite lookup_app_r by (rewrite length_replicate; lia).
    by rewrite length_replicate, Nat.sub_diag.
Qed.

Section image.
Implicit Types (s : Mk) (x : DInode).

Lemma block_some s k : img_ok s → 0 ≤ k ≤ 1000 → img s !! Z.to_nat k = Some (block s k).
Proof.
  intros [_ Hl _ _ _] Hk. unfold block.
  destruct (lookup_lt_is_Some_2 (img s) (Z.to_nat k) ltac:(lia)) as [b Hb]. by rewrite Hb.
Qed.

Lemma block_ok s k : img_ok s → 0 ≤ k ≤ 1000 → length (block s k) = 512%nat ∧ Forall is_byte (block s k).
Proof.
  intros Hok Hk. pose proof (block_some s k Hok Hk) as Hb.
  exact (Forall_lookup_1 _ _ _ _ (io_blocks _ Hok) Hb).
Qed.

Lemma wp_bread s k (Q : list Z → Mk → Prop) :
  img_ok s → 0 ≤ k ≤ 1000 → Q (block s k) s → wp (bread k) s Q.
Proof.
  intros Hok Hk HQ. unfold bread. rewrite wp_bind, wp_gets. by rewrite (block_some s k Hok Hk).
Qed.

Definition write_at (k : Z) (buf : list Z) (s : Mk) : Mk :=
  mkMk (<[Z.to_nat k := buf]> (img s)) (freeino s) (freeblock s) (sb s).

Lemma wp_bwrite s k buf (Q : unit → Mk → Prop) :
  img_ok s → 0 ≤ k ≤ 1000 → Q tt (write_at k buf s) → wp (bwrite k buf) s Q.
Proof.
  intros Hok Hk HQ. unfold bwrite. rewrite wp_modify.
  rewrite put_block_in by (rewrite (io_len _ Hok); lia). exact HQ.
Qed.

Lemma block_write_at s k buf j :
  img_ok s → 0 ≤ k ≤ 1000 → 0 ≤ j → block (write_at k buf s) j = if decide (j = k) then buf else block s j.
Proof.
  intros Hok Hk Hj. unfold block, write_at. cbn. case_decide as Hd.
  - subst j. rewrite list_lookup_insert_eq; [done|]. rewrite (io_len _ Hok). lia.
  - rewrite list_lookup_insert_ne; [done|lia].
Qed.

Lemma img_ok_write s k buf :
  img_ok s → 0 ≤ k < freeblock s → k ≤ 1000 → length buf = 512%nat → Forall is_byte buf → img_ok (write_at k buf s).
Proof.
  intros Hok Hk Hk' Hl Hb. pose proof Hok as [Hs Hn Hf Hr Hz]. split; cbn; [done| | |done|].
  - by rewrite length_insert.
  - by apply Forall_insert.
  - intros j Hj. rewrite block_write_at by (done || lia). rewrite decide_False by lia. by apply Hz.
Qed.

Lemma next_block_ok s :
  img_ok s → freeblock s ≤ 1000 →
  next_block s = Ok (freeblock s) (mkMk (img s) (freeino s) (freeblock s + 1) (sb s)) ∧
  img_ok (mkMk (img s) (freeino s) (freeblock s + 1) (sb s)).
Proof.
  intros Hok Hf. pose proof Hok as [Hs Hn Hb Hr Hz]. unfold next_block. rewrite u32_small by lia.
  split; [done|]. split; cbn; [done..|lia|]. intros k Hk. apply Hz. lia.
Qed.

(** *** Words *)

Lemma length_words l : length (words l) = (length l / 4)%nat.
Proof. unfold words. by rewrite length_fmap, length_seq. Qed.

Lemma words_range l : Forall is_byte l → Forall (λ w, 0 ≤ w < 4294967296) (words l).
Proof.
  intros Hb. apply Forall_forall. intros w Hw. apply list_elem_of_fmap in Hw as (i & -> & Hi).
  apply elem_of_seq in Hi. pose proof (le_num_range (slice (4 * i) 4 l)) as Hr.
  assert (Forall is_byte (slice (4 * i) 4 l)) as Hs by (by apply Forall_slice).
  specialize (Hr Hs). unfold zlen in Hr.
  assert (256 ^ length (slice (4 * i) 4 l) ≤ 256 ^ 4) as Hp.
  { apply Z.pow_le_mono_r; [lia|]. unfold slice. rewrite length_take. lia. }
  lia.
Qed.

Lemma words_unwords l n :
  Forall (λ w, 0 ≤ w < 4294967296) l → (n ≤ length l)%nat → words (take (4 * n) (unwords l)) = take n l.
Proof.
  intros Hl Hn. apply list_eq. intros i. unfold words. rewrite list_lookup_fmap.
  assert (length (take (4 * n) (unwords l)) = (n * 4)%nat) as Hlen.
  { unfold unwords. rewrite length_take, length_addr_bytes. lia. }
  rewrite Hlen, Nat.div_mul by lia. destruct (decide (i < n)%nat) as [Hi|Hi].
  - rewrite lookup_seq_lt by done. cbn [fmap option_fmap option_map]. rewrite lookup_take_lt by done.
    destruct (lookup_lt_is_Some_2 l i ltac:(lia)) as [w Hw]. rewrite Hw, Nat.add_0_l. f_equal.
    assert (slice (4 * i) 4 (take (4 * n) (unwords l)) = slice (4 * i) 4 (unwords l)) as ->.
    { unfold slice. rewrite !take_drop_commute, take_take. do 2 f_equal. lia. }
    unfold unwords. rewrite (slice_addr_bytes _ _ _ Hw), le_num_bytes. apply Z.mod_small.
    change (256 ^ 4%nat) with 4294967296. by apply (Forall_lookup_1 _ _ _ _ Hl Hw).
  - rewrite lookup_seq_ge, lookup_take_ge by lia. done.
Qed.

Lemma words_zeros : words zeros = replicate 128 0.
Proof. vm_compute. reflexivity. Qed.

(** *** The table of an inode *)

Lemma length_table s x m : img_ok s → tab_ok s x m → length (table s x) = 141%nat.
Proof.
  intros Hok [Hwf He _]. destruct (dw_addrs _ Hwf) as [Hl Ha]. unfold table. rewrite length_app, Hl.
  destruct (Z.eqb_spec (ind x) 0) as [|Hi]; [by rewrite length_replicate|].
  assert (table s x !! 12%nat = Some (ind x)) as H12.
  { unfold table, ind. rewrite lookup_app_l by lia.
    destruct (lookup_lt_is_Some_2 (addrs x) 12 ltac:(lia)) as [b Hb]. by rewrite Hb. }
  specialize (He _ _ H12). case_decide; [|done].
  rewrite length_words, (proj1 (block_ok s (ind x) Hok ltac:(pose proof (io_free _ Hok); lia))). done.
Qed.

Lemma table_addr s x m n : tab_ok s x m → (n < 13)%nat → ∃ a, addrs x !! n = Some a ∧ table s x !! n = Some a.
Proof.
  intros [Hwf _ _] Hn. destruct (dw_addrs _ Hwf) as [Hl _].
  destruct (lookup_lt_is_Some_2 (addrs x) n ltac:(lia)) as [a Ha]. exists a.
  split; [done|]. unfold table. by rewrite lookup_app_l by lia.
Qed.

Lemma table_ind s x m : tab_ok s x m → table s x !! 12%nat = Some (ind x).
Proof.
  intros Ht. destruct (table_addr s x m 12 Ht ltac:(lia)) as (a & Ha & Hb). rewrite Hb. unfold ind. by rewrite Ha.
Qed.

Lemma tab_ok_insert s x s' x' m :
  img_ok s → tab_ok s x m → (m < 141)%nat → dinode_wf x' →
  table s' x' = <[m := freeblock s]> (table s x) → freeblock s' = freeblock s + 1 → tab_ok s' x' (S m).
Proof.
  intros Hok Ht Hm Hwf Htab Hf. pose proof (length_table s x m Hok Ht) as Hl. destruct Ht as [_ He Hi].
  pose proof (io_free _ Hok) as Hfr. split; [done| |].
  - intros k b. rewrite Htab, Hf. destruct (decide (k = m)) as [->|Hne].
    + rewrite list_lookup_insert_eq by lia. intros [= <-]. rewrite decide_True by lia. lia.
    + rewrite list_lookup_insert_ne by done. intros Hk. specialize (He _ _ Hk). repeat case_decide; lia.
  - intros k k' b Hk Hk'. rewrite Htab.
    destruct (decide (k = m)) as [->|Hne]; destruct (decide (k' = m)) as [->|Hne']; [done|..].
    + rewrite list_lookup_insert_eq, list_lookup_insert_ne by (done || lia). intros [= <-] Hb.
      specialize (He _ _ Hb). case_decide; lia.
    + rewrite list_lookup_insert_ne, list_lookup_insert_eq by (done || lia). intros Hb [= <-].
      specialize (He _ _ Hb). case_decide; lia.
    + rewrite !list_lookup_insert_ne by done. apply Hi; lia.
Qed.

Lemma grows_refl s x m : img_ok s → tab_ok s x m → grows s x m s x m.
Proof. intros. split; auto; lia. Qed.

Lemma grows_trans s x m s1 x1 m1 s2 x2 m2 :
  grows s x m s1 x1 m1 → grows s1 x1 m1 s2 x2 m2 → grows s x m s2 x2 m2.
Proof.
  intros [Hi Ht Hp Hn Hf Hle Hfr Hin Hino Hme] [Hi2 Ht2 Hp2 Hn2 Hf2 Hle2 Hfr2 Hin2 Hino2 Hme2]. split; [done|done| | | | | | | |].
  - intros k Hk. rewrite Hp2 by lia. by apply Hp.
  - intros k b Hk Hb. destruct (decide (k < m1)%nat).
    + rewrite Hp2 in Hb by lia. by apply (Hn k); [lia|].
    + pose proof (Hn2 k b ltac:(lia) Hb). lia.
  - lia.
  - lia.
  - intros b Hb Hd. rewrite Hfr2 by lia. by apply Hfr.
  - lia.
  - by rewrite Hino2.
  - intros z. by rewrite Hme2.
Qed.

(** One more block, which leaves the image as it is but for the block of the
    indirect addresses *)
Lemma grows_insert s x s' x' m :
  img_ok s → tab_ok s x m → (m < 141)%nat → dinode_wf x' → img_ok s' →
  table s' x' = <[m := freeblock s]> (table s x) → freeblock s' = freeblock s + 1 → freeino s' = freeino s →
  (∀ b, 0 ≤ b < freeblock s → b < 21 ∨ b ≠ ind x → block s' b = block s b) →
  (∀ z, mkDInode (type x') (major x') (minor x') (nlink x') z [] =
        mkDInode (type x) (major x) (minor x) (nlink x) z []) →
  grows s x m s' x' (S m).
Proof.
  intros Hok Ht Hm Hwf Hok' Htab Hf Hino Hfr Hme.
  pose proof (tab_ok_insert s x s' x' m Hok Ht Hm Hwf Htab Hf) as Ht'.
  split; try done; [| |lia|lia|].
  - intros k Hk. rewrite Htab, list_lookup_insert_ne by lia. done.
  - intros k b Hk. replace k with m by lia. rewrite Htab, list_lookup_insert_eq; [by intros [= <-]|].
    by rewrite (length_table s x m).
  - pose proof (table_ind _ _ _ Ht) as H1. pose proof (table_ind _ _ _ Ht') as H2. rewrite Htab in H2.
    destruct (decide (m = 12%nat)) as [->|Hne].
    + rewrite list_lookup_insert_eq in H2 by (rewrite (length_table s x 12); [lia|done|done]). injection H2 as <-. lia.
    + rewrite list_lookup_insert_ne, H1 in H2 by done. injection H2 as <-. by left.
Qed.

Lemma set_addr_wf x n b : dinode_wf x → 0 ≤ b < 4294967296 → dinode_wf (set_addr n b x).
Proof.
  intros [H1 H2 H3 H4 H5 [Hl Ha]] Hb. split; cbn; [done..|].
  split; [by rewrite length_insert|by apply Forall_insert].
Qed.

Lemma wp_next_block s (Q : Z → Mk → Prop) :
  img_ok s → freeblock s ≤ 1000 →
  (img_ok (mkMk (img s) (freeino s) (freeblock s + 1) (sb s)) →
   Q (freeblock s) (mkMk (img s) (freeino s) (freeblock s + 1) (sb s))) → wp next_block s Q.
Proof. intros Hok Hf HQ. destruct (next_block_ok s Hok Hf) as [He Hok']. eapply wp_ok; [exact He|by apply HQ]. Qed.

Lemma ensure_addr_ok s x (n m : nat) a :
  img_ok s → tab_ok s x m → (n < 13)%nat → (n ≤ m)%nat → freeblock s + (Nat.max m (S n) - m) ≤ 1001 →
  addrs x !! n = Some a →
  wp (if a =? 0 then let! b := next_block in ret (set_addr n b x) else ret x) s
     (λ x' s', grows s x m s' x' (Nat.max m (S n)) ∧ img s' = img s).
Proof.
  intros Hok Ht Hn Hnm Hf Ha. destruct (table_addr s x m n Ht Hn) as (a' & Ha' & Htn).
  rewrite Ha in Ha'. injection Ha' as <-. pose proof (tk_entry _ _ _ Ht _ _ Htn) as He.
  pose proof (io_free _ Hok) as Hfr. case_decide as Hd.
  - rewrite (proj2 (Z.eqb_neq _ _)) by lia. rewrite wp_ret.
    replace (Nat.max m (S n)) with m by lia. split; [by apply grows_refl|done].
  - assert (m = n) as -> by lia. subst a. cbn [Z.eqb]. rewrite wp_bind.
    apply wp_next_block; [done|lia|]. intros Hok'. rewrite wp_ret. split; [|done].
    replace (Nat.max n (S n)) with (S n) by lia.
    destruct (dw_addrs _ (tk_wf _ _ _ Ht)) as [Hl _].
    apply grows_insert; try done; [lia|apply set_addr_wf; [apply Ht|lia]|].
    unfold table at 1. cbn [addrs set_addr]. rewrite Nat2Z.id. unfold ind at 1 2. cbn [addrs set_addr]. rewrite Nat2Z.id.
    destruct (decide (n = 12%nat)) as [->|Hne].
    + assert (ind x = 0) as Hi by (unfold ind; by rewrite Ha).
      rewrite list_lookup_insert_eq by lia. cbn [default from_option id].
      rewrite (proj2 (Z.eqb_neq _ _)) by lia.
      replace (block _ (freeblock s)) with zeros.
      2:{ symmetry. by apply (io_zero s Hok); lia. }
      rewrite words_zeros. unfold table. rewrite Hi. cbn [Z.eqb]. rewrite insert_app_l by lia. done.
    + rewrite list_lookup_insert_ne by done. unfold table. rewrite insert_app_l by lia. done.
Qed.

Lemma unwords_bytes l : Forall is_byte (unwords l).
Proof.
  unfold unwords. induction l as [|w l IH]; [constructor|].
  change (mjoin (le_bytes 4 <$> w :: l)) with (le_bytes 4 w ++ mjoin (le_bytes 4 <$> l)).
  apply Forall_app. split; [apply le_bytes_bytes|exact IH].
Qed.

(** The array [indirect1] *)
Definition indirect_ok (l : list Z) : Prop := length l = 512%nat ∧ Forall (λ w, 0 ≤ w < 4294967296) l.

Lemma indirect_fill (l i : list Z) k :
  length l = 512%nat → Forall is_byte l → indirect_ok i →
  indirect_ok (splice 0 (words l) i) ∧ ((k < 128)%nat → splice 0 (words l) i !! k = words l !! k) ∧
  take 128 (splice 0 (words l) i) = words l.
Proof.
  intros Hl Hb [Hi Hr]. assert (length (words l) = 128%nat) as Hw by (by rewrite length_words, Hl).
  split; [split|split].
  - rewrite length_splice; lia.
  - by apply Forall_splice; [apply words_range|].
  - intros Hk. rewrite lookup_splice by lia. rewrite decide_True by lia. by rewrite Nat.sub_0_r.
  - unfold splice. rewrite take_0. cbn [app]. rewrite <- Hw. apply take_app_length.
Qed.

(** *** The number of blocks *)

Lemma nblk_next off : 0 ≤ off → nblk (off + 1) = S (pos (Z.to_nat (off / 512))).
Proof.
  intros Ho. unfold nblk, pos. destruct (Nat.ltb_spec (Z.to_nat (off / 512)) 12); destruct (Z.ltb_spec 6144 (off + 1));
    Z.div_mod_to_equations; lia.
Qed.

Lemma nblk_now off : 0 ≤ off → nblk off =
  if decide (off mod 512 = 0) then
    if decide (off / 512 ≤ 12) then Z.to_nat (off / 512) else S (Z.to_nat (off / 512))
  else S (pos (Z.to_nat (off / 512))).
Proof.
  intros Ho. unfold nblk, pos. destruct (Nat.ltb_spec (Z.to_nat (off / 512)) 12); destruct (Z.ltb_spec 6144 off);
    repeat case_decide; Z.div_mod_to_equations; lia.
Qed.

Lemma nblk_le a b : a ≤ b → (nblk a ≤ nblk b)%nat.
Proof.
  intros Hab. unfold nblk. destruct (Z.ltb_spec 6144 a); destruct (Z.ltb_spec 6144 b); Z.div_mod_to_equations; lia.
Qed.

(** Within the last block nothing is allocated. *)
Lemma nblk_same off k : 0 ≤ off → 0 < k ≤ 512 - off mod 512 → nblk (off + k) = nblk (off + 1).
Proof.
  intros Ho Hk. unfold nblk. destruct (Z.ltb_spec 6144 (off + k)); destruct (Z.ltb_spec 6144 (off + 1));
    Z.div_mod_to_equations; lia.
Qed.

Lemma pos_inj n n' : pos n = pos n' → n = n'.
Proof. unfold pos. destruct (Nat.ltb_spec n 12); destruct (Nat.ltb_spec n' 12); lia. Qed.

Lemma pos_mapped (j : nat) len : j < len → (pos (j / 512) < nblk len)%nat.
Proof.
  intros Hj. rewrite <- (Nat.le_succ_l (pos _)).
  replace (j / 512)%nat with (Z.to_nat (j / 512)) by (rewrite Z2Nat.inj_div, Nat2Z.id by lia; done).
  rewrite <- nblk_next by lia. apply nblk_le. lia.
Qed.

Lemma pos_12 n : pos n ≠ 12%nat.
Proof. unfold pos. destruct (Nat.ltb_spec n 12); lia. Qed.

(** *** Appending *)

(** The words of the block of indirect addresses with one more *)
Lemma indirect_insert s x m i k :
  img_ok s → tab_ok s x m → m = (13 + k)%nat → (k < 128)%nat → indirect_ok i → freeblock s ≤ 1000 →
  let i' := <[k := freeblock s]> (splice 0 (words (block s (ind x))) i) in
  let s' := write_at (ind x) (take 512 (unwords i')) (mkMk (img s) (freeino s) (freeblock s + 1) (sb s)) in
  grows s x m s' x (S m) ∧ table s' x !! m = Some (freeblock s).
Proof.
  intros Hok Ht -> Hk Hi Hf i' s'. pose proof (io_free _ Hok) as Hfr.
  pose proof (tk_entry _ _ _ Ht _ _ (table_ind _ _ _ Ht)) as He. rewrite decide_True in He by lia.
  destruct (block_ok s (ind x) Hok ltac:(lia)) as [Hl Hb].
  destruct (indirect_fill (block s (ind x)) i k Hl Hb Hi) as ([Hl1 Hr1] & Hk1 & Ht1).
  assert (length i' = 512%nat) as Hl' by (unfold i'; by rewrite length_insert).
  assert (Forall (λ w, 0 ≤ w < 4294967296) i') as Hr' by (apply Forall_insert; [done|lia]).
  destruct (next_block_ok s Hok Hf) as [_ Hok1].
  assert (img_ok s') as Hok'.
  { apply img_ok_write; cbn; [done|lia|lia| |apply Forall_take, unwords_bytes].
    rewrite length_take. unfold unwords. rewrite length_addr_bytes. lia. }
  destruct (dw_addrs _ (tk_wf _ _ _ Ht)) as [Hla _].
  assert (table s' x = <[(13 + k)%nat := freeblock s]> (table s x)) as Htab.
  { unfold table. rewrite (proj2 (Z.eqb_neq _ _)) by lia. unfold s'. rewrite block_write_at by (done || lia).
    rewrite decide_True by done. change 512%nat with (4 * 128)%nat. rewrite words_unwords by (done || lia).
    unfold i'. rewrite take_insert_lt by lia. rewrite Ht1. rewrite insert_app_r_alt by lia. do 2 f_equal. lia. }
  split; [|rewrite Htab, list_lookup_insert_eq; [done|rewrite (length_table _ _ _ Hok Ht); lia]].
  apply grows_insert; try done; [lia|apply Ht|].
  intros b Hb' Hne. unfold s'. rewrite block_write_at by (done || lia). rewrite decide_False by lia. done.
Qed.

Lemma append_block_ok s x i off :
  img_ok s → 0 ≤ off < 71680 → tab_ok s x (nblk off) → indirect_ok i →
  freeblock s + (nblk (off + 1) - nblk off) ≤ 1001 →
  wp (append_block (off / 512) x i) s (λ '(x', i', fb) s',
    grows s x (nblk off) s' x' (nblk (off + 1)) ∧ indirect_ok i' ∧
    table s' x' !! pos (Z.to_nat (off / 512)) = Some fb).
Proof.
  intros Hok Ho Ht Hi Hf. pose proof (nblk_now off ltac:(lia)) as Hnow. pose proof (nblk_next off ltac:(lia)) as Hnext.
  pose proof (Z.div_pos off 512 ltac:(lia) ltac:(lia)) as Hn0.
  assert (off / 512 < 140) as Hn1 by (Z.div_mod_to_equations; lia).
  assert (∀ n : nat, off / 512 = n → Z.to_nat (off / 512) = n) as Hnat by lia.
  unfold append_block. change NDIRECT with 12. change BSIZE with 512.
  destruct (Z.ltb_spec (off / 512) 12) as [Hlt|Hge].
  - set (n := Z.to_nat (off / 512)) in *. replace (off / 512) with (Z.of_nat n) by lia.
    destruct (table_addr _ _ _ n Ht ltac:(lia)) as (a & Ha & _).
    rewrite wp_bind. rewrite ?Nat2Z.id. eapply wp_need; [exact Ha|].
    assert (pos n = n) as Hpos by (unfold pos; by rewrite (proj2 (Nat.ltb_lt _ _)) by lia). rewrite Hpos in *.
    assert (Nat.max (nblk off) (S n) = nblk (off + 1)) as Hmax by (repeat case_decide; lia).
    rewrite wp_bind. eapply wp_mono; [apply (ensure_addr_ok s x n (nblk off) a); try done; [lia|repeat case_decide; lia|lia]|].
    cbn beta. intros x' s' [Hg _]. rewrite Hmax in Hg.
    destruct (table_addr _ _ _ n (g_tab _ _ _ _ _ _ Hg) ltac:(lia)) as (fb & Hfb & Htb).
    rewrite wp_bind. rewrite ?Nat2Z.id. eapply wp_need; [exact Hfb|]. rewrite wp_ret, ?Nat2Z.id, ?Hpos. done.
  - rewrite (proj2 (Z.ltb_lt _ _)) by lia.
    destruct (table_addr _ _ _ 12 Ht ltac:(lia)) as (a & Ha & _).
    rewrite wp_bind. eapply wp_need; [exact Ha|].
    set (n := Z.to_nat (off / 512)) in *. set (k := Z.to_nat (off / 512 - 12)).
    assert (pos n = S n) as Hpos by (unfold pos; by rewrite (proj2 (Nat.ltb_ge _ _)) by lia). rewrite Hpos in *.
    set (m := Nat.max (nblk off) 13).
    assert (m = S n ∨ m = nblk (off + 1)) as Hm by (unfold m; repeat case_decide; lia).
    rewrite wp_bind. eapply wp_mono; [apply (ensure_addr_ok s x 12 (nblk off) a); try done; [lia|repeat case_decide; lia|lia]|].
    cbn beta. intros x' s1 [Hg _]. fold m in Hg. pose proof (g_tab _ _ _ _ _ _ Hg) as Ht1.
    pose proof (g_img _ _ _ _ _ _ Hg) as Hok1. pose proof (g_free _ _ _ _ _ _ Hg) as Hf1. pose proof (io_free _ Hok1) as Hfr1.
    destruct (table_addr _ _ _ 12 Ht1 ltac:(lia)) as (a1 & Ha1 & Hta1).
    assert (a1 = ind x') as -> by (unfold ind; by rewrite Ha1).
    pose proof (tk_entry _ _ _ Ht1 _ _ Hta1) as He1. rewrite decide_True in He1 by lia.
    rewrite wp_bind. eapply wp_need; [exact Ha1|]. rewrite wp_bind. apply wp_bread; [done|lia|].
    destruct (block_ok s1 (ind x') Hok1 ltac:(lia)) as [Hlb Hbb].
    destruct (indirect_fill (block s1 (ind x')) i k Hlb Hbb Hi) as (Hi1 & Hk1 & _).
    assert (k < 128)%nat as Hk by lia. specialize (Hk1 Hk).
    destruct (lookup_lt_is_Some_2 (words (block s1 (ind x'))) k ltac:(rewrite length_words, Hlb; cbn; lia)) as [e He].
    assert (table s1 x' !! S n = Some e) as Hte.
    { unfold table. rewrite (proj2 (Z.eqb_neq _ _)) by lia. destruct (dw_addrs _ (tk_wf _ _ _ Ht1)) as [Hla _].
      rewrite lookup_app_r by lia. rewrite Hla. rewrite <- He. f_equal. lia. }
    rewrite wp_bind. eapply wp_need; [by rewrite Hk1|].
    pose proof (tk_entry _ _ _ Ht1 _ _ Hte) as Hee.
    rewrite wp_bind. case_decide as Hd.
    + rewrite (proj2 (Z.eqb_neq _ _)) by lia. rewrite wp_ret, wp_bind.
      eapply wp_need; [by rewrite Hk1|]. rewrite wp_ret. replace (nblk (off + 1)) with m by lia. done.
    + subst e. cbn [Z.eqb]. rewrite wp_bind. apply wp_next_block; [done|lia|]. intros Hok2.
      rewrite wp_bind. change (Z.to_nat 512) with 512%nat. apply wp_bwrite; [done|lia|]. rewrite wp_ret.
      pose proof (indirect_insert s1 x' m i k Hok1 Ht1 ltac:(lia) Hk Hi ltac:(lia)) as Hg2. cbn zeta in Hg2.
      destruct Hg2 as [Hg2 Hg3].
      replace (nblk (off + 1)) with (S m) by lia.
      rewrite wp_bind. eapply wp_need; [rewrite list_lookup_insert_eq; [done|destruct Hi1; lia]|]. rewrite wp_ret.
      split; [by eapply grows_trans|]. split.
      { destruct Hi1 as [Hil Hir]. split; [by rewrite length_insert|apply Forall_insert; [done|lia]]. }
      replace (S n) with m by lia. exact Hg3.
Qed.

Lemma appended_refl s x : img_ok s → appended s x s x.
Proof. intros. split; auto; lia. Qed.

Lemma appended_trans s x s1 x1 s2 x2 : 21 ≤ freeblock s →
  appended s x s1 x1 → appended s1 x1 s2 x2 → appended s x s2 x2.
Proof.
  intros H21 [_ Hf Hn Hl Hi Hm] [Ho2 Hf2 Hn2 Hl2 Hi2 Hm2]. split; [done| | |lia|by rewrite Hi2|].
  - intros b Hb Hd. rewrite Hf2; [by apply Hf|lia|].
    destruct (decide (b < 21)) as [|Hge]; [by left|]. right. intros [| [Hin|]]%Hn; [lia| |lia].
    destruct Hd; [lia|done].
  - intros b [| [Hb|]]%Hn2; [by left|by apply Hn|right; right; lia].
  - intros z. by rewrite Hm2.
Qed.

Lemma grows_new s x m s' x' m' b : grows s x m s' x' m' → b ∈ table s' x' → b = 0 ∨ b ∈ table s x ∨ freeblock s ≤ b.
Proof.
  intros Hg [k Hk]%list_elem_of_lookup. destruct (decide (k < m)%nat) as [Hlt|].
  - rewrite (g_pre _ _ _ _ _ _ Hg) in Hk by done. right. left. by eapply list_elem_of_lookup_2.
  - pose proof (tk_entry _ _ _ (g_tab _ _ _ _ _ _ Hg) _ _ Hk). case_decide; [|by left].
    right. right. by apply (g_new _ _ _ _ _ _ Hg k); [lia|].
Qed.

(** Writing to a data block leaves the table. *)
Lemma table_write s x k buf : img_ok s → 21 ≤ k ≤ 1000 → 0 ≤ ind x → k ≠ ind x → table (write_at k buf s) x = table s x.
Proof.
  intros Hok Hk Hi Hne. unfold table. destruct (Z.eqb_spec (ind x) 0); [done|].
  rewrite block_write_at by (done || lia). rewrite decide_False; [done|congruence].
Qed.

(** The bytes [d] stored at the end of the file *)
Lemma store_holds s x c d fb n :
  img_ok s → tab_ok s x (S (pos n)) → holds s x c → table s x !! pos n = Some fb →
  n = Z.to_nat (zlen c / 512) → zlen c mod 512 + zlen d ≤ 512 →
  let s' := write_at fb (splice (Z.to_nat (zlen c mod 512)) d (block s fb)) s in
  table s' x = table s x ∧ holds s' x (c ++ d).
Proof.
  intros Hok Ht Hh Hfb Hn Hd s'. pose proof (io_free _ Hok) as Hfr.
  pose proof (tk_entry _ _ _ Ht _ _ Hfb) as Hb. rewrite decide_True in Hb by lia.
  destruct (block_ok s fb Hok ltac:(lia)) as [Hl _].
  pose proof (table_ind _ _ _ Ht) as Hind. pose proof (Z.mod_pos_bound (zlen c) 512 ltac:(lia)) as Hm0.
  assert (0 ≤ ind x) as Hi0.
  { pose proof (tk_entry _ _ _ Ht _ _ Hind). case_decide; lia. }
  assert (fb ≠ ind x) as Hne.
  { intros ->. destruct (decide (12 < S (pos n))%nat) as [Hlt|Hge].
    - apply (pos_12 n). eapply (tk_inj _ _ _ Ht); [lia|exact Hlt|exact Hfb|exact Hind].
    - pose proof (tk_entry _ _ _ Ht _ _ Hind) as H0. rewrite decide_False in H0 by done. lia. }
  assert (table s' x = table s x) as Htab by (apply table_write; done || lia).
  split; [done|]. intros j b Hj. rewrite Htab. unfold zlen in *.
  destruct (decide (j < length c)%nat) as [Hlt|Hge].
  - rewrite lookup_app_l in Hj by done. destruct (Hh j b Hj) as (k & Hk & Hkb). exists k. split; [done|].
    assert (pos (j / 512) < S (pos n))%nat as Hm.
    { unfold pos. assert (j / 512 ≤ n)%nat. { rewrite Hn. rewrite Z2Nat.inj_div, Nat2Z.id by lia. apply Nat.Div0.div_le_mono. lia. }
      destruct (Nat.ltb_spec (j / 512) 12); destruct (Nat.ltb_spec n 12); lia. }
    pose proof (tk_entry _ _ _ Ht _ _ Hk) as Hke. rewrite decide_True in Hke by lia.
    unfold s'. rewrite block_write_at by (done || lia). case_decide as Hkf; [|done]. subst k.
    assert (pos (j / 512) = pos n) as Hp by (eapply (tk_inj _ _ _ Ht); [lia|lia|exact Hk|exact Hfb]).
    apply pos_inj in Hp.
    assert (j mod 512 < Z.to_nat (length c mod 512))%nat as Hjm.
    { rewrite Hn in Hp. rewrite Z2Nat.inj_div, Nat2Z.id in Hp by lia. rewrite Z2Nat.inj_mod, Nat2Z.id by lia.
      change (Z.to_nat 512) with 512%nat in *. pose proof (Nat.div_mod j 512 ltac:(lia)).
      pose proof (Nat.div_mod (length c) 512 ltac:(lia)). lia. }
    rewrite lookup_splice by lia. by rewrite decide_False by lia.
  - rewrite lookup_app_r in Hj by lia. pose proof (lookup_lt_Some _ _ _ Hj) as Hjl.
    assert (j / 512 = n ∧ j mod 512 = Z.to_nat (length c mod 512) + (j - length c))%nat as [Hjn Hjm].
    { assert (length c = 512 * n + Z.to_nat (length c mod 512))%nat as Hcl.
      { pose proof (Z.div_mod (length c) 512 ltac:(lia)).
        pose proof (Z.div_pos (length c) 512 ltac:(lia) ltac:(lia)). lia. }
      assert (Z.to_nat (length c mod 512) + (j - length c) < 512)%nat by lia. split.
      - symmetry. apply (Nat.div_unique _ _ _ (Z.to_nat (length c mod 512) + (j - length c))); lia.
      - symmetry. apply (Nat.mod_unique _ _ n); lia. }
    rewrite Hjn. exists fb. split; [done|]. unfold s'. rewrite block_write_at by (done || lia).
    rewrite decide_True by done. rewrite lookup_splice by lia. rewrite decide_True by lia.
    rewrite Hjm. rewrite <- Hj. f_equal. lia.
Qed.

Lemma holds_grows s x c s' x' m' :
  file_rep s x c → grows s x (nblk (zlen c)) s' x' m' → holds s' x' c.
Proof.
  intros [Ht Hh Hlen] Hg j b Hj. destruct (Hh j b Hj) as (k & Hk & Hb).
  assert (pos (j / 512) < nblk (zlen c))%nat as Hp.
  { apply pos_mapped. apply lookup_lt_Some in Hj. unfold zlen. lia. }
  exists k. rewrite (g_pre _ _ _ _ _ _ Hg) by done. split; [done|].
  pose proof (tk_entry _ _ _ Ht _ _ Hk) as He. rewrite decide_True in He by done.
  rewrite (g_frame _ _ _ _ _ _ Hg); [done|lia|]. right. intros ->.
  pose proof (table_ind _ _ _ Ht) as Hind. pose proof (tk_entry _ _ _ Ht _ _ Hind) as H0.
  case_decide as Hd; [|lia]. apply (pos_12 (j / 512)). exact (tk_inj _ _ _ Ht _ _ _ Hp Hd Hk Hind).
Qed.

Lemma grows_appended s x m s' x' m' fb buf k :
  img_ok s → tab_ok s x m → grows s x m s' x' m' → table s' x' !! k = Some fb → 21 ≤ fb < freeblock s' →
  img_ok (write_at fb buf s') → table (write_at fb buf s') x' = table s' x' → 
  appended s x (write_at fb buf s') x'.
Proof.
  intros Hok Ht Hg Hfb Hr Hok' Htab. pose proof (io_free _ (g_img _ _ _ _ _ _ Hg)) as Hfr.
  pose proof (list_elem_of_lookup_2 _ _ _ Hfb) as Hin. pose proof (grows_new _ _ _ _ _ _ _ Hg Hin) as Hnew.
  split; [done| | | | |].
  - intros b Hb Hd. rewrite block_write_at by (apply Hg || lia). rewrite decide_False.
    + apply (g_frame _ _ _ _ _ _ Hg); [done|]. destruct Hd as [|Hni]; [by left|right].
      intros ->. apply Hni. eapply list_elem_of_lookup_2, (table_ind _ _ _ Ht).
    + intros ->. destruct Hnew as [|[Hi|]]; [lia| |lia]. destruct Hd; [lia|done].
  - intros b. rewrite Htab. by eapply grows_new.
  - cbn. pose proof (g_free _ _ _ _ _ _ Hg). pose proof (g_le _ _ _ _ _ _ Hg). lia.
  - cbn. by apply (g_ino _ _ _ _ _ _ Hg).
  - apply (g_meta _ _ _ _ _ _ Hg).
Qed.

Lemma append_round_ok s x i c p :
  img_ok s → file_rep s x c → indirect_ok i → p ≠ [] → Forall is_byte p → zlen c + zlen p ≤ 71680 →
  freeblock s + (nblk (zlen c + 1) - nblk (zlen c)) ≤ 1001 →
  wp (append_round (x, i, zlen c, p)) s (λ r s', ∃ x' i' k,
    r = inl (x', i', zlen c + Z.of_nat k, drop k p) ∧ (0 < k ≤ length p)%nat ∧ k ≤ 512 - zlen c mod 512 ∧
    file_rep s' x' (c ++ take k p) ∧ indirect_ok i' ∧ appended s x s' x' ∧
    freeblock s' = freeblock s + (nblk (zlen c + 1) - nblk (zlen c))).
Proof.
  intros Hok Hfile Hi Hp Hby Hlen Hfree. pose proof Hfile as [Ht Hh Hcl].
  assert (0 ≤ zlen c) as Hc0 by (unfold zlen; lia).
  assert (0 < zlen p) as Hp0 by (unfold zlen; destruct p; cbn; [done|lia]).
  unfold append_round. rewrite (proj2 (Z.eqb_neq _ _)) by lia. change BSIZE with 512.
  pose proof (Z.mod_pos_bound (zlen c) 512 ltac:(lia)) as Hm. pose proof (Z.div_mod (zlen c) 512 ltac:(lia)) as Hdm.
  pose proof (Z.div_pos (zlen c) 512 ltac:(lia) ltac:(lia)) as Hdp.
  rewrite wp_bind. eapply wp_mono; [apply append_block_ok; try done; lia|]. cbn beta.
  intros [[x' i'] fb] s' (Hg & Hi' & Hfb). pose proof (g_tab _ _ _ _ _ _ Hg) as Ht'. pose proof (g_img _ _ _ _ _ _ Hg) as Hok'.
  pose proof (io_free _ Hok') as Hfr. rewrite nblk_next in Ht' by lia.
  pose proof (tk_entry _ _ _ Ht' _ _ Hfb) as He. rewrite decide_True in He by lia.
  destruct (block_ok s' fb Hok' ltac:(lia)) as [Hbl Hbb].
  rewrite wp_bind. apply wp_bread; [done|lia|]. rewrite (u32_small ((zlen c / 512 + 1) * 512)) by lia.
  replace ((zlen c / 512 + 1) * 512 - zlen c) with (512 - zlen c mod 512) by lia.
  rewrite u32_small by lia. replace (zlen c - zlen c / 512 * 512) with (zlen c mod 512) by lia.
  set (k := Z.to_nat (Z.min (zlen p) (512 - zlen c mod 512))).
  assert (zlen (take k p) = k) as Hk by (unfold k, zlen in *; rewrite length_take; lia).
  rewrite wp_bind. apply wp_bwrite; [done|lia|]. rewrite wp_ret. rewrite u32_small by lia.
  destruct (store_holds s' x' c (take k p) fb _ Hok' Ht' (holds_grows _ _ _ _ _ _ Hfile Hg) Hfb eq_refl
    ltac:(rewrite Hk; lia)) as [Htab Hh'].
  match goal with |- context [write_at fb ?b s'] => set (buf := b) in * end.
  assert (img_ok (write_at fb buf s')) as Hok2.
  { apply img_ok_write; [done|lia|lia|..]; unfold buf.
    - rewrite length_splice; [done|]. unfold zlen in Hk. lia.
    - apply Forall_splice; [by apply Forall_take|done]. }
  exists x', i', k. split_and!; [|unfold zlen in *; lia..| |done| |apply (g_free _ _ _ _ _ _ Hg)].
  - do 2 f_equal. f_equal. lia.
  - split; [|exact Hh'|unfold zlen in *; rewrite length_app; lia].
    assert (nblk (zlen (c ++ take k p)) = S (pos (Z.to_nat (zlen c / 512)))) as ->.
    { unfold zlen in *. rewrite length_app, Nat2Z.inj_add, Hk, <- nblk_next by lia. apply nblk_same; lia. }
    destruct Ht' as [Hw' He' Hi'']. split; [done|..].
    + intros j b. rewrite Htab. apply He'.
    + intros j j' b Hj Hj'. rewrite Htab. by apply Hi''.
  - by eapply grows_appended.
Qed.

Lemma append_loop_ok fuel : ∀ s x i c p,
  img_ok s → file_rep s x c → indirect_ok i → Forall is_byte p → zlen c + zlen p ≤ 71680 →
  freeblock s + (nblk (zlen c + zlen p) - nblk (zlen c)) ≤ 1001 → (length p < fuel)%nat →
  wp (loop fuel append_round (x, i, zlen c, p)) s (λ '(x', off) s',
    off = zlen c + zlen p ∧ file_rep s' x' (c ++ p) ∧ appended s x s' x' ∧
    freeblock s' = freeblock s + (nblk (zlen c + zlen p) - nblk (zlen c))).
Proof.
  induction fuel as [|fuel IH]; intros s x i c p Hok Hf Hi Hb Hlen Hfree Hfuel; [lia|].
  rewrite wp_loop_S. assert (0 ≤ zlen c) as Hc0 by (unfold zlen; lia).
  destruct p as [|b0 p0] eqn:Hp.
  { cbn. rewrite !Z.add_0_r, app_nil_r. split; [done|]. split; [done|]. split; [by apply appended_refl|lia]. }
  rewrite <- Hp in *. assert (p ≠ []) as Hne by (by subst p).
  assert (0 < zlen p) as Hp0 by (subst p; unfold zlen; cbn; lia). clear Hp.
  pose proof (nblk_le (zlen c + 1) (zlen c + zlen p) ltac:(lia)) as Hn1.
  wp_apply append_round_ok; [done..|lia|]. intros r s1 (x1 & i1 & k & -> & Hk & Hkm & Hf1 & Hi1 & Ha1 & Hfr1).
  assert (zlen (c ++ take k p) = zlen c + k) as Hck by (unfold zlen; rewrite length_app, length_take; lia).
  assert (zlen (drop k p) = zlen p - k) as Hdk by (unfold zlen; rewrite length_drop; lia).
  rewrite <- Hck. rewrite <- (nblk_same _ k) in Hfr1 by lia. rewrite <- (nblk_same _ k) in Hn1 by lia.
  eapply wp_mono; [apply IH; [apply Ha1|done|done|by apply Forall_drop|lia| |rewrite length_drop; lia]|].
  - rewrite Hck, Hdk. replace (zlen c + k + (zlen p - k)) with (zlen c + zlen p) by lia. lia.
  - cbn beta. intros [x2 off] s2 (-> & Hf2 & Ha2 & Hfr2). rewrite <- app_assoc, take_drop in Hf2.
    rewrite Hck, Hdk in *. replace (zlen c + k + (zlen p - k)) with (zlen c + zlen p) in * by lia.
    split; [done|]. split; [done|]. split; [|lia].
    eapply appended_trans; [apply (io_free _ Hok)|done|done].
Qed.
End image.

(** *** The image as a set of files *)

(** The inode [i] of the image *)
Definition inode (s : Mk) (i : Z) : DInode :=
  dinode_decode (slice (Z.to_nat (i mod inode_per_block * sizeof_DInode)) 66 (block s (get_inode_block i mkfs_super))).

(** The files [F], by inode number: type and content. Different files have no
    block in common. *)
Record rep (s : Mk) (F : gmap Z (Z * list Z)) : Prop := mk_rep {
  rp_img : img_ok s;
  rp_ino : 1 ≤ freeino s ≤ 128;
  rp_dom : ∀ i, is_Some (F !! i) → 1 ≤ i < freeino s;
  rp_file : ∀ i t c, F !! i = Some (t, c) →
    file_rep s (inode s i) c ∧ isize (inode s i) = zlen c ∧ type (inode s i) = t;
  rp_disj : ∀ i j b, i ≠ j → is_Some (F !! i) → is_Some (F !! j) →
    b ∈ table s (inode s i) → b ∈ table s (inode s j) → b = 0;
}.

Section files.
Implicit Types (s : Mk) (x : DInode) (F : gmap Z (Z * list Z)).

Lemma inode_block_range i : 1 ≤ i ≤ 127 → get_inode_block i mkfs_super = i / 7 + 1 ∧ 1 ≤ get_inode_block i mkfs_super ≤ 19.
Proof.
  intros Hi. unfold get_inode_block. change inode_per_block with 7. cbn [inodestart mkfs_super].
  rewrite u32_small; Z.div_mod_to_equations; lia.
Qed.

(** The image after [iwrite] *)
Definition put_inode (i : Z) (x : DInode) (s : Mk) : Mk :=
  write_at (get_inode_block i mkfs_super)
    (splice (Z.to_nat (i mod inode_per_block * sizeof_DInode)) (dinode_encode x) (block s (get_inode_block i mkfs_super))) s.

Lemma iwrite_ok s i x (Q : unit → Mk → Prop) :
  img_ok s → 1 ≤ i ≤ 127 → Q tt (put_inode i x s) → wp (iwrite i x) s Q.
Proof.
  intros Hok Hi HQ. destruct (inode_block_range i Hi) as [Hg Hr]. unfold iwrite.
  rewrite wp_bind, wp_gets, (io_sb _ Hok), wp_bind. apply wp_bread; [done|lia|].
  by apply wp_bwrite; [done|lia|].
Qed.

Lemma iread_ok s i (Q : DInode → Mk → Prop) :
  img_ok s → 1 ≤ i ≤ 127 → Q (inode s i) s → wp (iread i) s Q.
Proof.
  intros Hok Hi HQ. destruct (inode_block_range i Hi) as [Hg Hr]. unfold iread.
  rewrite wp_bind, wp_gets, (io_sb _ Hok), wp_bind. by apply wp_bread; [done|lia|].
Qed.

Lemma put_inode_ok s i x :
  img_ok s → 1 ≤ i ≤ 127 → dinode_wf x →
  img_ok (put_inode i x s) ∧
  (∀ k, 0 ≤ k → ¬ 1 ≤ k ≤ 19 → block (put_inode i x s) k = block s k) ∧
  (∀ j, 1 ≤ j ≤ 127 → inode (put_inode i x s) j = if decide (j = i) then x else inode s j).
Proof.
  intros Hok Hi Hwf. destruct (inode_block_range i Hi) as [Hg Hr]. unfold put_inode.
  destruct (block_ok s (get_inode_block i mkfs_super) Hok ltac:(lia)) as [Hl Hb].
  pose proof (length_dinode_encode x (proj1 (dw_addrs _ Hwf))) as Hle.
  pose proof (inode_slot_range i ltac:(lia)) as Hs.
  split; [|split].
  - apply img_ok_write; [done|pose proof (io_free _ Hok); lia|lia| |].
    + rewrite length_splice; [done|lia].
    + apply Forall_splice; [apply dinode_encode_bytes|done].
  - intros k Hk Hd. rewrite block_write_at by (done || lia). by rewrite decide_False by lia.
  - intros j Hj. destruct (inode_block_range j Hj) as [Hgj Hrj]. unfold inode.
    rewrite block_write_at by (done || lia). case_decide as Heq.
    + rewrite inode_slot_write by (done || lia). rewrite Heq. change inode_per_block with 7.
      case_decide; case_decide; try done; [|subst; done]. exfalso. Z.div_mod_to_equations. lia.
    + rewrite decide_False; [done|congruence].
Qed.

(** What a file depends on: its blocks *)
Lemma file_rep_frame s s' x c :
  file_rep s x c → freeblock s ≤ freeblock s' →
  (∀ b, b ∈ table s x → b ≠ 0 → block s' b = block s b) → table s' x = table s x ∧ file_rep s' x c.
Proof.
  intros [Ht Hh Hl] Hf Hb. pose proof (table_ind _ _ _ Ht) as Hind.
  assert (table s' x = table s x) as Htab.
  { unfold table. destruct (Z.eqb_spec (ind x) 0); [done|]. rewrite Hb; [done| |done]. by eapply list_elem_of_lookup_2. }
  split; [done|]. split; [|intros j b Hj|done].
  - destruct Ht as [Hw He Hi]. split; [done| |].
    + intros k b. rewrite Htab. intros Hk. specialize (He _ _ Hk). case_decide; lia.
    + intros k k' b Hk Hk'. rewrite Htab. by apply Hi.
  - rewrite Htab. destruct (Hh j b Hj) as (k & Hk & Hkb). exists k. split; [done|]. rewrite Hb; [done| |].
    + by eapply list_elem_of_lookup_2.
    + pose proof (tk_entry _ _ _ Ht _ _ Hk) as He. rewrite decide_True in He; [lia|].
      apply pos_mapped. apply lookup_lt_Some in Hj. unfold zlen. lia.
Qed.

Lemma file_rep_size s x c z : file_rep s x c → 0 ≤ z < 4294967296 → file_rep s (set_size z x) c.
Proof.
  intros [[Hwf He Hi] Hh Hl] Hz. destruct Hwf as [H1 H2 H3 H4 H5 H6].
  split; [split; [by split|exact He|exact Hi]|exact Hh|exact Hl].
Qed.

Lemma table_range s x c b : file_rep s x c → b ∈ table s x → b = 0 ∨ 21 ≤ b < freeblock s.
Proof.
  intros Hf [k Hk]%list_elem_of_lookup. pose proof (tk_entry _ _ _ (fr_tab _ _ _ Hf) _ _ Hk).
  case_decide; [by right|by left].
Qed.

(** The file [i] becomes [x], in a state [s1] in which the other files are as
    they were in [s], and is written back. *)
Lemma rep_put s F i x s1 t c :
  rep s F → img_ok s1 → 1 ≤ i < freeino s1 → freeino s ≤ freeino s1 ≤ 128 → freeblock s ≤ freeblock s1 →
  (∀ b, 0 ≤ b < 21 → block s1 b = block s b) →
  (∀ j b, j ≠ i → is_Some (F !! j) → b ∈ table s (inode s j) → b ≠ 0 → block s1 b = block s b ∧ b ∉ table s1 x) →
  file_rep s1 x c → type x = t → isize x = zlen c → rep (put_inode i x s1) (<[i := (t, c)]> F).
Proof.
  intros [Hok Hino Hdom Hfile Hdisj] Hok1 Hi Hino1 Hle Hlow Hfr Hf1 Hty Hsz.
  destruct (put_inode_ok s1 i x Hok1 ltac:(lia) (tk_wf _ _ _ (fr_tab _ _ _ Hf1))) as (Hok2 & Hblk & Hin).
  set (s2 := put_inode i x s1) in *.
  assert (∀ b, 21 ≤ b → block s2 b = block s1 b) as Hblk' by (intros; apply Hblk; lia).
  assert (file_rep s2 x c ∧ table s2 x = table s1 x) as [Hfx Htx].
  { destruct (file_rep_frame s1 s2 x c Hf1 ltac:(cbn; lia)) as [Ht Hf2]; [|done].
    intros b Hb Hne. apply Hblk'. destruct (table_range _ _ _ _ Hf1 Hb); lia. }
  assert (inode s2 i = x) as Hii by (by rewrite Hin, decide_True by (done || lia)).
  assert (∀ j, j ≠ i → is_Some ((<[i := (t, c)]> F) !! j) → is_Some (F !! j)) as HF'.
  { intros j Hj. by rewrite lookup_insert_ne. }
  assert (∀ j, j ≠ i → is_Some (F !! j) → inode s2 j = inode s j ∧ table s2 (inode s j) = table s (inode s j) ∧
    ∀ t' cj, F !! j = Some (t', cj) → file_rep s2 (inode s j) cj) as Hother.
  { intros j Hj HFj. pose proof (Hdom j HFj) as Hjr. destruct (inode_block_range j ltac:(lia)) as [_ Hg].
    split.
    { rewrite Hin, decide_False by (done || lia). unfold inode. by rewrite Hlow by lia. }
    pose proof HFj as [[t1 c1] HFj']. destruct (Hfile _ _ _ HFj') as [Hfj _].
    destruct (file_rep_frame s s2 (inode s j) c1 Hfj ltac:(cbn; lia)) as [Ht Hf2].
    - intros b Hb Hne. destruct (table_range _ _ _ _ Hfj Hb) as [|Hr]; [done|]. rewrite Hblk' by lia. by eapply Hfr.
    - split; [done|]. intros t' cj. rewrite HFj'. by intros [= <- <-]. }
  split; [done|cbn; lia| | |].
  - intros j Hj. cbn. destruct (decide (j = i)) as [->|Hji]; [lia|]. pose proof (Hdom j (HF' j Hji Hj)). lia.
  - intros j t' cj. destruct (decide (j = i)) as [->|Hj].
    + rewrite lookup_insert_eq. intros [= <- <-]. by rewrite Hii.
    + rewrite lookup_insert_ne by done. intros HFj. destruct (Hother j Hj ltac:(by eexists)) as (-> & _ & Hf).
      split; [by eapply Hf|by eapply Hfile].
  - assert (∀ j b, j ≠ i → is_Some (F !! j) → b ∈ table s2 x → b ∈ table s2 (inode s2 j) → b = 0) as Hnd.
    { intros j b Hj HFj. destruct (Hother j Hj HFj) as (-> & -> & _). rewrite Htx. intros Hb Hbj.
      destruct (decide (b = 0)) as [|Hne]; [done|]. by destruct (Hfr j b Hj HFj Hbj Hne). }
    intros j k b Hjk Hj Hk. destruct (decide (j = i)) as [->|Hji]; [|destruct (decide (k = i)) as [->|Hki]].
    + rewrite Hii. eapply Hnd; [done|by apply HF'].
    + rewrite Hii. intros. eapply (Hnd j); [done|by apply HF'|done|done].
    + destruct (Hother j Hji (HF' j Hji Hj)) as (-> & -> & _). destruct (Hother k Hki (HF' k Hki Hk)) as (-> & -> & _).
      apply Hdisj; [done|by apply HF'..].
Qed.

Lemma iappend_ok s F i t c p :
  rep s F → F !! i = Some (t, c) → Forall is_byte p → zlen c + zlen p ≤ 71680 →
  freeblock s + (nblk (zlen c + zlen p) - nblk (zlen c)) ≤ 1001 →
  wp (iappend i p) s (λ _ s', rep s' (<[i := (t, c ++ p)]> F) ∧ freeino s' = freeino s ∧
    freeblock s' = freeblock s + (nblk (zlen c + zlen p) - nblk (zlen c)) ∧ block s' 0 = block s 0).
Proof.
  intros Hrep HF Hb Hlen Hfree. pose proof Hrep as [Hok Hino Hdom Hfile Hdisj].
  pose proof (Hdom i ltac:(by eexists)) as Hi. destruct (Hfile _ _ _ HF) as (Hf & Hsz & Hty).
  unfold iappend. rewrite wp_bind. apply iread_ok; [done|lia|]. rewrite wp_bind, Hsz.
  wp_apply append_loop_ok; try done; [|lia|].
  { split; [done|]. apply Forall_replicate. lia. }
  intros [x off] s1 (-> & Hf1 & Ha & Hfr1).
  assert (zlen (c ++ p) = zlen c + zlen p) as Hz by (unfold zlen; rewrite length_app; lia).
  pose proof (ap_img _ _ _ _ Ha) as Hok1. apply iwrite_ok; [done|lia|].
  assert (file_rep s1 (set_size (zlen c + zlen p) x) (c ++ p)) as Hf2 by (apply file_rep_size; [done|unfold zlen in *; lia]).
  split; [|split; [|split]].
  - pose proof (io_free _ Hok) as Hfr0. pose proof (ap_meta _ _ _ _ Ha 0) as Hm. injection Hm as Hm _ _ _.
    pose proof (ap_ino _ _ _ _ Ha) as Hin. pose proof (ap_le _ _ _ _ Ha).
    apply (rep_put s); try done; [lia|lia| | |cbn; by rewrite Hm].
    + intros b Hbb. apply (ap_frame _ _ _ _ Ha); lia.
    + intros j b Hj HFj Hbj Hne. pose proof HFj as [[t' cj] HFj']. destruct (Hfile _ _ _ HFj') as [Hfj _].
      destruct (table_range _ _ _ _ Hfj Hbj) as [|Hr]; [done|]. assert (b ∉ table s (inode s i)) as Hni.
      { intros Hbi. apply Hne. apply (Hdisj i j b); [done|by eexists|done..]. }
      split; [apply (ap_frame _ _ _ _ Ha); [lia|by right]|].
      intros Hbx. destruct (ap_new _ _ _ _ Ha b Hbx) as [|[|]]; [done..|lia].
  - cbn. by apply (ap_ino _ _ _ _ Ha).
  - done.
  - pose proof (put_inode_ok s1 i _ Hok1 ltac:(lia) (tk_wf _ _ _ (fr_tab _ _ _ Hf2))) as (_ & Hblk & _).
    rewrite Hblk by lia. apply (ap_frame _ _ _ _ Ha); [pose proof (io_free _ Hok); lia|lia].
Qed.

Definition empty_node (t : Z) : DInode := mkDInode t 0 0 1 0 (replicate 13 0).

Lemma empty_file s t : 0 ≤ t < 4294967296 → file_rep s (empty_node t) [].
Proof.
  intros Ht. split; [|intros j b Hj; done|done]. change (nblk (zlen [])) with 0%nat. split.
  - split; [cbn; lia..|]. split; [done|]. change (addrs (empty_node t)) with (replicate 13 0). apply Forall_replicate. lia.
  - intros k b Hk. change (table s (empty_node t)) with (replicate 141 0) in Hk.
    apply lookup_replicate in Hk as [-> _]. rewrite decide_False; [done|lia].
  - intros k k' b Hk. lia.
Qed.

Lemma ialloc_ok s F t :
  rep s F → freeino s ≤ 127 → 0 ≤ t < 4294967296 →
  wp (ialloc t) s (λ i s', i = freeino s ∧ rep s' (<[i := (t, [])]> F) ∧ freeino s' = freeino s + 1 ∧
    freeblock s' = freeblock s ∧ block s' 0 = block s 0).
Proof.
  intros Hrep Hi Ht. pose proof Hrep as [Hok Hino Hdom Hfile Hdisj]. pose proof Hok as [Hs Hl Hb Hf Hz].
  unfold ialloc. rewrite wp_bind. unfold next_ino, wp at 1. rewrite u32_small by lia.
  set (s1 := mkMk (img s) (freeino s + 1) (freeblock s) (sb s)).
  assert (img_ok s1) as Hok1 by (by split).
  rewrite wp_bind. apply iwrite_ok; [done|lia|]. rewrite wp_ret. change (mkDInode t 0 0 1 0 (replicate 13 0)) with (empty_node t).
  pose proof (empty_file s1 t Ht) as He.
  destruct (put_inode_ok s1 (freeino s) (empty_node t) Hok1 ltac:(lia) (tk_wf _ _ _ (fr_tab _ _ _ He))) as (_ & Hblk & _).
  split; [done|]. split; [|split; [done|split; [done|]]].
  - apply (rep_put s); try done; cbn; try lia.
    intros j b Hj HFj Hbj Hne. split; [done|]. intros Hb0. apply Hne.
    change (b ∈ replicate 141 0) in Hb0. by apply elem_of_replicate in Hb0 as [-> _].
  - by rewrite Hblk by lia.
Qed.
End files.

(** *** The map of free blocks *)

Lemma lor_bit_byte c k : is_byte c → 0 ≤ k < 8 → is_byte (Z.lor c (Z.shiftl 1 k)).
Proof.
  intros Hc Hk. unfold is_byte in *. rewrite Z.shiftl_1_l.
  assert (0 ≤ Z.lor c (2 ^ k)) as Hn by (apply Z.lor_nonneg; lia). split; [done|].
  destruct (decide (c = 0)) as [->|]; [rewrite Z.lor_0_l; apply (Z.pow_lt_mono_r 2 _ 8); lia|].
  change 256 with (2 ^ 8). apply Z.log2_lt_pow2.
  - destruct (Z.eq_dec (Z.lor c (2 ^ k)) 0) as [E|]; [|lia]. apply Z.lor_eq_0_iff in E as [? _]. lia.
  - rewrite Z.log2_lor, Z.log2_pow2 by lia. assert (Z.log2 c < 8) by (apply Z.log2_lt_pow2; lia). lia.
Qed.

Lemma balloc_bits_ok n : ∀ i buf s, length buf = 512%nat → Forall is_byte buf → (i + n ≤ 4096)%nat →
  wp (balloc_bits n i buf) s (λ buf' s', s' = s ∧ length buf' = 512%nat ∧ Forall is_byte buf' ∧
    ∀ k c, (k < i + n)%nat → buf' !! (k / 8)%nat = Some c →
      (i ≤ k)%nat ∨ (∀ c0, buf !! (k / 8)%nat = Some c0 → Z.testbit c0 (k mod 8)%nat = true) →
      Z.testbit c (k mod 8)%nat = true).
Proof.
  induction n as [|n IH]; intros i buf s Hl Hb Hn.
  { cbn. split; [done|]. split; [done|]. split; [done|]. intros k c Hk Hc [|H]; [lia|by apply H]. }
  cbn [balloc_bits]. destruct (lookup_lt_is_Some_2 buf (i / 8)) as [c Hc].
  { rewrite Hl. apply Nat.Div0.div_lt_upper_bound. lia. }
  rewrite wp_bind. eapply wp_need; [exact Hc|]. pose proof (Nat.mod_upper_bound i 8 ltac:(lia)) as Hm.
  pose proof (Forall_lookup_1 _ _ _ _ Hb Hc) as Hcb. cbn beta in Hcb.
  assert (is_byte (Z.lor c (Z.shiftl 1 (i mod 8)%nat))) as Hcb'.
  { by apply lor_bit_byte; [|lia]. }
  eapply wp_mono; [apply IH; [by rewrite length_insert|by apply Forall_insert|lia]|].
  cbn beta. intros buf' s' (-> & Hl' & Hb' & Hbits). split; [done|]. split; [done|]. split; [done|].
  intros k c' Hk Hc' Hor. apply Hbits; [lia|done|]. destruct (decide (S i ≤ k)%nat) as [|Hlt]; [by left|right].
  intros c0. destruct (decide (k / 8 = i / 8)%nat) as [Heq|Hne].
  - rewrite Heq, list_lookup_insert_eq by (apply lookup_lt_Some in Hc; lia). intros [= <-].
    rewrite Z.lor_spec, Z.shiftl_spec by lia. destruct (decide (k = i)) as [->|Hki].
    + rewrite Z.sub_diag. apply orb_true_r.
    + destruct Hor as [|Hor]; [lia|]. rewrite (Hor c) by (by rewrite Heq). done.
  - rewrite list_lookup_insert_ne by done. destruct Hor as [|Hor]; [|apply Hor].
    assert (k = i) by lia. by subst k.
Qed.

(** The kernel numbers the bits of a byte from the other end. *)
Definition map_marks (buf : list Z) (n : Z) : Prop :=
  length buf = 512%nat ∧ Forall is_byte buf ∧
  (∀ k : nat, k < n → ∀ c, buf !! (k / 8)%nat = Some c → Z.testbit c (k mod 8)%nat = true).

Lemma map_marks_bit buf n k : map_marks buf n → 0 ≤ k → k + 7 < n ≤ 4096 → bit_set buf k = true.
Proof.
  intros (Hl & Hb & Hm) Hk Hn. unfold bit_set. pose proof (Z.mod_pos_bound k 8 ltac:(lia)) as Hr.
  pose proof (Z.div_pos k 8 Hk ltac:(lia)). pose proof (Z.div_mod k 8 ltac:(lia)) as Hdm.
  destruct (lookup_lt_is_Some_2 buf (Z.to_nat (k / 8))) as [c Hc]; [lia|]. rewrite Hc.
  set (j := (8 * Z.to_nat (k / 8) + Z.to_nat (7 - k mod 8))%nat).
  assert (j / 8 = Z.to_nat (k / 8))%nat as Hj.
  { symmetry. apply (Nat.div_unique _ _ _ (Z.to_nat (7 - k mod 8))); unfold j; lia. }
  assert (j mod 8 = Z.to_nat (7 - k mod 8))%nat as Hj2.
  { symmetry. apply (Nat.mod_unique _ _ (Z.to_nat (k / 8))); unfold j; lia. }
  specialize (Hm j ltac:(unfold j; lia) c). rewrite Hj in Hm. specialize (Hm Hc). rewrite Hj2 in Hm.
  rewrite <- Hm. f_equal. lia.
Qed.

(** The kernel's search stops at the first byte of the map, which is full. *)
Lemma map_marks_search buf n : map_marks buf n → 8 ≤ n → search_bytes buf = Some 8.
Proof.
  intros (Hl & Hb & Hm) Hn. destruct buf as [|c buf]; [done|].
  assert (c = 255) as ->; [|reflexivity].
  assert (∀ k, 0 ≤ k < 8 → Z.testbit c k = true) as Ht.
  { intros k Hk. specialize (Hm (Z.to_nat k) ltac:(lia) c). rewrite Nat.div_small, Nat.mod_small in Hm by lia.
    specialize (Hm eq_refl). by replace (Z.of_nat (Z.to_nat k)) with k in Hm by lia. }
  apply Forall_cons_1 in Hb as [Hc _]. apply Z.bits_inj'. intros k Hk.
  destruct (decide (k < 8)) as [|Hge].
  - rewrite Ht by lia. change 255 with (Z.ones 8). by rewrite Z.ones_spec_low by lia.
  - unfold is_byte in Hc. change 255 with (Z.ones 8). rewrite Z.ones_spec_high by lia.
    destruct (decide (c = 0)) as [->|]; [apply Z.bits_0|]. apply Z.bits_above_log2; [lia|].
    assert (Z.log2 c < 8) by (apply Z.log2_lt_pow2; lia). lia.
Qed.

(** *** [main] *)

Definition put_sb (s : Mk) : Mk := mkMk (img s) (freeino s) 21 mkfs_super.

Lemma sbconfig_ok s : sbconfig s = Ok tt (put_sb s).
Proof. reflexivity. Qed.

Lemma clear_image_ok n : ∀ i s, i = zlen (img s) →
  clear_image n i s = Ok tt (mkMk (img s ++ replicate n zeros) (freeino s) (freeblock s) (sb s)).
Proof.
  induction n as [|n IH]; intros i s ->.
  { cbn. rewrite app_nil_r. by destruct s. }
  cbn [clear_image]. unfold bwrite. erewrite bind_ok by reflexivity.
  assert (put_block (Z.to_nat (zlen (img s))) zeros (img s) = img s ++ [zeros]) as ->.
  { unfold put_block, zlen. rewrite Nat2Z.id, (proj2 (Nat.ltb_ge _ _)), Nat.sub_diag by lia. done. }
  rewrite IH by (cbn [img]; unfold zlen; rewrite length_app; cbn; lia). cbn [img freeino freeblock sb].
  by rewrite <- app_assoc.
Qed.

(** The image after [wsb] *)
Definition blank : Mk :=
  mkMk (splice 0 (sb_encode mkfs_super) zeros :: replicate 1000 zeros) 1 21 mkfs_super.

Lemma blank_rep : rep blank ∅.
Proof.
  split; [|cbn; lia|by intros i [? ?]|done|by intros i j b _ [? ?]]. split; [done|done| |cbn; lia|].
  - cbn [img blank]. apply Forall_cons_2.
    + split; [vm_compute; reflexivity|]. apply Forall_splice; [|apply zeros_ok].
      unfold sb_encode. rewrite !Forall_app. split_and!; apply le_bytes_bytes.
    + apply Forall_replicate, zeros_ok.
  - intros k Hk. change (freeblock blank) with 21 in Hk. unfold block.
    replace (Z.to_nat k) with (S (Z.to_nat (k - 1))) by lia.
    change (default [] (replicate 1000 zeros !! Z.to_nat (k - 1)) = zeros).
    rewrite lookup_replicate_2; [done|lia].
Qed.

(** A write to the block of the map *)
Lemma rep_map s F buf : rep s F → length buf = 512%nat → Forall is_byte buf → rep (write_at 20 buf s) F.
Proof.
  intros [Hok Hino Hdom Hfile Hdisj] Hl Hb. pose proof (io_free _ Hok) as Hfr.
  assert (∀ k, 0 ≤ k → k ≠ 20 → block (write_at 20 buf s) k = block s k) as Hblk.
  { intros k Hk Hne. rewrite block_write_at by (done || lia). by rewrite decide_False by done. }
  assert (∀ i, is_Some (F !! i) → inode (write_at 20 buf s) i = inode s i) as Hin.
  { intros i Hi. destruct (inode_block_range i ltac:(pose proof (Hdom i Hi); lia)) as [_ Hr].
    unfold inode. by rewrite Hblk by lia. }
  assert (∀ i t c, F !! i = Some (t, c) →
    table (write_at 20 buf s) (inode s i) = table s (inode s i) ∧ file_rep (write_at 20 buf s) (inode s i) c) as Hkeep.
  { intros i t c HF. destruct (Hfile _ _ _ HF) as [Hf _]. apply file_rep_frame; [done|cbn; lia|].
    intros b Hbt Hne. destruct (table_range _ _ _ _ Hf Hbt); [done|]. apply Hblk; lia. }
  split; [apply img_ok_write; done || lia|done|done| |].
  - intros i t c HF. rewrite Hin by (by eexists). split; [by eapply Hkeep|by eapply Hfile].
  - intros i j b Hij Hi Hj. rewrite !Hin by done. destruct Hi as [[t c] Hi], Hj as [[t' c'] Hj].
    destruct (Hkeep _ _ _ Hi) as [-> _]. destruct (Hkeep _ _ _ Hj) as [-> _].
    apply Hdisj; [done|by eexists..].
Qed.

(** [balloc] after the files have been written *)
Lemma balloc_ok s F :
  rep s F → wp (balloc (freeblock s)) s (λ _ s', rep s' F ∧ freeblock s' = freeblock s ∧
    freeino s' = freeino s ∧ block s' 0 = block s 0 ∧ map_marks (block s' 20) (freeblock s)).
Proof.
  intros Hrep. pose proof (rp_img _ _ Hrep) as Hok. pose proof (io_free _ Hok) as Hfr.
  unfold balloc. rewrite wp_bind. wp_apply balloc_bits_ok; [apply zeros_ok..|lia|].
  intros buf s' (-> & Hl & Hb & Hm). rewrite wp_bind, wp_gets, (io_sb _ Hok).
  apply wp_bwrite; [done|cbn; lia|]. cbn [bmapstart mkfs_super].
  split; [by apply rep_map|]. split; [done|]. split; [done|].
  rewrite !block_write_at by (done || lia). rewrite decide_False, decide_True by done. split; [done|].
  split; [done|]. split; [done|]. intros k Hk c Hc. apply (Hm k c); [lia|done|left; lia].
Qed.

Lemma write_content_ok i fuel : ∀ s F t c d,
  rep s F → F !! i = Some (t, c) → Forall is_byte d → zlen c + zlen d ≤ 71680 →
  freeblock s + (nblk (zlen c + zlen d) - nblk (zlen c)) ≤ 1001 → (length d < fuel)%nat →
  wp (loop fuel (λ c : list Z, if zlen c =? 0 then ret (inr tt) else
        do! iappend i (take (Z.to_nat BSIZE) c) in ret (inl (drop (Z.to_nat BSIZE) c))) d) s
     (λ _ s', rep s' (<[i := (t, c ++ d)]> F) ∧ freeino s' = freeino s ∧
        freeblock s' = freeblock s + (nblk (zlen c + zlen d) - nblk (zlen c)) ∧ block s' 0 = block s 0).
Proof.
  change (Z.to_nat BSIZE) with 512%nat.
  induction fuel as [|fuel IH]; intros s F t c d Hrep HF Hb Hlen Hfree Hfuel; [lia|].
  rewrite wp_loop_S. destruct (Z.eqb_spec (zlen d) 0) as [Hz|Hz].
  { rewrite wp_ret, Hz. assert (d = []) as -> by (destruct d; [done|unfold zlen in Hz; cbn [length] in Hz; lia]).
    rewrite app_nil_r, insert_id by done. split; [done|]. split; [done|]. rewrite Z.add_0_r. split; [lia|done]. }
  assert (zlen (take 512 d) + zlen (drop 512 d) = zlen d) as Hsum by (unfold zlen; rewrite length_take, length_drop; lia).
  assert (0 ≤ zlen (take 512 d) ∧ 0 ≤ zlen (drop 512 d)) as [Hn1 Hn2] by (unfold zlen; lia).
  pose proof (nblk_le (zlen c) (zlen c + zlen (take 512 d)) ltac:(lia)) as Hm1.
  pose proof (nblk_le (zlen c + zlen (take 512 d)) (zlen c + zlen d) ltac:(lia)) as Hm2.
  rewrite wp_bind. wp_apply iappend_ok; [done|done|by apply Forall_take|lia|lia|].
  intros [] s1 (Hrep1 & Hi1 & Hf1 & Hb1). rewrite wp_ret.
  assert (zlen (c ++ take 512 d) = zlen c + zlen (take 512 d)) as Hca by (unfold zlen; rewrite length_app; lia).
  eapply wp_mono; [apply (IH s1 (<[i:=(t, c ++ take 512 d)]> F) t (c ++ take 512 d)); [done|by rewrite lookup_insert_eq|by apply Forall_drop|lia| |]|].
  - rewrite Hca. replace (zlen c + zlen (take 512 d) + zlen (drop 512 d)) with (zlen c + zlen d) by lia. lia.
  - rewrite length_drop. unfold zlen in Hz. lia.
  - cbn beta. intros [] s2 (Hrep2 & Hi2 & Hf2 & Hb2). rewrite insert_insert_eq, <- app_assoc, take_drop in Hrep2.
    rewrite Hca in Hf2. replace (zlen c + zlen (take 512 d) + zlen (drop 512 d)) with (zlen c + zlen d) in Hf2 by lia.
    split; [done|]. split; [lia|]. split; [lia|]. by rewrite Hb2.
Qed.

(** *** Names *)

(** A name in a field of 24 bytes *)
Definition field (name : list Z) : list Z := name ++ replicate (24 - length name) 0.

Definition name_ok (name : list Z) : Prop := Forall (λ c, is_byte c ∧ c ≠ 0) name ∧ (length name ≤ 24)%nat.

Lemma field_ok name : name_ok name → length (field name) = 24%nat ∧ Forall is_byte (field name).
Proof.
  intros [Hn Hl]. unfold field. rewrite length_app, length_replicate. split; [lia|]. apply Forall_app. split.
  - eapply Forall_impl; [exact Hn|]. by intros c [].
  - apply Forall_replicate. by unfold is_byte.
Qed.

(** [strncpy] copies the string [name] of [src], padded with zeros. *)
Lemma host_strncpy_ok src name n dest s :
  Forall (λ c, is_byte c ∧ c ≠ 0) name → (n ≤ length dest)%nat →
  take n (take_while (λ c, negb (c =? 0)) src) = name → dest = replicate 24 0 → 
  host_strncpy src n dest s = Ok (field name) s.
Proof.
  intros Hn Hl Ht ->. rewrite length_replicate in Hl. unfold host_strncpy. rewrite length_replicate.
  rewrite (proj2 (Nat.ltb_ge _ _)) by lia. rewrite Ht.
  assert (length name ≤ n)%nat as Hle by (rewrite <- Ht, length_take; lia).
  unfold ret, splice, field. rewrite take_0. cbn [app].
  rewrite length_app, length_replicate, drop_replicate, <- app_assoc, <- replicate_add. do 3 f_equal. lia.
Qed.

Lemma take_while_name name l : Forall (λ c, is_byte c ∧ c ≠ 0) name → 
  take_while (λ c, negb (c =? 0)) (name ++ 0 :: l) = name.
Proof.
  intros Hn. rewrite take_while_app; [cbn; apply app_nil_r|].
  eapply Forall_impl; [exact Hn|]. intros c [_ Hc]. cbn. by rewrite (proj2 (Z.eqb_neq _ _)).
Qed.

Lemma take_while_field name : name_ok name → take 24 (take_while (λ c, negb (c =? 0)) (field name)) = name.
Proof.
  intros [Hn Hl]. unfold field. destruct (decide (length name = 24)%nat) as [He|Hne].
  - rewrite He. cbn [replicate]. rewrite app_nil_r.
    replace name with (name ++ []) at 1 by apply app_nil_r. rewrite take_while_app.
    + cbn. rewrite app_nil_r, <- He. apply firstn_all.
    + eapply Forall_impl; [exact Hn|]. intros c [_ Hc]. cbn. by rewrite (proj2 (Z.eqb_neq _ _)).
  - replace (24 - length name)%nat with (S (23 - length name)) by lia. cbn [replicate].
    rewrite take_while_name by done. apply take_ge. lia.
Qed.

Lemma arg_strlen_ok (k r : list Z) s : Forall (λ c, c ≠ 0) k → arg_strlen (k ++ 0 :: r) s = Ok (length k) s.
Proof.
  induction 1 as [|c k Hc _ IH]; [done|]. cbn [app arg_strlen length].
  rewrite (proj2 (Z.eqb_neq _ _)) by done. by erewrite bind_ok by exact IH.
Qed.

Lemma find_slash_ok (d k r : list Z) s : Forall (λ c, c ≠ 47) k →
  find_slash (d ++ 47 :: k ++ r) (length d + length k) s = Ok (length d) s.
Proof.
  revert r. induction k as [|c k IH] using rev_ind; intros r Hk.
  - rewrite Nat.add_0_r. destruct (length d) eqn:Hd; cbn [find_slash]; rewrite <- Hd, list_lookup_middle by done; done.
  - apply Forall_app in Hk as [Hk [Hc _]%Forall_cons_1]. cbn beta in Hc. rewrite length_app. cbn [length].
    replace (length d + (length k + 1))%nat with (S (length d + length k)) by lia. cbn [find_slash].
    assert ((d ++ 47 :: (k ++ [c]) ++ r) !! S (length d + length k) = Some c) as ->.
    { rewrite lookup_app_r by lia. replace (S (length d + length k) - length d)%nat with (S (length k)) by lia.
      cbn. rewrite <- app_assoc. by apply list_lookup_middle. }
    unfold need. erewrite bind_ok by reflexivity. rewrite (proj2 (Z.eqb_neq _ _)) by done.
    rewrite <- app_assoc. by apply IH.
Qed.

(** An argument as the Makefile gives it: a path [dir/name_], whose terminator
    is not followed by a slash, and a file that can be read *)
Definition arg_ok (a : list Z * option (list Z)) (name content : list Z) : Prop :=
  ∃ dir c rest, a = (dir ++ 47 :: (name ++ [95; 0; c]) ++ rest, Some content) ∧ c ≠ 47 ∧
    Forall (λ c, c ≠ 0) dir ∧ name_ok name ∧ Forall (λ c, c ≠ 47) name ∧
    Forall is_byte content ∧ zlen content ≤ 71680.

Lemma parsename_ok a name content s : arg_ok a name content → parsename a.1 s = Ok (field name) s.
Proof.
  intros (dir & c & rest & -> & Hc & Hd & [Hn Hl] & Hs & _). cbn [fst]. unfold parsename.
  assert (Forall (λ c, c ≠ 0) name) as Hn0 by (eapply Forall_impl; [exact Hn|]; by intros ? []).
  assert (dir ++ 47 :: (name ++ [95; 0; c]) ++ rest = (dir ++ 47 :: name ++ [95]) ++ 0 :: c :: rest) as Heq.
  { rewrite <- !app_assoc. cbn. by rewrite <- app_assoc. }
  erewrite bind_ok; [|rewrite Heq; apply arg_strlen_ok].
  2:{ apply Forall_app. split; [done|]. apply Forall_cons. split; [done|]. apply Forall_app. split; [done|]. by repeat apply Forall_cons_2. }
  rewrite length_app. cbn [length]. rewrite length_app. cbn [length].
  replace (length dir + S (length name + 1) + 1)%nat with (length dir + length (name ++ [95%Z; 0%Z; c]))%nat
    by (rewrite length_app; cbn; lia).
  erewrite bind_ok; [|apply find_slash_ok].
  2:{ apply Forall_app. split; [done|]. by repeat apply Forall_cons_2. }
  assert (drop (length dir + 1) (dir ++ 47 :: (name ++ [95; 0; c]) ++ rest) = (name ++ [95]) ++ 0 :: c :: rest) as ->.
  { replace (length dir + 1)%nat with (length (dir ++ [47%Z])) by (rewrite length_app; done).
    replace (dir ++ 47 :: (name ++ [95; 0; c]) ++ rest) with ((dir ++ [47]) ++ (name ++ [95; 0; c]) ++ rest)
      by (by rewrite <- app_assoc). rewrite drop_app_length, <- !app_assoc. done. }
  erewrite bind_ok; [|apply arg_strlen_ok, Forall_app; split; [done|by repeat apply Forall_cons_2]].
  rewrite length_app. cbn [length]. rewrite (proj2 (Nat.eqb_neq _ _)) by lia.
  replace (length name + 1 - 1)%nat with (length name) by lia.
  apply host_strncpy_ok; [done|rewrite length_replicate; exact Hl| |done].
  rewrite <- app_assoc. rewrite take_while_app; [apply take_app_length|].
  eapply Forall_impl; [exact Hn0|]. intros x Hx. cbn beta in *. by rewrite (proj2 (Z.eqb_neq _ _)).
Qed.

(** The entry of [name] *)
Definition entry (inum : Z) (name : list Z) : list Z := direntry_encode inum (field name).

Lemma entry_ok inum name : name_ok name → zlen (entry inum name) = 28 ∧ Forall is_byte (entry inum name).
Proof.
  intros Hn. destruct (field_ok name Hn) as [Hl Hb]. unfold entry, direntry_encode. split.
  - unfold zlen. rewrite length_app, length_le_bytes, Hl. done.
  - apply Forall_app. split; [apply le_bytes_bytes|done].
Qed.

Lemma add_entry_ok s F d inum src name n :
  rep s F → F !! 1 = Some (F_DIR, d) → name_ok name → (n ≤ 24)%nat →
  take n (take_while (λ c, negb (c =? 0)) src) = name → zlen d + 28 ≤ 71680 →
  freeblock s + (nblk (zlen d + 28) - nblk (zlen d)) ≤ 1001 →
  wp (add_entry 1 inum src n) s (λ _ s', rep s' (<[1 := (F_DIR, d ++ entry inum name)]> F) ∧
    freeino s' = freeino s ∧ freeblock s' = freeblock s + (nblk (zlen d + 28) - nblk (zlen d)) ∧
    block s' 0 = block s 0).
Proof.
  intros Hrep HF Hn Hn24 Ht Hlen Hfree. destruct (entry_ok inum name Hn) as [Hl Hb].
  unfold add_entry. rewrite wp_bind. eapply wp_ok.
  { apply (host_strncpy_ok _ name); [apply Hn|exact Hn24|exact Ht|done]. }
  change (direntry_encode inum (field name)) with (entry inum name). rewrite <- Hl.
  apply iappend_ok; rewrite ?Hl; done.
Qed.

(** The files after [main]: the root directory [d] and the programs, numbered
    from [n] on *)
Fixpoint programs (n : Z) (d : list Z) (l : list (list Z * list Z)) (F : gmap Z (Z * list Z)) : gmap Z (Z * list Z) :=
  match l with
  | [] => <[1 := (F_DIR, d)]> F
  | (name, content) :: l => programs (n + 1) (d ++ entry n name) l (<[n := (F_FILE, content)]> F)
  end.

Lemma programs_root n d l F x : 1 < n → programs n d l (<[1 := x]> F) = programs n d l F.
Proof.
  revert n d F. induction l as [|[name content] l IH]; intros n d F Hn; cbn [programs].
  - apply insert_insert_eq.
  - rewrite insert_insert_ne by lia. apply IH. lia.
Qed.

(** The blocks of the contents *)
Definition content_blocks (l : list (list Z * list Z)) : Z := foldr (λ p k, nblk (zlen p.2) + k) 0 l.

Lemma write_program_ok s F d a name content :
  rep s F → F !! 1 = Some (F_DIR, d) → arg_ok a name content → freeino s ≤ 127 → zlen d + 28 ≤ 71680 →
  freeblock s + (nblk (zlen d + 28) - nblk (zlen d)) + nblk (zlen content) ≤ 1001 →
  wp (write_program 1 a) s (λ _ s',
    rep s' (<[freeino s := (F_FILE, content)]> (<[1 := (F_DIR, d ++ entry (freeino s) name)]> F)) ∧
    freeino s' = freeino s + 1 ∧
    freeblock s' = freeblock s + (nblk (zlen d + 28) - nblk (zlen d)) + nblk (zlen content) ∧ block s' 0 = block s 0).
Proof.
  intros Hrep HF Ha Hi Hlen Hfree. pose proof (rp_dom _ _ Hrep 1 ltac:(by eexists)) as Hi1.
  unfold write_program. rewrite wp_bind. eapply wp_ok; [by apply (parsename_ok _ name content)|].
  destruct Ha as (dir & c & rest & -> & Hc & Hd & Hn & Hs & Hby & Hcl). cbn [snd].
  rewrite wp_bind. wp_apply ialloc_ok; [done|done|unfold F_FILE; lia|].
  intros i s1 (-> & Hrep1 & Hi1' & Hf1 & Hb1). rewrite wp_bind.
  wp_apply (add_entry_ok s1 (<[freeino s := (F_FILE, [])]> F) d (freeino s) (field name) name); try done; [by rewrite lookup_insert_ne by lia|by apply take_while_field|lia|].
  intros [] s2 (Hrep2 & Hi2 & Hf2 & Hb2). unfold write_content.
  rewrite insert_insert_ne in Hrep2 by lia.
  wp_apply (write_content_ok (freeino s)); [done|by rewrite lookup_insert_eq|done|change (zlen []) with 0; lia| |lia|].
  { change (zlen []) with 0. rewrite Z.add_0_l. change (nblk 0) with 0%nat. lia. }
  intros [] s3 (Hrep3 & Hi3 & Hf3 & Hb3). rewrite insert_insert_eq, app_nil_l in Hrep3.
  split; [done|]. split; [lia|]. change (zlen []) with 0 in Hf3. rewrite Z.add_0_l in Hf3. change (nblk 0) with 0%nat in Hf3.
  split; [lia|]. congruence.
Qed.

Lemma write_programs_ok args l : ∀ s F d,
  Forall2 (λ a p, arg_ok a p.1 p.2) args l → rep s F → F !! 1 = Some (F_DIR, d) →
  freeino s + zlen l ≤ 128 → zlen d + 28 * zlen l ≤ 71680 →
  freeblock s + (nblk (zlen d + 28 * zlen l) - nblk (zlen d)) + content_blocks l ≤ 1001 →
  wp (foldr (λ a k, do! write_program 1 a in k) done! args) s (λ _ s',
    rep s' (programs (freeino s) d l F) ∧ freeino s' = freeino s + zlen l ∧
    freeblock s' = freeblock s + (nblk (zlen d + 28 * zlen l) - nblk (zlen d)) + content_blocks l ∧
    block s' 0 = block s 0).
Proof.
  intros s F d Hall. revert s F d. induction Hall as [|a [name content] args l Ha _ IH]; intros s F d Hrep HF Hi Hlen Hfree.
  - cbn [foldr programs]. rewrite wp_ret, insert_id by done. change (zlen []) with 0 in *. rewrite !Z.mul_0_r, !Z.add_0_r in *.
    cbn. split; [done|]. split; [done|]. split; [lia|done].
  - cbn [foldr programs content_blocks fst snd] in *. assert (zlen ((name, content) :: l) = 1 + zlen l) as Hz by (unfold zlen; cbn; lia).
    fold (content_blocks l) in *. rewrite Hz in *.
    pose proof Ha as (_ & _ & _ & _ & _ & _ & Hn & _ & _ & Hcl). destruct (entry_ok (freeino s) name Hn) as [He _].
    assert (0 ≤ zlen l) as Hl0 by (unfold zlen; lia).
    assert (0 ≤ content_blocks l) as Hc0.
    { clear. induction l; cbn; [lia|]. fold (content_blocks l). lia. }
    pose proof (rp_dom _ _ Hrep 1 ltac:(by eexists)) as Hi1.
    pose proof (nblk_le (zlen d) (zlen d + 28) ltac:(lia)). pose proof (nblk_le (zlen d + 28) (zlen d + 28 * (1 + zlen l)) ltac:(lia)).
    rewrite wp_bind. wp_apply (write_program_ok s F d a name content); [done..|lia|lia|lia|].
    intros [] s1 (Hrep1 & Hi1' & Hf1 & Hb1).
    assert (zlen (d ++ entry (freeino s) name) = zlen d + 28) as Hd by (unfold zlen in *; rewrite length_app; lia).
    assert (zlen d + 28 * (1 + zlen l) = zlen d + 28 + 28 * zlen l) as Hs by lia. rewrite Hs in *.
    eapply wp_mono; [apply (IH s1 (<[freeino s:=(F_FILE, content)]> (<[1:=(F_DIR, d ++ entry (freeino s) name)]> F)) (d ++ entry (freeino s) name))|].
    + done.
    + rewrite lookup_insert_ne, lookup_insert_eq by lia. done.
    + lia.
    + lia.
    + rewrite Hd. lia.
    + cbn beta. intros [] s2 (Hrep2 & Hi2 & Hf2 & Hb2).
      rewrite Hi1', insert_insert_ne, programs_root in Hrep2 by lia. rewrite Hd in Hf2.
      split; [done|]. split; [lia|]. split; [lia|congruence].
Qed.

Lemma main_blank A (k : M Mk A) Q :
  wp (do! sbconfig in let! s := gets sb in do! clear_image (S (Z.to_nat (nblocks s))) 0 in do! wsb in k) start Q =
  wp k blank Q.
Proof.
  unfold wp. erewrite bind_ok by apply sbconfig_ok. unfold gets at 1. erewrite bind_ok by reflexivity.
  change (S (Z.to_nat (nblocks (sb (put_sb start))))) with (S 1000).
  erewrite bind_ok by (by apply clear_image_ok). reflexivity.
Qed.

(** The root directory before the programs *)
Definition root_dir : list Z := entry 1 [46] ++ entry 0 [46; 46].

(** The image that mkfs makes of the programs [l] *)
Record mkfs_ok (l : list (list Z * list Z)) (s : Mk) : Prop := mk_mkfs_ok {
  mo_files : rep s (programs 2 root_dir l ∅);
  mo_super : sb_decode (block s 0) = mkfs_super;
  mo_blocks : freeblock s = 21 + nblk (56 + 28 * zlen l) + content_blocks l;
  mo_map : map_marks (block s 20) (freeblock s);
  mo_used : ∀ i t c b, programs 2 root_dir l ∅ !! i = Some (t, c) → b ∈ table s (inode s i) → b ≠ 0 →
    bit_set (block s 20) (b - datastart mkfs_super) = true;
}.

Lemma content_blocks_nonneg l : 0 ≤ content_blocks l.
Proof. induction l; cbn; [lia|]. fold (content_blocks l). lia. Qed.

(** [main] up to [balloc] *)
Lemma main_files args l :
  Forall2 (λ a p, arg_ok a p.1 p.2) args l → zlen l ≤ 126 →
  21 + nblk (56 + 28 * zlen l) + content_blocks l ≤ 1001 →
  wp (ialloc F_DIR) blank (λ r s1, r = ROOTINO ∧ wp (add_entry r r [46; 0] 2) s1 (λ _ s2,
    wp (add_entry r 0 [46; 46; 0] 3) s2 (λ _ s3,
      wp (foldr (λ a k, do! write_program r a in k) done! args) s3 (λ _ s,
        rep s (programs 2 root_dir l ∅) ∧ block s 0 = block blank 0 ∧
        freeblock s = 21 + nblk (56 + 28 * zlen l) + content_blocks l)))).
Proof.
  intros Hall Hl Hfree. assert (0 ≤ zlen l) as Hl0 by (unfold zlen; lia).
  pose proof (nblk_le 56 (56 + 28 * zlen l) ltac:(lia)) as Hn56. change (nblk 56) with 1%nat in Hn56.
  pose proof (content_blocks_nonneg l) as Hc0.
  assert (name_ok [46] ∧ name_ok [46; 46]) as [Hd1 Hd2].
  { split; (split; [by repeat apply Forall_cons_2|cbn; lia]). }
  wp_apply ialloc_ok; [apply blank_rep|done|done|]. intros r s1 (-> & Hrep1 & Hi1 & Hf1 & Hb1).
  change (freeino blank) with 1 in *. change (freeblock blank) with 21 in *. split; [done|].
  wp_apply (add_entry_ok s1 (<[1 := (F_DIR, [])]> ∅) [] 1 [46; 0] [46]);
    [done|by rewrite lookup_insert_eq|done|lia|done|done|change (zlen []) with 0; change (nblk (0 + 28)) with 1%nat; lia|].
  intros [] s2 (Hrep2 & Hi2 & Hf2 & Hb2). rewrite insert_insert_eq, app_nil_l in Hrep2.
  change (nblk (zlen [] + 28)) with 1%nat in Hf2. change (nblk (zlen [])) with 0%nat in Hf2.
  wp_apply (add_entry_ok s2 (<[1 := (F_DIR, entry 1 [46])]> ∅) (entry 1 [46]) 0 [46; 46; 0] [46; 46]);
    [done|by rewrite lookup_insert_eq|done|lia|done|done|change (nblk (zlen (entry 1 [46]) + 28)) with 1%nat; lia|].
  intros [] s3 (Hrep3 & Hi3 & Hf3 & Hb3). rewrite insert_insert_eq in Hrep3. fold root_dir in Hrep3.
  change (nblk (zlen (entry 1 [46]) + 28)) with 1%nat in Hf3. change (nblk (zlen (entry 1 [46]))) with 1%nat in Hf3.
  change (zlen (entry 1 [46])) with 28 in *.
  eapply wp_mono; [apply (write_programs_ok args l s3 (<[1 := (F_DIR, root_dir)]> ∅) root_dir Hall Hrep3)|];
    rewrite ?lookup_insert_eq; change (zlen root_dir) with 56; change (nblk 56) with 1%nat; try lia; [done|].
  cbn beta. intros [] s (Hrep & Hi & Hf & Hb).
  rewrite programs_root in Hrep by lia. replace (freeino s3) with 2 in Hrep by lia.
  split; [done|]. split; [congruence|lia].
Qed.

Lemma mkfs_makes args l :
  Forall2 (λ a p, arg_ok a p.1 p.2) args l → zlen l ≤ 126 →
  21 + nblk (56 + 28 * zlen l) + content_blocks l ≤ 1001 →
  wp (main args) start (λ _ s, mkfs_ok l s).
Proof.
  intros Hall Hl Hfree. pose proof (main_files args l Hall Hl Hfree) as Hm.
  unfold main. rewrite main_blank, wp_bind. eapply wp_mono; [exact Hm|]. cbn beta. intros r s1 [-> Hm1].
  cbn [Z.eqb ROOTINO Pos.eqb negb]. rewrite wp_bind. eapply wp_mono; [exact Hm1|]. cbn beta. intros [] s2 Hm2.
  rewrite wp_bind. eapply wp_mono; [exact Hm2|]. cbn beta. intros [] s3 Hm3.
  rewrite wp_bind. eapply wp_mono; [exact Hm3|]. cbn beta. intros [] s4 (Hrep & Hb & Hf).
  rewrite wp_bind, wp_gets. wp_apply balloc_ok; [done|]. intros [] s (Hrep' & Hf' & Hi' & Hb' & Hmap).
  rewrite <- Hf' in Hmap. pose proof (io_free _ (rp_img _ _ Hrep')) as Hfr.
  split; [done|by rewrite Hb', Hb|lia|done|].
  intros i t c b HF Hin Hne. destruct (rp_file _ _ Hrep' _ _ _ HF) as [Hfile _].
  destruct (table_range _ _ _ _ Hfile Hin) as [|Hr]; [done|]. cbn [datastart mkfs_super].
  eapply map_marks_bit; [exact Hmap|lia|lia].
Qed.

(** *** The root directory *)

(** Its bytes, after the programs *)
Fixpoint dir_content (n : Z) (d : list Z) (l : list (list Z * list Z)) : list Z :=
  match l with
  | [] => d
  | (name, _) :: l => dir_content (n + 1) (d ++ entry n name) l
  end.

Lemma programs_dir n d l F : 1 < n → programs n d l F !! 1 = Some (F_DIR, dir_content n d l).
Proof.
  revert n d F. induction l as [|[name content] l IH]; intros n d F Hn; cbn [programs dir_content].
  - by rewrite lookup_insert_eq.
  - apply IH. lia.
Qed.

Lemma programs_other n d l F i : i < n → i ≠ 1 → programs n d l F !! i = F !! i.
Proof.
  revert n d F. induction l as [|[name content] l IH]; intros n d F Hn Hi; cbn [programs].
  - by rewrite lookup_insert_ne.
  - rewrite IH by lia. by rewrite lookup_insert_ne by lia.
Qed.

Lemma programs_file l : ∀ n d F (k : nat) name c, 1 < n → l !! k = Some (name, c) → programs n d l F !! (n + k) = Some (F_FILE, c).
Proof.
  induction l as [|[name0 c0] l IH]; intros n d F k name c Hn Hk; [done|]. cbn [programs]. destruct k as [|k].
  - injection Hk as -> ->. rewrite programs_other by lia. by rewrite Z.add_0_r, lookup_insert_eq.
  - replace (n + S k) with (n + 1 + k) by lia. by eapply IH; [lia|].
Qed.

Lemma dir_content_length l : ∀ n d, Forall (λ p, name_ok p.1) l → zlen (dir_content n d l) = zlen d + 28 * zlen l.
Proof.
  induction l as [|[name c] l IH]; intros n d Hl; cbn [dir_content]; [change (zlen []) with 0; lia|].
  apply Forall_cons_1 in Hl as [Hn Hl]. rewrite IH by done. destruct (entry_ok n name Hn) as [He _].
  unfold zlen in *. rewrite length_app. cbn [length]. lia.
Qed.

(** The entries of a directory with the content [c] *)
Definition entries_of (c : list Z) : list (Z * list Z) :=
  (λ k : nat, direntry_decode (slice (28 * k) 28 c)) <$> seq 0 (length c / 28).

Lemma slice_exact {A} (d e r : list A) k : (k = length d)%nat → slice k (length e) (d ++ e ++ r) = e.
Proof. intros ->. unfold slice. by rewrite drop_app_length, take_app_length. Qed.

Lemma entries_of_snoc d e : zlen d mod 28 = 0 → length e = 28%nat → entries_of (d ++ e) = entries_of d ++ [direntry_decode e].
Proof.
  intros Hd He. unfold entries_of, zlen in *. rewrite length_app, He.
  assert (length d = 28 * (length d / 28))%nat as Hq.
  { pose proof (Nat.div_mod (length d) 28 ltac:(lia)).
    assert (length d mod 28 = 0)%nat by (apply Nat2Z.inj; rewrite Nat2Z.inj_mod; exact Hd). lia. }
  replace ((length d + 28) / 28)%nat with (length d / 28 + 1)%nat.
  2:{ rewrite Hq at 2. replace (28 * (length d / 28) + 28)%nat with ((length d / 28 + 1) * 28)%nat by lia. by rewrite Nat.div_mul. }
  rewrite seq_app, fmap_app. cbn [seq]. rewrite Nat.add_0_l. f_equal.
  - apply list_fmap_ext. intros j k Hk. apply lookup_seq in Hk as [-> Hk]. by rewrite slice_app_l by lia.
  - change ((λ k : nat, direntry_decode (slice (28 * k) 28 (d ++ e))) <$> [length d / 28]%nat)
      with [direntry_decode (slice (28 * (length d / 28)) 28 (d ++ e))].
    pose proof (slice_exact d e [] (28 * (length d / 28)) ltac:(lia)) as Hs. rewrite app_nil_r, He in Hs. by rewrite Hs.
Qed.

Lemma direntry_decode_entry n name : 0 ≤ n < 4294967296 → name_ok name → direntry_decode (entry n name) = (n, field name).
Proof.
  intros Hn Hname. destruct (field_ok name Hname) as [Hl _]. unfold direntry_decode, entry, direntry_encode.
  pose proof (length_le_bytes 4 n) as Hb.
  rewrite slice_app_l, slice_all, le_num_bytes by lia. change (256 ^ Z.of_nat 4) with 4294967296. rewrite Z.mod_small by lia.
  rewrite slice_app_r by lia. rewrite Hb. by rewrite slice_all.
Qed.

Lemma entries_of_dir l : ∀ n d, Forall (λ p, name_ok p.1) l → 0 ≤ n → n + zlen l < 4294967296 → zlen d mod 28 = 0 →
  entries_of (dir_content n d l) = entries_of d ++ imap (λ (k : nat) p, (n + k, field p.1)) l.
Proof.
  induction l as [|[name c] l IH]; intros n d Hl Hn Hlen Hd; cbn [dir_content imap]; [by rewrite app_nil_r|].
  apply Forall_cons_1 in Hl as [Hname Hl]. destruct (entry_ok n name Hname) as [He _]. unfold zlen in *. cbn [length] in Hlen.
  rewrite IH; [|done|lia|lia|].
  2:{ rewrite length_app. rewrite Nat2Z.inj_add, He. Z.div_mod_to_equations. lia. }
  rewrite entries_of_snoc, direntry_decode_entry, <- app_assoc by (done || lia). f_equal. cbn [app fst]. f_equal; [by rewrite Z.add_0_r|].
  apply imap_ext. intros k p _. cbn. f_equal. lia.
Qed.

Lemma cname_field name : name_ok name → cname (field name) = name.
Proof.
  intros Hn. pose proof (take_while_field name Hn) as Ht. rewrite take_ge in Ht; [exact Ht|].
  destruct (field_ok name Hn) as [Hl _]. rewrite <- Hl. apply take_while_length.
Qed.

Lemma find_entry_skip name l1 l2 : ∀ k, (∀ num f, (num, f) ∈ l1 → num = 0 ∨ cname f ≠ name) →
  find_entry name k (l1 ++ l2) = find_entry name (k + length l1) l2.
Proof.
  induction l1 as [|[num f] l1 IH]; intros k Hl; cbn [app find_entry length]; [by rewrite Nat.add_0_r|].
  rewrite decide_False.
  - rewrite IH; [f_equal; lia|]. intros num' f' Hin. apply (Hl num'). by right.
  - intros [H1 H2]. destruct (Hl num f); [by left|done|done].
Qed.

(** A lookup in the root directory of the image *)
Lemma find_program l (n : nat) name content :
  Forall (λ p, name_ok p.1) l → NoDup l.*1 → zlen l ≤ 126 → l !! n = Some (name, content) → name ≠ [46] →
  find_entry name 0 (entries_of (dir_content 2 root_dir l)) = Some ((2 + n)%nat, 2 + n).
Proof.
  intros Hl Hnd Hlen Hn Hdot. rewrite entries_of_dir by (done || lia).
  rewrite find_entry_skip.
  2:{ change (entries_of root_dir) with [(1, field [46]); (0, field [46; 46])]. intros num f Hin.
      rewrite !elem_of_cons in Hin. destruct Hin as [[= -> ->]|[[= -> ->]|Hin%not_elem_of_nil]]; [right|by left|done].
      change (cname (field [46])) with [46]. congruence. }
  rewrite <- (take_drop_middle l n _ Hn), imap_app. pose proof (lookup_lt_Some _ _ _ Hn) as Hlt.
  rewrite find_entry_skip.
  - assert (length (take n l) = n) as Ht by (rewrite length_take; lia). rewrite length_imap, Ht. cbn [imap find_entry fst].
    rewrite decide_True.
    + change (length (entries_of root_dir)) with 2%nat. repeat f_equal; lia.
    + split; [lia|]. apply cname_field. rewrite Forall_lookup in Hl. by apply (Hl _ _ Hn).
  - intros num f Hin. right. apply list_elem_of_lookup in Hin as [m Hm]. rewrite list_lookup_imap in Hm.
    destruct (take n l !! m) as [p|] eqn:Hp; [|done]. cbn in Hm. injection Hm as <- <-.
    assert (m < n)%nat as Hmn by (apply lookup_lt_Some in Hp; rewrite length_take in Hp; lia).
    rewrite lookup_take_lt in Hp by done. rewrite cname_field by (rewrite Forall_lookup in Hl; by apply (Hl _ _ Hp)).
    intros Heq. assert (m = n) as ->; [|lia].
    apply (NoDup_lookup l.*1 m n name Hnd); rewrite list_lookup_fmap; [rewrite Hp|rewrite Hn]; cbn; congruence.
Qed.

(** *** The kernel on the image *)

Lemma programs_types n d l F i t c :
  (∀ j t' c', F !! j = Some (t', c') → t' = F_FILE ∨ t' = F_DIR) →
  programs n d l F !! i = Some (t, c) → t = F_FILE ∨ t = F_DIR.
Proof.
  revert n d F. induction l as [|[name content] l IH]; intros n d F HF; cbn [programs].
  - destruct (decide (i = 1)) as [->|Hne]; [rewrite lookup_insert_eq; intros [= <- _]; by right|].
    rewrite lookup_insert_ne by done. apply HF.
  - apply IH. intros j t' c'. destruct (decide (j = n)) as [->|Hne]; [rewrite lookup_insert_eq; intros [= <- _]; by left|].
    rewrite lookup_insert_ne by done. apply HF.
Qed.

Section kernel.
Context {T : Type} {BS : BlockStore T}.

(** The disk of the kernel state [k] holds the image [s]. *)
Definition on_disk (s : Mk) (k : BlkState T) : Prop :=
  blk_idle k ∧ super_block k = mkfs_super ∧ ∀ b, 0 ≤ b ≤ 1000 → bs_blocks (store k) b = block s b.

Lemma image_file_ok s F (st : IState T) i t c :
  rep s F → F !! i = Some (t, c) → t = F_FILE ∨ t = F_DIR → zlen c ≤ 6144 → on_disk s (blk st) →
  disk_dinode st i = inode s i ∧ file_ok st (inode s i) (zlen c) ∧
  take (length c) (file_bytes st (inode s i)) = c.
Proof.
  intros Hrep HF Ht Hc (Hid & Hsb & Hblk). destruct (rp_file _ _ Hrep _ _ _ HF) as (Hf & Hsz & Hty).
  pose proof (fr_tab _ _ _ Hf) as Htab. pose proof (io_free _ (rp_img _ _ Hrep)) as Hfr.
  pose proof (rp_dom _ _ Hrep i ltac:(by eexists)) as Hi. pose proof (rp_ino _ _ Hrep) as Hino.
  destruct (inode_block_range i ltac:(lia)) as [_ Hib].
  assert (∀ n b, addrs (inode s i) !! n = Some b → table s (inode s i) !! n = Some b) as Hta.
  { intros n b Hn. unfold table. by apply lookup_app_l_Some. }
  split; [|split].
  - unfold disk_dinode, inode, blocks, sblock. rewrite Hsb. by rewrite Hblk by lia.
  - split; [apply Htab|by rewrite Hty|unfold zlen in *; lia| |].
    + intros n Hn. destruct (table_addr _ _ _ n Htab ltac:(lia)) as (b & Hb & Htb). exists b. split; [done|].
      pose proof (pos_mapped (512 * n) (zlen c) ltac:(lia)) as Hp.
      rewrite (Nat.mul_comm 512), Nat.div_mul in Hp by lia.
      assert (pos n = n) as Hpn by (unfold pos; by rewrite (proj2 (Nat.ltb_lt _ _)) by lia). rewrite Hpn in Hp.
      pose proof (tk_entry _ _ _ Htab _ _ Htb) as He. rewrite decide_True in He by done.
      unfold sblock. rewrite Hsb. split; [split; cbn; lia|]. intros m Hm Hmb.
      apply (tk_inj _ _ _ Htab m n b); [|done|by apply Hta|done].
      pose proof (tk_entry _ _ _ Htab _ _ (Hta _ _ Hmb)) as He'. case_decide; [done|lia].
    + intros m b Hb. pose proof (tk_entry _ _ _ Htab _ _ (Hta _ _ Hb)) as He.
      unfold sblock. rewrite Hsb. case_decide; [right; split; cbn; lia|by left].
  - apply list_eq. intros j. destruct (decide (j < length c)%nat) as [Hj|Hj].
    2:{ rewrite lookup_take_ge, lookup_ge_None_2 by lia. done. }
    rewrite lookup_take_lt by done. destruct (lookup_lt_is_Some_2 c j Hj) as [b Hb].
    destruct (fr_holds _ _ _ Hf j b Hb) as (k & Hk & Hkb). unfold zlen in Hc.
    assert (j / 512 < 12)%nat as Hj12 by (apply Nat.Div0.div_lt_upper_bound; lia).
    unfold pos in Hk. rewrite (proj2 (Nat.ltb_lt _ _)) in Hk by done.
    destruct (table_addr _ _ _ (j / 512) Htab ltac:(lia)) as (k' & Hk' & Htk). rewrite Hk in Htk. injection Htk as <-.
    pose proof (tk_entry _ _ _ Htab _ _ Hk) as He.
    rewrite decide_True in He.
    2:{ pose proof (pos_mapped j (zlen c) ltac:(unfold zlen; lia)) as Hp. unfold pos in Hp.
        rewrite (proj2 (Nat.ltb_lt _ _)) in Hp by done. done. }
    pose proof (Nat.div_mod j 512 ltac:(lia)) as Hdm. rewrite Hdm at 1. unfold file_bytes.
    rewrite (lookup_mjoin_512 _ _ (blocks st k)); [|apply file_blocks_512|by apply file_block_lookup|apply Nat.mod_upper_bound; lia].
    unfold blocks. rewrite Hblk by lia. by rewrite Hkb, Hb.
Qed.

Lemma image_dir_ok s F (st : IState T) i c :
  rep s F → F !! i = Some (F_DIR, c) → zlen c ≤ 6144 → zlen c mod 28 = 0 → on_disk s (blk st) →
  dir_ok st (inode s i) ∧ dir_entries st (inode s i) = entries_of c.
Proof.
  intros Hrep HF Hc Hm Hdisk. destruct (rp_file _ _ Hrep _ _ _ HF) as (_ & Hsz & Hty).
  destruct (image_file_ok s F st i F_DIR c Hrep HF ltac:(by right) Hc Hdisk) as (_ & Hfo & Htake).
  split; [split; [done|by rewrite Hsz|by rewrite Hsz]|].
  unfold dir_entries, entries_of. rewrite Hsz.
  assert (Z.to_nat (zlen c / 28) = (length c / 28)%nat) as ->.
  { unfold zlen. rewrite Z2Nat.inj_div, Nat2Z.id by lia. done. }
  apply list_fmap_ext. intros j k Hk. apply lookup_seq in Hk as [-> Hk]. rewrite Nat.add_0_l.
  assert (slice (28 * j) 28 (file_bytes st (inode s i)) = slice (28 * j) 28 c) as ->; [|reflexivity].
  rewrite <- (take_drop (length c) (file_bytes st (inode s i))), Htake. apply slice_app_l.
  pose proof (Nat.div_mod (length c) 28 ltac:(lia)). unfold zlen in *. lia.
Qed.
(** The root directory of the image [s] is loaded in the slot [r]. *)
Record root_loaded (s : Mk) (st : IState T) (r : Z) (rx : Inode) : Prop := mk_root_loaded {
  rl_slot : getc_slot (icache st) ROOTDEV ROOTINO r rx;
  rl_ref : 0 < inref rx < 2147483647;
  rl_read : Inode.iread rx = true;
  rl_din : din rx = inode s ROOTINO;
}.

(** What the kernel needs to open the program [n] of the image *)
Lemma image_find s l (n : nat) name content (st : DState T) r rx j y :
  mkfs_ok l s → Forall (λ p, name_ok p.1) l → NoDup l.*1 → zlen l ≤ 126 →
  l !! n = Some (name, content) → name ≠ [46] → zlen content ≤ 6144 → on_disk s (blk (ino st)) → root_loaded s (ino st) r rx →
  getc_slot (icache (ino st)) ROOTDEV (2 + n) j y → inref y = 0 → ¬ (idev y = ROOTDEV ∧ inum y = 2 + n) →
  root_at (ino st) r rx ∧
  find_entry name 0 (dir_entries (ino st) (din rx)) = Some ((2 + n)%nat, 2 + n) ∧
  not_open (ino st) (2 + n) j y ∧
  (∀ s', on_disk s (blk s') → disk_dinode s' (2 + n) = inode s (2 + n) ∧ isize (inode s (2 + n)) = zlen content ∧
    file_ok s' (inode s (2 + n)) (zlen content) ∧ take (length content) (file_bytes s' (inode s (2 + n))) = content).
Proof.
  intros [Hrep _ _ _ _] Hnames Hnd Hlen Hn Hdot Hc Hdisk [Hrs Href Hrd Hrdin] Hslot Hy0 Hyn.
  set (F := programs 2 root_dir l ∅) in *. assert (0 ≤ zlen l) by (unfold zlen; lia).
  assert (F !! 1 = Some (F_DIR, dir_content 2 root_dir l)) as HFd by (apply programs_dir; lia).
  assert (F !! (2 + n) = Some (F_FILE, content)) as HFf by (eapply programs_file; [lia|exact Hn]).
  assert (zlen (dir_content 2 root_dir l) = 56 + 28 * zlen l) as Hdl by (rewrite dir_content_length by done; done).
  destruct (image_dir_ok s F (ino st) 1 _ Hrep HFd) as [Hdok Hent]; [lia|rewrite Hdl; Z.div_mod_to_equations; lia|done|].
  assert (∀ s', on_disk s (blk s') → disk_dinode s' (2 + n) = inode s (2 + n) ∧ isize (inode s (2 + n)) = zlen content ∧
    file_ok s' (inode s (2 + n)) (zlen content) ∧ take (length content) (file_bytes s' (inode s (2 + n))) = content) as Hfile.
  { intros s' Hd'. destruct (image_file_ok s F s' (2 + n) F_FILE content Hrep HFf ltac:(by left) Hc Hd') as (H1 & H2 & H3).
    destruct (rp_file _ _ Hrep _ _ _ HFf) as (_ & Hsize & _). done. }
  destruct (Hfile (ino st) Hdisk) as (Hd & _). destruct (rp_file _ _ Hrep _ _ _ HFf) as (_ & _ & Hty).
  pose proof (rp_dom _ _ Hrep (2 + n) ltac:(by eexists)) as Hi. pose proof (rp_ino _ _ Hrep) as Hino.
  destruct Hdisk as (Hid & Hsb & Hblk).
  split; [|split; [|split]]; [| | |exact Hfile].
  - split; [done|done|done|by rewrite Hrdin|done].
  - rewrite Hrdin. change ROOTINO with 1. rewrite Hent. by eapply find_program.
  - split; [done|done| |by rewrite Hd, Hty; right; right].
    unfold sblock. rewrite Hsb. split; [lia|]. split; [done|]. change inode_per_block with 7.
    cbn [inodestart bmapstart mkfs_super]. Z.div_mod_to_equations. lia.
Qed.

(** After the file has been opened, the disk is as before. *)
Lemma opened_disk s (s0 s' : IState T) ic num j : on_disk s (blk s0) → opened (mkIState (blk s0) ic (cur_pid s0)) s' num j →
  on_disk s (blk s') ∧ ∃ z, icache s' !! j = Some z ∧ Inode.iread z = true ∧ din z = disk_dinode s' num.
Proof.
  intros (Hid & Hsb & Hblk) (Hid' & Hsb' & Hbl' & (z & Hz & _ & _ & Hzr & _ & Hzd) & _).
  unfold sblock in Hsb'. cbn [blk] in Hsb'. split.
  - split; [done|]. split; [congruence|]. intros b Hb. etrans; [apply (Hbl' b)|]. by apply Hblk.
  - exists z. split; [done|]. split; [done|]. rewrite Hzd. unfold disk_dinode, sblock. cbn [blk]. rewrite Hsb'.
    by rewrite Hbl'.
Qed.
End kernel.

(** ** Properties *)

(** C13: mkfs makes the image it is asked for: for arguments as the Makefile
    gives them that fit (at most 126 programs, 1000 blocks), [main] returns, the
    superblock is that of [sbconfig], the inodes are the root directory with
    an entry for every program and the programs with their contents, no two
    files share a block, the blocks of a file are as many as its size asks for
    (indirect addresses included), and in the map of free blocks as the kernel
    reads it every block of a file is marked. *)
Theorem mkfs_image args l :
  Forall2 (λ a p, arg_ok a p.1 p.2) args l → zlen l ≤ 126 →
  21 + nblk (56 + 28 * zlen l) + content_blocks l ≤ 1001 →
  wp (main args) start (λ _ s, mkfs_ok l s).
Proof. apply mkfs_makes. Qed.

(** Mkfs and the kernel agree on the format: on a disk with the image of
    mkfs, [dir_abspath] of [/name], for a program [name], gives an inode, and
    [inode_read] of it gives the bytes of the program that mkfs was given, as
    far as the direct blocks go: the directory, the inodes and the blocks of
    the image are those the kernel looks for. *)
Theorem mkfs_kernel_opens {T} {BS : BlockStore T} dr frame slash s l (n : nat) name content (st : DState T) path r rx j y off sz :
  mkfs_ok l s → Forall (λ p, name_ok p.1) l → NoDup l.*1 → zlen l ≤ 126 →
  l !! n = Some (name, content) → name ≠ [46] → zlen content ≤ 6144 →
  on_disk s (blk (ino st)) → path_at slash (txt st) path name [] [] → root_loaded s (ino st) r rx →
  getc_slot (icache (ino st)) ROOTDEV (2 + n) j y → inref y = 0 → ¬ (idev y = ROOTDEV ∧ inum y = 2 + n) →
  0 ≤ off ≤ zlen content → 0 ≤ sz → off + sz < 4294967296 →
  wp (let! i := dir_abspath dr frame slash path false in with_ino (inode_read dr i off sz)) st (λ '(c, out) _,
    c = Z.min sz (zlen content - off) ∧ out = slice (Z.to_nat off) (Z.to_nat c) content).
Proof.
  intros Hmk Hnames Hnd Hlen Hn Hdot Hc Hdisk Hpath Hroot Hslot Hy0 Hyn Hoff Hsz Hov.
  destruct (image_find s l n name content st r rx j y) as (Hr & Hfind & Hopen & Hfile); try done.
  assert (take 24 name = name) as Htk.
  { apply take_ge. rewrite Forall_lookup in Hnames. by destruct (Hnames _ _ Hn). }
  rewrite wp_bind. eapply wp_mono; [eapply (dir_abspath_ok dr frame slash st path name [] [] r rx)|]; [done|apply not_elem_of_nil|done|by rewrite Htk|done|].
  cbn beta. intros i st1 (-> & _ & Ho). eapply opened_disk in Ho as (Hdisk1 & z & Hz & Hzr & Hzd); [|exact Hdisk].
  destruct (Hfile (ino st1) Hdisk1) as (Hd & Hsize & Hfo & Htake). rewrite Hd in Hzd.
  apply wp_with_ino. wp_apply (inode_read_ok dr j z (ino st1) off sz); rewrite ?Hzd, ?Hsize; try done; [by apply Hdisk1| |].
  { apply (file_ok_le _ _ _ _ Hfo). lia. }
  intros [c out] s2 (-> & -> & _). split; [done|].
  rewrite <- (take_drop (length content) (file_bytes (ino st1) _)), Htake. apply slice_app_l. unfold zlen in *. lia.
Qed.

(** The kernel's first allocation on an image of mkfs hands out the ninth
    data block, which the map marks as used: the first byte of the map is full,
    and the search stops there. *)
Theorem mkfs_kernel_alloc {T} {BS : BlockStore T} s l (k : BlkState T) dv :
  mkfs_ok l s → on_disk s k → wp (block_alloc dv) k (λ b _, b = 29 ∧ used k b = true).
Proof.
  intros [Hrep _ Hfb Hmap _] (Hid & Hsb & Hblk).
  assert (22 ≤ freeblock s) as Hf.
  { pose proof (nblk_next (55 + 28 * zlen l) ltac:(unfold zlen; lia)) as Hn. pose proof (content_blocks_nonneg l).
    replace (55 + 28 * zlen l + 1) with (56 + 28 * zlen l) in Hn by lia. lia. }
  pose proof (io_free _ (rp_img _ _ Hrep)) as Hfr.
  wp_apply block_alloc_ok; [done|rewrite Hsb; cbn; lia|]. intros b k' (-> & _).
  pose proof (map_marks_search _ _ Hmap ltac:(lia)) as Hs.
  assert (first_candidate k = 29) as ->.
  { unfold first_candidate. rewrite Hsb. cbn [datastart bmapstart mkfs_super]. rewrite Hblk by lia.
    destruct Hmap as (Hl & Hb & _). destruct (block s 20) as [|c buf] eqn:Hbuf; [done|].
    rewrite search_bytes_first in Hs by (by apply Forall_cons_1 in Hb as [? _]). 
    assert (leading_ones 8 c = 8) as Hc by congruence.
    cbn [head]. change (default 0 (Some c)) with c. by rewrite Hc. }
  split; [done|]. unfold used. rewrite Hsb. unfold map_block, map_bit. cbn [datastart bmapstart mkfs_super].
  change ((29 - 21) / BITS_PER_BLK + 20) with 20. change ((29 - 21) mod BITS_PER_BLK) with 8.
  rewrite Hblk by lia. eapply map_marks_bit; [exact Hmap|done|lia].
Qed.

(** ** Witnesses *)

(** An ELF file: the header, one program header for 4 bytes of the file and 6
    zeros behind them at address 0, and the bytes *)
Definition demo_elf : list Z :=
  [127; 69; 76; 70] ++ replicate 12 0 ++ le_bytes 2 2 ++ le_bytes 2 3 ++ mjoin (le_bytes 4 <$> [1; 0; 52; 0; 0]) ++
  mjoin (le_bytes 2 <$> [52; 32; 1; 40; 0; 0]) ++ mjoin (le_bytes 4 <$> [1; 84; 0; 0; 4; 10; 5; 4096]) ++ [235; 254; 144; 195].

(** [user/init_], of two blocks, [user/a_] and [user/e_], in the memory of the
    arguments *)
Definition demo_programs : list (list Z * list Z) :=
  [([105; 110; 105; 116], (λ i : nat, i mod 251) <$> seq 0 600); ([97], [1; 2; 3]); ([101], demo_elf)].

Definition demo_args : list (list Z * option (list Z)) :=
  (λ p, ([117; 115; 101; 114] ++ 47 :: (p.1 ++ [95; 0; 72]) ++ [0], Some p.2)) <$> demo_programs.

Lemma demo_args_ok : Forall2 (λ a p, arg_ok a p.1 p.2) demo_args demo_programs.
Proof.
  repeat apply Forall2_cons_2; [..|apply Forall2_nil_2]; exists [117; 115; 101; 114], 72, [0];
    (split; [reflexivity|]); (split; [done|]); (split; [by repeat apply Forall_cons_2|]);
    (split; [split; [|cbn; lia]; by repeat apply Forall_cons_2|]); (split; [by repeat apply Forall_cons_2|]).
  - split; [|vm_compute; done]. apply Forall_fmap, Forall_true. intros i. unfold is_byte. cbn.
    pose proof (Z.mod_pos_bound i 251 ltac:(lia)). lia.
  - split; [by repeat apply Forall_cons_2|done].
  - split; [apply (bool_decide_unpack _); vm_compute; exact I|vm_compute; done].
Qed.

Lemma demo_names : Forall (λ p, name_ok p.1) demo_programs.
Proof. repeat apply Forall_cons_2; [..|done]; (split; [by repeat apply Forall_cons_2|cbn; lia]). Qed.

Lemma demo_nodup : NoDup demo_programs.*1.
Proof. apply (bool_decide_unpack _). vm_compute. exact I. Qed.

(** The image when the program has ended *)
Definition final (m : M Mk unit) (s : Mk) : Mk := match m s with Ok _ s' => s' | _ => s end.

Lemma wp_final m s (P : Mk → Prop) : wp m s (λ _ s', P s') → P (final m s).
Proof. unfold wp, final. by destruct (m s). Qed.

Definition demo_image : Mk := final (main demo_args) start.

Lemma demo_image_ok : mkfs_ok demo_programs demo_image.
Proof.
  apply (wp_final (main demo_args) start (mkfs_ok demo_programs)), mkfs_makes; [exact demo_args_ok|done|vm_compute; done].
Qed.

(** The image on a drive *)
Definition demo_drive : SimDrive :=
  mkSimDrive (0, 0, 0, 0, 0) (list_to_map (imap (λ (k : nat) b, ((1, Z.of_nat k), b)) (img demo_image))) Idle false 0.

Definition demo_kernel : BlkState (BState SimDrive) :=
  mkBlkState (mkBState (nodes idle_state) 5 NULL demo_drive) mkfs_super.

Lemma kernel_idle (d : SimDrive) sb0 :
  sim_phase d = Idle → sim_irq d = false → sim_busy d = 0%nat → layout_ok sb0 →
  blk_idle (BS := bcache_store (patience := 3)) (mkBlkState (mkBState (nodes idle_state) 5 NULL d) sb0).
Proof.
  intros Hp Hi Hb Hl. destruct d as [[[[[r0 r1] r2] r3] r4] m ph i bz]. cbn in Hp, Hi, Hb. subst.
  split; [|done]. split; [split; cbn; [done|lia|done|done]|by eexists|done].
Qed.

(** The blocks of a disk are those of an image. *)
Definition same_blocks (s : Mk) (k : BState SimDrive) : bool :=
  forallb (λ b, bool_decide (bs_blocks (BlockStore := bcache_store (patience := 3)) k b = block s b)) (seqZ 0 1001).

Lemma same_blocks_ok s k b : same_blocks s k = true → 0 ≤ b ≤ 1000 →
  bs_blocks (BlockStore := bcache_store (patience := 3)) k b = block s b.
Proof.
  intros Hall Hb. unfold same_blocks in Hall. rewrite forallb_forall in Hall.
  assert (b ∈ seqZ 0 1001) as Hin%list_elem_of_In by (apply elem_of_seqZ; lia).
  exact (bool_decide_eq_true_1 _ (Hall b Hin)).
Qed.

Lemma demo_kernel_idle : blk_idle (BS := bcache_store (patience := 3)) demo_kernel.
Proof.
  apply kernel_idle; [done..|]. split; cbn; unfold BITS_PER_BLK, BSIZE, SECSZ; lia.
Qed.

Lemma demo_same_blocks : same_blocks demo_image (store demo_kernel) = true.
Proof. vm_compute. reflexivity. Qed.

Lemma demo_on_disk : on_disk (BS := bcache_store (patience := 3)) demo_image demo_kernel.
Proof.
  split; [exact demo_kernel_idle|split; [reflexivity|]].
  intros b. exact (same_blocks_ok demo_image (store demo_kernel) b demo_same_blocks).
Qed.

Lemma mkfs_image_witness : mkfs_ok demo_programs demo_image ∧ freeino demo_image = 5 ∧ freeblock demo_image = 26.
Proof.
  split; [|split; vm_compute; reflexivity].
  apply (wp_final (main demo_args) start (mkfs_ok demo_programs)), (mkfs_image demo_args demo_programs); [exact demo_args_ok|done|vm_compute; done].
Defined.

(** The kernel with the root directory in memory, [/] at 8 and [/a] at 16 *)
Definition demo_root : Inode := mkInode ROOTDEV ROOTINO 1 (mkMutex false 0) true (inode demo_image ROOTINO).

Definition demo_slot : Inode := mkInode 0 0 0 (mkMutex false 0) false (empty_node 0).

Definition demo_state : DState (BState SimDrive) :=
  mkDState (mkIState demo_kernel {[ 0 := demo_root; 1 := demo_slot ]} 1) (write 8 [47; 0] (write 16 [47; 97; 0] ∅)).

Lemma demo_path : path_at 8 (txt demo_state) 16 [97] [] [].
Proof.
  assert (∀ p k, (p, k) ∈ [(8, [47]); (16, [47; 97])] → cstr (txt demo_state) p k) as Hs.
  { intros p k. rewrite !elem_of_cons. intros [[= -> ->]|[[= -> ->]|Hin%not_elem_of_nil]]; [..|done];
      (split; [|by repeat apply Forall_cons_2]); intros i b Hi;
      do 3 (destruct i as [|i]; [first [discriminate Hi|injection Hi as <-; vm_compute; reflexivity]|]); done. }
  split; [done|by apply Hs; left|by apply Hs; right; left| |by left|cbn; lia].
  split; [done|]. by intros [?|?%not_elem_of_nil]%elem_of_cons.
Qed.

Lemma demo_root_loaded : root_loaded demo_image (ino demo_state) 0 demo_root.
Proof.
  split; [|split; reflexivity|reflexivity|reflexivity].
  split; [unfold NINODES; lia|reflexivity|right; split_and!; reflexivity|intros; lia].
Qed.

Lemma demo_free_slot : getc_slot (icache (ino demo_state)) ROOTDEV 3 1 demo_slot.
Proof.
  split; [unfold NINODES; lia|reflexivity|left; reflexivity|]. intros i Hi. assert (i = 0) as -> by lia. exists demo_root.
  split; [reflexivity|]. split; [discriminate|]. intros (_ & _ & H). discriminate H.
Qed.

Lemma mkfs_kernel_opens_witness :
  wp (let! i := dir_abspath (BS := bcache_store (patience := 3)) (λ _, None) [] 8 16 false in
      with_ino (inode_read (BS := bcache_store (patience := 3)) (λ _, None) i 1 4)) demo_state
    (λ '(c, out) _, c = 2 ∧ out = [2; 3]).
Proof.
  eapply wp_mono.
  - apply (mkfs_kernel_opens (BS := bcache_store (patience := 3)) (λ _, None) [] 8 demo_image demo_programs 1 [97] [1; 2; 3]
      demo_state 16 0 demo_root 1 demo_slot 1 4);
      [exact demo_image_ok|exact demo_names|exact demo_nodup|discriminate|reflexivity|discriminate|discriminate
      |exact demo_on_disk|exact demo_path|exact demo_root_loaded|exact demo_free_slot|reflexivity|intros [H _]; discriminate H
      |split; discriminate|discriminate|reflexivity].
  - intros [c out] s' (-> & ->). split; reflexivity.
Defined.

Lemma mkfs_kernel_alloc_witness :
  wp (block_alloc (BS := bcache_store (patience := 3)) 1) demo_kernel (λ b _, b = 29).
Proof.
  eapply wp_mono; [apply (mkfs_kernel_alloc (BS := bcache_store (patience := 3)) demo_image demo_programs demo_kernel 1);
    [exact demo_image_ok|exact demo_on_disk]|]. by intros b s' [-> _].
Defined.
