(* ===== verification/Locks.v ===== *)
(** * kernel/trap/ncli.c, kernel/process/spinlock.c: interrupts and spinlocks

    One CPU. A lock is known by its address; [lcpu] tells whether [lk->cpu] is
    the CPU or the null pointer. *)
From S2P Require Import Prelude.

Record SpinLock := mkLock {
  locked : bool;
  lcpu : bool;
}.

Definition new_lock : SpinLock := mkLock false false.

(** The interrupt flag of [eflags], [cpu.ncli], [cpu.int_on], and the locks *)
Record LState := mkLState {
  iflag : bool;
  ncli : Z;
  int_on : bool;
  locks : gmap Z SpinLock;
}.

Definition set_iflag (b : bool) : M LState unit :=
  modify (λ s, mkLState b (ncli s) (int_on s) (locks s)).
Definition cli : M LState unit := set_iflag false.
Definition sti : M LState unit := set_iflag true.
Definition set_ncli (n : Z) : M LState unit :=
  modify (λ s, mkLState (iflag s) n (int_on s) (locks s)).
Definition set_int_on (b : bool) : M LState unit :=
  modify (λ s, mkLState (iflag s) (ncli s) b (locks s)).

Definition get_lock (l : Z) : M LState SpinLock := λ s, need (locks s !! l) s.
Definition set_lock (l : Z) (x : SpinLock) : M LState unit :=
  modify (λ s, mkLState (iflag s) (ncli s) (int_on s) (<[l := x]> (locks s))).

(** kernel/process.c: the pointer to the CPU is not modelled, its check is. *)
Definition this_cpu : M LState unit :=
  let! b := gets iflag in
  if b : bool then panic "interrupt is enabled on `this_cpu` call" else done!.

Definition push_cli : M LState unit :=
  let! eflags := gets iflag in
  do! cli in
  do! this_cpu in
  let! n := gets ncli in
  do! (if n =? 0 then do! this_cpu in set_int_on eflags else done!) in
  do! this_cpu in
  set_ncli (s32 (n + 1)).

Definition pop_cli : M LState unit :=
  do! this_cpu in
  let! n := gets ncli in
  let n := s32 (n - 1) in
  do! set_ncli n in
  if n <? 0 then panic "pop_cli" else
  do! this_cpu in
  let! on := gets int_on in
  if (n =? 0) && on then sti else done!.

Definition holding (l : Z) : M LState bool :=
  do! push_cli in
  let! lk := get_lock l in
  let b := locked lk && lcpu lk in
  do! pop_cli in
  ret b.

(** [xchg(&lk->locked, v)] *)
Definition xchg (l : Z) (v : bool) : M LState bool :=
  let! lk := get_lock l in
  do! set_lock l (mkLock v (lcpu lk)) in
  ret (locked lk).

(** With one CPU and interrupts disabled, a lock that is taken stays taken
    while [lock] spins. *)
Definition lock (l : Z) : M LState unit :=
  do! push_cli in
  let! h := holding l in
  if h : bool then panic "lock" else
  let! taken := xchg l true in
  if taken : bool then hang else
  do! this_cpu in
  let! lk := get_lock l in
  set_lock l (mkLock (locked lk) true).

Definition unlock (l : Z) : M LState unit :=
  let! h := holding l in
  if negb h then panic "unlock" else
  let! lk := get_lock l in
  do! set_lock l (mkLock (locked lk) false) in
  do! xchg l false in
  pop_cli.

Definition lock_all (ls : list Z) : M LState unit := foldr (λ l k, do! lock l in k) done! ls.
Definition unlock_all (ls : list Z) : M LState unit := foldr (λ l k, do! unlock l in k) done! ls.

(** ** Specifications *)

(** Interrupts are off while [ncli] is positive. *)
Record cli_ok (s : LState) : Prop := mk_cli_ok {
  co_ncli : 0 ≤ ncli s < 2147483000;
  co_off : 0 < ncli s → iflag s = false;
}.

(** The lock [l] is taken, by this CPU *)
Definition taken : SpinLock := mkLock true true.

Definition held (s : LState) (l : Z) : Prop := locks s !! l = Some taken.
Definition avail (s : LState) (l : Z) : Prop := locks s !! l = Some new_lock.

(** What [push_cli] keeps to restore it later *)
Definition restore_flag (s : LState) : bool := if ncli s =? 0 then iflag s else int_on s.

Definition pushed (s : LState) : LState :=
  mkLState false (ncli s + 1) (restore_flag s) (locks s).

Definition popped (s : LState) : LState :=
  mkLState ((ncli s =? 1) && int_on s) (ncli s - 1) (int_on s) (locks s).

Definition with_lock (l : Z) (x : SpinLock) (s : LState) : LState :=
  mkLState (iflag s) (ncli s) (int_on s) (<[l := x]> (locks s)).

(** ** Lemmas *)

Lemma push_cli_ok s : cli_ok s → push_cli s = Ok tt (pushed s).
Proof.
  intros [Hn _]. destruct s as [f n o l]. cbn in Hn.
  unfold push_cli, pushed, restore_flag, bind, gets, cli, set_iflag, modify, this_cpu, set_int_on, set_ncli.
  cbn. rewrite s32_small by lia. by destruct (n =? 0).
Qed.

Lemma pop_cli_ok s : iflag s = false → 0 < ncli s < 2147483648 → pop_cli s = Ok tt (popped s).
Proof.
  intros Hf Hn. destruct s as [f n o l]. cbn in *. subst f.
  unfold pop_cli, popped, bind, gets, this_cpu, set_ncli, modify. cbn.
  rewrite s32_small by lia. rewrite (proj2 (Z.ltb_ge _ _)) by lia. cbn.
  replace (n - 1 =? 0) with (n =? 1) by (destruct (Z.eqb_spec n 1), (Z.eqb_spec (n - 1) 0); lia).
  by destruct (n =? 1), o.
Qed.

Lemma pop_cli_panic s : iflag s = false → ncli s = 0 → pop_cli s = Panic "pop_cli".
Proof. intros Hf Hn. destruct s as [f n o l]. cbn in *. by subst. Qed.

Lemma popped_pushed s :
  cli_ok s → popped (pushed s) = mkLState (iflag s) (ncli s) (restore_flag s) (locks s).
Proof.
  intros [Hn Hoff]. destruct s as [f n o l]. unfold popped, pushed, restore_flag. cbn in *.
  replace (n + 1 - 1) with n by lia.
  destruct (Z.eqb_spec n 0) as [->|]; [done|].
  rewrite (proj2 (Z.eqb_neq (n + 1) 1)) by lia. cbn. by rewrite Hoff by lia.
Qed.

Lemma holding_ok s l x :
  cli_ok s → locks s !! l = Some x →
  holding l s = Ok (locked x && lcpu x) (mkLState (iflag s) (ncli s) (restore_flag s) (locks s)).
Proof.
  intros Hok Hl. unfold holding. rewrite (bind_ok _ _ _ _ _ (push_cli_ok _ Hok)).
  assert (get_lock l (pushed s) = Ok x (pushed s)) as Hg
    by (unfold get_lock; cbn; rewrite Hl; done).
  rewrite (bind_ok _ _ _ _ _ Hg).
  assert (pop_cli (pushed s) = Ok tt (popped (pushed s))) as Hp
    by (apply pop_cli_ok; [done|]; cbn; destruct Hok; lia).
  rewrite (bind_ok _ _ _ _ _ Hp), popped_pushed by done. done.
Qed.

(** [holding] changes nothing when interrupts are already disabled. *)
Lemma holding_pushed s l x :
  cli_ok s → 0 < ncli s → locks s !! l = Some x → holding l s = Ok (locked x && lcpu x) s.
Proof.
  intros Hok Hn Hl. rewrite (holding_ok _ _ _ Hok Hl). unfold restore_flag.
  rewrite (proj2 (Z.eqb_neq _ _)) by lia. by destruct s.
Qed.

Lemma pushed_ok s : cli_ok s → ncli s < 2147482999 → cli_ok (pushed s).
Proof. intros [Hn Hoff] Hlt. split; cbn; [lia|done]. Qed.

Lemma lock_ok s l :
  cli_ok s → ncli s < 2147482999 → avail s l → lock l s = Ok tt (with_lock l taken (pushed s)).
Proof.
  intros Hok Hlt Hl. unfold lock. rewrite (bind_ok _ _ _ _ _ (push_cli_ok _ Hok)).
  assert (holding l (pushed s) = Ok false (pushed s)) as Hh.
  { rewrite (holding_pushed _ _ new_lock); [done|by apply pushed_ok|cbn; destruct Hok; lia|done]. }
  rewrite (bind_ok _ _ _ _ _ Hh). unfold xchg, get_lock, set_lock, with_lock, bind, modify, this_cpu, gets.
  cbn. rewrite Hl. cbn. rewrite lookup_insert_eq. cbn. by rewrite insert_insert_eq.
Qed.

Lemma lock_held s l : cli_ok s → ncli s < 2147482999 → held s l → lock l s = Panic "lock".
Proof.
  intros Hok Hlt Hl. unfold lock. rewrite (bind_ok _ _ _ _ _ (push_cli_ok _ Hok)).
  assert (holding l (pushed s) = Ok true (pushed s)) as Hh.
  { rewrite (holding_pushed _ _ taken); [done|by apply pushed_ok|cbn; destruct Hok; lia|done]. }
  by rewrite (bind_ok _ _ _ _ _ Hh).
Qed.

Lemma unlock_ok s l :
  cli_ok s → 0 < ncli s → held s l → unlock l s = Ok tt (popped (with_lock l new_lock s)).
Proof.
  intros Hok Hn Hl. unfold unlock. rewrite (bind_ok _ _ _ _ _ (holding_pushed _ _ _ Hok Hn Hl)). cbn [negb].
  cbn [locked lcpu taken andb negb].
  unfold xchg, get_lock, set_lock, bind, modify. cbn. rewrite Hl. cbn. rewrite lookup_insert_eq. cbn.
  rewrite insert_insert_eq. rewrite pop_cli_ok; [done|cbn; by apply Hok|cbn; destruct Hok; lia].
Qed.

Lemma unlock_avail s l : cli_ok s → avail s l → unlock l s = Panic "unlock".
Proof.
  intros Hok Hl. unfold unlock. by rewrite (bind_ok _ _ _ _ _ (holding_ok _ _ _ Hok Hl)).
Qed.

(** ** Nested critical sections *)

(** From [s], the locks [ls] were taken and nothing else changed. *)
Record inside (s : LState) (ls : list Z) (s' : LState) : Prop := mk_inside {
  in_ncli : ncli s' = ncli s + zlen ls;
  in_flag : iflag s' = if decide (ls = []) then iflag s else false;
  in_restore : ls ≠ [] → int_on s' = restore_flag s;
  in_on : ls = [] → restore_flag s' = restore_flag s;
  in_held : ∀ l, l ∈ ls → held s' l;
  in_same : ∀ l, l ∉ ls → locks s' !! l = locks s !! l;
}.

Lemma inside_ok s ls s' :
  cli_ok s → ncli s + zlen ls < 2147483000 → inside s ls s' → cli_ok s'.
Proof.
  intros [Hn Hoff] Hlt [Hn' Hf _ _ _ _]. split; [rewrite Hn'; unfold zlen in *; lia|].
  intros Hpos. rewrite Hf. case_decide; [|done]. subst ls. apply Hoff. rewrite Hn' in Hpos. unfold zlen in Hpos. cbn [length] in Hpos. lia.
Qed.

Lemma inside_lock s ls s' l :
  cli_ok s → ncli s + zlen ls < 2147482999 → inside s ls s' → l ∉ ls → avail s l →
  wp (lock l) s' (λ _, inside s (l :: ls)).
Proof.
  intros Hok Hlt Hin Hl Ha. pose proof (inside_ok s ls s' Hok ltac:(lia) Hin) as Hok'.
  assert (avail s' l) as Ha' by (unfold avail; by rewrite (in_same _ _ _ Hin)).
  eapply wp_ok; [apply lock_ok; [done|rewrite (in_ncli _ _ _ Hin); lia|done]|].
  destruct Hin as [Hn Hf Hr Hon Hh Hsame]. split; cbn.
  - rewrite Hn. unfold zlen. cbn. lia.
  - done.
  - intros _. destruct ls as [|k ls]; [by apply Hon|]. unfold restore_flag at 1.
    rewrite (proj2 (Z.eqb_neq _ _)); [by apply Hr|]. rewrite Hn. unfold zlen. cbn [length]. destruct Hok. lia.
  - done.
  - intros k Hk. unfold held. cbn. apply elem_of_cons in Hk as [->|Hk]; [by rewrite lookup_insert_eq|].
    rewrite lookup_insert_ne by (intros ->; done). by apply Hh.
  - intros k Hk. apply not_elem_of_cons in Hk as [Hkl Hk]. rewrite lookup_insert_ne by done. by apply Hsame.
Qed.

Lemma inside_unlock s ls s' l :
  cli_ok s → ncli s + zlen ls < 2147482999 → avail s l → inside s ls s' → l ∈ ls → NoDup ls →
  ∃ rest, ls ≡ₚ l :: rest ∧ wp (unlock l) s' (λ _, inside s rest).
Proof.
  intros Hok Hlt Ha Hin Hl Hnd. pose proof (inside_ok s ls s' Hok ltac:(lia) Hin) as Hok'.
  apply elem_of_Permutation in Hl as [rest Hrest]. exists rest. split; [done|].
  assert (NoDup (l :: rest)) as [Hlr Hnd']%NoDup_cons by by rewrite <- Hrest.
  assert (zlen ls = 1 + zlen rest) as Hz by (unfold zlen; rewrite Hrest; cbn; lia).
  assert (ls ≠ []) as Hne by (intros ->; by apply Permutation_nil_cons in Hrest).
  destruct Hin as [Hn Hf Hr Hon Hh Hsame]. rewrite decide_False in Hf by done.
  assert (0 ≤ zlen rest) as Hz0 by (unfold zlen; lia). destruct Hok as [Hn0 Hoff].
  eapply wp_ok; [apply unlock_ok; [done|lia|apply Hh; rewrite Hrest; apply elem_head]|].
  split; cbn.
  - lia.
  - rewrite Hn, Hz, (Hr Hne). destruct rest as [|k rest].
    + rewrite decide_True by done. change (zlen []) with 0. unfold restore_flag.
      replace (ncli s + (1 + 0) =? 1) with (ncli s =? 0)
        by (destruct (Z.eqb_spec (ncli s) 0), (Z.eqb_spec (ncli s + (1 + 0)) 1); lia).
      destruct (Z.eqb_spec (ncli s) 0); cbn; [by destruct (iflag s)|by rewrite Hoff by lia].
    + rewrite decide_False by done. rewrite (proj2 (Z.eqb_neq _ _)); [done|]. unfold zlen. cbn. lia.
  - intros _. by apply Hr.
  - intros ->. change (zlen []) with 0 in *. unfold restore_flag at 1. cbn. rewrite (Hr Hne), Hn, Hz.
    unfold restore_flag. destruct (Z.eqb_spec (ncli s) 0) as [Hs|Hs].
    + rewrite Hs. cbn. by destruct (iflag s).
    + rewrite (proj2 (Z.eqb_neq _ _)) by lia. by destruct (int_on s).
  - intros k Hk. unfold held. cbn. rewrite lookup_insert_ne by (intros ->; done). apply Hh. rewrite Hrest. by apply elem_tail.
  - intros k Hk. destruct (decide (k = l)) as [->|Hkl]; [by rewrite lookup_insert_eq|].
    rewrite lookup_insert_ne by done. apply Hsame. rewrite Hrest. by apply not_elem_of_cons.
Qed.

Lemma inside_perm s ls ls' s' : ls ≡ₚ ls' → inside s ls s' → inside s ls' s'.
Proof.
  intros Hp [Hn Hf Hr Hon Hh Hsame].
  assert (ls = [] ↔ ls' = []) as He.
  { split; intros ->; [by apply Permutation_nil in Hp|]. by apply Permutation_sym, Permutation_nil in Hp. }
  split.
  - rewrite Hn. unfold zlen. by rewrite Hp.
  - rewrite Hf. by apply decide_ext.
  - intros Hne. apply Hr. naive_solver.
  - intros ->. apply Hon. naive_solver.
  - intros l Hl. apply Hh. by rewrite Hp.
  - intros l Hl. apply Hsame. by rewrite Hp.
Qed.

Lemma inside_lock_all s ls done s' :
  cli_ok s → ncli s + zlen ls + zlen done < 2147482999 → NoDup (ls ++ done) →
  Forall (avail s) ls → inside s done s' →
  wp (lock_all ls) s' (λ _, inside s (rev ls ++ done)).
Proof.
  intros Hok. revert done s'. induction ls as [|l ls IH]; intros dn s' Hlt Hnd Ha Hin; [done|].
  cbn [lock_all foldr]. change (foldr _ _ ls) with (lock_all ls). rewrite wp_bind.
  apply Forall_cons in Ha as [Hl Ha]. cbn [app] in Hnd. apply NoDup_cons in Hnd as [Hn Hnd].
  unfold zlen in *. cbn [length] in Hlt.
  wp_apply (inside_lock s dn s' l); [done|unfold zlen; lia|done|set_solver|done|].
  intros _ s1 Hin1. cbn [rev]. rewrite <- app_assoc. change ([l] ++ dn) with (l :: dn). apply IH; [cbn [length]; lia| |done|done].
  apply NoDup_app in Hnd as (Hnd1 & Hdis & Hnd2). apply NoDup_app. split; [done|]. split.
  - intros x Hx [->|Hx']%elem_of_cons; [|by eapply Hdis]. apply Hn, elem_of_app. by left.
  - apply NoDup_cons. split; [|done]. intros Hx. apply Hn, elem_of_app. by right.
Qed.

Lemma inside_unlock_all s ls s' order :
  cli_ok s → ncli s + zlen ls < 2147482999 → NoDup ls → Forall (avail s) ls →
  inside s ls s' → order ≡ₚ ls → wp (unlock_all order) s' (λ _, inside s []).
Proof.
  intros Hok. revert ls s'. induction order as [|l order IH]; intros ls s' Hlt Hnd Ha Hin Hp.
  { apply Permutation_nil in Hp as ->. done. }
  cbn [unlock_all foldr]. change (foldr _ _ order) with (unlock_all order). rewrite wp_bind.
  assert (l ∈ ls) as Hl by (rewrite <- Hp; apply elem_head).
  assert (avail s l) as Hal by (by rewrite Forall_forall in Ha; apply Ha).
  destruct (inside_unlock s ls s' l Hok Hlt Hal Hin Hl Hnd) as (rest & Hrest & Hwp).
  eapply wp_mono; [exact Hwp|]. intros u s1 Hin1. cbn beta.
  rewrite Hrest in Hnd, Ha. apply NoDup_cons in Hnd as [_ Hnd]. apply Forall_cons in Ha as [_ Ha].
  apply (IH rest); [|done|done|done|].
  - unfold zlen in *. rewrite Hrest in Hlt. cbn in Hlt. lia.
  - rewrite Hrest in Hp. by apply Permutation_cons_inv in Hp.
Qed.

Lemma inside_start s : inside s [] s.
Proof. split; [unfold zlen; cbn; lia|done|done|done| |done]. intros l Hl. by apply elem_of_nil in Hl. Qed.

(** ** The locks as a set

    [H] is the set of the locks that are held. *)
Record lock_inv (L : LState) (H : gset Z) : Prop := mk_lock_inv {
  li_ncli : ncli L = size H;
  li_off : H ≠ ∅ → iflag L = false;
  li_state : ∀ l x, locks L !! l = Some x → x = if decide (l ∈ H) then taken else new_lock;
  li_dom : ∀ l, l ∈ H → is_Some (locks L !! l);
  li_size : Z.of_nat (size (locks L)) < 1000000;
}.

Lemma lock_inv_cli L H : lock_inv L H → cli_ok L ∧ ncli L < 1000000.
Proof.
  intros [Hn Hoff _ Hd Hs].
  assert (size H ≤ size (locks L))%nat as Hle.
  { rewrite <- (size_dom (D:=gset Z) (locks L)). apply subseteq_size. intros l Hl. by apply elem_of_dom, Hd. }
  split; [|lia]. split; [lia|]. intros Hp. apply Hoff. intros ->. rewrite size_empty in Hn. lia.
Qed.

Lemma lock_inv_same L L' H :
  lock_inv L H → ncli L' = ncli L → iflag L' = iflag L → locks L' = locks L → lock_inv L' H.
Proof. intros [? ? ? ? ?] Hn Hf Hl. split; rewrite ?Hn, ?Hf, ?Hl; done. Qed.

Lemma push_pop_inv L H :
  lock_inv L H → ∃ L', (do! push_cli in do! this_cpu in pop_cli) L = Ok tt L' ∧ lock_inv L' H ∧
    push_cli L = Ok tt (pushed L) ∧ pop_cli (pushed L) = Ok tt L'.
Proof.
  intros Hi. destruct (lock_inv_cli _ _ Hi) as [Hok Hlt].
  assert (pop_cli (pushed L) = Ok tt (popped (pushed L))) as Hp.
  { apply pop_cli_ok; [done|]. cbn. destruct Hok. lia. }
  exists (popped (pushed L)). split_and!.
  - rewrite (bind_ok _ _ _ _ _ (push_cli_ok _ Hok)). exact Hp.
  - rewrite popped_pushed by done. by eapply lock_inv_same.
  - by apply push_cli_ok.
  - done.
Qed.

Lemma holding_inv L H l :
  lock_inv L H → wlp (holding l) L (λ b L', b = bool_decide (l ∈ H) ∧ lock_inv L' H).
Proof.
  intros Hi. destruct (lock_inv_cli _ _ Hi) as [Hok Hlt]. destruct (locks L !! l) as [x|] eqn:Hl.
  - apply wlp_run. intros b L' Hr. rewrite (holding_ok _ _ _ Hok Hl) in Hr. injection Hr as <- <-.
    split; [|by eapply lock_inv_same]. rewrite (li_state _ _ Hi _ _ Hl).
    case_decide; [by rewrite bool_decide_true|by rewrite bool_decide_false].
  - unfold holding, wlp. rewrite (bind_ok _ _ _ _ _ (push_cli_ok _ Hok)).
    unfold bind at 1, get_lock. cbn. by rewrite Hl.
Qed.

Lemma lock_lock_inv L H l :
  lock_inv L H → wlp (lock l) L (λ _ L', l ∉ H ∧ lock_inv L' ({[l]} ∪ H)).
Proof.
  intros Hi. destruct (lock_inv_cli _ _ Hi) as [Hok Hlt]. destruct (locks L !! l) as [x|] eqn:Hl.
  - destruct (decide (l ∈ H)) as [Hin|Hin]; pose proof (li_state _ _ Hi _ _ Hl) as Hx.
    + rewrite decide_True in Hx by done. subst x. unfold wlp. by rewrite lock_held by (done || lia).
    + rewrite decide_False in Hx by done. subst x. apply wlp_run. intros u L' Hr.
      rewrite lock_ok in Hr by (done || lia). injection Hr as <- <-. split; [done|].
      destruct Hi as [Hn Hoff Hs Hd Hsz]. split; cbn.
      * rewrite size_union by set_solver. rewrite size_singleton. lia.
      * done.
      * intros k y Hk. destruct (decide (k = l)) as [->|Hkl].
        -- rewrite lookup_insert_eq in Hk. injection Hk as <-. by rewrite decide_True by set_solver.
        -- rewrite lookup_insert_ne in Hk by done. rewrite (Hs _ _ Hk). apply decide_ext. set_solver.
      * intros k Hk. destruct (decide (k = l)) as [->|Hkl]; [by rewrite lookup_insert_eq|].
        rewrite lookup_insert_ne by done. apply Hd. set_solver.
      * by rewrite map_size_insert_Some.
  - unfold lock, holding, wlp, bind. rewrite (push_cli_ok _ Hok).
    rewrite push_cli_ok by (apply pushed_ok; [done|lia]). unfold get_lock. cbn. by rewrite Hl.
Qed.

Lemma unlock_lock_inv L H l :
  lock_inv L H → wlp (unlock l) L (λ _ L', l ∈ H ∧ lock_inv L' (H ∖ {[l]})).
Proof.
  intros Hi. destruct (lock_inv_cli _ _ Hi) as [Hok Hlt]. destruct (locks L !! l) as [x|] eqn:Hl.
  - destruct (decide (l ∈ H)) as [Hin|Hin]; pose proof (li_state _ _ Hi _ _ Hl) as Hx.
    + rewrite decide_True in Hx by done. subst x. apply wlp_run. intros u L' Hr.
      destruct Hi as [Hn Hoff Hs Hd Hsz].
      assert (size H = S (size (H ∖ {[l]}))) as HS.
      { rewrite (union_difference_L {[l]} H) at 1 by set_solver.
        rewrite size_union by set_solver. by rewrite size_singleton. }
      rewrite unlock_ok in Hr by (done || lia). injection Hr as <- <-. split; [done|]. split; cbn.
      * lia.
      * intros Hne. rewrite (proj2 (Z.eqb_neq _ _)); [done|]. rewrite Hn, HS.
        assert (size (H ∖ {[l]}) ≠ 0%nat); [|lia]. intros H0. by apply size_empty_inv, leibniz_equiv in H0.
      * intros k y Hk. destruct (decide (k = l)) as [->|Hkl].
        -- rewrite lookup_insert_eq in Hk. injection Hk as <-. by rewrite decide_False by set_solver.
        -- rewrite lookup_insert_ne in Hk by done. rewrite (Hs _ _ Hk). apply decide_ext. set_solver.
      * intros k Hk. rewrite lookup_insert_ne by set_solver. apply Hd. set_solver.
      * by rewrite map_size_insert_Some.
    + rewrite decide_False in Hx by done. subst x. unfold wlp. by rewrite unlock_avail.
  - unfold unlock, holding, wlp, bind. rewrite (push_cli_ok _ Hok). unfold get_lock. cbn. by rewrite Hl.
Qed.

(** ** Properties *)

(** C19: critical sections nest, in any order of release: taking the free locks
    [ls] one after the other and releasing them in any order [order] succeeds.
    While at least one is held interrupts are disabled; afterwards the
    interrupt flag, [ncli] and every lock are as before. *)
Theorem locks_nest (s : LState) ls order :
  cli_ok s → ncli s + zlen ls < 2147482999 → NoDup ls → Forall (avail s) ls → order ≡ₚ ls →
  wp (do! lock_all ls in let! inside := gets iflag in do! unlock_all order in ret inside) s
    (λ b s', b = (if decide (ls = []) then iflag s else false) ∧
      iflag s' = iflag s ∧ ncli s' = ncli s ∧ locks s' = locks s).
Proof.
  intros Hok Hlt Hnd Ha Hp. rewrite wp_bind.
  wp_apply (inside_lock_all s ls [] s); [done|unfold zlen in *; cbn; lia|by rewrite app_nil_r|done|apply inside_start|].
  intros _ s1 Hin. rewrite app_nil_r in Hin. apply (inside_perm _ _ ls) in Hin; [|symmetry; apply Permutation_rev].
  rewrite wp_bind, wp_gets, wp_bind. wp_apply (inside_unlock_all s ls s1 order); [done..|].
  intros _ s2 Hin2. rewrite wp_ret. split; [by rewrite (in_flag _ _ _ Hin)|].
  split; [by rewrite (in_flag _ _ _ Hin2)|]. split; [rewrite (in_ncli _ _ _ Hin2); unfold zlen; cbn; lia|].
  apply map_eq. intros l. apply (in_same _ _ _ Hin2). by intros ?%elem_of_nil.
Qed.

(** Misuse of a lock stops the kernel instead of going on: taking a lock
    twice and releasing a lock that is not held both panic. *)
Theorem locks_misuse (s : LState) l :
  cli_ok s → ncli s < 2147482998 → avail s l →
  (do! lock l in lock l) s = Panic "lock" ∧ unlock l s = Panic "unlock" ∧
  (do! lock l in do! unlock l in unlock l) s = Panic "unlock".
Proof.
  intros Hok Hlt Ha. set (s1 := with_lock l taken (pushed s)).
  assert (lock l s = Ok tt s1) as Hl by (apply lock_ok; [done|lia|done]).
  assert (held s1 l) as Hh by (unfold held, s1; cbn; by rewrite lookup_insert_eq).
  destruct Hok as [Hn Hoff]. assert (cli_ok s1) as Hok1 by (split; cbn; [lia|done]).
  split; [|split; [by apply unlock_avail|]].
  - rewrite (bind_ok _ _ _ _ _ Hl). apply lock_held; [done|cbn; lia|done].
  - rewrite (bind_ok _ _ _ _ _ Hl). rewrite (bind_ok _ _ _ _ _ (unlock_ok s1 l Hok1 ltac:(cbn; lia) Hh)).
    apply unlock_avail; [|unfold avail; cbn; by rewrite lookup_insert_eq].
    split; cbn; [lia|]. intros Hp. rewrite (proj2 (Z.eqb_neq _ _)) by lia. done.
Qed.

(** ** Witnesses *)

Definition demo_locks : LState := mkLState true 0 false {[ 100 := new_lock; 200 := new_lock ]}.

Lemma demo_locks_ok : cli_ok demo_locks.
Proof. split; cbn; [lia|done]. Qed.

Lemma locks_nest_witness :
  wp (do! lock_all [100; 200] in let! inside := gets iflag in do! unlock_all [100; 200] in ret inside)
    demo_locks (λ b s', b = false ∧ iflag s' = true ∧ ncli s' = 0 ∧ locks s' = locks demo_locks).
Proof.
  eapply wp_mono.
  - apply (locks_nest demo_locks [100; 200] [100; 200]).
    + exact demo_locks_ok.
    + reflexivity.
    + by apply (bool_decide_unpack _); vm_compute.
    + repeat constructor.
    + reflexivity.
  - intros b s' (-> & -> & -> & ->). done.
Defined.

Lemma locks_misuse_witness : (do! lock 100 in lock 100) demo_locks = Panic "lock".
Proof.
  apply (locks_misuse demo_locks 100).
  - exact demo_locks_ok.
  - reflexivity.
  - reflexivity.
Defined.
