(* ===== verification/Segments.v ===== *)
(** * kernel/memory/gdt.c, kernel/trap/idt.c: segment and gate descriptors

    A descriptor is a 64-bit word. [seg_base], [seg_limit] and [seg_flag] read
    it as the processor does (see the layout in i386/mmu.h). *)
From S2P Require Import Prelude.

(** ** Constants of i386/mmu.h *)

Definition SEG_NULL : nat := 0.
Definition SEG_KCODE : nat := 1.
Definition SEG_KDATA : nat := 2.
Definition SEG_UCODE : nat := 3.
Definition SEG_UDATA : nat := 4.
Definition SEG_TSS : nat := 5.
Definition NSEGS : nat := 6.

Definition SEG_S (x : Z) : Z := Z.shiftl x 0x04.
Definition SEG_DPL (x : Z) : Z := Z.shiftl (Z.land x 0x03) 0x05.
Definition SEG_P (x : Z) : Z := Z.shiftl x 0x07.
Definition SEG_AVL (x : Z) : Z := Z.shiftl x 0x0c.
Definition SEG_L (x : Z) : Z := Z.shiftl x 0x0d.
Definition SEG_DB (x : Z) : Z := Z.shiftl x 0x0e.
Definition SEG_G (x : Z) : Z := Z.shiftl x 0x0f.

Definition DPL_K : Z := 0x00.
Definition DPL_U : Z := 0x03.
Definition SEG_DATA_RDWR : Z := 0x02.
Definition SEG_CODE_EXRD : Z := 0x0a.
Definition SEG_TSS_32_AVL : Z := 0x09.

Definition GATE_DPL (x : Z) : Z := Z.shiftl (Z.land x 0x03) 0x05.
Definition GATE_P (x : Z) : Z := Z.shiftl x 0x07.
Definition INT_GATE : Z := 0xe.
Definition TRAP_GATE : Z := 0xf.

(** ** gdt.c *)

Definition create_descriptor (base limit flag : Z) : Z :=
  let descriptor := Z.land limit 0x000f0000 in
  let descriptor := Z.lor descriptor (Z.land (Z.shiftl flag 8) 0x00f0ff00) in
  let descriptor := Z.lor descriptor (Z.land (Z.shiftr base 16) 0x000000ff) in
  let descriptor := Z.lor descriptor (Z.land base 0xff000000) in
  let descriptor := Z.shiftl descriptor 32 in
  let descriptor := Z.lor descriptor (u32 (Z.shiftl base 16)) in
  Z.lor descriptor (Z.land limit 0x0000ffff).

(** [flag] of a code or data segment: [g] the granularity, then the privilege
    level and the type *)
Definition seg_flags (s g dpl ty : Z) : Z :=
  Z.lor (Z.lor (Z.lor (Z.lor (Z.lor (Z.lor (Z.lor (SEG_S s) (SEG_P 1)) (SEG_AVL 0)) (SEG_L 0)) (SEG_DB 1))
    (SEG_G g)) (SEG_DPL dpl)) ty.

(** The entries that [gdt_init] stores to [cpu.gdt]; it leaves [SEG_TSS]. *)
Definition gdt_init (gdt : list Z) : list Z :=
  let gdt := <[SEG_NULL := create_descriptor 0 0 0]> gdt in
  let gdt := <[SEG_KCODE := create_descriptor 0 0xffffffff (seg_flags 1 1 DPL_K SEG_CODE_EXRD)]> gdt in
  let gdt := <[SEG_KDATA := create_descriptor 0 0xffffffff (seg_flags 1 1 DPL_K SEG_DATA_RDWR)]> gdt in
  let gdt := <[SEG_UCODE := create_descriptor 0 0xffffffff (seg_flags 1 1 DPL_U SEG_CODE_EXRD)]> gdt in
  <[SEG_UDATA := create_descriptor 0 0xffffffff (seg_flags 1 1 DPL_U SEG_DATA_RDWR)]> gdt.

(** vmem.c: the descriptor that [write_tss] stores for the task state at [ts] *)
Definition tss_descriptor (ts sizeof_ts : Z) : Z :=
  create_descriptor ts (sizeof_ts - 1) (seg_flags 0 0 DPL_K SEG_TSS_32_AVL).

(** ** idt.c *)

Record IDTEntry := mkIDTEntry {
  isr_low : Z;
  kernel_cs : Z;
  reserved : Z;
  attributes : Z;
  isr_high : Z;
}.

Definition get_handler_from_idt (idt : list IDTEntry) (vector : nat) : option Z :=
  e ← idt !! vector;
  let high := u32 (Z.shiftl (isr_high e) 16) in
  let low := isr_low e in
  Some (Z.lor high low).

Definition regist_idt_handler (vector : nat) (isr flags : Z) (idt : list IDTEntry) : list IDTEntry :=
  <[vector := mkIDTEntry (u16 (Z.land isr 0xffff)) 0x08 0 flags (u16 (Z.shiftr isr 16))]> idt.

(** kernel/trap.c: the gates that [trap_init] installs, before [idt_init] and
    [pic_init]; [vectors] is the table of entry points of vectors.s. *)
Definition I_SYSCALL : nat := 0x40.

Definition trap_gates (vectors : nat → Z) (idt : list IDTEntry) : list IDTEntry :=
  let idt := foldl (λ idt i,
    regist_idt_handler i (vectors i) (Z.lor (Z.lor (GATE_P 1) (GATE_DPL DPL_K)) INT_GATE) idt) idt (seq 0 256) in
  regist_idt_handler I_SYSCALL (vectors I_SYSCALL)
    (Z.lor (Z.lor (GATE_P 1) (GATE_DPL DPL_U)) TRAP_GATE) idt.

(** ** Specifications *)

Definition seg_base (d : Z) : Z :=
  Z.lor (Z.land (Z.shiftr d 16) 0xffffff) (Z.shiftl (Z.land (Z.shiftr d 56) 0xff) 24).

Definition seg_limit (d : Z) : Z :=
  Z.lor (Z.land d 0xffff) (Z.shiftl (Z.land (Z.shiftr d 48) 0xf) 16).

(** Type, S, DPL, P in the low byte; AVL, L, D/B and G in the bits 12 to 15 *)
Definition seg_flag (d : Z) : Z := Z.land (Z.shiftr d 40) 0xf0ff.

Definition seg_dpl (d : Z) : Z := Z.land (Z.shiftr d 45) 3.

(** The last byte of the segment, for the granularity bit *)
Definition seg_end (d : Z) : Z :=
  if Z.testbit d 55 then seg_base d + 4096 * seg_limit d + 4095 else seg_base d + seg_limit d.

(** ** Lemmas *)

Lemma testbit_high a n i : 0 ≤ a < 2 ^ n → 0 ≤ n ≤ i → Z.testbit a i = false.
Proof.
  intros Ha Hn. rewrite <- (Z.mod_small a (2 ^ n)) by done. apply Z.mod_pow2_bits_high. lia.
Qed.

Lemma testbit_u32 a i : 0 ≤ i → Z.testbit (u32 a) i = if i <? 32 then Z.testbit a i else false.
Proof.
  intros Hi. unfold u32. change 4294967296 with (2 ^ 32). destruct (Z.ltb_spec i 32).
  - by rewrite Z.mod_pow2_bits_low by lia.
  - by rewrite Z.mod_pow2_bits_high by lia.
Qed.

(** Equality of two words, bit by bit below [n] *)
Lemma bits_eq_upto a b n :
  0 ≤ n → (∀ i, 0 ≤ i < n → Z.testbit a i = Z.testbit b i) →
  (∀ i, n ≤ i → Z.testbit a i = Z.testbit b i) → a = b.
Proof.
  intros Hn Hlow Hhigh. apply Z.bits_inj'. intros i Hi.
  destruct (Z.lt_ge_cases i n); [by apply Hlow|by apply Hhigh].
Qed.

Lemma bits_below (P : Z → Prop) n : Forall P (seqZ 0 n) → ∀ i, 0 ≤ i < n → P i.
Proof. intros H i Hi. rewrite Forall_forall in H. apply H, elem_of_seqZ. lia. Qed.

(** Decide an equation between two words, at a literal bit. *)
Ltac bit_specs :=
  repeat first
    [ rewrite Z.lor_spec | rewrite Z.land_spec
    | rewrite Z.shiftl_spec by lia | rewrite Z.shiftr_spec by lia
    | rewrite testbit_u32 by lia | rewrite Z.testbit_neg_r by lia
    | progress cbn [Z.add Z.sub Z.opp Z.pos_sub Pos.add Pos.succ Pos.pred_double Pos.add_carry Z.succ_double
        Z.pred_double Z.double Z.ltb Z.compare Pos.compare Pos.compare_cont] ].

(** Bit by bit below [n]. *)
Ltac bits n :=
  apply bits_below;
  let l := eval vm_compute in (seqZ 0 n) in change (seqZ 0 n) with l;
  repeat (apply Forall_cons; split; [bit_specs; cbn; rewrite ?andb_true_r, ?andb_false_r, ?orb_false_r; try done|]);
  try apply Forall_nil_2.

(** A masked word has no bits above its mask. *)
Lemma land_high a m n i : 0 ≤ m < 2 ^ n → 0 ≤ n ≤ i → Z.testbit (Z.land a m) i = false.
Proof. intros. rewrite Z.land_spec, (testbit_high m n i) by done. apply andb_false_r. Qed.

Lemma seg_base_create base limit flag :
  0 ≤ base < 2 ^ 32 → seg_base (create_descriptor base limit flag) = base.
Proof.
  intros Hb. apply (bits_eq_upto _ _ 32); [lia| |].
  - unfold seg_base, create_descriptor. bits 32.
  - intros i Hi. rewrite (testbit_high base 32) by lia. unfold seg_base.
    rewrite Z.lor_spec, (land_high _ 0xffffff 24) by lia. rewrite Z.shiftl_spec by lia.
    by rewrite (land_high _ 0xff 8) by lia.
Qed.

Lemma seg_limit_create base limit flag :
  seg_limit (create_descriptor base limit flag) = limit mod 2 ^ 20.
Proof.
  rewrite <- Z.land_ones by lia. change (Z.ones 20) with 0xfffff. apply (bits_eq_upto _ _ 20); [lia| |].
  - unfold seg_limit, create_descriptor. bits 20.
  - intros i Hi. rewrite (land_high _ 0xfffff 20) by lia. unfold seg_limit.
    rewrite Z.lor_spec, (land_high _ 0xffff 16) by lia. rewrite Z.shiftl_spec by lia.
    by rewrite (land_high _ 0xf 4) by lia.
Qed.

Lemma seg_flag_create base limit flag :
  0 ≤ base < 2 ^ 32 → seg_flag (create_descriptor base limit flag) = Z.land flag 0xf0ff.
Proof.
  intros Hb. apply (bits_eq_upto _ _ 16); [lia| |].
  - unfold seg_flag, create_descriptor. bits 16.
  - intros i Hi. unfold seg_flag. by rewrite !land_high with (n := 16) by lia.
Qed.

Lemma trap_gates_lookup vectors idt i :
  length idt = 256%nat → (i < 256)%nat →
  trap_gates vectors idt !! i = Some
    (mkIDTEntry (u16 (Z.land (vectors i) 0xffff)) 0x08 0 (if decide (i = I_SYSCALL) then 0xef else 0x8e)
       (u16 (Z.shiftr (vectors i) 16))).
Proof.
  intros Hlen Hi. unfold trap_gates.
  assert (∀ n k l, length l = 256%nat → (k + n ≤ 256)%nat →
    let l' := foldl (λ idt i, regist_idt_handler i (vectors i)
                (Z.lor (Z.lor (GATE_P 1) (GATE_DPL DPL_K)) INT_GATE) idt) l (seq k n) in
    length l' = 256%nat ∧ ∀ j, (k ≤ j < k + n → l' !! j = Some (mkIDTEntry (u16 (Z.land (vectors j) 0xffff))
      0x08 0 0x8e (u16 (Z.shiftr (vectors j) 16))))%nat ∧ (j < k → l' !! j = l !! j)%nat) as Hfold.
  { induction n as [|n IH]; intros k l Hl Hk; cbn [seq foldl]; [split; [done|]; intros j; split; [lia|done]|].
    destruct (IH (S k) (regist_idt_handler k (vectors k) (Z.lor (Z.lor (GATE_P 1) (GATE_DPL DPL_K)) INT_GATE) l))
      as [Hl' Hj]; [by unfold regist_idt_handler; rewrite length_insert|lia|].
    split; [exact Hl'|]. intros j. destruct (Hj j) as [H1 H2]. split; intros Hjk.
    - destruct (decide (j = k)) as [->|]; [|apply H1; lia]. rewrite H2 by lia.
      unfold regist_idt_handler. by rewrite list_lookup_insert_eq by lia.
    - rewrite H2 by lia. unfold regist_idt_handler. by rewrite list_lookup_insert_ne by lia. }
  destruct (Hfold 256%nat 0%nat idt Hlen ltac:(lia)) as [Hl' Hj].
  unfold regist_idt_handler at 1. case_decide as Hs.
  - subst i. by rewrite list_lookup_insert_eq by (rewrite Hl'; unfold I_SYSCALL; lia).
  - rewrite list_lookup_insert_ne by done. apply Hj. lia.
Qed.

Lemma handler_halves isr :
  0 ≤ isr < 2 ^ 32 →
  Z.lor (u32 (Z.shiftl (u16 (Z.shiftr isr 16)) 16)) (u16 (Z.land isr 0xffff)) = isr.
Proof.
  intros Hi. change 0xffff with (Z.ones 16). rewrite Z.land_ones, Z.shiftr_div_pow2, Z.shiftl_mul_pow2 by lia.
  unfold u16, u32. change (2 ^ 16) with 65536. change (2 ^ 32) with 4294967296 in Hi.
  rewrite Z.mod_mod, (Z.mod_small (isr / 65536)) by (Z.div_mod_to_equations; lia).
  rewrite Z.mod_small by (Z.div_mod_to_equations; lia).
  rewrite <- Z.lxor_lor, <- Z.add_nocarry_lxor; [Z.div_mod_to_equations; lia|..].
  all: apply Z.bits_inj'; intros i Hii; rewrite Z.land_spec, Z.bits_0.
  all: change 65536 with (2 ^ 16); rewrite <- Z.shiftl_mul_pow2 by lia.
  all: destruct (Z.lt_ge_cases i 16);
    [by rewrite Z.shiftl_spec_low|rewrite Z.mod_pow2_bits_high by lia; apply andb_false_r].
Qed.

(** ** Properties *)

(** The processor reads back from a descriptor what [create_descriptor]
    was given: the whole 32-bit base, the 20-bit limit and the flags. *)
Theorem create_descriptor_fields base limit flag :
  0 ≤ base < 2 ^ 32 →
  let d := create_descriptor base limit flag in
  seg_base d = base ∧ seg_limit d = limit mod 2 ^ 20 ∧ seg_flag d = Z.land flag 0xf0ff.
Proof.
  intros Hb. split; [by apply seg_base_create|]. split; [apply seg_limit_create|by apply seg_flag_create].
Qed.

(** C<n>: after [gdt_init] the code and data segments are flat, they start at 0
    and end at the last of the 2^32 bytes; only the kernel's have privilege
    level 0, the user's have level 3; the task state entry is not changed. *)
Theorem gdt_init_flat (gdt : list Z) :
  length gdt = NSEGS →
  (∀ i, i ∈ [SEG_KCODE; SEG_KDATA; SEG_UCODE; SEG_UDATA] → ∃ d, gdt_init gdt !! i = Some d ∧
     seg_base d = 0 ∧ seg_end d = 2 ^ 32 - 1 ∧
     seg_dpl d = if (i <? SEG_UCODE)%nat then DPL_K else DPL_U) ∧
  gdt_init gdt !! SEG_TSS = gdt !! SEG_TSS ∧ gdt_init gdt !! SEG_NULL = Some 0.
Proof.
  intros Hlen. destruct gdt as [|g0 [|g1 [|g2 [|g3 [|g4 [|g5 [|]]]]]]]; try done.
  split; [|split; [done|reflexivity]]. intros i Hi.
  repeat (apply elem_of_cons in Hi as [->|Hi]; [eexists; split; [reflexivity|by vm_compute]|]).
  by apply elem_of_nil in Hi.
Qed.

(** [trap_init] installs the handler of every vector: each of the 256
    gates leads to the entry point [vectors] has for it, in the kernel's code
    segment; only the gate of system calls may be used from user mode. *)
Theorem trap_gates_all (vectors : nat → Z) (idt : list IDTEntry) :
  length idt = 256%nat → (∀ i, 0 ≤ vectors i < 2 ^ 32) →
  ∀ i, (i < 256)%nat →
    get_handler_from_idt (trap_gates vectors idt) i = Some (vectors i) ∧
    ∃ e, trap_gates vectors idt !! i = Some e ∧ kernel_cs e = 8 * SEG_KCODE ∧
      Z.land (Z.shiftr (attributes e) 5) 3 = if decide (i = I_SYSCALL) then DPL_U else DPL_K.
Proof.
  intros Hlen Hv i Hi. pose proof (trap_gates_lookup vectors idt i Hlen Hi) as Hlook. split.
  - unfold get_handler_from_idt. rewrite Hlook. cbn [mbind option_bind isr_high isr_low].
    by rewrite handler_halves.
  - eexists. split; [exact Hlook|]. split; [reflexivity|]. cbn [attributes]. by case_decide.
Qed.

(** ** Witnesses *)

Lemma create_descriptor_fields_witness :
  seg_base (create_descriptor 0x12345678 0xabcde 0xc0fa) = 0x12345678.
Proof. apply (create_descriptor_fields 0x12345678 0xabcde 0xc0fa). split; vm_compute; congruence. Defined.

Lemma gdt_init_flat_witness : ∃ d, gdt_init [0; 0; 0; 0; 0; 7] !! SEG_UCODE = Some d ∧ seg_dpl d = 3.
Proof.
  destruct (gdt_init_flat [0; 0; 0; 0; 0; 7] eq_refl) as [H _].
  destruct (H SEG_UCODE) as (d & Hd & _ & _ & Hdpl).
  { do 2 (apply elem_of_cons; right). apply elem_of_cons. by left. }
  exists d. by split.
Defined.

Lemma trap_gates_all_witness :
  get_handler_from_idt (trap_gates (λ i, 0x80100000 + 16 * Z.of_nat i) (replicate 256 (mkIDTEntry 0 0 0 0 0))) 14
    = Some 0x801000e0.
Proof.
  destruct (trap_gates_all (λ i, 0x80100000 + 16 * Z.of_nat (i mod 256)) (replicate 256 (mkIDTEntry 0 0 0 0 0))
    eq_refl) with (i := 14%nat) as [H _].
  - intros i. pose proof (Nat.mod_upper_bound i 256). cbn. lia.
  - lia.
  - exact H.
Defined.
