(* ===== verification/Process.v ===== *)
(** * kernel/process.c: the process table and the switch between processes

    A [Process *] is an index into [ptable.t], [NULL] is -1. A sleep channel
    is an address; the address of a process is its index. [swtch] leaves one
    kernel stack for another, so a function that calls [sched] is two
    operations here: [_out] up to the call of [swtch], [_in] from its return
    on; what it keeps on the stack meanwhile is the result of the first. *)
From S2P Require Import Prelude Machine CMem CString Palloc PgTbl VMem Locks Segments.

Definition NULL : Z := -1.

(** kernel/fs/fdefs.fwd.h: [File]; the table of open files is kernel/fs/file.c. *)
Inductive FDType := FD_NONE | FD_PIPE | FD_INODE.

Record File := mkFile {
  fino : Z;
  fpipe : Z;
  foffset : Z;
  ftype : FDType;
  fnref : Z;
  readable : bool;
  writable : bool;
}.

Inductive ProcState :=
| PROC_UNUSED
| PROC_CREATED
| PROC_SLEEPING
| PROC_READY
| PROC_RUNNING
| PROC_ZOMBIE.

#[export] Instance ProcState_eq_dec : EqDecision ProcState.
Proof. solve_decision. Defined.

Record Process := mkProcess {
  psize : Z;
  pgdir : Z;
  kstack : Z;
  pid : Z;
  parent : Z;
  pstate : ProcState;
  trapframe : Z;
  context : Z;
  chan : Z;            (* 0 is stored as NULL *)
  killed : bool;
  pfile : list Z;      (* NOFILE indices into [ftable.t] *)
  pname : list Z;      (* char name[16] *)
}.

(** The parts of [CPU] that the switch writes: the descriptor table, [ts.ss0]
    and [ts.esp0], and the registers tr and cr3. *)
Record Cpu := mkCpu {
  gdt : list Z;
  ts_ss0 : Z;
  ts_esp0 : Z;
  tr : Z;
  cr3 : Z;
}.

Record KState (T : Type) := mkKState {
  lk : LState;
  cpu : Cpu;
  cur : Z;             (* cpu.proc *)
  ptab : list Process; (* ptable.t *)
  nextpid : Z;
  proc_init1 : Z;
  kernel_pgdir : Z;
  pm : Pmem;
  ftab : list File;    (* ftable.t *)
  rest : T;            (* files, devices *)
}.
Arguments mkKState {T} lk cpu cur ptab nextpid proc_init1 kernel_pgdir pm ftab rest.
Arguments lk {T}. Arguments cpu {T}. Arguments cur {T}. Arguments ptab {T}. Arguments nextpid {T}.
Arguments proc_init1 {T}. Arguments kernel_pgdir {T}. Arguments pm {T}. Arguments ftab {T}. Arguments rest {T}.

(** Addresses that the linker and the assembler choose, and [&ptable.lk] *)
Class KernelText := {
  trapret : Z;
  forkret_addr : Z;
  cpu_ts : Z;
  init1_begin : Z;
  init1_size : Z;
  ptable_lk : Z;
}.

Definition sizeof_TrapFrame : Z := 76.
Definition sizeof_Context : Z := 20.
Definition sizeof_TaskState : Z := 104.
Definition tf_eax : Z := 28.
Definition FL_IF : Z := 0x200.

Definition set_size (n : Z) (p : Process) : Process :=
  mkProcess n (pgdir p) (kstack p) (pid p) (parent p) (pstate p) (trapframe p) (context p) (chan p) (killed p) (pfile p) (pname p).
Definition set_pgdir (d : Z) (p : Process) : Process :=
  mkProcess (psize p) d (kstack p) (pid p) (parent p) (pstate p) (trapframe p) (context p) (chan p) (killed p) (pfile p) (pname p).
Definition set_kstack (k : Z) (p : Process) : Process :=
  mkProcess (psize p) (pgdir p) k (pid p) (parent p) (pstate p) (trapframe p) (context p) (chan p) (killed p) (pfile p) (pname p).
Definition set_pid (n : Z) (p : Process) : Process :=
  mkProcess (psize p) (pgdir p) (kstack p) n (parent p) (pstate p) (trapframe p) (context p) (chan p) (killed p) (pfile p) (pname p).
Definition set_parent (q : Z) (p : Process) : Process :=
  mkProcess (psize p) (pgdir p) (kstack p) (pid p) q (pstate p) (trapframe p) (context p) (chan p) (killed p) (pfile p) (pname p).
Definition set_state (st : ProcState) (p : Process) : Process :=
  mkProcess (psize p) (pgdir p) (kstack p) (pid p) (parent p) st (trapframe p) (context p) (chan p) (killed p) (pfile p) (pname p).
Definition set_frame (tf ctx : Z) (p : Process) : Process :=
  mkProcess (psize p) (pgdir p) (kstack p) (pid p) (parent p) (pstate p) tf ctx (chan p) (killed p) (pfile p) (pname p).
Definition set_chan (c : Z) (p : Process) : Process :=
  mkProcess (psize p) (pgdir p) (kstack p) (pid p) (parent p) (pstate p) (trapframe p) (context p) c (killed p) (pfile p) (pname p).
Definition set_killed (b : bool) (p : Process) : Process :=
  mkProcess (psize p) (pgdir p) (kstack p) (pid p) (parent p) (pstate p) (trapframe p) (context p) (chan p) b (pfile p) (pname p).
Definition set_files (l : list Z) (p : Process) : Process :=
  mkProcess (psize p) (pgdir p) (kstack p) (pid p) (parent p) (pstate p) (trapframe p) (context p) (chan p) (killed p) l (pname p).
Definition set_name (l : list Z) (p : Process) : Process :=
  mkProcess (psize p) (pgdir p) (kstack p) (pid p) (parent p) (pstate p) (trapframe p) (context p) (chan p) (killed p) (pfile p) l.

(** [strncpy(p->name, src, sizeof(p->name))]: [None] when it stores past the
    field. *)
Definition name_copy (old src : list Z) : option (list Z) :=
  let img := strncpy_image 16 src in
  if (length img <=? 16)%nat then Some (splice 0 img old) else None.

(** The string in a name: up to the first zero byte *)
Fixpoint name_str (l : list Z) : list Z :=
  match l with
  | [] => []
  | b :: l => if b =? 0 then [] else b :: name_str l
  end.

Section process.
Context `{KernelLayout, KernelText} {T : Type}.
Notation St := (KState T).

Definition with_lk {A} (m : M LState A) : M St A :=
  zoom lk (λ l s, mkKState l (cpu s) (cur s) (ptab s) (nextpid s) (proc_init1 s) (kernel_pgdir s) (pm s) (ftab s) (rest s)) m.

Definition with_pm {A} (m : M Pmem A) : M St A :=
  zoom pm (λ p s, mkKState (lk s) (cpu s) (cur s) (ptab s) (nextpid s) (proc_init1 s) (kernel_pgdir s) p (ftab s) (rest s)) m.

Definition set_cpu (c : Cpu) : M St unit :=
  modify (λ s, mkKState (lk s) c (cur s) (ptab s) (nextpid s) (proc_init1 s) (kernel_pgdir s) (pm s) (ftab s) (rest s)).

Definition set_cur (p : Z) : M St unit :=
  modify (λ s, mkKState (lk s) (cpu s) p (ptab s) (nextpid s) (proc_init1 s) (kernel_pgdir s) (pm s) (ftab s) (rest s)).

Definition set_ptab (l : list Process) : M St unit :=
  modify (λ s, mkKState (lk s) (cpu s) (cur s) l (nextpid s) (proc_init1 s) (kernel_pgdir s) (pm s) (ftab s) (rest s)).

Definition set_nextpid (n : Z) : M St unit :=
  modify (λ s, mkKState (lk s) (cpu s) (cur s) (ptab s) n (proc_init1 s) (kernel_pgdir s) (pm s) (ftab s) (rest s)).

Definition set_init1 (p : Z) : M St unit :=
  modify (λ s, mkKState (lk s) (cpu s) (cur s) (ptab s) (nextpid s) p (kernel_pgdir s) (pm s) (ftab s) (rest s)).

Definition set_ftab (l : list File) : M St unit :=
  modify (λ s, mkKState (lk s) (cpu s) (cur s) (ptab s) (nextpid s) (proc_init1 s) (kernel_pgdir s) (pm s) l (rest s)).

(** Access to [*p] *)
Definition proc (p : Z) : M St Process :=
  if p <? 0 then fault else let! l := gets ptab in need (l !! Z.to_nat p).

Definition update (p : Z) (f : Process → Process) : M St unit :=
  let! x := proc p in
  let! l := gets ptab in
  set_ptab (<[Z.to_nat p := f x]> l).

Definition this_proc : M St Z :=
  do! with_lk push_cli in
  do! with_lk this_cpu in
  let! p := gets cur in
  do! with_lk pop_cli in
  ret p.

(** ** vmem.c: switching address spaces *)

Definition kvm_switch : M St unit :=
  let! d := gets kernel_pgdir in
  let! c := gets cpu in
  set_cpu (mkCpu (gdt c) (ts_ss0 c) (ts_esp0 c) (tr c) (KA2P d)).

(** The descriptor of the task state is stored in the table, its two fields
    that the processor uses are set, and tr selects the descriptor. [memset]
    clears the other fields, which nothing reads: the kernel has one task. *)
Definition write_tss (p : Z) : M St unit :=
  do! with_lk push_cli in
  do! with_lk this_cpu in
  let! c := gets cpu in
  let! x := proc p in
  do! set_cpu (mkCpu (<[SEG_TSS := tss_descriptor cpu_ts sizeof_TaskState]> (gdt c))
                 (8 * SEG_KDATA) (u32 (kstack x + KSTACK_SZ)) (8 * SEG_TSS) (cr3 c)) in
  with_lk pop_cli.

Definition uvm_switch (p : Z) : M St unit :=
  if p =? NULL then panic "uvm_switch: no process" else
  let! x := proc p in
  if kstack x =? 0 then panic "uvm_switch: no kernel stack" else
  if pgdir x =? 0 then panic "uvm_switch: no page table" else
  do! with_lk push_cli in
  do! write_tss p in
  let! q := this_proc in
  let! y := proc q in
  let! c := gets cpu in
  do! set_cpu (mkCpu (gdt c) (ts_ss0 c) (ts_esp0 c) (tr c) (KA2P (pgdir y))) in
  with_lk pop_cli.

(** ** Creating and freeing processes *)

(** [for (int i = 1; i < NPROC; ++i)], from the index [i] on *)
Fixpoint unused_from (l : list Process) (i : Z) : Z :=
  match l with
  | [] => NULL
  | p :: l => if decide (pstate p = PROC_UNUSED) then i else unused_from l (i + 1)
  end.

Definition get_unused_process : M St Z := let! l := gets ptab in ret (unused_from (drop 1 l) 1).

Definition setup_process_stack (p : Z) : M St bool :=
  let! k := with_pm palloc in
  do! update p (set_kstack k) in
  if k =? 0 then do! update p (set_state PROC_UNUSED) in ret false else
  let tf := u32 (k + KSTACK_SZ - sizeof_TrapFrame) in
  let sp := u32 (tf - 4) in
  do! with_pm (with_ram (store32 sp trapret)) in
  let ctx := u32 (sp - sizeof_Context) in
  do! update p (set_frame tf ctx) in
  do! with_pm (with_ram (memset ctx 0 sizeof_Context)) in
  do! with_pm (with_ram (store32 (ctx + 16) forkret_addr)) in
  ret true.

Definition allocate_process : M St Z :=
  let! np := gets nextpid in
  if NPROC <? np then panic "allocate_process: can't allocate more pids" else
  do! with_lk (lock ptable_lk) in
  let! p := get_unused_process in
  if p =? NULL then do! with_lk (unlock ptable_lk) in ret NULL else
  let! np := gets nextpid in
  do! update p (λ x, set_pid np (set_state PROC_CREATED x)) in
  do! set_nextpid (s32 (np + 1)) in
  do! with_lk (unlock ptable_lk) in
  let! ok := setup_process_stack p in
  ret (if ok : bool then p else NULL).

Definition deallocate_process_unlocked (p : Z) : M St unit :=
  do! update p (set_size 0) in
  let! x := proc p in
  do! (if negb (pgdir x =? 0) then
         do! with_pm (vmfree (pgdir x)) in update p (set_pgdir 0)
       else done!) in
  let! x := proc p in
  do! (if negb (kstack x =? 0) then
         do! with_pm (pfree (kstack x)) in update p (set_kstack 0)
       else done!) in
  update p (λ x, set_name (replicate 16 0) (set_killed false (set_chan NULL (set_frame 0 0
    (set_state PROC_UNUSED (set_parent NULL (set_pid 0 (set_kstack 0 x)))))))).

(** The offsets of the fields are those of kernel/trap.h. *)
Definition set_pid1_trapframe (p : Z) : M St unit :=
  let! x := proc p in
  let tf := trapframe x in
  let ds := Z.lor (8 * SEG_UDATA) DPL_U in
  with_pm (with_ram (
    do! memset tf 0 sizeof_TrapFrame in
    do! store32 (tf + 60) (Z.lor (8 * SEG_UCODE) DPL_U) in   (* cs and padding *)
    do! store32 (tf + 44) ds in
    do! store32 (tf + 40) ds in                              (* es *)
    do! store32 (tf + 72) ds in                              (* ss *)
    do! store32 (tf + 64) FL_IF in
    do! store32 (tf + 68) PAGE_SZ in                         (* esp *)
    store32 (tf + 56) 0)).                                   (* eip *)

Definition init_name : list Z := bytes_of "init".

Definition init_pid1 : M St unit :=
  let! p := allocate_process in
  if p =? NULL then panic "init_pid1: failed to allocate process" else
  let! '(ok, d) := with_pm (kvm_allocate init_kmap) in
  do! update p (set_pgdir d) in
  if negb ok then panic "init_pid1" else
  do! with_pm (uvm_init1 d init1_begin init1_size) in
  do! update p (set_size PAGE_SZ) in
  do! set_pid1_trapframe p in
  let! x := proc p in
  let! nm := need (name_copy (pname x) init_name) in
  do! update p (set_name nm) in
  do! with_lk (lock ptable_lk) in
  do! update p (set_state PROC_READY) in
  do! set_init1 p in
  with_lk (unlock ptable_lk).

Definition grow_process (n : Z) : M St Z :=
  if n =? 0 then ret 0 else
  let! p := this_proc in
  let! x := proc p in
  let! sz := with_pm (if 0 <? n then uvm_allocate (pgdir x) (psize x) (u32 (psize x + n))
                      else uvm_deallocate (pgdir x) (psize x) (u32 (psize x + n))) in
  if sz =? 0 then ret (-1) else
  do! update p (set_size (u32 sz)) in
  do! uvm_switch p in
  ret 0.

(** kernel/fs/file.c *)
Definition file (f : Z) : M St File :=
  if f <? 0 then fault else let! l := gets ftab in need (l !! Z.to_nat f).

Definition update_file (f : Z) (g : File → File) : M St unit :=
  let! x := file f in
  let! l := gets ftab in
  set_ftab (<[Z.to_nat f := g x]> l).

Definition set_fnref (n : Z) (f : File) : File :=
  mkFile (fino f) (fpipe f) (foffset f) (ftype f) n (readable f) (writable f).

Definition file_dup (f : Z) : M St Z :=
  let! x := file f in
  if fnref x <? 1 then panic "dup_file" else
  do! update_file f (set_fnref (s32 (fnref x + 1))) in
  ret f.

(** [for (int i = 0; i < NOFILE; ++i)]: the files [l] of the parent, from the
    index [i] on *)
Fixpoint copy_fds (l : list Z) (child : Z) (i : nat) : M St unit :=
  match l with
  | [] => done!
  | f :: l =>
      do! (if negb (f =? NULL) then
             let! g := file_dup f in
             update child (λ x, set_files (<[i := g]> (pfile x)) x)
           else done!) in
      copy_fds l child (S i)
  end.

Definition fork : M St Z :=
  let! thisp := this_proc in
  let! child := allocate_process in
  if child =? NULL then ret (-1) else
  let! x := proc thisp in
  let! '(ok, d) := with_pm (uvm_copy init_kmap (pgdir x) (psize x)) in
  if negb ok then do! deallocate_process_unlocked child in ret (-1) else
  do! update child (set_pgdir d) in
  do! update child (λ c, set_parent thisp (set_size (psize x) c)) in
  let! c := proc child in
  do! with_pm (with_ram (memcpy (trapframe c) (trapframe x) sizeof_TrapFrame)) in
  do! with_pm (with_ram (store32 (trapframe c + tf_eax) 0)) in
  do! copy_fds (pfile x) child 0 in
  let! c := proc child in
  let! nm := need (name_copy (pname c) (name_str (pname x))) in
  do! update child (set_name nm) in
  do! with_lk (lock ptable_lk) in
  do! update child (set_state PROC_READY) in
  do! with_lk (unlock ptable_lk) in
  let! c := proc child in
  ret (s32 (pid c)).

(** ** Sleeping, waking up, exiting *)

Definition wake (c : Z) (p : Process) : Process :=
  if decide (pstate p = PROC_SLEEPING ∧ chan p = c) then set_state PROC_READY p else p.

Definition wakeup_unlocked (c : Z) : M St unit :=
  let! l := gets ptab in set_ptab (wake c <$> l).

Definition wakeup (c : Z) : M St unit :=
  do! with_lk (lock ptable_lk) in
  do! wakeup_unlocked c in
  with_lk (unlock ptable_lk).

(** Up to the call of [swtch]; the result is the local variable [int_on]. *)
Definition sched_out : M St bool :=
  let! p := this_proc in
  let! h := with_lk (holding ptable_lk) in
  if negb h then panic "sched: ptable.lk" else
  do! with_lk this_cpu in
  let! n := with_lk (gets ncli) in
  if negb (n =? 1) then panic "sched: locks" else
  let! x := proc p in
  if decide (pstate x = PROC_RUNNING) then panic "sched: running" else
  let! f := with_lk (gets iflag) in
  if f : bool then panic "sched: interruptible" else
  do! with_lk this_cpu in
  let! on := with_lk (gets int_on) in
  do! with_lk this_cpu in
  ret on.

Definition sched_in (on : bool) : M St unit :=
  do! with_lk this_cpu in with_lk (set_int_on on).

Definition sleep_out (c l : Z) : M St bool :=
  let! p := this_proc in
  if p =? NULL then panic "sleep" else
  if l =? NULL then panic "sleep: lk" else
  do! (if negb (l =? ptable_lk) then
         do! with_lk (lock ptable_lk) in with_lk (unlock l)
       else done!) in
  do! update p (λ x, set_state PROC_SLEEPING (set_chan c x)) in
  sched_out.

(** The local variable [p] is the process that slept. *)
Definition sleep_in (p l : Z) (on : bool) : M St unit :=
  do! sched_in on in
  do! update p (set_chan NULL) in
  if negb (l =? ptable_lk) then do! with_lk (unlock ptable_lk) in with_lk (lock l) else done!.

Definition yield_out : M St bool :=
  do! with_lk (lock ptable_lk) in
  let! p := this_proc in
  do! update p (set_state PROC_READY) in
  sched_out.

Definition yield_in (on : bool) : M St unit :=
  do! sched_in on in with_lk (unlock ptable_lk).

Definition forkret : M St unit := with_lk (unlock ptable_lk).

(** The loop of [exit] over the table, the last [n] rounds *)
Fixpoint reparent (n : nat) (thisp p : Z) : M St unit :=
  match n with
  | O => done!
  | S n =>
      let! x := proc p in
      let! init := gets proc_init1 in
      do! (if parent x =? thisp then
             do! update p (set_parent init) in
             if decide (pstate x = PROC_ZOMBIE) then wakeup_unlocked init else done!
           else done!) in
      reparent n thisp (p + 1)
  end.

(** [exit] does not come back from [sched]. *)
Definition exit_out : M St bool :=
  let! thisp := this_proc in
  let! init := gets proc_init1 in
  if thisp =? init then panic "init 1 is exiting" else
  do! with_lk (lock ptable_lk) in
  let! x := proc thisp in
  do! wakeup_unlocked (parent x) in
  do! reparent (Z.to_nat NPROC) thisp 0 in
  do! update thisp (set_state PROC_ZOMBIE) in
  sched_out.

(** The inner [for] of [wait]: the last [n] rounds. [inl]: the pid of a zombie
    child that was freed; [inr]: [haskids]. *)
Fixpoint reap (n : nat) (thisp p : Z) (haskids : bool) : M St (Z + bool) :=
  match n with
  | O => ret (inr haskids)
  | S n =>
      let! x := proc p in
      if parent x =? thisp then
        if decide (pstate x = PROC_ZOMBIE) then
          do! deallocate_process_unlocked p in
          do! with_lk (unlock ptable_lk) in
          ret (inl (s32 (pid x)))
        else reap n thisp (p + 1) true
      else reap n thisp (p + 1) haskids
  end.

(** One round of [for (;;)], with [ptable.lk] held: the result of [wait], or
    [None] after [sleep] was called. *)
Definition wait_round (thisp : Z) : M St (Z + bool) :=
  let! r := reap (Z.to_nat NPROC) thisp 0 false in
  match r with
  | inl pid => ret (inl pid)
  | inr haskids =>
      if negb haskids then do! with_lk (unlock ptable_lk) in ret (inl (-1)) else
      let! x := proc thisp in
      if killed x then do! with_lk (unlock ptable_lk) in ret (inl (-1)) else
      let! on := sleep_out thisp ptable_lk in
      ret (inr on)
  end.

Definition wait_enter : M St Z :=
  let! thisp := this_proc in
  do! with_lk (lock ptable_lk) in
  ret thisp.

(** ** The scheduler *)

Definition scheduler_init : M St unit := do! with_lk this_cpu in set_cur NULL.

(** The loop body for a ready process, up to [swtch] *)
Definition scheduler_out (p : Z) : M St unit :=
  do! set_cur p in
  do! uvm_switch p in
  update p (set_state PROC_RUNNING).

(** ... and after [swtch] *)
Definition scheduler_in : M St unit := do! kvm_switch in set_cur NULL.

End process.

(** Addresses for the examples *)
#[local] Instance demo_text : KernelText := {|
  trapret := 0x80100100; forkret_addr := 0x80100200; cpu_ts := 0x80109000;
  init1_begin := 0x8010a000; init1_size := 32; ptable_lk := 100 |}.
