(* ===== verification/ProcSpec.v ===== *)
(** * What the operations of process.c do to the processes

    The scheduler depends on a few fields of a process only ([PV]). Each
    operation of Process.v has a triple ([t_...]): if it returns, the locks
    that are held and what the scheduler sees are as stated. *)
From S2P Require Import Prelude Machine CMem CString Palloc PgTbl VMem Locks Segments Process.

(** ** What scheduling depends on *)

(** A process, as the scheduler sees it *)
Record PV := mkPV {
  v_state : ProcState;
  v_chan : Z;
  v_pid : Z;
  v_parent : Z;
}.

Definition pv (p : Process) : PV := mkPV (pstate p) (chan p) (pid p) (parent p).

(** The kernel, as the scheduler sees it *)
Record AState := mkAState {
  a_cur : Z;
  a_tab : list PV;
  a_next : Z;
  a_init : Z;
}.

Definition v_set_state (st : ProcState) (v : PV) : PV := mkPV st (v_chan v) (v_pid v) (v_parent v).
Definition v_set_chan (c : Z) (v : PV) : PV := mkPV (v_state v) c (v_pid v) (v_parent v).
Definition v_set_pid (n : Z) (v : PV) : PV := mkPV (v_state v) (v_chan v) n (v_parent v).
Definition v_set_parent (q : Z) (v : PV) : PV := mkPV (v_state v) (v_chan v) (v_pid v) q.

Definition a_update (p : Z) (f : PV → PV) (a : AState) : AState :=
  mkAState (a_cur a) (alter f (Z.to_nat p) (a_tab a)) (a_next a) (a_init a).

Definition v_wake (c : Z) (v : PV) : PV :=
  if decide (v_state v = PROC_SLEEPING ∧ v_chan v = c) then v_set_state PROC_READY v else v.

Definition a_wakeup (c : Z) (a : AState) : AState :=
  mkAState (a_cur a) (v_wake c <$> a_tab a) (a_next a) (a_init a).

Definition a_set_cur (p : Z) (a : AState) : AState := mkAState p (a_tab a) (a_next a) (a_init a).
Definition a_set_next (n : Z) (a : AState) : AState := mkAState (a_cur a) (a_tab a) n (a_init a).

(** Run the first operation with the triple [H]. *)
Ltac t_step H := rewrite wlp_bind; eapply wlp_mono; [eapply H; eassumption|]; cbn beta.
Ltac t_last H := eapply wlp_mono; [eapply H; eassumption|]; cbn beta.

Lemma relock (l : Z) (HL : gset Z) : l ∉ HL → ({[l]} ∪ HL) ∖ {[l]} = HL.
Proof. set_solver. Qed.

Section triples.
Context `{KernelLayout, KernelText} {T : Type}.
Notation St := (KState T).

Definition abs (s : St) : AState := mkAState (cur s) (pv <$> ptab s) (nextpid s) (proc_init1 s).

(** The locks [HL] are held, and the scheduler sees [a]. *)
Definition st_ok (s : St) (HL : gset Z) (a : AState) : Prop := lock_inv (lk s) HL ∧ abs s = a.

(** ** The operations on what the scheduler sees *)

Lemma wlp_zoom_lk {A} (m : M LState A) (s : St) HL a (P : A → LState → Prop) (Q : A → St → Prop) :
  st_ok s HL a → wlp m (lk s) P →
  (∀ r l, P r l → ∀ s', lk s' = l → abs s' = a → Q r s') → wlp (with_lk m) s Q.
Proof.
  intros [Hi Ha] Hm HQ. unfold with_lk, zoom. unfold wlp in *. destruct (m (lk s)); try done.
  eapply HQ; [exact Hm|done|]. by rewrite <- Ha.
Qed.

Lemma t_lock (s : St) HL a l :
  st_ok s HL a → wlp (with_lk (lock l)) s (λ _ s', l ∉ HL ∧ st_ok s' ({[l]} ∪ HL) a).
Proof.
  intros Hs. eapply wlp_zoom_lk; [exact Hs|by apply lock_lock_inv, Hs|].
  intros u L [Hl Hi] s' <- Ha. by split.
Qed.

Lemma t_unlock (s : St) HL a l :
  st_ok s HL a → wlp (with_lk (unlock l)) s (λ _ s', l ∈ HL ∧ st_ok s' (HL ∖ {[l]}) a).
Proof.
  intros Hs. eapply wlp_zoom_lk; [exact Hs|by apply unlock_lock_inv, Hs|].
  intros u L [Hl Hi] s' <- Ha. by split.
Qed.

Lemma t_holding (s : St) HL a l :
  st_ok s HL a → wlp (with_lk (holding l)) s (λ b s', b = bool_decide (l ∈ HL) ∧ st_ok s' HL a).
Proof.
  intros Hs. eapply wlp_zoom_lk; [exact Hs|by apply holding_inv, Hs|].
  intros u L [Hl Hi] s' <- Ha. by split.
Qed.

Lemma t_this_cpu (s : St) HL a :
  st_ok s HL a → wlp (with_lk this_cpu) s (λ _ s', iflag (lk s') = false ∧ st_ok s' HL a).
Proof.
  intros Hs. eapply (wlp_zoom_lk _ _ _ _ (λ _ L, iflag L = false ∧ L = lk s)); [exact Hs| |].
  - unfold this_cpu, wlp, bind, gets. destruct (iflag (lk s)) eqn:E; [done|]. by cbn.
  - intros u L [Hf ->] s' HL' Ha. split; [by rewrite HL'|]. split; [rewrite HL'; apply Hs|done].
Qed.

Lemma t_gets_lk {A} (f : LState → A) (s : St) HL a :
  st_ok s HL a → wlp (with_lk (gets f)) s (λ r s', r = f (lk s') ∧ st_ok s' HL a).
Proof.
  intros Hs. eapply (wlp_zoom_lk _ _ _ _ (λ r L, r = f L ∧ L = lk s)); [exact Hs|done|].
  intros u L [-> ->] s' HL' Ha. split; [by rewrite HL'|]. split; [rewrite HL'; apply Hs|done].
Qed.

Lemma t_set_int_on (s : St) HL a b :
  st_ok s HL a → wlp (with_lk (set_int_on b)) s (λ _ s', st_ok s' HL a).
Proof.
  intros Hs. eapply (wlp_zoom_lk _ _ _ _ (λ _ L, lock_inv L HL)); [exact Hs| |].
  - destruct Hs as [Hi _]. by eapply lock_inv_same.
  - intros u L Hi s' <- Ha. by split.
Qed.

(** A [push_cli] that is undone later: what is between sees the same locks. *)
Lemma t_push (s : St) HL a :
  st_ok s HL a → wlp (with_lk push_cli) s (λ _ s', lk s' = pushed (lk s) ∧ abs s' = a).
Proof.
  intros Hs. eapply (wlp_zoom_lk _ _ _ _ (λ _ L, L = pushed (lk s))); [exact Hs| |].
  - destruct Hs as [Hi _]. destruct (lock_inv_cli _ _ Hi) as [Hok _]. unfold wlp. by rewrite push_cli_ok.
  - intros u L -> s' HL' Ha. done.
Qed.

Lemma t_pop (s s0 : St) HL a :
  lock_inv (lk s0) HL → lk s = pushed (lk s0) → abs s = a →
  wlp (with_lk pop_cli) s (λ _ s', st_ok s' HL a).
Proof.
  intros Hi HL0 Ha. destruct (push_pop_inv _ _ Hi) as (L' & _ & Hi' & _ & Hp).
  unfold wlp, with_lk, zoom. rewrite HL0, Hp. split; [done|]. by rewrite <- Ha.
Qed.

Lemma t_this_proc (s : St) HL a :
  st_ok s HL a → wlp this_proc s (λ p s', p = a_cur a ∧ st_ok s' HL a).
Proof.
  intros Hs. unfold this_proc. rewrite wlp_bind. eapply wlp_mono; [by eapply t_push|]. intros u s1 [Hl1 Ha1].
  cbn beta. rewrite wlp_bind.
  assert (wlp (with_lk this_cpu) s1 (λ _ s2, lk s2 = lk s1 ∧ abs s2 = abs s1)) as Hc.
  { unfold wlp, with_lk, zoom, this_cpu, bind, gets. rewrite Hl1. cbn. by split. }
  eapply wlp_mono; [exact Hc|]. intros u' s2 [Hl2 Ha2]. cbn beta. rewrite wlp_bind.
  unfold wlp at 1, gets at 1. rewrite wlp_bind.
  eapply wlp_mono; [apply (t_pop s2 s HL a); [apply Hs|congruence|congruence]|].
  intros u'' s3 Hs3. unfold wlp, ret. split; [|done]. rewrite <- Ha1, <- Ha2. done.
Qed.

Lemma t_pm {A} (m : M Pmem A) (s : St) HL a :
  st_ok s HL a → wlp (with_pm m) s (λ _ s', st_ok s' HL a).
Proof. intros [Hi Ha]. unfold wlp, with_pm, zoom. by destruct (m (pm s)). Qed.

Lemma t_gets {A} (f : St → A) (s : St) HL a :
  st_ok s HL a → wlp (gets f) s (λ r s', r = f s' ∧ st_ok s' HL a).
Proof. intros Hs. by split. Qed.

Lemma t_set_cpu (c : Cpu) (s : St) HL a :
  st_ok s HL a → wlp (set_cpu c) s (λ _ s', st_ok s' HL a).
Proof. intros [Hi Ha]. by split. Qed.

Lemma t_set_cur p (s : St) HL a :
  st_ok s HL a → wlp (set_cur p) s (λ _ s', st_ok s' HL (a_set_cur p a)).
Proof. intros [Hi Ha]. split; [done|]. by rewrite <- Ha. Qed.

Lemma t_set_next n (s : St) HL a :
  st_ok s HL a → wlp (set_nextpid n) s (λ _ s', st_ok s' HL (a_set_next n a)).
Proof. intros [Hi Ha]. split; [done|]. by rewrite <- Ha. Qed.

Lemma t_proc p (s : St) HL a :
  st_ok s HL a → wlp (proc p) s (λ x s', 0 ≤ p ∧ a_tab a !! Z.to_nat p = Some (pv x) ∧ st_ok s' HL a).
Proof.
  intros Hs. unfold proc. destruct (Z.ltb_spec p 0); [done|].
  unfold wlp, bind, gets. destruct (ptab s !! Z.to_nat p) as [x|] eqn:Hx; [|done]. cbn.
  split; [done|]. split; [|done]. destruct Hs as [_ <-]. cbn. by rewrite list_lookup_fmap, Hx.
Qed.

Lemma t_update p f g (s : St) HL a :
  (∀ x, pv (f x) = g (pv x)) → st_ok s HL a →
  wlp (update p f) s (λ _ s', 0 ≤ p ∧ is_Some (a_tab a !! Z.to_nat p) ∧ st_ok s' HL (a_update p g a)).
Proof.
  intros Hfg Hs. unfold update, proc. destruct (Z.ltb_spec p 0); [done|].
  unfold wlp, bind, gets. destruct (ptab s !! Z.to_nat p) as [x|] eqn:Hx; [|done]. cbn.
  destruct Hs as [Hi <-]. split; [done|]. cbn. rewrite list_lookup_fmap, Hx. split; [done|].
  split; [done|]. unfold abs, a_update. cbn. f_equal. rewrite list_fmap_insert, Hfg.
  apply list_eq. intros i. destruct (decide (i = Z.to_nat p)) as [->|Hne].
  - rewrite list_lookup_insert_eq by (rewrite length_fmap; by eapply lookup_lt_Some).
    by rewrite list_lookup_alter_eq, list_lookup_fmap, Hx.
  - by rewrite list_lookup_insert_ne, list_lookup_alter_ne.
Qed.

(** An update of fields that scheduling does not depend on *)
Lemma t_update_same p f (s : St) HL a :
  (∀ x, pv (f x) = pv x) → st_ok s HL a →
  wlp (update p f) s (λ _ s', 0 ≤ p ∧ is_Some (a_tab a !! Z.to_nat p) ∧ st_ok s' HL a).
Proof.
  intros Hf Hs. eapply wlp_mono; [by apply (t_update p f id)|].
  intros u s' (Hp & Hx & Hs'). split; [done|]. split; [done|].
  replace a with (a_update p id a) at 1; [done|]. unfold a_update. rewrite list_alter_id; [by destruct a|done].
Qed.

Lemma t_wakeup_unlocked c (s : St) HL a :
  st_ok s HL a → wlp (wakeup_unlocked c) s (λ _ s', st_ok s' HL (a_wakeup c a)).
Proof.
  intros [Hi <-]. unfold wakeup_unlocked, wlp, bind, gets, set_ptab, modify. split; [done|].
  unfold abs, a_wakeup. cbn. f_equal. rewrite <- !list_fmap_compose. apply list_fmap_ext.
  intros i x _. cbn. unfold wake, v_wake. cbn. by case_decide.
Qed.

(** *** Composite operations *)

(** The loop of [exit] that gives the children of [thisp] to init *)
Fixpoint a_reparent (n : nat) (thisp p : Z) (a : AState) : AState :=
  match n with
  | O => a
  | S n =>
      a_reparent n thisp (p + 1)
        match a_tab a !! Z.to_nat p with
        | Some v =>
            if v_parent v =? thisp then
              let a' := a_update p (v_set_parent (a_init a)) a in
              if decide (v_state v = PROC_ZOMBIE) then a_wakeup (a_init a) a' else a'
            else a
        | None => a
        end
  end.

Definition v_dead : PV := mkPV PROC_UNUSED NULL 0 NULL.

Lemma t_sched_out (s : St) HL a :
  st_ok s HL a → wlp sched_out s (λ _ s', HL = {[ptable_lk]} ∧ st_ok s' HL a).
Proof.
  intros Hs. unfold sched_out.
  t_step t_this_proc. intros p s1 [-> Hs1].
  t_step t_holding. intros h s2 [-> Hs2].
  destruct (decide (ptable_lk ∈ HL)) as [Hin|]; [rewrite bool_decide_true by done|by rewrite bool_decide_false].
  cbn [negb]. t_step t_this_cpu. intros u s3 [_ Hs3].
  t_step (t_gets_lk ncli). intros n s4 [-> Hs4].
  destruct (Z.eqb_spec (ncli (lk s4)) 1) as [Hn|]; [|done]. cbn [negb].
  t_step t_proc. intros x s5 (_ & _ & Hs5). case_decide; [done|].
  t_step (t_gets_lk iflag). intros f s6 [-> Hs6]. destruct (iflag (lk s6)); [done|].
  t_step t_this_cpu. intros u' s7 [_ Hs7]. t_step (t_gets_lk int_on). intros on s8 [-> Hs8].
  t_step t_this_cpu. intros u'' s9 [_ Hs9]. split; [|done].
  destruct Hs4 as [[Hnc _ _ _ _] _]. rewrite Hn in Hnc.
  assert (size HL = 1%nat) as [x0 Hx0]%size_1_elem_of by lia.
  apply leibniz_equiv in Hx0. subst HL. f_equal. set_solver.
Qed.

Lemma t_sched_in on (s : St) HL a : st_ok s HL a → wlp (sched_in on) s (λ _ s', st_ok s' HL a).
Proof.
  intros Hs. unfold sched_in. t_step t_this_cpu. intros u s1 [_ Hs1]. by apply t_set_int_on.
Qed.

Lemma t_yield_out (s : St) HL a :
  st_ok s HL a → wlp yield_out s (λ _ s',
    st_ok s' {[ptable_lk]} (a_update (a_cur a) (v_set_state PROC_READY) a)).
Proof.
  intros Hs. unfold yield_out. t_step t_lock. intros u s1 [_ Hs1].
  t_step t_this_proc. intros p s2 [-> Hs2].
  rewrite wlp_bind. eapply wlp_mono; [by apply (t_update _ _ (v_set_state PROC_READY))|].
  intros u' s3 (_ & _ & Hs3). t_last t_sched_out. intros on s4 [HL4 Hs4]. by rewrite HL4 in Hs4.
Qed.

Lemma t_yield_in on (s : St) HL a :
  st_ok s HL a → wlp (yield_in on) s (λ _ s', st_ok s' (HL ∖ {[ptable_lk]}) a).
Proof.
  intros Hs. unfold yield_in. t_step t_sched_in. intros u s1 Hs1. t_last t_unlock. by intros ? ? [_ ?].
Qed.

Lemma t_forkret (s : St) HL a :
  st_ok s HL a → wlp forkret s (λ _ s', st_ok s' (HL ∖ {[ptable_lk]}) a).
Proof. intros Hs. unfold forkret. t_last t_unlock. by intros ? ? [_ ?]. Qed.

Definition v_sleep (c : Z) (v : PV) : PV := v_set_state PROC_SLEEPING (v_set_chan c v).

Lemma t_sleep_out c l (s : St) HL a :
  st_ok s HL a → wlp (sleep_out c l) s (λ _ s',
    st_ok s' {[ptable_lk]} (a_update (a_cur a) (v_sleep c) a)).
Proof.
  intros Hs. unfold sleep_out. t_step t_this_proc. intros p s1 [-> Hs1].
  destruct (a_cur a =? NULL); [done|]. destruct (l =? NULL); [done|].
  rewrite wlp_bind. eapply (wlp_mono _ _ (λ _ s', ∃ HL', st_ok s' HL' a)).
  { destruct (l =? ptable_lk); cbn [negb]; [by exists HL|].
    t_step t_lock. intros u s2 [_ Hs2]. t_last t_unlock. intros u' s3 [_ Hs3]. by eexists. }
  intros u s2 [HL2 Hs2]. rewrite wlp_bind.
  eapply wlp_mono; [by apply (t_update _ _ (v_sleep c))|].
  intros u' s3 (_ & _ & Hs3). t_last t_sched_out. intros on s4 [HL4 Hs4]. by rewrite HL4 in Hs4.
Qed.

Lemma t_sleep_in p l on (s : St) HL a :
  st_ok s HL a → wlp (sleep_in p l on) s (λ _ s',
    st_ok s' (if decide (l = ptable_lk) then HL else {[l]} ∪ HL ∖ {[ptable_lk]})
      (a_update p (v_set_chan NULL) a)).
Proof.
  intros Hs. unfold sleep_in. t_step t_sched_in. intros u s1 Hs1. rewrite wlp_bind.
  eapply wlp_mono; [by apply (t_update _ _ (v_set_chan NULL))|]. intros u' s2 (_ & _ & Hs2). cbn beta.
  destruct (Z.eqb_spec l ptable_lk); cbn [negb]; [by rewrite decide_True|]. rewrite decide_False by done.
  t_step t_unlock. intros u'' s3 [_ Hs3]. t_last t_lock. by intros ? ? [_ ?].
Qed.

Lemma t_reparent n thisp p (s : St) HL a :
  st_ok s HL a → wlp (reparent n thisp p) s (λ _ s', st_ok s' HL (a_reparent n thisp p a)).
Proof.
  revert p s a. induction n as [|n IH]; intros p s a Hs; [done|]. cbn [reparent a_reparent].
  t_step t_proc. intros x s1 (Hp & Hx & Hs1). rewrite Hx. rewrite wlp_bind. unfold wlp at 1, gets at 1.
  assert (proc_init1 s1 = a_init a) as -> by (by destruct Hs1 as [_ <-]).
  change (v_parent (pv x)) with (parent x). change (v_state (pv x)) with (pstate x).
  rewrite wlp_bind. eapply wlp_mono; [|intros u s2 Hs2; cbn beta; apply IH; exact Hs2].
  destruct (parent x =? thisp); [|done]. rewrite wlp_bind.
  eapply wlp_mono; [by apply (t_update _ _ (v_set_parent (a_init a)))|]. intros u s2 (_ & _ & Hs2). cbn beta.
  case_decide; [by apply t_wakeup_unlocked|done].
Qed.

Definition a_exit (parent : Z) (a : AState) : AState :=
  a_update (a_cur a) (v_set_state PROC_ZOMBIE)
    (a_reparent (Z.to_nat NPROC) (a_cur a) 0 (a_wakeup parent a)).

Lemma t_exit_out (s : St) HL a :
  st_ok s HL a → wlp exit_out s (λ _ s', a_cur a ≠ a_init a ∧
    ∃ v, a_tab a !! Z.to_nat (a_cur a) = Some v ∧ st_ok s' {[ptable_lk]} (a_exit (v_parent v) a)).
Proof.
  intros Hs. unfold exit_out. t_step t_this_proc. intros p s1 [-> Hs1]. rewrite wlp_bind. unfold wlp at 1, gets at 1.
  assert (proc_init1 s1 = a_init a) as -> by (by destruct Hs1 as [_ <-]).
  destruct (Z.eqb_spec (a_cur a) (a_init a)); [done|].
  t_step t_lock. intros u s2 [_ Hs2]. t_step t_proc. intros x s3 (_ & Hx & Hs3).
  t_step t_wakeup_unlocked. intros u' s4 Hs4. t_step t_reparent. intros u'' s5 Hs5. rewrite wlp_bind.
  eapply wlp_mono; [by apply (t_update _ _ (v_set_state PROC_ZOMBIE))|]. intros u3 s6 (_ & _ & Hs6).
  t_last t_sched_out. intros on s7 [HL7 Hs7]. split; [done|]. exists (pv x). split; [done|].
  by rewrite HL7 in Hs7.
Qed.

Lemma t_dealloc p (s : St) HL a :
  st_ok s HL a → wlp (deallocate_process_unlocked p) s (λ _ s', st_ok s' HL (a_update p (λ _, v_dead) a)).
Proof.
  intros Hs. unfold deallocate_process_unlocked. rewrite wlp_bind.
  eapply wlp_mono; [by apply t_update_same|]. intros u s1 (_ & _ & Hs1). cbn beta.
  t_step t_proc. intros x s2 (_ & _ & Hs2). rewrite wlp_bind.
  eapply (wlp_mono _ _ (λ _ s', st_ok s' HL a)).
  { destruct (negb (pgdir x =? 0)); [|done]. t_step @t_pm. intros u' s3 Hs3.
    eapply wlp_mono; [by apply t_update_same|]. by intros ? ? (_ & _ & ?). }
  intros u' s3 Hs3. t_step t_proc. intros y s4 (_ & _ & Hs4). rewrite wlp_bind.
  eapply (wlp_mono _ _ (λ _ s', st_ok s' HL a)).
  { destruct (negb (kstack y =? 0)); [|done]. t_step @t_pm. intros u'' s5 Hs5.
    eapply wlp_mono; [by apply t_update_same|]. by intros ? ? (_ & _ & ?). }
  intros u'' s5 Hs5. eapply wlp_mono; [by apply (t_update _ _ (λ _, v_dead))|]. by intros ? ? (_ & _ & ?).
Qed.

Lemma t_reap n thisp p hk (s : St) HL a :
  st_ok s HL a → wlp (reap n thisp p hk) s (λ r s',
    match r with
    | inl r => ∃ (c : nat) v, a_tab a !! c = Some v ∧ v_parent v = thisp ∧ v_state v = PROC_ZOMBIE ∧
        r = s32 (v_pid v) ∧ st_ok s' (HL ∖ {[ptable_lk]}) (a_update c (λ _, v_dead) a)
    | inr _ => st_ok s' HL a ∧ ∀ i v, p ≤ i < p + n → a_tab a !! Z.to_nat i = Some v →
        v_parent v = thisp → v_state v ≠ PROC_ZOMBIE
    end).
Proof.
  revert p hk s. induction n as [|n IH]; intros p hk s Hs; cbn [reap]; [split; [done|lia]|].
  t_step t_proc. intros x s1 (Hp & Hx & Hs1).
  assert (∀ hk', (parent x = thisp → pstate x ≠ PROC_ZOMBIE) → wlp (reap n thisp (p + 1) hk') s1 (λ r s',
    match r with
    | inl r => ∃ (c : nat) v, a_tab a !! c = Some v ∧ v_parent v = thisp ∧ v_state v = PROC_ZOMBIE ∧
        r = s32 (v_pid v) ∧ st_ok s' (HL ∖ {[ptable_lk]}) (a_update c (λ _, v_dead) a)
    | inr _ => st_ok s' HL a ∧ ∀ i v, p ≤ i < p + S n → a_tab a !! Z.to_nat i = Some v →
        v_parent v = thisp → v_state v ≠ PROC_ZOMBIE
    end)) as Hrec.
  { intros hk' Hnz. eapply wlp_mono; [by apply IH|]. intros [r|r] s2; [done|]. intros [Hs2 Hall]. split; [done|].
    intros i v Hi Hv Hpar. destruct (decide (i = p)) as [->|]; [|apply (Hall i v); [lia|done..]].
    rewrite Hx in Hv. injection Hv as <-. by apply Hnz. }
  destruct (Z.eqb_spec (parent x) thisp) as [Hpar|Hpar]; [|by apply Hrec].
  case_decide as Hz; [|by apply Hrec].
  t_step t_dealloc. intros u s2 Hs2. t_step t_unlock. intros u' s3 [_ Hs3].
  exists (Z.to_nat p), (pv x). split_and!; try done. by rewrite Z2Nat.id by done.
Qed.

Lemma t_wait_round thisp (s : St) HL a :
  st_ok s HL a → wlp (wait_round thisp) s (λ r s',
    match r with
    | inl r => (r = -1 ∧ st_ok s' (HL ∖ {[ptable_lk]}) a) ∨
        ∃ (c : nat) v, a_tab a !! c = Some v ∧ v_parent v = thisp ∧ v_state v = PROC_ZOMBIE ∧
        r = s32 (v_pid v) ∧ st_ok s' (HL ∖ {[ptable_lk]}) (a_update c (λ _, v_dead) a)
    | inr _ => st_ok s' {[ptable_lk]} (a_update (a_cur a) (v_sleep thisp) a) ∧
        ∀ (i : nat) v, (i < 64)%nat → a_tab a !! i = Some v → v_parent v = thisp → v_state v ≠ PROC_ZOMBIE
    end).
Proof.
  intros Hs. unfold wait_round. t_step t_reap. intros [r|hk] s1.
  { intros Hr. right. exact Hr. }
  intros [Hs1 Hall]. destruct hk; cbn [negb].
  - t_step t_proc. intros x s2 (_ & _ & Hs2). destruct (killed x).
    + t_step t_unlock. intros u s3 [_ Hs3]. by left.
    + t_step t_sleep_out. intros on s3 Hs3. split; [done|]. intros i v Hi Hv.
      apply (Hall i v); [unfold NPROC; lia|]. by rewrite Nat2Z.id.
  - t_step t_unlock. intros u s3 [_ Hs3]. by left.
Qed.

Lemma t_wait_enter (s : St) HL a :
  st_ok s HL a → wlp wait_enter s (λ p s', p = a_cur a ∧ st_ok s' ({[ptable_lk]} ∪ HL) a).
Proof.
  intros Hs. unfold wait_enter. t_step t_this_proc. intros p s1 [-> Hs1]. t_step t_lock. by intros u s2 [_ ?].
Qed.

Lemma t_wakeup c (s : St) HL a :
  st_ok s HL a → wlp (wakeup c) s (λ _ s', st_ok s' HL (a_wakeup c a)).
Proof.
  intros Hs. unfold wakeup. t_step t_lock. intros u s1 [Hn Hs1]. t_step t_wakeup_unlocked. intros u' s2 Hs2.
  t_last t_unlock. intros u'' s3 [_ Hs3]. by rewrite relock in Hs3.
Qed.

Lemma t_kvm_switch (s : St) HL a : st_ok s HL a → wlp kvm_switch s (λ _ s', st_ok s' HL a).
Proof.
  intros Hs. unfold kvm_switch. t_step (t_gets kernel_pgdir). intros d s1 [_ Hs1].
  t_step (t_gets (cpu (T:=T))). intros c s2 [_ Hs2]. by apply t_set_cpu.
Qed.

Lemma t_scheduler_in (s : St) HL a :
  st_ok s HL a → wlp scheduler_in s (λ _ s', st_ok s' HL (a_set_cur NULL a)).
Proof. intros Hs. unfold scheduler_in. t_step t_kvm_switch. intros u s1 Hs1. by apply t_set_cur. Qed.

(** Inside [push_cli] another pair of [push_cli] and [pop_cli] has no effect. *)
Definition inner (s : St) (L : LState) (a : AState) : Prop := lk s = pushed L ∧ abs s = a.

Lemma i_push (s : St) L HL a :
  lock_inv L HL → inner s L a →
  wlp (with_lk push_cli) s (λ _ s', lk s' = pushed (pushed L) ∧ abs s' = a).
Proof.
  intros Hi [Hl Ha]. destruct (lock_inv_cli _ _ Hi) as [Hok Hlt]. unfold wlp, with_lk, zoom. rewrite Hl.
  rewrite push_cli_ok by (apply pushed_ok; [done|lia]). by rewrite <- Ha.
Qed.

Lemma i_pop (s : St) L HL a :
  lock_inv L HL → lk s = pushed (pushed L) → abs s = a →
  wlp (with_lk pop_cli) s (λ _ s', inner s' L a).
Proof.
  intros Hi Hl Ha. destruct (lock_inv_cli _ _ Hi) as [Hok Hlt]. unfold wlp, with_lk, zoom. rewrite Hl.
  rewrite pop_cli_ok by (cbn; destruct Hok; (done || lia)). split; [|by rewrite <- Ha].
  cbn [lk]. rewrite popped_pushed by (apply pushed_ok; [done|lia]). unfold restore_flag, pushed. cbn.
  rewrite (proj2 (Z.eqb_neq _ _)) by (destruct Hok; lia). done.
Qed.

Lemma wlp_same_lk {A} (m : M St A) (s : St) (Q : A → St → Prop) :
  wlp m s (λ r s', lk s' = lk s ∧ abs s' = abs s → Q r s') →
  wlp m s (λ _ s', lk s' = lk s ∧ abs s' = abs s) → wlp m s Q.
Proof. unfold wlp. destruct (m s); naive_solver. Qed.

Lemma same_this_cpu (s : St) : wlp (with_lk this_cpu) s (λ _ s', lk s' = lk s ∧ abs s' = abs s).
Proof. unfold wlp, with_lk, zoom, this_cpu, bind, gets. by destruct (iflag (lk s)). Qed.

Lemma same_set_cpu c (s : St) : wlp (set_cpu c) s (λ _ s', lk s' = lk s ∧ abs s' = abs s).
Proof. done. Qed.

Lemma same_proc p (s : St) : wlp (proc p) s (λ _ s', s' = s).
Proof.
  unfold proc. destruct (p <? 0); [done|]. unfold wlp, bind, gets. by destruct (ptab s !! Z.to_nat p).
Qed.

Lemma i_write_tss p (s : St) L HL a :
  lock_inv L HL → inner s L a → wlp (write_tss p) s (λ _ s', inner s' L a).
Proof.
  intros Hi Hs. unfold write_tss. rewrite wlp_bind.
  eapply wlp_mono; [by eapply i_push|]. intros u s1 [Hl1 Ha1]. cbn beta. rewrite wlp_bind.
  eapply wlp_mono; [apply same_this_cpu|]. intros u' s2 [Hl2 Ha2]. cbn beta. rewrite wlp_bind.
  unfold wlp at 1, gets at 1. rewrite wlp_bind.
  eapply wlp_mono; [apply same_proc|]. intros x s3 ->. cbn beta. rewrite wlp_bind.
  eapply wlp_mono; [apply same_set_cpu|]. intros u'' s4 [Hl4 Ha4]. cbn beta.
  eapply i_pop; [done|congruence|congruence].
Qed.

Lemma i_this_proc (s : St) L HL a :
  lock_inv L HL → inner s L a → wlp this_proc s (λ p s', p = a_cur a ∧ inner s' L a).
Proof.
  intros Hi Hs. unfold this_proc. rewrite wlp_bind.
  eapply wlp_mono; [by eapply i_push|]. intros u s1 [Hl1 Ha1]. cbn beta. rewrite wlp_bind.
  eapply wlp_mono; [apply same_this_cpu|]. intros u' s2 [Hl2 Ha2]. cbn beta. rewrite wlp_bind.
  unfold wlp at 1, gets at 1. rewrite wlp_bind.
  eapply wlp_mono; [eapply (i_pop s2 L HL a); [done|congruence|congruence]|].
  intros u'' s3 Hs3. split; [|done]. by rewrite <- Ha1, <- Ha2.
Qed.

Lemma t_uvm_switch p (s : St) HL a : st_ok s HL a → wlp (uvm_switch p) s (λ _ s', st_ok s' HL a).
Proof.
  intros Hs. unfold uvm_switch. destruct (p =? NULL); [done|].
  t_step t_proc. intros x s1 (_ & _ & Hs1). destruct (kstack x =? 0); [done|]. destruct (pgdir x =? 0); [done|].
  t_step t_push. intros u s2 Hs2. destruct Hs1 as [Hi1 Ha1]. rewrite wlp_bind.
  eapply wlp_mono; [exact (i_write_tss p s2 (lk s1) HL a Hi1 Hs2)|]. intros u' s3 Hs3. cbn beta. rewrite wlp_bind.
  eapply wlp_mono; [exact (i_this_proc s3 (lk s1) HL a Hi1 Hs3)|]. intros q s4 [_ [Hl4 Ha4]]. cbn beta. rewrite wlp_bind.
  eapply wlp_mono; [apply same_proc|]. intros y s5 ->. cbn beta. rewrite wlp_bind.
  unfold wlp at 1, gets at 1. rewrite wlp_bind.
  eapply wlp_mono; [apply same_set_cpu|]. intros u'' s6 [Hl6 Ha6]. cbn beta.
  eapply (t_pop s6 s1); [done|congruence|congruence].
Qed.

Lemma t_scheduler_out p (s : St) HL a :
  st_ok s HL a → wlp (scheduler_out p) s (λ _ s', 0 ≤ p ∧ is_Some (a_tab a !! Z.to_nat p) ∧
    st_ok s' HL (a_set_cur p (a_update p (v_set_state PROC_RUNNING) a))).
Proof.
  intros Hs. unfold scheduler_out. t_step t_set_cur. intros u s1 Hs1. t_step t_uvm_switch. intros u' s2 Hs2.
  eapply wlp_mono; [by apply (t_update _ _ (v_set_state PROC_RUNNING))|]. intros u'' s3 (Hp & Hx & Hs3). done.
Qed.

Lemma t_grow_process n (s : St) HL a : st_ok s HL a → wlp (grow_process n) s (λ _ s', st_ok s' HL a).
Proof.
  intros Hs. unfold grow_process. destruct (n =? 0); [done|].
  t_step t_this_proc. intros p s1 [_ Hs1]. t_step t_proc. intros x s2 (_ & _ & Hs2).
  t_step @t_pm. intros sz s3 Hs3. destruct (sz =? 0); [done|]. rewrite wlp_bind.
  eapply wlp_mono; [by apply t_update_same|]. intros u s4 (_ & _ & Hs4). cbn beta.
  t_step t_uvm_switch. intros u' s5 Hs5. done.
Qed.

(** *** Creating processes *)

(** The slot [c] of the table holds [v], and the next pid is [n]. *)
Definition a_put (c : nat) (v : PV) (n : Z) (a : AState) : AState :=
  mkAState (a_cur a) (<[c := v]> (a_tab a)) n (a_init a).

Lemma a_update_put (c : nat) f v n a :
  (c < length (a_tab a))%nat → a_update c f (a_put c v n a) = a_put c (f v) n a.
Proof.
  intros Hc. unfold a_update, a_put. cbn. f_equal. rewrite Nat2Z.id. apply list_eq. intros i.
  destruct (decide (i = c)) as [->|].
  - by rewrite list_lookup_alter_eq, !list_lookup_insert_eq.
  - by rewrite list_lookup_alter_ne, !list_lookup_insert_ne.
Qed.

Lemma a_update_as_put (c : nat) f v a :
  a_tab a !! c = Some v → a_update c f a = a_put c (f v) (a_next a) a.
Proof.
  intros Hv. unfold a_update, a_put. f_equal. rewrite Nat2Z.id. apply list_eq. intros i.
  destruct (decide (i = c)) as [->|].
  - by rewrite list_lookup_alter_eq, Hv, list_lookup_insert_eq by (by eapply lookup_lt_Some).
  - by rewrite list_lookup_alter_ne, list_lookup_insert_ne.
Qed.

Lemma a_put_put c v v' n n' a : a_put c v n (a_put c v' n' a) = a_put c v n a.
Proof. unfold a_put. cbn. by rewrite list_insert_insert_eq. Qed.

Lemma t_update_put (c : nat) f g v n (s : St) HL a :
  (∀ x, pv (f x) = g (pv x)) → (c < length (a_tab a))%nat → st_ok s HL (a_put c v n a) →
  wlp (update c f) s (λ _ s', st_ok s' HL (a_put c (g v) n a)).
Proof.
  intros Hfg Hc Hs. eapply wlp_mono; [by apply (t_update _ _ g)|].
  intros u s' (_ & _ & Hs'). by rewrite a_update_put in Hs'.
Qed.

Lemma unused_from_spec l i :
  unused_from l i = NULL ∨
  ∃ (j : nat) p, unused_from l i = i + j ∧ l !! j = Some p ∧ pstate p = PROC_UNUSED.
Proof.
  revert i. induction l as [|p l IH]; intros i; [by left|]. cbn. case_decide as Hp.
  - right. exists 0%nat, p. split; [lia|done].
  - destruct (IH (i + 1)) as [->|(j & q & -> & Hq & Hu)]; [by left|].
    right. exists (S j), q. split; [lia|done].
Qed.

Lemma t_setup_process_stack (c : nat) v n (s : St) HL a :
  (c < length (a_tab a))%nat → st_ok s HL (a_put c v n a) →
  wlp (setup_process_stack c) s (λ b s',
    st_ok s' HL (a_put c (if b : bool then v else v_set_state PROC_UNUSED v) n a)).
Proof.
  intros Hc Hs. unfold setup_process_stack. t_step @t_pm. intros k s1 Hs1. rewrite wlp_bind.
  eapply wlp_mono; [by apply t_update_same|]. cbn beta. intros u s2 (_ & _ & Hs2).
  destruct (k =? 0).
  { rewrite wlp_bind. eapply wlp_mono; [by eapply (t_update_put _ _ (v_set_state PROC_UNUSED))|].
    cbn beta. intros u' s3 Hs3. exact Hs3. }
  t_step @t_pm. intros u' s3 Hs3. rewrite wlp_bind.
  eapply wlp_mono; [by apply t_update_same|]. cbn beta. intros u2 s4 (_ & _ & Hs4).
  t_step @t_pm. intros u3 s5 Hs5. t_step @t_pm. intros u4 s6 Hs6. exact Hs6.
Qed.

(** A new process in a slot that was not used *)
Definition v_new (n : Z) (v : PV) : PV := v_set_pid n (v_set_state PROC_CREATED v).

Definition fresh_slot (c : nat) (v : PV) (a : AState) : Prop :=
  a_tab a !! c = Some v ∧ v_state v = PROC_UNUSED ∧ (0 < c)%nat ∧ a_next a ≤ NPROC.

Lemma t_allocate_process (s : St) HL a :
  st_ok s HL a → wlp allocate_process s (λ p s',
    (p = NULL ∧ st_ok s' HL a) ∨
    ∃ c v, fresh_slot c v a ∧
      ((p = NULL ∧ st_ok s' HL (a_put c (v_set_state PROC_UNUSED (v_new (a_next a) v)) (s32 (a_next a + 1)) a)) ∨
       (p = c ∧ st_ok s' HL (a_put c (v_new (a_next a) v) (s32 (a_next a + 1)) a)))).
Proof.
  intros Hs. unfold allocate_process. rewrite wlp_bind. unfold wlp at 1, gets at 1.
  assert (nextpid s = a_next a) as -> by (by destruct Hs as [_ <-]).
  destruct (Z.ltb_spec NPROC (a_next a)) as [|Hle]; [done|].
  t_step t_lock. intros u s1 [Hnl Hs1]. rewrite wlp_bind. unfold get_unused_process.
  unfold wlp at 1, bind at 1, gets at 1. cbn.
  destruct (unused_from_spec (drop 1 (ptab s1)) 1) as [->|(j & x & -> & Hx & Hu)].
  { cbn. t_step t_unlock. intros u' s2 [_ Hs2]. left. split; [done|].
    by rewrite relock in Hs2. }
  rewrite (proj2 (Z.eqb_neq _ _)) by (unfold NULL; lia).
  rewrite lookup_drop in Hx. set (c := (1 + j)%nat) in *. assert (1 + j = Z.of_nat c) as -> by lia.
  assert (a_tab a !! c = Some (pv x)) as Hc
    by (destruct Hs1 as [_ <-]; change (a_tab (abs s1)) with (pv <$> ptab s1); by rewrite list_lookup_fmap, Hx).
  pose proof (lookup_lt_Some _ _ _ Hc) as Hlen.
  rewrite wlp_bind. unfold wlp at 1, gets at 1.
  assert (nextpid s1 = a_next a) as -> by (by destruct Hs1 as [_ <-]).
  rewrite wlp_bind. eapply wlp_mono; [by apply (t_update _ _ (v_new (a_next a)))|].
  cbn beta. intros u2 s2 (_ & _ & Hs2). rewrite (a_update_as_put _ _ _ _ Hc) in Hs2.
  t_step t_set_next. intros u3 s3 Hs3.
  t_step t_unlock. intros u4 s4 [_ Hs4].
  rewrite relock in Hs4 by done.
  rewrite wlp_bind. eapply wlp_mono; [eapply (t_setup_process_stack c _ _ _ _ a); [exact Hlen|exact Hs4]|].
  cbn beta. intros b s5 Hs5. right. exists c, (pv x). split; [by split_and!; [| |lia|]|].
  destruct b; [by right|by left].
Qed.

Lemma t_file_dup f (s : St) HL a : st_ok s HL a → wlp (file_dup f) s (λ _ s', st_ok s' HL a).
Proof.
  intros [Hi Ha]. unfold file_dup, update_file, file, wlp, bind, gets.
  destruct (f <? 0); [done|]. destruct (ftab s !! Z.to_nat f) as [x|] eqn:Hx; [|done]. cbn.
  destruct (fnref x <? 1); [done|]. rewrite Hx. by split.
Qed.

Lemma t_copy_fds l c i (s : St) HL a : st_ok s HL a → wlp (copy_fds l c i) s (λ _ s', st_ok s' HL a).
Proof.
  revert i s. induction l as [|f l IH]; intros i s Hs; [done|]. cbn [copy_fds]. rewrite wlp_bind.
  eapply wlp_mono; [|intros u s' Hs'; cbn beta; apply IH, Hs'].
  destruct (negb (f =? NULL)); [|done]. t_step t_file_dup. intros g s1 Hs1.
  eapply wlp_mono; [by apply t_update_same|]. by intros ? ? (_ & _ & ?).
Qed.

(** What [fork] does to the table: nothing, a slot that is unused again, or a
    new process with the next pid. *)
Definition forked (r : Z) (a a' : AState) : Prop :=
  (r = -1 ∧ a' = a) ∨
  ∃ c v v', fresh_slot c v a ∧ a' = a_put c v' (a_next a + 1) a ∧
    ((r = -1 ∧ v_state v' = PROC_UNUSED) ∨
     (r = v_pid v' ∧ v_state v' = PROC_READY ∧ v_pid v' = a_next a ∧ v_parent v' = a_cur a)).

Lemma t_fork (s : St) HL a :
  0 ≤ a_next a → st_ok s HL a → wlp fork s (λ r s', ∃ a', forked r a a' ∧ st_ok s' HL a').
Proof.
  intros Hpos Hs. unfold fork. t_step t_this_proc. intros thisp s1 [-> Hs1].
  t_step t_allocate_process. intros p s2 [[-> Hs2]|(c & v & Hfresh & Hcase)].
  { cbn. exists a. split; [by left|done]. }
  pose proof Hfresh as (Hc & Hu & Hc0 & Hnp). pose proof (lookup_lt_Some _ _ _ Hc) as Hlen.
  assert (s32 (a_next a + 1) = a_next a + 1) as Hs32 by (apply s32_small; unfold NPROC in *; lia).
  rewrite Hs32 in Hcase.
  destruct Hcase as [[-> Hs2]|[-> Hs2]].
  { cbn. eexists. split; [|exact Hs2]. right. exists c, v, (v_set_state PROC_UNUSED (v_new (a_next a) v)).
    split; [done|]. split; [done|]. by left. }
  rewrite (proj2 (Z.eqb_neq _ _)) by (unfold NULL; lia).
  t_step t_proc. intros x s3 (_ & _ & Hs3).
  rewrite wlp_bind. eapply wlp_mono; [by apply t_pm|]. intros [ok d] s4 Hs4. cbn beta iota.
  destruct ok; cbn [negb].
  2:{ rewrite wlp_bind. eapply wlp_mono; [by apply t_dealloc|]. cbn beta. intros u s5 Hs5.
      rewrite a_update_put in Hs5 by done. eexists. split; [|exact Hs5]. right.
      exists c, v, v_dead. split; [done|]. split; [done|]. by left. }
  rewrite wlp_bind. eapply wlp_mono; [by apply t_update_same|]. cbn beta. intros u s5 (_ & _ & Hs5).
  rewrite wlp_bind. eapply wlp_mono; [by eapply (t_update_put _ _ (v_set_parent (a_cur a)))|].
  cbn beta. intros u2 s6 Hs6. t_step t_proc. intros y s7 (_ & _ & Hs7).
  t_step @t_pm. intros u3 s8 Hs8. t_step @t_pm. intros u4 s9 Hs9. t_step t_copy_fds. intros u5 s10 Hs10.
  t_step t_proc. intros z s11 (_ & _ & Hs11). rewrite wlp_bind.
  destruct (name_copy (pname z) (name_str (pname x))) as [nm|]; [|done].
  unfold need. change (wlp (ret nm) ?s ?Q) with (Q nm s). cbn beta.
  rewrite wlp_bind. eapply wlp_mono; [by apply t_update_same|]. cbn beta. intros u6 s12 (_ & _ & Hs12).
  t_step t_lock. intros u7 s13 [Hnl Hs13].
  rewrite wlp_bind. eapply wlp_mono; [by eapply (t_update_put _ _ (v_set_state PROC_READY))|].
  cbn beta. intros u8 s14 Hs14. t_step t_unlock. intros u9 s15 [_ Hs15].
  rewrite wlp_bind. eapply wlp_mono; [by apply t_proc|]. intros w s16 (_ & Hw & Hs16).
  rewrite relock in Hs16 by done.
  eexists. split; [|exact Hs16]. right. exists c, v.
  eexists. split; [done|]. split; [reflexivity|]. right. split_and!; try done.
  unfold a_put in Hw. cbn [a_tab] in Hw. rewrite Nat2Z.id, list_lookup_insert_eq in Hw by done.
  apply (inj Some) in Hw. change (pid w) with (v_pid (pv w)). rewrite <- Hw. cbn [v_pid v_set_state v_set_parent v_new v_set_pid]. apply s32_small. unfold NPROC in *. lia.
Qed.
End triples.

(** ** Sleepers *)

Lemma a_update_lookup p f a (i : nat) :
  a_tab (a_update p f a) !! i = if decide (i = Z.to_nat p) then f <$> a_tab a !! i else a_tab a !! i.
Proof.
  cbn. case_decide as Hi; [subst i; apply list_lookup_alter_eq|by rewrite list_lookup_alter_ne].
Qed.

Definition asleep_on (c : Z) (a : AState) : Prop :=
  ∃ (i : nat) v, a_tab a !! i = Some v ∧ v_state v = PROC_SLEEPING ∧ v_chan v = c.

Lemma wakeup_asleep c a : ¬ asleep_on c (a_wakeup c a).
Proof.
  intros (i & v & Hv & Hs & Hch). cbn in Hv. rewrite list_lookup_fmap in Hv.
  apply fmap_Some in Hv as (w & _ & ->). unfold v_wake in *. case_decide as Hd; [done|]. by destruct Hd.
Qed.

Lemma wakeup_other c c' a : asleep_on c (a_wakeup c' a) → asleep_on c a.
Proof.
  intros (i & v & Hv & Hs & Hch). cbn in Hv. rewrite list_lookup_fmap in Hv.
  apply fmap_Some in Hv as (w & Hw & ->). exists i, w. unfold v_wake in *. by case_decide.
Qed.

Lemma asleep_update p f a c :
  asleep_on c (a_update p f a) → asleep_on c a ∨ ∃ v, v_state (f v) = PROC_SLEEPING ∧ v_chan (f v) = c.
Proof.
  intros (i & v & Hv & Hs & Hch). rewrite a_update_lookup in Hv. case_decide.
  - apply fmap_Some in Hv as (w & Hw & ->). right. by exists w.
  - left. by exists i, v.
Qed.

(** A process that goes to sleep on a channel does not sleep on another one. *)
Lemma asleep_sleep p a c c' : asleep_on c (a_update p (v_sleep c') a) → c ≠ c' → asleep_on c a.
Proof. intros [?|(v & _ & Hc)]%asleep_update Hne; [done|]. by cbn in Hc. Qed.

Lemma asleep_chan_null p a c : asleep_on c (a_update p (v_set_chan NULL) a) → c ≠ NULL → asleep_on c a.
Proof. intros [?|(v & _ & Hc)]%asleep_update Hne; [done|]. by cbn in Hc. Qed.

(** ** What scheduling does not touch *)

Section rest.
Context `{KernelLayout, KernelText} {T : Type}.
Notation St := (KState T).

(** The operation leaves the part of the state alone that process.c does not
    know. *)
Definition keeps {A} (m : M St A) : Prop := ∀ s, wlp m s (λ _ s', rest s' = rest s).

Lemma keeps_bind {A B} (m : M St A) (f : A → M St B) :
  keeps m → (∀ a, keeps (f a)) → keeps (bind m f).
Proof.
  intros Hm Hf s. rewrite wlp_bind. eapply wlp_mono; [apply Hm|]. cbn beta. intros a s' <-. apply Hf.
Qed.

Lemma keeps_ret {A} (a : A) : keeps (ret a).
Proof. by intros s. Qed.

Lemma keeps_gets {A} (f : St → A) : keeps (gets f).
Proof. by intros s. Qed.

Lemma keeps_panic {A} msg : keeps (panic (A:=A) msg).
Proof. by intros s. Qed.

Lemma keeps_lk {A} (m : M LState A) : keeps (with_lk m).
Proof. intros s. unfold wlp, with_lk, zoom. by destruct (m (lk s)). Qed.

Lemma keeps_pm {A} (m : M Pmem A) : keeps (with_pm m).
Proof. intros s. unfold wlp, with_pm, zoom. by destruct (m (pm s)). Qed.

Lemma keeps_proc p : keeps (proc p).
Proof.
  intros s. unfold proc. destruct (p <? 0); [done|].
  unfold wlp, bind, gets. by destruct (ptab s !! Z.to_nat p).
Qed.

Lemma keeps_update p f : keeps (update p f).
Proof. apply keeps_bind; [apply keeps_proc|]. intros x s. done. Qed.

Lemma keeps_if {A} (b : bool) (m n : M St A) : keeps m → keeps n → keeps (if b then m else n).
Proof. by destruct b. Qed.
End rest.

Create HintDb keeps.
#[export] Hint Resolve keeps_bind keeps_ret keeps_gets keeps_panic keeps_lk keeps_pm keeps_proc keeps_update keeps_if : keeps.

Section rest_ops.
Context `{KernelLayout, KernelText} {T : Type}.
Notation St := (KState T).

Lemma keeps_this_proc : keeps (T:=T) this_proc.
Proof. unfold this_proc. auto 10 with keeps. Qed.

Lemma keeps_sched_out : keeps (T:=T) sched_out.
Proof.
  unfold sched_out. apply keeps_bind; [apply keeps_this_proc|]. intros p.
  apply keeps_bind; [auto with keeps|]. intros h. apply keeps_if; [auto with keeps|].
  apply keeps_bind; [auto with keeps|]. intros _. apply keeps_bind; [auto with keeps|]. intros n.
  apply keeps_if; [auto with keeps|]. apply keeps_bind; [auto with keeps|]. intros x.
  case_decide; auto 20 with keeps.
Qed.

Lemma keeps_sleep_out c l : keeps (T:=T) (sleep_out c l).
Proof.
  unfold sleep_out. apply keeps_bind; [apply keeps_this_proc|]. intros p.
  repeat (apply keeps_if; [auto with keeps|]).
  apply keeps_bind; [auto with keeps|]. intros _. apply keeps_bind; [auto with keeps|]. intros _.
  apply keeps_sched_out.
Qed.

Lemma keeps_sleep_in p l on : keeps (T:=T) (sleep_in p l on).
Proof. unfold sleep_in, sched_in. auto 10 with keeps. Qed.

Lemma keeps_wakeup c : keeps (T:=T) (wakeup c).
Proof.
  unfold wakeup. apply keeps_bind; [auto with keeps|]. intros _. apply keeps_bind; [|auto with keeps]. by intros s.
Qed.
End rest_ops.

#[export] Hint Resolve keeps_this_proc keeps_sched_out keeps_sleep_out keeps_sleep_in keeps_wakeup : keeps.

(** ** Operations that return *)

Section returns.
Context `{KernelLayout, KernelText} {T : Type}.
Notation St := (KState T).

(** The locks [HL] are held, the locks [D] exist, the scheduler sees [a], and
    the rest of the state is [t]. *)
Record ready (s : St) (HL D : gset Z) (a : AState) (t : T) : Prop := mk_ready {
  rd_st : st_ok s HL a;
  rd_dom : ∀ l, l ∈ D → is_Some (locks (lk s) !! l);
  rd_rest : rest s = t;
}.

Lemma wlp_returns {A} (m : M St A) s P r s' : wlp m s P → m s = Ok r s' → P r s'.
Proof. unfold wlp. intros Hp Hm. by rewrite Hm in Hp. Qed.

Lemma lock_returns (s : St) HL D a t l :
  ready s HL D a t → l ∈ D → l ∉ HL → ∃ s', with_lk (lock l) s = Ok tt s' ∧ ready s' ({[l]} ∪ HL) D a t.
Proof.
  intros [Hs Hd Hr] Hl Hn. pose proof Hs as [Hi _]. destruct (lock_inv_cli _ _ Hi) as [Hok Hlt].
  destruct (Hd l Hl) as [x Hx]. pose proof (li_state _ _ Hi _ _ Hx) as Hf. rewrite decide_False in Hf by done. subst x.
  pose proof (lock_ok (lk s) l Hok ltac:(lia) Hx) as Hrun.
  assert (with_lk (lock l) s = Ok tt (mkKState (with_lock l taken (pushed (lk s))) (cpu s) (cur s) (ptab s)
    (nextpid s) (proc_init1 s) (kernel_pgdir s) (pm s) (ftab s) (rest s))) as Hw
    by (unfold with_lk, zoom; by rewrite Hrun).
  eexists. split; [exact Hw|]. pose proof (wlp_returns _ _ _ _ _ (t_lock s HL a l Hs) Hw) as [_ Hs'].
  split; [done| |done]. intros k Hk. cbn. destruct (decide (k = l)) as [->|].
  - rewrite lookup_insert_eq. by eexists.
  - rewrite lookup_insert_ne by done. by apply Hd.
Qed.

Lemma unlock_returns (s : St) HL D a t l :
  ready s HL D a t → l ∈ HL → ∃ s', with_lk (unlock l) s = Ok tt s' ∧ ready s' (HL ∖ {[l]}) D a t.
Proof.
  intros [Hs Hd Hr] Hl. pose proof Hs as [Hi _]. destruct (lock_inv_cli _ _ Hi) as [Hok Hlt].
  destruct (li_dom _ _ Hi l Hl) as [x Hx]. pose proof (li_state _ _ Hi _ _ Hx) as Hf.
  rewrite decide_True in Hf by done. subst x.
  assert (0 < ncli (lk s)) as Hp.
  { rewrite (li_ncli _ _ Hi). assert (size HL ≠ 0%nat); [|lia].
    intros Hz. apply size_empty_inv, leibniz_equiv in Hz. subst. by apply elem_of_empty in Hl. }
  pose proof (unlock_ok (lk s) l Hok Hp Hx) as Hrun.
  assert (with_lk (unlock l) s = Ok tt (mkKState (popped (with_lock l new_lock (lk s))) (cpu s) (cur s) (ptab s)
    (nextpid s) (proc_init1 s) (kernel_pgdir s) (pm s) (ftab s) (rest s))) as Hw
    by (unfold with_lk, zoom; by rewrite Hrun).
  eexists. split; [exact Hw|]. pose proof (wlp_returns _ _ _ _ _ (t_unlock s HL a l Hs) Hw) as [_ Hs'].
  split; [done| |done]. intros k Hk. cbn. destruct (decide (k = l)) as [->|].
  - rewrite lookup_insert_eq. by eexists.
  - rewrite lookup_insert_ne by done. by apply Hd.
Qed.

Lemma wakeup_returns (s : St) HL D a t c :
  ready s HL D a t → ptable_lk ∈ D → ptable_lk ∉ HL →
  ∃ s', wakeup c s = Ok tt s' ∧ ready s' HL D (a_wakeup c a) t.
Proof.
  intros Hs Hd Hn. destruct (lock_returns s HL D a t ptable_lk Hs Hd Hn) as (s1 & Hl & Hs1).
  unfold wakeup. rewrite (bind_ok _ _ _ _ _ Hl).
  set (s2 := mkKState (lk s1) (cpu s1) (cur s1) (wake c <$> ptab s1) (nextpid s1) (proc_init1 s1)
    (kernel_pgdir s1) (pm s1) (ftab s1) (rest s1)).
  assert (wakeup_unlocked c s1 = Ok tt s2) as Hw by done. rewrite (bind_ok _ _ _ _ _ Hw).
  assert (ready s2 ({[ptable_lk]} ∪ HL) D (a_wakeup c a) t) as Hs2.
  { destruct Hs1 as [Hst Hd1 Hr1]. split; [|exact Hd1|exact Hr1].
    exact (wlp_returns _ _ _ _ _ (t_wakeup_unlocked c s1 _ _ Hst) Hw). }
  destruct (unlock_returns s2 _ D _ t ptable_lk Hs2) as (s3 & Hu & Hs3); [set_solver|].
  exists s3. split; [exact Hu|]. by rewrite relock in Hs3.
Qed.
End returns.
