(* ===== verification/Switch.v ===== *)
(** * Operations that give up the CPU

    An operation that may call [sched] is a tree: it is finished, or it stands
    at the call of [swtch] and goes on from the state in which it is switched
    in again. Between two switches nothing else of the kernel runs; what
    happens there is a section of the operation. *)
From S2P Require Import Prelude Machine CMem CString Palloc PgTbl VMem Locks Segments Process ProcSpec.

Inductive run (St A : Type) : Type :=
| Done (r : result St A)
| Switch (s : St) (k : St → run St A).
Arguments Done {St A} r.
Arguments Switch {St A} s k.

Definition B (St A : Type) : Type := St → run St A.

Definition lift {St A} (m : M St A) : B St A := λ s, Done (m s).

Fixpoint run_bind {St A C} (x : run St A) (f : A → B St C) : run St C :=
  match x with
  | Done (Ok a s) => f a s
  | Done (Panic msg) => Done (Panic msg)
  | Done Fault => Done Fault
  | Done Hang => Done Hang
  | Switch s k => Switch s (λ s', run_bind (k s') f)
  end.

Definition bbind {St A C} (m : B St A) (f : A → B St C) : B St C := λ s, run_bind (m s) f.

Definition bret {St A} (a : A) : B St A := lift (ret a).

(** The call of [swtch]: the state that the process is switched in with is
    given by the rest of the system. *)
Definition swtch {St} : B St unit := λ s, Switch s (λ s', Done (Ok tt s')).

Notation "'let>' x ':=' m 'in' k" := (bbind m (λ x, k))
  (at level 10, x name, m at level 100, k at level 200) : melon_scope.
Notation "'let>' ' p ':=' m 'in' k" := (bbind m (λ p, k))
  (at level 10, p pattern, m at level 100, k at level 200) : melon_scope.
Notation "'do>' m 'in' k" := (bbind m (λ _, k))
  (at level 10, m at level 100, k at level 200) : melon_scope.

(** A loop whose body may switch; the fuel bounds the number of rounds. *)
Fixpoint bloop {St A C} (fuel : nat) (body : A → B St (A + C)) (a : A) : B St C :=
  match fuel with
  | O => lift hang
  | S fuel =>
      let> r := body a in
      match r with
      | inl a' => bloop fuel body a'
      | inr c => bret c
      end
  end.

(** ** process.c: the functions that call [sched] *)

Section blocking.
Context `{KernelLayout, KernelText} {T : Type}.
Notation St := (KState T).

Definition sleep (c l : Z) : B St unit :=
  let> p := lift (gets cur) in
  let> on := lift (sleep_out c l) in
  do> swtch in
  lift (sleep_in p l on).

Definition yield : B St unit :=
  let> on := lift yield_out in
  do> swtch in
  lift (yield_in on).

(** After [sched] a zombie must not come back. *)
Definition exit : B St unit :=
  let> _ := lift exit_out in
  do> swtch in
  lift (panic "zombie exit").

Definition wait (fuel : nat) : B St Z :=
  let> p := lift wait_enter in
  bloop fuel (λ _,
    let> r := lift (wait_round p) in
    match r with
    | inl pid => bret (inr pid)
    | inr on => do> swtch in do> lift (sleep_in p ptable_lk on) in bret (inl tt)
    end) tt.
End blocking.

(** ** The sections of an operation

    [sections R s0 x L o]: [x] is what is left of an operation whose current
    section began in [s0]. [L] holds the first and the last state of every
    section that ended with a switch. [o] is [None] when the operation stays
    switched out; otherwise it is the first state of the last section, the
    result and the last state. [R] tells in which states a process may be
    switched in. *)
Section sections.
Context {St : Type} (R : St → St → Prop).

Inductive sections {A} : St → run St A → list (St * St) → option (St * A * St) → Prop :=
| sec_done s0 a s : sections s0 (Done (Ok a s)) [] (Some (s0, a, s))
| sec_stop s0 s k : sections s0 (Switch s k) [(s0, s)] None
| sec_switch s0 s s' k L o :
    R s s' → sections s' (k s') L o → sections s0 (Switch s k) ((s0, s) :: L) o.

(** Every run of the operation has the property [Φ]. *)
Definition rwlp {A} (s0 : St) (x : run St A) (Φ : list (St * St) → option (St * A * St) → Prop) : Prop :=
  ∀ L o, sections s0 x L o → Φ L o.

Lemma rwlp_mono {A} s0 (x : run St A) (Φ Ψ : list (St * St) → option (St * A * St) → Prop) :
  rwlp s0 x Φ → (∀ L o, Φ L o → Ψ L o) → rwlp s0 x Ψ.
Proof. unfold rwlp. eauto. Qed.

Lemma rwlp_lift {A} s0 s (m : M St A) (Φ : list (St * St) → option (St * A * St) → Prop) :
  wlp m s (λ a s', Φ [] (Some (s0, a, s'))) → rwlp s0 (lift m s) Φ.
Proof.
  unfold rwlp, lift. intros Hm L o Hs. inversion Hs as [? a s' Heq| |]; subst.
  rewrite wlp_run in Hm. by apply Hm.
Qed.

Lemma rwlp_swtch s0 s (Φ : list (St * St) → option (St * unit * St) → Prop) :
  Φ [(s0, s)] None → (∀ s', R s s' → Φ [(s0, s)] (Some (s', tt, s'))) → rwlp s0 (swtch s) Φ.
Proof.
  unfold rwlp, swtch. intros Hn Hs L o Hsec.
  inversion Hsec as [|? ? ?|? ? s' ? L' o' HR Hrest]; subst; [done|].
  inversion Hrest; subst. by apply Hs.
Qed.

Lemma sections_bind {A C} s0 (x : run St A) (f : A → B St C) L o :
  sections s0 (run_bind x f) L o →
  (o = None ∧ sections s0 x L None) ∨
  ∃ L1 sb a s L2, sections s0 x L1 (Some (sb, a, s)) ∧ sections sb (f a s) L2 o ∧ L = L1 ++ L2.
Proof.
  revert s0 L. induction x as [r|s k IH]; intros s0 L Hs.
  - destruct r as [a s|msg| |]; cbn in Hs; [|by inversion Hs..].
    right. exists [], s0, a, s, L. split; [constructor|done].
  - cbn in Hs. inversion Hs as [|? ? ?|? ? s' ? L' o' HR Hrest]; subst.
    + left. split; [done|constructor].
    + destruct (IH _ _ _ Hrest) as [[-> Hn]|(L1 & sb & a & s1 & L2 & H1 & H2 & ->)].
      * left. split; [done|]. by econstructor.
      * right. exists ((s0, s) :: L1), sb, a, s1, L2. split; [by econstructor|]. done.
Qed.

Lemma rwlp_bind {A C} s0 s (m : B St A) (f : A → B St C) (Φ : list (St * St) → option (St * C * St) → Prop) :
  rwlp s0 (m s) (λ L o, match o with
    | None => Φ L None
    | Some (sb, a, s') => rwlp sb (f a s') (λ L2 o2, Φ (L ++ L2) o2)
    end) → rwlp s0 (bbind m f s) Φ.
Proof.
  unfold rwlp, bbind. intros Hm L o Hs.
  destruct (sections_bind _ _ _ _ _ Hs) as [[-> Hn]|(L1 & sb & a & s1 & L2 & H1 & H2 & ->)].
  - by apply (Hm _ _ Hn).
  - by apply (Hm _ _ H1).
Qed.

(** An operation that cannot switch runs in the current section. *)
Lemma rwlp_bind_lift {A C} s0 s (m : M St A) (f : A → B St C) (Φ : list (St * St) → option (St * C * St) → Prop) :
  wlp m s (λ a s', rwlp s0 (f a s') Φ) → rwlp s0 (bbind (lift m) f s) Φ.
Proof. intros Hm. apply rwlp_bind, rwlp_lift. eapply wlp_mono; [exact Hm|]. by cbn. Qed.

Lemma rwlp_bind_swtch {C} s0 s (f : unit → B St C) (Φ : list (St * St) → option (St * C * St) → Prop) :
  Φ [(s0, s)] None →
  (∀ s', R s s' → rwlp s' (f tt s') (λ L o, Φ ((s0, s) :: L) o)) →
  rwlp s0 (bbind swtch f s) Φ.
Proof. intros Hn Hs. by apply rwlp_bind, rwlp_swtch. Qed.

Lemma rwlp_bret {A} s0 s (a : A) (Φ : list (St * St) → option (St * A * St) → Prop) :
  Φ [] (Some (s0, a, s)) → rwlp s0 (bret a s) Φ.
Proof. intros Hm. by apply rwlp_lift. Qed.

Lemma bbind_assoc {A C D} (m : B St A) (f : A → B St C) (g : C → B St D) s0 s
    (Φ : list (St * St) → option (St * D * St) → Prop) :
  rwlp s0 (bbind m (λ a, bbind (f a) g) s) Φ → rwlp s0 (bbind (bbind m f) g s) Φ.
Proof.
  unfold rwlp, bbind. intros Hm L o Hs. apply Hm. clear Hm. revert s0 L Hs.
  induction (m s) as [r|s1 k IH]; intros s0 L Hs; [by destruct r|].
  cbn in *. inversion Hs; subst; [constructor|]. econstructor; [done|]. by apply IH.
Qed.
End sections.

(** ** Runs without a switch *)

Lemma bbind_done {St A C} (m : B St A) (f : A → B St C) s a s' :
  m s = Done (Ok a s') → bbind m f s = f a s'.
Proof. unfold bbind. by intros ->. Qed.

Lemma bbind_lift {St A C} (m : M St A) (f : A → B St C) s a s' :
  m s = Ok a s' → bbind (lift m) f s = f a s'.
Proof. unfold bbind, lift. by intros ->. Qed.

(** [bwp m s Q]: the operation returns without a switch, with [Q]. *)
Definition bwp {St A} (m : B St A) (s : St) (Q : A → St → Prop) : Prop :=
  match m s with Done (Ok a s') => Q a s' | _ => False end.

Section bwp.
Context {St : Type}.
Implicit Types (s : St).

Lemma bwp_lift {A} (m : M St A) s Q : bwp (lift m) s Q = wp m s Q.
Proof. unfold bwp, lift, wp. by destruct (m s). Qed.

Lemma bwp_bret {A} (a : A) s (Q : A → St → Prop) : bwp (bret a) s Q = Q a s.
Proof. done. Qed.

Lemma bwp_bind {A C} (m : B St A) (f : A → B St C) s Q : bwp (bbind m f) s Q = bwp m s (λ a s', bwp (f a) s' Q).
Proof. unfold bwp, bbind. by destruct (m s) as [[]|]. Qed.

Lemma bwp_bind_lift {A C} (m : M St A) (f : A → B St C) s Q : bwp (bbind (lift m) f) s Q = wp m s (λ a s', bwp (f a) s' Q).
Proof. by rewrite bwp_bind, bwp_lift. Qed.

Lemma bwp_mono {A} (m : B St A) s (P Q : A → St → Prop) : bwp m s P → (∀ a s', P a s' → Q a s') → bwp m s Q.
Proof. unfold bwp. destruct (m s) as [[]|]; eauto. Qed.
End bwp.

Definition is_switch {St A} (x : run St A) : bool := match x with Switch _ _ => true | Done _ => false end.

Lemma wlp_and {St A} (m : M St A) s (P Q : A → St → Prop) :
  wlp m s P → wlp m s Q → wlp m s (λ a s', P a s' ∧ Q a s').
Proof. unfold wlp. by destruct (m s). Qed.

(** Run the operation at the head, which cannot switch, with the triple [H] and
    the lemma [K] that it keeps the rest of the state. *)
Ltac r_step H K :=
  apply rwlp_bind_lift; eapply wlp_mono; [apply wlp_and; [eapply H; eassumption|apply K]|]; cbn beta.

Section sleep.
Context `{KernelLayout, KernelText} {T : Type}.
Notation St := (KState T).
Context (R : St → St → Prop).

(** [sleep] ends a section with the lock released and the process asleep; the
    next section begins with the lock taken again. *)
Lemma rwlp_bind_sleep {C} s0 (s : St) HL a c l (f : unit → B St C) (Φ : list (St * St) → option (St * C * St) → Prop) :
  st_ok s HL a → l ≠ ptable_lk →
  (∀ s1, st_ok s1 {[ptable_lk]} (a_update (a_cur a) (v_sleep c) a) → rest s1 = rest s →
    Φ [(s0, s1)] None ∧
    ∀ s2, R s1 s2 → ∃ a2, st_ok s2 {[ptable_lk]} a2 ∧
      ∀ s3, st_ok s3 {[l]} (a_update (a_cur a) (v_set_chan NULL) a2) → rest s3 = rest s2 →
        rwlp R s2 (f tt s3) (λ L o, Φ ((s0, s1) :: L) o)) →
  rwlp R s0 (bbind (sleep c l) f s) Φ.
Proof.
  intros Hs Hl Hk. unfold sleep. apply bbind_assoc, rwlp_bind_lift.
  unfold wlp at 1, gets at 1. apply bbind_assoc.
  r_step @t_sleep_out @keeps_sleep_out. intros on s1 [Hs1 Hr1].
  apply bbind_assoc. destruct (Hk s1 Hs1 Hr1) as [Hn Hin]. apply rwlp_bind_swtch; [done|].
  intros s2 HR. destruct (Hin s2 HR) as (a2 & Hs2 & Hcont).
  r_step @t_sleep_in @keeps_sleep_in. intros [] s3 [Hs3 Hr3]. rewrite decide_False in Hs3 by done.
  apply Hcont; [|done]. destruct Hs as [_ <-].
  replace ({[l]} ∪ {[ptable_lk]} ∖ {[ptable_lk]}) with ({[l]} : gset Z) in Hs3; [done|].
  by rewrite difference_diag_L, union_empty_r_L.
Qed.
End sleep.
