(* ===== verification/Pipe.v ===== *)
(** * kernel/pipe.c and the table of kernel/fs/file.c

    A pipe is an object in the page at its address; its spin lock is in the
    lock table, at the address of its field. The bytes that [pipe_read] stores
    in the caller's buffer are a result, the bytes that [pipe_write] takes from
    it an argument. *)
From S2P Require Import Prelude Machine CMem CString Palloc PgTbl VMem Locks Segments Process ProcSpec Switch.

Definition PIPESZ : Z := 512.

Record Pipe := mkPipe {
  pdata : list Z;
  nread : Z;
  nwritten : Z;
  isreadopen : bool;
  iswriteopen : bool;
}.

(** The addresses of the fields of a pipe: [data] has 512 bytes, [SpinLock] 12 *)
Definition pipe_lk (p : Z) : Z := p + 512.
Definition nread_chan (p : Z) : Z := p + 524.
Definition nwritten_chan (p : Z) : Z := p + 528.

(** The memory that pipes are kept in *)
Class PipeMem (T : Type) := {
  pipe_at : Z → T → option Pipe;
  pipe_set : Z → option Pipe → T → T;
  pipe_at_set : ∀ p x t, pipe_at p (pipe_set p x t) = x;
  pipe_at_set_ne : ∀ p q x t, p ≠ q → pipe_at p (pipe_set q x t) = pipe_at p t;
}.

(** What file.c needs of inode.c to close a file *)
Class InodeDrop (T : Type) := { drop_inode : Z → M T unit }.

#[export] Instance gmap_pipes : PipeMem (gmap Z Pipe).
Proof.
  refine {| pipe_at := λ p m, m !! p; pipe_set := λ p x m, partial_alter (λ _, x) p m |}.
  - intros p x m. apply lookup_partial_alter_eq.
  - intros p q x m Hne. by apply lookup_partial_alter_ne.
Defined.

Section pipe.
Context `{KernelLayout, KernelText} {T : Type}.
Notation St := (KState T).

Definition with_rest {A} (m : M T A) : M St A :=
  zoom rest (λ r s, mkKState (lk s) (cpu s) (cur s) (ptab s) (nextpid s) (proc_init1 s) (kernel_pgdir s) (pm s) (ftab s) r) m.

(** ** file.c: the table of open files *)

(** [for (int i = 0; i < NFILE; ++i)]: the rest of the table, from [i] on *)
Fixpoint free_file (l : list File) (i : Z) : Z :=
  match l with
  | [] => NULL
  | f :: l => if fnref f =? 0 then i else free_file l (i + 1)
  end.

Definition file_allocate : M St Z :=
  let! l := gets ftab in
  let f := free_file l 0 in
  if f =? NULL then ret NULL else
  do! update_file f (set_fnref 1) in
  ret f.

Definition file_close `{InodeDrop T} (f : Z) : M St unit :=
  let! x := file f in
  if fnref x <? 1 then panic "file_close" else
  let n := s32 (fnref x - 1) in
  do! update_file f (set_fnref n) in
  if 0 <? n then done! else
  do! update_file f (λ x, mkFile (fino x) (fpipe x) (foffset x) FD_NONE 0 (readable x) (writable x)) in
  match ftype x with
  | FD_INODE => with_rest (drop_inode (fino x))
  | _ => done!
  end.

(** ** pipe.c *)

Context `{PipeMem T}.

Definition pipe (p : Z) : M St Pipe := let! t := gets rest in need (pipe_at p t).

Definition set_pipe (p : Z) (x : option Pipe) : M St unit := with_rest (modify (pipe_set p x)).

Definition set_pipe_file (p : Z) (rd : bool) (f : File) : File :=
  mkFile (fino f) p (foffset f) FD_PIPE (fnref f) rd (negb rd).

Definition pipe_bad `{InodeDrop T} (p rd wr : Z) : M St (Z * Z * Z) :=
  do! (if negb (p =? 0) then with_pm (pfree p) else done!) in
  do! (if negb (rd =? NULL) then file_close rd else done!) in
  do! (if negb (wr =? NULL) then file_close wr else done!) in
  ret (-1, rd, wr).

(** The result, [*read] and [*write]; [data] holds what was in the page. *)
Definition pipe_allocate `{InodeDrop T} : M St (Z * Z * Z) :=
  let! rd := file_allocate in
  if rd =? NULL then pipe_bad 0 NULL NULL else
  let! wr := file_allocate in
  if wr =? NULL then pipe_bad 0 rd NULL else
  let! p := with_pm palloc in
  if p =? 0 then pipe_bad 0 rd wr else
  let! m := gets (λ s, ram (pm s)) in
  do! set_pipe p (Some (mkPipe (peek m <$> seqZ p 512) 0 0 true true)) in
  do! with_lk (set_lock (pipe_lk p) new_lock) in
  do! update_file rd (set_pipe_file p true) in
  do! update_file wr (set_pipe_file p false) in
  ret (0, rd, wr).

Definition pipe_close (p : Z) (close_write_end : bool) : M St unit :=
  do! with_lk (lock (pipe_lk p)) in
  let! x := pipe p in
  do! (if close_write_end then
         do! set_pipe p (Some (mkPipe (pdata x) (nread x) (nwritten x) (isreadopen x) false)) in
         wakeup (nread_chan p)
       else
         do! set_pipe p (Some (mkPipe (pdata x) (nread x) (nwritten x) false (iswriteopen x))) in
         wakeup (nwritten_chan p)) in
  do! with_lk (unlock (pipe_lk p)) in
  let! x := pipe p in
  if negb (isreadopen x) && negb (iswriteopen x) then
    do! with_pm (pfree p) in set_pipe p None
  else done!.

(** [this_proc()->killed] *)
Definition this_killed : M St bool :=
  let! q := this_proc in let! x := proc q in ret (killed x).

Definition pop (x : Pipe) : Pipe :=
  mkPipe (pdata x) (u32 (nread x + 1)) (nwritten x) (isreadopen x) (iswriteopen x).

Definition push (b : Z) (x : Pipe) : Pipe :=
  mkPipe (<[Z.to_nat (nwritten x mod PIPESZ) := b]> (pdata x)) (nread x) (u32 (nwritten x + 1))
    (isreadopen x) (iswriteopen x).

(** [while (n--)] *)
Fixpoint pipe_take (n : nat) (p : Z) : M St (list Z) :=
  match n with
  | O => ret []
  | S n =>
      let! x := pipe p in
      if nread x =? nwritten x then ret [] else
      let! b := need (pdata x !! Z.to_nat (nread x mod PIPESZ)) in
      do! set_pipe p (Some (pop x)) in
      let! l := pipe_take n p in
      ret (b :: l)
  end.

(** Wait while the pipe is empty; [false]: the process was killed, and the
    lock is released. *)
Definition wait_data (fuel : nat) (p : Z) : B St bool :=
  bloop fuel (λ _,
    let> x := lift (pipe p) in
    if (nread x =? nwritten x) && iswriteopen x then
      let> k := lift this_killed in
      if k : bool then do> lift (with_lk (unlock (pipe_lk p))) in bret (inr false)
      else do> sleep (nread_chan p) (pipe_lk p) in bret (inl tt)
    else bret (inr true)) tt.

Definition pipe_read (fuel : nat) (p : Z) (n : Z) : B St (Z * list Z) :=
  let> x := lift (pipe p) in
  if nwritten x <? nread x then lift (panic "assert: pipe->nread <= pipe->nwritten") else
  do> lift (with_lk (lock (pipe_lk p))) in
  let> ok := wait_data fuel p in
  if negb ok then bret (-1, []) else
  let> bs := lift (pipe_take (Z.to_nat n) p) in
  do> lift (wakeup (nwritten_chan p)) in
  do> lift (with_lk (unlock (pipe_lk p))) in
  bret (zlen bs, bs).

(** Wait while the pipe is full *)
Definition wait_room (fuel : nat) (p : Z) : B St bool :=
  bloop fuel (λ _,
    let> x := lift (pipe p) in
    if nwritten x =? u32 (nread x + PIPESZ) then
      let> k := (if negb (isreadopen x) then bret true else lift this_killed) in
      if k : bool then do> lift (with_lk (unlock (pipe_lk p))) in bret (inr false)
      else
        do> lift (wakeup (nread_chan p)) in
        do> sleep (nwritten_chan p) (pipe_lk p) in bret (inl tt)
    else bret (inr true)) tt.

(** [while (n--)], over the bytes that are left of [buf] *)
Fixpoint pipe_put (fuel : nat) (p : Z) (buf : list Z) : B St bool :=
  match buf with
  | [] => bret true
  | b :: buf =>
      let> ok := wait_room fuel p in
      if negb ok then bret false else
      let> x := lift (pipe p) in
      do> lift (set_pipe p (Some (push b x))) in
      pipe_put fuel p buf
  end.

Definition pipe_write (fuel : nat) (p : Z) (buf : list Z) : B St Z :=
  let> x := lift (pipe p) in
  if nwritten x <? nread x then lift (panic "assert: pipe->nread <= pipe->nwritten") else
  do> lift (with_lk (lock (pipe_lk p))) in
  let> ok := pipe_put fuel p buf in
  if negb ok then bret (-1) else
  do> lift (wakeup (nread_chan p)) in
  do> lift (with_lk (unlock (pipe_lk p))) in
  bret (s32 (zlen buf)).
End pipe.

(** ** The queue in the ring buffer *)

Definition queue (x : Pipe) : list Z := ring PIPESZ (pdata x) (nread x) (nwritten x).

Record ring_ok (x : Pipe) : Prop := mk_ring_ok {
  ro_len : zlen (pdata x) = PIPESZ;
  ro_read : 0 ≤ nread x ≤ nwritten x;
  ro_full : nwritten x ≤ nread x + 512;
  ro_u32 : nwritten x < 4294967296;
}.

Lemma length_queue x : ring_ok x → zlen (queue x) = nwritten x - nread x.
Proof. intros [? ? ? ?]. apply length_ring. lia. Qed.

Lemma pop_queue x :
  ring_ok x → nread x < nwritten x → ∃ b,
  pdata x !! Z.to_nat (nread x mod PIPESZ) = Some b ∧ queue x = b :: queue (pop x) ∧ ring_ok (pop x).
Proof.
  intros [Hl Hr Hf Hu] Hlt. destruct (ring_pop PIPESZ eq_refl _ _ _ Hl Hlt) as (b & Hb & Hq).
  assert (u32 (nread x + 1) = nread x + 1) as Hn by (apply u32_small; lia).
  exists b. split; [done|]. unfold queue, pop. cbn. rewrite Hn. split; [done|].
  split; cbn; (done || lia).
Qed.

Lemma push_queue b x :
  ring_ok x → nwritten x < nread x + 512 → nwritten x + 1 < 4294967296 →
  queue (push b x) = queue x ++ [b] ∧ ring_ok (push b x).
Proof.
  intros [Hl Hr Hf Hu] Hroom Hmax.
  assert (u32 (nwritten x + 1) = nwritten x + 1) as Hn by (apply u32_small; lia).
  split.
  - unfold queue, push. cbn. rewrite Hn. apply ring_push; [reflexivity|exact Hl|unfold PIPESZ; lia].
  - unfold push. split; cbn; rewrite ?Hn; [|lia..]. unfold zlen. by rewrite length_insert.
Qed.

(** ** What a section of an operation does to a pipe *)

Section sections.
Context `{KernelLayout, KernelText} {T : Type} `{PipeMem T}.
Notation St := (KState T).
Context (p : Z) (Hp : 0 ≤ p) (Hlk : pipe_lk p ≠ ptable_lk).

Definition appends (c : list Z) (sec : St * St) : Prop := ∃ x x1,
  pipe_at p (rest sec.1) = Some x ∧ pipe_at p (rest sec.2) = Some x1 ∧
  queue x1 = queue x ++ c ∧ zlen (queue x1) ≤ PIPESZ.

Definition removes (c : list Z) (sec : St * St) : Prop := ∃ x x1,
  pipe_at p (rest sec.1) = Some x ∧ pipe_at p (rest sec.2) = Some x1 ∧ queue x = c ++ queue x1.

(** The locks [HL] are held, the pipe exists and its ring buffer is sound. *)
Record pipe_ok (s : St) (HL : gset Z) (a : AState) (x : Pipe) : Prop := mk_pipe_ok {
  po_st : st_ok s HL a;
  po_at : pipe_at p (rest s) = Some x;
  po_ring : ring_ok x;
}.

(** No reader sleeps although there is something to read, no writer although
    there is room. *)
Definition readers_quiet (x : Pipe) (a : AState) : Prop :=
  asleep_on (nread_chan p) a → nread x = nwritten x ∧ iswriteopen x = true.
Definition writers_quiet (x : Pipe) (a : AState) : Prop :=
  asleep_on (nwritten_chan p) a → nwritten x = nread x + PIPESZ ∧ isreadopen x = true.

(** What holds whenever the lock of the pipe is free: of the writers always, of
    the readers if [heard], that is, if no write has given up with -1, which
    leaves its bytes in the pipe without waking the readers *)
Record monitor (heard : bool) (s : St) (HL : gset Z) : Prop := mk_monitor {
  mo_ok : ∃ a x, pipe_ok s HL a x ∧ (heard = true → readers_quiet x a) ∧ writers_quiet x a;
}.

(** How a process may be switched in: the other processes keep the pipe sound
    and what [monitor] says (if [heard], no other write gives up), and leave
    room for [room] bytes below 4 GiB. *)
Definition switched_in (heard : bool) (room : Z) (s s' : St) : Prop :=
  cur s' = cur s ∧ ∃ a x, pipe_ok s' {[ptable_lk]} a x ∧ (heard = true → readers_quiet x a) ∧ writers_quiet x a ∧
  nwritten x + room < 4294967296.

Context (heard : bool).

Lemma wlp_pipe (s : St) (Q : Pipe → St → Prop) :
  (∀ x, pipe_at p (rest s) = Some x → Q x s) → wlp (pipe p) s Q.
Proof.
  intros HQ. unfold wlp, pipe, bind, gets. destruct (pipe_at p (rest s)); [by apply HQ|done].
Qed.

Lemma wlp_set_pipe (s : St) HL a y :
  st_ok s HL a → wlp (set_pipe p y) s (λ _ s', st_ok s' HL a ∧ pipe_at p (rest s') = y).
Proof. intros [Hi Ha]. split; [by split|]. apply pipe_at_set. Qed.

Lemma t_this_killed (s : St) HL a : st_ok s HL a → wlp this_killed s (λ _ s', st_ok s' HL a).
Proof.
  intros Hs. unfold this_killed. t_step @t_this_proc. intros q s1 [_ Hs1].
  t_step @t_proc. by intros x s2 (_ & _ & ?).
Qed.

Lemma keeps_this_killed : keeps (T:=T) this_killed.
Proof. unfold this_killed. auto 10 with keeps. Qed.

Lemma pipe_ok_other (s s' : St) HL HL' a a' x :
  pipe_ok s HL a x → st_ok s' HL' a' → rest s' = rest s → pipe_ok s' HL' a' x.
Proof. intros [_ Hat Hr] Hs' Hrest. split; [done| |done]. by rewrite Hrest. Qed.

Lemma unlocked : ({[pipe_lk p]} : gset Z) ∖ {[pipe_lk p]} = ∅.
Proof. by rewrite difference_diag_L. Qed.

Lemma readers_woken x a : readers_quiet x (a_wakeup (nread_chan p) a).
Proof. intros Hs. by apply wakeup_asleep in Hs. Qed.

Lemma writers_woken x a : writers_quiet x (a_wakeup (nwritten_chan p) a).
Proof. intros Hs. by apply wakeup_asleep in Hs. Qed.

Lemma readers_other x a : readers_quiet x a → readers_quiet x (a_wakeup (nwritten_chan p) a).
Proof. intros Hq Hs. by apply Hq, (wakeup_other _ _ _ Hs). Qed.

Lemma writers_other x a : writers_quiet x a → writers_quiet x (a_wakeup (nread_chan p) a).
Proof. intros Hq Hs. by apply Hq, (wakeup_other _ _ _ Hs). Qed.

Lemma chans_ne : nread_chan p ≠ nwritten_chan p.
Proof. unfold nread_chan, nwritten_chan. lia. Qed.

Lemma readers_in x a q : readers_quiet x a → readers_quiet x (a_update q (v_set_chan NULL) a).
Proof. intros Hq Hs. apply Hq, (asleep_chan_null _ _ _ Hs). unfold nread_chan, NULL. lia. Qed.

Lemma writers_in x a q : writers_quiet x a → writers_quiet x (a_update q (v_set_chan NULL) a).
Proof. intros Hq Hs. apply Hq, (asleep_chan_null _ _ _ Hs). unfold nwritten_chan, NULL. lia. Qed.

(** *** Writing *)

(** The sections that are over appended the chunks [cs], the current one [c]. *)
Definition grown (s : St) (sb : St) (c : list Z) : Prop := ∃ x0 x,
  pipe_at p (rest sb) = Some x0 ∧ pipe_at p (rest s) = Some x ∧ queue x = queue x0 ++ c ∧ ring_ok x.

Lemma grown_appends s sb c : grown s sb c → appends c (sb, s).
Proof.
  intros (x0 & x & Hx0 & Hx & Hq & Hr). exists x0, x. split_and!; [done..|].
  rewrite length_queue by done. destruct Hr. unfold PIPESZ. lia.
Qed.

Lemma grown_rest s s' sb c : grown s sb c → rest s' = rest s → grown s' sb c.
Proof. intros (x0 & x & Hx0 & Hx & Hq & Hr) Hrest. exists x0, x. by rewrite Hrest. Qed.

Lemma grown_start s HL a x : pipe_ok s HL a x → grown s s [].
Proof. intros [_ Hat Hr]. exists x, x. rewrite app_nil_r. done. Qed.

(** The process holds the lock, and can write [room] bytes. *)
Definition writing (s : St) (room : Z) : Prop := ∃ a x,
  pipe_ok s {[pipe_lk p]} a x ∧ writers_quiet x a ∧ nwritten x + room < 4294967296.

Definition written (total : list Z) (L : list (St * St)) : Prop :=
  ∃ cs, Forall2 appends cs L ∧ concat cs = total.

Definition calm (L : list (St * St)) : Prop := Forall (λ sec, monitor heard sec.2 {[ptable_lk]}) L.

(** After the lock was released by a write that gives up, on a full pipe *)
Definition ended (s : St) : Prop := ∃ a x,
  pipe_ok s ∅ a x ∧ writers_quiet x a ∧ nwritten x = nread x + PIPESZ.

Lemma written_nil : written [] [].
Proof. by exists []. Qed.

Lemma written_one s s' c : grown s' s c → written c [(s, s')].
Proof. intros Hg. exists [c]. split; [repeat constructor; by apply grown_appends|]. apply app_nil_r. Qed.

Lemma written_cons s s' c d L : grown s' s c → written d L → written (c ++ d) ((s, s') :: L).
Proof.
  intros Hg (cs & HL & <-). exists (c :: cs). split; [|done]. constructor; [by apply grown_appends|done].
Qed.

Lemma written_app c d L1 L2 : written c L1 → written d L2 → written (c ++ d) (L1 ++ L2).
Proof.
  intros (cs & HL1 & <-) (ds & HL2 & <-). exists (cs ++ ds). split; [by apply Forall2_app|]. apply concat_app.
Qed.

Lemma wait_room_ok fuel room r s0 s c :
  r ≤ room → writing s r → grown s s0 c →
  rwlp (switched_in heard room) s0 (wait_room fuel p s) (λ L o, calm L ∧
    match o with
    | None => written c L
    | Some (sb, ok, s') => ∃ d e, written d L ∧ grown s' sb e ∧ d ++ e = c ∧
        if ok : bool then writing s' r ∧ ∃ x, pipe_at p (rest s') = Some x ∧ nwritten x < nread x + PIPESZ
        else ended s'
    end).
Proof.
  intros Hle. revert s0 s c. induction fuel as [|fuel IH]; intros s0 s c Hw Hg; [by apply rwlp_lift|].
  unfold wait_room. cbn [bloop]. apply bbind_assoc, rwlp_bind_lift, wlp_pipe. intros x Hx.
  destruct Hw as (a & x' & Hok & Hq & Hroom). pose proof Hok as [Hst Hat Hr].
  rewrite Hx in Hat. injection Hat as <-.
  destruct (Z.eqb_spec (nwritten x) (u32 (nread x + PIPESZ))) as [Hfull|Hnf].
  2:{ apply rwlp_bind, rwlp_bret, rwlp_bret. split; [constructor|]. exists [], c.
      split; [apply written_nil|]. split; [done|]. split; [done|]. split; [by exists a, x|].
      exists x. split; [done|]. destruct Hr as [_ Hr1 Hr2 Hr3]. unfold PIPESZ in *.
      destruct (decide (nwritten x = nread x + 512)) as [E|]; [|lia].
      rewrite u32_small in Hnf by lia. lia. }
  assert (nwritten x = nread x + PIPESZ) as Hf.
  { destruct Hr as [_ Hr1 Hr2 Hr3]. unfold PIPESZ, u32 in *. Z.div_mod_to_equations. lia. }
  destruct (isreadopen x) eqn:Hopen; cbn [negb].
  2:{ apply bbind_assoc, rwlp_bind_lift. change (wlp (ret true) ?s ?Q) with (Q true s). cbn beta iota.
      apply bbind_assoc. r_step @t_unlock @keeps_lk. intros [] s1 [[_ Hs1] Hr1]. rewrite unlocked in Hs1.
      apply rwlp_bind, rwlp_bret, rwlp_bret. split; [constructor|]. exists [], c.
      split; [apply written_nil|]. split; [by eapply grown_rest|]. split; [done|].
      exists a, x. split; [eapply pipe_ok_other; [exact Hok|exact Hs1|done]|by split]. }
  apply bbind_assoc. r_step t_this_killed keeps_this_killed. intros k s1 [Hs1 Hr1]. destruct k.
  - apply bbind_assoc. r_step @t_unlock @keeps_lk. intros [] s2 [[_ Hs2] Hr2]. rewrite unlocked in Hs2.
    apply rwlp_bind, rwlp_bret, rwlp_bret. split; [constructor|]. exists [], c.
    split; [apply written_nil|]. split; [eapply grown_rest; [done|congruence]|]. split; [done|].
    exists a, x. split; [eapply pipe_ok_other; [exact Hok|exact Hs2|congruence]|by split].
  - apply bbind_assoc. r_step @t_wakeup @keeps_wakeup. intros [] s2 [Hs2 Hr2]. apply bbind_assoc.
    eapply rwlp_bind_sleep; [exact Hs2|done|]. intros s3 Hs3 Hr3.
    assert (grown s3 s0 c) as Hg3 by (eapply grown_rest; [done|congruence]).
    assert (monitor heard s3 {[ptable_lk]}) as Hm.
    { split. eexists _, x. split; [eapply pipe_ok_other; [exact Hok|exact Hs3|congruence]|]. split.
      - intros _ Hs. apply asleep_sleep in Hs; [|apply chans_ne]. exact (readers_woken x a Hs).
      - intros _. done. }
    split; [split; [by apply Forall_singleton|by apply written_one]|].
    intros s4 (_ & a4 & x4 & Hok4 & Hqr & Hqw & Hroom4). pose proof Hok4 as [Hs4 Hx4 Hr4].
    exists a4. split; [done|]. intros s5 Hs5 Hr5.
    assert (grown s5 s4 []) as Hg5 by (eapply grown_rest; [exact (grown_start _ _ _ _ Hok4)|exact Hr5]).
    apply rwlp_bind, rwlp_bret. cbn beta iota. eapply rwlp_mono.
    + apply (IH s4 s5 []); [|done]. exists (a_update (a_cur (a_wakeup (nread_chan p) a)) (v_set_chan NULL) a4), x4.
      split; [by eapply pipe_ok_other|]. split; [by apply writers_in|lia].
    + intros L o [HcL Ho]. split; [by constructor|]. destruct o as [[[sb ok] s']|].
      * destruct Ho as (d & e & Hd & He & Hde & Hend). exists (c ++ d), e.
        split; [by apply written_cons|]. split; [done|]. split; [|done].
        rewrite <- app_assoc, Hde. apply app_nil_r.
      * rewrite <- (app_nil_r c). by apply written_cons.
Qed.

Lemma pipe_put_ok fuel buf room r s0 s c :
  zlen buf ≤ r ≤ room → writing s r → grown s s0 c →
  rwlp (switched_in heard room) s0 (pipe_put fuel p buf s) (λ L o, calm L ∧
    match o with
    | None => ∃ t, t `prefix_of` buf ∧ written (c ++ t) L
    | Some (sb, ok, s') => ∃ d e t, written d L ∧ grown s' sb e ∧ d ++ e = c ++ t ∧ t `prefix_of` buf ∧
        if ok : bool then t = buf ∧ writing s' 0 else ended s'
    end).
Proof.
  revert r s0 s c. induction buf as [|b buf IH]; intros r s0 s c Hr Hw Hg.
  { apply rwlp_bret. split; [constructor|]. exists [], c, []. rewrite app_nil_r.
    split_and!; [apply written_nil|done..|]. destruct Hw as (a & x & Hok & Hq & Hroom).
    unfold zlen in Hr. cbn in Hr. exists a, x. split_and!; [done..|lia]. }
  assert (zlen (b :: buf) = zlen buf + 1) as Hlen by (unfold zlen; cbn [length]; lia).
  cbn [pipe_put]. apply rwlp_bind. eapply rwlp_mono; [apply (wait_room_ok fuel room r s0 s c); [lia|done..]|].
  intros L o [HcL Ho]. destruct o as [[[sb ok] s1]|].
  2:{ split; [done|]. exists []. split; [apply prefix_nil|]. by rewrite app_nil_r. }
  destruct Ho as (d & e & Hd & He & Hde & Hend). destruct ok; cbn [negb].
  2:{ apply rwlp_bret. rewrite app_nil_r. split; [done|]. exists d, e, []. rewrite app_nil_r.
      split_and!; [done..|apply prefix_nil|done]. }
  destruct Hend as [(a & x & Hok & Hq & Hroom) (x' & Hx' & Hnf)]. pose proof Hok as [Hs1 Hx Hring].
  rewrite Hx in Hx'. injection Hx' as <-.
  apply rwlp_bind_lift, wlp_pipe. intros y Hy. rewrite Hx in Hy. injection Hy as <-.
  apply rwlp_bind_lift. eapply wlp_mono; [by apply wlp_set_pipe|]. intros [] s2 [Hs2 Hx2].
  destruct (push_queue b x) as [Hpq Hpr]; [done|unfold PIPESZ in *; lia|unfold zlen in *; lia|].
  eapply rwlp_mono.
  - apply (IH (r - 1) sb s2 (e ++ [b])); [lia| |].
    + exists a, (push b x). split; [done|]. split; [intros Hs; apply Hq in Hs; lia|].
      cbn [nwritten push]. rewrite u32_small; [lia|]. destruct Hring. unfold zlen in *. lia.
    + destruct He as (x0 & x1 & Hx0 & Hx1 & Hqe & _). rewrite Hx in Hx1. injection Hx1 as <-.
      exists x0, (push b x). split_and!; [done..| |done]. by rewrite Hpq, Hqe, app_assoc.
  - intros L2 o2 [HcL2 Ho2]. split; [by apply Forall_app|]. destruct o2 as [[[sb2 ok2] s3]|].
    + destruct Ho2 as (d2 & e2 & t & Hd2 & He2 & Hde2 & Hpre & Hend2).
      exists (d ++ d2), e2, (b :: t). split; [by apply written_app|]. split; [done|].
      split; [rewrite <- app_assoc, Hde2, <- Hde, <- !app_assoc; done|].
      split; [by apply prefix_cons|]. destruct ok2; [|done]. destruct Hend2 as [-> Hw2]. done.
    + destruct Ho2 as (t & Hpre & Hw2). exists (b :: t). split; [by apply prefix_cons|].
      rewrite <- Hde. replace ((d ++ e) ++ b :: t) with (d ++ (e ++ [b]) ++ t) by (rewrite <- !app_assoc; done).
      by apply written_app.
Qed.

Lemma pipe_write_ok fuel buf room s a x :
  zlen buf ≤ room < 2147483648 → pipe_ok s ∅ a x → writers_quiet x a → nwritten x + room < 4294967296 →
  rwlp (switched_in heard room) s (pipe_write fuel p buf s) (λ L o, calm L ∧
    match o with
    | None => ∃ t, t `prefix_of` buf ∧ written t L
    | Some (sb, r, s') => ∃ d e, written d L ∧ appends e (sb, s') ∧
        ((r = zlen buf ∧ d ++ e = buf ∧ monitor heard s' ∅) ∨ (r = -1 ∧ (d ++ e) `prefix_of` buf ∧ ended s'))
    end).
Proof.
  intros Hlen Hok Hq Hroom. unfold pipe_write. apply rwlp_bind_lift, wlp_pipe. intros x0 _.
  destruct (nwritten x0 <? nread x0); [by apply rwlp_lift|].
  pose proof (grown_start _ _ _ _ Hok) as Hg. pose proof (po_st _ _ _ _ Hok) as Hs.
  r_step @t_lock @keeps_lk. intros [] s1 [[_ Hs1] Hr1]. rewrite union_empty_r_L in Hs1.
  apply rwlp_bind. eapply rwlp_mono.
  { apply (pipe_put_ok fuel buf room room s s1 []); [lia| |by eapply grown_rest].
    exists a, x. split; [eapply pipe_ok_other; [exact Hok|exact Hs1|done]|]. done. }
  intros L o [HcL Ho]. destruct o as [[[sb ok] s2]|]; [|done].
  destruct Ho as (d & e & t & Hd & He & Hde & Hpre & Hend). cbn [app] in Hde. destruct ok; cbn [negb].
  2:{ apply rwlp_bret. rewrite app_nil_r. split; [done|]. exists d, e. split; [done|].
      split; [by apply grown_appends|]. right. by rewrite Hde. }
  destruct Hend as (-> & a2 & x2 & Hok2 & Hq2 & Hroom2). pose proof (po_st _ _ _ _ Hok2) as Hs2.
  r_step @t_wakeup @keeps_wakeup. intros [] s3 [Hs3 Hr3].
  r_step @t_unlock @keeps_lk. intros [] s4 [[_ Hs4] Hr4]. rewrite unlocked in Hs4.
  apply rwlp_bret. rewrite app_nil_r. split; [done|]. exists d, e. split; [done|].
  split; [apply grown_appends; eapply grown_rest; [done|congruence]|].
  left. split; [apply s32_small; unfold zlen in *; lia|]. split; [done|]. split.
  eexists _, x2. split; [eapply pipe_ok_other; [exact Hok2|exact Hs4|congruence]|].
  split; [intros _; apply readers_woken|by apply writers_other].
Qed.

(** *** Reading *)

Definition reading (s : St) : Prop := ∃ a x,
  pipe_ok s {[pipe_lk p]} a x ∧ (heard = true → readers_quiet x a) ∧ writers_quiet x a.

(** Nothing was read in the section yet. *)
Definition unread (s sb : St) : Prop := pipe_at p (rest s) = pipe_at p (rest sb).

Lemma unread_removes s sb HL a x : pipe_ok s HL a x → unread s sb → removes [] (sb, s).
Proof. intros [_ Hx _] Hu. unfold unread in Hu. exists x, x. cbn. by rewrite <- Hu. Qed.

Lemma wait_data_ok fuel s0 s :
  reading s → unread s s0 →
  rwlp (switched_in heard 0) s0 (wait_data fuel p s) (λ L o, calm L ∧ Forall (removes []) L ∧
    match o with
    | None => True
    | Some (sb, ok, s') => unread s' sb ∧
        if ok : bool then reading s' ∧ ∃ x, pipe_at p (rest s') = Some x ∧ (queue x = [] → iswriteopen x = false)
        else monitor heard s' ∅
    end).
Proof.
  revert s0 s. induction fuel as [|fuel IH]; intros s0 s Hw Hu; [by apply rwlp_lift|].
  unfold wait_data. cbn [bloop]. apply bbind_assoc, rwlp_bind_lift, wlp_pipe. intros x Hx.
  destruct Hw as (a & x' & Hok & Hqr & Hqw). pose proof Hok as [Hst Hat Hr].
  rewrite Hx in Hat. injection Hat as <-.
  destruct (Z.eqb_spec (nread x) (nwritten x)) as [Hempty|Hne]; cbn [andb].
  2:{ apply rwlp_bind, rwlp_bret, rwlp_bret. split_and!; [constructor|constructor|done|by exists a, x|].
      exists x. split; [done|]. intros Hq. pose proof (length_queue x Hr) as Hlen. rewrite Hq in Hlen.
      unfold zlen in Hlen. cbn in Hlen. destruct Hr. lia. }
  destruct (iswriteopen x) eqn:Hopen.
  2:{ apply rwlp_bind, rwlp_bret, rwlp_bret. split_and!; [constructor|constructor|done|by exists a, x|].
      by exists x. }
  apply bbind_assoc. r_step t_this_killed keeps_this_killed. intros k s1 [Hs1 Hr1]. destruct k.
  - apply bbind_assoc. r_step @t_unlock @keeps_lk. intros [] s2 [[_ Hs2] Hr2]. rewrite unlocked in Hs2.
    apply rwlp_bind, rwlp_bret, rwlp_bret. split; [constructor|]. split; [constructor|].
    split; [unfold unread in *; congruence|]. split. exists a, x.
    split; [eapply pipe_ok_other; [exact Hok|exact Hs2|congruence]|done].
  - apply bbind_assoc. eapply rwlp_bind_sleep; [exact Hs1|done|]. intros s3 Hs3 Hr3.
    assert (pipe_ok s3 {[ptable_lk]} (a_update (a_cur a) (v_sleep (nread_chan p)) a) x) as Hok3
      by (eapply pipe_ok_other; [exact Hok|exact Hs3|congruence]).
    assert (monitor heard s3 {[ptable_lk]}) as Hm.
    { split. eexists _, x. split; [exact Hok3|]. split; [by intros _|].
      intros Hs. apply asleep_sleep in Hs; [by apply Hqw|]. symmetry. apply chans_ne. }
    assert (removes [] (s0, s3)) as Hrem
      by (eapply unread_removes; [exact Hok3|unfold unread in *; congruence]).
    split; [split; [by apply Forall_singleton|split; [by apply Forall_singleton|done]]|].
    intros s4 (_ & a4 & x4 & Hok4 & Hqr4 & Hqw4 & _). pose proof Hok4 as [Hs4 Hx4 Hr4].
    exists a4. split; [done|]. intros s5 Hs5 Hr5.
    apply rwlp_bind, rwlp_bret. cbn beta iota. eapply rwlp_mono.
    + apply (IH s4 s5); [|by unfold unread; rewrite Hr5].
      exists (a_update (a_cur a) (v_set_chan NULL) a4), x4.
      split; [by eapply pipe_ok_other|]. split; [intros Hh; by apply readers_in, Hqr4|by apply writers_in].
    + intros L o (HcL & HrL & Ho). split; [by constructor|]. split; [by constructor|done].
Qed.

Lemma pipe_run (s : St) x : pipe_at p (rest s) = Some x → pipe p s = Ok x s.
Proof. intros Hx. unfold pipe, bind, gets. by rewrite Hx. Qed.

Lemma pipe_take_ok n s HL a x :
  pipe_ok s HL a x → wp (pipe_take n p) s (λ l s', ∃ x', pipe_ok s' HL a x' ∧
    queue x = l ++ queue x' ∧ zlen l = n `min` zlen (queue x) ∧ iswriteopen x' = iswriteopen x ∧
    (nread x = nwritten x → x' = x) ∧ lk s' = lk s).
Proof.
  revert s x. induction n as [|n IH]; intros s x Hok; cbn [pipe_take].
  { exists x. split_and!; [done..| |done|done|done]. unfold zlen. cbn. lia. }
  pose proof Hok as [Hs Hx Hr]. rewrite wp_bind. eapply wp_ok; [by apply pipe_run|].
  destruct (Z.eqb_spec (nread x) (nwritten x)) as [He|Hne].
  { exists x. split_and!; [done..| |done|done|done]. rewrite length_queue by done. unfold zlen. cbn. lia. }
  destruct (pop_queue x Hr) as (b & Hb & Hq & Hpr); [destruct Hr; lia|].
  rewrite wp_bind, Hb. change (wp (need (Some b)) s ?Q) with (Q b s). cbn beta.
  rewrite wp_bind. eapply wp_ok; [reflexivity|].
  pose proof (wlp_set_pipe s HL a (Some (pop x)) Hs) as [Hs2 Hx2].
  rewrite wp_bind. eapply wp_mono; [apply (IH _ (pop x)); split; [exact Hs2|exact Hx2|done]|].
  intros l s3 (x' & Hok' & Hq' & Hl & Hwo & _ & Hlk3). exists x'. split; [done|].
  rewrite Hq, Hq'. split; [done|]. split; [|done].
  unfold zlen in *. cbn [length]. rewrite Hq' in Hl. lia.
Qed.

Lemma pipe_read_ok fuel n s a x :
  pipe_ok s ∅ a x → (heard = true → readers_quiet x a) → writers_quiet x a → 0 ≤ n →
  rwlp (switched_in heard 0) s (pipe_read fuel p n s) (λ L o, calm L ∧ Forall (removes []) L ∧
    match o with
    | None => True
    | Some (sb, (r, bs), s') => removes bs (sb, s') ∧ monitor heard s' ∅ ∧
        ((r = -1 ∧ bs = []) ∨ (r = zlen bs ∧ ∃ x, pipe_at p (rest sb) = Some x ∧
           r = n `min` zlen (queue x) ∧ (queue x = [] → iswriteopen x = false)))
    end).
Proof.
  intros Hok Hqr Hqw Hn. unfold pipe_read. apply rwlp_bind_lift, wlp_pipe. intros x0 _.
  destruct (nwritten x0 <? nread x0); [by apply rwlp_lift|].
  pose proof (po_st _ _ _ _ Hok) as Hs.
  r_step @t_lock @keeps_lk. intros [] s1 [[_ Hs1] Hr1]. rewrite union_empty_r_L in Hs1.
  apply rwlp_bind. eapply rwlp_mono.
  { apply (wait_data_ok fuel s s1); [|unfold unread; congruence].
    exists a, x. split; [eapply pipe_ok_other; [exact Hok|exact Hs1|done]|done]. }
  intros L o (HcL & HrL & Ho). destruct o as [[[sb ok] s2]|]; [|done]. destruct Ho as [Hu Hend].
  destruct ok; cbn [negb].
  2:{ apply rwlp_bret. rewrite app_nil_r. split; [done|]. split; [done|].
      pose proof Hend as [(a2 & x2 & Hok2 & _)].
      split; [by eapply unread_removes|]. split; [done|]. by left. }
  destruct Hend as [(a2 & x2 & Hok2 & Hqr2 & Hqw2) (x' & Hx' & Heof)].
  pose proof (po_at _ _ _ _ Hok2) as Hx2. rewrite Hx2 in Hx'. injection Hx' as <-.
  apply rwlp_bind_lift. eapply wlp_mono; [by apply wlp_wp, pipe_take_ok|].
  intros bs s3 (x3 & Hok3 & Hq3 & Hlen & Hwo & Hsame & _). pose proof (po_st _ _ _ _ Hok3) as Hs3.
  r_step @t_wakeup @keeps_wakeup. intros [] s4 [Hs4 Hr4].
  r_step @t_unlock @keeps_lk. intros [] s5 [[_ Hs5] Hr5]. rewrite unlocked in Hs5.
  assert (pipe_ok s5 ∅ (a_wakeup (nwritten_chan p) a2) x3) as Hok5
    by (eapply pipe_ok_other; [exact Hok3|exact Hs5|congruence]).
  apply rwlp_bret. rewrite app_nil_r. split; [done|]. split; [done|].
  assert (pipe_at p (rest sb) = Some x2) as Hsb by (unfold unread in Hu; congruence).
  split; [exists x2, x3; split_and!; [done|apply Hok5|done]|].
  split.
  - split. eexists _, x3. split; [exact Hok5|]. split; [|apply writers_woken].
    intros Hh Hz. apply wakeup_other in Hz. apply (Hqr2 Hh) in Hz as [He Hwo2].
    rewrite (Hsame He). done.
  - right. split; [done|]. exists x2. split; [done|]. split; [|done]. rewrite Hlen. lia.
Qed.

(** *** Without waiting *)

Lemma pipe_put_runs fuel buf (s : St) D a t x :
  ready s {[pipe_lk p]} D a t → pipe_at p t = Some x → ring_ok x →
  zlen (queue x) + zlen buf ≤ PIPESZ → nwritten x + zlen buf < 4294967296 →
  ∃ s' t' x', pipe_put (S fuel) p buf s = Done (Ok true s') ∧ ready s' {[pipe_lk p]} D a t' ∧
    pipe_at p t' = Some x' ∧ ring_ok x' ∧ queue x' = queue x ++ buf.
Proof.
  revert s t x. induction buf as [|b buf IH]; intros s t x Hs Hx Hr Hlen Hmax.
  { exists s, t, x. by rewrite app_nil_r. }
  assert (zlen (b :: buf) = zlen buf + 1) as Hl by (unfold zlen; cbn [length]; lia).
  assert (0 ≤ zlen buf) as Hpos by (unfold zlen; lia).
  rewrite length_queue in Hlen by done. unfold PIPESZ in Hlen.
  pose proof Hs as [Hst Hd Hrest]. rewrite <- Hrest in Hx.
  assert (wait_room (S fuel) p s = Done (Ok true s)) as Hwait.
  { unfold wait_room. cbn [bloop]. unfold bbind at 2. unfold bbind at 1. unfold lift at 1.
    rewrite (pipe_run _ _ Hx). cbn [run_bind].
    destruct (Z.eqb_spec (nwritten x) (u32 (nread x + PIPESZ))) as [E|]; [|done].
    exfalso. destruct Hr as [_ Hr1 Hr2 Hr3]. unfold PIPESZ, u32 in E. Z.div_mod_to_equations. lia. }
  cbn [pipe_put]. rewrite (bbind_done _ _ _ _ _ Hwait). cbn [negb].
  rewrite (bbind_lift _ _ _ _ _ (pipe_run _ _ Hx)).
  destruct (push_queue b x Hr) as [Hpq Hpr]; [lia|lia|].
  pose proof (wlp_set_pipe s _ a (Some (push b x)) Hst) as [Hs2 Hx2].
  erewrite bbind_lift by reflexivity.
  edestruct (IH _ _ (push b x) (mk_ready _ _ D _ _ Hs2 Hd eq_refl) Hx2 Hpr) as (s' & t' & x' & Hrun & Hs' & Hx' & Hr' & Hq').
  - rewrite Hpq. unfold zlen. rewrite length_app. cbn [length].
    pose proof (length_queue x Hr) as Hlq. unfold zlen in *. unfold PIPESZ. lia.
  - cbn [nwritten push]. rewrite u32_small; [lia|]. destruct Hr. lia.
  - exists s', t', x'. split; [exact Hrun|]. split_and!; [done..|]. by rewrite Hq', Hpq, <- app_assoc.
Qed.

Definition pipe_locks : gset Z := {[ptable_lk; pipe_lk p]}.

Lemma pipe_write_runs fuel buf (s : St) a t x :
  ready s ∅ pipe_locks a t → pipe_at p t = Some x → ring_ok x → zlen buf < 2147483648 →
  zlen (queue x) + zlen buf ≤ PIPESZ → nwritten x + zlen buf < 4294967296 →
  ∃ s' t' x' a', pipe_write (S fuel) p buf s = Done (Ok (zlen buf) s') ∧ ready s' ∅ pipe_locks a' t' ∧
    pipe_at p t' = Some x' ∧ ring_ok x' ∧ queue x' = queue x ++ buf.
Proof.
  intros Hs Hx Hr Hint Hlen Hmax. pose proof (rd_rest _ _ _ _ _ Hs) as Hrest.
  unfold pipe_write. rewrite (bbind_lift _ _ _ _ _ (pipe_run s x ltac:(congruence))).
  rewrite (proj2 (Z.ltb_ge _ _)) by (destruct Hr; lia).
  destruct (lock_returns s ∅ pipe_locks a t (pipe_lk p) Hs) as (s1 & Hl & Hs1);
    [unfold pipe_locks; set_solver|apply not_elem_of_empty|].
  rewrite (bbind_lift _ _ _ _ _ Hl). rewrite union_empty_r_L in Hs1.
  destruct (pipe_put_runs fuel buf s1 _ a t x Hs1 Hx Hr Hlen Hmax) as (s2 & t' & x' & Hput & Hs2 & Hx' & Hr' & Hq').
  rewrite (bbind_done _ _ _ _ _ Hput). cbn [negb].
  destruct (wakeup_returns s2 _ _ a t' (nread_chan p) Hs2) as (s3 & Hw & Hs3);
    [unfold pipe_locks; set_solver|by rewrite elem_of_singleton|].
  rewrite (bbind_lift _ _ _ _ _ Hw).
  destruct (unlock_returns s3 _ _ _ t' (pipe_lk p) Hs3) as (s4 & Hu & Hs4); [by apply elem_of_singleton|].
  rewrite (bbind_lift _ _ _ _ _ Hu). rewrite unlocked in Hs4.
  eexists s4, t', x', _. split; [|split; [exact Hs4|done]].
  rewrite s32_small by (unfold zlen in *; lia). done.
Qed.

Lemma pipe_read_runs fuel n (s : St) a t x :
  ready s ∅ pipe_locks a t → pipe_at p t = Some x → ring_ok x → 0 ≤ n →
  queue x ≠ [] ∨ iswriteopen x = false →
  ∃ s' t' x' a' bs, pipe_read (S fuel) p n s = Done (Ok (zlen bs, bs) s') ∧ ready s' ∅ pipe_locks a' t' ∧
    pipe_at p t' = Some x' ∧ ring_ok x' ∧ queue x = bs ++ queue x' ∧ zlen bs = n `min` zlen (queue x).
Proof.
  intros Hs Hx Hr Hn Hne. pose proof (rd_rest _ _ _ _ _ Hs) as Hrest.
  unfold pipe_read. rewrite (bbind_lift _ _ _ _ _ (pipe_run s x ltac:(congruence))).
  rewrite (proj2 (Z.ltb_ge _ _)) by (destruct Hr; lia).
  destruct (lock_returns s ∅ pipe_locks a t (pipe_lk p) Hs) as (s1 & Hl & Hs1);
    [unfold pipe_locks; set_solver|apply not_elem_of_empty|].
  rewrite (bbind_lift _ _ _ _ _ Hl). rewrite union_empty_r_L in Hs1.
  pose proof Hs1 as [Hst1 Hd1 Hrest1]. assert (pipe_at p (rest s1) = Some x) as Hx1 by congruence.
  assert (wait_data (S fuel) p s1 = Done (Ok true s1)) as Hwait.
  { unfold wait_data. cbn [bloop]. unfold bbind at 2. unfold bbind at 1. unfold lift at 1.
    rewrite (pipe_run _ _ Hx1). cbn [run_bind].
    destruct (Z.eqb_spec (nread x) (nwritten x)) as [E|]; [|done]. destruct Hne as [Hne| ->]; [|done].
    exfalso. apply Hne. apply length_zero_iff_nil. pose proof (length_queue x Hr). unfold zlen in *. lia. }
  rewrite (bbind_done _ _ _ _ _ Hwait). cbn [negb].
  pose proof (pipe_take_ok (Z.to_nat n) s1 _ a x (mk_pipe_ok _ _ _ _ Hst1 Hx1 Hr)) as Htake.
  apply wp_run in Htake as (bs & s2 & Htake & x' & Hok2 & Hq & Hlen & _ & _ & Hlk2).
  destruct Hok2 as [Hs2 Hx' Hr'].
  rewrite (bbind_lift _ _ _ _ _ Htake).
  assert (ready s2 {[pipe_lk p]} pipe_locks a (rest s2)) as Hrd2 by (split; [done|by rewrite Hlk2|done]).
  destruct (wakeup_returns s2 _ _ a _ (nwritten_chan p) Hrd2) as (s3 & Hw & Hs3);
    [unfold pipe_locks; set_solver|by rewrite elem_of_singleton|].
  rewrite (bbind_lift _ _ _ _ _ Hw).
  destruct (unlock_returns s3 _ _ _ _ (pipe_lk p) Hs3) as (s4 & Hu & Hs4); [by apply elem_of_singleton|].
  rewrite (bbind_lift _ _ _ _ _ Hu). rewrite unlocked in Hs4.
  eexists s4, _, x', _, bs. split; [done|]. split; [exact Hs4|]. split_and!; [done..|]. rewrite Hlen. lia.
Qed.
End sections.

(** ** Properties *)

Section properties.
Context `{KernelLayout, KernelText} {T : Type} `{PipeMem T}.
Notation St := (KState T).

(** The last section of an operation that finished *)
Definition last_section {A} (o : option (St * A * St)) : list (St * St) :=
  match o with Some (sb, _, s') => [(sb, s')] | None => [] end.

(** C10: a pipe is a bounded FIFO queue, whatever other processes do to it
    while one sleeps. Every section of [pipe_write] appends a chunk to the
    queue, which never holds more than [PIPESZ] bytes; the chunks are the bytes
    of the buffer in order, all of them unless -1 is returned. [pipe_read]
    takes nothing before its last section and then removes the first [r] bytes
    of the queue and returns them, as many as there are up to [n]; it returns
    without a byte only at the end of the file. *)
Theorem pipe_fifo (p : Z) fuel (s : St) a x :
  0 ≤ p → pipe_lk p ≠ ptable_lk → pipe_ok p s ∅ a x → writers_quiet p x a →
  (∀ buf L o, zlen buf < 2147483648 → nwritten x + zlen buf < 4294967296 →
     sections (switched_in p false (zlen buf)) s (pipe_write fuel p buf s) L o →
     ∃ cs, Forall2 (appends p) cs (L ++ last_section o) ∧ concat cs `prefix_of` buf ∧
       match o with Some (_, r, _) => (r = zlen buf ∧ concat cs = buf) ∨ r = -1 | None => True end) ∧
  (∀ n L o, 0 ≤ n → sections (switched_in p false 0) s (pipe_read fuel p n s) L o →
     Forall (removes p []) L ∧
     match o with
     | Some (sb, (r, bs), s') => removes p bs (sb, s') ∧
         ((r = -1 ∧ bs = []) ∨ (r = zlen bs ∧ ∃ y, pipe_at p (rest sb) = Some y ∧
            r = n `min` zlen (queue y) ∧ (queue y = [] → iswriteopen y = false)))
     | None => True
     end).
Proof.
  intros Hp Hlk Hok Hqw. split.
  - intros buf L o Hint Hmax Hs.
    destruct (pipe_write_ok p Hp Hlk false fuel buf (zlen buf) s a x ltac:(lia) Hok Hqw Hmax _ _ Hs) as [_ Ho].
    destruct o as [[[sb r] s']|].
    + destruct Ho as (d & e & (cs & HL & <-) & He & Hcase). exists (cs ++ [e]).
      split; [apply Forall2_app; [done|by repeat constructor]|].
      rewrite concat_app. cbn [concat]. rewrite app_nil_r.
      destruct Hcase as [(-> & -> & _)|(-> & Hpre & _)]; [by split; [|left]|by split; [|right]].
    + destruct Ho as (t & Hpre & cs & HL & <-). exists cs. cbn. by rewrite app_nil_r.
  - intros n L o Hn Hs.
    destruct (pipe_read_ok p Hp Hlk false fuel n s a x Hok ltac:(done) Hqw Hn _ _ Hs) as (_ & HrL & Ho). split; [done|].
    destruct o as [[[sb [r bs]] s']|]; [|done]. destruct Ho as (Hrem & _ & Hcase). done.
Qed.

(** C9: which wake-ups a pipe loses. Whenever its lock is free, a writer
    sleeps only on a full pipe whose read end is open: every section of
    [pipe_write] and [pipe_read] keeps this, whatever they return and whatever
    the other writes returned. A reader sleeps only on an empty pipe whose
    write end is open as long as no write has given up ([heard]): every section
    keeps this too, but the last one of a write that returns -1, which happens
    only on a full pipe, says nothing of the readers. It does lose their
    wake-up, see [pipe_write_killed]. *)
Theorem pipe_no_lost_wakeup (p : Z) (heard : bool) fuel (s : St) a x :
  0 ≤ p → pipe_lk p ≠ ptable_lk → pipe_ok p s ∅ a x → (heard = true → readers_quiet p x a) → writers_quiet p x a →
  (∀ buf L o, zlen buf < 2147483648 → nwritten x + zlen buf < 4294967296 →
     sections (switched_in p heard (zlen buf)) s (pipe_write fuel p buf s) L o →
     Forall (λ sec, monitor p heard sec.2 {[ptable_lk]}) L ∧
     match o with
     | Some (_, r, s') => monitor p (heard && negb (r =? -1)) s' ∅ ∧
         (r = -1 → ∃ y, pipe_at p (rest s') = Some y ∧ zlen (queue y) = PIPESZ)
     | None => True
     end) ∧
  (∀ n L o, 0 ≤ n → sections (switched_in p heard 0) s (pipe_read fuel p n s) L o →
     Forall (λ sec, monitor p heard sec.2 {[ptable_lk]}) L ∧
     match o with Some (_, _, s') => monitor p heard s' ∅ | None => True end).
Proof.
  intros Hp Hlk Hok Hqr Hqw. split.
  - intros buf L o Hint Hmax Hs.
    destruct (pipe_write_ok p Hp Hlk heard fuel buf (zlen buf) s a x ltac:(lia) Hok Hqw Hmax _ _ Hs) as [HL Ho].
    split; [done|]. destruct o as [[[sb r] s']|]; [|done].
    destruct Ho as (d & e & _ & _ & [(-> & _ & Hm)|(-> & _ & a' & y & Hy & Hq & Hf)]).
    + rewrite (proj2 (Z.eqb_neq _ _)) by (unfold zlen; lia). rewrite andb_true_r. split; [done|].
      unfold zlen. lia.
    + rewrite andb_false_r. split; [split; by exists a', y|]. intros _. exists y. split; [apply Hy|].
      rewrite length_queue by apply Hy. lia.
  - intros n L o Hn Hs.
    destruct (pipe_read_ok p Hp Hlk heard fuel n s a x Hok Hqr Hqw Hn _ _ Hs) as (HL & _ & Ho). split; [done|].
    destruct o as [[[sb [r bs]] s']|]; [|done]. by destruct Ho as (_ & Hm & _).
Qed.

(** C34: bytes that fit are written at once, without sleeping, and come out
    of the pipe as they went in, after the bytes that were there before. *)
Theorem pipe_roundtrip (p : Z) fuel buf (s : St) a t x :
  0 ≤ p → pipe_lk p ≠ ptable_lk → ready s ∅ (pipe_locks p) a t → pipe_at p t = Some x → ring_ok x →
  buf ≠ [] → zlen (queue x) + zlen buf ≤ PIPESZ → nwritten x + zlen buf < 4294967296 →
  ∃ s1 s2 n, pipe_write (S fuel) p buf s = Done (Ok (zlen buf) s1) ∧
    pipe_read (S fuel) p PIPESZ s1 = Done (Ok (n, queue x ++ buf) s2).
Proof.
  intros Hp Hlk Hs Hx Hr Hne Hlen Hmax.
  destruct (pipe_write_runs p Hp Hlk fuel buf s a t x) as (s1 & t1 & x1 & a1 & Hw & Hs1 & Hx1 & Hr1 & Hq1); [done..| |done|done|].
  { unfold PIPESZ in Hlen. assert (0 ≤ zlen (queue x)) by (unfold zlen; lia). lia. }
  destruct (pipe_read_runs p Hp Hlk fuel PIPESZ s1 a1 t1 x1) as (s2 & t2 & x2 & a2 & bs & Hrd & _ & _ & Hr2 & Hq2 & Hl2);
    [done..| |].
  { left. rewrite Hq1. intros Hnil. by apply app_nil in Hnil as [_ ?]. }
  exists s1, s2, (zlen bs). split; [done|]. replace (queue x ++ buf) with bs; [done|].
  assert (zlen (queue x1) ≤ PIPESZ) as Hle.
  { rewrite Hq1. unfold zlen in *. rewrite length_app. lia. }
  assert (queue x2 = []) as Hnil.
  { apply length_zero_iff_nil. assert (length (queue x1) = length bs + length (queue x2))%nat as Hl
      by (rewrite Hq2; apply length_app). unfold zlen in *. lia. }
  by rewrite <- Hq1, Hq2, Hnil, app_nil_r.
Qed.
End properties.

(** ** Examples *)

#[local] Existing Instance demo_layout.
#[local] Existing Instance demo_text.

(** Process 2 runs, process 1 sleeps on [nread] of the pipe at 4096. *)
Definition demo_pipe_proc (st : ProcState) (ch : Z) (k : bool) : Process :=
  mkProcess 4096 0x80300000 0x80301000 1 NULL st 0 0 ch k [] [].

Definition demo_pipe_kernel (k : bool) (x : Pipe) : KState (gmap Z Pipe) :=
  mkKState (mkLState true 0 true {[ 100 := new_lock; 4608 := new_lock ]}) (mkCpu [] 0 0 0 0) 2
    [demo_pipe_proc PROC_UNUSED 0 false; demo_pipe_proc PROC_SLEEPING (nread_chan 4096) false;
     demo_pipe_proc PROC_RUNNING NULL k] 3 1 0x80200000 (mkPmem ∅ 0) [] {[ 4096 := x ]}.

Definition empty_pipe : Pipe := mkPipe (replicate 512 0) 0 0 true true.

Lemma empty_ring : ring_ok empty_pipe.
Proof. by split; cbn. Qed.

Lemma demo_pipe_ready k x :
  ready (demo_pipe_kernel k x) ∅ (pipe_locks 4096) (abs (demo_pipe_kernel k x)) {[ 4096 := x ]}.
Proof.
  split; [split; [|done]| |done].
  - split; cbn.
    + done.
    + done.
    + intros l y Hy. rewrite decide_False by apply not_elem_of_empty.
      apply lookup_insert_Some in Hy as [[_ <-]|[_ Hy]]; [done|]. by apply lookup_singleton_Some in Hy as [_ <-].
    + intros l Hl. by apply elem_of_empty in Hl.
    + reflexivity.
  - intros l Hl. cbn. unfold pipe_locks in Hl. apply elem_of_union in Hl as [?%elem_of_singleton|?%elem_of_singleton]; subst l.
    + change ptable_lk with 100. rewrite lookup_insert_eq. by eexists.
    + change (pipe_lk 4096) with 4608. rewrite lookup_insert_ne by done. rewrite lookup_singleton_eq. by eexists.
Qed.

Lemma demo_pipe_quiet :
  readers_quiet 4096 empty_pipe (abs (demo_pipe_kernel false empty_pipe)) ∧
  writers_quiet 4096 empty_pipe (abs (demo_pipe_kernel false empty_pipe)).
Proof.
  split; [by intros _|]. intros (i & v & Hv & Hs & Hc). destruct i as [|[|[|i]]]; cbn in Hv; [|..|done].
  all: injection Hv as <-; done.
Qed.

Lemma demo_pipe_ok k x : ring_ok x →
  pipe_ok 4096 (demo_pipe_kernel k x) ∅ (abs (demo_pipe_kernel k x)) x.
Proof. intros Hr. split; [apply demo_pipe_ready| |done]. apply lookup_singleton_eq. Qed.

Lemma pipe_fifo_witness : ∃ s' cs,
  pipe_write 1 4096 [7; 8] (demo_pipe_kernel false empty_pipe) = Done (Ok 2 s') ∧
  Forall2 (appends 4096) cs [(demo_pipe_kernel false empty_pipe, s')] ∧ concat cs = [7; 8].
Proof.
  destruct (pipe_write_runs 4096 ltac:(done) ltac:(done) 0 [7; 8] (demo_pipe_kernel false empty_pipe) _ _ empty_pipe
    (demo_pipe_ready false empty_pipe)) as (s' & t' & x' & a' & Hrun & _);
    [apply lookup_singleton_eq|exact empty_ring|done..|].
  destruct demo_pipe_quiet as [Hqr Hqw].
  destruct (proj1 (pipe_fifo 4096 1 (demo_pipe_kernel false empty_pipe) _ empty_pipe ltac:(done) ltac:(done)
    (demo_pipe_ok false empty_pipe empty_ring) Hqw) [7; 8] []
    (Some (demo_pipe_kernel false empty_pipe, 2, s'))) as (cs & Hcs & _ & Hr).
  - done.
  - done.
  - rewrite Hrun. constructor.
  - exists s', cs. split; [exact Hrun|]. split; [exact Hcs|]. by destruct Hr as [[_ Hr]|].
Defined.

(** The first section of a read from an empty pipe: the reader falls asleep. *)
Lemma pipe_no_lost_wakeup_witness : ∃ s1 k,
  pipe_read 1 4096 5 (demo_pipe_kernel false empty_pipe) = Switch s1 k ∧ monitor 4096 true s1 {[ptable_lk]}.
Proof.
  assert (is_switch (pipe_read 1 4096 5 (demo_pipe_kernel false empty_pipe)) = true) as Hsw by (vm_compute; reflexivity).
  destruct (pipe_read 1 4096 5 (demo_pipe_kernel false empty_pipe)) as [r|s1 k] eqn:Hrun; [discriminate Hsw|].
  destruct demo_pipe_quiet as [Hqr Hqw]. exists s1, k. split; [done|].
  assert (Forall (λ sec, monitor 4096 true sec.2 {[ptable_lk]}) [(demo_pipe_kernel false empty_pipe, s1)]) as HL.
  { refine (proj1 (proj2 (pipe_no_lost_wakeup 4096 true 1 (demo_pipe_kernel false empty_pipe) _ empty_pipe ltac:(done) ltac:(done)
      (demo_pipe_ok false empty_pipe empty_ring) (λ _, Hqr) Hqw) 5 [(demo_pipe_kernel false empty_pipe, s1)] None _ _)).
    - done.
    - rewrite Hrun. constructor. }
  by apply Forall_inv in HL.
Defined.

Lemma pipe_roundtrip_witness : ∃ s1 s2 n,
  pipe_write 1 4096 [7; 8; 9] (demo_pipe_kernel false empty_pipe) = Done (Ok 3 s1) ∧
  pipe_read 1 4096 512 s1 = Done (Ok (n, [7; 8; 9]) s2).
Proof.
  refine (pipe_roundtrip 4096 0 [7; 8; 9] _ _ _ empty_pipe _ _ (demo_pipe_ready false empty_pipe) _ _ _ _ _).
  - done.
  - done.
  - apply lookup_singleton_eq.
  - exact empty_ring.
  - done.
  - done.
  - done.
Defined.

(** What is left of the reader, process 1, and of the pipe *)
Definition reader_after (x : run (KState (gmap Z Pipe)) Z) : option (Z * ProcState * Z * Z) :=
  match x with
  | Done (Ok r s) =>
      match ptab s !! 1%nat, rest s !! 4096 with
      | Some q, Some x => Some (r, pstate q, chan q, zlen (queue x))
      | _, _ => None
      end
  | _ => None
  end.

(** A writer that was killed gives up when the pipe is full, without
    waking the readers: here a reader that waited for data sleeps on although
    the pipe holds 512 bytes. *)
Theorem pipe_write_killed :
  reader_after (pipe_write 1 4096 (replicate 513 65) (demo_pipe_kernel true empty_pipe)) =
    Some (-1, PROC_SLEEPING, nread_chan 4096, 512) ∧
  reader_after (pipe_write 1 4096 (replicate 512 65) (demo_pipe_kernel true empty_pipe)) =
    Some (512, PROC_READY, nread_chan 4096, 512).
Proof. split; vm_compute; reflexivity. Qed.

(** The counters are 32 bits wide: the byte number 2^32 makes the next
    operation on the pipe fail its assertion. *)
Theorem pipe_counter_wraps :
  (let> _ := pipe_write 1 4096 [65] in pipe_read 1 4096 1)
    (demo_pipe_kernel false (mkPipe (replicate 512 0) 4294967295 4294967295 true true)) =
  Done (Panic "assert: pipe->nread <= pipe->nwritten").
Proof. vm_compute. reflexivity. Qed.
