(* ===== verification/Files.v ===== *)
(** * kernel/fs.c and kernel/fs/file.c: creating files, and open files

    The inodes and the memory that the running process sees are a [DState] in
    the part of the kernel state that process.c does not know ([HasFs]). An
    operation that may reach a device or a pipe is one that may switch. *)
From S2P Require Import Prelude Machine CMem CString Ide Disk BCache Block Inode Dir.
From S2P Require Import Palloc PgTbl VMem Locks Segments Process ProcSpec Switch Pipe.

(** ** fs.c: [fs_create] *)

Section create.
Context {U : Type} {BS : BlockStore U}.
Notation St := (DState U).
Context (dev_read : Z → option (Z → Z → M (IState U) (Z * list Z))).
Context (dev_write : Z → option (Z → list Z → M (IState U) Z)).
Context (frame : list Z) (slash : Z).

Definition set_node (ty ma mi nl : Z) (x : DInode) : DInode :=
  mkDInode ty (u16 ma) (u16 mi) (u16 nl) (isize x) (addrs x).

(** [(DirEntry){ .name = name, .inum = inum }] *)
Definition dir_entry (name : list Z) (inum : Z) : list Z :=
  direntry_encode inum (name ++ replicate (24 - length name) 0).

(** [entry = (DirEntry){ .inum = inum }; strncpy(entry.name, name, DIRNAMESZ)] *)
Definition named_entry (inum name : Z) : M St (list Z) :=
  local (dir_entry [] inum) (λ entry,
    let! _ := with_txt (strncpy (entry + 4) name DIRNAMESZ) in
    with_txt (load_bytes entry 28)).

Definition dot : list Z := [46].
Definition dotdot : list Z := [46; 46].

Definition fs_create (path ty ma mi : Z) : M St Z :=
  local (uninit frame 24) (λ name,
    let! dir := dir_abspath dev_read frame slash path true in
    if dir =? NULL then ret NULL else
    let! ok := dir_pathidx frame slash path (-1) name in
    if negb ok then ret NULL else
    let! d := with_ino (inode dir) in
    let dv := idev d in
    let! _ := with_ino (inode_load dir) in
    let! ' (i, _) := dir_lookup dev_read frame dir name in
    if negb (i =? NULL) then
      let! x := with_ino (inode i) in
      ret (if type (din x) =? ty then i else NULL)
    else
    let! i := with_ino (inode_allocate dv ty) in
    if i =? NULL then panic "fs_create: alloc" else
    do! with_ino (update_inode i (λ x, set_d (set_node (type (din x)) ma mi 1 (din x)) x)) in
    do! with_ino (inode_flush i) in
    let! x := with_ino (inode i) in
    do! (if type (din x) =? F_DIR then
           do! with_ino (update_inode dir (λ y, set_d (set_node (type (din y)) (major (din y)) (minor (din y)) (nlink (din y) + 1) (din y)) y)) in
           do! with_ino (inode_flush i) in
           let! linked := dir_link dev_read dev_write frame i (dir_entry dot (inum x)) in
           if negb linked then panic "fs_create: link ." else
           let! y := with_ino (inode dir) in
           let! linked := dir_link dev_read dev_write frame i (dir_entry dotdot (inum y)) in
           if negb linked then panic "fs_create: link .." else done!
         else done!) in
    let! x := with_ino (inode i) in
    let! entry := named_entry (inum x) name in
    let! linked := dir_link dev_read dev_write frame dir entry in
    if negb linked then panic "fs_create: link " else
    ret i).
End create.

(** ** file.c: reading and writing *)

(** Where the file system lies in the rest of the kernel state *)
Class HasFs (T U : Type) := {
  fs_of : T → DState U;
  put_fs : DState U → T → T;
  fs_put : ∀ w t, fs_of (put_fs w t) = w;
  put_fs_of : ∀ t, put_fs (fs_of t) t = t;
  put_fs_put : ∀ w w' t, put_fs w (put_fs w' t) = put_fs w t;
}.

(** The file system and the pipes side by side *)
#[export] Instance pair_fs U : HasFs (DState U * gmap Z Pipe) U.
Proof. by refine {| fs_of := fst; put_fs := λ w t, (w, t.2) |}; repeat intros []. Defined.

#[export] Instance pair_pipes A : PipeMem (A * gmap Z Pipe).
Proof.
  refine {| pipe_at := λ p t, pipe_at p t.2; pipe_set := λ p x t, (t.1, pipe_set p x t.2) |}.
  - intros p x t. apply pipe_at_set.
  - intros p q x t Hne. by apply pipe_at_set_ne.
Defined.

(** [Dev]: the functions of a device, where they are set; they get the slot of
    the inode. The bytes that [dv_read] stores to the buffer are a result. *)
Record Dev (St : Type) := mkDev {
  dv_read : option (Z → Z → B St (Z * list Z));
  dv_write : option (Z → Z → Z → B St Z);
}.
Arguments mkDev {St} dv_read dv_write.
Arguments dv_read {St}.
Arguments dv_write {St}.

Section files.
Context `{KernelLayout, KernelText} {T U : Type} {BS : BlockStore U} `{HasFs T U} `{PipeMem T}.
Notation St := (KState T).
(** [devices[NDEV]], and the rounds that a read or write of a pipe may wait *)
Context (devices : list (Dev (KState T))) (fuel : nat).

Definition with_fs {A} (m : M (DState U) A) : M St A := with_rest (zoom fs_of put_fs m).

(** The inode in the slot [i], read from the disk *)
Definition loaded_inode (i : Z) : M St Inode :=
  let! x := with_fs (with_ino (inode i)) in
  do! (if negb (iread x) then let! _ := with_fs (with_ino (inode_load i)) in done! else done!) in
  with_fs (with_ino (inode i)).

(** [inode_read] and [inode_write] with devices that may switch; other files
    are as in Inode.v. The bytes that are read are a result. A write that is
    refused does not look at the buffer. *)
Definition inode_bytes (i offset sz : Z) : B St (Z * list Z) :=
  let> x := lift (loaded_inode i) in
  if type (din x) =? F_DEV then
    if NDEV <? major (din x) then bret (-1, []) else
    let> d := lift (need (devices !! Z.to_nat (major (din x)))) in
    match dv_read d with
    | None => bret (-1, [])
    | Some f => f i (s32 sz)
    end
  else lift (with_fs (with_ino (inode_read (λ _, None) i offset sz))).

Definition inode_readB (i buf offset sz : Z) : B St Z :=
  let> ' (r, l) := inode_bytes i offset sz in
  do> lift (with_fs (with_txt (store_bytes buf l))) in
  bret r.

Definition inode_writeB (i buf offset sz : Z) : B St Z :=
  let> x := lift (loaded_inode i) in
  if type (din x) =? F_DEV then
    if NDEV <? major (din x) then bret (-1) else
    let> d := lift (need (devices !! Z.to_nat (major (din x)))) in
    match dv_write d with
    | None => bret (-1)
    | Some f => f i buf (s32 sz)
    end
  else
    let n := if (isize (din x) <? offset) || (MAXFILE <? offset + sz) then O else Z.to_nat sz in
    let> l := lift (with_fs (with_txt (load_bytes buf n))) in
    lift (with_fs (with_ino (inode_write (λ _, None) i l offset sz))).

(** What exec.c and syscall.c do with an inode; directories and regular files do
    not reach a device. *)
Definition drop (i : Z) : M St unit := with_fs (with_ino (inode_drop i)).

Definition abspath (frame : list Z) (slash path : Z) (parent : bool) : M St Z :=
  with_fs (dir_abspath (λ _, None) frame slash path parent).

Definition set_foffset (o : Z) (f : File) : File :=
  mkFile (fino f) (fpipe f) (u32 o) (ftype f) (fnref f) (readable f) (writable f).

(** [for (int i = 0; i < NOFILE; ++i)], the last [n] rounds from [fd] on *)
Fixpoint fdalloc_loop (n : nat) (fd : nat) (f : Z) : M St Z :=
  match n with
  | O => ret (-1)
  | S n =>
      let! p := this_proc in
      let! x := proc p in
      let! g := need (pfile x !! fd) in
      if g =? NULL then
        let! p := this_proc in
        do! update p (λ x, set_files (<[fd := f]> (pfile x)) x) in
        ret (Z.of_nat fd)
      else fdalloc_loop n (S fd) f
  end.

Definition fs_fdalloc (f : Z) : M St Z := fdalloc_loop (Z.to_nat NOFILE) 0 f.

Definition file_read (f buf n : Z) : B St Z :=
  let> x := lift (file f) in
  if negb (readable x) then bret (-1) else
  match ftype x with
  | FD_NONE => lift (panic "file read")
  | FD_PIPE =>
      let> ' (r, l) := pipe_read fuel (fpipe x) (u32 n) in
      do> lift (with_fs (with_txt (store_bytes buf l))) in
      bret r
  | FD_INODE =>
      let> rd := inode_readB (fino x) buf (foffset x) (u32 n) in
      do> (if 0 <? rd then lift (update_file f (λ x, set_foffset (foffset x + rd) x)) else bret tt) in
      bret rd
  end.

Definition file_write (f buf n : Z) : B St Z :=
  let> x := lift (file f) in
  if negb (writable x) then bret (-1) else
  match ftype x with
  | FD_NONE => lift (panic "file read")
  | FD_PIPE =>
      let> l := lift (with_fs (with_txt (load_bytes buf (Z.to_nat (u32 n))))) in
      pipe_write fuel (fpipe x) l
  | FD_INODE =>
      let> wt := inode_writeB (fino x) buf (foffset x) (u32 n) in
      do> (if negb (wt =? 0) then lift (update_file f (λ x, set_foffset (foffset x + wt) x)) else bret tt) in
      bret wt
  end.

(** What file.c calls to close a file *)
#[export] Instance drop_fs : InodeDrop T := {| drop_inode := λ i, zoom fs_of put_fs (with_ino (inode_drop i)) |}.
End files.

(** ** Specifications *)

(** Interrupts can be switched off and on again without a trace: [int_on] is
    what the outermost [push_cli] would store anyway. *)
Record calm (L : LState) : Prop := mk_calm {
  cm_ok : cli_ok L;
  cm_bound : ncli L < 1000000;
  cm_flag : ncli L = 0 → int_on L = iflag L;
}.

(** The process [x], in the slot [p] of the table, runs. *)
Record running `{KernelLayout, KernelText} {T} (s : KState T) (p : nat) (x : Process) : Prop := mk_running {
  rn_calm : calm (lk s);
  rn_cur : cur s = p;
  rn_proc : ptab s !! p = Some x;
}.

(** The lowest free descriptor *)
Definition first_fd (l : list Z) (fd : nat) : Prop :=
  l !! fd = Some NULL ∧ ∀ k, (k < fd)%nat → ∃ g, l !! k = Some g ∧ g ≠ NULL.

(** The first free entry of the file table *)
Definition first_file (l : list File) (f : nat) (x : File) : Prop :=
  l !! f = Some x ∧ fnref x = 0 ∧ ∀ k, (k < f)%nat → ∃ y, l !! k = Some y ∧ fnref y ≠ 0.

Section states.
Context {T : Type}.
Implicit Types (s : KState T).

Definition put_ptab (l : list Process) s : KState T :=
  mkKState (lk s) (cpu s) (cur s) l (nextpid s) (proc_init1 s) (kernel_pgdir s) (pm s) (ftab s) (rest s).
Definition put_ftab (l : list File) s : KState T :=
  mkKState (lk s) (cpu s) (cur s) (ptab s) (nextpid s) (proc_init1 s) (kernel_pgdir s) (pm s) l (rest s).
Definition put_rest (t : T) s : KState T :=
  mkKState (lk s) (cpu s) (cur s) (ptab s) (nextpid s) (proc_init1 s) (kernel_pgdir s) (pm s) (ftab s) t.
Definition put_ram (m : mem) s : KState T :=
  mkKState (lk s) (cpu s) (cur s) (ptab s) (nextpid s) (proc_init1 s) (kernel_pgdir s) (mkPmem m (freelist (pm s))) (ftab s) (rest s).
Definition put_pm (m : Pmem) s : KState T :=
  mkKState (lk s) (cpu s) (cur s) (ptab s) (nextpid s) (proc_init1 s) (kernel_pgdir s) m (ftab s) (rest s).
End states.

(** ** Lemmas *)

Section lemmas.
Context `{KernelLayout, KernelText} {T U : Type} {BS : BlockStore U} `{HasFs T U} `{PipeMem T}.
Implicit Types (s : KState T) (w : DState U).

Definition put_w w s : KState T := put_rest (put_fs w (rest s)) s.
Definition fsw s : DState U := fs_of (rest s).

Lemma put_w_w w w' s : put_w w (put_w w' s) = put_w w s.
Proof. unfold put_w, put_rest. cbn. by rewrite put_fs_put. Qed.

Lemma fsw_put w s : fsw (put_w w s) = w.
Proof. apply fs_put. Qed.

Lemma put_w_id s : put_w (fsw s) s = s.
Proof. unfold put_w, fsw. rewrite put_fs_of. by destruct s. Qed.

Lemma wp_with_fs {A} (m : M (DState U) A) s Q : wp m (fsw s) (λ a w, Q a (put_w w s)) → wp (with_fs m) s Q.
Proof. intros Hm. unfold with_fs, with_rest. by rewrite !wp_zoom. Qed.

Lemma wp_fs_ok {A} (m : M (DState U) A) s a w (Q : A → KState T → Prop) :
  m (fsw s) = Ok a w → Q a (put_w w s) → wp (with_fs m) s Q.
Proof. intros Hm HQ. apply wp_with_fs. by eapply wp_ok. Qed.

Lemma wp_fs_txt {A} (m : M mem A) s a t (Q : A → KState T → Prop) :
  m (txt (fsw s)) = Ok a t → Q a (put_w (mkDState (ino (fsw s)) t) s) → wp (with_fs (with_txt m)) s Q.
Proof. intros Hm HQ. by apply wp_with_fs, (wp_with_txt _ _ a t). Qed.

(** Reading the memory of the process *)
Lemma wp_fs_load {A} (m : M mem A) s a (Q : A → KState T → Prop) :
  m (txt (fsw s)) = Ok a (txt (fsw s)) → Q a s → wp (with_fs (with_txt m)) s Q.
Proof.
  intros Hm HQ. eapply wp_fs_txt; [exact Hm|]. destruct (fsw s) as [i t] eqn:E. cbn. rewrite <- E, put_w_id. exact HQ.
Qed.

Lemma wp_ram_ok {A} (m : M mem A) s a t (Q : A → KState T → Prop) :
  m (ram (pm s)) = Ok a t → Q a (put_ram t s) → wp (with_pm (with_ram m)) s Q.
Proof. intros Hm HQ. unfold with_pm, with_ram. rewrite !wp_zoom. by eapply wp_ok. Qed.

Lemma wp_pm {A} (a : M Pmem A) s (Q : A → KState T → Prop) : wp a (pm s) (λ r m, Q r (put_pm m s)) → wp (with_pm a) s Q.
Proof. intros Ha. unfold with_pm. by rewrite wp_zoom. Qed.

Lemma put_ram_id s : put_ram (ram (pm s)) s = s.
Proof. destruct s as [? ? ? ? ? ? ? [] ? ?]. done. Qed.

Lemma push_pop_calm L : calm L → popped (pushed L) = L.
Proof.
  intros [[Hn Hoff] Hb Hf]. destruct L as [i n o l]. unfold popped, pushed, restore_flag. cbn in *.
  replace (n + 1 - 1) with n by lia. destruct (Z.eqb_spec n 0) as [->|Hne].
  - cbn. by rewrite Hf.
  - rewrite (proj2 (Z.eqb_neq _ _)) by lia. cbn. by rewrite Hoff by lia.
Qed.

(** The name of a process *)
Lemma name_str_app l k : Forall (λ b, 0 < b < 256) l → name_str (l ++ 0 :: k) = l.
Proof.
  induction 1 as [|b l Hb _ IH]; [done|]. cbn. rewrite (proj2 (Z.eqb_neq b 0)) by lia. by rewrite IH.
Qed.

Lemma name_copy_ok old l : Forall (λ b, 0 < b < 256) l → (length l ≤ 14)%nat → ∃ nm, name_copy old l = Some nm ∧ name_str nm = l.
Proof.
  intros Hl Hlen. unfold name_copy.
  assert (∃ k, strncpy_image 16 l = l ++ 0 :: k ∧ (length k ≤ 1)%nat) as (k & -> & Hk).
  { unfold strncpy_image. rewrite decide_False by lia. case_decide; [by exists []; cbn; split; [|lia]|by exists [0]; cbn; split; [|lia]]. }
  rewrite length_app. cbn [length]. rewrite (proj2 (Nat.leb_le _ _)) by lia. eexists. split; [done|]. unfold splice. cbn [take app].
  rewrite <- app_assoc. cbn [app]. by apply name_str_app.
Qed.

Lemma wp_lk {A} (m : M LState A) s Q :
  wp m (lk s) (λ a L, Q a (mkKState L (cpu s) (cur s) (ptab s) (nextpid s) (proc_init1 s) (kernel_pgdir s) (pm s) (ftab s) (rest s))) →
  wp (with_lk m) s Q.
Proof. intros Hm. unfold with_lk. by rewrite wp_zoom. Qed.

Lemma wp_this_proc s p x (Q : Z → KState T → Prop) : running s p x → Q p s → wp this_proc s Q.
Proof.
  intros [Hc Hcur _] HQ. pose proof Hc as [Hok Hb _]. unfold this_proc.
  assert (cli_ok (pushed (lk s))) as Hp by (apply pushed_ok; [done|lia]).
  rewrite wp_bind. apply wp_lk. eapply wp_ok; [by apply push_cli_ok|].
  rewrite wp_bind. apply wp_lk. cbn [lk]. eapply wp_ok; [reflexivity|]. rewrite wp_bind, wp_gets. cbn [cur].
  rewrite wp_bind. apply wp_lk. cbn [lk]. eapply wp_ok; [apply (pop_cli_ok (pushed (lk s))); [reflexivity|destruct Hok as [Hn _]; cbn; lia]|]. cbn beta.
  rewrite wp_ret, push_pop_calm by done. destruct s. cbn in *. by subst.
Qed.

Lemma wp_proc s (p : nat) x (Q : Process → KState T → Prop) : ptab s !! p = Some x → Q x s → wp (proc p) s Q.
Proof.
  intros Hx HQ. unfold proc. rewrite (proj2 (Z.ltb_ge _ _)), wp_bind, wp_gets, Nat2Z.id by lia. by eapply wp_need.
Qed.

Lemma wp_update_proc s (p : nat) x f (Q : unit → KState T → Prop) :
  ptab s !! p = Some x → Q tt (put_ptab (<[p := f x]> (ptab s)) s) → wp (update p f) s Q.
Proof.
  intros Hx HQ. unfold update. rewrite wp_bind. eapply wp_proc; [exact Hx|]. rewrite wp_bind, wp_gets. unfold set_ptab.
  by rewrite wp_modify, Nat2Z.id.
Qed.

Lemma wp_file s (f : nat) x (Q : File → KState T → Prop) : ftab s !! f = Some x → Q x s → wp (file f) s Q.
Proof.
  intros Hx HQ. unfold file. rewrite (proj2 (Z.ltb_ge _ _)), wp_bind, wp_gets, Nat2Z.id by lia. by eapply wp_need.
Qed.

Lemma wp_update_file s (f : nat) x g (Q : unit → KState T → Prop) :
  ftab s !! f = Some x → Q tt (put_ftab (<[f := g x]> (ftab s)) s) → wp (update_file f g) s Q.
Proof.
  intros Hx HQ. unfold update_file. rewrite wp_bind. eapply wp_file; [exact Hx|]. rewrite wp_bind, wp_gets. unfold set_ftab.
  by rewrite wp_modify, Nat2Z.id.
Qed.

Lemma free_file_ok l (f : nat) x : first_file l f x → ∀ i : Z, free_file l i = i + f.
Proof.
  revert f. induction l as [|y l IH]; intros f (Hf & Hx & Hk) i; [done|]. cbn. destruct f as [|f].
  - injection Hf as ->. rewrite Hx, Z.add_0_r. done.
  - destruct (Hk 0%nat ltac:(lia)) as (z & [= <-] & Hz). rewrite (proj2 (Z.eqb_neq _ _)) by done.
    rewrite (IH f); [lia|]. split; [done|]. split; [done|]. intros k Hlt. apply (Hk (S k)). lia.
Qed.

Lemma file_allocate_ok s (f : nat) x : first_file (ftab s) f x →
  file_allocate s = Ok (Z.of_nat f) (put_ftab (<[f := set_fnref 1 x]> (ftab s)) s).
Proof.
  intros Hf. apply wp_eq. unfold file_allocate. rewrite wp_bind, wp_gets, (free_file_ok _ _ _ Hf), Z.add_0_l.
  rewrite (proj2 (Z.eqb_neq _ _)) by (unfold NULL; lia). rewrite wp_bind. eapply wp_update_file; [apply Hf|]. by rewrite wp_ret.
Qed.

Lemma fdalloc_ok s p x (fd : nat) f : running s p x → first_fd (pfile x) fd → (fd < 32)%nat →
  fs_fdalloc f s = Ok (Z.of_nat fd) (put_ptab (<[p := set_files (<[fd := f]> (pfile x)) x]> (ptab s)) s).
Proof.
  intros Hrun [Hfree Hused] Hlt. apply wp_eq. unfold fs_fdalloc. change (Z.to_nat NOFILE) with 32%nat.
  assert (∀ n k, (k + n = 32)%nat → (k ≤ fd)%nat → wp (fdalloc_loop n k f) s (λ r s',
    r = fd ∧ s' = put_ptab (<[p := set_files (<[fd := f]> (pfile x)) x]> (ptab s)) s)) as Hl; [|by apply (Hl 32%nat 0%nat); lia].
  induction n as [|n IH]; intros k Hk Hle; [lia|]. cbn [fdalloc_loop].
  rewrite wp_bind. eapply wp_this_proc; [done|]. rewrite wp_bind. eapply wp_proc; [apply Hrun|]. rewrite wp_bind.
  destruct (decide (k = fd)) as [->|Hne].
  - eapply wp_need; [exact Hfree|]. rewrite Z.eqb_refl. rewrite wp_bind. eapply wp_this_proc; [done|].
    rewrite wp_bind. eapply wp_update_proc; [apply Hrun|]. by rewrite wp_ret.
  - destruct (Hused k ltac:(lia)) as (g & Hg & Hgn). eapply wp_need; [exact Hg|].
    rewrite (proj2 (Z.eqb_neq _ _)) by done. apply IH; lia.
Qed.

Lemma file_bytes_byte (i : IState U) x : Forall is_byte (file_bytes i x).
Proof. unfold file_bytes. apply Forall_join, Forall_fmap, Forall_true. intros b. apply bs_block_ok. Qed.

(** The inode in a slot, when it has been read *)
Lemma loaded_inode_ok s i x (Q : Inode → KState T → Prop) :
  icache (ino (fsw s)) !! i = Some x → iread x = true → Q x s → wp (loaded_inode i) s Q.
Proof.
  intros Hx Hrd HQ. unfold loaded_inode.
  assert (∀ Q : Inode → KState T → Prop, Q x s → wp (with_fs (with_ino (inode i))) s Q) as Hi.
  { intros Q' HQ'. apply wp_with_fs, wp_with_ino. eapply wp_inode; [exact Hx|].
    destruct (fsw s) as [w t] eqn:E. cbn. rewrite <- E, put_w_id. exact HQ'. }
  rewrite wp_bind. apply Hi. rewrite Hrd. cbn [negb]. rewrite wp_bind, wp_ret. by apply Hi.
Qed.

(** The bytes that a read of [sz] bytes at [off] stores *)
Definition read_bytes (i : IState U) (x : DInode) (off sz : Z) : list Z :=
  slice (Z.to_nat off) (Z.to_nat (Z.min sz (isize x - off))) (file_bytes i x).

(** A file or directory in the slot [i], which can be read at [off] *)
Record file_at s (i : Z) (x : Inode) : Prop := mk_file_at {
  fa_slot : icache (ino (fsw s)) !! i = Some x;
  fa_read : iread x = true;
  fa_idle : blk_idle (blk (ino (fsw s)));
  fa_file : file_ok (ino (fsw s)) (din x) (isize (din x));
}.

Lemma length_read_bytes s i x off sz : file_at s i x → 0 ≤ off ≤ isize (din x) → 0 ≤ sz →
  zlen (read_bytes (ino (fsw s)) (din x) off sz) = Z.min sz (isize (din x) - off).
Proof.
  intros Hf Ho Hsz. pose proof (fo_len _ _ _ (fa_file _ _ _ Hf)) as Hl. unfold read_bytes, zlen.
  rewrite length_slice; [lia|]. rewrite length_file_bytes by apply (dw_addrs _ (fo_wf _ _ _ (fa_file _ _ _ Hf))). lia.
Qed.

Lemma inode_bytes_ok devices s i x off sz (Q : Z * list Z → KState T → Prop) :
  file_at s i x → 0 ≤ off ≤ isize (din x) → 0 ≤ sz → off + sz < 4294967296 →
  let l := read_bytes (ino (fsw s)) (din x) off sz in
  (∀ j, same_ino (ino (fsw s)) j → Q (zlen l, l) (put_w (mkDState j (txt (fsw s))) s)) →
  bwp (inode_bytes devices i off sz) s Q.
Proof.
  intros Hfa Ho Hsz Hov l HQ. pose proof Hfa as [Hx Hrd Hid Hf]. unfold inode_bytes. rewrite bwp_bind_lift.
  eapply loaded_inode_ok; [done..|]. pose proof (fo_type _ _ _ Hf) as Ht.
  rewrite (proj2 (Z.eqb_neq _ _)) by (unfold F_DEV, F_FILE, F_DIR in *; lia). rewrite bwp_lift.
  apply wp_with_fs, wp_with_ino. eapply wp_mono.
  { apply (inode_read_ok (λ _, None) i x); try done. apply (file_ok_le _ _ _ _ Hf); lia. }
  cbn beta. intros [r out] j (-> & Hout & Hid' & Hsb & Hic & Hbl).
  assert (out = l) as -> by exact Hout. rewrite <- (length_read_bytes s i x) by done. by apply HQ.
Qed.

Lemma inode_readB_ok devices s i x buf off sz (Q : Z → KState T → Prop) :
  file_at s i x → 0 ≤ off ≤ isize (din x) → 0 ≤ sz → off + sz < 4294967296 →
  let l := read_bytes (ino (fsw s)) (din x) off sz in
  mapped (txt (fsw s)) buf (length l) →
  (∀ j, same_ino (ino (fsw s)) j → Q (zlen l) (put_w (mkDState j (write buf l (txt (fsw s)))) s)) →
  bwp (inode_readB devices i buf off sz) s Q.
Proof.
  intros Hfa Ho Hsz Hov l Hm HQ. unfold inode_readB. rewrite bwp_bind.
  apply (inode_bytes_ok devices s i x); [done..|]. intros j Hj. rewrite bwp_bind_lift. eapply wp_fs_txt.
  { rewrite fsw_put. cbn [txt]. apply store_bytes_ok; [apply Forall_slice, file_bytes_byte|exact Hm]. }
  rewrite bwp_bret, fsw_put, put_w_w. by apply HQ.
Qed.

Lemma same_cursor s (f : nat) y : ftab s !! f = Some y → 0 ≤ foffset y < 4294967296 →
  put_ftab (<[f := set_foffset (foffset y + 0) y]> (ftab s)) s = s.
Proof.
  intros Hy Ho. assert (set_foffset (foffset y + 0) y = y) as ->.
  { unfold set_foffset. rewrite Z.add_0_r, u32_small by done. by destruct y. }
  rewrite list_insert_id by done. by destruct s.
Qed.

Lemma file_read_ok devices fuel s (f : nat) y i x buf n (Q : Z → KState T → Prop) :
  ftab s !! f = Some y → readable y = true → ftype y = FD_INODE → fino y = i → file_at s i x →
  0 ≤ foffset y ≤ isize (din x) → 0 ≤ n < 2147483648 →
  let l := read_bytes (ino (fsw s)) (din x) (foffset y) n in
  mapped (txt (fsw s)) buf (length l) →
  (∀ j, same_ino (ino (fsw s)) j →
    Q (zlen l) (put_ftab (<[f := set_foffset (foffset y + zlen l) y]> (ftab s)) (put_w (mkDState j (write buf l (txt (fsw s)))) s))) →
  bwp (file_read devices fuel f buf n) s Q.
Proof.
  intros Hy Hr Ht <- Hfa Ho Hn l Hm HQ. unfold file_read. rewrite bwp_bind_lift. eapply wp_file; [exact Hy|].
  pose proof (fo_len _ _ _ (fa_file _ _ _ Hfa)) as Hlen. pose proof (length_read_bytes s (fino y) x _ n Hfa Ho ltac:(lia)) as Hl. fold l in Hl.
  rewrite Hr, Ht, u32_small by lia. cbn [negb]. rewrite bwp_bind.
  apply (inode_readB_ok _ s (fino y) x); [done|done|lia|lia|exact Hm|]. intros j Hj. fold l. specialize (HQ j Hj).
  rewrite bwp_bind. destruct (Z.ltb_spec 0 (zlen l)).
  - rewrite bwp_lift. eapply wp_update_file; [exact Hy|]. exact HQ.
  - assert (zlen l = 0) as Hz by (unfold zlen in *; lia). rewrite !bwp_bret. rewrite Hz in HQ.
    set (s1 := put_w (mkDState j (write buf l (txt (fsw s)))) s) in *.
    assert (put_ftab (<[f := set_foffset (foffset y + 0) y]> (ftab s)) s1 = s1) as He.
    { apply (same_cursor s1 f y); [exact Hy|lia]. }
    rewrite He in HQ. rewrite Hz. exact HQ.
Qed.

(** What a write of the bytes [l] at [off] leaves of the file system *)
Record written_at (j j' : IState U) (i : Z) (x : Inode) (off : Z) (l : list Z) : Prop := mk_written_at {
  wa_idle : blk_idle (blk j');
  wa_super : sblock j' = sblock j;
  wa_cache : icache j' = <[i := set_d (Inode.set_size (Z.max (isize (din x)) (off + zlen l)) (din x)) x]> (icache j);
  wa_bytes : file_bytes j' (din x) = splice (Z.to_nat off) l (file_bytes j (din x));
  wa_other : ∀ k, data_block (sblock j) k → k ∉ addrs (din x) → blocks j' k = blocks j k;
}.

Lemma inode_writeB_ok devices s i x buf off l (Q : Z → KState T → Prop) :
  icache (ino (fsw s)) !! i = Some x → iread x = true → blk_idle (blk (ino (fsw s))) →
  inum_ok (sblock (ino (fsw s))) (inum x) → 0 ≤ off ≤ isize (din x) → file_ok (ino (fsw s)) (din x) (off + zlen l) →
  array (txt (fsw s)) buf l → Forall is_byte l →
  (∀ j, written_at (ino (fsw s)) j i x off l → Q (zlen l) (put_w (mkDState j (txt (fsw s))) s)) →
  bwp (inode_writeB devices i buf off (zlen l)) s Q.
Proof.
  intros Hx Hrd Hid Hin Ho Hf Ha Hb HQ. unfold inode_writeB. rewrite bwp_bind_lift. eapply loaded_inode_ok; [done..|].
  pose proof (fo_type _ _ _ Hf) as Ht. pose proof (fo_len _ _ _ Hf) as Hlen.
  rewrite (proj2 (Z.eqb_neq _ _)) by (unfold F_DEV, F_FILE, F_DIR in *; lia).
  rewrite (proj2 (Z.ltb_ge (isize (din x)) off)), (proj2 (Z.ltb_ge MAXFILE _)) by (change MAXFILE with 71680; lia).
  cbn [orb]. rewrite bwp_bind_lift. unfold zlen at 1. rewrite Nat2Z.id. eapply wp_fs_load; [by apply load_bytes_ok|].
  rewrite bwp_lift. apply wp_with_fs, wp_with_ino. eapply wp_mono.
  { apply (inode_write_ok (λ _, None) i x); try done; unfold zlen; lia. }
  cbn beta. intros r j (-> & Hid' & Hsb & Hic & Hfb & Hk & _). apply HQ.
  unfold zlen in *. rewrite Nat2Z.id, firstn_all in Hfb. by split.
Qed.

Lemma file_write_ok devices fuel s (f : nat) y i x buf l (Q : Z → KState T → Prop) :
  ftab s !! f = Some y → writable y = true → ftype y = FD_INODE → fino y = i →
  icache (ino (fsw s)) !! i = Some x → iread x = true → blk_idle (blk (ino (fsw s))) →
  inum_ok (sblock (ino (fsw s))) (inum x) → 0 ≤ foffset y ≤ isize (din x) →
  file_ok (ino (fsw s)) (din x) (foffset y + zlen l) → array (txt (fsw s)) buf l → Forall is_byte l →
  (∀ j, written_at (ino (fsw s)) j i x (foffset y) l →
    Q (zlen l) (put_ftab (<[f := set_foffset (foffset y + zlen l) y]> (ftab s)) (put_w (mkDState j (txt (fsw s))) s))) →
  bwp (file_write devices fuel f buf (zlen l)) s Q.
Proof.
  intros Hy Hw Ht <- Hx Hrd Hid Hin Ho Hf Ha Hb HQ. unfold file_write. rewrite bwp_bind_lift. eapply wp_file; [exact Hy|].
  pose proof (fo_len _ _ _ Hf) as Hlen. rewrite Hw, Ht, u32_small by (unfold zlen in *; lia). cbn [negb]. rewrite bwp_bind.
  apply (inode_writeB_ok _ s (fino y) x); [done..|]. intros j Hj. specialize (HQ j Hj). rewrite bwp_bind.
  destruct (Z.eqb_spec (zlen l) 0) as [Hz|Hz]; cbn [negb].
  - rewrite !bwp_bret. rewrite Hz in *. set (s1 := put_w (mkDState j (txt (fsw s))) s) in *.
    assert (put_ftab (<[f := set_foffset (foffset y + 0) y]> (ftab s)) s1 = s1) as He by (apply (same_cursor s1 f y); [exact Hy|lia]).
    by rewrite He in HQ.
  - rewrite bwp_lift. eapply wp_update_file; [exact Hy|]. exact HQ.
Qed.

Lemma written_file (j j' : IState U) i x off l len : written_at j j' i x off l → file_ok j (din x) len →
  file_ok j' (din x) len.
Proof. intros [_ Hsb _ _ _] [F1 F2 F3 F4 F5]. rewrite <- Hsb in F4, F5. by split. Qed.

Lemma file_ok_size (j : IState U) (x : DInode) len n : file_ok j x len → 0 ≤ n < 4294967296 → file_ok j (Inode.set_size n x) len.
Proof. intros [[W1 W2 W3 W4 W5 W6] F2 F3 F4 F5] Hn. split; [by split|done..]. Qed.

(** ** Properties *)

(** C17: Two open files of one inode are two cursors into the same bytes: what
    is written through one of them is read back through the other at the same
    place, into any buffer; each cursor moves by the bytes of its own
    operation. Neither operation waits. *)
Theorem file_write_read devices fuel s (f g : nat) y z x buf dst l :
  ftab s !! f = Some y → writable y = true → ftype y = FD_INODE →
  ftab s !! g = Some z → readable z = true → ftype z = FD_INODE →
  f ≠ g → fino z = fino y → foffset z = foffset y →
  icache (ino (fsw s)) !! fino y = Some x → iread x = true → blk_idle (blk (ino (fsw s))) →
  inum_ok (sblock (ino (fsw s))) (inum x) → 0 ≤ foffset y ≤ isize (din x) →
  file_ok (ino (fsw s)) (din x) (Z.max (isize (din x)) (foffset y + zlen l)) →
  array (txt (fsw s)) buf l → Forall is_byte l → mapped (txt (fsw s)) dst (length l) →
  bwp (let> a := file_write devices fuel f buf (zlen l) in
       let> b := file_read devices fuel g dst (zlen l) in bret (a, b)) s
    (λ '(a, b) s', a = zlen l ∧ b = zlen l ∧ array (txt (fsw s')) dst l ∧
      ftab s' = <[g := set_foffset (foffset y + zlen l) z]> (<[f := set_foffset (foffset y + zlen l) y]> (ftab s))).
Proof.
  intros Hy Hw Hty Hz Hr Htz Hne Hi Hoz Hx Hrd Hid Hin Ho Hf Ha Hb Hm. pose proof (fo_len _ _ _ Hf) as Hlen.
  assert (0 ≤ zlen l) as Hl0 by (unfold zlen; lia). rewrite bwp_bind.
  apply (file_write_ok devices fuel s f y (fino y) x); [done..|apply (file_ok_le _ _ _ _ Hf); lia|done|done|]. intros j Hj.
  set (s1 := put_ftab _ (put_w (mkDState j (txt (fsw s))) s)). assert (fsw s1 = mkDState j (txt (fsw s))) as Hs1 by apply fs_put.
  set (x' := set_d (Inode.set_size (Z.max (isize (din x)) (foffset y + zlen l)) (din x)) x).
  assert (isize (din x') = Z.max (isize (din x)) (foffset y + zlen l)) as Hsz by done.
  assert (read_bytes (ino (fsw s1)) (din x') (foffset z) (zlen l) = l) as Hl.
  { rewrite Hs1. unfold read_bytes. rewrite Hsz, Hoz. cbn [ino]. rewrite Z.min_l by lia.
    change (file_bytes j (din x')) with (file_bytes j (din x)). rewrite (wa_bytes _ _ _ _ _ _ Hj).
    unfold zlen. rewrite Nat2Z.id. apply slice_splice_same.
    rewrite length_file_bytes by apply (dw_addrs _ (fo_wf _ _ _ Hf)). unfold zlen in *. lia. }
  rewrite bwp_bind. eapply (file_read_ok _ _ s1 g z (fino y) x').
  - unfold s1, put_ftab. cbn [ftab]. by rewrite list_lookup_insert_ne.
  - done.
  - done.
  - done.
  - split; rewrite ?Hs1; cbn [ino]; [|done|apply Hj|].
    + rewrite (wa_cache _ _ _ _ _ _ Hj). apply lookup_insert_eq.
    + rewrite Hsz. apply file_ok_size; [by eapply written_file|lia].
  - rewrite Hoz, Hsz. lia.
  - lia.
  - rewrite Hl, Hs1. exact Hm.
  - intros j2 Hj2. rewrite bwp_bret. split; [done|]. rewrite Hl.
    split; [done|]. rewrite Hs1. cbn [txt]. split.
    + unfold put_ftab, put_w, fsw, put_rest. cbn [rest]. rewrite fs_put. cbn [txt]. apply array_write.
    + unfold put_ftab, put_w, put_rest. cbn [ftab]. by rewrite Hoz.
Qed.

(** A write that is refused, because the cursor lies behind the end of the
    file or the file would get too big, moves the cursor back by one byte: the
    result -1 is added to it like a number of bytes. *)
Theorem file_write_error devices fuel s (f : nat) y x buf n :
  ftab s !! f = Some y → writable y = true → ftype y = FD_INODE →
  icache (ino (fsw s)) !! fino y = Some x → iread x = true → type (din x) = F_FILE ∨ type (din x) = F_DIR →
  0 < foffset y → 0 ≤ n < 2147483648 → foffset y + n < 4294967296 →
  isize (din x) < foffset y ∨ MAXFILE < foffset y + n →
  file_write devices fuel f buf n s = Done (Ok (-1) (put_ftab (<[f := set_foffset (foffset y - 1) y]> (ftab s)) s)).
Proof.
  intros Hy Hw Hty Hx Hrd Ht Ho Hn Hov Herr.
  assert (bwp (file_write devices fuel f buf n) s (λ a s', a = -1 ∧ s' = put_ftab (<[f := set_foffset (foffset y - 1) y]> (ftab s)) s)) as Hb.
  { unfold file_write. rewrite bwp_bind_lift. eapply wp_file; [exact Hy|]. rewrite Hw, Hty, u32_small by lia. cbn [negb].
    rewrite bwp_bind. unfold inode_writeB. rewrite bwp_bind_lift. eapply loaded_inode_ok; [done..|].
    rewrite (proj2 (Z.eqb_neq _ _)) by (unfold F_DEV, F_FILE, F_DIR in *; lia).
    assert ((isize (din x) <? foffset y) || (MAXFILE <? foffset y + n) = true) as Hrej by lia.
    rewrite Hrej, bwp_bind_lift. eapply wp_fs_load; [reflexivity|]. rewrite bwp_lift. apply wp_with_fs, wp_with_ino.
    unfold inode_write. rewrite wp_bind. eapply wp_inode; [exact Hx|]. rewrite Hrd. cbn [negb]. rewrite wp_bind, wp_ret, wp_bind.
    eapply wp_inode; [exact Hx|]. rewrite (proj2 (Z.eqb_neq _ F_DEV)) by (unfold F_DEV, F_FILE, F_DIR in *; lia).
    assert ((type (din x) =? F_DIR) || (type (din x) =? F_FILE) = true) as -> by (unfold F_FILE, F_DIR in *; lia).
    assert (bwp (if negb (-1 =? 0) then lift (update_file f (λ x, set_foffset (foffset x + -1) x)) else bret tt) s
      (λ _ s', bwp (bret (-1)) s' (λ a s', a = -1 ∧ s' = put_ftab (<[f := set_foffset (foffset y - 1) y]> (ftab s)) s))) as Hfin.
    { cbn [Z.eqb negb]. rewrite bwp_lift. eapply wp_update_file; [exact Hy|]. rewrite bwp_bret. done. }
    assert (put_w (mkDState (ino (fsw s)) (txt (fsw s))) s = s) as Hsame.
    { destruct (fsw s) as [w t] eqn:E. cbn. rewrite <- E. apply put_w_id. }
    destruct (isize (din x) <? foffset y) eqn:E1; [by rewrite wp_ret, Hsame, bwp_bind|]. cbn [orb] in Hrej.
    destruct (0xffffffff - foffset y <? n); rewrite ?Hrej, wp_ret, Hsame, bwp_bind; exact Hfin. }
  unfold bwp in Hb. destruct (file_write devices fuel f buf n s) as [[a s'| | |]|]; try done. by destruct Hb as [-> ->].
Qed.
End lemmas.

(** ** Witnesses *)

#[local] Existing Instance demo_layout.
#[local] Existing Instance demo_text.
#[local] Existing Instance bcache_store.

(** The file of [demo_media], with 5 bytes, in the slot 3; ["hey"] at 100 and a
    buffer at 200 *)
Definition demo_inode : Inode := mkInode ROOTDEV 2 1 (mkMutex false 0) true demo_file.

Definition demo_fs : DState (BState SimDrive) :=
  mkDState (mkIState (demo_blk demo_media) {[ 3 := demo_inode ]} 1)
    (write 100 [104; 101; 121] (write 200 (replicate 8 0) ∅)).

Definition demo_open (off : Z) (r w : bool) : File := mkFile 3 0 off FD_INODE 1 r w.

(** A process with its descriptors [fds] runs, with the file table [l]. *)
Definition demo_proc (fds : list Z) : Process :=
  mkProcess 4096 0x80300000 0x80301000 1 NULL PROC_RUNNING 0 0 NULL false fds [].

Definition demo_files (off : Z) : KState (DState (BState SimDrive) * gmap Z Pipe) :=
  mkKState (mkLState true 0 true {[ 100 := new_lock ]}) (mkCpu [] 0 0 0 0) 0 [demo_proc []] 2 0 0x80200000 (mkPmem ∅ 0)
    [demo_open off true false; demo_open off false true] (demo_fs, ∅).

Lemma demo_files_ok off len : 0 ≤ len ≤ 512 → file_ok (ino (fsw (demo_files off))) demo_file len.
Proof.
  intros Hlen. split; [|by left|lia| |].
  - split; cbn; unfold F_FILE; try lia. split; [done|]. repeat (apply Forall_cons; split; [lia|]). constructor.
  - intros [|n] Hn; [|lia]. exists 4. split; [done|]. split; [split; cbn; lia|].
    intros m Hm Hlook. do 12 (destruct m as [|m]; [done || discriminate|]). lia.
  - intros m b Hm. do 13 (destruct m as [|m]; [injection Hm as <-; (by left) || (right; split; cbn; lia)|]). done.
Qed.

Lemma file_write_read_witness :
  bwp (let> a := file_write [] 0 1 100 3 in let> b := file_read [] 0 0 200 3 in bret (a, b)) (demo_files 4)
    (λ '(a, b) s', a = 3 ∧ b = 3 ∧ array (txt (fsw s')) 200 [104; 101; 121]).
Proof.
  eapply bwp_mono.
  - apply (file_write_read [] 0 (demo_files 4) 1 0 (demo_open 4 false true) (demo_open 4 true false) demo_inode 100 200 [104; 101; 121]);
      try reflexivity; try discriminate.
    + by apply demo_blk_idle.
    + split; [discriminate|]. by split.
    + split; vm_compute; discriminate.
    + apply demo_files_ok. split; vm_compute; discriminate.
    + apply (array_write 100 [104; 101; 121]).
    + by repeat constructor.
    + apply mapped_write. intros i Hi. cbn in Hi. do 3 (destruct i as [|i]; [vm_compute; by eexists|]). lia.
  - intros [a b] s' (-> & -> & Ha & _). done.
Defined.

(** The cursor 6 is behind the end of the file. *)
Lemma file_write_error_witness : ∃ s',
  file_write [] 0 1 100 3 (demo_files 6) = Done (Ok (-1) s') ∧ foffset <$> ftab s' !! 1%nat = Some 5.
Proof.
  eexists. split.
  - apply (file_write_error [] 0 (demo_files 6) 1 (demo_open 6 false true) demo_inode 100 3); try reflexivity;
      [by left|split; [discriminate|reflexivity]|by left].
  - reflexivity.
Defined.
