(* ===== verification/Fork.v ===== *)
(** * Creation of processes: [allocate_process], [fork] and [init_pid1] of
    process.c return, and what they make

    ProcSpec.v says what any run does to the table; here are the conditions
    under which the operations return, and the memory of the new process. *)
From S2P Require Import Prelude Machine CMem CString Ide Disk BCache Block Inode Dir.
From S2P Require Import Palloc PgTbl VMem Uvm Locks Segments Process ProcSpec Switch Pipe Files.

(** ** Specifications *)

(** The first unused slot of the table *)
Definition free_slot (t : list Process) (c : nat) (y : Process) : Prop :=
  t !! c = Some y ∧ pstate y = PROC_UNUSED ∧ (1 ≤ c)%nat ∧
  ∀ k z, (1 ≤ k < c)%nat → t !! k = Some z → pstate z ≠ PROC_UNUSED.

Definition table_full (t : list Process) : Prop := ∀ (k : nat) z, (1 ≤ k)%nat → t !! k = Some z → pstate z ≠ PROC_UNUSED.

(** A table with a free slot for a new process *)
Record can_allocate `{KernelLayout, KernelText} {T} (s : KState T) (c : nat) (y : Process) (k : Z) (l : list Z) : Prop := mk_can_allocate {
  ca_calm : calm (lk s);
  ca_lock : avail (lk s) ptable_lk;
  ca_pid : 0 ≤ nextpid s ≤ NPROC;
  ca_slot : free_slot (ptab s) c y;
  ca_pages : free_pages (pm s) (k :: l);
}.

(** The addresses in the kernel stack [k]: the trap frame, below it the return
    address of the first switch, and the context *)
Definition frame_of (k : Z) : Z := k + 4020.
Definition context_of (k : Z) : Z := k + 3996.

(** The kernel stack of a new process *)
Definition kstack_ram `{KernelText} (k : Z) (m : mem) : mem :=
  write (context_of k + 16) (le_bytes 4 forkret_addr)
    (write (context_of k) (replicate 20 0) (write (frame_of k - 4) (le_bytes 4 trapret) m)).

(** The process that [allocate_process] makes of the free slot [y] *)
Definition new_process (k np : Z) (y : Process) : Process :=
  set_frame (frame_of k) (context_of k) (set_kstack k (set_pid np (set_state PROC_CREATED y))).

(** The state after [allocate_process] *)
Definition allocated `{KernelLayout, KernelText} {T} (s : KState T) (c : nat) (y : Process) (k : Z) : KState T :=
  mkKState (lk s) (cpu s) (cur s) (<[c := new_process k (nextpid s) y]> (ptab s)) (nextpid s + 1) (proc_init1 s) (kernel_pgdir s)
    (mkPmem (kstack_ram k (ram (pm s))) (word (ram (pm s)) k)) (ftab s) (rest s).

(** The file table after the descriptors [fds] were duplicated *)
Fixpoint occurs (f : nat) (fds : list Z) : Z :=
  match fds with [] => 0 | g :: fds => (if g =? f then 1 else 0) + occurs f fds end.

Definition shared (fds : list Z) (t : list File) : list File := imap (λ f x, set_fnref (fnref x + occurs f fds) x) t.

(** Every open file of the list has references, not too many. *)
Definition fds_ok (fds : list Z) (t : list File) : Prop :=
  ∀ g, g ∈ fds → g = NULL ∨ ∃ (f : nat) y, g = f ∧ t !! f = Some y ∧ 1 ≤ fnref y < 2147483647 - length fds.

(** The descriptors of a child: those of the parent, and where the parent has none
    what the slot of the child still has from its last process. *)
Definition inherited (fds stale : list Z) : list Z := zip_with (λ f g, if f =? NULL then g else f) fds stale.

(** The process [x] in the slot [p] calls [fork]; its trap frame, with the bytes
    [fr], is in the page [kp]. *)
Record forking `{KernelLayout, KernelText} {T} (s : KState T) (p : nat) (x : Process) (c : nat) (y : Process) (k : Z) (l : list Z)
    (pts : gmap Z Z) (us : list (Z * Z)) (kp : Z) (fr : list Z) : Prop := mk_forking {
  fk_run : running s p x;
  fk_state : pstate x = PROC_RUNNING;
  fk_alloc : can_allocate s c y k l;
  fk_files : length (pfile y) = length (pfile x);
  fk_space : user_space (pm s) (pgdir x) pts (k :: l) us;
  fk_bytes : user_bytes (ram (pm s)) us;
  fk_size : 0 ≤ psize x ≤ 4096 * length us ∧ 4096 * length us < psize x + 4096;
  fk_pages : 1025 + length us < length l;
  fk_page : data_page (pm s) (pgdir x) pts (k :: l) kp ∧ kp ≤ trapframe x ∧ trapframe x + 76 ≤ kp + 4096;
  fk_frame : array (ram (pm s)) (trapframe x) fr ∧ length fr = 76%nat ∧ Forall is_byte fr;
  fk_fds : fds_ok (pfile x) (ftab s);
  fk_name : Forall is_byte (pname x) ∧ (length (name_str (pname x)) ≤ 14)%nat;
}.

(** What [fork] makes: the process [z] with the address space [d] *)
Record forked_child `{KernelLayout, KernelText} {T} (s s' : KState T) (x z : Process) (k d : Z) (fr : list Z)
    (pts : gmap Z Z) (us : list (Z * Z)) : Prop := mk_forked_child {
  fc_memory : ∀ va, 0 ≤ va < KERN_BASE → vbyte (ram (pm s')) d va = vbyte (ram (pm s)) (pgdir x) va;
  fc_parent : ∀ va, 0 ≤ va < KERN_BASE → vbyte (ram (pm s')) (pgdir x) va = vbyte (ram (pm s)) (pgdir x) va;
  fc_apart : ∃ pts' l' us', user_space (pm s') (pgdir x) pts l' us ∧ user_space (pm s') d pts' l' us' ∧ ∀ q, q ∈ us'.*1 → q ∉ us.*1;
  fc_kernel : kernel_maps (ram (pm s')) d;
  fc_frame : array (ram (pm s')) (trapframe z) fr;
  fc_return : word (ram (pm s')) (context z + 16) = u32 forkret_addr ∧ word (ram (pm s')) (trapframe z - 4) = u32 trapret;
  fc_name : name_str (pname z) = name_str (pname x);
}.

(** The trap frame of the process 1: it starts at the address 0 with a stack of
    one page, in user mode and with interrupts on. *)
Definition init_frame : list Z :=
  replicate 40 0 ++ le_bytes 4 0x23 ++ le_bytes 4 0x23 ++ replicate 8 0 ++ le_bytes 4 0 ++ le_bytes 4 0x1b ++ le_bytes 4 0x200 ++
  le_bytes 4 4096 ++ le_bytes 4 0x23.

(** The memory [m'] of the process 1, with the kernel stack [k] and the address
    space [d]: one page with [code]; all that was taken is in [l]. *)
Record first_process `{KernelLayout, KernelText} (m m' : Pmem) (code : list Z) (k d : Z) (l : list Z) : Prop := mk_first_process {
  fp_memory : ∀ va, 0 ≤ va < KERN_BASE → vbyte (ram m') d va =
    if decide (va < zlen code) then code !! Z.to_nat va else if decide (va < 4096) then Some 0 else None;
  fp_kernel : kernel_maps (ram m') d;
  fp_frame : array (ram m') (frame_of k) init_frame;
  fp_return : word (ram m') (context_of k + 16) = u32 forkret_addr ∧ word (ram m') (frame_of k - 4) = u32 trapret;
  fp_other : ∀ q, page_aligned q → q ∉ k :: l → ∀ a, q ≤ a < q + 4096 → ram m' !! a = ram m !! a;
  fp_space : ∃ pts l' p, user_space m' d pts l' [(p, 7)] ∧ (length l' + size pts + 2 = length l)%nat ∧
    ∀ q, q ∈ l' ∨ table_page d pts q ∨ q = p → q ∈ l;
}.

(** ** Lemmas *)

Section fork.
Context `{KernelLayout, KernelText} {T : Type}.
Implicit Types (s : KState T).

Lemma wp_lock_ptable s (Q : unit → KState T → Prop) : calm (lk s) → avail (lk s) ptable_lk →
  (∀ L, unlock ptable_lk L = Ok tt (lk s) →
    Q tt (mkKState L (cpu s) (cur s) (ptab s) (nextpid s) (proc_init1 s) (kernel_pgdir s) (pm s) (ftab s) (rest s))) →
  wp (with_lk (lock ptable_lk)) s Q.
Proof.
  intros Hc Hl HQ. pose proof Hc as [[Hn Hoff] Hb Hf]. apply wp_lk. eapply wp_ok; [apply lock_ok; [done|lia|done]|].
  apply HQ. rewrite unlock_ok; [|split; cbn; [lia|done]|cbn; lia|unfold held, with_lock; cbn; by rewrite lookup_insert_eq].
  f_equal. transitivity (popped (pushed (lk s))); [|by apply push_pop_calm]. unfold popped, with_lock. cbn. rewrite insert_insert_eq.
  f_equal. by apply insert_id.
Qed.

(** The process becomes ready. *)
Lemma make_ready_ok {A} L cp cu t np pi kd m f (r : T) (c : nat) z (k : M (KState T) A) Q : calm L → avail L ptable_lk → t !! c = Some z →
  wp k (mkKState L cp cu (<[c := set_state PROC_READY z]> t) np pi kd m f r) Q →
  wp (do! with_lk (lock ptable_lk) in do! update c (set_state PROC_READY) in do! with_lk (unlock ptable_lk) in k)
    (mkKState L cp cu t np pi kd m f r) Q.
Proof.
  intros Hc Hl Hz HQ. rewrite wp_bind. apply wp_lock_ptable; [done|done|]. intros L1 Hun. rewrite wp_bind.
  eapply wp_update_proc; [exact Hz|]. rewrite wp_bind. apply wp_lk. eapply wp_ok; [exact Hun|]. exact HQ.
Qed.

Lemma unused_ok t c y : free_slot t c y → unused_from (skipn 1 t) 1 = c.
Proof.
  intros (Hc & Hu & H1 & Hk). destruct t as [|z t]; [done|]. destruct c as [|c]; [lia|]. cbn in *. rewrite skipn_O.
  assert (∀ (i : Z) (c : nat) t, t !! c = Some y → (∀ k z, (k < c)%nat → t !! k = Some z → pstate z ≠ PROC_UNUSED) → unused_from t i = i + c) as Hgen.
  { clear - Hu. intros i c. revert i. induction c as [|c IH]; intros i [|x t] Hc Hk; try done; cbn in *.
    - injection Hc as ->. rewrite decide_True by done. lia.
    - rewrite decide_False by (apply (Hk 0%nat); [lia|done]). rewrite IH; [lia|done|]. intros k w Hkc Hw. apply (Hk (S k)); [lia|done]. }
  rewrite (Hgen 1 c t Hc); [lia|]. intros k w Hkc Hw. apply (Hk (S k) w); [lia|done].
Qed.

(** The page of a kernel stack *)
Lemma kstack_addr k : page_ok k → KERN_LINK ≤ k ≤ 0xA0000000 - 4096.
Proof. intros Hk. by apply page_ok_range. Qed.

Lemma kstack_other k m a : ¬ (k ≤ a < k + 4096) → kstack_ram k m !! a = m !! a.
Proof.
  intros Ha. unfold kstack_ram, context_of, frame_of. rewrite !lookup_write. change (zlen (replicate 20 0)) with 20.
  assert (∀ v, zlen (le_bytes 4 v) = 4) as Hl by done. by rewrite !Hl, !decide_False by lia.
Qed.

Lemma kstack_mapped k m q : page_mapped m q → page_mapped (kstack_ram k m) q.
Proof. intros Hq. unfold kstack_ram. by do 3 apply page_mapped_write. Qed.

Lemma kstack_free (m : Pmem) k l : free_pages m (k :: l) → free_pages (mkPmem (kstack_ram k (ram m)) (word (ram m) k)) l.
Proof.
  intros Hf. destruct (palloc_some _ _ _ Hf) as [_ Hl]. pose proof (fp_ok _ _ Hf) as Hok. apply Forall_cons in Hok as [Hk Hok].
  pose proof (fp_nodup _ _ Hf) as Hnd. apply NoDup_cons in Hnd as [Hnin _].
  assert (∀ q d r fl, free_pages (mkPmem r fl) l → k ≤ q → q + zlen d ≤ k + 4096 → free_pages (mkPmem (write q d r) fl) l) as Hw.
  { intros q d r fl Hm H1 H2. apply (free_pages_write (mkPmem r fl)); [done|]. rewrite Forall_forall in Hok |- *. intros p Hp.
    assert (p ≠ k) by (by intros ->). destruct (pages_disjoint p k (proj1 (Hok p Hp)) (proj1 Hk)); [done|lia|lia]. }
  assert (∀ v, zlen (le_bytes 4 v) = 4) as H4 by done. assert (zlen (replicate 20 0) = 20) as H20 by done.
  unfold kstack_ram, context_of, frame_of. do 3 (apply Hw; [|lia|rewrite ?H4, ?H20; lia]). exact Hl.
Qed.

(** The stack of a new process *)
Lemma setup_stack_ok s (c : nat) z k l (Q : bool → KState T → Prop) : ptab s !! c = Some z → free_pages (pm s) (k :: l) →
  Q true (put_pm (mkPmem (kstack_ram k (ram (pm s))) (word (ram (pm s)) k))
    (put_ptab (<[c := set_frame (frame_of k) (context_of k) (set_kstack k z)]> (ptab s)) s)) →
  wp (setup_process_stack c) s Q.
Proof.
  intros Hz Hf HQ. destruct (palloc_some _ _ _ Hf) as [Hp _]. pose proof (fp_ok _ _ Hf) as Hok. apply Forall_cons in Hok as [Hk _].
  pose proof (fp_mapped _ _ Hf) as Hmp. apply Forall_cons in Hmp as [Hkm _]. pose proof (kstack_addr k Hk) as Hr.
  unfold KERN_LINK, KERN_BASE, EXTMEM in Hr. pose proof (lookup_lt_Some _ _ _ Hz) as Hlt.
  unfold setup_process_stack. rewrite wp_bind. apply wp_pm. eapply wp_ok; [exact Hp|].
  rewrite wp_bind. eapply wp_update_proc; [exact Hz|]. rewrite (proj2 (Z.eqb_neq k 0)) by by apply page_ok_nonzero.
  change KSTACK_SZ with 4096. change sizeof_TrapFrame with 76. change sizeof_Context with 20.
  replace (u32 (k + 4096 - 76)) with (frame_of k) by (unfold frame_of; rewrite u32_small; lia).
  replace (u32 (frame_of k - 4)) with (frame_of k - 4) by (unfold frame_of; rewrite u32_small; lia).
  replace (u32 (frame_of k - 4 - 20)) with (context_of k) by (unfold frame_of, context_of; rewrite u32_small; lia).
  assert (∀ q (n : nat), k ≤ q → q + n ≤ k + 4096 → mapped (ram (pm s)) q n) as Hm by (intros q n; by apply page_mapped_range).
  rewrite wp_bind. eapply wp_ram_ok; [cbn; apply store32_ok, Hm; unfold frame_of; lia|].
  rewrite wp_bind. eapply wp_update_proc; [by apply list_lookup_insert_eq|].
  rewrite wp_bind. eapply wp_ram_ok; [cbn; apply memset_ok; [lia|]; apply mapped_write, Hm; unfold context_of; lia|].
  rewrite wp_bind. eapply wp_ram_ok; [cbn; apply store32_ok; do 2 apply mapped_write; apply Hm; unfold context_of; lia|].
  rewrite wp_ret. cbn [put_ptab put_ram put_pm ptab pm freelist ram]. rewrite list_insert_insert_eq. exact HQ.
Qed.

Lemma allocate_process_ok s c y k l (Q : Z → KState T → Prop) : can_allocate s c y k l →
  Q c (allocated s c y k) → wp allocate_process s Q.
Proof.
  intros [Hc Hl Hn Hsl Hf] HQ. unfold allocate_process. rewrite wp_bind, wp_gets. rewrite (proj2 (Z.ltb_ge _ _)) by lia.
  rewrite wp_bind. apply wp_lock_ptable; [done|done|]. intros L Hun. unfold get_unused_process. rewrite wp_bind, wp_bind, wp_gets, wp_ret. cbn [ptab].
  rewrite (unused_ok _ _ _ Hsl). destruct Hsl as (Hy & _). rewrite (proj2 (Z.eqb_neq _ _)) by (unfold NULL; lia).
  rewrite wp_bind, wp_gets. cbn [nextpid]. rewrite wp_bind. eapply wp_update_proc; [exact Hy|].
  rewrite wp_bind. unfold set_nextpid. rewrite wp_modify. unfold NPROC in Hn. rewrite s32_small by lia.
  rewrite wp_bind. apply wp_lk. eapply wp_ok; [exact Hun|]. pose proof (lookup_lt_Some _ _ _ Hy).
  rewrite wp_bind. eapply setup_stack_ok; [by apply list_lookup_insert_eq|exact Hf|]. rewrite wp_ret. cbn [put_ptab put_pm ptab pm lk cpu cur nextpid proc_init1 kernel_pgdir ftab rest].
  rewrite list_insert_insert_eq. exact HQ.
Qed.

(** *** The descriptors *)

Lemma shared_nil (t : list File) : shared [] t = t.
Proof.
  apply list_eq. intros i. unfold shared. rewrite list_lookup_imap. destruct (t !! i) as [x|]; [|done]. cbn. f_equal. unfold set_fnref. rewrite Z.add_0_r. by destruct x.
Qed.

Lemma shared_null fds (t : list File) : shared (NULL :: fds) t = shared fds t.
Proof.
  apply list_eq. intros i. unfold shared. rewrite !list_lookup_imap. destruct (t !! i) as [x|]; [|done]. cbn [occurs].
  by rewrite (proj2 (Z.eqb_neq NULL i)) by (unfold NULL; lia).
Qed.

Lemma shared_dup (f : nat) y fds (t : list File) : t !! f = Some y →
  shared fds (<[f := set_fnref (fnref y + 1) y]> t) = shared (Z.of_nat f :: fds) t.
Proof.
  intros Hf. pose proof (lookup_lt_Some _ _ _ Hf) as Hlt. apply list_eq. intros i. unfold shared. rewrite !list_lookup_imap.
  destruct (decide (i = f)) as [->|Hne].
  - rewrite list_lookup_insert_eq, Hf by done. cbn [occurs]. rewrite Z.eqb_refl. cbn. unfold set_fnref. cbn. do 2 f_equal. lia.
  - rewrite list_lookup_insert_ne by done. destruct (t !! i) as [x|]; [|done]. cbn [occurs].
    by rewrite (proj2 (Z.eqb_neq f i)) by lia.
Qed.

Lemma fds_ok_null fds t : fds_ok (NULL :: fds) t → fds_ok fds t.
Proof.
  intros Hok g Hg. destruct (Hok g) as [|(f & y & -> & Hy & Hr)]; [by apply elem_of_cons; right|by left|]. right. exists f, y.
  split; [done|]. split; [done|]. cbn [length] in Hr. lia.
Qed.

Lemma fds_ok_dup (f : nat) y fds t : t !! f = Some y → fds_ok (Z.of_nat f :: fds) t → fds_ok fds (<[f := set_fnref (fnref y + 1) y]> t).
Proof.
  intros Hf Hok g Hg. destruct (Hok g) as [|(h & z & -> & Hz & Hr)]; [by apply elem_of_cons; right|by left|]. right. cbn [length] in Hr.
  pose proof (lookup_lt_Some _ _ _ Hf). destruct (decide (h = f)) as [->|Hne].
  - rewrite Hf in Hz. injection Hz as <-. exists f, (set_fnref (fnref y + 1) y). split; [done|]. split; [by apply list_lookup_insert_eq|]. cbn. lia.
  - exists h, z. split; [done|]. split; [by rewrite list_lookup_insert_ne|lia].
Qed.

Lemma copy_fds_ok fds : ∀ s (c : nat) z old stale (Q : unit → KState T → Prop),
  ptab s !! c = Some z → pfile z = old ++ stale → length stale = length fds → fds_ok fds (ftab s) →
  Q tt (put_ptab (<[c := set_files (old ++ inherited fds stale) z]> (ptab s)) (put_ftab (shared fds (ftab s)) s)) →
  wp (copy_fds fds c (length old)) s Q.
Proof.
  induction fds as [|g fds IH]; intros s c z old [|h stale] Q Hz Hold Hlen Hok HQ; try done; cbn [copy_fds].
  { rewrite wp_ret. rewrite shared_nil in HQ.
    replace (set_files (old ++ inherited [] []) z) with z in HQ by (destruct z; cbn in *; by subst).
    rewrite (list_insert_id _ _ _ Hz) in HQ. by destruct s. }
  rewrite wp_bind. pose proof (lookup_lt_Some _ _ _ Hz) as Hlt. cbn [length] in Hlen. injection Hlen as Hlen.
  assert (∀ q, length old + 1 = length (old ++ [q]))%nat as Hol by (intros q; rewrite length_app; done).
  assert (∀ q (l : list Z), old ++ q :: l = (old ++ [q]) ++ l) as Happ by (intros q l; rewrite <- app_assoc; done).
  cbn [inherited zip_with] in HQ. fold (inherited fds stale) in HQ.
  destruct (Hok g) as [->|(f & y & -> & Hy & Hr)]; [by apply elem_of_cons; left|..].
  - rewrite Z.eqb_refl in *. cbn [negb]. rewrite wp_ret. rewrite <- Nat.add_1_r, (Hol h). eapply IH; [exact Hz| |exact Hlen|by apply fds_ok_null|].
    + by rewrite Hold, Happ.
    + rewrite <- Happ, <- (shared_null fds). exact HQ.
  - rewrite (proj2 (Z.eqb_neq (Z.of_nat f) NULL)) in * by (unfold NULL; lia). cbn [negb]. cbn [length] in Hr. rewrite wp_bind. unfold file_dup. rewrite wp_bind. eapply wp_file; [exact Hy|].
    rewrite (proj2 (Z.ltb_ge _ _)), wp_bind by lia. eapply wp_update_file; [exact Hy|]. rewrite wp_ret, s32_small by lia.
    eapply wp_update_proc; [exact Hz|]. rewrite <- Nat.add_1_r, (Hol (Z.of_nat f)).
    assert (<[length old := Z.of_nat f]> (pfile z) = (old ++ [Z.of_nat f]) ++ stale) as Hnew.
    { rewrite Hold, insert_app_r_alt, Nat.sub_diag by lia. cbn. by rewrite <- app_assoc. }
    eapply (IH _ c (set_files (<[length old := Z.of_nat f]> (pfile z)) z)); [by apply list_lookup_insert_eq|exact Hnew|exact Hlen|by apply fds_ok_dup|].
    cbn [put_ptab put_ftab ptab ftab lk cpu cur nextpid proc_init1 kernel_pgdir pm rest]. rewrite list_insert_insert_eq, (shared_dup _ _ _ _ Hy), <- Happ. exact HQ.
Qed.

Lemma inherited_fresh fds : inherited fds (replicate (length fds) NULL) = fds.
Proof. induction fds as [|f fds IH]; [done|]. cbn. fold (inherited fds (replicate (length fds) NULL)). rewrite IH. by destruct (Z.eqb_spec f NULL) as [->|]. Qed.

(** *** The memory of the child *)

(** The memory with the trap frame [fr] in the kernel stack [k] *)
Definition frame_ram (k : Z) (fr : list Z) (m : mem) : mem := write (frame_of k) fr m.

Lemma frame_ram_other k fr m a : length fr = 76%nat → ¬ (k ≤ a < k + 4096) → frame_ram k fr m !! a = m !! a.
Proof.
  intros Hl Ha. unfold frame_ram, frame_of. rewrite lookup_write. assert (zlen fr = 76) as -> by (unfold zlen; lia). by rewrite decide_False by lia.
Qed.

(** Writing the frame leaves the address spaces alone. *)
Lemma frame_ram_space m d pts l us k fr : user_space m d pts l us → data_page m d pts l k → length fr = 76%nat →
  user_space (mkPmem (frame_ram k fr (ram m)) (freelist m)) d pts l us.
Proof.
  intros Hus Hk Hl. assert (zlen fr = 76) as Hz by (unfold zlen; lia).
  apply (us_write m d pts l us k); [done|done|unfold frame_of; lia|unfold frame_of; lia].
Qed.

Lemma frame_ram_kept m d pts l us k fr : user_space m d pts l us → data_page m d pts l k → k ∉ us.*1 → length fr = 76%nat →
  let m' := mkPmem (frame_ram k fr (ram m)) (freelist m) in
  user_space m' d pts l us ∧ (kernel_maps (ram m) d → kernel_maps (ram m') d) ∧ ∀ a, 0 ≤ a → ubyte (ram m') us a = ubyte (ram m) us a.
Proof.
  intros Hus Hdk Hku Hl m'. pose proof (frame_ram_space m d pts l us k fr Hus Hdk Hl) as Hus'. destruct Hdk as (Hk & _ & Hkt & _).
  apply (space_kept m d pts l us m' l Hus); [apply Hus'|]. intros q Hq. cbn [ram].
  assert (page_aligned q ∧ q ≠ k ∧ q ∉ l) as (Hqa & Hqk & Hql).
  { destruct Hq as [Hq|Hq].
    - destruct (table_page_ok _ _ _ _ (vi_dir _ _ _ _ (us_inv _ _ _ _ _ Hus)) Hq) as [[Hqa _] _]. split; [done|]. split; [by intros ->|].
      intros Hin. by apply (vi_sep _ _ _ _ (us_inv _ _ _ _ _ Hus) q).
    - split; [|split; [by intros ->|]]; apply list_elem_of_fmap in Hq as ([q' f] & -> & [i Hi]%list_elem_of_lookup);
        destruct (us_page _ _ _ _ _ Hus i q' f Hi) as (((? & _) & ? & _) & _); done. }
  split; [done|]. intros a Ha. apply frame_ram_other; [done|]. destruct (pages_disjoint q k Hqa (proj1 Hk) Hqk); lia.
Qed.

Lemma kstack_words k m : word (kstack_ram k m) (context_of k + 16) = u32 forkret_addr ∧ word (kstack_ram k m) (frame_of k - 4) = u32 trapret.
Proof.
  unfold kstack_ram. split; [apply word_write_same|]. rewrite word_write_disjoint by (change (zlen (le_bytes 4 forkret_addr)) with 4; unfold frame_of, context_of; lia).
  rewrite word_write_disjoint by (change (zlen (replicate 20 0)) with 20; unfold frame_of, context_of; lia). apply word_write_same.
Qed.

Lemma frame_ram_words k fr m a : length fr = 76%nat → k ≤ a → a + 4 ≤ frame_of k → word (frame_ram k fr m) a = word m a.
Proof. intros Hl H1 H2. apply word_write_disjoint. lia. Qed.

(** A page that is neither free nor part of the space *)
Lemma spare_page (m : Pmem) pgdir pts us k l (m' : Pmem) d pts' l' (us' : list Z) : user_space m pgdir pts (k :: l) us → page_mapped (ram m') k →
  (∀ q, q ∈ l' ∨ table_page d pts' q ∨ q ∈ us' → q ∈ l) → data_page m' d pts' l' k ∧ k ∉ us'.
Proof.
  intros Hus Hm Hsub. destruct Hus as [[Hf _ _] _ _ _ _]. pose proof (fp_ok _ _ Hf) as Hok. apply Forall_cons in Hok as [Hk _].
  pose proof (fp_nodup _ _ Hf) as Hnd. apply NoDup_cons in Hnd as [Hnin _].
  split; [|intros Hin; apply Hnin, Hsub; auto]. split; [done|]. split; [intros Hin; apply Hnin, Hsub; auto|]. split; [|done].
  intros Hin. apply Hnin, Hsub. auto.
Qed.

Lemma name_str_bytes l : Forall is_byte l → Forall (λ b, 0 < b < 256) (name_str l).
Proof.
  induction 1 as [|b l Hb _ IH]; [constructor|]. cbn. destruct (Z.eqb_spec b 0); [constructor|]. constructor; [unfold is_byte in Hb; lia|done].
Qed.

(** The memory [m2] after the copy: the stack of the child is in the page [k], its
    space [d] has copies of the pages [us]. *)
Record copied_space (m m2 : Pmem) (pgdir : Z) (pts : gmap Z Z) (us : list (Z * Z)) (k d : Z) (l : list Z) : Prop := mk_copied_space {
  cs_kernel : kernel_maps (ram m2) d;
  cs_stack : page_mapped (ram m2) k ∧ ∀ a, k ≤ a < k + 4096 → ram m2 !! a = kstack_ram k (ram m) !! a;
  cs_other : ∀ q, page_aligned q → q ∉ k :: l → ∀ a, q ≤ a < q + 4096 → ram m2 !! a = ram m !! a;
  cs_spaces : ∃ pts' l' us', user_space m2 pgdir pts l' us ∧ user_space m2 d pts' l' us' ∧ length us' = length us ∧
    copied (ram m) (ram m2) us us' ∧ ∀ q, q ∈ l' ∨ table_page d pts' q ∨ q ∈ us'.*1 → q ∈ l;
}.

(** The copy of the memory, after the stack of the child was made *)
Lemma fork_memory (m : Pmem) pgdir pts us k l npg : user_space m pgdir pts (k :: l) us → user_bytes (ram m) us →
  0 ≤ npg ≤ 4096 * length us → 4096 * length us < npg + 4096 → 1025 + length us < length l →
  let m1 := mkPmem (kstack_ram k (ram m)) (word (ram m) k) in
  wp (uvm_copy init_kmap pgdir npg) m1 (λ '(ok, d) m2, ok = true ∧ copied_space m m2 pgdir pts us k d l).
Proof.
  intros Hus Hby Hn1 Hn2 Hmem m1. pose proof (us_inv _ _ _ _ _ Hus) as [Hf _ Hsep]. pose proof (kstack_free m k l Hf) as Hf1.
  pose proof (fp_ok _ _ Hf) as Hok. apply Forall_cons in Hok as [Hk _]. pose proof (fp_nodup _ _ Hf) as Hnd. apply NoDup_cons in Hnd as [Hkl _].
  pose proof (fp_mapped _ _ Hf) as Hmm. apply Forall_cons in Hmm as [Hkpm _].
  assert (∀ q, page_aligned q → q ≠ k → ∀ a, q ≤ a < q + 4096 → ram m1 !! a = ram m !! a) as Hsame.
  { intros q Hqa Hne a Ha. apply kstack_other. destruct (pages_disjoint q k Hqa (proj1 Hk) Hne); lia. }
  assert (user_space m1 pgdir pts l us) as Hus1.
  { apply (us_frame m pgdir pts (k :: l) us); [done|done|intros q Hq; by apply elem_of_cons; right|].
    intros q [Hqa _] Hq. apply Hsame; [done|]. intros ->. apply Hq. by apply elem_of_cons; left. }
  assert (∀ p f, (p, f) ∈ us → page_aligned p ∧ p ≠ k ∧ p ∉ l) as Hup.
  { intros p f [i Hi]%list_elem_of_lookup. destruct (us_page _ _ _ _ _ Hus i p f Hi) as (((Hpa & _) & Hpl & _) & _).
    apply not_elem_of_cons in Hpl as [? ?]. done. }
  eapply wp_mono; [apply (uvm_copy_ok m1 pgdir pts l us npg); [done| |done|done|done]|].
  { intros p f a b Hin Ha Hb. destruct (Hup p f Hin) as (Hpa & Hpk & _). apply (Hby p f a b); [done|done|]. by rewrite <- (Hsame p Hpa Hpk). }
  intros [ok d] m2 (-> & pts' & l' & us' & [Hus2 Hdat Hpgs Hmap _] & Hcp & Hkm & Hlen). split; [done|]. split; [done| | |].
  { split; [by apply Hmap, kstack_mapped|]. by apply (Hdat k (proj1 Hk) Hkl). }
  { intros q Hqa Hq a Ha. apply not_elem_of_cons in Hq as [Hqk Hql]. by rewrite (Hdat q Hqa Hql a Ha), (Hsame q Hqa Hqk a Ha). }
  exists pts', l', us'. split; [|split; [done|split; [done|split; [|exact Hpgs]]]].
  - apply (us_frame m1 pgdir pts l us); [done|apply Hus2|intros q Hq; apply Hpgs; by left|]. intros q [Hqa _]. by apply Hdat.
  - intros i p f Hi. destruct (Hcp i p f Hi) as (q & Hq & E). exists q. split; [done|]. intros o Ho. rewrite (E o Ho).
    destruct (Hup q f) as (Hqa & Hqk & _); [by eapply list_elem_of_lookup_2|]. apply (Hsame q Hqa Hqk). lia.
Qed.

(** With its frame the child is complete. *)
Lemma child_complete s (s' : KState T) x z k d l pts us fr (m2 : Pmem) : copied_space (pm s) m2 (pgdir x) pts us k d l →
  user_space (pm s) (pgdir x) pts (k :: l) us → length fr = 76%nat → pm s' = mkPmem (frame_ram k fr (ram m2)) (freelist m2) →
  trapframe z = frame_of k → context z = context_of k → name_str (pname z) = name_str (pname x) →
  forked_child s s' x z k d fr pts us.
Proof.
  intros [Hkm [Hpk Hk2] Ho2 (pts' & l' & us' & Hold & Hnew & Hlen & Hcp & Hsub)] Hus Hfl Hpm Htf Hctx Hnm.
  pose proof (us_inv _ _ _ _ _ Hus) as [Hf _ Hsep]. pose proof (fp_ok _ _ Hf) as Hok. apply Forall_cons in Hok as [Hk _].
  pose proof (fp_nodup _ _ Hf) as Hnd. apply NoDup_cons in Hnd as [Hkl _].
  destruct (spare_page (pm s) (pgdir x) pts us k l m2 d pts' l' us'.*1 Hus Hpk Hsub) as [Hdk Hku'].
  assert (k ∉ us.*1 ∧ ∀ q, q ∈ us.*1 → q ∉ l ∧ page_aligned q ∧ q ≠ k) as [Hku Hul].
  { split; [intros Hin|intros q Hin]; apply list_elem_of_fmap in Hin as ([q' f] & -> & [i Hi]%list_elem_of_lookup); cbn in *;
      destruct (us_page _ _ _ _ _ Hus i q' f Hi) as (((Hqa & _) & Hql & _) & _); apply not_elem_of_cons in Hql as [? ?]; done. }
  assert (data_page m2 (pgdir x) pts l' k) as Hdko.
  { split; [done|]. split; [apply Hdk|]. split; [|done]. apply Hsep. by apply elem_of_cons; left. }
  pose proof (frame_ram_space _ _ _ _ _ _ _ Hold Hdko Hfl) as Hold4. pose proof (frame_ram_space _ _ _ _ _ _ _ Hnew Hdk Hfl) as Hnew4.
  assert (∀ q, page_aligned q → q ≠ k → ∀ a, q ≤ a < q + 4096 → frame_ram k fr (ram m2) !! a = ram m2 !! a) as H4.
  { intros q Hqa Hne a Ha. apply frame_ram_other; [done|]. destruct (pages_disjoint q k Hqa (proj1 Hk) Hne); lia. }
  assert (∀ q o, q ∈ us.*1 → 0 ≤ o < 4096 → frame_ram k fr (ram m2) !! (q + o) = ram (pm s) !! (q + o)) as Hsame.
  { intros q o Hq Ho. destruct (Hul q Hq) as (Hql & Hqa & Hqk). rewrite (H4 q Hqa Hqk) by lia. apply (Ho2 q Hqa); [|lia].
    apply not_elem_of_cons. done. }
  assert (∀ (i : nat) q f (vs : list (Z * Z)), vs !! i = Some (q, f) → q ∈ vs.*1) as Hin.
  { intros i q f vs Hi. apply list_elem_of_fmap. exists (q, f). split; [done|]. by eapply list_elem_of_lookup_2. }
  split; rewrite ?Hpm, ?Htf, ?Hctx; cbn [ram].
  - intros va Hva. apply (vbyte_copied (pm s) (pgdir x) pts (k :: l) us _ d pts' l' us' va Hus Hnew4 Hlen); [|done].
    intros i q f Hi. destruct (Hcp i q f Hi) as (q0 & Hq0 & E). exists q0. split; [done|]. intros o Ho. cbn [ram].
    destruct (us_page _ _ _ _ _ Hnew i q f Hi) as (((Hqa & _) & _) & _). rewrite (H4 q Hqa); [by apply E| |lia].
    intros ->. by apply Hku', (Hin i k f).
  - intros va Hva. apply (vbyte_copied (pm s) (pgdir x) pts (k :: l) us _ (pgdir x) pts l' us va Hus Hold4 eq_refl); [|done].
    intros i q f Hi. exists q. split; [done|]. intros o Ho. cbn [ram]. apply Hsame; [by eapply Hin|done].
  - exists pts', l', us'. split; [done|]. split; [done|]. intros q Hq Hq'. by destruct (Hul q Hq') as [Hql _]; apply Hql, Hsub; right; right.
  - by apply (frame_ram_kept m2 d pts' l' us' k fr).
  - apply array_write.
  - rewrite !frame_ram_words by (unfold context_of, frame_of; (done || lia)).
    rewrite !(word_same (kstack_ram k (ram (pm s))) (ram m2) k) by (unfold context_of, frame_of; (done || lia)). apply kstack_words.
  - done.
Qed.

Lemma memcpy_ok m d q l : array m q l → mapped m d (length l) → Forall is_byte l → d ≤ q ∨ q + zlen l ≤ d →
  memcpy d q (zlen l) m = Ok tt (write d l m).
Proof. intros. unfold memcpy, zlen. rewrite Nat2Z.id. by apply copy_up_ok. Qed.

(** The end of [fork], from the copy of the frame on: the child [z] has its memory. *)
Lemma fork_ok s p x c y k l pts us kp fr : forking s p x c y k l pts us kp fr →
  wp fork s (λ r s', r = nextpid s ∧ ∃ d nm m,
    let z := mkProcess (psize x) d k (nextpid s) p PROC_READY (frame_of k) (context_of k) (chan y) (killed y) (inherited (pfile x) (pfile y)) nm in
    s' = mkKState (lk s) (cpu s) (cur s) (<[c := z]> (ptab s)) (nextpid s + 1) (proc_init1 s) (kernel_pgdir s) m (shared (pfile x) (ftab s)) (rest s) ∧
    forked_child s s' x z k d (splice (Z.to_nat tf_eax) [0; 0; 0; 0] fr) pts us).
Proof.
  intros [Hrun Hst Hca Hcl Hus Hby [Hs1 Hs2] Hpg (Hkp & Hkp1 & Hkp2) (Hfr & Hfl & Hfb) Hfds [Hnb Hnl]].
  pose proof (ca_pid _ _ _ _ _ Hca) as Hpid. pose proof (ca_slot _ _ _ _ _ Hca) as (Hy & Hyu & _). unfold NPROC in Hpid.
  assert (p ≠ c) as Hpc. { intros ->. pose proof (rn_proc _ _ _ Hrun) as Hx. rewrite Hy in Hx. injection Hx as ->. congruence. }
  pose proof (lookup_lt_Some _ _ _ Hy) as Hclt. pose proof (fp_ok _ _ (ca_pages _ _ _ _ _ Hca)) as Hok. apply Forall_cons in Hok as [Hk _].
  assert (kp ≠ k) as Hkk. { intros ->. destruct Hkp as (_ & Hnin & _). apply Hnin. by apply elem_of_cons; left. }
  assert (zlen fr = 76) as Hzl by (unfold zlen; lia).
  unfold fork. rewrite wp_bind. eapply wp_this_proc; [done|]. rewrite wp_bind. eapply allocate_process_ok; [done|].
  rewrite (proj2 (Z.eqb_neq _ _)) by (unfold NULL; lia). rewrite wp_bind. eapply (wp_proc _ p x).
  { cbn [allocated ptab]. rewrite list_lookup_insert_ne by done. apply Hrun. }
  rewrite wp_bind. apply wp_pm. cbn [allocated pm]. eapply wp_mono; [by apply (fork_memory (pm s) (pgdir x) pts us k l (psize x))|].
  intros [ok d] m2 (-> & Hcs). pose proof (cs_stack _ _ _ _ _ _ _ _ Hcs) as [Hpk _]. cbn [negb].
  set (z0 := new_process k (nextpid s) y). rewrite wp_bind. eapply wp_update_proc; [by apply list_lookup_insert_eq|].
  cbn [put_pm put_ptab allocated ptab]. rewrite list_insert_insert_eq, wp_bind. eapply wp_update_proc; [by apply list_lookup_insert_eq|].
  cbn [put_pm put_ptab allocated ptab]. rewrite list_insert_insert_eq, wp_bind. eapply wp_proc; [by apply list_lookup_insert_eq|].
  set (z1 := set_parent p _). assert (z1 = mkProcess (psize x) d k (nextpid s) p PROC_CREATED (frame_of k) (context_of k) (chan y) (killed y)
    (pfile y) (pname y)) as Hz1 by reflexivity. assert (trapframe z1 = frame_of k) as -> by reflexivity. clearbody z1. clear z0. change sizeof_TrapFrame with 76. rewrite <- Hzl.
  assert (∀ a, kp ≤ a < kp + 4096 → ram m2 !! a = ram (pm s) !! a) as Hkpm by (apply (cs_other _ _ _ _ _ _ _ _ Hcs); apply Hkp).
  rewrite wp_bind. eapply wp_ram_ok.
  { cbn [put_ptab put_pm pm]. apply memcpy_ok; [|rewrite Hfl; eapply page_mapped_range; [exact Hpk|unfold frame_of; lia|unfold frame_of; lia]|done|].
    - intros i b Hi. pose proof (lookup_lt_Some _ _ _ Hi). rewrite Hkpm by lia. by apply Hfr.
    - rewrite Hzl. unfold frame_of. destruct (pages_disjoint kp k (proj1 (proj1 Hkp)) (proj1 Hk) Hkk); lia. }
  rewrite wp_bind. eapply wp_ram_ok.
  { cbn [put_ram put_ptab put_pm pm ram]. apply store32_ok, mapped_write. eapply page_mapped_range; [exact Hpk|unfold frame_of, tf_eax; lia|unfold frame_of, tf_eax; cbn; lia]. }
  cbn [put_ram put_ptab put_pm pm ram freelist]. rewrite write_within by (done || (rewrite Hfl; apply Nat.leb_le; reflexivity)). set (fr' := splice _ _ fr).
  change (le_bytes 4 0) with [0; 0; 0; 0] in fr'. assert (length fr' = 76%nat) as Hfl' by (unfold fr'; rewrite length_splice; [done|rewrite Hfl; apply Nat.leb_le; reflexivity]).
  fold (frame_ram k fr' (ram m2)).
  rewrite wp_bind. eapply (copy_fds_ok (pfile x) _ c z1 [] (pfile y)); [by apply list_lookup_insert_eq|by rewrite Hz1|exact Hcl|exact Hfds|].
  cbn [put_ram put_ptab put_ftab put_pm ptab ftab lk cpu cur nextpid proc_init1 kernel_pgdir pm rest app]. rewrite list_insert_insert_eq.
  rewrite wp_bind. eapply wp_proc; [by apply list_lookup_insert_eq|]. cbn [pname].
  destruct (name_copy_ok (pname z1) (name_str (pname x))) as (nm & Hnm & Hstr); [by apply name_str_bytes|done|].
  cbn [pname set_files]. rewrite Hnm, wp_bind. eapply wp_need; [done|].
  rewrite wp_bind. eapply wp_update_proc; [by apply list_lookup_insert_eq|].
  cbn [put_ptab ptab lk cpu cur nextpid proc_init1 kernel_pgdir pm ftab rest]. rewrite list_insert_insert_eq.
  eapply make_ready_ok; [apply Hrun|apply Hca|by apply list_lookup_insert_eq|].
  rewrite list_insert_insert_eq.
  rewrite wp_bind. eapply wp_proc; [by apply list_lookup_insert_eq|]. rewrite wp_ret.
  split; [cbn; rewrite Hz1; cbn; by rewrite s32_small by lia|]. rewrite Hz1. exists d, nm, (mkPmem (frame_ram k fr' (ram m2)) (freelist m2)). cbn zeta. split; [reflexivity|].
  by apply (child_complete s _ x _ k d l pts us fr' m2).
Qed.

(** *** The first process *)

Lemma store_in_frame f o v fr m : 0 ≤ o → (Z.to_nat o + 4 ≤ length fr)%nat →
  store32 (f + o) v (write f fr m) = Ok tt (write f (splice (Z.to_nat o) (le_bytes 4 v) fr) m).
Proof.
  intros Ho Hl. rewrite <- write_within by done. apply store32_ok. intros i Hi. rewrite lookup_write, decide_True by (unfold zlen; lia).
  apply lookup_lt_is_Some. lia.
Qed.

Lemma init_frame_ok s (c : nat) x k (Q : unit → KState T → Prop) : ptab s !! c = Some x → trapframe x = frame_of k →
  page_mapped (ram (pm s)) k → Q tt (put_ram (frame_ram k init_frame (ram (pm s))) s) → wp (set_pid1_trapframe c) s Q.
Proof.
  intros Hx Htf Hm HQ. unfold set_pid1_trapframe. rewrite wp_bind. eapply wp_proc; [exact Hx|]. rewrite Htf. cbn zeta.
  eapply wp_ram_ok; [|exact HQ]. apply wp_eq. rewrite wp_bind. eapply wp_ok.
  { apply memset_ok; [done|]. eapply page_mapped_range; [exact Hm|unfold frame_of; lia|unfold frame_of; change (Z.to_nat sizeof_TrapFrame) with 76%nat; lia]. }
  do 6 (rewrite wp_bind; eapply wp_ok; [apply store_in_frame; [done|apply Nat.leb_le; reflexivity]|]).
  eapply wp_ok; [apply store_in_frame; [done|apply Nat.leb_le; reflexivity]|]. split; [done|]. reflexivity.
Qed.

(** The address space of the process 1 *)
Lemma init_memory (m : Pmem) k l code : free_pages m (k :: l) → 1163 < length l →
  array (ram m) init1_begin code → zlen code ≤ 4096 → Forall is_byte code → init1_begin + zlen code ≤ kend →
  let m1 := mkPmem (kstack_ram k (ram m)) (word (ram m) k) in
  wp (kvm_allocate init_kmap) m1 (λ '(ok, d) m2, ok = true ∧ wp (uvm_init1 d init1_begin (zlen code)) m2 (λ _ m3,
    page_mapped (ram m3) k ∧ first_process m (mkPmem (frame_ram k init_frame (ram m3)) (freelist m3)) code k d l)).
Proof.
  intros Hf Hlen Harr Hcl Hby Hend m1. pose proof (kstack_free m k l Hf) as Hf1. fold m1 in Hf1.
  pose proof (fp_ok _ _ Hf) as Hok. apply Forall_cons in Hok as [Hk Hok]. pose proof (fp_nodup _ _ Hf) as Hnd. apply NoDup_cons in Hnd as [Hkl _].
  pose proof (fp_mapped _ _ Hf) as Hmm. apply Forall_cons in Hmm as [Hkm _].
  eapply wp_mono; [apply (kvm_allocate_ok m1 l Hf1); lia|]. intros [ok d] m2 (-> & pts & l2 & Hns & Hkm2 & _). split; [done|].
  pose proof (ns_count _ _ _ _ _ _ _ Hns) as Hc. cbn [length] in Hc.
  assert (array (ram m2) init1_begin code) as Harr2.
  { intros i b Hi. pose proof (lookup_lt_Some _ _ _ Hi). unfold zlen in Hend.
    rewrite (below_image l (ram m1)) by first [apply (ns_data _ _ _ _ _ _ _ Hns)|done|lia]. cbn [m1 ram].
    rewrite kstack_other; [by apply Harr|]. destruct Hk as (_ & Hk & _). lia. }
  eapply wp_mono; [apply (uvm_init1_ok m1 l m2 d pts l2 init1_begin code Hns Hkm2); try done; lia|].
  intros _ m3 (pts3 & l3 & p & [Hus Hdat Hpgs Hmap Hcnt] & Hkm3 & Hub).
  assert (page_mapped (ram m3) k) as Hpk by (apply Hmap; cbn [m1 ram]; by apply kstack_mapped). split; [done|].
  assert (data_page m3 d pts3 l3 k ∧ k ∉ [(p, 7)].*1) as [Hdk Hku].
  { split; [|intros Hin; apply Hkl, Hpgs; auto]. split; [done|]. split; [intros Hin; apply Hkl, Hpgs; auto|]. split; [|done].
    intros Hin; apply Hkl, Hpgs; auto. }
  destruct (frame_ram_kept m3 d pts3 l3 [(p, 7)] k init_frame Hus Hdk Hku eq_refl) as (Hus4 & Hkm4 & Hub4).
  split; cbn [ram] in *.
  - intros va Hva. pose proof (vbyte_space _ _ _ _ _ va Hus4 Hva) as E. cbn [ram] in E. rewrite E, Hub4, Hub by lia. cbn [length]. repeat case_decide; try lia; done.
  - by apply Hkm4.
  - apply array_write.
  - rewrite !frame_ram_words by (unfold context_of, frame_of; (done || lia)).
    rewrite !(word_same (kstack_ram k (ram m)) (ram m3) k) by (unfold context_of, frame_of; first [by apply (Hdat k (proj1 Hk) Hkl)|lia]). apply kstack_words.
  - intros q Hqa [Hqk Hql]%not_elem_of_cons a Ha. destruct (pages_disjoint q k Hqa (proj1 Hk) Hqk);
      (rewrite frame_ram_other, (Hdat q Hqa Hql a Ha) by (done || lia); apply kstack_other; lia).
  - exists pts3, l3, p. split; [done|]. split; [cbn [length] in Hcnt; lia|]. intros q Hq. apply Hpgs.
    destruct Hq as [?|[?| ->]]; [by left|by right; left|right; right; apply elem_head].
Qed.

Lemma init_pid1_ok s c y k l code : can_allocate s c y k l → 1163 < length l → array (ram (pm s)) init1_begin code →
  zlen code = init1_size → init1_size ≤ 4096 → Forall is_byte code → init1_begin + init1_size ≤ kend →
  wp init_pid1 s (λ _ s', ∃ d nm m,
    let z := mkProcess PAGE_SZ d k (nextpid s) (parent y) PROC_READY (frame_of k) (context_of k) (chan y) (killed y) (pfile y) nm in
    s' = mkKState (lk s) (cpu s) (cur s) (<[c := z]> (ptab s)) (nextpid s + 1) c (kernel_pgdir s) m (ftab s) (rest s) ∧
    name_str nm = init_name ∧ first_process (pm s) m code k d l).
Proof.
  intros Hca Hlen Harr Hsz Hsz' Hby Hend. pose proof (ca_slot _ _ _ _ _ Hca) as (Hy & _ & Hc1 & _). pose proof (lookup_lt_Some _ _ _ Hy) as Hclt.
  unfold init_pid1. rewrite wp_bind. eapply allocate_process_ok; [done|]. rewrite (proj2 (Z.eqb_neq _ _)) by (unfold NULL; lia).
  rewrite wp_bind. apply wp_pm. cbn [allocated pm].
  eapply wp_mono; [apply (init_memory (pm s) k l code (ca_pages _ _ _ _ _ Hca)); try done; lia|]. intros [ok d] m2 (-> & Hmem). cbn [negb].
  set (z0 := new_process k (nextpid s) y). rewrite wp_bind. eapply wp_update_proc; [by apply list_lookup_insert_eq|].
  cbn [put_pm put_ptab allocated ptab]. rewrite list_insert_insert_eq, wp_bind. apply wp_pm. cbn [put_ptab put_pm pm]. rewrite <- Hsz.
  eapply wp_mono; [exact Hmem|]. intros _ m3 (Hpk & Hfp). rewrite wp_bind. eapply wp_update_proc; [by apply list_lookup_insert_eq|].
  cbn [put_pm put_ptab allocated ptab]. rewrite list_insert_insert_eq, wp_bind.
  set (z1 := set_size PAGE_SZ _). assert (z1 = mkProcess PAGE_SZ d k (nextpid s) (parent y) PROC_CREATED (frame_of k) (context_of k) (chan y) (killed y)
    (pfile y) (pname y)) as Hz1 by reflexivity. clearbody z1. clear z0.
  eapply init_frame_ok; [by apply list_lookup_insert_eq|by rewrite Hz1|exact Hpk|]. cbn [put_ram put_pm put_ptab pm].
  rewrite wp_bind. eapply wp_proc; [by apply list_lookup_insert_eq|].
  destruct (name_copy_ok (pname z1) init_name) as (nm & Hnm & Hstr); [by repeat apply Forall_cons_2|apply Nat.leb_le; reflexivity|].
  rewrite Hnm, wp_bind. eapply wp_need; [done|]. rewrite wp_bind. eapply wp_update_proc; [by apply list_lookup_insert_eq|].
  cbn [put_ptab put_ram put_pm lk cpu cur ptab nextpid proc_init1 kernel_pgdir pm ftab rest]. rewrite list_insert_insert_eq.
  rewrite wp_bind. apply wp_lock_ptable; [apply Hca|apply Hca|]. intros L Hun. rewrite wp_bind.
  eapply wp_update_proc; [by apply list_lookup_insert_eq|]. cbn [put_ptab ptab]. rewrite list_insert_insert_eq, wp_bind.
  unfold set_init1. rewrite wp_modify. apply wp_lk. eapply wp_ok; [exact Hun|].
  exists d, nm, (mkPmem (frame_ram k init_frame (ram m3)) (freelist m3)). cbn zeta. split; [by rewrite Hz1|done].
Qed.

Lemma all_used (t : list Process) : table_full t → unused_from (skipn 1 t) 1 = NULL.
Proof.
  intros Ht. assert (∀ l i, (∀ (k : nat) z, l !! k = Some z → pstate z ≠ PROC_UNUSED) → unused_from l i = NULL) as Hgen.
  { induction l as [|x l IH]; intros i Hl; [done|]. cbn. rewrite decide_False by (by apply (Hl 0%nat)). apply IH. intros k z. apply (Hl (S k)). }
  apply Hgen. intros k z. rewrite lookup_drop. apply Ht. lia.
Qed.

(** ** Theorems *)

(** C7: [fork] returns the next process number, and the child it put in the first
    unused slot is ready, a child of the caller, with copies of the caller's size
    and name. At every user address the child's page table finds
    the byte that the caller's finds, in frames that are not the caller's, and
    the kernel is mapped too. The child's trap frame is the caller's with 0 in
    [eax], so that it sees [fork] return 0; its first switch goes to [forkret]
    and from there to the end of the trap handler. The caller keeps its memory,
    each of its file descriptors counts as one more reference, and no lock is held.
    The child has the open descriptors of the caller at their numbers; at the
    other numbers it has what the last process of its slot left there, which
    nothing clears and which is not counted: only in a slot without such
    leftovers are the descriptors those of the caller. *)
Theorem fork_copies s p x c y k l pts us kp fr : forking s p x c y k l pts us kp fr →
  wp fork s (λ r s', r = nextpid s ∧ ∃ z d, ptab s' = <[c := z]> (ptab s) ∧
    (pid z = nextpid s ∧ parent z = p ∧ pstate z = PROC_READY ∧ psize z = psize x ∧ pgdir z = d) ∧
    pfile z = inherited (pfile x) (pfile y) ∧ (pfile y = replicate (length (pfile x)) NULL → pfile z = pfile x) ∧
    forked_child s s' x z k d (splice (Z.to_nat tf_eax) [0; 0; 0; 0] fr) pts us ∧ ftab s' = shared (pfile x) (ftab s) ∧ nextpid s' = nextpid s + 1 ∧
    lk s' = lk s ∧ cur s' = cur s ∧ rest s' = rest s).
Proof.
  intros Hf. eapply wp_mono; [by apply (fork_ok s p x c y k l pts us kp fr)|]. intros r s' (-> & d & nm & m & -> & Hc).
  split; [done|]. eexists _, d. repeat split; try reflexivity; try apply Hc. cbn [pfile]. intros ->. by rewrite inherited_fresh.
Qed.

(** C23: [fork] fails in two ways. Once the process numbers are used up it
    panics, whether or not the table has a free entry: the numbers of processes
    that ended are not used again. Before that, in a table without a free entry
    it returns -1 and changes nothing. *)
Theorem fork_fails s p x : running s p x →
  (NPROC < nextpid s → fork s = Panic "allocate_process: can't allocate more pids") ∧
  (nextpid s ≤ NPROC → avail (lk s) ptable_lk → table_full (ptab s) → fork s = Ok (-1) s).
Proof.
  intros Hr. split; intros Hn.
  - assert (this_proc s = Ok (Z.of_nat p) s) as Hthis.
    { assert (wp this_proc s (λ r s', r = p ∧ s' = s)) as (r & s' & E & -> & ->)%wp_run by by eapply wp_this_proc. exact E. }
    unfold fork, bind. rewrite Hthis. unfold allocate_process, bind, gets. rewrite (proj2 (Z.ltb_lt _ _)) by done. reflexivity.
  - intros Hl Ht. assert (wp fork s (λ r s', r = -1 ∧ s' = s)) as Hw.
    { unfold fork. rewrite wp_bind. eapply wp_this_proc; [done|]. unfold allocate_process. rewrite wp_bind, wp_bind, wp_gets.
      rewrite (proj2 (Z.ltb_ge _ _)) by lia. rewrite wp_bind. apply wp_lock_ptable; [apply Hr|done|]. intros L Hun.
      unfold get_unused_process. rewrite wp_bind, wp_bind, wp_gets, wp_ret. cbn [ptab]. rewrite (all_used _ Ht).
      change (NULL =? NULL) with true. cbn iota. rewrite wp_bind. apply wp_lk. eapply wp_ok; [exact Hun|]. rewrite wp_ret. change (NULL =? NULL) with true. cbn iota. rewrite wp_ret.
      split; [done|]. by destruct s. }
    apply wp_run in Hw as (r & s' & -> & -> & ->). done.
Qed.
End fork.

(** ** Witnesses *)

#[local] Existing Instance demo_layout.
#[local] Existing Instance demo_text.

(** A process with two pages of memory and one open file; its kernel stack is
    the page [kp]. *)
Definition fork_parent (kp : Z) : Process :=
  mkProcess 8192 demo_base kp 1 NULL PROC_RUNNING kp 0 NULL false [NULL; 0] (replicate 16 0).

(** The last process of the slot had the file 0 at its first descriptor. *)
Definition fork_slot : Process := mkProcess 0 NULL 0 0 NULL PROC_UNUSED 0 0 NULL false [0; NULL] (replicate 16 0).

Definition fork_kernel (m : Pmem) (kp : Z) : KState unit :=
  mkKState (mkLState true 0 true {[ 100 := new_lock ]}) (mkCpu (replicate 6 0) 0 0 0 0) 0 [fork_parent kp; fork_slot] 2 0 0x80200000
    m [mkFile 3 0 0 FD_INODE 1 true false] tt.

Lemma fork_calm : calm (mkLState true 0 true {[ 100 := new_lock ]}).
Proof. split; [split; [split; [discriminate|reflexivity]|intros E; discriminate E]|reflexivity|reflexivity]. Qed.

Lemma fork_ready : ∃ m kp k l pts us, forking (fork_kernel m kp) 0 (fork_parent kp) 1 fork_slot k l pts us kp (replicate 76 0).
Proof.
  destruct demo_two as (s & pts & l & us & Hus & Hlen & Hl & _ & Hz & _). destruct l as [|kp [|k l]]; [cbn in Hl; lia..|].
  destruct (take_page s demo_base pts kp (k :: l) us Hus) as (_ & Hus1 & Hkd & Hku). set (s1 := mkPmem (ram s) (word (ram s) kp)) in *.
  set (m := mkPmem (write kp (replicate 76 0) (ram s1)) (freelist s1)).
  assert (user_space m demo_base pts (k :: l) us) as Hus2 by (apply (us_write s1 _ _ _ _ kp); [done|done|lia|change (zlen (replicate 76 0)) with 76; lia]).
  exists m, kp, k, l, pts, us. split.
  - split; [apply fork_calm|reflexivity|reflexivity].
  - done.
  - split; [apply fork_calm|reflexivity|cbn; unfold NPROC; lia| |apply Hus2].
    split; [done|]. split; [done|]. split; [lia|]. intros j z Hj. lia.
  - done.
  - exact Hus2.
  - intros p f a b Hin Ha Hb. destruct (Hz p f Hin) as [_ Hp]. unfold fork_kernel, m in Hb; cbn [pm ram] in Hb. rewrite lookup_write in Hb. change (zlen (replicate 76 0)) with 76 in Hb.
    destruct (decide (kp ≤ a < kp + 76)) as [Hd|Hd].
    + apply lookup_replicate in Hb as [-> _]. split; lia.
    + rewrite Hp in Hb by done. injection Hb as <-. split; lia.
  - cbn. lia.
  - cbn [length] in *. lia.
  - split; [|cbn; lia]. destruct Hkd as (K1 & K2 & K3 & K4). split; [done|]. split; [done|]. split; [done|]. by apply page_mapped_write.
  - split; [apply array_write|]. split; [done|]. apply Forall_replicate. split; lia.
  - intros g [->|[->|[]%not_elem_of_nil]%elem_of_cons]%elem_of_cons; [by left|]. right. exists 0%nat. eexists. split; [done|].
    split; [reflexivity|]. cbn. lia.
  - split; [|cbn; lia]. apply Forall_replicate. split; lia.
Qed.

(** The parent gets 2, the slot 1 is the process 2; it has the file twice, and
    one of them is not counted. *)
Lemma fork_copies_witness : ∃ m kp, wp fork (fork_kernel m kp) (λ r s', r = 2 ∧ ∃ z, ptab s' !! 1%nat = Some z ∧ pid z = 2 ∧
  pstate z = PROC_READY ∧ pfile z = [0; 0] ∧ word (ram (pm s')) (trapframe z + tf_eax) = 0 ∧ (fnref <$> ftab s') = [2]).
Proof.
  destruct fork_ready as (m & kp & k & l & pts & us & Hf). exists m, kp. eapply wp_mono; [exact (fork_copies _ _ _ _ _ _ _ _ _ _ _ Hf)|].
  intros r s' (-> & z & d & Ht & (Hp & _ & Hst & _) & Hfd & _ & Hc & Hft & _). split; [reflexivity|]. exists z. rewrite Ht. split; [reflexivity|].
  split; [exact Hp|]. split; [exact Hst|]. split; [exact Hfd|]. split; [|rewrite Hft; reflexivity].
  rewrite (word_array _ _ [0; 0; 0; 0]); [reflexivity| |reflexivity]. intros i b Hi.
  pose proof (fc_frame _ _ _ _ _ _ _ _ _ Hc (28 + i)%nat b) as Hb. replace (trapframe z + tf_eax + i) with (trapframe z + (28 + i)%nat) by (unfold tf_eax; lia).
  apply Hb. do 4 (destruct i as [|i]; [exact Hi|]). discriminate Hi.
Defined.

(** Tables of three entries, with the process numbers up to [np] in use *)
Definition full_kernel (np : Z) (t : list Process) : KState unit :=
  mkKState (mkLState true 0 true {[ 100 := new_lock ]}) (mkCpu (replicate 6 0) 0 0 0 0) 0 (fork_parent 0 :: t) np 0 0x80200000 (mkPmem ∅ 0) [] tt.

Definition sleeper : Process := mkProcess 0 NULL 0 2 0 PROC_SLEEPING 0 0 5000 false [NULL; NULL] (replicate 16 0).

Lemma fork_fails_witness :
  fork (full_kernel 65 [fork_slot; fork_slot]) = Panic "allocate_process: can't allocate more pids" ∧
  fork (full_kernel 64 [sleeper; sleeper]) = Ok (-1) (full_kernel 64 [sleeper; sleeper]).
Proof.
  assert (∀ np t, running (full_kernel np t) 0 (fork_parent 0)) as Hr by (intros; split; [apply fork_calm|reflexivity|reflexivity]).
  split.
  - apply (fork_fails (full_kernel 65 [fork_slot; fork_slot]) 0 (fork_parent 0) (Hr _ _)). reflexivity.
  - apply (fork_fails (full_kernel 64 [sleeper; sleeper]) 0 (fork_parent 0) (Hr _ _)); [discriminate|reflexivity|].
    intros [|[|[|j]]] z Hj Hz; [lia|injection Hz as <-; discriminate..|discriminate Hz].
Defined.
