(* ===== verification/Exec.v ===== *)
(** * kernel/exec.c and [uvm_load] of kernel/memory/vmem.c

    [exec] builds a new address space from an ELF file in physical memory. The
    strings of the arguments are in the memory that the process sees, which is
    that of its old address space until [exec] returns. *)
From S2P Require Import Prelude Machine CMem CString Elf Ide Disk BCache Block Inode Dir.
From S2P Require Import Palloc PgTbl VMem Locks Segments Process ProcSpec Switch Pipe Files.

(** The offsets of the fields are those of kernel/trap.h. *)
Definition tf_eip : Z := 56.
Definition tf_esp : Z := 68.

Section exec.
Context `{KernelLayout, KernelText} {T U : Type} {BS : BlockStore U} `{HasFs T U} `{PipeMem T}.
Notation St := (KState T).
Context (devices : list (Dev (KState T))).
Context (frame : list Z) (slash : Z).

(** ** vmem.c: [uvm_load] *)

(** One round of the loop of [uvm_load]; the variable is [i]. *)
Definition uvm_load_page (pgdir addr i offset size k : Z) : B St (Z + Z) :=
  if negb (k <? size) then bret (inr 0) else
  let> pte := lift (with_pm (get_pte pgdir (u32 (addr + k)))) in
  if pte =? 0 then lift (panic "uvm_load: invalid address") else
  let> e := lift (with_pm (with_ram (load32 pte))) in
  let pa := pte_addr e in
  let n := Z.min PAGE_SZ (size - k) in
  let> ' (r, l) := inode_bytes devices i (u32 (offset + k)) n in
  do> lift (with_pm (with_ram (store_bytes (P2KA pa) l))) in
  if negb (r =? n) then bret (inr (-1)) else bret (inl (u32 (k + PAGE_SZ))).

(** Fuel: the pages of the segment, and one round to leave. *)
Definition uvm_load (pgdir addr i offset size : Z) : B St Z :=
  if negb (addr mod PAGE_SZ =? 0) then lift (panic "uvm_load: address is not aligned") else
  bloop (S (S (Z.to_nat (size / PAGE_SZ)))) (uvm_load_page pgdir addr i offset size) 0.

(** ** exec.c *)

(** The label [bad] *)
Definition bad (pgtbl i : Z) : M St Z :=
  do! (if negb (pgtbl =? 0) then with_pm (vmfree pgtbl) else done!) in
  do! (if negb (i =? NULL) then drop i else done!) in
  ret (-1).

(** One round of the loop over the program headers; the variables are [i],
    [offset] and [size]. [inr None] is [goto bad]. *)
Definition load_segment (pgtbl ino phnum : Z) (st : Z * Z * Z) : B St (Z * Z * Z + option Z) :=
  let ' (i, offset, size) := st in
  if negb (i <? phnum) then bret (inr (Some size)) else
  let> ' (r, l) := inode_bytes devices ino offset sizeof_ELF32ProgramHeader in
  if negb (r =? sizeof_ELF32ProgramHeader) then bret (inr None) else
  let ph := program_header l in
  let next size := bret (inl (i + 1, u32 (offset + sizeof_ELF32ProgramHeader), size)) in
  if negb (p_type ph =? PT_LOAD) then next size else
  if p_memsz ph <? p_filesz ph then bret (inr None) else
  let vend := u32 (p_vaddr ph + p_memsz ph) in
  if vend <? p_vaddr ph then bret (inr None) else
  let> sz := lift (with_pm (uvm_allocate pgtbl size vend)) in
  let size := u32 sz in
  if size =? 0 then bret (inr None) else
  if negb (p_vaddr ph mod PAGE_SZ =? 0) then bret (inr None) else
  let> r := uvm_load pgtbl (p_vaddr ph) ino (p_offset ph) (p_filesz ph) in
  if r =? -1 then bret (inr None) else next size.

(** Fuel: the program headers, and one round to leave. *)
Definition load_segments (pgtbl ino phnum phoff : Z) : B St (option Z) :=
  bloop (S (Z.to_nat phnum)) (load_segment pgtbl ino phnum) (0, phoff, 0).

(** [unsigned buffer[3 + MAXARGS + 1]] *)
Definition buffer_len : nat := Z.to_nat (3 + MAXARGS + 1).

Definition set_word (buffer : list Z) (k v : Z) : M St (list Z) :=
  if k <? zlen buffer then ret (<[Z.to_nat k := u32 v]> buffer) else fault.

(** One round of the loop over the arguments; the variables are [argc], [sp]
    and [buffer]. [inr None] is [goto bad]. *)
Definition copy_arg (pgtbl argv : Z) (st : Z * Z * list Z) : M St (Z * Z * list Z + option (Z * Z * list Z)) :=
  let ' (argc, sp, buffer) := st in
  let! a := with_fs (with_txt (load32 (argv + 4 * argc))) in
  if a =? 0 then ret (inr (Some st)) else
  if MAXARGS <? argc then ret (inr None) else
  let! n := with_fs (with_txt (strlen a)) in
  let sp := u32 (sp - (n + 1)) in
  let! l := with_fs (with_txt (load_bytes a (Z.to_nat (n + 1)))) in
  let! r := with_pm (uvm_memcpy pgtbl sp l) in
  if r =? -1 then ret (inr None) else
  let! buffer := set_word buffer (3 + argc) sp in
  ret (inl (argc + 1, sp, buffer)).

(** Fuel: [argc] exceeds [MAXARGS] at the latest in round MAXARGS + 2. *)
Definition copy_args (pgtbl argv sp : Z) : M St (option (Z * Z * list Z)) :=
  loop (S (S (Z.to_nat MAXARGS))) (copy_arg pgtbl argv) (0, sp, replicate buffer_len 0).

(** From [buffer[3 + argc] = 0] on: the words of the stack, and [sp] *)
Definition arg_words (argc sp : Z) (buffer : list Z) : M St (list Z * Z) :=
  let! buffer := set_word buffer (3 + argc) 0 in
  let! buffer := set_word buffer 2 (sp - (argc + 1) * 4) in
  let! buffer := set_word buffer 1 argc in
  let! buffer := set_word buffer 0 0xffffffff in
  ret (take (Z.to_nat (3 + argc + 1)) buffer, u32 (sp - (3 + argc + 1) * 4)).

(** The first [n] characters of the string at [p], as [strncpy] reads them *)
Fixpoint read_name (n : nat) (p : Z) : M mem (list Z) :=
  match n with
  | O => ret []
  | S n =>
      let! c := load p in
      if c =? 0 then ret [] else let! l := read_name n (p + 1) in ret (c :: l)
  end.

(** The stack of the program: the result is its stack pointer, or none for
    [goto bad]. [size] is the end of the address space. *)
Definition build_stack (pgtbl argv size : Z) : M St (option Z) :=
  do! with_pm (clear_pte_flag pgtbl (u32 (size - 2 * PAGE_SZ)) PTE_U) in
  let! a := copy_args pgtbl argv size in
  match a with
  | None => ret None
  | Some (argc, sp, buffer) =>
      let! ' (ws, sp) := arg_words argc sp buffer in
      let! r := with_pm (uvm_memcpy pgtbl sp (mjoin (le_bytes 4 <$> ws))) in
      ret (if r =? -1 then None else Some sp)
  end.

(** The process gets the new address space and goes on at the entry point. *)
Definition enter_program (path pgtbl size entry sp : Z) : M St Z :=
  let! p := this_proc in
  let! x := proc p in
  let! l := with_fs (with_txt (read_name 16 path)) in
  let! nm := need (name_copy (pname x) l) in
  do! update p (set_name nm) in
  let old_pgdir := pgdir x in
  do! update p (set_pgdir pgtbl) in
  do! update p (set_size size) in
  do! with_pm (with_ram (store32 (trapframe x + tf_eip) entry)) in
  do! with_pm (with_ram (store32 (trapframe x + tf_esp) sp)) in
  do! uvm_switch p in
  do! with_pm (vmfree old_pgdir) in
  ret 0.

(** From [inode_read] on. [pgtbl] is not initialised before [kvm_allocate]. *)
Definition exec_file (path argv ino : Z) : B St Z :=
  let garbage := le_num (uninit frame 4) in
  let> ' (r, l) := inode_bytes devices ino 0 sizeof_ELF32Header in
  if negb (r =? sizeof_ELF32Header) then lift (bad garbage ino) else
  let elfhdr := elf_header l in
  if negb (is_elf elfhdr) then lift (bad garbage ino) else
  let> ' (ok, pgtbl) := lift (with_pm (kvm_allocate init_kmap)) in
  if negb ok then lift (bad pgtbl ino) else
  let> o := load_segments pgtbl ino (e_phnum elfhdr) (e_phoff elfhdr) in
  match o with
  | None => lift (bad pgtbl ino)
  | Some size =>
      do> lift (drop ino) in
      let size := page_alignup size in
      let> sz := lift (with_pm (uvm_allocate pgtbl size (u32 (size + PAGE_SZ * 2)))) in
      let size := u32 sz in
      if size =? 0 then lift (bad pgtbl NULL) else
      let> o := lift (build_stack pgtbl argv size) in
      match o with
      | None => lift (bad pgtbl NULL)
      | Some sp => lift (enter_program path pgtbl size (e_entry elfhdr) sp)
      end
  end.

Definition exec (path argv : Z) : B St Z :=
  let> ino := lift (abspath frame slash path false) in
  if ino =? NULL then bret (-1) else exec_file path argv ino.
End exec.
