(* ===== verification/Syscall.v ===== *)
(** * kernel/sys/syscall.c: the system calls

    The arguments are on the user stack, whose pointer is in the trap frame of
    the process. User pointers are addresses of the memory that the process
    sees. The messages are not modelled. *)
From S2P Require Import Prelude Machine CMem CString Ide Disk BCache Block Inode Dir.
From S2P Require Import Palloc PgTbl VMem Locks Segments Process ProcSpec Switch Pipe Files Exec.

(** kernel/sys/syscalls.h *)
Definition SYS_FORK : Z := 1.
Definition SYS_EXIT : Z := 2.
Definition SYS_EXEC : Z := 3.
Definition SYS_GETPID : Z := 4.
Definition SYS_SBRK : Z := 5.
Definition SYS_WRITE : Z := 6.
Definition SYS_READ : Z := 7.
Definition SYS_MKNOD : Z := 8.
Definition SYS_MKDIR : Z := 9.
Definition SYS_OPEN : Z := 10.
Definition SYS_CLOSE : Z := 11.
Definition SYS_LINK : Z := 12.
Definition SYS_UNLINK : Z := 13.
Definition SYS_DUP : Z := 14.
Definition SYS_WAIT : Z := 15.
Definition SYS_PIPE : Z := 16.

(** kernel/fs/fcntl.h *)
Definition O_RDONLY : Z := 0x000.
Definition O_WRONLY : Z := 0x001.
Definition O_RDWR : Z := 0x002.
Definition O_CREAT : Z := 0x200.

Section syscall.
Context `{KernelLayout, KernelText} {T U : Type} {BS : BlockStore U} `{HasFs T U} `{PipeMem T}.
Notation St := (KState T).
Notation Fs := (DState U).
Context (devices : list (Dev (KState T))) (fuel : nat).
Context (frame : list Z) (slash : Z).

(** ** Arguments *)

Definition getarg (nth : Z) : M St Z :=
  let! p := this_proc in
  let! x := proc p in
  let! esp := with_pm (with_ram (load32 (trapframe x + tf_esp))) in
  ret (u32 (esp + 4 + 4 * nth)).

Definition getptr (nth : Z) : M St Z :=
  let! a := getarg nth in with_fs (with_txt (load32 a)).

Definition getint (nth : Z) : M St Z :=
  let! v := getptr nth in ret (s32 v).

Definition getchr (nth : Z) : M St Z :=
  let! a := getarg nth in with_fs (with_txt (loadc a)).

Definition getfile (nth : Z) : M St Z :=
  let! fd := getint nth in
  if fd <? 0 then ret NULL else
  if NOFILE <=? fd then ret NULL else
  let! p := this_proc in
  let! x := proc p in
  need (pfile x !! Z.to_nat fd).

(** ** Processes *)

Definition sys_fork : B St Z := lift fork.

Definition sys_exit : B St Z := do> exit in bret 0.

Definition sys_exec : B St Z :=
  let> path := lift (getptr 0) in
  let> argv := lift (getptr 1) in
  if path =? 0 then bret (-1) else
  if argv =? 0 then bret (-1) else
  exec devices frame slash path argv.

(** When [grow_process] fails, the function ends without a result. *)
Definition sys_sbrk : M St Z :=
  let! brk := getint 0 in
  let! p := this_proc in
  let! x := proc p in
  let addr := s32 (psize x) in
  let! r := grow_process brk in
  if r =? 0 then ret addr else fault.

Definition sys_getpid : M St Z :=
  let! p := this_proc in let! x := proc p in ret (pid x).

Definition sys_wait : B St Z := wait fuel.

(** ** Files *)

Definition sys_read : B St Z :=
  let> f := lift (getfile 0) in
  let> buf := lift (getptr 1) in
  let> sz := lift (getint 2) in
  if f =? NULL then bret (-1) else
  if buf =? 0 then bret (-1) else
  file_read devices fuel f buf sz.

Definition sys_write : B St Z :=
  let> f := lift (getfile 0) in
  let> buf := lift (getptr 1) in
  let> sz := lift (getint 2) in
  if f =? NULL then bret (-1) else
  if buf =? 0 then bret (-1) else
  file_write devices fuel f buf sz.

(** [fs_create]; directories and regular files do not reach a device. *)
Definition create (path ty ma mi : Z) : M St Z :=
  with_fs (fs_create (λ _, None) (λ _, None) frame slash path ty ma mi).

Definition sys_mknod : M St Z :=
  let! path := getptr 0 in
  let! ma := getptr 1 in
  let! mi := getptr 2 in
  let! i := create path F_DEV ma mi in
  if i =? NULL then ret (-1) else
  do! drop i in ret 0.

Definition sys_mkdir : M St Z :=
  let! path := getptr 0 in
  let! i := create path F_DIR 0 0 in
  if i =? NULL then ret (-1) else
  do! drop i in ret 0.

Definition has_bits (mode bits : Z) : bool := negb (Z.land mode bits =? 0).

(** The inode that [sys_open] opens, or null *)
Definition open_inode (path mode : Z) : M St Z :=
  if has_bits mode O_CREAT then create path F_FILE 0 0
  else
    let! i := abspath frame slash path false in
    if i =? NULL then ret NULL else
    let! x := loaded_inode i in
    if (type (din x) =? F_DIR) && (mode =? O_RDONLY) then do! drop i in ret NULL
    else ret i.

Definition open_file (i mode : Z) (x : File) : File :=
  mkFile i (fpipe x) 0 FD_INODE (fnref x) (negb (has_bits mode O_WRONLY)) (has_bits mode O_WRONLY || has_bits mode O_RDWR).

Definition sys_open : M St Z :=
  let! path := getptr 0 in
  let! mode := getint 1 in
  let! i := open_inode path mode in
  if i =? NULL then ret (-1) else
  let! f := file_allocate in
  if f =? NULL then do! drop i in ret (-1) else
  let! fd := fs_fdalloc f in
  if fd =? -1 then
    do! file_close f in
    do! drop i in
    ret (-1)
  else
  do! update_file f (open_file i mode) in
  ret fd.

Definition sys_close : M St Z :=
  let! f := getfile 0 in
  if f =? NULL then ret (-1) else
  do! file_close f in
  ret 0.

(** The entry for the new name, on the stack; the name is the whole path. *)
Definition link_entry (inum new : Z) : M Fs (list Z) :=
  local (uninit frame 28) (λ entry,
    do! with_txt (store32 entry inum) in
    let! _ := with_txt (strncpy (entry + 4) new DIRNAMESZ) in
    with_txt (load_bytes entry 28)).

Definition set_links (k : Z) (x : DInode) : DInode :=
  mkDInode (type x) (major x) (minor x) (u16 k) (isize x) (addrs x).

Definition add_links (i k : Z) : M Fs unit :=
  do! with_ino (update_inode i (λ x, set_d (set_links (nlink (din x) + k) (din x)) x)) in
  with_ino (inode_flush i).

Definition sys_link : M St Z :=
  let! old := getptr 0 in
  let! new := getptr 1 in
  if old =? 0 then ret (-1) else
  if new =? 0 then ret (-1) else
  let! i := abspath frame slash old false in
  if i =? NULL then ret (-1) else
  let! x := with_fs (with_ino (inode i)) in
  if type (din x) =? F_DIR then ret (-1) else
  do! with_fs (add_links i 1) in
  let bad := do! with_fs (add_links i (-1)) in ret (-1) in
  let! dir := abspath frame slash new true in
  if dir =? NULL then bad else
  let! d := with_fs (with_ino (inode dir)) in
  let! x := with_fs (with_ino (inode i)) in
  if negb (idev d =? idev x) then bad else
  let! entry := with_fs (link_entry (inum x) new) in
  let! linked := with_fs (dir_link (λ _, None) (λ _, None) frame dir entry) in
  if negb linked then bad else
  do! drop dir in
  ret 0.

Definition sys_unlink : M St Z := ret (-1).

Definition sys_dup : M St Z :=
  let! f := getfile 0 in
  if f =? NULL then ret (-1) else
  let! fd := fs_fdalloc f in
  if fd =? -1 then ret (-1) else
  let! _ := file_dup f in
  ret fd.

(** [this_proc()->file[fd] = 0]; the index may be -1. *)
Definition clear_fd (fd : Z) : M St unit :=
  if fd <? 0 then fault else
  let! p := this_proc in
  update p (λ x, set_files (<[Z.to_nat fd := NULL]> (pfile x)) x).

Definition sys_pipe : M St Z :=
  let! fds := getptr 0 in
  let! '(r, rd, wr) := pipe_allocate in
  if r =? -1 then ret (-1) else
  let! fdr := fs_fdalloc rd in
  let! fdw := fs_fdalloc wr in
  do! (if fdr =? -1 then file_close rd else done!) in
  do! (if fdw =? -1 then file_close wr else done!) in
  let failed := (fdr =? -1) || (fdw =? -1) in
  do! (if negb (fdr =? 0) && failed then clear_fd fdr else done!) in
  do! (if negb (fdw =? 0) && failed then clear_fd fdw else done!) in
  if failed then ret (-1) else
  do! with_fs (with_txt (store32 fds fdr)) in
  do! with_fs (with_txt (store32 (fds + 4) fdw)) in
  ret 0.

(** ** The table *)

Definition system_calls : list (option (B St Z)) :=
  [None; Some sys_fork; Some sys_exit; Some sys_exec; Some (lift sys_getpid); Some (lift sys_sbrk);
   Some sys_write; Some sys_read; Some (lift sys_mknod); Some (lift sys_mkdir); Some (lift sys_open);
   Some (lift sys_close); Some (lift sys_link); Some (lift sys_unlink); Some (lift sys_dup); Some sys_wait;
   Some (lift sys_pipe)].

(** [is_valid_syscall], with the function *)
Definition find_syscall (n : Z) : option (B St Z) :=
  if (0 <? n) && (n <? zlen system_calls) then default None (system_calls !! Z.to_nat n) else None.

(** [p->trapframe->eax = r] *)
Definition set_eax (p r : Z) : M St unit :=
  let! x := proc p in
  with_pm (with_ram (store32 (trapframe x + tf_eax) (u32 r))).

Definition syscall : B St unit :=
  let> p := lift this_proc in
  if p =? NULL then lift (panic "syscall: invalid process") else
  let> x := lift (proc p) in
  let> n := lift (with_pm (with_ram (load32 (trapframe x + tf_eax)))) in
  match find_syscall n with
  | None => lift (set_eax p (-1))
  | Some f =>
      let> r := f in
      lift (set_eax p (s32 r))
  end.

(** melib/syscalls.s: the caller pushes the arguments and the return address,
    the stub puts the number in [eax], and the entry of the interrupt saves the
    registers in the trap frame, from where [eax] is restored. *)
Definition user_call (n : Z) (args : list Z) : B St Z :=
  let> p := lift (gets cur) in
  let> x := lift (proc p) in
  let> esp := lift (with_pm (with_ram (load32 (trapframe x + tf_esp)))) in
  do> lift (with_fs (with_txt (store_bytes (esp + 4) (mjoin (le_bytes 4 <$> args))))) in
  do> lift (with_pm (with_ram (store32 (trapframe x + tf_eax) n))) in
  do> syscall in
  let> v := lift (with_pm (with_ram (load32 (trapframe x + tf_eax)))) in
  bret (s32 v).
End syscall.

(** ** Specifications *)

(** The stack and the trap frame of the process [x] in the slot [p], which
    makes a system call with at most three arguments *)
Record user_ok `{KernelLayout, KernelText} {T U} `{HasFs T U} (s : KState T) (p : nat) (x : Process) (esp : Z) : Prop := mk_user_ok {
  uo_run : running s p x;
  uo_frame : mapped (ram (pm s)) (trapframe x) 76;
  uo_esp : array (ram (pm s)) (trapframe x + tf_esp) (le_bytes 4 esp);
  uo_range : 0 ≤ esp ∧ esp + 16 ≤ 4294967296;
  uo_stack : mapped (txt (fsw s)) (esp + 4) 12;
}.

(** The arguments are on the stack. *)
Record calling `{KernelLayout, KernelText} {T U} `{HasFs T U} (s : KState T) (p : nat) (x : Process) (args : list Z) : Prop := mk_calling {
  ca_run : running s p x;
  ca_args : ∃ esp, 0 ≤ esp ∧ esp + 16 ≤ 4294967296 ∧ (length args ≤ 3)%nat ∧
    array (ram (pm s)) (trapframe x + tf_esp) (le_bytes 4 esp) ∧
    array (txt (fsw s)) (esp + 4) (mjoin (le_bytes 4 <$> args));
  ca_words : Forall (λ v, 0 ≤ v < 4294967296) args;
}.

(** ** Lemmas *)

(** A word of an array of words *)
Lemma array_words m l : ∀ p (n : nat) v, array m p (mjoin (le_bytes 4 <$> l)) → l !! n = Some v → array m (p + 4 * n) (le_bytes 4 v).
Proof.
  induction l as [|w l IH]; intros p n v Ha Hn; [done|]. cbn [fmap list_fmap mjoin list_join] in Ha.
  apply array_app in Ha as [Hw Ha]. assert (zlen (le_bytes 4 w) = 4) as Hz by (unfold zlen; by rewrite length_le_bytes).
  rewrite Hz in Ha. destruct n as [|n].
  - injection Hn as ->. by rewrite Z.mul_0_r, Z.add_0_r.
  - replace (p + 4 * S n) with (p + 4 + 4 * n) by lia. by eapply IH.
Qed.

Section lemmas.
Context `{KernelLayout, KernelText} {T U : Type} {BS : BlockStore U} `{HasFs T U} `{PipeMem T}.
Implicit Types (s : KState T).

Lemma wp_getptr s p x args (n : nat) v (Q : Z → KState T → Prop) :
  calling s p x args → args !! n = Some v → Q v s → wp (getptr n) s Q.
Proof.
  intros [Hrun (esp & He & Hmax & Hlen & Hesp & Hargs) Hw] Hn HQ. unfold getptr, getarg.
  rewrite !wp_bind. eapply wp_this_proc; [done|]. rewrite wp_bind. eapply wp_proc; [apply Hrun|]. rewrite wp_bind.
  eapply wp_ram_ok; [by apply (load32_ok _ _ (le_bytes 4 esp))|]. rewrite put_ram_id, wp_ret, le_num_word by lia.
  pose proof (lookup_lt_Some _ _ _ Hn) as Hlt. rewrite u32_small by lia.
  rewrite Forall_lookup in Hw. specialize (Hw _ _ Hn). eapply wp_fs_load; [|exact HQ].
  rewrite <- (le_num_word v) by done. apply load32_ok; [|by rewrite length_le_bytes]. by eapply array_words.
Qed.

Lemma wp_getint s p x args (n : nat) v (Q : Z → KState T → Prop) :
  calling s p x args → args !! n = Some v → Q (s32 v) s → wp (getint n) s Q.
Proof. intros Hc Hn HQ. unfold getint. rewrite wp_bind. eapply wp_getptr; [done..|]. by rewrite wp_ret. Qed.

Lemma wp_getfile s p x args (n fd : nat) f (Q : Z → KState T → Prop) :
  calling s p x args → args !! n = Some (Z.of_nat fd) → (fd < 32)%nat → pfile x !! fd = Some f → Q f s → wp (getfile n) s Q.
Proof.
  intros Hc Hn Hfd Hf HQ. unfold getfile. rewrite wp_bind. eapply wp_getint; [done..|].
  rewrite s32_small, (proj2 (Z.ltb_ge _ _)), (proj2 (Z.leb_gt _ _)) by (unfold NOFILE; lia).
  rewrite wp_bind. eapply wp_this_proc; [apply Hc|]. rewrite wp_bind. eapply wp_proc; [apply Hc|]. rewrite Nat2Z.id. by eapply wp_need.
Qed.

(** The arguments of a call are pushed and its number is set. *)
Definition pushed_args (x : Process) (esp n : Z) (args : list Z) s : KState T :=
  put_ram (write (trapframe x + tf_eax) (le_bytes 4 n) (ram (pm s)))
    (put_w (mkDState (ino (fsw s)) (write (esp + 4) (mjoin (le_bytes 4 <$> args)) (txt (fsw s)))) s).

Lemma pushed_fs x esp n args s :
  fsw (pushed_args x esp n args s) = mkDState (ino (fsw s)) (write (esp + 4) (mjoin (le_bytes 4 <$> args)) (txt (fsw s))).
Proof. apply fs_put. Qed.

Lemma pushed_calling s p x esp n args : user_ok s p x esp → (length args ≤ 3)%nat → Forall (λ v, 0 ≤ v < 4294967296) args →
  calling (pushed_args x esp n args s) p x args.
Proof.
  intros [[Hc Hcur Hx] Hfr Hesp Hr Hst] Hlen Hw. split; [by split|exists esp|done].
  split; [lia|]. split; [lia|]. split; [done|]. split.
  - unfold pushed_args, put_ram. cbn [pm ram]. unfold tf_esp, tf_eax in *.
    apply array_write_disjoint; [|exact Hesp]. right. unfold zlen. rewrite length_le_bytes. lia.
  - rewrite pushed_fs. apply array_write.
Qed.

(** The state after the call: the result is in [eax]. *)
Definition returned (x : Process) (r : Z) s : KState T :=
  put_ram (write (trapframe x + tf_eax) (le_bytes 4 (u32 (s32 r))) (ram (pm s))) s.

(** A step that returns, at the head of an operation *)
Lemma bbind_step {A C} (m : M (KState T) A) (f : A → B (KState T) C) s a s' :
  wp m s (λ b t, b = a ∧ t = s') → bbind (lift m) f s = f a s'.
Proof. intros Hm. apply bbind_lift. by apply wp_eq. Qed.

Lemma bbind_step2 {A C E} (m : M (KState T) A) (f : A → B (KState T) C) (g : C → B (KState T) E) s a s' :
  wp m s (λ b t, b = a ∧ t = s') → bbind (bbind (lift m) f) g s = bbind (f a) g s'.
Proof. intros Hm%wp_eq. unfold bbind, lift. by rewrite Hm. Qed.

Definition return_eax (x : Process) : B (KState T) Z :=
  let> v := lift (with_pm (with_ram (load32 (trapframe x + tf_eax)))) in bret (s32 v).

Lemma bwp_at {A} (m m' : B (KState T) A) s s' (Q : A → KState T → Prop) : m s = m' s' → bwp m' s' Q → bwp m s Q.
Proof. unfold bwp. by intros ->. Qed.

(** A call up to the function of its number *)
Lemma user_call_enter devices fuel frame slash n args s p x esp :
  user_ok s p x esp → (length args ≤ 3)%nat → Forall (λ v, 0 ≤ v < 4294967296) args → 0 ≤ n < 4294967296 →
  user_call devices fuel frame slash n args s =
    bbind (match find_syscall devices fuel frame slash n with
           | None => lift (set_eax p (-1))
           | Some f => let> r := f in lift (set_eax p (s32 r))
           end) (λ _, return_eax x) (pushed_args x esp n args s).
Proof.
  intros Hu Hlen Hw Hn. pose proof Hu as [Hrun Hfr Hesp Hr Hst]. pose proof Hrun as [Hc Hcur Hx].
  unfold user_call. rewrite (bbind_step _ _ s (Z.of_nat p) s) by (rewrite wp_gets; by rewrite Hcur).
  rewrite (bbind_step _ _ s x s) by (by eapply wp_proc).
  rewrite (bbind_step _ _ s esp s).
  2:{ eapply wp_ram_ok; [by apply (load32_ok _ _ (le_bytes 4 esp))|]. by rewrite put_ram_id, le_num_word by lia. }
  rewrite (bbind_step _ _ s tt (put_w (mkDState (ino (fsw s)) (write (esp + 4) (mjoin (le_bytes 4 <$> args)) (txt (fsw s)))) s)).
  2:{ eapply wp_fs_txt; [|done]. apply store_bytes_ok.
      - apply Forall_join, Forall_fmap, Forall_true. intros v. apply le_bytes_bytes.
      - rewrite length_addr_bytes. eapply mapped_weaken; [exact Hst|lia|lia]. }
  rewrite (bbind_step _ _ _ tt (pushed_args x esp n args s)).
  2:{ eapply wp_ram_ok; [|done]. apply store32_ok. cbn. eapply mapped_weaken; [exact Hfr|unfold tf_eax; lia|unfold tf_eax; lia]. }
  pose proof (pushed_calling s p x esp n args Hu Hlen Hw) as Hca.
  set (s1 := pushed_args x esp n args s) in *. pose proof (ca_run _ _ _ _ Hca) as Hrun1. unfold syscall.
  rewrite (bbind_step2 _ _ _ s1 (Z.of_nat p) s1) by (by eapply wp_this_proc). rewrite (proj2 (Z.eqb_neq _ _)) by (unfold NULL; lia).
  rewrite (bbind_step2 _ _ _ s1 x s1) by (eapply wp_proc; [apply Hrun1|done]).
  rewrite (bbind_step2 _ _ _ s1 n s1); [done|].
  eapply wp_ram_ok; [apply (load32_ok _ _ (le_bytes 4 n)); [apply array_write|by rewrite length_le_bytes]|].
  by rewrite put_ram_id, le_num_word.
Qed.

Lemma s32_u32_s32 r : s32 (u32 (s32 r)) = s32 r.
Proof. unfold s32, u32. Z.div_mod_to_equations. lia. Qed.

(** The result on its way through [eax] *)
Lemma set_return_eax r s (p : nat) x x' (Q : Z → KState T → Prop) :
  ptab s !! p = Some x' → trapframe x' = trapframe x → mapped (ram (pm s)) (trapframe x) 76 →
  Q (s32 r) (returned x r s) → bwp (bbind (lift (set_eax p (s32 r))) (λ _, return_eax x)) s Q.
Proof.
  intros Hx Ht Hm HQ. rewrite bwp_bind_lift. unfold set_eax. rewrite wp_bind. eapply wp_proc; [exact Hx|].
  rewrite Ht. eapply wp_ram_ok; [apply store32_ok; eapply mapped_weaken; [exact Hm|unfold tf_eax; lia|unfold tf_eax; lia]|].
  fold (returned x r s). unfold return_eax. rewrite bwp_bind_lift.
  eapply wp_ram_ok; [apply (load32_ok _ _ (le_bytes 4 (u32 (s32 r)))); [apply array_write|by rewrite length_le_bytes]|].
  by rewrite put_ram_id, bwp_bret, le_num_word, s32_u32_s32 by apply u32_range.
Qed.

Lemma user_call_ok devices fuel frame slash n args f s p x esp (Q : Z → KState T → Prop) :
  user_ok s p x esp → (length args ≤ 3)%nat → Forall (λ v, 0 ≤ v < 4294967296) args → 0 ≤ n < 4294967296 →
  find_syscall devices fuel frame slash n = Some f →
  bwp f (pushed_args x esp n args s) (λ r s', (∃ x', ptab s' !! p = Some x' ∧ trapframe x' = trapframe x) ∧
    mapped (ram (pm s')) (trapframe x) 76 ∧ Q (s32 r) (returned x r s')) →
  bwp (user_call devices fuel frame slash n args) s Q.
Proof.
  intros Hu Hlen Hw Hn Hf Hb. eapply bwp_at; [by apply user_call_enter|]. rewrite Hf, !bwp_bind. eapply bwp_mono; [exact Hb|]. cbn beta. intros r s2 ((x2 & Hx2 & Ht2) & Hm2 & HQ).
  rewrite <- bwp_bind. by eapply set_return_eax.
Qed.

Lemma user_call_panics devices fuel frame slash n args f s p x esp msg :
  user_ok s p x esp → (length args ≤ 3)%nat → Forall (λ v, 0 ≤ v < 4294967296) args → 0 ≤ n < 4294967296 →
  find_syscall devices fuel frame slash n = Some f →
  f (pushed_args x esp n args s) = Done (Panic msg) →
  user_call devices fuel frame slash n args s = Done (Panic msg).
Proof.
  intros Hu Hlen Hw Hn Hf Hb. rewrite (user_call_enter _ _ _ _ _ _ s p x esp), Hf by done.
  unfold bbind. by rewrite Hb.
Qed.

(** A step that returns, before a panic *)
Lemma bpanic_step {A C} (m : M (KState T) A) (f : A → B (KState T) C) s msg :
  wp m s (λ a s', f a s' = Done (Panic msg)) → bbind (lift m) f s = Done (Panic msg).
Proof. unfold bbind, lift, wp. by destruct (m s). Qed.

Lemma panic_step {A C} (m : M (KState T) A) (f : A → M (KState T) C) s msg :
  wp m s (λ a s', f a s' = Panic msg) → bind m f s = Panic msg.
Proof. unfold bind, wp. by destruct (m s). Qed.

(** The state between two calls *)
Lemma user_after s s' p x x' esp : user_ok s p x esp → calm (lk s') → cur s' = cur s → ptab s' !! p = Some x' →
  trapframe x' = trapframe x → ram (pm s') = ram (pm s) → mapped (txt (fsw s')) (esp + 4) 12 → user_ok s' p x' esp.
Proof.
  intros [[_ Hcur _] Hfr Hesp Hr Hst] Hc Hcur' Hx Ht Hram Hm. split; [split; [done|congruence|done]|..]; rewrite ?Ht, ?Hram; done.
Qed.

(** A result that fits is what the caller gets. *)
Lemma returned_user x r s p esp : user_ok s p x esp → user_ok (returned x r s) p x esp.
Proof.
  intros [[Hc Hcur Hx] Hfr Hesp Hr Hst]. split; [by split| | |done|done]; cbn [returned put_ram pm ram].
  - by apply mapped_write.
  - unfold tf_esp, tf_eax in *. apply array_write_disjoint; [|exact Hesp]. right. unfold zlen. rewrite length_le_bytes. lia.
Qed.

Lemma pushed_user x esp n args s p : user_ok s p x esp → (length args ≤ 3)%nat → user_ok (pushed_args x esp n args s) p x esp.
Proof.
  intros [[Hc Hcur Hx] Hfr Hesp Hr Hst] Hlen. split; [by split| | |done|]; [..|rewrite pushed_fs; by apply mapped_write];
    unfold pushed_args, put_ram; cbn [pm ram].
  - by apply mapped_write.
  - unfold tf_esp, tf_eax in *. apply array_write_disjoint; [|exact Hesp]. right. unfold zlen. rewrite length_le_bytes. lia.
Qed.

(** ** Closing *)

(** The entry of an open file after its last reference is gone *)
Definition closed (y : File) : File := mkFile (fino y) (fpipe y) (foffset y) FD_NONE 0 (readable y) (writable y).

Lemma file_close_last s (f : nat) y i z (Q : unit → KState T → Prop) :
  ftab s !! f = Some y → fnref y = 1 → ftype y = FD_INODE → fino y = i → icache (ino (fsw s)) !! i = Some z →
  Q tt (put_w (mkDState (mkIState (blk (ino (fsw s))) (<[i := set_inref (s32 (inref z - 1)) z]> (icache (ino (fsw s)))) (cur_pid (ino (fsw s))))
                 (txt (fsw s))) (put_ftab (<[f := closed y]> (ftab s)) s)) →
  wp (file_close f) s Q.
Proof.
  intros Hy Hr Ht <- Hz HQ. unfold file_close. rewrite wp_bind. eapply wp_file; [exact Hy|]. rewrite Hr.
  rewrite (proj2 (Z.ltb_ge 1 1)) by lia. change (s32 (1 - 1)) with 0. rewrite wp_bind. eapply wp_update_file; [exact Hy|].
  rewrite (proj2 (Z.ltb_ge 0 0)) by lia. rewrite wp_bind. eapply wp_update_file.
  { cbn [ftab put_ftab]. apply list_lookup_insert_eq. by apply lookup_lt_Some in Hy. }
  rewrite Ht. unfold with_rest. rewrite wp_zoom. cbn [drop_inode drop_fs]. rewrite wp_zoom. unfold with_ino. rewrite wp_zoom.
  unfold inode_drop. rewrite wp_bind. eapply wp_inode; [exact Hz|]. eapply wp_update_inode; [exact Hz|].
  cbn [put_ftab ftab] in *. rewrite list_insert_insert_eq. exact HQ.
Qed.

Lemma sys_close_ok s p x (fd f : nat) y i z (Q : Z → KState T → Prop) :
  calling s p x [Z.of_nat fd] → (fd < 32)%nat → pfile x !! fd = Some (Z.of_nat f) →
  ftab s !! f = Some y → fnref y = 1 → ftype y = FD_INODE → fino y = i → icache (ino (fsw s)) !! i = Some z →
  Q 0 (put_w (mkDState (mkIState (blk (ino (fsw s))) (<[i := set_inref (s32 (inref z - 1)) z]> (icache (ino (fsw s)))) (cur_pid (ino (fsw s))))
                 (txt (fsw s))) (put_ftab (<[f := closed y]> (ftab s)) s)) →
  wp sys_close s Q.
Proof.
  intros Hca Hfd Hf Hy Hr Ht Hi Hz HQ. unfold sys_close. rewrite wp_bind. change 0 with (Z.of_nat 0) at 1.
  eapply (wp_getfile s p x [Z.of_nat fd] 0 fd f); [done|done|done|done|].
  rewrite (proj2 (Z.eqb_neq _ _)) by (unfold NULL; lia). rewrite wp_bind. by eapply file_close_last.
Qed.

(** ** Opening and reading *)

(** The state after [open] of the inode [i], with the descriptor [fd] and the
    entry [f] of the file table, on the file system [w] *)
Definition opened_fd (p : nat) (x : Process) (fd f : nat) (y : File) (i : Z) (w : DState U) s : KState T :=
  put_ptab (<[p := set_files (<[fd := Z.of_nat f]> (pfile x)) x]> (ptab s))
    (put_ftab (<[f := open_file i O_RDONLY (set_fnref 1 y)]> (ftab s)) (put_w w s)).

Lemma sys_open_ok frame slash s p x path (fd f : nat) y (j : Z) P (Q : Z → KState T → Prop) :
  calling s p x [path; O_RDONLY] → first_fd (pfile x) fd → (fd < 32)%nat → first_file (ftab s) f y → j ≠ NULL →
  wp (dir_abspath (λ _, None) frame slash path false) (fsw s) (λ i w, i = j ∧
    (∃ z, icache (ino w) !! j = Some z ∧ iread z = true ∧ type (din z) ≠ F_DIR) ∧ P w) →
  (∀ w, P w → Q (Z.of_nat fd) (opened_fd p x fd f y j w s)) →
  wp (sys_open frame slash) s Q.
Proof.
  intros Hca Hfd Hlt Hf Hj Habs HQ. pose proof Hca as [Hrun _ _]. unfold sys_open. rewrite wp_bind. change 0 with (Z.of_nat 0) at 1.
  eapply wp_getptr; [done|done|]. rewrite wp_bind. change 1 with (Z.of_nat 1). eapply wp_getint; [done|done|].
  unfold open_inode. change (has_bits (s32 O_RDONLY) O_CREAT) with false. cbn iota. rewrite wp_bind, wp_bind.
  apply wp_with_fs. eapply wp_mono; [exact Habs|]. cbn beta. intros i w (-> & (z & Hz & Hzr & Hzt) & HP).
  rewrite (proj2 (Z.eqb_neq j NULL)), wp_bind by done. eapply (loaded_inode_ok _ j z); [by rewrite fsw_put|done|].
  rewrite (proj2 (Z.eqb_neq _ F_DIR)) by done. cbn [andb]. rewrite wp_ret, (proj2 (Z.eqb_neq j NULL)) by done.
  rewrite wp_bind. eapply wp_ok; [by apply (file_allocate_ok (put_w w s) f y)|].
  rewrite (proj2 (Z.eqb_neq (Z.of_nat f) _)) by (unfold NULL; lia). rewrite wp_bind.
  eapply wp_ok; [apply (fdalloc_ok _ p x fd); [|done|done]; split; apply Hrun|].
  rewrite (proj2 (Z.eqb_neq (Z.of_nat fd) _)) by lia. rewrite wp_bind. eapply wp_update_file.
  { cbn [ftab put_ptab put_ftab put_w put_rest]. apply list_lookup_insert_eq. destruct Hf as [Hf _]. by apply lookup_lt_Some in Hf. }
  rewrite wp_ret. specialize (HQ w HP). unfold opened_fd in HQ. cbn [ftab put_ptab put_ftab put_w put_rest] in *.
  rewrite list_insert_insert_eq. exact HQ.
Qed.

Lemma sys_read_ok devices fuel s p x (fd f : nat) buf n y i z (Q : Z → KState T → Prop) :
  calling s p x [Z.of_nat fd; buf; n] → (fd < 32)%nat → pfile x !! fd = Some (Z.of_nat f) → buf ≠ 0 → 0 ≤ n < 2147483648 →
  ftab s !! f = Some y → readable y = true → ftype y = FD_INODE → fino y = i → file_at s i z →
  0 ≤ foffset y ≤ isize (din z) →
  let l := read_bytes (ino (fsw s)) (din z) (foffset y) n in
  mapped (txt (fsw s)) buf (length l) →
  (∀ j, same_ino (ino (fsw s)) j →
    Q (zlen l) (put_ftab (<[f := set_foffset (foffset y + zlen l) y]> (ftab s)) (put_w (mkDState j (write buf l (txt (fsw s)))) s))) →
  bwp (sys_read devices fuel) s Q.
Proof.
  intros Hca Hfd Hpf Hbuf Hn Hy Hr Ht Hi Hfa Ho l Hm HQ. unfold sys_read. rewrite bwp_bind_lift. change 0 with (Z.of_nat 0) at 1.
  eapply (wp_getfile s p x _ 0 fd f); [done|done|done|done|]. rewrite bwp_bind_lift. change 1 with (Z.of_nat 1).
  eapply wp_getptr; [done|done|]. rewrite bwp_bind_lift. change 2 with (Z.of_nat 2). eapply wp_getint; [done|done|].
  rewrite (proj2 (Z.eqb_neq (Z.of_nat f) _)), (proj2 (Z.eqb_neq buf 0)), s32_small by (done || unfold NULL; lia).
  by eapply file_read_ok.
Qed.

(** ** Properties *)

(** A number that is no system call gives -1 and does nothing else. *)
Theorem syscall_unknown devices fuel frame slash n args s p x esp :
  user_ok s p x esp → (length args ≤ 3)%nat → Forall (λ v, 0 ≤ v < 4294967296) args → n = 0 ∨ 16 < n < 4294967296 →
  bwp (user_call devices fuel frame slash n args) s
    (λ r s', r = -1 ∧ s' = returned x (-1) (pushed_args x esp n args s)).
Proof.
  intros Hu Hlen Hw Hn. assert (find_syscall devices fuel frame slash n = None) as Hf.
  { unfold find_syscall, zlen. cbn [length system_calls]. destruct (Z.ltb_spec 0 n), (Z.ltb_spec n 17%nat); cbn; (done || lia). }
  eapply bwp_at; [apply user_call_enter; (done || lia)|]. rewrite Hf.
  pose proof (pushed_user x esp n args s p Hu Hlen) as [Hrun Hfr _ _ _].
  apply (set_return_eax (-1) _ p x x); [apply Hrun|done|done|done].
Qed.

(** C20: [close] does not clear the descriptor. After a process has closed the
    only descriptor of a file, closing it again, or reading from it, stops the
    whole kernel. *)
Theorem close_twice_panics devices fuel frame slash s p x esp (fd f : nat) y z buf n :
  user_ok s p x esp → (fd < 32)%nat → pfile x !! fd = Some (Z.of_nat f) →
  ftab s !! f = Some y → fnref y = 1 → ftype y = FD_INODE → readable y = true → icache (ino (fsw s)) !! fino y = Some z →
  0 < buf < 4294967296 → 0 ≤ n < 2147483648 →
  let call := user_call devices fuel frame slash in
  bwp (call SYS_CLOSE [Z.of_nat fd]) s (λ r s', r = 0 ∧
    call SYS_CLOSE [Z.of_nat fd] s' = Done (Panic "file_close") ∧
    call SYS_READ [Z.of_nat fd; buf; n] s' = Done (Panic "file read")).
Proof.
  intros Hu Hfd Hf Hy Hr Ht Hrd Hz Hbuf Hn call.
  assert (Forall (λ v, 0 ≤ v < 4294967296) [Z.of_nat fd]) as Hw by (repeat constructor; lia).
  assert (Forall (λ v, 0 ≤ v < 4294967296) [Z.of_nat fd; buf; n]) as Hw3 by (repeat (apply Forall_cons; split; [lia|]); constructor).
  assert (length [Z.of_nat fd] ≤ 3)%nat as Hl1 by (cbn; lia). assert (length [Z.of_nat fd; buf; n] ≤ 3)%nat as Hl3 by (cbn; lia).
  eapply (user_call_ok devices fuel frame slash SYS_CLOSE [Z.of_nat fd]); [exact Hu|done|done|done|reflexivity|].
  pose proof (pushed_calling s p x esp SYS_CLOSE [Z.of_nat fd] Hu Hl1 Hw) as Hca.
  pose proof (pushed_user x esp SYS_CLOSE [Z.of_nat fd] s p Hu Hl1) as Hu1.
  set (s1 := pushed_args x esp SYS_CLOSE [Z.of_nat fd] s) in *. rewrite bwp_lift.
  eapply (sys_close_ok s1 p x fd f y (fino y) z); try done; [unfold s1; by rewrite pushed_fs|].
  set (s2 := put_w _ _). split; [exists x; split; [apply Hu1|done]|]. split; [apply Hu1|].
  assert (user_ok s2 p x esp) as Hu2.
  { apply (user_after s1 s2 p x x); try done; [apply Hu1|apply Hu1|]. unfold s2. rewrite fsw_put. apply Hu1. }
  pose proof (returned_user x 0 s2 p esp Hu2) as Hu3. set (s3 := returned x 0 s2) in *.
  assert (ftab s3 !! f = Some (closed y)) as Hy3.
  { change (ftab s3) with (<[f := closed y]> (ftab s)). apply list_lookup_insert_eq. by apply lookup_lt_Some in Hy. }
  split; [done|]. split.
  - eapply (user_call_panics devices fuel frame slash SYS_CLOSE [Z.of_nat fd]); [exact Hu3|done|done|done|reflexivity|].
    pose proof (pushed_calling s3 p x esp SYS_CLOSE [Z.of_nat fd] Hu3 Hl1 Hw) as Hca3. set (s4 := pushed_args _ _ _ _ s3) in *.
    unfold lift, sys_close. f_equal. apply panic_step. change 0 with (Z.of_nat 0) at 1.
    eapply (wp_getfile s4 p x [Z.of_nat fd] 0 fd f); [done|done|done|done|].
    rewrite (proj2 (Z.eqb_neq _ _)) by (unfold NULL; lia). unfold file_close. apply bind_panic, panic_step.
    eapply wp_file; [exact Hy3|]. done.
  - eapply (user_call_panics devices fuel frame slash SYS_READ [Z.of_nat fd; buf; n]); [exact Hu3|done|done|done|reflexivity|].
    pose proof (pushed_calling s3 p x esp SYS_READ [Z.of_nat fd; buf; n] Hu3 Hl3 Hw3) as Hca3. set (s4 := pushed_args _ _ _ _ s3) in *.
    unfold sys_read. apply bpanic_step. change 0 with (Z.of_nat 0) at 1.
    eapply (wp_getfile s4 p x _ 0 fd f); [done|done|done|done|]. apply bpanic_step. change 1 with (Z.of_nat 1).
    eapply wp_getptr; [done|done|]. apply bpanic_step. change 2 with (Z.of_nat 2). eapply wp_getint; [done|done|].
    rewrite (proj2 (Z.eqb_neq (Z.of_nat f) _)), (proj2 (Z.eqb_neq buf 0)) by (unfold NULL; lia).
    unfold file_read. apply bpanic_step. eapply wp_file; [exact Hy3|]. cbn [closed readable ftype]. by rewrite Hrd.
Qed.
End lemmas.

(** ** Witnesses *)

#[local] Existing Instance demo_layout.
#[local] Existing Instance demo_text.
#[local] Existing Instance bcache_store.

(** The process has the file of [demo_fs] open as descriptor 0, its stack is at
    300 and its trap frame at 0. *)
Definition demo_caller : KState (DState (BState SimDrive) * gmap Z Pipe) :=
  mkKState (mkLState true 0 true {[ 100 := new_lock ]}) (mkCpu [] 0 0 0 0) 0 [demo_proc [0]] 2 0 0x80200000
    (mkPmem (write 68 (le_bytes 4 300) (write 0 (replicate 76 0) ∅)) 0) [demo_open 0 true false]
    (mkDState (ino demo_fs) (write 300 (replicate 32 0) (txt demo_fs)), ∅).

Lemma demo_caller_ok : user_ok demo_caller 0 (demo_proc [0]) 300.
Proof.
  split.
  - split; [|reflexivity|reflexivity]. split; [split; [split; [discriminate|reflexivity]|intros H; discriminate H]|reflexivity|reflexivity].
  - apply mapped_write. rewrite <- (length_replicate 76 0). apply array_mapped, array_write.
  - apply (array_write 68 (le_bytes 4 300)).
  - split; discriminate.
  - intros i Hi. do 12 (destruct i as [|i]; [vm_compute; by eexists|]). lia.
Qed.

Lemma syscall_unknown_witness :
  bwp (user_call [] 0 [] 0 17 []) demo_caller (λ r _, r = -1).
Proof.
  pose proof (syscall_unknown [] 0 [] 0 17 [] demo_caller 0 (demo_proc [0]) 300 demo_caller_ok
    ltac:(cbn; lia) ltac:(constructor) ltac:(lia)) as Hw.
  eapply bwp_mono; [exact Hw|]. intros r s' [-> _]. reflexivity.
Defined.

Lemma close_twice_panics_witness :
  let call := user_call [] 0 [] 0 in
  bwp (call SYS_CLOSE [0]) demo_caller (λ r s', r = 0 ∧
    call SYS_CLOSE [0] s' = Done (Panic "file_close") ∧ call SYS_READ [0; 100; 2] s' = Done (Panic "file read")).
Proof.
  exact (close_twice_panics [] 0 [] 0 demo_caller 0 (demo_proc [0]) 300 0 0 (demo_open 0 true false) demo_inode 100 2
    demo_caller_ok ltac:(lia) eq_refl eq_refl eq_refl eq_refl eq_refl eq_refl ltac:(lia) ltac:(lia)).
Defined.
