(* ===== verification/OpenFiles.v ===== *)
(** * System calls on an image of mkfs

    What a user program sees of the file system: mkfs/mkfs.c, the inodes and
    directories, the file table and the system calls together. *)
From S2P Require Import Prelude Machine CMem CString Ide Disk BCache Block Inode Dir Mkfs.
From S2P Require Import Palloc PgTbl VMem Locks Segments Process ProcSpec Switch Pipe Files Exec Syscall.

Section mounted.
Context {U : Type} {BS : BlockStore U}.
Implicit Types (w : DState U) (im : Mk).

(** The image [im] is on the disk and its root directory in the slot [r]. The
    slot [j] is the first that is free; those before it hold no program. *)
Record mounted im w (r : Z) (rx : Inode) (j : Z) (y : Inode) : Prop := mk_mounted {
  mt_disk : on_disk im (blk (ino w));
  mt_root : root_loaded im (ino w) r rx;
  mt_slot : icache (ino w) !! j = Some y;
  mt_range : 0 ≤ j ≤ NINODES;
  mt_free : inref y = 0;
  mt_first : ∀ i, 0 ≤ i < j → ∃ z, icache (ino w) !! i = Some z ∧ inref z ≠ 0 ∧ (idev z = ROOTDEV → inum z < 2);
}.

(** The slot holds the program [n], read from the disk. *)
Definition holds_program im (n : nat) (z : Inode) : Prop :=
  idev z = ROOTDEV ∧ inum z = 2 + n ∧ Inode.iread z = true ∧ din z = inode im (2 + n).

(** A program of an image. [pg_size] is the scope of the theorems, not a limit
    of the kernel: they cover the programs whose bytes lie in the twelve direct
    blocks, while [inode_read] goes on through the pointer block. *)
Record program im (l : list (list Z * list Z)) (n : nat) (name content : list Z) : Prop := mk_program {
  pg_image : mkfs_ok l im;
  pg_names : Forall (λ p, name_ok p.1) l;
  pg_nodup : NoDup l.*1;
  pg_count : zlen l ≤ 126;
  pg_entry : l !! n = Some (name, content);
  pg_dot : name ≠ [46];
  pg_size : zlen content ≤ 6144;
}.

Lemma program_type im l n name content : program im l n name content → type (inode im (2 + n)) = F_FILE.
Proof.
  intros [[Hrep _ _ _ _] _ _ _ Hn _ _]. assert (programs 2 root_dir l ∅ !! (2 + n) = Some (F_FILE, content)) as HF.
  { eapply programs_file; [lia|exact Hn]. }
  by destruct (rp_file _ _ Hrep _ _ _ HF) as (_ & _ & ?).
Qed.

Lemma mounted_getc im w r rx j y (n : nat) : mounted im w r rx j y → getc_slot (icache (ino w)) ROOTDEV (2 + n) j y.
Proof.
  intros [_ _ Hs Hr Hf Hk]. split; [done|done|by left|]. intros i Hi. destruct (Hk i Hi) as (z & Hz & Hz0 & Hzn).
  exists z. split; [done|]. split; [done|]. intros (_ & Hd & Hn). specialize (Hzn Hd). lia.
Qed.

Lemma mounted_order im w r rx j y : mounted im w r rx j y → 0 ≤ r < j.
Proof.
  intros [_ [[Hr Hs _ Hf] Href _ _] Hj Hjr Hj0 _]. split; [lia|]. destruct (Z.lt_trichotomy r j) as [|[->|Hlt]]; [done| |].
  - rewrite Hs in Hj. injection Hj as ->. lia.
  - destruct (Hf j ltac:(lia)) as (z & Hz & Hz0 & _). rewrite Hj in Hz. by injection Hz as <-.
Qed.

(** Resolving the name of a program *)
Lemma abspath_program dr frame slash im l n name content w path r rx j y :
  program im l n name content → mounted im w r rx j y → inref rx < 1000000 →
  ¬ (idev y = ROOTDEV ∧ inum y = 2 + n) → path_at slash (txt w) path name [] [] →
  wp (dir_abspath dr frame slash path false) w (λ i w', i = j ∧ txt w' = txt w ∧
    ∃ z, mounted im w' r (set_inref (inref rx + 1) rx) j z ∧ holds_program im n z).
Proof.
  intros Hpg Hmt Href Hyn Hpath. pose proof Hpg as [Hmk Hnames Hnd Hlen Hn Hdot Hc]. pose proof Hmt as [Hdisk Hroot Hslot Hjr Hy0 Hfirst].
  destruct (image_find im l n name content w r rx j y Hmk Hnames Hnd Hlen Hn Hdot Hc Hdisk Hroot (mounted_getc _ _ _ _ _ _ n Hmt) Hy0 Hyn)
    as (Hr & Hfind & Hopen & Hfile).
  assert (take 24 name = name) as Htk by (apply take_ge; rewrite Forall_lookup in Hnames; by destruct (Hnames _ _ Hn)).
  pose proof (mounted_order _ _ _ _ _ _ Hmt) as Hord.
  eapply wp_mono; [eapply (dir_abspath_ok dr frame slash w path name [] [] r rx)|]; [done|apply not_elem_of_nil|done|by rewrite Htk|done|].
  cbn beta. intros i w' (-> & Ht & Ho). split; [done|]. split; [done|].
  pose proof Ho as (_ & _ & _ & (z & Hz & Hzd & Hzn & Hzr & Hz0 & _) & Hoth).
  eapply opened_disk in Ho as (Hdisk' & z' & Hz' & _ & Hdin); [|exact Hdisk]. rewrite Hz in Hz'. injection Hz' as <-.
  exists z. destruct (Hfile (ino w') Hdisk') as (Hd & _). rewrite Hd in Hdin. split; [|done]. cbn [icache] in Hoth.
  assert (icache (ino w') !! r = Some (set_inref (inref rx + 1) rx)) as Hr' by (rewrite Hoth by lia; by rewrite lookup_insert_eq).
  split; [done| |done|done|done|].
  - destruct Hroot as [[Hg1 Hg2 Hg3 Hg4] Href' Hrd Hrdin]. split; [|cbn; lia|done|done]. split; [done|done| |].
    + right. destruct Hg3 as [|(? & ? & ?)]; [lia|]. cbn. lia.
    + intros i Hi. rewrite Hoth, lookup_insert_ne by lia. by apply Hg4.
  - intros i Hi. destruct (decide (i = r)) as [->|Hne].
    + exists (set_inref (inref rx + 1) rx). split; [done|]. destruct Hroot as [[_ _ Hg3 _] Href' _ _]. cbn. split; [lia|].
      destruct Hg3 as [|(? & ? & ->)]; [lia|]. intros _. unfold ROOTINO. lia.
    + rewrite Hoth, lookup_insert_ne by lia. by apply Hfirst.
Qed.

(** The bytes of a program in a slot *)
Lemma program_bytes im l n name content w r rx j z off sz :
  program im l n name content → mounted im w r rx j z → holds_program im n z → 0 ≤ off → 0 ≤ sz →
  isize (din z) = zlen content ∧ file_ok (ino w) (din z) (isize (din z)) ∧ blk_idle (blk (ino w)) ∧
  read_bytes (ino w) (din z) off sz = slice (Z.to_nat off) (Z.to_nat (Z.min sz (zlen content - off))) content.
Proof.
  intros Hpg Hmt (Hzd & Hzn & Hzr & Hdin) Ho Hsz. pose proof Hpg as [[Hrep _ _ _ _] _ _ _ Hn _ Hc]. pose proof (mt_disk _ _ _ _ _ _ Hmt) as Hdisk.
  assert (programs 2 root_dir l ∅ !! (2 + n) = Some (F_FILE, content)) as HF by (eapply programs_file; [lia|exact Hn]).
  destruct (image_file_ok im _ (ino w) (2 + n) F_FILE content Hrep HF ltac:(by left) Hc Hdisk) as (_ & Hfo & Htake).
  destruct (rp_file _ _ Hrep _ _ _ HF) as (_ & Hsize & _). rewrite Hdin, Hsize. split; [done|]. split; [done|]. split; [apply Hdisk|].
  unfold read_bytes. rewrite Hsize, <- (take_drop (length content) (file_bytes (ino w) _)), Htake.
  destruct (decide (off ≤ zlen content)).
  - apply slice_app_l. unfold zlen in *. lia.
  - replace (Z.to_nat (Z.min sz (zlen content - off))) with 0%nat by lia. done.
Qed.
End mounted.

Section calls.
Context `{KernelLayout, KernelText} {T U : Type} {BS : BlockStore U} `{HasFs T U} `{PipeMem T}.
Implicit Types (s : KState T) (im : Mk).
Context (devices : list (Dev (KState T))) (fuel : nat) (frame : list Z) (slash : Z).
Notation call := (user_call devices fuel frame slash).

(** The [n] bytes at [a] are not where a call pushes its arguments. *)
Definition apart (esp a n : Z) : Prop := a + n ≤ esp + 4 ∨ esp + 16 ≤ a.

Lemma path_pushed esp t path name args : (length args ≤ 3)%nat → apart esp path (zlen name + 2) → apart esp slash 2 →
  path_at slash t path name [] [] → path_at slash (write (esp + 4) (mjoin (le_bytes 4 <$> args)) t) path name [] [].
Proof.
  intros Hlen Ha Hb [E1 E2 E3 E4 E5 E6]. rewrite app_nil_r in *.
  assert (zlen (mjoin (le_bytes 4 <$> args)) ≤ 12) as Hz by (unfold zlen; rewrite length_addr_bytes; lia).
  split; [done| | |done|done|by rewrite app_nil_r]; rewrite ?app_nil_r; apply cstr_write; try done; unfold apart, zlen in *; cbn [length]; lia.
Qed.

(** A state in which the process runs on an image *)
Record on_image im s (p : nat) (x : Process) (esp r : Z) (rx : Inode) (j : Z) (y : Inode) : Prop := mk_on_image {
  oi_user : user_ok s p x esp;
  oi_mounted : mounted im (fsw s) r rx j y;
}.

Lemma call_open im l n name content s p x esp path r rx j y (fd f : nat) yf :
  program im l n name content → on_image im s p x esp r rx j y → inref rx < 1000000 → ¬ (idev y = ROOTDEV ∧ inum y = 2 + n) →
  path_at slash (txt (fsw s)) path name [] [] → 0 ≤ path < 4294967296 → apart esp path (zlen name + 2) → apart esp slash 2 →
  first_fd (pfile x) fd → (fd < 32)%nat → first_file (ftab s) f yf →
  bwp (call SYS_OPEN [path; O_RDONLY]) s (λ d s', d = fd ∧
    ∃ z, on_image im s' p (set_files (<[fd := Z.of_nat f]> (pfile x)) x) esp r (set_inref (inref rx + 1) rx) j z ∧ holds_program im n z ∧
      ftab s' = <[f := open_file j O_RDONLY (set_fnref 1 yf)]> (ftab s) ∧
      txt (fsw s') = write (esp + 4) (mjoin (le_bytes 4 <$> [path; O_RDONLY])) (txt (fsw s))).
Proof.
  intros Hpg [Hu Hmt] Href Hyn Hpath Hp0 Ha1 Ha2 Hfd Hlt Hf.
  assert (length [path; O_RDONLY] ≤ 3)%nat as Hl by (cbn; lia).
  assert (Forall (λ v, 0 ≤ v < 4294967296) [path; O_RDONLY]) as Hw by (repeat (apply Forall_cons; split; [unfold O_RDONLY; lia|]); constructor).
  eapply (user_call_ok devices fuel frame slash SYS_OPEN); [exact Hu|done|done|done|reflexivity|].
  pose proof (pushed_calling s p x esp SYS_OPEN _ Hu Hl Hw) as Hca. pose proof (pushed_user x esp SYS_OPEN _ s p Hu Hl) as Hu1.
  pose proof (pushed_fs x esp SYS_OPEN [path; O_RDONLY] s) as Hfs.
  set (s1 := pushed_args x esp SYS_OPEN [path; O_RDONLY] s) in *.
  assert (mounted im (fsw s1) r rx j y) as Hmt1 by (rewrite Hfs; by destruct Hmt; split).
  rewrite bwp_lift. eapply (sys_open_ok frame slash s1 p x path fd f yf j
    (λ w, txt w = txt (fsw s1) ∧ ∃ z, mounted im w r (set_inref (inref rx + 1) rx) j z ∧ holds_program im n z)); try done.
  - pose proof (mt_range _ _ _ _ _ _ Hmt). unfold NULL. lia.
  - eapply wp_mono; [eapply abspath_program; [done|done|done|done|]|].
    + rewrite Hfs. by apply path_pushed.
    + cbn beta. intros i w (-> & Ht & z & Hm & Hh). split; [done|]. split; [|by split; [|exists z]].
      exists z. split; [apply Hm|]. split; [apply Hh|]. destruct Hh as (_ & _ & _ & ->). by rewrite (program_type _ _ _ _ _ Hpg).
  - intros w (Ht & z & Hm & Hh). set (s2 := opened_fd p x fd f yf j w s1).
    set (x2 := set_files (<[fd := Z.of_nat f]> (pfile x)) x).
    assert (ptab s2 !! p = Some x2) as Hx2.
    { cbn [s2 opened_fd put_ptab ptab]. apply list_lookup_insert_eq. destruct Hu1 as [[_ _ Hx] _ _ _ _]. by apply lookup_lt_Some in Hx. }
    assert (fsw s2 = w) as Hw2 by apply fs_put.
    assert (user_ok s2 p x2 esp) as Hu2.
    { apply (user_after s1 s2 p x x2); try done; [apply Hu1|]. rewrite Hw2, Ht. apply Hu1. }
    split; [by exists x2|]. split; [apply Hu1|]. split; [apply s32_small; lia|].
    pose proof (returned_user x2 (Z.of_nat fd) s2 p esp Hu2) as Hu3. exists z.
    split; [split; [exact Hu3|]|split; [done|split; [done|]]].
    + change (fsw (returned x (Z.of_nat fd) s2)) with (fsw s2). by rewrite Hw2.
    + change (fsw (returned x (Z.of_nat fd) s2)) with (fsw s2). by rewrite Hw2, Ht, Hfs.
Qed.

Lemma call_read im l n name content s p x esp r rx j z (fd f : nat) y buf sz :
  program im l n name content → on_image im s p x esp r rx j z → holds_program im n z →
  (fd < 32)%nat → pfile x !! fd = Some (Z.of_nat f) → ftab s !! f = Some y → readable y = true → ftype y = FD_INODE → fino y = j →
  0 ≤ foffset y ≤ zlen content → 0 < buf < 4294967296 → 0 ≤ sz < 2147483648 → mapped (txt (fsw s)) buf (Z.to_nat sz) →
  let k := Z.min sz (zlen content - foffset y) in
  bwp (call SYS_READ [Z.of_nat fd; buf; sz]) s (λ c s', c = k ∧
    array (txt (fsw s')) buf (slice (Z.to_nat (foffset y)) (Z.to_nat k) content) ∧
    ftab s' = <[f := set_foffset (foffset y + k) y]> (ftab s)).
Proof.
  intros Hpg [Hu Hmt] Hh Hlt Hpf Hy Hr Ht Hi Ho Hbuf Hsz Hm k. pose proof (pg_size _ _ _ _ _ Hpg) as Hc.
  assert (length [Z.of_nat fd; buf; sz] ≤ 3)%nat as Hl by (cbn; lia).
  assert (Forall (λ v, 0 ≤ v < 4294967296) [Z.of_nat fd; buf; sz]) as Hw by (repeat (apply Forall_cons; split; [lia|]); constructor).
  eapply (user_call_ok devices fuel frame slash SYS_READ); [exact Hu|done|done|done|reflexivity|].
  pose proof (pushed_calling s p x esp SYS_READ _ Hu Hl Hw) as Hca. pose proof (pushed_user x esp SYS_READ _ s p Hu Hl) as Hu1.
  pose proof (pushed_fs x esp SYS_READ [Z.of_nat fd; buf; sz] s) as Hfs.
  set (s1 := pushed_args x esp SYS_READ [Z.of_nat fd; buf; sz] s) in *.
  destruct (program_bytes im l n name content (fsw s) r rx j z (foffset y) sz Hpg Hmt Hh) as (Hsize & Hfo & Hid & Hrb); [lia|lia|].
  assert (read_bytes (ino (fsw s1)) (din z) (foffset y) sz = slice (Z.to_nat (foffset y)) (Z.to_nat k) content) as Hrb1 by (by rewrite Hfs).
  assert (zlen (slice (Z.to_nat (foffset y)) (Z.to_nat k) content) = k) as Hk.
  { unfold zlen. rewrite length_slice; unfold k, zlen in *; lia. }
  eapply (sys_read_ok devices fuel s1 p x fd f buf sz y j z); try done; [lia| |by rewrite Hsize| |].
  - split; rewrite ?Hfs; [apply Hmt|apply Hh|exact Hid|exact Hfo].
  - rewrite Hrb1, Hfs. apply mapped_write. eapply mapped_weaken; [exact Hm|lia|]. unfold zlen in Hk. lia.
  - intros i Hsi. rewrite Hrb1, Hk. split; [exists x; split; [apply Hu1|done]|]. split; [apply Hu1|].
    split; [apply s32_small; unfold k; lia|]. split; [|done].
    match goal with |- array (txt (fsw (returned ?a ?b ?c))) _ _ => change (fsw (returned a b c)) with (fsw c) end.
    unfold fsw, put_ftab, put_w, put_rest. cbn [rest]. rewrite fs_put. cbn [txt]. apply array_write.
Qed.

(** ** Properties *)

(** C5: The file system from end to end: on a disk with an image of mkfs, a
    process that opens [/name], for a program [name] of at most 6144 bytes (the
    direct blocks of its inode), gets its lowest free descriptor, and reading from it stores the first bytes of the program that
    mkfs was given in the buffer, as many as fit. *)
Theorem open_read im l n name content s p x esp path r rx j y (fd f : nat) yf buf sz :
  program im l n name content → on_image im s p x esp r rx j y → inref rx < 1000000 → ¬ (idev y = ROOTDEV ∧ inum y = 2 + n) →
  path_at slash (txt (fsw s)) path name [] [] → 0 ≤ path < 4294967296 → apart esp path (zlen name + 2) → apart esp slash 2 →
  first_fd (pfile x) fd → (fd < 32)%nat → first_file (ftab s) f yf →
  0 < buf < 4294967296 → 0 ≤ sz < 2147483648 → mapped (txt (fsw s)) buf (Z.to_nat sz) →
  bwp (let> d := call SYS_OPEN [path; O_RDONLY] in
       let> c := call SYS_READ [d; buf; sz] in bret (d, c)) s (λ '(d, c) s',
    d = fd ∧ c = Z.min sz (zlen content) ∧ array (txt (fsw s')) buf (take (Z.to_nat c) content)).
Proof.
  intros Hpg Hon Href Hyn Hpath Hp0 Ha1 Ha2 Hfd Hlt Hf Hbuf Hsz Hm. rewrite bwp_bind.
  eapply bwp_mono; [eapply (call_open im l n name content s p x esp path r rx j y fd f yf); done|]. cbn beta.
  intros d s1 (-> & z & Hon1 & Hh & Hft & Htxt). rewrite bwp_bind.
  eapply bwp_mono.
  { eapply (call_read im l n name content s1 p _ esp r _ j z fd f _ buf sz Hpg Hon1 Hh Hlt); try done.
    - apply list_lookup_insert_eq. destruct Hfd as [Hfd _]. by apply lookup_lt_Some in Hfd.
    - rewrite Hft. apply list_lookup_insert_eq. destruct Hf as [Hf _]. by apply lookup_lt_Some in Hf.
    - done.
    - done.
    - done.
    - cbn. unfold zlen. lia.
    - rewrite Htxt. by apply mapped_write. }
  cbn beta. intros c s2 (-> & Harr & _). rewrite bwp_bret. cbn [foffset open_file] in *. rewrite Z.sub_0_r in *.
  split; [done|]. split; [done|]. exact Harr.
Qed.

(** C18: [open] keeps no reference to the inode it opens, so the next [open] of
    another file takes the same slot: the first descriptor then reads the
    bytes of the second file. *)
Theorem open_aliases im l n1 n2 name1 content1 name2 content2 s p x esp path1 path2 r rx j y (fd1 fd2 f1 f2 : nat) y1 y2 buf sz :
  program im l n1 name1 content1 → program im l n2 name2 content2 → n1 ≠ n2 →
  on_image im s p x esp r rx j y → inref rx < 999999 → ¬ (idev y = ROOTDEV ∧ inum y = 2 + n1) →
  path_at slash (txt (fsw s)) path1 name1 [] [] → 0 ≤ path1 < 4294967296 → apart esp path1 (zlen name1 + 2) →
  path_at slash (txt (fsw s)) path2 name2 [] [] → 0 ≤ path2 < 4294967296 → apart esp path2 (zlen name2 + 2) → apart esp slash 2 →
  first_fd (pfile x) fd1 → (fd1 < 32)%nat → first_fd (<[fd1 := Z.of_nat f1]> (pfile x)) fd2 → (fd2 < 32)%nat →
  first_file (ftab s) f1 y1 → first_file (<[f1 := open_file j O_RDONLY (set_fnref 1 y1)]> (ftab s)) f2 y2 →
  0 < buf < 4294967296 → 0 ≤ sz < 2147483648 → mapped (txt (fsw s)) buf (Z.to_nat sz) →
  bwp (let> d1 := call SYS_OPEN [path1; O_RDONLY] in
       let> d2 := call SYS_OPEN [path2; O_RDONLY] in
       let> c := call SYS_READ [d1; buf; sz] in bret (d1, d2, c)) s (λ '(d1, d2, c) s',
    d1 = fd1 ∧ d2 = fd2 ∧ c = Z.min sz (zlen content2) ∧ array (txt (fsw s')) buf (take (Z.to_nat c) content2)).
Proof.
  intros Hpg1 Hpg2 Hne Hon Href Hyn Hpath1 Hp1 Ha1 Hpath2 Hp2 Ha2 Has Hfd1 Hlt1 Hfd2 Hlt2 Hf1 Hf2 Hbuf Hsz Hm. rewrite bwp_bind.
  eapply bwp_mono; [eapply (call_open im l n1 name1 content1 s p x esp path1 r rx j y fd1 f1 y1); (done || lia)|]. cbn beta.
  intros d s1 (-> & z1 & Hon1 & Hh1 & Hft1 & Htxt1). rewrite bwp_bind.
  eapply bwp_mono.
  { eapply (call_open im l n2 name2 content2 s1 p _ esp path2 r _ j z1 fd2 f2 y2 Hpg2 Hon1); try done.
    - cbn. lia.
    - destruct Hh1 as (_ & Hn & _). intros [_ Hn']. lia.
    - rewrite Htxt1. apply path_pushed; [cbn; lia|done..].
    - by rewrite Hft1. }
  cbn beta. intros d s2 (-> & z2 & Hon2 & Hh2 & Hft2 & Htxt2). rewrite bwp_bind.
  assert (fd1 ≠ fd2) as Hdn.
  { intros <-. destruct Hfd2 as [Hb _]. destruct Hfd1 as [Ha _]. apply lookup_lt_Some in Ha.
    rewrite list_lookup_insert_eq in Hb by done. injection Hb as Hb. unfold NULL in Hb. lia. }
  assert (f1 ≠ f2) as Hfn.
  { intros <-. destruct Hf2 as (Hb & Hr0 & _). destruct Hf1 as [Ha _]. apply lookup_lt_Some in Ha.
    rewrite list_lookup_insert_eq in Hb by done. injection Hb as <-. done. }
  eapply bwp_mono.
  { eapply (call_read im l n2 name2 content2 s2 p _ esp r _ j z2 fd1 f1 _ buf sz Hpg2 Hon2 Hh2 Hlt1); try done.
    - cbn [pfile set_files]. rewrite list_lookup_insert_ne by done. apply list_lookup_insert_eq. destruct Hfd1 as [Ha _]. by apply lookup_lt_Some in Ha.
    - rewrite Hft2, list_lookup_insert_ne, Hft1 by done. apply list_lookup_insert_eq. destruct Hf1 as [Ha _]. by apply lookup_lt_Some in Ha.
    - done.
    - done.
    - done.
    - cbn. unfold zlen. lia.
    - rewrite Htxt2, Htxt1. by repeat apply mapped_write. }
  cbn beta. intros c s3 (-> & Harr & _). rewrite bwp_bret. cbn [foffset open_file] in *. rewrite Z.sub_0_r in *.
  split; [done|]. split; [done|]. split; [done|]. exact Harr.
Qed.
End calls.

(** ** Witnesses *)

#[local] Existing Instance demo_layout.
#[local] Existing Instance demo_text.

(** The disk with the image of Mkfs.v, whose programs are [init] and [a]; ["/"],
    ["/a"] and ["/init"] at 8, 16 and 32, the stack at 100, a buffer at 120 *)
Definition demo_mem : mem :=
  write 8 [47; 0] (write 16 [47; 97; 0] (write 32 [47; 105; 110; 105; 116; 0] (write 100 (replicate 32 0) ∅))).

Definition demo_world : DState (BState SimDrive) := mkDState (ino Mkfs.demo_state) demo_mem.

Definition demo_fds : list Z := replicate 32 NULL.

Definition free_entry : File := mkFile 0 0 0 FD_NONE 0 false false.

(** The trap frame is at 0. *)
Definition demo_user : KState (DState (BState SimDrive) * gmap Z Pipe) :=
  mkKState (mkLState true 0 true {[ 100 := new_lock ]}) (mkCpu [] 0 0 0 0) 0 [demo_proc demo_fds] 2 0 0x80200000
    (mkPmem (write 68 (le_bytes 4 100) (write 0 (replicate 76 0) ∅)) 0) [free_entry; free_entry] (demo_world, ∅).

Lemma demo_program (n : nat) name content : demo_programs !! n = Some (name, content) → program demo_image demo_programs n name content.
Proof.
  intros Hn. destruct n as [|[|[|n]]]; [injection Hn as <- <-..|discriminate Hn];
    (split; [exact demo_image_ok|exact demo_names|exact demo_nodup|discriminate|reflexivity|discriminate|discriminate]).
Qed.

Lemma demo_user_ok : user_ok demo_user 0 (demo_proc demo_fds) 100.
Proof.
  split.
  - split; [|reflexivity|reflexivity]. split; [split; [split; [discriminate|reflexivity]|intros H; discriminate H]|reflexivity|reflexivity].
  - apply mapped_write. rewrite <- (length_replicate 76 0). apply array_mapped, array_write.
  - apply (array_write 68 (le_bytes 4 100)).
  - split; discriminate.
  - do 3 apply mapped_write. intros i Hi. do 12 (destruct i as [|i]; [vm_compute; by eexists|]). lia.
Qed.

Lemma demo_on_image : on_image (BS := bcache_store (patience := 3)) demo_image demo_user 0 (demo_proc demo_fds) 100 0 Mkfs.demo_root 1 Mkfs.demo_slot.
Proof.
  split; [exact demo_user_ok|]. split.
  - exact demo_on_disk.
  - exact demo_root_loaded.
  - reflexivity.
  - split; discriminate.
  - reflexivity.
  - intros i Hi. assert (i = 0) as -> by lia. exists Mkfs.demo_root. split; [reflexivity|]. split; [discriminate|]. intros _. reflexivity.
Qed.

Lemma demo_strings p k : (p, k) ∈ [(8, [47]); (16, [47; 97]); (32, [47; 105; 110; 105; 116])] → cstr demo_mem p k.
Proof.
  rewrite !elem_of_cons. intros [[= -> ->]|[[= -> ->]|[[= -> ->]|Hin%not_elem_of_nil]]]; [..|done];
    (split; [|by repeat apply Forall_cons_2]); intros i b Hi;
    do 6 (destruct i as [|i]; [first [discriminate Hi|injection Hi as <-; vm_compute; reflexivity]|]); done.
Qed.

Lemma demo_path_a : path_at 8 (txt (fsw demo_user)) 16 [97] [] [].
Proof.
  split; [done|apply demo_strings; by left|apply demo_strings; right; by left| |by left|cbn; lia].
  split; [done|]. by intros [?|?%not_elem_of_nil]%elem_of_cons.
Qed.

Lemma demo_path_init : path_at 8 (txt (fsw demo_user)) 32 [105; 110; 105; 116] [] [].
Proof.
  split; [done|apply demo_strings; by left|apply demo_strings; right; right; by left| |by left|cbn; lia].
  split; [done|]. rewrite !elem_of_cons. intros [?|[?|[?|[?|?%not_elem_of_nil]]]]; done.
Qed.

Lemma demo_buffer : mapped (txt (fsw demo_user)) 120 (Z.to_nat 8).
Proof. do 3 apply mapped_write. intros i Hi. do 8 (destruct i as [|i]; [vm_compute; by eexists|]). cbn in Hi. lia. Qed.

Lemma demo_first_fd : first_fd demo_fds 0 ∧ first_fd (<[0%nat := 0]> demo_fds) 1.
Proof.
  split; split; [reflexivity|lia|reflexivity|]. intros k Hk. assert (k = 0%nat) as -> by lia. exists 0. split; [reflexivity|discriminate].
Qed.

Lemma demo_first_file f : first_file [free_entry; free_entry] 0 free_entry ∧
  first_file [open_file f O_RDONLY (set_fnref 1 free_entry); free_entry] 1 free_entry.
Proof.
  split; (split; [reflexivity|]; split; [reflexivity|]); [lia|]. intros k Hk. assert (k = 0%nat) as -> by lia.
  eexists. split; [reflexivity|discriminate].
Qed.

Lemma open_read_witness :
  let call := user_call (BS := bcache_store (patience := 3)) [] 0 [] 8 in
  bwp (let> d := call SYS_OPEN [16; O_RDONLY] in let> c := call SYS_READ [d; 120; 8] in bret (d, c)) demo_user
    (λ '(d, c) s', d = 0 ∧ c = 3 ∧ array (txt (fsw s')) 120 [1; 2; 3]).
Proof.
  intros call.
  pose proof (open_read (BS := bcache_store (patience := 3)) [] 0 [] 8 demo_image demo_programs 1 [97] [1; 2; 3] demo_user 0
    (demo_proc demo_fds) 100 16 0 Mkfs.demo_root 1 Mkfs.demo_slot 0 0 free_entry 120 8 (demo_program 1 _ _ eq_refl) demo_on_image eq_refl
    ltac:(intros [E _]; discriminate E) demo_path_a ltac:(lia) ltac:(left; discriminate) ltac:(left; discriminate)
    (proj1 demo_first_fd) ltac:(lia) (proj1 (demo_first_file 0)) ltac:(lia) ltac:(lia) demo_buffer) as Hw.
  eapply bwp_mono; [exact Hw|]. intros [d c] s' (-> & -> & Ha). split; [reflexivity|]. split; [reflexivity|exact Ha].
Defined.

(** Reading the descriptor of [/init] gives the bytes of [/a]. *)
Lemma open_aliases_witness :
  let call := user_call (BS := bcache_store (patience := 3)) [] 0 [] 8 in
  bwp (let> d1 := call SYS_OPEN [32; O_RDONLY] in let> d2 := call SYS_OPEN [16; O_RDONLY] in
       let> c := call SYS_READ [d1; 120; 8] in bret (d1, d2, c)) demo_user
    (λ '(d1, d2, c) s', d1 = 0 ∧ d2 = 1 ∧ c = 3 ∧ array (txt (fsw s')) 120 [1; 2; 3]).
Proof.
  intros call.
  pose proof (open_aliases (BS := bcache_store (patience := 3)) [] 0 [] 8 demo_image demo_programs 0 1 [105; 110; 105; 116]
    ((λ i : nat, i mod 251) <$> seq 0 600) [97] [1; 2; 3] demo_user 0 (demo_proc demo_fds) 100 32 16 0 Mkfs.demo_root 1 Mkfs.demo_slot
    0 1 0 1 free_entry free_entry 120 8 (demo_program 0 _ _ eq_refl) (demo_program 1 _ _ eq_refl) ltac:(discriminate) demo_on_image eq_refl
    ltac:(intros [E _]; discriminate E) demo_path_init ltac:(lia) ltac:(left; discriminate) demo_path_a ltac:(lia) ltac:(left; discriminate)
    ltac:(left; discriminate) (proj1 demo_first_fd) ltac:(lia) (proj2 demo_first_fd) ltac:(lia)
    (proj1 (demo_first_file 1)) (proj2 (demo_first_file 1)) ltac:(lia) ltac:(lia) demo_buffer) as Hw.
  eapply bwp_mono; [exact Hw|]. intros [[d1 d2] c] s' (-> & -> & -> & Ha).
  split; [reflexivity|]. split; [reflexivity|]. split; [reflexivity|exact Ha].
Defined.
