(* ===== verification/Ps2.v ===== *)
(** * kernel/driver/ps2.c and kbd.c: the PS/2 controller and the keyboard

    The controller is reached through the ports of the class [Ports]. The
    messages of [perror] and [dprintf] are not modelled. *)
From S2P Require Import Prelude Machine CMem CString Ide.

(** ** ps2.h, ps2.c *)

Definition KBP_STAT : Z := 0x64.
Definition KBP_DATA : Z := 0x60.
Definition KBP_CMD : Z := 0x64.
Definition KBS_OB : Z := 0x00.
Definition KBS_IB : Z := 0x01.

Definition CCB_P1_INT : Z := 0.
Definition CCB_P1_TRA : Z := 6.

Section ps2.
Context `{Ports D}.

(** [while (n--)]: the condition is on the value read from the port. *)
Fixpoint poll (n : nat) (port : Z) : M D unit :=
  match n with
  | O => done!
  | S n => let! v := inb port in if v =? 0 then poll n port else done!
  end.

(** The parentheses make the comparison the argument of [inb]. *)
Definition waiti : M D unit := poll 0x1000 (Z.b2z (Z.land KBP_STAT KBS_IB =? 0)).

Definition waito : M D unit := poll 0x100 (Z.b2z (negb (Z.land KBP_STAT KBS_OB =? 0))).

Definition ps2out (port val : Z) : M D unit := do! waito in outb port val.

Definition ps2in (port : Z) : M D Z := do! waiti in inb port.

Definition disable_p1 : M D unit := ps2out KBP_CMD 0xad.
Definition disable_p2 : M D unit := ps2out KBP_CMD 0xa7.
Definition enable_p1 : M D unit := ps2out KBP_CMD 0xae.
Definition enable_p2 : M D unit := ps2out KBP_CMD 0xa8.

Definition self_test1 : M D bool :=
  do! ps2out KBP_CMD 0xaa in let! v := ps2in KBP_DATA in ret (v =? 0x55).

Definition self_test2 : M D bool :=
  do! ps2out KBP_CMD 0xa9 in let! v := ps2in KBP_DATA in ret (v =? 0x00).

Definition flush_datap : M D unit := let! _ := ps2in KBP_DATA in done!.

Definition read_ccb : M D Z := do! ps2out KBP_CMD 0x20 in ps2in KBP_DATA.

Definition write_ccb (b : Z) : M D unit := do! ps2out KBP_CMD 0x60 in ps2out KBP_DATA b.

Definition ps2_reset : M D unit :=
  do! ps2out KBP_DATA 0xff in
  let! data := ps2in KBP_DATA in
  if negb (data =? 0xfa) then done! else
  let! data := ps2in KBP_DATA in
  if negb (data =? 0xaa) then done! else done!.

Definition echo_test : M D unit :=
  do! ps2out KBP_DATA 0xee in let! v := ps2in KBP_DATA in
  if negb (v =? 0xee) then done! else done!.

Definition scancode (code : Z) : M D Z :=
  if 0x3 <? code then ret 0 else
  do! ps2out KBP_DATA 0xf0 in
  let! data := ps2in KBP_DATA in
  if negb (data =? 0xfa) && negb (data =? 0xfe) then ret 0 else
  do! ps2out KBP_DATA code in
  let! data := ps2in KBP_DATA in
  if negb (data =? 0xfa) && negb (data =? 0xfe) then ret 0 else
  ps2in KBP_DATA.

Definition ps2_init : M D unit :=
  do! echo_test in
  do! disable_p1 in
  do! disable_p2 in
  do! flush_datap in
  let! b := read_ccb in
  do! write_ccb (u8 (Z.land b (Z.lnot (Z.lor (Z.shiftl 1 CCB_P1_INT) (Z.shiftl 1 CCB_P1_TRA))))) in
  let! _ := self_test1 in
  let! _ := self_test2 in
  let! _ := scancode 0x2 in
  do! enable_p1 in
  do! enable_p2 in
  let! b := read_ccb in
  write_ccb (u8 (Z.lor (Z.lor b (Z.shiftl 1 CCB_P1_INT)) (Z.shiftl 1 CCB_P1_TRA))).
End ps2.

(** *** The controller

    It may not answer, and [ps2_init] waits for a bounded time only. *)

(** The configuration byte, and whether the next byte that is written to the data
    port is its new value *)
Record Ctl := mkCtl { ccb : Z; awaits : bool }.

(** The commands: 0x60 sets the configuration byte; the ports are switched off and
    on by bits of it. What others write to the data port goes to the keyboard. *)
Definition ctl_write (p v : Z) (c : Ctl) : Ctl :=
  if p =? KBP_CMD then
    if v =? 0x60 then mkCtl (ccb c) true
    else if v =? 0xad then mkCtl (Z.setbit (ccb c) 4) false
    else if v =? 0xae then mkCtl (Z.clearbit (ccb c) 4) false
    else if v =? 0xa7 then mkCtl (Z.setbit (ccb c) 5) false
    else if v =? 0xa8 then mkCtl (Z.clearbit (ccb c) 5) false
    else mkCtl (ccb c) false
  else if p =? KBP_DATA then if awaits c then mkCtl v false else c
  else c.

(** Ports with an 8042 that can be used at any time; its self test may reset the
    configuration byte, and nothing is known of what is read. *)
Class Controller (D : Type) `{Ports D} := {
  ctl : D → Ctl;
  ctl_out : ∀ d p v, wp (outb p v) d (λ _ d',
    ctl d' = ctl_write p v (ctl d) ∨ p = KBP_CMD ∧ v = 0xaa ∧ awaits (ctl d') = false);
  ctl_in : ∀ d p, wp (inb p) d (λ _ d', ctl d' = ctl d);
}.

Section total.
Context {D : Type} `{Controller D}.

Definition returns {A} (m : M D A) : Prop := ∀ d, wp m d (λ _ _, True).

Lemma returns_ret {A} (a : A) : returns (ret a).
Proof. done. Qed.

Lemma returns_bind {A B} (m : M D A) (k : A → M D B) : returns m → (∀ a, returns (k a)) → returns (bind m k).
Proof. intros Hm Hk d. rewrite wp_bind. eapply wp_mono; [apply Hm|]. intros a d' _. apply Hk. Qed.

Lemma returns_if {A} (b : bool) (m k : M D A) : returns m → returns k → returns (if b then m else k).
Proof. by destruct b. Qed.

Lemma poll_returns n p : returns (poll n p).
Proof.
  induction n as [|n IH]; [apply returns_ret|]. apply returns_bind; [intros d; by eapply wp_mono; [apply ctl_in|]|]. intros v. by apply returns_if, returns_ret.
Qed.

Lemma ps2out_returns p v : returns (ps2out p v).
Proof. apply returns_bind; [apply poll_returns|]. intros _ d. by eapply wp_mono; [apply ctl_out|]. Qed.

Lemma ps2in_returns p : returns (ps2in p).
Proof. apply returns_bind; [apply poll_returns|]. intros _ d. by eapply wp_mono; [apply ctl_in|]. Qed.

(** The waiting loops only read. *)
Lemma poll_ok n p d (Q : unit → D → Prop) : (∀ d', ctl d' = ctl d → Q tt d') → wp (poll n p) d Q.
Proof.
  revert d. induction n as [|n IH]; intros d HQ; cbn [poll]; [rewrite wp_ret; by apply HQ|]. rewrite wp_bind.
  eapply wp_mono; [apply ctl_in|]. intros v d' Hd'. destruct (v =? 0); [apply IH; intros d2 Hd2|rewrite wp_ret]; apply HQ; congruence.
Qed.

Lemma ps2out_ok p v d (Q : unit → D → Prop) : v ≠ 0xaa ∨ p ≠ KBP_CMD → (∀ d', ctl d' = ctl_write p v (ctl d) → Q tt d') → wp (ps2out p v) d Q.
Proof.
  intros Hv HQ. unfold ps2out. rewrite wp_bind. apply poll_ok. intros d1 Hd1. eapply wp_mono; [apply ctl_out|]. intros [] d2 [Hd2|(-> & -> & _)].
  - apply HQ. by rewrite Hd2, Hd1.
  - by destruct Hv.
Qed.

(** [ps2_init] returns whatever is read; then the first port raises interrupts and
    translates the scan codes. *)
Lemma ps2_init_ok d : wp ps2_init d (λ _ d',
  Z.testbit (ccb (ctl d')) CCB_P1_INT = true ∧ Z.testbit (ccb (ctl d')) CCB_P1_TRA = true ∧ awaits (ctl d') = false).
Proof.
  assert (∀ A (m : M D A) k d (Q : unit → D → Prop), returns m → (∀ a d, wp (k a) d Q) → wp (bind m k) d Q) as Hseq.
  { intros A m k d0 Q Hm Hk. rewrite wp_bind. eapply wp_mono; [apply Hm|]. intros a d' _. apply Hk. }
  unfold ps2_init.
  do 11 (apply Hseq; [unfold echo_test, disable_p1, disable_p2, enable_p1, enable_p2, flush_datap, read_ccb, write_ccb, self_test1, self_test2, scancode;
    cbn iota; repeat first [apply returns_ret|apply ps2out_returns|apply ps2in_returns|apply returns_if|apply returns_bind; [|intros ?]]|intros ? ?]).
  apply Hseq; [unfold read_ccb; apply returns_bind; [apply ps2out_returns|intros; apply ps2in_returns]|]. intros b dd.
  unfold write_ccb. rewrite wp_bind. apply ps2out_ok; [by left|]. intros e1 He1. apply ps2out_ok; [by right|]. intros e2 He2.
  assert (∀ v c, ctl_write KBP_DATA v (ctl_write KBP_CMD 0x60 c) = mkCtl v false) as Hw by (by intros v []).
  rewrite He2, He1, Hw. cbn [ccb awaits]. unfold u8. change 256 with (2 ^ 8). rewrite !Z.mod_pow2_bits_low by (unfold CCB_P1_INT, CCB_P1_TRA; lia).
  rewrite !Z.lor_spec. change (Z.testbit (Z.shiftl 1 CCB_P1_INT) CCB_P1_INT) with true. change (Z.testbit (Z.shiftl 1 CCB_P1_TRA) CCB_P1_TRA) with true.
  by rewrite !orb_true_r.
Qed.
End total.

(** ** kbd.c *)

Definition SC_M_LCTL : Z := 0x1d.
Definition SC_M_LSHIFT : Z := 0x2a.
Definition SC_M_RSHIFT : Z := 0x36.
Definition SC_M_LALT : Z := 0x38.
Definition SC_M_CAPSLCK : Z := 0x3a.
Definition BREAK (b : Z) : Z := Z.lor b 0x80.

Definition SHIFT : Z := 1.
Definition CTL : Z := 2.
Definition ALT : Z := 4.
Definition CAPSLOCK : Z := 8.

(** A [char] array of 256 elements, from its initializer *)
Definition chars (l : list Z) : list Z := l ++ replicate (256 - length l) 0.

Definition normalmap : list Z := chars
  ([0; 0x1B] ++ bytes_of "1234567890-=" ++ [8; 9] ++
   bytes_of "qwertyuiop[]" ++ [10; 0] ++ bytes_of "as" ++
   bytes_of "dfghjkl;" ++ bytes_of "'`" ++ [0] ++ bytes_of "\zxcv" ++
   bytes_of "bnm,./" ++ [0] ++ bytes_of "*" ++
   [0] ++ bytes_of " " ++ [0; 0; 0; 0; 0; 0] ++
   [0; 0; 0; 0; 0; 0; 0] ++ bytes_of "789-456+1" ++
   bytes_of "230." ++ [0; 0; 0; 0] ++
   [10] ++ bytes_of "/").

Definition shiftmap : list Z := chars
  ([0; 0x1B] ++ bytes_of "!@#$%^&*()_+" ++ [8; 9] ++
   bytes_of "QWERTYUIOP{}" ++ [10; 0] ++ bytes_of "AS" ++
   bytes_of "DFGHJKL:" ++ [34] ++ bytes_of "~" ++ [0] ++ bytes_of "|ZXCV" ++
   bytes_of "BNM<>?" ++ [0] ++ bytes_of "*" ++
   [0] ++ bytes_of " " ++ [0; 0; 0; 0; 0; 0] ++
   [0; 0; 0; 0; 0; 0; 0] ++ bytes_of "789-456+1" ++
   bytes_of "230." ++ [0; 0; 0; 0]).

(** The make codes of the letters a to z *)
Definition letter_codes : list Z :=
  [0x1e; 0x30; 0x2e; 0x20; 0x12; 0x21; 0x22; 0x23; 0x17; 0x24; 0x25; 0x26; 0x32;
   0x31; 0x18; 0x19; 0x10; 0x13; 0x1f; 0x14; 0x16; 0x2f; 0x11; 0x2d; 0x15; 0x2c].

Definition capslockmap : list Z :=
  foldr (λ '(i, c) l, <[Z.to_nat i := c]> l) (replicate 256 0)
    (zip letter_codes (bytes_of "ABCDEFGHIJKLMNOPQRSTUVWXYZ")).

Definition BUF_SZ : Z := 256.

Record Kbd (D : Type) := mkKbd {
  modifier : Z;
  sc_data : list Z;
  sc_head : Z;
  sc_tail : Z;
  kport : D;
}.
Arguments mkKbd {D} modifier sc_data sc_head sc_tail kport.
Arguments modifier {D}. Arguments sc_data {D}. Arguments sc_head {D}. Arguments sc_tail {D}. Arguments kport {D}.

Section kbd.
Context `{Ports D}.
Notation St := (Kbd D).

Definition set_modifier (m : Z) : M St unit :=
  modify (λ s, mkKbd (u16 m) (sc_data s) (sc_head s) (sc_tail s) (kport s)).

Definition buffer_empty : M St bool := gets (λ s, sc_head s =? sc_tail s).

(** The remainder binds more tightly than the sum. *)
Definition buffer_full : M St bool := gets (λ s, sc_head s =? u32 (sc_tail s + 1 mod BUF_SZ)).

Definition buffer_put (v : Z) : M St bool :=
  let! full := buffer_full in
  if full : bool then ret false else
  do! modify (λ s, mkKbd (modifier s) (<[Z.to_nat (sc_tail s mod BUF_SZ) := v]> (sc_data s)) (sc_head s)
                     (u32 (sc_tail s + 1)) (kport s)) in
  ret true.

(** [Some]: the value was stored *)
Definition buffer_get : M St (option Z) :=
  let! empty := buffer_empty in
  if empty : bool then ret None else
  let! v := gets (λ s, sc_data s !! Z.to_nat (sc_head s mod BUF_SZ)) in
  let! v := need v in
  do! modify (λ s, mkKbd (modifier s) (sc_data s) (u32 (sc_head s + 1)) (sc_tail s) (kport s)) in
  ret (Some v).

Definition is_break_code (sc : Z) : bool := negb (Z.land sc 0x80 =? 0).

Definition update_modifier (sc : Z) : M St bool :=
  let! m := gets modifier in
  if (sc =? SC_M_LSHIFT) || (sc =? SC_M_RSHIFT) then do! set_modifier (Z.lor m SHIFT) in ret true
  else if sc =? SC_M_LCTL then do! set_modifier (Z.lor m CTL) in ret true
  else if sc =? SC_M_CAPSLCK then
    do! (if negb (Z.land m CAPSLOCK =? 0) then set_modifier (Z.land m (Z.lnot CAPSLOCK))
         else set_modifier (Z.lor m CAPSLOCK)) in ret true
  else if sc =? SC_M_LALT then do! set_modifier (Z.lor m ALT) in ret true
  else if (sc =? BREAK SC_M_LSHIFT) || (sc =? BREAK SC_M_RSHIFT) then
    do! set_modifier (Z.land m (Z.lnot SHIFT)) in ret true
  else if sc =? BREAK SC_M_LCTL then do! set_modifier (Z.land m (Z.lnot CTL)) in ret true
  else if sc =? BREAK SC_M_LALT then do! set_modifier (Z.land m (Z.lnot ALT)) in ret true
  else ret false.

(** A [Scancode] is not negative. *)
Definition kbd_translate (sc : Z) : M St Z :=
  let! b := update_modifier sc in
  if b : bool then ret (-1) else
  if is_break_code sc then ret (-1) else
  let! m := gets modifier in
  if negb (Z.land m SHIFT =? 0) then need (shiftmap !! Z.to_nat sc) else
  if negb (Z.land m CAPSLOCK =? 0) then need (capslockmap !! Z.to_nat sc) else
  need (normalmap !! Z.to_nat sc).

Definition kbd_ps2in (port : Z) : M St Z :=
  zoom kport (λ d s, mkKbd (modifier s) (sc_data s) (sc_head s) (sc_tail s) d) (ps2in port).

Definition kbd_drain : M St unit := let! _ := kbd_ps2in KBP_DATA in done!.

Definition kbd_read : M St unit :=
  let! data := kbd_ps2in KBP_DATA in
  let data := u8 data in
  if (data =? 0) || (data =? 0xff) then done! else
  let! _ := buffer_put data in done!.

Definition kbd_getscancode : M St Z :=
  let! v := buffer_get in
  ret (match v with Some value => value | None => -1 end).
End kbd.

(** ** The buffer *)

Section buffer.
Context {D : Type}.
Notation St := (Kbd D).

(** The scan codes that were put and not taken yet *)
Definition pending (s : St) : list Z := ring BUF_SZ (sc_data s) (sc_head s) (sc_tail s).

Record kbd_ok (s : St) : Prop := mk_kbd_ok {
  kb_data : zlen (sc_data s) = BUF_SZ;
  kb_ends : 0 ≤ sc_head s ≤ sc_tail s;
  kb_full : sc_tail s ≤ sc_head s + BUF_SZ;
}.

Lemma buffer_put_ok v (s : St) :
  kbd_ok s → sc_tail s < sc_head s + BUF_SZ → sc_tail s + 1 < 4294967296 →
  wp (buffer_put v) s (λ b s', b = true ∧ kbd_ok s' ∧ pending s' = pending s ++ [v] ∧
    sc_head s' = sc_head s ∧ sc_tail s' = sc_tail s + 1).
Proof.
  intros [Hl He Hf] Hroom Hmax.
  assert (u32 (sc_tail s + 1) = sc_tail s + 1) as Hu by (apply u32_small; lia).
  assert (buffer_full s = Ok false s) as Hnf.
  { unfold buffer_full, gets. change (1 mod BUF_SZ) with 1. rewrite Hu. rewrite (proj2 (Z.eqb_neq _ _)) by lia. done. }
  unfold buffer_put. rewrite wp_bind. eapply wp_ok; [exact Hnf|]. cbn beta iota. rewrite wp_bind, wp_modify, wp_ret. cbn.
  rewrite Hu. split; [done|]. split; [split; cbn; [|lia..]|].
  - unfold zlen in *. by rewrite length_insert.
  - split; [|done]. unfold pending. cbn. apply ring_push; [reflexivity|exact Hl|lia].
Qed.

Lemma buffer_get_ok (s : St) :
  kbd_ok s → sc_tail s < 4294967296 →
  wp kbd_getscancode s (λ r s', kbd_ok s' ∧ sc_tail s' = sc_tail s ∧
    match pending s with
    | [] => r = -1 ∧ s' = s
    | v :: l => r = v ∧ pending s' = l
    end).
Proof.
  intros [Hl He Hf] Hmax. unfold kbd_getscancode, buffer_get, buffer_empty. wp_steps.
  destruct (Z.eqb_spec (sc_head s) (sc_tail s)) as [Heq|Hne].
  - rewrite wp_ret. split; [done|]. split; [done|]. unfold pending. by rewrite ring_empty by lia.
  - destruct (ring_pop BUF_SZ eq_refl _ (sc_head s) (sc_tail s) Hl ltac:(lia)) as (b & Hb & Hq).
    wp_steps. eapply wp_need; [exact Hb|]. wp_steps.
    assert (u32 (sc_head s + 1) = sc_head s + 1) as Hu by (apply u32_small; lia).
    unfold pending. cbn. rewrite Hu, Hq. split; [|done]. split; cbn; [done|lia..].
Qed.

Definition put_all (vs : list Z) : M St unit := foldr (λ v k, let! _ := buffer_put v in k) done! vs.

Fixpoint get_all (n : nat) : M St (list Z) :=
  match n with
  | O => ret []
  | S n => let! v := kbd_getscancode in let! l := get_all n in ret (v :: l)
  end.

Lemma get_all_ok (s : St) :
  kbd_ok s → sc_tail s < 4294967296 → wp (get_all (S (length (pending s)))) s (λ l _, l = pending s ++ [-1]).
Proof.
  intros Hok Hmax. remember (pending s) as q eqn:Hq. revert s Hok Hmax Hq.
  induction q as [|v q IH]; intros s Hok Hmax Hq.
  - cbn [length get_all]. rewrite wp_bind. eapply wp_mono; [by apply buffer_get_ok|].
    intros r s' (_ & _ & Hr). rewrite <- Hq in Hr. destruct Hr as [-> ->]. done.
  - cbn [length]. change (get_all (S (S (length q)))) with
      (let! v := kbd_getscancode in let! l := get_all (S (length q)) in ret (v :: l)).
    rewrite wp_bind. eapply wp_mono; [by apply buffer_get_ok|].
    intros r s' (Hok' & Ht & Hr). rewrite <- Hq in Hr. destruct Hr as [-> Hq']. cbn beta. rewrite wp_bind.
    eapply wp_mono; [apply (IH s'); [done|by rewrite Ht|done]|]. intros l s2 ->. done.
Qed.

Lemma put_all_ok vs (s : St) :
  kbd_ok s → zlen (pending s) + zlen vs ≤ BUF_SZ → sc_tail s + zlen vs < 4294967296 →
  wp (put_all vs) s (λ _ s', kbd_ok s' ∧ pending s' = pending s ++ vs ∧ sc_tail s' = sc_tail s + zlen vs).
Proof.
  revert s. induction vs as [|v vs IH]; intros s Hok Hlen Hmax.
  { rewrite app_nil_r. unfold zlen. split_and!; [done|done|cbn; lia]. }
  assert (zlen (v :: vs) = zlen vs + 1) as Hl by (unfold zlen; cbn [length]; lia).
  assert (0 ≤ zlen vs) by (unfold zlen; lia). pose proof Hok as [Hd He Hf].
  unfold pending in Hlen at 1. rewrite length_ring in Hlen by lia.
  cbn [put_all foldr]. rewrite wp_bind. eapply wp_mono; [apply (buffer_put_ok v s Hok); lia|].
  intros b s' (_ & Hok' & Hp & Hh & Ht). cbn beta. eapply wp_mono; [apply (IH s' Hok')|].
  - unfold pending. rewrite length_ring by (destruct Hok'; lia). lia.
  - lia.
  - intros [] s2 (Hok2 & Hp2 & Ht2). split; [done|]. split; [by rewrite Hp2, Hp, <- app_assoc|lia].
Qed.

(** The keyboard buffer is a queue: up to [BUF_SZ] scan codes that the
    interrupt handler puts come out of [kbd_getscancode] in the order in which
    they were typed, after those that were there before, and then -1 says that
    there is no more. *)
Theorem kbd_queue vs (s : St) :
  kbd_ok s → zlen (pending s) + zlen vs ≤ BUF_SZ → sc_tail s + zlen vs < 4294967296 →
  wp (do! put_all vs in get_all (S (length (pending s ++ vs)))) s (λ l _, l = pending s ++ vs ++ [-1]).
Proof.
  intros Hok Hlen Hmax. rewrite wp_bind. eapply wp_mono; [by apply put_all_ok|].
  intros [] s' (Hok' & Hp & Ht). rewrite <- Hp. eapply wp_mono; [apply get_all_ok; [done|lia]|].
  intros l s2 ->. by rewrite Hp, <- app_assoc.
Qed.

(** ** Characters and modifiers *)

(** What the keys that are held down leave in [modifier] *)
Definition mods (sh ct al ca : bool) : Z := Z.b2z sh + 2 * Z.b2z ct + 4 * Z.b2z al + 8 * Z.b2z ca.

(** A key is held when its last event was a make code. *)
Definition held_after (makes breaks : list Z) (b : bool) (sc : Z) : bool :=
  if bool_decide (sc ∈ makes) then true else if bool_decide (sc ∈ breaks) then false else b.

Definition held (makes breaks : list Z) (l : list Z) : bool := foldl (held_after makes breaks) false l.

Definition locked (l : list Z) : bool := foldl (λ b sc, if sc =? SC_M_CAPSLCK then negb b else b) false l.

(** The key with the make code [sc] *)
Definition key_held (sc : Z) : list Z → bool := held [sc] [BREAK sc].

(** The flag of [modifier] for both shift keys: was their last event a make code? *)
Definition shift_flag : list Z → bool :=
  held [SC_M_LSHIFT; SC_M_RSHIFT] [BREAK SC_M_LSHIFT; BREAK SC_M_RSHIFT].

(** A shift key is released only when it is down, and they are never both down. *)
Definition one_shift (l : list Z) : Prop := ∀ k sc, l !! k = Some sc →
  (sc = BREAK SC_M_LSHIFT → key_held SC_M_LSHIFT (take k l) = true) ∧
  (sc = BREAK SC_M_RSHIFT → key_held SC_M_RSHIFT (take k l) = true) ∧
  key_held SC_M_LSHIFT (take (S k) l) && key_held SC_M_RSHIFT (take (S k) l) = false.

Lemma held_snoc makes breaks l sc : held makes breaks (l ++ [sc]) = held_after makes breaks (held makes breaks l) sc.
Proof. unfold held. by rewrite foldl_app. Qed.

Lemma mem2 (x a b : Z) : bool_decide (x ∈ [a; b]) = (x =? a) || (x =? b).
Proof.
  destruct (Z.eqb_spec x a), (Z.eqb_spec x b); cbn;
    (apply bool_decide_eq_true_2; set_solver) || (apply bool_decide_eq_false_2; set_solver).
Qed.

Lemma mem1 (x a : Z) : bool_decide (x ∈ [a]) = (x =? a).
Proof.
  destruct (Z.eqb_spec x a); cbn;
    (apply bool_decide_eq_true_2; set_solver) || (apply bool_decide_eq_false_2; set_solver).
Qed.

Lemma update_modifier_ok sc sh ct al ca (s : St) :
  modifier s = mods sh ct al ca →
  wp (update_modifier sc) s (λ _ s', modifier s' = mods
    (held_after [SC_M_LSHIFT; SC_M_RSHIFT] [BREAK SC_M_LSHIFT; BREAK SC_M_RSHIFT] sh sc)
    (held_after [SC_M_LCTL] [BREAK SC_M_LCTL] ct sc)
    (held_after [SC_M_LALT] [BREAK SC_M_LALT] al sc)
    (if sc =? SC_M_CAPSLCK then negb ca else ca)).
Proof.
  intros Hm. unfold update_modifier. rewrite wp_bind, wp_gets, Hm.
  unfold held_after. rewrite !mem2, !mem1.
  destruct (Z.eqb_spec sc SC_M_LSHIFT) as [->|]; [by destruct sh, ct, al, ca|].
  destruct (Z.eqb_spec sc SC_M_RSHIFT) as [->|]; [by destruct sh, ct, al, ca|].
  destruct (Z.eqb_spec sc SC_M_LCTL) as [->|]; [by destruct sh, ct, al, ca|].
  destruct (Z.eqb_spec sc SC_M_CAPSLCK) as [->|]; [by destruct sh, ct, al, ca|].
  destruct (Z.eqb_spec sc SC_M_LALT) as [->|]; [by destruct sh, ct, al, ca|].
  destruct (Z.eqb_spec sc (BREAK SC_M_LSHIFT)) as [->|]; [by destruct sh, ct, al, ca|].
  destruct (Z.eqb_spec sc (BREAK SC_M_RSHIFT)) as [->|]; [by destruct sh, ct, al, ca|].
  destruct (Z.eqb_spec sc (BREAK SC_M_LCTL)) as [->|]; [by destruct sh, ct, al, ca|].
  destruct (Z.eqb_spec sc (BREAK SC_M_LALT)) as [->|]; [by destruct sh, ct, al, ca|].
  done.
Qed.

Lemma translate_mods sc sh ct al ca (s : St) :
  0 ≤ sc < 256 → modifier s = mods sh ct al ca →
  wp (kbd_translate sc) s (λ _ s', modifier s' = mods
    (held_after [SC_M_LSHIFT; SC_M_RSHIFT] [BREAK SC_M_LSHIFT; BREAK SC_M_RSHIFT] sh sc)
    (held_after [SC_M_LCTL] [BREAK SC_M_LCTL] ct sc)
    (held_after [SC_M_LALT] [BREAK SC_M_LALT] al sc)
    (if sc =? SC_M_CAPSLCK then negb ca else ca)).
Proof.
  intros Hsc Hm. unfold kbd_translate. rewrite wp_bind. eapply wp_mono; [by apply update_modifier_ok|].
  intros b s' Hs'. cbn beta. destruct b; [done|]. destruct (is_break_code sc); [done|]. wp_steps.
  assert (∀ l : list Z, length l = 256%nat → ∀ Q : Z → St → Prop,
    (∀ r, Q r s') → wp (need (l !! Z.to_nat sc)) s' Q) as Hneed.
  { intros l Hl Q HQ. assert (is_Some (l !! Z.to_nat sc)) as [c Hc] by (apply lookup_lt_is_Some; lia).
    by eapply wp_need. }
  destruct (negb (Z.land (modifier s') SHIFT =? 0)); [by apply Hneed|].
  destruct (negb (Z.land (modifier s') CAPSLOCK =? 0)); by apply Hneed.
Qed.

Definition type_all (l : list Z) : M St unit := foldr (λ sc k, let! _ := kbd_translate sc in k) done! l.

Lemma type_all_ok l sh ct al ca (s : St) :
  Forall (λ sc, 0 ≤ sc < 256) l → modifier s = mods sh ct al ca →
  wp (type_all l) s (λ _ s', modifier s' = mods
    (foldl (held_after [SC_M_LSHIFT; SC_M_RSHIFT] [BREAK SC_M_LSHIFT; BREAK SC_M_RSHIFT]) sh l)
    (foldl (held_after [SC_M_LCTL] [BREAK SC_M_LCTL]) ct l)
    (foldl (held_after [SC_M_LALT] [BREAK SC_M_LALT]) al l)
    (foldl (λ b sc, if sc =? SC_M_CAPSLCK then negb b else b) ca l)).
Proof.
  intros Hl. revert sh ct al ca s. induction Hl as [|sc l Hsc _ IH]; intros sh ct al ca s Hm; [done|].
  cbn [type_all foldr foldl]. rewrite wp_bind. eapply wp_mono; [by apply translate_mods|].
  intros r s' Hs'. cbn beta. by apply IH.
Qed.

(** The flag is set only while one of the keys is down, and if they are used one
    at a time it says whether one is. *)
Lemma shift_flag_ok l :
  (shift_flag l = true → key_held SC_M_LSHIFT l || key_held SC_M_RSHIFT l = true) ∧
  (one_shift l → shift_flag l = key_held SC_M_LSHIFT l || key_held SC_M_RSHIFT l).
Proof.
  assert (∀ l sc, one_shift (l ++ [sc]) → one_shift l ∧ key_held SC_M_LSHIFT l && key_held SC_M_RSHIFT l = false) as Hpre.
  { intros k sc Hk. assert (one_shift k) as Hok.
    { intros i x Hi. pose proof (lookup_lt_Some _ _ _ Hi). specialize (Hk i x (lookup_app_l_Some _ _ _ _ Hi)). by rewrite !take_app_le in Hk by lia. }
    split; [done|]. induction k as [|x k _] using rev_ind; [done|]. assert ((k ++ [x]) !! length k = Some x) as Hx by (rewrite lookup_app_r, Nat.sub_diag; done).
    destruct (Hok (length k) x Hx) as (_ & _ & Hb). rewrite take_ge in Hb; [done|]. rewrite length_app. cbn. lia. }
  induction l as [|sc l [IH1 IH2]] using rev_ind; [done|].
  assert (one_shift (l ++ [sc]) → (sc = BREAK SC_M_LSHIFT → key_held SC_M_LSHIFT l = true) ∧ (sc = BREAK SC_M_RSHIFT → key_held SC_M_RSHIFT l = true)) as Hup.
  { intros Hl. destruct (Hl (length l) sc) as (H1 & H2 & _); [by rewrite lookup_app_r, Nat.sub_diag|]. by rewrite take_app_length in H1, H2. }
  assert (one_shift (l ++ [sc]) → shift_flag l = key_held SC_M_LSHIFT l || key_held SC_M_RSHIFT l ∧
    key_held SC_M_LSHIFT l && key_held SC_M_RSHIFT l = false) as Hone by (intros Hl; destruct (Hpre l sc Hl); auto).
  unfold shift_flag, key_held in *. rewrite !held_snoc. unfold held_after. rewrite !mem2, !mem1.
  set (a := held [SC_M_LSHIFT] _ l) in *. set (b := held [SC_M_RSHIFT] _ l) in *. set (f := held _ _ l) in *. clearbody a b f. clear Hpre IH2.
  destruct (Z.eqb_spec sc SC_M_LSHIFT) as [->|]; [by destruct a, b|].
  destruct (Z.eqb_spec sc SC_M_RSHIFT) as [->|]; [by destruct a, b|].
  destruct (Z.eqb_spec sc (BREAK SC_M_LSHIFT)) as [->|]; [|destruct (Z.eqb_spec sc (BREAK SC_M_RSHIFT)) as [->|]];
    (split; [done||auto|]); intros Hl; destruct (Hone Hl) as [Hf Hab], (Hup Hl) as [H1 H2]; cbn.
  - rewrite H1 in Hab by done. by destruct b.
  - rewrite H2 in Hab by done. by destruct a.
  - done.
Qed.

(** C35: After any sequence of key events, [modifier] says whether control and alt
    are down (the last event of the key was a make code) and whether caps lock
    was pressed an odd number of times. Its flag for shift says whether the
    last event of either shift key was a make code: when it is set one of the
    two keys is down, and when they are used one at a time it says whether one
    is down; that is not so when both were down ([shift_lost]). *)
Theorem kbd_modifiers l (s : St) :
  Forall (λ sc, 0 ≤ sc < 256) l → modifier s = 0 →
  wp (type_all l) s (λ _ s', ∃ sh,
    modifier s' = mods sh (key_held SC_M_LCTL l) (key_held SC_M_LALT l) (locked l) ∧
    (sh = true → key_held SC_M_LSHIFT l || key_held SC_M_RSHIFT l = true) ∧
    (one_shift l → sh = key_held SC_M_LSHIFT l || key_held SC_M_RSHIFT l)).
Proof.
  intros Hl Hm. eapply wp_mono; [by apply (type_all_ok l false false false false)|]. intros u s' Hs'.
  exists (shift_flag l). split; [exact Hs'|]. apply shift_flag_ok.
Qed.

(** With both shift keys down, releasing one clears the flag: the other is still
    held, but letters are small. *)
Theorem shift_lost (s : St) : modifier s = 0 →
  let l := [SC_M_LSHIFT; SC_M_RSHIFT; BREAK SC_M_RSHIFT] in
  key_held SC_M_LSHIFT l = true ∧
  wp (let! _ := type_all l in kbd_translate 0x1e) s (λ r s', r = 97 ∧ modifier s' = 0).
Proof. intros Hm. destruct s as [m d h t k]. cbn in Hm. subst m. split; [done|]. vm_compute. done. Qed.

(** The maps are consistent: with shift or caps lock a letter key gives the
    capital of what it gives without them. *)
Definition letter_ok (sh ct al ca : bool) (i : nat) : bool :=
  let sc := nth i letter_codes 0 in
  match kbd_translate sc (mkKbd (mods sh ct al ca) [] 0 0 tt) with
  | Ok r s => (r =? (if sh || ca then 65 else 97) + i) && (modifier s =? mods sh ct al ca)
  | _ => false
  end.

End buffer.

Definition no_char (ct al : bool) (n : nat) : bool :=
  bool_decide (Z.of_nat n ∈ letter_codes ++ [SC_M_LSHIFT; SC_M_RSHIFT; SC_M_LCTL; SC_M_LALT; SC_M_CAPSLCK]) ||
  match kbd_translate n (mkKbd (mods false ct al true) [] 0 0 tt) with Ok r _ => r =? 0 | _ => false end.

Lemma forall_below (P : nat → bool) n : forallb P (seq 0 n) = true → ∀ i, (i < n)%nat → P i = true.
Proof. intros Hs i Hi. rewrite forallb_forall in Hs. apply Hs, in_seq. lia. Qed.

(** A letter key gives its letter: capital exactly when shift is held or
    caps lock is on, whatever the other modifiers are. With caps lock, the keys
    that are not letters give the character 0. *)
Theorem kbd_letters :
  (∀ sh ct al ca i, (i < 26)%nat → letter_ok sh ct al ca i = true) ∧
  (∀ ct al n, (n < 128)%nat → no_char ct al n = true).
Proof.
  split.
  - intros sh ct al ca. apply forall_below. destruct sh, ct, al, ca; vm_compute; reflexivity.
  - intros ct al. apply forall_below. destruct ct, al; vm_compute; reflexivity.
Qed.

(** ** Examples *)

Definition demo_kbd : Kbd unit := mkKbd 0 (replicate 256 0) 250 250 tt.

Lemma kbd_queue_witness :
  wp (do! put_all [0x1e; 0x30; 0x2e; 0x20; 0x12; 0x21; 0x22] in get_all 8) demo_kbd
    (λ l _, l = [0x1e; 0x30; 0x2e; 0x20; 0x12; 0x21; 0x22; -1]).
Proof.
  apply (kbd_queue [0x1e; 0x30; 0x2e; 0x20; 0x12; 0x21; 0x22] demo_kbd).
  - by split; cbn.
  - vm_compute. done.
  - done.
Defined.

Lemma kbd_modifiers_witness :
  wp (type_all [SC_M_LSHIFT; 0x1e; SC_M_LCTL; BREAK SC_M_LSHIFT; SC_M_CAPSLCK]) demo_kbd
    (λ _ s', modifier s' = CTL + CAPSLOCK).
Proof.
  eapply wp_mono; [apply (kbd_modifiers _ demo_kbd)|].
  - repeat constructor; vm_compute; discriminate.
  - reflexivity.
  - intros u s' (sh & -> & _ & Hsh). rewrite Hsh; [vm_compute; reflexivity|].
    intros [|[|[|[|[|k]]]]] sc Hk; try discriminate Hk; injection Hk as <-; (split; [discriminate||reflexivity|split; [discriminate|reflexivity]]).
Defined.

(** The buffer is never full: after 257 scan codes that nobody fetched, the
    oldest is gone, and the newest comes first. *)
Theorem kbd_overrun :
  (do! put_all (Z.of_nat <$> seq 1 257) in get_all 2) demo_kbd =
  match (do! put_all (Z.of_nat <$> seq 1 257) in get_all 2) demo_kbd with
  | Ok _ s => Ok [257; 2] s
  | r => r
  end.
Proof. vm_compute. reflexivity. Qed.
