(* ===== verification/Pic.v ===== *)
(** * kernel/driver/pic.c: the interrupt controllers

    Two 8259A chips, reached through the ports of the class [Ports]; [Pics]
    states what their data sheet promises. The messages of [dprintf] are not
    modelled. *)
From S2P Require Import Prelude Machine Ide.

Definition PIC1_COMMAND : Z := 0x20.
Definition PIC1_DATA : Z := 0x21.
Definition PIC2_COMMAND : Z := 0xA0.
Definition PIC2_DATA : Z := 0xA1.

Definition ICW1_ICW4 : Z := 0x01.
Definition ICW1_INIT : Z := 0x10.
Definition ICW4_8086 : Z := 0x01.
Definition PIC_EOI : Z := 0x20.

(** kernel/trap/traps.h *)
Definition IRQ0 : Z := 0x20.
Definition MAP_IRQ (irq_line : Z) : Z := IRQ0 + irq_line.
Definition I_IRQ_TIMER : Z := 0x00.
Definition I_IRQ_KBD : Z := 0x01.
Definition I_IRQ_CASCADE : Z := 0x02.
Definition I_IRQ_COM2 : Z := 0x03.
Definition I_IRQ_COM1 : Z := 0x04.
Definition I_IRQ_LPT1 : Z := 0x05.
Definition I_IRQ_CMOS : Z := 0x08.
Definition I_IRQ_MOUSE : Z := 0x0C.
Definition I_IRQ_IDE : Z := 0x0E.
Definition I_IRQ_ERR : Z := 0x13.
Definition I_IRQ_SPURIOUS : Z := 0x1F.
Definition I_SYSCALL : Z := 0x40.

Section pic.
Context `{Ports D}.

Definition io_wait : M D unit := outb 0x80 0.

Definition pic_eoi : M D unit :=
  do! outb PIC2_COMMAND PIC_EOI in
  outb PIC1_COMMAND PIC_EOI.

Definition pic_remap (pic1_offset pic2_offset : Z) : M D unit :=
  let! p1 := inb PIC1_DATA in
  let! p2 := inb PIC2_DATA in
  do! outb PIC1_COMMAND (Z.lor ICW1_INIT ICW1_ICW4) in
  do! io_wait in
  do! outb PIC2_COMMAND (Z.lor ICW1_INIT ICW1_ICW4) in
  do! io_wait in
  do! outb PIC1_DATA (u8 pic1_offset) in
  do! io_wait in
  do! outb PIC2_DATA (u8 pic2_offset) in
  do! io_wait in
  do! outb PIC1_DATA 4 in
  do! io_wait in
  do! outb PIC2_DATA 2 in
  do! io_wait in
  do! outb PIC1_DATA ICW4_8086 in
  do! io_wait in
  do! outb PIC2_DATA ICW4_8086 in
  do! io_wait in
  do! outb PIC1_DATA p1 in
  outb PIC1_DATA p2.

Definition pic_disable : M D unit :=
  do! outb PIC1_DATA 0xff in
  outb PIC2_DATA 0xff.

(** The port of a line, and its number on the chip *)
Definition pic_line (irq_line : Z) : Z * Z :=
  if irq_line <? 8 then (PIC1_DATA, irq_line) else (PIC2_DATA, u8 (irq_line - 8)).

(** [1 << irq_line] of an [int]: the shift must stay below 32. *)
Definition line_bit (n : Z) : M D Z := if n <? 32 then ret (s32 (Z.shiftl 1 n)) else fault.

Definition pic_irq_mask (irq_line : Z) : M D unit :=
  let '(port, n) := pic_line irq_line in
  let! v := inb port in
  let! b := line_bit n in
  outb port (u8 (Z.lor v b)).

Definition pic_irq_unmask (irq_line : Z) : M D unit :=
  let '(port, n) := pic_line irq_line in
  let! v := inb port in
  let! b := line_bit n in
  outb port (u8 (Z.land v (Z.lnot b))).

Definition pic_init : M D unit :=
  do! pic_remap 0x20 (0x20 + 8) in
  do! pic_irq_unmask I_IRQ_TIMER in
  do! pic_irq_unmask I_IRQ_KBD in
  do! pic_irq_unmask I_IRQ_CASCADE in
  do! pic_irq_unmask I_IRQ_COM1 in
  do! pic_irq_unmask I_IRQ_ERR in
  do! pic_irq_unmask I_IRQ_IDE in
  pic_irq_unmask I_IRQ_SPURIOUS.
End pic.

(** ** Specifications *)

(** What a chip expects next on its data port *)
Inductive PicPhase := Operating | ExpectICW2 | ExpectICW3 | ExpectICW4.

(** A chip of the 8259A data sheet: the mask, the vector of its first line, the
    wiring of the cascade, and the lines in service (bits, line 0 first) *)
Record Chip := mkChip {
  imr : Z;
  base : Z;
  cascade : Z;
  isr : Z;
  phase : PicPhase;
}.

(** ICW1 (bit 4) starts the initialisation and clears the mask; 0x20 ends the
    interrupt with the highest priority. *)
Definition chip_command (v : Z) (c : Chip) : Chip :=
  if Z.testbit v 4 then mkChip 0 (base c) (cascade c) (isr c) ExpectICW2
  else if v =? PIC_EOI then mkChip (imr c) (base c) (cascade c) (Z.land (isr c) (isr c - 1)) (phase c)
  else c.

Definition chip_data (v : Z) (c : Chip) : Chip :=
  match phase c with
  | Operating => mkChip v (base c) (cascade c) (isr c) Operating
  | ExpectICW2 => mkChip (imr c) (Z.land v 0xf8) (cascade c) (isr c) ExpectICW3
  | ExpectICW3 => mkChip (imr c) (base c) v (isr c) ExpectICW4
  | ExpectICW4 => mkChip (imr c) (base c) (cascade c) (isr c) Operating
  end.

Definition port_write (p v : Z) (c : Chip * Chip) : Chip * Chip :=
  if p =? PIC1_COMMAND then (chip_command v c.1, c.2)
  else if p =? PIC1_DATA then (chip_data v c.1, c.2)
  else if p =? PIC2_COMMAND then (c.1, chip_command v c.2)
  else if p =? PIC2_DATA then (c.1, chip_data v c.2)
  else c.

(** The master and the slave of the machine *)
Class Pics (D : Type) `{Ports D} := {
  chips : D → Chip * Chip;
  pic_out : ∀ d p v, p ∈ [PIC1_COMMAND; PIC1_DATA; PIC2_COMMAND; PIC2_DATA; 0x80] →
    wp (outb p v) d (λ _ d', chips d' = port_write p v (chips d));
  pic_in1 : ∀ d, wp (inb PIC1_DATA) d (λ v d', v = imr (chips d).1 ∧ chips d' = chips d);
  pic_in2 : ∀ d, wp (inb PIC2_DATA) d (λ v d', v = imr (chips d).2 ∧ chips d' = chips d);
}.

(** Does the line [i] of the chip reach the processor? *)
Definition line_on (c : Chip) (i : Z) : bool := negb (Z.testbit (imr c) i).

(** The vector of the interrupt line [i] of the machine, if it is on: the lines
    from 8 on are those of the slave, which needs the line 2 of the master. *)
Definition irq_vector (c : Chip * Chip) (i : Z) : option Z :=
  if i <? 8 then if line_on c.1 i then Some (base c.1 + i) else None
  else if line_on c.1 2 && line_on c.2 (i - 8) then Some (base c.2 + (i - 8)) else None.

Record operating (c : Chip * Chip) : Prop := mk_operating {
  op_phase : phase c.1 = Operating ∧ phase c.2 = Operating;
  op_imr : is_byte (imr c.1) ∧ is_byte (imr c.2);
}.

Definition set_imr (v : Z) (c : Chip) : Chip := mkChip v (base c) (cascade c) (isr c) (phase c).

(** ** Lemmas *)

(** A fact about bytes and bit numbers, checked for each of them *)
Lemma bytes_bits (P : Z → Z → bool) v n :
  forallb (λ v, forallb (P v) (seqZ 0 31)) (seqZ 0 256) = true → is_byte v → 0 ≤ n < 31 → P v n = true.
Proof.
  intros HP Hv Hn. rewrite forallb_forall in HP. specialize (HP v).
  rewrite forallb_forall in HP. apply HP; apply list_elem_of_In, elem_of_seqZ; unfold is_byte in Hv; lia.
Qed.

Lemma unmask_byte v n : is_byte v → 0 ≤ n < 31 →
  u8 (Z.land v (Z.lnot (s32 (Z.shiftl 1 n)))) = Z.clearbit v n ∧ is_byte (Z.clearbit v n).
Proof.
  intros Hv Hn.
  assert ((u8 (Z.land v (Z.lnot (s32 (Z.shiftl 1 n)))) =? Z.clearbit v n) && (0 <=? Z.clearbit v n) &&
    (Z.clearbit v n <? 256) = true) as [[He%Z.eqb_eq Hl]%andb_prop Hu]%andb_prop.
  { apply (bytes_bits (λ v n, (u8 (Z.land v (Z.lnot (s32 (Z.shiftl 1 n)))) =? Z.clearbit v n) &&
      (0 <=? Z.clearbit v n) && (Z.clearbit v n <? 256))); [vm_compute; reflexivity|done..]. }
  unfold is_byte. lia.
Qed.

Lemma mask_byte v n : is_byte v → 0 ≤ n < 8 →
  u8 (Z.lor v (s32 (Z.shiftl 1 n))) = Z.setbit v n ∧ is_byte (Z.setbit v n).
Proof.
  intros Hv Hn.
  assert ((7 <? n) || (u8 (Z.lor v (s32 (Z.shiftl 1 n))) =? Z.setbit v n) && (0 <=? Z.setbit v n) &&
    (Z.setbit v n <? 256) = true) as Hb.
  { apply (bytes_bits (λ v n, (7 <? n) || (u8 (Z.lor v (s32 (Z.shiftl 1 n))) =? Z.setbit v n) &&
      (0 <=? Z.setbit v n) && (Z.setbit v n <? 256))); [vm_compute; reflexivity|done|lia]. }
  rewrite (proj2 (Z.ltb_ge 7 n)) in Hb by lia.
  apply andb_prop in Hb as [[He%Z.eqb_eq Hl]%andb_prop Hu]. unfold is_byte. lia.
Qed.

Lemma below_16 (P : Z → Prop) :
  Forall P [0; 1; 2; 3; 4; 5; 6; 7; 8; 9; 10; 11; 12; 13; 14; 15] → ∀ i, 0 ≤ i < 16 → P i.
Proof. rewrite Forall_forall. intros HP i Hi. apply HP. change (i ∈ seqZ 0 16). apply elem_of_seqZ. lia. Qed.

Section lemmas.
Context `{Pics D}.

(** A step at a port of the chips *)
Lemma wp_pic_out d p v (Q : unit → D → Prop) :
  p ∈ [PIC1_COMMAND; PIC1_DATA; PIC2_COMMAND; PIC2_DATA; 0x80] →
  (∀ d', chips d' = port_write p v (chips d) → Q tt d') → wp (outb p v) d Q.
Proof. intros Hp HQ. wp_apply (pic_out d p v Hp). intros [] d'. apply HQ. Qed.

Lemma wp_io_wait d (Q : unit → D → Prop) : (∀ d', chips d' = chips d → Q tt d') → wp io_wait d Q.
Proof. intros HQ. apply wp_pic_out; [repeat (by left) || right|]. exact HQ. Qed.

(** The masks with the line [i] changed by [f] *)
Definition on_line (f : Z → Z → Z) (i : Z) (c : Chip * Chip) : Chip * Chip :=
  if i <? 8 then (set_imr (f (imr c.1) i) c.1, c.2) else (c.1, set_imr (f (imr c.2) (i - 8)) c.2).

Lemma unmask_ok d i (Q : unit → D → Prop) : operating (chips d) → 0 ≤ i < 39 →
  (∀ d', chips d' = on_line Z.clearbit i (chips d) → operating (chips d') → Q tt d') → wp (pic_irq_unmask i) d Q.
Proof.
  intros [[Hp1 Hp2] [Hi1 Hi2]] Hi HQ. unfold pic_irq_unmask, pic_line, line_bit.
  destruct (chips d) as [c1 c2] eqn:Hc. cbn [fst snd] in *.
  destruct (Z.ltb_spec i 8) as [Hlt|Hge].
  - rewrite wp_bind. wp_apply pic_in1. intros v d1 [-> Hd1]. rewrite Hc in *. rewrite (proj2 (Z.ltb_lt _ _)), wp_bind, wp_ret by lia.
    destruct (unmask_byte (imr c1) i Hi1 ltac:(lia)) as [He Hb]. cbn [fst].
    apply wp_pic_out; [right; by left|]. intros d' Hd'. rewrite Hd1, He in Hd'. unfold port_write, chip_data in Hd'.
    cbn [fst snd] in Hd'. rewrite Hp1 in Hd'. unfold on_line in HQ. rewrite (proj2 (Z.ltb_lt i 8)) in HQ by lia. cbn [fst snd] in HQ.
    apply HQ; [rewrite Hd'; unfold set_imr; by rewrite Hp1|]. rewrite Hd'. by split.
  - rewrite wp_bind. wp_apply pic_in2. intros v d1 [-> Hd1]. rewrite Hc in *. rewrite u8_small by (unfold is_byte; lia).
    rewrite (proj2 (Z.ltb_lt (i - 8) 32)), wp_bind, wp_ret by lia.
    destruct (unmask_byte (imr c2) (i - 8) Hi2 ltac:(lia)) as [He Hb]. cbn [snd].
    apply wp_pic_out; [do 3 right; by left|]. intros d' Hd'. rewrite Hd1, He in Hd'. unfold port_write, chip_data in Hd'.
    cbn [fst snd] in Hd'. rewrite Hp2 in Hd'. unfold on_line in HQ. rewrite (proj2 (Z.ltb_ge i 8)) in HQ by lia. cbn [fst snd] in HQ.
    apply HQ; [rewrite Hd'; unfold set_imr; by rewrite Hp2|]. rewrite Hd'. by split.
Qed.

Lemma mask_ok d i (Q : unit → D → Prop) : operating (chips d) → 0 ≤ i < 16 →
  (∀ d', chips d' = on_line Z.setbit i (chips d) → operating (chips d') → Q tt d') → wp (pic_irq_mask i) d Q.
Proof.
  intros [[Hp1 Hp2] [Hi1 Hi2]] Hi HQ. unfold pic_irq_mask, pic_line, line_bit, on_line in *.
  destruct (chips d) as [c1 c2] eqn:Hc. cbn [fst snd] in *.
  destruct (Z.ltb_spec i 8) as [Hlt|Hge]; rewrite wp_bind.
  - wp_apply pic_in1. intros v d1 [-> Hd1]. rewrite Hc in *. rewrite (proj2 (Z.ltb_lt _ _)), wp_bind, wp_ret by lia.
    destruct (mask_byte (imr c1) i Hi1 ltac:(lia)) as [He Hb]. cbn [fst].
    apply wp_pic_out; [right; by left|]. intros d' Hd'. rewrite Hd1, He in Hd'. unfold port_write, chip_data in Hd'.
    cbn [fst snd] in Hd'. rewrite Hp1 in Hd'.
    apply HQ; [rewrite Hd'; unfold set_imr; by rewrite Hp1|]. rewrite Hd'. by split.
  - wp_apply pic_in2. intros v d1 [-> Hd1]. rewrite Hc in *. rewrite u8_small by (unfold is_byte; lia).
    rewrite (proj2 (Z.ltb_lt (i - 8) 32)), wp_bind, wp_ret by lia.
    destruct (mask_byte (imr c2) (i - 8) Hi2 ltac:(lia)) as [He Hb]. cbn [snd].
    apply wp_pic_out; [do 3 right; by left|]. intros d' Hd'. rewrite Hd1, He in Hd'. unfold port_write, chip_data in Hd'.
    cbn [fst snd] in Hd'. rewrite Hp2 in Hd'.
    apply HQ; [rewrite Hd'; unfold set_imr; by rewrite Hp2|]. rewrite Hd'. by split.
Qed.

(** The mask of the line [i], and its bit there *)
Definition line_masked (c : Chip * Chip) (i : Z) : bool :=
  if i <? 8 then Z.testbit (imr c.1) i else Z.testbit (imr c.2) (i - 8).

Lemma vector_bit c i : irq_vector c i ≠ None → line_masked c i = false.
Proof.
  unfold irq_vector, line_masked, line_on. destruct (i <? 8); [by destruct (Z.testbit _ i)|].
  destruct (Z.testbit (imr c.2) (i - 8)); [by rewrite andb_false_r|done].
Qed.

(** Switching a line on leaves the lines on that are on. *)
Lemma vector_unmask c i j v : 0 ≤ i < 16 → 0 ≤ j < 16 → irq_vector c j = Some v → irq_vector (on_line Z.clearbit i c) j = Some v.
Proof.
  intros Hi Hj Hv. assert (∀ k n x, 0 ≤ n → 0 ≤ x → Z.testbit k x = false → Z.testbit (Z.clearbit k n) x = false) as Hb.
  { intros k n x Hn Hx Hk. rewrite Z.clearbit_eqb by lia. by rewrite Hk. }
  unfold irq_vector, on_line, line_on in *. destruct (Z.ltb_spec i 8), (Z.ltb_spec j 8); cbn [fst snd imr base set_imr]; try done.
  - destruct (Z.testbit (imr c.1) j) eqn:E; [done|]. by rewrite Hb by (lia || done).
  - destruct (Z.testbit (imr c.1) 2) eqn:E; [done|]. by rewrite Hb by (lia || done).
  - destruct (Z.testbit (imr c.1) 2); [done|]. destruct (Z.testbit (imr c.2) (j - 8)) eqn:E; [done|]. by rewrite Hb by (lia || done).
Qed.

Lemma vector_masked c i : 0 ≤ i < 16 → irq_vector (on_line Z.setbit i c) i = None.
Proof.
  intros Hi. unfold irq_vector, on_line, line_on. destruct (Z.ltb_spec i 8); cbn [fst snd imr set_imr].
  - by rewrite Z.setbit_eqb, Z.eqb_refl by lia.
  - by rewrite (Z.setbit_eqb _ (i - 8)), Z.eqb_refl, andb_false_r by lia.
Qed.

Lemma vector_other c i j : 0 ≤ i < 16 → 0 ≤ j < 16 → j ≠ i → i ≠ 2 →
  irq_vector (on_line Z.setbit i c) j = irq_vector c j.
Proof.
  intros Hi Hj Hne H2. unfold irq_vector, on_line, line_on.
  destruct (Z.ltb_spec i 8), (Z.ltb_spec j 8); cbn [fst snd imr set_imr base]; rewrite ?Z.setbit_eqb by lia;
    rewrite ?(proj2 (Z.eqb_neq _ _)) by lia; done.
Qed.

Lemma on_line_undo c i : 0 ≤ i → line_masked c i = false → on_line Z.clearbit i (on_line Z.setbit i c) = c.
Proof.
  assert (∀ v n, 0 ≤ n → Z.testbit v n = false → Z.clearbit (Z.setbit v n) n = v) as Hundo.
  { intros v n Hn Hv. apply Z.bits_inj'. intros k Hk. rewrite Z.clearbit_eqb, Z.setbit_eqb by lia.
    destruct (Z.eqb_spec n k) as [->|]; cbn; [by rewrite Hv|by rewrite andb_true_r]. }
  unfold line_masked, on_line. intros Hi Hm. destruct c as [[] []].
  destruct (Z.ltb_spec i 8); unfold set_imr; cbn [fst snd imr base cascade isr phase] in *; by rewrite Hundo by (done || lia).
Qed.

(** The chips after the initialisation words *)
Definition remapped (o1 o2 : Z) (c : Chip * Chip) : Chip * Chip :=
  (mkChip (imr c.2) (Z.land o1 0xf8) 4 (isr c.1) Operating, mkChip 0 (Z.land o2 0xf8) 2 (isr c.2) Operating).

Ltac pic_write := rewrite wp_bind; apply wp_pic_out; [repeat first [by left|right]|]; intros ? ?.
Ltac pic_wait := rewrite wp_bind; apply wp_io_wait; intros ? ?.

Lemma remap_ok d o1 o2 (Q : unit → D → Prop) : operating (chips d) → is_byte o1 → is_byte o2 →
  (∀ d', chips d' = remapped o1 o2 (chips d) → Q tt d') → wp (pic_remap o1 o2) d Q.
Proof.
  intros [[Hp1 Hp2] [Hi1 Hi2]] Ho1 Ho2 HQ. unfold pic_remap. rewrite !u8_small by done.
  rewrite wp_bind. wp_apply pic_in1. intros v d1 [-> Hd1]. rewrite wp_bind. wp_apply pic_in2. intros v d2 [-> Hd2].
  do 8 (pic_write; pic_wait). pic_write. apply wp_pic_out; [right; by left|]. intros e He. apply HQ.
  rewrite He. repeat match goal with H : chips ?x = _ |- context [chips ?x] => rewrite H end.
  destruct (chips d) as [c1 c2]. cbn [fst snd] in *. reflexivity.
Qed.
End lemmas.

(** ** Properties *)

Section properties.
Context `{Pics D}.

(** After [pic_init] the chips are initialised with the vectors from 0x20
    and 0x28 on; all lines of the slave are on, and a line of the master is on
    when it is one of 0, 1, 2 and 4 or was on at the {e slave}, whose old mask
    is what the code restores to the master. *)
Theorem pic_init_lines d c :
  chips d = c → operating c → wp pic_init d (λ _ d', operating (chips d') ∧
    (∀ i, 0 ≤ i < 16 → irq_vector (chips d') i =
      if decide (i ∈ [0; 1; 2; 4]) then Some (32 + i)
      else if i <? 8 then if line_on c.2 i then Some (32 + i) else None
      else Some (32 + i))).
Proof.
  intros <- Hop. unfold pic_init. rewrite wp_bind.
  apply remap_ok; [done|by unfold is_byte..|]. intros d0 Hd0.
  assert (operating (chips d0)) as Hop0 by (rewrite Hd0; split; [done|split; [apply Hop|by unfold is_byte]]).
  do 6 (rewrite wp_bind; apply unmask_ok; [done|by unfold I_IRQ_TIMER, I_IRQ_KBD, I_IRQ_CASCADE, I_IRQ_COM1, I_IRQ_ERR, I_IRQ_IDE; lia|]; intros ? ? ?).
  apply unmask_ok; [done|by unfold I_IRQ_SPURIOUS; lia|]. intros e He Hope. split; [done|].
  set (c := chips d) in *.
  assert (chips e = (mkChip (Z.clearbit (Z.clearbit (Z.clearbit (Z.clearbit (imr c.2) 0) 1) 2) 4) 32 4 (isr c.1) Operating,
    mkChip 0 40 2 (isr c.2) Operating)) as Hce.
  { rewrite He. repeat match goal with E : chips ?x = _ |- context [chips ?x] => rewrite E end. reflexivity. }
  intros i Hi. rewrite Hce. unfold irq_vector, line_on. cbn [fst snd imr base].
  rewrite !Z.clearbit_eqb, Z.testbit_0_l by lia.
  revert i Hi. apply below_16. repeat (apply Forall_cons; split; [cbn; rewrite ?andb_true_r, ?andb_false_r; try done|]). apply Forall_nil_2.
Qed.

(** [pic_irq_mask] turns a line that is on off, and no other line unless it
    is the one of the cascade; [pic_irq_unmask] brings the chips back to where
    they were. *)
Theorem pic_mask_unmask d i : operating (chips d) → 0 ≤ i < 16 → i ≠ 2 → irq_vector (chips d) i ≠ None →
  wp (pic_irq_mask i) d (λ _ d1, irq_vector (chips d1) i = None ∧
    (∀ j, 0 ≤ j < 16 → j ≠ i → irq_vector (chips d1) j = irq_vector (chips d) j) ∧
    wp (pic_irq_unmask i) d1 (λ _ d2, chips d2 = chips d)).
Proof.
  intros Hop Hi Hi2 Hon. apply mask_ok; [done..|]. intros d1 Hd1 Hop1.
  rewrite Hd1. split; [by apply vector_masked|]. split; [intros j Hj Hne; by apply vector_other|].
  apply unmask_ok; [done|lia|]. intros d2 -> _. rewrite Hd1. apply on_line_undo; [lia|by apply vector_bit].
Qed.
End properties.

(** ** Witnesses *)

(** The two chips by themselves, as they are after a reset: with all lines on *)
Definition demo_chips : Chip * Chip := (mkChip 0 0 0 0 Operating, mkChip 0xb8 0 0 0 Operating).

#[local] Instance chip_ports : Ports (Chip * Chip) := {|
  inb := λ p, let! c := gets id in ret (if p =? PIC1_DATA then imr c.1 else imr c.2);
  outb := λ p v, modify (port_write p v);
  insl := λ _ _, ret [];
  outsl := λ _ _, done!;
  irq := ret false;
|}.

#[local] Instance chip_pics : Pics (Chip * Chip).
Proof. refine {| chips := id |}; by intros. Defined.

(** With the mask 0xb8 at the slave, the lines 3, 4, 5 and 7 of the master end
    up off; 4 is turned on again. *)
Lemma pic_init_lines_witness :
  wp pic_init demo_chips (λ _ d', irq_vector (chips d') 4 = Some 36 ∧ irq_vector (chips d') 3 = None ∧
    irq_vector (chips d') 6 = Some 38 ∧ irq_vector (chips d') 14 = Some 46).
Proof.
  eapply wp_mono; [apply (pic_init_lines demo_chips demo_chips); [done|by split]|].
  intros [] d' [_ Hd']. rewrite !Hd' by lia. done.
Defined.


Lemma pic_mask_unmask_witness :
  wp (pic_irq_mask 14) (mkChip 0 32 4 0 Operating, mkChip 0 40 2 0 Operating) (λ _ d1, irq_vector (chips d1) 14 = None ∧
    irq_vector (chips d1) 8 = Some 40).
Proof.
  eapply wp_mono; [apply (pic_mask_unmask (mkChip 0 32 4 0 Operating, mkChip 0 40 2 0 Operating) 14); [by split|lia|lia|done]|].
  intros [] d' (H1 & H2 & _). split; [done|]. by rewrite H2 by lia.
Defined.
