(* ===== verification/Uart.v ===== *)
(** * kernel/driver/uart.c: the serial lines

    A character is a signed [char]. The line itself is reached through the
    ports; [Serial] states what the 16550 documentation promises about them. *)
From S2P Require Import Prelude Machine CMem CString CStdlib Fmt Ide.

Definition COM1 : Z := 0x3f8.
Definition COM2 : Z := 0x2F8.
Definition BUF_SZ : Z := 256.

Record UArtBuffer := mkUArtBuffer {
  udata : list Z;
  head : Z;
  tail : Z;
}.

Record Uart (D : Type) := mkUart {
  com1_buffer : UArtBuffer;
  com2_buffer : UArtBuffer;
  uport : D;
}.
Arguments mkUart {D} com1_buffer com2_buffer uport.
Arguments com1_buffer {D}. Arguments com2_buffer {D}. Arguments uport {D}.

Section uart.
Context `{Ports D}.
Notation St := (Uart D).

(** The polls a busy loop on the line status register may take *)
Context (patience : nat).

Definition with_port {A} (m : M D A) : M St A :=
  zoom uport (λ d s, mkUart (com1_buffer s) (com2_buffer s) d) m.

(** [*get_buffer(com)]; the null pointer is dereferenced. *)
Definition get_buffer (com : Z) : M St UArtBuffer :=
  if com =? COM1 then gets com1_buffer else if com =? COM2 then gets com2_buffer else fault.

Definition set_buffer (com : Z) (b : UArtBuffer) : M St unit :=
  if com =? COM1 then modify (λ s, mkUart b (com2_buffer s) (uport s))
  else if com =? COM2 then modify (λ s, mkUart (com1_buffer s) b (uport s)) else fault.

Definition buffer_empty (com : Z) : M St bool :=
  let! b := get_buffer com in ret (head b =? tail b).

(** The remainder binds more tightly than the sum. *)
Definition buffer_full (com : Z) : M St bool :=
  let! b := get_buffer com in ret (head b =? u32 (tail b + 1 mod BUF_SZ)).

Definition buffer_put (com value : Z) : M St bool :=
  let! b := get_buffer com in
  let! full := buffer_full com in
  if full : bool then ret false else
  do! set_buffer com (mkUArtBuffer (<[Z.to_nat (tail b mod BUF_SZ) := value]> (udata b)) (head b) (u32 (tail b + 1))) in
  ret true.

Definition buffer_get (com : Z) : M St (option Z) :=
  let! b := get_buffer com in
  let! empty := buffer_empty com in
  if empty : bool then ret None else
  let! v := need (udata b !! Z.to_nat (head b mod BUF_SZ)) in
  do! set_buffer com (mkUArtBuffer (udata b) (u32 (head b + 1)) (tail b)) in
  ret (Some v).

Definition init_serial (com : Z) : M D bool :=
  do! outb (com + 1) 0x00 in
  do! outb (com + 3) 0x80 in
  do! outb (com + 0) 0x03 in
  do! outb (com + 1) 0x00 in
  do! outb (com + 3) 0x03 in
  do! outb (com + 2) 0xC7 in
  do! outb (com + 4) 0x0B in
  do! outb (com + 4) 0x1E in
  do! outb (com + 0) 0xAE in
  let! v := inb (com + 0) in
  if negb (v =? 0xAE) then ret false else
  do! outb (com + 1) 0x01 in
  do! outb (com + 4) 0x0F in
  ret true.

Definition uart_init (com : Z) : M D unit :=
  let! ok := init_serial com in
  if negb ok then panic "init serial" else done!.

Definition is_transmit_empty (com : Z) : M D Z := let! v := inb (com + 5) in ret (Z.land v 0x20).

Definition serial_received (com : Z) : M D Z := let! v := inb (com + 5) in ret (Z.land v 1).

(** [while (f(com) == 0);] *)
Definition wait_for (f : Z → M D Z) (com : Z) : M D unit :=
  loop patience (λ _, let! v := f com in if v =? 0 then ret (inl tt) else ret (inr tt)) tt.

Definition read_serial (com : Z) : M D Z :=
  do! wait_for serial_received com in
  let! v := inb com in ret (s8 v).

Definition write_serial (com a : Z) : M D unit :=
  do! wait_for is_transmit_empty com in
  outb com (u8 a).

Definition uart_read (com : Z) : M St unit :=
  let! c := with_port (read_serial com) in
  let! _ := buffer_put com c in done!.

Definition uart_getc (com : Z) : M St Z :=
  let! v := buffer_get com in
  ret (match v with Some c => c | None => -1 end).

Definition uart_putc (com c : Z) : M St unit := with_port (write_serial com c).

(** *** Formatted output *)

Definition fmt_port {A} (m : M D A) : M (FState D) A := zoom fout (λ d s, mkFState (fmem s) d) m.

Definition uart_putc_com1 (c : Z) : M (FState D) Z :=
  let! v := with_mem (loadc c) in do! fmt_port (write_serial COM1 v) in ret (c + 1).

Definition uart_putc_com2 (c : Z) : M (FState D) Z :=
  let! v := with_mem (loadc c) in do! fmt_port (write_serial COM2 v) in ret (c + 1).

Definition uart_vprintf (com fmt : Z) (args : list Z) : M (FState D) unit :=
  if com =? COM1 then format (mkFmtIO uart_putc_com1) fmt args
  else if com =? COM2 then format (mkFmtIO uart_putc_com2) fmt args
  else panic "invalid uart port\n".
End uart.

(** ** Specifications *)

(** A 16550 on COM1 that transmits: what it has sent, and that it gets ready
    for the next byte within [patience] polls. *)
Class Serial (D : Type) `{Ports D} (patience : nat) := {
  sent : D → list Z;
  tx_ready : ∀ d, wp (wait_for patience is_transmit_empty COM1) d (λ _ d', sent d' = sent d);
  tx_byte : ∀ d c, wp (outb COM1 c) d (λ _ d', sent d' = sent d ++ [c]);
}.

(** The characters that were received and not fetched yet *)
(** The registers of a 16550 that its self test uses: line control, modem
    control, and the byte that came in *)
Record Line := mkLine { lcr : Z; mcr : Z; rx : Z }.

(** A store to register [r]. While the latch bit of [lcr] is set the register 0
    is the divisor; in the loopback mode of [mcr] a byte sent is received. *)
Definition line_write (r v : Z) (x : Line) : Line :=
  if r =? 3 then mkLine v (mcr x) (rx x)
  else if r =? 4 then mkLine (lcr x) v (rx x)
  else if (r =? 0) && negb (Z.testbit (lcr x) 7) && Z.testbit (mcr x) 4 then mkLine (lcr x) (mcr x) v
  else x.

(** Ports with two 16550s *)
Class Lines (D : Type) `{Ports D} := {
  line_of : Z → D → Line;
  line_out : ∀ d com r v, com ∈ [COM1; COM2] → 0 ≤ r < 8 →
    wp (outb (com + r) v) d (λ _ d', ∀ c, c ∈ [COM1; COM2] →
      line_of c d' = if c =? com then line_write r v (line_of c d) else line_of c d);
  line_in : ∀ d com, com ∈ [COM1; COM2] → Z.testbit (lcr (line_of com d)) 7 = false → Z.testbit (mcr (line_of com d)) 4 = true →
    wp (inb (com + 0)) d (λ v d', v = rx (line_of com d) ∧ ∀ c, c ∈ [COM1; COM2] → line_of c d' = line_of c d);
}.

(** A line that has passed its self test: 8 bits, no parity, one stop bit, and out
    of loopback with its interrupt output on *)
Definition line_ready : Line := mkLine 3 0x0F 0xAE.

Definition received (b : UArtBuffer) : list Z := ring BUF_SZ (udata b) (head b) (tail b).

Record buffer_ok (b : UArtBuffer) : Prop := mk_buffer_ok {
  bo_data : zlen (udata b) = BUF_SZ;
  bo_ends : 0 ≤ head b ≤ tail b;
  bo_full : tail b ≤ head b + BUF_SZ;
  bo_u32 : tail b < 4294967295;
}.

Lemma wp_line_out {D} `{Lines D} d com r v x (f : Z → Line) (Q : unit → D → Prop) : com ∈ [COM1; COM2] → 0 ≤ r < 8 →
  line_of com d = x → (∀ c, c ∈ [COM1; COM2] → c ≠ com → line_of c d = f c) →
  (∀ d', line_of com d' = line_write r v x → (∀ c, c ∈ [COM1; COM2] → c ≠ com → line_of c d' = f c) → Q tt d') →
  wp (outb (com + r) v) d Q.
Proof.
  intros Hc Hr <- Hf HQ. eapply wp_mono; [by apply line_out|]. intros [] d' Hd. apply HQ; [by rewrite Hd, Z.eqb_refl|].
  intros c Hin Hne. rewrite Hd, (proj2 (Z.eqb_neq c com)) by done. by apply Hf.
Qed.

(** The self test passes, and leaves the line ready; the other line is as before. *)
Lemma uart_init_ok {D} `{Lines D} d com (f : Z → Line) : com ∈ [COM1; COM2] →
  (∀ c, c ∈ [COM1; COM2] → c ≠ com → line_of c d = f c) →
  wp (uart_init com) d (λ _ d', line_of com d' = line_ready ∧ ∀ c, c ∈ [COM1; COM2] → c ≠ com → line_of c d' = f c).
Proof.
  intros Hc Hf. unfold uart_init, init_serial. rewrite wp_bind. destruct (line_of com d) as [l m b] eqn:Hd.
  do 9 (rewrite wp_bind; eapply wp_line_out; [done|lia|eassumption|eassumption|]; clear dependent d; intros d Hd Hf; cbn in Hd).
  rewrite wp_bind. eapply wp_mono; [apply line_in; [done|by rewrite Hd..]|]. intros v d1 [-> Hd1]. rewrite Hd. cbn [rx].
  change (negb (0xAE =? 0xAE)) with false. cbn iota.
  rewrite wp_bind. eapply (wp_line_out _ _ _ _ _ f); [done|lia|rewrite Hd1; [exact Hd|done]|intros c Hin Hne; rewrite Hd1 by done; by apply Hf|].
  intros d2 Hd2 Hf2. rewrite wp_bind. eapply (wp_line_out _ _ _ _ _ f); [done|lia|exact Hd2|exact Hf2|].
  intros d3 Hd3 Hf3. rewrite wp_ret. by split.
Qed.

Section lemmas.
Context {D : Type} `{Ports D}.
Notation St := (Uart D).

Lemma uart_getc_ok (s : St) :
  buffer_ok (com1_buffer s) →
  wp (uart_getc COM1) s (λ r s', buffer_ok (com1_buffer s') ∧ uport s' = uport s ∧
    match received (com1_buffer s) with
    | [] => r = -1 ∧ s' = s
    | v :: l => r = v ∧ received (com1_buffer s') = l
    end).
Proof.
  intros [Hl He Hf Hu]. unfold uart_getc, buffer_get, buffer_empty, get_buffer, set_buffer.
  change (COM1 =? COM1) with true. cbn [negb]. wp_steps.
  destruct (Z.eqb_spec (head (com1_buffer s)) (tail (com1_buffer s))) as [Heq|Hne].
  - wp_steps. split; [done|]. split; [done|]. unfold received. by rewrite ring_empty by lia.
  - destruct (ring_pop BUF_SZ eq_refl _ (head (com1_buffer s)) (tail (com1_buffer s)) Hl ltac:(lia)) as (b & Hb & Hq).
    wp_steps. eapply wp_need; [exact Hb|]. wp_steps. cbn.
    assert (u32 (head (com1_buffer s) + 1) = head (com1_buffer s) + 1) as Hh by (apply u32_small; lia).
    unfold received. cbn. rewrite Hh, Hq. split; [split; cbn; (done || lia)|]. done.
Qed.

Lemma uart_putc_ok `{!Serial D patience} c (s : St) :
  wp (uart_putc patience COM1 c) s (λ _ s',
    com1_buffer s' = com1_buffer s ∧ sent (uport s') = sent (uport s) ++ [u8 c]).
Proof.
  unfold uart_putc, with_port, write_serial. rewrite wp_zoom, wp_bind.
  eapply wp_mono; [apply tx_ready|]. intros [] d Hd. cbn beta.
  eapply wp_mono; [apply tx_byte|]. intros [] d' Hd'. cbn. by rewrite Hd', Hd.
Qed.

Lemma uart_put_ok c (s : St) :
  buffer_ok (com1_buffer s) → tail (com1_buffer s) < head (com1_buffer s) + BUF_SZ →
  tail (com1_buffer s) + 1 < 4294967295 →
  wp (buffer_put COM1 c) s (λ b s', b = true ∧ buffer_ok (com1_buffer s') ∧
    received (com1_buffer s') = received (com1_buffer s) ++ [c]).
Proof.
  intros [Hl He Hf Hu] Hroom Hmax.
  assert (u32 (tail (com1_buffer s) + 1) = tail (com1_buffer s) + 1) as Ht by (apply u32_small; lia).
  unfold buffer_put, buffer_full, get_buffer, set_buffer. change (COM1 =? COM1) with true.
  change (1 mod BUF_SZ) with 1. wp_steps. rewrite Ht, (proj2 (Z.eqb_neq _ _)) by lia. wp_steps. cbn.
  split; [done|]. split; [split; cbn; [|lia..]|].
  - unfold zlen in *. by rewrite length_insert.
  - unfold received. cbn. apply ring_push; [reflexivity|exact Hl|lia].
Qed.
End lemmas.
