(* ===== verification/Vga.v ===== *)
(** * lib/ansi.c and kernel/driver/vga.c: escape codes and the text screen *)
From S2P Require Import Prelude Machine CMem CString CStdlib Fmt.

(** ** lib/ansi.c *)

Definition ANSI_BUFSZ : Z := 64.

(** [tag] *)
Definition ANSI_CURSOR : Z := 0.
Definition ANSI_COLOR : Z := 1.
Definition ANSI_ERASE : Z := 2.

(** [ANSICursor] and [ANSIErase] *)
Definition ANSICursor_MOVE : Z := 0.
Definition ANSICursor_MOVEX : Z := 1.
Definition ANSICursor_UP : Z := 2.
Definition ANSICursor_DOWN : Z := 3.
Definition ANSICursor_RIGHT : Z := 4.
Definition ANSICursor_LEFT : Z := 5.
Definition ANSICursor_REP : Z := 6.
Definition ANSICursor_SAVE : Z := 7.
Definition ANSICursor_RESTORE : Z := 8.
Definition ANSIErase_J : Z := 0.
Definition ANSIErase_K : Z := 5.

(** [abuf]: the numbers below [buf_top]; [None] while [buf_top] is not
    initialised *)
Record ANSIState := mkANSIState {
  tag : Z;
  value : Z;
  abuf : option (list Z);
}.

Definition set_tag (t v : Z) (s : ANSIState) : ANSIState := mkANSIState t v (abuf s).

Definition ansi_buflen (s : ANSIState) : M mem Z :=
  match abuf s with Some l => ret (zlen l) | None => fault end.

Definition arity_check (s : ANSIState) (arity : Z) : M mem bool :=
  let! n := ansi_buflen s in ret (n =? arity).

(** A code for the cursor, with its number of arguments *)
Definition cursor_state (s : ANSIState) (v arity : Z) : M mem (bool * ANSIState) :=
  let s := set_tag ANSI_CURSOR v s in
  let! b := arity_check s arity in ret (b, s).

(** [int n = *--p] *)
Definition last_arg (s : ANSIState) : Z := default 0 (abuf s ≫= last).

Definition set_state (s : ANSIState) (c : Z) : M mem (bool * ANSIState) :=
  if c =? 72 then                                       (* H *)
    let s := set_tag ANSI_CURSOR ANSICursor_MOVE s in
    let! b := arity_check s 2 in
    if b : bool then ret (true, s) else
    let! b := arity_check s 0 in ret (b, s)
  else if c =? 102 then cursor_state s ANSICursor_MOVEX 2      (* f *)
  else if c =? 65 then cursor_state s ANSICursor_UP 1          (* A *)
  else if c =? 66 then cursor_state s ANSICursor_DOWN 1        (* B *)
  else if c =? 67 then cursor_state s ANSICursor_RIGHT 1       (* C *)
  else if c =? 68 then cursor_state s ANSICursor_LEFT 1        (* D *)
  else if c =? 82 then cursor_state s ANSICursor_REP 1         (* R *)
  else if c =? 115 then cursor_state s ANSICursor_SAVE 0       (* s *)
  else if c =? 117 then cursor_state s ANSICursor_RESTORE 0    (* u *)
  else if (c =? 74) || (c =? 75) then                          (* J, K *)
    let first := if c =? 74 then ANSIErase_J else ANSIErase_K in
    let args := if c =? 74 then 4 else 3 in
    let! b := arity_check s 0 in
    if b : bool then ret (true, set_tag ANSI_ERASE first s) else
    let! b := arity_check s 1 in
    let n := last_arg s in
    if b && (0 <=? n) && (n <? args) then ret (true, set_tag ANSI_ERASE (first + 1 + n) s)
    else ret (false, set_tag ANSI_ERASE (value s) s)
  else if c =? 109 then                                        (* m *)
    let! b := arity_check s 1 in
    if b : bool then ret (true, set_tag ANSI_COLOR (last_arg s) s)
    else ret (false, set_tag ANSI_COLOR (value s) s)
  else ret (false, s).

(** [errno] is never set (see [CStdlib.strtol]). The buffer has room for
    [ANSI_BUFSZ] numbers. *)
Definition parse_list (c : Z) : M mem (list Z * Z) := bounded (λ fuel,
  loop fuel (λ '(l, c),
    let! '(n, c) := strtol c in
    if ANSI_BUFSZ <=? zlen l then fault else
    let! e := loadc c in
    if e =? 59 then ret (inl (l ++ [n], c + 1)) else ret (inr (l ++ [n], c))) ([], c)).

(** The pointer that is returned, 0 for none *)
Definition ansi_parse (s : ANSIState) (c : Z) : M mem (ANSIState * Z) :=
  let! a := loadc c in
  if negb (a =? 27) then ret (s, 0) else
  let! b := loadc (c + 1) in
  if negb (b =? 91) then ret (s, 0) else
  let c := c + 2 in
  let! x := loadc c in
  if isalpha x then
    let! '(ok, s) := set_state s x in
    ret (s, if ok : bool then c + 1 else 0)
  else if isdigit x then
    let! '(l, c) := parse_list c in
    let s := mkANSIState (tag s) (value s) (Some l) in
    let! x := loadc c in
    let! '(ok, s) := set_state s x in
    ret (s, if ok : bool then c + 1 else 0)
  else ret (s, 0).

(** ** vga.c *)

Definition VGA_COLOR_BLACK : Z := 0.
Definition VGA_COLOR_BLUE : Z := 1.
Definition VGA_COLOR_GREEN : Z := 2.
Definition VGA_COLOR_CYAN : Z := 3.
Definition VGA_COLOR_RED : Z := 4.
Definition VGA_COLOR_LIGHT_MAGENTA : Z := 13.
Definition VGA_COLOR_LIGHT_BROWN : Z := 14.
Definition VGA_COLOR_WHITE : Z := 15.

Definition VGA_WIDTH : Z := 80.
Definition VGA_HEIGHT : Z := 25.

(** [buffer]: the words of the text window, 32 KiB from [TERMBUF_START] on; the
    screen shows the first [TERMBUF_SIZE] *)
Record Screen := mkScreen {
  row : Z;
  column : Z;
  color : Z;
  buffer : list Z;
  cursor : Z;
}.

Definition TERMBUF_SIZE : Z := VGA_HEIGHT * VGA_WIDTH.
Definition text_window : Z := 16384.

Definition vga_entry_color (fg bg : Z) : Z := u8 (Z.lor fg (Z.shiftl bg 4)).

Definition vga_entry (uc c : Z) : Z := u16 (Z.lor (u16 uc) (Z.shiftl (u16 c) 8)).

Definition set_color (c : Z) : M Screen unit :=
  modify (λ s, mkScreen (row s) (column s) (u8 c) (buffer s) (cursor s)).

Definition set_bg_color (bg : Z) : M Screen unit :=
  let! c := gets color in set_color (Z.lor c (Z.shiftl bg 4)).

Definition set_fg_color (fg : Z) : M Screen unit :=
  let! c := gets color in set_color (vga_entry_color fg (Z.shiftr c 4)).

(** The loops store the same word in every cell of the screen. *)
Definition vga_clear : M Screen unit :=
  modify (λ s, mkScreen 0 0 (color s)
    (splice 0 (replicate (Z.to_nat TERMBUF_SIZE) (vga_entry 32 (color s))) (buffer s)) (cursor s)).

Definition newline : M Screen unit :=
  modify (λ s, mkScreen (row s + 1) 0 (color s) (buffer s) (cursor s)).

Definition vga_set_cursor (x y : Z) : M Screen unit :=
  modify (λ s, mkScreen (row s) (column s) (color s) (buffer s) (y * VGA_WIDTH + x)).

Definition vga_set_color (c : Z) : M Screen unit := set_color c.

Definition put_entry_at (c : Z) : M Screen unit :=
  let! s := gets id in
  let i := row s * VGA_WIDTH + column s in
  if (0 <=? i) && (i <? text_window) then
    modify (λ s, mkScreen (row s) (column s) (color s)
      (<[Z.to_nat i := vga_entry (u8 c) (color s)]> (buffer s)) (cursor s))
  else fault.

Definition vga_putchar (c : Z) : M Screen unit :=
  let! s := gets id in
  do! (if VGA_HEIGHT <? row s then vga_clear else done!) in
  if c =? 10 then newline else
  do! put_entry_at c in
  modify (λ s,
    let col := column s + 1 in
    if col =? VGA_WIDTH then
      let r := row s + 1 in
      mkScreen (if r =? VGA_HEIGHT then 0 else r) 0 (color s) (buffer s) (cursor s)
    else mkScreen (row s) col (color s) (buffer s) (cursor s)).

(** The colors of the codes, [None] for the codes that are ignored *)
Definition ansi_color (v : Z) : option (M Screen unit) :=
  if v =? 40 then Some (set_bg_color VGA_COLOR_BLACK)
  else if v =? 41 then Some (set_bg_color VGA_COLOR_RED)
  else if v =? 42 then Some (set_bg_color VGA_COLOR_GREEN)
  else if v =? 43 then Some (set_bg_color VGA_COLOR_LIGHT_BROWN)
  else if v =? 44 then Some (set_bg_color VGA_COLOR_BLUE)
  else if v =? 45 then Some (set_bg_color VGA_COLOR_LIGHT_MAGENTA)
  else if v =? 46 then Some (set_bg_color VGA_COLOR_CYAN)
  else if v =? 47 then Some (set_bg_color VGA_COLOR_WHITE)
  else if v =? 49 then Some (set_bg_color VGA_COLOR_BLACK)
  else if v =? 30 then Some (set_fg_color VGA_COLOR_BLACK)
  else if v =? 31 then Some (set_fg_color VGA_COLOR_RED)
  else if v =? 32 then Some (set_fg_color VGA_COLOR_GREEN)
  else if v =? 33 then Some (set_fg_color VGA_COLOR_LIGHT_BROWN)
  else if v =? 34 then Some (set_fg_color VGA_COLOR_BLUE)
  else if v =? 35 then Some (set_fg_color VGA_COLOR_LIGHT_MAGENTA)
  else if v =? 36 then Some (set_fg_color VGA_COLOR_CYAN)
  else if v =? 37 then Some (set_fg_color VGA_COLOR_WHITE)
  else if v =? 39 then Some (set_fg_color VGA_COLOR_WHITE)
  else if v =? 0 then Some (set_color (vga_entry_color VGA_COLOR_WHITE VGA_COLOR_BLACK))
  else None.

Definition ansi_cntl (a : ANSIState) : M Screen unit :=
  if tag a =? ANSI_COLOR then default done! (ansi_color (value a)) else done!.

Definition on_screen {A} (m : M Screen A) : M (FState Screen) A :=
  zoom fout (λ d s, mkFState (fmem s) d) m.

Definition vga_writec (data : Z) : M (FState Screen) Z :=
  let! c := with_mem (loadc data) in
  let! data := (if c =? 27 then
      let! '(a, p) := with_mem (ansi_parse (mkANSIState 0 0 None) data) in
      if negb (p =? 0) then do! on_screen (ansi_cntl a) in ret p else ret data
    else ret data) in
  let! c := with_mem (loadc data) in
  do! on_screen (vga_putchar c) in
  ret (data + 1).

Definition vga_vprintf (fmt : Z) (args : list Z) : M (FState Screen) unit :=
  format (mkFmtIO vga_writec) fmt args.

(** The buffer is what the address [TERMBUF_START] maps to. *)
Definition vga_init (fmt : Z) : M (FState Screen) unit :=
  do! on_screen (
    do! modify (λ s, mkScreen 0 0 (vga_entry_color VGA_COLOR_WHITE VGA_COLOR_BLACK) (buffer s) (cursor s)) in
    vga_clear) in
  vga_vprintf fmt [].

(** ** Specifications *)

(** The row may run one past the last before the screen is cleared. *)
Record vga_ok (s : Screen) : Prop := mk_vga_ok {
  vo_row : 0 ≤ row s ≤ VGA_HEIGHT + 1;
  vo_column : 0 ≤ column s < VGA_WIDTH;
  vo_buffer : zlen (buffer s) = text_window;
}.

(** The cells below the row that follows the screen *)
Definition below (s : Screen) : list Z := drop (Z.to_nat ((VGA_HEIGHT + 1) * VGA_WIDTH)) (buffer s).

Definition write_text (l : list Z) : M Screen unit := foldr (λ c k, do! vga_putchar c in k) done! l.

(** ** Lemmas *)

Lemma clear_ok (s : Screen) :
  vga_ok s → wp vga_clear s (λ _ s', vga_ok s' ∧ row s' = 0 ∧ below s' = below s).
Proof.
  intros [Hr Hc Hb]. unfold vga_clear. rewrite wp_modify.
  assert (Z.of_nat (length (buffer s)) = 16384) as Hlen by exact Hb.
  assert (length (replicate (Z.to_nat TERMBUF_SIZE) (vga_entry 32 (color s))) = 2000%nat) as Hrep
    by (rewrite length_replicate; reflexivity).
  split; [split; cbn [row column buffer]; [unfold VGA_HEIGHT; lia|unfold VGA_WIDTH; lia|]|split; [done|]].
  - unfold zlen. rewrite length_splice; [exact Hb|]. rewrite Hrep. lia.
  - unfold below. cbn [buffer]. change (Z.to_nat ((VGA_HEIGHT + 1) * VGA_WIDTH)) with 2080%nat.
    apply list_eq. intros j. rewrite !lookup_drop, lookup_splice by (rewrite Hrep; lia).
    rewrite decide_False by (rewrite Hrep; lia). done.
Qed.

Lemma put_entry_ok c (s : Screen) :
  vga_ok s → row s ≤ VGA_HEIGHT →
  wp (put_entry_at c) s (λ _ s', row s' = row s ∧ column s' = column s ∧ color s' = color s ∧
    zlen (buffer s') = text_window ∧ below s' = below s ∧
    buffer s' = <[Z.to_nat (row s * VGA_WIDTH + column s) := vga_entry (u8 c) (color s)]> (buffer s)).
Proof.
  intros [Hr Hc Hb] Hrow. unfold put_entry_at. rewrite wp_bind, wp_gets. cbn [id].
  unfold VGA_HEIGHT, VGA_WIDTH, text_window in *.
  rewrite (proj2 (Z.leb_le _ _)), (proj2 (Z.ltb_lt _ _)) by lia. cbn [andb]. rewrite wp_modify. cbn [row column color buffer].
  split_and!; [done|done|done| |  |done].
  - unfold zlen in *. by rewrite length_insert.
  - unfold below, VGA_HEIGHT, VGA_WIDTH. cbn [buffer]. apply list_eq. intros j. rewrite !lookup_drop. apply list_lookup_insert_ne. lia.
Qed.

(** C36: whatever is printed, the screen stays sound: the cursor is in a
    column of the screen, and nothing is stored outside the 25 rows of the
    screen and the one row after them. *)
Theorem vga_bounds l (s : Screen) :
  vga_ok s → wp (write_text l) s (λ _ s', vga_ok s' ∧ below s' = below s).
Proof.
  revert s. induction l as [|c l IH]; intros s Hok; [done|]. cbn [write_text foldr]. rewrite wp_bind.
  eapply (wp_mono _ _ (λ _ s', vga_ok s' ∧ below s' = below s)).
  2:{ intros [] s' [Hok' Hb']. cbn beta. eapply wp_mono; [by apply IH|]. intros [] s2 [Hok2 Hb2]. split; [done|congruence]. }
  unfold vga_putchar. rewrite wp_bind, wp_gets. cbn [id]. rewrite wp_bind.
  eapply (wp_mono _ _ (λ _ s', vga_ok s' ∧ row s' ≤ VGA_HEIGHT ∧ below s' = below s)).
  { destruct (Z.ltb_spec VGA_HEIGHT (row s)).
    - eapply wp_mono; [by apply clear_ok|]. intros [] s' (Hok' & Hr' & Hb').
      split_and!; [done|rewrite Hr'; unfold VGA_HEIGHT; lia|done].
    - done. }
  intros [] s1 (Hok1 & Hr1 & Hb1). cbn beta. destruct (c =? 10).
  - unfold newline. rewrite wp_modify. destruct Hok1 as [Hr Hc Hbuf]. split; [|exact Hb1].
    split; cbn [row column buffer]; [lia|unfold VGA_WIDTH; lia|done].
  - rewrite wp_bind. eapply wp_mono; [by apply put_entry_ok|].
    intros [] s2 (Hr2 & Hc2 & _ & Hl2 & Hbl2 & _). cbn beta. rewrite wp_modify. destruct Hok1 as [Hr Hc Hbuf].
    destruct (Z.eqb_spec (column s2 + 1) VGA_WIDTH) as [He|He].
    + split; [|unfold below in *; cbn [buffer]; congruence].
      split; cbn [row column buffer]; [|unfold VGA_WIDTH; lia|done].
      destruct (Z.eqb_spec (row s2 + 1) VGA_HEIGHT); unfold VGA_HEIGHT in *; lia.
    + split; [|unfold below in *; cbn [buffer]; congruence].
      split; cbn [row column buffer]; [rewrite Hr2; lia|unfold VGA_WIDTH in *; lia|done].
Qed.

(** Text that fits in the row appears in the row, in the current color,
    and nothing else changes on the screen. *)
Theorem vga_text l (s : Screen) :
  vga_ok s → row s < VGA_HEIGHT → column s + zlen l < VGA_WIDTH → Forall (λ c, c ≠ 10) l →
  wp (write_text l) s (λ _ s', row s' = row s ∧ column s' = column s + zlen l ∧ color s' = color s ∧
    buffer s' = splice (Z.to_nat (row s * VGA_WIDTH + column s)) ((λ c, vga_entry (u8 c) (color s)) <$> l) (buffer s)).
Proof.
  intros Hok Hrow Hcol Hl. revert s Hok Hrow Hcol. induction Hl as [|c l Hc Hl IH]; intros s Hok Hrow Hcol.
  { unfold zlen. cbn [length]. unfold splice. cbn [fmap list_fmap length]. rewrite Nat.add_0_r. cbn [app].
    split_and!; [done|lia|done|]. by rewrite take_drop. }
  assert (zlen (c :: l) = zlen l + 1) as Hlen by (unfold zlen; cbn [length]; lia).
  assert (0 ≤ zlen l) by (unfold zlen; lia). destruct Hok as [Hr Hc0 Hb].
  cbn [write_text foldr]. rewrite wp_bind. unfold vga_putchar. rewrite wp_bind, wp_gets. cbn [id].
  rewrite (proj2 (Z.ltb_ge _ _)) by lia. rewrite wp_bind, wp_ret. rewrite (proj2 (Z.eqb_neq _ _)) by done.
  rewrite wp_bind. eapply wp_mono; [apply put_entry_ok; [done|lia]|].
  intros [] s1 (Hr1 & Hc1 & Hco1 & Hl1 & _ & Hbuf1). cbn beta. rewrite wp_modify.
  rewrite (proj2 (Z.eqb_neq _ _)) by lia.
  eapply wp_mono; [apply IH|].
  - split; cbn [row column buffer]; [lia|lia|done].
  - cbn [row]. lia.
  - cbn [column]. lia.
  - cbn [row column color buffer]. intros [] s2 (Hr2 & Hc2 & Hco2 & Hbuf2). split_and!; [lia|lia|congruence|].
    rewrite Hbuf2, Hco1, Hbuf1, Hr1, Hc1. set (i := Z.to_nat (row s * VGA_WIDTH + column s)).
    unfold VGA_HEIGHT, VGA_WIDTH, text_window, zlen in *.
    assert (Z.to_nat (row s * 80 + (column s + 1)) = S i) as -> by (unfold i; lia).
    assert (i + length (c :: l) ≤ length (buffer s))%nat as Hfit by (unfold i; lia).
    apply list_eq. intros j. rewrite !lookup_splice by (rewrite ?length_insert, ?length_fmap; cbn [length] in *; lia).
    rewrite fmap_cons. cbn [length]. rewrite !length_fmap.
    destruct (decide (j = i)) as [->|Hj].
    + rewrite decide_False by lia. rewrite decide_True by lia. rewrite Nat.sub_diag. cbn.
      apply list_lookup_insert_eq. cbn [length] in Hfit. lia.
    + destruct (decide (S i ≤ j < S i + length l)%nat).
      * rewrite decide_True by lia. by replace (j - i)%nat with (S (j - S i)) by lia.
      * rewrite decide_False by lia. by rewrite list_lookup_insert_ne.
Qed.

(** A string without conversions and escapes is written to the screen. *)
Lemma vga_print_ok m p l (o : Screen) (Q : Screen → Prop) : cstr m p l → Forall (λ c, c ≠ 37 ∧ c ≠ 27 ∧ c < 128) l →
  wp (write_text l) o (λ _ o', Q o') →
  wp (vga_vprintf p []) (mkFState m o) (λ _ s', ∃ o', s' = mkFState m o' ∧ Q o').
Proof.
  intros Hs Hl HQ. eapply wp_mono.
  - apply (format_text _ m (λ k o, Forall (λ c, c ≠ 37 ∧ c ≠ 27 ∧ c < 128) k ∧ wp (write_text k) o (λ _ o', Q o'))) with (l := l).
    + intros q c k o1 Hc Hr [[(_ & Hc27 & Hc128) Hk]%Forall_cons Hw]. assert (s8 c = c) as Hs8.
      { unfold s8. clear - Hr Hc128. Z.div_mod_to_equations. lia. }
      cbn [putchar]. unfold vga_writec. rewrite wp_bind. eapply wp_with_mem; [by apply loadc_ok|]. rewrite Hs8.
      rewrite (proj2 (Z.eqb_neq c 27)) by done. rewrite wp_bind, wp_ret, wp_bind. cbn [fmem fout].
      eapply wp_with_mem; [by apply loadc_ok|]. rewrite Hs8. cbn [fmem fout]. cbn [write_text foldr] in Hw. rewrite wp_bind in Hw.
      rewrite wp_bind. unfold on_screen. rewrite wp_zoom. eapply wp_mono; [exact Hw|]. intros [] o2 Hw2. cbn beta. rewrite wp_ret.
      split; [done|]. exists o2. done.
    + done.
    + eapply Forall_impl; [exact Hl|]. by intros c [? _].
    + done.
  - intros _ s' (o' & -> & _ & Hw). exists o'. done.
Qed.

Lemma write_text_app l k (o : Screen) Q : wp (write_text l) o (λ _ o', wp (write_text k) o' Q) → wp (write_text (l ++ k)) o Q.
Proof.
  revert o. induction l as [|c l IH]; intros o Hw; [exact Hw|]. cbn [app write_text foldr] in *. rewrite wp_bind in *.
  eapply wp_mono; [exact Hw|]. intros [] o' Hw'. by apply IH.
Qed.

(** The banner of [vga_init] *)
Definition banner : list Z := bytes_of "melonos 0.0.1" ++ [10].

(** The banner is in the first row, with spaces behind it. *)
Definition banner_shown (s s' : Screen) : Prop := row s' = 1 ∧ column s' = 0 ∧
  buffer s' = splice 0 ((λ c, vga_entry c 15) <$> bytes_of "melonos 0.0.1")
    (splice 0 (replicate (Z.to_nat TERMBUF_SIZE) (vga_entry 32 15)) (buffer s)).

Lemma vga_init_ok m p (s : Screen) : cstr m p banner → zlen (buffer s) = text_window →
  wp (vga_init p) (mkFState m s) (λ _ s', ∃ o', s' = mkFState m o' ∧ banner_shown s o').
Proof.
  intros Hs Hb. unfold vga_init. rewrite wp_bind. unfold on_screen. rewrite wp_zoom, wp_bind, wp_modify. unfold vga_clear. rewrite wp_modify.
  cbn [fout fmem color buffer cursor]. change (vga_entry_color VGA_COLOR_WHITE VGA_COLOR_BLACK) with 15.
  set (o := mkScreen 0 0 15 _ _). assert (vga_ok o) as Ho.
  { split; [done|done|]. cbn [o buffer]. unfold zlen in *. rewrite length_splice; [done|]. rewrite length_replicate. change (0 + Z.to_nat TERMBUF_SIZE)%nat with 2000%nat.
    unfold text_window in Hb. lia. }
  apply (vga_print_ok m p banner o (banner_shown s) Hs).
  - repeat (apply Forall_cons; split; [done|]). apply Forall_nil_2.
  - apply write_text_app. eapply wp_mono; [apply (vga_text (bytes_of "melonos 0.0.1") o Ho)|]; [done|done|repeat (apply Forall_cons; split; [done|]); apply Forall_nil_2|].
    intros [] [r c co bu cu] (Hr & Hc & Hco & Hbu). cbn [row column color buffer] in *. subst r c co bu.
    cbn [write_text foldr]. rewrite wp_bind. unfold vga_putchar. rewrite wp_bind, wp_gets. cbn [id row]. change (VGA_HEIGHT <? row o) with false.
    cbn iota. rewrite wp_bind, wp_ret. cbn iota. cbn [Z.eqb Pos.eqb]. unfold newline. rewrite wp_modify, wp_ret. done.
Qed.

(** ** Examples *)

Definition demo_screen : Screen := mkScreen 24 78 15 (replicate 16384 0) 0.

Lemma demo_screen_ok : vga_ok demo_screen.
Proof. split; [done|done|]. unfold demo_screen, zlen. cbn [buffer]. by rewrite length_replicate. Qed.

Lemma vga_bounds_witness : wp (write_text [10; 65; 10; 66]) demo_screen (λ _ s', vga_ok s' ∧ below s' = below demo_screen).
Proof. exact (vga_bounds [10; 65; 10; 66] demo_screen demo_screen_ok). Defined.

Lemma vga_text_witness : wp (write_text [72]) demo_screen (λ _ s', column s' = 79).
Proof.
  eapply wp_mono; [apply (vga_text [72] demo_screen demo_screen_ok)|].
  - done.
  - done.
  - by repeat constructor.
  - by intros u s' (_ & -> & _).
Defined.
