(* ===== verification/Print.v ===== *)
(** * kernel/print.c, debug.c and err.c: what the kernel tells its user

    [format] of lib/fmt.c prints through a function of the device. It is
    parametric in it: [format_sim] carries what is proved of the plain device
    over to the serial lines. *)
From S2P Require Import Prelude Machine CMem CString CStdlib Fmt Ide Uart Vga.

(** ** Formatted output does not depend on the device

    Two devices whose states are related by [J] stay related. Where the first
    one has no outcome there is no claim. *)
Section sim.
Context {D E : Type} (J : D → E → Prop).

Definition sim {A} (f : M (FState D) A) (g : M (FState E) A) : Prop := ∀ m d e, J d e →
  wlp f (mkFState m d) (λ a s, ∃ e', g (mkFState m e) = Ok a (mkFState (fmem s) e') ∧ J (fout s) e').

Lemma sim_ret {A} (a : A) : sim (ret a) (ret a).
Proof. intros m d e HJ. by exists e. Qed.

Lemma sim_bind {A B} f g (h : A → M _ B) k : sim f g → (∀ a, sim (h a) (k a)) → sim (bind f h) (bind g k).
Proof.
  intros Hf Hh m d e HJ. specialize (Hf m d e HJ). unfold wlp, bind in *.
  destruct (f (mkFState m d)) as [a [m1 d1]| | |]; [|done..]. destruct Hf as (e1 & -> & HJ1). by apply (Hh a m1 d1 e1).
Qed.

Lemma sim_with_mem {A} (f : M mem A) : sim (with_mem f) (with_mem f).
Proof. intros m d e HJ. unfold wlp, with_mem, zoom. cbn [fmem fout]. destruct (f m) as [a m1| | |]; [by exists e|done..]. Qed.

Lemma sim_bounded {A} (f : nat → M (FState D) A) g : (∀ n, sim (f n) (g n)) → sim (bounded_io f) (bounded_io g).
Proof. intros Hf m d e HJ. by apply Hf. Qed.

Lemma sim_local {A} l (f : Z → M (FState D) A) g : (∀ p, sim (f p) (g p)) → sim (local l f) (local l g).
Proof.
  intros Hf m d e HJ. specialize (Hf (stack_top m) (alloc_bytes (stack_top m) l m) d e HJ). unfold wlp, local in *. cbn [fmem fout].
  destruct (f _ _) as [a [m1 d1]| | |]; [|done..]. destruct Hf as (e1 & -> & HJ1). by exists e1.
Qed.

Lemma sim_loop {A B} n (f : A → M (FState D) (A + B)) g : (∀ a, sim (f a) (g a)) → ∀ a, sim (loop n f a) (loop n g a).
Proof.
  intros Hf. induction n as [|n IH]; intros a; [by intros m d e HJ|]. cbn [loop].
  apply sim_bind; [done|]. intros [a'|b]; [apply IH|apply sim_ret].
Qed.

Lemma sim_need {A} (o : option A) : sim (need o) (need o).
Proof. destruct o; [apply sim_ret|by intros m d e HJ]. Qed.
End sim.

Ltac sim_step :=
  match goal with
  | H : _ |- _ => apply H
  | |- sim _ (ret _) _ => apply sim_ret
  | |- sim _ (bind _ _) _ => apply sim_bind; [|intros]
  | |- sim _ (with_mem _) _ => apply sim_with_mem
  | |- sim _ (need _) _ => apply sim_need
  | |- sim _ (bounded_io _) _ => apply sim_bounded; intros
  | |- sim _ (local _ _) _ => apply sim_local; intros
  | |- sim _ (loop _ _ _) _ => apply sim_loop; intros
  | |- sim _ (if ?b then _ else _) _ => destruct b
  | |- sim _ (let '(_, _) := ?x in _) _ => destruct x
  | |- sim _ fault _ => by intros m d e HJ
  end.

Ltac sim := repeat (sim_step; cbn beta iota).

Section format_sim.
Context {D E : Type} (J : D → E → Prop) (f : FmtIO D) (g : FmtIO E) (Hput : ∀ p, sim J (putchar f p) (putchar g p)).

Lemma write_string_sim p : sim J (write_string p f) (write_string p g).
Proof. unfold write_string. sim. Qed.

Lemma pad_sim n c : sim J (pad n c f) (pad n c g).
Proof.
  unfold pad. sim. generalize (Z.to_nat n) as k. induction k as [|k IH]; cbn [pad_chars]; sim.
Qed.

(** The same controls on the two devices *)
Record same_ctl (a : PrintCtl D) (b : PrintCtl E) : Prop := mk_same_ctl {
  sc_upper : upper a = upper b;
  sc_flush : flush a = flush b;
  sc_sgn : sgn a = sgn b;
  sc_base : base a = base b;
  sc_io : io a = f ∧ io b = g;
}.

Lemma print_uint_sim n a b : same_ctl a b → sim J (print_uint n a) (print_uint n b).
Proof.
  intros [Hu Hf _ Hb [Ha Hg]]. unfold print_uint, put_digits. rewrite Hu, Hf, Hb, Ha, Hg.
  pose proof write_string_sim. sim.
Qed.

Lemma print_int_sim n a b : same_ctl a b → sim J (print_int n a) (print_int n b).
Proof.
  intros Hc. unfold print_int. rewrite (sc_sgn _ _ Hc). destruct (sgn b); cbv zeta; by apply print_uint_sim.
Qed.

Lemma TRY_PAD_sim v k h1 h2 : sim J h1 h2 → sim J (TRY_PAD v k f h1) (TRY_PAD v k g h2).
Proof. intros Hh. pose proof pad_sim. unfold TRY_PAD. sim. Qed.

Lemma void_sim {A} (h1 : M _ A) h2 : sim J h1 h2 → sim J (void h1) (void h2).
Proof. intros Hh. unfold void. sim. Qed.

Lemma print_number_sim v k c1 c2 : (∀ b, same_ctl (c1 f b) (c2 g b)) →
  sim J (print_number v k f c1) (print_number v k g c2).
Proof.
  intros Hc. unfold print_number, va_arg. pose proof (λ n b, print_int_sim n _ _ (Hc b)).
  destruct (args v); [by intros m d e HJ|]. apply sim_bind; [apply sim_ret|]. intros [n v1].
  apply sim_bind; [done|]. intros w. apply sim_bind; [|intros; apply sim_ret].
  by apply TRY_PAD_sim, void_sim.
Qed.

Lemma conversion_sim v k p : sim J (conversion v k p f) (conversion v k p g).
Proof.
  assert (sim J (write_0x f) (write_0x g)) as Hx.
  { unfold write_0x. apply sim_local. intros q. apply void_sim, write_string_sim. }
  assert (∀ c, sim J (local (le_bytes 4 c) (λ q, void (putchar f q))) (local (le_bytes 4 c) (λ q, void (putchar g q)))) as Hch.
  { intros c. apply sim_local. intros q. by apply void_sim. }
  unfold conversion. apply sim_bind; [apply sim_with_mem|]. intros c.
  repeat (match goal with |- sim _ (if ?b then _ else _) _ => destruct b end).
  - apply sim_bind; [by apply print_number_sim|]. intros; apply sim_ret.
  - sim. by apply print_number_sim.
  - sim. by apply print_number_sim.
  - apply sim_bind; [done|]. intros _. apply sim_bind; [by apply print_number_sim|]. intros; apply sim_ret.
  - unfold va_arg. destruct (args v); [by intros m d e HJ|]. apply sim_bind; [apply sim_ret|]. intros [a v1].
    apply sim_bind; [by apply TRY_PAD_sim|]. intros; apply sim_ret.
  - unfold va_arg. destruct (args v); [by intros m d e HJ|]. apply sim_bind; [apply sim_ret|]. intros [a v1].
    apply sim_bind; [apply sim_with_mem|]. intros w. apply sim_bind; [|intros; apply sim_ret].
    by apply TRY_PAD_sim, void_sim, write_string_sim.
  - apply sim_ret.
Qed.

Lemma format_sim p a : sim J (format f p a) (format g p a).
Proof.
  pose proof conversion_sim. unfold format, parse_flags. sim.
Qed.
End format_sim.

(** ** The program *)

(** A string literal is an object of its own. *)
Definition literal {D A} (l : list Z) (k : Z → M (FState D) A) : M (FState D) A := local (l ++ [0]) k.

Definition text (s : string) : list Z := bytes_of s.

(** A line that ends with a newline *)
Definition textln (s : string) : list Z := bytes_of s ++ [10].

(** A message in brackets: ["[\033[31mERROR\033[0m] %s\n"] *)
Definition tagged (colour : string) (tag : string) (rest : list Z) : list Z :=
  [91; 27] ++ bytes_of colour ++ bytes_of tag ++ [27] ++ bytes_of "[0m] " ++ rest.

(** errno.c; nothing that can be reached stores to it (see [CStdlib.strtol]). *)
Definition errno : Z := 0.
Definition ERANGE : Z := 34.

Section debug.
Context {D : Type} `{Ports D} (patience : nat).
Notation St := (FState D).

Definition debug_vprintf (fmt : Z) (args : list Z) : M St unit := uart_vprintf patience COM2 fmt args.

Definition debug_printf (fmt : Z) (args : list Z) : M St unit := debug_vprintf fmt args.

Definition debug (fmt : Z) (args : list Z) : M St unit :=
  do! literal (tagged "[36m" "DEBUG" []) (λ f, debug_printf f []) in
  debug_vprintf fmt args.

(** [debug_printf] with a literal as its format *)
Definition debug_lit (l : list Z) (args : list Z) : M St unit := literal l (λ f, debug_printf f args).

(** *** [debug_memdump] *)

(** The letters behind the count: [f], which nothing reads, [sz] and [endptr].
    Fuel as in [CMem.bounded]. *)
Definition memdump_units (endptr : Z) : M mem (Z * Z * Z) := bounded (λ fuel,
  loop fuel (λ '(f, sz, p),
    let! c := loadc p in
    if negb (c =? 0) && negb (isspace c) then
      ret (inl (
        if c =? 120 then (120, sz, p + 1)
        else if c =? 100 then (100, sz, p + 1)
        else if c =? 98 then (f, 1, p + 1)
        else if c =? 104 then (f, 2, p + 1)
        else if c =? 119 then (f, 4, p + 1)
        else if c =? 103 then (f, 8, p + 1)
        else (f, sz, p + 1)))
    else ret (inr (f, sz, p))) (120, 1, endptr)).

(** [addr]; it is not set when something else than a p follows the percent sign. *)
Definition memdump_addr (endptr : Z) (args : list Z) : M St (option Z) :=
  let! c := with_mem (loadc endptr) in
  if c =? 37 then
    let! c := with_mem (loadc (endptr + 1)) in
    if c =? 112 then match args with a :: _ => ret (Some a) | [] => fault end else ret None
  else
    let! '(a, _) := with_mem (strtol endptr) in ret (Some (u32 a)).

(** The macro [sp(n)] *)
Definition memdump_sp (i n : Z) : M St unit :=
  if (i =? 0) || negb (i mod n =? 0) then debug_lit [32] [] else debug_lit [10] [].

(** An unsigned number of [k] bytes *)
Definition load_num (p : Z) (k : nat) : M St Z :=
  let! l := with_mem (load_bytes p k) in ret (le_num l).

(** A round of the loop over [i]; it leaves with [false] where the code returns. A
    [uint64_t] is two words of the arguments. *)
Definition memdump_round (addr : option Z) (n sz : Z) (i : Z) : M St (Z + bool) :=
  if negb (i <? n) then ret (inr true) else
  let! addr := need addr in
  let p := u32 (addr + u32 (i * sz)) in
  if sz =? 1 then
    let! v := load_num p 1 in
    do! debug_lit (text "%#02x") [v] in
    do! memdump_sp i 20 in ret (inl (u32 (i + 1)))
  else if sz =? 2 then
    let! v := load_num p 2 in
    do! debug_lit (text "%#04x") [v] in
    do! memdump_sp i 15 in ret (inl (u32 (i + 1)))
  else if sz =? 4 then
    let! v := load_num p 4 in
    do! debug_lit (text "%#08x") [v] in
    do! memdump_sp i 10 in ret (inl (u32 (i + 1)))
  else if sz =? 8 then
    let! v := load_num p 8 in
    do! debug_lit (text "%#016x") [v mod 4294967296; v / 4294967296] in
    do! memdump_sp i 4 in ret (inl (u32 (i + 1)))
  else do! debug_lit (textln "invalid sz") [] in ret (inr false).

Definition debug_memdump (cmd : Z) (args : list Z) : M St unit :=
  let! '(n, endptr) := with_mem (strtol cmd) in
  let n := u32 n in
  do! (if (n =? 0) && (errno =? ERANGE) then debug_lit (textln "invalid repeat count") [] else done!) in
  let! '(_, sz, endptr) := with_mem (memdump_units endptr) in
  let! endptr := with_mem (skip_space endptr) in
  let! addr := memdump_addr endptr args in
  let! go := loop (S (Z.to_nat n)) (memdump_round addr n sz) 0 in
  if go : bool then debug_lit [10] [] else done!.

End debug.

(** *** print.c and err.c *)

(** The screen, and the ports with the serial lines *)
Record Outs (D : Type) := mkOuts { screen : Screen; lines : D }.
Arguments mkOuts {D} screen lines.
Arguments screen {D}.
Arguments lines {D}.

Section print.
Context {D : Type} `{Ports D} (patience : nat).
Notation St := (FState (Outs D)).

Definition to_screen {A} (m : M (FState Screen) A) : M St A :=
  zoom (λ s, mkFState (fmem s) (screen (fout s))) (λ t s, mkFState (fmem t) (mkOuts (fout t) (lines (fout s)))) m.

Definition to_lines {A} (m : M (FState D) A) : M St A :=
  zoom (λ s, mkFState (fmem s) (lines (fout s))) (λ t s, mkFState (fmem t) (mkOuts (screen (fout s)) (fout t))) m.

Definition vprintf (fmt : Z) (args : list Z) : M St unit :=
  do! to_lines (uart_vprintf patience COM1 fmt args) in
  to_screen (vga_vprintf fmt args).

Definition printf (fmt : Z) (args : list Z) : M St unit := vprintf fmt args.

Definition dvprintf (fmt : Z) (args : list Z) : M St unit :=
  do! to_lines (uart_vprintf patience COM1 fmt args) in
  do! to_lines (uart_vprintf patience COM2 fmt args) in
  to_screen (vga_vprintf fmt args).

Definition dprintf (fmt : Z) (args : list Z) : M St unit := dvprintf fmt args.

Definition putc (addr : Z) : M St unit :=
  let! _ := to_screen (vga_writec addr) in
  let! c := with_mem (loadc addr) in
  to_lines (fmt_port (write_serial patience COM1 c)).

(** The same format on the screen and on the second serial line *)
Definition report (l : list Z) (args : list Z) : M St unit :=
  do! to_screen (literal l (λ f, vga_vprintf f args)) in
  to_lines (debug_lit patience l args).

Definition perror (msg : Z) : M St unit := report (tagged "[31m" "ERROR" (textln "%s")) [msg].

(** [ebp] is the register; a frame holds the one before and the return address. *)
Definition print_stack_trace (ebp : Z) : M St unit :=
  do! report (textln "Stack trace:") [] in
  loop 16 (λ '(ebp, i),
    if negb (ebp =? 0) && (i <? 15) then
      let! r := with_mem (load32 (ebp + 4)) in
      do! report (textln "  [<%#08x>]") [r] in
      let! ebp := with_mem (load32 ebp) in
      ret (inl (ebp, i + 1))
    else ret (inr tt)) (ebp, 0).

(** [panic] up to [cli] and the endless loop, which are the outcome [Panic]. *)
Definition panic_report (msg ebp : Z) : M St unit :=
  do! report (tagged "[31m" "PANIC" (textln "%s")) [msg] in
  print_stack_trace ebp.
End print.

(** ** Specifications *)

(** The number [n] in hexadecimal, with zeros up to [w] digits *)
Definition hex_text (w n : Z) : list Z :=
  [48; 120] ++ replicate (Z.to_nat (w - zlen (numeral 16 n))) 48 ++ numeral 16 n.

(** What a format prints on the plain device, whatever else the memory holds *)
Definition says (fmt args out : list Z) : Prop := ∀ m p o, cstr m p fmt →
  format plain p args (mkFState m o) = Ok tt (mkFState m (o ++ out)).

(** ** Lemmas *)

Lemma prints_says fmt args out : (∀ m, prints m fmt args out) → says fmt args out.
Proof. intros Hp m p o Hs. by apply (format_prints m p fmt). Qed.

Lemma prints_plain m l : Forall (λ c, c ≠ 37) l → prints m l [] l.
Proof. induction 1; by constructor. Qed.

Lemma says_plain l : Forall (λ c, c ≠ 37) l → says l [] l.
Proof. intros Hl. apply prints_says. intros m. by apply prints_plain. Qed.

Lemma pad_chars_plain k p c m (o : list Z) : m !! p = Some c →
  pad_chars k p plain (mkFState m o) = Ok tt (mkFState m (o ++ replicate k c)).
Proof.
  intros Hc. revert o. induction k as [|k IH]; intros o; cbn [pad_chars replicate]; [by rewrite app_nil_r|].
  rewrite (bind_ok _ _ _ _ _ (putchar_plain p c m o Hc)), IH. by rewrite <- app_assoc.
Qed.

Lemma pad_plain n c m (o : list Z) :
  pad n c plain (mkFState m o) = Ok tt (mkFState m (o ++ replicate (Z.to_nat n) (u8 c))).
Proof.
  apply wp_eq, wp_local. cbn [fmem fout]. eapply wp_ok.
  { apply pad_chars_plain. rewrite write_cons, write_nil. apply lookup_insert_eq. }
  cbn [fmem fout]. split; [done|]. f_equal. apply (free_local _ [u8 c]); [done|].
  intros a Ha. by rewrite lookup_write, decide_False.
Qed.

Lemma write_0x_plain m (o : list Z) : write_0x plain (mkFState m o) = Ok tt (mkFState m (o ++ [48; 120])).
Proof.
  apply wp_eq, wp_local. cbn [fmem fout]. set (p := stack_top m). unfold void. rewrite wp_bind. eapply wp_ok.
  { apply (write_string_ok _ _ [48; 120]). split; [apply array_write|by repeat constructor]. }
  rewrite wp_ret. cbn [fmem fout]. split; [done|]. f_equal. apply (free_local _ [48; 120; 0]); [done|].
  intros a Ha. by rewrite lookup_write, decide_False.
Qed.

Lemma length_numeral b n : zlen (numeral b n) ≤ 31.
Proof. unfold numeral, zlen. rewrite length_fmap, length_reverse. pose proof (length_low_digits 31 b n). lia. Qed.

(** [%x] with the flags # and 0 and a width *)
Lemma conversion_hex m p w n a (o : list Z) : m !! p = Some 120 → 0 ≤ w < 2147483648 → 0 ≤ n < 4294967296 →
  conversion (mkFmtVars true false true (n :: a)) w p plain (mkFState m o) =
    Ok (p + 1, mkFmtVars true false true a) (mkFState m (o ++ hex_text w n)).
Proof.
  intros Hc Hw Hn. apply wp_eq. unfold conversion. rewrite wp_bind.
  eapply wp_with_mem; [by apply loadc_ok|]. change (s8 120) with 120. cbn [Z.eqb Pos.eqb hex fmem fout].
  rewrite wp_bind. eapply wp_ok; [apply write_0x_plain|].
  assert (∀ f o', print_int n (PCTL_x plain f) (mkFState m o') =
    Ok (zlen (numeral 16 n)) (mkFState m (if f then o' ++ numeral 16 n else o'))) as Hpr.
  { intros f o'. unfold print_int. cbn [PCTL_x sgn]. rewrite u32_small by done.
    apply (print_uint_ok (PCTL_x plain f)); [done|cbn; lia|cbn; lia|done]. }
  rewrite wp_bind. unfold print_number, va_arg. cbn [args pad0 leftpad hex]. rewrite wp_bind, wp_ret, wp_bind.
  eapply wp_ok; [apply Hpr|]. pose proof (length_numeral 16 n) as Hlen. assert (0 ≤ zlen (numeral 16 n)) as H0 by (unfold zlen; lia).
  rewrite wp_bind. apply (wp_ok _ _ tt (mkFState m (o ++ hex_text w n))); [|by rewrite !wp_ret].
  unfold TRY_PAD. cbn [pad0].
  assert (Z.to_nat (w - zlen (numeral 16 n)) = if u32 (w - zlen (numeral 16 n)) <=? 0 then 0%nat
            else Z.to_nat (s32 (u32 (w - zlen (numeral 16 n))))) as Hk.
  { clear Hpr Hc. unfold u32, s32. case_match eqn:E; Z.div_mod_to_equations; lia. }
  unfold hex_text. rewrite Hk. destruct (_ <=? 0).
  - unfold void. rewrite (bind_ok _ _ _ _ _ (Hpr true _)). unfold ret. cbn [replicate]. by rewrite <- !app_assoc.
  - rewrite (bind_ok _ _ _ _ _ (pad_plain _ 48 m _)). unfold void. rewrite (bind_ok _ _ _ _ _ (Hpr true _)).
    unfold ret. change (u8 48) with 48. by rewrite <- !app_assoc.
Qed.

(** [#] and [0], and a width that does not start with a zero *)
Definition hex_format (ds : list Z) : list Z := [37; 35; 48] ++ ds ++ [120].

Lemma hex_flags m p c a (o : list Z) : m !! p = Some 35 → m !! (p + 1) = Some 48 → loadc (p + 2) m = Ok c m →
  c ≠ 35 → c ≠ 48 → c ≠ 45 → (3 ≤ size m)%nat →
  parse_flags p (mkFmtVars false false false a) (mkFState m o) = Ok (p + 2, mkFmtVars true false true a) (mkFState m o).
Proof.
  intros H35 H48 Hc ??? Hsz. apply wp_eq. unfold parse_flags. rewrite wp_bounded_io. cbn [fmem].
  destruct (size m) as [|[|k]]; try lia. rewrite wp_loop_S, wp_bind.
  eapply wp_with_mem; [by apply loadc_ok|]. change (s8 35 =? 35) with true. cbn iota. rewrite wp_ret, wp_loop_S, wp_bind. cbn [fmem fout].
  eapply wp_with_mem; [by apply loadc_ok|]. change (s8 48 =? 35) with false. change (s8 48 =? 48) with true. cbn iota.
  rewrite wp_ret, wp_loop_S, wp_bind. cbn [fmem fout pad0 leftpad hex args]. replace (p + 1 + 1) with (p + 2) by lia.
  eapply wp_with_mem; [exact Hc|].
  by rewrite (proj2 (Z.eqb_neq c 35)), (proj2 (Z.eqb_neq c 48)), (proj2 (Z.eqb_neq c 45)), wp_ret.
Qed.

(** A plain decimal number, with no blanks and no sign before it *)
Lemma strtol_decimal m p ds rest w : cstr m p (ds ++ rest) → literal_ok (Dec ds) rest → stops isdigit rest →
  literal_value (Dec ds) = w → 0 ≤ w < 2147483648 → strtol p m = Ok (w, p + zlen ds) m.
Proof.
  intros Hs Hds Hst Hv Hw. rewrite (strtol_literal m p [] [] [] (Dec ds) rest); [| |by constructor|by left|by constructor|done|done|].
  - rewrite decide_False by done. rewrite Hv. do 2 f_equal. f_equal. unfold s32. rewrite Z.mod_small; lia.
  - exact Hs.
  - destruct rest as [|c rest]; cbn [stops literal_digit] in *; unfold dec_digit; [done|]. by rewrite Hst.
Qed.

Lemma says_hex ds n a w : literal_ok (Dec ds) [120] → literal_value (Dec ds) = w → 0 ≤ w < 2147483648 →
  0 ≤ n < 4294967296 → says (hex_format ds) (n :: a) (hex_text w n).
Proof.
  intros Hds Hv Hw Hn m p o Hs. unfold hex_format in Hs. cbn [app] in Hs.
  pose proof (cstr_size _ _ _ Hs) as Hsz. cbn [length] in Hsz. rewrite length_app in Hsz. cbn [length] in Hsz.
  apply cstr_cons in Hs as (H37 & _ & Hs). apply cstr_cons in Hs as (H35 & _ & Hs). apply cstr_cons in Hs as (H48 & _ & Hs).
  replace (p + 1 + 1) with (p + 2) in * by lia. replace (p + 2 + 1) with (p + 3) in * by lia.
  pose proof (strtol_decimal _ _ _ _ _ Hs Hds eq_refl Hv Hw) as Hnum.
  destruct Hds as [Hdig (c & cs & -> & Hc)].
  pose proof (cstr_app_r _ _ _ _ Hs) as Hx. apply cstr_cons in Hx as (Hx & _ & H0). set (q := p + 3 + zlen (c :: cs)) in *.
  assert (48 ≤ c < 58) as Hr.
  { apply Forall_cons in Hdig as [[v Hd] _]. cbn [literal_digit] in Hd. unfold dec_digit, isdigit in Hd. case_match eqn:E; [lia|done]. }
  cbn [app] in Hs. apply cstr_cons in Hs as (Hc1 & _ & _).
  assert (loadc (p + 3) m = Ok c m) as Hl by (rewrite (loadc_ok _ _ _ Hc1); by rewrite s8_ascii by lia).
  pose proof (cstr_end m (q + 1) [] H0) as Hend. cbn [length] in Hend. rewrite Z.add_0_r in Hend.
  apply wp_eq. unfold format. rewrite wp_bounded_io. cbn [fmem]. destruct (size m) as [|k] eqn:Hk; [lia|].
  rewrite wp_loop_S, wp_bind. eapply wp_with_mem; [by apply loadc_ok|]. change (s8 37) with 37. cbn [Z.eqb Pos.eqb fmem fout].
  rewrite wp_bind. eapply wp_ok.
  { apply (hex_flags m (p + 1) c); [done|by replace (p + 1 + 1) with (p + 2) by lia|by replace (p + 1 + 2) with (p + 3) by lia|lia..]. }
  cbn beta iota. replace (p + 1 + 2) with (p + 3) by lia. rewrite wp_bind. eapply wp_with_mem; [exact Hnum|]. cbn beta iota. cbn [fmem fout].
  fold q. rewrite u32_small by lia. rewrite wp_bind. eapply wp_ok; [by apply conversion_hex|]. cbn beta iota. rewrite wp_ret, wp_loop_S, wp_bind.
  eapply wp_with_mem; [by apply loadc_ok|]. change (s8 0 =? 0) with true. cbn iota. by rewrite wp_ret.
Qed.

(** *** The second serial line *)

(** A 16550 on COM2 that transmits; as [Serial], for the other line *)
Class DebugLine (D : Type) `{Ports D} (patience : nat) := {
  debug_sent : D → list Z;
  debug_ready : ∀ d, wp (wait_for patience is_transmit_empty COM2) d (λ _ d', debug_sent d' = debug_sent d);
  debug_byte : ∀ d c, wp (outb COM2 c) d (λ _ d', debug_sent d' = debug_sent d ++ [c]);
}.

(** [literal] leaves the memory as it was. *)
Lemma wp_literal {D A} l (k : Z → M (FState D) A) m d (Q : A → D → Prop) :
  (∀ p m', cstr m' p l → p = stack_top m → (∀ q x, m !! q = Some x → m' !! q = Some x) →
     wp (k p) (mkFState m' d) (λ a s', fmem s' = m' ∧ Q a (fout s'))) →
  Forall (λ c, 0 < c < 256) l →
  wp (literal l k) (mkFState m d) (λ a s', fmem s' = m ∧ Q a (fout s')).
Proof.
  intros Hk Hl. unfold literal. apply wp_local. cbn [fmem fout]. set (p := stack_top m).
  assert (∀ a, ¬ p ≤ a < p + zlen (l ++ [0]) → write p (l ++ [0]) m !! a = m !! a) as Hout.
  { intros a Ha. by rewrite lookup_write, decide_False. }
  eapply wp_mono; [apply Hk|].
  - split; [apply array_write|done].
  - done.
  - intros q x Hx. rewrite Hout; [done|]. apply stack_top_fresh in Hx. unfold p. lia.
  - intros a [m1 d1] [-> HQ]. cbn [fmem fout] in *. split; [|done]. by apply free_local.
Qed.

Section line.
Context {D : Type} `{Ports D} (patience : nat) `{!DebugLine D patience}.
Implicit Types (d : D).

(** The line has got the bytes that the plain device shows. *)
Definition streamed (old o : list Z) d : Prop := debug_sent d = old ++ (u8 <$> o).

Lemma com2_sim old p : sim (streamed old) (putchar plain p) (uart_putc_com2 patience p).
Proof.
  intros m o d HJ. unfold wlp, putchar, plain, uart_putc_com2, bind, with_mem, zoom. cbn [fmem fout].
  unfold loadc, bind, load. destruct (m !! p) as [c|]; [|done]. cbn. unfold fmt_port, zoom. cbn [fmem fout].
  assert (wp (write_serial patience COM2 (s8 c)) d (λ _ d', debug_sent d' = debug_sent d ++ [u8 c])) as Hw.
  { unfold write_serial. rewrite wp_bind. eapply wp_mono; [apply debug_ready|]. intros [] d1 Hd1. cbn beta.
    eapply wp_mono; [apply debug_byte|]. intros [] d2 Hd2. cbn beta in *. rewrite Hd2, Hd1. do 2 f_equal.
    unfold u8, s8. clear. Z.div_mod_to_equations. lia. }
  unfold wp in Hw. destruct (write_serial _ _ _ _) as [[] d1| | |]; [|done..]. cbn. exists d1. split; [done|].
  unfold streamed in *. rewrite Hw, HJ, fmap_app, <- app_assoc. done.
Qed.

(** What [says] holds of goes to the line. *)
Lemma debug_says fmt args out m p d : cstr m p fmt → says fmt args out → Forall is_byte out →
  wp (debug_printf patience p args) (mkFState m d) (λ _ s', fmem s' = m ∧ debug_sent (fout s') = debug_sent d ++ out).
Proof.
  intros Hs Hp Hb. unfold debug_printf, debug_vprintf, uart_vprintf. change (COM2 =? COM1) with false. change (COM2 =? COM2) with true. cbn iota.
  pose proof (format_sim (streamed (debug_sent d)) plain (mkFmtIO (uart_putc_com2 patience)) (com2_sim (debug_sent d)) p args m [] d) as Hsim.
  unfold wlp in Hsim; rewrite (Hp m p [] Hs) in Hsim.
  destruct Hsim as (d' & Hrun & HJ); [unfold streamed; by rewrite app_nil_r|]. eapply wp_ok; [exact Hrun|]. cbn [fmem fout] in *.
  split; [done|]. unfold streamed in HJ. cbn [app] in HJ. rewrite HJ. f_equal. clear - Hb. induction Hb as [|c l Hc _ IH]; [done|].
  rewrite fmap_cons, u8_small by done. by f_equal.
Qed.

Lemma debug_lit_says l args out m d : Forall (λ c, 0 < c < 256) l → says l args out → Forall is_byte out →
  wp (debug_lit patience l args) (mkFState m d) (λ _ s', fmem s' = m ∧ debug_sent (fout s') = debug_sent d ++ out).
Proof.
  intros Hl Hp Hb. unfold debug_lit. apply (wp_literal _ _ m d (λ _ d', debug_sent d' = debug_sent d ++ out)); [|done].
  intros p m' Hs _ _. by apply (debug_says l).
Qed.
End line.

(** *** [debug_memdump] *)

(** The size that the letters ask for: the last one that is a unit counts. *)
Definition unit_size (fs : list Z) : Z :=
  fold_left (λ sz c, if c =? 98 then 1 else if c =? 104 then 2 else if c =? 119 then 4 else if c =? 103 then 8 else sz) fs 1.

Definition per_line (sz : Z) : Z := if sz =? 1 then 20 else if sz =? 2 then 15 else if sz =? 4 then 10 else 4.

(** Unit number [i] of the bytes: its lower 32 bits, and what separates it from the next one *)
Definition unit_text (sz : Z) (data : list Z) (i : nat) : list Z :=
  hex_text (2 * sz) (le_num (slice (i * Z.to_nat sz) (Z.to_nat sz) data) mod 4294967296) ++
  [if (i =? 0)%nat || negb (i mod per_line sz =? 0) then 32 else 10].

Definition dump_text (sz : Z) (data : list Z) (n : nat) : list Z := seq 0 n ≫= unit_text sz data.

Lemma unit_size_cases fs : unit_size fs ∈ [1; 2; 4; 8].
Proof.
  unfold unit_size. match goal with |- fold_left ?f _ _ ∈ ?L => assert (∀ sz, sz ∈ L → fold_left f fs sz ∈ L) as IH end; [|apply IH; by left].
  induction fs as [|c fs IH]; intros sz Hsz; cbn [fold_left]; [done|]. apply IH. repeat case_match; set_solver.
Qed.

Lemma memdump_units_ok m p fs sp rest : cstr m p (fs ++ sp ++ rest) → Forall (λ c, isspace c = false ∧ c < 128) fs →
  Forall (λ c, isspace c = true) sp → sp ≠ [] →
  wp (memdump_units p) m (λ '(_, sz, q) m', m' = m ∧ sz = unit_size fs ∧ q = p + zlen fs).
Proof.
  intros Hs Hfs Hsp Hne. unfold memdump_units. rewrite wp_bounded. pose proof (cstr_size _ _ _ Hs) as Hsz. rewrite length_app in Hsz.
  apply (wp_loop (λ '(_, sz, q) m', m' = m ∧ ∃ a r, fs = a ++ r ∧ sz = unit_size a ∧ q = p + zlen a)
                 (λ '(_, _, q) _, Z.to_nat (p + zlen fs - q))).
  - intros [[f sz] q] m' (-> & a & r & -> & -> & ->). rewrite <- app_assoc in Hs. apply cstr_app_r in Hs.
    apply Forall_app in Hfs as [_ Hr]. rewrite wp_bind. destruct r as [|c r]; cbn [app] in Hs.
    + destruct sp as [|c sp]; [done|]. apply Forall_cons in Hsp as [Hc _]. cbn [app] in Hs. apply cstr_cons in Hs as (Hm & Hr1 & _).
      eapply wp_ok; [by apply loadc_ok|]. rewrite s8_ascii by (unfold isspace in Hc; lia). rewrite Hc, andb_false_r, wp_ret.
      rewrite app_nil_r. done.
    + apply cstr_cons in Hs as (Hm & Hr1 & _). apply Forall_cons in Hr as [[Hc Hc1] _].
      eapply wp_ok; [by apply loadc_ok|]. rewrite s8_ascii by lia. rewrite Hc, (proj2 (Z.eqb_neq c 0)) by lia. cbn [negb andb]. rewrite wp_ret.
      assert (zlen (a ++ [c]) = zlen a + 1) as Hl by (unfold zlen; rewrite length_app; cbn; lia).
      assert (zlen (a ++ c :: r) = zlen a + 1 + zlen r) as Hl2 by (unfold zlen; rewrite length_app; cbn; lia).
      assert (0 ≤ zlen r) as H0 by (unfold zlen; lia).
      assert (unit_size (a ++ [c]) = if c =? 98 then 1 else if c =? 104 then 2 else if c =? 119 then 4 else if c =? 103 then 8 else unit_size a) as Hu.
      { unfold unit_size. rewrite fold_left_app. done. }
      assert (a ++ c :: r = (a ++ [c]) ++ r) as Hacr by by rewrite <- app_assoc.
      destruct (c =? 120) eqn:E1; [|destruct (c =? 100) eqn:E2];
        [| |destruct (c =? 98), (c =? 104), (c =? 119), (c =? 103)];
        (split; [split; [done|]; exists (a ++ [c]), r; split_and!; [exact Hacr| |rewrite Hl; lia]|lia]);
        rewrite Hu; repeat case_match; (done || lia).
  - split; [done|]. exists [], fs. split_and!; [done|done|unfold zlen; cbn; lia].
  - unfold zlen. lia.
Qed.

Lemma unit_range sz : sz ∈ [1; 2; 4; 8] → 1 ≤ sz ≤ 8.
Proof. rewrite !elem_of_cons. intros [->|[->|[->|[->|Hn%not_elem_of_nil]]]]; [lia..|done]. Qed.

Section memdump.
Context {D : Type} `{Ports D} (patience : nat) `{!DebugLine D patience}.
Implicit Types (d : D).

Lemma memdump_sp_ok i sz m d : (0 ≤ i) → sz ∈ [1; 2; 4; 8] →
  wp (memdump_sp patience i (per_line sz)) (mkFState m d) (λ _ s', fmem s' = m ∧
    debug_sent (fout s') = debug_sent d ++ [if (i =? 0) || negb (i mod per_line sz =? 0) then 32 else 10]).
Proof.
  intros Hi Hsz. unfold memdump_sp. destruct (_ || _).
  all: apply debug_lit_says; [by repeat constructor|by apply says_plain; repeat constructor|by repeat constructor].
Qed.

Lemma hex_text_bytes w n : 0 ≤ n → Forall is_byte (hex_text w n).
Proof.
  intros Hn. unfold hex_text. apply Forall_app. split; [by repeat constructor|]. apply Forall_app. split.
  - by apply Forall_replicate.
  - eapply Forall_impl; [apply (numeral_chars 16 n); lia|]. intros c Hc. cbn beta in Hc. unfold is_byte. lia.
Qed.

(** One unit: [fmt] is the format of its size. *)
Lemma memdump_unit_ok fmt ds sz i p l m d (av : Z → list Z) a : av (le_num l) = (le_num l mod 4294967296) :: a →
  array m p l → zlen l = sz → Forall is_byte l → 0 ≤ i < 4294967295 → sz ∈ [1; 2; 4; 8] →
  fmt = hex_format ds → literal_ok (Dec ds) [120] → literal_value (Dec ds) = 2 * sz → Forall (λ c, 0 < c < 256) fmt →
  wp (let! v := load_num p (Z.to_nat sz) in
      do! debug_lit patience fmt (av v) in
      do! memdump_sp patience i (per_line sz) in ret (inl (u32 (i + 1)) : Z + bool)) (mkFState m d)
    (λ r s', r = inl (i + 1) ∧ fmem s' = m ∧ debug_sent (fout s') = debug_sent d ++
       hex_text (2 * sz) (le_num l mod 4294967296) ++ [if (i =? 0) || negb (i mod per_line sz =? 0) then 32 else 10]).
Proof.
  intros Hav Ha Hl Hb Hi Hsz -> Hds Hv Hfmt. pose proof (Z.mod_pos_bound (le_num l) 4294967296 eq_refl) as Hn.
  unfold load_num. rewrite !wp_bind. eapply wp_with_mem.
  { replace (Z.to_nat sz) with (length l) by (unfold zlen in Hl; lia). by apply load_bytes_ok. }
  cbn [fmem fout]. rewrite wp_ret, wp_bind, Hav. eapply wp_mono.
  { apply (debug_lit_says patience _ _ (hex_text (2 * sz) (le_num l mod 4294967296))); [done| |apply hex_text_bytes; lia].
    apply says_hex; [done|done| |done]. clear - Hsz. pose proof (unit_range sz Hsz). lia. }
  intros [] [m1 d1]. cbn [fmem fout]. intros [-> Hd1]. rewrite wp_bind. eapply wp_mono; [apply memdump_sp_ok; [lia|done]|].
  intros [] [m2 d2]. cbn [fmem fout]. intros [-> Hd2]. rewrite wp_ret, u32_small by lia. cbn [fmem fout].
  split_and!; [done|done|]. by rewrite Hd2, Hd1, <- app_assoc.
Qed.
(** The widths of the formats *)
Lemma width_literal ds : ds ∈ [[50]; [52]; [56]; [49; 54]] → literal_ok (Dec ds) [120].
Proof.
  rewrite !elem_of_cons. intros [->|[->|[->|[->|Hn%not_elem_of_nil]]]]; [| | | |done];
    (split; [repeat (apply Forall_cons; split; [by eexists|]); apply Forall_nil_2|by eexists _, _]).
Qed.

Lemma slice_array m p l i n : array m p l → (i + n ≤ length l)%nat → array m (p + i) (slice i n l).
Proof.
  intros Ha Hi. rewrite <- (take_drop i l) in Ha. apply array_app in Ha as [_ Ha].
  unfold zlen in Ha. rewrite length_take_le in Ha by lia. rewrite <- (take_drop n (drop i l)) in Ha.
  by apply array_app in Ha as [Ha _].
Qed.

Lemma memdump_round_ok n sz i addr data m d :
  array m addr data → zlen data = n * sz → Forall is_byte data → 0 ≤ addr → addr + zlen data < 4294967296 →
  0 ≤ i < n → n < 4294967296 → sz ∈ [1; 2; 4; 8] →
  wp (memdump_round patience (Some addr) n sz i) (mkFState m d) (λ r s', r = inl (i + 1) ∧ fmem s' = m ∧
    debug_sent (fout s') = debug_sent d ++ unit_text sz data (Z.to_nat i)).
Proof.
  intros Ha Hl Hb H0 Htop Hi Hn Hsz. pose proof (unit_range sz Hsz) as Hr. unfold memdump_round.
  assert (i * sz + sz ≤ n * sz) as Hin by nia.
  rewrite (proj2 (Z.ltb_lt i n)) by lia. cbn [negb]. rewrite wp_bind. eapply wp_need; [done|]. cbv zeta.
  rewrite (u32_small (i * sz)) by nia. rewrite (u32_small (addr + i * sz)) by nia.
  set (l := slice (Z.to_nat (i * sz)) (Z.to_nat sz) data).
  assert (array m (addr + i * sz) l) as Hal.
  { replace (addr + i * sz) with (addr + Z.to_nat (i * sz)) by lia. apply slice_array; [done|]. unfold zlen in Hl. lia. }
  assert (zlen l = sz) as Hll by (unfold l, zlen in *; rewrite length_slice; lia).
  assert (Forall is_byte l) as Hbl by (by apply Forall_take, Forall_drop).
  assert (unit_text sz data (Z.to_nat i) = hex_text (2 * sz) (le_num l mod 4294967296) ++
    [if (i =? 0) || negb (i mod per_line sz =? 0) then 32 else 10]) as ->.
  { unfold unit_text. rewrite Z2Nat.id by lia. replace (Z.to_nat i * Z.to_nat sz)%nat with (Z.to_nat (i * sz)) by nia. fold l.
    do 3 f_equal. destruct (Z.eqb_spec i 0) as [->|]; [done|]. by rewrite (proj2 (Nat.eqb_neq (Z.to_nat i) 0)) by lia. }
  pose proof (le_num_range l Hbl) as Hnum. rewrite Hll in Hnum.
  assert (∀ k, sz = k → 256 ^ k ≤ 4294967296 → le_num l = le_num l mod 4294967296) as Hsmall.
  { intros k -> Hk. rewrite Z.mod_small; lia. }
  pose proof Hsz as Hcase. rewrite !elem_of_cons in Hcase.
  destruct Hcase as [->|[->|[->|[->|Hx%not_elem_of_nil]]]]; [| | | |done]; cbn [Z.eqb Pos.eqb].
  - apply (memdump_unit_ok _ [50] 1 i _ l m d (λ v, [v]) []); try done; [|lia|by apply width_literal; left|by repeat constructor].
    f_equal. by apply (Hsmall 1).
  - apply (memdump_unit_ok _ [52] 2 i _ l m d (λ v, [v]) []); try done; [|lia|by apply width_literal; right; left|by repeat constructor].
    f_equal. by apply (Hsmall 2).
  - apply (memdump_unit_ok _ [56] 4 i _ l m d (λ v, [v]) []); try done; [|lia|by apply width_literal; do 2 right; left|by repeat constructor].
    f_equal. by apply (Hsmall 4).
  - apply (memdump_unit_ok _ [49; 54] 8 i _ l m d (λ v, [v mod 4294967296; v / 4294967296]) [le_num l / 4294967296]);
      try done; [lia|by apply width_literal; do 3 right; left|by repeat constructor].
Qed.
End memdump.

(** ** Properties *)

(** C39: [debug_printf] sends to the second serial line exactly what the
    reference printing of the format says, whatever the device does between two
    bytes: [format] is parametric in its output, so what holds of the plain
    device holds of this one. It returns, and the memory is as before. The
    reference has [%d] of numbers that are not negative, [%x], [%s] and [%c],
    without flags and widths. *)
Theorem debug_printf_prints {D} `{Ports D} (patience : nat) `{!DebugLine D patience} m p fmt args out (d : D) :
  cstr m p fmt → prints m fmt args out →
  wp (debug_printf patience p args) (mkFState m d) (λ _ s', fmem s' = m ∧ debug_sent (fout s') = debug_sent d ++ (u8 <$> out)).
Proof.
  intros Hs Hp. pose proof (format_sim (streamed patience (debug_sent d)) plain (mkFmtIO (uart_putc_com2 patience)) (com2_sim patience (debug_sent d)) p args m [] d) as Hsim.
  unfold wlp in Hsim. rewrite (format_prints m p fmt args out [] Hs Hp) in Hsim.
  destruct Hsim as (d' & Hrun & HJ); [unfold streamed; by rewrite app_nil_r|]. by apply (wp_ok _ _ _ _ _ Hrun).
Qed.

(** [debug_memdump] with a count, letters, blanks and [%p] prints that many
    units of the memory at the pointer in hexadecimal, padded to the digits of
    the unit, a separator behind each; of a unit of 8 bytes only the lower half
    is printed. It returns, and the memory is as before. *)
Theorem memdump_prints {D} `{Ports D} (patience : nat) `{!DebugLine D patience} m p ds fs sp rest (n : nat) addr data (d : D) :
  cstr m p (ds ++ fs ++ sp ++ [37; 112] ++ rest) → literal_ok (Dec ds) [] → literal_value (Dec ds) = n → n < 2147483648 →
  Forall (λ c, isspace c = false ∧ isdigit c = false ∧ c < 128) fs → Forall (λ c, isspace c = true) sp → sp ≠ [] →
  array m addr data → Forall is_byte data → zlen data = n * unit_size fs → 0 ≤ addr → addr + zlen data < 4294967296 →
  wp (debug_memdump patience p [addr]) (mkFState m d) (λ _ s', fmem s' = m ∧
    debug_sent (fout s') = debug_sent d ++ dump_text (unit_size fs) data n ++ [10]).
Proof.
  intros Hs Hds Hv Hn Hfs Hsp Hne Ha Hb Hl H0 Htop. unfold debug_memdump.
  assert (stops isdigit (fs ++ sp ++ [37; 112] ++ rest)) as Hst.
  { pose proof Hs as Hs'. apply cstr_app_r in Hs'. destruct fs as [|c fs].
    - destruct sp as [|c sp]; [done|]. apply Forall_cons in Hsp as [Hc _]. eapply stops_char; [done|unfold isspace in Hc; lia|unfold isspace, isdigit in *; lia].
    - apply Forall_cons in Hfs as [(_ & Hc & Hlt) _]. cbn [app] in Hs'. apply cstr_cons in Hs' as (_ & Hr & _). eapply stops_char; [done|lia|done]. }
  rewrite wp_bind. eapply wp_with_mem; [by apply (strtol_decimal m p ds _ n Hs Hds Hst Hv); lia|]. cbn beta iota. cbn [fmem fout].
  rewrite u32_small by lia. change (errno =? ERANGE) with false. rewrite andb_false_r, wp_bind, wp_ret, wp_bind. apply cstr_app_r in Hs.
  assert (Forall (λ c, isspace c = false ∧ c < 128) fs) as Hfs' by (eapply Forall_impl; [exact Hfs|by intros c (? & ? & ?)]).
  destruct (proj1 (wp_run _ _ _) (memdump_units_ok m _ fs sp _ Hs Hfs' Hsp Hne))
    as ([[f sz] q] & m' & Hrun & -> & -> & ->).
  eapply wp_with_mem; [exact Hrun|]. cbn beta iota. cbn [fmem fout]. apply cstr_app_r in Hs.
  rewrite wp_bind. eapply wp_with_mem; [by apply (skip_space_ok m _ sp ([37; 112] ++ rest))|]. cbn [fmem fout]. apply cstr_app_r in Hs.
  cbn [app] in Hs. apply cstr_cons in Hs as (H37 & _ & Hs). apply cstr_cons in Hs as (H112 & _ & _).
  unfold memdump_addr. rewrite !wp_bind. eapply wp_with_mem; [by apply loadc_ok|]. change (s8 37 =? 37) with true. cbn iota. cbn [fmem fout].
  rewrite wp_bind. eapply wp_with_mem; [by apply loadc_ok|]. change (s8 112 =? 112) with true. cbn iota. cbn [fmem fout]. rewrite wp_ret, Nat2Z.id, wp_bind.
  pose proof (unit_size_cases fs) as Hsz. set (sz := unit_size fs) in *.
  apply (wp_loop (λ (i : Z) s, ∃ (k : nat) d', i = k ∧ (k ≤ n)%nat ∧ s = mkFState m d' ∧ debug_sent d' = debug_sent d ++ dump_text sz data k)
                 (λ (i : Z) _, Z.to_nat (n - i))).
  - intros i s (k & d1 & -> & Hk & -> & Hd1). destruct (decide (k = n)) as [->|Hkn].
    + unfold memdump_round. rewrite Z.ltb_irrefl. cbn [negb]. rewrite wp_ret. eapply wp_mono.
      { apply (debug_lit_says patience [10] [] [10]); [by repeat constructor|apply says_plain; by repeat constructor|by repeat constructor]. }
      intros [] s' [Hm Hd']. split; [done|]. by rewrite Hd', Hd1, <- app_assoc.
    + eapply wp_mono; [apply (memdump_round_ok patience n sz k addr data m d1); (done || lia)|].
      intros r [m1 d2]. cbn [fmem fout]. intros (-> & -> & Hd2). split; [|lia]. exists (S k), d2. split_and!; [lia|lia|done|].
      rewrite Hd2, Hd1, Nat2Z.id, <- app_assoc. f_equal. unfold dump_text. by rewrite seq_S, bind_app, bind_singleton.
  - exists O, d. split_and!; [done|lia|done|]. by rewrite app_nil_r.
  - lia.
Qed.

(** ** Witnesses *)

(** A line whose transmitter is always empty; the state is what was sent. *)
#[local] Instance demo_ports : Ports (list Z) := {|
  inb := λ _, ret 0x20;
  outb := λ _ c, modify (λ l, l ++ [c]);
  insl := λ _ n, ret (replicate (4 * n) 0);
  outsl := λ _ _, done!;
  irq := ret false
|}.

#[local] Instance demo_line : DebugLine (list Z) 1.
Proof. refine {| debug_sent := id |}; by intros. Defined.

Definition demo_mem : mem := write 16 (cstring "3xw %p") (write 64 [1; 0; 0; 0; 239; 190; 0; 0; 255; 255; 255; 255] ∅).

Lemma debug_printf_prints_witness :
  wp (debug_printf 1 16 [42; 48]) (mkFState fmt_mem []) (λ _ s', fmem s' = fmt_mem ∧ fout s' = bytes_of "a42melon").
Proof.
  eapply wp_mono; [apply (debug_printf_prints 1 fmt_mem 16 (bytes_of "a%d%s") [42; 48] (bytes_of "a42melon") [])|].
  - split; [apply array_write|repeat constructor].
  - apply prints_char; [done|]. apply (prints_d fmt_mem 42 _ [48] (bytes_of "melon")); [lia|].
    apply (prints_s fmt_mem 48 (bytes_of "melon") [] [] []); [|done|constructor].
    split; [|repeat constructor]. unfold fmt_mem. apply array_write_disjoint; [by right|apply array_write].
  - intros [] s' [Hm Hs]. split; [exact Hm|exact Hs].
Defined.

Lemma memdump_prints_witness :
  wp (debug_memdump 1 16 [64]) (mkFState demo_mem []) (λ _ s', fmem s' = demo_mem ∧
    fout s' = bytes_of "0x00000001 0x0000beef 0xffffffff " ++ [10]).
Proof.
  eapply wp_mono; [apply (memdump_prints 1 demo_mem 16 (bytes_of "3") (bytes_of "xw") [32] [] 3 64 [1; 0; 0; 0; 239; 190; 0; 0; 255; 255; 255; 255] []); try done|].
  - unfold demo_mem. split; [|by repeat constructor]. exact (array_write 16 (cstring "3xw %p") _).
  - split; [repeat (apply Forall_cons; split; [by eexists|]); apply Forall_nil_2|by eexists _, _].
  - by repeat constructor.
  - by repeat constructor.
  - unfold demo_mem. apply array_write_disjoint; [by right|apply array_write].
  - by repeat constructor.
  - intros [] s' [Hm Hs]. split; [exact Hm|exact Hs].
Defined.
