(* ===== verification/Console.v ===== *)
(** * kernel/dev/console.c: the terminal

    The line discipline of cooked mode, and raw mode. The two buffers and the
    devices behind them are the part of the kernel state that process.c does
    not know; the spin locks are in the lock table. The bytes that a read
    stores in the caller's buffer are a result. *)
From S2P Require Import Prelude Machine CMem CString CStdlib Fmt Ide Uart Vga Inode.
From S2P Require Import Palloc PgTbl VMem Locks Segments Process ProcSpec Switch Pipe.

Definition STATE_NORMAL : Z := 0.
Definition STATE_ESC : Z := 1.
Definition STATE_ESC_BRACKET : Z := 2.
Definition ESC : Z := 0x1B.
Definition RAW_BUF_SZ : Z := 32.
Definition LINE_BUF_SZ : Z := 1024.
Definition DEV_CONSOLE : Z := 1.

(** [ConsoleMode] *)
Definition CONSOLE_COOKED_MODE : Z := 0.
Definition CONSOLE_RAW_MODE : Z := 1.

Record LineBuffer := mkLineBuffer {
  data : list Z;
  len : Z;
  lcursor : Z;
  state : Z;
  nnewline : Z;
}.

Record RawBuffer := mkRawBuffer {
  raw_data : list Z;
  raw_nread : Z;
  raw_nwritten : Z;
}.

Record Con (D : Type) := mkCon {
  console_mode : Z;
  line : LineBuffer;
  raw : RawBuffer;
  cuart : Uart D;
  screen : Screen;
}.
Arguments mkCon {D} console_mode line raw cuart screen.
Arguments console_mode {D}. Arguments line {D}. Arguments raw {D}. Arguments cuart {D}. Arguments screen {D}.

(** The addresses of the two buffers; the fields follow the data. *)
Class ConsoleText := {
  line_buffer : Z;
  raw_buffer : Z;
}.

Section console.
Context `{Ports D} `{ConsoleText} `{KernelLayout, KernelText}.
Context (patience : nat).
Notation Ct := (Con D).
Notation St := (KState (Con D)).

Definition line_lk : Z := line_buffer + 1024.
Definition raw_lk : Z := raw_buffer + 32.
Definition raw_nread_chan : Z := raw_buffer + 44.

Definition set_line (b : LineBuffer) : M Ct unit :=
  modify (λ s, mkCon (console_mode s) b (raw s) (cuart s) (screen s)).

Definition set_raw (b : RawBuffer) : M Ct unit :=
  modify (λ s, mkCon (console_mode s) (line s) b (cuart s) (screen s)).

Definition with_uart {A} (m : M (Uart D) A) : M Ct A :=
  zoom cuart (λ u s, mkCon (console_mode s) (line s) (raw s) u (screen s)) m.

Definition echo (c : Z) : M Ct unit := with_uart (uart_putc patience COM1 c).

(** [line_buffer.data[i] = v] *)
Definition line_store (i v : Z) : M Ct unit :=
  let! b := gets line in
  if (0 <=? i) && (i <? LINE_BUF_SZ) then
    set_line (mkLineBuffer (<[Z.to_nat i := v]> (data b)) (len b) (lcursor b) (state b) (nnewline b))
  else fault.

Definition set_len (n cur : Z) : M Ct unit :=
  let! b := gets line in set_line (mkLineBuffer (data b) n cur (state b) (nnewline b)).

Definition set_state (st : Z) : M Ct unit :=
  let! b := gets line in set_line (mkLineBuffer (data b) (len b) (lcursor b) st (nnewline b)).

Definition set_nnewline (n : Z) : M Ct unit :=
  let! b := gets line in set_line (mkLineBuffer (data b) (len b) (lcursor b) (state b) n).

(** ** Cooked mode *)

(** The [switch] of the handler, for one character: is the reader woken up? *)
Definition cooked_char (c : Z) : M Ct bool :=
  let! b := gets line in
  if state b =? STATE_NORMAL then
    if c =? ESC then do! set_state STATE_ESC in ret false else
    let c := if c =? 13 then 10 else c in
    if c =? 10 then
      do! echo 10 in
      do! line_store (len b) 10 in
      do! set_len (s32 (len b + 1)) (lcursor b) in
      do! line_store (s32 (len b + 1)) 0 in
      do! set_nnewline (s32 (nnewline b + 1)) in
      ret true
    else if (c =? 8) || (c =? 0x7f) then
      do! (if 0 <? len b then set_len (len b - 1) (s32 (lcursor b - 1)) else done!) in
      do! echo 8 in
      do! echo 32 in
      do! echo 8 in
      ret false
    else if (0x20 <=? c) && (c <? 0x7f) then
      do! (if len b <? LINE_BUF_SZ - 1 then
             do! line_store (lcursor b) c in
             do! set_len (len b + 1) (s32 (lcursor b + 1)) in
             echo c
           else done!) in
      ret false
    else ret false
  else if state b =? STATE_ESC then
    do! set_state (if c =? 91 then STATE_ESC_BRACKET else STATE_NORMAL) in ret false
  else if state b =? STATE_ESC_BRACKET then
    do! (if c =? 68 then                                  (* D: left *)
           if 0 <? lcursor b then do! set_len (len b) (lcursor b - 1) in echo 8 else done!
         else if c =? 67 then                             (* C: right *)
           if lcursor b <? len b then
             let! x := (if lcursor b <? 0 then fault else need (data b !! Z.to_nat (lcursor b))) in
             do! echo x in set_len (len b) (lcursor b + 1)
           else done!
         else done!) in
    do! set_state STATE_NORMAL in ret false
  else ret false.

(** The fuel bounds the number of characters that are drained. *)
Definition console_handler_cooked (fuel : nat) : M St unit :=
  do! with_lk (lock line_lk) in
  do! loop fuel (λ _,
    let! c := with_rest (with_uart (uart_getc COM1)) in
    if c =? -1 then ret (inr tt) else
    let! woken := with_rest (cooked_char c) in
    do! (if woken : bool then wakeup line_buffer else done!) in
    ret (inl tt)) tt in
  with_lk (unlock line_lk).

(** [while (r < n && r < line_buffer.len)]: what is copied; [l] is the rest of
    the text in the buffer. *)
Fixpoint copy_line (l : list Z) (n : nat) : list Z :=
  match n, l with
  | S n, c :: l => if c =? 10 then [c] else c :: copy_line l n
  | _, _ => []
  end.

(** [console_read_cooked] after it has waited *)
Definition take_line (n : Z) : M Ct (list Z) :=
  let! b := gets line in
  let l := copy_line (take (Z.to_nat (len b)) (data b)) (Z.to_nat n) in
  let r := zlen l in
  do! set_nnewline (s32 (nnewline b - 1)) in
  let! b := gets line in
  do! (if r <? len b then
         let k := len b - r in
         do! set_line (mkLineBuffer (splice 0 (slice (Z.to_nat r) (Z.to_nat k) (data b)) (data b)) (len b)
                         (lcursor b) (state b) (nnewline b)) in
         set_len k k
       else set_len 0 0) in
  ret l.

(** [type] and [major] are those of the inode. *)
Definition console_read_cooked (fuel : nat) (type major n : Z) : B St (Z * list Z) :=
  if negb (type =? F_DEV) || negb (major =? DEV_CONSOLE) then lift (panic "wrong device\n") else
  do> lift (with_lk (lock line_lk)) in
  do> bloop fuel (λ _,
    let> b := lift (with_rest (gets line)) in
    if nnewline b =? 0 then do> sleep line_buffer line_lk in bret (inl tt) else bret (inr tt)) tt in
  let> l := lift (with_rest (take_line n)) in
  do> lift (with_lk (unlock line_lk)) in
  bret (zlen l, l).

(** ** Raw mode *)

Definition raw_slot (i : Z) : option nat :=
  let r := Z.rem i RAW_BUF_SZ in if r <? 0 then None else Some (Z.to_nat r).

(** [while (n--)]; [None]: the process was killed, and the lock is released. *)
Fixpoint raw_take (fuel : nat) (n : nat) : B St (option (list Z)) :=
  match n with
  | O => bret (Some [])
  | S n =>
      let> ok := bloop fuel (λ _,
        let> b := lift (with_rest (gets raw)) in
        if raw_nread b =? raw_nwritten b then
          let> k := lift this_killed in
          if k : bool then do> lift (with_lk (unlock raw_lk)) in bret (inr false)
          else do> sleep raw_nread_chan raw_lk in bret (inl tt)
        else bret (inr true)) tt in
      if negb ok then bret None else
      let> b := lift (with_rest (gets raw)) in
      if raw_nread b =? raw_nwritten b then bret (Some []) else
      let> i := lift (need (raw_slot (raw_nread b))) in
      let> c := lift (need (raw_data b !! i)) in
      do> lift (with_rest (set_raw (mkRawBuffer (raw_data b) (s32 (raw_nread b + 1)) (raw_nwritten b)))) in
      let> l := raw_take fuel n in
      bret ((c ::.) <$> l)
  end.

(** A negative count would go on past every buffer. *)
Definition console_read_raw (fuel : nat) (type major n : Z) : B St (Z * list Z) :=
  let> b := lift (with_rest (gets raw)) in
  if raw_nwritten b <? raw_nread b then lift (panic "assert: raw_buffer.nread <= raw_buffer.nwritten") else
  if negb (type =? F_DEV) || negb (major =? DEV_CONSOLE) then lift (panic "wrong device\n") else
  do> lift (with_lk (lock raw_lk)) in
  if n <? 0 then lift fault else
  let> r := raw_take fuel (Z.to_nat n) in
  match r with
  | None => bret (-1, [])
  | Some l => do> lift (with_lk (unlock raw_lk)) in bret (zlen l, l)
  end.

Definition console_handler_raw (fuel : nat) : M St unit :=
  do! with_lk (lock raw_lk) in
  do! loop fuel (λ _,
    let! c := with_rest (with_uart (uart_getc COM1)) in
    if c =? -1 then ret (inr tt) else
    if c <? -1 then ret (inl tt) else
    let! b := with_rest (gets raw) in
    do! (if raw_nwritten b =? raw_nread b then
           let! i := need (raw_slot (raw_nwritten b)) in
           do! with_rest (set_raw (mkRawBuffer (<[i := c]> (raw_data b)) (raw_nread b) (s32 (raw_nwritten b + 1)))) in
           wakeup raw_nread_chan
         else done!) in
    ret (inl tt)) tt in
  with_lk (unlock raw_lk).

(** ** The interface *)

(** kernel/print.c: [putc] *)
Definition putc (addr : Z) : M (FState Ct) unit :=
  let! _ := zoom (λ s, mkFState (fmem s) (screen (fout s)))
              (λ f s, let c := fout s in
                 mkFState (fmem f) (mkCon (console_mode c) (line c) (raw c) (cuart c) (fout f)))
              (vga_writec addr) in
  let! c := with_mem (loadc addr) in
  zoom fout (λ c s, mkFState (fmem s) c) (with_uart (uart_putc patience COM1 c)).

(** [for (int i = n; i > 0; i--)] *)
Fixpoint put_bytes (n : nat) (addr : Z) : M (FState Ct) unit :=
  match n with
  | O => done!
  | S n => do! putc addr in put_bytes n (addr + 1)
  end.

Definition console_write (type major addr n : Z) : M (FState Ct) Z :=
  if negb (type =? F_DEV) || negb (major =? DEV_CONSOLE) then panic "wrong device\n" else
  do! put_bytes (Z.to_nat n) addr in
  ret n.

(** The enumeration has two values. *)
Definition console_read (fuel : nat) (type major n : Z) : B St (Z * list Z) :=
  let> m := lift (with_rest (gets console_mode)) in
  if m =? CONSOLE_COOKED_MODE then console_read_cooked fuel type major n
  else console_read_raw fuel type major n.

Definition console_handler (fuel : nat) : M St unit :=
  let! m := with_rest (gets console_mode) in
  if m =? CONSOLE_COOKED_MODE then console_handler_cooked fuel
  else if m =? CONSOLE_RAW_MODE then console_handler_raw fuel
  else done!.

(** [devices[DEV_CONSOLE]] gets [console_read] and [console_write]. *)
Definition console_init : M St unit :=
  do! with_lk (set_lock line_lk new_lock) in
  do! with_lk (set_lock raw_lk new_lock) in
  with_rest (modify (λ s, mkCon CONSOLE_COOKED_MODE
    (mkLineBuffer (replicate 1024 0) (len (line s)) (lcursor (line s)) (state (line s)) (nnewline (line s)))
    (mkRawBuffer (replicate 32 0) (raw_nread (raw s)) (raw_nwritten (raw s))) (cuart s) (screen s))).
End console.

(** ** Specifications *)

Definition printable (c : Z) : bool := (0x20 <=? c) && (c <? 0x7f).

(** The keys that edit a line *)
Definition key (c : Z) : Prop := printable c = true ∨ c = 8 ∨ c = 0x7f.

(** What a key does to the text of the line, and what is echoed *)
Definition edit (l : list Z) (c : Z) : list Z :=
  if printable c then if zlen l <? LINE_BUF_SZ - 1 then l ++ [c] else l
  else take (length l - 1) l.

Definition echoed (l : list Z) (c : Z) : list Z :=
  if printable c then if zlen l <? LINE_BUF_SZ - 1 then [c] else [] else [8; 32; 8].

Fixpoint echoes (l : list Z) (cs : list Z) : list Z :=
  match cs with
  | [] => []
  | c :: cs => echoed l c ++ echoes (edit l c) cs
  end.

(** The line buffer holds the text [l], which is not finished. *)
Record typing (b : LineBuffer) (l : list Z) : Prop := mk_typing {
  ty_data : zlen (data b) = LINE_BUF_SZ;
  ty_len : len b = zlen l;
  ty_cursor : lcursor b = zlen l;
  ty_text : take (length l) (data b) = l;
  ty_room : zlen l < LINE_BUF_SZ;
  ty_chars : Forall (λ c, printable c = true) l;
  ty_state : state b = STATE_NORMAL;
  ty_nnewline : nnewline b = 0;
}.

(** The line buffer holds the line [l] and its newline. *)
Record entered (b : LineBuffer) (l : list Z) : Prop := mk_entered {
  en_data : zlen (data b) = LINE_BUF_SZ;
  en_len : len b = zlen l + 1;
  en_text : take (length l + 1) (data b) = l ++ [10];
  en_nnewline : nnewline b = 1;
  en_room : zlen l < LINE_BUF_SZ - 1;
  en_chars : Forall (λ c, printable c = true) l;
}.

Section spec.
Context {D : Type} `{Ports D} `{ConsoleText} `{KernelLayout, KernelText}.
Context (patience : nat) `{!Serial D patience}.
Notation Ct := (Con D).
Notation St := (KState (Con D)).

Definition on_line (t : Ct) : list Z := sent (uport (cuart t)).

Lemma echo_ok c (t : Ct) :
  wp (echo patience c) t (λ _ t', line t' = line t ∧ raw t' = raw t ∧ console_mode t' = console_mode t ∧
    com1_buffer (cuart t') = com1_buffer (cuart t) ∧ on_line t' = on_line t ++ [u8 c]).
Proof.
  unfold echo, with_uart. rewrite wp_zoom. eapply wp_mono; [apply (uart_putc_ok c (cuart t))|].
  intros [] u [Hb Hs]. done.
Qed.

Lemma take_snoc (l d : list Z) c : (length l < length d)%nat → take (length l) d = l →
  take (length l + 1) (<[length l := c]> d) = l ++ [c].
Proof.
  intros Hl Ht. replace (length l + 1)%nat with (S (length l)) by lia.
  rewrite (take_S_r _ _ c) by (by apply list_lookup_insert_eq). f_equal. by rewrite take_insert_ge.
Qed.

Lemma key_ok c l (t : Ct) :
  key c → typing (line t) l →
  wp (cooked_char patience c) t (λ w t', w = false ∧ typing (line t') (edit l c) ∧
    com1_buffer (cuart t') = com1_buffer (cuart t) ∧ on_line t' = on_line t ++ echoed l c).
Proof.
  intros Hk Hty. pose proof Hty as [Hd Hlen Hcur Htx Hroom Hch Hst Hnn]. unfold edit, echoed, LINE_BUF_SZ in *.
  unfold cooked_char. rewrite wp_bind, wp_gets, Hst. change (STATE_NORMAL =? STATE_NORMAL) with true. cbn match.
  assert (c ≠ ESC ∧ c ≠ 13 ∧ c ≠ 10) as (N1 & N2 & N3).
  { destruct Hk as [Hk|[->| ->]]; [|done..]. unfold printable in Hk. apply andb_true_iff in Hk as [Hk _].
    apply Z.leb_le in Hk. unfold ESC. lia. }
  rewrite (proj2 (Z.eqb_neq _ _) N1), (proj2 (Z.eqb_neq _ _) N2), (proj2 (Z.eqb_neq _ _) N3).
  destruct (printable c) eqn:Hp.
  - assert (0x20 ≤ c < 0x7f) as Hc.
    { unfold printable in Hp. apply andb_true_iff in Hp as [? ?]. lia. }
    rewrite (proj2 (Z.eqb_neq c 8)), (proj2 (Z.eqb_neq c 0x7f)) by lia. cbn [orb].
    rewrite (proj2 (Z.leb_le _ _)), (proj2 (Z.ltb_lt _ _)) by lia. cbn [andb].
    rewrite wp_bind, Hlen. change (LINE_BUF_SZ - 1) with 1023. change (1024 - 1) with 1023.
    destruct (Z.ltb_spec (zlen l) 1023) as [Hr|Hr].
    + unfold line_store, set_len, set_line. rewrite Hcur. autorewrite with wp. cbn beta iota.
      unfold LINE_BUF_SZ. rewrite (proj2 (Z.leb_le _ _)), (proj2 (Z.ltb_lt _ _)) by (unfold zlen in *; lia).
      cbn [andb]. autorewrite with wp. cbn [line data len lcursor state nnewline].
      eapply wp_mono; [apply echo_ok|]. intros [] t' (Hl' & _ & _ & Hcom & Hs'). cbn beta. rewrite wp_ret.
      assert (Z.to_nat (zlen l) = length l) as Hn by (unfold zlen; lia).
      rewrite u8_small in Hs' by (unfold is_byte; lia).
      split; [done|]. split; [|done]. rewrite Hl'. cbn [line]. rewrite Hn.
      assert (zlen (l ++ [c]) = zlen l + 1) as Hz by (unfold zlen; rewrite length_app; cbn; lia).
      split; cbn [data len lcursor state nnewline]; rewrite ?Hz; try done.
      * unfold zlen in *. by rewrite length_insert.
      * apply s32_small. unfold zlen in *. lia.
      * rewrite length_app. cbn [length]. apply take_snoc; [unfold zlen in *; lia|done].
      * unfold LINE_BUF_SZ. lia.
      * apply Forall_app. by split; [|apply Forall_singleton].
    + rewrite wp_ret. autorewrite with wp. split; [done|]. split; [done|]. by rewrite app_nil_r.
  - assert (c = 8 ∨ c = 0x7f) as Hc by (destruct Hk as [Hk|Hk]; [congruence|done]).
    assert ((c =? 8) || (c =? 0x7f) = true) as -> by (by destruct Hc as [-> | ->]).
    rewrite wp_bind.
    eapply (wp_mono _ _ (λ _ t1, typing (line t1) (take (length l - 1) l) ∧
      com1_buffer (cuart t1) = com1_buffer (cuart t) ∧ on_line t1 = on_line t)).
    { rewrite Hlen, Hcur. destruct (Z.ltb_spec 0 (zlen l)) as [Hpos|Hz].
      - unfold set_len, set_line. autorewrite with wp. cbn [line]. split; [|done].
        assert (zlen (take (length l - 1) l) = zlen l - 1) as Hzt by (unfold zlen in *; rewrite length_take; lia).
        split; cbn [data len lcursor state nnewline]; rewrite ?Hzt; try done.
        + apply s32_small. unfold zlen in *. lia.
        + rewrite length_take. transitivity (take (length l - 1) (take (length l) (data (line t)))); [|by rewrite Htx].
          by rewrite take_take.
        + unfold LINE_BUF_SZ. lia.
        + by apply Forall_take.
      - assert (l = []) as -> by (apply length_zero_iff_nil; unfold zlen in *; lia). rewrite wp_ret. done. }
    intros [] t1 (Hty1 & Hcom1 & Hs1). cbn beta.
    rewrite wp_bind. eapply wp_mono; [apply echo_ok|]. intros [] t2 (Hl2 & _ & _ & Hcom2 & Hs2). cbn beta.
    rewrite wp_bind. eapply wp_mono; [apply echo_ok|]. intros [] t3 (Hl3 & _ & _ & Hcom3 & Hs3). cbn beta.
    rewrite wp_bind. eapply wp_mono; [apply echo_ok|]. intros [] t4 (Hl4 & _ & _ & Hcom4 & Hs4). cbn beta.
    rewrite wp_ret. split; [done|]. split; [by rewrite Hl4, Hl3, Hl2|].
    split; [congruence|]. rewrite Hs4, Hs3, Hs2, Hs1, <- !app_assoc. done.
Qed.

Lemma enter_ok c l (t : Ct) :
  c = 10 ∨ c = 13 → typing (line t) l → zlen l < LINE_BUF_SZ - 1 →
  wp (cooked_char patience c) t (λ w t', w = true ∧ entered (line t') l ∧
    com1_buffer (cuart t') = com1_buffer (cuart t) ∧ on_line t' = on_line t ++ [10]).
Proof.
  intros Hc Hty Hroom. pose proof Hty as [Hd Hlen Hcur Htx _ Hch Hst Hnn]. unfold LINE_BUF_SZ in *.
  unfold cooked_char. rewrite wp_bind, wp_gets, Hst. change (STATE_NORMAL =? STATE_NORMAL) with true. cbn match.
  assert (c =? ESC = false) as -> by (by destruct Hc as [-> | ->]).
  assert ((if c =? 13 then 10 else c) = 10) as -> by (by destruct Hc as [-> | ->]). change (10 =? 10) with true. cbn match.
  rewrite wp_bind. eapply wp_mono; [apply echo_ok|]. intros [] t1 (Hl1 & _ & _ & Hcom1 & Hs1). cbn beta.
  assert (0 ≤ zlen l) as Hpos by (unfold zlen; lia).
  assert (s32 (zlen l + 1) = zlen l + 1) as Hs32 by (apply s32_small; lia).
  unfold line_store, set_len, set_nnewline, set_line. rewrite Hlen, Hcur, Hnn, Hs32. unfold LINE_BUF_SZ.
  autorewrite with wp. cbn beta iota.
  rewrite (proj2 (Z.leb_le _ _)), (proj2 (Z.ltb_lt _ _)) by lia. cbn [andb]. autorewrite with wp.
  cbn [line data len lcursor state nnewline].
  rewrite (proj2 (Z.leb_le _ _)), (proj2 (Z.ltb_lt _ _)) by lia. cbn [andb]. autorewrite with wp.
  cbn [line data len lcursor state nnewline cuart].
  assert (Z.to_nat (zlen l) = length l) as -> by (unfold zlen; lia).
  assert (Z.to_nat (zlen l + 1) = (length l + 1)%nat) as -> by (unfold zlen; lia).
  split; [done|]. split; [|split; [exact Hcom1|exact Hs1]]. rewrite Hl1.
  split; cbn [data len nnewline]; try done.
  - unfold zlen in *. by rewrite !length_insert.
  - rewrite take_insert_ge by lia. apply take_snoc; [unfold zlen in *; lia|done].
Qed.

Lemma key_range c : key c → 8 ≤ c < 0x80.
Proof.
  intros [Hk|[-> | ->]]; [|lia..]. unfold printable in Hk. apply andb_true_iff in Hk as [? ?]. lia.
Qed.

Lemma length_edit l c : zlen (edit l c) ≤ zlen l + 1.
Proof.
  unfold edit, zlen. destruct (printable c); [destruct (_ <? _)|]; rewrite ?length_app, ?length_take; cbn [length]; lia.
Qed.

Lemma wp_rest {A} (m : M Ct A) (s : St) HL L a t P :
  ready s HL L a t → wp m t P → wp (with_rest m) s (λ r s', ∃ t', ready s' HL L a t' ∧ P r t').
Proof.
  intros [Hs Hd <-] Hm. unfold with_rest. rewrite wp_zoom. eapply wp_mono; [exact Hm|].
  intros r t' HP. exists t'. split; [|done]. by split.
Qed.

Definition console_locks : gset Z := {[ptable_lk; line_lk]}.

Definition drain (fuel : nat) : M St unit :=
  loop fuel (λ _,
    let! c := with_rest (with_uart (uart_getc COM1)) in
    if c =? -1 then ret (inr tt) else
    let! woken := with_rest (cooked_char patience c) in
    do! (if woken : bool then wakeup line_buffer else done!) in
    ret (inl tt)) tt.

Lemma getc_ok (s : St) HL L a t :
  ready s HL L a t → buffer_ok (com1_buffer (cuart t)) →
  wp (with_rest (with_uart (uart_getc COM1))) s (λ r s', ∃ t', ready s' HL L a t' ∧
    buffer_ok (com1_buffer (cuart t')) ∧ line t' = line t ∧ on_line t' = on_line t ∧
    match received (com1_buffer (cuart t)) with
    | [] => r = -1
    | v :: l => r = v ∧ received (com1_buffer (cuart t')) = l
    end).
Proof.
  intros Hs Hb. eapply wp_rest; [exact Hs|]. unfold with_uart. rewrite wp_zoom.
  eapply wp_mono; [by apply uart_getc_ok|]. intros r u (Hb' & Hp & Hr). cbn [cuart line]. unfold on_line. cbn [cuart].
  rewrite Hp. split_and!; [done..|]. destruct (received _); [by destruct Hr|done].
Qed.

Lemma drain_rest fuel (s : St) HL L a t :
  ready s HL L a t → buffer_ok (com1_buffer (cuart t)) → received (com1_buffer (cuart t)) = [] →
  wp (drain (S fuel)) s (λ _ s', ∃ t', ready s' HL L a t' ∧ line t' = line t ∧ on_line t' = on_line t).
Proof.
  intros Hs Hb Hr. unfold drain. rewrite wp_loop_S, wp_bind. eapply wp_mono; [by eapply getc_ok|].
  intros c s' (t' & Hs' & _ & Hl & Ho & Hc). rewrite Hr in Hc. subst c. cbn beta. by exists t'.
Qed.

Lemma drain_ok keys nl fuel l (s : St) a t :
  ready s {[line_lk]} console_locks a t → ptable_lk ≠ line_lk → typing (line t) l →
  Forall key keys → nl = 10 ∨ nl = 13 → zlen l + zlen keys < LINE_BUF_SZ - 1 →
  buffer_ok (com1_buffer (cuart t)) → received (com1_buffer (cuart t)) = keys ++ [nl] →
  (length keys + 2 ≤ fuel)%nat →
  wp (drain fuel) s (λ _ s', ∃ t', ready s' {[line_lk]} console_locks (a_wakeup line_buffer a) t' ∧
    entered (line t') (foldl edit l keys) ∧ on_line t' = on_line t ++ echoes l keys ++ [10]).
Proof.
  intros Hs Hlk Hty Hks Hnl. revert fuel l s t Hs Hty.
  induction Hks as [|c keys Hk Hks IH]; intros fuel l s t Hs Hty Hlen Hb Hr Hf; (destruct fuel as [|fuel]; [cbn in Hf; lia|]).
  - unfold drain. rewrite wp_loop_S, wp_bind. eapply wp_mono; [by eapply getc_ok|].
    intros c s1 (t1 & Hs1 & Hb1 & Hl1 & Ho1 & Hc). rewrite Hr in Hc. destruct Hc as [-> Hr1].
    cbn beta. rewrite (proj2 (Z.eqb_neq nl (-1))) by lia.
    rewrite wp_bind. eapply wp_mono.
    { eapply wp_rest; [exact Hs1|]. apply (enter_ok nl l); [done|by rewrite Hl1|]. unfold zlen in *. cbn in Hlen. lia. }
    intros w s2 (t2 & Hs2 & -> & Hen & Hcom2 & Ho2). cbn beta iota. rewrite wp_bind.
    destruct (wakeup_returns s2 _ _ a t2 line_buffer Hs2) as (s3 & Hw & Hs3);
      [unfold console_locks; set_solver|by rewrite elem_of_singleton|].
    eapply wp_ok; [exact Hw|]. rewrite wp_ret. destruct fuel as [|fuel]; [cbn in Hf; lia|].
    eapply wp_mono; [eapply (drain_rest fuel s3); [exact Hs3|by rewrite Hcom2|by rewrite Hcom2]|].
    intros [] s4 (t4 & Hs4 & Hl4 & Ho4). exists t4. cbn [foldl echoes app]. split; [done|].
    split; [by rewrite Hl4|]. by rewrite Ho4, Ho2, Ho1.
  - pose proof (key_range c Hk) as Hc'. unfold drain. rewrite wp_loop_S, wp_bind. eapply wp_mono; [by eapply getc_ok|].
    intros c' s1 (t1 & Hs1 & Hb1 & Hl1 & Ho1 & Hc). rewrite Hr in Hc. cbn [app] in Hc. destruct Hc as [-> Hr1].
    cbn beta. rewrite (proj2 (Z.eqb_neq c (-1))) by lia.
    rewrite wp_bind. eapply wp_mono.
    { eapply wp_rest; [exact Hs1|]. apply (key_ok c l); [done|by rewrite Hl1]. }
    intros w s2 (t2 & Hs2 & -> & Hty2 & Hcom2 & Ho2). cbn beta iota. rewrite wp_bind, !wp_ret.
    eapply wp_mono; [eapply (IH fuel (edit l c) s2 t2)|].
    + exact Hs2.
    + done.
    + pose proof (length_edit l c). unfold zlen in *. cbn [length] in Hlen. lia.
    + by rewrite Hcom2.
    + by rewrite Hcom2.
    + cbn [length] in Hf. lia.
    + intros [] s3 (t3 & Hs3 & Hen & Ho3). exists t3. cbn [foldl echoes]. split; [done|]. split; [done|].
      by rewrite Ho3, Ho2, Ho1, <- !app_assoc.
Qed.

Lemma copy_line_ok l n :
  Forall (λ c, printable c = true) l → (length l < n)%nat → copy_line (l ++ [10]) n = l ++ [10].
Proof.
  intros Hl. revert n. induction Hl as [|c l Hc _ IH]; intros n Hn; (destruct n as [|n]; [cbn in Hn; lia|]); [done|].
  cbn [app copy_line]. assert (c ≠ 10) as Hne by (intros ->; discriminate Hc).
  rewrite (proj2 (Z.eqb_neq _ _) Hne), IH; [done|]. cbn in Hn. lia.
Qed.

Lemma take_line_ok l n (t : Ct) :
  entered (line t) l → zlen l < n →
  wp (take_line n) t (λ r t', r = l ++ [10] ∧ len (line t') = 0 ∧ lcursor (line t') = 0 ∧ nnewline (line t') = 0).
Proof.
  intros [Hd Hlen Htx Hnn Hroom Hch] Hn. unfold take_line. rewrite wp_bind, wp_gets, Hlen, Hnn.
  assert (Z.to_nat (zlen l + 1) = (length l + 1)%nat) as -> by (unfold zlen; lia).
  rewrite Htx, copy_line_ok by (done || (unfold zlen in *; lia)).
  assert (zlen (l ++ [10]) = zlen l + 1) as -> by (unfold zlen; rewrite length_app; cbn; lia).
  unfold set_nnewline, set_line, set_len. autorewrite with wp. cbn [line len]. rewrite Hlen.
  rewrite Z.ltb_irrefl. unfold set_line. autorewrite with wp. done.
Qed.

Lemma handler_ok keys nl fuel (s : St) a t :
  ready s ∅ console_locks a t → ptable_lk ≠ line_lk → typing (line t) [] →
  Forall key keys → nl = 10 ∨ nl = 13 → zlen keys < LINE_BUF_SZ - 1 →
  buffer_ok (com1_buffer (cuart t)) → received (com1_buffer (cuart t)) = keys ++ [nl] →
  (length keys + 2 ≤ fuel)%nat →
  wp (console_handler_cooked patience fuel) s (λ _ s', ∃ t',
    ready s' ∅ console_locks (a_wakeup line_buffer a) t' ∧ entered (line t') (foldl edit [] keys) ∧
    on_line t' = on_line t ++ echoes [] keys ++ [10]).
Proof.
  intros Hs Hlk Hty Hks Hnl Hlen Hb Hr Hf. unfold console_handler_cooked. rewrite wp_bind.
  destruct (lock_returns s ∅ console_locks a t line_lk Hs) as (s1 & Hl & Hs1);
    [unfold console_locks; set_solver|apply not_elem_of_empty|].
  eapply wp_ok; [exact Hl|]. rewrite wp_bind. rewrite union_empty_r_L in Hs1.
  eapply wp_mono; [eapply (drain_ok keys nl fuel []); [exact Hs1|done..|by unfold zlen|done|done|done]|].
  intros [] s2 (t2 & Hs2 & Hen & Ho). cbn beta.
  destruct (unlock_returns s2 _ _ _ t2 line_lk Hs2) as (s3 & Hu & Hs3); [by apply elem_of_singleton|].
  eapply wp_ok; [exact Hu|]. rewrite difference_diag_L in Hs3. by exists t2.
Qed.

Lemma with_rest_runs {A} (m : M Ct A) (s : St) HL L a t r t' :
  ready s HL L a t → m t = Ok r t' → ∃ s', with_rest m s = Ok r s' ∧ ready s' HL L a t'.
Proof.
  intros [Hs Hd <-] Hm. unfold with_rest, zoom. rewrite Hm. eexists. split; [done|]. by split.
Qed.

Lemma read_ok fuel n l (s : St) a t :
  ready s ∅ console_locks a t → entered (line t) l → zlen l < n →
  ∃ s' a' t', console_read_cooked (S fuel) F_DEV DEV_CONSOLE n s = Done (Ok (zlen l + 1, l ++ [10]) s') ∧
    ready s' ∅ console_locks a' t' ∧ len (line t') = 0 ∧ lcursor (line t') = 0 ∧ nnewline (line t') = 0.
Proof.
  intros Hs Hen Hn. unfold console_read_cooked. cbn [negb orb Z.eqb F_DEV DEV_CONSOLE Pos.eqb].
  destruct (lock_returns s ∅ console_locks a t line_lk Hs) as (s1 & Hl & Hs1);
    [unfold console_locks; set_solver|apply not_elem_of_empty|].
  rewrite (bbind_lift _ _ _ _ _ Hl). rewrite union_empty_r_L in Hs1.
  pose proof Hs1 as [_ _ Hrest].
  assert (bloop (S fuel) (λ _, let> b := lift (with_rest (gets line)) in
    if nnewline b =? 0 then do> sleep line_buffer line_lk in bret (inl tt) else bret (inr tt)) tt s1
    = Done (Ok tt s1)) as Hwait.
  { cbn [bloop]. unfold bbind at 1. unfold bbind at 1. unfold lift at 1. unfold with_rest at 1, zoom at 1, gets at 1.
    rewrite Hrest. cbn [run_bind]. rewrite (en_nnewline _ _ Hen). cbn [Z.eqb]. rewrite <- Hrest. by destruct s1. }
  rewrite (bbind_done _ _ _ _ _ Hwait).
  pose proof (take_line_ok l n t Hen Hn) as Htake. apply wp_run in Htake as (r & t' & Htake & -> & Ht').
  destruct (with_rest_runs _ _ _ _ _ _ _ _ Hs1 Htake) as (s2 & Hrun & Hs2).
  rewrite (bbind_lift _ _ _ _ _ Hrun).
  destruct (unlock_returns s2 _ _ _ t' line_lk Hs2) as (s3 & Hu & Hs3); [by apply elem_of_singleton|].
  rewrite (bbind_lift _ _ _ _ _ Hu). rewrite difference_diag_L in Hs3.
  exists s3, a, t'. split; [|done]. unfold bret, lift, ret. do 3 f_equal. unfold zlen. rewrite length_app. cbn. lia.
Qed.

(** C25: cooked mode. When the user types text, with backspaces, and Enter at
    an empty line, the interrupt handler echoes every key on the serial line
    (a backspace as back, blank, back) and wakes up every process that waits
    for a line; a read then returns the edited line and its newline, without
    sleeping, and leaves the line buffer empty. *)
Theorem console_line keys nl fuel fuel' n (s : St) a t :
  ready s ∅ console_locks a t → ptable_lk ≠ line_lk → typing (line t) [] →
  Forall key keys → nl = 10 ∨ nl = 13 → zlen keys < LINE_BUF_SZ - 1 →
  buffer_ok (com1_buffer (cuart t)) → received (com1_buffer (cuart t)) = keys ++ [nl] →
  (length keys + 2 ≤ fuel)%nat → zlen (foldl edit [] keys) < n →
  wp (console_handler_cooked patience fuel) s (λ _ s1,
    on_line (rest s1) = on_line t ++ echoes [] keys ++ [10] ∧ ¬ asleep_on line_buffer (abs s1) ∧
    ∃ s2, console_read_cooked (S fuel') F_DEV DEV_CONSOLE n s1 =
      Done (Ok (zlen (foldl edit [] keys) + 1, foldl edit [] keys ++ [10]) s2) ∧
      len (line (rest s2)) = 0 ∧ lcursor (line (rest s2)) = 0 ∧ nnewline (line (rest s2)) = 0).
Proof.
  intros Hs Hlk Hty Hks Hnl Hlen Hb Hr Hf Hn. eapply wp_mono; [by eapply handler_ok|].
  intros [] s1 (t1 & Hs1 & Hen & Ho). pose proof Hs1 as [[_ Ha1] _ Hr1]. rewrite Hr1.
  split; [done|]. split; [rewrite Ha1; apply wakeup_asleep|].
  destruct (read_ok fuel' n _ s1 _ t1 Hs1 Hen Hn) as (s2 & a2 & t2 & Hrun & [_ _ Hr2] & Hz).
  exists s2. split; [exact Hrun|]. by rewrite Hr2.
Qed.
End spec.

(** ** Examples *)

#[local] Existing Instance demo_layout.
#[local] Existing Instance demo_text.

#[local] Instance demo_console : ConsoleText := {| line_buffer := 5000; raw_buffer := 7000 |}.

(** A line whose transmitter is always empty; the state is what was sent. *)
#[local] Instance demo_ports : Ports (list Z) := {|
  inb := λ _, ret 0x20;
  outb := λ _ c, modify (λ l, l ++ [c]);
  insl := λ _ n, ret (replicate (4 * n) 0);
  outsl := λ _ _, done!;
  irq := ret false
|}.

#[local] Instance demo_serial : Serial (list Z) 1.
Proof. refine {| sent := id |}; by intros. Defined.

Definition demo_con (keys : list Z) : Con (list Z) :=
  mkCon CONSOLE_COOKED_MODE (mkLineBuffer (replicate 1024 0) 0 0 STATE_NORMAL 0) (mkRawBuffer (replicate 32 0) 0 0)
    (mkUart (mkUArtBuffer (keys ++ replicate (256 - length keys) 0) 0 (zlen keys)) (mkUArtBuffer (replicate 256 0) 0 0) [])
    (mkScreen 0 0 15 [] 0).

(** Process 1 waits for a line. *)
Definition demo_console_kernel (keys : list Z) : KState (Con (list Z)) :=
  mkKState (mkLState true 0 true {[ 100 := new_lock; 6024 := new_lock ]}) (mkCpu [] 0 0 0 0) NULL
    [mkProcess 4096 0x80300000 0x80301000 1 NULL PROC_UNUSED 0 0 NULL false [] [];
     mkProcess 4096 0x80300000 0x80301000 1 NULL PROC_SLEEPING 0 0 5000 false [] []]
    3 1 0x80200000 (mkPmem ∅ 0) [] (demo_con keys).

(** l, s, backspace, d, Enter *)
Definition demo_keys : list Z := [108; 115; 8; 100].

Lemma console_line_witness :
  wp (console_handler_cooked 1 6) (demo_console_kernel (demo_keys ++ [13])) (λ _ s1,
    on_line 1 (rest s1) = [108; 115; 8; 32; 8; 100; 10] ∧
    ∃ s2, console_read_cooked 1 F_DEV DEV_CONSOLE 80 s1 = Done (Ok (3, [108; 100; 10]) s2)).
Proof.
  eapply wp_mono; [apply (console_line 1 demo_keys 13 6 0 80 (demo_console_kernel (demo_keys ++ [13]))
    (abs (demo_console_kernel (demo_keys ++ [13]))) (demo_con (demo_keys ++ [13])))|].
  - split; [split; [|done]| |done].
    + split; cbn.
      * done.
      * done.
      * intros l y Hy. rewrite decide_False by apply not_elem_of_empty.
        apply lookup_insert_Some in Hy as [[_ <-]|[_ Hy]]; [done|]. by apply lookup_singleton_Some in Hy as [_ <-].
      * intros l Hl. by apply elem_of_empty in Hl.
      * reflexivity.
    + intros l Hl. unfold console_locks in Hl. apply elem_of_union in Hl as [Hl|Hl]; apply elem_of_singleton in Hl; subst l;
        vm_compute; by eexists.
  - done.
  - by split.
  - repeat constructor; (by left) || (right; by left) || (right; by right).
  - by right.
  - done.
  - split; vm_compute; (done || split; discriminate).
  - vm_compute. reflexivity.
  - cbn. lia.
  - vm_compute. reflexivity.
  - intros u s1 (Ho & _ & s2 & Hr & _). split; [rewrite Ho; by vm_compute|]. exists s2. exact Hr.
Defined.

(** What the line buffer holds after the keys [cs], and the newlines it counts *)
Definition after_keys (cs : list Z) : option (list Z * Z) :=
  match foldr (λ c k, let! _ := cooked_char 1 c in k) done! cs (demo_con []) with
  | Ok _ t => Some (take (Z.to_nat (len (line t))) (data (line t)), nnewline (line t))
  | _ => None
  end.

(** Enter leaves the cursor before the newline: text that is typed before the
    line was fetched overwrites it. A line of 1023 characters has no room for
    the terminator that Enter stores. *)
Theorem console_type_ahead :
  after_keys [97; 13; 98] = Some ([97; 98; 0], 1) ∧
  after_keys (replicate 1022 97 ++ [13]) = Some (replicate 1022 97 ++ [10], 1) ∧
  after_keys (replicate 1023 97 ++ [13]) = None.
Proof. vm_compute. done. Qed.
