(* ===== verification/Sh.v ===== *)
(** * melon/sh.c: the shell, and the [putc] of melib

    The line buffer is the array [st.buf], [st.p] an index into it. The system
    calls are a class; [sbrk] hands out memory. A command is a value: its node
    is allocated once and not changed after its parser returns. A string of a
    command is the index of its first byte in the line buffer. *)
From S2P Require Import Prelude.

Definition NARGS : nat := 3.
Definition BUF_SZ : nat := 512.

(** [" \t\r\n"] and ["|&;()"] *)
Definition whitespace : list Z := [32; 9; 13; 10].
Definition symbols : list Z := [124; 38; 59; 40; 41].

(** [strchr(set, c) != 0], for [c != 0] *)
Definition is_in (l : list Z) (c : Z) : bool := existsb (Z.eqb c) l.

Inductive Cmd :=
| NullCmd
| ExecCmd (argv : list nat)
| PipeCmd (cmd1 cmd2 : Cmd)
| SeqCmd (cmd1 cmd2 : Cmd).

(** The sizes of the nodes on i386 *)
Definition sizeof_ExecCmd : Z := 16.
Definition sizeof_PipeCmd : Z := 12.
Definition sizeof_SeqCmd : Z := 12.

(** The system calls that the shell makes. [sys_read] gives the result and the
    bytes that it stores. *)
Class Sys (W : Type) := {
  sys_read : Z → Z → M W (Z * list Z);
  sys_write : Z → list Z → M W Z;
  sys_fork : M W Z;
  sys_wait : M W Z;
  sys_sbrk : Z → M W Z;
}.

Record State (W : Type) := mkState {
  buf : list Z;
  p : nat;
  allocated : Z;
  world : W;
}.
Arguments mkState {W} buf p allocated world.
Arguments buf {W}.
Arguments p {W}.
Arguments allocated {W}.
Arguments world {W}.

Section sh.
Context {W : Type} {S : Sys W}.
Notation St := (State W).

Definition sys {A} (m : M W A) : M St A :=
  zoom world (λ w s, mkState (buf s) (p s) (allocated s) w) m.

Definition set_p (k : nat) : M St unit := modify (λ s, mkState (buf s) k (allocated s) (world s)).

Definition set_allocated (n : Z) : M St unit := modify (λ s, mkState (buf s) (p s) n (world s)).

(** [*st.p], [st.p++] *)
Definition cur : M St Z := let! s := gets id in need (buf s !! p s).

Definition advance : M St unit := let! k := gets p in set_p (k + 1).

(** [st.buf[k] = c] *)
Definition store (k : nat) (c : Z) : M St unit :=
  let! b := gets buf in
  if (k <? length b)%nat then modify (λ s, mkState (<[k := c]> (buf s)) (p s) (allocated s) (world s)) else fault.

Definition putc (c : Z) : M St unit := let! _ := sys (sys_write 2 [c]) in done!.

Definition puts (l : list Z) : M St unit := foldr (λ c k, do! putc c in k) done! l.

Definition alloc (n : Z) : M St unit :=
  let! a := gets allocated in
  do! set_allocated (u32 (a + n)) in
  let! _ := sys (sys_sbrk n) in done!.

Definition free : M St unit :=
  let! a := gets allocated in
  do! (if 0 <? a then let! _ := sys (sys_sbrk (s32 (- a))) in done! else done!) in
  set_allocated 0.

Definition clear : M St unit :=
  do! modify (λ s, mkState (replicate BUF_SZ 0) 0 (allocated s) (world s)) in
  free.

(** Fuel: every round moves [st.p], which stays in the buffer. *)
Definition rounds : nat := 1 + BUF_SZ.

Definition skip_whitespaces : M St unit :=
  loop rounds (λ _, 
    let! c := cur in
    if negb (c =? 0) && is_in whitespace c then do! advance in ret (inl tt) else ret (inr tt)) tt.

Definition parse_word : M St nat :=
  do! skip_whitespaces in
  let! begin := gets p in
  do! loop rounds (λ _,
    let! c := cur in
    if negb (c =? 0) && negb (is_in whitespace c) && negb (is_in symbols c)
    then do! advance in ret (inl tt) else ret (inr tt)) tt in
  let! k := gets p in
  do! store k 0 in
  ret begin.

(** [argv] holds the [i] arguments so far; the array has [NARGS] elements. *)
Definition exec_round (argv : list nat) : M St (list nat + Cmd) :=
  let! c := cur in
  if negb (c =? 0) && negb (is_in symbols c) then
    if (NARGS <? length argv)%nat then ret (inr NullCmd) else
    let! arg := parse_word in
    do! advance in
    if (NARGS <=? length argv)%nat then fault else
    do! skip_whitespaces in
    ret (inl (argv ++ [arg]))
  else ret (inr (ExecCmd argv)).

Definition parse_exec : M St Cmd :=
  do! alloc sizeof_ExecCmd in
  loop rounds exec_round [].

Fixpoint parse_pipe (fuel : nat) : M St Cmd :=
  match fuel with
  | O => hang
  | Datatypes.S fuel =>
      let! cmd := parse_exec in
      do! skip_whitespaces in
      let! c := cur in
      if c =? 124 then
        do! advance in
        do! alloc sizeof_PipeCmd in
        let! cmd2 := parse_pipe fuel in
        ret (PipeCmd cmd cmd2)
      else ret cmd
  end.

Fixpoint parse_seq (fuel : nat) : M St Cmd :=
  match fuel with
  | O => hang
  | Datatypes.S fuel =>
      let! cmd := parse_pipe rounds in
      do! skip_whitespaces in
      let! c := cur in
      if c =? 59 then
        do! advance in
        do! alloc sizeof_SeqCmd in
        let! cmd2 := parse_seq fuel in
        ret (SeqCmd cmd cmd2)
      else ret cmd
  end.

Definition parse_cmd : M St Cmd :=
  do! skip_whitespaces in
  parse_seq rounds.

Definition run_cmd (cmd : Cmd) : M St unit :=
  match cmd with
  | NullCmd => fault
  | ExecCmd _ => done!
  | PipeCmd _ _ => done!
  | SeqCmd _ _ => done!
  end.

(** The loop of [gets]: [pos], [len], [i] and [gets_buf]. It leaves with [i]
    and [len]. *)
Definition gets_round (v : Z * Z * nat * list Z) : M St (Z * Z * nat * list Z + nat * Z) :=
  let '(pos, len, i, gets_buf) := v in
  if (BUF_SZ - 1 <=? i)%nat then ret (inr (i, len)) else
  let! ' (pos, len, gets_buf, eof) :=
    (if len <=? pos then
       let! ' (len, l) := sys (sys_read 0 512) in
       ret (0, len, splice 0 l gets_buf, len <=? 0)
     else ret (pos, len, gets_buf, false)) in
  if eof : bool then ret (inr (i, len)) else
  let! c := need (gets_buf !! Z.to_nat pos) in
  do! store i c in
  if (c =? 10) || (c =? 13) then ret (inr ((i + 1)%nat, len))
  else ret (inl (pos + 1, len, (i + 1)%nat, gets_buf)).

(** The line buffer, or a null pointer *)
Definition gets_line : M St bool :=
  let! ' (i, len) := loop rounds gets_round (0, 0, 0%nat, replicate 512 0) in
  do! store i 0 in
  ret (negb ((i =? 0)%nat && (len <=? 0))).

Definition next_line : M St bool :=
  do! puts [62; 32] in
  do! clear in
  let! _ := gets_line in
  let! b := gets buf in
  let! c := need (b !! 0%nat) in
  ret (negb (c =? 0)).

(** ["failed to parse the command\n"] *)
Definition parse_message : list Z :=
  [102; 97; 105; 108; 101; 100; 32; 116; 111; 32; 112; 97; 114; 115; 101; 32; 116; 104; 101; 32; 99; 111; 109; 109;
   97; 110; 100; 10].

Definition main_round (_ : unit) : M St (unit + Z) :=
  let! more := next_line in
  if negb more then ret (inr 0) else
  let! cmd := parse_cmd in
  match cmd with
  | NullCmd => do! puts parse_message in ret (inl tt)
  | _ =>
      let! pid := sys sys_fork in
      do! (if pid =? 0 then run_cmd cmd else let! _ := sys sys_wait in done!) in
      ret (inl tt)
  end.

Definition main (fuel : nat) : M St Z := loop fuel main_round tt.

End sh.

(** ** Specifications *)

Definition is_ws (c : Z) : Prop := is_in whitespace c = true.

(** A character of a word: no white space, no symbol, not the terminator *)
Definition word_char (c : Z) : Prop := c ≠ 0 ∧ is_in whitespace c = false ∧ is_in symbols c = false.

Definition word : Type := list Z.

Definition word_ok (w : word) : Prop := w ≠ [] ∧ Forall word_char w.

(** Words, each followed by a delimiter and white space *)
Inductive words_text (delim : Z → Prop) : list word → list Z → Prop :=
| words_nil : words_text delim [] []
| words_cons w d sep ws t :
    word_ok w → delim d → Forall is_ws sep → words_text delim ws t →
    words_text delim (w :: ws) (w ++ d :: sep ++ t).

(** What the user types: words, each followed by white space *)
Definition exec_text : list word → list Z → Prop := words_text is_ws.

(** Commands of one to three words, between bars *)
Inductive pipe_text : list (list word) → list Z → Prop :=
| pipe_one e t : exec_text e t → (1 ≤ length e ≤ NARGS)%nat → pipe_text [e] t
| pipe_cons e t ws l u :
    exec_text e t → (1 ≤ length e ≤ NARGS)%nat → Forall is_ws ws → pipe_text l u →
    pipe_text (e :: l) (t ++ 124 :: ws ++ u).

(** Pipelines between semicolons *)
Inductive seq_text : list (list (list word)) → list Z → Prop :=
| seq_one l t : pipe_text l t → seq_text [l] t
| seq_cons l t ws q u :
    pipe_text l t → Forall is_ws ws → seq_text q u → seq_text (l :: q) (t ++ 59 :: ws ++ u).

(** The string at index [k] of the buffer is [w]. *)
Definition points (b : list Z) (k : nat) (w : word) : Prop :=
  slice k (length w) b = w ∧ b !! (k + length w)%nat = Some 0.

(** The tree that stands for a line, given what the arguments point to *)
Section tree.
Context (P : nat → word → Prop).

Definition exec_tree (cmd : Cmd) (e : list word) : Prop := ∃ argv, cmd = ExecCmd argv ∧ Forall2 P argv e.

Fixpoint pipe_tree (cmd : Cmd) (l : list (list word)) : Prop :=
  match l with
  | [] => False
  | e :: l =>
      match l with
      | [] => exec_tree cmd e
      | _ => ∃ cmd1 cmd2, cmd = PipeCmd cmd1 cmd2 ∧ exec_tree cmd1 e ∧ pipe_tree cmd2 l
      end
  end.

Fixpoint seq_tree (cmd : Cmd) (q : list (list (list word))) : Prop :=
  match q with
  | [] => False
  | l :: q =>
      match q with
      | [] => pipe_tree cmd l
      | _ => ∃ cmd1 cmd2, cmd = SeqCmd cmd1 cmd2 ∧ pipe_tree cmd1 l ∧ seq_tree cmd2 q
      end
  end.
End tree.

(** ** Lemmas *)

(** What the shell relies on: the calls return; [read] gives the next line that
    has been typed, of those that [sys_input] holds. *)
Class SysOk (W : Type) `{Sys W} := {
  sys_input : W → list (list Z);
  sys_sbrk_ok : ∀ n w, wp (sys_sbrk n) w (λ _ w', sys_input w' = sys_input w);
  sys_write_ok : ∀ fd l w, wp (sys_write fd l) w (λ _ w', sys_input w' = sys_input w);
  sys_read_ok : ∀ w c cs, sys_input w = c :: cs → c ≠ [] → zlen c ≤ 512 →
    wp (sys_read 0 512) w (λ '(n, l) w', n = zlen c ∧ l = c ∧ sys_input w' = cs);
}.

Section parser.
Context {W : Type} {S : Sys W} {SO : SysOk W}.
Notation St := (State W).
Implicit Types (s : St).

(** The rest of the line *)
Definition rest s : list Z := drop (p s) (buf s).

(** The parser has moved from [s] to [s'], where [r] is the rest of the line;
    what is behind it has not changed. *)
Record moved (s s' : St) (r : list Z) : Prop := mk_moved {
  mv_rest : rest s' = r;
  mv_p : (p s ≤ p s')%nat;
  mv_behind : take (p s) (buf s') = take (p s) (buf s);
  mv_len : length (buf s') = length (buf s);
}.

Lemma moved_trans s s1 s2 r1 r2 : moved s s1 r1 → moved s1 s2 r2 → moved s s2 r2.
Proof.
  intros [Hr1 Hp1 Hb1 Hl1] [Hr2 Hp2 Hb2 Hl2]. split; [done|lia| |lia].
  rewrite <- Hb1. apply (f_equal (take (p s))) in Hb2. by rewrite !take_take, !Nat.min_l in Hb2 by lia.
Qed.

Lemma rest_lookup s c r : rest s = c :: r → buf s !! p s = Some c.
Proof.
  intros Hr. pose proof (lookup_drop (buf s) (p s) 0) as Hl. change (drop (p s) (buf s)) with (rest s) in Hl.
  rewrite Hr, Nat.add_0_r in Hl. by symmetry.
Qed.

Lemma wp_cur s c r (Q : Z → St → Prop) : rest s = c :: r → Q c s → wp cur s Q.
Proof. intros Hr HQ. unfold cur. rewrite wp_bind, wp_gets. eapply wp_need; [by eapply rest_lookup|done]. Qed.

Definition at_p (k : nat) s : St := mkState (buf s) k (allocated s) (world s).

Lemma moved_ahead s r1 r : rest s = r1 ++ r → moved s (at_p (p s + length r1) s) r.
Proof.
  intros Hr. split; cbn; [|lia|done|done]. unfold rest in *. cbn.
  by rewrite <- drop_drop, Hr, drop_app_length.
Qed.

Lemma wp_advance s c r (Q : unit → St → Prop) : rest s = c :: r →
  (moved s (at_p (p s + 1) s) r → Q tt (at_p (p s + 1) s)) → wp advance s Q.
Proof.
  intros Hr HQ. unfold advance. rewrite wp_bind, wp_gets. unfold set_p. rewrite wp_modify.
  apply HQ. by apply (moved_ahead s [c]).
Qed.

(** Both scanning loops: over [l], up to a character that stops them *)
Lemma scan_ok (f : Z → bool) fuel l c r : ∀ s, rest s = l ++ c :: r →
  Forall (λ x, f x = true) l → f c = false → (length l < fuel)%nat →
  wp (loop fuel (λ _, let! c := cur in if f c then do! advance in ret (inl tt) else ret (inr tt)) tt) s
     (λ _ s', s' = at_p (p s + length l) s).
Proof.
  revert fuel. induction l as [|x l IH]; intros fuel s Hr Hl Hc Hf; (destruct fuel as [|fuel]; [cbn in Hf; lia|]).
  - rewrite wp_loop_S, wp_bind. eapply wp_cur; [exact Hr|]. rewrite Hc, wp_ret. cbn. rewrite Nat.add_0_r. by destruct s.
  - apply Forall_cons_1 in Hl as [Hx Hl]. rewrite wp_loop_S, wp_bind. eapply wp_cur; [exact Hr|]. rewrite Hx, wp_bind.
    eapply wp_advance; [exact Hr|]. intros Hm. rewrite wp_ret.
    eapply wp_mono; [apply IH; [apply Hm|done|done|cbn in Hf; lia]|]. cbn beta. intros [] s' ->.
    unfold at_p. cbn. f_equal. lia.
Qed.

Lemma rest_length s : (length (rest s) ≤ length (buf s))%nat.
Proof. unfold rest. rewrite length_drop. lia. Qed.

(** [c] ends white space. *)
Definition no_ws (c : Z) : Prop := is_in whitespace c = false.

Lemma is_in_zero l c : is_in l c = true → Forall (λ x, x ≠ 0) l → c ≠ 0.
Proof.
  unfold is_in. intros (x & Hx & ->%Z.eqb_eq)%existsb_exists Hl -> .
  rewrite Forall_forall in Hl. apply (Hl 0); [by apply list_elem_of_In|done].
Qed.

Lemma is_ws_nonzero c : is_ws c → c ≠ 0.
Proof. intros Hc. eapply is_in_zero; [exact Hc|]. by repeat apply Forall_cons_2. Qed.

Lemma skip_ok s ws c r : rest s = ws ++ c :: r → Forall is_ws ws → no_ws c → length (buf s) = BUF_SZ →
  wp skip_whitespaces s (λ _ s', s' = at_p (p s + length ws) s ∧ moved s s' (c :: r)).
Proof.
  intros Hr Hws Hc Hlen. pose proof (rest_length s) as Hl. rewrite Hr, length_app, Hlen in Hl. cbn [length] in Hl.
  eapply wp_mono.
  - apply (scan_ok (λ c, negb (c =? 0) && is_in whitespace c) rounds ws c r s Hr).
    + eapply Forall_impl; [exact Hws|]. intros x Hx. rewrite Hx. by rewrite (proj2 (Z.eqb_neq _ _)) by (by apply is_ws_nonzero).
    + rewrite Hc. apply andb_false_r.
    + unfold rounds, BUF_SZ in *. lia.
  - cbn beta. intros [] s' ->. split; [done|]. by apply moved_ahead.
Qed.

(** The argument [k] is [w], and lies behind the parser. *)
Definition parsed s (k : nat) (w : word) : Prop := points (buf s) k w ∧ (k + length w < p s)%nat.

Lemma parsed_moved s s' r k w : moved s s' r → parsed s k w → parsed s' k w.
Proof.
  intros [_ Hp Hb _] [[Hs H0] Hk]. assert (∀ j, (j < p s)%nat → buf s' !! j = buf s !! j) as Hj.
  { intros j Hj. by rewrite <- (lookup_take_lt (buf s') (p s) j), Hb, lookup_take_lt by done. }
  split; [split|lia].
  - rewrite <- Hs at 2. apply list_eq. intros i. destruct (decide (i < length w)%nat).
    + rewrite !lookup_slice by done. apply Hj. lia.
    + rewrite !lookup_ge_None_2; [done|unfold slice; rewrite length_take; lia..].
  - rewrite Hj by done. exact H0.
Qed.

(** [c] ends a word. *)
Definition stop (c : Z) : Prop := c = 0 ∨ is_ws c ∨ is_in symbols c = true.

Lemma word_char_no_ws c : word_char c → no_ws c.
Proof. by intros (_ & ? & _). Qed.

Lemma parse_word_ok s ws w d r :
  rest s = ws ++ w ++ d :: r → Forall is_ws ws → word_ok w → stop d → length (buf s) = BUF_SZ →
  wp parse_word s (λ k s', moved s s' (0 :: r) ∧ points (buf s') k w ∧ p s' = (k + length w)%nat).
Proof.
  intros Hr Hws [Hne Hw] Hd Hlen. destruct w as [|c w0] eqn:Ew; [done|]. rewrite <- Ew in *.
  assert (no_ws c) as Hc by (subst w; apply Forall_cons_1 in Hw as [? _]; by apply word_char_no_ws).
  unfold parse_word. rewrite wp_bind.
  eapply wp_mono; [apply (skip_ok s ws c (w0 ++ d :: r)); [rewrite Hr; by subst w|done|done|done]|].
  cbn beta. intros [] s1 [-> Hm1]. rewrite wp_bind, wp_gets. cbn [p at_p].
  change (c :: w0 ++ d :: r) with ((c :: w0) ++ d :: r) in Hm1. rewrite <- Ew in Hm1.
  pose proof (mv_rest _ _ _ Hm1) as Hr1. set (s1 := at_p (p s + length ws) s) in *.
  assert (length (w ++ d :: r) ≤ BUF_SZ)%nat as Hl1.
  { rewrite <- Hr1, <- Hlen. exact (rest_length s1). }
  rewrite wp_bind. eapply wp_mono.
  { apply (scan_ok (λ c, negb (c =? 0) && negb (is_in whitespace c) && negb (is_in symbols c)) rounds w d r s1 Hr1).
    - eapply Forall_impl; [exact Hw|]. intros x (H1 & H2 & H3). rewrite H2, H3. by rewrite (proj2 (Z.eqb_neq _ _)) by done.
    - destruct Hd as [->|[Hd|Hd]]; [done|rewrite Hd; by destruct (d =? 0)|rewrite Hd; apply andb_false_r].
    - rewrite length_app in Hl1. unfold rounds. cbn [length] in Hl1. lia. }
  cbn beta. intros [] s2 ->. rewrite wp_bind, wp_gets. cbn [p at_p].
  set (k := (p s + length ws)%nat) in *. set (e := (k + length w)%nat).
  assert (buf s !! e = Some d) as Hbe.
  { pose proof (lookup_drop (buf s) k (length w)) as Hl. change (drop k (buf s)) with (rest s1) in Hl.
    rewrite Hr1, list_lookup_middle in Hl by done. by symmetry. }
  pose proof (lookup_lt_Some _ _ _ Hbe) as Hlt.
  rewrite wp_bind. unfold store at 1. rewrite wp_bind, wp_gets. cbn [buf at_p s1].
  rewrite (proj2 (Nat.ltb_lt _ _)) by done. rewrite wp_modify, wp_ret. cbn [buf p allocated world at_p s1].
  fold k. change (p s1) with k. fold e.
  assert (drop e (buf s) = d :: r) as Hde.
  { unfold e. rewrite <- drop_drop. change (drop k (buf s)) with (rest s1). rewrite Hr1. apply drop_app_length. }
  split; [split; cbn; [|lia| |by rewrite length_insert]|split; [split|done]].
  - unfold rest. cbn. rewrite (drop_S (<[e:=0]> (buf s)) 0 e) by (by apply list_lookup_insert_eq).
    rewrite drop_insert_lt by lia. f_equal. rewrite (drop_S _ d e Hbe) in Hde. by injection Hde.
  - apply take_insert_ge. lia.
  - unfold slice. rewrite take_drop_commute, take_insert_ge by lia. rewrite <- take_drop_commute.
    change (drop k (buf s)) with (rest s1). rewrite Hr1. apply take_app_length.
  - by apply list_lookup_insert_eq.
Qed.

Lemma alloc_ok s n : wp (alloc n) s (λ _ s', moved s s' (rest s) ∧ length (buf s') = length (buf s)).
Proof.
  unfold alloc. rewrite wp_bind, wp_gets, wp_bind. unfold set_allocated. rewrite wp_modify, wp_bind.
  unfold sys. rewrite wp_zoom. wp_apply sys_sbrk_ok. intros a w _. by rewrite wp_ret.
Qed.

(** [c] ends a simple command. *)
Definition exec_end (c : Z) : Prop := c = 0 ∨ c = 124 ∨ c = 59.

Lemma exec_end_no_ws c : exec_end c → no_ws c.
Proof. by intros [->|[->| ->]]. Qed.

Lemma exec_end_test c : exec_end c → negb (c =? 0) && negb (is_in symbols c) = false.
Proof. by intros [->|[->| ->]]. Qed.

Lemma words_text_head P e t c r : words_text P e t → no_ws c → ∃ c' r', t ++ c :: r = c' :: r' ∧ no_ws c'.
Proof.
  intros [|w d sep ws t' [Hne Hw] _ _ _] Hc; [by exists c, r|].
  destruct w as [|x w]; [done|]. apply Forall_cons_1 in Hw as [Hx _]. eexists x, _. split; [reflexivity|].
  by apply word_char_no_ws.
Qed.

(** The first character of what is before a word, and of the word *)
Lemma lead_head lead w r : Forall is_ws lead → word_ok w → ∃ c r',
  lead ++ w ++ r = c :: r' ∧ negb (c =? 0) && negb (is_in symbols c) = true.
Proof.
  intros Hl [Hne Hw]. destruct lead as [|x lead].
  - destruct w as [|x w]; [done|]. apply Forall_cons_1 in Hw as [(H1 & _ & H3) _]. eexists x, _. split; [reflexivity|].
    rewrite H3. by rewrite (proj2 (Z.eqb_neq _ _)) by done.
  - apply Forall_cons_1 in Hl as [Hx _]. eexists x, _. split; [reflexivity|].
    rewrite (proj2 (Z.eqb_neq _ _)) by (by apply is_ws_nonzero). cbn [negb andb].
    unfold is_ws, is_in in Hx. apply existsb_exists in Hx as (y & Hy & ->%Z.eqb_eq).
    cbn in Hy. by repeat (destruct Hy as [<-|Hy]; [reflexivity|]).
Qed.

Lemma exec_loop_ok (P : Z → Prop) (HP : ∀ d, P d → stop d) e t : words_text P e t → ∀ fuel s argv lead c r,
  rest s = lead ++ t ++ c :: r → Forall is_ws lead → (e = [] → lead = []) → exec_end c →
  (length argv + length e ≤ NARGS)%nat → (length e < fuel)%nat → length (buf s) = BUF_SZ →
  wp (loop fuel exec_round argv) s (λ cmd s', ∃ argv', cmd = ExecCmd (argv ++ argv') ∧
    Forall2 (parsed s') argv' e ∧ moved s s' (c :: r)).
Proof.
  induction 1 as [|w d sep ws t Hw Hd Hsep Ht IH]; intros fuel s argv lead c r Hr Hl Hnil Hc Hn Hf Hlen;
    (destruct fuel as [|fuel]; [cbn in Hf; lia|]); rewrite wp_loop_S; unfold exec_round at 1; rewrite wp_bind.
  - rewrite Hnil in Hr by done. eapply wp_cur; [exact Hr|]. rewrite exec_end_test by done. rewrite wp_ret.
    exists []. rewrite app_nil_r. split; [done|]. split; [done|]. by split.
  - destruct (lead_head lead w (d :: sep ++ t ++ c :: r) Hl Hw) as (c' & r' & Heq & Htest).
    assert (rest s = lead ++ w ++ d :: (sep ++ t ++ c :: r)) as Hr1.
    { rewrite Hr. by rewrite <- !app_assoc, <- app_comm_cons, <- app_assoc. }
    eapply wp_cur; [rewrite Hr1; exact Heq|]. rewrite Htest.
    cbn [length] in Hn, Hf. rewrite (proj2 (Nat.ltb_ge _ _)) by lia.
    rewrite wp_bind. eapply wp_mono; [eapply parse_word_ok; [exact Hr1|done|done|by apply HP|done]|]. cbn beta.
    intros k s1 (Hm1 & Hpt & Hp1). rewrite wp_bind. eapply wp_advance; [apply Hm1|]. intros Hm2.
    rewrite (proj2 (Nat.leb_gt _ _)) by lia. rewrite wp_bind.
    set (s2 := at_p (p s1 + 1) s1) in *. pose proof (moved_trans _ _ _ _ _ Hm1 Hm2) as Hm12.
    assert (parsed s2 k w) as Hk by (split; [done|cbn; lia]).
    destruct (words_text_head _ ws t c r Ht (exec_end_no_ws _ Hc)) as (c2 & r2 & Heq2 & Hc2).
    assert (length (buf s2) = BUF_SZ) as Hlen2 by (rewrite (mv_len _ _ _ Hm12); done).
    eapply wp_mono; [apply (skip_ok s2 sep c2 r2); [by rewrite (mv_rest _ _ _ Hm2), Heq2|done|done|done]|]. cbn beta.
    intros [] s3 [Hs3 Hm3]. rewrite wp_ret. rewrite <- Heq2 in Hm3.
    assert (length (buf s3) = BUF_SZ) as Hlen3 by (rewrite (mv_len _ _ _ Hm3); done).
    eapply wp_mono; [apply (IH fuel s3 (argv ++ [k]) [] c r);
      [apply Hm3|constructor|done|done|rewrite length_app; cbn; lia|lia|done]|]. cbn beta.
    intros cmd s4 (argv' & -> & Hall & Hm4). exists (k :: argv'). rewrite <- app_assoc. split; [done|]. split.
    + constructor; [|done]. by eapply parsed_moved, parsed_moved.
    + by eapply moved_trans, moved_trans.
Qed.

(** *** Trees *)

Lemma exec_tree_mono (P Q : nat → word → Prop) cmd e :
  (∀ k w, P k w → Q k w) → exec_tree P cmd e → exec_tree Q cmd e.
Proof. intros HPQ (argv & -> & Hall). exists argv. split; [done|]. eapply Forall2_impl; [exact Hall|exact HPQ]. Qed.

Lemma pipe_tree_mono (P Q : nat → word → Prop) cmd l :
  (∀ k w, P k w → Q k w) → pipe_tree P cmd l → pipe_tree Q cmd l.
Proof.
  intros HPQ. revert cmd. induction l as [|e [|e' l] IH]; intros cmd; [done|by apply exec_tree_mono|].
  intros (c1 & c2 & -> & H1 & H2). exists c1, c2. split; [done|]. split; [by eapply exec_tree_mono|by apply IH].
Qed.

Lemma seq_tree_mono (P Q : nat → word → Prop) cmd q :
  (∀ k w, P k w → Q k w) → seq_tree P cmd q → seq_tree Q cmd q.
Proof.
  intros HPQ. revert cmd. induction q as [|l [|l' q] IH]; intros cmd; [done|by apply pipe_tree_mono|].
  intros (c1 & c2 & -> & H1 & H2). exists c1, c2. split; [done|]. split; [by eapply pipe_tree_mono|by apply IH].
Qed.

Lemma words_text_length P e t : words_text P e t → (length e ≤ length t)%nat.
Proof. induction 1; cbn [length]; [lia|]. rewrite length_app. cbn [length]. rewrite length_app. lia. Qed.

Lemma pipe_text_length l t : pipe_text l t → (length l ≤ length t)%nat.
Proof.
  induction 1 as [e t He Hn|e t ws l u He Hn _ _ IH]; cbn [length]; apply words_text_length in He; [lia|].
  rewrite length_app. cbn [length]. rewrite length_app. lia.
Qed.

Lemma seq_text_length q t : seq_text q t → (length q ≤ length t)%nat.
Proof.
  induction 1 as [l t Hl|l t ws q u Hl _ _ IH]; apply pipe_text_length in Hl as Hlen; cbn [length].
  - inversion Hl; subst; cbn [length] in Hlen; lia.
  - rewrite length_app. cbn [length]. rewrite length_app. lia.
Qed.

(** *** The parsers *)

Lemma ws_stop d : is_ws d → stop d.
Proof. intros. right. by left. Qed.

Lemma parse_exec_ok (P : Z → Prop) (HP : ∀ d, P d → stop d) s e t lead c r :
  words_text P e t → (1 ≤ length e ≤ NARGS)%nat → rest s = lead ++ t ++ c :: r → Forall is_ws lead → exec_end c →
  length (buf s) = BUF_SZ →
  wp parse_exec s (λ cmd s', exec_tree (parsed s') cmd e ∧ moved s s' (c :: r) ∧ length (buf s') = BUF_SZ).
Proof.
  intros He Hn Hr Hl Hc Hlen. unfold parse_exec. rewrite wp_bind. wp_apply alloc_ok. intros [] s1 [Hm Hl1].
  eapply wp_mono; [apply (exec_loop_ok P HP e t He rounds s1 [] lead c r); try done|].
  - by rewrite (mv_rest _ _ _ Hm).
  - intros ->. cbn in Hn. lia.
  - cbn. lia.
  - unfold rounds, NARGS, BUF_SZ in *. lia.
  - congruence.
  - cbn beta. intros cmd s2 (argv & -> & Hall & Hm2). split; [by exists argv|].
    split; [by eapply moved_trans|]. rewrite (mv_len _ _ _ Hm2). congruence.
Qed.

(** What both operators do: past the symbol, and memory for the node *)
Lemma operator_ok s c r n {A} (k : M St A) Q :
  rest s = c :: r → length (buf s) = BUF_SZ →
  (∀ s', moved s s' r → length (buf s') = BUF_SZ → wp k s' Q) →
  wp (do! advance in do! alloc n in k) s Q.
Proof.
  intros Hr Hlen Hk. rewrite wp_bind. eapply wp_advance; [exact Hr|]. intros Hm. rewrite wp_bind.
  wp_apply alloc_ok. intros [] s' [Hm' Hl']. rewrite (mv_rest _ _ _ Hm) in Hm'.
  apply Hk; [by eapply moved_trans|rewrite Hl'; exact Hlen].
Qed.

(** Nothing to skip *)
Lemma skip_none_ok s c r : rest s = c :: r → no_ws c → length (buf s) = BUF_SZ →
  wp skip_whitespaces s (λ _ s', s' = s).
Proof.
  intros Hr Hc Hlen. eapply wp_mono; [by apply (skip_ok s [] c r)|]. cbn beta. intros [] s' [-> _].
  unfold at_p. cbn. rewrite Nat.add_0_r. by destruct s.
Qed.

Lemma parse_pipe_ok l u : pipe_text l u → ∀ fuel s lead c r,
  rest s = lead ++ u ++ c :: r → Forall is_ws lead → c = 0 ∨ c = 59 → (length l ≤ fuel)%nat →
  length (buf s) = BUF_SZ →
  wp (parse_pipe fuel) s (λ cmd s', pipe_tree (parsed s') cmd l ∧ moved s s' (c :: r) ∧ length (buf s') = BUF_SZ).
Proof.
  induction 1 as [e t He Hn|e t ws l u He Hn Hws Hu IH]; intros fuel s lead c r Hr Hl Hc Hf Hlen;
    (destruct fuel as [|fuel]; [cbn in Hf; lia|]); cbn [parse_pipe]; rewrite wp_bind.
  - wp_apply (parse_exec_ok is_ws ws_stop s e t lead c r); try done; [by destruct Hc as [->| ->]; [left|right; right]|].
    intros cmd s1 (Ht1 & Hm1 & Hl1). pose proof (mv_rest _ _ _ Hm1) as Hr1.
    rewrite wp_bind. eapply wp_mono; [apply (skip_none_ok s1 c r Hr1); [|done]; by destruct Hc as [->| ->]|].
    cbn beta. intros [] s2 ->. rewrite wp_bind. eapply wp_cur; [exact Hr1|].
    rewrite (proj2 (Z.eqb_neq c 124)) by lia. by rewrite wp_ret.
  - rewrite <- app_assoc, <- app_comm_cons, <- app_assoc in Hr.
    wp_apply (parse_exec_ok is_ws ws_stop s e t lead 124 (ws ++ u ++ c :: r)); try done; [by right; left|].
    intros cmd s1 (Ht1 & Hm1 & Hl1). pose proof (mv_rest _ _ _ Hm1) as Hr1.
    rewrite wp_bind. eapply wp_mono; [by apply (skip_none_ok s1 124 _ Hr1)|].
    cbn beta. intros [] s2 ->. rewrite wp_bind. eapply wp_cur; [exact Hr1|]. rewrite Z.eqb_refl.
    eapply operator_ok; [exact Hr1|done|]. intros s2 Hm2 Hl2. rewrite wp_bind.
    eapply wp_mono; [apply (IH fuel s2 ws c r); [apply Hm2|done|done|cbn in Hf; lia|done]|]. cbn beta.
    intros cmd2 s3 (Ht3 & Hm3 & Hl3). rewrite wp_ret. split; [|split; [|done]].
    + inversion Hu; subst; exists cmd, cmd2; (split; [done|]); (split; [|done]);
        (eapply exec_tree_mono; [|exact Ht1]); intros k w Hk; by eapply parsed_moved, parsed_moved.
    + by eapply moved_trans, moved_trans.
Qed.

Lemma parse_seq_ok q u : seq_text q u → ∀ fuel s lead r,
  rest s = lead ++ u ++ 0 :: r → Forall is_ws lead → (length q ≤ fuel)%nat → length (buf s) = BUF_SZ →
  wp (parse_seq fuel) s (λ cmd s', seq_tree (parsed s') cmd q ∧ moved s s' (0 :: r)).
Proof.
  assert (∀ s lead (l : list (list word)) t c r, rest s = lead ++ t ++ c :: r → pipe_text l t →
    length (buf s) = BUF_SZ → (length l ≤ rounds)%nat) as Hfuel.
  { intros s lead l t c r Hr Ht Hlen. apply pipe_text_length in Ht. pose proof (rest_length s) as Hl.
    rewrite Hr, !length_app, Hlen in Hl. unfold rounds. lia. }
  induction 1 as [l t Ht|l t ws q u Ht Hws Hu IH]; intros fuel s lead r Hr Hl Hf Hlen;
    (destruct fuel as [|fuel]; [cbn in Hf; lia|]); cbn [parse_seq]; rewrite wp_bind.
  - eapply wp_mono; [apply (parse_pipe_ok l t Ht rounds s lead 0 r); try done; [by left|by eapply Hfuel]|].
    cbn beta. intros cmd s1 (Ht1 & Hm1 & Hl1). pose proof (mv_rest _ _ _ Hm1) as Hr1.
    rewrite wp_bind. eapply wp_mono; [by apply (skip_none_ok s1 0 r Hr1)|].
    cbn beta. intros [] s2 ->. rewrite wp_bind. eapply wp_cur; [exact Hr1|]. change (0 =? 59) with false. cbn iota. by rewrite wp_ret.
  - rewrite <- app_assoc, <- app_comm_cons, <- app_assoc in Hr.
    eapply wp_mono; [apply (parse_pipe_ok l t Ht rounds s lead 59 (ws ++ u ++ 0 :: r)); try done; [by right|by eapply Hfuel]|].
    cbn beta. intros cmd s1 (Ht1 & Hm1 & Hl1). pose proof (mv_rest _ _ _ Hm1) as Hr1.
    rewrite wp_bind. eapply wp_mono; [by apply (skip_none_ok s1 59 _ Hr1)|].
    cbn beta. intros [] s2 ->. rewrite wp_bind. eapply wp_cur; [exact Hr1|]. rewrite Z.eqb_refl.
    eapply operator_ok; [exact Hr1|done|]. intros s2 Hm2 Hl2. rewrite wp_bind.
    eapply wp_mono; [apply (IH fuel s2 ws r); [apply Hm2|done|cbn in Hf; lia|done]|]. cbn beta.
    intros cmd2 s3 (Ht3 & Hm3). rewrite wp_ret. split.
    + inversion Hu; subst; exists cmd, cmd2; (split; [done|]); (split; [|done]);
        (eapply pipe_tree_mono; [|exact Ht1]); intros k w Hk; by eapply parsed_moved, parsed_moved.
    + by eapply moved_trans, moved_trans.
Qed.

(** *** The line *)

Definition input s : list (list Z) := sys_input (world s).

Lemma puts_ok l : ∀ s, wp (puts l) s (λ _ s', buf s' = buf s ∧ p s' = p s ∧ input s' = input s).
Proof.
  induction l as [|c l IH]; intros s; [done|]. cbn [puts foldr]. unfold putc, sys. rewrite !wp_bind, wp_zoom.
  wp_apply sys_write_ok. intros n w Hw. rewrite wp_ret. eapply wp_mono; [apply IH|]. cbn beta.
  intros [] s' (H1 & H2 & H3). cbn in *. split; [done|]. split; [done|]. rewrite H3. exact Hw.
Qed.

Lemma shell_clear_ok s : wp clear s (λ _ s', buf s' = replicate BUF_SZ 0 ∧ p s' = 0%nat ∧ input s' = input s).
Proof.
  unfold clear, free. rewrite wp_bind, wp_modify, wp_bind, wp_gets, wp_bind. cbn [allocated].
  destruct (0 <? allocated s).
  - unfold sys. rewrite wp_bind, wp_zoom. wp_apply sys_sbrk_ok. intros a w Hw. rewrite wp_ret.
    unfold set_allocated. rewrite wp_modify. by split.
  - rewrite wp_ret. unfold set_allocated. by rewrite wp_modify.
Qed.

(** A character that does not end a line *)
Definition line_char (c : Z) : Prop := c ≠ 10 ∧ c ≠ 13.

Definition stored (k : nat) (c : Z) s : St := mkState (<[k := c]> (buf s)) (p s) (allocated s) (world s).

Lemma wp_store s k c (Q : unit → St → Prop) : (k < length (buf s))%nat → Q tt (stored k c s) → wp (store k c) s Q.
Proof. intros Hk HQ. unfold store. rewrite wp_bind, wp_gets. by rewrite (proj2 (Nat.ltb_lt _ _)). Qed.

(** A character of the chunk goes to the line. *)
Lemma gets_char len s (pos i : nat) gb c r :
  drop pos gb = c :: r → (i < 511)%nat → pos < len → length (buf s) = BUF_SZ →
  wp (gets_round (Z.of_nat pos, len, i, gb)) s (λ v s', s' = stored i c s ∧
    v = if (c =? 10) || (c =? 13) then inr ((i + 1)%nat, len) else inl (Z.of_nat (pos + 1), len, (i + 1)%nat, gb)).
Proof.
  intros Hgb Hi Hpos Hlen. unfold gets_round, BUF_SZ in *. rewrite (proj2 (Nat.leb_gt _ _)) by lia.
  rewrite wp_bind, (proj2 (Z.leb_gt _ _)), wp_ret by lia. rewrite Nat2Z.id, wp_bind.
  eapply wp_need.
  { pose proof (lookup_drop gb pos 0) as Hl. rewrite Hgb, Nat.add_0_r in Hl. by symmetry. }
  rewrite wp_bind. apply wp_store; [lia|]. destruct ((c =? 10) || (c =? 13)); rewrite wp_ret; [done|].
  split; [done|]. do 4 f_equal. lia.
Qed.

(** The loop of [gets] once a chunk has been read *)
Lemma gets_loop_ok len l : ∀ fuel s (pos i : nat) gb extra,
  drop pos gb = l ++ 10 :: extra → Forall line_char l → (i + length l < 511)%nat → pos + zlen l < len →
  length (buf s) = BUF_SZ → (length l < fuel)%nat →
  wp (loop fuel gets_round (Z.of_nat pos, len, i, gb)) s (λ '(i', len') s',
    i' = (i + length l + 1)%nat ∧ buf s' = splice i (l ++ [10]) (buf s) ∧ p s' = p s ∧ world s' = world s).
Proof.
  induction l as [|c l IH]; intros fuel s pos i gb extra Hgb Hl Hi Hpos Hlen Hf;
    (destruct fuel as [|fuel]; [cbn in Hf; lia|]); rewrite wp_loop_S;
    unfold zlen in *; cbn [length] in *; rewrite ?Nat2Z.inj_succ in Hpos.
  - eapply wp_mono; [eapply gets_char; [exact Hgb|lia|lia|done]|]. cbn beta. intros v s' [-> ->].
    split; [lia|]. split; [|done]. cbn [buf stored]. apply insert_splice_one. unfold BUF_SZ in Hlen. lia.
  - apply Forall_cons_1 in Hl as [[H1 H2] Hl].
    eapply wp_mono; [eapply gets_char; [exact Hgb|lia|lia|done]|]. cbn beta. intros v s' [-> ->].
    rewrite (proj2 (Z.eqb_neq c 10)), (proj2 (Z.eqb_neq c 13)) by done. cbn [orb].
    eapply wp_mono; [apply (IH fuel (stored i c s) (pos + 1)%nat (i + 1)%nat gb extra)|].
    + rewrite <- drop_drop, Hgb. done.
    + done.
    + lia.
    + lia.
    + cbn. by rewrite length_insert.
    + lia.
    + cbn beta. intros [i' len'] s' (-> & Hb & Hp & Hw). split; [lia|]. split; [|done].
      rewrite Hb. cbn [buf stored]. apply splice_cons. rewrite length_app. cbn. unfold BUF_SZ in Hlen. lia.
Qed.

(** The first round of the loop reads a chunk, and goes on as with that chunk. *)
Lemma gets_first fuel s gb c cs Q :
  input s = c :: cs → c ≠ [] → zlen c ≤ 512 →
  (∀ s1, buf s1 = buf s → p s1 = p s → input s1 = cs →
    wp (loop (Datatypes.S fuel) gets_round (0, zlen c, 0%nat, splice 0 c gb)) s1 Q) →
  wp (loop (Datatypes.S fuel) gets_round (0, 0, 0%nat, gb)) s Q.
Proof.
  intros Hin Hne Hc HQ. assert (0 < zlen c) as Hc0 by (unfold zlen; destruct c; cbn; [done|lia]).
  rewrite wp_loop_S. unfold gets_round at 1. change (BUF_SZ - 1 <=? 0)%nat with false. cbn iota.
  change (0 <=? 0) with true. cbn iota. rewrite !wp_bind. unfold sys. rewrite wp_zoom.
  wp_apply sys_read_ok; [exact Hin|done|done|]. intros [n l] w (-> & -> & Hw). rewrite wp_ret.
  rewrite (proj2 (Z.leb_gt _ _)) by lia.
  specialize (HQ (mkState (buf s) (p s) (allocated s) w) eq_refl eq_refl Hw). rewrite wp_loop_S in HQ.
  unfold gets_round at 1 in HQ. change (BUF_SZ - 1 <=? 0)%nat with false in HQ. cbn iota in HQ.
  rewrite (proj2 (Z.leb_gt _ _)) in HQ by lia. rewrite wp_bind, wp_ret in HQ. exact HQ.
Qed.

(** [next_line] with a line of at most 510 characters typed *)
Lemma next_line_ok s l extra cs :
  input s = (l ++ 10 :: extra) :: cs → Forall line_char l → zlen (l ++ 10 :: extra) ≤ 512 → (length l < 511)%nat →
  hd 10 l ≠ 0 →
  wp next_line s (λ b s', b = true ∧ p s' = 0%nat ∧ length (buf s') = BUF_SZ ∧ input s' = cs ∧
    ∃ r, buf s' = l ++ 10 :: 0 :: r).
Proof.
  intros Hin Hl Hc Hlen Hhd. unfold next_line. rewrite wp_bind. wp_apply puts_ok. intros [] s1 (Hb1 & Hp1 & Hi1).
  rewrite wp_bind. wp_apply shell_clear_ok. intros [] s2 (Hb2 & Hp2 & Hi2). rewrite Hi1, Hin in Hi2.
  unfold gets_line. rewrite !wp_bind. unfold rounds. change (1 + BUF_SZ)%nat with (Datatypes.S 512).
  eapply gets_first; [exact Hi2|by destruct l|done|]. intros s3 Hb3 Hp3 Hi3.
  assert (length (buf s3) = BUF_SZ) as Hl3 by (by rewrite Hb3, Hb2, length_replicate).
  set (c := l ++ 10 :: extra) in *.
  eapply wp_mono; [apply (gets_loop_ok (zlen c) l (Datatypes.S 512) s3 0 0 (splice 0 c (replicate 512 0))
    (extra ++ drop (length c) (replicate 512 0)))|].
  - rewrite drop_0. unfold splice, c. rewrite take_0, Nat.add_0_l. cbn [app]. by rewrite <- app_assoc.
  - done.
  - lia.
  - unfold c, zlen. rewrite length_app. cbn [length]. lia.
  - done.
  - lia.
  - cbn beta. intros [i len] s4 (-> & Hb4 & Hp4 & Hw4). rewrite wp_bind.
    assert (buf s4 = (l ++ [10]) ++ replicate (512 - (length l + 1)) 0) as Hb5.
    { rewrite Hb4, Hb3, Hb2. unfold splice. rewrite take_0, length_app, drop_replicate. done. }
    apply wp_store; [rewrite Hb5, !length_app, length_replicate; cbn [length]; lia|]. rewrite wp_ret.
    assert (buf (stored (0 + length l + 1) 0 s4) = l ++ 10 :: 0 :: replicate (510 - length l) 0) as Hb6.
    { cbn [buf stored]. rewrite Hb5. replace (512 - (length l + 1))%nat with (Datatypes.S (510 - length l)) by lia.
      cbn [replicate]. replace (0 + length l + 1)%nat with (length (l ++ [10%Z]) + 0)%nat by (rewrite length_app; cbn; lia).
      rewrite insert_app_r, <- app_assoc. done. }
    rewrite wp_bind, wp_gets, Hb6, wp_bind.
    eapply (wp_need _ (hd 10 l)); [by destruct l|]. rewrite wp_ret, (proj2 (Z.eqb_neq _ _)) by done.
    split; [done|]. split; [cbn; congruence|]. split.
    { rewrite Hb6, length_app. cbn [length]. rewrite length_replicate. unfold BUF_SZ. lia. }
    split; [|by eexists]. unfold input in *. cbn. by rewrite Hw4.
Qed.

(** *** Both together *)

Lemma ws_nonzero l : Forall is_ws l → Forall (λ c, c ≠ 0) l.
Proof. intros Hl. eapply Forall_impl; [exact Hl|]. apply is_ws_nonzero. Qed.

Lemma words_nonzero e t : exec_text e t → Forall (λ c, c ≠ 0) t.
Proof.
  induction 1 as [|w d sep ws t [_ Hw] Hd Hsep _ IH]; [constructor|]. apply Forall_app. split.
  - eapply Forall_impl; [exact Hw|]. by intros c (? & _).
  - constructor; [by apply is_ws_nonzero|]. apply Forall_app. split; [by apply ws_nonzero|exact IH].
Qed.

Lemma pipe_nonzero l t : pipe_text l t → Forall (λ c, c ≠ 0) t.
Proof.
  induction 1 as [e t He _|e t ws l u He _ Hw _ IH]; apply words_nonzero in He; [done|].
  apply Forall_app. split; [done|]. constructor; [done|]. apply Forall_app. split; [by apply ws_nonzero|exact IH].
Qed.

Lemma seq_nonzero q t : seq_text q t → Forall (λ c, c ≠ 0) t.
Proof.
  induction 1 as [l t Ht|l t ws q u Ht Hw _ IH]; apply pipe_nonzero in Ht; [done|].
  apply Forall_app. split; [done|]. constructor; [done|]. apply Forall_app. split; [by apply ws_nonzero|exact IH].
Qed.

Lemma parse_cmd_ok s q u lead r :
  seq_text q u → Forall is_ws lead → p s = 0%nat → buf s = lead ++ u ++ 0 :: r → length (buf s) = BUF_SZ →
  wp parse_cmd s (λ cmd s', seq_tree (points (buf s')) cmd q).
Proof.
  intros Hq Hl Hp Hb Hlen.
  assert (rest s = lead ++ u ++ 0 :: r) as Hr by (unfold rest; rewrite Hp; done).
  assert (∃ c r', u ++ 0 :: r = c :: r' ∧ no_ws c) as (c & r' & Heq & Hc).
  { assert (∀ l t x v, pipe_text l t → exec_end x → ∃ c r', t ++ x :: v = c :: r' ∧ no_ws c) as Hpipe.
    { intros l t x v [e t' He _|e t' ws l' u' He _ _ _] Hx; [by apply (words_text_head is_ws e), exec_end_no_ws|].
      rewrite <- app_assoc. by apply (words_text_head is_ws e). }
    destruct Hq as [l t Ht|l t ws q u Ht _ _]; [by apply (Hpipe l); [|left]|].
    rewrite <- app_assoc. apply (Hpipe l); [done|by right; right]. }
  rewrite Heq in Hr. unfold parse_cmd. rewrite wp_bind. wp_apply skip_ok; [exact Hr|done|done|done|].
  intros [] s1 [-> Hm1]. rewrite <- Heq in Hm1.
  eapply wp_mono; [apply (parse_seq_ok q u Hq rounds _ [] r); [apply Hm1|constructor| |done]|].
  - apply seq_text_length in Hq. rewrite Hb, !length_app in Hlen. unfold rounds. lia.
  - cbn beta. intros cmd s2 [Ht _]. eapply seq_tree_mono; [|exact Ht]. by intros k w [].
Qed.

(** ** Properties *)

(** C24: The shell reads a line and parses it as the grammar says: when a line
    of at most 510 characters has been typed that consists of pipelines of
    commands of one to three words, with white space after every word and
    around the symbols, [next_line] and [parse_cmd] return (the loops end, no
    access leaves the buffer) the tree of the line, whose arguments point to
    the words. What was typed behind the line in the same chunk is lost. *)
Theorem shell_parses s q u lead l extra cs :
  seq_text q u → Forall is_ws lead → lead ++ u = l ++ [10] → Forall line_char l → (length l < 511)%nat →
  input s = (l ++ 10 :: extra) :: cs → zlen (l ++ 10 :: extra) ≤ 512 →
  wp next_line s (λ more s1, more = true ∧ input s1 = cs ∧
    wp parse_cmd s1 (λ cmd s2, seq_tree (points (buf s2)) cmd q)).
Proof.
  intros Hq Hws Heq Hl Hlen Hin Hc.
  assert (hd 10 l ≠ 0) as Hhd.
  { destruct l as [|c l]; [done|]. assert (Forall (λ c, c ≠ 0) (lead ++ u)) as Hnz.
    { apply Forall_app. split; [by apply ws_nonzero|by eapply seq_nonzero]. }
    rewrite Heq in Hnz. by apply Forall_cons_1 in Hnz as [? _]. }
  wp_apply next_line_ok; [done..|]. intros more s1 (-> & Hp & Hb & Hi & r & Hbuf).
  split; [done|]. split; [done|]. eapply parse_cmd_ok; [exact Hq|exact Hws|done| |done].
  rewrite Hbuf, app_assoc, Heq, <- app_assoc. reflexivity.
Qed.

(** A symbol directly behind a word is overwritten by the terminator of the
    word and passed over: a line of one to three words, each followed by white
    space or by any symbol, is parsed as one simple command with all the
    words; [a|b] is no pipe. *)
Theorem shell_loses_symbols s e u lead r :
  words_text (λ d, is_ws d ∨ is_in symbols d = true) e u → (1 ≤ length e ≤ NARGS)%nat → Forall is_ws lead →
  p s = 0%nat → buf s = lead ++ u ++ 0 :: r → length (buf s) = BUF_SZ →
  wp parse_cmd s (λ cmd s', exec_tree (points (buf s')) cmd e).
Proof.
  intros He Hn Hl Hp Hb Hlen.
  assert (rest s = lead ++ u ++ 0 :: r) as Hr by (unfold rest; rewrite Hp; done).
  destruct (words_text_head _ e u 0 r He ltac:(done)) as (c & r' & Heq & Hc).
  unfold parse_cmd. rewrite wp_bind. rewrite Heq in Hr. wp_apply skip_ok; [exact Hr|done|done|done|].
  intros [] s1 [-> Hm1]. rewrite <- Heq in Hm1. set (s1 := at_p _ s) in *. unfold rounds at 1.
  cbn [parse_seq Nat.add]. rewrite wp_bind. unfold rounds at 1. cbn [parse_pipe Nat.add]. rewrite wp_bind.
  wp_apply (parse_exec_ok (λ d, is_ws d ∨ is_in symbols d = true) ltac:(by right) s1 e u [] 0 r); try done;
    [apply Hm1|by left|].
  intros cmd s2 (Ht & Hm2 & Hl2). pose proof (mv_rest _ _ _ Hm2) as Hr2.
  rewrite wp_bind. eapply wp_mono; [by apply (skip_none_ok s2 0 r Hr2)|]. cbn beta. intros [] s3 ->.
  rewrite wp_bind. eapply wp_cur; [exact Hr2|]. change (0 =? 124) with false. cbn iota. rewrite wp_ret.
  rewrite wp_bind. eapply wp_mono; [by apply (skip_none_ok s2 0 r Hr2)|]. cbn beta. intros [] s4 ->.
  rewrite wp_bind. eapply wp_cur; [exact Hr2|]. change (0 =? 59) with false. cbn iota. rewrite wp_ret.
  eapply exec_tree_mono; [|exact Ht]. by intros k w [].
Qed.
End parser.

(** ** Witnesses *)

(** A machine whose reads give the lines typed so far *)
Definition Typed : Type := list (list Z).

#[export] Instance typed_sys : Sys Typed := {
  sys_read _ _ w := match w with [] => Ok (0, []) [] | c :: w => Ok (zlen c, c) w end;
  sys_write _ l w := Ok (zlen l) w;
  sys_fork w := Ok 1 w;
  sys_wait w := Ok 1 w;
  sys_sbrk _ w := Ok 0 w;
}.

#[export] Instance typed_ok : SysOk Typed.
Proof.
  refine {| sys_input w := w |}; [done..|]. intros w c cs -> _ _. done.
Defined.

(** ["a b | c ; d\n"] *)
Definition demo_line : list Z := [97; 32; 98; 32; 124; 32; 99; 32; 59; 32; 100].

Definition demo_tree : list (list (list word)) := [[[[97]; [98]]; [[99]]]; [[[100]]]].

Definition typed_state (w : Typed) : State Typed := mkState [] 0 0 w.

Lemma word_1 c : word_char c → word_ok [c].
Proof. intros Hc. split; [done|]. by apply Forall_cons_2. Qed.

Lemma demo_seq_text : seq_text demo_tree (demo_line ++ [10]).
Proof.
  assert (∀ c d sep ws t, word_char c → is_ws d → Forall is_ws sep → exec_text ws t →
    exec_text ([c] :: ws) (c :: d :: sep ++ t)) as Hw by (intros; by apply (words_cons is_ws [c]); [apply word_1| | |]).
  apply (seq_cons [[[97]; [98]]; [[99]]] [97; 32; 98; 32; 124; 32; 99; 32] [32] [[[[100]]]] [100; 10]).
  - apply (pipe_cons [[97]; [98]] [97; 32; 98; 32] [32] [[[99]]] [99; 32]).
    + apply (Hw 97 32 [] [[98]] [98; 32]); [done..|]. by apply (Hw 98 32 [] [] []); [| | |constructor].
    + cbn. unfold NARGS. lia.
    + by constructor.
    + constructor; [by apply (Hw 99 32 [] [] []); [| | |constructor]|cbn; unfold NARGS; lia].
  - by constructor.
  - constructor. constructor; [by apply (Hw 100 10 [] [] []); [| | |constructor]|cbn; unfold NARGS; lia].
Qed.

Lemma shell_parses_witness :
  wp next_line (typed_state [demo_line ++ 10 :: [120]]) (λ more s1, more = true ∧ input s1 = [] ∧
    wp parse_cmd s1 (λ cmd s2, seq_tree (points (buf s2)) cmd demo_tree)).
Proof.
  apply (shell_parses _ demo_tree (demo_line ++ [10]) [] demo_line [120] []);
    [exact demo_seq_text|constructor|reflexivity| |cbn; lia|reflexivity|vm_compute; done].
  by repeat apply Forall_cons_2.
Defined.

(** ["a|b\n"] *)
Definition demo_bar : State Typed := mkState ([97; 124; 98; 10] ++ replicate 508 0) 0 0 [].

Lemma shell_loses_symbols_witness :
  wp parse_cmd demo_bar (λ cmd s', exec_tree (points (buf s')) cmd [[97]; [98]]).
Proof.
  apply (shell_loses_symbols demo_bar [[97]; [98]] [97; 124; 98; 10] [] (replicate 507 0));
    [|cbn; unfold NARGS; lia|constructor|done|reflexivity|reflexivity].
  apply (words_cons _ [97] 124 [] [[98]] [98; 10]); [by apply word_1|by right|constructor|].
  apply (words_cons _ [98] 10 [] [] []); [by apply word_1|by left|constructor|constructor].
Defined.

(** Four words: the fourth is stored behind [argv]. *)
Example four_words :
  parse_cmd (mkState ([97; 32; 98; 32; 99; 32; 100; 10] ++ replicate 504 0) 0 0 ([] : Typed)) = Fault.
Proof. vm_compute. reflexivity. Qed.
