(* ===== verification/Melon.v ===== *)
(** * melib/melon.c and melon/init.c: printing from a program, and the first program

    A program sees the kernel through its system calls ([Calls]); [Init]
    states what the first program relies on. The shell is in Sh. *)
From S2P Require Import Prelude CMem CString CStdlib Fmt Print.

Definition path : Type := list Z.

(** The system calls that init and [printf] make. [sys_exec] gives [None] when
    the program is replaced. *)
Class Calls (W : Type) := {
  sys_open : path → Z → M W Z;
  sys_mknod : path → Z → Z → M W Z;
  sys_dup : Z → M W Z;
  sys_write : Z → list Z → M W Z;
  sys_fork : M W Z;
  sys_wait : M W Z;
  sys_exec : path → list path → M W (option Z);
}.

Definition console : path := bytes_of "/console".
Definition sh : path := bytes_of "/sh".
Definition argv : list path := [bytes_of "sh"].

(** How a program ends: another one takes its place, [exit], or [main]
    returns, to the return address that exec made up. *)
Inductive outcome :=
| Became (program : path) (argv : list path)
| Exited
| Returned.

Section melon.
Context {W : Type} `{Calls W}.

(** *** melib *)

Definition sys_io {A} (m : M W A) : M (FState W) A := zoom fout (λ w s, mkFState (fmem s) w) m.

Definition putc (c : Z) : M (FState W) unit := void (sys_io (sys_write 2 [u8 c])).

Definition putchar (c : Z) : M (FState W) Z :=
  let! v := with_mem (loadc c) in do! putc v in ret (c + 1).

Definition vprintf (fmt : Z) (args : list Z) : M (FState W) unit := format (mkFmtIO putchar) fmt args.

Definition printf (fmt : Z) (args : list Z) : M (FState W) unit := vprintf fmt args.

(** *** init *)

(** [wait] until the shell has ended; the children that others leave behind
    come to init. *)
Definition reap_round (pid : Z) (_ : unit) : M W (unit + unit) :=
  let! wpid := sys_wait in
  if (0 <=? wpid) && negb (pid =? wpid) then
    let! _ := sys_write 1 (textln "zombie") in ret (inl tt)
  else ret (inr tt).

(** The flag 2 is [O_RDWR] of melon.h. *)
Definition main (fuel : nat) : M W outcome :=
  let! fd := sys_open console 2 in
  do! (if fd <? 0 then
         let! _ := sys_mknod console 1 1 in
         let! _ := sys_open console 2 in done!
       else done!) in
  let! _ := sys_dup 0 in
  let! _ := sys_dup 0 in
  let! pid := sys_fork in
  if pid <? 0 then
    let! _ := sys_write 1 (textln "init: fork" ++ [0]) in ret Exited
  else if pid =? 0 then
    let! r := sys_exec sh argv in
    match r with None => ret (Became sh argv) | Some _ => ret Exited end
  else
    do! loop fuel (reap_round pid) tt in ret Returned.
End melon.

(** ** Specifications *)

(** A path takes the lowest free descriptor. *)
Fixpoint place (x : path) (l : list (option path)) : option (nat * list (option path)) :=
  match l with
  | [] => None
  | None :: l => Some (O, Some x :: l)
  | Some y :: l => '(i, k) ← place x l; Some (S i, Some y :: k)
  end.

Definition placed (x : path) (l : list (option path)) (r : Z) (l' : list (option path)) : Prop :=
  match place x l with Some (i, k) => r = i ∧ l' = k | None => r = -1 ∧ l' = l end.

(** What a process sees of the system: the nodes that exist, its descriptors,
    its children in the order in which they will end, with those that it will
    inherit, the bytes that it wrote, and its history: the processes that it made
    and the children whose end it has seen *)
Record Sight := mkSight {
  nodes : list path;
  fds : list (option path);
  kids : list Z;
  out : list Z;
  made : list Z;
  ended : list Z;
}.

Definition add_node (x : path) (s : Sight) : Sight := mkSight (x :: nodes s) (fds s) (kids s) (out s) (made s) (ended s).
Definition set_fds (l : list (option path)) (s : Sight) : Sight := mkSight (nodes s) l (kids s) (out s) (made s) (ended s).
Definition say (l : list Z) (s : Sight) : Sight := mkSight (nodes s) (fds s) (kids s) (out s ++ l) (made s) (ended s).

(** The child of a [fork] has no children and no history of its own. *)
Definition in_child (s : Sight) : Sight := mkSight (nodes s) (fds s) [] (out s) [] [].

(** The process [pid] was made, and the children [k] will end. *)
Definition add_kids (pid : Z) (k : list Z) (s : Sight) : Sight := mkSight (nodes s) (fds s) k (out s) (made s ++ [pid]) (ended s).

(** The end of the child [pid] was seen; [k] are left. *)
Definition see_end (pid : Z) (k : list Z) (s : Sight) : Sight := mkSight (nodes s) (fds s) k (out s) (made s) (ended s ++ [pid]).

(** What the first program relies on; at most [orphans] processes are left to
    it before the shell ends. *)
Class Init (W : Type) `{Calls W} (orphans : nat) := {
  sight : W → Sight;
  open_ok : ∀ w x fl, wp (sys_open x fl) w (λ r w', ∃ l, sight w' = set_fds l (sight w) ∧
    if decide (x ∈ nodes (sight w)) then placed x (fds (sight w)) r l else r = -1 ∧ l = fds (sight w));
  mknod_ok : ∀ w x a b, wp (sys_mknod x a b) w (λ _ w', sight w' = add_node x (sight w));
  dup_ok : ∀ w (i : nat) x, fds (sight w) !! i = Some (Some x) → wp (sys_dup i) w (λ r w', ∃ l,
    sight w' = set_fds l (sight w) ∧ placed x (fds (sight w)) r l);
  write_ok : ∀ w (i : nat) x l, fds (sight w) !! i = Some (Some x) →
    wp (sys_write i l) w (λ _ w', sight w' = say l (sight w));
  fork_ok : ∀ w, wp sys_fork w (λ r w',
    r < 0 ∧ sight w' = sight w ∨
    r = 0 ∧ sight w' = in_child (sight w) ∨
    ∃ a b, 0 < r ∧ r ∉ a ∧ Forall (λ c, 0 < c) a ∧ (length a ≤ orphans)%nat ∧ sight w' = add_kids r (a ++ r :: b) (sight w));
  wait_ok : ∀ w, wp sys_wait w (λ r w',
    match kids (sight w) with
    | [] => r = -1 ∧ sight w' = sight w
    | k :: ks => r = k ∧ sight w' = see_end k ks (sight w)
    end);
  exec_ok : ∀ w x a, wp (sys_exec x a) w (λ r w', sight w' = sight w ∧
    r = if decide (x ∈ nodes (sight w)) then None else Some (-1));
}.

(** ** Lemmas *)

Section lemmas.
Context {W : Type} `{Calls W} (orphans : nat) `{!Init W orphans}.
Implicit Types (w : W).

Lemma putchar_sim old p (i := 2%nat) x :
  sim (λ o w, fds (sight w) !! i = Some (Some x) ∧ out (sight w) = old ++ (u8 <$> o)) (Fmt.putchar plain p) (putchar p).
Proof.
  intros m o w [Hfd Ho]. unfold wlp, Fmt.putchar, plain, putchar, bind, with_mem, zoom. cbn [fmem fout].
  unfold loadc, bind, load. destruct (m !! p) as [c|]; [|done]. cbn. unfold putc, void, bind, sys_io, zoom. cbn [fmem fout].
  assert (wp (sys_write 2 [u8 (s8 c)]) w (λ _ w', sight w' = say [u8 (s8 c)] (sight w))) as Hw by exact (write_ok w i x _ Hfd).
  unfold wp in Hw.
  destruct (sys_write 2 [u8 (s8 c)] w) as [r w1| | |]; [|done..]. cbn. exists w1. split; [done|]. rewrite Hw.
  split; [done|]. cbn [say out]. rewrite Ho, fmap_app, <- app_assoc. do 2 f_equal. cbn. f_equal.
  unfold u8, s8. clear. Z.div_mod_to_equations. lia.
Qed.

(** The console is made if it is missing, and opened as the first descriptor. *)
Lemma open_console w n : fds (sight w) = replicate (3 + n) None →
  wp (let! fd := sys_open console 2 in
      if fd <? 0 then
        let! _ := sys_mknod console 1 1 in
        let! _ := sys_open console 2 in done!
      else done!) w (λ _ w', ∃ l, sight w' = mkSight l (Some console :: replicate (2 + n) None) (kids (sight w)) (out (sight w)) (made (sight w)) (ended (sight w)) ∧
        console ∈ l ∧ nodes (sight w) ⊆ l).
Proof.
  intros Hf. rewrite wp_bind. eapply wp_mono; [apply open_ok|]. intros r w1 (l & Hw1 & Hr). rewrite Hf in Hr.
  destruct (decide (console ∈ nodes (sight w))) as [Hin|Hni].
  - destruct Hr as [-> ->]. change (Z.of_nat 0 <? 0) with false. cbn iota. rewrite wp_ret. exists (nodes (sight w)). by rewrite Hw1.
  - destruct Hr as [-> ->]. change (-1 <? 0) with true. cbn iota. rewrite wp_bind. eapply wp_mono; [apply mknod_ok|].
    intros r w2 Hw2. rewrite wp_bind. eapply wp_mono; [apply open_ok|]. intros r1 w3 (l & Hw3 & Hr3). rewrite wp_ret.
    rewrite Hw2, Hw1 in *. cbn [set_fds add_node nodes fds kids out] in *. rewrite decide_True in Hr3 by by left.
    destruct Hr3 as [_ ->]. exists (console :: nodes (sight w)). split_and!; [done|by left|set_solver].
Qed.

Lemma dup_console w n k l ks o a b : sight w = mkSight l (replicate (S k) (Some console) ++ replicate (S n) None) ks o a b →
  wp (sys_dup 0) w (λ _ w', sight w' = mkSight l (replicate (2 + k) (Some console) ++ replicate n None) ks o a b).
Proof.
  intros Hw. eapply wp_mono; [apply (dup_ok w 0 console); by rewrite Hw|]. intros r w' (fd & Hw' & Hp). rewrite Hw in *.
  cbn [fds] in Hp. assert (∀ j, place console (replicate j (Some console) ++ replicate (S n) None) =
    Some (j, replicate (S j) (Some console) ++ replicate n None)) as Hpl.
  { intros j. induction j as [|j IH]; [done|]. cbn [replicate app place] in *. by rewrite IH. }
  unfold placed in Hp. rewrite Hpl in Hp. destruct Hp as [_ ->]. by rewrite Hw'.
Qed.

(** The loop ends with the shell; a line is written for each orphan before it. *)
Lemma reap_ok pid a b fuel w : pid ∉ a → 0 < pid → Forall (λ c, 0 < c) a → (length a < fuel)%nat →
  fds (sight w) !! 1%nat = Some (Some console) → kids (sight w) = a ++ pid :: b →
  wp (loop fuel (reap_round pid) tt) w (λ _ w', let v := sight w in
    sight w' = mkSight (nodes v) (fds v) b (out v ++ (a ≫= λ _, textln "zombie")) (made v) (ended v ++ a ++ [pid])).
Proof.
  intros Hni Hpid Ha. revert fuel w. induction Ha as [|c a Hc Ha IH]; intros [|fuel] w Hfuel Hfd Hk; cbn [length] in Hfuel; try lia;
    rewrite wp_loop_S; unfold reap_round at 1; rewrite wp_bind; (eapply wp_mono; [apply wait_ok|]); intros r w1; rewrite Hk; cbn [app];
    intros [-> Hw1].
  - rewrite Z.eqb_refl, andb_false_r, wp_ret, Hw1. unfold see_end. cbn. by rewrite app_nil_r.
  - apply not_elem_of_cons in Hni as [Hne Hni]. rewrite (proj2 (Z.leb_le 0 c)), (proj2 (Z.eqb_neq pid c)) by lia. cbn [andb negb].
    rewrite wp_bind. eapply wp_mono; [apply (write_ok w1 1 console); by rewrite Hw1|]. intros r w2 Hw2. rewrite wp_ret.
    rewrite Hw1 in Hw2. eapply wp_mono; [apply (IH Hni fuel w2); [lia|by rewrite Hw2|by rewrite Hw2]|].
    intros [] w3 Hw3. cbn zeta beta in *. rewrite Hw3, Hw2. unfold say, see_end. cbn [nodes fds kids out made ended].
    rewrite bind_cons. by rewrite <- !app_assoc.
Qed.
End lemmas.

(** ** Properties *)

(** [printf] of a program writes to its third descriptor exactly what the
    reference printing of the format says. *)
Theorem printf_prints {W} `{Calls W} (orphans : nat) `{!Init W orphans} m p fmt args o (w : W) x :
  cstr m p fmt → prints m fmt args o → fds (sight w) !! 2%nat = Some (Some x) →
  wp (printf p args) (mkFState m w) (λ _ s', fmem s' = m ∧ out (sight (fout s')) = out (sight w) ++ (u8 <$> o)).
Proof.
  intros Hs Hp Hfd. pose proof (format_sim _ plain (mkFmtIO putchar) (λ q, putchar_sim orphans (out (sight w)) q x) p args m [] w) as Hsim.
  unfold wlp in Hsim. rewrite (format_prints m p fmt args o [] Hs Hp) in Hsim.
  destruct Hsim as (w' & Hrun & _ & HJ); [by rewrite app_nil_r|]. by apply (wp_ok _ _ _ _ _ Hrun).
Qed.

(** C40: The first program, started without descriptors: the console exists, made
    if need be, and is standard input, output and error when the child becomes
    the shell; the parent made one process and returns from [main] only when it
    has seen the end of that process, having written a line for every orphan
    whose end came before, and seen no other. If no process can be made it
    says so and exits. *)
Theorem init_starts_shell {W} `{Calls W} (orphans : nat) `{!Init W orphans} (w : W) n fuel :
  fds (sight w) = replicate (3 + n) None → sh ∈ nodes (sight w) → kids (sight w) = [] → (orphans < fuel)%nat →
  wp (main fuel) w (λ r w', console ∈ nodes (sight w') ∧
    fds (sight w') = replicate 3 (Some console) ++ replicate n None ∧
    match r with
    | Became program argv => program = sh ∧ argv = [bytes_of "sh"] ∧ out (sight w') = out (sight w)
    | Returned => ∃ pid a, made (sight w') = made (sight w) ++ [pid] ∧ ended (sight w') = ended (sight w) ++ a ++ [pid] ∧
        pid ∉ a ∧ (length a ≤ orphans)%nat ∧ out (sight w') = out (sight w) ++ mjoin (replicate (length a) (textln "zombie"))
    | Exited => made (sight w') = made (sight w) ∧ out (sight w') = out (sight w) ++ textln "init: fork" ++ [0]
    end).
Proof.
  intros Hf Hsh Hk Hfuel. pose proof (open_console orphans w n Hf) as Hopen. unfold main. rewrite wp_bind in Hopen. rewrite wp_bind.
  eapply wp_mono; [exact Hopen|]. cbn beta. intros fd w1 Hw1. rewrite wp_bind. eapply wp_mono; [exact Hw1|].
  intros [] w2 (l & Hw2 & Hin & Hsub). rewrite Hk in Hw2. set (o := out (sight w)) in *. set (ma := made (sight w)) in *. set (en := ended (sight w)) in *.
  rewrite wp_bind. eapply wp_mono; [apply (dup_console orphans w2 (S n) 0 l [] o ma en); exact Hw2|]. intros r3 w3 Hw3.
  rewrite wp_bind. eapply wp_mono; [apply (dup_console orphans w3 n 1 l [] o ma en); exact Hw3|]. intros r4 w4 Hw4. cbn beta in Hw4.
  rewrite wp_bind. eapply wp_mono; [apply fork_ok|]. rewrite Hw4. clear Hopen Hw1 Hw2 Hw3.
  intros pid w5 [[Hneg Hw5]|[[-> Hw5]|(a & b & Hpos & Hni & Ha & Hlen & Hw5)]].
  - rewrite (proj2 (Z.ltb_lt pid 0)) by done. rewrite wp_bind. eapply wp_mono; [apply (write_ok w5 1 console); by rewrite Hw5|].
    intros r6 w6 Hw6. rewrite wp_ret, Hw6, Hw5. done.
  - cbn [Z.ltb Z.compare Z.eqb]. rewrite wp_bind. eapply wp_mono; [apply exec_ok|]. rewrite Hw5. cbn [in_child nodes].
    rewrite decide_True by set_solver. intros r6 w6 [Hw6 ->]. rewrite wp_ret, Hw6. done.
  - rewrite (proj2 (Z.ltb_ge pid 0)), (proj2 (Z.eqb_neq pid 0)) by lia. rewrite wp_bind.
    eapply wp_mono; [apply (reap_ok orphans pid a b); [done|done|done|lia|by rewrite Hw5|by rewrite Hw5]|].
    intros [] w6 Hw6. rewrite wp_ret, Hw6, Hw5. cbn [add_kids nodes fds out made ended]. split_and!; [done|done|].
    exists pid, a. split_and!; [done|done|done|done|]. f_equal. clear. induction a as [|c a IH]; [done|]. by rewrite bind_cons, IH.
Qed.

(** ** Witnesses *)

(** A world that is what a process sees of it; the shell is process 5, and
    process 7 ends before it. *)
#[local] Instance demo_calls : Calls Sight := {|
  sys_open x _ := λ s, if decide (x ∈ nodes s) then
      match place x (fds s) with Some (i, l) => Ok (Z.of_nat i) (set_fds l s) | None => Ok (-1) s end else Ok (-1) s;
  sys_mknod x _ _ := λ s, Ok 0 (add_node x s);
  sys_dup i := λ s, match fds s !! Z.to_nat i with
    | Some (Some x) => match place x (fds s) with Some (i, l) => Ok (Z.of_nat i) (set_fds l s) | None => Ok (-1) s end
    | _ => Ok (-1) s end;
  sys_write _ l := λ s, Ok (zlen l) (say l s);
  sys_fork := λ s, Ok 5 (add_kids 5 [7; 5] s);
  sys_wait := λ s, match kids s with [] => Ok (-1) s | k :: ks => Ok k (see_end k ks s) end;
  sys_exec x _ := λ s, Ok (if decide (x ∈ nodes s) then None else Some (-1)) s
|}.

#[local] Instance demo_init : Init Sight 1.
Proof.
  refine {| sight := id |}; unfold wp; cbn; unfold placed, id.
  - intros w x _. case_decide; [destruct (place x (fds w)) as [[i l]|]; [by exists l|]|]; exists (fds w); by destruct w.
  - done.
  - intros w i x Hi. rewrite Nat2Z.id, Hi. destruct (place x (fds w)) as [[j l]|]; [by exists l|]. exists (fds w). by destruct w.
  - done.
  - intros w. right; right. exists [7], []. split_and!; [lia|set_solver|by repeat constructor|done|done].
  - intros w. by destruct (kids w).
  - done.
Defined.

Definition demo_sight : Sight := mkSight [sh] (replicate 5 None) [] [] [] [].

Lemma printf_prints_witness :
  wp (printf 16 [42; 48]) (mkFState fmt_mem (mkSight [] (replicate 3 (Some console)) [] [] [] []))
    (λ _ s', fmem s' = fmt_mem ∧ out (fout s') = bytes_of "a42melon").
Proof.
  eapply wp_mono; [apply (printf_prints 1 fmt_mem 16 (bytes_of "a%d%s") [42; 48] (bytes_of "a42melon") _ console)|].
  - split; [apply array_write|repeat constructor].
  - apply prints_char; [done|]. apply (prints_d fmt_mem 42 _ [48] (bytes_of "melon")); [lia|].
    apply (prints_s fmt_mem 48 (bytes_of "melon") [] [] []); [|done|constructor].
    split; [|repeat constructor]. unfold fmt_mem. apply array_write_disjoint; [by right|apply array_write].
  - reflexivity.
  - intros [] s' [Hm Hs]. split; [exact Hm|exact Hs].
Defined.

Lemma init_starts_shell_witness :
  wp (main 2) demo_sight (λ r w', r = Returned ∧ console ∈ nodes w' ∧ fds w' = replicate 3 (Some console) ++ replicate 2 None ∧
    ∃ pid a, made w' = [pid] ∧ ended w' = a ++ [pid] ∧ out w' = mjoin (replicate (length a) (textln "zombie"))).
Proof.
  pose proof (init_starts_shell 1 demo_sight 2 2 eq_refl ltac:(by left) eq_refl ltac:(lia)) as Hw.
  eapply wp_ok; [reflexivity|]. destruct Hw as (Hc & Hf & pid & a & Hm & He & _ & _ & Ho). split_and!; [reflexivity|exact Hc|exact Hf|].
  exists pid, a. split_and!; [exact Hm|exact He|exact Ho].
Defined.
