(* ===== verification/Sched.v ===== *)
(** * The kernel as a system of processes

    [step] interleaves the operations of process.c: what the scheduler, the
    process that runs and the interrupts may do next. The invariant [inv] of
    the reachable states says which locks are held where, who runs, that pids
    are unique, that every process has a living parent and that no wake-up of
    a parent is lost. *)
From S2P Require Import Prelude Machine CMem CString Palloc PgTbl VMem Locks Segments Process ProcSpec.

(** ** The system *)

(** What a process does after its call of [sched] returns *)
Inductive After := ARun | AWait.

(** The kernel stack of a process that was switched out. A process without one
    is new: its context returns to [forkret]. *)
Inductive Kont :=
| KForkret
| KYield (on : bool)
| KSleep (l : Z) (on : bool) (k : After).

(** Where the CPU is: outside the loop of the scheduler with interrupts
    enabled, at a round of it, back from [swtch] in a process, in a process, or
    at the loop of [wait]. *)
Inductive Ctl :=
| CIdle
| CSched (i : nat)
| CResume (p : nat) (k : Kont)
| CProc (p : nat)
| CWait (p : nat).

Section system.
Context `{KernelLayout, KernelText} {T : Type}.
Notation St := (KState T).

Record Sys := mkSys {
  ks : St;
  ctl : Ctl;
  konts : gmap nat Kont;
}.

(** Any change of what scheduling does not depend on: user programs, files,
    memory, [killed] *)
Definition other (s s' : St) : Prop := lk s' = lk s ∧ abs s' = abs s.

Inductive step : Sys → Sys → Prop :=
(* the scheduler *)
| st_enter s s' (K : gmap nat Kont) :
    with_lk (do! sti in lock ptable_lk) s = Ok tt s' → step (mkSys s CIdle K) (mkSys s' (CSched 0) K)
| st_leave s s' (K : gmap nat Kont) :
    with_lk (unlock ptable_lk) s = Ok tt s' → step (mkSys s (CSched 64) K) (mkSys s' CIdle K)
| st_skip s (K : gmap nat Kont) (i : nat) x :
    ptab s !! i = Some x → pstate x ≠ PROC_READY → step (mkSys s (CSched i) K) (mkSys s (CSched (S i)) K)
| st_pick s s' (K : gmap nat Kont) (i : nat) x :
    ptab s !! i = Some x → pstate x = PROC_READY → scheduler_out i s = Ok tt s' →
    step (mkSys s (CSched i) K) (mkSys s' (CResume i (default KForkret (K !! i))) (delete i K))
(* back in a process *)
| st_forkret s s' (K : gmap nat Kont) (p : nat) :
    forkret s = Ok tt s' → step (mkSys s (CResume p KForkret) K) (mkSys s' (CProc p) K)
| st_yielded s s' (K : gmap nat Kont) (p : nat) on :
    yield_in on s = Ok tt s' → step (mkSys s (CResume p (KYield on)) K) (mkSys s' (CProc p) K)
| st_slept s s' (K : gmap nat Kont) (p : nat) l on k :
    sleep_in p l on s = Ok tt s' →
    step (mkSys s (CResume p (KSleep l on k)) K)
         (mkSys s' (match k with ARun => CProc p | AWait => CWait p end) K)
(* what a process may do *)
| st_yield s s1 s' (K : gmap nat Kont) (p : nat) on :
    yield_out s = Ok on s1 → scheduler_in s1 = Ok tt s' →
    step (mkSys s (CProc p) K) (mkSys s' (CSched (S p)) (<[p := KYield on]> K))
| st_sleep s s1 s' (K : gmap nat Kont) (p : nat) c l on :
    l ≠ ptable_lk → sleep_out c l s = Ok on s1 → scheduler_in s1 = Ok tt s' →
    step (mkSys s (CProc p) K) (mkSys s' (CSched (S p)) (<[p := KSleep l on ARun]> K))
| st_exit s s1 s' (K : gmap nat Kont) (p : nat) on :
    exit_out s = Ok on s1 → scheduler_in s1 = Ok tt s' →
    step (mkSys s (CProc p) K) (mkSys s' (CSched (S p)) K)
| st_fork s s' (K : gmap nat Kont) (p : nat) r :
    fork s = Ok r s' → step (mkSys s (CProc p) K) (mkSys s' (CProc p) K)
| st_wakeup s s' (K : gmap nat Kont) (p : nat) c :
    wakeup c s = Ok tt s' → step (mkSys s (CProc p) K) (mkSys s' (CProc p) K)
| st_grow s s' (K : gmap nat Kont) (p : nat) n r :
    grow_process n s = Ok r s' → step (mkSys s (CProc p) K) (mkSys s' (CProc p) K)
| st_lock s s' (K : gmap nat Kont) (p : nat) l :
    l ≠ ptable_lk → with_lk (lock l) s = Ok tt s' → step (mkSys s (CProc p) K) (mkSys s' (CProc p) K)
| st_unlock s s' (K : gmap nat Kont) (p : nat) l :
    l ≠ ptable_lk → with_lk (unlock l) s = Ok tt s' → step (mkSys s (CProc p) K) (mkSys s' (CProc p) K)
| st_wait s s' (K : gmap nat Kont) (p : nat) q :
    wait_enter s = Ok q s' → step (mkSys s (CProc p) K) (mkSys s' (CWait p) K)
| st_wait_done s s' (K : gmap nat Kont) (p : nat) r :
    wait_round p s = Ok (inl r) s' → step (mkSys s (CWait p) K) (mkSys s' (CProc p) K)
| st_wait_sleep s s1 s' (K : gmap nat Kont) (p : nat) on :
    wait_round p s = Ok (inr on) s1 → scheduler_in s1 = Ok tt s' →
    step (mkSys s (CWait p) K) (mkSys s' (CSched (S p)) (<[p := KSleep ptable_lk on AWait]> K))
(* the rest of the kernel, and the handlers of interrupts *)
| st_other s s' c K : other s s' → step (mkSys s c K) (mkSys s' c K)
| st_irq s s' K c : wakeup c s = Ok tt s' → step (mkSys s CIdle K) (mkSys s' CIdle K).

(** ** The invariant *)

Definition alive (v : PV) : Prop := v_state v ≠ PROC_UNUSED ∧ v_state v ≠ PROC_ZOMBIE.

(** Processes, pids and parents *)
Record family (a : AState) : Prop := mk_family {
  fm_len : length (a_tab a) = 64%nat;
  fm_next : 1 ≤ a_next a ≤ 65;
  fm_created : ∀ i v, a_tab a !! i = Some v → v_state v ≠ PROC_CREATED;
  fm_pid : ∀ i v, a_tab a !! i = Some v → v_state v ≠ PROC_UNUSED → 1 ≤ v_pid v < a_next a;
  fm_pids : ∀ i j v w, a_tab a !! i = Some v → a_tab a !! j = Some w → i ≠ j →
    v_state v ≠ PROC_UNUSED → v_state w ≠ PROC_UNUSED → v_pid v ≠ v_pid w;
  fm_init : ∃ (n : nat) v, a_init a = n ∧ a_tab a !! n = Some v ∧ alive v ∧ v_parent v = NULL;
  fm_parent : ∀ (i : nat) v, a_tab a !! i = Some v → v_state v ≠ PROC_UNUSED → Z.of_nat i ≠ a_init a →
    ∃ (q : nat) w, v_parent v = q ∧ q ≠ i ∧ a_tab a !! q = Some w ∧ alive w;
}.

(** The process that runs *)
Definition ctl_cur (c : Ctl) : Z :=
  match c with CIdle | CSched _ => NULL | CResume p _ | CProc p | CWait p => p end.

(** The processes that are switched out. A parent that sleeps in [wait] has no
    child to free: whoever gives it one wakes it up. *)
Record switched (K : gmap nat Kont) (a : AState) : Prop := mk_switched {
  sw_wait : ∀ (i : nat) v on, a_tab a !! i = Some v → v_state v = PROC_SLEEPING →
    K !! i = Some (KSleep ptable_lk on AWait) →
    v_chan v = i ∧ ∀ j w, a_tab a !! j = Some w → v_state w = PROC_ZOMBIE → v_parent w ≠ i;
  sw_run : ∀ i l on, K !! i = Some (KSleep l on ARun) → l ≠ ptable_lk;
  sw_kwait : ∀ i l on, K !! i = Some (KSleep l on AWait) → l = ptable_lk;
  sw_dead : ∀ (i : nat) v, a_tab a !! i = Some v → ¬ alive v → K !! i = None;
}.

(** The locks that are held *)
Definition ctl_locks (c : Ctl) (HL : gset Z) : Prop :=
  match c with
  | CIdle => HL = ∅
  | CProc _ => ptable_lk ∉ HL
  | CWait _ => ptable_lk ∈ HL
  | _ => HL = {[ptable_lk]}
  end.

Record ainv (c : Ctl) (K : gmap nat Kont) (a : AState) : Prop := mk_ainv {
  ai_family : family a;
  ai_cur : a_cur a = ctl_cur c;
  ai_in : ∀ p, ctl_cur c = Z.of_nat p → (p < 64)%nat ∧ K !! p = None;
  ai_running : ∀ (i : nat) v, a_tab a !! i = Some v → v_state v = PROC_RUNNING ↔ Z.of_nat i = a_cur a;
  ai_switched : switched K a;
  ai_kont : ∀ p l on k, c = CResume p (KSleep l on k) → l = ptable_lk ↔ k = AWait;
}.

Definition inv (x : Sys) : Prop :=
  ∃ HL, ctl_locks (ctl x) HL ∧ lock_inv (lk (ks x)) HL ∧ ainv (ctl x) (konts x) (abs (ks x)).

(** ** Changes of the table that keep the family *)

(** The state of a process changes, but it lives on. *)
Definition soft_pv (v v' : PV) : Prop :=
  v_pid v' = v_pid v ∧ v_parent v' = v_parent v ∧
  (v_state v' = v_state v ∨
   (alive v ∧ alive v' ∧ v_state v' ≠ PROC_CREATED)).

Definition soft (a a' : AState) : Prop :=
  a_next a' = a_next a ∧ a_init a' = a_init a ∧ length (a_tab a') = length (a_tab a) ∧
  ∀ i v', a_tab a' !! i = Some v' → ∃ v, a_tab a !! i = Some v ∧ soft_pv v v'.

Lemma soft_unused v v' : soft_pv v v' → v_state v = PROC_UNUSED ↔ v_state v' = PROC_UNUSED.
Proof. intros (_ & _ & [->|([? ?] & [? ?] & _)]); [done|]. by split; intros ?. Qed.

Lemma soft_alive v v' : soft_pv v v' → alive v → alive v'.
Proof. intros (_ & _ & [Hs|(_ & Ha & _)]) Hv; [|done]. unfold alive. by rewrite Hs. Qed.

Lemma soft_lookup a a' i v :
  soft a a' → a_tab a !! i = Some v → ∃ v', a_tab a' !! i = Some v' ∧ soft_pv v v'.
Proof.
  intros (_ & _ & Hlen & Hl) Hv. assert (i < length (a_tab a'))%nat as Hi
    by (rewrite Hlen; by eapply lookup_lt_Some).
  apply lookup_lt_is_Some in Hi as [v' Hv']. exists v'. split; [done|].
  destruct (Hl i v' Hv') as (w & Hw & Hs). congruence.
Qed.

Lemma soft_family a a' : soft a a' → family a → family a'.
Proof.
  intros Hsoft [Hlen Hn Hc Hp Hps Hi Hpar]. pose proof Hsoft as (Hn' & Hi' & Hlen' & Hl). split.
  - by rewrite Hlen'.
  - by rewrite Hn'.
  - intros i v' Hv'. destruct (Hl _ _ Hv') as (v & Hv & (_ & _ & [->|(_ & _ & ?)])); [by eapply Hc|done].
  - intros i v' Hv' Hu. destruct (Hl _ _ Hv') as (v & Hv & Hs). rewrite Hn'.
    pose proof Hs as (-> & _). apply (Hp i v Hv). by rewrite (soft_unused _ _ Hs).
  - intros i j v' w' Hv' Hw' Hne Hu Hu'. destruct (Hl _ _ Hv') as (v & Hv & Hs).
    destruct (Hl _ _ Hw') as (w & Hw & Hs'). pose proof Hs as (-> & _). pose proof Hs' as (-> & _).
    apply (Hps i j); [done|done|done|by rewrite (soft_unused _ _ Hs)|by rewrite (soft_unused _ _ Hs')].
  - destruct Hi as (n & v & Hnn & Hv & Ha & Hnull). destruct (soft_lookup _ _ _ _ Hsoft Hv) as (v' & Hv' & Hs).
    exists n, v'. split; [by rewrite Hi'|]. split; [done|]. split; [by eapply soft_alive|].
    by destruct Hs as (_ & -> & _).
  - intros i v' Hv' Hu Hne. destruct (Hl _ _ Hv') as (v & Hv & Hs).
    rewrite Hi' in Hne. destruct (Hpar i v Hv) as (q & w & Hq & Hqi & Hw & Ha); [by rewrite (soft_unused _ _ Hs)|done|].
    destruct (soft_lookup _ _ _ _ Hsoft Hw) as (w' & Hw' & Hsw).
    exists q, w'. split; [by destruct Hs as (_ & -> & _)|]. split; [done|]. split; [done|by eapply soft_alive].
Qed.

Lemma soft_refl a : soft a a.
Proof. split_and!; [done..|]. intros i v Hv. exists v. split; [done|]. split_and!; [done..|by left]. Qed.

Lemma soft_pv_trans u v w : soft_pv u v → soft_pv v w → soft_pv u w.
Proof.
  intros (H1 & H2 & H3) (H4 & H5 & H6). split; [congruence|]. split; [congruence|].
  destruct H3 as [H3|(Ha & Ha' & Hc)], H6 as [H6|(Hb & Hb' & Hd)].
  - left. congruence.
  - right. split_and!; [|done..]. unfold alive in *. by rewrite <- H3.
  - right. split_and!; [done| |congruence]. unfold alive in *. by rewrite H6.
  - right. done.
Qed.

Lemma soft_trans a b c : soft a b → soft b c → soft a c.
Proof.
  intros (H1 & H2 & H3 & H4) (H5 & H6 & H7 & H8). split_and!; [congruence..|].
  intros i v Hv. destruct (H8 _ _ Hv) as (w & Hw & Hs). destruct (H4 _ _ Hw) as (u & Hu & Hs').
  exists u. split; [done|by eapply soft_pv_trans].
Qed.

Lemma soft_update p f a :
  (∀ v, a_tab a !! Z.to_nat p = Some v → soft_pv v (f v)) → soft a (a_update p f a).
Proof.
  intros Hf. split_and!; [done|done|cbn; by rewrite length_alter|].
  intros i v'. rewrite a_update_lookup. case_decide as Hi.
  - intros (v & Hv & ->)%fmap_Some. exists v. split; [done|]. apply Hf. by rewrite <- Hi.
  - intros Hv. exists v'. split; [done|]. split_and!; [done..|by left].
Qed.

Lemma soft_wake c v : soft_pv v (v_wake c v).
Proof.
  unfold v_wake. case_decide as Hs; [|by split_and!; [..|left]].
  destruct Hs as [Hs _]. split_and!; [done..|right]. unfold alive. rewrite Hs. by split_and!.
Qed.

Lemma wake_chan c v : v_chan (v_wake c v) = v_chan v.
Proof. unfold v_wake. by case_decide. Qed.

Lemma wake_state c v :
  v_state (v_wake c v) = v_state v ∨ (v_state v = PROC_SLEEPING ∧ v_state (v_wake c v) = PROC_READY).
Proof. unfold v_wake. case_decide as Hd; [|by left]. right. by destruct Hd. Qed.

Lemma wake_asleep c v : v_chan v = c → v_state (v_wake c v) ≠ PROC_SLEEPING.
Proof. intros Hc. unfold v_wake. case_decide as Hd; [done|]. intros Hs. by destruct Hd. Qed.

Lemma soft_wakeup c a : soft a (a_wakeup c a).
Proof.
  split_and!; [done|done|cbn; by rewrite length_fmap|].
  intros i v'. cbn. rewrite list_lookup_fmap. intros (v & Hv & ->)%fmap_Some.
  exists v. split; [done|apply soft_wake].
Qed.

Lemma soft_set_cur p a : soft a (a_set_cur p a).
Proof. apply (soft_refl a). Qed.

(** ** Freeing a process, creating one, exiting *)

Lemma dead_family a (c : nat) v :
  a_tab a !! c = Some v → v_state v = PROC_ZOMBIE → family a → family (a_update c (λ _, v_dead) a).
Proof.
  intros Hc Hz [Hlen Hn Hcr Hp Hps Hi Hpar].
  assert (∀ i w, a_tab (a_update c (λ _, v_dead) a) !! i = Some w → v_state w ≠ PROC_UNUSED →
    a_tab a !! i = Some w ∧ i ≠ c) as Hold.
  { intros i w. rewrite a_update_lookup, Nat2Z.id. case_decide; [|done].
    intros (u & _ & ->)%fmap_Some Hu. by destruct Hu. }
  assert (∀ i w, a_tab a !! i = Some w → alive w →
    a_tab (a_update c (λ _, v_dead) a) !! i = Some w) as Hnew.
  { intros i w Hw [_ Ha]. rewrite a_update_lookup, Nat2Z.id, decide_False; [done|]. intros ->. congruence. }
  split.
  - cbn. by rewrite length_alter.
  - done.
  - intros i w Hw He. destruct (Hold i w Hw) as [Hw' _]; [by rewrite He|]. by eapply Hcr.
  - intros i w Hw Hu. destruct (Hold i w Hw Hu) as [Hw' _]. by eapply Hp.
  - intros i j w w' Hw Hw' Hne Hu Hu'. destruct (Hold i w Hw Hu), (Hold j w' Hw' Hu'). by eapply (Hps i j).
  - destruct Hi as (n & w & Hn' & Hw & Ha & Hnull). exists n, w. split_and!; [done|by apply Hnew|exact Ha|done].
  - intros i w Hw Hu Hne. destruct (Hold i w Hw Hu) as [Hw' _].
    destruct (Hpar i w Hw' Hu Hne) as (q & u & Hq & Hqi & Hqu & Ha).
    exists q, u. split_and!; [done|done|by apply Hnew|exact Ha].
Qed.

Lemma put_lookup c v n a i w :
  (c < length (a_tab a))%nat → a_tab (a_put c v n a) !! i = Some w →
  (i = c ∧ w = v) ∨ (i ≠ c ∧ a_tab a !! i = Some w).
Proof.
  intros Hc. unfold a_put. cbn [a_tab]. destruct (decide (i = c)) as [->|Hne].
  - rewrite list_lookup_insert_eq by done. intros [= ->]. by left.
  - rewrite list_lookup_insert_ne by done. by right.
Qed.

Lemma forked_family r a a' (p : nat) v :
  forked r a a' → a_cur a = p → a_tab a !! p = Some v → alive v → family a → family a'.
Proof.
  intros [[_ ->]|(c & u & v' & (Hc & Hu & Hc0 & Hle) & -> & Hv')] Hcur Hp Ha Hfam; [done|].
  destruct Hfam as [Hlen Hn Hcr Hpid Hps Hi Hpar]. pose proof (lookup_lt_Some _ _ _ Hc) as Hlt.
  assert (∀ i w, a_tab a !! i = Some w → alive w → a_tab (a_put c v' (a_next a + 1) a) !! i = Some w) as Hnew.
  { intros i w Hw [Haw _]. unfold a_put. cbn [a_tab]. rewrite list_lookup_insert_ne; [done|]. intros ->. congruence. }
  split.
  - cbn. by rewrite length_insert.
  - cbn. unfold NPROC in Hle. lia.
  - intros i w Hw He. apply put_lookup in Hw as [[-> ->]|[_ Hw]]; [|by eapply Hcr|done].
    destruct Hv' as [[_ Hs]|(_ & Hs & _)]; congruence.
  - intros i w Hw Hs. apply put_lookup in Hw as [[-> ->]|[_ Hw]]; [| |done].
    + destruct Hv' as [[_ Hs']|(_ & _ & -> & _)]; [done|]. cbn. lia.
    + specialize (Hpid i w Hw Hs). cbn. lia.
  - intros i j w w' Hw Hw' Hne Hs Hs'.
    apply put_lookup in Hw as [[-> ->]|[Hic Hw]]; [| |done];
      apply put_lookup in Hw' as [[-> ->]|[Hjc Hw']]; try done.
    + destruct Hv' as [[_ ?]|(_ & _ & -> & _)]; [done|]. specialize (Hpid j w' Hw' Hs'). lia.
    + destruct Hv' as [[_ ?]|(_ & _ & -> & _)]; [done|]. specialize (Hpid i w Hw Hs). lia.
    + by apply (Hps i j).
  - destruct Hi as (n & w & Hn' & Hw & Haw & Hnull). exists n, w.
    split_and!; [done|by apply Hnew|exact Haw|done].
  - intros i w Hw Hs Hne. cbn [a_init a_put] in Hne. apply put_lookup in Hw as [[-> ->]|[Hic Hw]]; [| |done].
    + destruct Hv' as [[_ ?]|(_ & _ & _ & Hpp)]; [done|]. exists p, v. rewrite Hpp.
      split_and!; [done| |by apply Hnew|exact Ha]. intros ->. destruct Ha as [Ha _]. congruence.
    + destruct (Hpar i w Hw Hs Hne) as (q & x & Hq & Hqi & Hx & Hax). exists q, x.
      split_and!; [done|done|by apply Hnew|exact Hax].
Qed.

(** What the loop of [exit] does to one process *)
Definition rep_pv (hit : bool) (init : Z) (v v' : PV) : Prop :=
  v_pid v' = v_pid v ∧ v_chan v' = v_chan v ∧ v_parent v' = (if hit then init else v_parent v) ∧
  (v_state v' = v_state v ∨ (v_state v = PROC_SLEEPING ∧ v_chan v = init ∧ v_state v' = PROC_READY)).

Lemma rep_wake hit init v v' : rep_pv hit init v v' → rep_pv hit init v (v_wake init v').
Proof.
  intros (H1 & H2 & H3 & H4). unfold v_wake. case_decide as Hs; [|done].
  destruct Hs as [Hs Hch]. unfold rep_pv. cbn. split_and!; [done..|]. right.
  destruct H4 as [H4|(_ & _ & H4)]; [|congruence]. split_and!; congruence.
Qed.

Lemma reparent_spec n thisp (p : nat) a :
  let a' := a_reparent n thisp p a in
  a_next a' = a_next a ∧ a_init a' = a_init a ∧ a_cur a' = a_cur a ∧ length (a_tab a') = length (a_tab a) ∧
  (∀ (i : nat) v', a_tab a' !! i = Some v' → ∃ v, a_tab a !! i = Some v ∧
     rep_pv (bool_decide (p ≤ i < p + n)%nat && (v_parent v =? thisp)) (a_init a) v v') ∧
  (∀ (j : nat) v, (p ≤ j < p + n)%nat → a_tab a !! j = Some v → v_state v = PROC_ZOMBIE → v_parent v = thisp →
     ¬ asleep_on (a_init a) a').
Proof.
  revert p a. induction n as [|n IH]; intros p a; cbn zeta.
  { split_and!; [done..| |lia]. intros i v Hv. exists v. split; [done|].
    rewrite bool_decide_false by lia. split_and!; [done..|by left]. }
  cbn [a_reparent]. rewrite Nat2Z.id. replace (Z.of_nat p + 1) with (Z.of_nat (S p)) by lia.
  set (a1 := match a_tab a !! p with Some v => _ | None => a end).
  assert (a_next a1 = a_next a ∧ a_init a1 = a_init a ∧ a_cur a1 = a_cur a ∧
    length (a_tab a1) = length (a_tab a) ∧
    (∀ (i : nat) v', a_tab a1 !! i = Some v' → ∃ v, a_tab a !! i = Some v ∧
       rep_pv (bool_decide (i = p) && (v_parent v =? thisp)) (a_init a) v v') ∧
    (∀ v, a_tab a !! p = Some v → v_state v = PROC_ZOMBIE → v_parent v = thisp → ¬ asleep_on (a_init a) a1))
    as (Hn1 & Hi1 & Hc1 & Hl1 & Hp1 & Hz1).
  { unfold a1. destruct (a_tab a !! p) as [v|] eqn:Hv.
    2:{ split_and!; [done..| |done]. intros i v' Hv'. exists v'. split; [done|].
        rewrite bool_decide_false by (intros ->; congruence). split_and!; [done..|by left]. }
    assert (∀ (i : nat) v', a_tab (a_update p (v_set_parent (a_init a)) a) !! i = Some v' → v_parent v = thisp →
      ∃ w, a_tab a !! i = Some w ∧ rep_pv (bool_decide (i = p) && (v_parent w =? thisp)) (a_init a) w v') as Hup.
    { intros i v' Hv' Hpar. rewrite a_update_lookup, Nat2Z.id in Hv'. case_decide as Hip.
      - subst i. rewrite Hv in Hv'. cbn in Hv'. injection Hv' as <-. exists v. split; [done|].
        rewrite bool_decide_true, (proj2 (Z.eqb_eq _ _)) by done. split_and!; [done..|by left].
      - exists v'. split; [done|]. rewrite bool_decide_false by done. split_and!; [done..|by left]. }
    destruct (Z.eqb_spec (v_parent v) thisp) as [Hpar|Hpar].
    - case_decide as Hz; (split; [done|]; split; [done|]; split; [done|]; split;
        [cbn; by rewrite ?length_fmap, length_alter|]; split).
      + intros i v' Hv'. cbn in Hv'. rewrite list_lookup_fmap in Hv'. apply fmap_Some in Hv' as (w & Hw & ->).
        destruct (Hup i w Hw Hpar) as (x & Hx & Hrx). exists x. split; [done|by apply rep_wake].
      + intros _ _ _ _. apply wakeup_asleep.
      + intros i v' Hv'. by apply Hup.
      + intros w [= <-] Hw. done.
    - split_and!; [done..| |].
      + intros i v' Hv'. exists v'. split; [done|].
        replace (bool_decide (i = p) && (v_parent v' =? thisp)) with false; [split_and!; [done..|by left]|].
        case_bool_decide; [|done]. subst i. assert (v' = v) as -> by congruence. cbn.
        symmetry. by apply Z.eqb_neq.
      + intros w [= <-] _ ?. done. }
  destruct (IH (S p) a1) as (Hn2 & Hi2 & Hc2 & Hl2 & Hp2 & Hz2).
  split; [congruence|]. split; [congruence|]. split; [congruence|]. split; [congruence|]. rewrite <- Hi1. split.
  - intros i v' Hv'. destruct (Hp2 i v' Hv') as (w & Hw & Hr2). destruct (Hp1 i w Hw) as (v & Hv & Hr1).
    exists v. split; [done|]. rewrite Hi1 in Hr2 |- *.
    destruct Hr1 as (G1 & G2 & G3 & G4), Hr2 as (G5 & G6 & G7 & G8).
    split; [congruence|]. split; [congruence|]. split.
    + rewrite G7, G3. destruct (bool_decide_reflect (i = p)) as [->|Hip].
      * rewrite !bool_decide_false, bool_decide_true by lia. done.
      * cbn [andb]. replace (bool_decide (S p ≤ i < S p + n)%nat) with (bool_decide (p ≤ i < p + S n)%nat); [|].
        { done. }
        apply bool_decide_ext. lia.
    + destruct G8 as [G8|(G8 & G9 & G10)]; [rewrite G8; exact G4|].
      destruct G4 as [G4|(_ & _ & G4)]; [|congruence]. right. split_and!; congruence.
  - intros j v Hj Hv Hz Hpar (i & v' & Hv' & Hs & Hch).
    destruct (decide (j = p)) as [->|Hjp].
    + apply (Hz1 v Hv Hz Hpar). destruct (Hp2 i v' Hv') as (w & Hw & (_ & G2 & _ & G4)).
      exists i, w. split; [done|]. destruct G4 as [G4|(_ & _ & G4)]; split; congruence.
    + assert (j < length (a_tab a1))%nat as Hlt by (rewrite Hl1; by eapply lookup_lt_Some).
      apply lookup_lt_is_Some in Hlt as [w Hw]. destruct (Hp1 j w Hw) as (v0 & Hv0 & (_ & _ & G3 & G4)).
      assert (v0 = v) as -> by congruence. rewrite bool_decide_false in G3 by done. cbn [andb] in G3.
      apply (Hz2 j w); [lia|done| |congruence|].
      * destruct G4 as [G4|(G4 & _)]; congruence.
      * exists i, v'. done.
Qed.

(** One process before and after [exit] of the current one, except for its own
    state *)
Lemma exit_lookup parent a (i : nat) v3 (p : nat) :
  length (a_tab a) = 64%nat → a_cur a = p → a_tab (a_exit parent a) !! i = Some v3 →
  ∃ v, a_tab a !! i = Some v ∧ v_pid v3 = v_pid v ∧
    v_parent v3 = (if v_parent v =? p then a_init a else v_parent v) ∧
    (i = p → v_state v3 = PROC_ZOMBIE) ∧
    (i ≠ p → v_state v3 = v_state v ∨ (v_state v = PROC_SLEEPING ∧ v_state v3 = PROC_READY)) ∧
    (i ≠ p → v_state v3 = PROC_SLEEPING → v_chan v3 = v_chan v ∧ v_chan v ≠ parent ∧
      ∀ (j : nat) w, a_tab a !! j = Some w → v_state w = PROC_ZOMBIE → v_parent w = p → v_chan v ≠ a_init a).
Proof.
  intros Hlen Hcur Hv3. unfold a_exit in Hv3. rewrite Hcur in Hv3.
  destruct (reparent_spec (Z.to_nat NPROC) p 0 (a_wakeup parent a)) as (_ & _ & _ & _ & Hp & Hz).
  change (Z.of_nat 0) with 0 in *. revert Hp Hz Hv3.
  generalize (a_reparent (Z.to_nat NPROC) p 0 (a_wakeup parent a)) as a2. intros a2 Hp Hz Hv3.
  rewrite a_update_lookup, Nat2Z.id in Hv3.
  assert (∃ v2, a_tab a2 !! i = Some v2 ∧ v3 = if decide (i = p) then v_set_state PROC_ZOMBIE v2 else v2)
    as (v2 & Hv2 & ->).
  { case_decide; [|by eexists]. apply fmap_Some in Hv3 as (v2 & ? & ?). by exists v2. }
  destruct (Hp i v2 Hv2) as (v1 & Hv1 & (G1 & G2 & G3 & G4)). cbn in Hv1. rewrite list_lookup_fmap in Hv1.
  apply fmap_Some in Hv1 as (v & Hv & ->). exists v. split; [done|].
  assert (i < 64)%nat as Hi by (rewrite <- Hlen; by eapply lookup_lt_Some).
  rewrite bool_decide_true in G3 by (split; [lia|exact Hi]). cbn [andb] in G3.
  destruct (soft_wake parent v) as (S1 & S2 & S3).
  assert (v_chan (v_wake parent v) = v_chan v) as S4 by apply wake_chan.
  assert (v_state (v_wake parent v) = v_state v ∨
    (v_state v = PROC_SLEEPING ∧ v_state (v_wake parent v) = PROC_READY)) as S5 by apply wake_state.
  rewrite S1 in G1. rewrite S2 in G3. rewrite S4 in G2, G4.
  split; [by case_decide|]. split; [by case_decide|]. split; [by intros; rewrite decide_True|].
  split; intros Hne; rewrite !decide_False by done.
  - destruct G4 as [G4|(G4 & _ & G5)]; [rewrite G4; exact S5|]. right. split; [|done].
    destruct S5 as [S5|[S5 _]]; congruence.
  - intros Hs. destruct G4 as [G4|(_ & _ & G4)]; [|congruence]. rewrite Hs in G4. symmetry in G4.
    split; [done|]. split.
    + intros Hc. by apply (wake_asleep parent v Hc).
    + intros j w Hw Hwz Hwp Hc. apply (Hz j (v_wake parent w)).
      * split; [lia|]. change (0 + Z.to_nat NPROC)%nat with 64%nat. rewrite <- Hlen. by eapply lookup_lt_Some.
      * cbn. by rewrite list_lookup_fmap, Hw.
      * destruct (wake_state parent w) as [->|[? _]]; congruence.
      * by destruct (soft_wake parent w) as (_ & -> & _).
      * exists i, v2. split; [done|]. split; [done|]. rewrite G2. exact Hc.
Qed.

Lemma Some_fun {A} (o : option A) x y : o = Some x → o = Some y → x = y.
Proof. by intros -> [= ->]. Qed.

Lemma reparent_shape n thisp p b :
  let b' := a_reparent n thisp p b in
  a_next b' = a_next b ∧ a_init b' = a_init b ∧ length (a_tab b') = length (a_tab b).
Proof.
  revert p b. induction n as [|n IH]; intros p b; [done|]. cbn [a_reparent]. cbn zeta.
  edestruct IH as (-> & -> & ->).
  destruct (a_tab b !! Z.to_nat p) as [v|]; [|done]. destruct (v_parent v =? thisp); [|done].
  case_decide; cbn; by rewrite ?length_fmap, ?length_alter.
Qed.

Lemma exit_shape parent a :
  a_next (a_exit parent a) = a_next a ∧ a_init (a_exit parent a) = a_init a ∧
  length (a_tab (a_exit parent a)) = length (a_tab a).
Proof.
  unfold a_exit. generalize (Z.to_nat NPROC) as n. intros n.
  destruct (reparent_shape n (a_cur a) 0 (a_wakeup parent a)) as (H1 & H2 & H3).
  split; [exact H1|]. split; [exact H2|]. unfold a_update. cbn [a_tab].
  rewrite length_alter, H3. cbn. by rewrite length_fmap.
Qed.

#[local] Opaque a_exit.

Lemma exit_family parent a (p : nat) vp :
  a_cur a = p → a_cur a ≠ a_init a → a_tab a !! p = Some vp → alive vp → family a → family (a_exit parent a).
Proof.
  intros Hcur Hinit Hvp Hap [Hlen Hn Hcr Hpid Hps Hi Hpar].
  pose proof (λ i v3, exit_lookup parent a i v3 p Hlen Hcur) as Hlook.
  destruct (exit_shape parent a) as (Hn' & Hi' & Hlen').
  assert (∀ (i : nat) v, a_tab a !! i = Some v → ∃ v3, a_tab (a_exit parent a) !! i = Some v3) as Hex.
  { intros i v Hv. apply lookup_lt_is_Some. rewrite Hlen'. by eapply lookup_lt_Some. }
  assert (∀ (i : nat) v v3, a_tab a !! i = Some v → a_tab (a_exit parent a) !! i = Some v3 →
    v_state v3 ≠ PROC_UNUSED → v_state v ≠ PROC_UNUSED) as Hused.
  { intros i v v3 Hv Hv3 Hu. destruct (Hlook i v3 Hv3) as (w & Hw & _ & _ & _ & Hs & _).
    pose proof (Some_fun _ _ _ Hw Hv) as ->. destruct (decide (i = p)) as [->|Hne].
    - pose proof (Some_fun _ _ _ Hv Hvp) as ->. by destruct Hap.
    - destruct (Hs Hne) as [<-|[-> _]]; [done|done]. }
  assert (∀ (i : nat) v, a_tab a !! i = Some v → i ≠ p → alive v →
    ∃ v3, a_tab (a_exit parent a) !! i = Some v3 ∧ alive v3) as Halive.
  { intros i v Hv Hne [Ha1 Ha2]. destruct (Hex i v Hv) as [v3 Hv3]. exists v3. split; [done|].
    destruct (Hlook i v3 Hv3) as (w & Hw & _ & _ & _ & Hs & _). pose proof (Some_fun _ _ _ Hw Hv) as ->.
    destruct (Hs Hne) as [E|[_ E]]; unfold alive; rewrite E; [split; assumption|split; discriminate]. }
  destruct Hi as (n & vi & Hni & Hvi & Hai & Hnull).
  assert (n ≠ p) as Hnp by lia.
  split.
  - by rewrite Hlen'.
  - by rewrite Hn'.
  - intros i v3 Hv3. destruct (Hlook i v3 Hv3) as (v & Hv & _ & _ & Hz & Hs & _).
    destruct (decide (i = p)) as [Hip|Hip]; [by rewrite Hz|].
    destruct (Hs Hip) as [->|[_ ->]]; [by eapply Hcr|done].
  - intros i v3 Hv3 Hu. destruct (Hlook i v3 Hv3) as (v & Hv & -> & _ & _ & _). rewrite Hn'.
    by eapply Hpid, Hused.
  - intros i j v3 w3 Hv3 Hw3 Hij Hu Hu'.
    destruct (Hlook i v3 Hv3) as (v & Hv & -> & _), (Hlook j w3 Hw3) as (w & Hw & -> & _).
    by apply (Hps i j); [..|eapply Hused|eapply Hused].
  - destruct (Halive n vi Hvi Hnp Hai) as (v3 & Hv3 & Ha3). exists n, v3.
    split; [by rewrite Hi'|]. split; [done|]. split; [done|].
    destruct (Hlook n v3 Hv3) as (w & Hw & _ & -> & _). pose proof (Some_fun _ _ _ Hw Hvi) as ->.
    rewrite Hnull. destruct (Z.eqb_spec NULL p); [unfold NULL in *; lia|done].
  - intros i v3 Hv3 Hu Hne. rewrite Hi' in Hne. destruct (Hlook i v3 Hv3) as (v & Hv & _ & -> & _).
    destruct (Hpar i v Hv) as (q & w & Hq & Hqi & Hw & Haw); [by eapply Hused|done|]. rewrite Hq.
    destruct (Z.eqb_spec q p) as [Hqp|Hqp].
    + destruct (Halive n vi Hvi Hnp Hai) as (w3 & Hw3 & Ha3). exists n, w3. split_and!; [done|lia|done|done].
    + destruct (Halive q w Hw) as (w3 & Hw3 & Ha3); [lia|done|]. exists q, w3. split_and!; done.
Qed.

(** ** The invariant is preserved *)

Lemma running_alive a c K (p : nat) :
  ainv c K a → ctl_cur c = p → ∃ v, a_tab a !! p = Some v ∧ v_state v = PROC_RUNNING ∧ alive v.
Proof.
  intros Hi Hc. destruct (ai_in _ _ _ Hi p Hc) as [Hp _].
  rewrite <- (fm_len _ (ai_family _ _ _ Hi)) in Hp. apply lookup_lt_is_Some in Hp as [v Hv].
  assert (v_state v = PROC_RUNNING) as Hr
    by (apply (ai_running _ _ _ Hi p v Hv); rewrite (ai_cur _ _ _ Hi); by rewrite Hc).
  exists v. split; [done|]. split; [done|]. by unfold alive; rewrite Hr.
Qed.

(** The CPU moves on, the process that runs stays. *)
Lemma ainv_ctl c c' K a :
  ctl_cur c' = ctl_cur c → (∀ p k, c' ≠ CResume p k) → ainv c K a → ainv c' K a.
Proof.
  intros Hc Hr [Hf Hcur Hin Hrun Hsw _]. split; [done|by rewrite Hc|by rewrite Hc|done|done|].
  intros p l on k ->. by destruct (Hr p (KSleep l on k)).
Qed.

(** Changes that neither let a process run nor put one to sleep *)
Lemma ainv_soft c K a a' :
  soft a a' → a_cur a' = a_cur a →
  (∀ (i : nat) v v', a_tab a !! i = Some v → a_tab a' !! i = Some v' →
     (v_state v' = PROC_RUNNING ↔ v_state v = PROC_RUNNING) ∧
     (v_state v' = PROC_SLEEPING → v_state v = PROC_SLEEPING ∧ v_chan v' = v_chan v)) →
  ainv c K a → ainv c K a'.
Proof.
  intros Hs Hc Hpt [Hf Hcur Hin Hrun [Hw Hwr Hwk Hwd] Hk].
  pose proof Hs as (_ & _ & _ & Hl). split; [by eapply soft_family|congruence|done| | |done].
  - intros i v' Hv'. destruct (Hl i v' Hv') as (v & Hv & _). destruct (Hpt i v v' Hv Hv') as [-> _].
    rewrite Hc. by apply Hrun.
  - split; [|done|done|].
    + intros i v' on Hv' Hsl HK. destruct (Hl i v' Hv') as (v & Hv & _).
      destruct (Hpt i v v' Hv Hv') as [_ Hp]. destruct (Hp Hsl) as [Hsl' ->].
      destruct (Hw i v on Hv Hsl' HK) as [Hch Hz]. split; [done|]. intros j w' Hw' Hzw.
      destruct (Hl j w' Hw') as (w & Hw0 & (_ & -> & Hst)). apply (Hz j w Hw0).
      destruct Hst as [Hst|(_ & [_ Hst] & _)]; congruence.
    + intros i v' Hv' Hd. destruct (Hl i v' Hv') as (v & Hv & Hsv). apply (Hwd i v Hv).
      intros Ha. apply Hd. by eapply soft_alive.
Qed.

Lemma ainv_wakeup ch c K a : ainv c K a → ainv c K (a_wakeup ch a).
Proof.
  apply ainv_soft; [apply soft_wakeup|done|]. intros i v v' Hv Hv'. cbn in Hv'.
  rewrite list_lookup_fmap, Hv in Hv'. cbn in Hv'. injection Hv' as <-. unfold v_wake.
  case_decide as Hd; [|done]. destruct Hd as [-> _]. done.
Qed.

(** A process is switched out. *)
Lemma ainv_out c j K a (p : nat) k f v :
  ainv c K a → ctl_cur c = p → a_tab a !! p = Some v →
  soft_pv v (f v) → v_state (f v) ≠ PROC_RUNNING →
  (∀ l on, k = KSleep l on ARun → l ≠ ptable_lk) →
  (∀ l on, k = KSleep l on AWait → l = ptable_lk ∧ v_chan (f v) = p ∧
     ∀ (i : nat) w, a_tab a !! i = Some w → v_parent w = p → v_state w ≠ PROC_ZOMBIE) →
  ainv (CSched j) (<[p := k]> K) (a_set_cur NULL (a_update p f a)).
Proof.
  intros Hi Hc Hv Hf Hnr Hk1 Hk2. pose proof Hi as [Hfam Hcur Hin Hrun [Hw Hwr Hwk Hwd] _].
  destruct (running_alive _ _ _ _ Hi Hc) as (v0 & Hv0 & Hr0 & Ha0). pose proof (Some_fun _ _ _ Hv0 Hv) as ->.
  assert (soft a (a_set_cur NULL (a_update p f a))) as Hsoft.
  { apply (soft_update p f a). intros u. rewrite Nat2Z.id, Hv. by intros [= <-]. }
  assert (∀ (i : nat) w, a_tab (a_set_cur NULL (a_update p f a)) !! i = Some w →
    (i = p ∧ w = f v) ∨ (i ≠ p ∧ a_tab a !! i = Some w)) as Hl.
  { intros i w. change (a_tab (a_set_cur NULL (a_update p f a))) with (a_tab (a_update p f a)).
    rewrite a_update_lookup, Nat2Z.id. case_decide as Hip; [|by right]. subst i. rewrite Hv. intros [= <-]. by left. }
  split.
  - by eapply soft_family.
  - done.
  - intros q Hq. cbn in Hq. unfold NULL in Hq. lia.
  - intros i w Hw'. cbn [a_cur a_set_cur]. split; [|unfold NULL; lia]. intros Hr.
    destruct (Hl i w Hw') as [[-> ->]|[Hip Hw0]]; [done|].
    apply (Hrun i w Hw0) in Hr. rewrite Hcur, Hc in Hr. lia.
  - split.
    + intros i w on Hw' Hsl HK. destruct (Hl i w Hw') as [[-> ->]|[Hip Hw0]].
      * rewrite lookup_insert_eq in HK. injection HK as ->. destruct (Hk2 _ _ eq_refl) as (_ & Hch & Hz).
        split; [done|]. intros j' w' Hw'' Hzw Hp'. destruct (Hl j' w' Hw'') as [[-> ->]|[_ Hw0]].
        -- assert (alive (f v)) as [_ ?] by (by eapply soft_alive). done.
        -- by eapply (Hz j' w').
      * rewrite lookup_insert_ne in HK by done. destruct (Hw i w on Hw0 Hsl HK) as [Hch Hz]. split; [done|].
        intros j' w' Hw'' Hzw. destruct (Hl j' w' Hw'') as [[-> ->]|[_ Hw1]]; [|by eapply Hz].
        assert (alive (f v)) as [_ ?] by (by eapply soft_alive). done.
    + intros i l on HK. destruct (decide (i = p)) as [->|]; [rewrite lookup_insert_eq in HK|rewrite lookup_insert_ne in HK by done].
      * injection HK as ->. by eapply Hk1.
      * by eapply Hwr.
    + intros i l on HK. destruct (decide (i = p)) as [->|]; [rewrite lookup_insert_eq in HK|rewrite lookup_insert_ne in HK by done].
      * injection HK as ->. by eapply Hk2.
      * by eapply Hwk.
    + intros i w Hw' Hd. destruct (Hl i w Hw') as [[-> ->]|[Hip Hw0]].
      * destruct Hd. by eapply soft_alive.
      * rewrite lookup_insert_ne by done. by eapply Hwd.
  - done.
Qed.

(** A ready process is switched in. *)
Lemma ainv_pick (i : nat) K a v :
  ainv (CSched i) K a → a_tab a !! i = Some v → v_state v = PROC_READY →
  ainv (CResume i (default KForkret (K !! i))) (delete i K)
    (a_set_cur i (a_update i (v_set_state PROC_RUNNING) a)).
Proof.
  intros Hi Hv Hr. pose proof Hi as [Hfam Hcur Hin Hrun [Hw Hwr Hwk Hwd] _].
  assert (alive v) as Ha by (unfold alive; by rewrite Hr).
  assert (soft_pv v (v_set_state PROC_RUNNING v)) as Hsv by (by split_and!; [..|right]).
  assert (soft a (a_set_cur i (a_update i (v_set_state PROC_RUNNING) a))) as Hsoft.
  { apply (soft_update i). intros u. rewrite Nat2Z.id, Hv. by intros [= <-]. }
  assert (∀ (j : nat) w, a_tab (a_update i (v_set_state PROC_RUNNING) a) !! j = Some w →
    (j = i ∧ w = v_set_state PROC_RUNNING v) ∨ (j ≠ i ∧ a_tab a !! j = Some w)) as Hl.
  { intros j w. rewrite a_update_lookup, Nat2Z.id. case_decide as Hip; [|by right].
    subst j. rewrite Hv. intros [= <-]. by left. }
  assert (∀ (j : nat) w, a_tab a !! j = Some w → v_state w ≠ PROC_RUNNING) as Hnone.
  { intros j w Hw' Hs. apply (Hrun j w Hw') in Hs. rewrite Hcur in Hs. cbn in Hs. unfold NULL in Hs. lia. }
  split.
  - by eapply soft_family.
  - done.
  - intros q Hq. cbn in Hq. apply Nat2Z.inj in Hq as <-. split; [|by rewrite lookup_delete_eq].
    rewrite <- (fm_len _ Hfam). by eapply lookup_lt_Some.
  - intros j w Hw'. cbn [a_cur a_set_cur]. destruct (Hl j w Hw') as [[-> ->]|[Hji Hw0]]; [done|].
    split; [intros Hs; by destruct (Hnone j w Hw0)|lia].
  - split.
    + intros j w on Hw' Hsl HK. apply lookup_delete_Some in HK as [Hji HK].
      destruct (Hl j w Hw') as [[-> ->]|[_ Hw0]]; [done|].
      destruct (Hw j w on Hw0 Hsl HK) as [Hch Hz]. split; [done|].
      intros j' w' Hw'' Hzw. destruct (Hl j' w' Hw'') as [[-> ->]|[_ Hw1]]; [done|by eapply Hz].
    + intros j l on [_ HK]%lookup_delete_Some. by eapply Hwr.
    + intros j l on [_ HK]%lookup_delete_Some. by eapply Hwk.
    + intros j w Hw' Hd. destruct (Hl j w Hw') as [[-> ->]|[Hji Hw0]]; [by destruct Hd|].
      rewrite lookup_delete_ne by done. by eapply Hwd.
  - intros q l on k [= <- HK]. destruct (K !! i) as [k0|] eqn:HKi; [|done]. cbn in HK. subst k0.
    destruct k; [|by split; [|intros _; eapply Hwk]].
    split; [intros ->; by destruct (Hwr _ _ _ HKi)|done].
Qed.

Lemma ainv_fork r (p : nat) K a a' :
  ainv (CProc p) K a → forked r a a' → ainv (CProc p) K a'.
Proof.
  intros Hi Hf. destruct (running_alive _ _ _ p Hi eq_refl) as (vp & Hvp & Hrp & Hap).
  pose proof Hi as [Hfam Hcur Hin Hrun [Hw Hwr Hwk Hwd] Hk].
  pose proof (forked_family r a a' p vp Hf Hcur Hvp Hap Hfam) as Hfam'.
  destruct Hf as [[_ ->]|(c & v & v' & (Hc & Hu & Hc0 & Hle) & -> & Hv')]; [done|].
  pose proof (lookup_lt_Some _ _ _ Hc) as Hlen.
  assert (c ≠ p) as Hcp by (intros ->; congruence).
  assert (v_state v' = PROC_UNUSED ∨ v_state v' = PROC_READY) as Hst by naive_solver.
  split; [done|done|done| | |done].
  - intros i w Hw'. apply put_lookup in Hw' as [[-> ->]|[Hic Hw']]; [| |done].
    + cbn [a_cur a_put]. rewrite Hcur. cbn. split; [destruct Hst; congruence|lia].
    + by apply Hrun.
  - split; [|done|done|].
    + intros i w on Hw' Hsl HK. apply put_lookup in Hw' as [[-> ->]|[Hic Hw']]; [destruct Hst; congruence| |done].
      destruct (Hw i w on Hw' Hsl HK) as [Hch Hz]. split; [done|]. intros j x Hx Hzx.
      apply put_lookup in Hx as [[-> ->]|[_ Hx]]; [destruct Hst; congruence|by eapply Hz|done].
    + intros i w Hw' Hd. apply put_lookup in Hw' as [[-> ->]|[Hic Hw']]; [|by eapply Hwd|done].
      apply (Hwd c v Hc). intros [? _]. done.
Qed.

Lemma ainv_reap (p : nat) c' (c : nat) v K a :
  ctl_cur c' = ctl_cur (CWait p) → (∀ q k, c' ≠ CResume q k) →
  ainv (CWait p) K a → a_tab a !! c = Some v → v_state v = PROC_ZOMBIE →
  ainv c' K (a_update c (λ _, v_dead) a).
Proof.
  intros Hc' Hr Hi Hc Hz. apply (ainv_ctl (CWait p)); [done|done|].
  pose proof Hi as [Hfam Hcur Hin Hrun [Hw Hwr Hwk Hwd] Hk].
  assert (∀ (i : nat) w, a_tab (a_update c (λ _, v_dead) a) !! i = Some w →
    (i = c ∧ w = v_dead) ∨ (i ≠ c ∧ a_tab a !! i = Some w)) as Hl.
  { intros i w. rewrite a_update_lookup, Nat2Z.id. case_decide as Hip; [|by right].
    subst i. rewrite Hc. intros [= <-]. by left. }
  split; [by eapply dead_family|done|done| | |done].
  - intros i w Hw'. cbn [a_cur a_update]. destruct (Hl i w Hw') as [[-> ->]|[_ Hw0]]; [|by apply Hrun].
    split; [done|]. intros Hcc. apply (Hrun c v Hc) in Hcc. congruence.
  - split; [|done|done|].
    + intros i w on Hw' Hsl HK. destruct (Hl i w Hw') as [[-> ->]|[_ Hw0]]; [done|].
      destruct (Hw i w on Hw0 Hsl HK) as [Hch Hz']. split; [done|]. intros j x Hx Hzx.
      destruct (Hl j x Hx) as [[-> ->]|[_ Hx0]]; [done|by eapply Hz'].
    + intros i w Hw' Hd. destruct (Hl i w Hw') as [[-> ->]|[_ Hw0]]; [|by eapply Hwd].
      apply (Hwd c v Hc). by intros [_ ?].
Qed.

Lemma ainv_exit (p : nat) j K a v :
  ainv (CProc p) K a → a_cur a ≠ a_init a → a_tab a !! p = Some v →
  ainv (CSched j) K (a_set_cur NULL (a_exit (v_parent v) a)).
Proof.
  intros Hi Hinit Hv. destruct (running_alive _ _ _ p Hi eq_refl) as (vp & Hvp & Hrp & Hap).
  pose proof (Some_fun _ _ _ Hvp Hv) as ->.
  pose proof Hi as [Hfam Hcur Hin Hrun [Hw Hwr Hwk Hwd] _]. cbn in Hcur. pose proof (fm_len _ Hfam) as Hlen.
  pose proof (exit_family (v_parent v) a p v Hcur Hinit Hv Hap Hfam) as Hfam'.
  pose proof (λ i w, exit_lookup (v_parent v) a i w p Hlen Hcur) as Hlook.
  revert Hfam' Hlook. generalize (a_exit (v_parent v) a) as b. intros b Hfam' Hlook.
  destruct (Hin p eq_refl) as [Hp HKp].
  assert (∀ (i : nat) w, a_tab b !! i = Some w → v_state w ≠ PROC_RUNNING) as Hnone.
  { intros i w Hw' Hr. destruct (Hlook i w Hw') as (x & Hx & _ & _ & Hz & Hs & _).
    destruct (decide (i = p)) as [Hip|Hip]; [rewrite Hz in Hr; done|].
    destruct (Hs Hip) as [Hs'|[_ Hs']]; rewrite Hs' in Hr; [|done]. apply (Hrun i x Hx) in Hr. lia. }
  split.
  - exact (soft_family _ _ (soft_set_cur NULL _) Hfam').
  - reflexivity.
  - intros q Hq. cbn in Hq. unfold NULL in Hq. lia.
  - intros i w Hw'. cbn [a_cur a_set_cur]. split; [intros Hr; by destruct (Hnone i w Hw')|unfold NULL; lia].
  - split; [|done|done|].
    + intros i w on Hw' Hsl HK. destruct (Hlook i w Hw') as (x & Hx & _ & _ & _ & Hs & Hch).
      assert (i ≠ p) as Hip by (intros ->; congruence).
      destruct (Hch Hip Hsl) as (-> & Hnp & Hni).
      assert (v_state x = PROC_SLEEPING) as Hslx by (destruct (Hs Hip) as [<-|[? _]]; assumption).
      destruct (Hw i x on Hx Hslx HK) as [Hchi Hz]. split; [done|].
      intros j' y Hy Hzy. destruct (Hlook j' y Hy) as (u & Hu & _ & -> & _ & Hsu & _).
      destruct (decide (j' = p)) as [->|Hjp].
      * pose proof (Some_fun _ _ _ Hu Hv) as ->.
        destruct (fm_parent _ Hfam p v Hv) as (q & _ & Hq & Hqp & _); [by destruct Hap|congruence|].
        destruct (Z.eqb_spec (v_parent v) p); [lia|congruence].
      * assert (v_state u = PROC_ZOMBIE) as Hzu by (destruct (Hsu Hjp) as [<-|[_ Hsu']]; [done|by rewrite Hsu' in Hzy]).
        destruct (Z.eqb_spec (v_parent u) p) as [Hup|Hup]; [|by apply (Hz j' u)].
        intros Hinit'. apply (Hni j' u Hu Hzu Hup). congruence.
    + intros i w Hw' Hd. destruct (decide (i = p)) as [->|Hip]; [done|].
      destruct (Hlook i w Hw') as (x & Hx & _ & _ & _ & Hs & _). apply (Hwd i x Hx). intros [Ha1 Ha2]. apply Hd.
        destruct (Hs Hip) as [E|[_ E]]; unfold alive; rewrite E; [split; assumption|split; discriminate].
  - intros q l on k [=].
Qed.
End system.

Section reach.
Context `{KernelLayout, KernelText} {T : Type}.
Notation St := (KState T).

Lemma run_triple {A} (m : M St A) (s : St) r s' Q : m s = Ok r s' → wlp m s Q → Q r s'.
Proof. unfold wlp. by intros ->. Qed.

(** Switching out: [op] up to [swtch], then the scheduler's half *)
Lemma run_out (s1 s' : St) HL a :
  st_ok s1 HL a → scheduler_in s1 = Ok tt s' → st_ok s' HL (a_set_cur NULL a).
Proof. intros Hs Hr. exact (run_triple _ _ _ _ _ Hr (t_scheduler_in _ _ _ Hs)). Qed.

Lemma inv_intro (s : St) c K HL a : ctl_locks c HL → st_ok s HL a → ainv c K a → inv (mkSys s c K).
Proof. intros Hc [Hl <-] Ha. by exists HL. Qed.

Lemma inv_step (x y : Sys (T:=T)) : step x y → inv x → inv y.
Proof.
  intros Hstep (HL & Hc & Hli & Ha). set (a := abs (ks x)) in *.
  assert (st_ok (ks x) HL a) as Hs by done.
  destruct Hstep; cbn [ks ctl konts ctl_locks] in *.
  - subst HL. eapply inv_intro; [reflexivity| |by eapply (ainv_ctl CIdle)].
    assert (lock_inv (mkLState true (ncli (lk s)) (int_on (lk s)) (locks (lk s))) ∅) as Hli'
      by (destruct Hli; by split).
    refine (run_triple _ _ _ _ (λ _ s2, st_ok s2 {[ptable_lk]} a) H1 _). eapply (wlp_zoom_lk _ _ _ a (λ _ L, lock_inv L ({[ptable_lk]} ∪ ∅))); [exact Hs| |].
    + change (wlp (lock ptable_lk) (mkLState true (ncli (lk s)) (int_on (lk s)) (locks (lk s)))
        (λ _ L, lock_inv L ({[ptable_lk]} ∪ ∅))).
      eapply wlp_mono; [exact (lock_lock_inv _ _ _ Hli')|]. by intros ? ? [_ ?].
    + intros u L HL s2 <- Ha2. split; [|done]. by rewrite union_empty_r_L in HL.
  - destruct (run_triple _ _ _ _ _ H1 (t_unlock _ _ _ _ Hs)) as [_ Hs']. subst HL.
    eapply inv_intro; [|exact Hs'|by eapply (ainv_ctl (CSched 64))]. cbn. by rewrite difference_diag_L.
  - eapply inv_intro; [exact Hc|exact Hs|by eapply (ainv_ctl (CSched i))].
  - destruct (run_triple _ _ _ _ _ H3 (t_scheduler_out _ _ _ _ Hs)) as (_ & _ & Hs').
    eapply inv_intro; [exact Hc|exact Hs'|]. eapply ainv_pick; [exact Ha| |].
    + unfold a. cbn. by rewrite list_lookup_fmap, H1.
    + done.
  - pose proof (run_triple _ _ _ _ _ H1 (t_forkret _ _ _ Hs)) as Hs'. subst HL.
    eapply inv_intro; [|exact Hs'|by eapply (ainv_ctl (CResume p KForkret))]. cbn. set_solver.
  - pose proof (run_triple _ _ _ _ _ H1 (t_yield_in _ _ _ _ Hs)) as Hs'. subst HL.
    eapply inv_intro; [|exact Hs'|by eapply (ainv_ctl (CResume p (KYield on)))]. cbn. set_solver.
  - pose proof (run_triple _ _ _ _ _ H1 (t_sleep_in _ _ _ _ _ _ Hs)) as Hs'.
    destruct (ai_kont _ _ _ Ha p l on k eq_refl) as [Hk1 Hk2].
    destruct (running_alive _ _ _ p Ha eq_refl) as (v & Hv & Hr & Hav).
    assert (ainv (CResume p (KSleep l on k)) K (a_update p (v_set_chan NULL) a)) as Ha'.
    { eapply ainv_soft; [| | |exact Ha].
      - apply soft_update. intros w. rewrite Nat2Z.id, Hv. intros [= <-]. split_and!; [done..|by left].
      - done.
      - intros i w w' Hw Hw'. rewrite a_update_lookup, Nat2Z.id in Hw'. case_decide as Hip.
        + subst i. rewrite Hv in Hw'. cbn in Hw'. injection Hw' as <-. assert (w = v) as -> by congruence. cbn.
          split; [done|]. congruence.
        + assert (w = w') as -> by congruence. done. }
    eapply inv_intro; [|exact Hs'|].
    + cbn in Hc. subst HL. destruct k; cbn.
      * rewrite decide_False by naive_solver. set_solver.
      * rewrite decide_True by naive_solver. set_solver.
    + destruct k; eapply ainv_ctl; try exact Ha'; done.
  - pose proof (run_out _ _ _ _ (run_triple _ _ _ _ _ H1 (t_yield_out _ _ _ Hs)) H2) as Hs'.
    destruct (running_alive _ _ _ p Ha eq_refl) as (v & Hv & Hr & Hav).
    rewrite (ai_cur _ _ _ Ha) in Hs'. cbn [ctl_cur] in Hs'.
    eapply inv_intro; [reflexivity|exact Hs'|].
    eapply ainv_out; [exact Ha|done|exact Hv| |done|done|done]. split_and!; [done..|right]. by split_and!.
  - pose proof (run_out _ _ _ _ (run_triple _ _ _ _ _ H2 (t_sleep_out _ _ _ _ _ Hs)) H3) as Hs'.
    destruct (running_alive _ _ _ p Ha eq_refl) as (v & Hv & Hr & Hav).
    rewrite (ai_cur _ _ _ Ha) in Hs'. cbn [ctl_cur] in Hs'.
    eapply inv_intro; [reflexivity|exact Hs'|].
    eapply ainv_out; [exact Ha|done|exact Hv| |done|by intros ? ? [= <- <-]|done].
    split_and!; [done..|right]. by split_and!.
  - destruct (run_triple _ _ _ _ _ H1 (t_exit_out _ _ _ Hs)) as (Hinit & v & Hv & Hs1).
    pose proof (run_out _ _ _ _ Hs1 H2) as Hs'.
    eapply inv_intro; [reflexivity|exact Hs'|]. eapply ainv_exit; [exact Ha|exact Hinit|].
    rewrite (ai_cur _ _ _ Ha) in Hv. cbn [ctl_cur] in Hv. by rewrite Nat2Z.id in Hv.
  - pose proof (fm_next _ (ai_family _ _ _ Ha)) as Hn.
    destruct (run_triple _ _ _ _ _ H1 (t_fork _ _ a ltac:(lia) Hs)) as (a' & Hf & Hs').
    eapply inv_intro; [exact Hc|exact Hs'|by eapply ainv_fork].
  - pose proof (run_triple _ _ _ _ _ H1 (t_wakeup _ _ _ _ Hs)) as Hs'.
    eapply inv_intro; [exact Hc|exact Hs'|by apply ainv_wakeup].
  - pose proof (run_triple _ _ _ _ _ H1 (t_grow_process _ _ _ _ Hs)) as Hs'.
    eapply inv_intro; [exact Hc|exact Hs'|done].
  - destruct (run_triple _ _ _ _ _ H2 (t_lock _ _ _ _ Hs)) as [_ Hs'].
    eapply inv_intro; [|exact Hs'|done]. cbn in *. set_solver.
  - destruct (run_triple _ _ _ _ _ H2 (t_unlock _ _ _ _ Hs)) as [_ Hs'].
    eapply inv_intro; [|exact Hs'|done]. cbn in *. set_solver.
  - destruct (run_triple _ _ _ _ _ H1 (t_wait_enter _ _ _ Hs)) as [_ Hs'].
    eapply inv_intro; [|exact Hs'|by eapply (ainv_ctl (CProc p))]. cbn. set_solver.
  - pose proof (run_triple _ _ _ _ _ H1 (t_wait_round _ _ _ _ Hs)) as Hr. cbn beta iota in Hr.
    destruct Hr as [[_ Hs']|(c & v & Hv & _ & Hz & _ & Hs')].
    + eapply inv_intro; [|exact Hs'|by eapply (ainv_ctl (CWait p))]. cbn. set_solver.
    + eapply inv_intro; [|exact Hs'|by eapply ainv_reap]. cbn. set_solver.
  - pose proof (run_triple _ _ _ _ _ H1 (t_wait_round _ _ _ _ Hs)) as Hr. cbn beta iota in Hr.
    destruct Hr as [Hs1 Hall]. pose proof (run_out _ _ _ _ Hs1 H2) as Hs'.
    destruct (running_alive _ _ _ p Ha eq_refl) as (v & Hv & Hr & Hav).
    rewrite (ai_cur _ _ _ Ha) in Hs'. cbn [ctl_cur] in Hs'.
    eapply inv_intro; [reflexivity|exact Hs'|].
    eapply ainv_out; [exact Ha|done|exact Hv| |done|done|].
    + split_and!; [done..|right]. by split_and!.
    + intros l' on' [= <- <-]. split; [done|]. split; [done|]. intros i w Hw Hpar. apply (Hall i w); [|done|done].
      rewrite <- (fm_len _ (ai_family _ _ _ Ha)). by eapply lookup_lt_Some.
  - destruct H1 as [Hl Hab]. exists HL. cbn. split; [done|]. split; [by rewrite Hl|]. by rewrite Hab.
  - pose proof (run_triple _ _ _ _ _ H1 (t_wakeup _ _ _ _ Hs)) as Hs'.
    eapply inv_intro; [exact Hc|exact Hs'|by apply ainv_wakeup].
Qed.

Lemma inv_rtc (x y : Sys (T:=T)) : rtc step x y → inv x → inv y.
Proof. induction 1; eauto using inv_step. Qed.

(** *** The boot *)

(** The state that [init_pid1] finds *)
Record fresh_kernel (s : St) : Prop := mk_fresh_kernel {
  fk_lk : lock_inv (lk s) ∅;
  fk_len : length (ptab s) = 64%nat;
  fk_free : Forall (λ p, pstate p = PROC_UNUSED ∧ parent p = NULL) (ptab s);
  fk_next : nextpid s = 1;
}.

Lemma t_init_pid1 (s : St) HL a :
  0 ≤ a_next a → st_ok s HL a → wlp init_pid1 s (λ _ s', ∃ c v v', fresh_slot c v a ∧ v_state v' = PROC_READY ∧
    v_pid v' = a_next a ∧ v_parent v' = v_parent v ∧
    st_ok s' HL (mkAState (a_cur a) (<[c := v']> (a_tab a)) (a_next a + 1) c)).
Proof.
  intros Hpos Hs. unfold init_pid1. t_step @t_allocate_process. intros p s2 [[-> Hs2]|(c & v & Hfresh & Hcase)]; [done|].
  pose proof Hfresh as (Hc & Hu & Hc0 & Hnp). pose proof (lookup_lt_Some _ _ _ Hc) as Hlen.
  rewrite s32_small in Hcase by (unfold NPROC in *; lia).
  destruct Hcase as [[-> Hs2]|[-> Hs2]]; [done|].
  rewrite (proj2 (Z.eqb_neq _ _)) by (unfold NULL; lia).
  rewrite wlp_bind. eapply wlp_mono; [by apply t_pm|]. intros [ok d] s4 Hs4. cbn beta iota.
  rewrite wlp_bind. eapply wlp_mono; [by apply t_update_same|]. cbn beta. intros u s5 (_ & _ & Hs5).
  destruct ok; cbn [negb]; [|done].
  t_step @t_pm. intros u1 s6 Hs6.
  rewrite wlp_bind. eapply wlp_mono; [by apply t_update_same|]. cbn beta. intros u2 s7 (_ & _ & Hs7).
  rewrite wlp_bind. eapply (wlp_mono _ _ (λ _ s', st_ok s' HL (a_put c (v_new (a_next a) v) (a_next a + 1) a))).
  { unfold set_pid1_trapframe. t_step @t_proc. intros x s8 (_ & _ & Hs8). by apply t_pm. }
  intros u3 s8 Hs8. t_step @t_proc. intros x s9 (_ & _ & Hs9). rewrite wlp_bind.
  destruct (name_copy (pname x) init_name) as [nm|]; [|done].
  unfold need. change (wlp (ret nm) ?s ?Q) with (Q nm s). cbn beta.
  rewrite wlp_bind. eapply wlp_mono; [by apply t_update_same|]. cbn beta. intros u4 s10 (_ & _ & Hs10).
  t_step @t_lock. intros u5 s11 [Hnl Hs11].
  rewrite wlp_bind. eapply wlp_mono; [by eapply (t_update_put _ _ (v_set_state PROC_READY))|].
  cbn beta. intros u6 s12 Hs12. rewrite wlp_bind.
  set (v' := v_set_state PROC_READY (v_new (a_next a) v)) in *.
  eapply (wlp_mono _ _ (λ _ s', st_ok s' ({[ptable_lk]} ∪ HL)
    (mkAState (a_cur a) (<[c := v']> (a_tab a)) (a_next a + 1) c))).
  { destruct Hs12 as [Hl12 Ha12]. split; [done|]. unfold abs, a_put in *. cbn.
    injection Ha12 as -> -> -> _. done. }
  intros u7 s13 Hs13. t_last @t_unlock. intros u8 s14 [_ Hs14]. rewrite relock in Hs14 by done.
  exists c, v, v'. done.
Qed.

(** When [init_pid1] and the first lines of [scheduler] return, the invariant
    holds. *)
Lemma boot_inv (s s' : St) :
  fresh_kernel s → (do! init_pid1 in scheduler_init) s = Ok tt s' → inv (mkSys s' CIdle ∅).
Proof.
  intros [Hli Hlen Hfree Hnext] Hrun. set (a := abs s).
  assert (st_ok s ∅ a) as Hs by done.
  assert (wlp (do! init_pid1 in scheduler_init) s (λ _ s', ∃ c v v', fresh_slot c v a ∧ v_state v' = PROC_READY ∧
    v_pid v' = a_next a ∧ v_parent v' = v_parent v ∧
    st_ok s' ∅ (mkAState NULL (<[c := v']> (a_tab a)) (a_next a + 1) c))) as Hw.
  { rewrite wlp_bind. eapply wlp_mono; [apply (t_init_pid1 s ∅ a); [cbn; lia|done]|].
    intros u s1 (c & v & v' & Hf & Hr & Hp & Hpar & Hs1). unfold scheduler_init. t_step @t_this_cpu.
    intros u' s2 [_ Hs2]. t_last @t_set_cur. intros u'' s3 Hs3. exists c, v, v'. done. }
  destruct (run_triple _ _ _ _ _ Hrun Hw) as (c & v & v' & (Hc & Hu & Hc0 & _) & Hr & Hp & Hpar & Hs').
  assert (∀ (i : nat) w, a_tab a !! i = Some w → v_state w = PROC_UNUSED ∧ v_parent w = NULL) as Hall.
  { intros i w. unfold a. cbn. rewrite list_lookup_fmap. intros (x & Hx & ->)%fmap_Some.
    exact (Forall_lookup_1 _ _ _ _ Hfree Hx). }
  pose proof (lookup_lt_Some _ _ _ Hc) as Hlt.
  assert (∀ (i : nat) w, <[c := v']> (a_tab a) !! i = Some w →
    (i = c ∧ w = v') ∨ (i ≠ c ∧ v_state w = PROC_UNUSED)) as Hl.
  { intros i w. destruct (decide (i = c)) as [->|Hic].
    - rewrite list_lookup_insert_eq by done. intros [= ->]. by left.
    - rewrite list_lookup_insert_ne by done. intros Hw'. right. split; [done|]. by apply (Hall i). }
  assert (a_next a = 1) as Hn by done. rewrite Hn in *.
  eapply inv_intro; [reflexivity|exact Hs'|]. split.
  - split; cbn.
    + unfold a. cbn. by rewrite length_insert, length_fmap.
    + lia.
    + intros i w Hw'. destruct (Hl i w Hw') as [[-> ->]|[_ ->]]; [by rewrite Hr|done].
    + intros i w Hw' Hs2. destruct (Hl i w Hw') as [[-> ->]|[_ ?]]; [lia|done].
    + intros i j w w' Hw' Hw'' Hij Hs2 Hs3.
      destruct (Hl i w Hw') as [[-> ->]|[_ ?]], (Hl j w' Hw'') as [[-> ->]|[_ ?]]; done.
    + exists c, v'. split; [done|]. split; [by rewrite list_lookup_insert_eq|]. split; [by unfold alive; rewrite Hr|].
      rewrite Hpar. by apply (Hall c).
    + intros i w Hw' Hs2 Hne. destruct (Hl i w Hw') as [[-> ->]|[_ ?]]; done.
  - done.
  - intros q Hq. cbn in Hq. unfold NULL in Hq. lia.
  - intros i w Hw'. cbn. split; [|unfold NULL; lia]. intros Hrw.
    destruct (Hl i w Hw') as [[-> ->]|[_ ?]]; congruence.
  - split; [done|done|done|done].
  - done.
Qed.
End reach.

(** ** Properties *)

Section properties.
Context `{KernelLayout, KernelText} {T : Type}.
Notation St := (KState T).

Lemma ptab_view (s : St) (i : nat) p : ptab s !! i = Some p → a_tab (abs s) !! i = Some (pv p).
Proof. intros Hp. cbn. by rewrite list_lookup_fmap, Hp. Qed.

(** C1: at most one process runs, whatever the processes, the scheduler and
    the interrupts do: a process is in [PROC_RUNNING] exactly if it is
    [cpu.proc], and while the scheduler looks for the next one none is. In its
    loop the scheduler holds [ptable.lk] and nothing else, with interrupts
    disabled, whichever process came back to it. *)
Theorem one_process_runs (x y : Sys (T:=T)) :
  inv x → rtc step x y →
  (∀ (i : nat) p, ptab (ks y) !! i = Some p → pstate p = PROC_RUNNING ↔ cur (ks y) = i) ∧
  (∀ i, ctl y = CSched i →
     cur (ks y) = NULL ∧ iflag (lk (ks y)) = false ∧ ncli (lk (ks y)) = 1 ∧
     ∀ l z, locks (lk (ks y)) !! l = Some z → z = if decide (l = ptable_lk) then taken else new_lock).
Proof.
  intros Hx Hr. apply inv_rtc in Hr as (HL & Hc & Hli & Ha); [|done]. split.
  - intros i p Hp. pose proof (ai_running _ _ _ Ha i (pv p) (ptab_view _ _ _ Hp)) as Hrun.
    cbn in Hrun. rewrite Hrun. split; congruence.
  - intros i Hi. rewrite Hi in *. cbn in Hc. subst HL. split; [exact (ai_cur _ _ _ Ha)|].
    destruct Hli as [Hn Hoff Hst _ _]. split; [apply Hoff; set_solver|].
    split; [rewrite Hn, size_singleton; done|]. intros l z Hz. rewrite (Hst _ _ Hz).
    apply decide_ext. set_solver.
Qed.

(** C2: processes form a family in every reachable state: the processes in use
    have different pids, below [nextpid], and every one but init has a parent,
    another process, that is neither unused nor a zombie; init is one of
    them. So [exit] hands every orphan on, and [wait] never frees a process
    that is still a parent. *)
Theorem process_family (x y : Sys (T:=T)) :
  inv x → rtc step x y →
  (∀ (i : nat) p, ptab (ks y) !! i = Some p → pstate p ≠ PROC_UNUSED →
     1 ≤ pid p < nextpid (ks y) ∧
     (∀ (j : nat) q, ptab (ks y) !! j = Some q → pstate q ≠ PROC_UNUSED → pid q = pid p → j = i) ∧
     (Z.of_nat i ≠ proc_init1 (ks y) → ∃ (j : nat) q, parent p = j ∧ j ≠ i ∧ ptab (ks y) !! j = Some q ∧
        pstate q ≠ PROC_UNUSED ∧ pstate q ≠ PROC_ZOMBIE)) ∧
  (∃ (i : nat) p, proc_init1 (ks y) = i ∧ ptab (ks y) !! i = Some p ∧
     pstate p ≠ PROC_UNUSED ∧ pstate p ≠ PROC_ZOMBIE).
Proof.
  intros Hx Hr. apply inv_rtc in Hr as (HL & Hc & Hli & Ha); [|done].
  pose proof (ai_family _ _ _ Ha) as [_ _ _ Hpid Hps Hi Hpar].
  assert (∀ (i : nat) v, a_tab (abs (ks y)) !! i = Some v → ∃ p, ptab (ks y) !! i = Some p ∧ v = pv p) as Hview.
  { intros i v. cbn. rewrite list_lookup_fmap. by intros (p & Hp & ->)%fmap_Some; exists p. }
  split.
  - intros i p Hp Hu. pose proof (ptab_view _ _ _ Hp) as Hv. split; [by apply (Hpid i (pv p))|]. split.
    + intros j q Hq Hu' Heq. destruct (decide (j = i)) as [|Hne]; [done|].
      destruct (Hps j i (pv q) (pv p)); [by apply ptab_view|done|done|done|done|exact Heq].
    + intros Hne. destruct (Hpar i (pv p) Hv Hu Hne) as (q & w & Hq & Hqi & Hw & Ha1 & Ha2).
      destruct (Hview q w Hw) as (r & Hr & ->). by exists q, r.
  - destruct Hi as (n & v & Hn & Hv & [Ha1 Ha2] & _). destruct (Hview n v Hv) as (r & Hr & ->). by exists n, r.
Qed.

(** C3: no wake-up is lost: a process that sleeps in [wait] sleeps on its own
    address, where [exit] looks for it, and has no child to collect; so a
    parent never sleeps while one of its children is a zombie. *)
Theorem wait_not_lost (x y : Sys (T:=T)) (i j : nat) p q on :
  inv x → rtc step x y → ptab (ks y) !! i = Some p → pstate p = PROC_SLEEPING →
  konts y !! i = Some (KSleep ptable_lk on AWait) →
  chan p = i ∧ (ptab (ks y) !! j = Some q → parent q = i → pstate q ≠ PROC_ZOMBIE).
Proof.
  intros Hx Hr Hp Hs HK. apply inv_rtc in Hr as (HL & Hc & Hli & Ha); [|done].
  destruct (sw_wait _ _ (ai_switched _ _ _ Ha) i (pv p) on (ptab_view _ _ _ Hp) Hs HK) as [Hch Hz].
  split; [exact Hch|]. intros Hq Hpar Hzq. by apply (Hz j (pv q)); [apply ptab_view| |].
Qed.
End properties.

(** ** The scheduler does switch *)

Section progress.
Context `{KernelLayout, KernelText} {T : Type}.
Notation St := (KState T).

Definition put_lk (l : LState) (s : St) : St :=
  mkKState l (cpu s) (cur s) (ptab s) (nextpid s) (proc_init1 s) (kernel_pgdir s) (pm s) (ftab s) (rest s).

Lemma with_lk_ok {A} (m : M LState A) (s : St) r l : m (lk s) = Ok r l → with_lk m s = Ok r (put_lk l s).
Proof. unfold with_lk, zoom. by intros ->. Qed.

Lemma put_lk_id (s : St) : put_lk (lk s) s = s.
Proof. by destruct s. Qed.

Lemma proc_ok (s : St) (i : nat) p : ptab s !! i = Some p → proc i s = Ok p s.
Proof.
  intros Hp. unfold proc. rewrite (proj2 (Z.ltb_ge _ _)) by lia. unfold bind, gets. by rewrite Nat2Z.id, Hp.
Qed.

Lemma bind_proc {A} (f : Process → M St A) (s : St) (i : nat) p :
  ptab s !! i = Some p → bind (proc i) f s = f p s.
Proof. intros Hp. exact (bind_ok _ _ _ _ _ (proc_ok s i p Hp)). Qed.

Lemma update_ok (s : St) (i : nat) p f :
  ptab s !! i = Some p → update i f s = set_ptab (<[i := f p]> (ptab s)) s.
Proof.
  intros Hp. unfold update. rewrite (bind_ok _ _ _ _ _ (proc_ok s i p Hp)).
  unfold bind, gets. by rewrite Nat2Z.id.
Qed.

(** With interrupts already disabled, [push_cli] and [pop_cli] around an
    operation leave the lock state as it was. *)
Lemma push_pop_inner L : cli_ok L → 0 < ncli L < 1000000 → popped (pushed L) = L.
Proof.
  intros Hok Hn. rewrite popped_pushed by done. unfold restore_flag.
  rewrite (proj2 (Z.eqb_neq _ _)) by lia. by destruct L.
Qed.

Lemma push_pop_runs L :
  cli_ok L → 0 < ncli L < 1000000 →
  push_cli L = Ok tt (pushed L) ∧ this_cpu (pushed L) = Ok tt (pushed L) ∧
  pop_cli (pushed L) = Ok tt L ∧ cli_ok (pushed L).
Proof.
  intros Hok Hn. split; [by apply push_cli_ok|]. split; [done|]. split.
  - rewrite pop_cli_ok by (cbn; (done || lia)). by rewrite push_pop_inner.
  - apply pushed_ok; [done|lia].
Qed.

Lemma this_proc_runs (s : St) : cli_ok (lk s) → 0 < ncli (lk s) < 1000000 → this_proc s = Ok (cur s) s.
Proof.
  intros Hok Hn. destruct (push_pop_runs _ Hok Hn) as (H1 & H2 & H3 & _). unfold this_proc.
  rewrite (bind_ok _ _ _ _ _ (with_lk_ok push_cli s _ _ H1)).
  rewrite (bind_ok _ _ _ _ _ (with_lk_ok this_cpu (put_lk (pushed (lk s)) s) _ _ H2)).
  unfold bind at 1, gets. cbn [cur put_lk].
  rewrite (bind_ok _ _ _ _ _ (with_lk_ok pop_cli (put_lk (pushed (lk s)) (put_lk (pushed (lk s)) s)) _ _ H3)).
  unfold ret. f_equal. by destruct s.
Qed.

Lemma bind_this_proc {A} (f : Z → M St A) (s : St) :
  cli_ok (lk s) → 0 < ncli (lk s) < 1000000 → bind this_proc f s = f (cur s) s.
Proof. intros Hok Hn. exact (bind_ok _ _ _ _ _ (this_proc_runs s Hok Hn)). Qed.

Definition put_cpu (c : Cpu) (s : St) : St :=
  mkKState (lk s) c (cur s) (ptab s) (nextpid s) (proc_init1 s) (kernel_pgdir s) (pm s) (ftab s) (rest s).

(** The CPU state that runs the process [p] on its kernel stack *)
Definition loaded (p : Process) (c : Cpu) : Cpu :=
  mkCpu (<[SEG_TSS := tss_descriptor cpu_ts sizeof_TaskState]> (gdt c)) (8 * SEG_KDATA)
    (u32 (kstack p + KSTACK_SZ)) (8 * SEG_TSS) (KA2P (pgdir p)).

Lemma write_tss_runs (s : St) (i : nat) p :
  cli_ok (lk s) → 0 < ncli (lk s) < 1000000 → ptab s !! i = Some p →
  write_tss i s = Ok tt (put_cpu (mkCpu (<[SEG_TSS := tss_descriptor cpu_ts sizeof_TaskState]> (gdt (cpu s)))
    (8 * SEG_KDATA) (u32 (kstack p + KSTACK_SZ)) (8 * SEG_TSS) (cr3 (cpu s))) s).
Proof.
  intros Hok Hn Hp. destruct (push_pop_runs _ Hok Hn) as (H1 & H2 & H3 & _). unfold write_tss.
  rewrite (bind_ok _ _ _ _ _ (with_lk_ok push_cli s _ _ H1)).
  rewrite (bind_ok _ _ _ _ _ (with_lk_ok this_cpu (put_lk (pushed (lk s)) s) _ _ H2)).
  unfold bind at 1, gets. rewrite (bind_proc _ _ i p) by exact Hp.
  unfold bind at 1, set_cpu, modify. by rewrite (with_lk_ok pop_cli _ tt (lk s)) by exact H3.
Qed.

Lemma uvm_switch_runs (s : St) (i : nat) p :
  cli_ok (lk s) → 0 < ncli (lk s) < 999999 → ptab s !! i = Some p → cur s = i →
  kstack p ≠ 0 → pgdir p ≠ 0 → uvm_switch i s = Ok tt (put_cpu (loaded p (cpu s)) s).
Proof.
  intros Hok Hn Hp Hcur Hk Hd. destruct (push_pop_runs (lk s)) as (H1 & H2 & H3 & Hok'); [done|lia|]. unfold uvm_switch.
  rewrite (proj2 (Z.eqb_neq (Z.of_nat i) NULL)) by (unfold NULL; lia).
  rewrite (bind_ok _ _ _ _ _ (proc_ok s i p Hp)).
  rewrite (proj2 (Z.eqb_neq (kstack p) 0)), (proj2 (Z.eqb_neq (pgdir p) 0)) by done.
  rewrite (bind_ok _ _ _ _ _ (with_lk_ok push_cli s _ _ H1)).
  rewrite (bind_ok _ _ _ _ _ (write_tss_runs (put_lk (pushed (lk s)) s) i p Hok' ltac:(cbn; lia) Hp)).
  rewrite bind_this_proc by (first [exact Hok'|cbn; lia]).
  cbn [cur put_cpu put_lk]. rewrite Hcur. rewrite (bind_proc _ _ i p) by exact Hp.
  unfold bind at 1, gets. unfold bind at 1, set_cpu, modify. by rewrite (with_lk_ok pop_cli _ tt (lk s)) by exact H3.
Qed.

Lemma scheduler_out_runs (s : St) (i : nat) p :
  cli_ok (lk s) → 0 < ncli (lk s) < 999999 → ptab s !! i = Some p → kstack p ≠ 0 → pgdir p ≠ 0 →
  ∃ s', scheduler_out i s = Ok tt s' ∧ cur s' = i ∧ ptab s' = <[i := set_state PROC_RUNNING p]> (ptab s) ∧
    cpu s' = loaded p (cpu s).
Proof.
  intros Hok Hn Hp Hk Hd. unfold scheduler_out. unfold bind at 1, set_cur, modify.
  rewrite (bind_ok _ _ _ _ _ (uvm_switch_runs (mkKState (lk s) (cpu s) i (ptab s) (nextpid s) (proc_init1 s)
    (kernel_pgdir s) (pm s) (ftab s) (rest s)) i p Hok Hn Hp eq_refl Hk Hd)).
  eexists. split; [by rewrite (update_ok _ i p)|]. done.
Qed.

(** Rounds of the loop over processes that are not ready *)
Lemma skip_to (s : St) K (i j : nat) :
  (i ≤ j)%nat → (∀ n, (i ≤ n < j)%nat → ∃ p, ptab s !! n = Some p ∧ pstate p ≠ PROC_READY) →
  rtc step (mkSys s (CSched i) K) (mkSys s (CSched j) K).
Proof.
  intros Hij Hnr. remember (j - i)%nat as n eqn:Hn. revert i Hij Hnr Hn. induction n as [|n IH]; intros i Hij Hnr Hn.
  { replace j with i by lia. apply rtc_refl. }
  destruct (Hnr i) as (p & Hp & Hs); [lia|]. eapply rtc_l; [by eapply st_skip|].
  apply IH; [lia| |lia]. intros m Hm. apply Hnr. lia.
Qed.

(** C21: the scheduler makes progress: from any round [i] of its loop it runs
    the first ready process at or after [i] in the table, on that process's own
    address space and kernel stack. *)
Theorem scheduler_runs_ready (s : St) K (i j : nat) p :
  inv (mkSys s (CSched i) K) → (i ≤ j)%nat →
  (∀ n q, (i ≤ n < j)%nat → ptab s !! n = Some q → pstate q ≠ PROC_READY) →
  ptab s !! j = Some p → pstate p = PROC_READY → kstack p ≠ 0 → pgdir p ≠ 0 →
  ∃ s', rtc step (mkSys s (CSched i) K) (mkSys s' (CResume j (default KForkret (K !! j))) (delete j K)) ∧
    cur s' = j ∧ ptab s' = <[j := set_state PROC_RUNNING p]> (ptab s) ∧
    cr3 (cpu s') = KA2P (pgdir p) ∧ ts_esp0 (cpu s') = u32 (kstack p + KSTACK_SZ).
Proof.
  intros (HL & Hc & Hli & Ha) Hij Hnr Hp Hr Hk Hd. cbn in Hc. subst HL.
  destruct (lock_inv_cli _ _ Hli) as [Hok _]. cbn [ks] in *.
  assert (ncli (lk s) = 1) as Hn by (rewrite (li_ncli _ _ Hli), size_singleton; done).
  destruct (scheduler_out_runs s j p Hok ltac:(lia) Hp Hk Hd) as (s' & Hrun & Hcur & Htab & Hcpu).
  exists s'. split; [|by rewrite Hcpu]. eapply rtc_r; [|by eapply st_pick].
  apply skip_to; [done|]. intros n Hn'.
  assert (n < length (ptab s))%nat as Hlt by (pose proof (lookup_lt_Some _ _ _ Hp); lia).
  apply lookup_lt_is_Some in Hlt as [q Hq]. exists q. split; [done|]. by apply (Hnr n q).
Qed.
End progress.

(** ** Witnesses *)

(** Two processes: init waits for its child, which is ready. *)
Definition demo_process (st : ProcState) (n par ch : Z) : Process :=
  mkProcess 4096 0x80300000 0x80301000 n par st 0 0 ch false [] [].

Definition unused_process : Process := mkProcess 0 0 0 0 NULL PROC_UNUSED 0 0 NULL false [] [].

#[local] Existing Instance demo_layout.

#[local] Existing Instance demo_text.

Definition demo_table : list Process :=
  unused_process :: demo_process PROC_SLEEPING 1 NULL 1 :: demo_process PROC_READY 2 1 NULL ::
  replicate 61 unused_process.

Definition demo_kernel : KState unit :=
  mkKState (mkLState false 1 true {[ 100 := taken ]}) (mkCpu (replicate 6 0) 0 0 0 0) NULL demo_table 3 1
    0x80200000 (mkPmem ∅ 0) [] tt.

Definition demo_konts : gmap nat Kont := {[ 1%nat := KSleep 100 true AWait ]}.

Definition demo_sys : Sys (T:=unit) := mkSys demo_kernel (CSched 0) demo_konts.

(** The entries of the table: two processes and free slots *)
Lemma demo_entry (i : nat) v :
  a_tab (abs demo_kernel) !! i = Some v →
  (i = 1%nat ∧ v = mkPV PROC_SLEEPING 1 1 NULL) ∨ (i = 2%nat ∧ v = mkPV PROC_READY NULL 2 1) ∨
  (i ≠ 1%nat ∧ v = mkPV PROC_UNUSED NULL 0 NULL).
Proof.
  change (a_tab (abs demo_kernel)) with (pv <$> demo_table). rewrite list_lookup_fmap.
  intros (p & Hp & ->)%fmap_Some. unfold demo_table in Hp.
  destruct i as [|[|[|i]]]; cbn in Hp; [injection Hp as <-|injection Hp as <-|injection Hp as <-|];
    [by right; right|by left|by right; left|].
  change (replicate 61 unused_process !! i = Some p) in Hp.
  apply lookup_replicate in Hp as [-> _]. by right; right.
Qed.

Lemma demo_inv : inv demo_sys.
Proof.
  unfold demo_sys, demo_konts. exists {[100]}. cbn [ctl konts ks]. split; [done|]. split.
  - split; cbn.
    + done.
    + done.
    + intros l x. rewrite lookup_singleton_Some. intros [<- <-]. by rewrite decide_True by set_solver.
    + intros l ->%elem_of_singleton. by rewrite lookup_singleton_eq.
    + reflexivity.
  - split; cbn [ctl konts ks].
    + split.
      * reflexivity.
      * done.
      * intros i v Hv. apply demo_entry in Hv as [[_ ->]|[[_ ->]|[? ->]]]; done.
      * intros i v Hv Hu. apply demo_entry in Hv as [[_ ->]|[[_ ->]|[? ->]]]; done.
      * intros i j v w Hv Hw Hij Hu Hu'.
        apply demo_entry in Hv as [[-> ->]|[[-> ->]|[? ->]]]; apply demo_entry in Hw as [[-> ->]|[[-> ->]|[? ->]]]; done.
      * exists 1%nat, (mkPV PROC_SLEEPING 1 1 NULL). done.
      * intros i v Hv Hu Hne. apply demo_entry in Hv as [[-> ->]|[[-> ->]|[? ->]]]; [done| |done].
        exists 1%nat, (mkPV PROC_SLEEPING 1 1 NULL). done.
    + done.
    + intros p Hp. cbn in Hp. unfold NULL in Hp. lia.
    + intros i v Hv. cbn. apply demo_entry in Hv as [[-> ->]|[[-> ->]|[? ->]]]; unfold NULL; split; (done || lia).
    + split.
      * intros i v on Hv Hs HK. apply lookup_singleton_Some in HK as [<- _].
        apply demo_entry in Hv as [[_ ->]|[[? _]|[? ->]]]; [|done|done]. split; [done|].
        intros j w Hw Hz. apply demo_entry in Hw as [[_ ->]|[[_ ->]|[? ->]]]; done.
      * intros i l on HK. by apply lookup_singleton_Some in HK as [_ ?].
      * intros i l on HK. apply lookup_singleton_Some in HK as [_ HK]. by injection HK.
      * intros i v Hv Hd. apply lookup_singleton_None. intros <-.
        apply demo_entry in Hv as [[_ ->]|[[? _]|[? ->]]]; [by destruct Hd|done|done].
    + done.
Qed.

Lemma demo_runs : ∃ s', rtc step demo_sys (mkSys s' (CResume 2 KForkret) demo_konts) ∧ cur s' = 2.
Proof.
  destruct (scheduler_out_runs demo_kernel 2 (demo_process PROC_READY 2 1 NULL)) as (s' & Hrun & Hcur & _).
  1: { split; cbn; [lia|done]. }
  1: { cbn. lia. }
  1-3: done.
  exists s'. split; [|exact Hcur]. eapply rtc_r.
  - apply (skip_to demo_kernel demo_konts 0 2); [lia|]. intros [|[|n]] Hn; [eexists; by split|eexists; by split|lia].
  - assert (demo_konts = delete 2%nat demo_konts) as Heq by (symmetry; by apply delete_id).
    rewrite Heq at 2. change KForkret with (default KForkret (demo_konts !! 2%nat)). by eapply st_pick.
Qed.

Lemma one_process_runs_witness : ∃ s', cur s' = 2 ∧ rtc step demo_sys (mkSys s' (CResume 2 KForkret) demo_konts) ∧
  ∀ (i : nat) p, ptab s' !! i = Some p → pstate p = PROC_RUNNING ↔ cur s' = i.
Proof.
  destruct demo_runs as (s' & Hr & Hc). exists s'. split; [done|]. split; [done|].
  exact (proj1 (one_process_runs demo_sys _ demo_inv Hr)).
Defined.

Lemma process_family_witness : ∃ (i : nat) p, proc_init1 demo_kernel = i ∧ ptab demo_kernel !! i = Some p ∧
  pstate p ≠ PROC_UNUSED ∧ pstate p ≠ PROC_ZOMBIE.
Proof. exact (proj2 (process_family demo_sys demo_sys demo_inv (rtc_refl _ _))). Defined.

Lemma wait_not_lost_witness : chan (demo_process PROC_SLEEPING 1 NULL 1) = 1.
Proof.
  refine (proj1 (wait_not_lost demo_sys demo_sys 1 2 (demo_process PROC_SLEEPING 1 NULL 1)
    (demo_process PROC_READY 2 1 NULL) true demo_inv (rtc_refl _ _) _ _ _)); reflexivity.
Defined.

Lemma scheduler_runs_ready_witness : ∃ s' : KState unit,
  rtc step demo_sys (mkSys s' (CResume 2 KForkret) (delete 2%nat demo_konts)) ∧ cr3 (cpu s') = 0x300000.
Proof.
  destruct (scheduler_runs_ready demo_kernel demo_konts 0 2 (demo_process PROC_READY 2 1 NULL) demo_inv)
    as (s' & Hr & _ & _ & Hcr & _).
  - lia.
  - intros [|[|n]] q Hn Hq; [injection Hq as <-|injection Hq as <-|lia]; discriminate.
  - reflexivity.
  - reflexivity.
  - discriminate.
  - discriminate.
  - exists s'. split; [exact Hr|]. rewrite Hcr. reflexivity.
Defined.
