(* ===== verification/ExecSpec.v ===== *)
(** * What exec.c does: the segments, the stack and the process

    The specifications give the memory of the program as a function of the
    bytes of its file and of its arguments. *)
From S2P Require Import Prelude Machine CMem CString Mkfs Ide Disk BCache Block Inode Dir Elf.
From S2P Require Import Palloc PgTbl VMem Uvm Locks Segments Process ProcSpec Switch Pipe Files Exec Syscall OpenFiles Sched.

(** ** Specifications *)

(** Does the segment give the byte at [a]? *)
Definition in_segment (ph : ELF32ProgramHeader) (a : Z) : Prop :=
  p_type ph = PT_LOAD ∧ p_vaddr ph ≤ a < p_vaddr ph + p_filesz ph.

#[export] Instance in_segment_dec ph a : Decision (in_segment ph a).
Proof. unfold in_segment. apply _. Defined.

(** The byte at [a] after the segments [phs]: that of the last one that has it,
    and 0 otherwise *)
Fixpoint load_image (content : list Z) (phs : list ELF32ProgramHeader) (a v : Z) : Z :=
  match phs with
  | [] => v
  | ph :: phs => load_image content phs a
      (if decide (in_segment ph a) then content !!! Z.to_nat (p_offset ph + (a - p_vaddr ph)) else v)
  end.

(** The end of the address space after the segments [phs] *)
Fixpoint load_size (phs : list ELF32ProgramHeader) (size : Z) : Z :=
  match phs with
  | [] => size
  | ph :: phs => load_size phs (if decide (p_type ph = PT_LOAD) then Z.max size (p_vaddr ph + p_memsz ph) else size)
  end.

(** A segment that [exec] accepts *)
Definition segment_ok (content : list Z) (ph : ELF32ProgramHeader) : Prop :=
  p_type ph = PT_LOAD → p_filesz ph ≤ p_memsz ph ∧ p_vaddr ph mod 4096 = 0 ∧ 0 < p_vaddr ph + p_memsz ph ≤ KERN_BASE - 12288 ∧
    p_offset ph + p_filesz ph ≤ zlen content.

(** A file that [exec] accepts *)
Record executable (content : list Z) : Prop := mk_executable {
  ex_header : 52 ≤ zlen content;
  ex_magic : is_elf (file_header content) = true;
  ex_table : e_phoff (file_header content) + 32 * e_phnum (file_header content) ≤ zlen content;
  ex_segments : Forall (segment_ok content) (file_segments content);
}.

(** The addresses of the arguments [strs] below [sp] *)
Fixpoint arg_ptrs (sp : Z) (strs : list (list Z)) : list Z :=
  match strs with
  | [] => []
  | l :: strs => (sp - (zlen l + 1)) :: arg_ptrs (sp - (zlen l + 1)) strs
  end.

(** The bytes of the arguments: the first one lies highest. *)
Definition arg_bytes (strs : list (list Z)) : list Z := mjoin (reverse ((λ l, l ++ [0]) <$> strs)).

(** The words on the stack of a program below [top]: a return address, [argc],
    [argv] and the addresses of the arguments with a null *)
Definition stack_words (top : Z) (strs : list (list Z)) : list Z :=
  [0xffffffff; zlen strs; top - zlen (arg_bytes strs) - (zlen strs + 1) * 4] ++ arg_ptrs top strs ++ [0].

Definition stack_image (top : Z) (strs : list (list Z)) : list Z := mjoin (le_bytes 4 <$> stack_words top strs) ++ arg_bytes strs.

(** The end of the program, where the pages of the stack are *)
Definition program_size (content : list Z) : Z := page_alignup (load_size (file_segments content) 0).

(** What the memory of the program holds at the start: the segments, an
    inaccessible page and the stack *)
Definition program_byte (content : list Z) (strs : list (list Z)) (a : Z) : option Z :=
  let size := program_size content in
  let top := size + 8192 in
  let img := stack_image top strs in
  if decide (a < size) then Some (load_image content (file_segments content) a 0) else
  if decide (top - zlen img ≤ a < top) then img !! Z.to_nat (a - (top - zlen img)) else
  if decide (a < top) then Some 0 else None.

(** ** Lemmas *)

(** The file in the slot [i] has the bytes [content]. *)
Record holds {U} {BS : BlockStore U} (j : IState U) (i : Z) (x : Inode) (content : list Z) : Prop := mk_holds {
  ho_slot : icache j !! i = Some x;
  ho_read : iread x = true;
  ho_idle : blk_idle (blk j);
  ho_file : file_ok j (din x) (isize (din x));
  ho_size : isize (din x) = zlen content;
  ho_bytes : ∀ off n, 0 ≤ off → 0 ≤ n → off + n ≤ zlen content →
    read_bytes j (din x) off n = slice (Z.to_nat off) (Z.to_nat n) content;
  ho_byte : Forall is_byte content;
}.

Section exec.
Context `{KernelLayout, KernelText} {T U : Type} {BS : BlockStore U} `{HasFs T U} `{PipeMem T}.
Implicit Types (s : KState T) (m : Pmem) (j : IState U).
Context (devices : list (Dev (KState T))) (frame : list Z) (slash : Z).

(** [s] with other pages and other inodes *)
Definition staged s m j : KState T := put_pm m (put_w (mkDState j (txt (fsw s))) s).

Lemma staged_fs s m j : fsw (staged s m j) = mkDState j (txt (fsw s)).
Proof. apply fs_put. Qed.

Lemma staged_pm s m m' j : put_pm m' (staged s m j) = staged s m' j.
Proof. done. Qed.

Lemma staged_w s m j j' : put_w (mkDState j' (txt (fsw s))) (staged s m j) = staged s m j'.
Proof. unfold staged, put_pm, put_w, put_rest. cbn. by rewrite put_fs_put. Qed.

Lemma staged_id s : staged s (pm s) (ino (fsw s)) = s.
Proof.
  unfold staged. replace (mkDState (ino (fsw s)) (txt (fsw s))) with (fsw s) by (by destruct (fsw s)).
  rewrite put_w_id. by destruct s.
Qed.

Lemma wp_staged_pm {A} (a : M Pmem A) s m j (Q : A → KState T → Prop) :
  wp a m (λ r m', Q r (staged s m' j)) → wp (with_pm a) (staged s m j) Q.
Proof. intros Ha. by apply wp_pm. Qed.

Lemma holds_same j j' i x content : same_ino j j' → holds j i x content → holds j' i x content.
Proof.
  intros Hs [H1' H2' H3' H4' H5' H6' H7']. destruct (same_ino_file _ _ _ _ Hs H4') as [Hf Hb]. pose proof Hs as (Hid & Hsb & Hic & Hbl).
  split; [by rewrite Hic|done|done|done|done| |done]. intros off n Ho Hn Hle. rewrite <- H6' by done. unfold read_bytes. by rewrite Hb.
Qed.

Lemma holds_at s m j i x content : holds j i x content → file_at (staged s m j) i x.
Proof. intros [E1 E2 E3 E4 _ _ _]. by split; rewrite ?staged_fs. Qed.

(** Reading a part of the file *)
Lemma bytes_ok s m j i x content off n (Q : Z * list Z → KState T → Prop) : holds j i x content →
  0 ≤ off → 0 ≤ n → off + n ≤ zlen content →
  (∀ j', same_ino j j' → Q (n, slice (Z.to_nat off) (Z.to_nat n) content) (staged s m j')) →
  bwp (inode_bytes devices i off n) (staged s m j) Q.
Proof.
  intros Hh Ho Hn Hle HQ. pose proof (fo_len _ _ _ (ho_file _ _ _ _ Hh)) as Hlen. rewrite (ho_size _ _ _ _ Hh) in Hlen.
  apply (inode_bytes_ok devices _ i x); [by eapply holds_at|rewrite (ho_size _ _ _ _ Hh); lia|done|lia|].
  rewrite staged_fs. cbn [ino txt]. rewrite (ho_bytes _ _ _ _ Hh) by done. intros j' Hj. rewrite staged_w.
  assert (zlen (slice (Z.to_nat off) (Z.to_nat n) content) = n) as -> by (unfold zlen in *; rewrite length_slice; lia). by apply HQ.
Qed.

Lemma bbloop_S {A C} (n : nat) (body : A → B (KState T) (A + C)) a s Q :
  bwp (bloop (S n) body a) s Q ↔ bwp (body a) s (λ r s', match r with inl b => bwp (bloop n body b) s' Q | inr c => Q c s' end).
Proof.
  cbn [bloop]. rewrite bwp_bind. split; intros Hb; (eapply bwp_mono; [exact Hb|]); intros [b|c] s'; cbn beta iota; by rewrite ?bwp_bret.
Qed.

(** ** [uvm_load] *)

Lemma load_loop (n : nat) s i x content pgdir pts l us addr off size : 
  page_aligned addr → 0 ≤ addr → 0 ≤ off → off + size ≤ zlen content → addr + size ≤ 4096 * length us → ∀ m j k,
  holds j i x content → user_space m pgdir pts l us → page_aligned k → 0 ≤ k → size ≤ 4096 * n + k →
  bwp (bloop (S n) (uvm_load_page devices pgdir addr i off size) k) (staged s m j) (λ r s', r = 0 ∧ ∃ m' j',
    s' = staged s m' j' ∧ same_ino j j' ∧ user_space m' pgdir pts l us ∧ only_user us (ram m) (ram m') ∧
    ∀ a, 0 ≤ a → ubyte (ram m') us a =
      if decide (addr + k ≤ a < addr + size) then content !! Z.to_nat (off + (a - addr)) else ubyte (ram m) us a).
Proof.
  intros Hal Ha0 Ho Hoc Hend. induction n as [|n IH]; intros m j k Hh Hus Hka Hk Hn; rewrite bbloop_S; unfold uvm_load_page;
    pose proof (us_len _ _ _ _ _ Hus) as Hul; pose proof (fo_len _ _ _ (ho_file _ _ _ _ Hh)) as Hlen; rewrite (ho_size _ _ _ _ Hh) in Hlen;
    (destruct (Z.ltb_spec k size) as [Hlt|Hge]; cbn [negb];
      [|rewrite bwp_bret; split; [done|]; exists m, j; split; [done|]; split; [apply same_ino_refl, Hh|]; split; [done|]; split; [done|];
        intros a Ha; rewrite decide_False by lia; done]).
  { lia. }
  assert (page_aligned (addr + k)) as Hpa by (unfold page_aligned in *; clear - Hal Hka; Z.div_mod_to_equations; lia).
  set (pi := Z.to_nat ((addr + k) / 4096)). assert (addr + k = 4096 * pi) as Hpi.
  { unfold pi. rewrite Z2Nat.id by (apply Z.div_pos; lia). unfold page_aligned in Hpa. clear - Hpa. Z.div_mod_to_equations. lia. }
  destruct (lookup_lt_is_Some_2 us pi) as [[p f] Hp]; [lia|].
  pose proof (us_page _ _ _ _ _ Hus pi p f Hp) as (Hdp & Hf & Hodd & Hpte). pose proof Hdp as (Hpo & _ & _ & Hpm).
  destruct (us_table _ _ _ _ _ _ _ _ Hus Hp) as [t Ht]. pose proof (us_inv _ _ _ _ _ Hus) as Hv.
  destruct (entry_parts p f Hpo Hf) as (Hea & _ & Hek & _ & _).
  rewrite (u32_small (addr + k)), (u32_small (off + k)) by (unfold KERN_BASE in *; lia). rewrite Hpi.
  rewrite bwp_bind_lift. apply wp_staged_pm. eapply wp_ok; [by eapply get_pte_ok|].
  destruct (pte_slot _ _ _ _ _ _ Hv Ht) as [_ Hnz]. rewrite (proj2 (Z.eqb_neq _ _) Hnz), bwp_bind_lift. apply wp_staged_pm.
  eapply wp_ok; [by eapply load_pte|]. rewrite Hpte, Hea, Hek. change PAGE_SZ with 4096.
  set (c := Z.min 4096 (size - k)). assert (0 < c ≤ 4096 ∧ k + c ≤ size) as (Hc1 & Hc2) by lia.
  rewrite bwp_bind. apply (bytes_ok s m j i x content); [done|lia|lia|lia|]. intros j1 Hj1.
  set (d := slice (Z.to_nat (off + k)) (Z.to_nat c) content). assert (zlen d = c) as Hd by (unfold d, zlen in *; rewrite length_slice; lia).
  rewrite bwp_bind_lift. apply wp_staged_pm. unfold with_ram. rewrite wp_zoom. eapply wp_ok.
  { apply store_bytes_ok; [apply Forall_slice, (ho_byte _ _ _ _ Hh)|]. eapply page_mapped_range; [exact Hpm|lia|unfold zlen in Hd; lia]. }
  rewrite Z.eqb_refl. cbn [negb]. rewrite bwp_bret. set (m1 := mkPmem _ _).
  assert (user_space m1 pgdir pts l us) as Hus1 by (apply (us_write m pgdir pts l us p); [done|done|lia|lia]).
  rewrite u32_small by (unfold KERN_BASE in *; lia).
  eapply bwp_mono; [apply (IH m1 j1 (k + 4096)); [by eapply holds_same|done| |lia|lia]|].
  { unfold page_aligned in *. clear - Hka. Z.div_mod_to_equations. lia. }
  cbn beta. intros r s' (-> & m2 & j2 & -> & Hj2 & Hus2 & [O1 O2] & Hub). split; [done|]. exists m2, j2. split; [done|].
  split; [by eapply same_ino_trans|]. split; [done|]. split.
  - split; [|intros q Hq; apply O2; cbn [m1 ram]; by apply page_mapped_write].
    intros q Hqa Hq a Ha. rewrite (O1 q Hqa Hq a Ha). cbn [m1 ram]. rewrite lookup_write, decide_False; [done|].
    assert (q ≠ p) as Hne. { intros ->. apply Hq, list_elem_of_fmap. exists (p, f). split; [done|]. by eapply list_elem_of_lookup_2. }
    destruct (pages_disjoint q p Hqa (proj1 Hpo) Hne); lia.
  - intros a Ha. rewrite Hub by done. cbn [m1 ram].
    pose proof (ubyte_write _ _ _ _ _ pi p f 0 d Hus Hp ltac:(done) ltac:(lia) a Ha) as Hw. rewrite !Z.add_0_r in Hw. rewrite Hw, Hd, <- Hpi.
    clear - Hc1 Hc2 Hk Ho Ha0 Ha Hoc Hlen. unfold c in *. unfold zlen in *.
    repeat case_decide; try lia; try done. unfold d, slice. rewrite lookup_take_lt by lia. rewrite lookup_drop. f_equal. lia.
Qed.

Lemma uvm_load_ok s m j i x content pgdir pts l us addr off size :
  page_aligned addr → 0 ≤ addr → 0 ≤ off → 0 ≤ size → off + size ≤ zlen content → addr + size ≤ 4096 * length us →
  holds j i x content → user_space m pgdir pts l us →
  bwp (uvm_load devices pgdir addr i off size) (staged s m j) (λ r s', r = 0 ∧ ∃ m' j',
    s' = staged s m' j' ∧ same_ino j j' ∧ user_space m' pgdir pts l us ∧ only_user us (ram m) (ram m') ∧
    ∀ a, 0 ≤ a → ubyte (ram m') us a =
      if decide (addr ≤ a < addr + size) then content !! Z.to_nat (off + (a - addr)) else ubyte (ram m) us a).
Proof.
  intros Hal Ha0 Ho Hs Hoc Hend Hh Hus. unfold uvm_load. change PAGE_SZ with 4096. unfold page_aligned in Hal. rewrite Hal. cbn [Z.eqb negb].
  eapply bwp_mono; [apply (load_loop (S (Z.to_nat (size / 4096))) s i x content pgdir pts l us); try done|].
  { pose proof (Z.div_mod size 4096 ltac:(lia)). pose proof (Z.mod_pos_bound size 4096 ltac:(lia)). lia. }
  cbn beta. intros r s' (-> & m' & j' & E1 & E2 & E3 & E4 & E5). split; [done|]. exists m', j'. rewrite Z.add_0_r in E5. done.
Qed.
(** ** The program headers *)

(** While [exec] loads a program into the space [pgdir]: the headers [phs] are
    done. *)
Record loading (j0 : IState U) (i : Z) (x : Inode) (content : list Z) (m0 : Pmem) (l0 : list Z) (pgdir : Z)
    (phs : list ELF32ProgramHeader) (m : Pmem) (j : IState U) (pts : gmap Z Z) (l : list Z) (us : list (Z * Z)) : Prop := mk_loading {
  ld_holds : holds j i x content;
  ld_same : same_ino j0 j;
  ld_new : new_space m0 l0 m pgdir pts l us;
  ld_size : page_alignup (load_size phs 0) = 4096 * length us;
  ld_flags : ∀ (k : nat) p f, us !! k = Some (p, f) → f = 7;
  ld_image : ∀ a, 0 ≤ a → ubyte (ram m) us a = if decide (a < 4096 * length us) then Some (load_image content phs a 0) else None;
  ld_kernel : kernel_maps (ram m) pgdir;
}.

Lemma load_size_snoc phs ph sz : load_size (phs ++ [ph]) sz =
  if decide (p_type ph = PT_LOAD) then Z.max (load_size phs sz) (p_vaddr ph + p_memsz ph) else load_size phs sz.
Proof. revert sz. induction phs as [|p phs IH]; intros sz; [done|]. cbn. apply IH. Qed.

Lemma load_image_snoc content phs ph a v : load_image content (phs ++ [ph]) a v =
  if decide (in_segment ph a) then content !!! Z.to_nat (p_offset ph + (a - p_vaddr ph)) else load_image content phs a v.
Proof. revert v. induction phs as [|p phs IH]; intros v; [done|]. cbn. apply IH. Qed.

Lemma load_size_le phs phs' sz : load_size phs sz ≤ load_size (phs ++ phs') sz.
Proof.
  revert sz. induction phs as [|p phs IH]; intros sz; [|apply IH]. cbn. revert sz. induction phs' as [|p phs' IH]; intros sz; cbn; [lia|].
  etrans; [|apply IH]. case_decide; lia.
Qed.

Definition all_rwx (us : list (Z * Z)) : Prop := ∀ (k : nat) p f, us !! k = Some (p, f) → f = 7.

Lemma ubyte_none (m : mem) us a : 4096 * length us ≤ a → ubyte m us a = None.
Proof.
  intros Ha. unfold ubyte. rewrite lookup_ge_None_2; [done|]. apply Nat2Z.inj_le. rewrite Z2Nat.id by (apply Z.div_pos; lia).
  apply Z.div_le_lower_bound; lia.
Qed.

(** Growing a space to [vend], or leaving it *)
Lemma grow_ok m0 l0 m pgdir pts l us sz vend : new_space m0 l0 m pgdir pts l us →
  page_alignup sz = 4096 * length us → 0 ≤ sz ≤ KERN_BASE → 0 ≤ vend ≤ KERN_BASE →
  1028 + Z.max sz vend / 4096 < length l0 → all_rwx us → kernel_maps (ram m) pgdir →
  wp (uvm_allocate pgdir sz vend) m (λ r m', u32 r = Z.max sz vend ∧ ∃ pts' l' us', new_space m0 l0 m' pgdir pts' l' (us ++ us') ∧
    page_alignup (Z.max sz vend) = 4096 * length (us ++ us') ∧ all_rwx (us ++ us') ∧ kernel_maps (ram m') pgdir ∧
    ∀ a, 0 ≤ a → ubyte (ram m') (us ++ us') a = if decide (a < 4096 * length us) then ubyte (ram m) us a
      else if decide (a < 4096 * length (us ++ us')) then Some 0 else None).
Proof.
  intros Hns Hal Hsz Hv Hmem Hrw Hk. pose proof (ns_space _ _ _ _ _ _ _ Hns) as Hus. pose proof (ns_count _ _ _ _ _ _ _ Hns) as Hc.
  assert (∀ v, 0 ≤ v ≤ KERN_BASE → u32 (s32 v) = v) as Hus32.
  { intros v Hvr. unfold KERN_BASE in *. destruct (Z.eq_dec v 2147483648) as [->|]; [done|]. rewrite s32_small, u32_small; lia. }
  destruct (Z.ltb_spec vend sz) as [Hlt|Hge].
  - unfold uvm_allocate. rewrite (proj2 (Z.ltb_ge KERN_BASE vend)), (proj2 (Z.ltb_lt vend sz)), wp_ret, Z.max_l, Hus32 by lia.
    split; [done|]. exists pts, l, []. rewrite app_nil_r. split; [done|]. split; [done|]. split; [done|]. split; [done|].
    intros a Ha. case_decide; [done|]. by apply ubyte_none; lia.
  - rewrite Z.max_r in * by lia. eapply wp_mono; [apply (uvm_allocate_ok m pgdir pts l us); try done; try lia|].
    { rewrite page_alignup_eq in Hal by (unfold KERN_BASE in *; lia).
      assert ((vend - sz) / 4096 + length us ≤ vend / 4096 + 1); [|lia]. clear - Hal Hge Hsz. Z.div_mod_to_equations. lia. }
    cbn beta. intros r m' (-> & pts' & l' & us' & Hg & Hal' & Hz). rewrite Hus32 by lia. split; [done|]. exists pts', l', us'.
    split; [by eapply new_space_grows|]. split; [done|]. split.
    + intros k p f Hkf. apply lookup_app_Some in Hkf as [Hkf|[_ Hkf]]; [by eapply Hrw|]. apply list_elem_of_lookup_2 in Hkf. by apply Hz in Hkf as [-> _].
    + split; [by eapply kernel_grows; [apply Hus|exact Hg|]|]. intros a Ha. by eapply ubyte_grows.
Qed.

Lemma load_image_above content phs a v sz : Forall (segment_ok content) phs → load_size phs sz ≤ a → load_image content phs a v = v.
Proof.
  revert v sz. induction phs as [|ph phs IH]; intros v sz Hall Hle; [done|]. inversion Hall as [|? ? Hok Hall']; subst. cbn in *.
  pose proof (load_size_le [ph] phs sz) as Hl. cbn in Hl. rewrite (decide_False (P := in_segment ph a)); [by eapply IH|].
  intros [Ht Hin]. destruct (Hok Ht) as (Hf & _). rewrite decide_True in Hle, Hl by done. lia.
Qed.

Lemma load_segment_ok s j0 i x content m0 l0 pgdir phs m j pts l us off N k : let ph := program_header (slice (Z.to_nat off) 32 content) in
  loading j0 i x content m0 l0 pgdir phs m j pts l us → 0 ≤ off → off + 32 ≤ zlen content → segment_ok content ph → Forall (segment_ok content) phs →
  0 ≤ load_size phs 0 ≤ KERN_BASE → 1028 + load_size (phs ++ [ph]) 0 / 4096 < length l0 → k < N →
  bwp (load_segment devices pgdir i N (k, off, load_size phs 0)) (staged s m j) (λ r s',
    r = inl (k + 1, off + 32, load_size (phs ++ [ph]) 0) ∧ ∃ m' j' pts' l' us', s' = staged s m' j' ∧
    loading j0 i x content m0 l0 pgdir (phs ++ [ph]) m' j' pts' l' us').
Proof.
  intros ph [Hh Hs Hns Hsz Hrw Him Hkm] Ho Hoc Hok Hall Hr Hmem Hkn. pose proof (fo_len _ _ _ (ho_file _ _ _ _ Hh)) as Hlen.
  rewrite (ho_size _ _ _ _ Hh) in Hlen. destruct (header_range (slice (Z.to_nat off) 32 content)) as (Hro & Hrv & Hrf & Hrm);
    [apply Forall_slice, (ho_byte _ _ _ _ Hh)|]. fold ph in Hro, Hrv, Hrf, Hrm.
  unfold load_segment. rewrite (proj2 (Z.ltb_lt k N)) by done. cbn [negb]. rewrite bwp_bind.
  apply (bytes_ok s m j i x content); [done|done|done|done|]. intros j1 Hj1. change (Z.to_nat sizeof_ELF32ProgramHeader) with 32%nat.
  rewrite Z.eqb_refl. cbn [negb]. fold ph. change sizeof_ELF32ProgramHeader with 32. rewrite (u32_small (off + 32)) by lia.
  pose proof (holds_same _ _ _ _ _ Hj1 Hh) as Hh1. pose proof (same_ino_trans _ _ _ Hs Hj1) as Hs1.
  rewrite load_size_snoc in Hmem |- *. destruct (Z.eqb_spec (p_type ph) PT_LOAD) as [Ht|Ht]; cbn [negb].
  2: { rewrite decide_False by done. rewrite bwp_bret. split; [done|]. exists m, j1, pts, l, us. split; [done|]. split; try done.
    - rewrite load_size_snoc, decide_False by done. done.
    - intros a Ha. rewrite Him, load_image_snoc by done. rewrite (decide_False (P := in_segment ph a)); [done|]. intros [Hin _]. done. }
  rewrite decide_True in Hmem |- * by done. destruct (Hok Ht) as (O1 & O2 & O3 & O4).
  rewrite (proj2 (Z.ltb_ge (p_memsz ph) _)) by done. unfold KERN_BASE in O3. rewrite u32_small, (proj2 (Z.ltb_ge _ (p_vaddr ph))) by lia.
  rewrite bwp_bind_lift. apply wp_staged_pm. eapply wp_mono; [apply (grow_ok m0 l0 m pgdir pts l us); try done; unfold KERN_BASE in *; lia|].
  cbn beta. intros sz m1 (-> & pts1 & l1 & us1 & Hns1 & Hal1 & Hrw1 & Hkm1 & Hub1).
  rewrite (proj2 (Z.eqb_neq (Z.max _ _) 0)) by lia. change PAGE_SZ with 4096. rewrite O2. cbn [negb Z.eqb].
  rewrite bwp_bind. rewrite page_alignup_eq in Hal1 by (unfold KERN_BASE in *; lia). eapply bwp_mono.
  { apply (uvm_load_ok s m1 j1 i x content pgdir pts1 l1 (us ++ us1)); try done; try lia; [|apply Hns1]. clear - Hal1 O1. Z.div_mod_to_equations. lia. }
  cbn beta. intros r s' (-> & m2 & j2 & -> & Hj2 & Hus2 & Hou & Hub2). change (0 =? -1) with false. cbn iota. rewrite bwp_bret. split; [done|].
  exists m2, j2, pts1, l1, (us ++ us1). split; [done|]. split; try done.
  - by eapply holds_same.
  - by eapply same_ino_trans.
  - by eapply new_space_user.
  - rewrite load_size_snoc, decide_True by done. rewrite page_alignup_eq by (unfold KERN_BASE in *; lia). done.
  - intros a Ha. rewrite Hub2, Hub1, Him, load_image_snoc by done.
    destruct (decide (p_vaddr ph ≤ a < p_vaddr ph + p_filesz ph)) as [Hin|Hin].
    + rewrite (decide_True (P := in_segment ph a)) by done. rewrite decide_True by (clear - Hal1 Hin O1; Z.div_mod_to_equations; lia).
      apply list_lookup_lookup_total_lt. unfold zlen in *. lia.
    + rewrite (decide_False (P := in_segment ph a)) by (intros [_ ?]; done). rewrite length_app.
      destruct (decide (a < 4096 * length us)); [by rewrite (decide_True (P := a < 4096 * (length us + length us1)%nat)) by lia|].
      case_decide; [|done]. f_equal. symmetry. apply (load_image_above _ _ _ _ 0); [done|].
      rewrite page_alignup_eq in Hsz by (unfold KERN_BASE in *; lia). clear - Hsz n. Z.div_mod_to_equations. lia.
  - eapply kernel_user; [apply Hns1|exact Hus2|exact Hou|exact Hkm1].
Qed.

Lemma load_segments_loop (n : nat) s j0 i x content m0 l0 pgdir phoff : ∀ k m j pts l us,
  loading j0 i x content m0 l0 pgdir (headers content phoff k) m j pts l us → 0 ≤ phoff → phoff + 32 * (k + n)%nat ≤ zlen content →
  Forall (segment_ok content) (headers content phoff (k + n)) →
  load_size (headers content phoff (k + n)) 0 ≤ KERN_BASE → 1028 + load_size (headers content phoff (k + n)) 0 / 4096 < length l0 →
  bwp (bloop (S n) (load_segment devices pgdir i (k + n)%nat) (Z.of_nat k, phoff + 32 * k, load_size (headers content phoff k) 0))
    (staged s m j) (λ r s', r = Some (load_size (headers content phoff (k + n)) 0) ∧ ∃ m' j' pts' l' us', s' = staged s m' j' ∧
    loading j0 i x content m0 l0 pgdir (headers content phoff (k + n)) m' j' pts' l' us').
Proof.
  induction n as [|n IH]; intros k m j pts l us Hld Ho Hoc Hok Hr Hmem; rewrite bbloop_S.
  - rewrite Nat.add_0_r. unfold load_segment. rewrite Z.ltb_irrefl. cbn [negb]. rewrite bwp_bret. split; [done|]. by exists m, j, pts, l, us.
  - rewrite <- Nat.add_succ_comm in Hoc, Hok, Hr, Hmem |- *.
    assert (headers content phoff (S k) `prefix_of` headers content phoff (S k + n)) as [rest Hpre].
    { unfold headers. rewrite seq_app, fmap_app. by eexists. }
    assert (load_size (headers content phoff (S k)) 0 ≤ load_size (headers content phoff (S k + n)) 0) as Hle by (rewrite Hpre; apply load_size_le).
    rewrite Hpre, Forall_app in Hok. destruct Hok as [HokS Hrest]. pose proof HokS as HokS'. rewrite headers_S, Forall_app, Forall_singleton in HokS'.
    destruct HokS' as [Hdone Hph].
    assert (0 ≤ load_size (headers content phoff k) 0 ≤ load_size (headers content phoff (S k)) 0) as [Hl0 Hlk].
    { rewrite headers_S. split; [apply (load_size_le [] (headers content phoff k) 0)|apply load_size_le]. }
    eapply bwp_mono.
    { eapply load_segment_ok; [exact Hld|lia|lia|exact Hph|exact Hdone|lia| |lia]. rewrite <- headers_S.
      assert (load_size (headers content phoff (S k)) 0 / 4096 ≤ load_size (headers content phoff (S k + n)) 0 / 4096); [|lia].
      by apply Z.div_le_mono. }
    cbn beta. intros r s' (-> & m' & j' & pts' & l' & us' & -> & Hld'). cbn iota. rewrite <- headers_S in Hld' |- *.
    replace (k + 1) with (Z.of_nat (S k)) by lia. replace (phoff + 32 * k + 32) with (phoff + 32 * S k) by lia.
    eapply IH; try done. rewrite Hpre. by apply Forall_app.
Qed.

Lemma page_alignup_0 : page_alignup 0 = 0.
Proof. done. Qed.

(** All program headers *)
Lemma load_segments_ok s j0 i x content m0 l0 m pgdir pts l phoff (n : nat) :
  holds j0 i x content → new_space m0 l0 m pgdir pts l [] → kernel_maps (ram m) pgdir →
  0 ≤ phoff → phoff + 32 * n ≤ zlen content → Forall (segment_ok content) (headers content phoff n) →
  load_size (headers content phoff n) 0 ≤ KERN_BASE → 1028 + load_size (headers content phoff n) 0 / 4096 < length l0 →
  bwp (load_segments devices pgdir i n phoff)
    (staged s m j0) (λ r s', r = Some (load_size (headers content phoff n) 0) ∧ ∃ m' j' pts' l' us', s' = staged s m' j' ∧
    loading j0 i x content m0 l0 pgdir (headers content phoff n) m' j' pts' l' us').
Proof.
  intros Hh Hns Hk Ho Hoc Hok Hr Hmem. unfold load_segments. rewrite Nat2Z.id.
  pose proof (load_segments_loop n s j0 i x content m0 l0 pgdir phoff 0 m j0 pts l []) as Hl. cbn [Nat.add] in Hl.
  replace (phoff + 32 * 0%nat) with phoff in Hl by lia. apply Hl; try done.
  split; try done.
  - apply same_ino_refl, Hh.
  - intros a Ha. rewrite decide_False by (cbn; lia). apply ubyte_none. cbn. lia.
Qed.
(** ** The stack *)

(** The arguments [strs] of a program, as the process passes them *)
Definition args_at (t : mem) (argv : Z) (strs : list (list Z)) : Prop := ∃ ps : list Z,
  length ps = length strs ∧ array t (argv + 4 * length strs) (le_bytes 4 0) ∧
  ∀ (k : nat) q d, ps !! k = Some q → strs !! k = Some d →
    0 < q < 4294967296 ∧ array t (argv + 4 * k) (le_bytes 4 q) ∧ cstr t q d.

Lemma arg_bytes_snoc ds d : arg_bytes (ds ++ [d]) = (d ++ [0]) ++ arg_bytes ds.
Proof. unfold arg_bytes. rewrite fmap_app, reverse_app. done. Qed.

Lemma zlen_app {A} (l k : list A) : zlen (l ++ k) = zlen l + zlen k.
Proof. unfold zlen. rewrite length_app. lia. Qed.

Lemma arg_ptrs_snoc ds d top : arg_ptrs top (ds ++ [d]) = arg_ptrs top ds ++ [top - zlen (arg_bytes (ds ++ [d]))].
Proof.
  rewrite arg_bytes_snoc, !zlen_app. change (zlen [0]) with 1.
  assert (∀ ds top, arg_ptrs top (ds ++ [d]) = arg_ptrs top ds ++ [top - zlen (arg_bytes ds) - (zlen d + 1)]) as Hgen.
  { clear. intros ds. induction ds as [|e ds IH]; intros top; cbn [app arg_ptrs].
    - change (zlen (arg_bytes [])) with 0. by rewrite Z.sub_0_r.
    - assert (zlen (arg_bytes (e :: ds)) = zlen (arg_bytes ds) + (zlen e + 1)) as He.
      2: { rewrite IH, He. cbn [app]. by replace (top - (zlen e + 1) - zlen (arg_bytes ds)) with (top - (zlen (arg_bytes ds) + (zlen e + 1))) by lia. }
      change (e :: ds) with ([e] ++ ds). unfold arg_bytes. rewrite fmap_app, reverse_app, join_app, zlen_app. f_equal. cbn. by rewrite app_nil_r, zlen_app. }
  rewrite Hgen. by replace (top - (zlen d + 1 + zlen (arg_bytes ds))) with (top - zlen (arg_bytes ds) - (zlen d + 1)) by lia.
Qed.

Lemma length_arg_ptrs top ds : length (arg_ptrs top ds) = length ds.
Proof. revert top. induction ds as [|d ds IH]; intros top; [done|]. cbn. by rewrite IH. Qed.

(** The buffer after the arguments [ds] *)
Definition arg_buffer (top : Z) (ds : list (list Z)) : list Z :=
  [0; 0; 0] ++ arg_ptrs top ds ++ replicate (33 - length ds) 0.

Lemma arg_buffer_snoc top ds d : (length ds < 33)%nat →
  <[(3 + length ds)%nat := top - zlen (arg_bytes (ds ++ [d]))]> (arg_buffer top ds) = arg_buffer top (ds ++ [d]).
Proof.
  intros Hl. unfold arg_buffer. rewrite arg_ptrs_snoc, insert_app_r_alt by (cbn; lia). f_equal.
  rewrite insert_app_r_alt by (rewrite length_arg_ptrs; cbn; lia). rewrite length_arg_ptrs, length_app, <- app_assoc. f_equal.
  change (length [0; 0; 0]) with 3%nat. change (length [d]) with 1%nat.
  replace (3 + length ds - 3 - length ds)%nat with 0%nat by lia.
  destruct (33 - length ds)%nat as [|n] eqn:E; [lia|]. by replace (33 - (length ds + 1))%nat with n by lia.
Qed.

Lemma length_arg_buffer top ds : (length ds ≤ 33)%nat → zlen (arg_buffer top ds) = 36.
Proof. intros Hl. unfold arg_buffer, zlen. rewrite !length_app, length_arg_ptrs, length_replicate. cbn. lia. Qed.

Lemma only_user_trans us (m1 m2 m3 : mem) : only_user us m1 m2 → only_user us m2 m3 → only_user us m1 m3.
Proof.
  intros [A1 B1] [A2 B2]. split; [|auto]. intros q Hqa Hq a Ha. rewrite (A2 q Hqa Hq a Ha). by apply (A1 q).
Qed.

Lemma only_user_refl us (m : mem) : only_user us m m.
Proof. by split. Qed.

(** The memory below the top is the last page, which the user may write. *)
Lemma last_page_range us p va n : last us = Some (p, 7) → 4096 * length us - 4096 ≤ va → va + n ≤ 4096 * length us → user_range us va n.
Proof.
  intros Hl Hva Hn. apply last_Some in Hl as [us' ->]. rewrite length_app in *. cbn in *. split; [lia|]. split; [rewrite length_app; cbn; lia|].
  intros k q f Hk Hr. apply lookup_app_Some in Hk as [Hk|[Hk Hk']].
  - apply lookup_lt_Some in Hk. lia.
  - apply list_lookup_singleton_Some in Hk' as [_ [= <- <-]]. done.
Qed.

Lemma arg_bytes_byte strs : Forall (Forall is_byte) strs → Forall is_byte (arg_bytes strs).
Proof.
  intros Hs. unfold arg_bytes. apply Forall_join, Forall_reverse, Forall_fmap. eapply Forall_impl; [exact Hs|].
  intros d Hd. cbn. apply Forall_app. split; [done|]. by apply Forall_singleton.
Qed.

Lemma cstr_bytes t q d : cstr t q d → Forall is_byte (d ++ [0]).
Proof.
  intros [_ Hf]. apply Forall_app. split; [|by apply Forall_singleton]. eapply Forall_impl; [exact Hf|]. cbn. unfold is_byte. lia.
Qed.

Lemma set_word_ok s b (k : nat) v : k < zlen b → 0 ≤ v < 4294967296 → set_word b k v s = Ok (<[k := v]> b) s.
Proof. intros Hk Hv. unfold set_word. by rewrite (proj2 (Z.ltb_lt k _)), u32_small, Nat2Z.id by done. Qed.

Lemma le_num_zero : le_num (le_bytes 4 0) = 0.
Proof. done. Qed.

Lemma txt_staged s m j : txt (fsw (staged s m j)) = txt (fsw s).
Proof. by rewrite staged_fs. Qed.

(** One argument: its bytes go below those of the arguments before it. *)
Lemma copy_arg_ok s m j pgdir pts l us p top argv strs (k : nat) d :
  args_at (txt (fsw s)) argv strs → strs !! k = Some d → (length strs ≤ 33)%nat →
  user_space m pgdir pts l us → last us = Some (p, 7) → top = 4096 * length us → zlen (arg_bytes strs) ≤ 4096 →
  let ds := take k strs in let sp := top - zlen (arg_bytes ds) in let sp' := top - zlen (arg_bytes (ds ++ [d])) in
  zlen (arg_bytes (ds ++ [d])) ≤ 4096 →
  wp (copy_arg pgdir argv (Z.of_nat k, sp, arg_buffer top ds)) (staged s m j) (λ r s', r = inl (k + 1, sp', arg_buffer top (ds ++ [d])) ∧
    ∃ m', s' = staged s m' j ∧ user_space m' pgdir pts l us ∧ freelist m' = freelist m ∧ only_user us (ram m) (ram m') ∧
    ∀ a, 0 ≤ a → ubyte (ram m') us a = if decide (sp' ≤ a < sp) then (d ++ [0]) !! Z.to_nat (a - sp') else ubyte (ram m) us a).
Proof.
  intros (ps & Hps & Hend & Hargs) Hk Hlen Hus Hlast -> Hall ds sp sp' Hfit. pose proof (us_len _ _ _ _ _ Hus) as Hul. unfold KERN_BASE in Hul.
  pose proof (lookup_lt_Some _ _ _ Hk) as Hlt. assert (length ds = k) as Hdl by (unfold ds; rewrite length_take; lia).
  destruct (lookup_lt_is_Some_2 ps k ltac:(lia)) as [q Hq]. destruct (Hargs k q d Hq Hk) as (Hqr & Hqa & Hcs).
  assert (zlen (arg_bytes (ds ++ [d])) = zlen d + 1 + zlen (arg_bytes ds)) as Hz by (by rewrite arg_bytes_snoc, !zlen_app).
  assert (0 ≤ zlen d ∧ 0 ≤ zlen (arg_bytes ds)) as [Hd0 Ha0] by (unfold zlen; lia).
  assert (last us ≠ None) as Hne by congruence. assert (length us ≠ 0)%nat as Hnz by (by destruct us).
  unfold copy_arg. rewrite wp_bind. eapply wp_fs_load; [rewrite txt_staged; by apply load32_ok|]. rewrite le_num_word by lia.
  rewrite (proj2 (Z.eqb_neq q 0)) by lia. rewrite (proj2 (Z.ltb_ge MAXARGS k)) by (unfold MAXARGS; lia).
  rewrite wp_bind. eapply wp_fs_load; [rewrite txt_staged; by apply strlen_ok|]. rewrite wp_bind. eapply wp_fs_load.
  { rewrite txt_staged. assert (Z.to_nat (zlen d + 1) = length (d ++ [0])) as -> by (rewrite length_app; unfold zlen; cbn; lia).
    apply load_bytes_ok, Hcs. }
  assert (u32 (sp - (zlen d + 1)) = sp') as -> by (unfold sp, sp'; rewrite u32_small by lia; lia).
  assert (zlen (d ++ [0]) = zlen d + 1) as Hzd by (by rewrite zlen_app).
  rewrite wp_bind. apply wp_staged_pm. eapply wp_mono.
  { unfold uvm_memcpy. apply (memcpy_loop _ pgdir pts l us m); [done|by eapply cstr_bytes| |].
    - right. rewrite Hzd. eapply last_page_range; [exact Hlast|unfold sp'; lia|unfold sp'; lia].
    - right. rewrite Hzd. unfold PAGE_SZ. change 0x1000 with 4096. clear. pose proof (Z.mod_pos_bound sp' 4096 ltac:(lia)).
      assert (0 ≤ (zlen d + 1) / 4096) by (apply Z.div_pos; unfold zlen; lia). pose proof (Z.div_mod (zlen d + 1) 4096 ltac:(lia)).
      pose proof (Z.mod_pos_bound (zlen d + 1) 4096 ltac:(lia)). lia. }
  cbn beta. intros r m' (-> & Hus' & Hfl & Hou & Hub). change (0 =? -1) with false. cbn iota. rewrite wp_bind.
  replace (3 + k) with (Z.of_nat (3 + length ds)) by lia. eapply wp_ok.
  { apply set_word_ok; [rewrite length_arg_buffer by lia; lia|unfold sp'; lia]. }
  rewrite wp_ret. unfold sp'. rewrite arg_buffer_snoc by lia. split; [done|]. exists m'. split; [done|]. split; [done|]. split; [done|].
  split; [done|]. intros a Ha. rewrite Hub, Hzd by done. replace (sp' + (zlen d + 1)) with sp by (unfold sp, sp'; lia). done.
Qed.

Lemma arg_bytes_app ds es : arg_bytes (ds ++ es) = arg_bytes es ++ arg_bytes ds.
Proof. unfold arg_bytes. by rewrite fmap_app, reverse_app, join_app. Qed.

Lemma arg_bytes_take_le (k : nat) strs : zlen (arg_bytes (take k strs)) ≤ zlen (arg_bytes strs).
Proof.
  rewrite <- (take_drop k strs) at 2. rewrite arg_bytes_app, zlen_app. unfold zlen. lia.
Qed.

Lemma copy_args_loop s j pgdir pts l us p top argv strs :
  args_at (txt (fsw s)) argv strs → (length strs ≤ 33)%nat → last us = Some (p, 7) → top = 4096 * length us →
  zlen (arg_bytes strs) ≤ 4096 → ∀ (f k : nat) m, (k ≤ length strs)%nat → (length strs < k + f)%nat → user_space m pgdir pts l us →
  let sp := top - zlen (arg_bytes (take k strs)) in
  wp (loop f (copy_arg pgdir argv) (Z.of_nat k, sp, arg_buffer top (take k strs))) (staged s m j) (λ r s',
    let sp' := top - zlen (arg_bytes strs) in
    r = Some (zlen strs, sp', arg_buffer top strs) ∧ ∃ m', s' = staged s m' j ∧ user_space m' pgdir pts l us ∧
    freelist m' = freelist m ∧ only_user us (ram m) (ram m') ∧
    ∀ a, 0 ≤ a → ubyte (ram m') us a = if decide (sp' ≤ a < sp) then arg_bytes strs !! Z.to_nat (a - sp') else ubyte (ram m) us a).
Proof.
  intros Hargs Hlen Hlast Htop Hall. induction f as [|f IH]; intros k m Hk Hf Hus sp; [lia|]. rewrite wp_loop_S.
  destruct (decide (k = length strs)) as [->|Hne].
  - unfold sp. rewrite take_ge by done. unfold copy_arg. rewrite wp_bind. destruct Hargs as (ps & _ & Hend & _).
    eapply wp_fs_load; [rewrite txt_staged; by apply load32_ok|]. rewrite le_num_zero. cbn [Z.eqb]. rewrite wp_ret. split; [done|].
    exists m. split; [done|]. split; [done|]. split; [done|]. split; [apply only_user_refl|]. intros a Ha. by rewrite decide_False by lia.
  - destruct (lookup_lt_is_Some_2 strs k ltac:(lia)) as [d Hd]. pose proof (take_S_r _ _ _ Hd) as Ht.
    eapply wp_mono; [eapply copy_arg_ok; try done; rewrite <- Ht; etrans; [apply arg_bytes_take_le|done]|].
    cbn beta. intros r s' (-> & m1 & -> & Hus1 & Hfl1 & Hou1 & Hub1). cbn iota. rewrite <- Ht in Hub1 |- *.
    replace (k + 1) with (Z.of_nat (S k)) by lia. eapply wp_mono; [apply (IH (S k) m1); [lia|lia|done]|].
    cbn beta. intros r s' (-> & m2 & -> & Hus2 & Hfl2 & Hou2 & Hub2). split; [done|]. exists m2. split; [done|]. split; [done|].
    split; [congruence|]. split; [by eapply only_user_trans|]. intros a Ha. rewrite Hub2, Hub1 by done.
    pose proof (arg_bytes_take_le (S k) strs) as Hle. rewrite Ht, arg_bytes_snoc, !zlen_app in *. change (zlen [0]) with 1 in *.
    assert (0 ≤ zlen d) by (unfold zlen; lia).
    assert (∃ rest, arg_bytes strs = rest ++ (d ++ [0]) ++ arg_bytes (take k strs)) as [rest Hrest].
    { exists (arg_bytes (skipn (S k) strs)). by rewrite <- arg_bytes_snoc, <- Ht, <- arg_bytes_app, take_drop. }
    rewrite Hrest, !zlen_app in *. change (zlen [0]) with 1 in *. unfold sp. assert (0 ≤ zlen rest) by (unfold zlen; lia).
    clear - Ha. unfold zlen. generalize (arg_bytes (take k strs)). intros t.
    repeat case_decide; try lia; try done. rewrite (lookup_app_r rest) by lia.
    rewrite (lookup_app_l (d ++ [0])) by (rewrite length_app; cbn; lia). f_equal. lia.
Qed.

Lemma copy_args_ok s m j pgdir pts l us p top argv strs :
  args_at (txt (fsw s)) argv strs → (length strs ≤ 33)%nat → last us = Some (p, 7) → top = 4096 * length us →
  zlen (arg_bytes strs) ≤ 4096 → user_space m pgdir pts l us →
  wp (copy_args pgdir argv top) (staged s m j) (λ r s',
    let sp' := top - zlen (arg_bytes strs) in
    r = Some (zlen strs, sp', arg_buffer top strs) ∧ ∃ m', s' = staged s m' j ∧ user_space m' pgdir pts l us ∧
    freelist m' = freelist m ∧ only_user us (ram m) (ram m') ∧
    ∀ a, 0 ≤ a → ubyte (ram m') us a = if decide (sp' ≤ a < top) then arg_bytes strs !! Z.to_nat (a - sp') else ubyte (ram m) us a).
Proof.
  intros Hargs Hlen Hlast Htop Hall Hus. unfold copy_args.
  pose proof (copy_args_loop s j pgdir pts l us p top argv strs Hargs Hlen Hlast Htop Hall 34 0 m ltac:(lia) ltac:(lia) Hus) as Hl.
  change (zlen (arg_bytes (take 0 strs))) with 0 in Hl. rewrite Z.sub_0_r in Hl. exact Hl.
Qed.

Lemma zlen_words (ws : list Z) : zlen (mjoin (le_bytes 4 <$> ws)) = 4 * zlen ws.
Proof.
  induction ws as [|w ws IH]; [done|]. change (mjoin (le_bytes 4 <$> w :: ws)) with (le_bytes 4 w ++ mjoin (le_bytes 4 <$> ws)).
  rewrite zlen_app, IH. change (zlen (le_bytes 4 w)) with 4. unfold zlen. cbn [length]. lia.
Qed.

Lemma zlen_stack_words top strs : zlen (stack_words top strs) = zlen strs + 4.
Proof. unfold stack_words, zlen. rewrite !length_app, length_arg_ptrs. cbn. lia. Qed.

Lemma arg_words_ok s top strs : (length strs ≤ 32)%nat → let sp := top - zlen (arg_bytes strs) in
  4 * (zlen strs + 4) ≤ sp → top < 4294967296 →
  arg_words (zlen strs) sp (arg_buffer top strs) s = Ok (stack_words top strs, sp - 4 * (zlen strs + 4)) s.
Proof.
  intros Hlen sp Hsp Htop. assert (0 ≤ zlen (arg_bytes strs)) as Hp by (unfold zlen; lia). unfold arg_words. apply wp_eq. rewrite wp_bind.
  assert (3 + zlen strs = (3 + length strs)%nat) as -> by (unfold zlen; lia). 
  assert (zlen strs = length strs) as Hzl by done. rewrite Hzl in *.
  eapply wp_ok; [apply set_word_ok; [rewrite length_arg_buffer by lia; lia|lia]|]. rewrite wp_bind.
  assert (<[(3 + length strs)%nat := 0]> (arg_buffer top strs) = arg_buffer top strs) as ->.
  { apply list_insert_id. unfold arg_buffer. rewrite lookup_app_r by (cbn; lia). rewrite lookup_app_r by (rewrite length_arg_ptrs; cbn; lia).
    rewrite length_arg_ptrs. change (length [0; 0; 0]) with 3%nat. rewrite lookup_replicate. split; [done|lia]. }
  eapply wp_ok; [apply (set_word_ok _ _ 2); [rewrite length_arg_buffer by lia; lia|lia]|]. rewrite wp_bind.
  eapply wp_ok; [apply (set_word_ok _ _ 1); [unfold zlen; rewrite length_insert; fold (zlen (arg_buffer top strs)); rewrite length_arg_buffer by lia; lia|lia]|].
  rewrite wp_bind.
  eapply wp_ok; [apply (set_word_ok _ _ 0); [unfold zlen; rewrite !length_insert; fold (zlen (arg_buffer top strs)); rewrite length_arg_buffer by lia; lia|lia]|].
  rewrite wp_ret. split; [|done]. rewrite u32_small by lia. f_equal; [|lia].
  replace (Z.to_nat ((3 + length strs)%nat + 1)) with (4 + length strs)%nat by lia. unfold arg_buffer. cbn [app list_insert insert].
  unfold stack_words. cbn [app firstn]. change (take (4 + length strs)%nat) with (@firstn Z (S (S (S (S (length strs)))))). cbn [firstn list_insert].
  fold sp. rewrite Hzl. do 3 f_equal. rewrite <- (length_arg_ptrs top strs) at 1.
  destruct (33 - length strs)%nat as [|n] eqn:E; [lia|]. cbn [replicate].
  rewrite take_app. rewrite take_ge by lia. f_equal. by replace (S (length (arg_ptrs top strs)) - length (arg_ptrs top strs))%nat with 1%nat by lia.
Qed.

(** Changing the flags of the pages of a new space *)
Lemma new_space_flag m0 l0 m t pts l us m' us' : new_space m0 l0 m t pts l us → user_space m' t pts l us' → us'.*1 = us.*1 →
  same_data t pts l (ram m) (ram m') → (∀ q, page_mapped (ram m) q → page_mapped (ram m') q) →
  new_space m0 l0 m' t pts l us' ∧ ∀ a, 0 ≤ a → ubyte (ram m') us' a = ubyte (ram m) us a.
Proof.
  intros [I1 D1 P1 M1 C1] Hus' Hpg Hsd Hm. split.
  - split; [done| |by rewrite Hpg|auto|].
    + intros q Hqa Hq a Ha. rewrite (Hsd q Hqa), (D1 q Hqa Hq a Ha); [done| | |done]; intros Hin; apply Hq, P1; auto.
    + rewrite <- (length_fmap fst us'), Hpg, length_fmap. done.
  - intros a Ha. unfold ubyte. assert (us'.*1 !! Z.to_nat (a / 4096) = us.*1 !! Z.to_nat (a / 4096)) as Hl by (by rewrite Hpg).
    rewrite !list_lookup_fmap in Hl. destruct (us' !! Z.to_nat (a / 4096)) as [[p' f']|], (us !! Z.to_nat (a / 4096)) as [[p f]|] eqn:E; try done.
    injection Hl as ->. cbn. destruct (us_page _ _ _ _ _ I1 _ _ _ E) as ((Hpo & Hpl & Hpt & _) & _).
    apply (Hsd p (proj1 Hpo) Hpl Hpt). pose proof (Z.mod_pos_bound a 4096 ltac:(lia)). lia.
Qed.

Lemma kernel_same m m' t pts l us us' : user_space m t pts l us → user_space m' t pts l us' →
  (∀ va, KERN_BASE ≤ va < 4294967296 → pte_of (ram m') pts va = pte_of (ram m) pts va) →
  kernel_maps (ram m) t → kernel_maps (ram m') t.
Proof.
  intros H1' H2' Hpte Hk va Hva. rewrite <- (Hk va Hva), (translate_ok _ _ _ _ va (us_inv _ _ _ _ _ H1')), (translate_ok _ _ _ _ va (us_inv _ _ _ _ _ H2')).
  cbn zeta. by rewrite Hpte.
Qed.

Lemma words_bytes ws : Forall is_byte (mjoin (le_bytes 4 <$> ws)).
Proof. apply Forall_join, Forall_fmap, Forall_true. intros w. apply le_bytes_bytes. Qed.

Lemma args_bytes t argv strs : args_at t argv strs → Forall (Forall is_byte) strs.
Proof.
  intros (ps & Hps & _ & Hk). apply Forall_lookup. intros k d Hd.
  destruct (lookup_lt_is_Some_2 ps k) as [q Hq]; [rewrite Hps; by eapply lookup_lt_Some|].
  destruct (Hk k q d Hq Hd) as (_ & _ & Hc). apply cstr_bytes in Hc. by apply Forall_app in Hc as [Hc _].
Qed.

Lemma build_stack_ok s m0 l0 m j pgdir pts l us pg ps argv strs : let top := 4096 * length (us ++ [(pg, 7); (ps, 7)]) in
  let img := stack_image top strs in let us' := us ++ [(pg, 3); (ps, 7)] in
  new_space m0 l0 m pgdir pts l (us ++ [(pg, 7); (ps, 7)]) → kernel_maps (ram m) pgdir →
  args_at (txt (fsw s)) argv strs → (length strs ≤ 32)%nat → zlen img ≤ 4096 →
  wp (build_stack pgdir argv top) (staged s m j) (λ r s', r = Some (top - zlen img) ∧ ∃ m', s' = staged s m' j ∧
    new_space m0 l0 m' pgdir pts l us' ∧ kernel_maps (ram m') pgdir ∧
    ∀ a, 0 ≤ a → ubyte (ram m') us' a =
      if decide (top - zlen img ≤ a < top) then img !! Z.to_nat (a - (top - zlen img)) else ubyte (ram m) (us ++ [(pg, 7); (ps, 7)]) a).
Proof.
  intros top img us' Hns Hk Hargs Hlen Hfit. pose proof (ns_space _ _ _ _ _ _ _ Hns) as Hus. pose proof (us_len _ _ _ _ _ Hus) as Hul.
  unfold KERN_BASE in Hul. fold top in Hul. assert (top = 4096 * length us + 8192) as Htop by (unfold top; rewrite length_app; cbn; lia).
  assert (zlen img = 4 * (zlen strs + 4) + zlen (arg_bytes strs)) as Hi by (unfold img, stack_image; by rewrite zlen_app, zlen_words, zlen_stack_words).
  assert (0 ≤ zlen strs ∧ 0 ≤ zlen (arg_bytes strs)) as [Hs0 Ha0] by (unfold zlen; lia).
  unfold build_stack. rewrite wp_bind. apply wp_staged_pm. rewrite u32_small by (unfold PAGE_SZ; lia).
  replace (top - 2 * PAGE_SZ) with (4096 * length us) by (unfold PAGE_SZ; lia).
  destruct (clear_flag_ok m pgdir pts l _ (length us) pg 7 PTE_U Hus) as (m1 & Hclr & Hus1 & Hsd & Hm1 & Hk1); [by apply list_lookup_middle|by right|].
  eapply wp_ok; [exact Hclr|]. change (Z.land 7 (Z.lnot PTE_U)) with 3 in Hus1.
  assert (<[length us := (pg, 3)]> (us ++ [(pg, 7); (ps, 7)]) = us') as He.
  { rewrite insert_app_r_alt, Nat.sub_diag by lia. done. }
  rewrite He in Hus1. destruct (new_space_flag _ _ _ _ _ _ _ m1 us' Hns Hus1) as [Hns1 Hub1]; [unfold us'; by rewrite !fmap_app|done|done|].
  pose proof (kernel_same _ _ _ _ _ _ _ Hus Hus1 Hk1 Hk) as Hkm1.
  assert (last us' = Some (ps, 7)) as Hlast by (unfold us'; by rewrite last_app).
  assert (top = 4096 * length us') as Htop' by (unfold top, us'; by rewrite !length_app).
  rewrite wp_bind. eapply wp_mono; [eapply (copy_args_ok s m1 j); try done; lia|].
  cbn beta zeta. intros r s' (-> & m2 & -> & Hus2 & Hfl2 & Hou2 & Hub2). cbn iota. rewrite wp_bind.
  eapply wp_ok; [apply arg_words_ok; lia|]. cbn beta iota. rewrite wp_bind. apply wp_staged_pm. set (ws := mjoin (le_bytes 4 <$> stack_words top strs)).
  assert (zlen ws = 4 * (zlen strs + 4)) as Hws by (unfold ws; by rewrite zlen_words, zlen_stack_words).
  eapply wp_mono.
  { unfold uvm_memcpy. apply (memcpy_loop _ pgdir pts l us' m2); [done|apply words_bytes| |].
    - right. rewrite Hws. eapply last_page_range; [exact Hlast|lia|lia].
    - right. rewrite Hws. unfold PAGE_SZ. change 0x1000 with 4096. match goal with |- ?v mod _ + _ ≤ _ => pose proof (Z.mod_pos_bound v 4096 ltac:(lia)) end.
      pose proof (Z.div_mod (4 * (zlen strs + 4)) 4096 ltac:(lia)). pose proof (Z.mod_pos_bound (4 * (zlen strs + 4)) 4096 ltac:(lia)).
      assert (0 ≤ (4 * (zlen strs + 4)) / 4096) by (apply Z.div_pos; lia). lia. }
  cbn beta. intros r m3 (-> & Hus3 & Hfl3 & Hou3 & Hub3). change (0 =? -1) with false. cbn iota. rewrite wp_ret.
  split; [f_equal; lia|]. exists m3. split; [done|]. pose proof (only_user_trans _ _ _ _ Hou2 Hou3) as Hou.
  split; [by eapply new_space_user|]. split; [by eapply kernel_user; [apply Hus1|exact Hus3|exact Hou|exact Hkm1]|].
  intros a Ha. rewrite Hub3, Hub2, Hub1, Hws by done. unfold img, stack_image. fold ws. clear - Hi Hws Ha Hs0 Ha0. unfold img, stack_image in Hi. fold ws in Hi.
  rewrite zlen_app in *. repeat case_decide; try lia; try done.
  - rewrite lookup_app_l by (unfold zlen in *; lia). f_equal. lia.
  - rewrite lookup_app_r by (unfold zlen in *; lia). f_equal. unfold zlen in *. lia.
Qed.

(** ** The process *)

Lemma uvm_switch_calm s (i : nat) x : running s i x → ncli (lk s) < 999990 → kstack x ≠ 0 → pgdir x ≠ 0 →
  uvm_switch i s = Ok tt (put_cpu (loaded x (cpu s)) s).
Proof.
  intros [Hc Hcur Hx] Hn Hk Hd. pose proof Hc as [Hok _ _]. pose proof Hok as [Hn0 _].
  assert (cli_ok (pushed (lk s))) as Hok' by (apply pushed_ok; [done|lia]).
  assert (0 < ncli (pushed (lk s)) < 1000000) as Hn' by (cbn; lia). unfold uvm_switch.
  rewrite (proj2 (Z.eqb_neq (Z.of_nat i) NULL)) by (unfold NULL; lia). rewrite (bind_proc _ _ i x) by exact Hx.
  rewrite (proj2 (Z.eqb_neq (kstack x) 0)), (proj2 (Z.eqb_neq (pgdir x) 0)) by done.
  rewrite (bind_ok _ _ _ _ _ (with_lk_ok push_cli s _ _ (push_cli_ok _ Hok))).
  rewrite (bind_ok _ _ _ _ _ (write_tss_runs (put_lk (pushed (lk s)) s) i x Hok' Hn' Hx)).
  rewrite bind_this_proc by (first [exact Hok'|exact Hn']). cbn [cur put_cpu put_lk]. rewrite Hcur, (bind_proc _ _ i x) by exact Hx.
  unfold bind at 1, gets. unfold bind at 1, set_cpu, modify. rewrite (with_lk_ok pop_cli _ tt (lk s)); [by destruct s|].
  change (pop_cli (pushed (lk s)) = Ok tt (lk s)). rewrite pop_cli_ok; [by rewrite push_pop_calm|done|cbn; lia].
Qed.

(** The characters that [strncpy] reads of a string *)
Lemma read_name_ok l : ∀ (n : nat) t p, cstr t p l → (length l < n)%nat → read_name n p t = Ok l t.
Proof.
  induction l as [|c l IH]; intros [|n] t p Hc Hl; cbn [length] in *; try lia; cbn [read_name].
  - by rewrite (bind_ok _ _ _ _ _ (load_ok t p 0 ltac:(rewrite <- (Z.add_0_r p); exact (cstr_end _ _ _ Hc)))).
  - apply cstr_cons in Hc as (Hm & Hr & Hc). rewrite (bind_ok _ _ _ _ _ (load_ok _ _ _ Hm)), (proj2 (Z.eqb_neq c 0)) by lia.
    by rewrite (bind_ok _ _ _ _ _ (IH n t (p + 1) Hc ltac:(lia))).
Qed.

(** The space of the process [x] that calls [exec], and the page [kp] of its
    kernel stack, where its trap frame is *)
Record ready (m : Pmem) (x : Process) (pts : gmap Z Z) (l : list Z) (us : list (Z * Z)) (kp : Z) : Prop := mk_ready {
  rd_space : user_space m (pgdir x) pts l us;
  rd_low : low_idle (ram m);
  rd_page : data_page m (pgdir x) pts l kp;
  rd_user : kp ∉ us.*1;
  rd_frame : kp ≤ trapframe x ∧ trapframe x + 76 ≤ kp + 4096;
  rd_stack : kstack x ≠ 0;
}.

(** The trap frame is written and the old space is freed: the new space keeps
    its pages. *)
Lemma replace_space m0 x pts0 l0 us0 kp m d pts l us entry sp :
  ready m0 x pts0 l0 us0 kp → new_space m0 l0 m d pts l us → kernel_maps (ram m) d →
  let m1 := write (trapframe x + tf_esp) (le_bytes 4 sp) (write (trapframe x + tf_eip) (le_bytes 4 entry) (ram m)) in
  wp (vmfree (pgdir x)) (mkPmem m1 (freelist m)) (λ _ m', ∃ l', user_space m' d pts l' us ∧ kernel_maps (ram m') d ∧
    (∀ a, 0 ≤ a → ubyte (ram m') us a = ubyte (ram m) us a) ∧
    array (ram m') (trapframe x + tf_eip) (le_bytes 4 entry) ∧ array (ram m') (trapframe x + tf_esp) (le_bytes 4 sp) ∧
    ∀ q, table_page (pgdir x) pts0 q ∨ q ∈ us0.*1 → q ∈ l').
Proof.
  intros [Hsp0 Hlow Hkp Hku [Hf1 Hf2] _] Hns Hk m1. pose proof (ns_space _ _ _ _ _ _ _ Hns) as Hus.
  pose proof (us_inv _ _ _ _ _ Hsp0) as Hv0. pose proof (us_inv _ _ _ _ _ Hus) as Hv. destruct Hkp as (Hko & Hkl & Hkt & Hkm).
  pose proof (fp_ok _ _ (vi_free _ _ _ _ Hv0)) as Hok0. rewrite Forall_forall in Hok0.
  assert (data_page m d pts l kp) as Hkd.
  { split; [done|]. split; [|split]; [| |by apply (ns_mapped _ _ _ _ _ _ _ Hns)]; intros Hin; apply Hkl, (ns_pages _ _ _ _ _ _ _ Hns); auto. }
  destruct (vm_write m d pts l kp (trapframe x + tf_eip) (le_bytes 4 entry) Hv Hkd) as (Hv1 & _ & Hd1); [unfold tf_eip; lia|unfold tf_eip, zlen; rewrite length_le_bytes; lia|].
  destruct (vm_write (mkPmem (write (trapframe x + tf_eip) (le_bytes 4 entry) (ram m)) (freelist m)) d pts l kp (trapframe x + tf_esp) (le_bytes 4 sp) Hv1)
    as (Hv2 & _ & _); [by apply Hd1|unfold tf_esp; lia|unfold tf_esp, zlen; rewrite length_le_bytes; lia|]. cbn [ram freelist] in Hv2. fold m1 in Hv2.
  assert (∀ q, page_aligned q → q ≠ kp → ∀ a, q ≤ a < q + 4096 → m1 !! a = ram m !! a) as Hm1.
  { intros q Hqa Hne a Ha. destruct (pages_disjoint q kp Hqa (proj1 Hko) Hne); unfold m1; rewrite !lookup_write;
      unfold zlen, tf_eip, tf_esp; rewrite !length_le_bytes, !decide_False by lia; done. }
  assert (∀ q, table_page (pgdir x) pts0 q ∨ q ∈ us0.*1 → page_ok q ∧ q ∉ l0 ∧ q ≠ kp) as Hold.
  { intros q [Hq|Hq].
    - split; [by eapply (table_page_ok _ _ _ _ (vi_dir _ _ _ _ Hv0))|]. split; [intros Hin; by apply (vi_sep _ _ _ _ Hv0 q)|by intros ->].
    - split; [|split; [|by intros ->]]; apply list_elem_of_fmap in Hq as ([q' f] & -> & Hq); apply list_elem_of_lookup in Hq as [k Hq];
        by destruct (us_page _ _ _ _ _ Hsp0 k _ f Hq) as ((? & ? & _) & _). }
  assert (user_space (mkPmem m1 (freelist m)) (pgdir x) pts0 l us0) as Hold1.
  { eapply (us_other m0 (pgdir x) pts0 l0 us0); [done|apply Hv2|]. intros q Hq. destruct (Hold q Hq) as (Hqo & Hql & Hqk). split.
    - intros Hin. apply Hql, (ns_pages _ _ _ _ _ _ _ Hns). by left.
    - intros a Ha. cbn [ram]. rewrite (Hm1 q (proj1 Hqo) Hqk a Ha). by apply (ns_data _ _ _ _ _ _ _ Hns q (proj1 Hqo) Hql). }
  assert (KERN_BASE ∉ l0 ∧ KERN_BASE ≠ kp) as [Hb1 Hb2].
  { split; [|by intros <-; destruct (low_page _ Hko)]. intros Hin%Hok0. by destruct (low_page _ Hin). }
  eapply wp_mono; [apply (vmfree_ok _ _ _ _ _ Hold1)|].
  { cbn [ram]. eapply low_idle_same; [|exact Hlow]. intros a Ha. rewrite (Hm1 _ low_aligned Hb2 a Ha).
    by apply (ns_data _ _ _ _ _ _ _ Hns _ low_aligned Hb1). }
  cbn beta. intros _ m' (l' & Hf' & _ & _ & Hl' & Hsame). exists l'.
  assert (∀ q, table_page d pts q ∨ q ∈ us.*1 → q ∈ l0 ∧ page_ok q ∧ q ∉ l) as Hnew.
  { intros q Hq. assert (q ∈ l0) as Hin by (apply (ns_pages _ _ _ _ _ _ _ Hns); auto). split; [done|]. split; [by apply Hok0|].
    destruct Hq as [Hq|Hq]; [intros Hl; by apply (vi_sep _ _ _ _ Hv q)|]. apply list_elem_of_fmap in Hq as ([q' f] & -> & Hq).
    apply list_elem_of_lookup in Hq as [k Hq]. by destruct (us_page _ _ _ _ _ Hus k _ f Hq) as ((_ & ? & _) & _). }
  assert (kp ∉ l') as Hkl'.
  { intros Hin%Hl'. destruct Hin as [Hin|[Hin|Hin]]; [|by apply Hkt|by apply Hku]. by destruct Hkd as (_ & Hx & _). }
  destruct (space_kept m d pts l us m' l' Hus Hf') as (S1 & S2 & S3).
  { intros q Hq. destruct (Hnew q Hq) as (Hq0 & Hqo & Hql). assert (q ∉ l') as Hq'.
    { intros Hin%Hl'. destruct Hin as [Hin|Hin]; [done|]. by destruct (Hold q Hin) as (_ & ? & _). }
    split; [done|]. intros a Ha. rewrite (Hsame q (proj1 Hqo) ltac:(by apply low_page) Hq' a Ha). cbn [ram].
    apply (Hm1 q (proj1 Hqo)); [|done]. intros ->. by apply Hkl. }
  split; [done|]. split; [by apply S2|]. split; [done|].
  assert (∀ a, kp ≤ a < kp + 4096 → ram m' !! a = m1 !! a) as Hfr.
  { intros a Ha. by rewrite (Hsame kp (proj1 Hko) ltac:(by apply low_page) Hkl' a Ha). }
  split; [|split].
  - intros k b Hb. pose proof (lookup_lt_Some _ _ _ Hb) as Hlt. rewrite length_le_bytes in Hlt. unfold tf_eip in *. rewrite Hfr by lia.
    unfold m1, tf_esp. rewrite !lookup_write. unfold zlen. rewrite !length_le_bytes, decide_False, decide_True by lia.
    rewrite <- Hb. f_equal. unfold tf_eip. lia.
  - intros k b Hb. pose proof (lookup_lt_Some _ _ _ Hb) as Hlt. rewrite length_le_bytes in Hlt. unfold tf_esp in *. rewrite Hfr by lia.
    unfold m1, tf_esp. rewrite lookup_write. unfold zlen. rewrite length_le_bytes, decide_True by lia. rewrite <- Hb. f_equal. lia.
  - intros q Hq. apply Hl'. by right.
Qed.

(** The process after [exec]: only its name, its space [d] and the end [size] of
    that changed; the processor uses the space, and the trap frame has the
    address [entry] and the stack pointer [sp]. *)
Record entered s (p : nat) (x : Process) (nm : list Z) (d size entry sp : Z) (s' : KState T) : Prop := mk_entered {
  en_proc : ∃ nm', name_str nm' = nm ∧ ptab s' = <[p := set_size size (set_pgdir d (set_name nm' x))]> (ptab s);
  en_cpu : cr3 (cpu s') = KA2P d ∧ ts_esp0 (cpu s') = u32 (kstack x + KSTACK_SZ);
  en_frame : array (ram (pm s')) (trapframe x + tf_eip) (le_bytes 4 entry) ∧ array (ram (pm s')) (trapframe x + tf_esp) (le_bytes 4 sp);
  en_rest : lk s' = lk s ∧ cur s' = cur s ∧ ftab s' = ftab s;
}.

Lemma enter_program_ok s p x pts0 l0 us0 kp m j d pts l us path nm size entry sp :
  running s p x → ncli (lk s) < 999990 → ready (pm s) x pts0 l0 us0 kp →
  new_space (pm s) l0 m d pts l us → kernel_maps (ram m) d → cstr (txt (fsw s)) path nm → (length nm ≤ 14)%nat →
  wp (enter_program path d size entry sp) (staged s m j) (λ r s', r = 0 ∧ entered s p x nm d size entry sp s' ∧
    fsw s' = mkDState j (txt (fsw s)) ∧ ∃ l', user_space (pm s') d pts l' us ∧ kernel_maps (ram (pm s')) d ∧
    (∀ a, 0 ≤ a → ubyte (ram (pm s')) us a = ubyte (ram m) us a) ∧
    ∀ q, table_page (pgdir x) pts0 q ∨ q ∈ us0.*1 → q ∈ l').
Proof.
  intros Hrun Hn Hrd Hns Hk Hpath Hlen. pose proof (ns_space _ _ _ _ _ _ _ Hns) as Hus.
  assert (running (staged s m j) p x) as Hr by (by destruct Hrun; split). assert (p < length (ptab s))%nat as Hp by (by eapply lookup_lt_Some, Hrun).
  destruct (name_copy_ok (pname x) nm) as (nm' & Hnm & Hstr); [by apply Hpath|done|].
  pose proof Hrd as [Hsp0 Hlow Hkp Hku Hf Hks].
  assert (page_mapped (ram m) kp) as Hkm by (apply (ns_mapped _ _ _ _ _ _ _ Hns), Hkp).
  assert (d ≠ 0) as Hd. { destruct (pw_dir _ _ _ (vi_dir _ _ _ _ (us_inv _ _ _ _ _ Hus))) as [Hdo _]. apply low_page in Hdo. unfold KERN_BASE in Hdo. lia. }
  unfold enter_program. rewrite wp_bind. eapply wp_this_proc; [exact Hr|]. rewrite wp_bind. eapply wp_proc; [apply Hr|].
  rewrite wp_bind. eapply wp_fs_load; [rewrite txt_staged; apply read_name_ok; [exact Hpath|lia]|].
  rewrite wp_bind. eapply wp_need; [exact Hnm|]. rewrite wp_bind. eapply wp_update_proc; [apply Hr|].
  rewrite wp_bind. eapply wp_update_proc; [by apply list_lookup_insert_eq|].
  rewrite wp_bind. eapply wp_update_proc; [apply list_lookup_insert_eq; cbn [put_ptab ptab]; by rewrite length_insert|].
  cbn [put_ptab ptab]. rewrite !list_insert_insert_eq. cbn [staged put_pm put_w put_rest ptab].
  rewrite wp_bind. eapply wp_ram_ok; [apply store32_ok; eapply page_mapped_range; [exact Hkm|unfold tf_eip; lia|unfold tf_eip; lia]|].
  rewrite wp_bind. eapply wp_ram_ok.
  { apply store32_ok. apply mapped_write. eapply page_mapped_range; [exact Hkm|unfold tf_esp; lia|unfold tf_esp; lia]. }
  cbn [put_ram put_ptab staged put_pm put_w put_rest pm ram freelist].
  set (y := set_size size (set_pgdir d (set_name nm' x))). rewrite wp_bind. eapply wp_ok.
  { apply (uvm_switch_calm _ p y).
    - destruct Hrun as [R1 R2 R3]. split; [done|done|]. by apply list_lookup_insert_eq.
    - done.
    - done.
    - done. }
  rewrite wp_bind. apply wp_pm. cbn [pm put_cpu].
  eapply wp_mono; [apply (replace_space (pm s) x pts0 l0 us0 kp m d pts l us entry sp Hrd Hns Hk)|].
  cbn beta. intros _ m' (l' & S1 & S2 & S3 & S4 & S5 & S6). rewrite wp_ret. split; [done|]. split; [|split; [by apply fs_put|by exists l']].
  split; [by exists nm'|done|done|done].
Qed.

(** ** [exec] *)

Lemma load_size_bound content phs sz : Forall (segment_ok content) phs → 0 ≤ sz ≤ KERN_BASE - 12288 →
  0 ≤ load_size phs sz ≤ KERN_BASE - 12288.
Proof.
  intros Hall. revert sz. induction Hall as [|ph phs Hph _ IH]; intros sz Hsz; [done|]. cbn. apply IH. case_decide as Ht; [|done].
  destruct (Hph Ht) as (_ & _ & ? & _). lia.
Qed.

Lemma drop_ok s m j i z (Q : unit → KState T → Prop) : icache j !! i = Some z →
  Q tt (staged s m (mkIState (blk j) (<[i := set_inref (s32 (inref z - 1)) z]> (icache j)) (cur_pid j))) →
  wp (drop i) (staged s m j) Q.
Proof.
  intros Hz HQ. unfold drop. apply wp_with_fs. rewrite staged_fs. apply wp_with_ino. unfold inode_drop. rewrite wp_bind.
  eapply wp_inode; [exact Hz|]. eapply wp_update_inode; [exact Hz|]. cbn [ino txt]. rewrite staged_w. exact HQ.
Qed.

(** The file of a program, in its slot *)
Lemma program_holds im l n name content (w : DState U) r rx (j : Z) z : program im l n name content → mounted im w r rx j z → holds_program im n z →
  holds (ino w) j z content.
Proof.
  intros Hpg Hmt Hh.
  assert (∀ off n', 0 ≤ off → 0 ≤ n' → off + n' ≤ zlen content →
    read_bytes (ino w) (din z) off n' = slice (Z.to_nat off) (Z.to_nat n') content) as Hrb.
  { intros off n' Ho Hn Hle. destruct (program_bytes _ _ _ _ _ _ _ _ _ _ off n' Hpg Hmt Hh Ho Hn) as (_ & _ & _ & ->). do 2 f_equal. lia. }
  destruct (program_bytes _ _ _ _ _ _ _ _ _ _ 0 0 Hpg Hmt Hh ltac:(lia) ltac:(lia)) as (E1 & E2 & E3 & _).
  split; [apply Hmt|apply Hh|done|done|done|done|].
  specialize (Hrb 0 (zlen content) ltac:(lia) ltac:(unfold zlen; lia) ltac:(lia)). unfold zlen in Hrb. rewrite Nat2Z.id in Hrb.
  assert (slice (Z.to_nat 0) (length content) content = content) as Hs by (unfold slice; rewrite drop_0; by apply take_ge).
  rewrite <- Hs, <- Hrb. apply Forall_slice, file_bytes_byte.
Qed.

Lemma staged_put s w : txt w = txt (fsw s) → put_w w s = staged s (pm s) (ino w).
Proof. intros Ht. unfold staged. rewrite <- Ht. unfold put_pm, put_w, put_rest. by destruct w. Qed.

(** The two pages of the stack, behind the program *)
Lemma stack_pages m0 l0 m d pts l us sz : new_space m0 l0 m d pts l us → sz = 4096 * length us → sz ≤ KERN_BASE - 12288 →
  1030 + sz / 4096 < length l0 → all_rwx us → kernel_maps (ram m) d →
  wp (uvm_allocate d sz (u32 (sz + PAGE_SZ * 2))) m (λ r m', u32 r = sz + 8192 ∧ ∃ pts' l' pg ps,
    let us' := us ++ [(pg, 7); (ps, 7)] in
    new_space m0 l0 m' d pts' l' us' ∧ sz + 8192 = 4096 * length us' ∧ kernel_maps (ram m') d ∧
    ∀ a, 0 ≤ a → ubyte (ram m') us' a = if decide (a < sz) then ubyte (ram m) us a else if decide (a < sz + 8192) then Some 0 else None).
Proof.
  intros Hns Hsz Hle Hmem Hrw Hk. assert (0 ≤ sz) by lia. unfold KERN_BASE in Hle. unfold PAGE_SZ. rewrite u32_small by lia.
  change (0x1000 * 2) with 8192. eapply wp_mono; [apply (grow_ok m0 l0 m d pts l us sz (sz + 8192)); try done|]; try (unfold KERN_BASE; lia).
  { rewrite page_alignup_eq by lia. rewrite Hsz. clear. Z.div_mod_to_equations. lia. }
  { rewrite Z.max_r by lia. clear - Hmem. Z.div_mod_to_equations. lia. }
  cbn beta. rewrite Z.max_r by lia. intros r m' (-> & pts' & l' & us' & Hns' & Hal & Hrw' & Hk' & Hub). split; [done|]. exists pts', l'.
  rewrite page_alignup_eq in Hal by lia. rewrite length_app in Hal.
  assert (length us' = 2%nat) as Hl2 by (clear - Hal Hsz; Z.div_mod_to_equations; lia).
  destruct us' as [|[pg f] [|[ps g] [|]]]; try done. exists pg, ps. cbn zeta.
  assert (f = 7) as -> by (apply (Hrw' (length us) pg); by apply list_lookup_middle).
  assert (g = 7) as ->. { apply (Hrw' (S (length us)) ps). rewrite lookup_app_r by lia. by replace (S (length us) - length us)%nat with 1%nat by lia. }
  rewrite length_app in *. cbn [length] in *. split; [done|]. split; [lia|]. split; [done|]. intros a Ha. rewrite Hub, <- Hsz by done.
  by replace (4096 * (length us + 2)%nat) with (sz + 8192) by lia.
Qed.

(** [exec] of a file whose inode is in the slot [i] *)
Lemma exec_file_ok s p x pts0 l0 us0 kp path nm argv strs j0 i z content :
  holds j0 i z content → cstr (txt (fsw s)) path nm → (length nm ≤ 14)%nat →
  running s p x → ncli (lk s) < 999990 → ready (pm s) x pts0 l0 us0 kp → executable content →
  1030 + program_size content / 4096 < length l0 → args_at (txt (fsw s)) argv strs → (length strs ≤ 32)%nat →
  let top := program_size content + 8192 in let img := stack_image top strs in zlen img ≤ 4096 →
  bwp (exec_file devices frame path argv i) (staged s (pm s) j0) (λ c s', c = 0 ∧ ∃ d,
    entered s p x nm d top (e_entry (file_header content)) (top - zlen img) s' ∧
    (∀ a, 0 ≤ a < KERN_BASE → vbyte (ram (pm s')) d a = program_byte content strs a) ∧ kernel_maps (ram (pm s')) d ∧
    ∃ l', free_pages (pm s') l' ∧ ∀ q, table_page (pgdir x) pts0 q ∨ q ∈ us0.*1 → q ∈ l').
Proof.
  intros Hho Hcs Hname Hrun Hn Hrd [Hx1 Hx2 Hx3 Hx4] Hmem Hargs Hlen top img Hfit. subst top. set (size := program_size content) in *.
  pose proof (us_inv _ _ _ _ _ (rd_space _ _ _ _ _ _ Hrd)) as Hv0.
  pose proof (fo_len _ _ _ (ho_file _ _ _ _ Hho)) as Hcl. rewrite (ho_size _ _ _ _ Hho) in Hcl.
  pose proof (load_size_bound content _ 0 Hx4 ltac:(unfold KERN_BASE; lia)) as Hsb.
  assert (size = 4096 * ((load_size (file_segments content) 0 + 4095) / 4096)) as Hsz by (unfold size, program_size; rewrite page_alignup_eq by (unfold KERN_BASE in *; lia); done).
  assert (load_size (file_segments content) 0 ≤ size ≤ KERN_BASE - 12288) as Hss.
  { rewrite Hsz. clear - Hsb. unfold KERN_BASE in *. Z.div_mod_to_equations. lia. }
  assert (0 ≤ size / 4096) as Hsp by (apply Z.div_pos; lia).
  unfold exec_file. rewrite bwp_bind.
  apply (bytes_ok s (pm s) j0 i z content); [done|done|done|exact Hx1|]. intros j1 Hj1. rewrite Z.eqb_refl. cbn [negb].
  change (elf_header (slice (Z.to_nat 0) (Z.to_nat sizeof_ELF32Header) content)) with (file_header content). rewrite Hx2. cbn [negb].
  rewrite bwp_bind_lift. apply wp_staged_pm. eapply wp_mono; [apply (kvm_allocate_ok (pm s) l0); [apply Hv0|lia]|].
  intros [ok d] m1 (-> & pts1 & l1 & Hns1 & Hk1 & _). cbn [negb]. rewrite bwp_bind.
  assert (0 ≤ e_phnum (file_header content) ∧ 0 ≤ e_phoff (file_header content)) as [Hpn Hpo].
  { assert (Forall is_byte (slice 0 52 content)) as Hb by (apply Forall_slice, (ho_byte _ _ _ _ Hho)).
    split; [apply (field_range _ 44 2 Hb)|apply (field_range _ 28 4 Hb)]. }
  eapply bwp_mono.
  { rewrite <- (Z2Nat.id (e_phnum _) Hpn). eapply (load_segments_ok s j1 i z content (pm s) l0 m1 d pts1 l1 _ (Z.to_nat (e_phnum (file_header content)))).
    - by eapply holds_same.
    - done.
    - done.
    - done.
    - by rewrite Z2Nat.id.
    - done.
    - unfold KERN_BASE in *. fold (file_segments content). lia.
    - fold (file_segments content). assert (load_size (file_segments content) 0 / 4096 ≤ size / 4096) by (apply Z.div_le_mono; lia). lia. }
  fold (file_segments content). cbn beta. intros o s' (-> & m2 & j2 & pts2 & l2 & us & -> & [Hh2 _ Hns2 Hal Hrw Him Hk2]). cbn iota. fold size in Hal |- *.
  rewrite bwp_bind_lift. eapply drop_ok; [apply Hh2|]. set (j3 := mkIState _ _ _). rewrite bwp_bind_lift. apply wp_staged_pm.
  eapply wp_mono; [apply (stack_pages (pm s) l0 m2 d pts2 l2 us size); try done; lia|].
  cbn beta. intros sz m3 (-> & pts3 & l3 & pg & ps & Hns3 & Htop & Hk3 & Hub3). rewrite (proj2 (Z.eqb_neq (size + 8192) 0)) by lia.
  rewrite bwp_bind_lift. unfold img in Hfit |- *. rewrite Htop in Hfit |- *.
  eapply wp_mono; [by apply (build_stack_ok s (pm s) l0 m3 j3 d pts3 l3 us pg ps argv strs)|].
  rewrite <- Htop in Hfit |- *. cbn beta zeta. fold img in Hfit |- *. intros o s' (-> & m4 & -> & Hns4 & Hk4 & Hub4). cbn iota.
  rewrite bwp_lift.
  eapply wp_mono; [eapply (enter_program_ok s p x pts0 l0 us0 kp m4 j3 d pts3 l3 _ path nm); done|].
  cbn beta. intros c s' (-> & Hen & _ & l' & Hus' & Hk' & Hub' & Hold). split; [done|]. exists d. split; [done|]. split; [|split; [done|]].
  2: { exists l'. split; [apply Hus'|exact Hold]. }
  assert (4096 * length (us ++ [(pg, 3); (ps, 7)]) = size + 8192) as Hlu by (rewrite Htop, !length_app; done).
  assert (0 ≤ zlen img) as Hi0 by (unfold zlen; lia).
  intros a Ha. rewrite (vbyte_space _ _ _ _ _ _ Hus' Ha), Hlu, Hub', Hub4, Hub3, Him by lia. unfold program_byte. fold size img.
  rewrite <- Hal. repeat case_decide; try lia; done.
Qed.

(** C6: [exec] of a program on an image of mkfs, of at most 6144 bytes (the
    direct blocks of its inode) and with a name of at most 13: it returns 0, and the
    process then has a new address space, in which the processor finds the
    bytes that the program headers of the file describe, zeros behind them, and
    on top the arguments with their addresses, as [main] takes them; nothing
    else is mapped below the kernel, and the kernel's part is complete. The
    process goes on at the entry point of the file, with the stack pointer at
    the words, and all pages of its old space are free. *)
Theorem exec_program im fl n name content s p x pts0 l0 us0 kp path argv strs r rx (j : Z) y :
  program im fl n name content → mounted im (fsw s) r rx j y → inref rx < 1000000 → ¬ (idev y = ROOTDEV ∧ inum y = 2 + n) →
  path_at slash (txt (fsw s)) path name [] [] → (length name ≤ 13)%nat →
  running s p x → ncli (lk s) < 999990 → ready (pm s) x pts0 l0 us0 kp → executable content →
  1030 + program_size content / 4096 < length l0 → args_at (txt (fsw s)) argv strs → (length strs ≤ 32)%nat →
  let top := program_size content + 8192 in let img := stack_image top strs in zlen img ≤ 4096 →
  bwp (exec devices frame slash path argv) s (λ c s', c = 0 ∧ ∃ d,
    entered s p x (47 :: name) d top (e_entry (file_header content)) (top - zlen img) s' ∧
    (∀ a, 0 ≤ a < KERN_BASE → vbyte (ram (pm s')) d a = program_byte content strs a) ∧ kernel_maps (ram (pm s')) d ∧
    ∃ l', free_pages (pm s') l' ∧ ∀ q, table_page (pgdir x) pts0 q ∨ q ∈ us0.*1 → q ∈ l').
Proof.
  intros Hpg Hmt Href Hyn Hpath Hname Hrun Hn Hrd Hex Hmem Hargs Hlen top img Hfit. pose proof (mounted_order _ _ _ _ _ _ Hmt) as Hord.
  unfold exec. rewrite bwp_bind_lift. unfold abspath. apply wp_with_fs.
  eapply wp_mono; [by eapply (abspath_program _ frame slash im fl n name content (fsw s) path r rx j y)|].
  cbn beta. intros i w (-> & Ht & z & Hmt' & Hh). rewrite (staged_put s w Ht), (proj2 (Z.eqb_neq j NULL)) by (unfold NULL; lia).
  pose proof (pa_path _ _ _ _ _ _ Hpath) as Hcs. rewrite app_nil_r in Hcs.
  eapply exec_file_ok; try done; [by eapply program_holds|cbn; lia].
Qed.

(** C37: The check of the number of arguments is off by one: with 33 arguments
    [exec] stores the null behind their addresses past the end of its local
    array. *)
Theorem exec_args_overflow s m j d pts l us pg ps argv strs : user_space m d pts l (us ++ [(pg, 7); (ps, 7)]) →
  args_at (txt (fsw s)) argv strs → length strs = 33%nat → zlen (arg_bytes strs) ≤ 4096 →
  build_stack d argv (4096 * length (us ++ [(pg, 7); (ps, 7)])) (staged s m j) = Fault.
Proof.
  intros Hus Hargs Hlen Hfit. pose proof (us_len _ _ _ _ _ Hus) as Hul. set (top := 4096 * length (us ++ [(pg, 7); (ps, 7)])) in *.
  assert (top = 4096 * length us + 8192) as Htop by (unfold top; rewrite length_app; cbn; lia). unfold KERN_BASE in Hul.
  destruct (clear_flag_ok m d pts l _ (length us) pg 7 PTE_U Hus) as (m1 & Hclr & Hus1 & _); [by apply list_lookup_middle|by right|].
  assert (<[length us := (pg, Z.land 7 (Z.lnot PTE_U))]> (us ++ [(pg, 7); (ps, 7)]) = us ++ [(pg, 3); (ps, 7)]) as He.
  { rewrite insert_app_r_alt, Nat.sub_diag by lia. done. }
  rewrite He in Hus1. unfold build_stack. rewrite u32_small by (unfold PAGE_SZ; lia).
  replace (top - 2 * PAGE_SZ) with (4096 * length us) by (unfold PAGE_SZ; lia).
  assert (wp (with_pm (clear_pte_flag d (4096 * length us) PTE_U)) (staged s m j) (λ _ s', s' = staged s m1 j)) as Hw
    by (apply wp_staged_pm; by eapply wp_ok).
  apply wp_run in Hw as ([] & s' & E1 & ->). rewrite (bind_ok _ _ _ _ _ E1).
  assert (last (us ++ [(pg, 3); (ps, 7)]) = Some (ps, 7)) as Hlast by (by rewrite last_app).
  assert (top = 4096 * length (us ++ [(pg, 3); (ps, 7)])) as Htop' by (unfold top; by rewrite !length_app).
  pose proof (copy_args_ok s m1 j d pts l _ ps top argv strs Hargs ltac:(lia) Hlast Htop' Hfit Hus1) as Hca.
  apply wp_run in Hca as (o & s' & E2 & -> & m2 & -> & _). rewrite (bind_ok _ _ _ _ _ E2). unfold arg_words, set_word at 1.
  rewrite length_arg_buffer, (proj2 (Z.ltb_ge (3 + zlen strs) 36)) by (unfold zlen; lia). done.
Qed.
End exec.

(** ** Witnesses *)

#[local] Existing Instance demo_layout.
#[local] Existing Instance demo_text.

(** ["/"] and ["/e"] at 8 and 16; the argument ["hi"] at 48 with its address at 40 *)
Definition demo_strings : mem :=
  write 8 [47; 0] (write 16 [47; 101; 0] (write 40 (le_bytes 4 48 ++ le_bytes 4 0) (write 48 [104; 105; 0] ∅))).

(** A process with the memory [m], whose trap frame and kernel stack are at [k] *)
Definition exec_process (k : Z) : Process :=
  mkProcess 8192 demo_base k 1 NULL PROC_RUNNING k 0 NULL false [] (replicate 16 0).

Definition exec_kernel (m : Pmem) (k : Z) : KState (DState (BState SimDrive) * gmap Z Pipe) :=
  mkKState (mkLState true 0 true {[ 100 := new_lock ]}) (mkCpu (replicate 6 0) 0 0 0 0) 0 [exec_process k] 2 0 0x80200000
    m [] (mkDState (ino Mkfs.demo_state) demo_strings, ∅).

Lemma exec_running m k : running (exec_kernel m k) 0 (exec_process k).
Proof.
  split; [|reflexivity|reflexivity]. split; [split; [split; [discriminate|reflexivity]|intros E; discriminate E]|reflexivity|reflexivity].
Qed.

Lemma exec_mounted m k : mounted (BS := bcache_store (patience := 3)) demo_image (fsw (exec_kernel m k)) 0 Mkfs.demo_root 1 Mkfs.demo_slot.
Proof.
  split; [exact demo_on_disk|exact demo_root_loaded|reflexivity|split; discriminate|reflexivity|].
  intros i Hi. assert (i = 0) as -> by lia. exists Mkfs.demo_root. split; [reflexivity|]. split; [discriminate|]. intros _. reflexivity.
Qed.

Lemma demo_strings_ok p k : (p, k) ∈ [(8, [47]); (16, [47; 101]); (48, [104; 105])] → cstr demo_strings p k.
Proof.
  rewrite !elem_of_cons. intros [[= -> ->]|[[= -> ->]|[[= -> ->]|Hin%not_elem_of_nil]]]; [..|done];
    (split; [|by repeat apply Forall_cons_2]); intros i b Hi;
    do 3 (destruct i as [|i]; [first [discriminate Hi|injection Hi as <-; vm_compute; reflexivity]|]); done.
Qed.

Lemma demo_path_e : path_at 8 demo_strings 16 [101] [] [].
Proof.
  split; [done|apply demo_strings_ok; by left|apply demo_strings_ok; right; by left| |by left|cbn; lia].
  split; [done|]. by intros [?|?%not_elem_of_nil]%elem_of_cons.
Qed.

Lemma demo_args_at : args_at demo_strings 40 [[104; 105]].
Proof.
  exists [48]. split; [done|]. split.
  - intros i b Hi. do 4 (destruct i as [|i]; [injection Hi as <-; vm_compute; reflexivity|]). done.
  - intros [|k] q d Hq Hd; [|done]. injection Hq as <-. injection Hd as <-. split; [lia|]. split; [|apply demo_strings_ok; right; right; by left].
    intros i b Hi. do 4 (destruct i as [|i]; [injection Hi as <-; vm_compute; reflexivity|]). done.
Qed.

Lemma demo_executable : executable demo_elf.
Proof.
  split; [discriminate|reflexivity|discriminate|]. apply Forall_singleton. intros _. split_and!; vm_compute; done.
Qed.

(** A process that may call [exec] *)
Lemma exec_ready : ∃ m pts l us k, ready m (exec_process k) pts l us k ∧ 1100 < length l.
Proof.
  destruct demo_two as (s & pts & l & us & Hus & Hlen & Hl & Hlow & _ & _). destruct l as [|k l]; [cbn in Hl; lia|].
  destruct (take_page s demo_base pts k l us Hus) as (_ & Hus1 & Hkd & Hku). exists (mkPmem (ram s) (word (ram s) k)), pts, l, us, k.
  split; [|cbn [length] in Hl; lia]. pose proof Hkd as [Hko _]. split; [exact Hus1|exact Hlow|exact Hkd|exact Hku|cbn; lia|].
  intros Hz. cbn in Hz. subst k. destruct (low_page 0 Hko). unfold KERN_BASE in *. lia.
Qed.

(** [exec("/e", {"hi", 0})]: a byte of the file, a zero behind it, the argument
    on the stack, and nothing above *)
Lemma exec_program_witness : ∃ m k,
  bwp (exec (BS := bcache_store (patience := 3)) [] [] 8 16 40) (exec_kernel m k) (λ c s', c = 0 ∧ ∃ d, cr3 (cpu s') = KA2P d ∧
    vbyte (ram (pm s')) d 2 = Some 144 ∧ vbyte (ram (pm s')) d 9 = Some 0 ∧ vbyte (ram (pm s')) d 12285 = Some 104 ∧
    vbyte (ram (pm s')) d 12288 = None ∧ array (ram (pm s')) (k + tf_esp) (le_bytes 4 12265)).
Proof.
  destruct exec_ready as (m & pts & l & us & k & Hrd & Hl). exists m, k. eapply bwp_mono.
  - apply (exec_program (BS := bcache_store (patience := 3)) [] [] 8 demo_image demo_programs 2 [101] demo_elf (exec_kernel m k) 0
      (exec_process k) pts l us k 16 40 [[104; 105]] 0 Mkfs.demo_root 1 Mkfs.demo_slot).
    + exact (demo_program 2 _ _ eq_refl).
    + apply exec_mounted.
    + reflexivity.
    + intros [E _]. discriminate E.
    + exact demo_path_e.
    + cbn. lia.
    + apply exec_running.
    + reflexivity.
    + exact Hrd.
    + exact demo_executable.
    + change (program_size demo_elf / 4096) with 1. lia.
    + exact demo_args_at.
    + cbn. lia.
    + vm_compute. discriminate.
  - intros c s' (-> & d & [_ [Hcr _] [_ Hesp] _] & Hv & _). split; [reflexivity|]. exists d. split; [exact Hcr|].
    rewrite !Hv by done. split_and!; [vm_compute; reflexivity..|]. exact Hesp.
Defined.

(** 33 empty arguments *)
Definition many_strings : mem := write 40 (mjoin (le_bytes 4 <$> replicate 33 8 ++ [0])) (write 8 [0] ∅).

Lemma exec_args_overflow_witness : ∃ m d top,
  build_stack d 40 top (mkKState (mkLState true 0 true ∅) (mkCpu [] 0 0 0 0) 0 [] 1 0 0 m [] (mkDState (ino Mkfs.demo_state) many_strings, ∅)) = Fault.
Proof.
  destruct demo_two as (m & pts & l & us & Hus & Hlen & _ & _ & Hz & _). destruct us as [|[pg f] [|[ps g] [|]]]; try done.
  destruct (Hz pg f) as [-> _]; [by left|]. destruct (Hz ps g) as [-> _]; [by right; left|].
  exists m, demo_base, (4096 * length [(pg, 7); (ps, 7)]).
  pose proof (exec_args_overflow (T := DState (BState SimDrive) * gmap Z Pipe) (U := BState SimDrive)
    (mkKState (mkLState true 0 true ∅) (mkCpu [] 0 0 0 0) 0 [] 1 0 0 m [] (mkDState (ino Mkfs.demo_state) many_strings, ∅))
    m (ino Mkfs.demo_state) demo_base pts l [] pg ps 40 (replicate 33 []) Hus) as Hw.
  apply Hw; [|reflexivity|discriminate].
  exists (replicate 33 8). split; [reflexivity|].
  assert (array many_strings 40 (mjoin (le_bytes 4 <$> replicate 33 8 ++ [0]))) as Ha by apply (array_write 40). split.
  - apply (array_words _ _ 40 33 0 Ha). reflexivity.
  - intros k q d' [-> Hk]%lookup_replicate [-> _]%lookup_replicate. split; [lia|]. split.
    + apply (array_words _ _ 40 k 8 Ha). rewrite lookup_app_l by (rewrite length_replicate; lia). by apply lookup_replicate_2.
    + split; [|constructor]. intros [|i] b Hi; [|done]. injection Hi as <-. vm_compute. reflexivity.
Defined.
