(* ===== verification/Trap.v ===== *)
(** * kernel/trap.c and dev.c: interrupts, system calls and the devices

    The state of all parts of the kernel together, the handlers of the
    interrupts, and [trap], which every entry to the kernel goes through. *)
From S2P Require Import Sched Prelude Machine CMem CString Fmt Ide Disk BCache Block Inode Dir.
From S2P Require Import Palloc PgTbl VMem Locks Segments Process ProcSpec Switch Pipe Files Exec Syscall.
From S2P Require Import Ps2 Pic Uart Vga Console.

(** ** The state

    Each device has its own ports: [DD] the disk, [DS] the serial lines, [DK]
    the keyboard, [DP] the interrupt controllers. *)
Record World (DD DS DK DP : Type) := mkWorld {
  files : DState (BState DD);
  pipes : gmap Z Pipe;
  con : Con DS;
  kbd : Kbd DK;
  pic : DP;
  ticks : Z;
}.
Arguments mkWorld {DD DS DK DP} files pipes con kbd pic ticks.
Arguments files {DD DS DK DP}.
Arguments pipes {DD DS DK DP}.
Arguments con {DD DS DK DP}.
Arguments kbd {DD DS DK DP}.
Arguments pic {DD DS DK DP}.
Arguments ticks {DD DS DK DP}.

#[export] Instance world_fs DD DS DK DP : HasFs (World DD DS DK DP) (BState DD).
Proof.
  by refine {| fs_of := files; put_fs := λ w t, mkWorld w (pipes t) (con t) (kbd t) (pic t) (ticks t) |}; repeat intros [].
Defined.

#[export] Instance world_pipes DD DS DK DP : PipeMem (World DD DS DK DP).
Proof.
  refine {| pipe_at := λ p t, pipes t !! p;
    pipe_set := λ p x t, mkWorld (files t) (partial_alter (λ _, x) p (pipes t)) (con t) (kbd t) (pic t) (ticks t) |}.
  - intros p x t. apply lookup_partial_alter_eq.
  - intros p q x t Hne. by apply lookup_partial_alter_ne.
Defined.

(** ** An operation on a part of the kernel state *)

Section part.
Context {T T' : Type} (get : T → T') (put : T' → T → T).

Definition with_rest_of {A} (t : A) (s : KState T) : KState A :=
  mkKState (lk s) (cpu s) (cur s) (ptab s) (nextpid s) (proc_init1 s) (kernel_pgdir s) (pm s) (ftab s) t.

Definition put_back (t : T) (k : KState T') : KState T :=
  mkKState (lk k) (cpu k) (cur k) (ptab k) (nextpid k) (proc_init1 k) (kernel_pgdir k) (pm k) (ftab k) (put (rest k) t).

Definition narrow (s : KState T) : KState T' := with_rest_of (get (rest s)) s.

Definition with_part {A} (m : M (KState T') A) : M (KState T) A :=
  zoom narrow (λ k s, put_back (rest s) k) m.

(** [t] is the rest of the state when the section began. *)
Fixpoint run_part {A} (t : T) (x : run (KState T') A) : run (KState T) A :=
  match x with
  | Done (Ok a k) => Done (Ok a (put_back t k))
  | Done (Panic msg) => Done (Panic msg)
  | Done Fault => Done Fault
  | Done Hang => Done Hang
  | Switch k f => Switch (put_back t k) (λ s, run_part (rest s) (f (narrow s)))
  end.

Definition part {A} (m : B (KState T') A) : B (KState T) A := λ s, run_part (rest s) (m (narrow s)).
End part.

Definition tf_trapno : Z := 48.
Definition tf_cs : Z := 60.

Definition load16 (p : Z) : M mem Z :=
  let! b0 := load p in
  let! b1 := load (p + 1) in
  ret (b0 + 256 * b1).

(** [this_proc()->trapframe = tf] *)
Definition set_trapframe (tf : Z) (x : Process) : Process := set_frame tf (context x) x.

Section trap.
Context {DD DS DK DP : Type} `{Ports DD, !Ports DS, !Ports DK, !Ports DP} {patience : nat} `{!AtaDrive DD patience}.
Context `{KernelLayout, KernelText, !ConsoleText}.
Notation T := (World DD DS DK DP).
Notation St := (KState T).
(** Fuel: the rounds that a process waits for others, and the bytes that a
    handler takes from its line *)
Context (fuel : nat) (frame : list Z) (slash : Z).

Definition with_con {A} (m : M (KState (Con DS)) A) : M St A :=
  with_part con (λ c t, mkWorld (files t) (pipes t) c (kbd t) (pic t) (ticks t)) m.

Definition con_part {A} (m : B (KState (Con DS)) A) : B St A :=
  part con (λ c t, mkWorld (files t) (pipes t) c (kbd t) (pic t) (ticks t)) m.

Definition with_kbd {A} (m : M (Kbd DK) A) : M St A :=
  with_rest (zoom kbd (λ k t, mkWorld (files t) (pipes t) (con t) k (pic t) (ticks t)) m).

Definition with_pic {A} (m : M DP A) : M St A :=
  with_rest (zoom pic (λ p t, mkWorld (files t) (pipes t) (con t) (kbd t) p (ticks t)) m).

Definition with_disk {A} (m : M (BState DD) A) : M St A := with_fs (with_ino (with_cache m)).

(** The console and the memory that it prints from *)
Definition with_text {A} (m : M (FState (Con DS)) A) : M St A :=
  with_rest (zoom (λ t, mkFState (txt (files t)) (con t))
    (λ f t, mkWorld (mkDState (ino (files t)) (fmem f)) (pipes t) (fout f) (kbd t) (pic t) (ticks t)) m).

(** ** dev.c: [devices], as [console_init] leaves it *)

Definition no_dev : Dev St := mkDev None None.

Definition console_dev : Dev St := mkDev
  (Some (λ i n,
     let> x := lift (with_fs (with_ino (inode i))) in
     con_part (console_read fuel (type (din x)) (major (din x)) n)))
  (Some (λ i buf n,
     let> x := lift (with_fs (with_ino (inode i))) in
     lift (with_text (console_write patience (type (din x)) (major (din x)) buf n)))).

Definition devices : list (Dev St) := <[Z.to_nat DEV_CONSOLE := console_dev]> (replicate (Z.to_nat NDEV) no_dev).

(** ** The handlers *)

Definition source_uart : M St Z :=
  let! c := with_con (with_rest (with_uart (uart_getc COM1))) in ret (u8 c).

Definition eoi : M St unit := with_pic pic_eoi.

Definition handle_syscall (tf : Z) : B St unit :=
  let> p := lift this_proc in
  let> x := lift (proc p) in
  do> (if killed x then exit else bret tt) in
  let> p := lift this_proc in
  do> lift (update p (set_trapframe tf)) in
  do> syscall devices fuel frame slash in
  let> p := lift this_proc in
  let> x := lift (proc p) in
  if killed x then exit else bret tt.

Definition handle_I_IRQ_TIMER : M St unit :=
  do! with_rest (modify (λ t, mkWorld (files t) (pipes t) (con t) (kbd t) (pic t) (u32 (ticks t + 1)))) in
  eoi.

Definition handle_I_IRQ_KBD : M St unit :=
  do! with_kbd kbd_read in
  do! with_con (console_handler patience fuel) in
  eoi.

Definition handle_I_IRQ_COM2 : M St unit := eoi.

Definition handle_I_IRQ_COM1 : M St unit :=
  do! with_con (with_rest (with_uart (uart_read patience COM1))) in
  do! with_con (console_handler patience fuel) in
  eoi.

Definition handle_I_IRQ_LPT1 : M St unit := eoi.
Definition handle_I_IRQ_CMOS : M St unit := eoi.
Definition handle_I_IRQ_MOUSE : M St unit := eoi.

Definition handle_I_IRQ_IDE : M St unit :=
  do! with_disk (disk_handler patience) in
  eoi.

Definition handle_I_IRQ_ERR : M St unit := eoi.
Definition handle_I_IRQ_SPURIOUS : M St unit := eoi.

(** [default:] *)
Definition unknown_trap (tf : Z) : M St unit :=
  let! p := this_proc in
  let! cs := with_pm (with_ram (load16 (tf + tf_cs))) in
  if (p =? NULL) || (Z.land cs 3 =? DPL_K) then panic "trap" else
  let! p := this_proc in
  update p (set_killed true).

(** The [switch] *)
Definition dispatch (tf n : Z) : B St unit :=
  if n =? I_SYSCALL then handle_syscall tf
  else if n =? MAP_IRQ I_IRQ_TIMER then lift handle_I_IRQ_TIMER
  else if n =? MAP_IRQ I_IRQ_KBD then lift handle_I_IRQ_KBD
  else if n =? MAP_IRQ I_IRQ_COM2 then lift handle_I_IRQ_COM2
  else if n =? MAP_IRQ I_IRQ_COM1 then lift handle_I_IRQ_COM1
  else if n =? MAP_IRQ I_IRQ_LPT1 then lift handle_I_IRQ_LPT1
  else if n =? MAP_IRQ I_IRQ_CMOS then lift handle_I_IRQ_CMOS
  else if n =? MAP_IRQ I_IRQ_MOUSE then lift handle_I_IRQ_MOUSE
  else if n =? MAP_IRQ I_IRQ_IDE then lift handle_I_IRQ_IDE
  else if n =? MAP_IRQ I_IRQ_ERR then lift handle_I_IRQ_ERR
  else if n =? MAP_IRQ I_IRQ_SPURIOUS then lift handle_I_IRQ_SPURIOUS
  else lift (unknown_trap tf).

(** [this_proc() && f(this_proc()) && (tf->cs & 3) == DPL_U] *)
Definition user_proc (tf : Z) (f : Process → bool) : M St bool :=
  let! p := this_proc in
  if p =? NULL then ret false else
  let! p := this_proc in
  let! x := proc p in
  if negb (f x) then ret false else
  let! cs := with_pm (with_ram (load16 (tf + tf_cs))) in
  ret (Z.land cs 3 =? DPL_U).

Definition trap (tf : Z) : B St unit :=
  let> n := lift (with_pm (with_ram (load32 (tf + tf_trapno)))) in
  do> dispatch tf n in
  let> b := lift (user_proc tf killed) in
  do> (if b : bool then exit else bret tt) in
  let> b := lift (user_proc tf (λ x, bool_decide (pstate x = PROC_RUNNING))) in
  if b : bool then yield else bret tt.
End trap.

(** ** Specifications *)

(** The trap frame at [tf]: the vector and the code segment *)
Record trap_frame (m : mem) (tf n cs : Z) : Prop := mk_trap_frame {
  tr_no : array m (tf + tf_trapno) (le_bytes 4 n) ∧ 0 ≤ n < 4294967296;
  tr_cs : array m (tf + tf_cs) (le_bytes 2 cs) ∧ 0 ≤ cs < 65536;
}.

Definition from_user (cs : Z) : bool := Z.land cs 3 =? DPL_U.

(** The interrupts whose handlers only acknowledge them, the clock included *)
Definition plain_irqs : list Z :=
  MAP_IRQ <$> [I_IRQ_TIMER; I_IRQ_COM2; I_IRQ_LPT1; I_IRQ_CMOS; I_IRQ_MOUSE; I_IRQ_ERR; I_IRQ_SPURIOUS].

(** All vectors that [trap] knows *)
Definition known_traps : list Z :=
  I_SYSCALL :: (MAP_IRQ <$> [I_IRQ_TIMER; I_IRQ_KBD; I_IRQ_COM2; I_IRQ_COM1; I_IRQ_LPT1; I_IRQ_CMOS; I_IRQ_MOUSE; I_IRQ_IDE;
    I_IRQ_ERR; I_IRQ_SPURIOUS]).

(** A chip whose interrupt of the highest priority has ended *)
Definition ack (c : Chip) : Chip := mkChip (imr c) (base c) (cascade c) (Z.land (isr c) (isr c - 1)) (phase c).

(** ** Lemmas *)

Section lemmas.
Context {DD DS DK DP : Type} `{Ports DD, !Ports DS, !Ports DK, !Ports DP} {patience : nat} `{!AtaDrive DD patience, !Pics DP}.
Context `{KernelLayout, KernelText, !ConsoleText}.
Notation T := (World DD DS DK DP).
Notation St := (KState T).
Implicit Types (s : St) (t : T).
Context (fuel : nat) (frame : list Z) (slash : Z).
Notation trap := (trap (patience := patience) fuel frame slash).
Notation dispatch := (dispatch (patience := patience) fuel frame slash).

(** The controllers and the clock with other values *)
Definition clocked (d : DP) (n : Z) t : T := mkWorld (files t) (pipes t) (con t) (kbd t) d n.

Definition acked s (n : Z) s' : Prop := ∃ d, s' = put_rest (clocked d n (rest s)) s ∧
  chips d = (ack (chips (pic (rest s))).1, ack (chips (pic (rest s))).2).

Lemma eoi_ok s : wp eoi s (λ _ s', acked s (ticks (rest s)) s').
Proof.
  unfold eoi, with_pic, with_rest. rewrite !wp_zoom. unfold pic_eoi. rewrite wp_bind.
  eapply wp_mono; [apply pic_out; right; right; by left|]. intros [] d1 E1. cbn beta. eapply wp_mono; [apply pic_out; by left|]. intros [] d2 E2.
  exists d2. split; [done|]. rewrite E2, E1. done.
Qed.

Lemma load16_ok m p v : array m p (le_bytes 2 v) → 0 ≤ v < 65536 → load16 p m = Ok v m.
Proof.
  intros Ha Hv. unfold load16. cbn [le_bytes] in Ha. apply array_cons in Ha as [H0' Ha]. apply array_cons in Ha as [H1' _].
  rewrite (bind_ok _ _ _ _ _ (load_ok _ _ _ H0')), (bind_ok _ _ _ _ _ (load_ok _ _ _ H1')). unfold ret. f_equal. Z.div_mod_to_equations. lia.
Qed.

(** The condition of the last two tests of [trap] *)
Lemma user_proc_ok s (p : nat) x tf n cs f : running s p x → trap_frame (ram (pm s)) tf n cs →
  user_proc tf f s = Ok (f x && from_user cs) s.
Proof.
  intros Hr [_ [Hcs Hc]]. apply wp_eq. unfold user_proc. rewrite wp_bind. eapply wp_this_proc; [exact Hr|].
  rewrite (proj2 (Z.eqb_neq (Z.of_nat p) NULL)) by (unfold NULL; lia). rewrite wp_bind. eapply wp_this_proc; [exact Hr|].
  rewrite wp_bind. eapply wp_proc; [apply Hr|]. destruct (f x); [|done]. cbn [negb andb]. rewrite wp_bind.
  eapply wp_ram_ok; [by apply load16_ok|]. by rewrite put_ram_id, wp_ret.
Qed.

Lemma known_inv n : n ∉ known_traps →
  (n =? I_SYSCALL) = false ∧ (n =? MAP_IRQ I_IRQ_TIMER) = false ∧ (n =? MAP_IRQ I_IRQ_KBD) = false ∧ (n =? MAP_IRQ I_IRQ_COM2) = false ∧
  (n =? MAP_IRQ I_IRQ_COM1) = false ∧ (n =? MAP_IRQ I_IRQ_LPT1) = false ∧ (n =? MAP_IRQ I_IRQ_CMOS) = false ∧
  (n =? MAP_IRQ I_IRQ_MOUSE) = false ∧ (n =? MAP_IRQ I_IRQ_IDE) = false ∧ (n =? MAP_IRQ I_IRQ_ERR) = false ∧ (n =? MAP_IRQ I_IRQ_SPURIOUS) = false.
Proof.
  intros Hn. unfold known_traps in Hn. cbn [fmap list_fmap] in Hn. rewrite !not_elem_of_cons in Hn. rewrite !Z.eqb_neq. tauto.
Qed.

Lemma dispatch_unknown tf n s : n ∉ known_traps → dispatch tf n s = lift (unknown_trap tf) s.
Proof. intros (E1 & E2 & E3 & E4 & E5 & E6 & E7 & E8 & E9 & E10 & E11)%known_inv. unfold Trap.dispatch. by rewrite E1, E2, E3, E4, E5, E6, E7, E8, E9, E10, E11. Qed.

Lemma dispatch_plain tf n s : n ∈ plain_irqs →
  bwp (dispatch tf n) s (λ _ s', acked s (if n =? MAP_IRQ I_IRQ_TIMER then u32 (ticks (rest s) + 1) else ticks (rest s)) s').
Proof.
  unfold plain_irqs. cbn [fmap list_fmap]. rewrite !elem_of_cons. intros [->|[->|[->|[->|[->|[->|[->|Hin%not_elem_of_nil]]]]]]]; [..|done]; [|apply eoi_ok..].
  change (wp handle_I_IRQ_TIMER s (λ _ s', acked s (u32 (ticks (rest s) + 1)) s')). unfold handle_I_IRQ_TIMER.
  rewrite wp_bind. unfold with_rest at 1. rewrite wp_zoom, wp_modify. eapply wp_mono; [apply eoi_ok|].
  intros _ s' (d & -> & Hd). by exists d.
Qed.

(** [yield] up to the switch *)
Lemma yield_out_runs s (p : nat) x : running s p x → ncli (lk s) = 0 → avail (lk s) ptable_lk →
  yield_out s = Ok (iflag (lk s)) (put_lk (with_lock ptable_lk taken (pushed (lk s))) (put_ptab (<[p := Process.set_state PROC_READY x]> (ptab s)) s)).
Proof.
  intros Hr Hn Hav. pose proof Hr as [[Hok Hb Hfl] Hcur Hx]. apply wp_eq. unfold yield_out. rewrite wp_bind. apply wp_lk.
  eapply wp_ok; [apply lock_ok; [done|lia|done]|]. fold (put_lk (with_lock ptable_lk taken (pushed (lk s))) s).
  set (L := with_lock ptable_lk taken (pushed (lk s))). assert (cli_ok L) as HL by (split; cbn; [lia|done]).
  assert (ncli L = 1) as HnL by (cbn; lia). assert (calm L) as Hc by (split; [done|cbn; lia|cbn; lia]).
  assert (running (put_lk L s) p x) as Hr1 by (by split). rewrite wp_bind. eapply wp_this_proc; [exact Hr1|].
  rewrite wp_bind. eapply wp_update_proc; [exact Hx|]. set (s1 := put_ptab _ _).
  assert (running s1 p (Process.set_state PROC_READY x)) as Hr2.
  { split; [done|done|]. apply list_lookup_insert_eq. by eapply lookup_lt_Some. }
  unfold sched_out. rewrite wp_bind. eapply wp_this_proc; [exact Hr2|].
  rewrite wp_bind. eapply wp_ok; [apply (with_lk_ok (holding ptable_lk) s1 true L)|].
  { apply (holding_pushed L ptable_lk taken); [done|cbn; lia|]. apply lookup_insert_eq. }
  cbn [negb]. change (put_lk L s1) with s1. rewrite wp_bind. eapply wp_ok; [by apply (with_lk_ok this_cpu s1 tt L)|]. change (put_lk L s1) with s1.
  rewrite wp_bind. eapply wp_ok; [apply (with_lk_ok (gets ncli) s1 1 L); unfold gets; change (lk s1) with L; by rewrite HnL|]. change (put_lk L s1) with s1. cbn [Z.eqb Pos.eqb negb].
  rewrite wp_bind. eapply wp_proc; [apply Hr2|]. rewrite decide_False by done.
  rewrite wp_bind. eapply wp_ok; [by apply (with_lk_ok (gets iflag) s1 false L)|]. change (put_lk L s1) with s1. cbn beta iota.
  rewrite wp_bind. eapply wp_ok; [by apply (with_lk_ok this_cpu s1 tt L)|]. change (put_lk L s1) with s1.
  rewrite wp_bind. eapply wp_ok; [by apply (with_lk_ok (gets int_on) s1 (int_on L) L)|]. change (put_lk L s1) with s1.
  rewrite wp_bind. eapply wp_ok; [by apply (with_lk_ok this_cpu s1 tt L)|]. change (put_lk L s1) with s1.
  rewrite wp_ret. split; [|done]. cbn. unfold restore_flag. by rewrite Hn.
Qed.

(** ... and behind it *)
Lemma yield_in_runs s on : cli_ok (lk s) → ncli (lk s) = 1 → Locks.held (lk s) ptable_lk →
  yield_in on s = Ok tt (put_lk (mkLState on 0 on (<[ptable_lk := new_lock]> (locks (lk s)))) s).
Proof.
  intros Hok Hn Hh. apply wp_eq. unfold yield_in, sched_in. rewrite !wp_bind.
  assert (this_cpu (lk s) = Ok tt (lk s)) as Hcpu by (unfold this_cpu, bind, gets; by rewrite (co_off _ Hok) by lia).
  eapply wp_ok; [exact (with_lk_ok this_cpu s tt (lk s) Hcpu)|].
  eapply wp_ok; [by apply (with_lk_ok (set_int_on on) (put_lk (lk s) s) tt (mkLState (iflag (lk s)) (ncli (lk s)) on (locks (lk s))))|].
  set (L := mkLState _ _ on _). eapply wp_ok.
  { apply (with_lk_ok (unlock ptable_lk) (put_lk L (put_lk (lk s) s)) tt (popped (with_lock ptable_lk new_lock L))).
    apply (unlock_ok L ptable_lk); [split; [apply Hok|apply Hok]|cbn; lia|exact Hh]. }
  split; [done|]. unfold popped, with_lock, put_lk. cbn. by rewrite Hn.
Qed.

(** [trap] up to the end of the handler *)
Lemma trap_enter s tf n cs : trap_frame (ram (pm s)) tf n cs →
  trap tf s = bbind (dispatch tf n) (λ _,
    let> b := lift (user_proc tf killed) in
    do> (if b : bool then exit else bret tt) in
    let> b := lift (user_proc tf (λ x, bool_decide (pstate x = PROC_RUNNING))) in
    if b : bool then yield else bret tt) s.
Proof.
  intros [[Hn Hr] _]. unfold Trap.trap. rewrite (bbind_step _ _ s n s); [done|]. eapply wp_ram_ok; [by apply load32_ok|]. by rewrite put_ram_id, le_num_word.
Qed.

Lemma bwp_done {A} (m : B St A) s Q : bwp m s Q → ∃ a s', m s = Done (Ok a s') ∧ Q a s'.
Proof. unfold bwp. destruct (m s) as [[a s'| | |]|]; try done. by exists a, s'. Qed.

(** What is left after the handler *)
Lemma trap_done s s1 (p : nat) x tf n cs : trap_frame (ram (pm s)) tf n cs → dispatch tf n s = Done (Ok tt s1) →
  trap_frame (ram (pm s1)) tf n cs → running s1 p x →
  trap tf s = (if killed x && from_user cs then
      bbind exit (λ _, let> b := lift (user_proc tf (λ x, bool_decide (pstate x = PROC_RUNNING))) in if b : bool then yield else bret tt)
    else if bool_decide (pstate x = PROC_RUNNING) && from_user cs then yield else bret tt) s1.
Proof.
  intros Hf Hd Hf1 Hr. rewrite (trap_enter _ _ _ _ Hf), (bbind_done _ _ _ _ _ Hd).
  rewrite (bbind_lift _ _ _ _ _ (user_proc_ok s1 p x tf n cs killed Hr Hf1)). destruct (killed x && from_user cs); [done|].
  rewrite (bbind_done (bret tt) _ s1 tt s1) by done.
  by rewrite (bbind_lift _ _ _ _ _ (user_proc_ok s1 p x tf n cs _ Hr Hf1)).
Qed.

(** ** Properties *)

(** An interrupt that only has to be acknowledged, in the kernel: [trap]
    returns to what was interrupted, and only the clock (for the timer) and the
    interrupt controllers changed: both have ended the interrupt. *)
Theorem trap_in_kernel s (p : nat) x tf n cs : trap_frame (ram (pm s)) tf n cs → n ∈ plain_irqs → from_user cs = false → running s p x →
  bwp (trap tf) s (λ _ s', acked s (if n =? MAP_IRQ I_IRQ_TIMER then u32 (ticks (rest s) + 1) else ticks (rest s)) s').
Proof.
  intros Hf Hn Hcs Hr. destruct (bwp_done _ _ _ (dispatch_plain tf n s Hn)) as ([] & s1 & Hd & Ha). pose proof Ha as (d & Hs1 & _).
  unfold bwp. rewrite (trap_done s s1 p x tf n cs Hf Hd) by (by rewrite Hs1; first [exact Hf|destruct Hr; split]).
  rewrite Hcs, !andb_false_r. exact Ha.
Qed.

(** C22: Preemption: the timer interrupts a running process in user mode. [trap]
    counts the tick, acknowledges the interrupt and gives up the CPU; the
    process is ready and [ptable.lk] is held. When the scheduler comes back,
    [trap] returns to the process with the lock free and the interrupts as
    they were. *)
Theorem timer_preempts s (p : nat) x tf cs : trap_frame (ram (pm s)) tf (MAP_IRQ I_IRQ_TIMER) cs → from_user cs = true →
  running s p x → pstate x = PROC_RUNNING → killed x = false → ncli (lk s) = 0 → avail (lk s) ptable_lk →
  ∃ s1 k d, trap tf s = Switch s1 k ∧ ptab s1 = <[p := Process.set_state PROC_READY x]> (ptab s) ∧ Locks.held (lk s1) ptable_lk ∧ ncli (lk s1) = 1 ∧
    rest s1 = clocked d (u32 (ticks (rest s) + 1)) (rest s) ∧ chips d = (ack (chips (pic (rest s))).1, ack (chips (pic (rest s))).2) ∧
    ∀ s2, cli_ok (lk s2) → ncli (lk s2) = 1 → Locks.held (lk s2) ptable_lk → ∃ s3, k s2 = Done (Ok tt s3) ∧
      ptab s3 = ptab s2 ∧ avail (lk s3) ptable_lk ∧ ncli (lk s3) = 0 ∧ iflag (lk s3) = iflag (lk s).
Proof.
  intros Hf Hcs Hr Hst Hk Hn Hav. destruct (bwp_done _ _ _ (dispatch_plain tf (MAP_IRQ I_IRQ_TIMER) s ltac:(by left))) as ([] & s1 & Hd & d & Hs1 & Hch).
  rewrite Z.eqb_refl in Hs1. assert (running s1 p x) as Hr1 by (rewrite Hs1; by destruct Hr; split).
  pose proof (trap_done s s1 p x tf _ cs Hf Hd ltac:(by rewrite Hs1) Hr1) as Ht. rewrite Hk, Hcs, bool_decide_eq_true_2 in Ht by done. cbn [andb] in Ht.
  pose proof (yield_out_runs s1 p x Hr1 ltac:(by rewrite Hs1) ltac:(by rewrite Hs1)) as Hy.
  rewrite Ht. unfold yield. rewrite (bbind_lift _ _ _ _ _ Hy). eexists _, _, d. split; [reflexivity|]. rewrite Hs1. split; [done|].
  split; [apply lookup_insert_eq|]. split; [cbn; lia|]. split; [done|]. split; [done|]. intros s2 Hok2 Hn2 Hh2.
  eexists. split; [unfold lift; cbn [run_bind]; rewrite yield_in_runs by done; reflexivity|]. split; [done|]. split; [apply lookup_insert_eq|]. done.
Qed.

(** C38: A vector that [trap] does not know, such as those of the lines 9, 10, 11,
    13 and 15 that [pic_init] leaves on, stops the kernel when it arrives
    there; in user mode it kills the process: when [exit] has given up the
    CPU, the process never runs again. *)
Theorem stray_interrupt s (p : nat) x tf n cs : trap_frame (ram (pm s)) tf n cs → n ∉ known_traps → running s p x →
  (Z.land cs 3 = 0 → trap tf s = Done (Panic "trap")) ∧
  (from_user cs = true → ∀ on s2, exit_out (put_ptab (<[p := set_killed true x]> (ptab s)) s) = Ok on s2 →
     ∃ k, trap tf s = Switch s2 k ∧ ∀ s3, k s3 = Done (Panic "zombie exit")).
Proof.
  intros Hf Hn Hr. pose proof Hf as [_ [Hcs Hc]].
  assert (∀ Q, (if Z.land cs 3 =? DPL_K then False else Q tt (put_ptab (<[p := set_killed true x]> (ptab s)) s)) → wp (unknown_trap tf) s Q) as Hu.
  { intros Q HQ. unfold unknown_trap. rewrite wp_bind. eapply wp_this_proc; [exact Hr|]. rewrite wp_bind.
    eapply wp_ram_ok; [by apply load16_ok|]. rewrite put_ram_id, (proj2 (Z.eqb_neq (Z.of_nat p) NULL)) by (unfold NULL; lia). cbn [orb].
    destruct (Z.land cs 3 =? DPL_K); [done|]. rewrite wp_bind. eapply wp_this_proc; [exact Hr|]. eapply wp_update_proc; [apply Hr|done]. }
  split.
  - intros Hk. rewrite (trap_enter _ _ _ _ Hf). unfold bbind. rewrite (dispatch_unknown _ _ _ Hn). unfold lift.
    assert (unknown_trap tf s = Panic "trap") as ->; [|done].
    pose proof (wp_this_proc s p x (λ q s', q = Z.of_nat p ∧ s' = s) Hr (conj eq_refl eq_refl)) as Hp. apply wp_eq in Hp.
    unfold unknown_trap. rewrite (bind_ok _ _ _ _ _ Hp).
    assert (wp (with_pm (with_ram (load16 (tf + tf_cs)))) s (λ v s', v = cs ∧ s' = s)) as Hl.
    { eapply wp_ram_ok; [by apply load16_ok|]. by rewrite put_ram_id. }
    apply wp_eq in Hl. rewrite (bind_ok _ _ _ _ _ Hl), Hk. by rewrite orb_true_r.
  - intros Hus on s2 Hex. set (s1 := put_ptab _ s) in Hex. unfold from_user in Hus. apply Z.eqb_eq in Hus.
    assert (dispatch tf n s = Done (Ok tt s1)) as Hd.
    { rewrite (dispatch_unknown _ _ _ Hn). unfold lift. f_equal. apply wp_eq, Hu. rewrite Hus. done. }
    assert (running s1 p (set_killed true x)) as Hr1.
    { destruct Hr as [R1 R2 R3]. split; [done|done|]. apply list_lookup_insert_eq. by eapply lookup_lt_Some. }
    rewrite (trap_done s s1 p (set_killed true x) tf n cs Hf Hd Hf Hr1). unfold from_user. rewrite Hus. cbn [killed set_killed andb Z.eqb Pos.eqb DPL_U].
    unfold bbind, exit, bbind, lift. rewrite Hex. by eexists.
Qed.
End lemmas.

(** ** Witnesses *)

#[local] Existing Instance demo_layout.
#[local] Existing Instance demo_text.
#[local] Existing Instance demo_console.
#[local] Existing Instance demo_ports.
#[local] Existing Instance chip_ports.
#[local] Existing Instance chip_pics.

(** Two interrupts are in service at the master, one at the slave. *)
Definition trap_world : World SimDrive (list Z) (list Z) (Chip * Chip) :=
  mkWorld demo_fs ∅ (demo_con []) (mkKbd 0 (replicate 256 0) 0 0 [])
    (mkChip 0 32 4 3 Operating, mkChip 0 40 2 4 Operating) 41.

(** A trap frame at 0 *)
Definition trap_mem (n cs : Z) : mem := write 48 (le_bytes 4 n) (write 60 (le_bytes 2 cs) (write 0 (replicate 76 0) ∅)).

(** Process 1, a child of init, runs. *)
Definition trap_proc : Process := mkProcess 4096 0x80300000 0x80301000 2 0 PROC_RUNNING 0 0 NULL false (replicate 32 NULL) [].

Definition trap_table : list Process :=
  [mkProcess 4096 0x80300000 0x80301000 1 NULL PROC_SLEEPING 0 0 0 false [] []; trap_proc] ++
  replicate 62 (mkProcess 0 0 0 0 NULL PROC_UNUSED 0 0 NULL false [] []).

Definition trap_kernel (n cs : Z) : KState (World SimDrive (list Z) (list Z) (Chip * Chip)) :=
  mkKState (mkLState false 0 false {[ 100 := new_lock ]}) (mkCpu [] 0 0 0 0) 1 trap_table 3 0 0x80200000
    (mkPmem (trap_mem n cs) 0) [] trap_world.

Lemma trap_kernel_frame n cs : 0 ≤ n < 4294967296 → 0 ≤ cs < 65536 → trap_frame (ram (pm (trap_kernel n cs))) 0 n cs.
Proof.
  intros Hn Hc. split; (split; [|done]); unfold trap_kernel, trap_mem; cbn [pm ram].
  - apply (array_write 48).
  - apply array_write_disjoint; [|apply (array_write 60)]. right. unfold zlen. rewrite length_le_bytes. unfold tf_cs; lia.
Qed.

Lemma trap_kernel_running n cs : running (trap_kernel n cs) 1 trap_proc.
Proof. split; [split; [split; [done|done]|done|done]|done|done]. Qed.

(** The clock interrupts the kernel. *)
Lemma trap_in_kernel_witness :
  bwp (trap (patience := 3) 10 [] 8 0) (trap_kernel 32 8) (λ _ s', ticks (rest s') = 42 ∧ isr (pic (rest s')).1 = 2 ∧ isr (pic (rest s')).2 = 0).
Proof.
  eapply bwp_mono; [apply (trap_in_kernel (patience := 3) 10 [] 8 (trap_kernel 32 8) 1 trap_proc 0 32 8);
    [apply trap_kernel_frame; lia|by left|reflexivity|apply trap_kernel_running]|].
  intros _ s' (d & -> & Hd). change (chips d) with d in Hd. split; [reflexivity|]. cbn [put_rest rest clocked pic]. rewrite Hd. split; reflexivity.
Defined.

(** ... and a process *)
Lemma timer_preempts_witness : ∃ s1 k, trap (patience := 3) 10 [] 8 0 (trap_kernel 32 0x1b) = Switch s1 k ∧ ticks (rest s1) = 42 ∧
  pstate <$> ptab s1 !! 1%nat = Some PROC_READY.
Proof.
  destruct (timer_preempts (patience := 3) 10 [] 8 (trap_kernel 32 0x1b) 1 trap_proc 0 0x1b) as (s1 & k & d & E1 & E2 & _ & _ & E3 & _);
    [apply (trap_kernel_frame 32 0x1b); lia|reflexivity|apply trap_kernel_running|reflexivity|reflexivity|reflexivity|reflexivity|].
  exists s1, k. split; [exact E1|]. rewrite E3, E2. split; reflexivity.
Defined.

(** The line 15, in the kernel and in user mode *)
Lemma stray_interrupt_witness : trap (patience := 3) 10 [] 8 0 (trap_kernel 47 8) = Done (Panic "trap") ∧
  ∃ s2 k, trap (patience := 3) 10 [] 8 0 (trap_kernel 47 0x1b) = Switch s2 k ∧ pstate <$> ptab s2 !! 1%nat = Some PROC_ZOMBIE ∧
    k s2 = Done (Panic "zombie exit").
Proof.
  assert (∀ n, n = 47 → n ∉ known_traps) as Hn by (intros n ->; apply (bool_decide_unpack _); vm_compute; exact I).
  split.
  - apply (stray_interrupt (patience := 3) 10 [] 8 (trap_kernel 47 8) 1 trap_proc 0 47 8);
      [apply trap_kernel_frame; lia|by apply Hn|apply trap_kernel_running|reflexivity].
  - destruct (exit_out (put_ptab (<[1%nat := set_killed true trap_proc]> trap_table) (trap_kernel 47 0x1b))) as [on s2| | |] eqn:E;
      [|vm_compute in E; discriminate E..].
    destruct (stray_interrupt (patience := 3) 10 [] 8 (trap_kernel 47 0x1b) 1 trap_proc 0 47 0x1b) as [_ Hu];
      [apply trap_kernel_frame; lia|by apply Hn|apply trap_kernel_running|].
    destruct (Hu eq_refl on s2 E) as (k & Hk & Hz). exists s2, k. split; [exact Hk|]. split; [|apply Hz].
    vm_compute in E. injection E as _ <-. reflexivity.
Defined.
