(* ===== verification/Boot.v ===== *)
(** * The start of the file system: [fs_init] of kernel/fs.c

    From static storage and a disk that mkfs made to the state in which paths
    are resolved. *)
From S2P Require Import Prelude Machine CMem CString Mkfs Ide Pic Disk BCache Block Inode Dir.
From S2P Require Import Palloc PgTbl VMem Locks Segments Process ProcSpec Switch Pipe Files Exec Syscall OpenFiles.

(** The addresses of [ftable.lk], [disk_queue.lk] and [icache.lk], which nothing takes *)
Class FsLocks := {
  ftable_lk : Z;
  disk_lk : Z;
  icache_lk : Z;
}.

(** Where the interrupt controllers are in the rest of the kernel state, apart
    from the file system *)
Class HasPic (T U P : Type) `{HasFs T U} := {
  pic_of : T → P;
  put_pic : P → T → T;
  pic_put : ∀ p t, pic_of (put_pic p t) = p;
  pic_put_fs : ∀ w t, pic_of (put_fs w t) = pic_of t;
  fs_put_pic : ∀ p t, fs_of (put_pic p t) = fs_of t;
  put_pic_fs : ∀ p w t, put_pic p (put_fs w t) = put_fs w (put_pic p t);
}.

Section boot.
Context {D : Type} {P : Ports D} {patience : nat} {A : AtaDrive D patience}.
Context `{KernelLayout, KernelText, !FsLocks} {T DP : Type} `{HasFs T (BState D), !PipeMem T, !Ports DP, !HasPic T (BState D) DP}.
Notation St := (KState T).

Definition with_irqs {A} (m : M DP A) : M St A := with_rest (zoom pic_of put_pic m).

Definition ftable_init : M St unit := with_lk (set_lock ftable_lk new_lock).

(** fs/disk.c *)
Definition disk_init : M St unit :=
  do! with_lk (set_lock disk_lk new_lock) in
  let! ok := with_fs (with_ino (with_cache (with_hw (ide_has_secondary ATA_PRIMARY)))) in
  if negb ok then panic "Secondary disk doesn't exist" else
  with_irqs (pic_irq_unmask I_IRQ_IDE).

Definition inode_init : M St unit := with_lk (set_lock icache_lk new_lock).

(** The superblock is read with the device number 0. *)
Definition fs_init : M St unit :=
  do! ftable_init in
  do! with_fs (with_ino (with_cache bcache_init)) in
  do! disk_init in
  let! _ := with_fs (with_ino (with_blk (block_super 0 true))) in
  do! inode_init in
  with_fs dir_init.

(** ** Specifications *)

(** An entry of the inode cache in static storage *)
Definition zero_inode : Inode := mkInode 0 0 0 (mkMutex false 0) false (mkDInode 0 0 0 0 0 (replicate 12 0)).

(** The file system before [fs_init], on a disk with the image [im] *)
Record unbooted (im : Mk) (w : DState (BState D)) : Prop := mk_unbooted {
  ub_nodes : nodes (store (blk (ino w))) = zero_nodes;
  ub_queue : dq_head (store (blk (ino w))) = NULL;
  ub_phase : av_phase (view (hw (store (blk (ino w))))) = Idle;
  ub_ready : busy (hw (store (blk (ino w)))) = 0%nat ∧ av_irq (view (hw (store (blk (ino w))))) = false;
  ub_polls : (0 < patience)%nat;
  ub_disk : ∀ b, 0 ≤ b ≤ 1000 → disk_block (store (blk (ino w))) b = block im b;
  ub_inodes : ∀ i, 0 ≤ i ≤ 128 → ∃ x, icache (ino w) !! i = Some x ∧ inref x = 0 ∧ inum x = 0;
}.

(** ** Lemmas *)

Lemma wp_fs_cache {C} (m : M (BState D) C) (s : St) (Q : C → St → Prop) :
  wp m (store (blk (ino (fsw s)))) (λ c t, let j := ino (fsw s) in
    Q c (put_w (mkDState (mkIState (mkBlkState t (super_block (blk j))) (icache j) (cur_pid j)) (txt (fsw s))) s)) →
  wp (with_fs (with_ino (with_cache m))) s Q.
Proof.
  intros Hm. apply wp_with_fs, wp_with_ino. unfold with_cache. apply wp_with_blk, wp_with_store. exact Hm.
Qed.

(** The superblock, read before the cache was used *)
Lemma first_super (k : BlkState (BState D)) poll (Q : SuperBlock → BlkState (BState D) → Prop) :
  linked_upto (NBUF - 1) (store k) → disk_idle (patience := patience) (store k) →
  (∀ t, cache_idle (patience := patience) t → (∀ b, disk_block t b = disk_block (store k) b) →
     let sb := sb_decode (disk_block (store k) 0) in Q sb (mkBlkState t sb)) →
  poll = true → wp (block_super 0 poll) k Q.
Proof.
  intros Hl Hid HQ ->. unfold block_super. rewrite wp_bind. apply wp_with_store.
  eapply wp_mono; [apply (bcache_first (store k) 0 true (λ l t, l = disk_block (store k) 0 ∧ cache_idle (patience := patience) t ∧
    ∀ b, disk_block t b = disk_block (store k) b)); try done|]. cbn beta.
  intros b t1 Hw. rewrite wp_bind. apply wp_with_store. cbn [store super_block]. eapply wp_mono; [exact Hw|]. cbn beta. intros l t2 Hw'.
  rewrite wp_bind, wp_modify, wp_bind. apply wp_with_store. cbn [store super_block]. eapply wp_mono; [exact Hw'|]. cbn beta.
  intros _ t3 (-> & Hi & Hk). rewrite wp_ret. by apply HQ.
Qed.

(** The locks after [fs_init] *)
Definition fs_locks (L : LState) : LState :=
  mkLState (iflag L) (ncli L) (int_on L) (<[icache_lk := new_lock]> (<[disk_lk := new_lock]> (<[ftable_lk := new_lock]> (locks L)))).

(** The state after [fs_init], which leaves the rest of the kernel alone *)
Definition fs_started (w : DState (BState D)) (p : DP) (s : St) : St :=
  mkKState (fs_locks (lk s)) (cpu s) (cur s) (ptab s) (nextpid s) (proc_init1 s) (kernel_pgdir s) (pm s) (ftab s) (put_fs w (put_pic p (rest s))).

Lemma put_w_started w v p (s : St) : put_w w (fs_started v p s) = fs_started w p s.
Proof. unfold put_w, put_rest, fs_started. cbn. by rewrite put_fs_put. Qed.

Lemma wp_with_irqs {C} (m : M DP C) (s : St) (Q : C → St → Prop) :
  wp m (pic_of (rest s)) (λ c p, Q c (put_rest (put_pic p (rest s)) s)) → wp (with_irqs m) s Q.
Proof. intros Hm. unfold with_irqs, with_rest. rewrite !wp_zoom. exact Hm. Qed.

Context `{!Pics DP}.

(** The drive is there, and its interrupt line is switched on. *)
Lemma disk_init_ok (s : St) (Q : unit → St → Prop) : let t := store (blk (ino (fsw s))) in
  av_phase (view (hw t)) = Idle → busy (hw t) = 0%nat ∧ av_irq (view (hw t)) = false → (0 < patience)%nat → dq_head t = NULL →
  operating (chips (pic_of (rest s))) →
  (∀ d p, disk_idle (patience := patience) (mkBState (nodes t) (bc_head t) NULL d) → (∀ ns h q b, disk_block (mkBState ns h q d) b = disk_block t b) →
     chips p = on_line Z.clearbit I_IRQ_IDE (chips (pic_of (rest s))) → operating (chips p) →
     Q tt (let j := ino (fsw s) in
       mkKState (mkLState (iflag (lk s)) (ncli (lk s)) (int_on (lk s)) (<[disk_lk := new_lock]> (locks (lk s)))) (cpu s) (cur s) (ptab s)
         (nextpid s) (proc_init1 s) (kernel_pgdir s) (pm s) (ftab s)
         (put_fs (mkDState (mkIState (mkBlkState (mkBState (nodes t) (bc_head t) NULL d) (super_block (blk j))) (icache j) (cur_pid j)) (txt (fsw s)))
            (put_pic p (rest s))))) →
  wp disk_init s Q.
Proof.
  intros t Hph [Hb Hi] Hpt Hq Hop HQ. unfold disk_init. rewrite wp_bind. apply wp_lk. unfold set_lock. rewrite wp_modify, wp_bind.
  apply wp_fs_cache. unfold with_hw. rewrite wp_zoom. apply ide_has_secondary_ok; [done|done|]. intros d Hbd Hid Hpd Hmd. cbn [negb].
  apply wp_with_irqs. cbn [rest put_w put_rest]. rewrite pic_put_fs. apply unmask_ok; [done|by unfold I_IRQ_IDE; lia|]. intros p Hp Hop'.
  rewrite put_pic_fs. change (fsw _) with (fsw s). fold t. rewrite Hq. apply HQ; [|by intros ????; unfold disk_block; cbn; rewrite Hmd|done|done].
  split; cbn [hw dq_head]; [by rewrite Hpd|lia|done|done].
Qed.

(** [fs_init] *)
Lemma fs_init_ok im l (s : St) : mkfs_ok l im → unbooted im (fsw s) → operating (chips (pic_of (rest s))) →
  wp fs_init s (λ _ s', ∃ p, s' = fs_started (fsw s') p s ∧ chips p = on_line Z.clearbit I_IRQ_IDE (chips (pic_of (rest s))) ∧ operating (chips p) ∧
    on_disk (BS := bcache_store (patience := patience)) im (blk (ino (fsw s'))) ∧ txt (fsw s') = txt (fsw s) ∧
    ∃ x, icache (ino (fsw s)) !! 0 = Some x ∧
      icache (ino (fsw s')) = <[0 := mkInode ROOTDEV ROOTINO 1 (Inode.lk x) false (din x)]> (icache (ino (fsw s)))).
Proof.
  intros Hmk [Hn Hq Hph Hbi Hpt Hdk Hin] Hop. pose proof (mo_super _ _ Hmk) as Hsb. unfold fs_init. rewrite wp_bind. unfold ftable_init. apply wp_lk.
  unfold set_lock. rewrite wp_modify. set (s1 := mkKState _ _ _ _ _ _ _ _ _ _). assert (fsw s1 = fsw s) as Hs1 by done.
  rewrite wp_bind. apply wp_fs_cache. rewrite Hs1. wp_apply (bcache_init_ok (D := D)); [exact Hn|]. intros _ t1 (Hl1 & Hq1 & Hhw1). cbn zeta.
  rewrite wp_bind. apply disk_init_ok; rewrite ?fsw_put; cbn [ino blk store put_w put_rest rest]; rewrite ?pic_put_fs, ?Hhw1, ?Hq1; [done|done|done|done|done|].
  intros d p Hidle Hd2 Hp Hop'. cbn [ino blk store super_block icache cur_pid txt put_w put_rest lk cpu cur ptab nextpid proc_init1 kernel_pgdir pm ftab rest s1].
  rewrite put_pic_fs, put_fs_put. cbn [iflag ncli int_on locks].
  set (t2 := mkBState (nodes t1) (bc_head t1) NULL d) in *.
  assert (∀ b, disk_block t2 b = disk_block (store (blk (ino (fsw s)))) b) as Hd2' by (intros b; unfold t2; rewrite Hd2; unfold disk_block; by rewrite Hhw1).
  match goal with |- wp _ ?s2 _ => set (s2' := s2) end.
  assert (fsw s2' = mkDState (mkIState (mkBlkState t2 (super_block (blk (ino (fsw s))))) (icache (ino (fsw s))) (cur_pid (ino (fsw s)))) (txt (fsw s))) as Hf2 by apply fs_put.
  rewrite wp_bind. apply wp_with_fs, wp_with_ino, wp_with_blk. rewrite Hf2. cbn [ino blk store super_block icache cur_pid txt].
  apply first_super; [exact Hl1|exact Hidle| |done]. intros t3 Ht3 Hk3. cbn [store] in *. rewrite Hd2', (Hdk 0), Hsb in * by lia.
  rewrite wp_bind. unfold inode_init. apply wp_lk. unfold set_lock. rewrite wp_modify.
  match goal with |- wp (with_fs dir_init) ?s3 _ => set (s3' := s3) end.
  assert (fsw s3' = mkDState (mkIState (mkBlkState t3 mkfs_super) (icache (ino (fsw s))) (cur_pid (ino (fsw s)))) (txt (fsw s))) as Hs3 by apply fs_put.
  apply wp_with_fs. rewrite Hs3. unfold dir_init. rewrite wp_bind. apply wp_with_ino. destruct (Hin 0 ltac:(lia)) as (x & Hx & Hx0 & Hxn).
  eapply wp_ok; [apply (inode_getc_ok _ _ _ 0 x)|].
  { split; [unfold NINODES; lia|exact Hx|by left|intros i Hi0; lia]. }
  rewrite wp_ret, fsw_put. cbn [ino blk icache cur_pid txt]. exists p.
  split; [unfold fs_started, s3', s2', put_w, put_rest, fs_locks; cbn; by rewrite !put_fs_put|]. split; [done|]. split; [done|]. split; [|split; [done|]].
  - split; [|split; [done|]].
    + split; [exact Ht3|]. split; cbn; unfold BITS_PER_BLK, BSIZE, SECSZ; lia.
    + intros b Hb'. cbn [store]. change (disk_block t3 b = block im b). by rewrite Hk3, Hd2', Hdk.
  - exists x. split; [done|]. unfold got. rewrite decide_False; [done|]. intros (_ & _ & E). rewrite Hxn in E. discriminate E.
Qed.

(** ** Properties *)

(** C14: The file system starts: from static storage, working interrupt controllers
    and a drive with an image of mkfs, [fs_init] returns, and after the load of
    the root directory, with which [dir_abspath] begins, the image is mounted:
    the superblock is that of mkfs (though it was read with another device
    number), all blocks are as they were, and the root directory is in the first
    slot, with a free one behind it. The three locks are free and the interrupt
    line of the disk is switched on; the other lines and all other parts of
    the kernel are as before. *)
Theorem fs_init_mounts im l (s : St) : mkfs_ok l im → zlen l ≤ 126 → Forall (λ p, name_ok p.1) l → unbooted im (fsw s) →
  operating (chips (pic_of (rest s))) →
  wp (do! fs_init in with_fs (with_ino (inode_load 0))) s (λ ok s', ok = true ∧ txt (fsw s') = txt (fsw s) ∧
    (∃ p, s' = fs_started (fsw s') p s ∧ chips p = on_line Z.clearbit I_IRQ_IDE (chips (pic_of (rest s)))) ∧
    ∃ rx y, mounted (BS := bcache_store (patience := patience)) im (fsw s') 0 rx 1 y ∧ inref rx = 1 ∧ inum y = 0).
Proof.
  intros Hmk Hlen Hnames Hub Hop. rewrite wp_bind. eapply wp_mono; [by apply (fs_init_ok im l)|]. cbn beta.
  intros _ s1 (p & Hs1 & Hp & _ & Hdisk & Ht & x & Hx & Hic). set (rx := mkInode ROOTDEV ROOTINO 1 (Inode.lk x) false (din x)) in *.
  pose proof (mo_files _ _ Hmk) as Hrep. assert (0 ≤ zlen l) by (unfold zlen; lia).
  assert (programs 2 root_dir l ∅ !! 1 = Some (F_DIR, dir_content 2 root_dir l)) as HFd by (apply programs_dir; lia).
  assert (zlen (dir_content 2 root_dir l) = 56 + 28 * zlen l) as Hdl by (rewrite dir_content_length by done; done).
  destruct (image_file_ok (BS := bcache_store (patience := patience)) im _ (ino (fsw s1)) 1 F_DIR _ Hrep HFd ltac:(by right) ltac:(lia) Hdisk) as (Hdd & _).
  destruct (rp_file _ _ Hrep _ _ _ HFd) as (_ & _ & Hty). apply wp_with_fs, wp_with_ino. eapply wp_mono.
  { apply (inode_load_ok (BS := bcache_store (patience := patience)) 0 rx).
    - by rewrite Hic, lookup_insert_eq.
    - discriminate.
    - done.
    - done.
    - apply Hdisk.
    - destruct Hdisk as (_ & Hsb & _). unfold sblock. rewrite Hsb. split; [done|]. by split.
    - change (inum rx) with 1. rewrite Hdd, Hty. done. }
  cbn beta. intros ok j (-> & Hid' & Hsb' & Hic' & Hbl'). change (inum rx) with 1 in Hic'. rewrite Hdd in Hic'. split; [done|]. rewrite fsw_put. cbn [txt].
  split; [done|]. split.
  { exists p. split; [|done]. match goal with |- put_w ?w _ = _ => generalize w end. intros w. rewrite Hs1. by apply put_w_started. }
  destruct (ub_inodes _ _ Hub 1 ltac:(lia)) as (y & Hy & Hy0 & Hyn).
  assert (icache j !! 0 = Some (set_read true (set_d (Mkfs.inode im 1) rx))) as Hr by (by rewrite Hic', lookup_insert_eq).
  exists (set_read true (set_d (Mkfs.inode im 1) rx)), y. split; [|split; [done|done]]. split; cbn [ino].
  - destruct Hdisk as (D1 & D2 & D3). unfold sblock in Hsb'. split; [exact Hid'|]. split; [congruence|]. intros b Hb. etrans; [apply (Hbl' b)|]. by apply D3.
  - split; [|done|done|done]. split; [unfold NINODES; lia|exact Hr|right; split; [done|done]|intros i Hi; lia].
  - by rewrite Hic', lookup_insert_ne, Hic, lookup_insert_ne.
  - unfold NINODES. lia.
  - done.
  - intros i Hi. assert (i = 0) as -> by lia. eexists. split; [exact Hr|]. done.
Qed.
End boot.

(** ** Witness *)

#[local] Existing Instance demo_layout.
#[local] Existing Instance demo_text.
#[local] Existing Instance chip_ports.
#[local] Existing Instance chip_pics.
#[local] Instance demo_fs_locks : FsLocks := {| ftable_lk := 200; disk_lk := 250; icache_lk := 300 |}.

(** The file system and the pipes, and the interrupt controllers *)
Definition Parts : Type := DState (BState SimDrive) * gmap Z Pipe * (Chip * Chip).

#[local] Instance parts_fs : HasFs Parts (BState SimDrive).
Proof. by refine {| fs_of := λ t, t.1.1; put_fs := λ w t, (w, t.1.2, t.2) |}; repeat intros [[] ?] || intros ?. Defined.

#[local] Instance parts_pic : HasPic Parts (BState SimDrive) (Chip * Chip).
Proof. by refine {| pic_of := snd; put_pic := λ p t, (t.1, p) |}; intros. Defined.

#[local] Instance parts_pipes : PipeMem Parts.
Proof.
  refine {| pipe_at := λ p t, pipe_at p t.1.2; pipe_set := λ p x t, (t.1.1, pipe_set p x t.1.2, t.2) |}.
  - intros p x t. apply pipe_at_set.
  - intros p q x t Hne. by apply pipe_at_set_ne.
Defined.

(** The kernel with the image of Mkfs.v on its drive, and all lines masked *)
Definition boot_kernel : KState Parts :=
  mkKState (mkLState false 0 true ∅) (mkCpu [] 0 0 0 0) NULL [] 1 NULL 0 (mkPmem ∅ 0) []
    (mkDState (mkIState (mkBlkState (mkBState zero_nodes 0 NULL demo_drive) (mkSuperBlock 0 0 0 0 0 0))
       (gset_to_gmap zero_inode (list_to_set (seqZ 0 129))) 0) ∅, ∅, (mkChip 0xfb 32 4 0 Operating, mkChip 0xff 40 2 0 Operating)).

Lemma same_drive (d : SimDrive) ns h q b :
  disk_block (patience := 3) (mkBState ns h q d) b =
  bs_blocks (BlockStore := bcache_store (patience := 3)) (mkBState (nodes idle_state) 5 NULL d) b.
Proof. reflexivity. Qed.

Lemma boot_kernel_unbooted : unbooted (patience := 3) demo_image (fsw boot_kernel).
Proof.
  split; [reflexivity|reflexivity|reflexivity|split; reflexivity|lia| |].
  - intros b Hb. exact (eq_trans (same_drive demo_drive _ 0 NULL b) (same_blocks_ok demo_image (store demo_kernel) b demo_same_blocks Hb)).
  - intros i Hi. exists zero_inode. split; [|done]. apply lookup_gset_to_gmap_Some. split; [|done].
    apply elem_of_list_to_set, elem_of_seqZ. lia.
Qed.

Lemma fs_init_mounts_witness :
  wp (do! fs_init (patience := 3) in with_fs (with_ino (inode_load (BS := bcache_store (patience := 3)) 0))) boot_kernel
    (λ ok s', ok = true ∧ irq_vector (pic_of (rest s')) I_IRQ_IDE = Some 46 ∧ irq_vector (pic_of (rest s')) I_IRQ_MOUSE = None ∧
      ∃ rx, icache (ino (fsw s')) !! 0 = Some rx ∧ inref rx = 1 ∧ inum rx = ROOTINO).
Proof.
  eapply wp_mono; [apply (fs_init_mounts (patience := 3) demo_image demo_programs boot_kernel);
    [exact demo_image_ok|discriminate|exact demo_names|exact boot_kernel_unbooted|by split]|].
  intros ok s' (-> & _ & (p & Hs & Hp) & rx & y & Hm & Hr & _). split; [reflexivity|].
  assert (pic_of (rest s') = on_line Z.clearbit I_IRQ_IDE (mkChip 0xfb 32 4 0 Operating, mkChip 0xff 40 2 0 Operating)) as Hpic by (rewrite Hs; exact Hp).
  split; [rewrite Hpic; reflexivity|]. split; [rewrite Hpic; reflexivity|]. exists rx. destruct Hm as [_ [[_ Hs' Ht _] _ _ _] _ _ _ _].
  split; [exact Hs'|]. split; [exact Hr|]. destruct Ht as [E|(_ & _ & E)]; [rewrite Hr in E; discriminate E|exact E].
Defined.
