(* ===== verification/Kmain.v ===== *)
(** * kernel/kmain.c: from the jump to the kernel to the scheduler

    All parts of the kernel together: [kmain] up to its call of [scheduler],
    on a machine whose devices are those of the interfaces of their files. *)
From S2P Require Import Sched Prelude Machine CMem CString Fmt Mkfs Ide Disk BCache Block Inode Dir.
From S2P Require Import Palloc PgTbl VMem Uvm Locks Segments Process ProcSpec Switch Pipe Files Fork Exec Syscall OpenFiles.
From S2P Require Import Ps2 Pic Uart Vga Console Trap Boot.

(** The kernel and the table of interrupts, which nothing else uses *)
Record Machine (T : Type) := mkMachine {
  kernel : KState T;
  idt : list IDTEntry;
}.
Arguments mkMachine {T} kernel idt.
Arguments kernel {T}.
Arguments idt {T}.

(** [PTESZ], and the ends of the two ranges that the page allocator gets *)
Definition PTESZ : Z := 4.
Definition ptend : Z := P2KA (PTESZ * NPDES * NPTES).
Definition phystop : Z := P2KA PHYSTOP.

#[export] Instance world_pic DD DS DK DP : HasPic (World DD DS DK DP) (BState DD) DP.
Proof. by refine {| pic_of := pic; put_pic := λ p t, mkWorld (files t) (pipes t) (con t) (kbd t) p (ticks t) |}; intros. Defined.

Section kmain.
Context {DD DS DK DP : Type} `{Ports DD, !Ports DS, !Ports DK, !Ports DP} {patience : nat} `{!AtaDrive DD patience}.
Context `{KernelLayout, KernelText, !ConsoleText, !FsLocks}.
Notation T := (World DD DS DK DP).
Notation St := (KState T).
(** vectors.s, and the address of the string that [vga_init] prints *)
Context (vectors : nat → Z) (banner_at : Z).

Definition with_kernel {A} (m : M St A) : M (Machine T) A := zoom kernel (λ k s, mkMachine k (idt s)) m.

(** The screen and the memory that it prints from *)
Definition with_screen {A} (m : M (FState Screen) A) : M St A :=
  with_rest (zoom (λ t, mkFState (txt (files t)) (screen (con t)))
    (λ f t, let c := con t in mkWorld (mkDState (ino (files t)) (fmem f)) (pipes t)
       (mkCon (console_mode c) (line c) (raw c) (cuart c) (fout f)) (kbd t) (pic t) (ticks t)) m).

Definition with_serial {A} (m : M DS A) : M St A := with_con (with_rest (with_uart (with_port m))).

Definition with_ps2 {A} (m : M DK A) : M St A :=
  with_kbd (zoom kport (λ d s, mkKbd (modifier s) (sc_data s) (sc_head s) (sc_tail s) d) m).

Definition set_kernel_pgdir (d : Z) : M St unit := modify (λ s,
  mkKState (lk s) (cpu s) (cur s) (ptab s) (nextpid s) (proc_init1 s) d (pm s) (ftab s) (rest s)).

Definition kvm_init : M St unit :=
  let! d := with_pm kvm_create in
  do! set_kernel_pgdir d in
  kvm_switch.

Definition cpu_gdt_init : M St unit :=
  let! c := gets cpu in
  set_cpu (mkCpu (Segments.gdt_init (gdt c)) (ts_ss0 c) (ts_esp0 c) (tr c) (cr3 c)).

(** trap.c *)
Definition trap_init : M (Machine T) unit :=
  do! modify (λ s, mkMachine (kernel s) (trap_gates vectors (idt s))) in
  with_kernel (with_pic pic_init).

(** dev.c *)
Definition dev_init : M St unit :=
  do! with_ps2 ps2_init in
  with_con console_init.

(** process.c *)
Definition ptable_init : M St unit := with_lk (set_lock ptable_lk new_lock).

(** Up to the call of [scheduler] *)
Definition kmain : M (Machine T) unit :=
  do! with_kernel (with_screen (vga_init banner_at)) in
  do! with_kernel (with_serial (uart_init COM1)) in
  do! with_kernel (with_serial (uart_init COM2)) in
  do! with_kernel (with_pm (palloc_init kend ptend)) in
  do! with_kernel kvm_init in
  do! with_kernel cpu_gdt_init in
  do! with_kernel (with_pm (palloc_init ptend phystop)) in
  do! trap_init in
  do! with_kernel dev_init in
  do! with_kernel fs_init in
  do! with_kernel ptable_init in
  with_kernel init_pid1.
End kmain.

(** ** Lemmas *)

(** *** The memory *)

Section memory.
Context `{KernelLayout}.

Lemma length_pages_from p n : length (pages_from p n) = n.
Proof. unfold pages_from. by rewrite length_fmap, length_seq. Qed.

(** The 4 MB that the boot loader mapped are enough for the kernel's tables. *)
Lemma first_pages m : freelist m = 0 → (∀ a, kend ≤ a < KERN_BASE + PHYSTOP → is_Some (ram m !! a)) → kend ≤ ptend - 138 * 4096 →
  ∃ m' l, palloc_init kend ptend m = Ok tt m' ∧ free_pages m' l ∧ (137 < length l)%nat ∧ (∀ q, q ∈ l → q < ptend) ∧
    (∀ a, a < kend ∨ ptend ≤ a → ram m' !! a = ram m !! a).
Proof.
  intros Hfl Hm Hk. pose proof kend_aligned as Hal. change ptend with 0x80400000 in *.
  destruct (palloc_init_ok m [] kend 0x80400000) as (m' & Hrun & Hf & Hs & _); [|exact Hal|lia|done| | |].
  - split; [by rewrite Hfl|apply NoDup_nil_2|constructor..].
  - intros a Ha. apply Hm. unfold KERN_BASE, PHYSTOP. lia.
  - by intros q Hq%not_elem_of_nil.
  - rewrite app_nil_r in Hf. eexists m', _. split; [exact Hrun|]. split; [exact Hf|]. split; [|split].
    + rewrite length_reverse, length_pages_from. unfold PAGE_SZ. clear - Hk. apply Nat2Z.inj_lt. rewrite Z2Nat.id by (apply Z.div_pos; lia).
      Z.div_mod_to_equations. lia.
    + intros q (i & Hi & ->)%elem_of_reverse%elem_of_pages_from. unfold PAGE_SZ in Hi. clear - Hi Hk.
      assert (Z.of_nat i < (0x80400000 - kend) / 0x1000) as Hi' by lia. Z.div_mod_to_equations. lia.
    + intros a Ha. apply Hs. lia.
Qed.

Lemma kvm_create_ok m l : free_pages m l → (137 < length l)%nat →
  wp kvm_create m (λ d m', ∃ pts l', new_space m l m' d pts l' [] ∧ kernel_maps (ram m') d).
Proof.
  intros Hf Hl. unfold kvm_create. rewrite wp_bind. eapply wp_mono; [by apply kvm_allocate_ok|].
  intros [ok d] m' (-> & pts & l' & Hns & Hk & _). cbn [negb]. rewrite wp_ret. by exists pts, l'.
Qed.

(** The rest of the memory *)
Lemma other_pages m d pts l : user_space m d pts l [] → kernel_maps (ram m) d → (∀ q, q ∈ l ∨ table_page d pts q → q < ptend) →
  (∀ a, ptend ≤ a < KERN_BASE + PHYSTOP → is_Some (ram m !! a)) → kend ≤ ptend →
  ∃ m' l', palloc_init ptend phystop m = Ok tt m' ∧ user_space m' d pts l' [] ∧ kernel_maps (ram m') d ∧ 130048 ≤ zlen l' ∧
    ∀ a, a < ptend → ram m' !! a = ram m !! a.
Proof.
  intros Hus Hkm Hlow Hm Hk. change ptend with 0x80400000 in *. change phystop with 0xA0000000.
  destruct (palloc_init_ok m l 0x80400000 0xA0000000) as (m' & Hrun & Hf & Hs & Hmp); [apply Hus|done|lia|done| | |].
  - intros a Ha. apply Hm. unfold KERN_BASE, PHYSTOP. lia.
  - intros q Hq. pose proof (Hlow q (or_introl Hq)). lia.
  - eexists m', _. split; [exact Hrun|].
    destruct (space_kept m d pts l [] m' _ Hus Hf) as (Hus' & Hkm' & _).
    { intros q [Hq|Hq%not_elem_of_nil]; [|done]. pose proof (Hlow q (or_intror Hq)) as Hqlt.
      destruct (table_page_ok _ _ _ _ (vi_dir _ _ _ _ (us_inv _ _ _ _ _ Hus)) Hq) as [(Hqa & _) _]. split.
      - rewrite elem_of_app, elem_of_reverse. intros [(i & _ & ->)%elem_of_pages_from|Hin]; [lia|].
        by apply (vi_sep _ _ _ _ (us_inv _ _ _ _ _ Hus) q).
      - intros a Ha. apply Hs. unfold page_aligned in Hqa. clear - Hqa Hqlt Ha. Z.div_mod_to_equations. lia. }
    split; [exact Hus'|]. split; [by apply Hkm'|]. split.
    + unfold zlen. rewrite length_app, length_reverse, length_pages_from. unfold PAGE_SZ. change ((0xA0000000 - 0x80400000) / 0x1000) with 130048.
      rewrite Nat2Z.inj_add, Z2Nat.id by lia. lia.
    + intros a Ha. apply Hs. lia.
Qed.
End memory.

(** *** The devices *)

Section devices.
Context {DD DS DK DP : Type} `{Ports DD, !Ports DS, !Ports DK, !Ports DP} {patience : nat} `{!AtaDrive DD patience}.
Context `{!Lines DS, !Controller DK, !Pics DP}.
Context `{KernelLayout, KernelText, !ConsoleText, !FsLocks}.
Notation T := (World DD DS DK DP).
Notation St := (KState T).
Implicit Types (s : St) (t : T).

(** The parts of the world that the devices do not share *)
Definition kept t t' : Prop := files t' = files t ∧ pic t' = pic t ∧ screen (con t') = screen (con t).

(** The serial lines *)
Definition serial t : DS := uport (cuart (con t)).

(** The line buffers of the console are empty and it gives whole lines. *)
Definition console_fresh (c : Con DS) : Prop := console_mode c = CONSOLE_COOKED_MODE ∧
  data (line c) = replicate 1024 0 ∧ raw_data (raw c) = replicate 32 0.

Lemma wp_with_kernel {A} (m : M St A) (s : Machine T) (Q : A → Machine T → Prop) :
  wp m (kernel s) (λ a k, Q a (mkMachine k (idt s))) → wp (with_kernel m) s Q.
Proof. intros Hm. unfold with_kernel. by rewrite wp_zoom. Qed.

Lemma screen_ok s p (Q : unit → St → Prop) : cstr (txt (files (rest s))) p banner → zlen (buffer (screen (con (rest s)))) = text_window →
  (∀ t, files t = files (rest s) → pic t = pic (rest s) → banner_shown (screen (con (rest s))) (screen (con t)) → Q tt (put_rest t s)) →
  wp (with_screen (vga_init p)) s Q.
Proof.
  intros Hs Hb HQ. unfold with_screen, with_rest. rewrite !wp_zoom. eapply wp_mono; [by apply vga_init_ok|].
  intros [] f (o & -> & Ho). apply HQ; [|done|done]. cbn. by destruct (files (rest s)).
Qed.

Lemma serial_ok s com (f : Z → Line) (Q : unit → St → Prop) : com ∈ [COM1; COM2] →
  (∀ c, c ∈ [COM1; COM2] → c ≠ com → line_of c (serial (rest s)) = f c) →
  (∀ t, kept (rest s) t → line_of com (serial t) = line_ready → (∀ c, c ∈ [COM1; COM2] → c ≠ com → line_of c (serial t) = f c) → Q tt (put_rest t s)) →
  wp (with_serial (uart_init com)) s Q.
Proof.
  intros Hc Hf HQ. unfold with_serial, with_con, with_part, with_rest, with_uart, with_port. rewrite !wp_zoom.
  eapply wp_mono; [by apply (uart_init_ok _ _ f)|]. intros [] d [Hd Ho]. by apply HQ.
Qed.

Lemma ps2_ok s (Q : unit → St → Prop) :
  (∀ t, kept (rest s) t → con t = con (rest s) → (let c := ctl (kport (kbd t)) in
     Z.testbit (ccb c) CCB_P1_INT = true ∧ Z.testbit (ccb c) CCB_P1_TRA = true ∧ awaits c = false) → Q tt (put_rest t s)) →
  wp (with_ps2 ps2_init) s Q.
Proof.
  intros HQ. unfold with_ps2, with_kbd, with_rest. rewrite !wp_zoom. eapply wp_mono; [apply ps2_init_ok|]. intros [] d Hd. by apply HQ.
Qed.

(** The locks of [L] with a free lock at [l] *)
Definition new_at (l : Z) (L : LState) : LState := mkLState (iflag L) (ncli L) (int_on L) (<[l := new_lock]> (locks L)).

Definition put_lk (L : LState) s : St :=
  mkKState L (cpu s) (cur s) (ptab s) (nextpid s) (proc_init1 s) (kernel_pgdir s) (pm s) (ftab s) (rest s).

Lemma console_ok s (Q : unit → St → Prop) :
  (∀ t, kept (rest s) t → serial t = serial (rest s) → kbd t = kbd (rest s) → console_fresh (con t) →
     Q tt (put_rest t (put_lk (new_at raw_lk (new_at line_lk (lk s))) s))) → wp (with_con console_init) s Q.
Proof. intros HQ. unfold with_con, with_part. rewrite wp_zoom. by apply HQ. Qed.

Lemma irqs_ok s (Q : unit → St → Prop) : operating (chips (pic (rest s))) →
  (∀ t, files t = files (rest s) → con t = con (rest s) → operating (chips (pic t)) →
     (∀ i, i ∈ [I_IRQ_TIMER; I_IRQ_KBD; I_IRQ_COM1; I_IRQ_IDE] → irq_vector (chips (pic t)) i = Some (MAP_IRQ i)) → Q tt (put_rest t s)) →
  wp (with_pic pic_init) s Q.
Proof.
  intros Hop HQ. unfold with_pic, with_rest. rewrite !wp_zoom. eapply wp_mono; [by apply (pic_init_lines _ _ eq_refl)|].
  intros [] d (Hd & Hi). apply HQ; [done|done|done|]. cbn [pic]. intros i Hin.
  apply elem_of_cons in Hin as [->|[->|[->|[->|[]%not_elem_of_nil]%elem_of_cons]%elem_of_cons]%elem_of_cons]; by rewrite Hi.
Qed.

Lemma new_at_free k l L : l = k ∨ locks L !! l = Some new_lock → locks (new_at k L) !! l = Some new_lock.
Proof. intros Hl. cbn. rewrite lookup_insert. case_decide as E; [done|]. by destruct Hl as [->|Hl]. Qed.

(** Locks that are all free *)
Lemma new_at_calm l L : calm L → calm (new_at l L).
Proof. by intros [[? ?] ? ?]. Qed.

Definition few (n : nat) (L : LState) : Prop := lock_inv L ∅ ∧ (size (locks L) ≤ n)%nat.

Lemma few_empty b o : few 0 (mkLState b 0 o ∅).
Proof. split; [split; cbn; [done|done|intros k x; by rewrite lookup_empty|done|done]|done]. Qed.

Lemma new_at_few n l L : (n < 100)%nat → few n L → few (S n) (new_at l L).
Proof.
  intros Hlt [[Hn Ho Hs Hd Hz] Hsz]. assert (size (locks (new_at l L)) ≤ S n)%nat as Hsz'.
  { cbn. rewrite map_size_insert. destruct (locks L !! l); unfold id; lia. }
  split; [|done]. split; [done|done| |done|lia]. cbn. intros k x. rewrite lookup_insert. case_decide; [intros [= <-]; done|apply Hs].
Qed.
End devices.

(** ** Specifications *)

Section boot.
Context {DD DS DK DP : Type} `{Ports DD, !Ports DS, !Ports DK, !Ports DP} {patience : nat} `{!AtaDrive DD patience}.
Context `{!Lines DS, !Controller DK, !Pics DP}.
Context `{KernelLayout, KernelText, !ConsoleText, !FsLocks}.
Notation T := (World DD DS DK DP).
Context (vectors : nat → Z) (banner_at : Z).

(** The machine when entry.s calls [kmain]: static storage is zero, interrupts
    are off, memory is there from the end of the kernel on, the kernel ends
    early enough for its tables to fit below 4 MB, its image holds the code of
    the process 1, and the disk has an image [im] of mkfs. *)
Record powered (s : Machine T) (code : list Z) (im : Mk) : Prop := mk_powered {
  pw_free : freelist (pm (kernel s)) = 0;
  pw_ram : ∀ a, kend ≤ a < KERN_BASE + PHYSTOP → is_Some (ram (pm (kernel s)) !! a);
  pw_image : kend ≤ ptend - 138 * 4096;
  pw_code : array (ram (pm (kernel s))) init1_begin code ∧ Forall is_byte code;
  pw_size : zlen code = init1_size ∧ init1_size ≤ 4096 ∧ init1_begin + init1_size ≤ kend;
  pw_lk : lk (kernel s) = mkLState false 0 false ∅;
  pw_table : length (ptab (kernel s)) = 64%nat ∧ Forall (λ p, pstate p = PROC_UNUSED ∧ parent p = NULL) (ptab (kernel s));
  pw_next : nextpid (kernel s) = 1;
  pw_screen : cstr (txt (files (rest (kernel s)))) banner_at banner ∧ zlen (buffer (screen (con (rest (kernel s))))) = text_window;
  pw_pics : operating (chips (pic (rest (kernel s))));
  pw_disk : unbooted (patience := patience) im (files (rest (kernel s)));
}.

(** The process 1 when the kernel is up *)
Record init_ready (s : Machine T) (code : list Z) (z : Process) : Prop := mk_init_ready {
  ir_entry : ptab (kernel s) !! 1%nat = Some z ∧ proc_init1 (kernel s) = 1;
  ir_process : pid z = 1 ∧ pstate z = PROC_READY ∧ psize z = PAGE_SZ ∧ name_str (pname z) = init_name;
  ir_memory : ∀ va, 0 ≤ va < KERN_BASE → vbyte (ram (pm (kernel s))) (pgdir z) va =
    if decide (va < zlen code) then code !! Z.to_nat va else if decide (va < 4096) then Some 0 else None;
  ir_kernel : kernel_maps (ram (pm (kernel s))) (pgdir z);
  ir_frame : array (ram (pm (kernel s))) (trapframe z) init_frame;
  ir_return : word (ram (pm (kernel s))) (context z + 16) = u32 forkret_addr ∧ word (ram (pm (kernel s))) (trapframe z - 4) = u32 trapret;
}.

(** The kernel before it schedules *)
Record booted (s s' : Machine T) (im : Mk) : Prop := mk_booted {
  bt_kernel : cr3 (cpu (kernel s')) = KA2P (kernel_pgdir (kernel s')) ∧ kernel_maps (ram (pm (kernel s'))) (kernel_pgdir (kernel s'));
  bt_memory : ∃ l, free_pages (pm (kernel s')) l ∧ 129000 ≤ zlen l;
  bt_tables : gdt (cpu (kernel s')) = Segments.gdt_init (gdt (cpu (kernel s))) ∧ idt s' = trap_gates vectors (idt s);
  bt_irqs : operating (chips (pic (rest (kernel s')))) ∧ ∀ i, i ∈ [I_IRQ_TIMER; I_IRQ_KBD; I_IRQ_COM1; I_IRQ_IDE] →
    irq_vector (chips (pic (rest (kernel s')))) i = Some (MAP_IRQ i);
  bt_serial : ∀ com, com ∈ [COM1; COM2] → line_of com (serial (rest (kernel s'))) = line_ready;
  bt_keyboard : let c := ctl (kport (kbd (rest (kernel s')))) in
    Z.testbit (ccb c) CCB_P1_INT = true ∧ Z.testbit (ccb c) CCB_P1_TRA = true ∧ awaits c = false;
  bt_console : console_fresh (con (rest (kernel s')));
  bt_locks : (∀ l, l ∈ [line_lk; raw_lk; ftable_lk; disk_lk; icache_lk; ptable_lk] → locks (lk (kernel s')) !! l = Some new_lock) ∧
    iflag (lk (kernel s')) = false ∧ ncli (lk (kernel s')) = 0;
  bt_screen : banner_shown (screen (con (rest (kernel s)))) (screen (con (rest (kernel s'))));
  bt_disk : on_disk (BS := bcache_store (patience := patience)) im (blk (ino (files (rest (kernel s')))));
  bt_inv : ∃ k, scheduler_init (kernel s') = Ok tt k ∧ inv (mkSys k CIdle ∅);
}.

(** The memory and the tables, from [palloc_init] to [palloc_init] *)
Lemma memory_ok (s : Machine T) (rest_of : M (Machine T) unit) (Q : unit → Machine T → Prop) : freelist (pm (kernel s)) = 0 →
  (∀ a, kend ≤ a < KERN_BASE + PHYSTOP → is_Some (ram (pm (kernel s)) !! a)) → kend ≤ ptend - 138 * 4096 →
  (∀ c d m pts l, gdt c = Segments.gdt_init (gdt (cpu (kernel s))) → cr3 c = KA2P d → user_space m d pts l [] → kernel_maps (ram m) d →
     130048 ≤ zlen l → (∀ a, a < kend → ram m !! a = ram (pm (kernel s)) !! a) →
     let k := kernel s in
     wp rest_of (mkMachine (mkKState (lk k) c (cur k) (ptab k) (nextpid k) (proc_init1 k) d m (ftab k) (rest k)) (idt s)) Q) →
  wp (do! with_kernel (with_pm (palloc_init kend ptend)) in do! with_kernel kvm_init in do! with_kernel cpu_gdt_init in
      do! with_kernel (with_pm (palloc_init ptend phystop)) in rest_of) s Q.
Proof.
  destruct s as [[L c cu tb np p1 kd m f t] it]. cbn [kernel pm cpu idt lk cur ptab nextpid proc_init1 ftab rest]. intros Hfl Hm Hk HQ.
  destruct (first_pages m Hfl Hm Hk) as (m1 & l1 & Hrun1 & Hf1 & Hl1 & Hlow1 & Hs1).
  rewrite wp_bind. apply wp_with_kernel, wp_pm. eapply wp_ok; [exact Hrun1|]. cbn [kernel put_pm lk cpu cur ptab nextpid proc_init1 kernel_pgdir pm ftab rest idt].
  rewrite wp_bind. apply wp_with_kernel. unfold kvm_init. rewrite wp_bind. apply wp_pm. cbn [kernel pm].
  eapply wp_mono; [by apply (kvm_create_ok m1 l1)|]. intros d m2 (pts & l2 & [Hus2 Hdat2 Hpgs2 Hmap2 Hcnt2] & Hkm2).
  rewrite wp_bind. unfold set_kernel_pgdir. rewrite wp_modify. unfold kvm_switch, set_cpu. rewrite wp_bind, wp_gets, wp_bind, wp_gets, wp_modify.
  cbn [put_pm lk cpu cur ptab nextpid proc_init1 kernel_pgdir pm ftab rest kernel idt].
  rewrite wp_bind. apply wp_with_kernel. unfold cpu_gdt_init, set_cpu. rewrite wp_bind, wp_gets, wp_modify.
  cbn [put_pm lk cpu cur ptab nextpid proc_init1 kernel_pgdir pm ftab rest kernel idt gdt ts_ss0 ts_esp0 tr cr3].
  pose proof (fp_ok _ _ Hf1) as Hok1.
  assert (∀ a, a < kend ∨ ptend ≤ a → ram m2 !! a = ram m !! a) as Hs2.
  { intros a Ha. rewrite <- (Hs1 a Ha). destruct Ha as [Ha|Ha]; [by apply (below_image l1)|].
    apply (Hdat2 (4096 * (a / 4096))).
    - unfold page_aligned. by rewrite Z.mul_comm, Z.mod_mul.
    - intros Hin. pose proof (Hlow1 _ Hin) as Hlt. change ptend with 0x80400000 in *. clear - Ha Hlt. Z.div_mod_to_equations. lia.
    - clear. Z.div_mod_to_equations. lia. }
  rewrite wp_bind. apply wp_with_kernel, wp_pm. cbn [kernel pm].
  destruct (other_pages m2 d pts l2 Hus2 Hkm2) as (m3 & l3 & Hrun3 & Hus3 & Hkm3 & Hl3 & Hs3).
  - intros q Hq. apply Hlow1, Hpgs2. destruct Hq; [by left|by right; left].
  - intros a Ha. rewrite Hs2 by lia. apply Hm. lia.
  - lia.
  - eapply wp_ok; [exact Hrun3|]. cbn [put_pm lk cpu cur ptab nextpid proc_init1 kernel_pgdir pm ftab rest kernel idt].
    apply (HQ _ d m3 pts l3); try done. intros a Ha. rewrite Hs3 by lia. apply Hs2. by left.
Qed.

(** The last steps, from [ptable_init] on: the process 1 is made from the pages
    [l], and the kernel's directory [d0] stays. *)
Lemma init_ok (s : KState T) n code l d0 pts0 : few n (lk s) → (n < 100)%nat → calm (lk s) → iflag (lk s) = false →
  length (ptab s) = 64%nat → Forall (λ p, pstate p = PROC_UNUSED ∧ parent p = NULL) (ptab s) → nextpid s = 1 →
  user_space (pm s) d0 pts0 l [] → kernel_maps (ram (pm s)) d0 → 130048 ≤ zlen l →
  array (ram (pm s)) init1_begin code → Forall is_byte code → zlen code = init1_size → init1_size ≤ 4096 → init1_begin + init1_size ≤ kend →
  wp (do! ptable_init in init_pid1) s (λ _ s', cpu s' = cpu s ∧ kernel_pgdir s' = kernel_pgdir s ∧ rest s' = rest s ∧ lk s' = new_at ptable_lk (lk s) ∧
    (∃ z, init_ready (mkMachine s' []) code z) ∧ kernel_maps (ram (pm s')) d0 ∧ (∃ l', free_pages (pm s') l' ∧ 129000 ≤ zlen l') ∧
    ∃ k, scheduler_init s' = Ok tt k ∧ inv (mkSys k CIdle ∅)).
Proof.
  intros Hfew Hn Hc Hfl Hlen Hun Hnp Hus Hkm Hl Harr Hby Hz1 Hz2 Hz3. rewrite wp_bind. unfold ptable_init. apply wp_lk. unfold set_lock. rewrite wp_modify.
  change (mkLState _ _ _ _) with (new_at ptable_lk (lk s)). set (s1 := mkKState _ _ _ _ _ _ _ _ _ _).
  destruct (lookup_lt_is_Some_2 (ptab s) 1%nat) as [y Hy]; [lia|]. destruct (Forall_lookup_1 _ _ _ _ Hun Hy) as [Hyu _].
  destruct l as [|k l]; [done|]. pose proof (us_inv _ _ _ _ _ Hus) as [Hf Hw Hsep].
  assert (130047 ≤ zlen l) as Hl' by (unfold zlen in *; cbn [length] in Hl; lia). clear Hl.
  assert (can_allocate s1 1 y k l) as Hca.
  { split; cbn [s1 lk nextpid ptab pm]; [by apply new_at_calm|unfold avail; apply lookup_insert_eq|rewrite Hnp; done| |done].
    split; [done|]. split; [done|]. split; [lia|]. intros j z Hj. lia. }
  pose proof (init_pid1_ok s1 1 y k l code Hca ltac:(unfold zlen in Hl'; lia) Harr Hz1 Hz2 Hby Hz3) as Hw1.
  apply wp_run in Hw1 as ([] & s2 & Hrun & d & nm & m & Hs2 & Hnm & [Hmem Hkern Hframe Hret Hother (pts & l2 & pg & Hus2 & Hcnt & Hpgs)]).
  eapply wp_ok; [exact Hrun|]. rewrite Hs2 at 1 2 3 4. split; [done|]. split; [done|]. split; [done|]. split; [done|].
  destruct (space_kept (pm s) d0 pts0 (k :: l) [] m l2 Hus) as (_ & Hkm0 & _); [apply Hus2| |].
  { intros q [Hq|Hq%not_elem_of_nil]; [|done]. destruct (table_page_ok _ _ _ _ Hw Hq) as [(Hqa & _) _].
    assert (q ∉ k :: l) as Hqn by (intros Hin; by apply (Hsep q)). split; [|by apply Hother].
    intros Hin. apply Hqn, elem_tail, Hpgs. by left. }
  split; [|split; [rewrite Hs2; by apply Hkm0|split]].
  - eexists. split; cbn [kernel]; rewrite ?Hs2; cbn [ptab proc_init1 s1 nextpid pm].
    + split; [|done]. apply list_lookup_insert_eq. lia.
    + done.
    + exact Hmem.
    + exact Hkern.
    + exact Hframe.
    + exact Hret.
  - exists l2. rewrite Hs2. split; [apply Hus2|]. pose proof (tables_bound _ _ _ (vi_dir _ _ _ _ (us_inv _ _ _ _ _ Hus2))) as Hb. unfold NPDES in Hb.
    unfold zlen in *. lia.
  - assert (fresh_kernel s1) as Hfresh by (split; [by apply (new_at_few n)|done|done|done]).
    set (s3 := mkKState (lk s2) (cpu s2) NULL (ptab s2) (nextpid s2) (proc_init1 s2) (kernel_pgdir s2) (pm s2) (ftab s2) (rest s2)).
    assert (scheduler_init s2 = Ok tt s3) as Hsched.
    { subst s2. unfold scheduler_init, with_lk, zoom, this_cpu, bind, gets, set_cur, modify. cbn [lk s1 new_at iflag]. by rewrite Hfl. }
    exists s3. split; [done|]. apply (boot_inv s1); [done|]. unfold bind. by rewrite Hrun.
Qed.

(** ** Theorems *)

End boot.

(** ** Witness *)

#[local] Existing Instance demo_layout.
#[local] Existing Instance demo_console.
#[local] Existing Instance demo_fs_locks.
#[local] Existing Instance chip_ports.
#[local] Existing Instance chip_pics.

(** The code of the process 1 is in the middle of the kernel's page. *)
#[local] Instance boot_text : KernelText := {|
  trapret := 0x80100100; forkret_addr := 0x80100200; cpu_ts := 0x80100300;
  init1_begin := 0x80100800; init1_size := 4; ptable_lk := 100 |}.

(** Two 16550s that are nothing but their registers *)
Definition on_com (com : Z) (p : Z) : bool := (com <=? p) && (p <? com + 8).

#[local] Instance line_ports : Ports (Line * Line) := {|
  inb := λ p, gets (λ d, rx (if on_com COM1 p then d.1 else d.2));
  outb := λ p v, modify (λ d,
    if on_com COM1 p then (line_write (p - COM1) v d.1, d.2) else
    if on_com COM2 p then (d.1, line_write (p - COM2) v d.2) else d);
  insl := λ _ _, ret [];
  outsl := λ _ _, done!;
  irq := ret false;
|}.

#[local] Instance line_lines : Lines (Line * Line).
Proof.
  refine {| line_of := λ com d, if com =? COM1 then d.1 else d.2 |}.
  - intros d com r v Hc Hr. cbn [outb line_ports]. rewrite wp_modify. intros c Hcc. unfold on_com, COM1, COM2 in *.
    assert ((1016 + r - 1016 = r) ∧ (760 + r - 760 = r)) as [E1 E2] by lia.
    apply elem_of_cons in Hc as [->|[->|[]%not_elem_of_nil]%elem_of_cons].
    + rewrite (proj2 (Z.leb_le _ _)), (proj2 (Z.ltb_lt _ _)) by lia. cbn [andb]. rewrite E1.
      by apply elem_of_cons in Hcc as [->|[->|[]%not_elem_of_nil]%elem_of_cons].
    + rewrite (proj2 (Z.leb_gt 1016 _)) by lia. cbn [andb]. rewrite (proj2 (Z.leb_le _ _)), (proj2 (Z.ltb_lt _ _)) by lia. cbn [andb]. rewrite E2.
      by apply elem_of_cons in Hcc as [->|[->|[]%not_elem_of_nil]%elem_of_cons].
  - intros d com Hc _ _. cbn [inb line_ports]. rewrite wp_gets. split; [|done].
    by apply elem_of_cons in Hc as [->|[->|[]%not_elem_of_nil]%elem_of_cons].
Defined.

(** A controller that is nothing but its configuration *)
#[local] Instance ctl_ports : Ports Ctl := {|
  inb := λ _, ret 0;
  outb := λ p v, modify (ctl_write p v);
  insl := λ _ _, ret [];
  outsl := λ _ _, done!;
  irq := ret false;
|}.

#[local] Instance ctl_controller : Controller Ctl.
Proof. refine {| ctl := id |}; intros; [by left|done]. Defined.

(** [jmp .], twice *)
Definition boot_code : list Z := [0xeb; 0xfe; 0xeb; 0xfe].

Definition boot_ram (n : nat) : mem := write 0x80101000 (replicate n 0) (write 0x80100800 boot_code ∅).

Definition boot_con : Con (Line * Line) :=
  mkCon CONSOLE_COOKED_MODE (mkLineBuffer (replicate 1024 0) 0 0 STATE_NORMAL 0) (mkRawBuffer (replicate 32 0) 0 0)
    (mkUart (mkUArtBuffer (replicate 256 0) 0 0) (mkUArtBuffer (replicate 256 0) 0 0) (mkLine 0 0 0, mkLine 0 0 0))
    (mkScreen 0 0 0 (replicate 16384 0) 0).

Definition boot_text_ram : mem := write 100 (banner ++ [0]) ∅.

Definition boot_world : World SimDrive (Line * Line) Ctl (Chip * Chip) :=
  mkWorld (mkDState (ino (rest boot_kernel).1.1) boot_text_ram) ∅ boot_con (mkKbd 0 (replicate 256 0) 0 0 (mkCtl 0 false)) demo_chips 0.

Definition boot_table : list Process := replicate 64 (mkProcess 0 0 0 0 NULL PROC_UNUSED 0 0 NULL false [] (replicate 16 0)).

Definition boot_machine (n : nat) : Machine (World SimDrive (Line * Line) Ctl (Chip * Chip)) :=
  mkMachine (mkKState (mkLState false 0 false ∅) (mkCpu (replicate 6 0) 0 0 0 0) 0 boot_table 1 0 0 (mkPmem (boot_ram n) 0) [] boot_world) [].

Lemma boot_powered n : n = Z.to_nat 0x1FEFF000 → powered (patience := 3) 100 (boot_machine n) boot_code demo_image.
Proof.
  intros ->. split; cbn [boot_machine kernel lk ptab nextpid pm freelist rest boot_world con pic files].
  - done.
  - intros a Ha. cbn [ram boot_ram]. unfold boot_ram. rewrite lookup_write. unfold zlen. rewrite length_replicate, Z2Nat.id by lia.
    change kend with 0x80101000 in Ha. unfold KERN_BASE, PHYSTOP in Ha. rewrite decide_True by lia. apply lookup_lt_is_Some.
    rewrite length_replicate. lia.
  - done.
  - split; [|by repeat apply Forall_cons_2]. cbn [ram]. unfold boot_ram. apply array_write_disjoint; [|apply array_write]. left.
    change (zlen boot_code) with 4. cbn. lia.
  - done.
  - done.
  - split; [done|]. by apply Forall_replicate.
  - done.
  - split; [|done]. split; [apply array_write|]. by repeat apply Forall_cons_2.
  - by split.
  - destruct boot_kernel_unbooted as [U1 U2 U3 U4 U5 U6 U7]. by split.
Qed.

